(* ===== verification/_CoqProject ===== *)
-Q . S2P
Prelude.v
Layout.v
Types.v
Protocol.v
PacketBuffer.v
StreamLoop.v
ConnectionState.v
Reconnect.v
LdnStateMachine.v
BsdTypes.v
Ring.v
PortPool.v
ProxyLink.v
ProxySocket.v
ProxySocketManager.v
NodeMapper.v
ProxyBuffer.v
Config.v
GameWhitelist.v
ConfigManager.v
Socket.v
ITcpClient.v
TcpClient.v
TcpSender.v
RyuLdnClient.v
ClientStream.v
P2pServer.v
P2pOwnership.v
P2pRouting.v
P2pClient.v
P2pLink.v
Imperative.v
LdnTypes.v
SharedState.v
LdnService.v
LdnOperations.v
LdnExample.v
LdnNetwork.v
LdnLifetime.v
LdnCalls.v
LdnInvariant.v
PacketDispatcher.v
SessionHandler.v
ProxyHandler.v
BsdService.v
BsdForward.v
BsdListen.v
BsdProxy.v
ConfigService.v
Dns.v
DnsWire.v
UpnpPortMapper.v
LdnMitm.v
