(* ===== verification/Prelude.v ===== *)
(** * ryu_ldn_nx: a verification development

    ryu_ldn_nx is a console system module that intercepts the local wireless
    service ([ldn:u]) and the BSD sockets ([bsd:u]) of games and carries their
    traffic over TCP to an LDN server.  This library models the parts of the
    sysmodule (src/sysmodule/source) that hold its logic and proves what makes
    them correct.  Names of files below are relative to that directory.

    ** Layers and their correspondence to the code

    - Prelude.v: machine words with their wrap-around, bytes, lists indexed by
      [Z], the tactics and hints of the development.
    - Layout.v: packed structures as byte layouts; [HasLayout] gives a structure
      its layout and [LayoutLaws] the laws a [memcpy] in and out satisfies.
      The codec is proved against that class, the structures discharge it.
    - Types.v: protocol/types.hpp, every wire structure, the packet ids and the
      static assertions on sizes.
    - Protocol.v: protocol/ryu_protocol.hpp, the encoders and decoders.
    - PacketBuffer.v: protocol/packet_buffer.hpp, the reassembly buffer of the
      TCP stream, with the loop its clients run over it.
    - StreamLoop.v: the two nested receive loops of the peer-to-peer classes
      ([ReceiveLoop] of a session and of the client), over the state of either.
    - ConnectionState.v: network/connection_state.{hpp,cpp}, the connection
      state machine, its callback and retry counter.
    - Reconnect.v: network/reconnect.{hpp,cpp}, exponential backoff and jitter.
    - LdnStateMachine.v: ldn/ldn_state_machine.{hpp,cpp}, the states a game
      drives the wireless service through.
    - NodeMapper.v: ldn/ldn_node_mapper.{hpp,cpp}, node ids and proxy routing.
    - PacketDispatcher.v: ldn/ldn_packet_dispatcher.{hpp,cpp}, from the type of
      a packet to the registered handler; SessionHandler.v and ProxyHandler.v:
      ldn/ldn_session_handler.{hpp,cpp} and ldn/ldn_proxy_handler.{hpp,cpp}, the
      session and the table of tunneled connections the packets change.
    - ProxyBuffer.v: ldn/ldn_proxy_buffer.{hpp,cpp}, the queue of proxy packets.
    - BsdTypes.v: bsd/bsd_types.hpp, socket addresses, errno values, options.
    - Ring.v: the in-place rings of bsd/proxy_socket.cpp (received packets) and
      bsd/proxy_socket_manager.cpp (early packets), once for both.
    - PortPool.v: bsd/ephemeral_port_pool.{hpp,cpp}.
    - ProxyLink.v: the mutex of the socket manager and its callbacks to the
      server ([SendProxyData], [SendProxyConnect] and so on).
    - ProxySocket.v: bsd/proxy_socket.{hpp,cpp}, one emulated socket.
    - ProxySocketManager.v: bsd/proxy_socket_manager.{hpp,cpp}, the registry of
      sockets, routing, early packets, ports.
    - Config.v: config/config.{hpp,cpp}, the configuration file.
    - GameWhitelist.v: config/game_whitelist.{hpp,cpp}.
    - ConfigManager.v: config/config_manager.{hpp,cpp}, the live settings.
    - ConfigService.v: config/config_ipc_service.{hpp,cpp}, the commands of the
      overlay over the settings in effect, the file and SharedState.v.
    - Dns.v: network/dns_wrap.cpp, the resolver; DnsWire.v: DNS messages as
      records, and the theorems.
    - Socket.v: network/socket.{hpp,cpp} over scripted answers of the system.
    - ITcpClient.v: network/itcp_client.hpp, the interface between the next
      two, as a class of operations and a class of the laws its clients use.
    - TcpClient.v: network/tcp_client.{hpp,cpp}, framing over a socket, and the
      instance of the interface.
    - TcpSender.v: its sender thread, interleaved with the calls of the others.
    - RyuLdnClient.v: network/client.{hpp,cpp}, over any [ITcpClient];
      ClientStream.v: over TcpClient.v, from the bytes of the connection to the
      callbacks.
    - P2pServer.v: p2p/p2p_proxy_server.{hpp,cpp}, with its sessions on a heap;
      P2pOwnership.v: who owns a session; P2pRouting.v: authentication, routing
      and the stream of a session.
    - P2pClient.v: p2p/p2p_proxy_client.{hpp,cpp}; P2pLink.v: the client and the
      server at the two ends of a connection.
    - UpnpPortMapper.v: p2p/upnp_port_mapper.{hpp,cpp}, the mapping of a port on
      the router, and the thread of the server that renews it.
    - Imperative.v: assignments to record fields, and the state monad the next
      files are written in, with the rules for its postconditions.
    - LdnTypes.v: ldn/ldn_types.hpp, the structures of the intercepted service.
    - SharedState.v: ldn/ldn_shared_state.{hpp,cpp} and
      ldn/ldn_network_timeout.{hpp,cpp}.
    - LdnService.v, LdnOperations.v: ldn/ldn_icommunication.{hpp,cpp}, the object
      behind a game's session.  It drives the client, the state machine, the
      sockets and the peer-to-peer classes above; LdnService.v holds its state,
      the connection, the proxies and the packet handlers, LdnOperations.v the
      calls of the game, the receive thread, construction and destruction.
      LdnExample.v is a service over a scripted TCP client, for the witnesses;
      LdnNetwork.v, LdnLifetime.v, LdnCalls.v and LdnInvariant.v hold the
      theorems.
    - BsdService.v: bsd/bsd_mitm_service.{hpp,cpp} and
      bsd/interfaces/ibsd_mitm_service.hpp, the commands of a game's socket
      session, answered by a proxy socket of the manager or by the system's
      [bsd:u].  BsdForward.v: the calls that are passed on; BsdListen.v: runs of
      all consoles' commands and packets; BsdProxy.v: sockets of the LDN network
      from the command of one game to that of another.
    - LdnMitm.v: ldn/ldn_mitm_service.{hpp,cpp}; which sessions of the two
      services are intercepted.

    A class is a Record of its fields, a method a function from the old to the
    new state with the method's name; an out parameter is part of the result.
    What a method does to the outside (signals, callbacks, file system calls)
    is a counter or a log in the state or in the result.  A mutex that only
    makes a method atomic is not modelled; the one of the socket manager is,
    because the sockets call back into the manager.

    ** What the theorems show

    - The codec: encoding and decoding are inverse for every wire structure and
      with extra data, [decode_header] accepts exactly the valid headers, and
      two places where the size checks are not the ones of the packet.
    - Reassembly: however a stream of packets is cut into chunks the buffer
      returns exactly those packets; no byte is lost or duplicated by the loop,
      and the resynchronisation loop ends at the first valid header.
    - State machines: both refine a declarative diagram (a relation), with the
      callbacks, counters and recoverability as consequences over all runs.
    - Backoff: bounded, monotone and reaching the cap, for the configurations the
      theorems name; the jittered wait within its percentage and the cap.
    - Sockets: the receive ring refines a queue of datagrams that drops the
      oldest; blocking calls return exactly when something wakes them; the
      errno of every refused send.
    - The manager: routing is right for every iteration order of the hash map;
      early packets are delivered once, in order, unless stale; closing cleans
      up; the cases in which a call never returns because the thread holds the
      mutex already.
    - Ports, node map, proxy buffer: functional specifications, and the inputs
      outside which they hold (an id outside the node array, a wrapped buffer).
    - Configuration: what is saved is read back; the manager is thirteen
      registers, with what is unsaved and what the callback was told; the
      whitelist accepts exactly the listed ids, whatever the case of their
      digits and however the file is read.  The overlay sees ten independent
      registers with a saved copy.
    - DNS: the query is the message of one question; from every well-formed
      answer exactly its addresses are taken; no answer makes the parser read
      outside its bytes, and no failure leaks memory.
    - Packet handlers: the dispatcher hands a handler exactly the message the
      bytes carry; the session's state and reports, and the table of tunneled
      connections, are functions of the history of packets.
    - Sockets of the system: [send_all] puts exactly its bytes on the wire when
      it succeeds, and can tear a packet when it does not.
    - TCP client: however the stream arrives, receiving gives the packets in
      order; each direct send writes one packet.  The sender thread and direct
      sends together refine a FIFO pipe, as long as no direct send and no
      overflow meets a packet that is half sent; what happens otherwise is
      proved too.
    - RyuLdn client: the handshake completes or is refused as the protocol
      says; one drain hands on what the connection carries and answers the pings,
      in order, and says how it ended; a client whose handshake is over never gets
      through again by itself, and a server's [Disconnect] blocks the next
      connection.
    - Peer-to-peer server: every session has one owner and no deleted one is
      used, until the reaper deletes disconnected sessions a second time (proved
      too); authentication is by the token, and mixes up
      addresses when several wait; packets go to exactly the right players.
    - Peer-to-peer client: its stream reaches the game exactly, however it is
      cut; what it does after an overflow and after a lost connection.  Joined to
      the server: an authentication and proxy data from end to end, for every
      way the bytes are cut on both connections.

    - The communication service: joining a network does what the server answers,
      in whatever order the packets arrive; a scan and the reports on the nodes
      give the game exactly what the server sent; no run of the
      service, interleaved with steps of the other threads, uses an array outside
      its bounds ([bad_access] of the world notes such a use); a lost connection is reported, a [Disconnect] packet is
      not; and what the old response, an old object, a connected stream socket
      and an exhausted pool of stacks do.
    - The port mapper: a lease of the server's port never runs out before it is
      renewed, unless the router refuses, or the thread's sleeps and the router's
      answers together are late.
    - Interception: which socket sessions are, over all processes and any order
      of their sessions.
    - The socket commands: a game outside the LDN network talks to the real
      service as if nothing were between them, through all 34 commands; a
      datagram that one game sends is what the other receives, with its address;
      no proxy socket ever listens; a connected stream socket cannot be closed,
      and a refused [Bind] leaves a socket behind.

    ** Bounds, fuel and parameters

    [discard_until_valid] and the drain loop run with the number of buffered
    bytes as fuel; each iteration consumes at least one byte, and the theorems
    state that the loops return.  A result [None] is either undefined behaviour
    (division by zero, an index outside an array) or a call that does not
    return (a mutex locked twice, an event nobody signals); each file says
    which.  The steps other threads take during a blocking call are an argument
    of the call.  The server's callbacks and the iteration order of the hash
    map are parameters; the theorems hold for all of them (the order only has
    to enumerate the map).  The clock and the random seed are arguments, and so
    are the answers of the file system in Config.v.  What the kernel answers to
    the calls on a socket is a finite script in the state; when it has run out
    nothing more arrives and nothing more is taken.  The loops over a socket
    have the length of the script as fuel, of which each round uses up some.
    The callbacks of [RyuLdnClient] are recorded and do not call back.  What the
    system answers to the peer-to-peer classes of a communication service is its
    parameter [Environment]; whether a wait on several events resets the one it
    reports is the parameter [auto_clear].  What the real socket service answers
    is the parameter [real] of BsdService.v, a function of all requests so far.
    The constants of netdb.h, [inet_pton], [inet_ntop] and the allocator are
    parameters of Dns.v, and the answers of the router one of UpnpPortMapper.v.

    ** Not modelled

    The socket commands run one at a time, each with the steps that other
    threads take while it waits on a proxy socket.  In the communication service
    other threads run only where a call waits, and the packets of one update of
    the client are handled behind it.  Left out are the join of the sender
    thread, move operations, logging, the start-up in main.cpp, the IPC
    marshalling and the overlay, as calls to the operating system or to
    libraries; ldn/ldn_config_service.cpp, which nothing constructs; and the
    build variants for the host tests. *)

From stdpp Require Import base numbers list gmap.
From Stdlib Require Import ZArith Lia Bool.

(** Small arithmetic contexts close with [lia] after the usual boolean
    comparisons have been turned into propositions. *)
Create HintDb ldn discriminated.
#[export] Hint Constants Opaque : ldn.
#[export] Hint Variables Opaque : ldn.
Create Rewrite HintDb ldn_len.

Declare Scope ldn_scope.
Delimit Scope ldn_scope with ldn.
Open Scope ldn_scope.
Open Scope Z_scope.

(** ** Machine words *)

(** [wrap w z] is [z] stored in an unsigned integer of [w] bits. *)
Definition wrap (w z : Z) : Z := z mod 2 ^ w.

Definition u8 (z : Z) : Z := wrap 8 z.
Definition u16 (z : Z) : Z := wrap 16 z.
Definition u32 (z : Z) : Z := wrap 32 z.
Definition u64 (z : Z) : Z := wrap 64 z.

(** [signed w z] reads the [w] bit pattern of [z] as two's complement. *)
Definition signed (w z : Z) : Z :=
  let m := z mod 2 ^ w in if m <? 2 ^ (w - 1) then m else m - 2 ^ w.

Definition s8 (z : Z) : Z := signed 8 z.
Definition s32 (z : Z) : Z := signed 32 z.

(** [in_u w z]: [z] is a value of the unsigned type of [w] bits. *)
Definition in_u (w z : Z) : bool := (0 <=? z) && (z <? 2 ^ w).
Definition in_s (w z : Z) : bool := (- 2 ^ (w - 1) <=? z) && (z <? 2 ^ (w - 1)).

(** [__builtin_bswap16] and [__builtin_bswap32]. *)
Definition bswap16 (z : Z) : Z :=
  Z.lor (Z.shiftl (Z.land z 0xFF) 8) (Z.land (Z.shiftr z 8) 0xFF).

Definition bswap32 (z : Z) : Z :=
  Z.lor (Z.shiftl (Z.land z 0xFF) 24)
    (Z.lor (Z.shiftl (Z.land (Z.shiftr z 8) 0xFF) 16)
      (Z.lor (Z.shiftl (Z.land (Z.shiftr z 16) 0xFF) 8)
             (Z.land (Z.shiftr z 24) 0xFF))).

(** ** Bytes *)

(** A [uint8_t] buffer is a list of integers below 256. *)
Definition byte_ok (b : Z) : bool := (0 <=? b) && (b <? 256).
Definition bytes_ok (l : list Z) : bool := forallb byte_ok l.

Fixpoint le_split (n : nat) (z : Z) : list Z :=
  match n with
  | O => []
  | S n => z mod 256 :: le_split n (z / 256)
  end.

Fixpoint le_combine (l : list Z) : Z :=
  match l with
  | [] => 0
  | b :: l => b + 256 * le_combine l
  end.

(** ** Lists addressed by machine sizes *)

(** The length of a buffer as a [size_t]. *)
Definition zlen {A} (l : list A) : Z := Z.of_nat (length l).
Definition ztake {A} (n : Z) (l : list A) : list A := take (Z.to_nat n) l.
Definition zdrop {A} (n : Z) (l : list A) : list A := drop (Z.to_nat n) l.

(** [memcpy(buf + off, data, length data)]. *)
Definition write_at {A} (off : Z) (data buf : list A) : list A :=
  ztake off buf ++ data ++ zdrop (off + zlen data) buf.

(** The C string held by a [char] array: the bytes before the first NUL. *)
Fixpoint cstr (l : list Z) : list Z :=
  match l with
  | [] => []
  | c :: l => if c =? 0 then [] else c :: cstr l
  end.

(** ** Automation *)

(** Booleans that come from the code's guards become arithmetic facts. *)
Ltac zbool :=
  repeat match goal with
  | H : (_ && _)%bool = true |- _ => apply andb_true_iff in H; destruct H
  | H : (_ || _)%bool = false |- _ => apply orb_false_iff in H; destruct H
  | H : negb _ = true |- _ => apply negb_true_iff in H
  | H : negb _ = false |- _ => apply negb_false_iff in H
  | H : (_ <? _) = true |- _ => apply Z.ltb_lt in H
  | H : (_ <? _) = false |- _ => apply Z.ltb_ge in H
  | H : (_ <=? _) = true |- _ => apply Z.leb_le in H
  | H : (_ <=? _) = false |- _ => apply Z.leb_gt in H
  | H : (_ <=? _)%nat = true |- _ => apply Nat.leb_le in H
  | H : (_ <? _)%nat = true |- _ => apply Nat.ltb_lt in H
  | H : (_ =? _) = true |- _ => apply Z.eqb_eq in H
  | H : (_ =? _) = false |- _ => apply Z.eqb_neq in H
  end.

(** Case analysis on every boolean comparison in sight, then arithmetic. *)
Ltac zcases :=
  repeat match goal with
  | |- context [?a <? ?b] => destruct (Z.ltb_spec a b)
  | |- context [?a <=? ?b] => destruct (Z.leb_spec a b)
  | |- context [?a =? ?b] => destruct (Z.eqb_spec a b)
  end.

(** Split the guard of the first [if] or the scrutinee of the first [match]. *)
Ltac case_if :=
  match goal with
  | |- context [if ?b then _ else _] => destruct b eqn:?
  | H : context [if ?b then _ else _] |- _ => destruct b eqn:?
  end.

Ltac zlia := unfold in_u, in_s, zlen in *; zbool; lia.

(** ** Lemmas on words *)

Lemma wrap_range w z : 0 <= w -> 0 <= wrap w z < 2 ^ w.
Proof. intros. apply Z.mod_pos_bound. apply Z.pow_pos_nonneg; lia. Qed.

Lemma wrap_small w z : 0 <= z < 2 ^ w -> wrap w z = z.
Proof. apply Z.mod_small. Qed.

Lemma u32_range z : 0 <= u32 z < 4294967296.
Proof. exact (wrap_range 32 z ltac:(lia)). Qed.

Lemma u32_small z : 0 <= z < 4294967296 -> u32 z = z.
Proof. exact (wrap_small 32 z). Qed.

Lemma u16_range z : 0 <= u16 z < 65536.
Proof. exact (wrap_range 16 z ltac:(lia)). Qed.

Lemma u16_small z : 0 <= z < 65536 -> u16 z = z.
Proof. exact (wrap_small 16 z). Qed.

Lemma u64_range z : 0 <= u64 z < 18446744073709551616.
Proof. exact (wrap_range 64 z ltac:(lia)). Qed.

Lemma u64_small z : 0 <= z < 18446744073709551616 -> u64 z = z.
Proof. exact (wrap_small 64 z). Qed.

Lemma u8_range z : 0 <= u8 z < 256.
Proof. exact (wrap_range 8 z ltac:(lia)). Qed.

Lemma u8_small z : 0 <= z < 256 -> u8 z = z.
Proof. exact (wrap_small 8 z). Qed.

Lemma in_u_spec w z : in_u w z = true <-> 0 <= z < 2 ^ w.
Proof. unfold in_u. rewrite andb_true_iff, Z.leb_le, Z.ltb_lt. done. Qed.

Lemma in_s_spec w z : in_s w z = true <-> - 2 ^ (w - 1) <= z < 2 ^ (w - 1).
Proof. unfold in_s. rewrite andb_true_iff, Z.leb_le, Z.ltb_lt. done. Qed.

Lemma pow2_half w : 1 <= w -> 2 ^ w = 2 * 2 ^ (w - 1).
Proof. intros. rewrite <- Z.pow_succ_r by lia. f_equal. lia. Qed.

Lemma signed_in_s w z : 1 <= w -> in_s w (signed w z) = true.
Proof.
  intros Hw. apply in_s_spec. unfold signed. pose proof (pow2_half w Hw).
  pose proof (Z.mod_pos_bound z (2 ^ w) ltac:(apply Z.pow_pos_nonneg; lia)).
  zcases; lia.
Qed.

Lemma signed_of_s w z : 1 <= w -> in_s w z = true -> signed w (z mod 2 ^ w) = z.
Proof.
  intros Hw Hz%in_s_spec. unfold signed. pose proof (pow2_half w Hw).
  rewrite Z.mod_mod by lia. destruct (Z.ltb_spec z 0).
  - rewrite <- (Z.mod_add z 1) by lia. rewrite Z.mod_small by lia. zcases; lia.
  - rewrite Z.mod_small by lia. zcases; lia.
Qed.

Lemma signed_mod w z : 1 <= w -> signed w z mod 2 ^ w = z mod 2 ^ w.
Proof.
  intros Hw. unfold signed. pose proof (Z.pow_pos_nonneg 2 w ltac:(lia) ltac:(lia)).
  case_if; [by rewrite Z.mod_mod by lia|].
  replace (z mod 2 ^ w - 2 ^ w) with (z mod 2 ^ w + (-1) * 2 ^ w) by lia.
  rewrite Z.mod_add by lia. by rewrite Z.mod_mod by lia.
Qed.

(** ** Lemmas on bytes *)

Lemma s32_small n : 0 <= n < 2147483648 -> s32 n = n.
Proof.
  intros. unfold s32, signed. rewrite Z.mod_small by (cbn; lia).
  destruct (Z.ltb_spec n (2 ^ (32 - 1))); cbn in *; lia.
Qed.

(** A byte shifted above a value that fits below it: a sum. *)
Lemma lor_shiftl a b n :
  0 <= n -> 0 <= b < 2 ^ n -> Z.lor (Z.shiftl a n) b = a * 2 ^ n + b.
Proof.
  intros Hn Hb. rewrite <- Z.shiftl_mul_pow2 by done.
  assert (Z.land (Z.shiftl a n) b = 0) as Hd.
  { apply Z.bits_inj'. intros i Hi. rewrite Z.land_spec, Z.bits_0.
    destruct (Z.lt_ge_cases i n).
    - by rewrite Z.shiftl_spec_low.
    - rewrite <- (Z.mod_small b (2 ^ n)) by lia.
      rewrite Z.mod_pow2_bits_high by lia. apply andb_false_r. }
  rewrite Z.add_nocarry_lxor by done. symmetry. by apply Z.lxor_lor.
Qed.

Lemma byte_ok_spec b : byte_ok b = true <-> 0 <= b < 256.
Proof. unfold byte_ok. rewrite andb_true_iff, Z.leb_le, Z.ltb_lt. done. Qed.

Lemma bytes_ok_app l k : bytes_ok (l ++ k) = bytes_ok l && bytes_ok k.
Proof. apply forallb_app. Qed.

Lemma bytes_ok_cons b l : bytes_ok (b :: l) = byte_ok b && bytes_ok l.
Proof. done. Qed.

Lemma bytes_ok_take n l : bytes_ok l = true -> bytes_ok (take n l) = true.
Proof.
  rewrite <- (take_drop n l) at 1. rewrite bytes_ok_app. by intros [? _]%andb_true_iff.
Qed.

Lemma bytes_ok_drop n l : bytes_ok l = true -> bytes_ok (drop n l) = true.
Proof.
  rewrite <- (take_drop n l) at 1. rewrite bytes_ok_app. by intros [_ ?]%andb_true_iff.
Qed.

Lemma length_le_split n z : length (le_split n z) = n.
Proof. revert z. induction n; intros; simpl; auto. Qed.

Lemma bytes_ok_le_split n z : bytes_ok (le_split n z) = true.
Proof.
  revert z. induction n; intros; simpl; [done|]. apply andb_true_iff. split; [|done].
  apply byte_ok_spec. apply Z.mod_pos_bound. lia.
Qed.

Lemma pow256_succ n : 256 ^ Z.of_nat (S n) = 256 * 256 ^ Z.of_nat n.
Proof. rewrite Nat2Z.inj_succ, Z.pow_succ_r; lia. Qed.

Lemma pow256_pos n : 0 < 256 ^ Z.of_nat n.
Proof. apply Z.pow_pos_nonneg; lia. Qed.

Lemma le_combine_split n z : le_combine (le_split n z) = z mod 256 ^ Z.of_nat n.
Proof.
  revert z. induction n as [|n IH]; intros; [by rewrite Z.mod_1_r|].
  cbn [le_split le_combine]. rewrite IH, pow256_succ.
  pose proof (pow256_pos n). rewrite Z.rem_mul_r by lia. lia.
Qed.

Lemma le_combine_range l :
  bytes_ok l = true -> 0 <= le_combine l < 256 ^ Z.of_nat (length l).
Proof.
  induction l as [|b l IH]; [done|]. rewrite bytes_ok_cons.
  intros [Hb%byte_ok_spec Hl]%andb_true_iff. specialize (IH Hl).
  cbn [le_combine length]. rewrite pow256_succ. lia.
Qed.

Lemma le_split_combine l : bytes_ok l = true -> le_split (length l) (le_combine l) = l.
Proof.
  induction l as [|b l IH]; [done|]. rewrite bytes_ok_cons.
  intros [Hb%byte_ok_spec Hl]%andb_true_iff. cbn [le_split le_combine length].
  rewrite (Z.add_comm b), Z.mul_comm. f_equal.
  - rewrite Z.add_comm, Z.mod_add by lia. apply Z.mod_small. lia.
  - rewrite Z.div_add_l, (Z.div_small b), Z.add_0_r by lia. auto.
Qed.

(** ** Lemmas on sized lists *)

Lemma zlen_nonneg {A} (l : list A) : 0 <= zlen l.
Proof. unfold zlen. lia. Qed.

Lemma zlen_app {A} (l k : list A) : zlen (l ++ k) = zlen l + zlen k.
Proof. unfold zlen. rewrite length_app. lia. Qed.

Lemma zlen_cons {A} (x : A) (l : list A) : zlen (x :: l) = 1 + zlen l.
Proof. unfold zlen. simpl. lia. Qed.

Lemma zlen_ztake {A} n (l : list A) : 0 <= n <= zlen l -> zlen (ztake n l) = n.
Proof. unfold zlen, ztake. intros. rewrite length_take. lia. Qed.

Lemma zlen_zdrop {A} n (l : list A) : 0 <= n <= zlen l -> zlen (zdrop n l) = zlen l - n.
Proof. unfold zlen, zdrop. intros. rewrite length_drop. lia. Qed.

Lemma ztake_zdrop {A} n (l : list A) : ztake n l ++ zdrop n l = l.
Proof. apply take_drop. Qed.

Lemma ztake_all {A} n (l : list A) : zlen l <= n -> ztake n l = l.
Proof. unfold zlen, ztake. intros. apply take_ge. lia. Qed.

Lemma zdrop_all {A} n (l : list A) : zlen l <= n -> zdrop n l = [].
Proof. unfold zlen, zdrop. intros. apply drop_ge. lia. Qed.

Lemma ztake_0 {A} (l : list A) : ztake 0 l = [].
Proof. done. Qed.

Lemma zdrop_0 {A} (l : list A) : zdrop 0 l = l.
Proof. done. Qed.

Lemma ztake_app {A} (l k : list A) n : n = zlen l -> ztake n (l ++ k) = l.
Proof. intros ->. unfold ztake, zlen. rewrite Nat2Z.id. apply take_app_length. Qed.

Lemma zdrop_app {A} (l k : list A) n : n = zlen l -> zdrop n (l ++ k) = k.
Proof. intros ->. unfold zdrop, zlen. rewrite Nat2Z.id. apply drop_app_length. Qed.

Lemma ztake_app_le {A} (l k : list A) n : n <= zlen l -> ztake n (l ++ k) = ztake n l.
Proof. unfold ztake, zlen. intros. apply take_app_le. lia. Qed.

Lemma zdrop_app_le {A} (l k : list A) n :
  n <= zlen l -> zdrop n (l ++ k) = zdrop n l ++ k.
Proof. unfold zdrop, zlen. intros. apply drop_app_le. lia. Qed.

Lemma ztake_ztake {A} n m (l : list A) : n <= m -> ztake n (ztake m l) = ztake n l.
Proof. unfold ztake. intros. rewrite take_take. f_equal. lia. Qed.

Lemma zdrop_zdrop {A} n m (l : list A) :
  0 <= n -> 0 <= m -> zdrop n (zdrop m l) = zdrop (m + n) l.
Proof. unfold zdrop. intros. rewrite drop_drop. f_equal. lia. Qed.

Lemma ztake_zdrop_comm {A} n m (l : list A) :
  0 <= n -> 0 <= m -> ztake n (zdrop m l) = zdrop m (ztake (m + n) l).
Proof.
  unfold ztake, zdrop. intros. rewrite skipn_firstn_comm. f_equal. lia.
Qed.

Lemma zlen_write_at {A} off (data buf : list A) :
  0 <= off -> off + zlen data <= zlen buf -> zlen (write_at off data buf) = zlen buf.
Proof.
  intros. pose proof (zlen_nonneg data). unfold write_at.
  rewrite !zlen_app, zlen_ztake, zlen_zdrop by lia. lia.
Qed.

(** What is in front of, inside and behind a written region. *)
Lemma ztake_write_at {A} off (data buf : list A) :
  0 <= off -> off + zlen data <= zlen buf ->
  ztake (off + zlen data) (write_at off data buf) = ztake off buf ++ data.
Proof.
  intros. pose proof (zlen_nonneg data). unfold write_at. rewrite app_assoc.
  apply ztake_app. by rewrite zlen_app, zlen_ztake by lia.
Qed.

Lemma ztake_write_at_before {A} n off (data buf : list A) :
  n <= off -> 0 <= off <= zlen buf -> ztake n (write_at off data buf) = ztake n buf.
Proof.
  intros. unfold write_at. rewrite ztake_app_le by (rewrite zlen_ztake; lia).
  apply ztake_ztake. lia.
Qed.

Lemma zdrop_write_at_behind {A} n off (data buf : list A) :
  0 <= off -> off + zlen data <= n -> n <= zlen buf ->
  zdrop n (write_at off data buf) = zdrop n buf.
Proof.
  intros. pose proof (zlen_nonneg data). unfold write_at.
  replace n with ((off + zlen data) + (n - (off + zlen data))) by lia.
  rewrite <- zdrop_zdrop by lia. rewrite app_assoc.
  rewrite (zdrop_app (ztake off buf ++ data)) by (rewrite zlen_app, zlen_ztake; lia).
  by rewrite zdrop_zdrop by lia.
Qed.

(** Two writes side by side are one write. *)
Lemma write_at_app {A} off (a b buf : list A) :
  0 <= off -> off + zlen a + zlen b <= zlen buf ->
  write_at (off + zlen a) b (write_at off a buf) = write_at off (a ++ b) buf.
Proof.
  intros. pose proof (zlen_nonneg a). pose proof (zlen_nonneg b).
  unfold write_at at 1. rewrite ztake_write_at, zdrop_write_at_behind by lia.
  unfold write_at. rewrite zlen_app, <- !app_assoc. do 4 f_equal. lia.
Qed.

Lemma ztake_write_at_0 {A} (data buf : list A) n :
  n = zlen data -> zlen data <= zlen buf -> ztake n (write_at 0 data buf) = data.
Proof.
  intros -> Hl. pose proof (ztake_write_at 0 data buf ltac:(lia) ltac:(lia)) as H.
  by rewrite Z.add_0_l in H.
Qed.

Lemma write_at_nil {A} off (buf : list A) : 0 <= off -> write_at off [] buf = buf.
Proof.
  intros. unfold write_at. cbn [zlen length]. rewrite Z.add_0_r. apply take_drop.
Qed.

Lemma bytes_ok_write_at off data buf :
  bytes_ok data = true -> bytes_ok buf = true -> bytes_ok (write_at off data buf) = true.
Proof.
  intros Hd Hb. unfold write_at, ztake, zdrop.
  by rewrite !bytes_ok_app, Hd, bytes_ok_take, bytes_ok_drop.
Qed.

Lemma forallb_Forall_true {A} (f : A -> bool) l :
  forallb f l = true <-> Forall (fun a => f a = true) l.
Proof. by rewrite List.forallb_forall, List.Forall_forall. Qed.

#[export] Hint Resolve zlen_nonneg bytes_ok_take bytes_ok_drop bytes_ok_write_at
  bytes_ok_le_split : ldn.
#[export] Hint Rewrite @zlen_app @length_app bytes_ok_app length_le_split : ldn_len.
