(* ===== verification/Layout.v ===== *)
(** * Binary layouts of packed structures

    [protocol/types.hpp] declares every wire structure with
    [__attribute__((packed))] and moves it with [std::memcpy].  A [layout A]
    is that memory representation of the structure [A]: its [sizeof], the
    values its fields can hold, and the two directions of the copy, with the
    laws that make them inverse to each other.  The combinators build the
    layout of a structure from the layouts of its fields, in order and without
    padding, and [HasLayout] attaches a layout to a structure's type so that
    the templates of [ryu_protocol.hpp] can be stated once for every [T]. *)

From stdpp Require Import base numbers list.
From Stdlib Require Import ZArith Lia Bool.
From S2P Require Import Prelude.

(** The operations of a layout: what [memcpy] from and to a [T] do. *)
Record layout (A : Type) : Type := Layout {
  lsize : nat;                     (** [sizeof(A)] *)
  lwf : A -> bool;                 (** the values the fields can hold *)
  lput : A -> list Z;              (** the bytes of the structure *)
  lget : list Z -> A               (** the structure at the front of the bytes *)
}.
Arguments Layout {A}.
Arguments lsize {A}.
Arguments lwf {A}.
Arguments lput {A}.
Arguments lget {A}.

(** The laws: the copy out and the copy in are inverse to each other. *)
Class LayoutLaws {A} (L : layout A) : Prop := {
  lput_length a : lwf L a = true -> length (lput L a) = lsize L;
  lput_bytes a : lwf L a = true -> bytes_ok (lput L a) = true;
  lget_lput a k : lwf L a = true -> lget L (lput L a ++ k) = a;
  lget_wf l : bytes_ok l = true -> (lsize L <= length l)%nat -> lwf L (lget L l) = true;
  lput_lget l : bytes_ok l = true -> (lsize L <= length l)%nat ->
    lput L (lget L l) = take (lsize L) l
}.

(** ** Field types *)

(** A little-endian unsigned integer of [n] bytes. *)
Definition l_uint (n : nat) : layout Z := {|
  lsize := n;
  lwf z := (0 <=? z) && (z <? 256 ^ Z.of_nat n);
  lput z := le_split n z;
  lget l := le_combine (take n l)
|}.

(** A little-endian two's complement integer of [n] bytes. *)
Definition l_sint (n : nat) : layout Z := {|
  lsize := n;
  lwf z := in_s (8 * Z.of_nat n) z;
  lput z := le_split n z;
  lget l := signed (8 * Z.of_nat n) (le_combine (take n l))
|}.

Definition l_u8 : layout Z := l_uint 1.
Definition l_u16 : layout Z := l_uint 2.
Definition l_u32 : layout Z := l_uint 4.
Definition l_u64 : layout Z := l_uint 8.
Definition l_s32 : layout Z := l_sint 4.
Definition l_s64 : layout Z := l_sint 8.

(** A field followed by another one. *)
Definition l_pair {A B} (L : layout A) (M : layout B) : layout (A * B) := {|
  lsize := (lsize L + lsize M)%nat;
  lwf p := lwf L p.1 && lwf M p.2;
  lput p := lput L p.1 ++ lput M p.2;
  lget l := (lget L l, lget M (drop (lsize L) l))
|}.

(** Elements [0 .. n-1] of a C array, read one after the other. *)
Fixpoint get_array {A} (L : layout A) (n : nat) (l : list Z) : list A :=
  match n with
  | O => []
  | S n => lget L l :: get_array L n (drop (lsize L) l)
  end.

(** A C array [A name[n]]. *)
Definition l_array {A} (n : nat) (L : layout A) : layout (list A) := {|
  lsize := (n * lsize L)%nat;
  lwf v := (length v =? n)%nat && forallb (lwf L) v;
  lput v := concat (map (lput L) v);
  lget l := get_array L n l
|}.

(** A structure whose fields are the components of a tuple. *)
Definition l_iso {A B} (f : A -> B) (g : B -> A) (L : layout A) : layout B := {|
  lsize := lsize L;
  lwf b := lwf L (g b);
  lput b := lput L (g b);
  lget l := f (lget L l)
|}.

Abbreviation l_bytes n := (l_array n l_u8).
Infix "⊗" := l_pair (at level 35, right associativity) : ldn_scope.

(** ** Structures *)

(** The layout attached to a structure's type: [sizeof(T)] and [memcpy] of
    the templates of [ryu_protocol.hpp] are resolved by the type [T]. *)
Class HasLayout (A : Type) : Type := layout_of : layout A.
Arguments layout_of A {_}.

Definition sizeof (A : Type) `{HasLayout A} : nat := lsize (layout_of A).
Definition bytes_of {A} `{HasLayout A} (a : A) : list Z := lput (layout_of A) a.
Definition of_bytes {A} `{HasLayout A} (l : list Z) : A := lget (layout_of A) l.
Definition wf {A} `{HasLayout A} (a : A) : bool := lwf (layout_of A) a.

(** [T x{}] (value initialisation) and [memset(&x, 0, sizeof(T))]. *)
Definition zeroed (A : Type) `{HasLayout A} : A := of_bytes (repeat 0 (sizeof A)).

(** ** The combinators obey the laws *)

Lemma pow_256_2 n : 2 ^ (8 * Z.of_nat n) = 256 ^ Z.of_nat n.
Proof. rewrite Z.pow_mul_r by lia. done. Qed.

Lemma combine_take_split n z k :
  le_combine (take n (le_split n z ++ k)) = z mod 256 ^ Z.of_nat n.
Proof.
  rewrite take_app_length' by (by rewrite length_le_split). apply le_combine_split.
Qed.

Lemma split_combine_take n l :
  bytes_ok l = true -> (n <= length l)%nat -> le_split n (le_combine (take n l)) = take n l.
Proof.
  intros Hl Hn. pose proof (bytes_ok_take n l Hl) as Ht.
  rewrite <- (le_split_combine (take n l)) at 2 by done.
  rewrite length_take, Nat.min_l by lia. done.
Qed.

Lemma combine_take_range n l :
  bytes_ok l = true -> (n <= length l)%nat ->
  0 <= le_combine (take n l) < 256 ^ Z.of_nat n.
Proof.
  intros Hl Hn. pose proof (le_combine_range _ (bytes_ok_take n l Hl)) as H.
  rewrite length_take, Nat.min_l in H by lia. done.
Qed.

Lemma le_split_mod n z m : m = 256 ^ Z.of_nat n -> le_split n (z mod m) = le_split n z.
Proof.
  intros ->. rewrite <- (le_combine_split n z).
  rewrite <- (length_le_split n z) at 1. apply le_split_combine, bytes_ok_le_split.
Qed.

#[export] Instance l_uint_laws n : LayoutLaws (l_uint n).
Proof.
  split; simpl.
  - intros a _. apply length_le_split.
  - intros a _. apply bytes_ok_le_split.
  - intros a k H. rewrite combine_take_split. apply Z.mod_small. zlia.
  - intros l Hl Hn. pose proof (combine_take_range n l Hl Hn).
    rewrite andb_true_iff, Z.leb_le, Z.ltb_lt. lia.
  - intros l Hl Hn. by apply split_combine_take.
Qed.

#[export] Instance l_sint_laws n : LayoutLaws (l_sint (S n)).
Proof.
  split; cbn [l_sint lsize lwf lput lget].
  - intros a _. apply length_le_split.
  - intros a _. apply bytes_ok_le_split.
  - intros a k H. rewrite combine_take_split, <- pow_256_2. apply signed_of_s; [lia|done].
  - intros l Hl Hn. apply signed_in_s. lia.
  - intros l Hl Hn. rewrite <- (le_split_mod (S n) _ _ eq_refl), <- pow_256_2.
    rewrite signed_mod, pow_256_2 by lia.
    rewrite Z.mod_small by (apply combine_take_range; done).
    by apply split_combine_take.
Qed.

Section pair.
Context {A B} (L : layout A) (M : layout B) `{!LayoutLaws L, !LayoutLaws M}.

Lemma l_pair_laws_aux : LayoutLaws (l_pair L M).
Proof.
  split; simpl.
  - intros [a b] [Ha Hb]%andb_true_iff. simpl in *.
    by rewrite length_app, !lput_length by done.
  - intros [a b] [Ha Hb]%andb_true_iff. simpl in *.
    by rewrite bytes_ok_app, !lput_bytes.
  - intros [a b] k [Ha Hb]%andb_true_iff. simpl in *.
    rewrite <- app_assoc, lget_lput by done. f_equal.
    rewrite drop_app_length' by (by rewrite lput_length). by apply lget_lput.
  - intros l Hl Hn. apply andb_true_iff. simpl.
    split; apply lget_wf; rewrite ?length_drop; auto using bytes_ok_drop; lia.
  - intros l Hl Hn. rewrite !lput_lget; rewrite ?length_drop;
      auto using bytes_ok_drop; try lia.
    by rewrite take_take_drop.
Qed.
End pair.

#[export] Instance l_pair_laws {A B} (L : layout A) (M : layout B) :
  LayoutLaws L -> LayoutLaws M -> LayoutLaws (l_pair L M).
Proof. intros. apply l_pair_laws_aux; done. Qed.

Section array.
Context {A} (L : layout A) `{!LayoutLaws L}.

Lemma array_put_length v :
  forallb (lwf L) v = true ->
  length (concat (map (lput L) v)) = (length v * lsize L)%nat.
Proof.
  induction v as [|a v IH]; [done|]. simpl. intros [Ha Hv]%andb_true_iff.
  by rewrite length_app, lput_length, IH.
Qed.

Lemma array_put_bytes v :
  forallb (lwf L) v = true -> bytes_ok (concat (map (lput L) v)) = true.
Proof.
  induction v as [|a v IH]; [done|]. simpl. intros [Ha Hv]%andb_true_iff.
  by rewrite bytes_ok_app, lput_bytes, IH.
Qed.

Lemma array_get_put v k :
  forallb (lwf L) v = true ->
  get_array L (length v) (concat (map (lput L) v) ++ k) = v.
Proof.
  induction v as [|a v IH]; [done|]. simpl. intros [Ha Hv]%andb_true_iff.
  rewrite <- app_assoc, lget_lput by done. f_equal.
  rewrite drop_app_length' by (by rewrite lput_length). auto.
Qed.

Lemma array_get_wf n l :
  bytes_ok l = true -> (n * lsize L <= length l)%nat ->
  forallb (lwf L) (get_array L n l) = true.
Proof.
  revert l. induction n as [|n IH]; [done|]. simpl. intros l Hl Hn.
  rewrite lget_wf, IH; rewrite ?length_drop; auto using bytes_ok_drop; lia.
Qed.

Lemma array_get_length n l : length (get_array L n l) = n.
Proof. revert l. induction n; intros; simpl; auto. Qed.

Lemma array_put_get n l :
  bytes_ok l = true -> (n * lsize L <= length l)%nat ->
  concat (map (lput L) (get_array L n l)) = take (n * lsize L) l.
Proof.
  revert l. induction n as [|n IH]; [done|]. simpl. intros l Hl Hn.
  rewrite lput_lget, IH; rewrite ?length_drop; auto using bytes_ok_drop; try lia.
  by rewrite take_take_drop.
Qed.
End array.

#[export] Instance l_array_laws {A} n (L : layout A) :
  LayoutLaws L -> LayoutLaws (l_array n L).
Proof.
  intros HL. split; simpl.
  - intros v [Hn%Nat.eqb_eq Hv]%andb_true_iff. subst. by apply array_put_length.
  - intros v [_ Hv]%andb_true_iff. by apply array_put_bytes.
  - intros v k [Hn%Nat.eqb_eq Hv]%andb_true_iff. subst. by apply array_get_put.
  - intros l Hl Hn. apply andb_true_iff. split.
    + apply Nat.eqb_eq, array_get_length.
    + by apply array_get_wf.
  - intros l Hl Hn. by apply array_put_get.
Qed.

Lemma l_iso_laws {A B} (f : A -> B) (g : B -> A) (L : layout A) :
  LayoutLaws L -> (forall a, g (f a) = a) -> (forall b, f (g b) = b) ->
  LayoutLaws (l_iso f g L).
Proof.
  intros HL Hgf Hfg. split; simpl.
  - intros b. apply lput_length.
  - intros b. apply lput_bytes.
  - intros b k H. by rewrite lget_lput by done.
  - intros l. rewrite Hgf. apply lget_wf.
  - intros l. rewrite Hgf. apply lput_lget.
Qed.

(** A structure is isomorphic to the tuple of its fields. *)
Ltac solve_struct_iso :=
  intros x; repeat match goal with p : (_ * _)%type |- _ => destruct p end;
  try destruct x; reflexivity.

Ltac solve_struct_laws :=
  apply l_iso_laws; [apply _ | solve_struct_iso | solve_struct_iso].

(** ** Facts about structures *)

Section struct.
Context `{HasLayout A} `{!LayoutLaws (layout_of A)}.

Lemma length_bytes_of (a : A) : wf a = true -> length (bytes_of a) = sizeof A.
Proof. apply lput_length. Qed.

Lemma bytes_of_ok (a : A) : wf a = true -> bytes_ok (bytes_of a) = true.
Proof. apply lput_bytes. Qed.

Lemma of_bytes_of (a : A) k : wf a = true -> of_bytes (bytes_of a ++ k) = a.
Proof. apply lget_lput. Qed.

Lemma wf_of_bytes l :
  bytes_ok l = true -> (sizeof A <= length l)%nat -> wf (of_bytes (A:=A) l) = true.
Proof. apply lget_wf. Qed.

Lemma bytes_of_of_bytes l :
  bytes_ok l = true -> (sizeof A <= length l)%nat ->
  bytes_of (of_bytes (A:=A) l) = take (sizeof A) l.
Proof. apply lput_lget. Qed.

Lemma bytes_ok_repeat0 n : bytes_ok (repeat 0 n) = true.
Proof. induction n; [done|]. cbn [repeat]. by rewrite bytes_ok_cons, IHn. Qed.

Lemma wf_zeroed : wf (zeroed A) = true.
Proof.
  apply wf_of_bytes; [apply bytes_ok_repeat0 | by rewrite repeat_length].
Qed.
End struct.

#[export] Hint Resolve bytes_of_ok wf_zeroed wf_of_bytes : ldn.
