(* ===== verification/Types.v ===== *)
(** * Wire types of the RyuLdn protocol ([protocol/types.hpp])

    One [Record] per packed structure, its fields in declaration order with a
    short prefix (C++ fields are scoped by their structure, Rocq projections
    are not), and its [layout].  Integers are [Z], byte arrays [list Z]; the
    values they can hold are the layout's [lwf].  Enumerations are inductive
    types with the numbers of the source in [<Enum>_value]; the cast from a
    number, [<Enum>_of_value], is partial, where the C++ cast keeps a number
    that names no enumerator. *)

From stdpp Require Import base numbers list.
From Stdlib Require Import ZArith Lia Bool.
From S2P Require Import Prelude Layout.

(** ** Protocol constants *)

(** [('R' << 0) | ('L' << 8) | ('D' << 16) | ('N' << 24)] *)
Definition PROTOCOL_MAGIC : Z :=
  Z.lor (Z.shiftl 82 0) (Z.lor (Z.shiftl 76 8) (Z.lor (Z.shiftl 68 16) (Z.shiftl 78 24))).
Definition PROTOCOL_VERSION : Z := 1.
Definition MAX_PACKET_SIZE : Z := 131072.
Definition MAX_NODES : Z := 8.

(** ** Enumerations *)

Inductive PacketId : Set :=
| PacketId_Initialize
| PacketId_Passphrase
| PacketId_CreateAccessPoint
| PacketId_CreateAccessPointPrivate
| PacketId_ExternalProxy
| PacketId_ExternalProxyToken
| PacketId_ExternalProxyState
| PacketId_SyncNetwork
| PacketId_Reject
| PacketId_RejectReply
| PacketId_Scan
| PacketId_ScanReply
| PacketId_ScanReplyEnd
| PacketId_Connect
| PacketId_ConnectPrivate
| PacketId_Connected
| PacketId_Disconnect
| PacketId_ProxyConfig
| PacketId_ProxyConnect
| PacketId_ProxyConnectReply
| PacketId_ProxyData
| PacketId_ProxyDisconnect
| PacketId_SetAcceptPolicy
| PacketId_SetAdvertiseData
| PacketId_Ping
| PacketId_NetworkError.
Definition PacketId_value (x : PacketId) : Z :=
  match x with
  | PacketId_Initialize => 0
  | PacketId_Passphrase => 1
  | PacketId_CreateAccessPoint => 2
  | PacketId_CreateAccessPointPrivate => 3
  | PacketId_ExternalProxy => 4
  | PacketId_ExternalProxyToken => 5
  | PacketId_ExternalProxyState => 6
  | PacketId_SyncNetwork => 7
  | PacketId_Reject => 8
  | PacketId_RejectReply => 9
  | PacketId_Scan => 10
  | PacketId_ScanReply => 11
  | PacketId_ScanReplyEnd => 12
  | PacketId_Connect => 13
  | PacketId_ConnectPrivate => 14
  | PacketId_Connected => 15
  | PacketId_Disconnect => 16
  | PacketId_ProxyConfig => 17
  | PacketId_ProxyConnect => 18
  | PacketId_ProxyConnectReply => 19
  | PacketId_ProxyData => 20
  | PacketId_ProxyDisconnect => 21
  | PacketId_SetAcceptPolicy => 22
  | PacketId_SetAdvertiseData => 23
  | PacketId_Ping => 254
  | PacketId_NetworkError => 255
  end.

Definition PacketId_of_value (z : Z) : option PacketId :=
  find (fun x => PacketId_value x =? z)
    [PacketId_Initialize; PacketId_Passphrase; PacketId_CreateAccessPoint;
     PacketId_CreateAccessPointPrivate; PacketId_ExternalProxy;
     PacketId_ExternalProxyToken; PacketId_ExternalProxyState; PacketId_SyncNetwork;
     PacketId_Reject; PacketId_RejectReply; PacketId_Scan; PacketId_ScanReply;
     PacketId_ScanReplyEnd; PacketId_Connect; PacketId_ConnectPrivate;
     PacketId_Connected; PacketId_Disconnect; PacketId_ProxyConfig;
     PacketId_ProxyConnect; PacketId_ProxyConnectReply; PacketId_ProxyData;
     PacketId_ProxyDisconnect; PacketId_SetAcceptPolicy; PacketId_SetAdvertiseData;
     PacketId_Ping; PacketId_NetworkError].

Inductive AcceptPolicy : Set :=
| AcceptPolicy_AcceptAll
| AcceptPolicy_RejectAll
| AcceptPolicy_BlackList
| AcceptPolicy_WhiteList.
Definition AcceptPolicy_value (x : AcceptPolicy) : Z :=
  match x with
  | AcceptPolicy_AcceptAll => 0
  | AcceptPolicy_RejectAll => 1
  | AcceptPolicy_BlackList => 2
  | AcceptPolicy_WhiteList => 3
  end.

Definition AcceptPolicy_of_value (z : Z) : option AcceptPolicy :=
  find (fun x => AcceptPolicy_value x =? z)
    [AcceptPolicy_AcceptAll; AcceptPolicy_RejectAll; AcceptPolicy_BlackList;
     AcceptPolicy_WhiteList].

Inductive SecurityMode : Set :=
| SecurityMode_Any
| SecurityMode_Product
| SecurityMode_Debug.
Definition SecurityMode_value (x : SecurityMode) : Z :=
  match x with
  | SecurityMode_Any => 0
  | SecurityMode_Product => 1
  | SecurityMode_Debug => 2
  end.

Inductive NetworkType : Set :=
| NetworkType_None
| NetworkType_General
| NetworkType_Ldn
| NetworkType_All.
Definition NetworkType_value (x : NetworkType) : Z :=
  match x with
  | NetworkType_None => 0
  | NetworkType_General => 1
  | NetworkType_Ldn => 2
  | NetworkType_All => 3
  end.

Inductive DisconnectReason : Set :=
| DisconnectReason_None
| DisconnectReason_User
| DisconnectReason_SystemRequest
| DisconnectReason_DestroyedByHost
| DisconnectReason_DestroyedByAdmin
| DisconnectReason_Rejected
| DisconnectReason_SignalLost.
Definition DisconnectReason_value (x : DisconnectReason) : Z :=
  match x with
  | DisconnectReason_None => 0
  | DisconnectReason_User => 1
  | DisconnectReason_SystemRequest => 2
  | DisconnectReason_DestroyedByHost => 3
  | DisconnectReason_DestroyedByAdmin => 4
  | DisconnectReason_Rejected => 5
  | DisconnectReason_SignalLost => 6
  end.

Definition DisconnectReason_of_value (z : Z) : option DisconnectReason :=
  find (fun x => DisconnectReason_value x =? z)
    [DisconnectReason_None; DisconnectReason_User; DisconnectReason_SystemRequest;
     DisconnectReason_DestroyedByHost; DisconnectReason_DestroyedByAdmin;
     DisconnectReason_Rejected; DisconnectReason_SignalLost].

Inductive NetworkErrorCode : Set :=
| NetworkErrorCode_None
| NetworkErrorCode_VersionMismatch
| NetworkErrorCode_InvalidMagic
| NetworkErrorCode_InvalidSessionId
| NetworkErrorCode_HandshakeTimeout
| NetworkErrorCode_AlreadyInitialized
| NetworkErrorCode_SessionNotFound
| NetworkErrorCode_SessionFull
| NetworkErrorCode_SessionClosed
| NetworkErrorCode_NotInSession
| NetworkErrorCode_AlreadyInSession
| NetworkErrorCode_NetworkNotFound
| NetworkErrorCode_NetworkFull
| NetworkErrorCode_ConnectionRejected
| NetworkErrorCode_AuthenticationFailed
| NetworkErrorCode_InvalidRequest
| NetworkErrorCode_InternalError
| NetworkErrorCode_ServiceUnavailable.
Definition NetworkErrorCode_value (x : NetworkErrorCode) : Z :=
  match x with
  | NetworkErrorCode_None => 0
  | NetworkErrorCode_VersionMismatch => 1
  | NetworkErrorCode_InvalidMagic => 2
  | NetworkErrorCode_InvalidSessionId => 3
  | NetworkErrorCode_HandshakeTimeout => 4
  | NetworkErrorCode_AlreadyInitialized => 5
  | NetworkErrorCode_SessionNotFound => 100
  | NetworkErrorCode_SessionFull => 101
  | NetworkErrorCode_SessionClosed => 102
  | NetworkErrorCode_NotInSession => 103
  | NetworkErrorCode_AlreadyInSession => 104
  | NetworkErrorCode_NetworkNotFound => 200
  | NetworkErrorCode_NetworkFull => 201
  | NetworkErrorCode_ConnectionRejected => 202
  | NetworkErrorCode_AuthenticationFailed => 203
  | NetworkErrorCode_InvalidRequest => 204
  | NetworkErrorCode_InternalError => 900
  | NetworkErrorCode_ServiceUnavailable => 901
  end.

Definition NetworkErrorCode_of_value (z : Z) : option NetworkErrorCode :=
  find (fun x => NetworkErrorCode_value x =? z)
    [NetworkErrorCode_None; NetworkErrorCode_VersionMismatch;
     NetworkErrorCode_InvalidMagic; NetworkErrorCode_InvalidSessionId;
     NetworkErrorCode_HandshakeTimeout; NetworkErrorCode_AlreadyInitialized;
     NetworkErrorCode_SessionNotFound; NetworkErrorCode_SessionFull;
     NetworkErrorCode_SessionClosed; NetworkErrorCode_NotInSession;
     NetworkErrorCode_AlreadyInSession; NetworkErrorCode_NetworkNotFound;
     NetworkErrorCode_NetworkFull; NetworkErrorCode_ConnectionRejected;
     NetworkErrorCode_AuthenticationFailed; NetworkErrorCode_InvalidRequest;
     NetworkErrorCode_InternalError; NetworkErrorCode_ServiceUnavailable].
(** [enum class ProtocolType : int32_t], the enumerators the code uses; the
    structures carry it as the 32-bit integer it is. *)
Definition ProtocolType_Unspecified : Z := 0.
Definition ProtocolType_Tcp : Z := 6.
Definition ProtocolType_Udp : Z := 17.

#[export] Instance PacketId_eq_dec : EqDecision PacketId.
Proof. solve_decision. Defined.
#[export] Instance AcceptPolicy_eq_dec : EqDecision AcceptPolicy.
Proof. solve_decision. Defined.
#[export] Instance DisconnectReason_eq_dec : EqDecision DisconnectReason.
Proof. solve_decision. Defined.
#[export] Instance NetworkErrorCode_eq_dec : EqDecision NetworkErrorCode.
Proof. solve_decision. Defined.

(** ** Structures and their layouts *)

Record LdnHeader : Type := {
  hdr_magic : Z;
  hdr_type : Z;
  hdr_version : Z;
  hdr_reserved : Z;
  hdr_data_size : Z
}.
#[export] Instance LdnHeader_layout : HasLayout LdnHeader :=
  l_iso (fun '(x0, (x1, (x2, (x3, x4)))) => Build_LdnHeader x0 x1 x2 x3 x4)
    (fun s => (hdr_magic s, (hdr_type s, (hdr_version s, (hdr_reserved s, hdr_data_size
      s)))))
    (l_u32 ⊗ l_u8 ⊗ l_u8 ⊗ l_u16 ⊗ l_s32).

Record MacAddress : Type := {
  mac_data : list Z
}.
#[export] Instance MacAddress_layout : HasLayout MacAddress :=
  l_iso (fun x0 => Build_MacAddress x0)
    (fun s => mac_data s)
    (l_bytes 6).

Record SessionId : Type := {
  sid_data : list Z
}.
#[export] Instance SessionId_layout : HasLayout SessionId :=
  l_iso (fun x0 => Build_SessionId x0)
    (fun s => sid_data s)
    (l_bytes 16).

Record IntentId : Type := {
  intent_local_communication_id : Z;
  intent_reserved1 : Z;
  intent_scene_id : Z;
  intent_reserved2 : Z
}.
#[export] Instance IntentId_layout : HasLayout IntentId :=
  l_iso (fun '(x0, (x1, (x2, x3))) => Build_IntentId x0 x1 x2 x3)
    (fun s => (intent_local_communication_id s, (intent_reserved1 s, (intent_scene_id s,
      intent_reserved2 s))))
    (l_s64 ⊗ l_u16 ⊗ l_u16 ⊗ l_u32).

Record NetworkId : Type := {
  nid_intent_id : IntentId;
  nid_session_id : SessionId
}.
#[export] Instance NetworkId_layout : HasLayout NetworkId :=
  l_iso (fun '(x0, x1) => Build_NetworkId x0 x1)
    (fun s => (nid_intent_id s, nid_session_id s))
    ((layout_of IntentId) ⊗ (layout_of SessionId)).

Record Ssid : Type := {
  ssid_length : Z;
  ssid_name : list Z
}.
#[export] Instance Ssid_layout : HasLayout Ssid :=
  l_iso (fun '(x0, x1) => Build_Ssid x0 x1)
    (fun s => (ssid_length s, ssid_name s))
    (l_u8 ⊗ (l_bytes 33)).

Record NodeInfo : Type := {
  node_ipv4_address : Z;
  node_mac_address : MacAddress;
  node_node_id : Z;
  node_is_connected : Z;
  node_user_name : list Z;
  node_reserved1 : Z;
  node_local_communication_version : Z;
  node_reserved2 : list Z
}.
#[export] Instance NodeInfo_layout : HasLayout NodeInfo :=
  l_iso (fun '(x0, (x1, (x2, (x3, (x4, (x5, (x6, x7))))))) => Build_NodeInfo x0 x1 x2 x3
    x4 x5 x6 x7)
    (fun s => (node_ipv4_address s, (node_mac_address s, (node_node_id s,
      (node_is_connected s, (node_user_name s, (node_reserved1 s,
      (node_local_communication_version s, node_reserved2 s))))))))
    (l_u32 ⊗ (layout_of MacAddress) ⊗ l_u8 ⊗ l_u8 ⊗ (l_bytes 33) ⊗ l_u8 ⊗ l_u16 ⊗
      (l_bytes 16)).

Record CommonNetworkInfo : Type := {
  common_mac_address : MacAddress;
  common_ssid : Ssid;
  common_channel : Z;
  common_link_level : Z;
  common_network_type : Z;
  common_reserved : Z
}.
#[export] Instance CommonNetworkInfo_layout : HasLayout CommonNetworkInfo :=
  l_iso (fun '(x0, (x1, (x2, (x3, (x4, x5))))) => Build_CommonNetworkInfo x0 x1 x2 x3 x4
    x5)
    (fun s => (common_mac_address s, (common_ssid s, (common_channel s,
      (common_link_level s, (common_network_type s, common_reserved s))))))
    ((layout_of MacAddress) ⊗ (layout_of Ssid) ⊗ l_u16 ⊗ l_u8 ⊗ l_u8 ⊗ l_u32).

Record LdnNetworkInfo : Type := {
  ldn_security_parameter : list Z;
  ldn_security_mode : Z;
  ldn_station_accept_policy : Z;
  ldn_unknown1 : Z;
  ldn_reserved1 : Z;
  ldn_node_count_max : Z;
  ldn_node_count : Z;
  ldn_nodes : list NodeInfo;
  ldn_reserved2 : Z;
  ldn_advertise_data_size : Z;
  ldn_advertise_data : list Z;
  ldn_unknown2 : list Z;
  ldn_authentication_id : Z
}.
#[export] Instance LdnNetworkInfo_layout : HasLayout LdnNetworkInfo :=
  l_iso (fun '(x0, (x1, (x2, (x3, (x4, (x5, (x6, (x7, (x8, (x9, (x10, (x11,
    x12)))))))))))) => Build_LdnNetworkInfo x0 x1 x2 x3 x4 x5 x6 x7 x8 x9 x10 x11 x12)
    (fun s => (ldn_security_parameter s, (ldn_security_mode s,
      (ldn_station_accept_policy s, (ldn_unknown1 s, (ldn_reserved1 s,
      (ldn_node_count_max s, (ldn_node_count s, (ldn_nodes s, (ldn_reserved2 s,
      (ldn_advertise_data_size s, (ldn_advertise_data s, (ldn_unknown2 s,
      ldn_authentication_id s)))))))))))))
    ((l_bytes 16) ⊗ l_u16 ⊗ l_u8 ⊗ l_u8 ⊗ l_u16 ⊗ l_u8 ⊗ l_u8 ⊗ (l_array (Z.to_nat
      MAX_NODES) (layout_of NodeInfo)) ⊗ l_u16 ⊗ l_u16 ⊗ (l_bytes 384) ⊗ (l_bytes 140) ⊗
      l_u64).

Record NetworkInfo : Type := {
  ni_network_id : NetworkId;
  ni_common : CommonNetworkInfo;
  ni_ldn : LdnNetworkInfo
}.
#[export] Instance NetworkInfo_layout : HasLayout NetworkInfo :=
  l_iso (fun '(x0, (x1, x2)) => Build_NetworkInfo x0 x1 x2)
    (fun s => (ni_network_id s, (ni_common s, ni_ldn s)))
    ((layout_of NetworkId) ⊗ (layout_of CommonNetworkInfo) ⊗ (layout_of
      LdnNetworkInfo)).

Record InitializeMessage : Type := {
  init_id : SessionId;
  init_mac_address : MacAddress
}.
#[export] Instance InitializeMessage_layout : HasLayout InitializeMessage :=
  l_iso (fun '(x0, x1) => Build_InitializeMessage x0 x1)
    (fun s => (init_id s, init_mac_address s))
    ((layout_of SessionId) ⊗ (layout_of MacAddress)).

Record PassphraseMessage : Type := {
  pass_passphrase : list Z
}.
#[export] Instance PassphraseMessage_layout : HasLayout PassphraseMessage :=
  l_iso (fun x0 => Build_PassphraseMessage x0)
    (fun s => pass_passphrase s)
    (l_bytes 128).

Record PingMessage : Type := {
  ping_requester : Z;
  ping_id : Z
}.
#[export] Instance PingMessage_layout : HasLayout PingMessage :=
  l_iso (fun '(x0, x1) => Build_PingMessage x0 x1)
    (fun s => (ping_requester s, ping_id s))
    (l_u8 ⊗ l_u8).

Record DisconnectMessage : Type := {
  disc_disconnect_ip : Z
}.
#[export] Instance DisconnectMessage_layout : HasLayout DisconnectMessage :=
  l_iso (fun x0 => Build_DisconnectMessage x0)
    (fun s => disc_disconnect_ip s)
    l_u32.

Record NetworkErrorMessage : Type := {
  neterr_error_code : Z
}.
#[export] Instance NetworkErrorMessage_layout : HasLayout NetworkErrorMessage :=
  l_iso (fun x0 => Build_NetworkErrorMessage x0)
    (fun s => neterr_error_code s)
    l_u32.

Record ScanFilter : Type := {
  sf_network_id : NetworkId;
  sf_flag : Z
}.
#[export] Instance ScanFilter_layout : HasLayout ScanFilter :=
  l_iso (fun '(x0, x1) => Build_ScanFilter x0 x1)
    (fun s => (sf_network_id s, sf_flag s))
    ((layout_of NetworkId) ⊗ l_u32).

Record ProxyInfo : Type := {
  pi_source_ipv4 : Z;
  pi_source_port : Z;
  pi_dest_ipv4 : Z;
  pi_dest_port : Z;
  pi_protocol : Z
}.
#[export] Instance ProxyInfo_layout : HasLayout ProxyInfo :=
  l_iso (fun '(x0, (x1, (x2, (x3, x4)))) => Build_ProxyInfo x0 x1 x2 x3 x4)
    (fun s => (pi_source_ipv4 s, (pi_source_port s, (pi_dest_ipv4 s, (pi_dest_port s,
      pi_protocol s)))))
    (l_u32 ⊗ l_u16 ⊗ l_u32 ⊗ l_u16 ⊗ l_s32).

Record ProxyDataHeader : Type := {
  pdh_info : ProxyInfo;
  pdh_data_length : Z
}.
#[export] Instance ProxyDataHeader_layout : HasLayout ProxyDataHeader :=
  l_iso (fun '(x0, x1) => Build_ProxyDataHeader x0 x1)
    (fun s => (pdh_info s, pdh_data_length s))
    ((layout_of ProxyInfo) ⊗ l_u32).

Record ProxyConfig : Type := {
  pc_proxy_ip : Z;
  pc_proxy_subnet_mask : Z
}.
#[export] Instance ProxyConfig_layout : HasLayout ProxyConfig :=
  l_iso (fun '(x0, x1) => Build_ProxyConfig x0 x1)
    (fun s => (pc_proxy_ip s, pc_proxy_subnet_mask s))
    (l_u32 ⊗ l_u32).

Record ProxyConnectRequest : Type := {
  pcq_info : ProxyInfo
}.
#[export] Instance ProxyConnectRequest_layout : HasLayout ProxyConnectRequest :=
  l_iso (fun x0 => Build_ProxyConnectRequest x0)
    (fun s => pcq_info s)
    (layout_of ProxyInfo).

Record ProxyConnectResponse : Type := {
  pcr_info : ProxyInfo
}.
#[export] Instance ProxyConnectResponse_layout : HasLayout ProxyConnectResponse :=
  l_iso (fun x0 => Build_ProxyConnectResponse x0)
    (fun s => pcr_info s)
    (layout_of ProxyInfo).

Record ProxyDisconnectMessage : Type := {
  pdm_info : ProxyInfo;
  pdm_disconnect_reason : Z
}.
#[export] Instance ProxyDisconnectMessage_layout : HasLayout ProxyDisconnectMessage :=
  l_iso (fun '(x0, x1) => Build_ProxyDisconnectMessage x0 x1)
    (fun s => (pdm_info s, pdm_disconnect_reason s))
    ((layout_of ProxyInfo) ⊗ l_s32).

Record ExternalProxyConfig : Type := {
  epc_proxy_ip : list Z;
  epc_address_family : Z;
  epc_proxy_port : Z;
  epc_token : list Z
}.
#[export] Instance ExternalProxyConfig_layout : HasLayout ExternalProxyConfig :=
  l_iso (fun '(x0, (x1, (x2, x3))) => Build_ExternalProxyConfig x0 x1 x2 x3)
    (fun s => (epc_proxy_ip s, (epc_address_family s, (epc_proxy_port s, epc_token s))))
    ((l_bytes 16) ⊗ l_u32 ⊗ l_u16 ⊗ (l_bytes 16)).

Record ExternalProxyToken : Type := {
  ept_virtual_ip : Z;
  ept_token : list Z;
  ept_physical_ip : list Z;
  ept_address_family : Z
}.
#[export] Instance ExternalProxyToken_layout : HasLayout ExternalProxyToken :=
  l_iso (fun '(x0, (x1, (x2, x3))) => Build_ExternalProxyToken x0 x1 x2 x3)
    (fun s => (ept_virtual_ip s, (ept_token s, (ept_physical_ip s, ept_address_family
      s))))
    (l_u32 ⊗ (l_bytes 16) ⊗ (l_bytes 16) ⊗ l_u32).

Record ExternalProxyConnectionState : Type := {
  epcs_ip_address : Z;
  epcs_connected : Z;
  epcs_pad : list Z
}.
#[export] Instance ExternalProxyConnectionState_layout : HasLayout ExternalProxyConnectionState :=
  l_iso (fun '(x0, (x1, x2)) => Build_ExternalProxyConnectionState x0 x1 x2)
    (fun s => (epcs_ip_address s, (epcs_connected s, epcs_pad s)))
    (l_u32 ⊗ l_u8 ⊗ (l_bytes 3)).

Record SecurityConfig : Type := {
  secc_security_mode : Z;
  secc_passphrase_size : Z;
  secc_passphrase : list Z
}.
#[export] Instance SecurityConfig_layout : HasLayout SecurityConfig :=
  l_iso (fun '(x0, (x1, x2)) => Build_SecurityConfig x0 x1 x2)
    (fun s => (secc_security_mode s, (secc_passphrase_size s, secc_passphrase s)))
    (l_u16 ⊗ l_u16 ⊗ (l_bytes 64)).

Record SecurityParameter : Type := {
  secp_data : list Z;
  secp_session_id : list Z
}.
#[export] Instance SecurityParameter_layout : HasLayout SecurityParameter :=
  l_iso (fun '(x0, x1) => Build_SecurityParameter x0 x1)
    (fun s => (secp_data s, secp_session_id s))
    ((l_bytes 16) ⊗ (l_bytes 16)).

Record AddressEntry : Type := {
  addre_ipv4_address : Z;
  addre_mac_address : MacAddress;
  addre_reserved : Z
}.
#[export] Instance AddressEntry_layout : HasLayout AddressEntry :=
  l_iso (fun '(x0, (x1, x2)) => Build_AddressEntry x0 x1 x2)
    (fun s => (addre_ipv4_address s, (addre_mac_address s, addre_reserved s)))
    (l_u32 ⊗ (layout_of MacAddress) ⊗ l_u16).

Record AddressList : Type := {
  addrl_addresses : list AddressEntry
}.
#[export] Instance AddressList_layout : HasLayout AddressList :=
  l_iso (fun x0 => Build_AddressList x0)
    (fun s => addrl_addresses s)
    (l_array (Z.to_nat MAX_NODES) (layout_of AddressEntry)).

Record UserConfig : Type := {
  uc_user_name : list Z;
  uc_unknown1 : list Z
}.
#[export] Instance UserConfig_layout : HasLayout UserConfig :=
  l_iso (fun '(x0, x1) => Build_UserConfig x0 x1)
    (fun s => (uc_user_name s, uc_unknown1 s))
    ((l_bytes 33) ⊗ (l_bytes 15)).

Record NetworkConfig : Type := {
  nc_intent_id : IntentId;
  nc_channel : Z;
  nc_node_count_max : Z;
  nc_reserved1 : Z;
  nc_local_communication_version : Z;
  nc_reserved2 : list Z
}.
#[export] Instance NetworkConfig_layout : HasLayout NetworkConfig :=
  l_iso (fun '(x0, (x1, (x2, (x3, (x4, x5))))) => Build_NetworkConfig x0 x1 x2 x3 x4 x5)
    (fun s => (nc_intent_id s, (nc_channel s, (nc_node_count_max s, (nc_reserved1 s,
      (nc_local_communication_version s, nc_reserved2 s))))))
    ((layout_of IntentId) ⊗ l_u16 ⊗ l_u8 ⊗ l_u8 ⊗ l_u16 ⊗ (l_bytes 10)).

Record RyuNetworkConfig : Type := {
  rnc_game_version : list Z;
  rnc_private_ip : list Z;
  rnc_address_family : Z;
  rnc_external_proxy_port : Z;
  rnc_internal_proxy_port : Z
}.
#[export] Instance RyuNetworkConfig_layout : HasLayout RyuNetworkConfig :=
  l_iso (fun '(x0, (x1, (x2, (x3, x4)))) => Build_RyuNetworkConfig x0 x1 x2 x3 x4)
    (fun s => (rnc_game_version s, (rnc_private_ip s, (rnc_address_family s,
      (rnc_external_proxy_port s, rnc_internal_proxy_port s)))))
    ((l_bytes 16) ⊗ (l_bytes 16) ⊗ l_u32 ⊗ l_u16 ⊗ l_u16).

Record CreateAccessPointRequest : Type := {
  cap_security_config : SecurityConfig;
  cap_user_config : UserConfig;
  cap_network_config : NetworkConfig;
  cap_ryu_network_config : RyuNetworkConfig
}.
#[export] Instance CreateAccessPointRequest_layout : HasLayout CreateAccessPointRequest :=
  l_iso (fun '(x0, (x1, (x2, x3))) => Build_CreateAccessPointRequest x0 x1 x2 x3)
    (fun s => (cap_security_config s, (cap_user_config s, (cap_network_config s,
      cap_ryu_network_config s))))
    ((layout_of SecurityConfig) ⊗ (layout_of UserConfig) ⊗ (layout_of NetworkConfig) ⊗
      (layout_of RyuNetworkConfig)).

Record CreateAccessPointPrivateRequest : Type := {
  capp_security_config : SecurityConfig;
  capp_security_parameter : SecurityParameter;
  capp_user_config : UserConfig;
  capp_network_config : NetworkConfig;
  capp_address_list : AddressList;
  capp_ryu_network_config : RyuNetworkConfig
}.
#[export] Instance CreateAccessPointPrivateRequest_layout : HasLayout CreateAccessPointPrivateRequest :=
  l_iso (fun '(x0, (x1, (x2, (x3, (x4, x5))))) => Build_CreateAccessPointPrivateRequest
    x0 x1 x2 x3 x4 x5)
    (fun s => (capp_security_config s, (capp_security_parameter s, (capp_user_config s,
      (capp_network_config s, (capp_address_list s, capp_ryu_network_config s))))))
    ((layout_of SecurityConfig) ⊗ (layout_of SecurityParameter) ⊗ (layout_of UserConfig)
      ⊗ (layout_of NetworkConfig) ⊗ (layout_of AddressList) ⊗ (layout_of
      RyuNetworkConfig)).

Record ConnectPrivateRequest : Type := {
  cpr_security_config : SecurityConfig;
  cpr_security_parameter : SecurityParameter;
  cpr_user_config : UserConfig;
  cpr_local_communication_version : Z;
  cpr_option_unknown : Z;
  cpr_network_config : NetworkConfig
}.
#[export] Instance ConnectPrivateRequest_layout : HasLayout ConnectPrivateRequest :=
  l_iso (fun '(x0, (x1, (x2, (x3, (x4, x5))))) => Build_ConnectPrivateRequest x0 x1 x2
    x3 x4 x5)
    (fun s => (cpr_security_config s, (cpr_security_parameter s, (cpr_user_config s,
      (cpr_local_communication_version s, (cpr_option_unknown s, cpr_network_config
      s))))))
    ((layout_of SecurityConfig) ⊗ (layout_of SecurityParameter) ⊗ (layout_of UserConfig)
      ⊗ l_u32 ⊗ l_u32 ⊗ (layout_of NetworkConfig)).

Record ScanFilterFull : Type := {
  sff_network_id : NetworkId;
  sff_network_type : Z;
  sff_mac_address : MacAddress;
  sff_ssid : Ssid;
  sff_reserved : list Z;
  sff_flag : Z
}.
#[export] Instance ScanFilterFull_layout : HasLayout ScanFilterFull :=
  l_iso (fun '(x0, (x1, (x2, (x3, (x4, x5))))) => Build_ScanFilterFull x0 x1 x2 x3 x4
    x5)
    (fun s => (sff_network_id s, (sff_network_type s, (sff_mac_address s, (sff_ssid s,
      (sff_reserved s, sff_flag s))))))
    ((layout_of NetworkId) ⊗ l_u32 ⊗ (layout_of MacAddress) ⊗ (layout_of Ssid) ⊗
      (l_bytes 16) ⊗ l_u32).

Record ConnectRequest : Type := {
  cr_security_config : SecurityConfig;
  cr_user_config : UserConfig;
  cr_local_communication_version : Z;
  cr_option_unknown : Z;
  cr_padding : Z;
  cr_network_info : NetworkInfo
}.
#[export] Instance ConnectRequest_layout : HasLayout ConnectRequest :=
  l_iso (fun '(x0, (x1, (x2, (x3, (x4, x5))))) => Build_ConnectRequest x0 x1 x2 x3 x4
    x5)
    (fun s => (cr_security_config s, (cr_user_config s, (cr_local_communication_version
      s, (cr_option_unknown s, (cr_padding s, cr_network_info s))))))
    ((layout_of SecurityConfig) ⊗ (layout_of UserConfig) ⊗ l_u32 ⊗ l_u32 ⊗ l_u32 ⊗
      (layout_of NetworkInfo)).

Record SetAcceptPolicyRequest : Type := {
  sap_accept_policy : Z
}.
#[export] Instance SetAcceptPolicyRequest_layout : HasLayout SetAcceptPolicyRequest :=
  l_iso (fun x0 => Build_SetAcceptPolicyRequest x0)
    (fun s => sap_accept_policy s)
    l_u8.

Record RejectRequest : Type := {
  rej_node_id : Z;
  rej_disconnect_reason : Z
}.
#[export] Instance RejectRequest_layout : HasLayout RejectRequest :=
  l_iso (fun '(x0, x1) => Build_RejectRequest x0 x1)
    (fun s => (rej_node_id s, rej_disconnect_reason s))
    (l_u32 ⊗ l_u32).

(** [MacAddress::operator==] *)
Definition MacAddress_eqb (a b : MacAddress) : bool :=
  bool_decide (take 6 (mac_data a) = take 6 (mac_data b)).

(** [MacAddress::is_zero] and [SessionId::is_zero]: the loop over the bytes. *)
Definition MacAddress_is_zero (a : MacAddress) : bool :=
  forallb (fun b => b =? 0) (take 6 (mac_data a)).
Definition SessionId_is_zero (a : SessionId) : bool :=
  forallb (fun b => b =? 0) (take 16 (sid_data a)).

(** ** The layouts obey the laws *)

#[export] Instance LdnHeader_laws : LayoutLaws (layout_of LdnHeader).
Proof. solve_struct_laws. Qed.

#[export] Instance MacAddress_laws : LayoutLaws (layout_of MacAddress).
Proof. solve_struct_laws. Qed.

#[export] Instance SessionId_laws : LayoutLaws (layout_of SessionId).
Proof. solve_struct_laws. Qed.

#[export] Instance IntentId_laws : LayoutLaws (layout_of IntentId).
Proof. solve_struct_laws. Qed.

#[export] Instance NetworkId_laws : LayoutLaws (layout_of NetworkId).
Proof. solve_struct_laws. Qed.

#[export] Instance Ssid_laws : LayoutLaws (layout_of Ssid).
Proof. solve_struct_laws. Qed.

#[export] Instance NodeInfo_laws : LayoutLaws (layout_of NodeInfo).
Proof. solve_struct_laws. Qed.

#[export] Instance CommonNetworkInfo_laws : LayoutLaws (layout_of CommonNetworkInfo).
Proof. solve_struct_laws. Qed.

#[export] Instance LdnNetworkInfo_laws : LayoutLaws (layout_of LdnNetworkInfo).
Proof. solve_struct_laws. Qed.

#[export] Instance NetworkInfo_laws : LayoutLaws (layout_of NetworkInfo).
Proof. solve_struct_laws. Qed.

#[export] Instance InitializeMessage_laws : LayoutLaws (layout_of InitializeMessage).
Proof. solve_struct_laws. Qed.

#[export] Instance PassphraseMessage_laws : LayoutLaws (layout_of PassphraseMessage).
Proof. solve_struct_laws. Qed.

#[export] Instance PingMessage_laws : LayoutLaws (layout_of PingMessage).
Proof. solve_struct_laws. Qed.

#[export] Instance DisconnectMessage_laws : LayoutLaws (layout_of DisconnectMessage).
Proof. solve_struct_laws. Qed.

#[export] Instance NetworkErrorMessage_laws : LayoutLaws (layout_of NetworkErrorMessage).
Proof. solve_struct_laws. Qed.

#[export] Instance ScanFilter_laws : LayoutLaws (layout_of ScanFilter).
Proof. solve_struct_laws. Qed.

#[export] Instance ProxyInfo_laws : LayoutLaws (layout_of ProxyInfo).
Proof. solve_struct_laws. Qed.

#[export] Instance ProxyDataHeader_laws : LayoutLaws (layout_of ProxyDataHeader).
Proof. solve_struct_laws. Qed.

#[export] Instance ProxyConfig_laws : LayoutLaws (layout_of ProxyConfig).
Proof. solve_struct_laws. Qed.

#[export] Instance ProxyConnectRequest_laws : LayoutLaws (layout_of ProxyConnectRequest).
Proof. solve_struct_laws. Qed.

#[export] Instance ProxyConnectResponse_laws : LayoutLaws (layout_of ProxyConnectResponse).
Proof. solve_struct_laws. Qed.

#[export] Instance ProxyDisconnectMessage_laws : LayoutLaws (layout_of ProxyDisconnectMessage).
Proof. solve_struct_laws. Qed.

#[export] Instance ExternalProxyConfig_laws : LayoutLaws (layout_of ExternalProxyConfig).
Proof. solve_struct_laws. Qed.

#[export] Instance ExternalProxyToken_laws : LayoutLaws (layout_of ExternalProxyToken).
Proof. solve_struct_laws. Qed.

#[export] Instance ExternalProxyConnectionState_laws : LayoutLaws (layout_of ExternalProxyConnectionState).
Proof. solve_struct_laws. Qed.

#[export] Instance SecurityConfig_laws : LayoutLaws (layout_of SecurityConfig).
Proof. solve_struct_laws. Qed.

#[export] Instance SecurityParameter_laws : LayoutLaws (layout_of SecurityParameter).
Proof. solve_struct_laws. Qed.

#[export] Instance AddressEntry_laws : LayoutLaws (layout_of AddressEntry).
Proof. solve_struct_laws. Qed.

#[export] Instance AddressList_laws : LayoutLaws (layout_of AddressList).
Proof. solve_struct_laws. Qed.

#[export] Instance UserConfig_laws : LayoutLaws (layout_of UserConfig).
Proof. solve_struct_laws. Qed.

#[export] Instance NetworkConfig_laws : LayoutLaws (layout_of NetworkConfig).
Proof. solve_struct_laws. Qed.

#[export] Instance RyuNetworkConfig_laws : LayoutLaws (layout_of RyuNetworkConfig).
Proof. solve_struct_laws. Qed.

#[export] Instance CreateAccessPointRequest_laws : LayoutLaws (layout_of CreateAccessPointRequest).
Proof. solve_struct_laws. Qed.

#[export] Instance CreateAccessPointPrivateRequest_laws : LayoutLaws (layout_of CreateAccessPointPrivateRequest).
Proof. solve_struct_laws. Qed.

#[export] Instance ConnectPrivateRequest_laws : LayoutLaws (layout_of ConnectPrivateRequest).
Proof. solve_struct_laws. Qed.

#[export] Instance ScanFilterFull_laws : LayoutLaws (layout_of ScanFilterFull).
Proof. solve_struct_laws. Qed.

#[export] Instance ConnectRequest_laws : LayoutLaws (layout_of ConnectRequest).
Proof. solve_struct_laws. Qed.

#[export] Instance SetAcceptPolicyRequest_laws : LayoutLaws (layout_of SetAcceptPolicyRequest).
Proof. solve_struct_laws. Qed.

#[export] Instance RejectRequest_laws : LayoutLaws (layout_of RejectRequest).
Proof. solve_struct_laws. Qed.

#[export] Instance ProxyInfo_eq_dec : EqDecision ProxyInfo.
Proof. solve_decision. Defined.

Lemma PacketId_of_value_value t : PacketId_of_value (PacketId_value t) = Some t.
Proof. by destruct t. Qed.

Lemma PacketId_of_value_Some z t : PacketId_of_value z = Some t -> PacketId_value t = z.
Proof. intros H%find_some. by destruct H as [_ ?%Z.eqb_eq]. Qed.

Lemma PacketId_value_u8 t : in_u 8 (PacketId_value t) = true.
Proof. by destruct t. Qed.

(** The sizes the [static_assert]s of the source demand of the C++ compiler. *)
Definition static_asserts : list (nat * Z) := [
  (sizeof LdnHeader, 0x0C); (sizeof MacAddress, 6); (sizeof SessionId, 16);
  (sizeof IntentId, 0x10); (sizeof NetworkId, 0x20); (sizeof Ssid, 0x22);
  (sizeof NodeInfo, 0x40); (sizeof CommonNetworkInfo, 0x30);
  (sizeof LdnNetworkInfo, 0x430); (sizeof NetworkInfo, 0x480);
  (sizeof InitializeMessage, 0x16); (sizeof PassphraseMessage, 0x80);
  (sizeof PingMessage, 2); (sizeof DisconnectMessage, 4);
  (sizeof NetworkErrorMessage, 4); (sizeof ProxyInfo, 0x10);
  (sizeof ProxyDataHeader, 0x14); (sizeof ProxyConfig, 8);
  (sizeof ProxyConnectRequest, 0x10); (sizeof ProxyConnectResponse, 0x10);
  (sizeof ProxyDisconnectMessage, 0x14); (sizeof ExternalProxyConfig, 0x26);
  (sizeof ExternalProxyToken, 0x28); (sizeof ExternalProxyConnectionState, 0x08);
  (sizeof SecurityConfig, 0x44); (sizeof SecurityParameter, 0x20);
  (sizeof AddressEntry, 0x0C); (sizeof AddressList, 0x60); (sizeof UserConfig, 0x30);
  (sizeof NetworkConfig, 0x20); (sizeof RyuNetworkConfig, 0x28);
  (sizeof CreateAccessPointRequest, 0xBC);
  (sizeof CreateAccessPointPrivateRequest, 0x13C); (sizeof ConnectPrivateRequest, 0xBC);
  (sizeof ScanFilterFull, 0x60); (sizeof ConnectRequest, 0x500);
  (sizeof SetAcceptPolicyRequest, 1); (sizeof RejectRequest, 8)
].

Lemma static_asserts_hold :
  forallb (fun p => Z.of_nat p.1 =? p.2) static_asserts = true.
Proof. vm_compute. reflexivity. Qed.
