(* ===== verification/Protocol.v ===== *)
(** * Packet encoder and decoder ([protocol/ryu_protocol.hpp])

    A caller's buffer is a [list Z] of bytes together with the [buffer_size]
    argument.  Output parameters are returned: an encoder gives its result,
    the buffer after its writes and [out_size]; a decoder gives its result and
    the decoded values, started from the values the caller passed in, which an
    early return leaves alone.  A pointer argument that may be null is an
    [option]; a pointer the decoder returns into the buffer is an [option]
    offset.  The templates are polymorphic in the layout of [T]. *)

From stdpp Require Import base numbers list.
From Stdlib Require Import ZArith Lia Bool.
From S2P Require Import Prelude Layout Types.

(** ** Result codes *)

Inductive EncodeResult : Set :=
| EncodeResult_Success
| EncodeResult_BufferTooSmall
| EncodeResult_InvalidPacketId.

Inductive DecodeResult : Set :=
| DecodeResult_Success
| DecodeResult_BufferTooSmall
| DecodeResult_InvalidMagic
| DecodeResult_InvalidVersion
| DecodeResult_PacketTooLarge
| DecodeResult_IncompletePacket.

#[export] Instance EncodeResult_eq_dec : EqDecision EncodeResult.
Proof. solve_decision. Defined.
#[export] Instance DecodeResult_eq_dec : EqDecision DecodeResult.
Proof. solve_decision. Defined.

(** [sizeof] in a [size_t] expression. *)
Definition sizeofz (T : Type) `{HasLayout T} : Z := Z.of_nat (sizeof T).

(** ** Encoders *)

Definition get_packet_size (payload_size : Z) : Z :=
  u64 (sizeofz LdnHeader + payload_size).

Definition get_packet_size_of (T : Type) `{HasLayout T} : Z :=
  u64 (sizeofz LdnHeader + sizeofz T).

Definition encode_header (buffer : list Z) (type : PacketId) (data_size : Z)
    : list Z * Z :=
  let header := {| hdr_magic := PROTOCOL_MAGIC;
                   hdr_type := PacketId_value type;
                   hdr_version := PROTOCOL_VERSION;
                   hdr_reserved := 0;
                   hdr_data_size := s32 data_size |} in
  (write_at 0 (bytes_of header) buffer, sizeofz LdnHeader).

Definition encode_empty (buffer : list Z) (buffer_size : Z) (type : PacketId)
    : EncodeResult * list Z * Z :=
  if buffer_size <? sizeofz LdnHeader then (EncodeResult_BufferTooSmall, buffer, 0)
  else
    let '(buffer, out_size) := encode_header buffer type 0 in
    (EncodeResult_Success, buffer, out_size).

Definition encode {T} `{HasLayout T} (buffer : list Z) (buffer_size : Z)
    (type : PacketId) (payload : T) : EncodeResult * list Z * Z :=
  let required := get_packet_size_of T in
  if buffer_size <? required then (EncodeResult_BufferTooSmall, buffer, 0)
  else
    let '(buffer, offset) := encode_header buffer type (sizeofz T) in
    (EncodeResult_Success, write_at offset (bytes_of payload) buffer, required).

(** [if (p && size > 0) memcpy(buffer + offset, p, size)] *)
Definition copy_data (offset : Z) (data : option (list Z)) (size : Z) (buffer : list Z)
    : list Z :=
  match data with
  | Some d => if 0 <? size then write_at offset (ztake size d) buffer else buffer
  | None => buffer
  end.

Definition encode_with_data {T} `{HasLayout T} (buffer : list Z) (buffer_size : Z)
    (type : PacketId) (payload : T) (extra_data : option (list Z)) (extra_size : Z)
    : EncodeResult * list Z * Z :=
  let required := u64 (sizeofz LdnHeader + sizeofz T + extra_size) in
  if buffer_size <? required then (EncodeResult_BufferTooSmall, buffer, 0)
  else
    let '(buffer, offset) :=
      encode_header buffer type (u64 (sizeofz T + s32 extra_size)) in
    let buffer := write_at offset (bytes_of payload) buffer in
    let offset := offset + sizeofz T in
    (EncodeResult_Success, copy_data offset extra_data extra_size buffer, required).

Definition encode_raw (buffer : list Z) (buffer_size : Z) (type : PacketId)
    (data : option (list Z)) (data_size : Z) : EncodeResult * list Z * Z :=
  let required := u64 (sizeofz LdnHeader + data_size) in
  if buffer_size <? required then (EncodeResult_BufferTooSmall, buffer, 0)
  else
    let '(buffer, offset) := encode_header buffer type (s32 data_size) in
    (EncodeResult_Success, copy_data offset data data_size buffer, required).

(** ** Encoders of the message types *)

Definition encode_initialize (buffer : list Z) (buffer_size : Z) (id : SessionId)
    (mac : MacAddress) : EncodeResult * list Z * Z :=
  encode buffer buffer_size PacketId_Initialize
    {| init_id := id; init_mac_address := mac |}.

Definition encode_passphrase (buffer : list Z) (buffer_size : Z)
    (passphrase : option (list Z)) (passphrase_len : Z) : EncodeResult * list Z * Z :=
  let copy_len := if passphrase_len <? 128 then passphrase_len else 128 in
  let bytes := copy_data 0 passphrase copy_len (repeat 0 128) in
  encode buffer buffer_size PacketId_Passphrase {| pass_passphrase := bytes |}.

Definition encode_ping (buffer : list Z) (buffer_size requester id : Z)
    : EncodeResult * list Z * Z :=
  encode buffer buffer_size PacketId_Ping {| ping_requester := requester; ping_id := id |}.

Definition encode_disconnect (buffer : list Z) (buffer_size disconnect_ip : Z)
    : EncodeResult * list Z * Z :=
  encode buffer buffer_size PacketId_Disconnect {| disc_disconnect_ip := disconnect_ip |}.

Definition encode_scan (buffer : list Z) (buffer_size : Z) (filter : ScanFilterFull)
    : EncodeResult * list Z * Z :=
  encode buffer buffer_size PacketId_Scan filter.

Definition encode_connect (buffer : list Z) (buffer_size : Z) (request : ConnectRequest)
    : EncodeResult * list Z * Z :=
  encode buffer buffer_size PacketId_Connect request.

Definition encode_create_access_point (buffer : list Z) (buffer_size : Z)
    (request : CreateAccessPointRequest) (advertise_data : option (list Z))
    (advertise_size : Z) : EncodeResult * list Z * Z :=
  encode_with_data buffer buffer_size PacketId_CreateAccessPoint request
    advertise_data advertise_size.

Definition encode_set_accept_policy (buffer : list Z) (buffer_size : Z)
    (policy : AcceptPolicy) : EncodeResult * list Z * Z :=
  encode buffer buffer_size PacketId_SetAcceptPolicy
    {| sap_accept_policy := AcceptPolicy_value policy |}.

Definition encode_set_advertise_data (buffer : list Z) (buffer_size : Z)
    (data : option (list Z)) (data_size : Z) : EncodeResult * list Z * Z :=
  encode_raw buffer buffer_size PacketId_SetAdvertiseData data data_size.

Definition encode_proxy_data (buffer : list Z) (buffer_size : Z) (info : ProxyInfo)
    (data : option (list Z)) (data_size : Z) : EncodeResult * list Z * Z :=
  encode_with_data buffer buffer_size PacketId_ProxyData
    {| pdh_info := info; pdh_data_length := u32 data_size |} data data_size.

Definition encode_scan_reply_end (buffer : list Z) (buffer_size : Z)
    : EncodeResult * list Z * Z :=
  encode_empty buffer buffer_size PacketId_ScanReplyEnd.

Definition encode_reject_reply (buffer : list Z) (buffer_size : Z)
    : EncodeResult * list Z * Z :=
  encode_empty buffer buffer_size PacketId_RejectReply.

Definition encode_network_info (buffer : list Z) (buffer_size : Z) (type : PacketId)
    (info : NetworkInfo) : EncodeResult * list Z * Z :=
  encode buffer buffer_size type info.

(** ** Decoders *)

Definition has_header (buffer_size : Z) : bool := sizeofz LdnHeader <=? buffer_size.

Definition decode_header (buffer : list Z) (buffer_size : Z) (header : LdnHeader)
    : DecodeResult * LdnHeader :=
  if buffer_size <? sizeofz LdnHeader then (DecodeResult_BufferTooSmall, header)
  else
    let header := of_bytes (A:=LdnHeader) buffer in
    if negb (hdr_magic header =? PROTOCOL_MAGIC) then (DecodeResult_InvalidMagic, header)
    else if negb (hdr_version header =? PROTOCOL_VERSION)
    then (DecodeResult_InvalidVersion, header)
    else if (hdr_data_size header <? 0) || (MAX_PACKET_SIZE <? u64 (hdr_data_size header))
    then (DecodeResult_PacketTooLarge, header)
    else (DecodeResult_Success, header).

Definition check_complete_packet (buffer : list Z) (buffer_size : Z)
    : DecodeResult * Z :=
  let '(result, header) := decode_header buffer buffer_size (zeroed LdnHeader) in
  match result with
  | DecodeResult_Success =>
      let packet_size := u64 (sizeofz LdnHeader + u64 (hdr_data_size header)) in
      if buffer_size <? packet_size then (DecodeResult_IncompletePacket, packet_size)
      else (DecodeResult_Success, packet_size)
  | _ => (result, 0)
  end.

(** The cast [static_cast<PacketId>(header.type)] keeps the raw type byte. *)
Definition get_packet_type (buffer : list Z) : Z := hdr_type (of_bytes buffer).
Definition get_payload_size (buffer : list Z) : Z := hdr_data_size (of_bytes buffer).
Definition get_payload_ptr (buffer : list Z) : list Z := zdrop (sizeofz LdnHeader) buffer.

Definition decode {T} `{HasLayout T} (buffer : list Z) (buffer_size : Z)
    (header : LdnHeader) (payload : T) : DecodeResult * LdnHeader * T :=
  let '(result, header) := decode_header buffer buffer_size header in
  match result with
  | DecodeResult_Success =>
      let expected_size := u64 (sizeofz LdnHeader + sizeofz T) in
      if buffer_size <? expected_size then (DecodeResult_BufferTooSmall, header, payload)
      else (DecodeResult_Success, header, of_bytes (get_payload_ptr buffer))
  | _ => (result, header, payload)
  end.

(** Result, header, payload, and the pointer to and size of the extra data. *)
Definition decode_with_data {T} `{HasLayout T} (buffer : list Z) (buffer_size : Z)
    (header : LdnHeader) (payload : T) : DecodeResult * LdnHeader * T * option Z * Z :=
  let '(result, header) := decode_header buffer buffer_size header in
  match result with
  | DecodeResult_Success =>
      let min_size := u64 (sizeofz LdnHeader + sizeofz T) in
      if buffer_size <? min_size
      then (DecodeResult_BufferTooSmall, header, payload, None, 0)
      else
        let payload := of_bytes (get_payload_ptr buffer) in
        let total_payload := u64 (hdr_data_size header) in
        if sizeofz T <? total_payload then
          if buffer_size <? u64 (sizeofz LdnHeader + total_payload)
          then (DecodeResult_IncompletePacket, header, payload, None, 0)
          else (DecodeResult_Success, header, payload,
                Some (sizeofz LdnHeader + sizeofz T), total_payload - sizeofz T)
        else (DecodeResult_Success, header, payload, None, 0)
  | _ => (result, header, payload, None, 0)
  end.

Definition decode_raw (buffer : list Z) (buffer_size : Z) (header : LdnHeader)
    : DecodeResult * LdnHeader * option Z * Z :=
  let '(result, header) := decode_header buffer buffer_size header in
  match result with
  | DecodeResult_Success =>
      let data_size := u64 (hdr_data_size header) in
      let total_size := u64 (sizeofz LdnHeader + data_size) in
      if buffer_size <? total_size then (DecodeResult_IncompletePacket, header, None, 0)
      else (DecodeResult_Success, header,
            if 0 <? data_size then Some (sizeofz LdnHeader) else None, data_size)
  | _ => (result, header, None, 0)
  end.

(** ** Decoders of the message types *)

Definition decode_initialize (b : list Z) (n : Z) (h : LdnHeader) (m : InitializeMessage) :=
  decode b n h m.
Definition decode_passphrase (b : list Z) (n : Z) (h : LdnHeader) (m : PassphraseMessage) :=
  decode b n h m.
Definition decode_ping (b : list Z) (n : Z) (h : LdnHeader) (m : PingMessage) :=
  decode b n h m.
Definition decode_disconnect (b : list Z) (n : Z) (h : LdnHeader) (m : DisconnectMessage) :=
  decode b n h m.
Definition decode_network_info (b : list Z) (n : Z) (h : LdnHeader) (m : NetworkInfo) :=
  decode b n h m.
Definition decode_scan (b : list Z) (n : Z) (h : LdnHeader) (m : ScanFilterFull) :=
  decode b n h m.
Definition decode_connect (b : list Z) (n : Z) (h : LdnHeader) (m : ConnectRequest) :=
  decode b n h m.
Definition decode_create_access_point (b : list Z) (n : Z) (h : LdnHeader)
    (m : CreateAccessPointRequest) :=
  decode_with_data b n h m.
Definition decode_set_accept_policy (b : list Z) (n : Z) (h : LdnHeader)
    (m : SetAcceptPolicyRequest) :=
  decode b n h m.
Definition decode_set_advertise_data (b : list Z) (n : Z) (h : LdnHeader) :=
  decode_raw b n h.
Definition decode_proxy_data (b : list Z) (n : Z) (h : LdnHeader) (m : ProxyDataHeader) :=
  decode_with_data b n h m.
Definition decode_proxy_connect (b : list Z) (n : Z) (h : LdnHeader)
    (m : ProxyConnectRequest) :=
  decode b n h m.
Definition decode_proxy_connect_reply (b : list Z) (n : Z) (h : LdnHeader)
    (m : ProxyConnectResponse) :=
  decode b n h m.
Definition decode_proxy_disconnect (b : list Z) (n : Z) (h : LdnHeader)
    (m : ProxyDisconnectMessage) :=
  decode b n h m.
Definition decode_reject (b : list Z) (n : Z) (h : LdnHeader) (m : RejectRequest) :=
  decode b n h m.

(** ** The packet on the wire *)

(** What every encoder writes and every decoder expects: the header of [type]
    with the length of the body, then the body. *)
Definition packet_header (type : PacketId) (body_size : Z) : LdnHeader := {|
  hdr_magic := PROTOCOL_MAGIC;
  hdr_type := PacketId_value type;
  hdr_version := PROTOCOL_VERSION;
  hdr_reserved := 0;
  hdr_data_size := body_size
|}.

Definition wire_packet (type : PacketId) (body : list Z) : list Z :=
  bytes_of (packet_header type (zlen body)) ++ body.

(** A body the decoders accept. *)
Definition body_ok (body : list Z) : bool :=
  bytes_ok body && (zlen body <=? MAX_PACKET_SIZE).

(** ** Lemmas *)

Lemma sizeofz_header : sizeofz LdnHeader = 12.
Proof. reflexivity. Qed.

Lemma sizeofz_nonneg T `{HasLayout T} : 0 <= sizeofz T.
Proof. unfold sizeofz. lia. Qed.

Lemma zlen_bytes_of `{HasLayout T} `{!LayoutLaws (layout_of T)} (a : T) :
  wf a = true -> zlen (bytes_of a) = sizeofz T.
Proof. intros Ha. unfold zlen. by rewrite length_bytes_of. Qed.

Lemma packet_header_wf type n :
  0 <= n <= MAX_PACKET_SIZE -> wf (packet_header type n) = true.
Proof.
  unfold MAX_PACKET_SIZE. intros Hn. pose proof (PacketId_value_u8 type) as Ht.
  change (in_u 32 PROTOCOL_MAGIC && (in_u 8 (PacketId_value type) &&
    (true && (true && in_s 32 n))) = true).
  rewrite Ht, (proj2 (in_s_spec 32 n)) by lia. done.
Qed.

Lemma zlen_packet_header type n : zlen (bytes_of (packet_header type n)) = 12.
Proof. reflexivity. Qed.

Lemma zlen_wire_packet type body : zlen (wire_packet type body) = 12 + zlen body.
Proof. unfold wire_packet. by rewrite zlen_app, zlen_packet_header. Qed.

Lemma body_ok_spec body :
  body_ok body = true <-> bytes_ok body = true /\ zlen body <= MAX_PACKET_SIZE.
Proof. unfold body_ok. by rewrite andb_true_iff, Z.leb_le. Qed.

Lemma wire_packet_bytes type body :
  body_ok body = true -> bytes_ok (wire_packet type body) = true.
Proof.
  intros [Hb Hn]%body_ok_spec. unfold wire_packet. rewrite bytes_ok_app, Hb.
  rewrite bytes_of_ok; [done|]. apply packet_header_wf. pose proof (zlen_nonneg body). lia.
Qed.

Lemma of_bytes_wire_packet type body k :
  zlen body <= MAX_PACKET_SIZE ->
  of_bytes (wire_packet type body ++ k) = packet_header type (zlen body).
Proof.
  intros. unfold wire_packet. rewrite <- app_assoc. apply of_bytes_of.
  apply packet_header_wf. pose proof (zlen_nonneg body). lia.
Qed.

Lemma payload_of_wire_packet type body k :
  get_payload_ptr (wire_packet type body ++ k) = body ++ k.
Proof.
  unfold get_payload_ptr, wire_packet. rewrite <- app_assoc.
  apply zdrop_app. by rewrite zlen_packet_header.
Qed.

(** Writing the header and then a body writes the packet. *)
Lemma write_header_body type data_size body buffer :
  s32 data_size = zlen body -> 12 + zlen body <= zlen buffer ->
  write_at 12 body (encode_header buffer type data_size).1
  = write_at 0 (wire_packet type body) buffer.
Proof.
  intros Hs Hl. unfold encode_header, wire_packet. cbn [fst].
  fold (packet_header type (s32 data_size)). rewrite Hs.
  pose proof (write_at_app 0 (bytes_of (packet_header type (zlen body))) body buffer) as H.
  rewrite zlen_packet_header in H. apply H; lia.
Qed.

(** *** Encoders write the packet *)

Section encode_specs.
Context `{HasLayout T} `{!LayoutLaws (layout_of T)}.

Lemma encode_ok buffer buffer_size type (payload : T) :
  wf payload = true -> sizeofz T <= MAX_PACKET_SIZE ->
  12 + sizeofz T <= buffer_size <= zlen buffer ->
  encode buffer buffer_size type payload =
    (EncodeResult_Success, write_at 0 (wire_packet type (bytes_of payload)) buffer,
     12 + sizeofz T).
Proof.
  unfold MAX_PACKET_SIZE. intros Hwf HT Hb. pose proof (sizeofz_nonneg T).
  pose proof (zlen_bytes_of payload Hwf) as Hlen.
  unfold encode, get_packet_size_of. rewrite sizeofz_header, u64_small by lia.
  rewrite (proj2 (Z.ltb_ge _ _)) by lia.
  destruct (encode_header buffer type (sizeofz T)) as [b off] eqn:He.
  assert (off = 12) as -> by (by inversion He).
  pose proof (write_header_body type (sizeofz T) (bytes_of payload) buffer) as Hw.
  rewrite He in Hw. cbn [fst] in Hw. rewrite Hw; [done| |]; rewrite Hlen; [|lia].
  apply s32_small. lia.
Qed.

Lemma encode_with_data_ok buffer buffer_size type (payload : T) data :
  wf payload = true -> sizeofz T + zlen data <= MAX_PACKET_SIZE ->
  12 + sizeofz T + zlen data <= buffer_size <= zlen buffer ->
  encode_with_data buffer buffer_size type payload (Some data) (zlen data) =
    (EncodeResult_Success,
     write_at 0 (wire_packet type (bytes_of payload ++ data)) buffer,
     12 + sizeofz T + zlen data).
Proof.
  unfold MAX_PACKET_SIZE. intros Hwf HT Hb. pose proof (sizeofz_nonneg T).
  pose proof (zlen_nonneg data). pose proof (zlen_bytes_of payload Hwf) as Hlen.
  unfold encode_with_data. rewrite sizeofz_header, (u64_small (12 + _ + _)) by lia.
  rewrite (proj2 (Z.ltb_ge _ _)), s32_small, u64_small by lia.
  destruct (encode_header _ _ _) as [b off] eqn:He.
  assert (off = 12) as -> by (by inversion He).
  assert (zlen b = zlen buffer) as Hzb.
  { inversion He. fold (packet_header type (s32 (sizeofz T + zlen data))).
    apply zlen_write_at; rewrite ?zlen_packet_header; lia. }
  assert (copy_data (12 + sizeofz T) (Some data) (zlen data)
    (write_at 12 (bytes_of payload) b) = write_at 12 (bytes_of payload ++ data) b) as ->.
  { rewrite <- write_at_app, Hlen by lia. unfold copy_data.
    destruct (Z.ltb_spec 0 (zlen data)); [by rewrite ztake_all by lia|].
    destruct data; [|unfold zlen in *; simpl in *; lia].
    rewrite write_at_nil by lia. done. }
  pose proof (write_header_body type (sizeofz T + zlen data)
    (bytes_of payload ++ data) buffer) as Hw.
  rewrite He in Hw. cbn [fst] in Hw. rewrite Hw; [done| |]; rewrite zlen_app, Hlen; [|lia].
  apply s32_small. lia.
Qed.
End encode_specs.

Lemma encode_raw_ok buffer buffer_size type data :
  zlen data < 2147483648 -> 12 + zlen data <= buffer_size <= zlen buffer ->
  encode_raw buffer buffer_size type (Some data) (zlen data) =
    (EncodeResult_Success, write_at 0 (wire_packet type data) buffer, 12 + zlen data).
Proof.
  intros HT Hb. pose proof (zlen_nonneg data).
  unfold encode_raw. rewrite sizeofz_header, (u64_small (12 + _)) by lia.
  rewrite (proj2 (Z.ltb_ge _ _)), s32_small by lia.
  destruct (encode_header _ _ _) as [b off] eqn:He.
  assert (off = 12) as -> by (by inversion He).
  assert (copy_data 12 (Some data) (zlen data) b = write_at 12 data b) as ->.
  { unfold copy_data. destruct (Z.ltb_spec 0 (zlen data)); [by rewrite ztake_all by lia|].
    destruct data; [|unfold zlen in *; simpl in *; lia]. by rewrite write_at_nil by lia. }
  pose proof (write_header_body type (zlen data) data buffer) as Hw.
  rewrite He in Hw. cbn [fst] in Hw. rewrite Hw; [done|apply s32_small; lia|lia].
Qed.

(** *** Decoders read the packet *)

Lemma decode_header_spec buffer buffer_size h :
  decode_header buffer buffer_size h =
    if buffer_size <? 12 then (DecodeResult_BufferTooSmall, h)
    else
      let hd := of_bytes buffer in
      (if negb (hdr_magic hd =? PROTOCOL_MAGIC) then DecodeResult_InvalidMagic
       else if negb (hdr_version hd =? PROTOCOL_VERSION) then DecodeResult_InvalidVersion
       else if (hdr_data_size hd <? 0) || (MAX_PACKET_SIZE <? u64 (hdr_data_size hd))
       then DecodeResult_PacketTooLarge else DecodeResult_Success, hd).
Proof. unfold decode_header. rewrite sizeofz_header. repeat case_if; done. Qed.

(** A buffer that starts with a valid header. *)
Lemma decode_header_front type n k buffer_size h :
  0 <= n <= MAX_PACKET_SIZE -> 12 <= buffer_size ->
  decode_header (bytes_of (packet_header type n) ++ k) buffer_size h =
    (DecodeResult_Success, packet_header type n).
Proof.
  intros Hn Hb. rewrite decode_header_spec, (proj2 (Z.ltb_ge _ _)) by lia.
  rewrite of_bytes_of by (by apply packet_header_wf). cbn zeta.
  unfold MAX_PACKET_SIZE in *.
  cbn [packet_header hdr_magic hdr_version hdr_data_size]. rewrite !Z.eqb_refl.
  rewrite u64_small by lia. unfold MAX_PACKET_SIZE.
  rewrite !(proj2 (Z.ltb_ge _ _)) by lia. done.
Qed.

Lemma check_complete_packet_front type n k buffer_size :
  0 <= n <= MAX_PACKET_SIZE -> 12 <= buffer_size ->
  check_complete_packet (bytes_of (packet_header type n) ++ k) buffer_size =
    (if buffer_size <? 12 + n then DecodeResult_IncompletePacket
     else DecodeResult_Success, 12 + n).
Proof.
  intros Hn Hb. unfold check_complete_packet. rewrite decode_header_front by done.
  unfold MAX_PACKET_SIZE in *. cbn [packet_header hdr_data_size].
  rewrite sizeofz_header, !u64_small by (rewrite ?u64_small; lia). by case_if.
Qed.

Lemma decode_header_packet type body k buffer_size h :
  zlen body <= MAX_PACKET_SIZE -> 12 <= buffer_size ->
  decode_header (wire_packet type body ++ k) buffer_size h =
    (DecodeResult_Success, packet_header type (zlen body)).
Proof.
  intros Hl Hb. unfold wire_packet. rewrite <- app_assoc.
  apply decode_header_front; pose proof (zlen_nonneg body); lia.
Qed.

Lemma decode_packet `{HasLayout T} `{!LayoutLaws (layout_of T)} type body k buffer_size
    h (p : T) :
  zlen body <= MAX_PACKET_SIZE -> sizeofz T <= MAX_PACKET_SIZE -> 12 <= buffer_size ->
  decode (wire_packet type body ++ k) buffer_size h p =
    if buffer_size <? 12 + sizeofz T
    then (DecodeResult_BufferTooSmall, packet_header type (zlen body), p)
    else (DecodeResult_Success, packet_header type (zlen body), of_bytes (body ++ k)).
Proof.
  intros Hl HT Hb. pose proof (sizeofz_nonneg T). unfold MAX_PACKET_SIZE in *.
  unfold decode. rewrite decode_header_packet by done.
  rewrite sizeofz_header, u64_small, payload_of_wire_packet by lia. done.
Qed.

Lemma ztake_packet_written type body buffer n :
  n = 12 + zlen body -> n <= zlen buffer ->
  ztake n (write_at 0 (wire_packet type body) buffer) = wire_packet type body.
Proof. intros -> Hl. apply ztake_write_at_0; rewrite zlen_wire_packet; lia. Qed.

(** A write of a packet at the front, as the packet and what follows it. *)
Lemma packet_written_split type body buffer :
  12 + zlen body <= zlen buffer ->
  write_at 0 (wire_packet type body) buffer =
    wire_packet type body ++ zdrop (12 + zlen body) buffer.
Proof. intros Hl. unfold write_at. by rewrite zlen_wire_packet. Qed.

(** ** Properties *)

(** C1: encoding a structure into a large enough buffer and decoding the
    written packet gives the structure back, for every wire structure; the
    header read back carries the packet type and the structure's size. *)
Theorem encode_decode_roundtrip `{HasLayout T} `{!LayoutLaws (layout_of T)}
    buffer buffer_size type (payload : T) h p :
  wf payload = true -> sizeofz T <= MAX_PACKET_SIZE ->
  12 + sizeofz T <= buffer_size <= zlen buffer ->
  exists buffer' out_size,
    encode buffer buffer_size type payload = (EncodeResult_Success, buffer', out_size)
    /\ out_size = 12 + sizeofz T /\ zlen buffer' = zlen buffer
    /\ decode buffer' out_size h p =
         (DecodeResult_Success, packet_header type (sizeofz T), payload).
Proof.
  intros Hwf HT Hb. pose proof (sizeofz_nonneg T). pose proof (zlen_bytes_of payload Hwf).
  do 2 eexists. split_and!; [by apply encode_ok|done| |].
  - apply zlen_write_at; rewrite ?zlen_wire_packet; lia.
  - rewrite packet_written_split, decode_packet by lia.
    rewrite (proj2 (Z.ltb_ge _ _)), of_bytes_of by (done || lia). congruence.
Qed.

Lemma encode_decode_roundtrip_witness :
  exists buffer' out_size,
    encode (repeat 0 64) 64 PacketId_Ping {| ping_requester := 1; ping_id := 7 |}
      = (EncodeResult_Success, buffer', out_size)
    /\ out_size = 12 + sizeofz PingMessage /\ zlen buffer' = zlen (repeat 0 64)
    /\ decode buffer' out_size (zeroed LdnHeader) (zeroed PingMessage) =
         (DecodeResult_Success, packet_header PacketId_Ping (sizeofz PingMessage),
          {| ping_requester := 1; ping_id := 7 |}).
Proof. apply encode_decode_roundtrip; [reflexivity|by vm_compute|by vm_compute]. Defined.

(** [encode_with_data] followed by [decode_with_data] returns the
    structure together with a pointer to exactly the extra bytes; with no extra
    bytes the pointer is null and the size 0. *)
Theorem encode_with_data_roundtrip `{HasLayout T} `{!LayoutLaws (layout_of T)}
    buffer buffer_size type (payload : T) data h p :
  wf payload = true -> sizeofz T + zlen data <= MAX_PACKET_SIZE ->
  12 + sizeofz T + zlen data <= buffer_size <= zlen buffer ->
  exists buffer' out_size ptr,
    encode_with_data buffer buffer_size type payload (Some data) (zlen data)
      = (EncodeResult_Success, buffer', out_size)
    /\ decode_with_data buffer' out_size h p =
         (DecodeResult_Success, packet_header type (sizeofz T + zlen data), payload,
          ptr, zlen data)
    /\ match ptr with
       | None => data = []
       | Some off => off + zlen data = out_size /\ ztake (zlen data) (zdrop off buffer') = data
       end.
Proof.
  intros Hwf HT Hb. pose proof (sizeofz_nonneg T). pose proof (zlen_nonneg data).
  pose proof (zlen_bytes_of payload Hwf) as Hlen. unfold MAX_PACKET_SIZE in *.
  assert (zlen (bytes_of payload ++ data) = sizeofz T + zlen data) as Hbody
    by (rewrite zlen_app; lia).
  exists (write_at 0 (wire_packet type (bytes_of payload ++ data)) buffer).
  exists (12 + sizeofz T + zlen data).
  exists (if sizeofz T <? sizeofz T + zlen data then Some (12 + sizeofz T) else None).
  split_and!; [by apply encode_with_data_ok| |].
  - rewrite packet_written_split by lia. unfold decode_with_data.
    rewrite decode_header_packet, Hbody by (unfold MAX_PACKET_SIZE; lia).
    cbn [packet_header hdr_data_size].
    rewrite sizeofz_header, payload_of_wire_packet, !u64_small
      by (rewrite ?(u64_small (_ + zlen data)); lia).
    rewrite <- app_assoc, of_bytes_of by done. zcases; first [lia | do 2 f_equal; lia].
  - destruct (Z.ltb_spec (sizeofz T) (sizeofz T + zlen data)).
    + split; [done|]. rewrite packet_written_split by lia. unfold wire_packet.
      rewrite <- !app_assoc, (app_assoc _ (bytes_of payload)), zdrop_app.
      * by apply ztake_app.
      * rewrite zlen_app, zlen_packet_header, Hlen. lia.
    + destruct data; [done|]. unfold zlen in *. simpl in *. lia.
Qed.

Lemma encode_with_data_roundtrip_witness :
  exists buffer' out_size ptr,
    encode_with_data (repeat 0 64) 64 PacketId_ProxyData
      {| pdh_info := zeroed ProxyInfo; pdh_data_length := 3 |} (Some [1; 2; 3]) (zlen [1; 2; 3])
      = (EncodeResult_Success, buffer', out_size)
    /\ decode_with_data buffer' out_size (zeroed LdnHeader) (zeroed ProxyDataHeader) =
         (DecodeResult_Success,
          packet_header PacketId_ProxyData (sizeofz ProxyDataHeader + zlen [1; 2; 3]),
          {| pdh_info := zeroed ProxyInfo; pdh_data_length := 3 |}, ptr, zlen [1; 2; 3])
    /\ match ptr with
       | None => [1; 2; 3] = []
       | Some off => off + zlen [1; 2; 3] = out_size
                     /\ ztake (zlen [1; 2; 3]) (zdrop off buffer') = [1; 2; 3]
       end.
Proof. apply encode_with_data_roundtrip; [reflexivity|by vm_compute|by vm_compute]. Defined.

Lemma header_size_ok z :
  in_s 32 z = true ->
  (z <? 0) || (MAX_PACKET_SIZE <? u64 z) = false <-> 0 <= z <= MAX_PACKET_SIZE.
Proof.
  intros Hz%in_s_spec. cbn in Hz. unfold MAX_PACKET_SIZE.
  rewrite orb_false_iff, !Z.ltb_ge.
  split; [|intros [??]; rewrite u64_small by lia; lia].
  intros [H0 H1]. rewrite u64_small in H1 by lia. lia.
Qed.

Lemma wf_header_size hd : wf hd = true -> in_s 32 (hdr_data_size hd) = true.
Proof.
  destruct hd as [m t v r s]. intros H.
  change (in_u 32 m && (in_u 8 t && (in_u 8 v && (in_u 16 r && in_s 32 s))) = true) in H.
  zbool. done.
Qed.

(** [decode_header] accepts exactly the buffers of at least 12 bytes that
    start with the representation of a header with the protocol's magic and
    version and a data size between 0 and 128 KB, and returns that header. *)
Theorem decode_header_exact buffer buffer_size h hd :
  bytes_ok buffer = true -> 0 <= buffer_size <= zlen buffer ->
  decode_header buffer buffer_size h = (DecodeResult_Success, hd) <->
  (12 <= buffer_size /\ wf hd = true /\ ztake 12 buffer = bytes_of hd
   /\ hdr_magic hd = PROTOCOL_MAGIC /\ hdr_version hd = PROTOCOL_VERSION
   /\ 0 <= hdr_data_size hd <= MAX_PACKET_SIZE).
Proof.
  intros Hb Hn. rewrite decode_header_spec. split.
  - destruct (Z.ltb_spec buffer_size 12); [done|]. cbn zeta. intros Heq.
    assert (of_bytes buffer = hd) as Hhd by congruence. rewrite Hhd in Heq.
    assert (sizeof LdnHeader <= length buffer)%nat as Hl
      by (change (sizeof LdnHeader) with 12%nat; unfold zlen in *; lia).
    assert (wf hd = true) as Hwf by (subst hd; by apply wf_of_bytes).
    repeat case_if; try discriminate.
    repeat match goal with E : negb _ = false |- _ => apply negb_false_iff, Z.eqb_eq in E end.
    split_and!; auto.
    + subst hd. by rewrite (bytes_of_of_bytes (A:=LdnHeader) buffer) by done.
    + subst hd. by apply header_size_ok; [apply wf_header_size|].
    + subst hd. by apply header_size_ok; [apply wf_header_size|].
  - intros (Hs & Hwf & Ht & Hm & Hv & Hd).
    rewrite (proj2 (Z.ltb_ge _ _)) by lia. cbn zeta.
    assert (of_bytes buffer = hd) as ->.
    { rewrite <- (ztake_zdrop 12 buffer), Ht. by apply of_bytes_of. }
    rewrite Hm, Hv, !Z.eqb_refl, (proj2 (header_size_ok _ (wf_header_size _ Hwf)) Hd). done.
Qed.

Lemma decode_header_exact_witness :
  decode_header (wire_packet PacketId_ScanReplyEnd []) 12 (zeroed LdnHeader)
    = (DecodeResult_Success, packet_header PacketId_ScanReplyEnd 0) <->
  (12 <= 12 /\ wf (packet_header PacketId_ScanReplyEnd 0) = true
   /\ ztake 12 (wire_packet PacketId_ScanReplyEnd [])
      = bytes_of (packet_header PacketId_ScanReplyEnd 0)
   /\ hdr_magic (packet_header PacketId_ScanReplyEnd 0) = PROTOCOL_MAGIC
   /\ hdr_version (packet_header PacketId_ScanReplyEnd 0) = PROTOCOL_VERSION
   /\ 0 <= hdr_data_size (packet_header PacketId_ScanReplyEnd 0) <= MAX_PACKET_SIZE).
Proof. apply decode_header_exact; [reflexivity|by vm_compute]. Defined.

(** the encoders do not enforce the decoder's limit.  A raw packet whose
    data is longer than [MAX_PACKET_SIZE] is encoded successfully, and what was
    written is refused by [decode_raw] with [PacketTooLarge]. *)
Theorem encode_raw_oversized buffer buffer_size type data h :
  MAX_PACKET_SIZE < zlen data < 2147483648 ->
  12 + zlen data <= buffer_size <= zlen buffer ->
  exists buffer' out_size,
    encode_raw buffer buffer_size type (Some data) (zlen data)
      = (EncodeResult_Success, buffer', out_size)
    /\ (decode_raw buffer' out_size h).1.1.1 = DecodeResult_PacketTooLarge.
Proof.
  unfold MAX_PACKET_SIZE. intros Hd Hb.
  do 2 eexists. split; [apply encode_raw_ok; lia|].
  unfold decode_raw. rewrite decode_header_spec, (proj2 (Z.ltb_ge _ _)) by lia.
  rewrite packet_written_split by lia. unfold wire_packet. rewrite <- app_assoc.
  assert (wf (packet_header type (zlen data)) = true) as Hwf.
  { pose proof (PacketId_value_u8 type) as Ht.
    change (in_u 32 PROTOCOL_MAGIC && (in_u 8 (PacketId_value type) &&
      (true && (true && in_s 32 (zlen data)))) = true).
    rewrite Ht, (proj2 (in_s_spec 32 (zlen data))) by lia. done. }
  rewrite of_bytes_of by done.
  cbn [packet_header hdr_magic hdr_version hdr_data_size]. rewrite !Z.eqb_refl.
  rewrite u64_small by lia. unfold MAX_PACKET_SIZE.
  rewrite (proj2 (Z.ltb_lt 131072 _)), orb_true_r by lia. done.
Qed.

Lemma zlen_repeat {A} (x : A) n : zlen (repeat x n) = Z.of_nat n.
Proof. unfold zlen. by rewrite repeat_length. Qed.

Lemma encode_raw_oversized_witness :
  exists buffer' out_size,
    encode_raw (repeat 0 (Z.to_nat 200000)) 200000 PacketId_SetAdvertiseData
      (Some (repeat 1 (Z.to_nat 131073))) (zlen (repeat 1 (Z.to_nat 131073)))
      = (EncodeResult_Success, buffer', out_size)
    /\ (decode_raw buffer' out_size (zeroed LdnHeader)).1.1.1 = DecodeResult_PacketTooLarge.
Proof.
  apply encode_raw_oversized; rewrite !zlen_repeat, ?Z2Nat.id; unfold MAX_PACKET_SIZE; lia.
Defined.

(** [decode] compares the structure's size with the bytes in the buffer,
    not with the packet's own data size.  A packet whose body is too short for
    [T] is decoded successfully whenever enough further bytes follow it, and
    the payload is completed with those bytes, which belong to the next packet. *)
Theorem decode_reads_past_packet `{HasLayout T} `{!LayoutLaws (layout_of T)}
    type body next h (p : T) :
  zlen body < sizeofz T <= MAX_PACKET_SIZE -> sizeofz T <= zlen (body ++ next) ->
  decode (wire_packet type body ++ next) (zlen (wire_packet type body ++ next)) h p =
    (DecodeResult_Success, packet_header type (zlen body), of_bytes (body ++ next)).
Proof.
  intros Hb Hn. rewrite zlen_app in Hn. pose proof (zlen_nonneg body).
  pose proof (zlen_nonneg next). rewrite zlen_app, zlen_wire_packet.
  rewrite decode_packet by lia. rewrite (proj2 (Z.ltb_ge _ _)) by lia. done.
Qed.

Lemma decode_reads_past_packet_witness :
  decode_ping (wire_packet PacketId_Ping [] ++ wire_packet PacketId_Ping [0; 9])
    (zlen (wire_packet PacketId_Ping [] ++ wire_packet PacketId_Ping [0; 9]))
    (zeroed LdnHeader) (zeroed PingMessage)
  = (DecodeResult_Success, packet_header PacketId_Ping 0,
     of_bytes ([] ++ wire_packet PacketId_Ping [0; 9])).
Proof. apply (decode_reads_past_packet (T:=PingMessage)); by vm_compute. Defined.
