(* ===== verification/PacketBuffer.v ===== *)
(** * TCP stream buffer ([protocol/packet_buffer.hpp])

    [PacketBuffer<BufferSize>]: a linear byte array with a write position.
    The state keeps the whole array, the bytes behind the write position
    included; [contents] are the bytes a client can see, and [buf_sim], the
    equality of contents, is respected by the operations.  [drain] is the
    loop the receivers run over the buffer (the usage example of the class,
    [P2pProxyClient::ReceiveLoop] and [P2pProxySession::ReceiveLoop]). *)

From stdpp Require Import base numbers list.
From Stdlib Require Import ZArith Lia Bool.
From S2P Require Import Prelude Layout Types Protocol.

Inductive BufferResult : Set :=
| BufferResult_Success
| BufferResult_BufferFull
| BufferResult_NoCompletePacket
| BufferResult_PacketTooLarge
| BufferResult_InvalidPacket.

#[export] Instance BufferResult_eq_dec : EqDecision BufferResult.
Proof. solve_decision. Defined.

Record PacketBuffer : Type := {
  m_buffer : list Z;
  m_write_pos : Z
}.

Section PacketBuffer.
Context (BufferSize : Z).

(** The constructor leaves the array uninitialised: [garbage]. *)
Definition new_PacketBuffer (garbage : list Z) : PacketBuffer :=
  {| m_buffer := garbage; m_write_pos := 0 |}.

Definition reset (b : PacketBuffer) : PacketBuffer :=
  {| m_buffer := m_buffer b; m_write_pos := 0 |}.

Definition size (b : PacketBuffer) : Z := m_write_pos b.
Definition empty (b : PacketBuffer) : bool := m_write_pos b =? 0.
Definition available (b : PacketBuffer) : Z := u64 (BufferSize - m_write_pos b).
Definition data (b : PacketBuffer) : list Z := m_buffer b.

(** [append(data, size)]; the caller passes [size <= zlen data] bytes. *)
Definition append (d : list Z) (n : Z) (b : PacketBuffer) : BufferResult * PacketBuffer :=
  if n =? 0 then (BufferResult_Success, b)
  else if available b <? n then (BufferResult_BufferFull, b)
  else (BufferResult_Success,
        {| m_buffer := write_at (m_write_pos b) (ztake n d) (m_buffer b);
           m_write_pos := u64 (m_write_pos b + n) |}).

Definition has_complete_packet (b : PacketBuffer) : bool :=
  if m_write_pos b <? sizeofz LdnHeader then false
  else bool_decide ((check_complete_packet (m_buffer b) (m_write_pos b)).1
                    = DecodeResult_Success).

Definition peek_packet_info (b : PacketBuffer) : BufferResult * Z :=
  if m_write_pos b <? sizeofz LdnHeader then (BufferResult_NoCompletePacket, 0)
  else
    let '(result, packet_size) := check_complete_packet (m_buffer b) (m_write_pos b) in
    (match result with
     | DecodeResult_Success => BufferResult_Success
     | DecodeResult_IncompletePacket | DecodeResult_BufferTooSmall =>
         BufferResult_NoCompletePacket
     | DecodeResult_PacketTooLarge => BufferResult_PacketTooLarge
     | DecodeResult_InvalidMagic | DecodeResult_InvalidVersion =>
         BufferResult_InvalidPacket
     end, packet_size).

(** The pointer to the packet (the array) with its size, or null. *)
Definition peek_packet (b : PacketBuffer) : option (list Z) * Z :=
  let '(result, packet_size) := peek_packet_info b in
  match result with
  | BufferResult_Success => (Some (m_buffer b), packet_size)
  | _ => (None, 0)
  end.

(** The raw type byte; [PacketId::Initialize] when there is no header. *)
Definition peek_packet_type (b : PacketBuffer) : Z :=
  if m_write_pos b <? sizeofz LdnHeader then PacketId_value PacketId_Initialize
  else
    match decode_header (m_buffer b) (m_write_pos b) (zeroed LdnHeader) with
    | (DecodeResult_Success, header) => hdr_type header
    | _ => PacketId_value PacketId_Initialize
    end.

Definition consume (n : Z) (b : PacketBuffer) : PacketBuffer :=
  if n =? 0 then b
  else if m_write_pos b <=? n then {| m_buffer := m_buffer b; m_write_pos := 0 |}
  else
    let remaining := m_write_pos b - n in
    {| m_buffer := write_at 0 (ztake remaining (zdrop n (m_buffer b))) (m_buffer b);
       m_write_pos := remaining |}.

(** Result, output buffer, [packet_size] and the new state. *)
Definition extract_packet (out_buffer : list Z) (out_buffer_size : Z) (b : PacketBuffer)
    : BufferResult * list Z * Z * PacketBuffer :=
  let '(result, packet_size) := peek_packet_info b in
  match result with
  | BufferResult_Success =>
      if out_buffer_size <? packet_size
      then (BufferResult_BufferFull, out_buffer, packet_size, b)
      else (BufferResult_Success, write_at 0 (ztake packet_size (m_buffer b)) out_buffer,
            packet_size, consume packet_size b)
  | _ => (result, out_buffer, packet_size, b)
  end.

(** The [while] loop of [discard_until_valid]; [None] is running out of fuel. *)
Fixpoint discard_loop (fuel : nat) (discarded : Z) (b : PacketBuffer)
    : option (Z * PacketBuffer) :=
  if m_write_pos b <? sizeofz LdnHeader then Some (discarded, b)
  else
    match (decode_header (m_buffer b) (m_write_pos b) (zeroed LdnHeader)).1 with
    | DecodeResult_Success | DecodeResult_IncompletePacket => Some (discarded, b)
    | _ =>
        match fuel with
        | O => None
        | S fuel => discard_loop fuel (discarded + 1) (consume 1 b)
        end
    end.

Definition discard_until_valid (b : PacketBuffer) : option (Z * PacketBuffer) :=
  discard_loop (Z.to_nat (m_write_pos b)) 0 b.

(** [recv] into [write_ptr()] followed by [advance_write]. *)
Definition write_ptr (b : PacketBuffer) : Z := m_write_pos b.
Definition advance_write (n : Z) (b : PacketBuffer) : PacketBuffer :=
  if u64 (m_write_pos b + n) <=? BufferSize
  then {| m_buffer := m_buffer b; m_write_pos := u64 (m_write_pos b + n) |}
  else b.

Definition capacity : Z := BufferSize.

(** The receivers' loop: hand every complete packet to the handler and consume
    it.  The packets handled, in order, and the state that is left. *)
Fixpoint drain (fuel : nat) (b : PacketBuffer) : option (list (list Z) * PacketBuffer) :=
  match peek_packet b with
  | (None, _) => Some ([], b)
  | (Some packet, packet_size) =>
      match fuel with
      | O => None
      | S fuel =>
          match drain fuel (consume packet_size b) with
          | Some (packets, b') => Some (ztake packet_size packet :: packets, b')
          | None => None
          end
      end
  end.

(** One turn of the receive loop: append what [recv] returned, then drain. *)
Definition receive_chunk (chunk : list Z) (b : PacketBuffer)
    : option (BufferResult * list (list Z) * PacketBuffer) :=
  match append chunk (zlen chunk) b with
  | (BufferResult_Success, b') =>
      match drain (Z.to_nat (m_write_pos b')) b' with
      | Some (packets, b'') => Some (BufferResult_Success, packets, b'')
      | None => None
      end
  | (r, b') => Some (r, [], b')
  end.

(** The whole connection: the chunks of the stream as they arrive. *)
Fixpoint receive_stream (chunks : list (list Z)) (b : PacketBuffer)
    : option (list (list Z) * PacketBuffer) :=
  match chunks with
  | [] => Some ([], b)
  | c :: chunks =>
      match receive_chunk c b with
      | Some (BufferResult_Success, packets, b') =>
          match receive_stream chunks b' with
          | Some (packets', b'') => Some (packets ++ packets', b'')
          | None => None
          end
      | _ => None
      end
  end.

(** ** Specification: the buffer is the sequence of bytes not yet consumed *)

Definition contents (b : PacketBuffer) : list Z := ztake (m_write_pos b) (m_buffer b).

Definition buffer_ok (b : PacketBuffer) : Prop :=
  zlen (m_buffer b) = BufferSize /\ 0 <= m_write_pos b <= BufferSize
  /\ bytes_ok (m_buffer b) = true /\ BufferSize < 2 ^ 63.

(** What [peek_packet_info] answers for a sequence of bytes. *)
Definition stream_info (l : list Z) : BufferResult * Z :=
  peek_packet_info {| m_buffer := l; m_write_pos := zlen l |}.

(** ** Lemmas *)

Lemma zlen_contents b : buffer_ok b -> zlen (contents b) = m_write_pos b.
Proof. intros (Hl & Hw & _). unfold contents. rewrite zlen_ztake; lia. Qed.

Lemma contents_ok b : buffer_ok b -> bytes_ok (contents b) = true.
Proof. intros (_ & _ & Hb & _). by apply bytes_ok_take. Qed.

Lemma new_ok garbage :
  zlen garbage = BufferSize -> bytes_ok garbage = true -> BufferSize < 2 ^ 63 ->
  buffer_ok (new_PacketBuffer garbage).
Proof. intros Hl Hb Hs. pose proof (zlen_nonneg garbage). split_and!; simpl; try lia; done. Qed.

Lemma reset_spec b : buffer_ok b -> buffer_ok (reset b) /\ contents (reset b) = [].
Proof. intros (Hl & Hw & Hb & Hs). unfold buffer_ok, reset. simpl. split_and!; auto; lia. Qed.

Lemma append_spec d b :
  buffer_ok b -> bytes_ok d = true -> zlen d < 2 ^ 63 ->
  if BufferSize - zlen (contents b) <? zlen d
  then append d (zlen d) b = (BufferResult_BufferFull, b)
  else exists b', append d (zlen d) b = (BufferResult_Success, b')
       /\ buffer_ok b' /\ contents b' = contents b ++ d.
Proof.
  intros Hok Hd Hsmall. rewrite zlen_contents by done. pose proof (zlen_nonneg d).
  destruct Hok as (Hl & Hw & Hb & Hs). unfold append, available.
  rewrite u64_small, (ztake_all _ d) by lia.
  destruct (Z.eqb_spec (zlen d) 0) as [H0|H0].
  - rewrite (proj2 (Z.ltb_ge _ _)) by lia.
    destruct d; [|unfold zlen in *; simpl in *; lia].
    exists b. rewrite app_nil_r. by split_and!.
  - destruct (Z.ltb_spec (BufferSize - m_write_pos b) (zlen d)); [done|].
    eexists. split; [done|]. unfold buffer_ok, contents. cbn [m_buffer m_write_pos].
    rewrite u64_small, zlen_write_at, ztake_write_at by lia.
    split_and!; auto using bytes_ok_write_at; lia.
Qed.

Lemma consume_spec n b :
  0 <= n -> buffer_ok b ->
  buffer_ok (consume n b) /\ contents (consume n b) = zdrop n (contents b).
Proof.
  intros Hn Hok. pose proof Hok as (Hl & Hw & Hb & Hs). unfold consume.
  destruct (Z.eqb_spec n 0) as [->|]; [done|].
  destruct (Z.leb_spec (m_write_pos b) n).
  - split; [apply (reset_spec b); done|]. unfold contents at 1. simpl. rewrite ztake_0.
    symmetry. apply drop_ge. pose proof (zlen_contents b Hok). unfold zlen in *. lia.
  - assert (zlen (ztake (m_write_pos b - n) (zdrop n (m_buffer b))) = m_write_pos b - n)
      as Hz by (rewrite zlen_ztake; rewrite ?zlen_zdrop; lia).
    unfold buffer_ok, contents. cbn [m_buffer m_write_pos].
    rewrite zlen_write_at, ztake_write_at_0 by (rewrite ?Hz; lia).
    split_and!; try lia.
    + apply bytes_ok_write_at; [|done]. by apply bytes_ok_take, bytes_ok_drop.
    + rewrite ztake_zdrop_comm by lia. do 2 f_equal. lia.
Qed.

(** A structure is read from its first [sizeof] bytes only. *)
Lemma of_bytes_front `{HasLayout T} `{!LayoutLaws (layout_of T)} l k :
  bytes_ok l = true -> (sizeof T <= length l)%nat ->
  of_bytes (A:=T) (take (sizeof T) l ++ k) = of_bytes l.
Proof.
  intros Hl Hn. rewrite <- (bytes_of_of_bytes l) by done.
  apply of_bytes_of. by apply wf_of_bytes.
Qed.

Lemma header_of_front n l :
  bytes_ok l = true -> 12 <= n <= zlen l ->
  of_bytes (A:=LdnHeader) (ztake n l) = of_bytes l.
Proof.
  intros Hb Hn. unfold zlen in Hn. symmetry.
  rewrite <- (of_bytes_front (T:=LdnHeader) l (drop 12 (ztake n l)))
    by (change (sizeof LdnHeader) with 12%nat; done || lia).
  f_equal. unfold ztake. change (sizeof LdnHeader) with 12%nat.
  rewrite <- (take_drop 12 (take (Z.to_nat n) l)) at 2.
  rewrite take_take. do 2 f_equal. lia.
Qed.

Lemma header_of_contents b :
  buffer_ok b -> 12 <= m_write_pos b ->
  of_bytes (A:=LdnHeader) (m_buffer b) = of_bytes (contents b).
Proof. intros (Hl & Hw & Hb & Hs) Hn. symmetry. apply header_of_front; [done|lia]. Qed.

Lemma check_complete_contents b :
  buffer_ok b ->
  check_complete_packet (m_buffer b) (m_write_pos b) =
  check_complete_packet (contents b) (zlen (contents b)).
Proof.
  intros Hok. rewrite zlen_contents by done. unfold check_complete_packet.
  rewrite !decode_header_spec. destruct (Z.ltb_spec (m_write_pos b) 12); [done|].
  by rewrite header_of_contents.
Qed.

Lemma peek_packet_info_contents b :
  buffer_ok b -> peek_packet_info b = stream_info (contents b).
Proof.
  intros Hok. unfold stream_info, peek_packet_info. cbn [m_buffer m_write_pos].
  by rewrite <- check_complete_contents, zlen_contents.
Qed.

Lemma has_complete_packet_spec b :
  buffer_ok b ->
  has_complete_packet b = true <-> (stream_info (contents b)).1 = BufferResult_Success.
Proof.
  intros Hok. rewrite <- peek_packet_info_contents by done.
  unfold has_complete_packet, peek_packet_info.
  destruct (m_write_pos b <? sizeofz LdnHeader); [done|].
  destruct (check_complete_packet _ _) as [r n]. rewrite bool_decide_eq_true. by destruct r.
Qed.

(** *** Peeking at well-formed streams *)

(** A packet of the stream: its type and its body. *)
Definition wire (p : PacketId * list Z) : list Z := wire_packet p.1 p.2.
Definition stream (ps : list (PacketId * list Z)) : list Z := concat (map wire ps).

Lemma zlen_wire p : zlen (wire p) = 12 + zlen p.2.
Proof. apply zlen_wire_packet. Qed.

(** [l] is the front of a stream that starts with the packet [p]. *)
Lemma stream_info_front l rest p k :
  body_ok p.2 = true -> l ++ rest = wire p ++ k ->
  stream_info l =
    if zlen l <? 12 then (BufferResult_NoCompletePacket, 0)
    else if zlen l <? zlen (wire p)
    then (BufferResult_NoCompletePacket, zlen (wire p))
    else (BufferResult_Success, zlen (wire p)).
Proof.
  intros [Hb Hn]%body_ok_spec Heq. pose proof (zlen_nonneg p.2).
  unfold stream_info, peek_packet_info. cbn [m_buffer m_write_pos].
  rewrite sizeofz_header. destruct (Z.ltb_spec (zlen l) 12) as [|H12]; [done|].
  assert (exists l', l = bytes_of (packet_header p.1 (zlen p.2)) ++ l') as [l' Hl].
  { exists (zdrop 12 l). rewrite <- (ztake_zdrop 12 l) at 1. f_equal.
    rewrite <- (ztake_app_le l rest) by done. rewrite Heq. unfold wire, wire_packet.
    rewrite <- app_assoc. apply ztake_app. by rewrite zlen_packet_header. }
  rewrite Hl at 1. rewrite check_complete_packet_front, <- zlen_wire by (try lia; done).
  case_if; done.
Qed.

Lemma stream_info_nil : stream_info [] = (BufferResult_NoCompletePacket, 0).
Proof. done. Qed.


Lemma peek_packet_contents b :
  buffer_ok b ->
  peek_packet b = match stream_info (contents b) with
                  | (BufferResult_Success, n) => (Some (m_buffer b), n)
                  | _ => (None, 0)
                  end.
Proof.
  intros Hok. unfold peek_packet. rewrite peek_packet_info_contents by done.
  by destruct (stream_info (contents b)) as [[] n].
Qed.

(** A complete packet is at least a header and lies inside the contents. *)
Lemma stream_info_success l n :
  bytes_ok l = true -> stream_info l = (BufferResult_Success, n) ->
  12 <= n <= zlen l /\ n <= 12 + MAX_PACKET_SIZE.
Proof.
  intros Hb. unfold stream_info, peek_packet_info. cbn [m_buffer m_write_pos].
  rewrite sizeofz_header. destruct (Z.ltb_spec (zlen l) 12) as [|H12]; [done|].
  unfold check_complete_packet. rewrite decode_header_spec.
  rewrite (proj2 (Z.ltb_ge _ _)) by lia. cbn zeta.
  assert (wf (of_bytes (A:=LdnHeader) l) = true) as Hwf.
  { apply wf_of_bytes; [done|]. change (sizeof LdnHeader) with 12%nat. unfold zlen in *. lia. }
  repeat case_if; try discriminate.
  apply header_size_ok in Heqb1; [|by apply wf_header_size].
  assert (u64 (sizeofz LdnHeader + u64 (hdr_data_size (of_bytes (A:=LdnHeader) l)))
    = 12 + hdr_data_size (of_bytes (A:=LdnHeader) l)) as Hu.
  { unfold MAX_PACKET_SIZE in *. by rewrite sizeofz_header, !u64_small by (rewrite ?u64_small; lia). }
  rewrite Hu in *. intros Heq.
  assert (n = 12 + hdr_data_size (of_bytes (A:=LdnHeader) l)) as -> by congruence.
  zbool. lia.
Qed.

(** A packet handed out is itself a complete packet. *)
Definition complete_packet (p : list Z) : Prop :=
  stream_info p = (BufferResult_Success, zlen p).

Lemma complete_packet_front l n :
  bytes_ok l = true -> stream_info l = (BufferResult_Success, n) ->
  complete_packet (ztake n l).
Proof.
  intros Hb Hi. destruct (stream_info_success l n Hb Hi) as [Hn _].
  unfold complete_packet. revert Hi. rewrite zlen_ztake by lia.
  unfold stream_info, peek_packet_info, check_complete_packet.
  cbn [m_buffer m_write_pos]. rewrite !decode_header_spec, zlen_ztake, sizeofz_header by lia.
  rewrite !(proj2 (Z.ltb_ge _ 12)), header_of_front by (done || lia).
  generalize (of_bytes (A:=LdnHeader) l). intros hd. cbn zeta. generalize (zlen l).
  intros len. repeat case_if; try discriminate; intros [= <-]; zbool; try lia; done.
Qed.

Lemma ztake_contents n b :
  buffer_ok b -> n <= m_write_pos b -> ztake n (m_buffer b) = ztake n (contents b).
Proof. intros. unfold contents. by rewrite ztake_ztake. Qed.

(** *** The receive loop *)

(** Whatever bytes arrive, [drain] terminates, and what it handles followed by
    what it leaves is what was in the buffer. *)
Lemma peek_packet_none b :
  buffer_ok b -> (stream_info (contents b)).1 <> BufferResult_Success ->
  peek_packet b = (None, 0).
Proof.
  intros Hok Hi. rewrite peek_packet_contents by done.
  by destruct (stream_info (contents b)) as [[] n].
Qed.

Lemma peek_packet_some b n :
  buffer_ok b -> stream_info (contents b) = (BufferResult_Success, n) ->
  peek_packet b = (Some (m_buffer b), n) /\ 12 <= n <= m_write_pos b.
Proof.
  intros Hok Hi. rewrite peek_packet_contents, Hi by done. split; [done|].
  rewrite <- zlen_contents by done.
  apply (stream_info_success _ _ (contents_ok b Hok) Hi).
Qed.

Lemma drain_total fuel b :
  buffer_ok b -> m_write_pos b <= Z.of_nat fuel ->
  exists packets b', drain fuel b = Some (packets, b') /\ buffer_ok b'
    /\ concat packets ++ contents b' = contents b /\ Forall complete_packet packets
    /\ (stream_info (contents b')).1 <> BufferResult_Success.
Proof.
  revert b. induction fuel as [|fuel IH]; intros b Hok Hf;
    destruct (decide ((stream_info (contents b)).1 = BufferResult_Success)) as [Hs|Hs];
    [ | exists [], b; cbn [drain]; rewrite peek_packet_none by done; by split_and!
      | | exists [], b; cbn [drain]; rewrite peek_packet_none by done; by split_and!];
    destruct (stream_info (contents b)) as [r n] eqn:Hi; cbn [fst] in Hs; subst r;
    destruct (peek_packet_some b n Hok Hi) as [Hp Hn]; [lia|].
  cbn [drain]. rewrite Hp. destruct (consume_spec n b ltac:(lia) Hok) as [Hok' Hc].
  assert (m_write_pos (consume n b) <= Z.of_nat fuel) as Hf'.
  { rewrite <- zlen_contents, Hc, zlen_zdrop; rewrite ?zlen_contents; try done; lia. }
  destruct (IH _ Hok' Hf') as (packets & b' & Hd & Hob & Hcat & Hall & Hstop). rewrite Hd.
  do 2 eexists. split_and!; [done|done| | |done]; rewrite ztake_contents by (done || lia).
  - cbn [concat]. rewrite <- app_assoc, Hcat, Hc. apply ztake_zdrop.
  - constructor; [|done]. apply complete_packet_front; [by apply contents_ok|done].
Qed.

(** The front of a stream of packets is drained up to the last complete one. *)
Lemma drain_stream ps fuel b rest :
  buffer_ok b -> Forall (fun p => body_ok p.2 = true) ps ->
  contents b ++ rest = stream ps -> m_write_pos b <= Z.of_nat fuel ->
  exists ps1 ps2 b', ps = ps1 ++ ps2 /\ drain fuel b = Some (map wire ps1, b')
    /\ buffer_ok b' /\ contents b' ++ rest = stream ps2
    /\ match ps2 with
       | [] => contents b' = []
       | p :: _ => zlen (contents b') < zlen (wire p)
       end.
Proof.
  revert fuel b. induction ps as [|p ps IH]; intros fuel b Hok Hps Heq Hf.
  - apply app_nil in Heq as [Hc ->]. exists [], [], b.
    rewrite Hc. split_and!; try done.
    destruct fuel; cbn [drain]; by rewrite peek_packet_contents, Hc, stream_info_nil.
  - apply Forall_cons in Hps as [Hp Hps]. unfold stream in Heq. cbn [map concat] in Heq.
    pose proof (stream_info_front _ _ _ _ Hp Heq) as Hi.
    destruct (Z.ltb_spec (zlen (contents b)) (zlen (wire p))) as [Hlt|Hge].
    + exists [], (p :: ps), b. split_and!; try done.
      destruct fuel; cbn [drain]; rewrite peek_packet_contents, Hi by done; by case_if.
    + pose proof (zlen_wire p) as Hw. pose proof (zlen_nonneg p.2).
      rewrite (proj2 (Z.ltb_ge _ 12)) in Hi by lia. rewrite zlen_contents in Hge by done.
      destruct fuel as [|fuel]; [lia|]. cbn [drain]. rewrite peek_packet_contents, Hi by done.
      destruct (consume_spec (zlen (wire p)) b ltac:(lia) Hok) as [Hok' Hc].
      assert (contents b = wire p ++ zdrop (zlen (wire p)) (contents b)) as Hsplit.
      { rewrite <- (ztake_zdrop (zlen (wire p)) (contents b)) at 1. f_equal.
        rewrite <- (ztake_app_le (contents b) rest), Heq by (rewrite zlen_contents; done).
        by apply ztake_app. }
      destruct (IH fuel (consume (zlen (wire p)) b) Hok' Hps) as
        (ps1 & ps2 & b' & -> & Hd & Hob & Hr & Hstop).
      { rewrite Hc. rewrite Hsplit, <- app_assoc in Heq. by apply app_inv_head in Heq. }
      { rewrite <- zlen_contents, Hc, zlen_zdrop; rewrite ?zlen_contents; try done; lia. }
      rewrite Hd. exists (p :: ps1), ps2, b'. split_and!; try done. cbn [map].
      rewrite ztake_contents by (done || lia). rewrite Hsplit at 1.
      by rewrite ztake_app.
Qed.

Lemma bytes_ok_stream ps :
  Forall (fun p => body_ok p.2 = true) ps -> bytes_ok (stream ps) = true.
Proof.
  induction 1 as [|p ps Hp _ IH]; [done|]. unfold stream in *. cbn [map concat].
  rewrite bytes_ok_app, IH, andb_true_r. by apply wire_packet_bytes.
Qed.

(** What is still to come of the stream: less than its next packet is buffered. *)
Definition pending (ps : list (PacketId * list Z)) (l : list Z) : Prop :=
  match ps with [] => l = [] | p :: _ => zlen l < zlen (wire p) end.

(** One turn of the loop keeps the stream's front in the buffer and handles the
    packets that have become complete. *)
Lemma receive_chunk_stream P C c ps b rest :
  buffer_ok b -> Forall (fun p => body_ok p.2 = true /\ zlen (wire p) <= P) ps ->
  P + C - 1 <= BufferSize -> zlen c <= C -> 1 <= P ->
  pending ps (contents b) -> contents b ++ c ++ rest = stream ps ->
  exists ps1 ps2 b', ps = ps1 ++ ps2
    /\ receive_chunk c b = Some (BufferResult_Success, map wire ps1, b')
    /\ buffer_ok b' /\ pending ps2 (contents b') /\ contents b' ++ rest = stream ps2.
Proof.
  intros Hok Hps Hsize Hc HP Hpend Heq.
  assert (Forall (fun p => body_ok p.2 = true) ps) as Hbodies
    by (eapply Forall_impl; [exact Hps|by intros ? [? _]]).
  assert (bytes_ok c = true) as Hcb.
  { pose proof (bytes_ok_stream ps Hbodies) as H. rewrite <- Heq, !bytes_ok_app in H.
    by zbool. }
  assert (zlen (contents b) <= P - 1) as Hfit.
  { destruct ps as [|p ps]; cbn [pending] in Hpend; [rewrite Hpend; unfold zlen; simpl; lia|].
    apply Forall_cons in Hps as [[_ ?] _]. lia. }
  pose proof (append_spec c b Hok Hcb) as Happ.
  pose proof (zlen_nonneg (contents b)). destruct Hok as (? & ? & ? & Hmax).
  rewrite (proj2 (Z.ltb_ge _ _)) in Happ by lia.
  destruct Happ as (b1 & Ha & Hok1 & Hc1); [lia|].
  destruct (drain_stream ps (Z.to_nat (m_write_pos b1)) b1 rest Hok1 Hbodies) as
    (ps1 & ps2 & b' & -> & Hd & Hob & Hr & Hstop).
  { rewrite Hc1, <- app_assoc. done. }
  { destruct Hok1 as (? & ? & ?). lia. }
  exists ps1, ps2, b'. split_and!; try done.
  unfold receive_chunk. by rewrite Ha, Hd.
Qed.

(** C2: TCP reassembly.  However the byte stream of a list of packets is cut
    into chunks, feeding the chunks to the buffer one after the other hands out
    exactly those packets, once each and in order, and leaves the buffer empty,
    provided the buffer has room for one packet short of its last byte plus one
    chunk. *)
Theorem receive_stream_reassembles P C chunks ps b :
  buffer_ok b -> contents b = [] ->
  Forall (fun p => body_ok p.2 = true /\ zlen (wire p) <= P) ps ->
  Forall (fun c => zlen c <= C) chunks -> 1 <= P -> P + C - 1 <= BufferSize ->
  concat chunks = stream ps ->
  exists b', receive_stream chunks b = Some (map wire ps, b')
    /\ buffer_ok b' /\ contents b' = [].
Proof.
  intros Hok Hemp Hps Hcs HP Hsize Heq.
  assert (pending ps (contents b)) as Hpend.
  { rewrite Hemp. destruct ps as [|p ps]; [done|]. cbn [pending]. rewrite zlen_wire.
    pose proof (zlen_nonneg p.2). change (0 < 12 + zlen p.2). lia. }
  assert (contents b ++ concat chunks = stream ps) as Hall by (rewrite Hemp; done).
  clear Hemp Heq. revert ps b Hok Hps Hpend Hall.
  induction Hcs as [|c chunks Hc Hcs IH]; intros ps b Hok Hps Hpend Hall; cbn [concat] in Hall.
  - rewrite app_nil_r in Hall. destruct ps as [|p ps].
    + exists b. by split_and!.
    + cbn [pending] in Hpend. rewrite Hall in Hpend. unfold stream in Hpend.
      cbn [map concat] in Hpend. rewrite zlen_app in Hpend.
      pose proof (zlen_nonneg (concat (map wire ps))). lia.
  - destruct (receive_chunk_stream P C c ps b (concat chunks)) as
      (ps1 & ps2 & b1 & -> & Hr & Hok1 & Hp1 & Hrest); try done.
    apply Forall_app in Hps as [_ Hps2].
    destruct (IH ps2 b1 Hok1 Hps2 Hp1 Hrest) as (b' & Hs & Hob & He).
    exists b'. cbn [receive_stream]. rewrite Hr, Hs, map_app. by split_and!.
Qed.

(** nothing is lost, duplicated or reordered.  Whatever bytes arrive,
    the loop over the buffer terminates, every packet it hands out is a complete
    packet with a valid header, and the packets followed by the bytes left in
    the buffer are the bytes that were there. *)
Theorem drain_conserves b :
  buffer_ok b ->
  exists packets b', drain (Z.to_nat (m_write_pos b)) b = Some (packets, b')
    /\ buffer_ok b' /\ concat packets ++ contents b' = contents b
    /\ Forall complete_packet packets /\ has_complete_packet b' = false.
Proof.
  intros Hok. destruct (drain_total (Z.to_nat (m_write_pos b)) b Hok) as
    (packets & b' & Hd & Hob & Hcat & Hall & Hstop).
  { destruct Hok as (_ & ? & _). lia. }
  exists packets, b'. split_and!; try done.
  rewrite <- peek_packet_info_contents in Hstop by done. revert Hstop.
  unfold peek_packet_info, has_complete_packet. case_if; [done|].
  destruct (check_complete_packet _ _) as [[] n]; cbn; done.
Qed.

(** *** Resynchronisation *)

Definition valid_header (l : list Z) : bool :=
  bool_decide ((decode_header l (zlen l) (zeroed LdnHeader)).1 = DecodeResult_Success).

Lemma decode_header_contents b h :
  buffer_ok b -> 12 <= m_write_pos b ->
  decode_header (m_buffer b) (m_write_pos b) h = decode_header (contents b) (zlen (contents b)) h.
Proof.
  intros Hok Hn. rewrite zlen_contents, !decode_header_spec by done.
  rewrite (proj2 (Z.ltb_ge _ _)) by lia. by rewrite header_of_contents.
Qed.

Lemma decode_header_not_incomplete l n h :
  (decode_header l n h).1 <> DecodeResult_IncompletePacket.
Proof. rewrite decode_header_spec. cbn zeta. repeat case_if; done. Qed.

Lemma valid_header_long l : valid_header l = true -> 12 <= zlen l.
Proof.
  unfold valid_header. rewrite bool_decide_eq_true, decode_header_spec.
  destruct (Z.ltb_spec (zlen l) 12); [done|lia].
Qed.

Lemma discard_loop_spec fuel d b :
  buffer_ok b -> m_write_pos b <= Z.of_nat fuel ->
  exists n b', discard_loop fuel d b = Some (d + n, b') /\ buffer_ok b' /\ 0 <= n
    /\ contents b' = zdrop n (contents b)
    /\ (m_write_pos b' < 12 \/ valid_header (contents b') = true)
    /\ (forall i, 0 <= i < n -> valid_header (zdrop i (contents b)) = false).
Proof.
  revert d b. induction fuel as [|fuel IH]; intros d b Hok Hf; cbn [discard_loop];
    rewrite sizeofz_header; destruct (Z.ltb_spec (m_write_pos b) 12) as [Hlt|Hge];
    try (exists 0, b; rewrite Z.add_0_r, zdrop_0; split_and!; try done; [by left|lia]); [lia|].
  rewrite decode_header_contents by done.
  pose proof (decode_header_not_incomplete (contents b) (zlen (contents b)) (zeroed _)) as Hni.
  destruct (valid_header (contents b)) eqn:Hv.
  - exists 0, b. rewrite Z.add_0_r, zdrop_0. unfold valid_header in Hv.
    apply bool_decide_eq_true in Hv. rewrite Hv.
    split_and!; try done; [right|lia]. unfold valid_header. by rewrite Hv.
  - unfold valid_header in Hv. apply bool_decide_eq_false in Hv.
    destruct (consume_spec 1 b ltac:(lia) Hok) as [Hok1 Hc1].
    destruct (IH (d + 1) (consume 1 b) Hok1) as (n & b' & Hd & Hob & Hn & Hc & Hend & Hmin).
    { rewrite <- zlen_contents, Hc1, zlen_zdrop; rewrite ?zlen_contents; try done; lia. }
    exists (1 + n), b'. split_and!; try done; try lia.
    + rewrite <- Z.add_assoc in Hd. rewrite <- Hd. by destruct (decode_header _ _ _).1.
    + by rewrite Hc, Hc1, zdrop_zdrop by lia.
    + intros i Hi. destruct (Z.eq_dec i 0) as [->|].
      * rewrite zdrop_0. unfold valid_header. by apply bool_decide_eq_false.
      * replace i with (1 + (i - 1)) by lia. rewrite <- zdrop_zdrop, <- Hc1 by lia.
        apply Hmin. lia.
Qed.

(** [discard_until_valid] terminates, drops the shortest front of the
    buffer after which a valid header stands, or all but fewer than 12 bytes
    when there is none, and returns how many bytes it dropped. *)
Theorem discard_until_valid_spec b :
  buffer_ok b ->
  exists n b', discard_until_valid b = Some (n, b') /\ buffer_ok b' /\ 0 <= n
    /\ contents b' = zdrop n (contents b)
    /\ (m_write_pos b' < 12 \/ valid_header (contents b') = true)
    /\ (forall i, 0 <= i < n -> valid_header (zdrop i (contents b)) = false).
Proof.
  intros Hok. unfold discard_until_valid.
  apply (discard_loop_spec (Z.to_nat (m_write_pos b)) 0 b Hok).
  destruct Hok as (_ & ? & _). lia.
Qed.

(** *** States with the same contents *)

(** The bytes behind the write position are never observed: buffers with the
    same contents give the same answers and keep the same contents. *)
Definition buf_sim (b c : PacketBuffer) : Prop :=
  buffer_ok b /\ buffer_ok c /\ contents b = contents c.

Lemma buf_sim_pos b c : buf_sim b c -> m_write_pos b = m_write_pos c.
Proof. intros (Hb & Hc & He). by rewrite <- zlen_contents, <- (zlen_contents c), He. Qed.

#[export] Instance peek_packet_info_proper : Proper (buf_sim ==> eq) peek_packet_info.
Proof. intros b c (Hb & Hc & He). by rewrite !peek_packet_info_contents, He. Qed.

#[export] Instance consume_proper n :
  0 <= n -> Proper (buf_sim ==> buf_sim) (consume n).
Proof.
  intros Hn b c (Hb & Hc & He). destruct (consume_spec n b Hn Hb) as [Hb' Eb].
  destruct (consume_spec n c Hn Hc) as [Hc' Ec]. unfold buf_sim. split_and!; congruence.
Qed.

Lemma append_sim d b c :
  bytes_ok d = true -> zlen d < 2 ^ 63 -> buf_sim b c ->
  (append d (zlen d) b).1 = (append d (zlen d) c).1
  /\ buf_sim (append d (zlen d) b).2 (append d (zlen d) c).2.
Proof.
  intros Hd Hl (Hb & Hc & He). pose proof (append_spec d b Hb Hd Hl) as Ab.
  pose proof (append_spec d c Hc Hd Hl) as Ac. rewrite He in Ab. revert Ab Ac. case_if.
  - intros -> ->. done.
  - intros (b' & -> & Hb' & Eb) (c' & -> & Hc' & Ec). cbn [fst snd].
    unfold buf_sim. split_and!; congruence.
Qed.

Lemma drain_sim fuel b c :
  buf_sim b c ->
  match drain fuel b, drain fuel c with
  | Some (ps, b'), Some (qs, c') => ps = qs /\ buf_sim b' c'
  | None, None => True
  | _, _ => False
  end.
Proof.
  revert b c. induction fuel as [|fuel IH]; intros b c Hs;
    pose proof Hs as (Hb & Hc & He); cbn [drain];
    rewrite !peek_packet_contents, He by done;
    destruct (stream_info (contents c)) as [r n] eqn:Hi; destruct r; try done.
  destruct (peek_packet_some c n Hc Hi) as [_ Hn].
  assert (buf_sim (consume n b) (consume n c)) as Hs'
    by (apply consume_proper; [lia|done]).
  specialize (IH _ _ Hs'). rewrite !ztake_contents, He
    by (rewrite ?(buf_sim_pos b c); done || lia).
  destruct (drain fuel (consume n b)) as [[]|], (drain fuel (consume n c)) as [[]|];
    try done. by destruct IH as [-> ?].
Qed.

(** the loop's behaviour is a function of the received bytes alone: two
    buffers with the same contents, whatever their arrays hold behind the write
    position, hand out the same packets for the same chunk and end with the same
    contents. *)
Theorem receive_chunk_sim chunk b c :
  bytes_ok chunk = true -> zlen chunk < 2 ^ 63 -> buf_sim b c ->
  match receive_chunk chunk b, receive_chunk chunk c with
  | Some (r, ps, b'), Some (r', qs, c') => r = r' /\ ps = qs /\ buf_sim b' c'
  | _, _ => False
  end.
Proof.
  intros Hd Hl Hs. destruct (append_sim chunk b c Hd Hl Hs) as [Hr Hs1].
  unfold receive_chunk.
  destruct (append chunk (zlen chunk) b) as [r b1], (append chunk (zlen chunk) c) as [r' c1].
  cbn [fst snd] in Hr, Hs1. subst r'. destruct r; try (by split_and!).
  rewrite <- (buf_sim_pos b1 c1) by done. pose proof (drain_sim (Z.to_nat (m_write_pos b1)) _ _ Hs1) as Hd1.
  destruct Hs1 as (Hb1 & Hc1 & He).
  destruct (drain_total (Z.to_nat (m_write_pos b1)) b1 Hb1) as (ps & b2 & Hdr & _).
  { destruct Hb1 as (_ & ? & _). lia. }
  rewrite Hdr in Hd1 |- *. destruct (drain _ c1) as [[qs c2]|]; [|done].
  destruct Hd1 as [-> ?]. by split_and!.
Qed.
End PacketBuffer.

(** ** The properties at concrete inputs *)

Definition two_pings : list (PacketId * list Z) :=
  [(PacketId_Ping, [0; 1]); (PacketId_Ping, [1; 2])].

Definition ten_byte_chunks : list (list Z) :=
  [ztake 10 (stream two_pings); ztake 10 (zdrop 10 (stream two_pings));
   zdrop 20 (stream two_pings)].

Lemma empty_buffer_ok n :
  (n < 1000)%nat -> buffer_ok (Z.of_nat n) (new_PacketBuffer (repeat 7 n)).
Proof.
  intros Hn. apply new_ok; [apply zlen_repeat| |lia].
  clear Hn. induction n; [done|]. cbn [repeat]. by rewrite bytes_ok_cons.
Qed.

Lemma receive_stream_reassembles_witness :
  exists b', receive_stream 23 ten_byte_chunks (new_PacketBuffer (repeat 7 23))
               = Some (map wire two_pings, b')
    /\ buffer_ok 23 b' /\ contents b' = [].
Proof.
  apply (receive_stream_reassembles 23 14 10 ten_byte_chunks two_pings);
    [apply (empty_buffer_ok 23); lia|reflexivity| | |lia|lia|reflexivity];
    repeat constructor; by vm_compute.
Defined.

(** Three bytes of junk, a packet, and the front of another one. *)
Definition sample_buffer : PacketBuffer :=
  {| m_buffer := [1; 2; 3] ++ wire (PacketId_Ping, [0; 1]) ++ ztake 9 (wire (PacketId_Ping, [1; 2]));
     m_write_pos := 26 |}.

Lemma sample_buffer_ok : buffer_ok 26 sample_buffer.
Proof. split_and!; by vm_compute. Qed.

Lemma drain_conserves_witness :
  exists packets b',
    drain (Z.to_nat (m_write_pos (consume 3 sample_buffer))) (consume 3 sample_buffer)
      = Some (packets, b')
    /\ buffer_ok 26 b' /\ concat packets ++ contents b' = contents (consume 3 sample_buffer)
    /\ Forall complete_packet packets /\ has_complete_packet b' = false.
Proof.
  apply (drain_conserves 26 (consume 3 sample_buffer)).
  apply consume_spec; [lia|apply sample_buffer_ok].
Defined.

Lemma discard_until_valid_spec_witness :
  exists n b', discard_until_valid sample_buffer = Some (n, b')
    /\ buffer_ok 26 b' /\ 0 <= n /\ contents b' = zdrop n (contents sample_buffer)
    /\ (m_write_pos b' < 12 \/ valid_header (contents b') = true)
    /\ (forall i, 0 <= i < n -> valid_header (zdrop i (contents sample_buffer)) = false).
Proof. apply discard_until_valid_spec. apply sample_buffer_ok. Defined.

Lemma receive_chunk_sim_witness :
  match receive_chunk 23 (wire (PacketId_Ping, [0; 1])) (new_PacketBuffer (repeat 7 23)),
        receive_chunk 23 (wire (PacketId_Ping, [0; 1])) (reset (new_PacketBuffer (repeat 7 23)))
  with
  | Some (r, ps, b'), Some (r', qs, c') => r = r' /\ ps = qs /\ buf_sim 23 b' c'
  | _, _ => False
  end.
Proof.
  apply receive_chunk_sim; [reflexivity|by vm_compute|].
  split_and!; [apply (empty_buffer_ok 23); lia|apply (empty_buffer_ok 23); lia|reflexivity].
Defined.

(** Junk in front of a packet is dropped, and nothing else. *)
Example discard_example :
  match append 40 ([1; 2; 3] ++ wire (PacketId_Ping, [0; 1])) 17
          (new_PacketBuffer (repeat 7 40)) with
  | (BufferResult_Success, b) =>
      match discard_until_valid b with
      | Some (n, b') => n = 3 /\ contents b' = wire (PacketId_Ping, [0; 1])
      | None => False
      end
  | _ => False
  end.
Proof. vm_compute. by split. Qed.
