(* ===== verification/StreamLoop.v ===== *)
(** * The receive loop of the peer-to-peer threads

    [P2pProxySession::ReceiveLoop] and [P2pProxyClient::ReceiveLoop] are the
    same two nested loops: an outer one that appends what [recv] returns to a
    [PacketBuffer], an inner one that handles the complete packets in it.  They
    differ in the condition of the loops, the handler and what they do when the
    buffer is full; these are the parameters here.  The result [None] is
    undefined behaviour of one of them. *)

From stdpp Require Import base numbers list.
From Stdlib Require Import ZArith Lia Bool.
From S2P Require Import Prelude Layout Types Protocol.
From S2P Require PacketBuffer.
Import PacketBuffer (PacketBuffer, wire, stream, buffer_ok, contents, pending).

(** ** Packets at the front of a buffer *)

(** What follows a packet does not matter to who reads it by its sizes. *)
Lemma of_bytes_app `{HasLayout T} `{!LayoutLaws (layout_of T)} l k :
  bytes_ok l = true -> sizeofz T <= zlen l -> of_bytes (A:=T) (l ++ k) = of_bytes l.
Proof.
  intros Hl Hn. unfold sizeofz, zlen in Hn.
  rewrite <- (PacketBuffer.of_bytes_front l (drop (sizeof T) l ++ k)) by (done || lia).
  by rewrite app_assoc, take_drop.
Qed.

Lemma header_of_wire pk k :
  body_ok pk.2 = true -> of_bytes (wire pk ++ k) = packet_header pk.1 (zlen pk.2).
Proof. intros [_ Hn]%body_ok_spec. unfold wire. exact (of_bytes_wire_packet pk.1 pk.2 k Hn). Qed.

Lemma body_of_wire pk k : zdrop (sizeofz LdnHeader) (wire pk ++ k) = pk.2 ++ k.
Proof. unfold wire. exact (payload_of_wire_packet pk.1 pk.2 k). Qed.

Lemma data_size_of_wire (pk : PacketId * list Z) :
  body_ok pk.2 = true -> u64 (hdr_data_size (packet_header pk.1 (zlen pk.2))) = zlen pk.2.
Proof.
  intros [_ Hn]%body_ok_spec. pose proof (zlen_nonneg pk.2). unfold MAX_PACKET_SIZE in Hn.
  cbn [packet_header hdr_data_size]. by rewrite u64_small by lia.
Qed.

(** The payload behind a structure of [n] bytes. *)
Lemma payload_app n (body k : list Z) :
  0 <= n <= zlen body -> ztake (zlen body - n) (zdrop n (body ++ k)) = zdrop n body.
Proof.
  intros Hn. rewrite zdrop_app_le by lia.
  assert (Hl : zlen (zdrop n body) = zlen body - n) by (rewrite zlen_zdrop; lia).
  rewrite ztake_app_le by lia. apply ztake_all. lia.
Qed.

Section StreamLoop.
Context {A : Type}.
(** The condition of both loops. *)
Context (running : A -> option bool).
(** [ProcessData(packet_data, packet_size)]. *)
Context (handle : list Z -> Z -> A -> option A).
(** What is done about a header that is refused. *)
Context (invalid : A -> option A).
(** A full buffer: go on with this one, or leave the loop. *)
Context (size : Z) (overflow : PacketBuffer -> option PacketBuffer).

(** The inner loop; the fuel is the number of buffered bytes, of which each
    packet uses up some ([stream_loop_fuel]). *)
Fixpoint packet_loop (fuel : nat) (b : PacketBuffer) (s : A) : option (PacketBuffer * A) :=
  go ← running s;
  if negb go then Some (b, s)
  else
    match PacketBuffer.peek_packet b with
    | (None, _) =>
        match (PacketBuffer.peek_packet_info b).1 with
        | PacketBuffer.BufferResult_InvalidPacket => s ← invalid s; Some (b, s)
        | _ => Some (b, s)
        end
    | (Some packet_data, packet_size) =>
        s ← handle packet_data packet_size s;
        let b := PacketBuffer.consume packet_size b in
        match fuel with
        | O => Some (b, s)
        | S fuel => packet_loop fuel b s
        end
    end.

(** The outer loop; [chunks] are what the calls of [recv] return, an empty one
    or none at all is the end of the connection. *)
Fixpoint recv_loop (chunks : list (list Z)) (b : PacketBuffer) (s : A)
    : option (PacketBuffer * A) :=
  go ← running s;
  if negb go then Some (b, s)
  else
    match chunks with
    | [] | [] :: _ => Some (b, s)
    | chunk :: chunks =>
        match PacketBuffer.append size chunk (zlen chunk) b with
        | (PacketBuffer.BufferResult_Success, b) =>
            '(b, s) ← packet_loop (Z.to_nat (PacketBuffer.m_write_pos b)) b s;
            recv_loop chunks b s
        | (_, b) => match overflow b with
                    | Some b => recv_loop chunks b s
                    | None => Some (b, s)
                    end
        end
    end.

(** ** Lemmas: the loops return *)

(** A handler that always returns makes the loops return, and a relation it
    keeps is kept by them. *)
Section total.
Context (R : A -> A -> Prop) `{!PreOrder R}.
Hypothesis running_total : forall s, is_Some (running s).
Hypothesis handle_total : forall d n s, exists s', handle d n s = Some s' /\ R s s'.
Hypothesis invalid_total : forall s, exists s', invalid s = Some s' /\ R s s'.

Lemma packet_loop_total fuel : forall b s,
  exists b' s', packet_loop fuel b s = Some (b', s') /\ R s s'.
Proof using All.
  induction fuel as [|fuel IH]; intros b s; cbn [packet_loop];
    destruct (running_total s) as [go ->]; cbn [mbind option_bind];
    (destruct (negb go); [by exists b, s|]);
    (destruct (PacketBuffer.peek_packet b) as [[d|] n];
      [destruct (handle_total d n s) as (s1 & -> & H1); cbn [mbind option_bind]
      |destruct (PacketBuffer.peek_packet_info b).1; try (by exists b, s);
       destruct (invalid_total s) as (s1 & -> & H1); by exists b, s1]).
  - by exists (PacketBuffer.consume n b), s1.
  - destruct (IH (PacketBuffer.consume n b) s1) as (b2 & s2 & -> & H2).
    exists b2, s2. split; [done|]. by etransitivity.
Qed.

Lemma recv_loop_total chunks : forall b s,
  exists b' s', recv_loop chunks b s = Some (b', s') /\ R s s'.
Proof using All.
  induction chunks as [|c chunks IH]; intros b s; cbn [recv_loop];
    destruct (running_total s) as [go ->]; cbn [mbind option_bind];
    (destruct (negb go); [by exists b, s|]); [by exists b, s|].
  destruct c as [|x c]; [by exists b, s|].
  destruct (PacketBuffer.append size (x :: c) (zlen (x :: c)) b) as [[] b1].
  1: { destruct (packet_loop_total (Z.to_nat (PacketBuffer.m_write_pos b1)) b1 s)
         as (b2 & s2 & -> & H2). cbn [mbind option_bind].
       destruct (IH b2 s2) as (b3 & s3 & -> & H3). exists b3, s3. split; [done|]. by etransitivity. }
  all: destruct (overflow b1) as [b2|]; [apply IH|by exists b1, s].
Qed.
End total.

(** ** Specification *)

(** The packets one after the other, as long as the loop runs. *)
Fixpoint dispatch_all (ps : list (PacketId * list Z)) (s : A) : option A :=
  go ← running s;
  match ps with
  | [] => Some s
  | pk :: ps =>
      if (go : bool) then s ← handle (wire pk) (zlen (wire pk)) s; dispatch_all ps s else Some s
  end.

(** A packet is handled by its own bytes, whatever follows in the buffer. *)
Hypothesis handle_front : forall (pk : PacketId * list Z) k s, body_ok pk.2 = true ->
  handle (wire pk ++ k) (zlen (wire pk)) s = handle (wire pk) (zlen (wire pk)) s.
Hypothesis size_small : 0 < size < 2 ^ 62.

(** ** Lemmas *)

(** The fuel is enough: more of it changes nothing. *)
Lemma stream_loop_fuel fuel k : forall b (s : A),
  buffer_ok size b -> PacketBuffer.m_write_pos b <= Z.of_nat fuel ->
  packet_loop (fuel + k) b s = packet_loop fuel b s.
Proof.
  induction fuel as [|fuel IH]; intros b s Hok Hf.
  - assert (Hc : contents b = []).
    { apply nil_length_inv. pose proof (PacketBuffer.zlen_contents size b Hok) as H.
      unfold zlen in H. lia. }
    assert (Hpeek : PacketBuffer.peek_packet b = (None, 0))
      by (rewrite (PacketBuffer.peek_packet_contents size), Hc by done; done).
    destruct k; cbn [packet_loop Nat.add]; rewrite Hpeek; done.
  - cbn [packet_loop Nat.add]. destruct (running s) as [[]|]; [|done|done].
    cbn [mbind option_bind negb]. destruct (PacketBuffer.peek_packet b) as [[l|] n] eqn:Hp; [|done].
    destruct (handle l n s) as [s'|]; [|done]. cbn [mbind option_bind].
    assert (0 < n <= PacketBuffer.m_write_pos b) as Hn.
    { rewrite (PacketBuffer.peek_packet_contents size) in Hp by done.
      rewrite <- (PacketBuffer.zlen_contents size b Hok).
      destruct (PacketBuffer.stream_info (contents b)) as [[] m] eqn:Hi; try done.
      injection Hp as <- <-. apply PacketBuffer.stream_info_success in Hi; [lia|].
      by apply (PacketBuffer.contents_ok size). }
    destruct (PacketBuffer.consume_spec size n b ltac:(lia) Hok) as [Hok' Hc]. apply IH; [done|].
    rewrite <- (PacketBuffer.zlen_contents size _ Hok'), Hc, zlen_zdrop;
      rewrite ?(PacketBuffer.zlen_contents size); try done; lia.
Qed.

Lemma dispatch_all_app l k s :
  dispatch_all (l ++ k) s = s ← dispatch_all l s; dispatch_all k s.
Proof.
  revert s. induction l as [|pk l IH]; intros s; cbn [app dispatch_all].
  - destruct (running s) as [go|] eqn:Hz; [done|]. destruct k; cbn [dispatch_all]; by rewrite Hz.
  - destruct (running s) as [[]|] eqn:Hz; [| |done]; cbn [mbind option_bind].
    + destruct (handle _ _ s) as [s1|]; [|done]. apply IH.
    + destruct k; cbn [dispatch_all]; by rewrite Hz.
Qed.

(** An inner loop with less than a packet in the buffer leaves everything. *)
Lemma packet_loop_waits fuel b s :
  PacketBuffer.peek_packet b = (None, 0) ->
  (PacketBuffer.peek_packet_info b).1 = PacketBuffer.BufferResult_NoCompletePacket ->
  packet_loop fuel b s = _ ← running s; Some (b, s).
Proof.
  intros Hp Hi. destruct fuel; cbn [packet_loop]; rewrite Hp, Hi; by destruct (running s) as [[]|].
Qed.

Lemma waits_unless_whole pk l b rest :
  buffer_ok size b -> body_ok pk.2 = true -> contents b ++ rest = wire pk ++ l ->
  zlen (contents b) < zlen (wire pk) ->
  PacketBuffer.peek_packet b = (None, 0)
  /\ (PacketBuffer.peek_packet_info b).1 = PacketBuffer.BufferResult_NoCompletePacket.
Proof.
  intros Hok Hp Heq Hlt. pose proof (PacketBuffer.stream_info_front _ _ _ _ Hp Heq) as Hi.
  rewrite (PacketBuffer.peek_packet_contents size), (PacketBuffer.peek_packet_info_contents size),
    Hi by done.
  destruct (zlen (contents b) <? 12); [done|]. by rewrite (proj2 (Z.ltb_lt _ _)).
Qed.

Lemma packet_loop_stream ps : forall fuel b rest,
  buffer_ok size b -> Forall (fun pk => body_ok pk.2 = true) ps ->
  contents b ++ rest = stream ps -> PacketBuffer.m_write_pos b <= Z.of_nat fuel ->
  exists ps1 ps2 b', ps = ps1 ++ ps2 /\ buffer_ok size b'
    /\ contents b' ++ rest = stream ps2 /\ pending ps2 (contents b')
    /\ forall s chunks,
         snd <$> ('(b, s) ← packet_loop fuel b s; recv_loop chunks b s)
         = s ← dispatch_all ps1 s; snd <$> recv_loop chunks b' s.
Proof.
  induction ps as [|pk ps IH]; intros fuel b rest Hok Hps Heq Hf.
  - apply app_nil in Heq as [Hc ->]. exists [], [], b. split_and!; try done; [by rewrite Hc|].
    intros s chunks. rewrite packet_loop_waits.
    + cbn [dispatch_all]. by destruct (running s) as [[]|].
    + by rewrite (PacketBuffer.peek_packet_contents size), Hc by done.
    + by rewrite (PacketBuffer.peek_packet_info_contents size), Hc by done.
  - apply Forall_cons in Hps as [Hp Hps]. unfold stream in Heq. cbn [map concat] in Heq.
    pose proof (PacketBuffer.zlen_wire pk) as Hw. pose proof (zlen_nonneg pk.2).
    destruct (Z.ltb_spec (zlen (contents b)) (zlen (wire pk))) as [Hlt|Hge].
    + destruct (waits_unless_whole pk _ b rest Hok Hp Heq Hlt) as [Hpeek Hinfo].
      exists [], (pk :: ps), b. split_and!; try done. intros s chunks.
      rewrite packet_loop_waits by done. cbn [dispatch_all]. by destruct (running s) as [[]|].
    + pose proof (PacketBuffer.stream_info_front _ _ _ _ Hp Heq) as Hi.
      rewrite (proj2 (Z.ltb_ge _ 12)), (proj2 (Z.ltb_ge _ _)) in Hi by lia.
      rewrite (PacketBuffer.zlen_contents size) in Hge by done.
      destruct fuel as [|fuel]; [lia|].
      destruct (PacketBuffer.consume_spec size (zlen (wire pk)) b ltac:(lia) Hok) as [Hok' Hc].
      assert (contents b = wire pk ++ zdrop (zlen (wire pk)) (contents b)) as Hsplit.
      { rewrite <- (ztake_zdrop (zlen (wire pk)) (contents b)) at 1. f_equal.
        rewrite <- (ztake_app_le (contents b) rest), Heq
          by (rewrite (PacketBuffer.zlen_contents size); done).
        by apply ztake_app. }
      destruct (IH fuel (PacketBuffer.consume (zlen (wire pk)) b) rest Hok' Hps) as
        (ps1 & ps2 & b' & -> & Hob & Hr & Hstop & Hrun).
      { rewrite Hc. rewrite Hsplit, <- app_assoc in Heq. by apply app_inv_head in Heq. }
      { rewrite <- (PacketBuffer.zlen_contents size), Hc, zlen_zdrop;
          rewrite ?(PacketBuffer.zlen_contents size); try done; lia. }
      exists (pk :: ps1), ps2, b'. split_and!; try done. intros s chunks.
      cbn [packet_loop dispatch_all]. destruct (running s) as [[]|] eqn:Hz; [| |done];
        cbn [mbind option_bind negb].
      * rewrite (PacketBuffer.peek_packet_contents size), Hi by done.
        assert (Hbuf : exists k, PacketBuffer.m_buffer b = wire pk ++ k).
        { exists (zdrop (zlen (wire pk)) (PacketBuffer.m_buffer b)).
          rewrite <- (ztake_zdrop (zlen (wire pk)) (PacketBuffer.m_buffer b)) at 1. f_equal.
          rewrite (PacketBuffer.ztake_contents size (zlen (wire pk)) b), Hsplit by done.
          by apply ztake_app. }
        destruct Hbuf as [k ->]. rewrite handle_front by done.
        destruct (handle _ _ s) as [s1|]; [|done]. cbn [mbind option_bind]. apply Hrun.
      * destruct chunks; cbn [recv_loop]; by rewrite Hz.
Qed.

(** The end of the connection, with less than a packet buffered. *)
Lemma recv_loop_end b s ps :
  contents b ++ concat [] = stream ps -> pending ps (contents b) ->
  snd <$> recv_loop [] b s = dispatch_all ps s.
Proof.
  cbn [concat]. rewrite app_nil_r. intros Heq Hpend. destruct ps as [|pk ps].
  - cbn [recv_loop dispatch_all]. by destruct (running s) as [[]|].
  - exfalso. cbn [pending] in Hpend. rewrite Heq in Hpend. unfold stream in Hpend.
    cbn [map concat] in Hpend. rewrite zlen_app in Hpend.
    pose proof (zlen_nonneg (concat (map wire ps))). lia.
Qed.

(** One turn of the outer loop with a chunk that fits. *)
Lemma recv_loop_chunk c chunks b s ps :
  buffer_ok size b -> Forall (fun pk => body_ok pk.2 = true) ps ->
  c <> [] -> bytes_ok c = true -> zlen (contents b) + zlen c <= size ->
  contents b ++ c ++ concat chunks = stream ps ->
  exists ps1 ps2 b', ps = ps1 ++ ps2 /\ buffer_ok size b'
    /\ contents b' ++ concat chunks = stream ps2 /\ pending ps2 (contents b')
    /\ snd <$> recv_loop (c :: chunks) b s
       = s ← dispatch_all ps1 s; snd <$> recv_loop chunks b' s.
Proof.
  intros Hok Hps Hne Hbytes Hfit Heq. pose proof (zlen_nonneg (contents b)).
  pose proof (PacketBuffer.append_spec size c b Hok Hbytes ltac:(lia)) as Happ.
  rewrite (proj2 (Z.ltb_ge _ _)) in Happ by lia. destruct Happ as (b1 & Hb1 & Hok1 & Hc1).
  assert (Heq1 : contents b1 ++ concat chunks = stream ps) by (by rewrite Hc1, <- app_assoc).
  destruct (packet_loop_stream ps (Z.to_nat (PacketBuffer.m_write_pos b1)) b1 (concat chunks)
    Hok1 Hps Heq1) as (ps1 & ps2 & b' & Hsplit & Hok' & Hrest & Hpend' & Hrun).
  { destruct Hok1 as (_ & ? & _). lia. }
  exists ps1, ps2, b'. split_and!; try done. rewrite <- Hrun.
  destruct c as [|x c]; [done|]. cbn [recv_loop]. rewrite Hb1.
  destruct (running s) as [[]|] eqn:Hz; [done| |]; cbn [mbind option_bind negb];
    destruct (Z.to_nat _); cbn [packet_loop]; rewrite Hz; cbn [mbind option_bind negb];
    destruct chunks; cbn [recv_loop]; by rewrite ?Hz.
Qed.

(** However a stream is cut into chunks that leave room for a partial packet of
    up to [W] bytes, the loops handle exactly its packets. *)
Lemma recv_loop_stream W chunks : forall b s ps,
  0 < W <= size -> buffer_ok size b ->
  Forall (fun pk => body_ok pk.2 = true /\ zlen (wire pk) <= W) ps ->
  Forall (fun c => c <> [] /\ bytes_ok c = true /\ zlen c <= size + 1 - W) chunks ->
  contents b ++ concat chunks = stream ps -> pending ps (contents b) ->
  snd <$> recv_loop chunks b s = dispatch_all ps s.
Proof.
  induction chunks as [|c chunks IH]; intros b s ps HW Hok Hps Hch Heq Hpend.
  - by apply recv_loop_end.
  - apply Forall_cons in Hch as [(Hne & Hbytes & Hlen) Hch].
    assert (Hlt : zlen (contents b) < W).
    { destruct ps as [|pk ps]; cbn [pending] in Hpend;
        [rewrite Hpend; change (zlen (@nil Z)) with 0; lia|].
      apply Forall_cons in Hps as [[_ Hpk] _]. lia. }
    destruct (recv_loop_chunk c chunks b s ps) as (ps1 & ps2 & b' & -> & Hok' & Heq' & Hp' & ->);
      try done; [by eapply Forall_impl; [exact Hps|]; intros ? []|lia|].
    rewrite dispatch_all_app. destruct (dispatch_all ps1 s) as [s1|]; [|done].
    cbn [mbind option_bind]. apply IH; try done. by apply Forall_app in Hps as [_ ?].
Qed.

(** So they do when the whole stream fits into the buffer. *)
Lemma recv_loop_short chunks : forall b s ps,
  buffer_ok size b -> Forall (fun pk => body_ok pk.2 = true) ps ->
  Forall (fun c => c <> []) chunks -> bytes_ok (concat chunks) = true ->
  contents b ++ concat chunks = stream ps -> pending ps (contents b) -> zlen (stream ps) <= size ->
  snd <$> recv_loop chunks b s = dispatch_all ps s.
Proof.
  induction chunks as [|c chunks IH]; intros b s ps Hok Hps Hch Hb Heq Hpend Hlen.
  - by apply recv_loop_end.
  - apply Forall_cons in Hch as [Hne Hch]. cbn [concat] in Heq, Hb.
    rewrite bytes_ok_app in Hb. apply andb_true_iff in Hb as [Hc Hb].
    assert (Hfit : zlen (contents b) + zlen c <= size).
    { rewrite <- Heq, !zlen_app in Hlen. pose proof (zlen_nonneg (concat chunks)). lia. }
    destruct (recv_loop_chunk c chunks b s ps) as (ps1 & ps2 & b' & -> & Hok' & Heq' & Hp' & ->);
      try done.
    rewrite dispatch_all_app. destruct (dispatch_all ps1 s) as [s1|]; [|done].
    cbn [mbind option_bind]. apply IH; try done; [by apply Forall_app in Hps as [_ ?]|].
    unfold stream in *. rewrite map_app, concat_app, zlen_app in Hlen.
    pose proof (zlen_nonneg (concat (map wire ps1))). lia.
Qed.

(** From an empty buffer. *)
Lemma recv_loop_fresh W chunks b s ps :
  0 < W <= size -> buffer_ok size b ->
  Forall (fun pk => body_ok pk.2 = true /\ zlen (wire pk) <= W) ps ->
  Forall (fun c => c <> [] /\ bytes_ok c = true /\ zlen c <= size + 1 - W) chunks ->
  concat chunks = stream ps -> contents b = [] ->
  snd <$> recv_loop chunks b s = dispatch_all ps s.
Proof.
  intros HW Hok Hps Hch Heq Hc. apply (recv_loop_stream W); try done; [by rewrite Hc|].
  destruct ps as [|pk ps]; [done|]. cbn [pending]. rewrite Hc, PacketBuffer.zlen_wire.
  pose proof (zlen_nonneg pk.2). change (zlen (@nil Z)) with 0. lia.
Qed.

(** A chunk that does not fit, with part of a packet in the buffer. *)
Lemma recv_loop_overflow chunk chunks b s :
  buffer_ok size b -> bytes_ok chunk = true -> running s = Some true ->
  zlen chunk <= size < zlen (contents b) + zlen chunk ->
  recv_loop (chunk :: chunks) b s
  = match overflow b with Some b => recv_loop chunks b s | None => Some (b, s) end.
Proof.
  intros Hok Hb Hrun [Hlen Hover]. cbn [recv_loop]. rewrite Hrun. cbn [mbind option_bind negb].
  pose proof (PacketBuffer.append_spec size chunk b Hok Hb ltac:(lia)) as Happ.
  rewrite (proj2 (Z.ltb_lt _ _)) in Happ by lia. rewrite Happ.
  destruct chunk as [|x chunk]; [|done]. exfalso.
  pose proof (PacketBuffer.zlen_contents _ b Hok) as Hcb. destruct Hok as (_ & Hw & _).
  change (zlen (@nil Z)) with 0 in Hover. lia.
Qed.
End StreamLoop.
