(* ===== verification/ConnectionState.v ===== *)
(** * Connection state machine ([network/connection_state.{hpp,cpp}])

    The transition table is transcribed entry by entry and looked up by the
    numbers of the enumerators, as the source does.  [csm_step] is the
    specification: the transitions as a relation, and [process_event] refines
    it.  A registered callback is a function pointer ([Some id]); its calls are
    the notifications an operation returns. *)

From stdpp Require Import base numbers list relations.
From Stdlib Require Import ZArith Lia Bool.
From S2P Require Import Prelude.

Inductive ConnectionState : Set :=
| Disconnected | Connecting | Connected | Handshaking | Ready
| Backoff | Retrying | Disconnecting | Error.

Inductive ConnectionEvent : Set :=
| EvConnect | EvConnectSuccess | EvConnectFailed | EvHandshakeStarted
| EvHandshakeSuccess | EvHandshakeFailed | EvDisconnect | EvConnectionLost
| EvBackoffExpired | EvRetryRequested | EvFatalError.

Inductive TransitionResult : Set :=
| TransitionResult_Success
| TransitionResult_InvalidTransition
| TransitionResult_AlreadyInState.

#[export] Instance ConnectionState_eq_dec : EqDecision ConnectionState.
Proof. solve_decision. Defined.
#[export] Instance ConnectionEvent_eq_dec : EqDecision ConnectionEvent.
Proof. solve_decision. Defined.
#[export] Instance TransitionResult_eq_dec : EqDecision TransitionResult.
Proof. solve_decision. Defined.

(** [static_cast<size_t>(from)] and [static_cast<size_t>(event)] *)
Definition state_index (s : ConnectionState) : nat :=
  match s with
  | Disconnected => 0 | Connecting => 1 | Connected => 2 | Handshaking => 3 | Ready => 4
  | Backoff => 5 | Retrying => 6 | Disconnecting => 7 | Error => 8
  end.

Definition event_index (e : ConnectionEvent) : nat :=
  match e with
  | EvConnect => 0 | EvConnectSuccess => 1 | EvConnectFailed => 2
  | EvHandshakeStarted => 3 | EvHandshakeSuccess => 4 | EvHandshakeFailed => 5
  | EvDisconnect => 6 | EvConnectionLost => 7 | EvBackoffExpired => 8
  | EvRetryRequested => 9 | EvFatalError => 10
  end.

(** Notification of a callback: its pointer, old state, new state, event. *)
Record notification : Type := Notification {
  n_callback : Z;
  n_old : ConnectionState;
  n_new : ConnectionState;
  n_event : ConnectionEvent
}.

Record ConnectionStateMachine : Type := {
  m_state : ConnectionState;
  m_callback : option Z;
  m_retry_count : Z
}.

Definition new_ConnectionStateMachine : ConnectionStateMachine :=
  {| m_state := Disconnected; m_callback := None; m_retry_count := 0 |}.

Definition is_connected (m : ConnectionStateMachine) : bool :=
  match m_state m with Connected | Handshaking | Ready => true | _ => false end.

Definition is_ready (m : ConnectionStateMachine) : bool :=
  bool_decide (m_state m = Ready).

Definition is_transitioning (m : ConnectionStateMachine) : bool :=
  match m_state m with
  | Connecting | Handshaking | Retrying | Disconnecting | Backoff => true
  | _ => false
  end.

Definition table : list (list (ConnectionState * bool)) := [
  (* Disconnected *)
  [(Connecting, true); (Disconnected, false); (Disconnected, false);
   (Disconnected, false); (Disconnected, false); (Disconnected, false);
   (Disconnected, false); (Disconnected, false); (Disconnected, false);
   (Connecting, true); (Disconnected, false)];
  (* Connecting *)
  [(Disconnected, false); (Connected, true); (Backoff, true);
   (Disconnected, false); (Disconnected, false); (Disconnected, false);
   (Disconnected, true); (Disconnected, false); (Disconnected, false);
   (Disconnected, false); (Error, true)];
  (* Connected *)
  [(Disconnected, false); (Disconnected, false); (Disconnected, false);
   (Handshaking, true); (Ready, true); (Backoff, true);
   (Disconnecting, true); (Backoff, true); (Disconnected, false);
   (Disconnected, false); (Error, true)];
  (* Handshaking *)
  [(Disconnected, false); (Disconnected, false); (Disconnected, false);
   (Disconnected, false); (Ready, true); (Backoff, true);
   (Disconnecting, true); (Backoff, true); (Disconnected, false);
   (Disconnected, false); (Error, true)];
  (* Ready *)
  [(Disconnected, false); (Disconnected, false); (Disconnected, false);
   (Disconnected, false); (Disconnected, false); (Disconnected, false);
   (Disconnecting, true); (Backoff, true); (Disconnected, false);
   (Disconnected, false); (Error, true)];
  (* Backoff *)
  [(Disconnected, false); (Disconnected, false); (Disconnected, false);
   (Disconnected, false); (Disconnected, false); (Disconnected, false);
   (Disconnected, true); (Disconnected, false); (Retrying, true);
   (Retrying, true); (Error, true)];
  (* Retrying *)
  [(Disconnected, false); (Connected, true); (Backoff, true);
   (Disconnected, false); (Disconnected, false); (Disconnected, false);
   (Disconnected, true); (Disconnected, false); (Disconnected, false);
   (Disconnected, false); (Error, true)];
  (* Disconnecting *)
  [(Disconnected, false); (Disconnected, true); (Disconnected, true);
   (Disconnected, false); (Disconnected, false); (Disconnected, false);
   (Disconnected, false); (Disconnected, true); (Disconnected, false);
   (Disconnected, false); (Disconnected, true)];
  (* Error *)
  [(Disconnected, false); (Disconnected, false); (Disconnected, false);
   (Disconnected, false); (Disconnected, false); (Disconnected, false);
   (Disconnected, true); (Disconnected, false); (Disconnected, false);
   (Connecting, true); (Disconnected, false)]
].

(** [Some to] when the entry is valid; the bounds check is the two lookups. *)
Definition is_valid_transition (from : ConnectionState) (event : ConnectionEvent)
    : option ConnectionState :=
  match table !! state_index from with
  | Some row =>
      match row !! event_index event with
      | Some (to, true) => Some to
      | _ => None
      end
  | None => None
  end.

Definition transition_to (new_state : ConnectionState) (event : ConnectionEvent)
    (m : ConnectionStateMachine) : ConnectionStateMachine * list notification :=
  let old_state := m_state m in
  let count :=
    if bool_decide (new_state = Retrying \/ new_state = Connecting) then
      if bool_decide (old_state = Backoff \/ old_state = Retrying)
      then u32 (m_retry_count m + 1) else m_retry_count m
    else m_retry_count m in
  let count := if bool_decide (new_state = Ready) then 0 else count in
  ({| m_state := new_state; m_callback := m_callback m; m_retry_count := count |},
   match m_callback m with
   | Some cb => [Notification cb old_state new_state event]
   | None => []
   end).

Definition process_event (event : ConnectionEvent) (m : ConnectionStateMachine)
    : TransitionResult * ConnectionStateMachine * list notification :=
  if bool_decide (m_state m = Disconnected /\ event = EvDisconnect)
  then (TransitionResult_AlreadyInState, m, [])
  else if bool_decide (m_state m = Ready /\ event = EvConnectSuccess)
  then (TransitionResult_AlreadyInState, m, [])
  else
    match is_valid_transition (m_state m) event with
    | Some target =>
        let '(m', log) := transition_to target event m in
        (TransitionResult_Success, m', log)
    | None => (TransitionResult_InvalidTransition, m, [])
    end.

Definition set_state_change_callback (callback : option Z) (m : ConnectionStateMachine)
    : ConnectionStateMachine :=
  {| m_state := m_state m; m_callback := callback; m_retry_count := m_retry_count m |}.

Definition reset_retry_count (m : ConnectionStateMachine) : ConnectionStateMachine :=
  {| m_state := m_state m; m_callback := m_callback m; m_retry_count := 0 |}.

Definition force_state (state : ConnectionState) (m : ConnectionStateMachine)
    : ConnectionStateMachine :=
  {| m_state := state; m_callback := m_callback m; m_retry_count := m_retry_count m |}.

(** The events of a run, one after the other; the notifications in order. *)
Fixpoint run (events : list ConnectionEvent) (m : ConnectionStateMachine)
    : ConnectionStateMachine * list notification :=
  match events with
  | [] => (m, [])
  | e :: events =>
      let '(_, m', log) := process_event e m in
      let '(m'', log') := run events m' in (m'', log ++ log')
  end.

(** ** Specification *)

(** The transitions of the machine, by what they mean. *)
Inductive csm_step : ConnectionState -> ConnectionEvent -> ConnectionState -> Prop :=
| step_connect s e :
    (s, e) ∈ [(Disconnected, EvConnect); (Disconnected, EvRetryRequested);
              (Error, EvRetryRequested)] ->
    csm_step s e Connecting
| step_tcp_up s : s ∈ [Connecting; Retrying] -> csm_step s EvConnectSuccess Connected
| step_tcp_failed s : s ∈ [Connecting; Retrying] -> csm_step s EvConnectFailed Backoff
| step_handshake : csm_step Connected EvHandshakeStarted Handshaking
| step_ready s : s ∈ [Connected; Handshaking] -> csm_step s EvHandshakeSuccess Ready
| step_handshake_failed s :
    s ∈ [Connected; Handshaking] -> csm_step s EvHandshakeFailed Backoff
| step_lost s : s ∈ [Connected; Handshaking; Ready] -> csm_step s EvConnectionLost Backoff
| step_retry e : e ∈ [EvBackoffExpired; EvRetryRequested] -> csm_step Backoff e Retrying
| step_close s :
    s ∈ [Connected; Handshaking; Ready] -> csm_step s EvDisconnect Disconnecting
| step_abandon s :
    s ∈ [Connecting; Backoff; Retrying; Error] -> csm_step s EvDisconnect Disconnected
| step_closed e :
    e ∈ [EvConnectSuccess; EvConnectFailed; EvConnectionLost; EvFatalError] ->
    csm_step Disconnecting e Disconnected
| step_fatal s :
    s ∈ [Connecting; Connected; Handshaking; Ready; Backoff; Retrying] ->
    csm_step s EvFatalError Error.

(** The entries into [Retrying] since [Ready] was last entered, read off the
    sequence of states a run passes through. *)
Fixpoint retries (states : list ConnectionState) (acc : Z) : Z :=
  match states with
  | [] => acc
  | Ready :: states => retries states 0
  | Retrying :: states => retries states (acc + 1)
  | _ :: states => retries states acc
  end.

(** The states entered by the events of a run. *)
Fixpoint entered (events : list ConnectionEvent) (s : ConnectionState)
    : list ConnectionState :=
  match events with
  | [] => []
  | e :: events =>
      match is_valid_transition s e with
      | Some s' => s' :: entered events s'
      | None => entered events s
      end
  end.

(** ** Lemmas *)

Lemma is_valid_transition_spec s e s' :
  is_valid_transition s e = Some s' <-> csm_step s e s'.
Proof.
  split.
  - destruct s, e; vm_compute; intros [= <-]; constructor; apply list_elem_of_In; simpl; tauto.
  - destruct 1; set_unfold; destruct_or?; simplify_eq; reflexivity.
Qed.

(** The two no-op guards never hide a valid transition. *)
Lemma process_event_eq e m :
  process_event e m =
    match is_valid_transition (m_state m) e with
    | Some s' => (TransitionResult_Success, (transition_to s' e m).1,
                  (transition_to s' e m).2)
    | None =>
        (if bool_decide ((m_state m, e) ∈ [(Disconnected, EvDisconnect); (Ready, EvConnectSuccess)])
         then TransitionResult_AlreadyInState else TransitionResult_InvalidTransition, m, [])
    end.
Proof. destruct m as [[] [] c], e; reflexivity. Qed.

Lemma noop_iff s e :
  (s, e) ∈ [(Disconnected, EvDisconnect); (Ready, EvConnectSuccess)] <->
  (s = Disconnected /\ e = EvDisconnect) \/ (s = Ready /\ e = EvConnectSuccess).
Proof. rewrite !elem_of_cons, elem_of_nil, !pair_equal_spec. tauto. Qed.

Lemma run_app es1 es2 m :
  run (es1 ++ es2) m =
    let '(m1, l1) := run es1 m in let '(m2, l2) := run es2 m1 in (m2, l1 ++ l2).
Proof.
  revert m. induction es1 as [|e es1 IH]; intros m; simpl; [by destruct (run es2 m)|].
  destruct (process_event e m) as [[r m1] l]. rewrite IH.
  destruct (run es1 m1) as [m2 l2], (run es2 m2) as [m3 l3]. by rewrite app_assoc.
Qed.

Lemma run_snoc es e m :
  (run (es ++ [e]) m).1 = (process_event e (run es m).1).1.2.
Proof.
  rewrite run_app. destruct (run es m) as [m1 l1]. simpl.
  by destruct (process_event e m1) as [[r m2] l2].
Qed.

(** ** Properties *)

(** C28: the machine implements the transition relation.  An event is
    accepted exactly when the relation has a step for it, and then the machine
    is in the step's target and the registered callback is told the old state,
    the new state and the event; otherwise nothing changes, nobody is told, and
    the result is [AlreadyInState] only for disconnecting a disconnected machine
    and for connecting a ready one. *)
Theorem process_event_refines e m :
  match process_event e m with
  | (TransitionResult_Success, m', log) =>
      csm_step (m_state m) e (m_state m') /\ m_callback m' = m_callback m
      /\ log = match m_callback m with
               | Some cb => [Notification cb (m_state m) (m_state m') e]
               | None => []
               end
  | (r, m', log) =>
      m' = m /\ log = [] /\ (forall s', ~ csm_step (m_state m) e s')
      /\ (r = TransitionResult_AlreadyInState <->
          (m_state m = Disconnected /\ e = EvDisconnect)
          \/ (m_state m = Ready /\ e = EvConnectSuccess))
  end.
Proof.
  rewrite process_event_eq. destruct (is_valid_transition (m_state m) e) as [s'|] eqn:Hv.
  - apply is_valid_transition_spec in Hv. cbn. split_and!; [exact Hv|done|done].
  - assert (forall s', ~ csm_step (m_state m) e s') as Hno
      by (intros s' H%is_valid_transition_spec; congruence).
    pose proof (noop_iff (m_state m) e). case_bool_decide; split_and!; try done; split; try done; tauto.
Qed.

Lemma connected_after es m :
  m_state m = Disconnected -> is_connected (run es m).1 = true -> EvConnectSuccess ∈ es.
Proof.
  intros Hm. induction es as [|e es IH] using rev_ind.
  - unfold is_connected. simpl. by rewrite Hm.
  - rewrite run_snoc, process_event_eq. intros H.
    destruct (decide (e = EvConnectSuccess)) as [->|He]; [set_solver|].
    enough (is_connected (run es m).1 = true) by set_solver.
    destruct (run es m).1 as [s cb c]. clear IH Hm. revert H.
    unfold is_connected. by destruct s, e; cbn; try done.
Qed.

(** no run reaches [Ready] without a TCP connection and a handshake
    success after it: the events contain [ConnectSuccess] and, later,
    [HandshakeSuccess], and the machine has stayed in [Ready] since. *)
Theorem ready_needs_handshake es m :
  m_state m = Disconnected -> m_state (run es m).1 = Ready ->
  exists es1 es2, es = es1 ++ EvHandshakeSuccess :: es2 /\ EvConnectSuccess ∈ es1
    /\ entered es2 Ready = [].
Proof.
  intros Hm. induction es as [|e es IH] using rev_ind; [simpl; congruence|].
  rewrite run_snoc. intros Hr.
  destruct (decide (m_state (run es m).1 = Ready)) as [Hready|Hnot].
  - destruct (IH Hready) as (es1 & es2 & -> & Hc & Hs).
    exists es1, (es2 ++ [e]). rewrite <- app_assoc. split_and!; [done|done|].
    assert (is_valid_transition Ready e = None) as Hv.
    { rewrite process_event_eq, Hready in Hr. clear -Hr.
      destruct e; try reflexivity; discriminate. }
    clear -Hs Hv. revert Hs. induction es2 as [|e2 es2 IH]; simpl; [by rewrite Hv|].
    destruct (is_valid_transition Ready e2); [done|]. auto.
  - exists es, []. assert (e = EvHandshakeSuccess /\ is_connected (run es m).1 = true) as [-> Hc].
    { revert Hr Hnot. rewrite process_event_eq. destruct (run es m).1 as [s cb c].
      unfold is_connected. by destruct s, e; cbn. }
    split_and!; [done|by eapply connected_after|done].
Qed.

Lemma ready_needs_handshake_witness :
  exists es1 es2,
    [EvConnect; EvConnectSuccess; EvHandshakeStarted; EvHandshakeSuccess; EvConnect]
      = es1 ++ EvHandshakeSuccess :: es2
    /\ EvConnectSuccess ∈ es1 /\ entered es2 Ready = [].
Proof.
  apply (ready_needs_handshake
    [EvConnect; EvConnectSuccess; EvHandshakeStarted; EvHandshakeSuccess; EvConnect]
    new_ConnectionStateMachine); reflexivity.
Defined.

Lemma retries_app l1 l2 acc : retries (l1 ++ l2) acc = retries l2 (retries l1 acc).
Proof. revert acc. induction l1 as [|[] l1 IH]; intros acc; simpl; auto. Qed.

Lemma u32_add_u32 a b : u32 (u32 a + b) = u32 (a + b).
Proof. unfold u32, wrap. by rewrite Zplus_mod_idemp_l. Qed.

Lemma retry_count_step e m acc :
  m_retry_count m = u32 acc ->
  m_retry_count (process_event e m).1.2 = u32 (retries (entered [e] (m_state m)) acc)
  /\ m_state (process_event e m).1.2 =
     match is_valid_transition (m_state m) e with Some s' => s' | None => m_state m end.
Proof.
  intros Hc. rewrite process_event_eq. simpl.
  destruct m as [s cb c]. cbn [m_state m_retry_count] in *. subst c.
  destruct s, e; cbn; rewrite ?u32_add_u32; by split.
Qed.

(** the retry counter of a fresh machine is the number of times the run
    entered [Retrying] since it last entered [Ready], modulo 2^32. *)
Theorem retry_count_counts es :
  m_retry_count (run es new_ConnectionStateMachine).1
    = u32 (retries (entered es Disconnected) 0).
Proof.
  enough (forall m acc, m_retry_count m = u32 acc ->
    m_retry_count (run es m).1 = u32 (retries (entered es (m_state m)) acc)) as H.
  { by apply (H new_ConnectionStateMachine 0). }
  induction es as [|e es IH]; intros m acc Hc; [done|].
  destruct (retry_count_step e m acc Hc) as [Hn Hs]. simpl in Hn |- *.
  destruct (process_event e m) as [[r m1] l1]. cbn [fst snd] in Hn, Hs.
  pose proof (IH m1 _ Hn) as IH'. destruct (run es m1) as [m2 l2]. cbn [fst] in IH' |- *.
  rewrite IH', Hs. by destruct (is_valid_transition (m_state m) e) as [[]|].
Qed.

(** recoverability.  From every state, [Disconnect], followed by
    [ConnectionLost] when the machine is then in [Disconnecting], ends in
    [Disconnected]; and from there a connect and a handshake reach [Ready]. *)
Theorem disconnect_then_reconnect m :
  let m1 := (process_event EvDisconnect m).1.2 in
  let m2 := if bool_decide (m_state m1 = Disconnecting)
            then (process_event EvConnectionLost m1).1.2 else m1 in
  m_state m2 = Disconnected
  /\ m_state (run [EvConnect; EvConnectSuccess; EvHandshakeStarted; EvHandshakeSuccess] m2).1
     = Ready.
Proof. by destruct m as [[] cb c]. Qed.
