(* ===== verification/Reconnect.v ===== *)
(** * Reconnection with exponential backoff ([network/reconnect.{hpp,cpp}])

    All fields keep the width the source gives them: [uint32_t] delays and
    counters wrap, and the percentages are [uint8_t] and [uint16_t].  The
    integer division by [multiplier_percent] is undefined in C++ when the
    multiplier is zero; there [calculate_delay] is [None]. *)

From stdpp Require Import base numbers list.
From Stdlib Require Import ZArith Lia Bool.
From S2P Require Import Prelude.

Record ReconnectConfig : Type := {
  initial_delay_ms : Z;
  max_delay_ms : Z;
  multiplier_percent : Z;
  jitter_percent : Z;
  max_retries : Z;
  fast_retries : Z;
  fast_delay_ms : Z
}.

Definition default_ReconnectConfig : ReconnectConfig := {|
  initial_delay_ms := 1000; max_delay_ms := 30000; multiplier_percent := 200;
  jitter_percent := 10; max_retries := 0; fast_retries := 1; fast_delay_ms := 200
|}.

Inductive RetryResult : Set := ShouldRetry | MaxRetriesReached.

#[export] Instance RetryResult_eq_dec : EqDecision RetryResult.
Proof. solve_decision. Defined.

Record ReconnectManager : Type := {
  m_config : ReconnectConfig;
  m_retry_count : Z;
  m_current_delay_ms : Z
}.

(** The [for] loop of [calculate_delay], [n] iterations from the delay [cur]. *)
Fixpoint delay_loop (c : ReconnectConfig) (n : nat) (cur : Z) : option Z :=
  match n with
  | O => Some cur
  | S n =>
      if multiplier_percent c =? 0 then None
      else
        let safe_threshold := u32 (max_delay_ms c * 100) / multiplier_percent c in
        if safe_threshold <=? cur then Some (max_delay_ms c)
        else
          let cur := u32 (cur * multiplier_percent c) / 100 in
          if max_delay_ms c <? cur then Some (max_delay_ms c) else delay_loop c n cur
  end.

(** The delay [calculate_delay] stores for a retry count. *)
Definition calculate_delay (c : ReconnectConfig) (retry_count : Z) : option Z :=
  if retry_count <? fast_retries c then Some (fast_delay_ms c)
  else delay_loop c (Z.to_nat (u32 (retry_count - fast_retries c))) (initial_delay_ms c).

(** [calculate_delay()] as a method: store the delay. *)
Definition update_delay (m : ReconnectManager) : option ReconnectManager :=
  d ← calculate_delay (m_config m) (m_retry_count m);
  Some {| m_config := m_config m; m_retry_count := m_retry_count m;
          m_current_delay_ms := d |}.

Definition new_ReconnectManager (config : ReconnectConfig) : option ReconnectManager :=
  update_delay {| m_config := config; m_retry_count := 0; m_current_delay_ms := 0 |}.

Definition get_next_delay_ms (m : ReconnectManager) : Z := m_current_delay_ms m.

(** The xorshift of the seed. *)
Definition jitter_hash (seed : Z) : Z :=
  let hash := seed in
  let hash := Z.lxor hash (u32 (Z.shiftl hash 13)) in
  let hash := Z.lxor hash (Z.shiftr hash 17) in
  Z.lxor hash (u32 (Z.shiftl hash 5)).

Definition get_next_delay_ms_with_jitter (seed : Z) (m : ReconnectManager) : Z :=
  if jitter_percent (m_config m) =? 0 then m_current_delay_ms m
  else
    let jitter_range := u32 (2 * jitter_percent (m_config m) + 1) in
    let jitter_offset :=
      s32 (jitter_hash seed mod jitter_range) - jitter_percent (m_config m) in
    let adjusted := Z.quot (m_current_delay_ms m * (100 + jitter_offset)) 100 in
    let adjusted := if adjusted <? 1 then 1 else adjusted in
    let adjusted := if max_delay_ms (m_config m) <? adjusted
                    then max_delay_ms (m_config m) else adjusted in
    u32 adjusted.

Definition should_retry (m : ReconnectManager) : RetryResult :=
  if max_retries (m_config m) =? 0 then ShouldRetry
  else if max_retries (m_config m) <=? m_retry_count m then MaxRetriesReached
  else ShouldRetry.

Definition record_failure (m : ReconnectManager) : option ReconnectManager :=
  let count := if m_retry_count m <? 4294967295 then u32 (m_retry_count m + 1)
               else m_retry_count m in
  update_delay {| m_config := m_config m; m_retry_count := count;
                  m_current_delay_ms := m_current_delay_ms m |}.

Definition reset (m : ReconnectManager) : option ReconnectManager :=
  update_delay {| m_config := m_config m; m_retry_count := 0;
                  m_current_delay_ms := m_current_delay_ms m |}.

Definition set_config (config : ReconnectConfig) (m : ReconnectManager)
    : option ReconnectManager :=
  update_delay {| m_config := config; m_retry_count := m_retry_count m;
                  m_current_delay_ms := m_current_delay_ms m |}.

(** [n] failed attempts in a row. *)
Fixpoint failures (n : nat) (m : ReconnectManager) : option ReconnectManager :=
  match n with
  | O => Some m
  | S n => m' ← record_failure m; failures n m'
  end.

(** Field values of the declared widths, a multiplier that may be divided by,
    and delays below the cap. *)
Definition config_ok (c : ReconnectConfig) : bool :=
  (0 <? multiplier_percent c) && (multiplier_percent c <? 65536)
  && (0 <=? initial_delay_ms c) && (initial_delay_ms c <=? max_delay_ms c)
  && (0 <=? fast_delay_ms c) && (fast_delay_ms c <=? max_delay_ms c)
  && (max_delay_ms c <? 4294967296)
  && (0 <=? jitter_percent c) && (jitter_percent c <? 256)
  && (0 <=? max_retries c) && (max_retries c <? 65536)
  && (0 <=? fast_retries c) && (fast_retries c <? 256).

(** ** Lemmas *)

Lemma u32_div_nonneg a b : 0 < b -> 0 <= u32 a / b.
Proof. intros. apply Z.div_pos; [apply u32_range|lia]. Qed.

Lemma delay_loop_bounds c n cur :
  0 < multiplier_percent c -> 0 <= cur <= max_delay_ms c ->
  exists d, delay_loop c n cur = Some d /\ 0 <= d <= max_delay_ms c.
Proof.
  intros Hm. revert cur. induction n as [|n IH]; intros cur Hc; simpl.
  - exists cur. by split.
  - rewrite (proj2 (Z.eqb_neq _ _)) by lia.
    destruct (Z.leb_spec (u32 (max_delay_ms c * 100) / multiplier_percent c) cur);
      [exists (max_delay_ms c); split; [done|lia]|].
    pose proof (u32_div_nonneg (cur * multiplier_percent c) 100 ltac:(lia)).
    destruct (Z.ltb_spec (max_delay_ms c) (u32 (cur * multiplier_percent c) / 100));
      [exists (max_delay_ms c); split; [done|lia]|].
    apply IH. lia.
Qed.

Lemma calculate_delay_bounds c count :
  config_ok c = true -> exists d, calculate_delay c count = Some d /\ 0 <= d <= max_delay_ms c.
Proof.
  unfold config_ok. intros. zbool. unfold calculate_delay. case_if.
  - eexists. split; [done|lia].
  - apply delay_loop_bounds; lia.
Qed.

(** Below the threshold the multiplication does not wrap. *)
Lemma below_threshold c cur :
  0 < multiplier_percent c -> 0 <= cur -> 0 <= max_delay_ms c ->
  max_delay_ms c * 100 < 4294967296 ->
  cur < u32 (max_delay_ms c * 100) / multiplier_percent c ->
  u32 (cur * multiplier_percent c) = cur * multiplier_percent c
  /\ cur * multiplier_percent c <= max_delay_ms c * 100.
Proof.
  intros Hm Hc Hd Hov Hlt. rewrite u32_small in Hlt by lia.
  pose proof (Z.mul_div_le (max_delay_ms c * 100) (multiplier_percent c) Hm).
  assert (cur * multiplier_percent c <= max_delay_ms c * 100) by nia.
  rewrite u32_small; nia.
Qed.

Lemma delay_loop_ge c n cur d :
  100 <= multiplier_percent c -> 0 <= cur <= max_delay_ms c ->
  max_delay_ms c * 100 < 4294967296 ->
  delay_loop c n cur = Some d -> cur <= d.
Proof.
  intros Hm. revert cur. induction n as [|n IH]; intros cur Hc Hov; simpl; [intros [= ->]; lia|].
  rewrite (proj2 (Z.eqb_neq _ _)) by lia.
  destruct (Z.leb_spec (u32 (max_delay_ms c * 100) / multiplier_percent c) cur);
    [intros [= <-]; lia|].
  destruct (below_threshold c cur) as [-> Hle]; try lia.
  assert (cur <= cur * multiplier_percent c / 100) by (apply Z.div_le_lower_bound; nia).
  case_if; zbool; [intros [= <-]; lia|]. intros Hl%IH; lia.
Qed.

Lemma delay_loop_monotone c n cur d d' :
  100 <= multiplier_percent c -> 0 <= cur <= max_delay_ms c ->
  max_delay_ms c * 100 < 4294967296 ->
  delay_loop c n cur = Some d -> delay_loop c (S n) cur = Some d' -> d <= d'.
Proof.
  intros Hm. revert cur. induction n as [|n IH]; intros cur Hc Hov.
  - intros [= <-]. apply delay_loop_ge; done.
  - intros H1 H2. change (delay_loop c (S (S n)) cur) with
      (if multiplier_percent c =? 0 then None
       else if u32 (max_delay_ms c * 100) / multiplier_percent c <=? cur
       then Some (max_delay_ms c)
       else if max_delay_ms c <? u32 (cur * multiplier_percent c) / 100
       then Some (max_delay_ms c)
       else delay_loop c (S n) (u32 (cur * multiplier_percent c) / 100)) in H2.
    cbn [delay_loop] in H1. revert H1 H2.
    rewrite (proj2 (Z.eqb_neq _ _)) by lia.
    pose proof (u32_div_nonneg (cur * multiplier_percent c) 100 ltac:(lia)).
    destruct (Z.leb_spec (u32 (max_delay_ms c * 100) / multiplier_percent c) cur);
      [intros; simplify_eq; lia|].
    destruct (Z.ltb_spec (max_delay_ms c) (u32 (cur * multiplier_percent c) / 100));
      [intros; simplify_eq; lia|].
    apply IH; lia.
Qed.

(** Every step of the loop that is not capped gains at least one. *)
Lemma delay_loop_progress c n cur d :
  100 <= initial_delay_ms c * (multiplier_percent c - 100) ->
  0 < initial_delay_ms c <= cur -> cur <= max_delay_ms c ->
  max_delay_ms c * 100 < 4294967296 ->
  delay_loop c n cur = Some d -> d = max_delay_ms c \/ cur + Z.of_nat n <= d.
Proof.
  intros Hg. revert cur. induction n as [|n IH]; intros cur Hi Hc Hov; simpl;
    [intros [= ->]; lia|].
  assert (0 < multiplier_percent c - 100) by nia.
  rewrite (proj2 (Z.eqb_neq _ _)) by lia.
  destruct (Z.leb_spec (u32 (max_delay_ms c * 100) / multiplier_percent c) cur);
    [intros [= <-]; lia|].
  destruct (below_threshold c cur) as [-> Hle]; try lia.
  assert (cur + 1 <= cur * multiplier_percent c / 100) by (apply Z.div_le_lower_bound; nia).
  case_if; zbool; [intros [= <-]; lia|].
  intros Hl. apply IH in Hl as [?|?]; lia.
Qed.

Lemma update_delay_spec m :
  config_ok (m_config m) = true ->
  exists d, update_delay m = Some {| m_config := m_config m; m_retry_count := m_retry_count m;
                                     m_current_delay_ms := d |}
    /\ calculate_delay (m_config m) (m_retry_count m) = Some d
    /\ 0 <= d <= max_delay_ms (m_config m).
Proof.
  intros Hc. destruct (calculate_delay_bounds _ (m_retry_count m) Hc) as (d & Hd & Hb).
  exists d. unfold update_delay. rewrite Hd. split_and!; [done..|lia|lia].
Qed.

Lemma failures_spec n c m :
  config_ok c = true -> new_ReconnectManager c = Some m -> Z.of_nat n < 4294967296 ->
  exists m', failures n m = Some m' /\ m_config m' = c /\ m_retry_count m' = Z.of_nat n
    /\ calculate_delay c (Z.of_nat n) = Some (m_current_delay_ms m').
Proof.
  intros Hc Hnew Hn. unfold new_ReconnectManager in Hnew.
  destruct (update_delay_spec {| m_config := c; m_retry_count := 0; m_current_delay_ms := 0 |} Hc)
    as (d0 & He & Hd0 & _). rewrite He in Hnew. injection Hnew as <-. clear He.
  cbn [m_config m_retry_count] in *.
  enough (forall k d, Z.of_nat k + Z.of_nat n < 4294967296 ->
    calculate_delay c (Z.of_nat k) = Some d ->
    exists m', failures n {| m_config := c; m_retry_count := Z.of_nat k; m_current_delay_ms := d |}
        = Some m' /\ m_config m' = c /\ m_retry_count m' = Z.of_nat (k + n)
      /\ calculate_delay c (Z.of_nat (k + n)) = Some (m_current_delay_ms m')) as H.
  { apply (H 0%nat d0); [lia|done]. }
  clear Hn d0 Hd0. induction n as [|n IH]; intros k d Hk Hd.
  - rewrite Nat.add_0_r. eexists. by split_and!.
  - cbn [failures]. unfold record_failure. cbn [m_config m_retry_count m_current_delay_ms].
    rewrite (proj2 (Z.ltb_lt _ _)), u32_small by lia.
    replace (Z.of_nat k + 1) with (Z.of_nat (S k)) by lia.
    destruct (update_delay_spec {| m_config := c; m_retry_count := Z.of_nat (S k);
      m_current_delay_ms := d |} Hc) as (d' & -> & Hd' & _).
    cbn [mbind option_bind m_config m_retry_count] in *.
    rewrite <- Nat.add_succ_comm. apply IH; [lia|done].
Qed.


(** Consecutive delays of one configuration. *)
Lemma calculate_delay_monotone c n d d' :
  config_ok c = true -> 100 <= multiplier_percent c -> fast_delay_ms c <= initial_delay_ms c ->
  max_delay_ms c * 100 < 4294967296 -> 0 <= n -> n + 1 < 4294967296 ->
  calculate_delay c n = Some d -> calculate_delay c (n + 1) = Some d' -> d <= d'.
Proof.
  intros Hok Hm Hf Hov Hn0 Hn. unfold config_ok in Hok. zbool. unfold calculate_delay.
  destruct (Z.ltb_spec n (fast_retries c)).
  - intros [= <-]. destruct (Z.ltb_spec (n + 1) (fast_retries c)); [intros [= <-]; lia|].
    intros Hl%delay_loop_ge; lia.
  - rewrite (proj2 (Z.ltb_ge _ _)), !u32_small by lia.
    replace (Z.to_nat (n + 1 - fast_retries c)) with (S (Z.to_nat (n - fast_retries c))) by lia.
    apply delay_loop_monotone; lia.
Qed.

(** ** Properties *)

(** the backoff reaches its cap: when a step gains at least one
    millisecond, enough failures bring the delay to exactly [max_delay_ms],
    however small the multiplier. *)
Theorem backoff_reaches_cap c m n :
  config_ok c = true -> 0 < initial_delay_ms c ->
  100 <= initial_delay_ms c * (multiplier_percent c - 100) ->
  max_delay_ms c * 100 < 4294967296 -> Z.of_nat n < 4294967296 ->
  fast_retries c + (max_delay_ms c - initial_delay_ms c) <= Z.of_nat n ->
  fast_retries c <= Z.of_nat n ->
  new_ReconnectManager c = Some m ->
  exists m', failures n m = Some m' /\ get_next_delay_ms m' = max_delay_ms c.
Proof.
  intros Hok Hi Hg Hov Hn Hlarge Hfast Hnew.
  destruct (failures_spec n c m Hok Hnew Hn) as (m' & E & _ & _ & Hd).
  exists m'. split; [done|]. unfold get_next_delay_ms.
  destruct (calculate_delay_bounds c (Z.of_nat n) Hok) as (d & Hd2 & Hb).
  rewrite Hd2 in Hd. injection Hd as <-.
  unfold config_ok in Hok. zbool. unfold calculate_delay in Hd2.
  rewrite (proj2 (Z.ltb_ge _ _)), u32_small in Hd2 by lia.
  apply delay_loop_progress in Hd2 as [?|?]; lia.
Qed.

(** A configuration whose cap is ten milliseconds above its start. *)
Definition short_config : ReconnectConfig := {|
  initial_delay_ms := 200; max_delay_ms := 210; multiplier_percent := 101;
  jitter_percent := 10; max_retries := 4; fast_retries := 0; fast_delay_ms := 200
|}.

Lemma backoff_reaches_cap_witness :
  exists m', failures 10
    {| m_config := short_config; m_retry_count := 0; m_current_delay_ms := 200 |}
    = Some m' /\ get_next_delay_ms m' = 210.
Proof.
  apply (backoff_reaches_cap short_config); cbn; lia || reflexivity.
Defined.

(** The value the jitter multiplies the delay by lies within the percentage. *)
Lemma jitter_offset_range seed p :
  0 < p < 256 ->
  - p <= s32 (jitter_hash seed mod u32 (2 * p + 1)) - p <= p.
Proof.
  intros Hp. rewrite u32_small by lia.
  pose proof (Z.mod_pos_bound (jitter_hash seed) (2 * p + 1) ltac:(lia)).
  unfold s32, signed. rewrite (Z.mod_small _ (2 ^ 32)) by lia.
  rewrite (proj2 (Z.ltb_lt _ _)) by lia. lia.
Qed.

(** Every jittered delay is within the cap and, for a percentage up to 100,
    that percentage around the base delay: rounded down, and at least 1 ms. *)
Lemma jitter_range m seed :
  config_ok (m_config m) = true -> 0 <= m_current_delay_ms m <= max_delay_ms (m_config m) ->
  let j := get_next_delay_ms_with_jitter seed m in
  let p := jitter_percent (m_config m) in
  0 <= j <= max_delay_ms (m_config m)
  /\ (p <= 100 -> (j <= 1 \/ j * 100 <= m_current_delay_ms m * (100 + p))
                  /\ m_current_delay_ms m * (100 - p) < (j + 1) * 100).
Proof.
  intros Hok Hd. cbv zeta. unfold get_next_delay_ms_with_jitter.
  unfold config_ok in Hok. zbool. set (p := jitter_percent (m_config m)) in *. clearbody p.
  destruct (Z.eqb_spec p 0) as [Hp|Hp]; [subst p; split; [|intros _; split]; lia|].
  pose proof (jitter_offset_range seed p ltac:(lia)) as Ho.
  set (o := s32 _ - p) in *. set (d := m_current_delay_ms m) in *.
  set (M := max_delay_ms (m_config m)) in *. clearbody o d M.
  assert (Hq : p <= 100 -> 0 <= d * (100 + o)
    /\ d * (100 - p) <= d * (100 + o) <= d * (100 + p) /\ d * (100 - p) <= M * 100)
    by (intros; split_and!; nia).
  pose proof (Z.quot_rem (d * (100 + o)) 100 ltac:(lia)).
  pose proof (Z.rem_nonneg (d * (100 + o)) 100 ltac:(lia)).
  pose proof (Z.rem_bound_abs (d * (100 + o)) 100 ltac:(lia)).
  set (q := Z.quot (d * (100 + o)) 100) in *.
  destruct (Z.ltb_spec q 1); zcases; rewrite u32_small by lia; (split; [lia|]);
    intros Hl; destruct (Hq Hl) as (? & ? & ?); split; lia.
Qed.

(** C37: the delay before the next attempt after [n] failures in a row (fewer
    than 2^32), for a configuration whose multiplier is not zero and whose
    initial and fast delays are within the cap [max_delay_ms].  It exists (no
    division by zero) and is within the cap; so is the wait the client really
    takes, the delay jittered by the time, and for a percentage up to 100 that
    wait lies within [jitter_percent] of the delay (or is 1 ms or less).  The
    delay before the jitter does not get shorter with the next failure if,
    besides, the multiplier is at least 100 %, the fast delay at most the
    initial one and the cap below 2^32/100 ms.  The jittered waits need not be
    monotone. *)
Theorem backoff_bounded_monotone c m n :
  config_ok c = true -> Z.of_nat (S n) < 4294967296 -> new_ReconnectManager c = Some m ->
  exists mn mn', failures n m = Some mn /\ failures (S n) m = Some mn'
    /\ 0 <= get_next_delay_ms mn <= max_delay_ms c
    /\ (forall seed, let j := get_next_delay_ms_with_jitter seed mn in
          0 <= j <= max_delay_ms c
          /\ (jitter_percent c <= 100 ->
               (j <= 1 \/ j * 100 <= get_next_delay_ms mn * (100 + jitter_percent c))
               /\ get_next_delay_ms mn * (100 - jitter_percent c) < (j + 1) * 100))
    /\ (100 <= multiplier_percent c -> fast_delay_ms c <= initial_delay_ms c ->
        max_delay_ms c * 100 < 4294967296 -> get_next_delay_ms mn <= get_next_delay_ms mn').
Proof.
  intros Hok Hn Hnew.
  destruct (failures_spec n c m Hok Hnew ltac:(lia)) as (mn & E & Hc & _ & Hd).
  destruct (failures_spec (S n) c m Hok Hnew ltac:(lia)) as (mn' & E' & _ & _ & Hd').
  destruct (calculate_delay_bounds c (Z.of_nat n) Hok) as (d & Hd2 & Hb).
  rewrite Hd2 in Hd. injection Hd as ->.
  exists mn, mn'. unfold get_next_delay_ms. split_and!; try done; try lia.
  - intros seed. rewrite <- Hc. apply jitter_range; by rewrite Hc.
  - intros. apply (calculate_delay_monotone c (Z.of_nat n)); try done; try lia.
    replace (Z.of_nat n + 1) with (Z.of_nat (S n)) by lia. done.
Qed.

Lemma backoff_bounded_monotone_witness :
  exists mn mn', failures 3 {| m_config := default_ReconnectConfig; m_retry_count := 0;
                               m_current_delay_ms := 200 |} = Some mn
    /\ failures 4 {| m_config := default_ReconnectConfig; m_retry_count := 0;
                      m_current_delay_ms := 200 |} = Some mn'
    /\ 0 <= get_next_delay_ms mn <= get_next_delay_ms mn'
    /\ 0 <= get_next_delay_ms_with_jitter 12345 mn <= 30000
    /\ get_next_delay_ms mn * 90 < (get_next_delay_ms_with_jitter 12345 mn + 1) * 100.
Proof.
  destruct (backoff_bounded_monotone default_ReconnectConfig
    {| m_config := default_ReconnectConfig; m_retry_count := 0; m_current_delay_ms := 200 |} 3)
    as (mn & mn' & H1 & H2 & Hb & Hj & Hm); [reflexivity|lia|reflexivity|].
  destruct (Hj 12345) as [Hr Hp]. specialize (Hp ltac:(cbn; lia)).
  specialize (Hm ltac:(cbn; lia) ltac:(cbn; lia) ltac:(cbn; lia)).
  exists mn, mn'. split; [exact H1|]. split; [exact H2|]. cbn in Hb, Hr, Hp, Hm |- *. lia.
Defined.

(** with a retry limit, exactly the first [max_retries] failures are
    followed by another attempt; with the limit 0 every failure is. *)
Theorem should_retry_limit c m n :
  config_ok c = true -> Z.of_nat n < 4294967296 -> new_ReconnectManager c = Some m ->
  exists m', failures n m = Some m'
    /\ (should_retry m' = ShouldRetry <-> max_retries c = 0 \/ Z.of_nat n < max_retries c).
Proof.
  intros Hok Hn Hnew.
  destruct (failures_spec n c m Hok Hnew Hn) as (m' & E & Hc & Hk & _).
  exists m'. split; [done|]. unfold should_retry. rewrite Hc, Hk.
  zcases; split; intros; try done; lia.
Qed.

Lemma should_retry_limit_witness :
  exists m', failures 4 {| m_config := short_config; m_retry_count := 0; m_current_delay_ms := 200 |}
      = Some m'
    /\ (should_retry m' = ShouldRetry <-> 4 = 0 \/ 4 < 4).
Proof. apply (should_retry_limit short_config); [reflexivity|lia|reflexivity]. Defined.

(** a [max_delay_ms] above [UINT32_MAX / 100] wraps in the computation of
    the safe threshold: with a cap of 42949673 ms (about twelve hours) and the
    default growth, the first exponential step already waits the whole cap,
    although doubling 1000 ms is far below it. *)
Theorem threshold_wraps :
  let c := {| initial_delay_ms := 1000; max_delay_ms := 42949673; multiplier_percent := 200;
              jitter_percent := 10; max_retries := 0; fast_retries := 1; fast_delay_ms := 200 |} in
  config_ok c = true
  /\ calculate_delay c 1 = Some 1000
  /\ calculate_delay c 2 = Some 42949673
  /\ calculate_delay (m_config {| m_config := default_ReconnectConfig; m_retry_count := 0;
                                  m_current_delay_ms := 0 |}) 2 = Some 2000.
Proof. cbv zeta. split_and!; vm_compute; reflexivity. Qed.

(** The delays of the default configuration. *)
Example default_delays :
  map (calculate_delay default_ReconnectConfig) [0; 1; 2; 3; 4; 5; 6; 7]
  = map Some [200; 1000; 2000; 4000; 8000; 16000; 30000; 30000].
Proof. reflexivity. Qed.
