(* ===== verification/LdnStateMachine.v ===== *)
(** * The LDN communication state machine ([ldn/ldn_state_machine.{hpp,cpp}])

    Every public method has the same shape (already there, guard, store,
    signal, callback) and is transcribed with its own guard.  The state event
    and the callback are effects on the outside: the model counts the signals
    and logs the callback's arguments in order.  [TransitionTo] and
    [IsValidTransition] are the private specification of the diagram. *)

From stdpp Require Import base list.
From Stdlib Require Import Bool.
From S2P Require Import Prelude.

Inductive CommState : Set :=
  | CommState_None | CommState_Initialized | CommState_AccessPoint
  | CommState_AccessPointCreated | CommState_Station | CommState_StationConnected
  | CommState_Error.

#[export] Instance CommState_eq_dec : EqDecision CommState.
Proof. solve_decision. Defined.

(** The numbers of [enum class CommState : u32], which the games read. *)
Definition CommState_value (s : CommState) : Z :=
  match s with
  | CommState_None => 0 | CommState_Initialized => 1 | CommState_AccessPoint => 2
  | CommState_AccessPointCreated => 3 | CommState_Station => 4
  | CommState_StationConnected => 5 | CommState_Error => 6
  end.

Inductive StateTransitionResult : Set := Success | InvalidTransition | AlreadyInState.

#[export] Instance StateTransitionResult_eq_dec : EqDecision StateTransitionResult.
Proof. solve_decision. Defined.

Record LdnStateMachine : Type := {
  m_state : CommState;
  m_signals : nat;
  m_callback : bool;
  m_callback_log : list (CommState * CommState)
}.

Definition new_LdnStateMachine : LdnStateMachine :=
  {| m_state := CommState_None; m_signals := 0; m_callback := false; m_callback_log := [] |}.

(** ** State queries *)

Definition GetState (m : LdnStateMachine) : CommState := m_state m.

Definition IsInState (state : CommState) (m : LdnStateMachine) : bool :=
  bool_decide (m_state m = state).

Definition IsInitialized (m : LdnStateMachine) : bool :=
  negb (IsInState CommState_None m) && negb (IsInState CommState_Error m).

Definition IsNetworkActive (m : LdnStateMachine) : bool :=
  IsInState CommState_AccessPointCreated m || IsInState CommState_StationConnected m.

(** ** Transitions *)

Definition SignalStateChange (m : LdnStateMachine) : LdnStateMachine :=
  {| m_state := m_state m; m_signals := S (m_signals m);
     m_callback := m_callback m; m_callback_log := m_callback_log m |}.

Definition set_state (s : CommState) (m : LdnStateMachine) : LdnStateMachine :=
  {| m_state := s; m_signals := m_signals m;
     m_callback := m_callback m; m_callback_log := m_callback_log m |}.

Definition call_callback (old new : CommState) (m : LdnStateMachine) : LdnStateMachine :=
  {| m_state := m_state m; m_signals := m_signals m; m_callback := m_callback m;
     m_callback_log :=
       if m_callback m then m_callback_log m ++ [(old, new)] else m_callback_log m |}.

(** The common tail of the methods: store, signal, call back. *)
Definition enter (s : CommState) (m : LdnStateMachine)
    : StateTransitionResult * LdnStateMachine :=
  let old := m_state m in
  let m := SignalStateChange (set_state s m) in
  (Success, call_callback old (m_state m) m).

Definition Initialize (m : LdnStateMachine) : StateTransitionResult * LdnStateMachine :=
  if IsInState CommState_Initialized m then (AlreadyInState, m)
  else if negb (IsInState CommState_None m) then (InvalidTransition, m)
  else enter CommState_Initialized m.

Definition Finalize (m : LdnStateMachine) : StateTransitionResult * LdnStateMachine :=
  if IsInState CommState_None m then (AlreadyInState, m)
  else enter CommState_None m.

Definition OpenAccessPoint (m : LdnStateMachine) : StateTransitionResult * LdnStateMachine :=
  if IsInState CommState_AccessPoint m then (AlreadyInState, m)
  else if negb (IsInState CommState_Initialized m) then (InvalidTransition, m)
  else enter CommState_AccessPoint m.

Definition CloseAccessPoint (m : LdnStateMachine) : StateTransitionResult * LdnStateMachine :=
  if IsInState CommState_Initialized m then (AlreadyInState, m)
  else if negb (IsInState CommState_AccessPoint m)
          && negb (IsInState CommState_AccessPointCreated m) then (InvalidTransition, m)
  else enter CommState_Initialized m.

Definition CreateNetwork (m : LdnStateMachine) : StateTransitionResult * LdnStateMachine :=
  if IsInState CommState_AccessPointCreated m then (AlreadyInState, m)
  else if negb (IsInState CommState_AccessPoint m) then (InvalidTransition, m)
  else enter CommState_AccessPointCreated m.

Definition DestroyNetwork (m : LdnStateMachine) : StateTransitionResult * LdnStateMachine :=
  if IsInState CommState_AccessPoint m then (AlreadyInState, m)
  else if negb (IsInState CommState_AccessPointCreated m) then (InvalidTransition, m)
  else enter CommState_AccessPoint m.

Definition OpenStation (m : LdnStateMachine) : StateTransitionResult * LdnStateMachine :=
  if IsInState CommState_Station m then (AlreadyInState, m)
  else if negb (IsInState CommState_Initialized m) then (InvalidTransition, m)
  else enter CommState_Station m.

Definition CloseStation (m : LdnStateMachine) : StateTransitionResult * LdnStateMachine :=
  if IsInState CommState_Initialized m then (AlreadyInState, m)
  else if negb (IsInState CommState_Station m)
          && negb (IsInState CommState_StationConnected m) then (InvalidTransition, m)
  else enter CommState_Initialized m.

Definition Connect (m : LdnStateMachine) : StateTransitionResult * LdnStateMachine :=
  if IsInState CommState_StationConnected m then (AlreadyInState, m)
  else if negb (IsInState CommState_Station m) then (InvalidTransition, m)
  else enter CommState_StationConnected m.

Definition Disconnect (m : LdnStateMachine) : StateTransitionResult * LdnStateMachine :=
  if IsInState CommState_Station m then (AlreadyInState, m)
  else if negb (IsInState CommState_StationConnected m) then (InvalidTransition, m)
  else enter CommState_Station m.

Definition SetError (m : LdnStateMachine) : StateTransitionResult * LdnStateMachine :=
  if IsInState CommState_Error m then (AlreadyInState, m)
  else enter CommState_Error m.

Definition SetStateCallback (callback : bool) (m : LdnStateMachine) : LdnStateMachine :=
  {| m_state := m_state m; m_signals := m_signals m;
     m_callback := callback; m_callback_log := m_callback_log m |}.

(** ** The private transition relation *)

Definition IsValidTransition (from to : CommState) : bool :=
  if bool_decide (to = CommState_Error) || bool_decide (to = CommState_None) then true
  else match from with
  | CommState_None => bool_decide (to = CommState_Initialized)
  | CommState_Initialized =>
      bool_decide (to = CommState_AccessPoint) || bool_decide (to = CommState_Station)
  | CommState_AccessPoint =>
      bool_decide (to = CommState_AccessPointCreated) || bool_decide (to = CommState_Initialized)
  | CommState_AccessPointCreated =>
      bool_decide (to = CommState_AccessPoint) || bool_decide (to = CommState_Initialized)
  | CommState_Station =>
      bool_decide (to = CommState_StationConnected) || bool_decide (to = CommState_Initialized)
  | CommState_StationConnected =>
      bool_decide (to = CommState_Station) || bool_decide (to = CommState_Initialized)
  | CommState_Error => bool_decide (to = CommState_Initialized)
  end.

Definition TransitionTo (new_state : CommState) (m : LdnStateMachine)
    : StateTransitionResult * LdnStateMachine :=
  if bool_decide (m_state m = new_state) then (AlreadyInState, m)
  else if negb (IsValidTransition (m_state m) new_state) then (InvalidTransition, m)
  else enter new_state m.

(** ** Operations as data *)

Inductive LdnOp : Set :=
  | OpInitialize | OpFinalize | OpOpenAccessPoint | OpCloseAccessPoint | OpCreateNetwork
  | OpDestroyNetwork | OpOpenStation | OpCloseStation | OpConnect | OpDisconnect | OpSetError.

Definition perform (o : LdnOp) : LdnStateMachine -> StateTransitionResult * LdnStateMachine :=
  match o with
  | OpInitialize => Initialize | OpFinalize => Finalize
  | OpOpenAccessPoint => OpenAccessPoint | OpCloseAccessPoint => CloseAccessPoint
  | OpCreateNetwork => CreateNetwork | OpDestroyNetwork => DestroyNetwork
  | OpOpenStation => OpenStation | OpCloseStation => CloseStation
  | OpConnect => Connect | OpDisconnect => Disconnect | OpSetError => SetError
  end.

(** The state an operation aims at. *)
Definition target (o : LdnOp) : CommState :=
  match o with
  | OpInitialize => CommState_Initialized | OpFinalize => CommState_None
  | OpOpenAccessPoint => CommState_AccessPoint | OpCloseAccessPoint => CommState_Initialized
  | OpCreateNetwork => CommState_AccessPointCreated | OpDestroyNetwork => CommState_AccessPoint
  | OpOpenStation => CommState_Station | OpCloseStation => CommState_Initialized
  | OpConnect => CommState_StationConnected | OpDisconnect => CommState_Station
  | OpSetError => CommState_Error
  end.

(** The arrows of the header's diagram, with the ones its method comments add. *)
Inductive arrow : LdnOp -> CommState -> CommState -> Prop :=
  | arrow_initialize : arrow OpInitialize CommState_None CommState_Initialized
  | arrow_finalize s : s <> CommState_None -> arrow OpFinalize s CommState_None
  | arrow_open_ap : arrow OpOpenAccessPoint CommState_Initialized CommState_AccessPoint
  | arrow_close_ap s : s = CommState_AccessPoint \/ s = CommState_AccessPointCreated ->
      arrow OpCloseAccessPoint s CommState_Initialized
  | arrow_create : arrow OpCreateNetwork CommState_AccessPoint CommState_AccessPointCreated
  | arrow_destroy : arrow OpDestroyNetwork CommState_AccessPointCreated CommState_AccessPoint
  | arrow_open_sta : arrow OpOpenStation CommState_Initialized CommState_Station
  | arrow_close_sta s : s = CommState_Station \/ s = CommState_StationConnected ->
      arrow OpCloseStation s CommState_Initialized
  | arrow_connect : arrow OpConnect CommState_Station CommState_StationConnected
  | arrow_disconnect : arrow OpDisconnect CommState_StationConnected CommState_Station
  | arrow_error s : s <> CommState_Error -> arrow OpSetError s CommState_Error.

(** A sequence of calls, with the results the callers got. *)
Fixpoint perform_all (os : list LdnOp) (m : LdnStateMachine)
    : list StateTransitionResult * LdnStateMachine :=
  match os with
  | [] => ([], m)
  | o :: os =>
      let (r, m) := perform o m in
      let (rs, m) := perform_all os m in (r :: rs, m)
  end.

(** A log in which every entry starts where the previous one ended. *)
Inductive chain : CommState -> list (CommState * CommState) -> CommState -> Prop :=
  | chain_nil s : chain s [] s
  | chain_cons s t u l :
      IsValidTransition s t = true -> chain t l u -> chain s ((s, t) :: l) u.

(** ** Lemmas *)

Lemma perform_cases o m :
  perform o m = (AlreadyInState, m) /\ m_state m = target o
  \/ perform o m = (InvalidTransition, m)
       /\ m_state m <> target o /\ (forall t, ~ arrow o (m_state m) t)
  \/ perform o m = enter (target o) m
       /\ m_state m <> target o /\ arrow o (m_state m) (target o).
Proof.
  destruct m as [s n cb log]. destruct o, s; cbn [m_state target];
    first [ left; split; reflexivity
          | right; left; split_and!; [reflexivity|discriminate|intros t Ha; inversion Ha; subst;
              repeat match goal with H : _ \/ _ |- _ => destruct H | H : _ = _ |- _ => discriminate end]
          | right; right; split_and!; [reflexivity|discriminate|constructor; auto; discriminate] ].
Qed.

Lemma arrow_valid o s t : arrow o s t -> IsValidTransition s t = true /\ t = target o.
Proof. intros []; repeat case_bool_decide; destruct_or?; subst; split; reflexivity || by destruct s. Qed.

Lemma chain_snoc s l t u :
  chain s l t -> IsValidTransition t u = true -> chain s (l ++ [(t, u)]) u.
Proof.
  induction 1; intros Hv; simpl; [by constructor; [|constructor]|].
  constructor; auto.
Qed.

Lemma perform_all_app os os' m :
  perform_all (os ++ os') m =
  let (rs, m) := perform_all os m in
  let (rs', m) := perform_all os' m in (rs ++ rs', m).
Proof.
  revert m. induction os as [|o os IH]; intros m; simpl.
  - by destruct (perform_all os' m).
  - destruct (perform o m) as [r m1]. rewrite IH.
    destruct (perform_all os m1) as [rs m2]. by destruct (perform_all os' m2).
Qed.

(** The calls that lead to a state, at least. *)
Definition required (s : CommState) : list LdnOp :=
  match s with
  | CommState_None | CommState_Error => []
  | CommState_Initialized => [OpInitialize]
  | CommState_AccessPoint => [OpInitialize; OpOpenAccessPoint]
  | CommState_AccessPointCreated => [OpInitialize; OpOpenAccessPoint; OpCreateNetwork]
  | CommState_Station => [OpInitialize; OpOpenStation]
  | CommState_StationConnected => [OpInitialize; OpOpenStation; OpConnect]
  end.

Lemma required_arrow o s t os :
  arrow o s t -> sublist (required s) os -> sublist (required t) (os ++ [o]).
Proof.
  assert (Hsnoc : forall l, sublist l os -> sublist (l ++ [o]) (os ++ [o]))
    by (intros; by apply sublist_app).
  assert (Hskip : forall l k, sublist l k -> sublist k os -> sublist l (os ++ [o]))
    by (intros l k Hl Hk; trans k; [done|]; by apply sublist_inserts_r).
  intros Ha Hs; destruct Ha; destruct_or?; subst; simpl in *.
  all: try apply sublist_nil_l.
  all: try match type of Hs with sublist ?l _ => exact (Hsnoc l Hs) end.
  all: refine (Hskip _ _ _ Hs); repeat constructor.
Qed.

Lemma perform_all_required os :
  sublist (required (m_state (perform_all os new_LdnStateMachine).2)) os.
Proof.
  induction os as [|o os IH] using rev_ind; [constructor|].
  rewrite perform_all_app. destruct (perform_all os new_LdnStateMachine) as [rs m].
  cbn [perform_all snd] in *.
  destruct (perform_cases o m) as [[-> _]|[[-> _]|[-> [_ Ha]]]]; cbn [snd].
  1-2: by apply sublist_inserts_r.
  exact (required_arrow _ _ _ _ Ha IH).
Qed.

(** ** Properties *)

(** C29: each operation succeeds exactly on the arrows of the header's diagram,
    answers [AlreadyInState] exactly when the machine is where the operation
    leads, changes nothing unless it succeeds, and when it succeeds does what
    the private [TransitionTo] does for its target. *)
Theorem perform_refines_diagram o m :
  let (r, m') := perform o m in
  (r = Success <-> arrow o (m_state m) (target o))
  /\ (r = AlreadyInState <-> m_state m = target o)
  /\ (r = Success -> (r, m') = TransitionTo (target o) m /\ m_state m' = target o)
  /\ (r <> Success -> m' = m).
Proof.
  destruct (perform_cases o m) as [[E Ht]|[(E & Ht & Hn)|(E & Ht & Ha)]]; rewrite E.
  - split_and!; try done. split; [done|]. intros Ha. rewrite Ht in Ha.
    destruct o; inversion Ha; by destruct_or?.
  - split_and!; try done. split; [done|]. intros Ha. by destruct (Hn _ Ha).
  - unfold enter at 1. split_and!; try done.
    intros _. split; [|done]. unfold TransitionTo.
    rewrite bool_decide_eq_false_2 by done.
    by rewrite (proj1 (arrow_valid _ _ _ Ha)).
Qed.

(** with a callback registered, whatever the calls, the callback has seen a
    path of valid transitions from [None] to the current state, one entry and
    one signal of the state event for every call that succeeded. *)
Theorem callback_sees_the_path os :
  let (rs, m) := perform_all os (SetStateCallback true new_LdnStateMachine) in
  chain CommState_None (m_callback_log m) (m_state m)
  /\ length (m_callback_log m) = length (filter (.= Success) rs)
  /\ m_signals m = length (filter (.= Success) rs)
  /\ m_callback m = true.
Proof.
  induction os as [|o os IH] using rev_ind; [split_and!; constructor|].
  rewrite perform_all_app.
  destruct (perform_all os _) as [rs m]. destruct IH as (Hc & Hl & Hs & Hb).
  cbn [perform_all].
  destruct (perform_cases o m) as [[-> _]|[[-> _]|[-> [_ Ha]]]];
    try unfold enter; cbv beta iota zeta; rewrite filter_app, length_app; cbn [filter list_filter decide length].
  1-2: rewrite !Nat.add_0_r; done.
  cbn [enter m_callback_log m_state m_signals m_callback call_callback SignalStateChange set_state].
  rewrite Hb, length_app. simpl. split_and!; [|lia|lia|done].
  apply (chain_snoc _ _ _ _ Hc). by apply arrow_valid in Ha as [].
Qed.

(** a network is active only after the calls that build one, in order:
    Initialize, OpenAccessPoint, CreateNetwork or Initialize, OpenStation,
    Connect. *)
Theorem network_active_needs_setup os :
  IsNetworkActive (perform_all os new_LdnStateMachine).2 = true ->
  sublist [OpInitialize; OpOpenAccessPoint; OpCreateNetwork] os
  \/ sublist [OpInitialize; OpOpenStation; OpConnect] os.
Proof.
  intros Ha. pose proof (perform_all_required os) as Hr.
  unfold IsNetworkActive, IsInState in Ha. apply orb_true_iff in Ha.
  rewrite !bool_decide_eq_true in Ha.
  destruct Ha as [E|E]; rewrite E in Hr; [left|right]; exact Hr.
Qed.

Lemma network_active_needs_setup_witness :
  let os := [OpConnect; OpInitialize; OpOpenAccessPoint; OpInitialize; OpCreateNetwork] in
  sublist [OpInitialize; OpOpenAccessPoint; OpCreateNetwork] os
  \/ sublist [OpInitialize; OpOpenStation; OpConnect] os.
Proof. apply network_active_needs_setup. reflexivity. Defined.

(** [Error] is left by [Finalize] alone: without it every sequence of calls
    stays in [Error], although [IsValidTransition] accepts the step from
    [Error] to [Initialized] and [TransitionTo] would take it; with it the
    machine reaches any state again. *)
Theorem error_left_by_finalize_only os m :
  m_state m = CommState_Error -> OpFinalize ∉ os ->
  m_state (perform_all os m).2 = CommState_Error
  /\ (TransitionTo CommState_Initialized m).1 = Success
  /\ m_state (perform_all (OpFinalize :: required CommState_AccessPointCreated) m).2
     = CommState_AccessPointCreated.
Proof.
  intros Hm Hos. split_and!.
  - induction os as [|o os IH]; [done|]. apply not_elem_of_cons in Hos as [Ho Hos].
    cbn [perform_all].
    destruct (perform_cases o m) as [[-> _]|[[-> _]|[_ [_ Ha]]]].
    1-2: specialize (IH Hos); by destruct (perform_all os m).
    rewrite Hm in Ha. inversion Ha; subst; try done; by destruct_or?.
  - unfold TransitionTo. by rewrite Hm.
  - destruct m as [s n cb log]. simpl in Hm. subst. reflexivity.
Qed.

Lemma error_left_by_finalize_only_witness :
  m_state (perform_all [OpInitialize; OpOpenStation]
    (SetError new_LdnStateMachine).2).2 = CommState_Error.
Proof.
  apply (error_left_by_finalize_only _ (SetError new_LdnStateMachine).2); [reflexivity|].
  rewrite !not_elem_of_cons. split_and!; [discriminate|discriminate|apply not_elem_of_nil].
Defined.
