(* ===== verification/BsdTypes.v ===== *)
(** * BSD socket service types ([bsd/bsd_types.hpp])

    The structures the intercepted IPC calls carry, with their layouts, the
    errno values the proxy answers with, and the two views of an address: the
    bytes in network order and the [uint32_t] in host order that the server
    protocol uses. *)

From stdpp Require Import base numbers list.
From Stdlib Require Import ZArith Lia Bool.
From S2P Require Import Prelude Layout.

Definition LDN_NETWORK_BASE : Z := 0x0A720000.
Definition LDN_NETWORK_MASK : Z := 0xFFFF0000.

(** [IsLdnAddress(uint32_t)] *)
Definition IsLdnAddress (ip : Z) : bool :=
  Z.land ip LDN_NETWORK_MASK =? LDN_NETWORK_BASE.

Definition MAX_PROXY_SOCKETS : nat := 64.

Definition AddressFamily_Inet : Z := 2.

(** [enum class SocketType], with the values outside it that a cast can make. *)
Inductive SocketType : Set := Stream | Dgram | Raw | Seqpacket | OtherType (value : Z).

Definition SocketType_value (t : SocketType) : Z :=
  match t with Stream => 1 | Dgram => 2 | Raw => 3 | Seqpacket => 5 | OtherType v => v end.

#[export] Instance SocketType_eq_dec : EqDecision SocketType.
Proof. solve_decision. Defined.

(** [enum class ProtocolType]: IPC integers are cast to it, so a value outside
    the four enumerators can occur; it is [OtherProtocol]. *)
Inductive ProtocolType : Set := Unspecified | Icmp | Tcp | Udp | OtherProtocol (value : Z).

Definition ProtocolType_value (p : ProtocolType) : Z :=
  match p with
  | Unspecified => 0 | Icmp => 1 | Tcp => 6 | Udp => 17 | OtherProtocol v => v
  end.

#[export] Instance ProtocolType_eq_dec : EqDecision ProtocolType.
Proof. solve_decision. Defined.

(** [enum class ShutdownHow], with the values outside it that a cast can make. *)
Inductive ShutdownHow : Set := Read | Write | Both | OtherHow (value : Z).

(** ** Socket addresses *)

Record SockAddr : Type := {
  sa_len : Z; sa_family : Z; sa_data : list Z
}.
#[export] Instance SockAddr_layout : HasLayout SockAddr :=
  l_iso (fun '(x0, (x1, x2)) => Build_SockAddr x0 x1 x2)
    (fun s => (sa_len s, (sa_family s, sa_data s)))
    (l_u8 ⊗ l_u8 ⊗ l_bytes 14).

Record SockAddrIn : Type := {
  sin_len : Z; sin_family : Z; sin_port : Z; sin_addr : Z; sin_zero : list Z
}.
#[export] Instance SockAddrIn_layout : HasLayout SockAddrIn :=
  l_iso (fun '(x0, (x1, (x2, (x3, x4)))) => Build_SockAddrIn x0 x1 x2 x3 x4)
    (fun s => (sin_len s, (sin_family s, (sin_port s, (sin_addr s, sin_zero s)))))
    (l_u8 ⊗ l_u8 ⊗ l_u16 ⊗ l_u32 ⊗ l_bytes 8).

#[export] Instance SockAddrIn_eq_dec : EqDecision SockAddrIn.
Proof. solve_decision. Defined.

Record LibraryConfigData : Type := {
  lcd_version : Z; lcd_tcp_tx_buf_size : Z; lcd_tcp_rx_buf_size : Z;
  lcd_tcp_tx_buf_max_size : Z; lcd_tcp_rx_buf_max_size : Z;
  lcd_udp_tx_buf_size : Z; lcd_udp_rx_buf_size : Z; lcd_sb_efficiency : Z
}.
#[export] Instance LibraryConfigData_layout : HasLayout LibraryConfigData :=
  l_iso (fun '(x0, (x1, (x2, (x3, (x4, (x5, (x6, x7))))))) =>
      Build_LibraryConfigData x0 x1 x2 x3 x4 x5 x6 x7)
    (fun s => (lcd_version s, (lcd_tcp_tx_buf_size s, (lcd_tcp_rx_buf_size s,
      (lcd_tcp_tx_buf_max_size s, (lcd_tcp_rx_buf_max_size s, (lcd_udp_tx_buf_size s,
      (lcd_udp_rx_buf_size s, lcd_sb_efficiency s))))))))
    (l_u32 ⊗ l_u32 ⊗ l_u32 ⊗ l_u32 ⊗ l_u32 ⊗ l_u32 ⊗ l_u32 ⊗ l_u32).

Record RegisterClientInput : Type := {
  rci_config : LibraryConfigData; rci_pid_placeholder : Z; rci_tmem_size : Z
}.
#[export] Instance RegisterClientInput_layout : HasLayout RegisterClientInput :=
  l_iso (fun '(x0, (x1, x2)) => Build_RegisterClientInput x0 x1 x2)
    (fun s => (rci_config s, (rci_pid_placeholder s, rci_tmem_size s)))
    (layout_of LibraryConfigData ⊗ l_u64 ⊗ l_u64).

Record PollFd : Type := { pfd_fd : Z; pfd_events : Z; pfd_revents : Z }.
#[export] Instance PollFd_layout : HasLayout PollFd :=
  l_iso (fun '(x0, (x1, x2)) => Build_PollFd x0 x1 x2)
    (fun s => (pfd_fd s, (pfd_events s, pfd_revents s)))
    (l_s32 ⊗ l_sint 2 ⊗ l_sint 2).

#[export] Instance SockAddr_laws : LayoutLaws (layout_of SockAddr).
Proof. solve_struct_laws. Qed.
#[export] Instance SockAddrIn_laws : LayoutLaws (layout_of SockAddrIn).
Proof. solve_struct_laws. Qed.
#[export] Instance LibraryConfigData_laws : LayoutLaws (layout_of LibraryConfigData).
Proof. solve_struct_laws. Qed.
#[export] Instance RegisterClientInput_laws : LayoutLaws (layout_of RegisterClientInput).
Proof. solve_struct_laws. Qed.
#[export] Instance PollFd_laws : LayoutLaws (layout_of PollFd).
Proof. solve_struct_laws. Qed.

(** The [static_assert]s of the header. *)
Lemma bsd_static_asserts_hold :
  (sizeof SockAddr, sizeof SockAddrIn, sizeof LibraryConfigData,
   sizeof RegisterClientInput, sizeof PollFd) = (16, 16, 32, 48, 8)%nat.
Proof. reflexivity. Qed.

(** [SockAddrIn::GetPort], [GetAddr] and [IsLdnAddress]. *)
Definition GetPort (a : SockAddrIn) : Z := bswap16 (sin_port a).
Definition GetAddr (a : SockAddrIn) : Z := bswap32 (sin_addr a).
Definition SockAddrIn_IsLdnAddress (a : SockAddrIn) : bool :=
  IsLdnAddress (bswap32 (sin_addr a)).

(** [std::memset(&addr, 0, sizeof(addr)); addr.sin_family = Inet; addr.sin_len = 16]
    and [SockAddrIn addr{}] filled the same way. *)
Definition inet_addr (port addr : Z) : SockAddrIn := {|
  sin_len := 16; sin_family := AddressFamily_Inet; sin_port := port; sin_addr := addr;
  sin_zero := replicate 8 0
|}.

(** ** Error numbers and option names *)

Definition Errno_Success : Z := 0.
Definition Errno_BadF : Z := 9.
Definition Errno_Again : Z := 11.
Definition Errno_Fault : Z := 14.
Definition Errno_Inval : Z := 22.
Definition Errno_DestAddrReq : Z := 89.
Definition Errno_MsgSize : Z := 90.
Definition Errno_NoProtoOpt : Z := 92.
Definition Errno_OpNotSupp : Z := 95.
Definition Errno_AfNoSupport : Z := 97.
Definition Errno_NetUnreach : Z := 101.
Definition Errno_NotConn : Z := 107.
Definition Errno_TimedOut : Z := 110.
Definition Errno_ConnRefused : Z := 111.
Definition Errno_InProgress : Z := 115.

Definition SocketOptionLevel_Socket : Z := 0xFFFF.
Definition SocketOption_ReuseAddr : Z := 0x0004.
Definition SocketOption_KeepAlive : Z := 0x0008.
Definition SocketOption_DontRoute : Z := 0x0010.
Definition SocketOption_Broadcast : Z := 0x0020.
Definition SocketOption_Linger : Z := 0x0080.
Definition SocketOption_OobInline : Z := 0x0100.
Definition SocketOption_ReusePort : Z := 0x0200.
Definition SocketOption_SndBuf : Z := 0x1001.
Definition SocketOption_RcvBuf : Z := 0x1002.
Definition SocketOption_SndLoWat : Z := 0x1003.
Definition SocketOption_RcvLoWat : Z := 0x1004.
Definition SocketOption_SndTimeo : Z := 0x1005.
Definition SocketOption_RcvTimeo : Z := 0x1006.
Definition SocketOption_Error : Z := 0x1007.
Definition SocketOption_Type : Z := 0x1008.

(** ** Byte order *)

Lemma land_ff z : Z.land z 0xFF = z mod 256.
Proof. exact (Z.land_ones z 8 ltac:(lia)). Qed.

Lemma bswap16_le z : bswap16 z = le_combine (rev (le_split 2 z)).
Proof.
  unfold bswap16. rewrite !land_ff, Z.shiftr_div_pow2 by lia.
  pose proof (Z.mod_pos_bound (z / 2 ^ 8) 256 ltac:(lia)).
  rewrite lor_shiftl by lia. cbn. change (Z.pow_pos 2 8) with 256.
  change (2 ^ 8) with 256. lia.
Qed.

Lemma bswap32_le z : bswap32 z = le_combine (rev (le_split 4 z)).
Proof.
  unfold bswap32. rewrite !land_ff, !Z.shiftr_div_pow2 by lia.
  pose proof (Z.mod_pos_bound (z / 2 ^ 8) 256 ltac:(lia)).
  pose proof (Z.mod_pos_bound (z / 2 ^ 16) 256 ltac:(lia)).
  pose proof (Z.mod_pos_bound (z / 2 ^ 24) 256 ltac:(lia)).
  rewrite (lor_shiftl (z / 2 ^ 16 mod 256)) by lia.
  rewrite (lor_shiftl (z / 2 ^ 8 mod 256)) by lia.
  rewrite lor_shiftl by lia. cbn [le_split rev le_combine app].
  rewrite !Z.div_div by lia.
  change (2 ^ 8) with 256. change (2 ^ 16) with 65536. change (2 ^ 24) with 16777216.
  change (256 * 256) with 65536. change (256 * 65536) with 16777216. ring.
Qed.

Lemma bytes_ok_rev l : bytes_ok (rev l) = bytes_ok l.
Proof.
  induction l as [|b l IH]; [done|]. simpl. rewrite bytes_ok_app, IH. simpl.
  rewrite andb_true_r. apply andb_comm.
Qed.

(** Swapping twice is the identity on the machine type. *)
Lemma rev_combine_invol n z :
  le_combine (rev (le_split n (le_combine (rev (le_split n z))))) = z mod 256 ^ Z.of_nat n.
Proof.
  pose proof (le_split_combine (rev (le_split n z))) as E.
  rewrite length_rev, length_le_split, bytes_ok_rev, bytes_ok_le_split in E.
  by rewrite E, rev_involutive, le_combine_split.
Qed.

Lemma bswap16_invol z : 0 <= z < 65536 -> bswap16 (bswap16 z) = z.
Proof. intros. rewrite !bswap16_le, rev_combine_invol. by apply Z.mod_small. Qed.

Lemma bswap32_invol z : 0 <= z < 4294967296 -> bswap32 (bswap32 z) = z.
Proof. intros. rewrite !bswap32_le, rev_combine_invol. by apply Z.mod_small. Qed.

Lemma bswap16_range z : 0 <= bswap16 z < 65536.
Proof.
  rewrite bswap16_le. pose proof (le_combine_range (rev (le_split 2 z))) as Hr.
  rewrite bytes_ok_rev, bytes_ok_le_split in Hr. exact (Hr eq_refl).
Qed.

Lemma bswap32_range z : 0 <= bswap32 z < 4294967296.
Proof.
  rewrite bswap32_le. pose proof (le_combine_range (rev (le_split 4 z))) as Hr.
  rewrite bytes_ok_rev, bytes_ok_le_split in Hr. exact (Hr eq_refl).
Qed.

Lemma GetPort_inet p a : 0 <= p < 65536 -> GetPort (inet_addr (bswap16 p) a) = p.
Proof. apply bswap16_invol. Qed.

Lemma GetAddr_inet p a : 0 <= a < 4294967296 -> GetAddr (inet_addr p (bswap32 a)) = a.
Proof. apply bswap32_invol. Qed.

(** The mask test compares the upper half of the address. *)
Lemma IsLdnAddress_div ip :
  0 <= ip < 4294967296 -> IsLdnAddress ip = (ip / 65536 =? 0x0A72).
Proof.
  intros Hip. unfold IsLdnAddress, LDN_NETWORK_MASK, LDN_NETWORK_BASE.
  assert (Z.land ip 0xFFFF0000 = ip / 65536 * 65536) as ->.
  { change 0xFFFF0000 with (Z.shiftl (Z.ones 16) 16).
    change 65536 with (2 ^ 16). rewrite <- Z.shiftr_div_pow2, <- Z.shiftl_mul_pow2 by lia.
    apply Z.bits_inj'. intros i Hi. rewrite Z.land_spec.
    destruct (Z.lt_ge_cases i 16).
    { rewrite !Z.shiftl_spec_low by lia. apply andb_false_r. }
    rewrite !Z.shiftl_spec_high, Z.shiftr_spec by lia.
    replace (i - 16 + 16) with i by lia.
    destruct (Z.lt_ge_cases (i - 16) 16).
    - rewrite Z.ones_spec_low by lia. apply andb_true_r.
    - rewrite Z.ones_spec_high by lia. rewrite andb_false_r. symmetry.
      rewrite <- (Z.mod_small ip (2 ^ 32)) by lia. apply Z.mod_pow2_bits_high. lia. }
  apply eq_true_iff_eq. rewrite !Z.eqb_eq. lia.
Qed.

(** [SockAddrIn::IsLdnAddress] accepts exactly the addresses whose bytes in
    memory start with 10.114, whatever the order the fields are read in. *)
Theorem is_ldn_address_bytes a :
  lwf (layout_of SockAddrIn) a = true ->
  SockAddrIn_IsLdnAddress a = true <->
  take 2 (drop 4 (bytes_of a)) = [10; 114].
Proof.
  intros Hwf. unfold SockAddrIn_IsLdnAddress.
  rewrite IsLdnAddress_div by apply bswap32_range. rewrite Z.eqb_eq, bswap32_le.
  assert (take 2 (drop 4 (bytes_of a)) = take 2 (le_split 4 (sin_addr a))) as ->
    by reflexivity.
  pose proof (bytes_ok_le_split 4 (sin_addr a)) as Hb.
  destruct (le_split 4 (sin_addr a)) as [|b0 [|b1 [|b2 [|b3 [|]]]]] eqn:E;
    try (apply (f_equal length) in E; rewrite length_le_split in E; simpl in E; lia).
  rewrite !bytes_ok_cons, !andb_true_iff, !byte_ok_spec in Hb.
  destruct Hb as (? & ? & ? & ? & _). clear E.
  cbn [rev app le_combine take]. split.
  - intros Hd. Z.div_mod_to_equations. assert (b1 + 256 * b0 = 2674) by lia.
    assert (b0 = 10) by lia. assert (b1 = 114) by lia. by subst.
  - intros [= -> ->]. Z.div_mod_to_equations. lia.
Qed.

Lemma is_ldn_address_bytes_witness :
  SockAddrIn_IsLdnAddress (inet_addr 0 0x0100720A) = true.
Proof. apply is_ldn_address_bytes; vm_compute; reflexivity. Defined.
