(* ===== verification/Ring.v ===== *)
(** * Fixed-capacity rings

    [ProxySocket] keeps received packets, and [ProxySocketManager] keeps early
    packets, in an array of slots with a head index, a tail index and a count;
    both drop the oldest entry when the ring is full, and the manager compacts
    its ring in place.  The ring is modelled once, over its capacity [N] and
    slot type, with its meaning [ring_list]: the queue it holds, oldest
    first. *)

From stdpp Require Import base numbers list.
From Stdlib Require Import Lia.
From S2P Require Import Prelude.

Record ring (A : Type) : Type := Ring {
  r_slots : list A;
  r_head : nat;
  r_tail : nat;
  r_count : nat
}.
Arguments Ring {A}.
Arguments r_slots {A}.
Arguments r_head {A}.
Arguments r_tail {A}.
Arguments r_count {A}.

Section ring.
Local Open Scope nat_scope.
Context {A : Type} `{Inhabited A} (N : nat).

(** The oldest entry is forgotten: [head = (head + 1) % N; count--]. *)
Definition ring_drop (r : ring A) : ring A :=
  Ring (r_slots r) ((r_head r + 1) mod N) (r_tail r) (r_count r - 1).

(** [if (count >= N) drop; slot = fill(slot) at tail; tail++; count++]: the
    slot is written in place, so the new content may depend on the old. *)
Definition ring_push (fill : A -> A) (r : ring A) : ring A :=
  let r := if decide (N <= r_count r) then ring_drop r else r in
  Ring (<[r_tail r := fill (r_slots r !!! r_tail r)]> (r_slots r)) (r_head r)
    ((r_tail r + 1) mod N) (r_count r + 1).

Definition ring_front (r : ring A) : A := r_slots r !!! r_head r.

(** Indices reset, slots left as they are. *)
Definition ring_clear (r : ring A) : ring A := Ring (r_slots r) 0 0 0.

(** The compaction loop: visit the [remaining] entries from [read_idx], let
    [step] decide whether to keep each (and act on a state [S]), and copy the
    kept ones down to [write_idx]. *)
Fixpoint compact {S} (step : A -> S -> bool * S) (slots : list A)
    (read_idx write_idx remaining kept : nat) (s : S) : list A * nat * nat * S :=
  match remaining with
  | O => (slots, write_idx, kept, s)
  | Datatypes.S remaining =>
      let pkt := slots !!! read_idx in
      let (keep, s) := step pkt s in
      if keep then
        let slots := if decide (write_idx = read_idx) then slots
                     else <[write_idx := pkt]> slots in
        compact step slots ((read_idx + 1) mod N) ((write_idx + 1) mod N) remaining
          (kept + 1) s
      else compact step slots ((read_idx + 1) mod N) write_idx remaining kept s
  end.

Definition ring_compact {S} (step : A -> S -> bool * S) (r : ring A) (s : S) : ring A * S :=
  let '(slots, write_idx, kept, s) :=
    compact step (r_slots r) (r_head r) (r_head r) (r_count r) 0 s in
  (Ring slots (r_head r) write_idx kept, s).

(** ** Meaning *)

(** The [n] entries from index [h], around the end of the array. *)
Definition window (slots : list A) (h n : nat) : list A :=
  (fun i => slots !!! ((h + i) mod N)) <$> seq 0 n.

Definition ring_list (r : ring A) : list A := window (r_slots r) (r_head r) (r_count r).

Definition ring_ok (r : ring A) : bool :=
  bool_decide (0 < N /\ length (r_slots r) = N /\ r_head r < N /\ r_count r <= N
               /\ r_tail r = (r_head r + r_count r) mod N).

(** The queue the ring implements. *)
Definition queue_push (x : A) (q : list A) : list A :=
  (if decide (N <= length q) then drop 1 q else q) ++ [x].

Fixpoint queue_visit {S} (step : A -> S -> bool * S) (q : list A) (s : S) : list A * S :=
  match q with
  | [] => ([], s)
  | x :: q =>
      let (keep, s) := step x s in
      let (q, s) := queue_visit step q s in
      (if keep then x :: q else q, s)
  end.

(** ** Lemmas *)

Lemma length_window slots h n : length (window slots h n) = n.
Proof. unfold window. by rewrite length_fmap, length_seq. Qed.

Lemma length_ring_list r : length (ring_list r) = r_count r.
Proof. apply length_window. Qed.

Lemma ring_ok_spec r :
  ring_ok r = true <->
  0 < N /\ length (r_slots r) = N /\ r_head r < N /\ r_count r <= N
  /\ r_tail r = (r_head r + r_count r) mod N.
Proof. apply bool_decide_eq_true. Qed.

Lemma window_S slots h n :
  window slots h (S n) = slots !!! (h mod N) :: window slots (h + 1) n.
Proof.
  unfold window. cbn [seq fmap list_fmap]. f_equal; [f_equal; f_equal; lia|].
  rewrite <- fmap_S_seq, <- list_fmap_compose. apply list_fmap_ext.
  intros i x _. unfold compose. f_equal. f_equal. lia.
Qed.

Lemma window_mod slots h n : 0 < N -> window slots (h mod N) n = window slots h n.
Proof.
  intros HN. unfold window. apply list_fmap_ext. intros i x _. f_equal.
  rewrite Nat.Div0.add_mod_idemp_l. done.
Qed.

Lemma window_snoc slots h n :
  window slots h (S n) = window slots h n ++ [slots !!! ((h + n) mod N)].
Proof. unfold window. by rewrite seq_S, fmap_app. Qed.

(** Distinct offsets below the capacity are distinct slots. *)
Lemma offset_inj h i j :
  0 < N -> i < N -> j < N -> (h + i) mod N = (h + j) mod N -> i = j.
Proof.
  intros HN Hi Hj E.
  pose proof (Nat.div_mod_eq (h + i) N). pose proof (Nat.div_mod_eq (h + j) N).
  destruct (decide (i = j)) as [|Hne]; [done|]. exfalso.
  set (a := (h + i) / N) in *. set (b := (h + j) / N) in *.
  assert (i - j = N * a - N * b \/ j - i = N * b - N * a) by lia.
  destruct (decide (a = b)); [subst; lia|].
  destruct (decide (a < b)); nia.
Qed.

Lemma window_insert slots h n k x :
  0 < N -> n <= k -> k < N ->
  window (<[(h + k) mod N := x]> slots) h n = window slots h n.
Proof.
  intros HN Hn Hk. unfold window. apply list_fmap_ext. intros i y Hi.
  apply lookup_seq in Hi as [-> Hi]. rewrite list_lookup_total_insert_ne; [done|].
  intros E. apply offset_inj in E; lia.
Qed.

Lemma ring_drop_ok r :
  ring_ok r = true -> 0 < r_count r -> ring_ok (ring_drop r) = true.
Proof.
  rewrite !ring_ok_spec. intros (HN & Hl & Hh & Hc & Ht) Hp. unfold ring_drop. simpl.
  split_and!; [done|done|apply Nat.mod_upper_bound; lia|lia|].
  rewrite Nat.Div0.add_mod_idemp_l. rewrite Ht. f_equal. lia.
Qed.

Lemma ring_drop_list r :
  ring_ok r = true -> 0 < r_count r -> ring_list (ring_drop r) = drop 1 (ring_list r).
Proof.
  rewrite !ring_ok_spec. intros (HN & Hl & Hh & Hc & Ht) Hp. unfold ring_list, ring_drop. simpl.
  destruct (r_count r) as [|n]; [lia|]. rewrite window_S, window_mod by done.
  simpl. by rewrite Nat.sub_0_r.
Qed.

Lemma ring_front_list r :
  ring_ok r = true -> 0 < r_count r -> head (ring_list r) = Some (ring_front r).
Proof.
  rewrite !ring_ok_spec. intros (HN & Hl & Hh & Hc & Ht) Hp. unfold ring_list.
  destruct (r_count r) as [|n]; [lia|]. rewrite window_S. simpl.
  by rewrite Nat.mod_small.
Qed.

Lemma ring_clear_list r : ring_list (ring_clear r) = [].
Proof. done. Qed.

Lemma ring_clear_ok r : ring_ok r = true -> ring_ok (ring_clear r) = true.
Proof. rewrite !ring_ok_spec. simpl. intros (?&?&?&?&?). rewrite Nat.Div0.mod_0_l.
  split_and!; done || lia.
Qed.

(** A push below capacity. *)
Lemma push_room fill r :
  ring_ok r = true -> r_count r < N ->
  let r' := Ring (<[r_tail r := fill (r_slots r !!! r_tail r)]> (r_slots r)) (r_head r)
    ((r_tail r + 1) mod N) (r_count r + 1) in
  ring_ok r' = true /\ ring_list r' = ring_list r ++ [fill (r_slots r !!! r_tail r)].
Proof.
  intros (HN & Hl & Hh & Hc & Ht)%ring_ok_spec Hp. cbv zeta. rewrite ring_ok_spec. simpl.
  assert (r_tail r < N) by (rewrite Ht; apply Nat.mod_upper_bound; lia).
  split_and!; rewrite ?length_insert; try done; try lia.
  - by rewrite Ht, Nat.Div0.add_mod_idemp_l, Nat.add_assoc.
  - unfold ring_list. simpl. rewrite Nat.add_1_r, window_snoc, Ht.
    rewrite window_insert by lia. rewrite list_lookup_total_insert_eq; [done|].
    rewrite <- Ht. lia.
Qed.

Lemma ring_push_refines fill r :
  ring_ok r = true ->
  exists old, ring_ok (ring_push fill r) = true
    /\ ring_list (ring_push fill r) = queue_push (fill old) (ring_list r)
    /\ old = r_slots r !!! r_tail r.
Proof.
  intros Hr. pose proof Hr as (HN & Hl & Hh & Hc & Ht)%ring_ok_spec.
  unfold ring_push, queue_push. rewrite length_ring_list.
  destruct (decide (N <= r_count r)).
  - destruct (push_room fill (ring_drop r)) as [Ho Hq];
      [apply ring_drop_ok; [done|lia]|simpl; lia|].
    simpl in *. exists (r_slots r !!! r_tail r). split_and!; [done| |done].
    rewrite Hq. by rewrite ring_drop_list by (done || lia).
  - destruct (push_room fill r) as [Ho Hq]; [done|lia|]. eauto.
Qed.

(** The compaction invariant: [k] entries kept so far, [n] still to visit. *)
Lemma compact_spec {S} (step : A -> S -> bool * S) slots h j k n s :
  0 < N -> length slots = N -> k <= j -> j + n <= N ->
  let '(slots', w, kept, s') :=
    compact step slots ((h + j) mod N) ((h + k) mod N) n k s in
  length slots' = N
  /\ w = (h + kept) mod N /\ kept <= k + n
  /\ window slots' h kept
     = window slots h k ++ (queue_visit step (window slots (h + j) n) s).1
  /\ s' = (queue_visit step (window slots (h + j) n) s).2.
Proof.
  intros HN. revert slots j k s. induction n as [|n IH]; intros slots j k s Hl Hkj Hn.
  - simpl. rewrite app_nil_r. split_and!; [done|done|lia|done|done].
  - cbn [compact]. rewrite window_S. cbn [queue_visit].
    destruct (step (slots !!! ((h + j) mod N)) s) as [keep s1].
    assert (Hr : ((h + j) mod N + 1) mod N = (h + Datatypes.S j) mod N)
      by (rewrite Nat.Div0.add_mod_idemp_l; f_equal; lia).
    assert (Hw : ((h + k) mod N + 1) mod N = (h + Datatypes.S k) mod N)
      by (rewrite Nat.Div0.add_mod_idemp_l; f_equal; lia).
    assert (Hhj : h + j + 1 = h + Datatypes.S j) by lia.
    rewrite Hr, Hhj. destruct keep.
    + rewrite Hw, Nat.add_1_r.
      set (slots1 := if decide _ then slots else _).
      assert (Hl1 : length slots1 = N)
        by (unfold slots1; case_decide; rewrite ?length_insert; done).
      assert (Hkeep : window slots1 h k = window slots h k).
      { unfold slots1. case_decide; [done|]. apply window_insert; lia. }
      assert (Hrest : window slots1 (h + Datatypes.S j) n = window slots (h + Datatypes.S j) n).
      { unfold slots1. case_decide; [done|]. unfold window. apply list_fmap_ext. intros i y Hi.
        apply lookup_seq in Hi as [-> Hi]. rewrite list_lookup_total_insert_ne; [done|].
        intros E. rewrite <- Nat.add_assoc in E. apply offset_inj in E; lia. }
      assert (Hk : slots1 !!! ((h + k) mod N) = slots !!! ((h + j) mod N)).
      { unfold slots1. case_decide as E; [by rewrite E|].
        apply list_lookup_total_insert_eq. rewrite Hl. apply Nat.mod_upper_bound. lia. }
      specialize (IH slots1 (Datatypes.S j) (Datatypes.S k) s1 Hl1 ltac:(lia) ltac:(lia)).
      destruct (compact step slots1 _ _ n _ s1) as [[[slots' w] kept] s'].
      rewrite Hrest in IH. destruct (queue_visit step _ s1) as [q sq]. cbn [fst snd] in *.
      destruct IH as (Hl' & Hw' & Hkept & Hlist & Hs).
      split_and!; [done|done|lia| |done].
      rewrite Hlist, window_snoc, Hkeep, Hk, <- app_assoc. done.
    + specialize (IH slots (Datatypes.S j) k s1 Hl ltac:(lia) ltac:(lia)).
      destruct (compact step slots _ _ n _ s1) as [[[slots' w] kept] s'].
      destruct (queue_visit step _ s1) as [q sq]. cbn [fst snd] in *.
      destruct IH as (Hl' & Hw' & Hkept & Hlist & Hs).
      split_and!; [done|done|lia|done|done].
Qed.

Lemma ring_compact_refines {S} (step : A -> S -> bool * S) r s :
  ring_ok r = true ->
  ring_ok (ring_compact step r s).1 = true
  /\ ring_list (ring_compact step r s).1 = (queue_visit step (ring_list r) s).1
  /\ (ring_compact step r s).2 = (queue_visit step (ring_list r) s).2.
Proof.
  intros (HN & Hl & Hh & Hc & Ht)%ring_ok_spec. unfold ring_compact.
  pose proof (compact_spec step (r_slots r) (r_head r) 0 0 (r_count r) s HN Hl
    ltac:(lia) ltac:(lia)) as Hcs.
  rewrite Nat.add_0_r, Nat.mod_small in Hcs by done.
  destruct (compact step (r_slots r) _ _ _ _ s) as [[[slots' w] kept] s'].
  destruct Hcs as (Hl' & Hw' & Hkept & Hlist & Hs). split_and!.
  - apply ring_ok_spec. simpl. split_and!; [done|done|done|lia|done].
  - exact Hlist.
  - exact Hs.
Qed.

(** Properties of all slots survive. *)
Lemma lookup_total_Forall (P : A -> Prop) slots i :
  P inhabitant -> Forall P slots -> P (slots !!! i).
Proof.
  intros Hi Hs. rewrite list_lookup_total_alt. destruct (slots !! i) eqn:E; [|done].
  by eapply Forall_lookup_1.
Qed.

Lemma ring_push_Forall (P : A -> Prop) fill r :
  P inhabitant -> (forall old, P old -> P (fill old)) ->
  Forall P (r_slots r) -> Forall P (r_slots (ring_push fill r)).
Proof.
  intros Hi Hf Hs. unfold ring_push. case_decide; simpl; apply Forall_insert; try done;
    by apply Hf, lookup_total_Forall.
Qed.

Lemma ring_compact_Forall {S} (P : A -> Prop) (step : A -> S -> bool * S) r s :
  P inhabitant -> Forall P (r_slots r) -> Forall P (r_slots (ring_compact step r s).1).
Proof.
  intros Hi Hs. unfold ring_compact.
  enough (H1 : forall n slots rd w k s, Forall P slots ->
    Forall P (compact step slots rd w n k s).1.1.1).
  { specialize (H1 (r_count r) (r_slots r) (r_head r) (r_head r) 0 s Hs).
    by destruct (compact _ _ _ _ _ _ _) as [[[? ?] ?] ?]. }
  intros n. induction n as [|n IH]; intros slots rd w k s0 Hsl; [done|].
  cbn [compact]. destruct (step _ _) as [[] s1]; apply IH; [|done].
  case_decide; [done|]. apply Forall_insert; [done|]. by apply lookup_total_Forall.
Qed.

Lemma queue_visit_filter {S} (step : A -> S -> bool * S) (P : A -> bool) q s :
  (forall x s, (step x s).1 = P x) -> (queue_visit step q s).1 = filter (fun x => P x = true) q.
Proof.
  intros Hstep. revert s. induction q as [|x q IH]; intros s; [done|]. simpl.
  specialize (Hstep x s). destruct (step x s) as [keep s1]. simpl in Hstep. subst keep.
  specialize (IH s1). destruct (queue_visit step q s1) as [q' s2]. simpl in *. subst q'.
  rewrite filter_cons. by destruct (P x).
Qed.

Lemma queue_push_bound x q : 0 < N -> length q <= N -> length (queue_push x q) <= N.
Proof.
  intros HN Hq. unfold queue_push. rewrite length_app. case_decide; simpl;
    rewrite ?length_drop; lia.
Qed.
End ring.
