(* ===== verification/PortPool.v ===== *)
(** * Ephemeral ports ([bsd/ephemeral_port_pool.{hpp,cpp}])

    Two bitsets of 16384 ports, one for TCP and one for every other protocol,
    with a round-robin hint each.  A bitset is the finite set of the indices
    whose bit is set.  The mutex makes every method atomic; a call is one step. *)

From stdpp Require Import base numbers list gmap fin_sets.
From Stdlib Require Import ZArith Lia.
From S2P Require Import Prelude BsdTypes.

Definition EPHEMERAL_PORT_MIN : Z := 49152.
Definition EPHEMERAL_PORT_MAX : Z := 65535.
Definition EPHEMERAL_PORT_COUNT : nat :=
  Z.to_nat (EPHEMERAL_PORT_MAX - EPHEMERAL_PORT_MIN + 1).

Record EphemeralPortPool : Type := {
  m_udp_ports : gset nat;
  m_tcp_ports : gset nat;
  m_udp_hint : nat;
  m_tcp_hint : nat
}.

Definition new_EphemeralPortPool : EphemeralPortPool :=
  {| m_udp_ports := ∅; m_tcp_ports := ∅; m_udp_hint := 0; m_tcp_hint := 0 |}.

(** Index into the bitset, [EPHEMERAL_PORT_COUNT] for a port outside the range. *)
Definition PortToIndex (port : Z) : nat :=
  if port <? EPHEMERAL_PORT_MIN then EPHEMERAL_PORT_COUNT
  else Z.to_nat (port - EPHEMERAL_PORT_MIN).

Definition IndexToPort (index : nat) : Z := u16 (EPHEMERAL_PORT_MIN + Z.of_nat index).

Definition GetBitset (protocol : ProtocolType) (p : EphemeralPortPool) : gset nat :=
  match protocol with
  | Udp => m_udp_ports p
  | Tcp => m_tcp_ports p
  | _ => m_udp_ports p
  end.

(** Assignment through the reference [GetBitset] returns. *)
Definition set_bitset (protocol : ProtocolType) (b : gset nat) (p : EphemeralPortPool)
    : EphemeralPortPool :=
  match protocol with
  | Tcp => {| m_udp_ports := m_udp_ports p; m_tcp_ports := b;
              m_udp_hint := m_udp_hint p; m_tcp_hint := m_tcp_hint p |}
  | _ => {| m_udp_ports := b; m_tcp_ports := m_tcp_ports p;
            m_udp_hint := m_udp_hint p; m_tcp_hint := m_tcp_hint p |}
  end.

Definition get_hint (protocol : ProtocolType) (p : EphemeralPortPool) : nat :=
  match protocol with Tcp => m_tcp_hint p | _ => m_udp_hint p end.

Definition set_hint (protocol : ProtocolType) (h : nat) (p : EphemeralPortPool)
    : EphemeralPortPool :=
  match protocol with
  | Tcp => {| m_udp_ports := m_udp_ports p; m_tcp_ports := m_tcp_ports p;
              m_udp_hint := m_udp_hint p; m_tcp_hint := h |}
  | _ => {| m_udp_ports := m_udp_ports p; m_tcp_ports := m_tcp_ports p;
            m_udp_hint := h; m_tcp_hint := m_tcp_hint p |}
  end.

(** The search loop: [n] more iterations from iteration [i]. *)
Fixpoint find_free (bitset : gset nat) (hint i n : nat) : option nat :=
  match n with
  | O => None
  | S n =>
      let index := ((hint + i) mod EPHEMERAL_PORT_COUNT)%nat in
      if decide (index ∈ bitset) then find_free bitset hint (S i) n else Some index
  end.

Definition AllocatePort (protocol : ProtocolType) (p : EphemeralPortPool)
    : Z * EphemeralPortPool :=
  let bitset := GetBitset protocol p in
  match find_free bitset (get_hint protocol p) 0 EPHEMERAL_PORT_COUNT with
  | Some index =>
      let p := set_bitset protocol ({[ index ]} ∪ bitset) p in
      let p := set_hint protocol ((index + 1) mod EPHEMERAL_PORT_COUNT)%nat p in
      (IndexToPort index, p)
  | None => (0, p)
  end.

Definition AllocateSpecificPort (port : Z) (protocol : ProtocolType) (p : EphemeralPortPool)
    : bool * EphemeralPortPool :=
  let index := PortToIndex port in
  if decide (EPHEMERAL_PORT_COUNT <= index)%nat then (true, p)
  else
    let bitset := GetBitset protocol p in
    if decide (index ∈ bitset) then (false, p)
    else (true, set_bitset protocol ({[ index ]} ∪ bitset) p).

Definition ReleasePort (port : Z) (protocol : ProtocolType) (p : EphemeralPortPool)
    : EphemeralPortPool :=
  let index := PortToIndex port in
  if decide (EPHEMERAL_PORT_COUNT <= index)%nat then p
  else set_bitset protocol (GetBitset protocol p ∖ {[ index ]}) p.

Definition IsPortAllocated (port : Z) (protocol : ProtocolType) (p : EphemeralPortPool) : bool :=
  let index := PortToIndex port in
  if decide (EPHEMERAL_PORT_COUNT <= index)%nat then false
  else bool_decide (index ∈ GetBitset protocol p).

Definition GetAvailableCount (protocol : ProtocolType) (p : EphemeralPortPool) : nat :=
  (EPHEMERAL_PORT_COUNT - size (GetBitset protocol p))%nat.

Definition ReleaseAll (p : EphemeralPortPool) : EphemeralPortPool :=
  {| m_udp_ports := ∅; m_tcp_ports := ∅; m_udp_hint := 0; m_tcp_hint := 0 |}.

(** [n] allocations in a row. *)
Fixpoint allocate_many (n : nat) (protocol : ProtocolType) (p : EphemeralPortPool)
    : list Z * EphemeralPortPool :=
  match n with
  | O => ([], p)
  | S n =>
      let (port, p) := AllocatePort protocol p in
      let (ports, p) := allocate_many n protocol p in (port :: ports, p)
  end.

(** Which of the two pools a protocol uses. *)
Definition is_tcp (protocol : ProtocolType) : bool :=
  match protocol with Tcp => true | _ => false end.

(** ** Invariant *)

(** Only indices inside the range are ever set, and the hints are indices. *)
Definition bits_ok (b : gset nat) : Prop := b ⊆ set_seq 0 EPHEMERAL_PORT_COUNT.

Definition pool_ok (p : EphemeralPortPool) : Prop :=
  bits_ok (m_udp_ports p) /\ bits_ok (m_tcp_ports p)
  /\ (m_udp_hint p < EPHEMERAL_PORT_COUNT)%nat /\ (m_tcp_hint p < EPHEMERAL_PORT_COUNT)%nat.

(** ** Lemmas *)

Lemma count_pos : (0 < EPHEMERAL_PORT_COUNT)%nat.
Proof. vm_compute. lia. Qed.

Lemma count_Z : Z.of_nat EPHEMERAL_PORT_COUNT = 16384.
Proof. reflexivity. Qed.

#[local] Opaque EPHEMERAL_PORT_COUNT.

Lemma index_mod n : (n mod EPHEMERAL_PORT_COUNT < EPHEMERAL_PORT_COUNT)%nat.
Proof. apply Nat.mod_upper_bound. pose proof count_pos. lia. Qed.

Lemma elem_of_bits b i : bits_ok b -> i ∈ b -> (i < EPHEMERAL_PORT_COUNT)%nat.
Proof. intros Hb Hi. apply Hb, elem_of_set_seq in Hi. lia. Qed.

Lemma bits_ok_add b i : bits_ok b -> (i < EPHEMERAL_PORT_COUNT)%nat -> bits_ok ({[i]} ∪ b).
Proof.
  intros Hb Hi j [->%elem_of_singleton|Hj]%elem_of_union; [|by apply Hb].
  apply elem_of_set_seq. lia.
Qed.

Lemma GetBitset_set protocol protocol' b p :
  GetBitset protocol' (set_bitset protocol b p) =
  if Bool.eqb (is_tcp protocol) (is_tcp protocol') then b else GetBitset protocol' p.
Proof. by destruct protocol, protocol'. Qed.

Lemma GetBitset_set_same protocol b p : GetBitset protocol (set_bitset protocol b p) = b.
Proof. by destruct protocol. Qed.

Lemma GetBitset_hint protocol protocol' h p :
  GetBitset protocol' (set_hint protocol h p) = GetBitset protocol' p.
Proof. by destruct protocol, protocol'. Qed.

Lemma get_set_hint protocol h p : get_hint protocol (set_hint protocol h p) = h.
Proof. by destruct protocol. Qed.

Lemma bits_ok_get protocol p : pool_ok p -> bits_ok (GetBitset protocol p).
Proof. intros (? & ? & _). by destruct protocol. Qed.

Lemma pool_ok_set protocol b p : pool_ok p -> bits_ok b -> pool_ok (set_bitset protocol b p).
Proof. intros (? & ? & ? & ?) Hb. by destruct protocol. Qed.

Lemma pool_ok_hint protocol h p :
  pool_ok p -> (h < EPHEMERAL_PORT_COUNT)%nat -> pool_ok (set_hint protocol h p).
Proof. intros (? & ? & ? & ?) Hb. by destruct protocol. Qed.

Lemma pool_ok_release port protocol p : pool_ok p -> pool_ok (ReleasePort port protocol p).
Proof.
  intros Hp. unfold ReleasePort. case_decide; [done|]. apply pool_ok_set; [done|].
  intros i [Hi _]%elem_of_difference. by apply (bits_ok_get protocol p Hp).
Qed.

Lemma pool_ok_ReleaseAll p : pool_ok (ReleaseAll p).
Proof. pose proof count_pos. split_and!; simpl; [apply empty_subseteq|apply empty_subseteq|done|done]. Qed.

Lemma released_not_allocated port protocol p :
  IsPortAllocated port protocol (ReleasePort port protocol p) = false.
Proof.
  unfold IsPortAllocated, ReleasePort. case_decide; [done|].
  rewrite GetBitset_set_same. apply bool_decide_eq_false.
  intros [_ Hn]%elem_of_difference. by apply Hn, elem_of_singleton.
Qed.

(** The search returns the first free index in round-robin order. *)
Lemma find_free_Some b hint i n index :
  find_free b hint i n = Some index ->
  exists k, (i <= k < i + n)%nat /\ index = ((hint + k) mod EPHEMERAL_PORT_COUNT)%nat
    /\ index ∉ b
    /\ forall j, (i <= j < k)%nat -> ((hint + j) mod EPHEMERAL_PORT_COUNT)%nat ∈ b.
Proof.
  revert i. induction n as [|n IH]; intros i; [done|]. cbn [find_free]. case_decide as Hd.
  - intros (k & Hk & -> & Hf & Hall)%IH. exists k. split_and!; [lia|lia|done|done|].
    intros j Hj. destruct (decide (j = i)) as [->|]; [done|]. apply Hall. lia.
  - intros [= <-]. exists i. split_and!; [lia|lia|done|done|intros; lia].
Qed.

Lemma find_free_None b hint i n :
  find_free b hint i n = None <->
  (forall j, (i <= j < i + n)%nat -> ((hint + j) mod EPHEMERAL_PORT_COUNT)%nat ∈ b).
Proof.
  revert i. induction n as [|n IH]; intros i; cbn [find_free].
  - split; [intros _ j Hj; lia|done].
  - case_decide as Hd.
    + rewrite IH. split; intros Hall j Hj.
      * destruct (decide (j = i)) as [->|]; [done|]. apply Hall. lia.
      * apply Hall. lia.
    + split; [done|]. intros Hall. destruct Hd. apply Hall. lia.
Qed.

(** The round-robin visits every index. *)
Lemma round_robin hint i :
  (hint < EPHEMERAL_PORT_COUNT)%nat -> (i < EPHEMERAL_PORT_COUNT)%nat ->
  exists j, (j < EPHEMERAL_PORT_COUNT)%nat
    /\ ((hint + j) mod EPHEMERAL_PORT_COUNT)%nat = i.
Proof.
  intros Hh Hi. destruct (decide (hint <= i)%nat).
  - exists (i - hint)%nat. split; [lia|]. rewrite Nat.mod_small; lia.
  - exists (i + EPHEMERAL_PORT_COUNT - hint)%nat. split; [lia|].
    replace (hint + (i + EPHEMERAL_PORT_COUNT - hint))%nat
      with (i + 1 * EPHEMERAL_PORT_COUNT)%nat by lia.
    rewrite Nat.Div0.mod_add. apply Nat.mod_small. lia.
Qed.

Lemma find_free_full b hint :
  (hint < EPHEMERAL_PORT_COUNT)%nat ->
  find_free b hint 0 EPHEMERAL_PORT_COUNT = None <->
  forall i, (i < EPHEMERAL_PORT_COUNT)%nat -> i ∈ b.
Proof.
  intros Hh. rewrite find_free_None. split; intros Hall i Hi.
  - destruct (round_robin hint i Hh Hi) as (j & Hj & <-). apply Hall. lia.
  - apply Hall, index_mod.
Qed.

Lemma size_full b : bits_ok b -> (forall i, (i < EPHEMERAL_PORT_COUNT)%nat -> i ∈ b) ->
  size b = EPHEMERAL_PORT_COUNT.
Proof.
  intros Hb Hall.
  assert (b = set_seq 0 EPHEMERAL_PORT_COUNT) as ->.
  { apply set_eq. intros i. split; [apply Hb|]. intros [_ Hi]%elem_of_set_seq. by apply Hall. }
  by rewrite size_set_seq.
Qed.

Lemma size_bits b : bits_ok b -> (size b <= EPHEMERAL_PORT_COUNT)%nat.
Proof.
  intros Hb. apply subseteq_size in Hb. by rewrite size_set_seq in Hb.
Qed.

Lemma size_add (b : gset nat) i : i ∉ b -> size ({[ i ]} ∪ b) = S (size b).
Proof. intros Hi. rewrite size_union, size_singleton by set_solver. lia. Qed.

Lemma IndexToPort_value i :
  (i < EPHEMERAL_PORT_COUNT)%nat -> IndexToPort i = 49152 + Z.of_nat i.
Proof.
  intros Hi. pose proof count_Z. unfold IndexToPort, EPHEMERAL_PORT_MIN.
  apply u16_small. lia.
Qed.

Lemma PortToIndex_IndexToPort i :
  (i < EPHEMERAL_PORT_COUNT)%nat -> PortToIndex (IndexToPort i) = i.
Proof.
  intros Hi. rewrite IndexToPort_value by done. unfold PortToIndex, EPHEMERAL_PORT_MIN.
  rewrite (proj2 (Z.ltb_ge _ _)) by lia. lia.
Qed.

Lemma PortToIndex_range port :
  0 <= port < 65536 -> (~ (EPHEMERAL_PORT_COUNT <= PortToIndex port)%nat) <-> 49152 <= port.
Proof.
  intros Hp. pose proof count_Z. unfold PortToIndex, EPHEMERAL_PORT_MIN. case_if; zbool; lia.
Qed.

Lemma PortToIndex_inj port port' :
  49152 <= port -> 49152 <= port' -> PortToIndex port = PortToIndex port' -> port = port'.
Proof.
  intros Hp Hp'. unfold PortToIndex, EPHEMERAL_PORT_MIN.
  rewrite !(proj2 (Z.ltb_ge _ _)) by lia. lia.
Qed.

(** [AllocatePort] in terms of the search. *)
Lemma AllocatePort_cases protocol p :
  pool_ok p ->
  (AllocatePort protocol p = (0, p)
   /\ forall i, (i < EPHEMERAL_PORT_COUNT)%nat -> i ∈ GetBitset protocol p)
  \/ exists index p', AllocatePort protocol p = (IndexToPort index, p')
     /\ (index < EPHEMERAL_PORT_COUNT)%nat /\ index ∉ GetBitset protocol p
     /\ pool_ok p'
     /\ (forall protocol', GetBitset protocol' p' =
           if Bool.eqb (is_tcp protocol) (is_tcp protocol')
           then {[ index ]} ∪ GetBitset protocol p else GetBitset protocol' p)
     /\ get_hint protocol p' = ((index + 1) mod EPHEMERAL_PORT_COUNT)%nat.
Proof.
  intros Hp. unfold AllocatePort.
  assert (Hh : (get_hint protocol p < EPHEMERAL_PORT_COUNT)%nat)
    by (destruct Hp as (_ & _ & ? & ?); by destruct protocol).
  destruct (find_free _ _ _ _) as [index|] eqn:E.
  - right. apply find_free_Some in E as (k & Hk & -> & Hf & _).
    pose proof (index_mod (get_hint protocol p + k)) as Hi.
    eexists _, _. split; [done|]. split_and!; [done|done| | |apply get_set_hint].
    + apply pool_ok_hint; [|apply index_mod]. apply pool_ok_set; [done|].
      apply bits_ok_add; [by apply bits_ok_get|done].
    + intros protocol'. by rewrite GetBitset_hint, GetBitset_set.
  - left. split; [done|]. exact (proj1 (find_free_full _ _ Hh) E).
Qed.

(** ** Properties *)

(** [AllocatePort] hands out a port of the ephemeral range that was not
    allocated and now is, changes no other port of either pool, and answers 0,
    changing nothing, exactly when all 16384 ports of the pool are taken. *)
Theorem allocate_port_spec protocol p :
  pool_ok p ->
  let (port, p') := AllocatePort protocol p in
  pool_ok p'
  /\ (port = 0 <-> GetAvailableCount protocol p = 0%nat)
  /\ (port = 0 -> p' = p)
  /\ (port <> 0 ->
      49152 <= port <= 65535
      /\ IsPortAllocated port protocol p = false
      /\ (forall port' protocol', 0 <= port' < 65536 ->
          IsPortAllocated port' protocol' p' =
          IsPortAllocated port' protocol' p
          || (port' =? port) && Bool.eqb (is_tcp protocol) (is_tcp protocol'))
      /\ GetAvailableCount protocol p = S (GetAvailableCount protocol p')).
Proof.
  intros Hp. pose proof (bits_ok_get protocol p Hp) as Hb. pose proof count_Z as HZ.
  destruct (AllocatePort_cases protocol p Hp) as [[-> Hfull]|(i & p' & -> & Hi & Hf & Hp' & Hg & _)].
  - split_and!; try done. unfold GetAvailableCount. rewrite (size_full _ Hb Hfull).
    split; [intros _; lia|done].
  - pose proof (IndexToPort_value i Hi) as Hv.
    assert (Hsz : size (GetBitset protocol p') = S (size (GetBitset protocol p))).
    { rewrite Hg, Bool.eqb_reflx. by apply size_add. }
    pose proof (size_bits _ (bits_ok_get protocol p' Hp')).
    split_and!; [done| |lia|]; [unfold GetAvailableCount; lia|]. intros _. split_and!; try lia.
    + unfold IsPortAllocated. rewrite PortToIndex_IndexToPort by done. case_decide; [done|].
      by apply bool_decide_eq_false.
    + intros port' protocol' Hport. unfold IsPortAllocated.
      destruct (decide (EPHEMERAL_PORT_COUNT <= PortToIndex port')%nat) as [Hd|Hd].
      * destruct (Z.eqb_spec port' (IndexToPort i)) as [->|]; [|done].
        rewrite PortToIndex_IndexToPort in Hd by done. lia.
      * apply PortToIndex_range in Hd; [|done]. rewrite Hg.
        destruct (Bool.eqb _ _) eqn:Et; [|by rewrite andb_false_r, orb_false_r].
        assert (GetBitset protocol' p = GetBitset protocol p) as ->
          by (apply Bool.eqb_prop in Et; by destruct protocol, protocol').
        rewrite andb_true_r. apply eq_true_iff_eq.
        rewrite orb_true_iff, !bool_decide_eq_true, Z.eqb_eq, elem_of_union, elem_of_singleton.
        split; [intros [E|?]; [right|by left]|intros [?| ->]; [by right|left]].
        -- apply PortToIndex_inj; [lia|lia|]. by rewrite PortToIndex_IndexToPort.
        -- by apply PortToIndex_IndexToPort.
    + unfold GetAvailableCount. lia.
Qed.

Lemma pool_ok_new : pool_ok new_EphemeralPortPool.
Proof. pose proof count_pos. split_and!; simpl; [apply empty_subseteq|apply empty_subseteq|done|done]. Qed.

Lemma allocate_port_spec_witness :
  let (port, p') := AllocatePort Tcp new_EphemeralPortPool in
  port = 49152 /\ IsPortAllocated port Tcp p' = true /\ IsPortAllocated port Udp p' = false.
Proof.
  pose proof (allocate_port_spec Tcp new_EphemeralPortPool pool_ok_new) as H.
  assert (E : (AllocatePort Tcp new_EphemeralPortPool).1 = 49152) by (vm_compute; reflexivity).
  destruct (AllocatePort Tcp new_EphemeralPortPool) as [port p']. simpl in E. subst port.
  destruct H as (_ & _ & _ & H). destruct (H ltac:(discriminate)) as (_ & _ & Hall & _).
  split_and!; [reflexivity| |]; rewrite Hall by lia; vm_compute; reflexivity.
Defined.

Lemma allocate_many_spec n protocol p :
  pool_ok p -> (n <= GetAvailableCount protocol p)%nat ->
  let (ports, p') := allocate_many n protocol p in
  pool_ok p' /\ length ports = n /\ NoDup ports
  /\ (forall port, port ∈ ports -> 49152 <= port <= 65535
       /\ PortToIndex port ∉ GetBitset protocol p)
  /\ GetAvailableCount protocol p' = (GetAvailableCount protocol p - n)%nat.
Proof.
  revert p. induction n as [|n IH]; intros p Hp Hn; cbn [allocate_many].
  { split_and!; try done; [constructor|by intros ? ?%elem_of_nil|lia]. }
  pose proof (size_bits _ (bits_ok_get protocol p Hp)) as Hs. pose proof count_Z as HZ.
  destruct (AllocatePort_cases protocol p Hp) as [[-> Hfull]|(i & p' & -> & Hi & Hf & Hp' & Hg & _)].
  { pose proof (size_full _ (bits_ok_get protocol p Hp) Hfull) as E.
    unfold GetAvailableCount in Hn. lia. }
  specialize (Hg protocol). rewrite Bool.eqb_reflx in Hg.
  assert (Hav : GetAvailableCount protocol p = S (GetAvailableCount protocol p')).
  { unfold GetAvailableCount in *. rewrite Hg, size_add by done. lia. }
  specialize (IH p' Hp' ltac:(lia)).
  destruct (allocate_many n protocol p') as [ports p2].
  destruct IH as (Hp2 & Hl & Hnd & Hall & Hc). split_and!; [done|simpl; lia| | |lia].
  - constructor; [|done]. intros [_ Hin]%Hall. rewrite PortToIndex_IndexToPort, Hg in Hin by done.
    apply Hin, elem_of_union_l, elem_of_singleton. done.
  - intros port [->|Hin]%elem_of_cons.
    + rewrite PortToIndex_IndexToPort, IndexToPort_value by done. split; [lia|done].
    + destruct (Hall _ Hin) as [? Hnot]. split; [done|]. rewrite Hg in Hnot.
      intros Hin'. by apply Hnot, elem_of_union_r.
Qed.

(** from a fresh pool, every number of allocations up to the size of the
    range yields that many different ephemeral ports, and the next one after
    16384 fails with 0. *)
Theorem allocations_distinct protocol n :
  (n <= EPHEMERAL_PORT_COUNT)%nat ->
  let (ports, p) := allocate_many n protocol new_EphemeralPortPool in
  length ports = n /\ NoDup ports
  /\ (forall port, port ∈ ports -> 49152 <= port <= 65535)
  /\ ((AllocatePort protocol p).1 = 0 <-> n = EPHEMERAL_PORT_COUNT).
Proof.
  intros Hn.
  assert (Ha : GetAvailableCount protocol new_EphemeralPortPool = EPHEMERAL_PORT_COUNT)
    by (unfold GetAvailableCount; destruct protocol; cbn [GetBitset new_EphemeralPortPool
          m_udp_ports m_tcp_ports]; rewrite size_empty; lia).
  pose proof (allocate_many_spec n protocol _ pool_ok_new ltac:(rewrite Ha; lia)) as H.
  destruct (allocate_many n protocol new_EphemeralPortPool) as [ports p].
  destruct H as (Hp & Hl & Hnd & Hall & Hc). rewrite Ha in Hc.
  split_and!; [done|done|intros port Hin; by apply Hall|].
  pose proof (size_bits _ (bits_ok_get protocol p Hp)) as Hs. pose proof count_Z as HZ.
  pose proof (bits_ok_get protocol p Hp) as Hb.
  destruct (AllocatePort_cases protocol p Hp) as [[-> Hfull]|(i & p' & -> & Hi & Hf & Hp' & Hg & _)].
  - pose proof (size_full _ Hb Hfull) as E. unfold GetAvailableCount in Hc. simpl.
    split; [intros _; lia|done].
  - simpl. rewrite IndexToPort_value by done. split; [lia|]. intros ->.
    specialize (Hg protocol). rewrite Bool.eqb_reflx in Hg.
    pose proof (size_bits _ (bits_ok_get protocol p' Hp')) as Hs'.
    rewrite Hg, size_add in Hs' by done.
    unfold GetAvailableCount in Hc. lia.
Qed.

Lemma allocations_distinct_witness :
  let (ports, p) := allocate_many 3 Udp new_EphemeralPortPool in
  length ports = 3%nat /\ NoDup ports.
Proof.
  pose proof (allocations_distinct Udp 3 ltac:(pose proof count_Z; lia)) as H.
  destruct (allocate_many 3 Udp new_EphemeralPortPool) as [ports p].
  split; apply H.
Defined.

(** reserving a specific port succeeds exactly when it is not allocated
    for the protocol, then it is; releasing makes it available again, and no
    other port changes.  A port below the ephemeral range is never refused and
    never tracked. *)
Theorem specific_port_spec port protocol p :
  pool_ok p -> 0 <= port < 65536 ->
  let (ok, p') := AllocateSpecificPort port protocol p in
  ok = negb (IsPortAllocated port protocol p)
  /\ pool_ok p'
  /\ (port < 49152 -> ok = true /\ p' = p)
  /\ (49152 <= port -> IsPortAllocated port protocol p' = true
      /\ IsPortAllocated port protocol (ReleasePort port protocol p') = false
      /\ (ok = true -> GetBitset protocol (ReleasePort port protocol p') = GetBitset protocol p)).
Proof.
  intros Hp Hport. pose proof (PortToIndex_range port Hport) as Hr.
  unfold AllocateSpecificPort, IsPortAllocated, ReleasePort.
  destruct (decide (EPHEMERAL_PORT_COUNT <= PortToIndex port)%nat) as [Hd|Hd].
  { split_and!; try done. intros Hge. by apply Hr in Hge. }
  destruct (decide (PortToIndex port ∈ GetBitset protocol p)) as [Hin|Hin].
  - rewrite bool_decide_eq_true_2 by done. split_and!; try done.
    { apply Hr in Hd. lia. }
    intros _. split_and!; [done| |done]. apply bool_decide_eq_false.
    rewrite GetBitset_set_same. set_solver.
  - rewrite bool_decide_eq_false_2 by done. split_and!; [done| | |].
    { apply pool_ok_set; [done|]. apply bits_ok_add; [by apply bits_ok_get|lia]. }
    { apply Hr in Hd. lia. }
    intros _. rewrite !GetBitset_set_same. split_and!.
    + apply bool_decide_eq_true. set_solver.
    + apply bool_decide_eq_false. set_solver.
    + intros _. set_solver.
Qed.

Lemma specific_port_spec_witness :
  (AllocateSpecificPort 50000 Udp new_EphemeralPortPool).1 = true.
Proof.
  pose proof (specific_port_spec 50000 Udp new_EphemeralPortPool pool_ok_new ltac:(lia)) as H.
  destruct (AllocateSpecificPort 50000 Udp new_EphemeralPortPool) as [ok p'].
  destruct H as (-> & _). vm_compute. reflexivity.
Defined.
