(* ===== verification/ProxyLink.v ===== *)
(** * The manager's outgoing side ([bsd/proxy_socket_manager.{hpp,cpp}], "Outgoing Data")

    Sockets do not reach the network themselves: they call the manager's
    [SendProxy*] methods, which take the manager's mutex to read a callback and
    call it with the mutex released.  [Link] is the part of the manager's
    state these methods use.

    The mutex is an [os::Mutex] constructed with [recursive = false]
    ([std::mutex] in the test build): locking it again in the thread that holds
    it does not return.  A computation that does not return is [None]. *)

From stdpp Require Import base numbers list.
From S2P Require Import Prelude BsdTypes.

(** The arguments of the four callbacks. *)
Inductive ProxyMessage : Type :=
  | ProxyData (source_ip source_port dest_ip dest_port : Z) (protocol : ProtocolType)
      (data : list Z)
  | ProxyConnect (source_ip source_port dest_ip dest_port : Z) (protocol : ProtocolType)
  | ProxyConnectReply (source_ip source_port dest_ip dest_port : Z) (protocol : ProtocolType)
  | ProxyDisconnect (source_ip source_port dest_ip dest_port : Z) (protocol : ProtocolType).

(** A callback is code outside these files; what the manager sees of it is
    whether it accepts the message. *)
Record Link : Type := {
  m_mutex : bool;
  m_send_callback : option (ProxyMessage -> bool);
  m_proxy_connect_callback : option (ProxyMessage -> bool);
  m_proxy_connect_reply_callback : option (ProxyMessage -> bool);
  m_proxy_disconnect_callback : option (ProxyMessage -> bool);
  m_called : list (ProxyMessage * bool)     (** the calls made, with their results *)
}.

Definition new_Link : Link := {|
  m_mutex := false; m_send_callback := None; m_proxy_connect_callback := None;
  m_proxy_connect_reply_callback := None; m_proxy_disconnect_callback := None;
  m_called := []
|}.

Definition set_mutex (held : bool) (l : Link) : Link := {|
  m_mutex := held; m_send_callback := m_send_callback l;
  m_proxy_connect_callback := m_proxy_connect_callback l;
  m_proxy_connect_reply_callback := m_proxy_connect_reply_callback l;
  m_proxy_disconnect_callback := m_proxy_disconnect_callback l; m_called := m_called l
|}.

(** [std::scoped_lock lock(m_mutex)] and the end of its scope. *)
Definition lock (l : Link) : option Link :=
  if m_mutex l then None else Some (set_mutex true l).
Definition unlock (l : Link) : Link := set_mutex false l.

Definition set_callbacks (data connect reply disconnect : option (ProxyMessage -> bool))
    (l : Link) : Link := {|
  m_mutex := m_mutex l; m_send_callback := data; m_proxy_connect_callback := connect;
  m_proxy_connect_reply_callback := reply; m_proxy_disconnect_callback := disconnect;
  m_called := m_called l
|}.

Definition SetSendCallback (cb : option (ProxyMessage -> bool)) (l : Link) : option Link :=
  l ← lock l;
  Some (unlock (set_callbacks cb (m_proxy_connect_callback l)
    (m_proxy_connect_reply_callback l) (m_proxy_disconnect_callback l) l)).

Definition SetProxyConnectCallback (cb : option (ProxyMessage -> bool)) (l : Link)
    : option Link :=
  l ← lock l;
  Some (unlock (set_callbacks (m_send_callback l) cb
    (m_proxy_connect_reply_callback l) (m_proxy_disconnect_callback l) l)).

Definition SetProxyConnectReplyCallback (cb : option (ProxyMessage -> bool)) (l : Link)
    : option Link :=
  l ← lock l;
  Some (unlock (set_callbacks (m_send_callback l) (m_proxy_connect_callback l) cb
    (m_proxy_disconnect_callback l) l)).

Definition SetProxyDisconnectCallback (cb : option (ProxyMessage -> bool)) (l : Link)
    : option Link :=
  l ← lock l;
  Some (unlock (set_callbacks (m_send_callback l) (m_proxy_connect_callback l)
    (m_proxy_connect_reply_callback l) cb l)).

(** A callback call, recorded. *)
Definition invoke (cb : option (ProxyMessage -> bool)) (msg : ProxyMessage) (l : Link)
    : bool * Link :=
  match cb with
  | None => (false, l)
  | Some callback =>
      let ok := callback msg in
      (ok, {| m_mutex := m_mutex l; m_send_callback := m_send_callback l;
              m_proxy_connect_callback := m_proxy_connect_callback l;
              m_proxy_connect_reply_callback := m_proxy_connect_reply_callback l;
              m_proxy_disconnect_callback := m_proxy_disconnect_callback l;
              m_called := m_called l ++ [(msg, ok)] |})
  end.

Definition SendProxyData (source_ip source_port dest_ip dest_port : Z)
    (protocol : ProtocolType) (data : list Z) (l : Link) : option (bool * Link) :=
  l ← lock l;
  let callback := m_send_callback l in
  let l := unlock l in
  Some (invoke callback (ProxyData source_ip source_port dest_ip dest_port protocol data) l).

Definition SendProxyConnect (source_ip source_port dest_ip dest_port : Z)
    (protocol : ProtocolType) (l : Link) : option (bool * Link) :=
  l ← lock l;
  let callback := m_proxy_connect_callback l in
  let l := unlock l in
  Some (invoke callback (ProxyConnect source_ip source_port dest_ip dest_port protocol) l).

Definition SendProxyConnectReply (source_ip source_port dest_ip dest_port : Z)
    (protocol : ProtocolType) (l : Link) : option (bool * Link) :=
  l ← lock l;
  let callback := m_proxy_connect_reply_callback l in
  let l := unlock l in
  Some (invoke callback (ProxyConnectReply source_ip source_port dest_ip dest_port protocol) l).

Definition SendProxyDisconnect (source_ip source_port dest_ip dest_port : Z)
    (protocol : ProtocolType) (l : Link) : option (bool * Link) :=
  l ← lock l;
  let callback := m_proxy_disconnect_callback l in
  let l := unlock l in
  Some (invoke callback (ProxyDisconnect source_ip source_port dest_ip dest_port protocol) l).

Lemma lock_free l : m_mutex l = false -> lock l = Some (set_mutex true l).
Proof. intros E. unfold lock. by rewrite E. Qed.

Lemma lock_held l : m_mutex l = true -> lock l = None.
Proof. intros E. unfold lock. by rewrite E. Qed.

Lemma unlock_lock l : m_mutex l = false -> unlock (set_mutex true l) = l.
Proof. destruct l. simpl. intros ->. done. Qed.

(** A send with the mutex free: the callback's answer, one more call recorded. *)
Lemma SendProxyData_free sip sport dip dport protocol data l :
  m_mutex l = false ->
  SendProxyData sip sport dip dport protocol data l =
  Some (invoke (m_send_callback l) (ProxyData sip sport dip dport protocol data) l).
Proof.
  intros E. unfold SendProxyData. rewrite lock_free by done. cbn [mbind option_bind].
  by rewrite unlock_lock.
Qed.

Lemma SendProxyConnect_free sip sport dip dport protocol l :
  m_mutex l = false ->
  SendProxyConnect sip sport dip dport protocol l =
  Some (invoke (m_proxy_connect_callback l) (ProxyConnect sip sport dip dport protocol) l).
Proof.
  intros E. unfold SendProxyConnect. rewrite lock_free by done. cbn [mbind option_bind].
  by rewrite unlock_lock.
Qed.

Lemma SendProxyDisconnect_held sip sport dip dport protocol l :
  m_mutex l = true -> SendProxyDisconnect sip sport dip dport protocol l = None.
Proof. intros E. unfold SendProxyDisconnect. by rewrite lock_held. Qed.

Lemma SendProxyConnectReply_held sip sport dip dport protocol l :
  m_mutex l = true -> SendProxyConnectReply sip sport dip dport protocol l = None.
Proof. intros E. unfold SendProxyConnectReply. by rewrite lock_held. Qed.
