(* ===== verification/ProxySocket.v ===== *)
(** * Proxy sockets ([bsd/proxy_socket.{hpp,cpp}])

    A socket whose traffic goes through the LDN server.  The receive queue is
    the fixed ring of [Ring.v] over [ReceivedPacket] slots that are filled in
    place; the events are the three [os::Event]s with manual clear.

    A call that blocks is given the list [others] of the steps other threads
    perform on this socket while it waits; it returns when its event is
    signalled after them, and is [None] (still blocked) otherwise.  Likewise a
    call that locks a mutex its own thread holds is [None].  A [Result] is the
    errno value, 0 for success.  Pointers are [option]s, [nullptr] being
    [None]; sizes are non-negative integers. *)

From stdpp Require Import base numbers list.
From Stdlib Require Import ZArith Lia Bool.
From S2P Require Import Prelude Layout Types BsdTypes Ring ProxyLink.

Definition PROXY_SOCKET_MAX_QUEUE_SIZE : nat := 64.
Definition PROXY_SOCKET_MAX_PAYLOAD : Z := 2000.

Inductive ProxySocketState : Set :=
  | Created | Bound | Connecting | Connected | Listening | Closed.

#[export] Instance ProxySocketState_eq_dec : EqDecision ProxySocketState.
Proof. solve_decision. Defined.

Record ReceivedPacket : Type := {
  rp_from : SockAddrIn;
  rp_len : Z;
  rp_data : list Z
}.

(** A slot before its first use. *)
#[export] Instance ReceivedPacket_inhabited : Inhabited ReceivedPacket :=
  populate {| rp_from := {| sin_len := 0; sin_family := 0; sin_port := 0; sin_addr := 0;
                            sin_zero := replicate 8 0 |};
              rp_len := 0; rp_data := replicate (Z.to_nat PROXY_SOCKET_MAX_PAYLOAD) 0 |}.

Inductive ProxySocket : Type := Build_ProxySocket {
  s_type : SocketType;
  s_protocol : ProtocolType;
  s_state : ProxySocketState;
  s_non_blocking : bool;
  s_shutdown_read : bool;
  s_shutdown_write : bool;
  s_local_addr : SockAddrIn;
  s_remote_addr : SockAddrIn;
  s_rx : ring ReceivedPacket;
  s_receive_event : bool;
  s_accept_queue : list ProxySocket;
  s_accept_event : bool;
  s_connect_response_received : bool;
  s_connect_response : ProxyConnectResponse;
  s_connect_event : bool;
  s_broadcast : bool;
  s_broadcast_address : Z
}.

Definition empty_rx : ring ReceivedPacket :=
  Ring (replicate PROXY_SOCKET_MAX_QUEUE_SIZE inhabitant) 0 0 0.

Definition new_ProxySocket (type : SocketType) (protocol : ProtocolType) : ProxySocket := {|
  s_type := type; s_protocol := protocol; s_state := Created; s_non_blocking := false;
  s_shutdown_read := false; s_shutdown_write := false;
  s_local_addr := inet_addr 0 0; s_remote_addr := inet_addr 0 0;
  s_rx := empty_rx; s_receive_event := false;
  s_accept_queue := []; s_accept_event := false;
  s_connect_response_received := false; s_connect_response := zeroed ProxyConnectResponse;
  s_connect_event := false; s_broadcast := false; s_broadcast_address := 0
|}.

(** ** Field updates *)

Definition set_state (st : ProxySocketState) (s : ProxySocket) : ProxySocket :=
  Build_ProxySocket (s_type s) (s_protocol s) st (s_non_blocking s) (s_shutdown_read s)
    (s_shutdown_write s) (s_local_addr s) (s_remote_addr s) (s_rx s) (s_receive_event s)
    (s_accept_queue s) (s_accept_event s) (s_connect_response_received s)
    (s_connect_response s) (s_connect_event s) (s_broadcast s) (s_broadcast_address s).

Definition set_non_blocking (b : bool) (s : ProxySocket) : ProxySocket :=
  Build_ProxySocket (s_type s) (s_protocol s) (s_state s) b (s_shutdown_read s)
    (s_shutdown_write s) (s_local_addr s) (s_remote_addr s) (s_rx s) (s_receive_event s)
    (s_accept_queue s) (s_accept_event s) (s_connect_response_received s)
    (s_connect_response s) (s_connect_event s) (s_broadcast s) (s_broadcast_address s).

Definition set_shutdown (r w : bool) (s : ProxySocket) : ProxySocket :=
  Build_ProxySocket (s_type s) (s_protocol s) (s_state s) (s_non_blocking s) r w
    (s_local_addr s) (s_remote_addr s) (s_rx s) (s_receive_event s)
    (s_accept_queue s) (s_accept_event s) (s_connect_response_received s)
    (s_connect_response s) (s_connect_event s) (s_broadcast s) (s_broadcast_address s).

Definition set_addrs (local remote : SockAddrIn) (s : ProxySocket) : ProxySocket :=
  Build_ProxySocket (s_type s) (s_protocol s) (s_state s) (s_non_blocking s)
    (s_shutdown_read s) (s_shutdown_write s) local remote (s_rx s) (s_receive_event s)
    (s_accept_queue s) (s_accept_event s) (s_connect_response_received s)
    (s_connect_response s) (s_connect_event s) (s_broadcast s) (s_broadcast_address s).

Definition set_rx (rx : ring ReceivedPacket) (event : bool) (s : ProxySocket) : ProxySocket :=
  Build_ProxySocket (s_type s) (s_protocol s) (s_state s) (s_non_blocking s)
    (s_shutdown_read s) (s_shutdown_write s) (s_local_addr s) (s_remote_addr s) rx event
    (s_accept_queue s) (s_accept_event s) (s_connect_response_received s)
    (s_connect_response s) (s_connect_event s) (s_broadcast s) (s_broadcast_address s).

Definition set_accept (q : list ProxySocket) (event : bool) (s : ProxySocket) : ProxySocket :=
  Build_ProxySocket (s_type s) (s_protocol s) (s_state s) (s_non_blocking s)
    (s_shutdown_read s) (s_shutdown_write s) (s_local_addr s) (s_remote_addr s) (s_rx s)
    (s_receive_event s) q event (s_connect_response_received s)
    (s_connect_response s) (s_connect_event s) (s_broadcast s) (s_broadcast_address s).

Definition set_connect (received : bool) (r : ProxyConnectResponse) (event : bool)
    (s : ProxySocket) : ProxySocket :=
  Build_ProxySocket (s_type s) (s_protocol s) (s_state s) (s_non_blocking s)
    (s_shutdown_read s) (s_shutdown_write s) (s_local_addr s) (s_remote_addr s) (s_rx s)
    (s_receive_event s) (s_accept_queue s) (s_accept_event s) received r event
    (s_broadcast s) (s_broadcast_address s).

Definition set_broadcast (enabled : bool) (addr : Z) (s : ProxySocket) : ProxySocket :=
  Build_ProxySocket (s_type s) (s_protocol s) (s_state s) (s_non_blocking s)
    (s_shutdown_read s) (s_shutdown_write s) (s_local_addr s) (s_remote_addr s) (s_rx s)
    (s_receive_event s) (s_accept_queue s) (s_accept_event s) (s_connect_response_received s)
    (s_connect_response s) (s_connect_event s) enabled addr.

Definition SetNonBlocking (non_blocking : bool) (s : ProxySocket) : ProxySocket :=
  set_non_blocking non_blocking s.
Definition SetBroadcastEnabled (enabled : bool) (s : ProxySocket) : ProxySocket :=
  set_broadcast enabled (s_broadcast_address s) s.
Definition SetBroadcastAddress (addr : Z) (s : ProxySocket) : ProxySocket :=
  set_broadcast (s_broadcast s) addr s.

(** ** Addresses *)

Definition Bind (addr : SockAddrIn) (s : ProxySocket) : Z * ProxySocket :=
  if negb (bool_decide (s_state s = Created)) then (Errno_Inval, s)
  else if negb (sin_family addr =? AddressFamily_Inet) then (Errno_AfNoSupport, s)
  else (Errno_Success, set_state Bound (set_addrs addr (s_remote_addr s) s)).

(** The address written to [out_addr], or the error. *)
Definition GetSockName (out_addr_null : bool) (s : ProxySocket) : Z * option SockAddrIn :=
  if out_addr_null then (Errno_Fault, None)
  else if bool_decide (s_state s = Created) then (Errno_Success, Some (inet_addr 0 0))
  else (Errno_Success, Some (s_local_addr s)).

Definition GetPeerName (out_addr_null : bool) (s : ProxySocket) : Z * option SockAddrIn :=
  if out_addr_null then (Errno_Fault, None)
  else if negb (bool_decide (s_state s = Connected)) then (Errno_NotConn, None)
  else (Errno_Success, Some (s_remote_addr s)).

(** ** Steps other threads can take on the socket *)

(** The slot at the tail, overwritten in place. *)
Definition fill_slot (data : option (list Z)) (copy_len : Z) (from : SockAddrIn)
    (slot : ReceivedPacket) : ReceivedPacket := {|
  rp_from := from;
  rp_len := u16 copy_len;
  rp_data := match data with
             | Some bytes => if 0 <? copy_len then write_at 0 (ztake copy_len bytes) (rp_data slot)
                             else rp_data slot
             | None => rp_data slot
             end
|}.

Definition IncomingData (data : option (list Z)) (len : Z) (from : SockAddrIn)
    (s : ProxySocket) : ProxySocket :=
  let copy_len := Z.min len PROXY_SOCKET_MAX_PAYLOAD in
  set_rx (ring_push PROXY_SOCKET_MAX_QUEUE_SIZE (fill_slot data copy_len from) (s_rx s)) true s.

Definition HandleConnectResponse (response : ProxyConnectResponse) (s : ProxySocket)
    : ProxySocket := set_connect true response true s.

Definition Shutdown (how : ShutdownHow) (s : ProxySocket) : Z * ProxySocket :=
  match how with
  | OtherHow _ => (Errno_Inval, s)
  | _ =>
      let s := match how with
               | Read => set_shutdown true (s_shutdown_write s) s
               | Write => set_shutdown (s_shutdown_read s) true s
               | _ => set_shutdown true true s
               end in
      (Errno_Success, set_rx (s_rx s) true s)
  end.

(** [IncomingConnection] up to the reply: the accepted socket and the queue. *)
Definition accepted_socket (request : ProxyConnectRequest) (s : ProxySocket) : ProxySocket :=
  let accepted := new_ProxySocket (s_type s) (s_protocol s) in
  let remote := inet_addr (bswap16 (pi_source_port (pcq_info request)))
                          (bswap32 (pi_source_ipv4 (pcq_info request))) in
  set_state Connected (set_addrs (s_local_addr s) remote accepted).

Definition queue_connection (request : ProxyConnectRequest) (s : ProxySocket) : ProxySocket :=
  set_accept (s_accept_queue s ++ [accepted_socket request s]) true s.

Definition IncomingConnection (request : ProxyConnectRequest) (s : ProxySocket) (l : Link)
    : option (ProxySocket * Link) :=
  if negb (bool_decide (s_state s = Listening)) then Some (s, l)
  else
    let s := queue_connection request s in
    r ← SendProxyConnectReply (GetAddr (s_local_addr s)) (GetPort (s_local_addr s))
          (pi_source_ipv4 (pcq_info request)) (pi_source_port (pcq_info request)) Tcp l;
    Some (s, r.2).

Inductive SocketStep : Type :=
  | StepData (data : list Z) (from : SockAddrIn)
  | StepConnectResponse (response : ProxyConnectResponse)
  | StepConnection (request : ProxyConnectRequest)
  | StepShutdown (how : ShutdownHow).

Definition socket_step (st : SocketStep) (s : ProxySocket) : ProxySocket :=
  match st with
  | StepData data from => IncomingData (Some data) (zlen data) from s
  | StepConnectResponse r => HandleConnectResponse r s
  | StepConnection r =>
      if bool_decide (s_state s = Listening) then queue_connection r s else s
  | StepShutdown how => (Shutdown how s).2
  end.

Definition socket_steps (sts : list SocketStep) (s : ProxySocket) : ProxySocket :=
  foldl (fun s st => socket_step st s) s sts.

(** ** Connecting *)

Definition Connect (addr : SockAddrIn) (others : list SocketStep) (s : ProxySocket) (l : Link)
    : option (Z * ProxySocket * Link) :=
  if bool_decide (s_state s = Closed) then Some (Errno_BadF, s, l)
  else if negb (sin_family addr =? AddressFamily_Inet) then Some (Errno_AfNoSupport, s, l)
  else
    let s := set_addrs (s_local_addr s) addr s in
    if bool_decide (s_type s = Stream) then
      let s := set_connect false (s_connect_response s) false (set_state Connecting s) in
      r ← SendProxyConnect (GetAddr (s_local_addr s)) (GetPort (s_local_addr s))
            (GetAddr addr) (GetPort addr) (s_protocol s) l;
      let '(sent, l) := r in
      if negb sent then Some (Errno_NetUnreach, set_state Bound s, l)
      else if negb (s_non_blocking s) then
        let s := socket_steps others s in
        let got_response := s_connect_event s in
        if negb got_response || negb (s_connect_response_received s)
        then Some (Errno_TimedOut, set_state Bound s, l)
        else if negb (pi_protocol (pcr_info (s_connect_response s)) =? ProtocolType_Unspecified)
        then Some (Errno_ConnRefused, set_state Bound s, l)
        else Some (Errno_Success, set_state Connected s, l)
      else Some (Errno_InProgress, s, l)
    else Some (Errno_Success, set_state Connected s, l).

(** ** Data transfer *)

Definition SendTo (data : option (list Z)) (len flags : Z) (dest : SockAddrIn)
    (s : ProxySocket) (l : Link) : option (Z * Link) :=
  if s_shutdown_write s then Some (- Errno_Inval, l)
  else if bool_decide (s_state s = Closed) then Some (- Errno_BadF, l)
  else if bool_decide (s_state s = Created) then Some (- Errno_DestAddrReq, l)
  else if bool_decide (data = None) && (0 <? len) then Some (- Errno_Fault, l)
  else if PROXY_SOCKET_MAX_PAYLOAD <? len then Some (- Errno_MsgSize, l)
  else
    r ← SendProxyData (GetAddr (s_local_addr s)) (GetPort (s_local_addr s))
          (GetAddr dest) (GetPort dest) (s_protocol s) (ztake len (default [] data)) l;
    let '(sent, l) := r in
    if negb sent then Some (- Errno_NetUnreach, l) else Some (s32 len, l).

Definition Send (data : option (list Z)) (len flags : Z) (s : ProxySocket) (l : Link)
    : option (Z * Link) :=
  if negb (bool_decide (s_state s = Connected)) then Some (- Errno_NotConn, l)
  else SendTo data len flags (s_remote_addr s) s l.

(** What [RecvFrom] hands back: its value, the bytes copied to the buffer, and
    the source written to [from]. *)
Record received : Type := { rv_value : Z; rv_bytes : list Z; rv_from : option SockAddrIn }.

Definition recv_error (value : Z) : received :=
  {| rv_value := value; rv_bytes := []; rv_from := None |}.

(** The lambda [consume_front]. *)
Definition consume_front (len : Z) (peek : bool) (s : ProxySocket) : received * ProxySocket :=
  let slot := ring_front (s_rx s) in
  let copy_len := Z.min len (rp_len slot) in
  let rx := if peek then s_rx s else ring_drop PROXY_SOCKET_MAX_QUEUE_SIZE (s_rx s) in
  let event := if decide (r_count rx = 0%nat) then false else s_receive_event s in
  ({| rv_value := s32 copy_len; rv_bytes := ztake copy_len (rp_data slot);
      rv_from := Some (rp_from slot) |}, set_rx rx event s).

Definition RecvFrom (buffer_null : bool) (len flags : Z) (others : list SocketStep)
    (s : ProxySocket) : option (received * ProxySocket) :=
  if s_shutdown_read s then Some (recv_error 0, s)
  else if bool_decide (s_state s = Closed) then Some (recv_error (- Errno_BadF), s)
  else if buffer_null && (0 <? len) then Some (recv_error (- Errno_Fault), s)
  else
    let peek := negb (Z.land flags 0x2 =? 0) in
    let dontwait := negb (Z.land flags 0x80 =? 0) || s_non_blocking s in
    if decide (r_count (s_rx s) = 0%nat) then
      if dontwait then Some (recv_error (- Errno_Again), s)
      else
        let s := socket_steps others s in
        if s_receive_event s then
          if decide (0 < r_count (s_rx s))%nat then Some (consume_front len peek s)
          else Some (recv_error (- Errno_Again), s)
        else None
    else Some (consume_front len peek s).

Definition Recv (buffer_null : bool) (len flags : Z) (others : list SocketStep)
    (s : ProxySocket) : option (received * ProxySocket) :=
  if bool_decide (s_state s = Connected) then RecvFrom buffer_null len flags others s
  else Some (recv_error (- Errno_NotConn), s).

(** With nothing queued, the value-initialised packet. *)
Definition PopFrontPacket (peek : bool) (s : ProxySocket) : ReceivedPacket * ProxySocket :=
  if decide (r_count (s_rx s) = 0%nat) then (inhabitant, s)
  else (ring_front (s_rx s),
        if peek then s
        else set_rx (ring_drop PROXY_SOCKET_MAX_QUEUE_SIZE (s_rx s)) (s_receive_event s) s).

(** ** Socket options *)

(** The options [SetSockOpt] accepts and ignores by name; every other one is
    accepted and ignored too. *)
Definition SetSockOpt (level optname : Z) (optval : option (list Z)) (optlen : Z)
    (s : ProxySocket) : Z * ProxySocket :=
  if level =? SocketOptionLevel_Socket then
    if optname =? SocketOption_Broadcast then
      match optval with
      | Some bytes =>
          if 4 <=? optlen then
            let value := s32 (le_combine (ztake 4 bytes)) in
            (Errno_Success, set_broadcast (negb (value =? 0)) (s_broadcast_address s) s)
          else (Errno_Inval, s)
      | None => (Errno_Inval, s)
      end
    else (Errno_Success, s)
  else (Errno_Success, s).

(** The [s32] written to [optval] on success, with [*optlen = 4]. *)
Definition GetSockOpt (level optname : Z) (optval_null : bool) (optlen : option Z)
    (s : ProxySocket) : Z * option Z :=
  match optlen with
  | None => (Errno_Fault, None)
  | Some optlen =>
      if optval_null then (Errno_Fault, None)
      else if (level =? SocketOptionLevel_Socket) && (4 <=? optlen) then
        if optname =? SocketOption_Type then (Errno_Success, Some (SocketType_value (s_type s)))
        else if optname =? SocketOption_Error then (Errno_Success, Some 0)
        else if optname =? SocketOption_Broadcast
        then (Errno_Success, Some (if s_broadcast s then 1 else 0))
        else (Errno_NoProtoOpt, None)
      else (Errno_NoProtoOpt, None)
  end.

(** ** TCP operations *)

Definition Listen (backlog : Z) (s : ProxySocket) : Z * ProxySocket :=
  if negb (bool_decide (s_type s = Stream)) then (Errno_OpNotSupp, s)
  else if bool_decide (s_state s = Created) then (Errno_Inval, s)
  else (Errno_Success, set_state Listening s).

(** The first queued connection, if any; what [Accept] writes to [out_addr] is
    its [s_remote_addr]. *)
Definition pop_accept (s : ProxySocket) : option ProxySocket * ProxySocket :=
  match s_accept_queue s with
  | [] => (None, s)
  | accepted :: q =>
      (Some accepted, set_accept q (match q with [] => false | _ => s_accept_event s end) s)
  end.

Definition Accept (others : list SocketStep) (s : ProxySocket)
    : option (option ProxySocket * ProxySocket) :=
  if negb (bool_decide (s_state s = Listening)) then Some (None, s)
  else match s_accept_queue s with
  | _ :: _ => Some (pop_accept s)
  | [] =>
      if s_non_blocking s then Some (None, s)
      else
        let s := socket_steps others s in
        if s_accept_event s then Some (pop_accept s) else None
  end.

Definition HasPendingConnections (s : ProxySocket) : bool :=
  match s_accept_queue s with [] => false | _ => true end.

(** ** Closing *)

Definition Close (s : ProxySocket) (l : Link) : option (Z * ProxySocket * Link) :=
  let s := set_shutdown true true (set_state Closed s) in
  let s := set_rx (ring_clear (s_rx s)) true s in
  if bool_decide (s_protocol s = Tcp) && negb (GetPort (s_remote_addr s) =? 0) then
    r ← SendProxyDisconnect (GetAddr (s_local_addr s)) (GetPort (s_local_addr s))
          (GetAddr (s_remote_addr s)) (GetPort (s_remote_addr s)) Tcp l;
    Some (Errno_Success, s, r.2)
  else Some (Errno_Success, s, l).

(** ** Pending data *)

Definition HasPendingData (s : ProxySocket) : bool := negb (r_count (s_rx s) =? 0)%nat.

(** The loop over the ring: [n] entries from [idx]. *)
Fixpoint pending_size (slots : list ReceivedPacket) (idx n : nat) (total : Z) : Z :=
  match n with
  | O => total
  | S n => pending_size slots ((idx + 1) mod PROXY_SOCKET_MAX_QUEUE_SIZE)%nat n
             (u64 (total + rp_len (slots !!! idx)))
  end.

Definition GetPendingDataSize (s : ProxySocket) : Z :=
  pending_size (r_slots (s_rx s)) (r_head (s_rx s)) (r_count (s_rx s)) 0.

(** [timeout_ms = 0] waits without a limit; the event is left as it is. *)
Definition WaitForData (timeout_ms : Z) (others : list SocketStep) (s : ProxySocket)
    : option (bool * ProxySocket) :=
  if HasPendingData s then Some (true, s)
  else
    let s := socket_steps others s in
    if timeout_ms =? 0 then (if s_receive_event s then Some (true, s) else None)
    else Some (s_receive_event s, s).

(** ** The receive queue as a queue of datagrams *)

Abbreviation datagram := (SockAddrIn * list Z)%type.

Definition payload (p : ReceivedPacket) : datagram := (rp_from p, ztake (rp_len p) (rp_data p)).

Definition rx_queue (s : ProxySocket) : list datagram := payload <$> ring_list PROXY_SOCKET_MAX_QUEUE_SIZE (s_rx s).

Definition slot_ok (p : ReceivedPacket) : Prop :=
  zlen (rp_data p) = PROXY_SOCKET_MAX_PAYLOAD /\ 0 <= rp_len p <= PROXY_SOCKET_MAX_PAYLOAD.

(** The ring is a ring, its slots have the size of their array, and data
    waiting means the event is signalled, so that no receiver blocks on it. *)
Definition socket_ok (s : ProxySocket) : Prop :=
  ring_ok PROXY_SOCKET_MAX_QUEUE_SIZE (s_rx s) = true
  /\ Forall slot_ok (r_slots (s_rx s))
  /\ ((0 < r_count (s_rx s))%nat -> s_receive_event s = true).

(** The abstract queue: what a delivery and a receive do to a list. *)
Definition deliver (d : list Z) (from : SockAddrIn) (q : list datagram) : list datagram :=
  queue_push PROXY_SOCKET_MAX_QUEUE_SIZE (from, ztake PROXY_SOCKET_MAX_PAYLOAD d) q.

Definition take_datagram (len : Z) (peek : bool) (q : list datagram)
    : received * list datagram :=
  match q with
  | [] => (recv_error (- Errno_Again), [])
  | (from, d) :: q' =>
      ({| rv_value := Z.min len (zlen d); rv_bytes := ztake len d; rv_from := Some from |},
       if peek then q else q')
  end.

Inductive rx_op : Type :=
  | Deliver (data : list Z) (from : SockAddrIn)
  | Receive (len flags : Z).

Definition MSG_PEEK : Z := 0x2.
Definition MSG_DONTWAIT : Z := 0x80.

(** Deliveries and non-blocking receives on the socket, and on the queue. *)
Fixpoint rx_run (ops : list rx_op) (s : ProxySocket) : option (list received * ProxySocket) :=
  match ops with
  | [] => Some ([], s)
  | Deliver d from :: ops => rx_run ops (IncomingData (Some d) (zlen d) from s)
  | Receive len flags :: ops =>
      r ← RecvFrom false len (Z.lor flags MSG_DONTWAIT) [] s;
      rs ← rx_run ops r.2;
      Some (r.1 :: rs.1, rs.2)
  end.

Fixpoint queue_run (ops : list rx_op) (q : list datagram) : list received * list datagram :=
  match ops with
  | [] => ([], q)
  | Deliver d from :: ops => queue_run ops (deliver d from q)
  | Receive len flags :: ops =>
      let (r, q) := take_datagram len (negb (Z.land flags MSG_PEEK =? 0)) q in
      let (rs, q) := queue_run ops q in (r :: rs, q)
  end.

Definition rx_op_ok (o : rx_op) : bool :=
  match o with Deliver _ _ => true | Receive len _ => 0 <=? len end.

(** ** Lemmas *)

#[local] Opaque PROXY_SOCKET_MAX_QUEUE_SIZE.

Lemma slot_ok_inhabitant : slot_ok inhabitant.
Proof. split; [reflexivity|]. unfold PROXY_SOCKET_MAX_PAYLOAD. simpl. lia. Qed.

Lemma socket_ok_new type protocol : socket_ok (new_ProxySocket type protocol).
Proof.
  split_and!.
  - reflexivity.
  - apply Forall_replicate, slot_ok_inhabitant.
  - simpl. lia.
Qed.

Lemma slot_ok_lookup l i : Forall slot_ok l -> slot_ok (l !!! i).
Proof. apply lookup_total_Forall, slot_ok_inhabitant. Qed.

Lemma fill_slot_ok d from old :
  slot_ok old ->
  let new := fill_slot (Some d) (Z.min (zlen d) PROXY_SOCKET_MAX_PAYLOAD) from old in
  slot_ok new /\ payload new = (from, ztake PROXY_SOCKET_MAX_PAYLOAD d).
Proof.
  intros [Hold _]. pose proof (zlen_nonneg d). unfold PROXY_SOCKET_MAX_PAYLOAD in *.
  set (n := Z.min (zlen d) 2000). assert (Hn : 0 <= n <= 2000) by lia.
  assert (Ht : zlen (ztake n d) = n) by (apply zlen_ztake; lia).
  cbv zeta. unfold slot_ok, payload. unfold fill_slot, PROXY_SOCKET_MAX_PAYLOAD.
  cbn [rp_data rp_len rp_from]. rewrite u16_small by lia.
  assert (Htd : ztake 2000 d = ztake n d).
  { unfold n. destruct (Z.le_ge_cases (zlen d) 2000).
    - rewrite Z.min_l by lia. by rewrite !ztake_all by lia.
    - by rewrite Z.min_r by lia. }
  rewrite Htd. destruct (Z.ltb_spec 0 n).
  - split_and!; [by rewrite zlen_write_at by lia|lia|lia|].
    rewrite ztake_write_at_0; [done|lia|lia].
  - assert (n = 0) as -> by lia. split_and!; [lia|lia|lia|done].
Qed.

Lemma fmap_queue_push {A B} (f : A -> B) N x q :
  f <$> queue_push N x q = queue_push N (f x) (f <$> q).
Proof.
  unfold queue_push. rewrite fmap_app, length_fmap. case_decide; [|done].
  by rewrite fmap_drop.
Qed.

Lemma IncomingData_ok d from s :
  socket_ok s ->
  socket_ok (IncomingData (Some d) (zlen d) from s)
  /\ rx_queue (IncomingData (Some d) (zlen d) from s) = deliver d from (rx_queue s).
Proof.
  intros (Hr & Hs & _). unfold IncomingData.
  set (fill := fill_slot _ _ _).
  destruct (ring_push_refines PROXY_SOCKET_MAX_QUEUE_SIZE fill _ Hr) as (old & Hok & Hq & ->).
  split.
  - split_and!; [exact Hok| |done]. apply ring_push_Forall; [apply slot_ok_inhabitant| |done].
    intros old Ho. by apply fill_slot_ok.
  - unfold rx_queue, deliver. cbn [s_rx set_rx]. rewrite Hq, fmap_queue_push. f_equal.
    by apply fill_slot_ok, slot_ok_lookup.
Qed.

Lemma rx_queue_nil s : rx_queue s = [] <-> r_count (s_rx s) = 0%nat.
Proof.
  unfold rx_queue. rewrite <- length_zero_iff_nil, length_fmap, length_ring_list. done.
Qed.

(** [consume_front] on a queue that is not empty. *)
Lemma consume_front_ok len peek s from d q :
  socket_ok s -> 0 <= len -> rx_queue s = (from, d) :: q ->
  let (r, s') := consume_front len peek s in
  r = {| rv_value := Z.min len (zlen d); rv_bytes := ztake len d; rv_from := Some from |}
  /\ socket_ok s' /\ rx_queue s' = (if peek then rx_queue s else q).
Proof.
  intros (Hr & Hs & He) Hlen Hq. unfold consume_front.
  assert (Hc : (0 < r_count (s_rx s))%nat).
  { destruct (decide (r_count (s_rx s) = 0%nat)) as [E|]; [|lia].
    apply rx_queue_nil in E. congruence. }
  pose proof (ring_front_list _ _ Hr Hc) as Hf.
  set (slot := ring_front (s_rx s)) in *.
  assert (Hslot : slot_ok slot) by by apply slot_ok_lookup.
  assert (Hp : payload slot = (from, d) /\ payload <$> drop 1 (ring_list
    PROXY_SOCKET_MAX_QUEUE_SIZE (s_rx s)) = q).
  { unfold rx_queue in Hq. destruct (ring_list _ (s_rx s)) as [|x l]; [done|].
    assert (x = slot) as Hx by (simpl in Hf; congruence). rewrite fmap_cons, Hx in Hq.
    change (drop 1 (x :: l)) with l. split; [|by injection Hq].
    by apply (f_equal head) in Hq; simplify_eq/=. }
  destruct Hp as [Hp Htl]. destruct Hslot as [Hsl Hsn].
  unfold payload in Hp. injection Hp as Hfrom Hd. unfold PROXY_SOCKET_MAX_PAYLOAD in *.
  assert (Hzd : zlen d = rp_len slot) by (rewrite <- Hd, zlen_ztake; lia).
  assert (Hbytes : ztake (Z.min len (rp_len slot)) (rp_data slot) = ztake len d).
  { rewrite <- Hd. unfold ztake. rewrite take_take. f_equal. lia. }
  cbv zeta. rewrite Hbytes, Hfrom, Hzd, s32_small by lia.
  destruct peek.
  - split_and!; [done| |done]. split_and!; [done|done|].
    cbn [set_rx s_rx s_receive_event]. intros _. rewrite decide_False by lia. by apply He.
  - split_and!; [done| |].
    + split_and!; cbn [set_rx s_rx s_receive_event].
      * by apply ring_drop_ok.
      * done.
      * intros Hpos. rewrite decide_False by (simpl in Hpos |- *; lia). by apply He.
    + unfold rx_queue. cbn [set_rx s_rx]. by rewrite ring_drop_list.
Qed.

(** A receive on an open socket, in terms of the queue. *)
Lemma RecvFrom_queue len flags others s :
  socket_ok s -> 0 <= len -> s_shutdown_read s = false -> s_state s <> Closed ->
  rx_queue s <> [] ->
  exists r s', RecvFrom false len flags others s = Some (r, s')
    /\ take_datagram len (negb (Z.land flags MSG_PEEK =? 0)) (rx_queue s) = (r, rx_queue s')
    /\ socket_ok s' /\ s_shutdown_read s' = false /\ s_state s' = s_state s.
Proof.
  intros Hs Hlen Hr Hst Hne. unfold RecvFrom. rewrite Hr, bool_decide_eq_false_2 by done.
  cbn [andb]. rewrite decide_False by (by rewrite <- rx_queue_nil).
  destruct (rx_queue s) as [|[from d] q] eqn:Hq; [done|].
  pose proof (consume_front_ok len (negb (Z.land flags MSG_PEEK =? 0)) s from d q Hs Hlen Hq) as Hc.
  fold MSG_PEEK.
  assert (Hsame : s_shutdown_read (consume_front len (negb (Z.land flags MSG_PEEK =? 0)) s).2
      = s_shutdown_read s
    /\ s_state (consume_front len (negb (Z.land flags MSG_PEEK =? 0)) s).2 = s_state s) by done.
  destruct (consume_front _ _ s) as [r s']. destruct Hc as (-> & Hok & Hq').
  destruct Hsame as [Hs1 Hs2]. eexists _, s'. split; [reflexivity|].
  cbn [snd] in *. rewrite Hs1, Hs2, Hq'. split_and!; [|done|done|done].
  simpl. rewrite Hq. by destruct (negb _).
Qed.

Lemma land_lor_dontwait flags : negb (Z.land (Z.lor flags MSG_DONTWAIT) MSG_DONTWAIT =? 0) = true.
Proof.
  apply negb_true_iff, Z.eqb_neq. intros E.
  assert (Hb : Z.testbit (Z.land (Z.lor flags MSG_DONTWAIT) MSG_DONTWAIT) 7 = true)
    by (rewrite Z.land_spec, Z.lor_spec; apply andb_true_iff; split; [apply orb_true_r|done]).
  by rewrite E in Hb.
Qed.

Lemma land_lor_peek flags : Z.land (Z.lor flags MSG_DONTWAIT) MSG_PEEK = Z.land flags MSG_PEEK.
Proof. rewrite Z.land_lor_distr_l. change (Z.land MSG_DONTWAIT MSG_PEEK) with 0. apply Z.lor_0_r. Qed.

Lemma RecvFrom_empty len flags others s :
  s_shutdown_read s = false -> s_state s <> Closed -> rx_queue s = [] ->
  Z.land flags MSG_DONTWAIT <> 0 \/ s_non_blocking s = true ->
  RecvFrom false len flags others s = Some (recv_error (- Errno_Again), s).
Proof.
  intros Hr Hst Hq Hd. unfold RecvFrom. rewrite Hr, bool_decide_eq_false_2 by done.
  cbn [andb]. apply rx_queue_nil in Hq. rewrite decide_True by done. fold MSG_DONTWAIT.
  destruct Hd as [Hd%Z.eqb_neq| ->]; [by rewrite Hd|]. by rewrite orb_true_r.
Qed.

(** The fields a step of another thread leaves alone. *)
Lemma socket_steps_frame others s :
  s_state (socket_steps others s) = s_state s
  /\ s_type (socket_steps others s) = s_type s
  /\ s_non_blocking (socket_steps others s) = s_non_blocking s
  /\ s_protocol (socket_steps others s) = s_protocol s
  /\ s_local_addr (socket_steps others s) = s_local_addr s
  /\ s_remote_addr (socket_steps others s) = s_remote_addr s.
Proof.
  revert s. induction others as [|st others IH]; intros s; [done|].
  change (socket_steps (st :: others) s) with (socket_steps others (socket_step st s)).
  destruct (IH (socket_step st s)) as (-> & -> & -> & -> & -> & ->).
  destruct st as [| |r|[]]; simpl; try done. by case_bool_decide.
Qed.

Definition response_of (st : SocketStep) : option ProxyConnectResponse :=
  match st with StepConnectResponse r => Some r | _ => None end.

(** The responses that arrive decide the connect event and the stored response. *)
Lemma socket_steps_response others s :
  s_connect_event (socket_steps others s)
    = (s_connect_event s || negb (bool_decide (omap response_of others = [])))
  /\ (s_connect_event s = s_connect_response_received s ->
      s_connect_response_received (socket_steps others s)
      = s_connect_event (socket_steps others s))
  /\ s_connect_response (socket_steps others s)
     = default (s_connect_response s) (last (omap response_of others)).
Proof.
  revert s. induction others as [|st others IH]; intros s.
  { simpl. rewrite orb_false_r. split_and!; done. }
  change (socket_steps (st :: others) s) with (socket_steps others (socket_step st s)).
  destruct (IH (socket_step st s)) as (-> & Hr & ->). destruct st as [| r|c|[]]; simpl.
  3: cbn [socket_step] in Hr; destruct (bool_decide (s_state s = Listening)).
  1, 3-8: exact (conj eq_refl (conj Hr eq_refl)).
  rewrite orb_true_r. split_and!; [done| |].
  - intros _. by apply Hr.
  - fold (omap response_of others). rewrite last_cons.
    by destruct (last (omap response_of others)).
Qed.

Lemma socket_steps_app a b s : socket_steps (a ++ b) s = socket_steps b (socket_steps a s).
Proof. apply foldl_app. Qed.

Lemma socket_step_ok st s : socket_ok s -> socket_ok (socket_step st s).
Proof.
  intros Hs. destruct st as [d from|r|c|how]; simpl.
  - by apply IncomingData_ok.
  - done.
  - by case_bool_decide.
  - destruct Hs as (? & ? & ?). by destruct how.
Qed.

Lemma socket_steps_ok others s : socket_ok s -> socket_ok (socket_steps others s).
Proof.
  revert s. induction others as [|st others IH]; intros s Hs; [done|].
  apply (IH (socket_step st s)). by apply socket_step_ok.
Qed.

(** What wakes a receiver: data, or a shutdown. *)
Definition wakes (st : SocketStep) : bool :=
  match st with
  | StepData _ _ => true
  | StepShutdown (OtherHow _) => false
  | StepShutdown _ => true
  | _ => false
  end.

Lemma socket_steps_event others s :
  s_receive_event (socket_steps others s) = s_receive_event s || existsb wakes others.
Proof.
  revert s. induction others as [|st others IH]; intros s; [by rewrite orb_false_r|].
  change (socket_steps (st :: others) s) with (socket_steps others (socket_step st s)).
  rewrite IH. cbn [existsb]. rewrite orb_assoc. f_equal.
  destruct st as [| |r|[]]; simpl; rewrite ?orb_true_r, ?orb_false_r; try done.
  by case_bool_decide.
Qed.

Definition has_data (st : SocketStep) : bool :=
  match st with StepData _ _ => true | _ => false end.

Lemma socket_steps_queue others s :
  socket_ok s -> rx_queue s = [] ->
  rx_queue (socket_steps others s) = [] <-> existsb has_data others = false.
Proof.
  enough (H : forall s, socket_ok s ->
    rx_queue (socket_steps others s) = [] <->
    rx_queue s = [] /\ existsb has_data others = false)
    by (intros Hs Hq; rewrite H by done; naive_solver).
  clear. induction others as [|st others IH]; intros s Hs; [naive_solver|].
  change (socket_steps (st :: others) s) with (socket_steps others (socket_step st s)).
  rewrite IH by by apply socket_step_ok. cbn [existsb]. rewrite orb_false_iff.
  destruct st as [d from|r|c|how]; cbn [socket_step has_data].
  - rewrite (proj2 (IncomingData_ok d from s Hs)). unfold deliver, queue_push.
    split; [intros [E _]; by apply app_nil in E as [_ ?]|naive_solver].
  - change (rx_queue (HandleConnectResponse r s)) with (rx_queue s). naive_solver.
  - case_bool_decide; [change (rx_queue (queue_connection c s)) with (rx_queue s)|]; naive_solver.
  - assert (rx_queue (Shutdown how s).2 = rx_queue s) as -> by by destruct how. naive_solver.
Qed.

(** ** Properties *)

(** C27: the receive ring with its in-place slots, indices and events implements
    a queue of at most 64 datagrams that drops the oldest when full: for any
    sequence of deliveries and non-blocking receives (with or without
    [MSG_PEEK]) every receive returns, with the value, the bytes and the source
    address the queue of datagrams gives, payloads cut at 2000 bytes, and
    [EAGAIN] exactly when the queue is empty. *)
Theorem rx_ring_refines_queue ops s :
  socket_ok s -> s_shutdown_read s = false -> s_state s <> Closed ->
  forallb rx_op_ok ops = true ->
  exists rs s', rx_run ops s = Some (rs, s')
    /\ queue_run ops (rx_queue s) = (rs, rx_queue s')
    /\ socket_ok s'.
Proof.
  revert s. induction ops as [|[d from|len flags] ops IH]; intros s Hs Hr Hst Hops.
  - by exists [], s.
  - destruct (IncomingData_ok d from s Hs) as [Hs' Hq].
    destruct (IH (IncomingData (Some d) (zlen d) from s)) as (rs & s' & E & Eq & Hok); try done.
    exists rs, s'. split_and!; [done| |done]. simpl. by rewrite <- Hq.
  - cbn [forallb rx_op_ok] in Hops. zbool. cbn [rx_run queue_run].
    rewrite <- (land_lor_peek flags).
    destruct (decide (rx_queue s = [])) as [Hq|Hq].
    + rewrite RecvFrom_empty; try done.
      2: { left. pose proof (land_lor_dontwait flags). by zbool. }
      cbn [mbind option_bind fst snd].
      destruct (IH s) as (rs & s' & -> & Eq & Hok); try done. rewrite Hq in Eq |- *.
      cbn [take_datagram mbind option_bind fst snd]. rewrite Eq. eauto.
    + destruct (RecvFrom_queue len (Z.lor flags MSG_DONTWAIT) [] s) as
        (r & s1 & -> & Ht & Hs1 & Hr1 & Hst1); try done.
      cbn [mbind option_bind fst snd]. rewrite Ht.
      destruct (IH s1) as (rs & s' & -> & Eq & Hok); try done; [congruence|].
      rewrite Eq. eauto.
Qed.

Lemma rx_ring_refines_queue_witness :
  exists rs s', rx_run [Deliver [1; 2; 3] (inet_addr 5 6); Receive 2 2; Receive 10 0; Receive 10 0]
      (new_ProxySocket Dgram Udp) = Some (rs, s')
    /\ map rv_bytes rs = [[1; 2]; [1; 2; 3]; []] /\ map rv_value rs = [2; 3; -11].
Proof.
  destruct (rx_ring_refines_queue
    [Deliver [1; 2; 3] (inet_addr 5 6); Receive 2 2; Receive 10 0; Receive 10 0]
    (new_ProxySocket Dgram Udp)) as (rs & s' & E & Eq & _);
    [apply socket_ok_new|reflexivity|discriminate|reflexivity|].
  exists rs, s'. split; [exact E|].
  apply (f_equal fst) in Eq. vm_compute in Eq. subst rs. split; reflexivity.
Defined.

(** a blocking receive on an empty queue returns exactly when its event is
    signalled already or, while it waits, data arrives or the socket is shut
    down; with data it returns what the queue gives.  Woken without data it
    answers [EAGAIN]: a receiver woken by a shutdown of reads is not told the
    end of file a later call reports, and after a shutdown of writes alone,
    which leaves the event signalled, a blocking receive no longer blocks. *)
Theorem blocking_receive len flags others s :
  socket_ok s -> 0 <= len -> s_shutdown_read s = false -> s_state s <> Closed ->
  s_non_blocking s = false -> Z.land flags MSG_DONTWAIT = 0 ->
  rx_queue s = [] ->
  match RecvFrom false len flags others s with
  | None => s_receive_event s || existsb wakes others = false
  | Some (r, s') =>
      s_receive_event s || existsb wakes others = true
      /\ (r, rx_queue s') =
         take_datagram len (negb (Z.land flags MSG_PEEK =? 0)) (rx_queue (socket_steps others s))
      /\ (existsb has_data others = false -> rv_value r = - Errno_Again)
  end.
Proof.
  intros Hs Hlen Hr Hst Hnb Hf Hq. unfold RecvFrom.
  rewrite Hr, bool_decide_eq_false_2 by done. cbn [andb].
  rewrite decide_True by by apply rx_queue_nil. fold MSG_DONTWAIT MSG_PEEK.
  rewrite Hf, Hnb. cbn [negb orb Z.eqb]. rewrite socket_steps_event.
  pose proof (socket_steps_ok others s Hs) as Hs1.
  pose proof (socket_steps_queue others s Hs Hq) as Hqs.
  set (s1 := socket_steps others s) in *. clearbody s1.
  destruct (s_receive_event s || existsb wakes others) eqn:Ew; [|done].
  destruct (decide (0 < r_count (s_rx s1))%nat) as [Hc|Hc].
  - assert (Hne : rx_queue s1 <> []) by (rewrite rx_queue_nil; lia).
    destruct (rx_queue s1) as [|[from d] q] eqn:Eq; [done|].
    pose proof (consume_front_ok len (negb (Z.land flags MSG_PEEK =? 0)) s1 from d q Hs1 Hlen Eq)
      as Hcf.
    destruct (consume_front _ _ s1) as [r s']. destruct Hcf as (-> & _ & ->).
    split_and!; [done| |].
    + rewrite Eq. simpl. by destruct (negb _).
    + intros Hd%Hqs. done.
  - assert (Hq1 : rx_queue s1 = []) by (apply rx_queue_nil; lia).
    rewrite Hq1. split_and!; done.
Qed.

(** A receive on a socket whose writes were shut down, nobody sending. *)
Lemma blocking_receive_witness :
  match RecvFrom false 16 0 [] (Shutdown Write (new_ProxySocket Dgram Udp)).2 with
  | None => False
  | Some (r, _) => rv_value r = -11
  end.
Proof.
  set (s := (Shutdown Write (new_ProxySocket Dgram Udp)).2).
  assert (Hs : socket_ok s) by exact (socket_step_ok (StepShutdown Write) _ (socket_ok_new Dgram Udp)).
  pose proof (blocking_receive 16 0 [] s Hs ltac:(lia) eq_refl ltac:(discriminate) eq_refl
    eq_refl eq_refl) as H.
  destruct (RecvFrom _ _ _ _ _) as [[r s']|]; [|discriminate].
  apply H. reflexivity.
Defined.

(** [SendTo] reports the byte count exactly when the socket is bound and
    writable, the buffer is there, the payload fits and the server callback
    accepts it; the callback is then called once, with the socket's own address
    as source and exactly those bytes.  Every other call is refused with the
    errno of the first failed check and calls nobody, but for a failed send
    ([ENETUNREACH]). *)
Theorem send_to_spec data len flags dest s l :
  m_mutex l = false -> 0 <= len ->
  let msg := ProxyData (GetAddr (s_local_addr s)) (GetPort (s_local_addr s))
               (GetAddr dest) (GetPort dest) (s_protocol s) (ztake len (default [] data)) in
  let refused :=
    if s_shutdown_write s then Some Errno_Inval
    else match s_state s with
    | Closed => Some Errno_BadF
    | Created => Some Errno_DestAddrReq
    | _ => if bool_decide (data = None) && (0 <? len) then Some Errno_Fault
           else if PROXY_SOCKET_MAX_PAYLOAD <? len then Some Errno_MsgSize else None
    end in
  exists v l', SendTo data len flags dest s l = Some (v, l') /\ m_mutex l' = false
    /\ match refused, m_send_callback l with
       | Some errno, _ => v = - errno /\ l' = l
       | None, None => v = - Errno_NetUnreach /\ l' = l
       | None, Some callback =>
           v = (if callback msg then len else - Errno_NetUnreach)
           /\ m_called l' = m_called l ++ [(msg, callback msg)]
       end.
Proof.
  intros Hm Hlen msg refused. unfold SendTo. fold msg. subst refused.
  assert (Hpre : forall e, exists v l', Some (- e, l) = Some (v, l') /\ m_mutex l' = false
    /\ v = - e /\ l' = l) by (intros e; by exists (- e), l).
  destruct (s_shutdown_write s); [apply Hpre|].
  destruct (s_state s) eqn:E; rewrite ?bool_decide_eq_true_2, ?bool_decide_eq_false_2 by done;
    try apply Hpre.
  all: destruct (bool_decide (data = None) && (0 <? len)); [apply Hpre|].
  all: destruct (Z.ltb_spec PROXY_SOCKET_MAX_PAYLOAD len) as [Hp|Hp]; [apply Hpre|].
  all: unfold PROXY_SOCKET_MAX_PAYLOAD in Hp; rewrite SendProxyData_free by done; fold msg;
    unfold invoke; destruct (m_send_callback l) as [cb|]; cbn [mbind option_bind];
    [|eexists _, _; split_and!; done].
  all: destruct (cb msg); cbn [negb]; rewrite ?s32_small by lia; eexists _, _; split_and!; done.
Qed.

Lemma send_to_spec_witness :
  exists v l', SendTo (Some [1; 2; 3]) 3 0 (inet_addr 1 2) (new_ProxySocket Dgram Udp) new_Link
    = Some (v, l') /\ v = -89.
Proof.
  destruct (send_to_spec (Some [1; 2; 3]) 3 0 (inet_addr 1 2) (new_ProxySocket Dgram Udp) new_Link
    eq_refl ltac:(lia)) as (v & l' & E & _ & Hv & _).
  exists v, l'. split; [exact E|exact Hv].
Defined.

(** a blocking TCP connect, once its request went out, always returns: with
    success when the last response that arrived during the wait carries the
    protocol [Unspecified], [ECONNREFUSED] when it carries another one and
    [ETIMEDOUT] when none arrived; the socket is connected exactly on success. *)
Theorem blocking_connect addr others s l callback :
  s_state s <> Closed -> sin_family addr = AddressFamily_Inet -> s_type s = Stream ->
  s_non_blocking s = false -> m_mutex l = false ->
  m_proxy_connect_callback l = Some callback ->
  callback (ProxyConnect (GetAddr (s_local_addr s)) (GetPort (s_local_addr s))
              (GetAddr addr) (GetPort addr) (s_protocol s)) = true ->
  exists v s' l', Connect addr others s l = Some (v, s', l')
    /\ v = match last (omap response_of others) with
           | None => Errno_TimedOut
           | Some r => if pi_protocol (pcr_info r) =? ProtocolType_Unspecified
                       then Errno_Success else Errno_ConnRefused
           end
    /\ s_state s' = (if v =? Errno_Success then Connected else Bound)
    /\ s_remote_addr s' = addr /\ s_local_addr s' = s_local_addr s.
Proof.
  intros Hst Hf Hty Hnb Hm Hcb Hall. unfold Connect.
  rewrite bool_decide_eq_false_2, Hf by done. cbn [Z.eqb negb].
  cbn [s_type set_addrs]. rewrite Hty, bool_decide_eq_true_2 by done.
  rewrite SendProxyConnect_free by done. unfold invoke. rewrite Hcb.
  cbn [set_connect set_state set_addrs s_local_addr s_protocol]. rewrite Hall.
  cbn [mbind option_bind negb set_connect set_state set_addrs s_non_blocking]. rewrite Hnb.
  cbn [negb].
  set (s0 := set_connect _ _ _ _).
  destruct (socket_steps_response others s0) as (He & Hrr & Hresp).
  destruct (socket_steps_frame others s0) as (_ & _ & _ & _ & Hl & Hrem).
  specialize (Hrr eq_refl). rewrite Hrr, He, Hresp.
  assert (Hlast : bool_decide (omap response_of others = [])
    = bool_decide (last (omap response_of others) = None)).
  { apply bool_decide_ext. by rewrite last_None. }
  rewrite Hlast. cbn [s0 set_connect s_connect_event orb].
  destruct (last (omap response_of others)) as [r|]; cbn [negb orb default];
    rewrite ?bool_decide_eq_true_2, ?bool_decide_eq_false_2 by done; cbn [negb orb].
  - unfold default, id. destruct (pi_protocol (pcr_info r) =? ProtocolType_Unspecified);
      cbn [negb]; eexists _, _, _; split_and!; done.
  - eexists _, _, _. split_and!; done.
Qed.

(** A link whose callbacks accept everything. *)
Definition accepting_link : Link :=
  set_callbacks (Some (fun _ => true)) (Some (fun _ => true)) (Some (fun _ => true))
    (Some (fun _ => true)) new_Link.

Definition response_with (protocol : Z) : ProxyConnectResponse :=
  {| pcr_info := {| pi_source_ipv4 := 0; pi_source_port := 0; pi_dest_ipv4 := 0;
                    pi_dest_port := 0; pi_protocol := protocol |} |}.

Lemma blocking_connect_witness :
  exists v s' l', Connect (inet_addr 1 2) [StepConnectResponse (response_with 0)]
      (new_ProxySocket Stream Tcp) accepting_link = Some (v, s', l')
    /\ v = 0 /\ s_state s' = Connected.
Proof.
  destruct (blocking_connect (inet_addr 1 2) [StepConnectResponse (response_with 0)]
    (new_ProxySocket Stream Tcp) accepting_link (fun _ => true)) as (v & s' & l' & E & Hv & Hs & _);
    try reflexivity; [discriminate|].
  exists v, s', l'. cbn in Hv. subst v. split_and!; [exact E|reflexivity|exact Hs].
Defined.

(** a non-blocking TCP connect never completes: it answers [EINPROGRESS],
    and whatever happens to the socket afterwards (the positive response
    included) it stays [Connecting], so every [Send], [Recv] and [GetPeerName]
    answers [ENOTCONN]. *)
Theorem nonblocking_connect_never_completes addr waiting later data len flags s l v s1 l1 :
  s_type s = Stream -> s_non_blocking s = true ->
  Connect addr waiting s l = Some (v, s1, l1) -> v = Errno_InProgress ->
  let s2 := socket_steps later s1 in
  s_state s2 = Connecting
  /\ Send data len flags s2 l1 = Some (- Errno_NotConn, l1)
  /\ Recv false len flags [] s2 = Some (recv_error (- Errno_NotConn), s2)
  /\ GetPeerName false s2 = (Errno_NotConn, None).
Proof.
  intros Hty Hnb Hc Hv s2.
  assert (Hst : s_state s1 = Connecting).
  { unfold Connect in Hc. destruct (bool_decide (s_state s = Closed)); [injection Hc as <- <- <-; discriminate|].
    destruct (negb (sin_family addr =? _)); [injection Hc as <- <- <-; discriminate|].
    cbn [s_type set_addrs] in Hc. rewrite Hty, bool_decide_eq_true_2 in Hc by done.
    destruct (SendProxyConnect _ _ _ _ _ _) as [[sent l0]|]; [|done].
    cbn [mbind option_bind set_connect set_state set_addrs s_non_blocking] in Hc.
    destruct sent; cbn [negb] in Hc; [|injection Hc as <- <- <-; discriminate].
    rewrite Hnb in Hc. by injection Hc as <- <- <-. }
  assert (Hs2 : s_state s2 = Connecting)
    by (unfold s2; by rewrite (proj1 (socket_steps_frame later s1))).
  split; [done|]. unfold Send, Recv, GetPeerName. rewrite Hs2. split_and!; reflexivity.
Qed.

Lemma nonblocking_connect_never_completes_witness :
  exists s1 l1, Connect (inet_addr 1 2) [] (SetNonBlocking true (new_ProxySocket Stream Tcp))
      accepting_link = Some (115, s1, l1)
    /\ s_state (socket_steps [StepConnectResponse (response_with 0)] s1) = Connecting.
Proof.
  eexists _, _. split; [reflexivity|].
  eapply (nonblocking_connect_never_completes (inet_addr 1 2) []
    [StepConnectResponse (response_with 0)] None 0 0
    (SetNonBlocking true (new_ProxySocket Stream Tcp)) accepting_link 115); reflexivity.
Defined.
