(* ===== verification/ProxySocketManager.v ===== *)
(** * The proxy socket registry ([bsd/proxy_socket_manager.{hpp,cpp}])

    The file descriptors of the proxied sockets, the port pool, the ring of
    packets that arrived before their socket was bound, and the routing of
    incoming traffic.  A [ProxySocket*] handed out is the descriptor it is
    registered under; every registered pointer is non-null, as the code keeps
    it.  The manager's mutex is part of [Link]: a method that locks it twice
    in one thread does not return ([None]).

    [std::unordered_map] iterates in an order the language leaves open, so the
    loops run over [iter m_sockets], and every theorem holds for any [iter]
    that enumerates the map. *)

From stdpp Require Import base numbers list gmap fin_maps.
From Stdlib Require Import ZArith Lia Bool.
From S2P Require Import Prelude Layout Types BsdTypes Ring PortPool ProxyLink ProxySocket.

Definition MaxPendingPackets : nat := 32.
Definition PendingPayloadMax : Z := 1400.
Definition MaxPendingPacketAgeMs : Z := 500.

Record PendingPacket : Type := {
  pk_source_ip : Z;
  pk_source_port : Z;
  pk_dest_ip : Z;
  pk_dest_port : Z;
  pk_len : Z;
  pk_protocol : ProtocolType;
  pk_enqueue_time_ms : Z;
  pk_data : list Z
}.

#[export] Instance PendingPacket_inhabited : Inhabited PendingPacket :=
  populate {| pk_source_ip := 0; pk_source_port := 0; pk_dest_ip := 0; pk_dest_port := 0;
              pk_len := 0; pk_protocol := Unspecified; pk_enqueue_time_ms := 0;
              pk_data := replicate (Z.to_nat PendingPayloadMax) 0 |}.

Record ProxySocketManager : Type := {
  m_sockets : gmap Z ProxySocket;
  m_port_pool : EphemeralPortPool;
  m_local_ip : Z;
  m_link : Link;
  m_pending : ring PendingPacket
}.

Definition new_ProxySocketManager : ProxySocketManager := {|
  m_sockets := ∅; m_port_pool := new_EphemeralPortPool; m_local_ip := 0; m_link := new_Link;
  m_pending := Ring (replicate MaxPendingPackets inhabitant) 0 0 0
|}.

Definition set_sockets (socks : gmap Z ProxySocket) (m : ProxySocketManager) : ProxySocketManager :=
  {| m_sockets := socks; m_port_pool := m_port_pool m; m_local_ip := m_local_ip m;
     m_link := m_link m; m_pending := m_pending m |}.
Definition set_port_pool (p : EphemeralPortPool) (m : ProxySocketManager) : ProxySocketManager :=
  {| m_sockets := m_sockets m; m_port_pool := p; m_local_ip := m_local_ip m;
     m_link := m_link m; m_pending := m_pending m |}.
Definition set_local_ip (ip : Z) (m : ProxySocketManager) : ProxySocketManager :=
  {| m_sockets := m_sockets m; m_port_pool := m_port_pool m; m_local_ip := ip;
     m_link := m_link m; m_pending := m_pending m |}.
Definition set_link (l : Link) (m : ProxySocketManager) : ProxySocketManager :=
  {| m_sockets := m_sockets m; m_port_pool := m_port_pool m; m_local_ip := m_local_ip m;
     m_link := l; m_pending := m_pending m |}.
Definition set_pending (r : ring PendingPacket) (m : ProxySocketManager) : ProxySocketManager :=
  {| m_sockets := m_sockets m; m_port_pool := m_port_pool m; m_local_ip := m_local_ip m;
     m_link := m_link m; m_pending := r |}.

(** [std::scoped_lock lock(m_mutex)] around a method body. *)
Definition with_lock {A} (body : ProxySocketManager -> option (A * ProxySocketManager))
    (m : ProxySocketManager) : option (A * ProxySocketManager) :=
  l ← lock (m_link m);
  r ← body (set_link l m);
  Some (r.1, set_link (unlock (m_link r.2)) r.2).

(** ** Destination matching *)

Definition IsBroadcastDestinationIp (ip : Z) : bool :=
  (Z.land ip 0x000000FF =? 0x000000FF) || (Z.land ip 0x0000FFFF =? 0x0000FFFF).

Definition same_subnet (ip ip' : Z) : bool := Z.land ip 0xFFFF0000 =? Z.land ip' 0xFFFF0000.

Definition PacketMatchesSocketDestination (socket : ProxySocket) (dest_ip : Z) : bool :=
  let local_ip := GetAddr (s_local_addr socket) in
  if (local_ip =? 0) || (local_ip =? dest_ip) then true
  else if IsBroadcastDestinationIp dest_ip then same_subnet local_ip dest_ip
  else false.

Section manager.
Context (iter : gmap Z ProxySocket -> list (Z * ProxySocket)).

(** The loop of [FindSocketByDestination]. *)
Fixpoint find_socket (socks : list (Z * ProxySocket)) (dest_ip dest_port : Z)
    (protocol : ProtocolType) : option Z :=
  match socks with
  | [] => None
  | (fd, socket) :: socks =>
      let local_ip := GetAddr (s_local_addr socket) in
      if negb (bool_decide (s_protocol socket = protocol)) then
        find_socket socks dest_ip dest_port protocol
      else if negb (GetPort (s_local_addr socket) =? dest_port) then
        find_socket socks dest_ip dest_port protocol
      else if local_ip =? 0 then Some fd
      else if local_ip =? dest_ip then Some fd
      else if IsBroadcastDestinationIp dest_ip && same_subnet local_ip dest_ip then Some fd
      else find_socket socks dest_ip dest_port protocol
  end.

Definition FindSocketByDestination (dest_ip dest_port : Z) (protocol : ProtocolType)
    (m : ProxySocketManager) : option Z :=
  find_socket (iter (m_sockets m)) dest_ip dest_port protocol.

Definition is_multicast (dest_ip : Z) : bool := Z.land dest_ip 0xF0000000 =? 0xE0000000.

Definition is_broadcast (dest_ip : Z) : bool :=
  (dest_ip =? 0xFFFFFFFF) || (Z.land dest_ip 0x000000FF =? 0x000000FF)
  || (Z.land dest_ip 0x0000FFFF =? 0x0000FFFF) || is_multicast dest_ip.

(** The unicast loop: [exact_match] breaks out, the first wildcard is kept. *)
Fixpoint find_unicast (socks : list (Z * ProxySocket)) (dest_ip dest_port : Z)
    (protocol : ProtocolType) (wildcard_match : option Z) : option Z * option Z :=
  match socks with
  | [] => (None, wildcard_match)
  | (fd, socket) :: socks =>
      if negb (bool_decide (s_protocol socket = protocol)) then
        find_unicast socks dest_ip dest_port protocol wildcard_match
      else if negb (GetPort (s_local_addr socket) =? dest_port) then
        find_unicast socks dest_ip dest_port protocol wildcard_match
      else
        let local_ip := GetAddr (s_local_addr socket) in
        if local_ip =? dest_ip then (Some fd, wildcard_match)
        else if local_ip =? 0 then
          find_unicast socks dest_ip dest_port protocol
            (match wildcard_match with None => Some fd | Some _ => wildcard_match end)
        else find_unicast socks dest_ip dest_port protocol wildcard_match
  end.

(** The broadcast loop: [room] more entries fit into [out_sockets]. *)
Fixpoint find_broadcast (socks : list (Z * ProxySocket)) (dest_ip dest_port : Z)
    (protocol : ProtocolType) (room : nat) : list Z :=
  match socks with
  | [] => []
  | (fd, socket) :: socks =>
      match room with
      | O => []
      | S room' =>
          if negb (bool_decide (s_protocol socket = protocol)) then
            find_broadcast socks dest_ip dest_port protocol room
          else if negb (GetPort (s_local_addr socket) =? dest_port) then
            find_broadcast socks dest_ip dest_port protocol room
          else
            let local_ip := GetAddr (s_local_addr socket) in
            if local_ip =? 0 then fd :: find_broadcast socks dest_ip dest_port protocol room'
            else if (dest_ip =? 0xFFFFFFFF) || is_multicast dest_ip then
              fd :: find_broadcast socks dest_ip dest_port protocol room'
            else if local_ip =? dest_ip then
              fd :: find_broadcast socks dest_ip dest_port protocol room'
            else if same_subnet local_ip dest_ip then
              fd :: find_broadcast socks dest_ip dest_port protocol room'
            else find_broadcast socks dest_ip dest_port protocol room
      end
  end.

Definition FindAllSocketsByDestination (dest_ip dest_port : Z) (protocol : ProtocolType)
    (max_sockets : nat) (m : ProxySocketManager) : list Z :=
  match max_sockets with
  | O => []
  | _ =>
      if negb (is_broadcast dest_ip) then
        match find_unicast (iter (m_sockets m)) dest_ip dest_port protocol None with
        | (Some exact_match, _) => [exact_match]
        | (None, Some wildcard_match) => [wildcard_match]
        | (None, None) => []
        end
      else find_broadcast (iter (m_sockets m)) dest_ip dest_port protocol max_sockets
  end.

(** ** Socket management *)

Definition CreateProxySocket (fd : Z) (type : SocketType) (protocol : ProtocolType)
    : ProxySocketManager -> option (option Z * ProxySocketManager) :=
  with_lock (fun m =>
    match m_sockets m !! fd with
    | Some _ => Some (Some fd, m)
    | None =>
        if decide (MAX_PROXY_SOCKETS <= size (m_sockets m))%nat then Some (None, m)
        else Some (Some fd, set_sockets (<[fd := new_ProxySocket type protocol]> (m_sockets m)) m)
    end).

Definition GetProxySocket (fd : Z) (m : ProxySocketManager)
    : option (option ProxySocket * ProxySocketManager) :=
  with_lock (fun m => Some (m_sockets m !! fd, m)) m.

Definition IsProxySocket (fd : Z) (m : ProxySocketManager) : option (bool * ProxySocketManager) :=
  with_lock (fun m => Some (bool_decide (is_Some (m_sockets m !! fd)), m)) m.

(** A packet waiting for the endpoint. *)
Definition for_endpoint (port : Z) (protocol : ProtocolType) (pkt : PendingPacket) : bool :=
  bool_decide (pk_protocol pkt = protocol) && (pk_dest_port pkt =? port).

Definition has_same_endpoint_socket (fd port : Z) (protocol : ProtocolType)
    (socks : list (Z * ProxySocket)) : bool :=
  existsb (fun '(other_fd, other) =>
    negb (other_fd =? fd) && bool_decide (s_protocol other = protocol)
    && (GetPort (s_local_addr other) =? port)) socks.

(** The early packets of an endpoint go with the last socket on it. *)
Definition purge_endpoint (fd closed_port : Z) (closed_protocol : ProtocolType)
    (m : ProxySocketManager) : ProxySocketManager :=
  if negb (closed_port =? 0) && bool_decide (0 < r_count (m_pending m))%nat then
    if has_same_endpoint_socket fd closed_port closed_protocol (iter (m_sockets m)) then m
    else
      let '(ring, _) := ring_compact MaxPendingPackets
        (fun pkt (_ : unit) => (negb (for_endpoint closed_port closed_protocol pkt), tt))
        (m_pending m) tt in
      set_pending ring m
  else m.

Definition CloseProxySocket (fd : Z)
    : ProxySocketManager -> option (bool * ProxySocketManager) :=
  with_lock (fun m =>
    match m_sockets m !! fd with
    | None => Some (false, m)
    | Some socket =>
        let closed_protocol := s_protocol socket in
        let closed_port := GetPort (s_local_addr socket) in
        let m := if negb (closed_port =? 0)
                 then set_port_pool (ReleasePort closed_port closed_protocol (m_port_pool m)) m
                 else m in
        r ← Close socket (m_link m);
        let '(_, socket, l) := r in
        let m := set_link l (set_sockets (<[fd := socket]> (m_sockets m)) m) in
        let m := purge_endpoint fd closed_port closed_protocol m in
        Some (true, set_sockets (delete fd (m_sockets m)) m)
    end).

(** The loop of [CloseAllProxySockets] and [Reset]: every socket is closed. *)
Fixpoint close_sockets (socks : list (Z * ProxySocket)) (l : Link) : option Link :=
  match socks with
  | [] => Some l
  | (_, socket) :: socks => r ← Close socket l; close_sockets socks r.2
  end.

Definition CloseAllProxySockets
    : ProxySocketManager -> option (unit * ProxySocketManager) :=
  with_lock (fun m =>
    l ← close_sockets (iter (m_sockets m)) (m_link m);
    Some (tt, set_link l (set_port_pool (ReleaseAll (m_port_pool m)) (set_sockets ∅ m)))).

Definition Reset : ProxySocketManager -> option (unit * ProxySocketManager) :=
  with_lock (fun m =>
    l ← close_sockets (iter (m_sockets m)) (m_link m);
    let m := set_port_pool (ReleaseAll (m_port_pool m)) (set_sockets ∅ m) in
    let m := set_local_ip 0 (set_pending (ring_clear (m_pending m)) m) in
    Some (tt, set_link (set_callbacks None None None None l) m)).

(** ** Port management: calls into the pool, without the manager's mutex *)

Definition AllocatePort (protocol : ProtocolType) (m : ProxySocketManager)
    : Z * ProxySocketManager :=
  let (port, p) := PortPool.AllocatePort protocol (m_port_pool m) in (port, set_port_pool p m).

Definition ReservePort (port : Z) (protocol : ProtocolType) (m : ProxySocketManager)
    : bool * ProxySocketManager :=
  let (ok, p) := AllocateSpecificPort port protocol (m_port_pool m) in (ok, set_port_pool p m).

Definition ReleasePort (port : Z) (protocol : ProtocolType) (m : ProxySocketManager)
    : ProxySocketManager :=
  set_port_pool (PortPool.ReleasePort port protocol (m_port_pool m)) m.

(** ** Routing *)

(** The source address of a packet, as [RecvFrom] reports it. *)
Definition source_addr (source_ip source_port : Z) : SockAddrIn :=
  inet_addr (bswap16 source_port) (bswap32 source_ip).

Definition fill_pending (source_ip source_port dest_ip dest_port : Z) (protocol : ProtocolType)
    (data : option (list Z)) (data_len now_ms : Z) (slot : PendingPacket) : PendingPacket :=
  let copy_len := Z.min data_len PendingPayloadMax in {|
  pk_source_ip := source_ip; pk_source_port := source_port;
  pk_dest_ip := dest_ip; pk_dest_port := dest_port;
  pk_len := u16 copy_len; pk_protocol := protocol; pk_enqueue_time_ms := now_ms;
  pk_data := match data with
             | Some bytes => if 0 <? copy_len then write_at 0 (ztake copy_len bytes) (pk_data slot)
                             else pk_data slot
             | None => pk_data slot
             end
|}.

Definition kMaxSockets : nat := 8.

(** Deliver to each target in turn. *)
Definition deliver_all (targets : list Z) (data : option (list Z)) (data_len : Z)
    (from : SockAddrIn) (socks : gmap Z ProxySocket) : gmap Z ProxySocket :=
  foldl (fun socks fd => alter (IncomingData data data_len from) fd socks) socks targets.

Definition RouteIncomingData (source_ip source_port dest_ip dest_port : Z)
    (protocol : ProtocolType) (data : option (list Z)) (data_len now_ms : Z)
    : ProxySocketManager -> option (bool * ProxySocketManager) :=
  with_lock (fun m =>
    if negb (m_local_ip m =? 0) && (source_ip =? m_local_ip m) then Some (true, m)
    else
      match FindAllSocketsByDestination dest_ip dest_port protocol kMaxSockets m with
      | [] =>
          if bool_decide (protocol = Udp) then Some (false, m)
          else Some (false, set_pending (ring_push MaxPendingPackets
                 (fill_pending source_ip source_port dest_ip dest_port protocol data data_len now_ms)
                 (m_pending m)) m)
      | targets =>
          Some (true, set_sockets (deliver_all targets data data_len
                 (source_addr source_ip source_port) (m_sockets m)) m)
      end).

(** The loops of [RouteConnectResponse] and [RouteConnectRequest]. *)
Definition connect_response_target (dest_ip dest_port : Z) (socks : list (Z * ProxySocket))
    : option (Z * ProxySocket) :=
  find (fun '(_, socket) =>
    bool_decide (s_state socket = Connecting)
    && (GetAddr (s_local_addr socket) =? dest_ip)
    && (GetPort (s_local_addr socket) =? dest_port)) socks.

Definition RouteConnectResponse (response : ProxyConnectResponse)
    : ProxySocketManager -> option (bool * ProxySocketManager) :=
  with_lock (fun m =>
    match connect_response_target (pi_source_ipv4 (pcr_info response))
            (pi_source_port (pcr_info response)) (iter (m_sockets m)) with
    | None => Some (false, m)
    | Some (fd, socket) =>
        Some (true, set_sockets (<[fd := HandleConnectResponse response socket]> (m_sockets m)) m)
    end).

Definition connect_request_target (dest_ip dest_port : Z) (socks : list (Z * ProxySocket))
    : option (Z * ProxySocket) :=
  find (fun '(_, socket) =>
    bool_decide (s_state socket = Listening)
    && bool_decide (s_protocol socket = Tcp)
    && (GetPort (s_local_addr socket) =? dest_port)
    && ((GetAddr (s_local_addr socket) =? 0) || (GetAddr (s_local_addr socket) =? dest_ip))) socks.

Definition RouteConnectRequest (request : ProxyConnectRequest)
    : ProxySocketManager -> option (bool * ProxySocketManager) :=
  with_lock (fun m =>
    match connect_request_target (pi_dest_ipv4 (pcq_info request))
            (pi_dest_port (pcq_info request)) (iter (m_sockets m)) with
    | None => Some (false, m)
    | Some (fd, socket) =>
        r ← IncomingConnection request socket (m_link m);
        let '(socket, l) := r in
        Some (true, set_link l (set_sockets (<[fd := socket]> (m_sockets m)) m))
    end).

(** ** LDN configuration and statistics *)

Definition SetLocalIp (ip : Z) : ProxySocketManager -> option (unit * ProxySocketManager) :=
  with_lock (fun m =>
    let m := if negb (m_local_ip m =? 0) && negb (m_local_ip m =? ip)
                && bool_decide (0 < r_count (m_pending m))%nat
             then set_pending (ring_clear (m_pending m)) m else m in
    Some (tt, set_local_ip ip m)).

Definition GetLocalIp (m : ProxySocketManager) : option (Z * ProxySocketManager) :=
  with_lock (fun m => Some (m_local_ip m, m)) m.

Definition GetActiveSocketCount (m : ProxySocketManager)
    : option (nat * ProxySocketManager) :=
  with_lock (fun m => Some (size (m_sockets m), m)) m.

Definition GetAvailablePortCount (protocol : ProtocolType) (m : ProxySocketManager) : nat :=
  GetAvailableCount protocol (m_port_pool m).

(** ** Delivery of early packets *)

Definition is_stale (now_ms : Z) (pkt : PendingPacket) : bool :=
  (pk_enqueue_time_ms pkt <? now_ms)
  && (MaxPendingPacketAgeMs <? u64 (now_ms - pk_enqueue_time_ms pkt)).

(** One round of the loop: keep the packet, deliver it, or let it go. *)
Definition deliver_step (port : Z) (protocol : ProtocolType) (now_ms : Z)
    (pkt : PendingPacket) (socket : ProxySocket) : bool * ProxySocket :=
  if negb (is_stale now_ms pkt) && for_endpoint port protocol pkt
     && PacketMatchesSocketDestination socket (pk_dest_ip pkt)
  then (false, IncomingData (Some (pk_data pkt)) (pk_len pkt)
                 (source_addr (pk_source_ip pkt) (pk_source_port pkt)) socket)
  else (negb (is_stale now_ms pkt), socket).

(** [socket] is the descriptor of the bound socket, [None] for [nullptr]. *)
Definition DeliverPendingPackets (socket : option Z) (port : Z) (protocol : ProtocolType)
    (now_ms : Z) : ProxySocketManager -> option (unit * ProxySocketManager) :=
  with_lock (fun m =>
    match socket with
    | None => Some (tt, m)
    | Some fd =>
        if decide (r_count (m_pending m) = 0%nat) then Some (tt, m)
        else match m_sockets m !! fd with
        | None => Some (tt, m)
        | Some s =>
            let (ring, s) := ring_compact MaxPendingPackets
              (deliver_step port protocol now_ms) (m_pending m) s in
            Some (tt, set_pending ring (set_sockets (<[fd := s]> (m_sockets m)) m))
        end
    end).
End manager.

(** ** Specification *)

(** The sockets a packet is meant for. *)
Definition endpoint_match (dest_port : Z) (protocol : ProtocolType) (s : ProxySocket) : bool :=
  bool_decide (s_protocol s = protocol) && (GetPort (s_local_addr s) =? dest_port).

Definition bound_to (ip : Z) (s : ProxySocket) : bool := GetAddr (s_local_addr s) =? ip.

Definition accepts (dest_ip dest_port : Z) (protocol : ProtocolType) (s : ProxySocket) : bool :=
  endpoint_match dest_port protocol s
  && (if is_broadcast dest_ip
      then bound_to 0 s || (dest_ip =? 0xFFFFFFFF) || is_multicast dest_ip || bound_to dest_ip s
           || same_subnet (GetAddr (s_local_addr s)) dest_ip
      else bound_to dest_ip s || bound_to 0 s).

Definition acceptors (dest_ip dest_port : Z) (protocol : ProtocolType)
    (socks : list (Z * ProxySocket)) : list (Z * ProxySocket) :=
  List.filter (fun p => accepts dest_ip dest_port protocol p.2) socks.

Definition pending_ok (r : ring PendingPacket) : Prop :=
  ring_ok MaxPendingPackets r = true
  /\ Forall (fun p => zlen (pk_data p) = PendingPayloadMax /\ 0 <= pk_len p <= PendingPayloadMax)
       (r_slots r).

(** The registry's invariant: the mutex is free between calls, every socket and
    the pending ring are well formed, the registry is within its limit. *)
Definition manager_ok (m : ProxySocketManager) : Prop :=
  m_mutex (m_link m) = false
  /\ map_Forall (fun _ s => socket_ok s) (m_sockets m)
  /\ pending_ok (m_pending m)
  /\ (size (m_sockets m) <= MAX_PROXY_SOCKETS)%nat
  /\ pool_ok (m_port_pool m).

(** The early packets, oldest first. *)
Definition pending_queue (m : ProxySocketManager) : list PendingPacket :=
  ring_list MaxPendingPackets (m_pending m).

(** ** Lemmas *)

Lemma with_lock_free {A} (body : ProxySocketManager -> option (A * ProxySocketManager)) m :
  m_mutex (m_link m) = false ->
  with_lock body m =
  r ← body (set_link (set_mutex true (m_link m)) m);
  Some (r.1, set_link (unlock (m_link r.2)) r.2).
Proof. intros E. unfold with_lock. by rewrite lock_free. Qed.

Lemma set_link_unlock m :
  m_mutex (m_link m) = false ->
  set_link (unlock (m_link (set_link (set_mutex true (m_link m)) m)))
    (set_link (set_mutex true (m_link m)) m) = m.
Proof. destruct m as [so p ip l r]. unfold set_link. simpl. intros E. by rewrite unlock_lock. Qed.

Lemma GetAddr_source ip port : 0 <= ip < 4294967296 -> GetAddr (source_addr ip port) = ip.
Proof. apply GetAddr_inet. Qed.

Lemma GetPort_source ip port : 0 <= port < 65536 -> GetPort (source_addr ip port) = port.
Proof. apply GetPort_inet. Qed.

(** The broadcast loop takes the first acceptors, as many as there is room. *)
Lemma find_broadcast_eq socks dest_ip dest_port protocol room :
  is_broadcast dest_ip = true ->
  find_broadcast socks dest_ip dest_port protocol room =
  take room (fst <$> acceptors dest_ip dest_port protocol socks).
Proof.
  intros Hb. revert room. induction socks as [|[fd s] socks IH]; intros room; [by destruct room|].
  destruct room as [|room]; [done|]. cbn [find_broadcast]. unfold acceptors.
  cbn [List.filter snd]. unfold accepts at 1, endpoint_match, bound_to. rewrite Hb.
  fold (acceptors dest_ip dest_port protocol socks). rewrite !IH.
  destruct (bool_decide (s_protocol s = protocol)); cbn [negb andb]; [|done].
  destruct (GetPort (s_local_addr s) =? dest_port); cbn [negb andb]; [|done].
  destruct (GetAddr (s_local_addr s) =? 0); cbn [orb]; [done|].
  destruct ((dest_ip =? 0xFFFFFFFF) || is_multicast dest_ip); cbn [orb]; [done|].
  destruct (GetAddr (s_local_addr s) =? dest_ip); cbn [orb]; [done|].
  by destruct (same_subnet _ _).
Qed.

(** The unicast loop finds the first socket bound to the address, or keeps the
    first wildcard. *)
Lemma find_unicast_eq socks dest_ip dest_port protocol w :
  let exact := List.filter (fun p : Z * ProxySocket =>
    endpoint_match dest_port protocol p.2 && bound_to dest_ip p.2) socks in
  let wild := List.filter (fun p : Z * ProxySocket =>
    endpoint_match dest_port protocol p.2 && bound_to 0 p.2) socks in
  (find_unicast socks dest_ip dest_port protocol w).1 = fst <$> head exact
  /\ (exact = [] -> (find_unicast socks dest_ip dest_port protocol w).2
      = match w with Some _ => w | None => fst <$> head wild end).
Proof.
  revert w. induction socks as [|[fd s] socks IH]; intros w; cbv zeta; [by destruct w|].
  cbn [find_unicast List.filter snd].
  change (endpoint_match dest_port protocol s) with
    (bool_decide (s_protocol s = protocol) && (GetPort (s_local_addr s) =? dest_port)).
  change (bound_to dest_ip s) with (GetAddr (s_local_addr s) =? dest_ip).
  change (bound_to 0 s) with (GetAddr (s_local_addr s) =? 0).
  destruct (bool_decide (s_protocol s = protocol)); cbn [negb andb]; [|apply IH].
  destruct (GetPort (s_local_addr s) =? dest_port); cbn [negb andb]; [|apply IH].
  destruct (GetAddr (s_local_addr s) =? dest_ip); [by split|].
  destruct (GetAddr (s_local_addr s) =? 0); [|apply IH].
  destruct (IH (match w with None => Some fd | Some _ => w end)) as [H1 H2].
  split; [exact H1|]. intros Hx. rewrite H2 by done. by destruct w.
Qed.

Lemma lookup_deliver_all targets data len from socks fd :
  NoDup targets ->
  deliver_all targets data len from socks !! fd =
  if decide (fd ∈ targets) then IncomingData data len from <$> socks !! fd else socks !! fd.
Proof.
  unfold deliver_all. revert socks. induction targets as [|t targets IH]; intros socks Hnd.
  { cbn [foldl]. rewrite decide_False; [done|apply not_elem_of_nil]. }
  apply NoDup_cons in Hnd as [Ht Hnd]. cbn [foldl]. rewrite IH by done.
  destruct (decide (fd = t)) as [->|Hne].
  - rewrite decide_False, decide_True, lookup_alter_eq by (done || apply list_elem_of_here). done.
  - rewrite lookup_alter_ne by done.
    destruct (decide (fd ∈ targets)) as [Hin|Hin].
    + rewrite decide_True; [done|by right].
    + rewrite decide_False; [done|]. by intros [?|?]%elem_of_cons.
Qed.

(** Only the first [len] bytes of a buffer matter to a socket. *)
Lemma IncomingData_prefix d len from s :
  0 <= len <= zlen d ->
  IncomingData (Some d) len from s = IncomingData (Some (ztake len d)) (zlen (ztake len d)) from s.
Proof.
  intros Hlen. rewrite zlen_ztake by done. unfold IncomingData. f_equal. f_equal.
  unfold fill_slot. by rewrite ztake_ztake by lia.
Qed.

(** The payload a pending slot holds. *)
Definition pending_data (p : PendingPacket) : list Z := ztake (pk_len p) (pk_data p).

Lemma fill_pending_ok sip sport dip dport protocol d now old :
  zlen (pk_data old) = PendingPayloadMax ->
  let new := fill_pending sip sport dip dport protocol (Some d) (zlen d) now old in
  (zlen (pk_data new) = PendingPayloadMax /\ 0 <= pk_len new <= PendingPayloadMax)
  /\ pending_data new = ztake PendingPayloadMax d
  /\ pk_source_ip new = sip /\ pk_source_port new = sport /\ pk_dest_ip new = dip
  /\ for_endpoint dport protocol new = true.
Proof.
  intros Hold. pose proof (zlen_nonneg d). unfold PendingPayloadMax in *.
  set (n := Z.min (zlen d) 1400). assert (Hn : 0 <= n <= 1400) by lia.
  assert (Ht : zlen (ztake n d) = n) by (apply zlen_ztake; lia).
  cbv zeta. unfold pending_data, for_endpoint, fill_pending, PendingPayloadMax.
  cbn [pk_data pk_len pk_source_ip pk_source_port pk_dest_ip pk_protocol pk_dest_port].
  rewrite bool_decide_eq_true_2, Z.eqb_refl, u16_small by (done || lia).
  assert (Htd : ztake 1400 d = ztake n d).
  { unfold n. destruct (Z.le_ge_cases (zlen d) 1400).
    - rewrite Z.min_l by lia. by rewrite !ztake_all by lia.
    - by rewrite Z.min_r by lia. }
  rewrite Htd. fold n. destruct (Z.ltb_spec 0 n).
  - split_and!; try done; try lia; [by rewrite zlen_write_at by lia|].
    rewrite ztake_write_at_0; [done|lia|lia].
  - assert (n = 0) as -> by lia. split_and!; done || lia.
Qed.

Lemma NoDup_fst_filter {A B} (P : A * B -> bool) l :
  NoDup (fst <$> l) -> NoDup (fst <$> List.filter P l).
Proof.
  induction l as [|x l IH]; [done|]. rewrite fmap_cons, NoDup_cons. intros [Hx Hl].
  cbn [List.filter]. destruct (P x); [|by apply IH].
  rewrite fmap_cons, NoDup_cons. split; [|by apply IH].
  intros (y & Hy & Hin)%list_elem_of_fmap. apply Hx. rewrite Hy. apply list_elem_of_fmap.
  exists y. split; [done|]. apply list_elem_of_In, filter_In in Hin as [Hin _].
  by apply list_elem_of_In.
Qed.

Section proofs.
Context (iter : gmap Z ProxySocket -> list (Z * ProxySocket)).
Context (iter_perm : forall socks, iter socks ≡ₚ map_to_list socks).

Lemma elem_of_iter fd s socks : (fd, s) ∈ iter socks <-> socks !! fd = Some s.
Proof using iter_perm. by rewrite iter_perm, elem_of_map_to_list. Qed.

Lemma NoDup_iter socks : NoDup (fst <$> iter socks).
Proof using iter_perm. rewrite iter_perm. apply NoDup_fst_map_to_list. Qed.

Lemma elem_of_acceptors dest_ip dest_port protocol fd s socks :
  (fd, s) ∈ acceptors dest_ip dest_port protocol (iter socks)
  <-> socks !! fd = Some s /\ accepts dest_ip dest_port protocol s = true.
Proof using iter_perm.
  unfold acceptors. rewrite list_elem_of_In, filter_In, <- list_elem_of_In, elem_of_iter. done.
Qed.

(** A list found by [List.filter] and [head] in the registry. *)
Lemma head_filter_iter (P : ProxySocket -> bool) socks :
  match head (List.filter (fun p : Z * ProxySocket => P p.2) (iter socks)) with
  | Some (fd, s) => socks !! fd = Some s /\ P s = true
  | None => forall fd s, socks !! fd = Some s -> P s = false
  end.
Proof using iter_perm.
  destruct (List.filter _ _) as [|[fd s] l] eqn:E; simpl.
  - intros fd s Hs. apply not_true_iff_false. intros HP.
    assert (In (fd, s) []) as []. rewrite <- E. apply filter_In. split; [|done].
    by apply list_elem_of_In, elem_of_iter.
  - assert (Hin : In (fd, s) ((fd, s) :: l)) by by left.
    rewrite <- E in Hin. apply filter_In in Hin as [Hin HP].
    split; [|done]. by apply elem_of_iter, list_elem_of_In.
Qed.

(** The unicast decision: the first exactly bound socket, else the first wildcard. *)
Lemma unicast_targets dest_ip dest_port protocol max m :
  (0 < max)%nat -> is_broadcast dest_ip = false ->
  match FindAllSocketsByDestination iter dest_ip dest_port protocol max m with
  | [] => forall fd s, m_sockets m !! fd = Some s ->
            accepts dest_ip dest_port protocol s = false
  | [fd] => exists s, m_sockets m !! fd = Some s /\ accepts dest_ip dest_port protocol s = true
      /\ (bound_to dest_ip s = true \/ forall fd' s', m_sockets m !! fd' = Some s' ->
            endpoint_match dest_port protocol s' && bound_to dest_ip s' = false)
  | _ => False
  end.
Proof using iter_perm.
  intros Hmax Hb. unfold FindAllSocketsByDestination. destruct max as [|max]; [lia|]. rewrite Hb.
  cbn [negb].
  destruct (find_unicast_eq (iter (m_sockets m)) dest_ip dest_port protocol None) as [H1 H2].
  pose proof (head_filter_iter (fun s => endpoint_match dest_port protocol s && bound_to dest_ip s)
    (m_sockets m)) as He.
  pose proof (head_filter_iter (fun s => endpoint_match dest_port protocol s && bound_to 0 s)
    (m_sockets m)) as Hw.
  destruct (find_unicast _ _ _ _ _) as [e w]. cbn [fst snd] in *. subst e.
  destruct (List.filter (fun p : Z * ProxySocket => endpoint_match dest_port protocol p.2
    && bound_to dest_ip p.2) _) as [|[fd s] l]; cbn [head fmap option_fmap option_map fst] in *.
  - rewrite H2 by done. clear H2.
    destruct (head (List.filter (fun p : Z * ProxySocket => endpoint_match dest_port protocol p.2
      && bound_to 0 p.2) _)) as [[fd s]|]; cbn [fmap option_fmap option_map fst] in *.
    + destruct Hw as [Hs [Hm H0]%andb_true_iff]. exists s.
      split_and!; [done| |by right]. unfold accepts. by rewrite Hm, Hb, H0, orb_true_r.
    + intros fd s Hs. specialize (He fd s Hs). specialize (Hw fd s Hs). unfold accepts.
      rewrite Hb, andb_orb_distrib_r. by rewrite He, Hw.
  - destruct He as [Hs [Hm H0]%andb_true_iff]. exists s.
    split_and!; [done| |by left]. unfold accepts. by rewrite Hm, Hb, H0.
Qed.

Lemma broadcast_targets dest_ip dest_port protocol max m :
  (0 < max)%nat -> is_broadcast dest_ip = true ->
  FindAllSocketsByDestination iter dest_ip dest_port protocol max m =
  take max (fst <$> acceptors dest_ip dest_port protocol (iter (m_sockets m))).
Proof.
  intros Hmax Hb. unfold FindAllSocketsByDestination. destruct max as [|max]; [lia|]. rewrite Hb.
  by apply find_broadcast_eq.
Qed.

Lemma elem_of_acceptor_fds dest_ip dest_port protocol fd socks :
  fd ∈ fst <$> acceptors dest_ip dest_port protocol (iter socks)
  <-> exists s, socks !! fd = Some s /\ accepts dest_ip dest_port protocol s = true.
Proof using iter_perm.
  rewrite list_elem_of_fmap. split.
  - intros ([fd' s] & -> & Hin). apply elem_of_acceptors in Hin. eauto.
  - intros (s & Hin). exists (fd, s). split; [done|]. by apply elem_of_acceptors.
Qed.

Lemma take_nil_iff {A} n (l : list A) : (0 < n)%nat -> take n l = [] <-> l = [].
Proof. intros Hn. destruct n, l; [lia|lia|done|done]. Qed.

(** ** Properties *)

(** the routing decision.  A unicast packet goes to exactly one socket on
    its port and protocol: one bound to the destination address when there is
    one, else one bound to any address, and to none exactly when neither
    exists.  A broadcast or multicast packet goes to the sockets that accept
    it, each once, all of them when no more than [max] do.  This holds for
    every iteration order of the hash map. *)
Theorem find_all_spec dest_ip dest_port protocol max m :
  (0 < max)%nat ->
  let targets := FindAllSocketsByDestination iter dest_ip dest_port protocol max m in
  NoDup targets /\ (length targets <= max)%nat
  /\ (forall fd, fd ∈ targets -> exists s, m_sockets m !! fd = Some s
        /\ accepts dest_ip dest_port protocol s = true)
  /\ (targets = [] <-> forall fd s, m_sockets m !! fd = Some s ->
        accepts dest_ip dest_port protocol s = false)
  /\ (if is_broadcast dest_ip then
        (length (acceptors dest_ip dest_port protocol (iter (m_sockets m))) <= max)%nat ->
        forall fd s, m_sockets m !! fd = Some s ->
          accepts dest_ip dest_port protocol s = true -> fd ∈ targets
      else
        (length targets <= 1)%nat
        /\ forall fd fd' s s', m_sockets m !! fd' = Some s' ->
             accepts dest_ip dest_port protocol s' = true -> bound_to dest_ip s' = true ->
             fd ∈ targets -> m_sockets m !! fd = Some s -> bound_to dest_ip s = true).
Proof using iter_perm.
  intros Hmax targets. subst targets.
  destruct (is_broadcast dest_ip) eqn:Hb.
  - rewrite broadcast_targets by done.
    set (acc := acceptors dest_ip dest_port protocol (iter (m_sockets m))).
    pose proof (fun fd => elem_of_acceptor_fds dest_ip dest_port protocol fd (m_sockets m)) as Hacc.
    fold acc in Hacc. split_and!.
    + assert (Hnd : NoDup (fst <$> acc)) by (apply NoDup_fst_filter, NoDup_iter).
      rewrite <- (take_drop max (fst <$> acc)) in Hnd. by apply NoDup_app in Hnd as [? _].
    + rewrite length_take. lia.
    + intros fd Hin. apply Hacc. rewrite <- (take_drop max (fst <$> acc)).
      apply elem_of_app. by left.
    + rewrite take_nil_iff by done. split.
      * intros E fd s Hs. apply not_true_iff_false. intros Ha.
        apply (not_elem_of_nil fd). rewrite <- E. apply Hacc. eauto.
      * intros Hall. apply elem_of_nil_inv. intros fd (s & Hs & Ha)%Hacc.
        by rewrite (Hall fd s Hs) in Ha.
    + intros Hlen fd s Hs Ha. rewrite take_ge by (rewrite length_fmap; done).
      apply Hacc. eauto.
  - pose proof (unicast_targets dest_ip dest_port protocol max m Hmax Hb) as Hu.
    destruct (FindAllSocketsByDestination _ _ _ _ _ _) as [|fd [|]]; [| |done].
    + split_and!; try done; [constructor|simpl; lia|by intros ? ?%elem_of_nil|simpl; lia|].
      by intros ? ? ? ? ? ? ? ?%elem_of_nil.
    + destruct Hu as (s & Hs & Ha & Hor). split_and!.
      * apply NoDup_singleton.
      * simpl. lia.
      * intros fd' ->%list_elem_of_singleton. eauto.
      * split; [done|]. intros Hall. by rewrite (Hall fd s Hs) in Ha.
      * simpl. lia.
      * intros fd1 fd' s1 s' Hs' Ha' Hbd ->%list_elem_of_singleton Hs1.
        assert (s1 = s) as -> by congruence. destruct Hor as [|Hno]; [done|].
        specialize (Hno fd' s' Hs'). rewrite Hbd, andb_true_r in Hno.
        unfold accepts in Ha'. by rewrite Hno in Ha'.
Qed.

(** ** Lemmas on the state *)

Lemma pending_ok_inhabitant :
  zlen (pk_data inhabitant) = PendingPayloadMax /\ 0 <= pk_len inhabitant <= PendingPayloadMax.
Proof. vm_compute. split; [reflexivity|split; discriminate]. Qed.

Lemma socket_ok_lookup m fd s : manager_ok m -> m_sockets m !! fd = Some s -> socket_ok s.
Proof. intros (_ & Hs & _) E. exact (Hs fd s E). Qed.

Lemma deliver_all_dom targets data len from socks :
  dom (deliver_all targets data len from socks) = dom socks.
Proof.
  unfold deliver_all. revert socks. induction targets as [|t targets IH]; intros socks; [done|].
  cbn [foldl]. rewrite IH. apply dom_alter_L.
Qed.

Lemma deliver_all_ok targets d from socks :
  map_Forall (fun _ s => socket_ok s) socks ->
  map_Forall (fun _ s => socket_ok s) (deliver_all targets (Some d) (zlen d) from socks).
Proof.
  unfold deliver_all. revert socks. induction targets as [|t targets IH]; intros socks Hs; [done|].
  cbn [foldl]. apply IH. intros fd s. rewrite lookup_alter_Some.
  intros [(-> & s0 & E & ->)|[_ E]]; [|by apply (Hs fd)].
  apply IncomingData_ok. by apply (Hs fd).
Qed.

Lemma size_dom_eq (a b : gmap Z ProxySocket) : dom a = dom b -> size a = size b.
Proof. intros E. by rewrite <- !size_dom, E. Qed.

Lemma pending_push_ok sip sport dip dport protocol d now r :
  pending_ok r ->
  let r' := ring_push MaxPendingPackets
              (fill_pending sip sport dip dport protocol (Some d) (zlen d) now) r in
  pending_ok r'
  /\ exists pkt, ring_list MaxPendingPackets r' =
       queue_push MaxPendingPackets pkt (ring_list MaxPendingPackets r)
     /\ pending_data pkt = ztake PendingPayloadMax d
     /\ pk_source_ip pkt = sip /\ pk_source_port pkt = sport /\ pk_dest_ip pkt = dip
     /\ for_endpoint dport protocol pkt = true.
Proof.
  intros [Hr Hs] r'. subst r'.
  set (fill := fill_pending _ _ _ _ _ _ _ _).
  destruct (ring_push_refines MaxPendingPackets fill r Hr) as (old & Hok & Hq & Hold).
  assert (Ho : zlen (pk_data old) = PendingPayloadMax).
  { subst old. apply (lookup_total_Forall (fun p => zlen (pk_data p) = PendingPayloadMax)).
    - apply pending_ok_inhabitant.
    - eapply Forall_impl; [exact Hs|]. by intros p [? _]. }
  destruct (fill_pending_ok sip sport dip dport protocol d now old Ho) as (H1 & H2).
  fold fill in H1, H2. split.
  - split; [done|]. apply ring_push_Forall; [apply pending_ok_inhabitant| |done].
    intros p [Hp _]. by destruct (fill_pending_ok sip sport dip dport protocol d now p Hp).
  - exists (fill old). by split.
Qed.

(** The two ways [Close] can end. *)
Lemma Close_cases s l :
  (s_protocol s = Tcp /\ GetPort (s_remote_addr s) <> 0
   /\ (m_mutex l = true -> Close s l = None))
  \/ (~ (s_protocol s = Tcp /\ GetPort (s_remote_addr s) <> 0)
      /\ exists s', Close s l = Some (Errno_Success, s', l)).
Proof.
  unfold Close. cbn [s_protocol s_remote_addr set_rx set_shutdown set_state].
  destruct (decide (s_protocol s = Tcp)) as [E|E];
    [rewrite bool_decide_eq_true_2 by done|rewrite bool_decide_eq_false_2 by done; right; naive_solver].
  destruct (Z.eqb_spec (GetPort (s_remote_addr s)) 0); cbn [negb andb]; [right; naive_solver|].
  left. split_and!; [done|done|]. intros Hm. by rewrite SendProxyDisconnect_held.
Qed.

Lemma close_sockets_stuck fd s socks l :
  m_mutex l = true -> (fd, s) ∈ socks -> s_protocol s = Tcp -> GetPort (s_remote_addr s) <> 0 ->
  close_sockets socks l = None.
Proof.
  intros Hm Hin Hp Hr. induction socks as [|[fd' s'] socks IH]; [by apply elem_of_nil in Hin|].
  cbn [close_sockets]. destruct (Close_cases s' l) as [(_ & _ & ->)|(Hn & s1 & ->)]; [done|done|].
  cbn [mbind option_bind snd]. apply elem_of_cons in Hin as [[= -> ->]|Hin]; [tauto|by apply IH].
Qed.

Lemma has_same_endpoint_spec fd port protocol socks :
  has_same_endpoint_socket fd port protocol (iter socks) = true <->
  exists fd' s', fd' <> fd /\ socks !! fd' = Some s' /\ endpoint_match port protocol s' = true.
Proof using iter_perm.
  unfold has_same_endpoint_socket. rewrite existsb_exists. split.
  - intros ([fd' s'] & Hin & H). apply list_elem_of_In, elem_of_iter in Hin.
    apply andb_true_iff in H as [[Hne Hp]%andb_true_iff Hq]. exists fd', s'.
    zbool. split_and!; [done|done|]. unfold endpoint_match. rewrite Hp. by apply Z.eqb_eq.
  - intros (fd' & s' & Hne & Hs & Hm). exists (fd', s').
    split; [by apply list_elem_of_In, elem_of_iter|]. unfold endpoint_match in Hm.
    by rewrite (proj2 (Z.eqb_neq _ _) Hne).
Qed.

(** ** Properties *)

(** C26: routing incoming data.  A packet from our own address is swallowed and
    changes nothing.  Otherwise the call reports whether it found a receiver:
    the receivers' queues get the datagram, with a source address that reads
    back as the sender's address and port, every other queue keeps its content,
    and no socket appears or disappears.  Without a receiver a UDP packet is
    dropped without a trace and any other is queued, the oldest of 32 making
    room.  The mutex is free again afterwards. *)
Theorem route_incoming_spec sip sport dip dport protocol d now m :
  manager_ok m -> 0 <= sip < 4294967296 -> 0 <= sport < 65536 ->
  exists r m',
    RouteIncomingData iter sip sport dip dport protocol (Some d) (zlen d) now m = Some (r, m')
    /\ manager_ok m'
    /\ (if negb (m_local_ip m =? 0) && (sip =? m_local_ip m) then r = true /\ m' = m
        else
          let targets := FindAllSocketsByDestination iter dip dport protocol kMaxSockets m in
          let from := source_addr sip sport in
          GetAddr from = sip /\ GetPort from = sport
          /\ r = negb (bool_decide (targets = []))
          /\ dom (m_sockets m') = dom (m_sockets m)
          /\ (forall fd s, m_sockets m !! fd = Some s -> exists s', m_sockets m' !! fd = Some s'
                /\ rx_queue s' = if decide (fd ∈ targets) then deliver d from (rx_queue s)
                                 else rx_queue s)
          /\ (if r || bool_decide (protocol = Udp) then pending_queue m' = pending_queue m
              else exists pkt, pending_queue m' =
                       queue_push MaxPendingPackets pkt (pending_queue m)
                     /\ pending_data pkt = ztake PendingPayloadMax d
                     /\ pk_source_ip pkt = sip /\ pk_source_port pkt = sport
                     /\ pk_dest_ip pkt = dip /\ for_endpoint dport protocol pkt = true)).
Proof using iter_perm.
  intros Hok Hsip Hsport. pose proof Hok as (Hm & Hs & Hp & Hsz & Hpool).
  unfold RouteIncomingData. rewrite with_lock_free by done.
  change (m_local_ip (set_link _ m)) with (m_local_ip m).
  change (FindAllSocketsByDestination iter dip dport protocol kMaxSockets (set_link _ m))
    with (FindAllSocketsByDestination iter dip dport protocol kMaxSockets m).
  destruct (negb (m_local_ip m =? 0) && (sip =? m_local_ip m)).
  { cbn [mbind option_bind fst snd]. rewrite set_link_unlock by done. by exists true, m. }
  destruct (find_all_spec dip dport protocol kMaxSockets m ltac:(unfold kMaxSockets; lia))
    as (Hnd & _ & _ & _ & _).
  rewrite GetAddr_source, GetPort_source by done.
  destruct (FindAllSocketsByDestination _ _ _ _ _ _) as [|t targets] eqn:Ht.
  - assert (Hnone : forall fd s, m_sockets m !! fd = Some s -> exists s', m_sockets m !! fd = Some s'
      /\ rx_queue s' = if decide (fd ∈ @nil Z) then deliver d (source_addr sip sport) (rx_queue s)
                       else rx_queue s).
    { intros fd s E. exists s. rewrite decide_False by apply not_elem_of_nil. done. }
    destruct (bool_decide (protocol = Udp)).
    + cbn [mbind option_bind fst snd]. rewrite set_link_unlock by done. exists false, m.
      by split_and!.
    + cbn [mbind option_bind fst snd]. eexists false, _. split; [reflexivity|].
      destruct (pending_push_ok sip sport dip dport protocol d now (m_pending m) Hp) as (Hp' & Hq).
      split; [|by split_and!]. by split_and!.
  - cbn [mbind option_bind fst snd]. eexists true, _. split; [reflexivity|].
    set (targets' := t :: targets) in *.
    assert (Hdom := deliver_all_dom targets' (Some d) (zlen d) (source_addr sip sport) (m_sockets m)).
    split.
    + split_and!; [done|by apply deliver_all_ok|exact Hp| |done].
      cbn [m_sockets set_link set_sockets]. by rewrite (size_dom_eq _ _ Hdom).
    + split_and!; [done|done|done|exact Hdom| |done].
      intros fd s E. cbn [m_sockets set_link set_sockets]. rewrite lookup_deliver_all by done.
      rewrite E. case_decide; [|by exists s].
      eexists. split; [reflexivity|]. apply IncomingData_ok. by apply (Hs fd).
Qed.

(** No other socket shares the port and protocol, and the port is one. *)
Definition alone_on (fd port : Z) (protocol : ProtocolType) (m : ProxySocketManager) : Prop :=
  port <> 0
  /\ forall fd' s', fd' <> fd -> m_sockets m !! fd' = Some s' ->
       endpoint_match port protocol s' = false.

(** The purge in [CloseProxySocket]. *)
Lemma purge_pending port protocol r :
  pending_ok r ->
  let r' := (ring_compact MaxPendingPackets
    (fun pkt (_ : unit) => (negb (for_endpoint port protocol pkt), tt)) r tt).1 in
  pending_ok r' /\ ring_list MaxPendingPackets r' =
    List.filter (fun p => negb (for_endpoint port protocol p)) (ring_list MaxPendingPackets r).
Proof.
  intros [Hr Hs] r'. subst r'.
  destruct (ring_compact_refines MaxPendingPackets
    (fun pkt (_ : unit) => (negb (for_endpoint port protocol pkt), tt)) r tt Hr) as (Hok & Hq & _).
  split.
  - split; [done|]. by apply ring_compact_Forall; [apply pending_ok_inhabitant|].
  - rewrite Hq. generalize (ring_list MaxPendingPackets r). intros q.
    induction q as [|x q IH]; [done|]. cbn [queue_visit List.filter].
    destruct (queue_visit _ q tt) as [q' []]. cbn [fst] in *. rewrite IH.
    by destruct (negb _).
Qed.

(** The port of a closed socket is free again. *)
Lemma release_closed s m :
  pool_ok (m_port_pool m) ->
  let port := GetPort (s_local_addr s) in
  exists pool,
    (if negb (port =? 0)
     then set_port_pool (PortPool.ReleasePort port (s_protocol s) (m_port_pool m)) m else m)
      = set_port_pool pool m
    /\ pool_ok pool /\ (port <> 0 -> IsPortAllocated port (s_protocol s) pool = false).
Proof.
  intros Hpool port. destruct (Z.eqb_spec port 0) as [Hz|Hz]; cbn [negb].
  - exists (m_port_pool m). split_and!; [by destruct m|done|done].
  - eexists. split; [reflexivity|]. split; [by apply pool_ok_release|].
    intros _. apply released_not_allocated.
Qed.

Lemma purge_endpoint_spec fd port protocol m :
  pending_ok (m_pending m) ->
  exists r, purge_endpoint iter fd port protocol m = set_pending r m /\ pending_ok r
    /\ (alone_on fd port protocol m -> ring_list MaxPendingPackets r =
         List.filter (fun p => negb (for_endpoint port protocol p)) (pending_queue m))
    /\ (~ alone_on fd port protocol m -> ring_list MaxPendingPackets r = pending_queue m).
Proof using iter_perm.
  intros Hp. pose proof (has_same_endpoint_spec fd port protocol (m_sockets m)) as Hsame.
  assert (Hid : m = set_pending (m_pending m) m) by by destruct m.
  unfold purge_endpoint. destruct (Z.eqb_spec port 0) as [->|Hne]; cbn [negb andb].
  { exists (m_pending m). split_and!; [done|done|by intros [? _]|done]. }
  case_bool_decide as Hcount.
  - destruct (has_same_endpoint_socket _ _ _ _) eqn:Es.
    + exists (m_pending m). split_and!; [done|done| |done]. intros [_ Hno].
      destruct (proj1 Hsame eq_refl) as (fd' & s1 & Hfd & Hl & Hem). by rewrite (Hno fd' s1) in Hem.
    + destruct (purge_pending port protocol (m_pending m) Hp) as [Hpok Hpq].
      destruct (ring_compact _ _ (m_pending m) tt) as [ring []]. exists ring.
      split_and!; [done|done|done|]. intros []. split; [done|]. intros fd' s1 Hfd Hl.
      apply not_true_iff_false. intros Hem. apply (diff_false_true (proj2 Hsame ltac:(eauto))).
  - exists (m_pending m). split_and!; [done|done| |done]. intros _. unfold pending_queue.
    assert (ring_list MaxPendingPackets (m_pending m) = []) as ->; [|done].
    apply length_zero_iff_nil. rewrite length_ring_list. lia.
Qed.

(** closing a descriptor that does not deadlock (see the next theorem)
    removes it and only it from the registry, makes its port available again,
    and, when no other socket uses the same port and protocol, removes exactly
    the early packets for that endpoint, keeping the others in order.  An
    unknown descriptor is refused and nothing changes. *)
Theorem close_socket_spec fd m :
  manager_ok m ->
  match m_sockets m !! fd with
  | None => CloseProxySocket iter fd m = Some (false, m)
  | Some s =>
      ~ (s_protocol s = Tcp /\ GetPort (s_remote_addr s) <> 0) ->
      let port := GetPort (s_local_addr s) in
      exists m', CloseProxySocket iter fd m = Some (true, m') /\ manager_ok m'
        /\ m_sockets m' = delete fd (m_sockets m)
        /\ (port <> 0 -> IsPortAllocated port (s_protocol s) (m_port_pool m') = false)
        /\ (alone_on fd port (s_protocol s) m -> pending_queue m' =
             List.filter (fun p => negb (for_endpoint port (s_protocol s) p)) (pending_queue m))
        /\ (~ alone_on fd port (s_protocol s) m -> pending_queue m' = pending_queue m)
  end.
Proof using iter_perm.
  intros Hok. pose proof Hok as (Hm & Hs & Hp & Hsz & Hpool).
  unfold CloseProxySocket. rewrite with_lock_free by done. cbn [m_sockets set_link].
  destruct (m_sockets m !! fd) as [s|] eqn:E; cbn [mbind option_bind fst snd].
  2: { by rewrite set_link_unlock. }
  intros Hnd. cbv zeta. destruct (release_closed s (set_link (set_mutex true (m_link m)) m) Hpool)
    as (pool & -> & Hpool' & Hrel).
  destruct (Close_cases s (m_link (set_port_pool pool (set_link (set_mutex true (m_link m)) m))))
    as [(? & ? & _)|(_ & s' & ->)]; [tauto|]. cbn [mbind option_bind fst snd].
  match goal with |- context [purge_endpoint iter fd ?port ?protocol ?m1] =>
    destruct (purge_endpoint_spec fd port protocol m1 Hp) as (r & -> & Hr & Halone & Hnot);
    assert (Hal : alone_on fd port protocol m1 <-> alone_on fd port protocol m)
  end.
  { unfold alone_on. cbn [m_sockets set_link set_sockets set_port_pool].
    split; intros [? Ha]; (split; [done|]); intros fd' s1 Hne; specialize (Ha fd' s1 Hne);
      by rewrite lookup_insert_ne in * by done. }
  rewrite Hal in Halone, Hnot.
  assert (Hdel : delete fd (<[fd:=s']> (m_sockets m)) = delete fd (m_sockets m))
    by apply delete_insert_eq.
  eexists. split; [reflexivity|].
  split; [|by split_and!; [exact Hdel|exact Hrel|exact Halone|exact Hnot]].
  split_and!; [done| |exact Hr| |done]; cbn [m_sockets set_link set_sockets set_pending set_port_pool];
    rewrite Hdel; [by apply map_Forall_delete|]. rewrite map_size_delete, E. lia.
Qed.

(** the manager's mutex is not recursive and the sockets call back into the
    manager: closing a TCP socket that was ever given a remote port never
    returns, whether by [CloseProxySocket], [CloseAllProxySockets] or [Reset],
    and neither does routing a connect request to the listener it is for. *)
Theorem tcp_self_deadlock fd s m :
  manager_ok m -> m_sockets m !! fd = Some s -> s_protocol s = Tcp ->
  (GetPort (s_remote_addr s) <> 0 ->
     CloseProxySocket iter fd m = None /\ CloseAllProxySockets iter m = None
     /\ Reset iter m = None)
  /\ (s_state s = Listening ->
      forall request,
        GetPort (s_local_addr s) = pi_dest_port (pcq_info request) ->
        GetAddr (s_local_addr s) = 0
        \/ GetAddr (s_local_addr s) = pi_dest_ipv4 (pcq_info request) ->
        RouteConnectRequest iter request m = None).
Proof using iter_perm.
  intros (Hm & _) Hs Hp. split.
  - intros Hr. split_and!.
    + unfold CloseProxySocket. rewrite with_lock_free by done.
      cbn [m_sockets set_link]. rewrite Hs.
      destruct (Close_cases s (m_link (if negb (GetPort (s_local_addr s) =? 0)
        then set_port_pool (PortPool.ReleasePort (GetPort (s_local_addr s)) (s_protocol s)
               (m_port_pool (set_link (set_mutex true (m_link m)) m)))
               (set_link (set_mutex true (m_link m)) m)
        else set_link (set_mutex true (m_link m)) m))) as [(_ & _ & E)|[Hn _]]; [|tauto].
      rewrite E; [done|]. by destruct (negb _).
    + unfold CloseAllProxySockets. rewrite with_lock_free by done.
      erewrite close_sockets_stuck; [done|done| |done|done]. by apply elem_of_iter.
    + unfold Reset. rewrite with_lock_free by done.
      erewrite close_sockets_stuck; [done|done| |done|done]. by apply elem_of_iter.
  - intros Hst request Hport Hip. unfold RouteConnectRequest. rewrite with_lock_free by done.
    cbn [m_sockets set_link]. unfold connect_request_target.
    destruct (find _ _) as [[fd' s']|] eqn:Hf.
    + apply find_some in Hf as [_ Hf]. zbool.
      unfold IncomingConnection. rewrite bool_decide_eq_true in *. case_bool_decide; [|done].
      cbn [negb]. by rewrite SendProxyConnectReply_held.
    + exfalso. eapply find_none in Hf; [|by apply list_elem_of_In, elem_of_iter].
      cbn in Hf. rewrite Hst, Hp, Hport, !bool_decide_eq_true_2, Z.eqb_refl in Hf by done.
      cbn [andb] in Hf. zbool. naive_solver lia.
Qed.

(** The early packets a newly bound socket gets. *)
Definition deliverable (port : Z) (protocol : ProtocolType) (now_ms : Z) (s : ProxySocket)
    (p : PendingPacket) : bool :=
  negb (is_stale now_ms p) && for_endpoint port protocol p
  && PacketMatchesSocketDestination s (pk_dest_ip p).

Definition deliver_pending (q : list datagram) (p : PendingPacket) : list datagram :=
  deliver (pending_data p) (source_addr (pk_source_ip p) (pk_source_port p)) q.

Definition packet_ok (p : PendingPacket) : Prop :=
  zlen (pk_data p) = PendingPayloadMax /\ 0 <= pk_len p <= PendingPayloadMax.

Lemma visit_deliver port protocol now q s :
  socket_ok s -> Forall packet_ok q ->
  let r := queue_visit (deliver_step port protocol now) q s in
  r.1 = List.filter (fun p => negb (is_stale now p) && negb (deliverable port protocol now s p)) q
  /\ socket_ok r.2 /\ s_local_addr r.2 = s_local_addr s
  /\ rx_queue r.2 = foldl deliver_pending (rx_queue s)
       (List.filter (deliverable port protocol now s) q).
Proof.
  revert s. induction q as [|p q IH]; intros s Hs Hq; cbv zeta; [by split_and!|].
  apply Forall_cons in Hq as [[Hp1 Hp2] Hq]. cbn [queue_visit List.filter].
  change (deliver_step port protocol now p s) with
    (if deliverable port protocol now s p
     then (false, IncomingData (Some (pk_data p)) (pk_len p)
                    (source_addr (pk_source_ip p) (pk_source_port p)) s)
     else (negb (is_stale now p), s)).
  destruct (deliverable port protocol now s p) eqn:Ed; cbn [negb andb].
  - rewrite IncomingData_prefix by lia.
    destruct (IncomingData_ok (pending_data p) (source_addr (pk_source_ip p) (pk_source_port p)) s Hs)
      as [Hs1 Hq1].
    unfold pending_data in Hs1, Hq1. set (s1 := IncomingData _ _ _ _) in *.
    specialize (IH s1 Hs1 Hq). cbv zeta in IH.
    destruct (queue_visit _ q s1) as [q' s2]. cbn [fst snd] in *.
    destruct IH as (H1 & H2 & H3 & H4). rewrite andb_false_r. cbn [foldl]. rewrite H4, Hq1.
    by split_and!.
  - specialize (IH s Hs Hq). cbv zeta in IH.
    destruct (queue_visit _ q s) as [q' s2]. cbn [fst snd] in *.
    destruct IH as (-> & H2 & H3 & H4). rewrite andb_true_r.
    destruct (negb (is_stale now p)); by split_and!.
Qed.

Lemma pending_queue_ok m : pending_ok (m_pending m) -> Forall packet_ok (pending_queue m).
Proof.
  intros [_ Hs]. unfold pending_queue, ring_list, window. apply Forall_fmap, Forall_forall.
  intros i _. apply (lookup_total_Forall packet_ok); [apply pending_ok_inhabitant|exact Hs].
Qed.

(** after a bind, the socket receives, in order of arrival, exactly the
    early packets for its port and protocol whose destination matches its
    address and that are at most 500 ms old; they and every stale packet leave
    the ring, the rest stays in order, and no other socket is touched. *)
Theorem deliver_pending_spec fd s port protocol now m :
  manager_ok m -> m_sockets m !! fd = Some s ->
  exists m' s', DeliverPendingPackets (Some fd) port protocol now m = Some (tt, m')
    /\ manager_ok m' /\ m_sockets m' = <[fd := s']> (m_sockets m)
    /\ rx_queue s' = foldl deliver_pending (rx_queue s)
         (List.filter (deliverable port protocol now s) (pending_queue m))
    /\ pending_queue m' = List.filter
         (fun p => negb (is_stale now p) && negb (deliverable port protocol now s p))
         (pending_queue m).
Proof.
  intros Hok Hs. pose proof Hok as (Hm & Hsok & Hp & Hsz & Hpool).
  unfold DeliverPendingPackets. rewrite with_lock_free by done.
  change (m_pending (set_link _ m)) with (m_pending m).
  change (m_sockets (set_link _ m)) with (m_sockets m).
  destruct (decide (r_count (m_pending m) = 0%nat)) as [Hz|Hz].
  - assert (Hnil : pending_queue m = []).
    { apply length_zero_iff_nil. unfold pending_queue. by rewrite length_ring_list. }
    cbn [mbind option_bind fst snd]. rewrite set_link_unlock by done. exists m, s.
    rewrite Hnil, insert_id by done. by split_and!.
  - rewrite Hs. pose proof (visit_deliver port protocol now (pending_queue m) s (Hsok fd s Hs)
      (pending_queue_ok m Hp)) as (Hv1 & Hv2 & _ & Hv4).
    destruct Hp as [Hr Hsl].
    destruct (ring_compact_refines MaxPendingPackets (deliver_step port protocol now) _ s Hr)
      as (Hc1 & Hc2 & Hc3).
    pose proof (ring_compact_Forall MaxPendingPackets packet_ok (deliver_step port protocol now)
      (m_pending m) s pending_ok_inhabitant Hsl) as Hc4.
    destruct (ring_compact _ _ (m_pending m) s) as [ring s']. cbn [fst snd] in *.
    cbn [mbind option_bind fst snd]. eexists _, s'. split; [reflexivity|].
    unfold pending_queue in Hv1, Hv2, Hv4. rewrite <- Hc3 in Hv2, Hv4. rewrite <- Hc2 in Hv1.
    split; [|by split_and!]. split_and!; [done| |by split| |done].
    + cbn. by apply map_Forall_insert_2.
    + cbn [m_sockets set_link set_pending set_sockets]. rewrite map_size_insert_Some by done. done.
Qed.

(** the registry hands out one socket per descriptor, never more than 64:
    a registered descriptor keeps its socket, a new one gets a fresh socket
    while fewer than 64 exist, and is refused otherwise. *)
Theorem create_socket_spec fd type protocol m :
  manager_ok m ->
  exists r m', CreateProxySocket fd type protocol m = Some (r, m') /\ manager_ok m'
    /\ (if decide (is_Some (m_sockets m !! fd)) then r = Some fd /\ m' = m
        else if decide (size (m_sockets m) = MAX_PROXY_SOCKETS) then r = None /\ m' = m
        else r = Some fd
             /\ m_sockets m' = <[fd := new_ProxySocket type protocol]> (m_sockets m)
             /\ m_port_pool m' = m_port_pool m /\ pending_queue m' = pending_queue m).
Proof.
  intros Hok. pose proof Hok as (Hm & Hs & Hp & Hsz & Hpool).
  unfold CreateProxySocket. rewrite with_lock_free by done. cbn [m_sockets set_link].
  destruct (m_sockets m !! fd) as [s|] eqn:E.
  { cbn [mbind option_bind fst snd]. rewrite set_link_unlock by done. eexists _, m.
    split_and!; try done; by rewrite decide_True by done. }
  assert (Hno : ~ is_Some (@None ProxySocket)) by (by intros [? ?]).
  destruct (decide (MAX_PROXY_SOCKETS <= size (m_sockets m))%nat).
  - cbn [mbind option_bind fst snd]. rewrite set_link_unlock by done. eexists _, m.
    split_and!; try done. rewrite decide_False, decide_True by (done || lia). done.
  - cbn [mbind option_bind fst snd]. eexists _, _. split; [reflexivity|].
    rewrite !decide_False by (done || lia). split; [|done]. split_and!; [done| |exact Hp| |done].
    + intros fd' s'. cbn [m_sockets set_link set_sockets]. rewrite lookup_insert_Some.
      intros [[<- <-]|[_ E']]; [apply socket_ok_new|by apply (Hs fd')].
    + cbn [m_sockets set_link set_sockets]. rewrite map_size_insert_None by done. lia.
Qed.
End proofs.

(** ** Witnesses *)

(** A registry with a UDP socket bound to any address, another bound to
    10.114.0.1, both on port 100, and a TCP socket with a peer. *)
Definition bound_socket (type : SocketType) (protocol : ProtocolType) (port ip : Z) : ProxySocket :=
  (Bind (inet_addr (bswap16 port) (bswap32 ip)) (new_ProxySocket type protocol)).2.

Definition sample_manager : ProxySocketManager :=
  set_sockets (<[3 := bound_socket Dgram Udp 100 0]>
              (<[4 := bound_socket Dgram Udp 100 0x0A720001]>
              {[5 := set_addrs (inet_addr 0 0) (inet_addr 1 2) (new_ProxySocket Stream Tcp)]}))
    new_ProxySocketManager.

Definition any_iter (socks : gmap Z ProxySocket) : list (Z * ProxySocket) := map_to_list socks.

Lemma any_iter_perm socks : any_iter socks ≡ₚ map_to_list socks.
Proof. reflexivity. Qed.

Lemma sample_manager_ok : manager_ok sample_manager.
Proof.
  split_and!.
  - reflexivity.
  - cbn [m_sockets sample_manager set_sockets]. repeat apply map_Forall_insert_2;
      first [apply map_Forall_empty | apply (socket_ok_new Stream Tcp)].
  - split; [reflexivity|]. apply Forall_replicate, pending_ok_inhabitant.
  - apply (bool_decide_unpack (_ <= _)%nat). vm_compute. exact I.
  - apply pool_ok_new.
Qed.

Lemma find_all_spec_witness :
  (length (FindAllSocketsByDestination any_iter 0x0A720001 100 Udp 8 sample_manager) <= 1)%nat.
Proof.
  destruct (find_all_spec any_iter any_iter_perm 0x0A720001 100 Udp 8 sample_manager ltac:(lia))
    as (_ & _ & _ & _ & H).
  change (is_broadcast 0x0A720001) with false in H. apply H.
Defined.

Lemma route_incoming_spec_witness :
  exists m', RouteIncomingData any_iter 0x0A720002 7 0x0A720001 100 Udp (Some [1; 2; 3]) 3 0
      sample_manager = Some (true, m')
    /\ exists s', m_sockets m' !! 4 = Some s'
         /\ rx_queue s' = [(source_addr 0x0A720002 7, [1; 2; 3])].
Proof.
  destruct (route_incoming_spec any_iter any_iter_perm 0x0A720002 7 0x0A720001 100 Udp [1; 2; 3] 0
    sample_manager sample_manager_ok ltac:(lia) ltac:(lia)) as (r & m' & E & _ & H).
  change (m_local_ip sample_manager =? 0) with true in H. cbn [negb andb] in H.
  destruct H as (_ & _ & Hr & _ & Hq & _).
  assert (Ht : FindAllSocketsByDestination any_iter 0x0A720001 100 Udp kMaxSockets sample_manager
               = [4]) by (vm_compute; reflexivity).
  rewrite Ht in Hr, Hq. cbn in Hr. subst r. exists m'. split; [exact E|].
  destruct (Hq 4 _ eq_refl) as (s' & Hs' & Hd). exists s'. split; [exact Hs'|].
  rewrite Hd. vm_compute. reflexivity.
Defined.

Lemma close_socket_spec_witness :
  exists m', CloseProxySocket any_iter 3 sample_manager = Some (true, m')
    /\ m_sockets m' = delete 3 (m_sockets sample_manager).
Proof.
  pose proof (close_socket_spec any_iter any_iter_perm 3 sample_manager sample_manager_ok) as H.
  change (m_sockets sample_manager !! 3) with (Some (bound_socket Dgram Udp 100 0)) in H.
  destruct H as (m' & E & _ & Hd & _); [intros [? _]; discriminate|].
  exists m'. split; [exact E|exact Hd].
Defined.

Lemma tcp_self_deadlock_witness :
  CloseProxySocket any_iter 5 sample_manager = None.
Proof.
  apply (tcp_self_deadlock any_iter any_iter_perm 5
    (set_addrs (inet_addr 0 0) (inet_addr 1 2) (new_ProxySocket Stream Tcp)) sample_manager
    sample_manager_ok); [reflexivity|reflexivity|vm_compute; discriminate].
Defined.

(** A packet for UDP port 100 waiting since time 0. *)
Definition waiting_manager : ProxySocketManager :=
  set_pending (ring_push MaxPendingPackets (fill_pending 0x0A720002 7 0x0A720001 100 Udp (Some [1; 2]) 2 0)
    (m_pending sample_manager)) sample_manager.

Lemma waiting_manager_ok : manager_ok waiting_manager.
Proof.
  destruct sample_manager_ok as (H1 & H2 & H3 & H4 & H5). split_and!; try done.
  exact (proj1 (pending_push_ok 0x0A720002 7 0x0A720001 100 Udp [1; 2] 0 _ H3)).
Qed.

Lemma deliver_pending_spec_witness :
  exists m' s', DeliverPendingPackets (Some 4) 100 Udp 400 waiting_manager = Some (tt, m')
    /\ m_sockets m' !! 4 = Some s' /\ rx_queue s' = [(source_addr 0x0A720002 7, [1; 2])]
    /\ pending_queue m' = [].
Proof.
  destruct (deliver_pending_spec 4 (bound_socket Dgram Udp 100 0x0A720001) 100 Udp 400
    waiting_manager waiting_manager_ok eq_refl) as (m' & s' & E & _ & Hs & Hq & Hp).
  exists m', s'. split_and!; [exact E|rewrite Hs; apply lookup_insert_eq| |].
  - rewrite Hq. vm_compute. reflexivity.
  - rewrite Hp. vm_compute. reflexivity.
Defined.

Lemma create_socket_spec_witness :
  exists r m', CreateProxySocket 9 Dgram Udp sample_manager = Some (r, m') /\ r = Some 9.
Proof.
  destruct (create_socket_spec 9 Dgram Udp sample_manager sample_manager_ok) as (r & m' & E & _ & H).
  exists r, m'. split; [exact E|].
  rewrite decide_False in H by (intros [? H0]; vm_compute in H0; discriminate).
  rewrite decide_False in H by (vm_compute; discriminate). apply H.
Defined.
