(* ===== verification/NodeMapper.v ===== *)
(** * Node identifiers and proxy routing ([ldn/ldn_node_mapper.{hpp,cpp}])

    Eight entries, indexed by node id.  [UpdateFromNetworkInfo] indexes the
    array with the [s8] id of a received entry; an index outside the array is
    undefined behaviour, and the call is [None]. *)

From stdpp Require Import base numbers list.
From Stdlib Require Import ZArith Lia Bool.
From S2P Require Import Prelude.

Definition MaxNodes : nat := 8.
Definition BroadcastNodeId : Z := 0xFFFFFFFF.

Record NodeEntry : Type := { node_id : Z; ipv4_address : Z; is_connected : bool }.

Record LdnNodeMapper : Type := { m_nodes : list NodeEntry; m_local_node_id : Z }.

(** What [UpdateFromNetworkInfo] reads of a [NodeInfo] and of a [NetworkInfo]. *)
Record NodeInfo : Type := { ipv4Address : Z; nodeId : Z; isConnected : Z }.
Record NetworkInfo : Type := { nodeCount : Z; nodes : list NodeInfo }.

Definition empty_entry (i : nat) : NodeEntry :=
  {| node_id := Z.of_nat i; ipv4_address := 0; is_connected := false |}.

Definition new_LdnNodeMapper : LdnNodeMapper :=
  {| m_nodes := map empty_entry (seq 0 MaxNodes); m_local_node_id := 0xFF |}.

(** An in-range element of the array. *)
Definition node_at (id : Z) (m : LdnNodeMapper) : NodeEntry :=
  nth (Z.to_nat id) (m_nodes m) (empty_entry 0).

Definition set_entry (id : nat) (f : NodeEntry -> NodeEntry) (l : list NodeEntry)
    : list NodeEntry := alter f id l.

Definition AddNode (id ipv4 : Z) (m : LdnNodeMapper) : LdnNodeMapper :=
  if Z.of_nat MaxNodes <=? id then m
  else {| m_nodes := set_entry (Z.to_nat id) (fun e =>
            {| node_id := node_id e; ipv4_address := ipv4; is_connected := true |}) (m_nodes m);
          m_local_node_id := m_local_node_id m |}.

Definition RemoveNode (id : Z) (m : LdnNodeMapper) : LdnNodeMapper :=
  if Z.of_nat MaxNodes <=? id then m
  else {| m_nodes := set_entry (Z.to_nat id) (fun e =>
            {| node_id := node_id e; ipv4_address := ipv4_address e; is_connected := false |})
            (m_nodes m);
          m_local_node_id := m_local_node_id m |}.

Definition IsNodeConnected (id : Z) (m : LdnNodeMapper) : bool :=
  if Z.of_nat MaxNodes <=? id then false else is_connected (node_at id m).

Definition GetNodeIp (id : Z) (m : LdnNodeMapper) : Z :=
  if Z.of_nat MaxNodes <=? id then 0 else ipv4_address (node_at id m).

Definition GetConnectedCount (m : LdnNodeMapper) : nat :=
  length (List.filter is_connected (m_nodes m)).

(** The clearing loop keeps the ids. *)
Definition clear_nodes (l : list NodeEntry) : list NodeEntry :=
  map (fun e => {| node_id := node_id e; ipv4_address := 0; is_connected := false |}) l.

Definition Clear (m : LdnNodeMapper) : LdnNodeMapper :=
  {| m_nodes := clear_nodes (m_nodes m); m_local_node_id := 0xFF |}.

(** The loop over the received entries: at most [nodeCount] and at most 8. *)
Fixpoint add_nodes (infos : list NodeInfo) (l : list NodeEntry) : option (list NodeEntry) :=
  match infos with
  | [] => Some l
  | node :: infos =>
      if isConnected node =? 0 then add_nodes infos l
      else if (nodeId node <? 0) || (Z.of_nat MaxNodes <=? nodeId node) then None
      else add_nodes infos (set_entry (Z.to_nat (nodeId node)) (fun e =>
             {| node_id := node_id e; ipv4_address := ipv4Address node; is_connected := true |}) l)
  end.

Definition considered (info : NetworkInfo) : list NodeInfo :=
  take (Nat.min (Z.to_nat (nodeCount info)) MaxNodes) (nodes info).

Definition UpdateFromNetworkInfo (info : NetworkInfo) (m : LdnNodeMapper) : option LdnNodeMapper :=
  l ← add_nodes (considered info) (clear_nodes (m_nodes m));
  Some {| m_nodes := l; m_local_node_id := m_local_node_id m |}.

Definition ShouldRouteToNode (dest source target : Z) (m : LdnNodeMapper) : bool :=
  if Z.of_nat MaxNodes <=? target then false
  else if negb (is_connected (node_at target m)) then false
  else if dest =? BroadcastNodeId then negb (target =? source)
  else dest =? target.

Definition GetLocalNodeId (m : LdnNodeMapper) : Z := m_local_node_id m.
Definition SetLocalNodeId (id : Z) (m : LdnNodeMapper) : LdnNodeMapper :=
  {| m_nodes := m_nodes m; m_local_node_id := id |}.

(** ** Invariant and specification *)

(** Eight entries, each at the index of its id. *)
Definition mapper_ok (m : LdnNodeMapper) : Prop := map node_id (m_nodes m) = map Z.of_nat (seq 0 MaxNodes).

(** The entry that decides a node id: the last connected one that carries it. *)
Definition last_entry (id : Z) (infos : list NodeInfo) : option NodeInfo :=
  last (List.filter (fun n => negb (isConnected n =? 0) && (nodeId n =? id)) infos).

Definition in_range (n : NodeInfo) : bool := (0 <=? nodeId n) && (nodeId n <? Z.of_nat MaxNodes).

(** ** Lemmas *)

Lemma mapper_ok_length m : mapper_ok m -> length (m_nodes m) = MaxNodes.
Proof. intros H. apply (f_equal length) in H. by rewrite !length_map, length_seq in H. Qed.

Lemma map_node_id_alter f i l :
  (forall e, node_id (f e) = node_id e) -> map node_id (set_entry i f l) = map node_id l.
Proof.
  intros Hf. unfold set_entry. revert i. induction l as [|e l IH]; intros [|i]; try done;
    simpl; f_equal; auto. apply IH.
Qed.

Lemma map_node_id_clear l : map node_id (clear_nodes l) = map node_id l.
Proof. unfold clear_nodes. rewrite map_map. done. Qed.

Lemma add_nodes_ids infos l l' :
  add_nodes infos l = Some l' -> map node_id l' = map node_id l.
Proof.
  revert l. induction infos as [|n infos IH]; intros l; simpl; [by intros [= ->]|].
  case_if; [apply IH|]. case_if; [done|]. intros H%IH. by rewrite H, map_node_id_alter.
Qed.

Lemma nth_set_entry i j f l d :
  (i < length l)%nat ->
  nth j (set_entry i f l) d = if decide (i = j) then f (nth i l d) else nth j l d.
Proof.
  intros Hi. rewrite !nth_lookup. unfold set_entry. case_decide as E; [subst j|].
  - rewrite list_lookup_alter_eq. destruct (lookup_lt_is_Some_2 l i Hi) as [x ->]. done.
  - by rewrite list_lookup_alter_ne.
Qed.

(** What a run of the loop leaves at an id. *)
Lemma add_nodes_spec infos l :
  length l = MaxNodes ->
  match add_nodes infos l with
  | None => exists n, In n infos /\ isConnected n <> 0 /\ in_range n = false
  | Some l' =>
      (forall n, In n infos -> isConnected n <> 0 -> in_range n = true)
      /\ forall id, 0 <= id < Z.of_nat MaxNodes ->
           let e := nth (Z.to_nat id) l (empty_entry 0) in
           let e' := nth (Z.to_nat id) l' (empty_entry 0) in
           match last_entry id infos with
           | Some n => is_connected e' = true /\ ipv4_address e' = ipv4Address n
           | None => is_connected e' = is_connected e /\ ipv4_address e' = ipv4_address e
           end
  end.
Proof.
  revert l. induction infos as [|n infos IH]; intros l Hl; [by split|].
  cbn [add_nodes]. destruct (Z.eqb_spec (isConnected n) 0) as [Hc|Hc].
  - specialize (IH l Hl). destruct (add_nodes infos l) as [l'|].
    + destruct IH as [Hr Hid]. split; [intros n' [<-|Hin]; [done|by apply Hr]|].
      intros id Hrange. specialize (Hid id Hrange). unfold last_entry in *. cbn [List.filter].
      by rewrite Hc.
    + destruct IH as (n' & ? & ?). exists n'. split; [by right|done].
  - destruct ((nodeId n <? 0) || (Z.of_nat MaxNodes <=? nodeId n)) eqn:Er.
    { exists n. split_and!; [by left|done|]. unfold in_range. apply orb_true_iff in Er.
      apply andb_false_iff. zcases; destruct Er; zbool; lia || auto. }
    zbool. set (l1 := set_entry _ _ l).
    assert (Hl1 : length l1 = MaxNodes) by (subst l1; unfold set_entry; by rewrite length_alter).
    specialize (IH l1 Hl1). destruct (add_nodes infos l1) as [l'|].
    + destruct IH as [Hr Hid]. split.
      { intros n' [<-|Hin]; [|by apply Hr]. intros _. unfold in_range. zcases; lia || done. }
      intros id Hrange. specialize (Hid id Hrange). cbv zeta in Hid |- *.
      unfold last_entry in *. cbn [List.filter]. rewrite (proj2 (Z.eqb_neq _ _) Hc).
      cbn [negb andb]. destruct (Z.eqb_spec (nodeId n) id) as [Hi|Hi].
      * rewrite last_cons. destruct (last (List.filter _ infos)) as [n'|]; [done|].
        subst l1. rewrite nth_set_entry in Hid by lia.
        rewrite decide_True in Hid by (f_equal; lia). done.
      * destruct (last (List.filter _ infos)) as [n'|]; [done|].
        subst l1. rewrite nth_set_entry in Hid by lia. by rewrite decide_False in Hid by lia.
    + destruct IH as (n' & ? & ?). exists n'. split; [by right|done].
Qed.

Lemma nth_clear j l : let e := nth j (clear_nodes l) (empty_entry 0) in
  is_connected e = false /\ ipv4_address e = 0.
Proof.
  cbv zeta. unfold clear_nodes. revert j. induction l as [|x l IH]; intros [|j]; try done. apply IH.
Qed.

(** ** Properties *)

(** synchronising with a received network: the update writes outside the
    node array exactly when a considered entry is marked connected with an id
    outside 0..7; otherwise a node is connected afterwards exactly when a
    considered connected entry carries its id, with the address of the last
    such entry, every other node is disconnected with address 0, and the local
    id is kept. *)
Theorem update_from_network_info info m :
  mapper_ok m ->
  match UpdateFromNetworkInfo info m with
  | None => exists n, In n (considered info) /\ isConnected n <> 0 /\ in_range n = false
  | Some m' =>
      mapper_ok m' /\ m_local_node_id m' = m_local_node_id m
      /\ (forall n, In n (considered info) -> isConnected n <> 0 -> in_range n = true)
      /\ forall id, 0 <= id ->
           IsNodeConnected id m' = bool_decide (is_Some (last_entry id (considered info)))
           /\ GetNodeIp id m' = match last_entry id (considered info) with
                                | Some n => ipv4Address n | None => 0 end
  end.
Proof.
  intros Hm. unfold UpdateFromNetworkInfo.
  pose proof (add_nodes_spec (considered info) (clear_nodes (m_nodes m))) as H.
  unfold clear_nodes in H at 1. rewrite length_map, mapper_ok_length in H by done.
  specialize (H eq_refl).
  destruct (add_nodes (considered info) (clear_nodes (m_nodes m))) as [l'|] eqn:E; [|done].
  cbn [mbind option_bind]. destruct H as [Hr Hid]. split_and!; [|done|done|].
  - unfold mapper_ok. cbn [m_nodes]. apply add_nodes_ids in E.
    by rewrite E, map_node_id_clear.
  - intros id Hge. unfold IsNodeConnected, GetNodeIp, node_at. cbn [m_nodes].
    destruct (Z.leb_spec (Z.of_nat MaxNodes) id) as [Hbig|Hsmall].
    + assert (last_entry id (considered info) = None) as ->; [|by split].
      unfold last_entry. apply last_None.
      destruct (List.filter _ (considered info)) as [|n k] eqn:Ef; [done|].
      assert (Hin : In n (n :: k)) by by left. rewrite <- Ef in Hin.
      apply filter_In in Hin as [Hin Hc]. zbool. specialize (Hr n Hin ltac:(done)).
      unfold in_range in Hr. zbool. lia.
    + specialize (Hid id ltac:(lia)). cbv zeta in Hid.
      destruct (nth_clear (Z.to_nat id) (m_nodes m)) as [Hc0 Hi0].
      destruct (last_entry id (considered info)) as [n|]; destruct Hid as [-> ->].
      * rewrite bool_decide_eq_true_2 by eauto. done.
      * rewrite Hc0, Hi0, bool_decide_eq_false_2 by (by intros [? ?]). done.
Qed.

Lemma mapper_ok_new : mapper_ok new_LdnNodeMapper.
Proof. reflexivity. Qed.

(** A host and a player, and an entry with the id -1 an attacker could send. *)
Definition two_nodes : NetworkInfo := {|
  nodeCount := 2;
  nodes := [{| ipv4Address := 0x0A720001; nodeId := 0; isConnected := 1 |};
            {| ipv4Address := 0x0A720002; nodeId := 1; isConnected := 1 |};
            {| ipv4Address := 7; nodeId := -1; isConnected := 1 |}] |}.

Lemma update_from_network_info_witness :
  exists m', UpdateFromNetworkInfo two_nodes new_LdnNodeMapper = Some m'
    /\ IsNodeConnected 1 m' = true /\ GetNodeIp 1 m' = 0x0A720002.
Proof.
  pose proof (update_from_network_info two_nodes new_LdnNodeMapper mapper_ok_new) as H.
  destruct (UpdateFromNetworkInfo two_nodes new_LdnNodeMapper) as [m'|] eqn:E; [|discriminate E].
  exists m'. split; [reflexivity|]. destruct H as (_ & _ & _ & H).
  destruct (H 1 ltac:(lia)) as [-> ->]. split; reflexivity.
Defined.

(** routing decisions: a broadcast reaches exactly the connected nodes but
    its source, a unicast exactly its destination when that is connected, and
    no id outside the array is ever routed to. *)
Theorem should_route_spec m dest source :
  mapper_ok m ->
  let targets := List.filter (fun t => ShouldRouteToNode dest source t m)
                   (map Z.of_nat (seq 0 MaxNodes)) in
  (forall t, 0 <= t -> ShouldRouteToNode dest source t m = true <-> In t targets)
  /\ (dest = BroadcastNodeId -> targets =
        List.filter (fun t => IsNodeConnected t m && negb (t =? source))
          (map Z.of_nat (seq 0 MaxNodes)))
  /\ (dest <> BroadcastNodeId -> 0 <= dest ->
        targets = if IsNodeConnected dest m then [dest] else []).
Proof.
  intros Hm targets. subst targets. split_and!.
  - intros t Ht. rewrite filter_In. split; [|tauto]. intros H. split; [|done].
    unfold ShouldRouteToNode in H. destruct (Z.leb_spec (Z.of_nat MaxNodes) t); [done|].
    apply in_map_iff. exists (Z.to_nat t). split; [lia|]. apply in_seq. lia.
  - intros ->. apply filter_ext. intros t. unfold ShouldRouteToNode, IsNodeConnected.
    case_if; [done|]. by destruct (is_connected _).
  - intros Hd Hge. unfold ShouldRouteToNode, IsNodeConnected. rewrite (proj2 (Z.eqb_neq _ _) Hd).
    assert (Hf : List.filter (fun t => if Z.of_nat MaxNodes <=? t then false
        else if negb (is_connected (node_at t m)) then false else dest =? t)
        (map Z.of_nat (seq 0 MaxNodes))
      = List.filter (fun t => if is_connected (node_at dest m) then dest =? t else false)
        (map Z.of_nat (seq 0 MaxNodes))).
    { apply filter_ext_in. intros t Hin. apply in_map_iff in Hin as (k & <- & Hk%in_seq).
      rewrite (proj2 (Z.leb_gt _ _)) by lia.
      destruct (Z.eqb_spec dest (Z.of_nat k)) as [<-|]; [by destruct (is_connected _)|].
      by destruct (is_connected (node_at (Z.of_nat k) m)), (is_connected (node_at dest m)). }
    rewrite Hf. destruct (Z.leb_spec (Z.of_nat MaxNodes) dest) as [Hbig|Hsmall].
    + rewrite (filter_ext_in _ (fun _ => false)); [reflexivity|].
      intros t Hin. apply in_map_iff in Hin as (k & <- & Hk%in_seq).
      rewrite (proj2 (Z.eqb_neq _ _)) by lia. by destruct (is_connected _).
    + destruct (is_connected (node_at dest m)).
      * unfold MaxNodes in Hsmall. cbn in Hsmall.
        assert (dest = 0 \/ dest = 1 \/ dest = 2 \/ dest = 3 \/ dest = 4 \/ dest = 5 \/ dest = 6
                \/ dest = 7) as H by lia.
        by destruct H as [->|[->|[->|[->|[->|[->|[->| ->]]]]]]].
      * reflexivity.
Qed.

Lemma should_route_spec_witness :
  List.filter (fun t => ShouldRouteToNode 3 0 t (AddNode 3 9 new_LdnNodeMapper) )
    (map Z.of_nat (seq 0 MaxNodes)) = [3].
Proof.
  destruct (should_route_spec (AddNode 3 9 new_LdnNodeMapper) 3 0 eq_refl) as (_ & _ & H).
  rewrite H by (vm_compute; discriminate). reflexivity.
Defined.
