(* ===== verification/ProxyBuffer.v ===== *)
(** * The proxy data queue ([ldn/ldn_proxy_buffer.{hpp,cpp}])

    Packet descriptors in a ring of 16 entries, payloads in one byte array that
    is filled front to back and restarted at 0 when the end has no room.  Sizes
    are [size_t] values far below 2{^64}; a [nullptr] is [None]. *)

From stdpp Require Import base numbers list.
From Stdlib Require Import ZArith Lia Bool.
From S2P Require Import Prelude Layout Types Ring.

Definition MaxPacketDataSize : Z := 0x800.
Definition BufferSize : Z := MaxPacketDataSize * 4 + 256.
Definition MaxQueuedPackets : nat := 16.

Record PacketEntry : Type := {
  pe_header : ProxyDataHeader;
  pe_data_size : Z;
  pe_data_offset : Z
}.

#[export] Instance PacketEntry_inhabited : Inhabited PacketEntry :=
  populate {| pe_header := zeroed ProxyDataHeader; pe_data_size := 0; pe_data_offset := 0 |}.

(** [m_packets] with [m_packet_read_idx], [m_packet_write_idx] and
    [m_packet_count] form the ring. *)
Record LdnProxyBuffer : Type := {
  m_packets : ring PacketEntry;
  m_data_buffer : list Z;
  m_data_read_pos : Z;
  m_data_write_pos : Z
}.

Definition new_LdnProxyBuffer : LdnProxyBuffer := {|
  m_packets := Ring (replicate MaxQueuedPackets inhabitant) 0 0 0;
  m_data_buffer := replicate (Z.to_nat BufferSize) 0;
  m_data_read_pos := 0; m_data_write_pos := 0
|}.

(** The position a packet of [size] bytes is written to, if there is one. *)
Definition write_position (size : Z) (b : LdnProxyBuffer) : option Z :=
  let available := BufferSize - m_data_write_pos b in
  if available <? size then
    if size <? m_data_read_pos b then Some 0 else None
  else Some (m_data_write_pos b).

Definition Write (header : ProxyDataHeader) (data : option (list Z)) (size : Z)
    (b : LdnProxyBuffer) : bool * LdnProxyBuffer :=
  if MaxPacketDataSize <? size then (false, b)
  else if decide (MaxQueuedPackets <= r_count (m_packets b))%nat then (false, b)
  else match write_position size b with
  | None => (false, b)
  | Some pos =>
      let entry := {| pe_header := header; pe_data_size := size; pe_data_offset := pos |} in
      let r := m_packets b in
      let buf := match data with
                 | Some bytes => if 0 <? size then write_at pos (ztake size bytes) (m_data_buffer b)
                                 else m_data_buffer b
                 | None => m_data_buffer b
                 end in
      (true, {| m_packets := Ring (<[r_tail r := entry]> (r_slots r)) (r_head r)
                               ((r_tail r + 1) mod MaxQueuedPackets)%nat (r_count r + 1)%nat;
                m_data_buffer := buf;
                m_data_read_pos := m_data_read_pos b;
                m_data_write_pos := pos + size |})
  end.

(** The payload bytes an entry points at. *)
Definition entry_data (buf : list Z) (e : PacketEntry) : list Z :=
  ztake (pe_data_size e) (zdrop (pe_data_offset e) buf).

(** The header, the bytes copied and their number. *)
Definition Read (data_null : bool) (max_size : Z) (b : LdnProxyBuffer)
    : option (ProxyDataHeader * list Z * Z) * LdnProxyBuffer :=
  if decide (r_count (m_packets b) = 0%nat) then (None, b)
  else
    let entry := ring_front (m_packets b) in
    let size := if pe_data_size entry <=? max_size then pe_data_size entry else max_size in
    let bytes := if data_null then []
                 else ztake size (zdrop (pe_data_offset entry) (m_data_buffer b)) in
    let r := ring_drop MaxQueuedPackets (m_packets b) in
    let empty := bool_decide (r_count r = 0%nat) in
    (Some (pe_header entry, bytes, size),
     {| m_packets := r; m_data_buffer := m_data_buffer b;
        m_data_read_pos := if empty then 0 else pe_data_offset entry + pe_data_size entry;
        m_data_write_pos := if empty then 0 else m_data_write_pos b |}).

Definition Peek (b : LdnProxyBuffer) : option (ProxyDataHeader * Z) :=
  if decide (r_count (m_packets b) = 0%nat) then None
  else let entry := ring_front (m_packets b) in Some (pe_header entry, pe_data_size entry).

Definition GetPendingCount (b : LdnProxyBuffer) : nat := r_count (m_packets b).
Definition IsEmpty (b : LdnProxyBuffer) : bool := bool_decide (r_count (m_packets b) = 0%nat).

Definition Reset (b : LdnProxyBuffer) : LdnProxyBuffer :=
  {| m_packets := ring_clear (m_packets b); m_data_buffer := m_data_buffer b;
     m_data_read_pos := 0; m_data_write_pos := 0 |}.

Definition GetUsedBytes (b : LdnProxyBuffer) : Z :=
  if m_data_read_pos b <=? m_data_write_pos b then m_data_write_pos b - m_data_read_pos b
  else BufferSize - m_data_read_pos b + m_data_write_pos b.

(** ** The queue it is meant to implement *)

Abbreviation message := (ProxyDataHeader * list Z)%type.

Definition entries (b : LdnProxyBuffer) : list PacketEntry :=
  ring_list MaxQueuedPackets (m_packets b).

Definition messages (b : LdnProxyBuffer) : list message :=
  map (fun e => (pe_header e, entry_data (m_data_buffer b) e)) (entries b).

(** The payloads lie one behind the other from [start] up to [stop]: nothing
    has wrapped since the queue was last empty. *)
Fixpoint contiguous (start : Z) (es : list PacketEntry) (stop : Z) : Prop :=
  match es with
  | [] => start <= stop
  | e :: es => start <= pe_data_offset e /\ 0 <= pe_data_size e
               /\ contiguous (pe_data_offset e + pe_data_size e) es stop
  end.

Definition buffer_ok (b : LdnProxyBuffer) : Prop :=
  ring_ok MaxQueuedPackets (m_packets b) = true
  /\ zlen (m_data_buffer b) = BufferSize
  /\ 0 <= m_data_read_pos b /\ m_data_write_pos b <= BufferSize
  /\ contiguous (m_data_read_pos b) (entries b) (m_data_write_pos b).

(** ** Lemmas *)

Lemma contiguous_start_stop start es stop : contiguous start es stop -> start <= stop.
Proof.
  revert start. induction es as [|e es IH]; intros start; simpl; [done|].
  intros (? & ? & H%IH). lia.
Qed.

Lemma contiguous_snoc start es stop e :
  contiguous start es stop -> pe_data_offset e = stop -> 0 <= pe_data_size e ->
  contiguous start (es ++ [e]) (stop + pe_data_size e).
Proof.
  revert start. induction es as [|e' es IH]; intros start Hc He Hs; simpl in *; [lia|].
  destruct Hc as (? & ? & ?). auto.
Qed.

Lemma contiguous_regions start es stop e :
  0 <= start -> contiguous start es stop -> e ∈ es ->
  0 <= pe_data_offset e /\ 0 <= pe_data_size e /\ pe_data_offset e + pe_data_size e <= stop.
Proof.
  revert start. induction es as [|e' es IH]; intros start H0; simpl;
    [by intros _ ?%elem_of_nil|].
  intros (? & ? & Hc) [->|Hin]%elem_of_cons.
  - apply contiguous_start_stop in Hc. lia.
  - eapply IH; [|done|done]. lia.
Qed.

(** A write behind a region leaves the region's bytes alone. *)
Lemma entry_data_write pos data buf e :
  0 <= pe_data_offset e -> 0 <= pe_data_size e ->
  pe_data_offset e + pe_data_size e <= pos -> pos + zlen data <= zlen buf ->
  entry_data (write_at pos data buf) e = entry_data buf e.
Proof.
  intros Ho Hs Hp Hl. pose proof (zlen_nonneg data). unfold entry_data.
  rewrite !ztake_zdrop_comm by lia. f_equal. apply ztake_write_at_before; lia.
Qed.

Lemma entry_data_written pos (data buf : list Z) :
  0 <= pos -> pos + zlen data <= zlen buf ->
  ztake (zlen data) (zdrop pos (write_at pos data buf)) = data.
Proof.
  intros Hp Hl. pose proof (zlen_nonneg data). rewrite ztake_zdrop_comm by lia.
  rewrite ztake_write_at by lia. apply zdrop_app. by rewrite zlen_ztake by lia.
Qed.

Lemma push_entry (e : PacketEntry) r :
  ring_ok MaxQueuedPackets r = true -> (r_count r < MaxQueuedPackets)%nat ->
  let r' := Ring (<[r_tail r := e]> (r_slots r)) (r_head r)
              ((r_tail r + 1) mod MaxQueuedPackets)%nat (r_count r + 1)%nat in
  ring_ok MaxQueuedPackets r' = true
  /\ ring_list MaxQueuedPackets r' = ring_list MaxQueuedPackets r ++ [e].
Proof. intros Hr Hc. exact (push_room MaxQueuedPackets (fun _ => e) r Hr Hc). Qed.

Lemma buffer_ok_new : buffer_ok new_LdnProxyBuffer.
Proof. split_and!; vm_compute; discriminate || reflexivity. Qed.

(** ** Properties *)

(** as long as the data has not wrapped, the buffer is a queue of packets:
    a [Write] is refused, changing nothing, exactly when the packet is larger
    than 2 KB, 16 packets are pending, or the bytes behind the write position
    (and, to wrap, the bytes before the read position) are too few; a [Write]
    that does not wrap appends header and payload and keeps every pending
    packet as it was. *)
Theorem write_appends header data b :
  buffer_ok b ->
  let (ok, b') := Write header (Some data) (zlen data) b in
  (ok = false <-> MaxPacketDataSize < zlen data \/ length (messages b) = MaxQueuedPackets
                  \/ (BufferSize - m_data_write_pos b < zlen data
                      /\ m_data_read_pos b <= zlen data))
  /\ (ok = false -> b' = b)
  /\ (ok = true -> zlen data <= BufferSize - m_data_write_pos b ->
      buffer_ok b' /\ messages b' = messages b ++ [(header, data)]).
Proof.
  intros (Hr & Hl & Hrp & Hwp & Hc). pose proof (zlen_nonneg data) as Hd.
  assert (Hlen : length (messages b) = r_count (m_packets b))
    by (unfold messages, entries; by rewrite length_map, length_ring_list).
  pose proof Hr as (_ & _ & _ & Hcnt & _)%ring_ok_spec.
  pose proof (contiguous_start_stop _ _ _ Hc) as Hss.
  unfold Write. destruct (Z.ltb_spec MaxPacketDataSize (zlen data)) as [Hbig|Hbig].
  { split_and!; [|done|done]. split; [intros _; by left|done]. }
  destruct (decide (MaxQueuedPackets <= r_count (m_packets b))%nat) as [Hfull|Hfull].
  { split_and!; [|done|done]. split; [intros _; right; left; lia|done]. }
  unfold write_position.
  destruct (Z.ltb_spec (BufferSize - m_data_write_pos b) (zlen data)) as [Ha|Ha].
  { destruct (Z.ltb_spec (zlen data) (m_data_read_pos b)); (split_and!; [|done|lia || done]);
      split; intros; try done; lia. }
  destruct (push_entry {| pe_header := header; pe_data_size := zlen data;
    pe_data_offset := m_data_write_pos b |} (m_packets b) Hr ltac:(lia)) as [Hok Hq].
  rewrite ztake_all by lia.
  assert (Hbuf : (if 0 <? zlen data then write_at (m_data_write_pos b) data (m_data_buffer b)
                  else m_data_buffer b) = write_at (m_data_write_pos b) data (m_data_buffer b)).
  { destruct (Z.ltb_spec 0 (zlen data)); [done|]. destruct data; [|by cbn in *].
    by rewrite write_at_nil by lia. }
  rewrite Hbuf. split_and!; [split; [done|lia]|done|]. intros _ _.
  split.
  - split_and!; cbn [m_packets m_data_buffer m_data_read_pos m_data_write_pos];
      [done|by rewrite zlen_write_at by lia|done|lia|].
    unfold entries. cbn [m_packets]. rewrite Hq.
    exact (contiguous_snoc _ _ _ {| pe_header := header; pe_data_size := zlen data;
      pe_data_offset := m_data_write_pos b |} Hc eq_refl Hd).
  - unfold messages, entries. cbn [m_packets m_data_buffer]. rewrite Hq, map_app. f_equal.
    + apply map_ext_in. intros e He. f_equal. apply list_elem_of_In in He.
      destruct (contiguous_regions _ _ _ e Hrp Hc He) as (? & ? & ?).
      apply entry_data_write; lia.
    + simpl. unfold entry_data. cbn [pe_data_size pe_data_offset].
      by rewrite entry_data_written by lia.
Qed.

Lemma write_appends_witness :
  messages (Write (zeroed ProxyDataHeader) (Some [1; 2; 3]) 3 new_LdnProxyBuffer).2
  = [(zeroed ProxyDataHeader, [1; 2; 3])].
Proof.
  pose proof (write_appends (zeroed ProxyDataHeader) [1; 2; 3] new_LdnProxyBuffer buffer_ok_new) as H.
  assert (E : (Write (zeroed ProxyDataHeader) (Some [1; 2; 3]) (zlen [1; 2; 3]) new_LdnProxyBuffer).1
    = true) by (vm_compute; reflexivity).
  change 3 with (zlen [1; 2; 3]). 
  destruct (Write _ _ _ _) as [ok b']. cbn in E. subst ok.
  destruct H as (_ & _ & H). destruct (H eq_refl) as [_ Hm]; [vm_compute; discriminate|].
  exact Hm.
Defined.

(** reading takes the oldest packet: its header, the first [max_size] bytes
    of its payload and the number of bytes copied; the rest of the queue is
    untouched, and the data area starts over when the queue becomes empty. *)
Theorem read_takes_oldest max_size b :
  buffer_ok b -> 0 <= max_size ->
  match messages b with
  | [] => Read false max_size b = (None, b)
  | (header, data) :: rest =>
      exists b', Read false max_size b
          = (Some (header, ztake max_size data, Z.min (zlen data) max_size), b')
        /\ buffer_ok b' /\ messages b' = rest
        /\ (rest = [] -> m_data_write_pos b' = 0)
  end.
Proof.
  intros (Hr & Hl & Hrp & Hwp & Hc) Hmax. unfold Read.
  destruct (decide (r_count (m_packets b) = 0%nat)) as [Hz|Hz].
  { assert (entries b = []) as He by (apply length_zero_iff_nil; unfold entries;
      by rewrite length_ring_list). unfold messages. by rewrite He. }
  pose proof (ring_front_list _ _ Hr ltac:(lia)) as Hf.
  pose proof (ring_drop_list _ _ Hr ltac:(lia)) as Htl.
  pose proof (ring_drop_ok _ _ Hr ltac:(lia)) as Hdok.
  unfold messages, entries in *. fold (entries b) in *.
  unfold entries in *. destruct (ring_list MaxQueuedPackets (m_packets b)) as [|e es] eqn:Ee; [done|].
  cbn [head] in Hf. injection Hf as Hf. rewrite <- Hf. cbn [map].
  change (drop 1 (e :: es)) with es in Htl.
  destruct (contiguous_regions _ _ _ e Hrp Hc ltac:(by left)) as (Ho & Hs & Hend).
  cbn [contiguous] in Hc. destruct Hc as (Hstart & _ & Hc).
  assert (Hzl : zlen (entry_data (m_data_buffer b) e) = pe_data_size e).
  { unfold entry_data. apply zlen_ztake. rewrite zlen_zdrop by lia. lia. }
  assert (Hbytes : ztake (if pe_data_size e <=? max_size then pe_data_size e else max_size)
      (zdrop (pe_data_offset e) (m_data_buffer b))
      = ztake max_size (entry_data (m_data_buffer b) e)).
  { unfold entry_data. destruct (Z.leb_spec (pe_data_size e) max_size).
    - symmetry. apply ztake_all. fold (entry_data (m_data_buffer b) e). lia.
    - by rewrite ztake_ztake by lia. }
  cbv zeta. rewrite Hbytes, Hzl.
  replace (if pe_data_size e <=? max_size then pe_data_size e else max_size)
    with (Z.min (pe_data_size e) max_size) by (zcases; lia).
  eexists. split; [reflexivity|].
  assert (Hnil : bool_decide (r_count (ring_drop MaxQueuedPackets (m_packets b)) = 0%nat)
    = bool_decide (es = [])).
  { apply bool_decide_ext. rewrite <- length_ring_list with (N := MaxQueuedPackets), Htl.
    apply length_zero_iff_nil. }
  rewrite Hnil. clear Hnil. split; [|split].
  - split_and!; cbn [m_packets m_data_buffer m_data_read_pos m_data_write_pos]; [done|done| | |];
      case_bool_decide as Hes; try lia.
    + unfold entries. cbn [m_packets]. rewrite Htl, Hes. simpl. lia.
    + unfold entries. cbn [m_packets]. by rewrite Htl.
  - unfold messages, entries. cbn [m_packets m_data_buffer]. by rewrite Htl.
  - intros Hrest%map_eq_nil. cbn [m_data_write_pos]. by rewrite bool_decide_eq_true_2.
Qed.

Lemma read_takes_oldest_witness :
  exists b', Read false 2 (Write (zeroed ProxyDataHeader) (Some [1; 2; 3]) 3 new_LdnProxyBuffer).2
    = (Some (zeroed ProxyDataHeader, [1; 2], 2), b').
Proof.
  set (b := (Write (zeroed ProxyDataHeader) (Some [1; 2; 3]) 3 new_LdnProxyBuffer).2).
  assert (Hb : buffer_ok b) by (split_and!; vm_compute; intuition discriminate).
  pose proof (read_takes_oldest 2 b Hb ltac:(lia)) as H.
  assert (Hm : messages b = [(zeroed ProxyDataHeader, [1; 2; 3])]) by (vm_compute; reflexivity).
  rewrite Hm in H. destruct H as (b' & E & _). exists b'. exact E.
Defined.

(** Seven packets of 2 KB: four are queued, three read, then four more written. *)
Definition packet (n : Z) : list Z := replicate 2048 n.
Definition write_packet (n : Z) (b : LdnProxyBuffer) : LdnProxyBuffer :=
  (Write (zeroed ProxyDataHeader) (Some (packet n)) 2048 b).2.
Definition wrapped : LdnProxyBuffer :=
  write_packet 7 (write_packet 6 (write_packet 5
    (Nat.iter 3 (fun b => (Read false 2048 b).2)
      (write_packet 4 (write_packet 3 (write_packet 2 (write_packet 1 new_LdnProxyBuffer))))))).

(** after a wrap the free space is still computed from the end of the
    array, ignoring the unread data in front of the read position: with packets
    4 to 7 pending, [Write] accepts packet 8 and overwrites packet 4, which is
    then read back with the bytes of packet 8. *)
Theorem wrapped_write_overwrites :
  map snd (messages wrapped) = [packet 4; packet 5; packet 6; packet 7]
  /\ (Write (zeroed ProxyDataHeader) (Some (packet 8)) 2048 wrapped).1 = true
  /\ option_map (fun r => r.1.2) (Read false 2048 (write_packet 8 wrapped)).1 = Some (packet 8).
Proof. split_and!; vm_compute; reflexivity. Qed.
