(* ===== verification/Config.v ===== *)
(** * The configuration file ([config/config.{hpp,cpp}])

    The INI parser and the formatter of the Switch build.  A C string is the
    list of its character codes without the terminating NUL; a [char] array of
    [n + 1] bytes holds at most [n] of them.  [std::strtoul] and the [%u], [%d]
    and [%s] conversions of [std::snprintf] are the standard library's, with a
    64-bit [unsigned long]. *)

From stdpp Require Import base numbers list.
From Stdlib Require Import ZArith Lia Bool Ascii String.
From S2P Require Import Prelude.

(** A string literal as character codes. *)
Definition str (s : string) : list Z := map (fun a => Z.of_N (N_of_ascii a)) (list_ascii_of_string s).

Definition MAX_HOST_LENGTH : nat := 128.
Definition MAX_PASSPHRASE_LENGTH : nat := 64.
Definition MAX_INTERFACE_LENGTH : nat := 32.

Record ServerConfig : Type := { host : list Z; port : Z; use_tls : bool }.
Record NetworkConfig : Type := {
  connect_timeout_ms : Z; ping_interval_ms : Z; reconnect_delay_ms : Z; max_reconnect_attempts : Z
}.
Record LdnConfig : Type := {
  ldn_enabled : bool; passphrase : list Z; interface_name : list Z; disable_p2p : bool
}.
Record DebugConfig : Type := { debug_enabled : bool; level : Z; log_to_file : bool }.
Record Config : Type := {
  server : ServerConfig; network : NetworkConfig; ldn : LdnConfig; debug : DebugConfig
}.

(** ** Helpers *)

Definition is_blank (c : Z) : bool := (c =? 32) || (c =? 9).
Definition is_trailing (c : Z) : bool := (c =? 32) || (c =? 9) || (c =? 10) || (c =? 13).

Fixpoint drop_while (p : Z -> bool) (l : list Z) : list Z :=
  match l with
  | [] => []
  | c :: l' => if p c then drop_while p l' else l
  end.

Definition trim_start (s : list Z) : list Z := drop_while is_blank s.
Definition trim_end (s : list Z) : list Z := rev (drop_while is_trailing (rev s)).
Definition safe_strcpy (src : list Z) (max_len : nat) : list Z := take max_len src.

(** [std::strcmp(a, b) == 0] *)
Definition streq (a b : list Z) : bool := bool_decide (a = b).

(** [value[0]] of an empty string is the NUL. *)
Definition parse_bool (value : list Z) : bool :=
  let c := default 0 (head value) in
  negb ((c =? 48) || (c =? 102) || (c =? 70) || (c =? 110) || (c =? 78)).

Definition is_space (c : Z) : bool := (c =? 32) || ((9 <=? c) && (c <=? 13)).
Definition is_digit (c : Z) : bool := (48 <=? c) && (c <=? 57).

Fixpoint digits_value (acc : Z) (s : list Z) : Z :=
  match s with
  | [] => acc
  | c :: s => if is_digit c then digits_value (10 * acc + (c - 48)) s else acc
  end.

Definition ULONG_MAX : Z := 18446744073709551615.

(** [std::strtoul(value, nullptr, 10)] *)
Definition strtoul10 (value : list Z) : Z :=
  let s := drop_while is_space value in
  let '(negative, s) := match s with
                        | c :: s' => if c =? 45 then (true, s')
                                     else if c =? 43 then (false, s') else (false, s)
                        | [] => (false, s)
                        end in
  let v := digits_value 0 s in
  if ULONG_MAX <? v then ULONG_MAX else if negative then u64 (- v) else v.

Definition parse_uint32 (value : list Z) : Z := u32 (strtoul10 value).
Definition parse_uint16 (value : list Z) : Z := u16 (strtoul10 value).

Inductive Section_ : Set :=
  | Section_None | Section_Server | Section_Network | Section_Ldn | Section_Debug | Section_Unknown.

Definition parse_section (line : list Z) : Section_ :=
  if streq line (str "[server]") then Section_Server
  else if streq line (str "[network]") then Section_Network
  else if streq line (str "[ldn]") then Section_Ldn
  else if streq line (str "[debug]") then Section_Debug
  else if default 0 (head line) =? 91 then Section_Unknown
  else Section_None.

(** ** Keys *)

Definition process_server_key (key value : list Z) (c : ServerConfig) : ServerConfig :=
  if streq key (str "host") then
    {| host := safe_strcpy value MAX_HOST_LENGTH; port := port c; use_tls := use_tls c |}
  else if streq key (str "port") then
    {| host := host c; port := parse_uint16 value; use_tls := use_tls c |}
  else if streq key (str "use_tls") then
    {| host := host c; port := port c; use_tls := parse_bool value |}
  else c.

Definition process_network_key (key value : list Z) (c : NetworkConfig) : NetworkConfig :=
  if streq key (str "connect_timeout") then
    {| connect_timeout_ms := parse_uint32 value; ping_interval_ms := ping_interval_ms c;
       reconnect_delay_ms := reconnect_delay_ms c;
       max_reconnect_attempts := max_reconnect_attempts c |}
  else if streq key (str "ping_interval") then
    {| connect_timeout_ms := connect_timeout_ms c; ping_interval_ms := parse_uint32 value;
       reconnect_delay_ms := reconnect_delay_ms c;
       max_reconnect_attempts := max_reconnect_attempts c |}
  else if streq key (str "reconnect_delay") then
    {| connect_timeout_ms := connect_timeout_ms c; ping_interval_ms := ping_interval_ms c;
       reconnect_delay_ms := parse_uint32 value;
       max_reconnect_attempts := max_reconnect_attempts c |}
  else if streq key (str "max_reconnect_attempts") then
    {| connect_timeout_ms := connect_timeout_ms c; ping_interval_ms := ping_interval_ms c;
       reconnect_delay_ms := reconnect_delay_ms c;
       max_reconnect_attempts := parse_uint32 value |}
  else c.

Definition process_ldn_key (key value : list Z) (c : LdnConfig) : LdnConfig :=
  if streq key (str "enabled") then
    {| ldn_enabled := parse_bool value; passphrase := passphrase c;
       interface_name := interface_name c; disable_p2p := disable_p2p c |}
  else if streq key (str "passphrase") then
    {| ldn_enabled := ldn_enabled c; passphrase := safe_strcpy value MAX_PASSPHRASE_LENGTH;
       interface_name := interface_name c; disable_p2p := disable_p2p c |}
  else if streq key (str "interface") then
    {| ldn_enabled := ldn_enabled c; passphrase := passphrase c;
       interface_name := safe_strcpy value MAX_INTERFACE_LENGTH; disable_p2p := disable_p2p c |}
  else if streq key (str "disable_p2p") then
    {| ldn_enabled := ldn_enabled c; passphrase := passphrase c;
       interface_name := interface_name c; disable_p2p := parse_bool value |}
  else c.

Definition process_debug_key (key value : list Z) (c : DebugConfig) : DebugConfig :=
  if streq key (str "enabled") then
    {| debug_enabled := parse_bool value; level := level c; log_to_file := log_to_file c |}
  else if streq key (str "level") then
    {| debug_enabled := debug_enabled c; level := parse_uint32 value;
       log_to_file := log_to_file c |}
  else if streq key (str "log_to_file") then
    {| debug_enabled := debug_enabled c; level := level c; log_to_file := parse_bool value |}
  else c.

(** The [switch] over the current section. *)
Definition process_key (sec : Section_) (key value : list Z) (c : Config) : Config :=
  match sec with
  | Section_Server => {| server := process_server_key key value (server c);
                         network := network c; ldn := ldn c; debug := debug c |}
  | Section_Network => {| server := server c;
                          network := process_network_key key value (network c);
                          ldn := ldn c; debug := debug c |}
  | Section_Ldn => {| server := server c; network := network c;
                      ldn := process_ldn_key key value (ldn c); debug := debug c |}
  | Section_Debug => {| server := server c; network := network c; ldn := ldn c;
                        debug := process_debug_key key value (debug c) |}
  | _ => c
  end.

(** ** Parsing *)

(** [std::strchr(line, '=')]: what stands before and behind it. *)
Fixpoint split_eq (line : list Z) : option (list Z * list Z) :=
  match line with
  | [] => None
  | c :: line =>
      if c =? 61 then Some ([], line)
      else '(key, value) ← split_eq line; Some (c :: key, value)
  end.

Definition KEY_BUF : nat := 64.

(** One line of the file, as the [line] buffer holds it. *)
Definition process_line (line : list Z) (sc : Section_ * Config) : Section_ * Config :=
  let '(current_section, config) := sc in
  let line := trim_end line in
  let trimmed := trim_start line in
  match trimmed with
  | [] => (current_section, config)
  | c :: _ =>
      if (c =? 59) || (c =? 35) then (current_section, config)
      else match parse_section trimmed with
      | Section_None =>
          match current_section with
          | Section_None | Section_Unknown => (current_section, config)
          | _ =>
              match split_eq line with
              | None => (current_section, config)
              | Some (key, value) =>
                  let trimmed_key := trim_start (trim_end key) in
                  let trimmed_value := trim_start (trim_end value) in
                  let key_buf := trim_end (safe_strcpy trimmed_key (KEY_BUF - 1)) in
                  (current_section, process_key current_section key_buf trimmed_value config)
              end
          end
      | new_section => (new_section, config)
      end
  end.

Definition LINE_MAX : nat := 511.

(** The loop over the content; [line] is the buffer so far, last character
    first.  A full buffer drops further characters of the line. *)
Fixpoint parse_loop (content line : list Z) (sc : Section_ * Config) : Section_ * Config :=
  let flush sc := match line with [] => sc | _ => process_line (cstr (rev line)) sc end in
  match content with
  | [] => flush sc
  | c :: content =>
      if (c =? 10) || (c =? 13) then
        match content with
        | c' :: content' => if (c =? 13) && (c' =? 10) then parse_loop content' [] (flush sc)
                            else parse_loop content [] (flush sc)
        | [] => parse_loop content [] (flush sc)
        end
      else parse_loop content (if (List.length line <? LINE_MAX)%nat then c :: line else line) sc
  end.

Definition parse_config_content (content : list Z) (config : Config) : Config :=
  (parse_loop content [] (Section_None, config)).2.

(** ** Formatting *)

(** [%u], at most 20 digits. *)
Fixpoint decimal (fuel : nat) (n : Z) : list Z :=
  match fuel with
  | O => []
  | S fuel => if n <? 10 then [48 + n] else decimal fuel (n / 10) ++ [48 + n mod 10]
  end.

Definition fmt_u (n : Z) : list Z := decimal 20 n.
Definition fmt_bool (b : bool) : list Z := if b then str "1" else str "0".

Definition config_lines (c : Config) : list (list Z) :=
  [ str "; ryu_ldn_nx Configuration";
    str "; Auto-generated on first boot";
    str "; Edit this file to customize settings";
    str "";
    str "[server]";
    str "; Server hostname or IP address";
    str "host = " ++ host (server c);
    str "; Server port";
    str "port = " ++ fmt_u (port (server c));
    str "; Use TLS encryption (0/1)";
    str "use_tls = " ++ fmt_bool (use_tls (server c));
    str "";
    str "[network]";
    str "; Connection timeout in milliseconds";
    str "connect_timeout = " ++ fmt_u (connect_timeout_ms (network c));
    str "; Ping interval in milliseconds";
    str "ping_interval = " ++ fmt_u (ping_interval_ms (network c));
    str "; Reconnect delay in milliseconds";
    str "reconnect_delay = " ++ fmt_u (reconnect_delay_ms (network c));
    str "; Max reconnect attempts (0 = disable auto-reconnect)";
    str "max_reconnect_attempts = " ++ fmt_u (max_reconnect_attempts (network c));
    str "";
    str "[ldn]";
    str "; Enable LDN emulation (0/1)";
    str "enabled = " ++ fmt_bool (ldn_enabled (ldn c));
    str "; Room passphrase (empty = public)";
    str "passphrase = " ++ passphrase (ldn c);
    str "; Network interface (empty = auto)";
    str "interface = " ++ interface_name (ldn c);
    str "; Disable P2P proxy (0/1) - like Ryujinx MultiplayerDisableP2p";
    str "disable_p2p = " ++ fmt_bool (disable_p2p (ldn c));
    str "";
    str "[debug]";
    str "; Enable debug logging (0/1)";
    str "enabled = " ++ fmt_bool (debug_enabled (debug c));
    str "; Log level (0=errors, 1=warnings, 2=info, 3=verbose)";
    str "level = " ++ fmt_u (level (debug c));
    str "; Log to file (0/1)";
    str "log_to_file = " ++ fmt_bool (log_to_file (debug c)) ].

(** [WRITE_LINE]: a line that does not fit entirely is left out. *)
Definition write_line (buffer_size : Z) (out line : list Z) : list Z :=
  let written := line ++ [10] in
  if zlen out + zlen written <? buffer_size then out ++ written else out.

(** The [offset] bytes of the buffer. *)
Definition format_config_content (buffer_size : Z) (c : Config) : list Z :=
  foldl (write_line buffer_size) [] (config_lines c).

(** ** Defaults *)

Definition get_default_config : Config := {|
  server := {| host := safe_strcpy (str "ldn.ryujinx.app") MAX_HOST_LENGTH; port := 30456;
               use_tls := false |};
  network := {| connect_timeout_ms := 5000; ping_interval_ms := 10000;
                reconnect_delay_ms := 3000; max_reconnect_attempts := 5 |};
  ldn := {| ldn_enabled := true; passphrase := []; interface_name := []; disable_p2p := true |};
  debug := {| debug_enabled := true; level := 3; log_to_file := true |}
|}.

(** ** Loading *)

Inductive ConfigResult : Set := Success | FileNotFound | ParseError | IoError.

(** What the file system answers about the path: whether there is an entry and
    whether it is a file, whether it opens, its size, whether a buffer can be
    allocated, and the bytes read. *)
Record file_view : Type := {
  fs_entry : option bool;
  fs_open : bool;
  fs_size : option Z;
  fs_alloc : bool;
  fs_read : option (list Z)
}.

Definition load_config (f : file_view) (config : Config) : ConfigResult * Config :=
  match fs_entry f with
  | None => (FileNotFound, config)
  | Some false => (FileNotFound, config)
  | Some true =>
      if negb (fs_open f) then (IoError, config)
      else match fs_size f with
      | None => (IoError, config)
      | Some file_size =>
          if (file_size <=? 0) || (65536 <? file_size) then
            if file_size =? 0 then (FileNotFound, config) else (ParseError, config)
          else if negb (fs_alloc f) then (IoError, config)
          else match fs_read f with
          | None => (IoError, config)
          | Some content => (Success, parse_config_content content config)
          end
      end
  end.

(** ** Saving *)

(** The calls [save_config] makes to the file system, in order. *)
Inductive fs_call : Set :=
  | EnsureDirectory (dir : list Z)
  | GetEntryType
  | DeleteFile
  | CreateFile (size : Z)
  | OpenFile_Write
  | WriteFile (content : list Z).

(** What those calls and the allocation answer; what [EnsureDirectory] and
    [DeleteFile] answer is ignored. *)
Record save_view : Type := {
  sv_alloc : bool; sv_entry : bool; sv_create : bool; sv_open : bool; sv_write : bool
}.

(** What stands before the last slash, when there is one. *)
Fixpoint parent_dir (path : list Z) : option (list Z) :=
  match path with
  | [] => None
  | c :: path => match parent_dir path with
                 | Some dir => Some (c :: dir)
                 | None => if c =? 47 then Some [] else None
                 end
  end.

Definition save_config (path : list Z) (v : save_view) (config : Config)
    : ConfigResult * list fs_call :=
  let dir_path := safe_strcpy path 255 in
  let calls := match parent_dir dir_path with Some dir => [EnsureDirectory dir] | None => [] end in
  if negb (sv_alloc v) then (IoError, calls)
  else
    let content := format_config_content 4096 config in
    let calls := calls ++ [GetEntryType] ++ (if sv_entry v then [DeleteFile] else [])
                 ++ [CreateFile (zlen content)] in
    if negb (sv_create v) then (IoError, calls)
    else
      let calls := calls ++ [OpenFile_Write] in
      if negb (sv_open v) then (IoError, calls)
      else
        let calls := calls ++ [WriteFile content] in
        if negb (sv_write v) then (IoError, calls) else (Success, calls).

(** [entry] is what [GetEntryType] answers: whether there is an entry and
    whether it is a file. *)
Definition ensure_config_exists (path : list Z) (entry : option bool) (v : save_view)
    : ConfigResult * list fs_call :=
  match entry with
  | Some true => (Success, [GetEntryType])
  | _ => let '(r, calls) := save_config path v get_default_config in (r, GetEntryType :: calls)
  end.

(** ** Well-formed configurations *)

(** A value the file can carry: it fits its array, holds no NUL and no line
    end, and neither starts nor ends with a blank (the parser trims those). *)
Definition clean (max_len : nat) (v : list Z) : bool :=
  (List.length v <=? max_len)%nat
  && forallb (fun c => negb (c =? 0) && negb (c =? 10) && negb (c =? 13)) v
  && negb (is_blank (default 65 (head v))) && negb (is_blank (default 65 (last v))).

Definition config_ok (c : Config) : bool :=
  clean MAX_HOST_LENGTH (host (server c)) && in_u 16 (port (server c))
  && in_u 32 (connect_timeout_ms (network c)) && in_u 32 (ping_interval_ms (network c))
  && in_u 32 (reconnect_delay_ms (network c)) && in_u 32 (max_reconnect_attempts (network c))
  && clean MAX_PASSPHRASE_LENGTH (passphrase (ldn c))
  && clean MAX_INTERFACE_LENGTH (interface_name (ldn c))
  && in_u 32 (level (debug c)).

(** A key as the formatter writes it. *)
Definition plain_key (key : list Z) : bool :=
  (List.length key <=? 63)%nat
  && forallb (fun c => negb (c =? 61)) key
  && match key with
     | [] => false
     | c :: _ => negb (is_blank c) && negb (c =? 59) && negb (c =? 35) && negb (c =? 91)
     end
  && negb (is_trailing (default 32 (last key))).

Definition keyed (sec : Section_) : bool :=
  match sec with Section_None | Section_Unknown => false | _ => true end.

(** ** Lemmas *)

Lemma trim_end_snoc l c :
  trim_end (l ++ [c]) = if is_trailing c then trim_end l else l ++ [c].
Proof.
  unfold trim_end. rewrite rev_app_distr. simpl. destruct (is_trailing c); [done|].
  simpl. by rewrite rev_involutive.
Qed.

Lemma trim_end_clean l : is_trailing (default 65 (last l)) = false -> trim_end l = l.
Proof.
  induction l as [|c l _] using rev_ind; [done|]. rewrite last_snoc. simpl. intros Hc.
  by rewrite trim_end_snoc, Hc.
Qed.

Lemma trim_start_clean l : is_blank (default 65 (head l)) = false -> trim_start l = l.
Proof. destruct l as [|c l]; [done|]. unfold trim_start. simpl. by intros ->. Qed.

Lemma split_eq_app key rest :
  forallb (fun c => negb (c =? 61)) key = true ->
  split_eq (key ++ 61 :: rest) = Some (key, rest).
Proof.
  induction key as [|c key IH]; [done|]. cbn [forallb]. intros H. zbool. simpl.
  rewrite (proj2 (Z.eqb_neq c 61)) by done. rewrite IH by done. done.
Qed.

Lemma parse_section_key c l : c <> 91 -> parse_section (c :: l) = Section_None.
Proof.
  intros Hc. unfold parse_section, streq.
  assert (Hs : forall s, head s = Some 91 -> bool_decide (c :: l = s) = false).
  { intros s Hs. apply bool_decide_eq_false. intros <-. simpl in Hs. congruence. }
  rewrite !Hs by reflexivity. simpl. by rewrite (proj2 (Z.eqb_neq c 91)).
Qed.

Lemma is_trailing_blank max v :
  clean max v = true -> is_trailing (default 65 (last v)) = false.
Proof.
  unfold clean. intros H. zbool. destruct (last v) as [c|] eqn:E; [|done]. simpl in *.
  unfold is_blank, is_trailing in *. zbool.
  match goal with Hf : forallb _ v = true |- _ =>
    apply forallb_Forall_true in Hf; apply last_Some_elem_of in E;
    rewrite Forall_forall in Hf; apply Hf in E end.
  zbool. rewrite !(proj2 (Z.eqb_neq _ _)) by done. done.
Qed.

(** The line [key = value] assigns the value to the key. *)
Lemma process_line_key sec c key max v :
  keyed sec = true -> plain_key key = true -> clean max v = true ->
  process_line (key ++ str " = " ++ v) (sec, c) = (sec, process_key sec key v c).
Proof.
  intros Hsec Hkey Hv. pose proof (is_trailing_blank _ _ Hv) as Hlast.
  unfold plain_key in Hkey. unfold clean in Hv. zbool.
  destruct key as [|k key]; [done|]. zbool.
  assert (Hline : exists rest, trim_end ((k :: key) ++ str " = " ++ v) = (k :: key) ++ [32; 61] ++ rest
    /\ trim_start (trim_end rest) = v).
  { destruct v as [|c0 v _] using rev_ind.
    - exists []. split; [|done]. rewrite app_nil_r. change (str " = ") with ([32; 61] ++ [32]).
      rewrite app_assoc, trim_end_snoc. cbn [is_trailing]. simpl.
      change (k :: key ++ [32; 61]) with ((k :: key) ++ [32; 61]).
      rewrite app_nil_r || idtac. apply trim_end_clean. 
      change [32; 61] with ([32] ++ [61]). rewrite app_assoc, last_snoc. done.
    - exists (32 :: v ++ [c0]). split.
      + change (str " = ") with ([32; 61] ++ [32]). rewrite <- !app_assoc. simpl.
        change (k :: key ++ 32 :: 61 :: 32 :: v ++ [c0])
          with ((k :: key) ++ [32; 61; 32] ++ v ++ [c0]).
        apply trim_end_clean. rewrite !app_assoc, last_snoc. rewrite last_snoc in Hlast. done.
      + rewrite trim_end_clean.
        * unfold trim_start. cbn [drop_while]. apply trim_start_clean. by simplify_eq/=.
        * change (32 :: v ++ [c0]) with ((32 :: v) ++ [c0]). rewrite last_snoc.
          by rewrite last_snoc in Hlast. }
  destruct Hline as (rest & Hline & Hrest). unfold process_line. rewrite Hline.
  rewrite trim_start_clean by done. cbn [app].
  rewrite (proj2 (Z.eqb_neq k 59)), (proj2 (Z.eqb_neq k 35)) by done. cbn [orb].
  rewrite parse_section_key by done.
  change (k :: key ++ 32 :: 61 :: rest) with ((k :: key) ++ [32] ++ 61 :: rest).
  rewrite app_assoc, split_eq_app.
  2: { rewrite forallb_app. apply andb_true_iff. split; [done|reflexivity]. }
  rewrite Hrest. rewrite trim_end_snoc. cbn [is_trailing].
  change (is_trailing 32) with true. cbn iota.
  rewrite (trim_end_clean (k :: key)).
  2: { destruct (last (k :: key)); [done|]. simpl in *. done. }
  rewrite trim_start_clean by done. unfold safe_strcpy, KEY_BUF. rewrite take_ge by (simpl in *; lia).
  rewrite trim_end_clean.
  2: { destruct (last (k :: key)); done. }
  by destruct sec.
Qed.

(** Decimal numbers read back. *)
Lemma digits_value_app acc l k :
  forallb is_digit l = true -> digits_value acc (l ++ k) = digits_value (digits_value acc l) k.
Proof.
  revert acc. induction l as [|c l IH]; intros acc; [done|]. cbn [forallb]. intros H. zbool.
  simpl. rewrite H. by apply IH.
Qed.

Lemma is_digit_spec c : is_digit c = true <-> 48 <= c <= 57.
Proof. unfold is_digit. rewrite andb_true_iff, !Z.leb_le. done. Qed.

Lemma decimal_spec fuel n :
  0 <= n < 10 ^ Z.of_nat fuel -> (0 < fuel)%nat ->
  forallb is_digit (decimal fuel n) = true /\ decimal fuel n <> []
  /\ (List.length (decimal fuel n) <= fuel)%nat /\ digits_value 0 (decimal fuel n) = n.
Proof.
  revert n. induction fuel as [|fuel IH]; intros n Hn Hf; [lia|]. cbn [decimal].
  destruct (Z.ltb_spec n 10) as [Hs|Hb].
  - assert (Hd : is_digit (48 + n) = true) by (apply is_digit_spec; lia). simpl. rewrite Hd.
    split_and!; [done|done|lia|lia].
  - rewrite Nat2Z.inj_succ, Z.pow_succ_r in Hn by lia.
    destruct fuel as [|fuel]; [simpl in Hn; lia|].
    pose proof (Z.mod_pos_bound n 10 ltac:(lia)).
    assert (Hq : 0 <= n / 10 < 10 ^ Z.of_nat (S fuel))
      by (split; [apply Z.div_pos; lia|apply Z.div_lt_upper_bound; lia]).
    destruct (IH (n / 10) Hq ltac:(lia)) as (Hdig & Hne & Hlen & Hval).
    assert (Hd : is_digit (48 + n mod 10) = true) by (apply is_digit_spec; lia).
    split_and!.
    + rewrite forallb_app, Hdig. cbn [forallb]. by rewrite Hd.
    + by intros [_ ?]%app_nil.
    + rewrite length_app. cbn [List.length]. lia.
    + rewrite digits_value_app by done. rewrite Hval. cbn [digits_value]. rewrite Hd.
      pose proof (Z.div_mod n 10 ltac:(lia)). lia.
Qed.

Lemma fmt_u_spec n :
  in_u 32 n = true ->
  forallb is_digit (fmt_u n) = true /\ fmt_u n <> [] /\ (List.length (fmt_u n) <= 20)%nat
  /\ digits_value 0 (fmt_u n) = n.
Proof. rewrite in_u_spec. intros Hn. apply decimal_spec; [|lia]. change (10 ^ Z.of_nat 20) with 100000000000000000000. lia. Qed.

Lemma strtoul10_fmt n : in_u 32 n = true -> strtoul10 (fmt_u n) = n.
Proof.
  intros Hn. destruct (fmt_u_spec n Hn) as (Hdig & Hne & _ & Hval).
  apply in_u_spec in Hn. unfold strtoul10.
  destruct (fmt_u n) as [|c l]; [done|]. cbn [forallb] in Hdig.
  apply andb_true_iff in Hdig as [Hc%is_digit_spec _]. cbn [drop_while].
  assert (is_space c = false) as -> by (unfold is_space; zcases; lia || done).
  rewrite (proj2 (Z.eqb_neq c 45)), (proj2 (Z.eqb_neq c 43)) by lia.
  rewrite Hval. unfold ULONG_MAX. by rewrite (proj2 (Z.ltb_ge _ _)) by lia.
Qed.

Lemma in_u_16_32 n : in_u 16 n = true -> in_u 32 n = true.
Proof. rewrite !in_u_spec. lia. Qed.

Lemma parse_uint32_fmt n : in_u 32 n = true -> parse_uint32 (fmt_u n) = n.
Proof.
  intros Hn. unfold parse_uint32. rewrite strtoul10_fmt by done.
  apply in_u_spec in Hn. by apply u32_small.
Qed.

Lemma parse_uint16_fmt n : in_u 16 n = true -> parse_uint16 (fmt_u n) = n.
Proof.
  intros Hn. unfold parse_uint16. rewrite strtoul10_fmt by by apply in_u_16_32.
  apply in_u_spec in Hn. by apply u16_small.
Qed.

Lemma parse_bool_fmt b : parse_bool (fmt_bool b) = b.
Proof. by destruct b. Qed.

Lemma clean_digits n : in_u 32 n = true -> clean 20 (fmt_u n) = true.
Proof.
  intros Hn. destruct (fmt_u_spec n Hn) as (Hdig & Hne & Hlen & _).
  assert (Hall : forall c, c ∈ fmt_u n -> 48 <= c <= 57).
  { intros c Hc. apply is_digit_spec. apply forallb_Forall_true in Hdig.
    rewrite Forall_forall in Hdig. by apply Hdig. }
  assert (Hnb : forall c, 48 <= c <= 57 -> is_blank c = false)
    by (intros c Hc; unfold is_blank; zcases; lia || done).
  unfold clean. rewrite (proj2 (Nat.leb_le _ _) Hlen). cbn [andb].
  apply andb_true_iff; split; [apply andb_true_iff; split|].
  - apply forallb_Forall_true, Forall_forall. intros c Hc%Hall. zcases; lia || done.
  - destruct (fmt_u n) as [|c l]; [done|]. simpl. by rewrite Hnb by (apply Hall; left).
  - destruct (last (fmt_u n)) as [c|] eqn:El; [|done]. simpl.
    rewrite Hnb by (apply Hall; by apply last_Some_elem_of). done.
Qed.

Lemma clean_bool b : clean 1 (fmt_bool b) = true.
Proof. by destruct b. Qed.

(** A line of the file: no line end, no NUL, short enough for the buffer. *)
Definition line_ok (l : list Z) : bool :=
  (List.length l <=? LINE_MAX)%nat
  && forallb (fun c => negb (c =? 0) && negb (c =? 10) && negb (c =? 13)) l.

Lemma line_ok_app l k :
  forallb (fun c => negb (c =? 0) && negb (c =? 10) && negb (c =? 13)) (l ++ k) =
  forallb (fun c => negb (c =? 0) && negb (c =? 10) && negb (c =? 13)) l
  && forallb (fun c => negb (c =? 0) && negb (c =? 10) && negb (c =? 13)) k.
Proof. apply forallb_app. Qed.

Lemma line_ok_value s max v :
  line_ok (str s) = true -> clean max v = true ->
  (List.length (str s) + max <= LINE_MAX)%nat -> line_ok (str s ++ v) = true.
Proof.
  unfold line_ok, clean. intros Hs Hv Hm. zbool. rewrite line_ok_app.
  apply andb_true_iff. split; [apply Nat.leb_le; rewrite length_app; lia|].
  apply andb_true_iff. by split.
Qed.

Lemma cstr_clean l :
  forallb (fun c => negb (c =? 0) && negb (c =? 10) && negb (c =? 13)) l = true -> cstr l = l.
Proof.
  induction l as [|c l IH]; [done|]. cbn [forallb cstr]. intros H. zbool.
  rewrite (proj2 (Z.eqb_neq c 0)) by done. f_equal. auto.
Qed.

Lemma process_line_nil sc : process_line [] sc = sc.
Proof. by destruct sc. Qed.

Lemma parse_loop_line l rest acc sc :
  (List.length acc + List.length l <= LINE_MAX)%nat ->
  forallb (fun c => negb (c =? 0) && negb (c =? 10) && negb (c =? 13)) (rev acc ++ l) = true ->
  parse_loop (l ++ 10 :: rest) acc sc = parse_loop rest [] (process_line (rev acc ++ l) sc).
Proof.
  revert acc. induction l as [|c l IH]; intros acc Hlen Hok.
  - rewrite app_nil_r in *. simpl.
    assert (Hf : match acc with [] => sc | _ => process_line (cstr (rev acc)) sc end
      = process_line (rev acc) sc)
      by (rewrite cstr_clean by done; destruct acc; [by rewrite process_line_nil|done]).
    destruct rest as [|c rest]; [by rewrite <- Hf|]. cbn [Z.eqb Pos.eqb andb]. by rewrite <- Hf.
  - simpl in Hlen. pose proof Hok as Hc. rewrite line_ok_app in Hc. cbn [forallb] in Hc. zbool.
    cbn [app parse_loop].
    rewrite (proj2 (Z.eqb_neq c 10)), (proj2 (Z.eqb_neq c 13)) by done. cbn [orb].
    rewrite (proj2 (Nat.ltb_lt _ _)) by lia.
    rewrite IH; [|simpl; lia|].
    + cbn [rev]. by rewrite <- app_assoc.
    + cbn [rev]. by rewrite <- app_assoc.
Qed.

Lemma parse_loop_lines ls sc :
  forallb line_ok ls = true ->
  parse_loop (List.concat (map (fun l => l ++ [10]) ls)) [] sc = foldl (fun sc l => process_line l sc) sc ls.
Proof.
  revert sc. induction ls as [|l ls IH]; intros sc; [done|]. cbn [forallb]. intros H. zbool.
  cbn [map List.concat foldl]. rewrite <- app_assoc. cbn [app].
  unfold line_ok in H. zbool. rewrite parse_loop_line by done. by apply IH.
Qed.

(** The lines fit when their total length does. *)
Definition text_size (ls : list (list Z)) : Z := foldr (fun l n => zlen l + 1 + n) 0 ls.

Lemma text_size_nonneg ls : 0 <= text_size ls.
Proof. induction ls as [|l ls IH]; simpl; [lia|]. pose proof (zlen_nonneg l). lia. Qed.

Lemma write_lines_fit bs out ls :
  zlen out + text_size ls < bs ->
  foldl (write_line bs) out ls = out ++ List.concat (map (fun l => l ++ [10]) ls).
Proof.
  revert out. induction ls as [|l ls IH]; intros out; [by rewrite app_nil_r|].
  cbn [foldl text_size foldr]. fold (text_size ls). intros Hs.
  pose proof (text_size_nonneg ls). pose proof (zlen_nonneg l). pose proof (zlen_nonneg out).
  assert (Hl : zlen (l ++ [10]) = zlen l + 1) by (by rewrite zlen_app).
  unfold write_line at 2. rewrite (proj2 (Z.ltb_lt _ _)) by lia.
  rewrite IH by (rewrite zlen_app; lia). cbn [map List.concat]. by rewrite <- app_assoc.
Qed.

Lemma zlen_str s : zlen (str s) = Z.of_nat (String.length s).
Proof.
  unfold zlen, str. rewrite length_map. f_equal. induction s as [|a s IH]; [done|].
  simpl. by rewrite IH.
Qed.

Lemma clean_length max v : clean max v = true -> zlen v <= Z.of_nat max.
Proof. unfold clean, zlen. intros. zbool. lia. Qed.

Lemma clean_take max v : clean max v = true -> safe_strcpy v max = v.
Proof. intros Hv%clean_length. unfold safe_strcpy. apply take_ge. unfold zlen in Hv. lia. Qed.

(** Assignments, as the formatter writes them. *)
Lemma assign_line full key sec c c' max v :
  str full = str key ++ str " = " -> keyed sec = true -> plain_key (str key) = true ->
  clean max v = true -> process_key sec (str key) v c = c' ->
  process_line (str full ++ v) (sec, c) = (sec, c').
Proof. intros -> Hs Hk Hv <-. rewrite <- app_assoc. by apply (process_line_key _ _ _ max). Qed.

Definition assigned (c : Config) : Prop :=
  clean MAX_HOST_LENGTH (host (server c)) = true /\ in_u 16 (port (server c)) = true
  /\ in_u 32 (connect_timeout_ms (network c)) = true
  /\ in_u 32 (ping_interval_ms (network c)) = true
  /\ in_u 32 (reconnect_delay_ms (network c)) = true
  /\ in_u 32 (max_reconnect_attempts (network c)) = true
  /\ clean MAX_PASSPHRASE_LENGTH (passphrase (ldn c)) = true
  /\ clean MAX_INTERFACE_LENGTH (interface_name (ldn c)) = true
  /\ in_u 32 (level (debug c)) = true.

Lemma config_ok_assigned c : config_ok c = true -> assigned c.
Proof. unfold config_ok, assigned. intros H. zbool. by split_and!. Qed.

Lemma fmt_u_length n : in_u 32 n = true -> zlen (fmt_u n) <= 20.
Proof. intros Hn. exact (clean_length 20 _ (clean_digits n Hn)). Qed.

Lemma fmt_bool_length b : zlen (fmt_bool b) = 1.
Proof. by destruct b. Qed.

Lemma config_text_size c : config_ok c = true -> text_size (config_lines c) <= 2000.
Proof.
  intros (H1 & H2 & H3 & H4 & H5 & H6 & H7 & H8 & H9)%config_ok_assigned.
  apply clean_length in H1, H7, H8. apply in_u_16_32 in H2.
  apply fmt_u_length in H2, H3, H4, H5, H6, H9.
  unfold config_lines, text_size. cbn [foldr]. rewrite !zlen_app, !fmt_bool_length, !zlen_str.
  unfold MAX_HOST_LENGTH, MAX_PASSPHRASE_LENGTH, MAX_INTERFACE_LENGTH in *.
  cbn [String.length Z.of_nat]. lia.
Qed.

Lemma config_lines_ok c : config_ok c = true -> forallb line_ok (config_lines c) = true.
Proof.
  intros (H1 & H2 & H3 & H4 & H5 & H6 & H7 & H8 & H9)%config_ok_assigned.
  apply in_u_16_32 in H2.
  unfold config_lines. cbn [forallb].
  repeat match goal with
  | |- context [line_ok (str ?s ++ fmt_u ?n)] =>
      rewrite (line_ok_value s 20 (fmt_u n)); [|reflexivity|by apply clean_digits|vm_compute; lia]
  | |- context [line_ok (str ?s ++ fmt_bool ?b)] =>
      rewrite (line_ok_value s 1 (fmt_bool b)); [|reflexivity|apply clean_bool|vm_compute; lia]
  end.
  rewrite (line_ok_value "host = " _ _ eq_refl H1) by (vm_compute; lia).
  rewrite (line_ok_value "passphrase = " _ _ eq_refl H7) by (vm_compute; lia).
  rewrite (line_ok_value "interface = " _ _ eq_refl H8) by (vm_compute; lia).
  reflexivity.
Qed.

(** One line after the other. *)
Lemma run_step l ls sc sc' r :
  process_line l sc = sc' ->
  foldl (fun sc l => process_line l sc) sc' ls = r ->
  foldl (fun sc l => process_line l sc) sc (l :: ls) = r.
Proof. by intros <-. Qed.

(** A comment, an empty line or the name of a section. *)
Ltac other_lines :=
  repeat match goal with
  | |- foldl _ _ (str _ :: _) = _ => eapply run_step; [reflexivity|]
  end.

Ltac pick_key :=
  unfold process_key, process_server_key, process_network_key, process_ldn_key,
    process_debug_key, streq;
  repeat first [rewrite bool_decide_eq_true_2 by reflexivity
               | rewrite bool_decide_eq_false_2 by discriminate];
  cbn [server network ldn debug host port use_tls connect_timeout_ms ping_interval_ms
    reconnect_delay_ms max_reconnect_attempts ldn_enabled passphrase interface_name disable_p2p
    debug_enabled level log_to_file];
  reflexivity.

Ltac assign key max :=
  other_lines; eapply run_step;
    [eapply (assign_line _ key _ _ _ max);
      [reflexivity|reflexivity|reflexivity
       |first [done | apply clean_bool | by apply clean_digits
              | by apply clean_digits, in_u_16_32]
       |pick_key]|].

(** The keys of each section, and the field they set. *)
Lemma run_config_lines c c0 :
  config_ok c = true ->
  foldl (fun sc l => process_line l sc) (Section_None, c0) (config_lines c) = (Section_Debug, c).
Proof.
  intros (H1 & H2 & H3 & H4 & H5 & H6 & H7 & H8 & H9)%config_ok_assigned.
  destruct c as [[ho po tl] [ct pi rd ma] [en pa inn dp] [de lv lf]], c0 as [[] [] [] []].
  unfold config_lines.
  cbn [server network ldn debug host port use_tls connect_timeout_ms ping_interval_ms
    reconnect_delay_ms max_reconnect_attempts ldn_enabled passphrase interface_name disable_p2p
    debug_enabled level log_to_file] in *.
  assign "host"%string MAX_HOST_LENGTH.
  assign "port"%string 20%nat.
  assign "use_tls"%string 1%nat.
  assign "connect_timeout"%string 20%nat.
  assign "ping_interval"%string 20%nat.
  assign "reconnect_delay"%string 20%nat.
  assign "max_reconnect_attempts"%string 20%nat.
  assign "enabled"%string 1%nat.
  assign "passphrase"%string MAX_PASSPHRASE_LENGTH.
  assign "interface"%string MAX_INTERFACE_LENGTH.
  assign "disable_p2p"%string 1%nat.
  assign "enabled"%string 1%nat.
  assign "level"%string 20%nat.
  assign "log_to_file"%string 1%nat.
  cbn [foldl].
  by rewrite !clean_take, !parse_uint32_fmt, parse_uint16_fmt, !parse_bool_fmt by done.
Qed.

(** ** Properties *)

(** The file a configuration is formatted to. *)
Lemma load_formatted c c0 :
  config_ok c = true ->
  let content := format_config_content 4096 c in
  load_config {| fs_entry := Some true; fs_open := true; fs_size := Some (zlen content);
                 fs_alloc := true; fs_read := Some content |} c0 = (Success, c).
Proof.
  intros Hok content. pose proof (config_text_size c Hok) as Hs.
  assert (Hc : content = List.concat (map (fun l => l ++ [10]) (config_lines c))).
  { subst content. unfold format_config_content. by rewrite write_lines_fit by (change (zlen []) with 0; lia). }
  assert (Hlen : zlen content = text_size (config_lines c)).
  { rewrite Hc. generalize (config_lines c). intros ls. induction ls as [|l ls IH]; [done|].
    cbn [map List.concat text_size foldr]. rewrite !zlen_app, IH. change (zlen [10]) with 1.
    unfold text_size. lia. }
  unfold load_config. cbn [fs_entry fs_open fs_size fs_alloc fs_read negb].
  pose proof (text_size_nonneg (tail (config_lines c))) as Hpos.
  assert (0 < text_size (config_lines c)).
  { cbn [config_lines tail text_size foldr] in *. rewrite zlen_str. unfold text_size in Hpos.
    simpl String.length. lia. }
  rewrite (proj2 (Z.leb_gt _ _)), (proj2 (Z.ltb_ge _ _)) by lia. cbn [orb].
  f_equal. unfold parse_config_content. rewrite Hc, parse_loop_lines by by apply config_lines_ok.
  by rewrite run_config_lines.
Qed.

(** what [save_config] writes, [load_config] reads: for every configuration
    whose strings the file format can carry, a save that reports success has
    last written a content, of the size the file was created with, from which
    loading restores every setting exactly, whatever the configuration held
    before; nothing of the text is cut off by the 4096-byte buffer. *)
Theorem save_load_roundtrip path v c c0 calls :
  config_ok c = true ->
  save_config path v c = (Success, calls) ->
  exists content,
    last calls = Some (WriteFile content) /\ CreateFile (zlen content) ∈ calls
    /\ load_config {| fs_entry := Some true; fs_open := true; fs_size := Some (zlen content);
                      fs_alloc := true; fs_read := Some content |} c0 = (Success, c).
Proof.
  intros Hok. unfold save_config.
  generalize (match parent_dir (safe_strcpy path 255) with
              | Some dir => [EnsureDirectory dir] | None => [] end) as prefix. intros prefix.
  destruct (sv_alloc v), (sv_create v), (sv_open v), (sv_write v); try done. cbn [negb].
  intros Hc. simplify_eq. exists (format_config_content 4096 c).
  split; [by rewrite last_snoc|]. split; [|by apply load_formatted].
  do 2 (apply elem_of_app; left). apply elem_of_app. right.
  rewrite app_assoc. apply elem_of_app. right. by apply list_elem_of_singleton.
Qed.

Lemma save_load_roundtrip_witness :
  let content := format_config_content 4096 get_default_config in
  let calls := [EnsureDirectory (str "sdmc:/config"); GetEntryType; DeleteFile;
                CreateFile (zlen content); OpenFile_Write; WriteFile content] in
  exists content',
    last calls = Some (WriteFile content') /\ CreateFile (zlen content') ∈ calls
    /\ load_config {| fs_entry := Some true; fs_open := true; fs_size := Some (zlen content');
                      fs_alloc := true; fs_read := Some content' |} get_default_config
       = (Success, get_default_config).
Proof.
  intros content calls.
  apply (save_load_roundtrip (str "sdmc:/config/config.ini")
    {| sv_alloc := true; sv_entry := true; sv_create := true; sv_open := true; sv_write := true |}
    get_default_config get_default_config calls); reflexivity.
Defined.
