(* ===== verification/GameWhitelist.v ===== *)
(** * The list of games ([config/game_whitelist.{hpp,cpp}])

    One hexadecimal program id per line, read in chunks of 512 bytes, sorted,
    made unique and looked up by binary search.  [std::sort], [std::unique] and
    [std::binary_search] are the standard library's, written out here.  The
    file is what [OpenFile], [GetFileSize] and [ReadFile] answer; characters are
    their codes. *)

From stdpp Require Import base numbers list sorting.
From Stdlib Require Import ZArith Lia Bool.
From S2P Require Import Prelude.

Definition BYTES_PER_ENTRY : Z := 18.
Definition CHUNK_SIZE : Z := 512.
Definition LINE_BUF_SIZE : nat := 24.

(** ** Parsing one line *)

Definition hex_digit (c : Z) : option Z :=
  if (48 <=? c) && (c <=? 57) then Some (c - 48)
  else if (97 <=? c) && (c <=? 102) then Some (10 + (c - 97))
  else if (65 <=? c) && (c <=? 70) then Some (10 + (c - 65))
  else None.

(** The loop: it stops at the first character that is not a digit. *)
Fixpoint parse_digits (str : list Z) (result : Z) : Z :=
  match str with
  | [] => result
  | c :: str => match hex_digit c with
                | Some digit => parse_digits str (u64 (Z.lor (Z.shiftl result 4) digit))
                | None => result
                end
  end.

Definition ParseHexId (str : list Z) : Z :=
  match str with
  | c0 :: c1 :: rest =>
      if (c0 =? 48) && ((c1 =? 120) || (c1 =? 88)) then parse_digits rest 0
      else parse_digits str 0
  | _ => parse_digits str 0
  end.

(** ** Reading the file *)

(** The line buffer and the ids stored so far. *)
Record loader : Type := { l_line : list Z; l_ids : list Z }.

Definition store_line (st : loader) : loader :=
  match l_line st with
  | [] => st
  | line => {| l_line := [];
               l_ids := if ParseHexId line =? 0 then l_ids st else l_ids st ++ [ParseHexId line] |}
  end.

Definition read_char (c : Z) (st : loader) : loader :=
  if (c =? 10) || (c =? 13) then store_line st
  else if (length (l_line st) <? LINE_BUF_SIZE - 1)%nat
  then {| l_line := l_line st ++ [c]; l_ids := l_ids st |} else st.

(** The loop over a chunk stops when the array is full. *)
Fixpoint read_chunk (capacity : nat) (chunk : list Z) (st : loader) : loader :=
  match chunk with
  | [] => st
  | c :: chunk => if (length (l_ids st) <? capacity)%nat
                  then read_chunk capacity chunk (read_char c st) else st
  end.

(** The loop over the file.  [read offset n] is what [ReadFile] answers. *)
Fixpoint read_file (fuel capacity : nat) (file_size : Z) (read : Z -> Z -> option (list Z))
    (offset : Z) (st : loader) : option loader :=
  if (offset <? file_size) && (length (l_ids st) <? capacity)%nat then
    match fuel with
    | O => None
    | S fuel =>
        let to_read := if file_size - offset <? CHUNK_SIZE then file_size - offset
                       else CHUNK_SIZE in
        match read offset to_read with
        | None => Some st
        | Some chunk => read_file fuel capacity file_size read (offset + zlen chunk)
                          (read_chunk capacity chunk st)
        end
    end
  else Some st.

(** ** Standard algorithms *)

Fixpoint insert_sorted (x : Z) (l : list Z) : list Z :=
  match l with
  | [] => [x]
  | y :: l => if x <=? y then x :: y :: l else y :: insert_sorted x l
  end.

Definition std_sort (l : list Z) : list Z := foldr insert_sorted [] l.

Fixpoint std_unique (l : list Z) : list Z :=
  match l with
  | x :: ((y :: _) as l') => if x =? y then std_unique l' else x :: std_unique l'
  | _ => l
  end.

(** [std::lower_bound] on the [len] elements from [first]. *)
Fixpoint lower_bound (fuel : nat) (l : list Z) (first len : nat) (value : Z) : nat :=
  match fuel with
  | O => first
  | S fuel =>
      if decide (len = 0%nat) then first
      else
        let half := (len / 2)%nat in
        let middle := (first + half)%nat in
        if nth middle l 0 <? value then lower_bound fuel l (S middle) (len - half - 1) value
        else lower_bound fuel l first half value
  end.

Definition binary_search (l : list Z) (value : Z) : bool :=
  let i := lower_bound (length l) l 0 (length l) value in
  (i <? length l)%nat && negb (value <? nth i l 0).

(** ** The whitelist *)

Record Whitelist : Type := { g_whitelist : list Z; g_whitelist_loaded : bool }.

Definition new_Whitelist : Whitelist := {| g_whitelist := []; g_whitelist_loaded := false |}.

(** What the file system answers: whether the file opens, its size, whether the
    array can be allocated, and the bytes at an offset. *)
Record list_file : Type := {
  lf_open : bool;
  lf_size : option Z;
  lf_alloc : bool;
  lf_read : Z -> Z -> option (list Z)
}.

Definition loaded (ids : list Z) : Whitelist :=
  {| g_whitelist := ids; g_whitelist_loaded := true |}.

(** [None]: the loading loop does not end within [fuel] chunks. *)
Definition LoadWhitelist (fuel : nat) (f : list_file) (w : Whitelist) : option Whitelist :=
  if g_whitelist_loaded w then Some w
  else if negb (lf_open f) then Some (loaded (g_whitelist w))
  else match lf_size f with
  | None => Some (loaded (g_whitelist w))
  | Some file_size =>
      if file_size <=? 0 then Some (loaded (g_whitelist w))
      else
        let capacity := Z.to_nat (file_size / BYTES_PER_ENTRY + 100) in
        if negb (lf_alloc f) then Some (loaded (g_whitelist w))
        else match read_file fuel capacity file_size (lf_read f) 0
                     {| l_line := []; l_ids := g_whitelist w |} with
        | None => None
        | Some st =>
            let st := if (length (l_ids st) <? capacity)%nat then store_line st else st in
            let ids := l_ids st in
            Some (loaded (if (1 <? length ids)%nat then std_unique (std_sort ids) else ids))
        end
  end.

Definition IsGameInWhitelist (program_id : Z) (w : Whitelist) : bool :=
  if negb (g_whitelist_loaded w) then false
  else match g_whitelist w with
  | [] => (0x0100000000000000 <=? program_id) && negb (program_id =? 0x010028600ebda000)
  | l => binary_search l program_id
  end.

(** ** Specification *)

(** A file that reads as [content]: each read gives at least one byte of what it
    asks for, and perhaps not all. *)
Record reads_as (f : list_file) (content : list Z) : Prop := {
  ra_open : lf_open f = true;
  ra_size : lf_size f = Some (zlen content);
  ra_alloc : lf_alloc f = true;
  ra_read offset n : 0 <= offset < zlen content -> 0 < n <= zlen content - offset ->
    exists k, 0 < k <= n /\ lf_read f offset n = Some (ztake k (zdrop offset content))
}.

(** The characters of a hexadecimal digit, in either case. *)
Definition digit_char (c d : Z) : Prop :=
  0 <= d < 16 /\ (c = (if d <? 10 then 48 + d else 97 + (d - 10)) \/ 10 <= d /\ c = 65 + (d - 10)).

(** At most 16 digits, and their value. *)
Definition number (text : list Z) (id : Z) : Prop :=
  exists digits, Forall2 digit_char text digits /\ (length digits <= 16)%nat
    /\ id = foldl (fun acc d => 16 * acc + d) 0 digits.

Definition is_eol (c : Z) : bool := (c =? 10) || (c =? 13).
Definition no_digit (rest : list Z) : Prop :=
  match rest with [] => True | c :: _ => hex_digit c = None end.
Definition is_prefix (prefix : list Z) : Prop := prefix = [48; 120] \/ prefix = [48; 88].

(** A line of the file: [0x] or [0X] or neither, a number, and something else that
    is not a digit - a blank, a comment, nothing.  A line without a number stands
    for the id 0. *)
Definition line_of (id : Z) (line : list Z) : Prop :=
  exists prefix text rest, line = prefix ++ text ++ rest
    /\ (is_prefix prefix
        \/ prefix = [] /\ ~ is_prefix (ztake 2 (text ++ rest)))
    /\ number text id /\ no_digit rest /\ forallb (fun c => negb (is_eol c)) rest = true.

(** The lines of a file, each with its own line end, the last one perhaps without. *)
Inductive file_lines : list Z -> list Z -> Prop :=
| NoLines : file_lines [] []
| LastLine line id : line_of id line -> file_lines line [id]
| OneLine line id eol content ids :
    line_of id line -> eol = [10] \/ eol = [13] \/ eol = [13; 10] -> file_lines content ids ->
    file_lines (line ++ eol ++ content) (id :: ids).

Definition listed (ids : list Z) : list Z := List.filter (fun id => negb (id =? 0)) ids.

(** The ids the characters of a file stand for, whatever the chunks and the
    size of the array. *)
Definition line_ids (line : list Z) : list Z := l_ids (store_line {| l_line := line; l_ids := [] |}).

Fixpoint ids_of (line content : list Z) : list Z :=
  match content with
  | [] => line_ids line
  | c :: content =>
      if (c =? 10) || (c =? 13) then line_ids line ++ ids_of [] content
      else ids_of (if (length line <? LINE_BUF_SIZE - 1)%nat then line ++ [c] else line) content
  end.

(** ** Lemmas: searching *)

Definition sorted_lt : list Z -> Prop := StronglySorted Z.lt.

Lemma elem_of_insert_sorted x y l : y ∈ insert_sorted x l <-> y = x \/ y ∈ l.
Proof.
  induction l as [|z l IH]; simpl; [by rewrite list_elem_of_singleton, elem_of_nil; naive_solver|].
  case_if; rewrite !elem_of_cons; [done|]. rewrite IH. naive_solver.
Qed.

Lemma elem_of_std_sort y l : y ∈ std_sort l <-> y ∈ l.
Proof.
  induction l as [|x l IH]; [done|]. simpl. by rewrite elem_of_insert_sorted, elem_of_cons, IH.
Qed.

Lemma insert_sorted_sorted x l : StronglySorted Z.le l -> StronglySorted Z.le (insert_sorted x l).
Proof.
  induction 1 as [|y l Hl IH Hy]; simpl; [repeat constructor|].
  destruct (Z.leb_spec x y) as [Hle|Hlt].
  - constructor; [by constructor|]. constructor; [done|].
    eapply Forall_impl; [exact Hy|]. intros; simpl in *; lia.
  - constructor; [done|]. apply Forall_forall. intros z [->|Hz]%elem_of_insert_sorted; [lia|].
    by apply (proj1 (Forall_forall _ _) Hy).
Qed.

Lemma std_sort_sorted l : StronglySorted Z.le (std_sort l).
Proof. induction l; simpl; [constructor|by apply insert_sorted_sorted]. Qed.

Lemma std_unique_cons x y l :
  std_unique (x :: y :: l) = if x =? y then std_unique (y :: l) else x :: std_unique (y :: l).
Proof. done. Qed.

Lemma elem_of_std_unique z l : z ∈ std_unique l <-> z ∈ l.
Proof.
  induction l as [|x [|y l] IH]; [done|done|]. rewrite std_unique_cons.
  destruct (Z.eqb_spec x y) as [->|]; rewrite ?elem_of_cons, IH, ?elem_of_cons; naive_solver.
Qed.

Lemma std_unique_sorted l : StronglySorted Z.le l -> sorted_lt (std_unique l).
Proof.
  induction l as [|x [|y l] IH]; [by constructor|repeat constructor|].
  intros [Hs Hx]%StronglySorted_inv. rewrite std_unique_cons.
  destruct (Z.eqb_spec x y) as [->|Hne]; [by apply IH|].
  constructor; [by apply IH|]. apply Forall_forall. intros z Hz. apply (proj1 (elem_of_std_unique _ _)) in Hz.
  apply Forall_cons in Hx as [Hxy _]. apply StronglySorted_inv in Hs as [_ Hy].
  apply elem_of_cons in Hz as [->|Hz]; [lia|].
  pose proof (proj1 (Forall_forall _ _) Hy z Hz). simpl in *. lia.
Qed.

Lemma sorted_nth_lt l i j :
  sorted_lt l -> (i < j < length l)%nat -> nth i l 0 < nth j l 0.
Proof.
  intros Hl. revert i j. induction Hl as [|x l Hl IH Hx]; intros i j Hij; [simpl in Hij; lia|].
  destruct j as [|j]; [lia|]. simpl in Hij. destruct i as [|i]; simpl.
  - apply (proj1 (Forall_forall _ _) Hx). rewrite nth_lookup.
    destruct (lookup_lt_is_Some_2 l j ltac:(lia)) as [y Hy]. rewrite Hy. by eapply list_elem_of_lookup_2.
  - apply IH. lia.
Qed.

(** [std::lower_bound] finds the border of the elements below the value. *)
Lemma lower_bound_spec fuel l first len v :
  sorted_lt l -> (first + len <= length l)%nat -> (len <= fuel)%nat ->
  (forall i, (i < first)%nat -> nth i l 0 < v) ->
  (forall i, (first + len <= i < length l)%nat -> v <= nth i l 0) ->
  let r := lower_bound fuel l first len v in
  (r <= length l)%nat /\ (forall i, (i < r)%nat -> nth i l 0 < v)
  /\ (forall i, (r <= i < length l)%nat -> v <= nth i l 0).
Proof.
  intros Hl. revert first len. induction fuel as [|fuel IH]; intros first len Hlen Hf Hlo Hhi.
  { assert (len = 0%nat) as -> by lia. simpl. rewrite Nat.add_0_r in *. by split_and!. }
  cbn [lower_bound]. case_decide as E.
  { subst len. rewrite Nat.add_0_r in *. by split_and!. }
  assert (Hhalf : (len / 2 < len)%nat) by (apply Nat.div_lt; lia).
  set (mid := (first + len / 2)%nat).
  destruct (Z.ltb_spec (nth mid l 0) v) as [Hm|Hm].
  - apply IH; [lia|lia| |].
    + intros i Hi. destruct (decide (i = mid)) as [->|]; [done|].
      assert (nth i l 0 < nth mid l 0) by (apply sorted_nth_lt; [done|lia]). lia.
    + intros i Hi. apply Hhi. lia.
  - apply IH; [lia|lia|done|]. intros i Hi.
    destruct (decide (i = mid)) as [->|]; [lia|].
    assert (nth mid l 0 < nth i l 0) by (apply sorted_nth_lt; [done|lia]). lia.
Qed.

Lemma binary_search_spec l v : sorted_lt l -> binary_search l v = true <-> v ∈ l.
Proof.
  intros Hl. unfold binary_search.
  destruct (lower_bound_spec (length l) l 0 (length l) v Hl) as (Hr & Hlo & Hhi);
    [lia|lia|lia|lia|].
  set (r := lower_bound _ _ _ _ _) in *. clearbody r.
  rewrite andb_true_iff, Nat.ltb_lt, negb_true_iff, Z.ltb_ge. split.
  - intros [Hlt Hle]. assert (nth r l 0 = v) as <- by (specialize (Hhi r); lia).
    rewrite nth_lookup. destruct (lookup_lt_is_Some_2 l r Hlt) as [x Hx]. rewrite Hx.
    by eapply list_elem_of_lookup_2.
  - intros (i & Hi)%list_elem_of_lookup. pose proof (lookup_lt_Some _ _ _ Hi) as Hlt.
    assert (Hn : nth i l 0 = v) by by rewrite nth_lookup, Hi.
    assert (~ (i < r)%nat) by (intros ?%Hlo; lia).
    split; [lia|]. destruct (Nat.eq_dec r i) as [E|]; [rewrite E; lia|].
    assert (nth r l 0 < nth i l 0) by (apply sorted_nth_lt; [done|lia]). lia.
Qed.

(** ** Lemmas: reading *)

Lemma store_line_ids line ids :
  store_line {| l_line := line; l_ids := ids |}
  = {| l_line := []; l_ids := ids ++ line_ids line |}.
Proof.
  unfold line_ids, store_line. destruct line as [|c line]; simpl; [by rewrite app_nil_r|].
  case_if; [by rewrite app_nil_r|done].
Qed.

Lemma line_ids_length line : (length (line_ids line) <= 1)%nat.
Proof.
  unfold line_ids, store_line. destruct line; simpl; [lia|]. case_if; simpl; lia.
Qed.


Lemma take_app_room {A} n (l k k' : list A) :
  (length l <= n)%nat -> (length l = n \/ k = k') -> take n (l ++ k) = take n (l ++ k').
Proof.
  intros Hl [<-| ->]; [|done]. by rewrite !take_app_length.
Qed.

Lemma read_chunk_spec capacity chunk st rest :
  (length (l_ids st) <= capacity)%nat ->
  let st' := read_chunk capacity chunk st in
  (length (l_ids st') <= capacity)%nat
  /\ take capacity (l_ids st' ++ ids_of (l_line st') rest)
     = take capacity (l_ids st ++ ids_of (l_line st) (chunk ++ rest)).
Proof.
  revert st. induction chunk as [|c chunk IH]; intros [line ids] Hst; [done|].
  cbn [read_chunk]. destruct (Nat.ltb_spec (length ids) capacity) as [Hlt|Hge]; cbn [l_ids l_line] in *;
    rewrite ?(proj2 (Nat.ltb_lt _ _) Hlt), ?(proj2 (Nat.ltb_ge _ _) Hge).
  - unfold read_char. cbn [app ids_of l_line l_ids]. case_if.
    + rewrite store_line_ids. pose proof (line_ids_length line).
      destruct (IH {| l_line := []; l_ids := ids ++ line_ids line |}) as [Hl He];
        [cbn [l_ids]; rewrite length_app; lia|].
      cbn [l_ids l_line] in *. split; [done|]. by rewrite He, <- app_assoc.
    + case_if; apply IH; cbn [l_ids]; lia.
  - split; [done|]. apply take_app_room; [done|left; lia].
Qed.

(** Whatever the chunks, the loop stores the first [capacity] ids of the file. *)
Lemma read_file_spec fuel capacity f content offset st :
  reads_as f content ->
  0 <= offset <= zlen content -> (length (l_ids st) <= capacity)%nat ->
  (Z.to_nat (zlen content - offset) <= fuel)%nat ->
  exists st', read_file fuel capacity (zlen content) (lf_read f) offset st = Some st'
    /\ l_ids (if (length (l_ids st') <? capacity)%nat then store_line st' else st')
       = take capacity (l_ids st ++ ids_of (l_line st) (zdrop offset content)).
Proof.
  intros Hr. revert offset st. induction fuel as [|fuel IH]; intros offset st Ho Hst Hf; cbn [read_file];
    (destruct (Nat.ltb_spec (length (l_ids st)) capacity) as [Hlt|Hge];
     [rewrite andb_true_r|rewrite andb_false_r]).
  1, 3: destruct (Z.ltb_spec offset (zlen content)) as [Hin|Hout].
  1: lia.
  2: {
    set (n := if _ <? CHUNK_SIZE then _ else _).
    assert (Hn : 0 < n <= zlen content - offset)
      by (subst n; unfold CHUNK_SIZE; destruct (Z.ltb_spec (zlen content - offset) 512); lia).
    destruct (ra_read _ _ Hr offset n ltac:(lia) Hn) as (k & Hk & ->).
    set (chunk := ztake k (zdrop offset content)).
    assert (Hzn : zlen chunk = k) by (subst chunk; rewrite zlen_ztake; [done|rewrite zlen_zdrop; lia]).
    rewrite Hzn. pose proof (read_chunk_spec capacity chunk st (zdrop k (zdrop offset content)) Hst)
      as (Hl & He). subst chunk. rewrite ztake_zdrop in He.
    destruct (IH (offset + k) (read_chunk capacity (ztake k (zdrop offset content)) st))
      as (st' & Hread & Hfin); [lia|done|lia|].
    exists st'. split; [exact Hread|]. rewrite Hfin, <- He. by rewrite zdrop_zdrop by lia. }
  1, 2: exists st; split; [done|]; rewrite (proj2 (Nat.ltb_lt _ _) Hlt), (zdrop_all offset content) by lia;
    destruct st as [line ids]; rewrite store_line_ids; cbn [l_ids l_line ids_of] in *;
    symmetry; apply take_ge; rewrite length_app; pose proof (line_ids_length line); lia.
  all: exists st; split; [done|]; rewrite (proj2 (Nat.ltb_ge _ _) Hge);
    rewrite take_app_le by lia; symmetry; apply take_ge; lia.
Qed.

(** ** Lemmas: hexadecimal numbers *)

Lemma hex_digit_char c d : digit_char c d -> hex_digit c = Some d.
Proof.
  intros [Hd Hc]. unfold hex_digit.
  assert (Hcase : 48 <= c <= 57 /\ d = c - 48 \/ 97 <= c <= 102 /\ d = 10 + (c - 97)
                  \/ 65 <= c <= 70 /\ d = 10 + (c - 65)) by (destruct (Z.ltb_spec d 10); lia).
  destruct Hcase as [[H ->]|[[H ->]|[H ->]]]; zcases; cbn [andb]; done || lia.
Qed.

Lemma digit_not_eol c d : digit_char c d -> is_eol c = false /\ c <> 120 /\ c <> 88.
Proof.
  intros [Hd Hc]. unfold is_eol. assert (48 <= c <= 102 /\ c <> 88) by (destruct (Z.ltb_spec d 10); lia).
  split; [|lia]. apply orb_false_intro; apply Z.eqb_neq; lia.
Qed.

Lemma parse_rest rest acc : no_digit rest -> parse_digits rest acc = acc.
Proof. destruct rest as [|c rest]; [done|]. cbn. by intros ->. Qed.

Lemma parse_number text digits rest acc :
  Forall2 digit_char text digits -> 0 <= acc ->
  (acc + 1) * 16 ^ Z.of_nat (length digits) <= 2 ^ 64 -> no_digit rest ->
  parse_digits (text ++ rest) acc = foldl (fun acc d => 16 * acc + d) acc digits.
Proof.
  intros Hd. revert acc. induction Hd as [|c d text digits Hc Hd IH]; intros acc Ha Hb Hr.
  { by apply parse_rest. }
  cbn [length] in Hb. rewrite Nat2Z.inj_succ, Z.pow_succ_r in Hb by lia.
  assert (Hp : 0 < 16 ^ Z.of_nat (length digits)) by (apply Z.pow_pos_nonneg; lia).
  cbn [app parse_digits foldl]. rewrite (hex_digit_char c d Hc). destruct Hc as [Hdr _].
  rewrite lor_shiftl by lia. change (2 ^ 4) with 16. rewrite u64_small by nia.
  rewrite (Z.mul_comm acc 16). apply IH; [lia|nia|done].
Qed.

Lemma ParseHexId_unprefixed l :
  ~ is_prefix (ztake 2 l) -> ParseHexId l = parse_digits l 0.
Proof.
  intros Hn. destruct l as [|c0 [|c1 l]]; [done|done|]. cbn [ParseHexId].
  destruct (Z.eqb_spec c0 48) as [->|]; [|done]. cbn [andb].
  destruct (Z.eqb_spec c1 120) as [->|]; [destruct Hn; by left|].
  destruct (Z.eqb_spec c1 88) as [->|]; [destruct Hn; by right|done].
Qed.

(** The part of a line that the buffer holds. *)
Definition kept (line : list Z) : list Z := take (LINE_BUF_SIZE - 1) line.

Lemma number_length text id : number text id -> (length text <= 16)%nat.
Proof. intros (digits & Hd & Hlen & _). by rewrite (Forall2_length _ _ _ Hd). Qed.

Lemma ParseHexId_line id line : line_of id line -> ParseHexId (kept line) = id.
Proof.
  intros (prefix & text & rest & -> & Hpre & Hnum & Hrest & _).
  pose proof (number_length text id Hnum) as Hlen.
  assert (Hp2 : (length prefix <= 2)%nat) by (destruct Hpre as [[->| ->]|[-> _]]; cbn; lia).
  unfold kept, LINE_BUF_SIZE.
  rewrite app_assoc, take_app_ge, <- app_assoc by (rewrite length_app; lia).
  set (k := (_ - _)%nat). assert (Hk : no_digit (take k rest)).
  { destruct rest as [|c rest]; [by destruct k|]. by destruct k. }
  destruct Hnum as (digits & Hd & Hn & ->).
  assert (Hparse : parse_digits (text ++ take k rest) 0 = foldl (fun acc d => 16 * acc + d) 0 digits).
  { apply parse_number; [done|lia| |done].
    pose proof (Z.pow_le_mono_r 16 (Z.of_nat (length digits)) 16 ltac:(lia) ltac:(lia)).
    change (16 ^ 16) with (2 ^ 64) in *. lia. }
  destruct Hpre as [[->| ->]|[-> Hno]]; [exact Hparse|exact Hparse|]. cbn [app].
  rewrite ParseHexId_unprefixed; [exact Hparse|]. intros Hbad. apply Hno.
  assert (Hcut : ztake 2 (text ++ take k rest) = ztake 2 (text ++ rest)); [|by rewrite <- Hcut].
  unfold ztake. change (Z.to_nat 2) with 2%nat.
  assert (Hk2 : (7 <= k)%nat) by (subst k; rewrite length_app; cbn [length]; lia).
  rewrite !take_app, take_take. f_equal. f_equal. lia.
Qed.

Lemma line_no_eol id line : line_of id line -> forallb (fun c => negb (is_eol c)) line = true.
Proof.
  intros (prefix & text & rest & -> & Hpre & (digits & Hd & _ & _) & _ & Hr).
  rewrite !forallb_app, Hr, andb_true_r. apply andb_true_iff. split.
  - by destruct Hpre as [[->| ->]|[-> _]].
  - clear Hpre. induction Hd as [|c d text digits Hc _ IH]; [done|]. cbn.
    destruct (digit_not_eol c d Hc) as [-> _]. exact IH.
Qed.

Lemma ids_of_chars line cs rest :
  forallb (fun c => negb (is_eol c)) cs = true -> (length line < LINE_BUF_SIZE)%nat ->
  ids_of line (cs ++ rest) = ids_of (kept (line ++ cs)) rest.
Proof.
  unfold kept. revert line. induction cs as [|c cs IH]; intros line; cbn [forallb app ids_of].
  { intros _ Hl. rewrite app_nil_r, take_ge; [done|lia]. }
  intros [Hc%negb_true_iff Hcs]%andb_true_iff Hl. unfold is_eol in Hc. rewrite Hc.
  destruct (Nat.ltb_spec (length line) (LINE_BUF_SIZE - 1)) as [Hlt|Hge].
  - rewrite IH; [by rewrite <- app_assoc|done|]. rewrite length_app. cbn. lia.
  - rewrite IH by done. f_equal. rewrite !take_app_le by lia. done.
Qed.

Lemma line_ids_of id line : line_of id line -> line_ids (kept line) = listed [id].
Proof.
  intros Hl. pose proof (ParseHexId_line id line Hl) as Hp. unfold line_ids, store_line. cbn [l_line l_ids].
  destruct (kept line) as [|c l]; [by subst id|]. rewrite Hp. cbn [listed List.filter].
  destruct (Z.eqb_spec id 0); done.
Qed.

Lemma line_ids_nil : line_ids [] = [].
Proof. done. Qed.

Lemma listed_cons id ids : listed (id :: ids) = listed [id] ++ listed ids.
Proof. unfold listed. cbn [List.filter]. by destruct (negb _). Qed.

Lemma ids_of_lines content ids : file_lines content ids -> ids_of [] content = listed ids.
Proof.
  induction 1 as [|line id Hl|line id eol content ids Hl Heol Hc IH]; [done| |].
  - rewrite <- (app_nil_r line), (ids_of_chars [] line [] (line_no_eol _ _ Hl)) by (unfold LINE_BUF_SIZE; cbn; lia).
    cbn [app ids_of]. by apply line_ids_of.
  - rewrite (ids_of_chars [] line _ (line_no_eol _ _ Hl)), listed_cons, <- IH by (unfold LINE_BUF_SIZE; cbn; lia).
    pose proof (line_ids_of _ _ Hl) as E. cbn [app] in *.
    destruct Heol as [->|[->| ->]]; cbn [app ids_of Z.eqb Pos.eqb orb]; by rewrite E, ?line_ids_nil.
Qed.

Lemma dedup_sorted ids :
  let l := if (1 <? length ids)%nat then std_unique (std_sort ids) else ids in
  sorted_lt l /\ (forall v, v ∈ l <-> v ∈ ids) /\ (l = [] <-> ids = []).
Proof.
  intros l. assert (Hl : sorted_lt l /\ forall v, v ∈ l <-> v ∈ ids).
  { subst l. destruct ids as [|x [|y ids]]; [by split; [constructor|]|by split; [repeat constructor|]|].
    cbn [length Nat.ltb Nat.leb]. split; [apply std_unique_sorted, std_sort_sorted|].
    intros v. by rewrite elem_of_std_unique, elem_of_std_sort. }
  destruct Hl as [Hs He]. split_and!; [done|done|]. clearbody l. split; intros ->.
  - apply elem_of_nil_inv. intros v Hv. apply He in Hv. by apply elem_of_nil in Hv.
  - apply elem_of_nil_inv. intros v Hv. apply He in Hv. by apply elem_of_nil in Hv.
Qed.

(** A file shorter than the size it reports: [ReadFile] keeps answering success
    with no bytes, and the loop never advances. *)
Lemma truncated_file_loops fuel capacity file_size read offset st :
  offset < file_size -> (length (l_ids st) < capacity)%nat ->
  (forall n, read offset n = Some []) ->
  read_file fuel capacity file_size read offset st = None.
Proof.
  intros Ho Hc Hr. induction fuel as [|fuel IH]; cbn [read_file];
    rewrite (proj2 (Z.ltb_lt _ _) Ho), (proj2 (Nat.ltb_lt _ _) Hc); [done|].
  cbn [andb]. rewrite Hr. cbn [read_chunk]. change (zlen []) with 0. by rewrite Z.add_0_r.
Qed.

(** ** Properties *)

(** C39: a game list is loaded completely and looked up exactly.  Whatever the
    file gives for each read - at least one byte of what was asked for -, and
    however its lines are written - [0x], [0X] or no prefix, up to 16 digits in
    either case, something behind them, any line end -, the loading loop ends and
    the binary search accepts afterwards exactly the ids of the lines, as long as
    there are no more than the array is made for, one for each 18 bytes of the
    file and 100.  Without any id every application is admitted but the overlay
    menu. *)
Theorem whitelist_accepts_listed f content ids :
  reads_as f content -> file_lines content ids ->
  Z.of_nat (length (listed ids)) <= zlen content / BYTES_PER_ENTRY + 100 ->
  exists w, LoadWhitelist (length content) f new_Whitelist = Some w
    /\ forall program_id, IsGameInWhitelist program_id w = true <->
         if decide (listed ids = []) then 0x0100000000000000 <= program_id
                                          /\ program_id <> 0x010028600ebda000
         else program_id ∈ listed ids.
Proof.
  intros Hread Hlines Hcap. unfold LoadWhitelist. cbn [new_Whitelist g_whitelist_loaded g_whitelist].
  rewrite (ra_open _ _ Hread), (ra_size _ _ Hread), (ra_alloc _ _ Hread). cbn [negb].
  pose proof (ids_of_lines content ids Hlines) as Hids.
  assert (Hempty : forall program_id, IsGameInWhitelist program_id (loaded []) = true <->
    0x0100000000000000 <= program_id /\ program_id <> 0x010028600ebda000).
  { intros id. unfold IsGameInWhitelist. cbn [loaded g_whitelist_loaded g_whitelist negb].
    by rewrite andb_true_iff, negb_true_iff, Z.leb_le, Z.eqb_neq. }
  destruct (Z.leb_spec (zlen content) 0) as [Hz|Hz].
  { destruct content as [|c content]; [|rewrite zlen_cons in Hz; pose proof (zlen_nonneg content); lia].
    cbn [ids_of] in Hids. rewrite line_ids_nil in Hids. rewrite <- Hids.
    exists (loaded []). split; [done|]. intros id. rewrite decide_True by done. apply Hempty. }
  set (cap := Z.to_nat _).
  destruct (read_file_spec (length content) cap f content 0 {| l_line := []; l_ids := [] |} Hread)
    as (st & -> & Hst); [lia|cbn; lia|unfold zlen; lia|].
  cbn [l_ids l_line app] in Hst.
  rewrite zdrop_0, Hids, take_ge in Hst by (subst cap; lia). rewrite Hst. eexists. split; [done|].
  destruct (dedup_sorted (listed ids)) as (Hs & He & Hn).
  set (l := if (1 <? length (listed ids))%nat then _ else _) in *. clearbody l.
  intros id. case_decide as E.
  - apply Hn in E as ->. apply Hempty.
  - unfold IsGameInWhitelist. cbn [loaded g_whitelist_loaded g_whitelist negb].
    destruct l as [|x l]; [tauto|]. by rewrite binary_search_spec, He.
Qed.

(** Four lines - digits in both cases, an id twice, a comment -, read seven bytes
    at a time. *)
Definition sample_ids : list Z := [0x01006F8002326000; 0x0100000000010000; 0; 0x01006F8002326000].
Definition sample_list : list Z :=
  (* 0x01006F8002326000, 0X100000000010000, # x, 01006f8002326000 *)
  [48; 120; 48; 49; 48; 48; 54; 70; 56; 48; 48; 50; 51; 50; 54; 48; 48; 48] ++ [13; 10] ++
  [48; 88; 49; 48; 48; 48; 48; 48; 48; 48; 48; 48; 49; 48; 48; 48; 48] ++ [10] ++
  [35; 32; 120] ++ [10] ++
  [48; 49; 48; 48; 54; 102; 56; 48; 48; 50; 51; 50; 54; 48; 48; 48].
Definition slow_file : list_file := {|
  lf_open := true; lf_size := Some (zlen sample_list); lf_alloc := true;
  lf_read := fun offset n => Some (ztake (Z.min 7 n) (zdrop offset sample_list))
|}.

Lemma sample_number text digits id :
  Forall2 digit_char text digits -> (length digits <= 16)%nat ->
  foldl (fun acc d => 16 * acc + d) 0 digits = id -> number text id.
Proof. intros H1 H2 H3. exists digits. by split_and!. Qed.

Ltac sample_digits := repeat (constructor; [split; [lia|cbn; lia]|]); constructor.

Lemma sample_lines : file_lines sample_list sample_ids.
Proof.
  apply OneLine; [|by right; right|apply OneLine; [|by left|apply OneLine; [|by left|apply LastLine]]].
  - exists [48; 120], [48; 49; 48; 48; 54; 70; 56; 48; 48; 50; 51; 50; 54; 48; 48; 48], [].
    split; [reflexivity|]. split; [by left; left|]. split; [|by split].
    apply (sample_number _ [0; 1; 0; 0; 6; 15; 8; 0; 0; 2; 3; 2; 6; 0; 0; 0]); [|cbn; lia|reflexivity].
    sample_digits.
  - exists [48; 88], [49; 48; 48; 48; 48; 48; 48; 48; 48; 48; 49; 48; 48; 48; 48], [].
    split; [reflexivity|]. split; [by left; right|]. split; [|by split].
    apply (sample_number _ [1; 0; 0; 0; 0; 0; 0; 0; 0; 0; 1; 0; 0; 0; 0]); [|cbn; lia|reflexivity].
    sample_digits.
  - exists [], [], [35; 32; 120]. split; [reflexivity|]. split.
    { right. split; [done|]. intros [H|H]; discriminate. }
    split; [|by split]. apply (sample_number _ []); [constructor|cbn; lia|reflexivity].
  - exists [], [48; 49; 48; 48; 54; 102; 56; 48; 48; 50; 51; 50; 54; 48; 48; 48], [].
    split; [reflexivity|]. split.
    { right. split; [done|]. intros [H|H]; discriminate. }
    split; [|by split].
    apply (sample_number _ [0; 1; 0; 0; 6; 15; 8; 0; 0; 2; 3; 2; 6; 0; 0; 0]); [|cbn; lia|reflexivity].
    sample_digits.
Qed.

Lemma whitelist_accepts_listed_witness :
  exists w, LoadWhitelist (length sample_list) slow_file new_Whitelist = Some w
    /\ IsGameInWhitelist 0x01006F8002326000 w = true /\ IsGameInWhitelist 1 w = false.
Proof.
  destruct (whitelist_accepts_listed slow_file sample_list sample_ids) as (w & Hw & Hin).
  - split; [reflexivity|reflexivity|reflexivity|]. intros offset n Ho Hn.
    exists (Z.min 7 n). split; [lia|reflexivity].
  - exact sample_lines.
  - vm_compute. discriminate.
  - exists w. split; [exact Hw|]. split.
    + apply Hin. left.
    + apply not_true_iff_false. rewrite Hin. vm_compute. intros H.
      repeat (apply elem_of_cons in H as [H|H]; [discriminate H|]). by apply elem_of_nil in H.
Defined.
