(* ===== verification/ConfigManager.v ===== *)
(** * Configuration manager ([config/config_manager.{hpp,cpp}])

    The settings with their setters, the validation of passphrases, the change
    callback and the unsaved-changes flag, over the file of [Config.v].  The
    callback is code outside: the manager's state logs the sections it was
    called with.  A [char*] argument is [None] when null, and otherwise the
    characters in memory, which count up to the first NUL. *)

From stdpp Require Import base numbers list.
From Stdlib Require Import ZArith Lia Bool Ascii String.
From S2P Require Import Prelude Config.

(** ** Passphrases *)

Definition is_hex_lower (c : Z) : bool :=
  ((48 <=? c) && (c <=? 57)) || ((97 <=? c) && (c <=? 102)).

Definition IsValidPassphrase (passphrase : option (list Z)) : bool :=
  match passphrase with
  | None => true
  | Some p =>
      match cstr p with
      | [] => true
      | s =>
          if negb (List.length s =? 16)%nat then false
          else if negb (bool_decide (take 8 s = str "Ryujinx-")) then false
          else forallb is_hex_lower (drop 8 s)
      end
  end.

Definition hex_chars : list Z := str "0123456789abcdef".

(** The loop over the eight digits; [std::rand()] yields the numbers of [rand]
    in turn. *)
Definition random_hex (rand : nat -> Z) : list Z :=
  map (fun i => nth (Z.to_nat (rand i mod 16)) hex_chars 0) (seq 0 8).

(** What is left in the output buffer of [out_size] bytes, as a C string. *)
Definition GenerateRandomPassphrase (out_size : Z) (rand : nat -> Z) : option (list Z) :=
  if out_size <? 17 then if 0 <? out_size then Some [] else None
  else Some (str "Ryujinx-" ++ random_hex rand).

(** ** The manager *)

Record ConfigManager : Type := {
  m_config : Config;
  m_config_path : list Z;
  m_initialized : bool;
  m_dirty : bool;
  m_callback : bool;
  m_notified : list (list Z)
}.

Definition CONFIG_PATH : list Z := str "sdmc:/config/ryu_ldn_nx/config.ini".

Definition NotifyChange (section : string) (m : ConfigManager) : ConfigManager := {|
  m_config := m_config m; m_config_path := m_config_path m; m_initialized := m_initialized m;
  m_dirty := m_dirty m; m_callback := m_callback m;
  m_notified := if m_callback m then m_notified m ++ [str section] else m_notified m
|}.

(** A setter's common part: store, mark as changed, notify. *)
Definition update (section : string) (c : Config) (m : ConfigManager) : ConfigManager :=
  NotifyChange section {|
    m_config := c; m_config_path := m_config_path m; m_initialized := m_initialized m;
    m_dirty := true; m_callback := m_callback m; m_notified := m_notified m |}.

Definition set_server (s : ServerConfig) (c : Config) : Config :=
  {| server := s; network := network c; ldn := ldn c; debug := debug c |}.
Definition set_network (n : NetworkConfig) (c : Config) : Config :=
  {| server := server c; network := n; ldn := ldn c; debug := debug c |}.
Definition set_ldn (l : LdnConfig) (c : Config) : Config :=
  {| server := server c; network := network c; ldn := l; debug := debug c |}.
Definition set_debug (d : DebugConfig) (c : Config) : Config :=
  {| server := server c; network := network c; ldn := ldn c; debug := d |}.

Definition Initialize (config_path : option (list Z)) (f : file_view) (m : ConfigManager)
    : bool * ConfigManager :=
  let path := safe_strcpy (cstr (default CONFIG_PATH config_path)) 255 in
  let '(result, c) := load_config f get_default_config in
  let ok := match result with Success | FileNotFound => true | _ => false end in
  (ok, {| m_config := c; m_config_path := path; m_initialized := ok; m_dirty := false;
          m_callback := m_callback m; m_notified := m_notified m |}).

Definition Save (v : save_view) (m : ConfigManager) : ConfigResult * list fs_call * ConfigManager :=
  if negb (m_initialized m) then (IoError, [], m)
  else
    let '(result, calls) := save_config (m_config_path m) v (m_config m) in
    (result, calls,
     {| m_config := m_config m; m_config_path := m_config_path m;
        m_initialized := m_initialized m;
        m_dirty := match result with Success => false | _ => m_dirty m end;
        m_callback := m_callback m; m_notified := m_notified m |}).

Definition Reload (f : file_view) (m : ConfigManager) : ConfigResult * ConfigManager :=
  if negb (m_initialized m) then (IoError, m)
  else
    let '(result, c) := load_config f get_default_config in
    (result,
     {| m_config := c; m_config_path := m_config_path m; m_initialized := m_initialized m;
        m_dirty := match result with Success | FileNotFound => false | _ => m_dirty m end;
        m_callback := m_callback m; m_notified := m_notified m |}).

(** ** Setters *)

Definition SetServerHost (new_host : option (list Z)) (m : ConfigManager) : ConfigManager :=
  match new_host with
  | None => m
  | Some h =>
      let s := server (m_config m) in
      update "server" (set_server {| host := safe_strcpy (cstr h) MAX_HOST_LENGTH;
                                     port := port s; use_tls := use_tls s |} (m_config m)) m
  end.

Definition SetServerPort (p : Z) (m : ConfigManager) : ConfigManager :=
  let s := server (m_config m) in
  update "server" (set_server {| host := host s; port := p; use_tls := use_tls s |} (m_config m)) m.

Definition SetUseTls (enabled : bool) (m : ConfigManager) : ConfigManager :=
  let s := server (m_config m) in
  update "server" (set_server {| host := host s; port := port s; use_tls := enabled |}
                     (m_config m)) m.

Definition SetConnectTimeout (timeout_ms : Z) (m : ConfigManager) : ConfigManager :=
  let n := network (m_config m) in
  update "network" (set_network {| connect_timeout_ms := timeout_ms;
    ping_interval_ms := ping_interval_ms n; reconnect_delay_ms := reconnect_delay_ms n;
    max_reconnect_attempts := max_reconnect_attempts n |} (m_config m)) m.

Definition SetPingInterval (interval_ms : Z) (m : ConfigManager) : ConfigManager :=
  let n := network (m_config m) in
  update "network" (set_network {| connect_timeout_ms := connect_timeout_ms n;
    ping_interval_ms := interval_ms; reconnect_delay_ms := reconnect_delay_ms n;
    max_reconnect_attempts := max_reconnect_attempts n |} (m_config m)) m.

Definition SetReconnectDelay (delay_ms : Z) (m : ConfigManager) : ConfigManager :=
  let n := network (m_config m) in
  update "network" (set_network {| connect_timeout_ms := connect_timeout_ms n;
    ping_interval_ms := ping_interval_ms n; reconnect_delay_ms := delay_ms;
    max_reconnect_attempts := max_reconnect_attempts n |} (m_config m)) m.

Definition SetMaxReconnectAttempts (attempts : Z) (m : ConfigManager) : ConfigManager :=
  let n := network (m_config m) in
  update "network" (set_network {| connect_timeout_ms := connect_timeout_ms n;
    ping_interval_ms := ping_interval_ms n; reconnect_delay_ms := reconnect_delay_ms n;
    max_reconnect_attempts := attempts |} (m_config m)) m.

Definition SetLdnEnabled (enabled : bool) (m : ConfigManager) : ConfigManager :=
  let l := ldn (m_config m) in
  update "ldn" (set_ldn {| ldn_enabled := enabled; passphrase := passphrase l;
    interface_name := interface_name l; disable_p2p := disable_p2p l |} (m_config m)) m.

Definition SetPassphrase (p : option (list Z)) (m : ConfigManager) : bool * ConfigManager :=
  if negb (IsValidPassphrase p) then (false, m)
  else
    let l := ldn (m_config m) in
    (true, update "ldn" (set_ldn {| ldn_enabled := ldn_enabled l;
       passphrase := match p with None => [] | Some p => safe_strcpy (cstr p) MAX_PASSPHRASE_LENGTH end;
       interface_name := interface_name l; disable_p2p := disable_p2p l |} (m_config m)) m).

Definition SetInterfaceName (name : option (list Z)) (m : ConfigManager) : ConfigManager :=
  let l := ldn (m_config m) in
  update "ldn" (set_ldn {| ldn_enabled := ldn_enabled l; passphrase := passphrase l;
    interface_name := match name with None => []
                      | Some n => safe_strcpy (cstr n) MAX_INTERFACE_LENGTH end;
    disable_p2p := disable_p2p l |} (m_config m)) m.

Definition SetDebugEnabled (enabled : bool) (m : ConfigManager) : ConfigManager :=
  let d := debug (m_config m) in
  update "debug" (set_debug {| debug_enabled := enabled; level := level d;
    log_to_file := log_to_file d |} (m_config m)) m.

Definition SetDebugLevel (lvl : Z) (m : ConfigManager) : ConfigManager :=
  let d := debug (m_config m) in
  update "debug" (set_debug {| debug_enabled := debug_enabled d;
    level := if 3 <? lvl then 3 else lvl; log_to_file := log_to_file d |} (m_config m)) m.

Definition SetLogToFile (enabled : bool) (m : ConfigManager) : ConfigManager :=
  let d := debug (m_config m) in
  update "debug" (set_debug {| debug_enabled := debug_enabled d; level := level d;
    log_to_file := enabled |} (m_config m)) m.

Definition SetChangeCallback (set : bool) (m : ConfigManager) : ConfigManager := {|
  m_config := m_config m; m_config_path := m_config_path m; m_initialized := m_initialized m;
  m_dirty := m_dirty m; m_callback := set; m_notified := m_notified m |}.

(** ** Runs *)

Inductive ConfigOp : Type :=
  | OpInitialize (path : option (list Z)) (f : file_view)
  | OpSave (v : save_view)
  | OpReload (f : file_view)
  | OpServerHost (h : option (list Z)) | OpServerPort (p : Z) | OpUseTls (b : bool)
  | OpConnectTimeout (n : Z) | OpPingInterval (n : Z) | OpReconnectDelay (n : Z)
  | OpMaxReconnectAttempts (n : Z)
  | OpLdnEnabled (b : bool) | OpPassphrase (p : option (list Z))
  | OpInterfaceName (n : option (list Z))
  | OpDebugEnabled (b : bool) | OpDebugLevel (n : Z) | OpLogToFile (b : bool)
  | OpChangeCallback (b : bool).

Definition config_step (o : ConfigOp) (m : ConfigManager) : ConfigManager :=
  match o with
  | OpInitialize path f => (Initialize path f m).2
  | OpSave v => (Save v m).2
  | OpReload f => (Reload f m).2
  | OpServerHost h => SetServerHost h m | OpServerPort p => SetServerPort p m
  | OpUseTls b => SetUseTls b m | OpConnectTimeout n => SetConnectTimeout n m
  | OpPingInterval n => SetPingInterval n m | OpReconnectDelay n => SetReconnectDelay n m
  | OpMaxReconnectAttempts n => SetMaxReconnectAttempts n m
  | OpLdnEnabled b => SetLdnEnabled b m | OpPassphrase p => (SetPassphrase p m).2
  | OpInterfaceName n => SetInterfaceName n m
  | OpDebugEnabled b => SetDebugEnabled b m | OpDebugLevel n => SetDebugLevel n m
  | OpLogToFile b => SetLogToFile b m | OpChangeCallback b => SetChangeCallback b m
  end.

Definition config_steps (os : list ConfigOp) (m : ConfigManager) : ConfigManager :=
  foldl (fun m o => config_step o m) m os.

(** The arguments have their types' widths. *)
Definition op_typed (o : ConfigOp) : bool :=
  match o with
  | OpServerPort p => in_u 16 p
  | OpConnectTimeout n | OpPingInterval n | OpReconnectDelay n | OpMaxReconnectAttempts n
  | OpDebugLevel n => in_u 32 n
  | _ => true
  end.

(** ** Invariants *)

(** A C string in an array of [max_len + 1] characters. *)
Definition cstring_in (max_len : nat) (s : list Z) : bool :=
  (List.length s <=? max_len)%nat && forallb (fun c => negb (c =? 0)) s.

Definition config_typed (c : Config) : bool :=
  cstring_in MAX_HOST_LENGTH (host (server c)) && in_u 16 (port (server c))
  && in_u 32 (connect_timeout_ms (network c)) && in_u 32 (ping_interval_ms (network c))
  && in_u 32 (reconnect_delay_ms (network c)) && in_u 32 (max_reconnect_attempts (network c))
  && cstring_in MAX_PASSPHRASE_LENGTH (passphrase (ldn c))
  && cstring_in MAX_INTERFACE_LENGTH (interface_name (ldn c)) && in_u 32 (level (debug c)).

(** The section an operation changes. *)
Definition changes (o : ConfigOp) : bool :=
  match o with
  | OpInitialize _ _ | OpSave _ | OpReload _ | OpChangeCallback _ | OpServerHost None => false
  | OpPassphrase p => IsValidPassphrase p
  | _ => true
  end.

(** ** Specification: thirteen registers

    What the manager promises, setting by setting and without its setters: a
    value each, whether it has been set up, whether something is unsaved, whether
    there is a callback and what it has been told. *)

Inductive Setting : Set :=
| Host | Port | UseTls | ConnectTimeout | PingInterval | ReconnectDelay | MaxReconnectAttempts
| LdnEnabled | Passphrase | InterfaceName | DebugEnabled | DebugLevel | LogToFile.
#[export] Instance Setting_eq_dec : EqDecision Setting.
Proof. solve_decision. Defined.












(** ** Lemmas: the type of the settings *)

Notation nonzero := (Forall (fun c : Z => c <> 0)).

Lemma nonzero_spec l : forallb (fun c => negb (c =? 0)) l = true <-> nonzero l.
Proof.
  rewrite forallb_Forall_true. apply Forall_iff. intros c.
  by rewrite negb_true_iff, Z.eqb_neq.
Qed.

Lemma cstring_in_spec n l :
  cstring_in n l = true <-> (List.length l <= n)%nat /\ nonzero l.
Proof. unfold cstring_in. by rewrite andb_true_iff, Nat.leb_le, nonzero_spec. Qed.

Lemma nonzero_cstr l : nonzero (cstr l).
Proof.
  induction l as [|c l IH]; simpl; [constructor|].
  destruct (Z.eqb_spec c 0); [constructor|by constructor].
Qed.

Lemma nonzero_drop_while p l : nonzero l -> nonzero (drop_while p l).
Proof. induction 1 as [|c l Hc Hl IH]; simpl; [constructor|]. case_if; [done|by constructor]. Qed.

Lemma nonzero_trim_start l : nonzero l -> nonzero (trim_start l).
Proof. apply nonzero_drop_while. Qed.

Lemma nonzero_trim_end l : nonzero l -> nonzero (trim_end l).
Proof. intros Hl. by apply Forall_rev, nonzero_drop_while, Forall_rev. Qed.

Lemma nonzero_split_eq l k v : nonzero l -> split_eq l = Some (k, v) -> nonzero v.
Proof.
  intros Hl. revert k. induction Hl as [|c l Hc Hl IH]; intros k; simpl; [done|].
  case_if; [by intros [= <- <-]|].
  destruct (split_eq l) as [[k' v']|]; [|done]. intros [= <- <-]. by eapply IH.
Qed.

Lemma safe_strcpy_typed n l : nonzero l -> cstring_in n (safe_strcpy l n) = true.
Proof.
  intros Hl. apply cstring_in_spec. unfold safe_strcpy. split; [|by apply Forall_take].
  rewrite length_take. lia.
Qed.

Lemma parse_uint32_typed v : in_u 32 (parse_uint32 v) = true.
Proof. apply in_u_spec, u32_range. Qed.

Lemma parse_uint16_typed v : in_u 16 (parse_uint16 v) = true.
Proof. apply in_u_spec, u16_range. Qed.

Create HintDb typed discriminated.
#[local] Hint Resolve safe_strcpy_typed nonzero_cstr nonzero_trim_start nonzero_trim_end
  parse_uint32_typed parse_uint16_typed : typed.

(** Typed settings, field by field. *)
Lemma config_typed_fields c :
  config_typed c = true <->
  cstring_in MAX_HOST_LENGTH (host (server c)) = true /\ in_u 16 (port (server c)) = true
  /\ in_u 32 (connect_timeout_ms (network c)) = true /\ in_u 32 (ping_interval_ms (network c)) = true
  /\ in_u 32 (reconnect_delay_ms (network c)) = true
  /\ in_u 32 (max_reconnect_attempts (network c)) = true
  /\ cstring_in MAX_PASSPHRASE_LENGTH (passphrase (ldn c)) = true
  /\ cstring_in MAX_INTERFACE_LENGTH (interface_name (ldn c)) = true
  /\ in_u 32 (level (debug c)) = true.
Proof. unfold config_typed. rewrite !andb_true_iff. tauto. Qed.

Ltac split_typed :=
  apply config_typed_fields;
  unfold SetServerHost, SetServerPort, SetUseTls, SetConnectTimeout, SetPingInterval,
    SetReconnectDelay, SetMaxReconnectAttempts, SetLdnEnabled, SetInterfaceName, SetDebugEnabled,
    SetDebugLevel, SetLogToFile, update, set_server, set_network, set_ldn, set_debug, NotifyChange;
  split_and!;
  cbn [m_config server network ldn debug host port use_tls connect_timeout_ms ping_interval_ms
    reconnect_delay_ms max_reconnect_attempts ldn_enabled passphrase interface_name disable_p2p
    debug_enabled level log_to_file];
  eauto with typed.

Lemma process_key_typed sec key v c :
  nonzero v -> config_typed c = true -> config_typed (process_key sec key v c) = true.
Proof.
  intros Hv Hc. pose proof Hc as H%config_typed_fields. destruct_and!.
  destruct sec; cbn [process_key]; try done;
    unfold process_server_key, process_network_key, process_ldn_key, process_debug_key;
    repeat match goal with |- context [streq ?a ?b] => destruct (streq a b) end; split_typed.
Qed.

Lemma process_line_typed line sec c :
  nonzero line -> config_typed c = true -> config_typed (process_line line (sec, c)).2 = true.
Proof.
  intros Hl Hc. unfold process_line.
  destruct (trim_start (trim_end line)) as [|x t]; [done|]. case_if; [done|].
  destruct (parse_section (x :: t)); [|done..].
  destruct sec; try done.
  all: destruct (split_eq (trim_end line)) as [[k v]|] eqn:Es; [|done].
  all: apply process_key_typed; [|done].
  all: apply nonzero_trim_start, nonzero_trim_end; eapply nonzero_split_eq; [|exact Es].
  all: by apply nonzero_trim_end.
Qed.

Lemma parse_loop_typed content line sc :
  config_typed sc.2 = true -> config_typed (parse_loop content line sc).2 = true.
Proof.
  assert (Hflush : forall line sc, config_typed sc.2 = true ->
    config_typed (match line with [] => sc | _ => process_line (cstr (rev line)) sc end).2 = true).
  { intros l [sec c] Hc. destruct l; [done|]. apply process_line_typed; [apply nonzero_cstr|done]. }
  enough (H : forall n content line sc, (List.length content <= n)%nat -> config_typed sc.2 = true ->
    config_typed (parse_loop content line sc).2 = true) by by apply (H (List.length content)).
  clear content line sc. induction n as [|n IH]; intros content line sc Hn Hc.
  { destruct content; [|simpl in Hn; lia]. simpl. by apply Hflush. }
  destruct content as [|c content]; [by apply Hflush|]. simpl in Hn. cbn [parse_loop].
  case_if; [|apply IH; [lia|done]].
  destruct content as [|c' content]; [apply IH; [simpl; lia|by apply Hflush]|].
  simpl in Hn. case_if; (apply IH; [simpl; lia|by apply Hflush]).
Qed.

Lemma load_config_typed f c :
  config_typed c = true -> config_typed (load_config f c).2 = true.
Proof.
  intros Hc. unfold load_config. destruct (fs_entry f) as [[|]|]; [|done|done].
  case_if; [done|]. destruct (fs_size f); [|done]. case_if; [by case_if|]. case_if; [done|].
  destruct (fs_read f); [|done]. by apply parse_loop_typed.
Qed.

Lemma typed_step o m :
  op_typed o = true -> config_typed (m_config m) = true ->
  config_typed (m_config (config_step o m)) = true.
Proof.
  intros Ho Hm. pose proof Hm as Hc%config_typed_fields. destruct_and!.
  destruct o as [path f|v|f|[h|]| | | | | | | |p| | | | |]; cbn [config_step op_typed] in *;
    try done; try (by split_typed).
  - unfold Initialize. pose proof (load_config_typed f get_default_config eq_refl).
    by destruct (load_config _ _).
  - unfold Save. case_if; [done|]. by destruct (save_config _ _ _).
  - unfold Reload. case_if; [done|]. pose proof (load_config_typed f get_default_config eq_refl).
    by destruct (load_config _ _).
  - unfold SetPassphrase. case_if; [done|]. cbn [snd]. split_typed.
    destruct p; [eauto with typed|done].
  - split_typed. destruct n; [eauto with typed|done].
  - split_typed. apply in_u_spec in Ho. apply in_u_spec. destruct (Z.ltb_spec 3 n); lia.
Qed.

(** ** Lemmas: passphrases *)

Lemma hex_lower_clean c :
  is_hex_lower c = true -> c <> 0 /\ c <> 10 /\ c <> 13 /\ is_blank c = false.
Proof.
  unfold is_hex_lower, is_blank. rewrite orb_true_iff, !andb_true_iff, !Z.leb_le.
  intros H. split_and!; [lia|lia|lia|]. zcases; lia || done.
Qed.

Lemma hex_lower_char n :
  0 <= n < 16 -> is_hex_lower (nth (Z.to_nat n) hex_chars 0) = true.
Proof.
  intros Hn. assert (H : forallb (fun i => is_hex_lower (nth i hex_chars 0)) (seq 0 16) = true)
    by reflexivity.
  rewrite forallb_forall in H. apply H, in_seq. lia.
Qed.

(** The form of a passphrase: the prefix and eight hexadecimal digits. *)
Lemma valid_passphrase_form p :
  IsValidPassphrase (Some p) = true <->
  cstr p = [] \/ exists h, cstr p = str "Ryujinx-" ++ h /\ List.length h = 8%nat
                           /\ forallb is_hex_lower h = true.
Proof.
  unfold IsValidPassphrase. destruct (cstr p) as [|c s] eqn:E; [by split; [left|]|].
  destruct (Nat.eqb_spec (List.length (c :: s)) 16) as [Hl|Hl]; cbn [negb].
  2: { split; [done|]. intros [?|(h & Hs & Hh & _)]; [done|]. rewrite Hs in Hl.
       rewrite length_app, Hh in Hl. by vm_compute in Hl. }
  case_bool_decide as Hp; cbn [negb].
  - split.
    + intros Hx. right. exists (drop 8 (c :: s)).
      split_and!; [by rewrite <- Hp, take_drop|by rewrite length_drop, Hl|done].
    + intros [?|(h & Hs & Hh & Hx)]; [done|]. by rewrite Hs.
  - split; [done|]. intros [?|(h & Hs & _)]; [done|]. destruct Hp. by rewrite Hs.
Qed.

Lemma passphrase_form_clean h :
  List.length h = 8%nat -> forallb is_hex_lower h = true ->
  clean MAX_PASSPHRASE_LENGTH (str "Ryujinx-" ++ h) = true.
Proof.
  intros Hl Hh. unfold clean. rewrite length_app, Hl, forallb_app. cbn [List.length Nat.leb].
  assert (Hc : forall c, c ∈ h -> c <> 0 /\ c <> 10 /\ c <> 13 /\ is_blank c = false).
  { intros c Hc. apply hex_lower_clean. apply forallb_Forall_true in Hh.
    by apply (proj1 (Forall_forall _ _) Hh). }
  assert (Hall : forallb (fun c => negb (c =? 0) && negb (c =? 10) && negb (c =? 13)) h = true).
  { apply forallb_Forall_true, Forall_forall. intros c (H0 & H1 & H2 & _)%Hc.
    by rewrite !(proj2 (Z.eqb_neq _ _)). }
  rewrite Hall. destruct h as [|c0 h _] using rev_ind; [done|].
  rewrite app_assoc, last_snoc. cbn [from_option]. unfold id.
  destruct (Hc c0) as (_ & _ & _ & ->); [apply elem_of_app; right; by apply list_elem_of_singleton|].
  reflexivity.
Qed.

Lemma cstr_form h :
  forallb is_hex_lower h = true -> cstr (str "Ryujinx-" ++ h) = str "Ryujinx-" ++ h.
Proof.
  intros Hh. apply cstr_clean. rewrite forallb_app. apply andb_true_iff. split; [reflexivity|].
  apply forallb_Forall_true, Forall_forall. intros c Hc. apply forallb_Forall_true in Hh.
  apply (proj1 (Forall_forall _ _) Hh), hex_lower_clean in Hc as (H0 & H1 & H2 & _).
  by rewrite !(proj2 (Z.eqb_neq _ _)).
Qed.

Lemma random_hex_length rand : List.length (random_hex rand) = 8%nat.
Proof. unfold random_hex. by rewrite length_map, length_seq. Qed.

Lemma random_hex_digits rand : forallb is_hex_lower (random_hex rand) = true.
Proof.
  unfold random_hex. apply forallb_forall. intros c Hc. apply in_map_iff in Hc as (i & <- & _).
  apply hex_lower_char, Z.mod_pos_bound. lia.
Qed.

Lemma generated_form out_size rand p :
  17 <= out_size -> GenerateRandomPassphrase out_size rand = Some p ->
  p = str "Ryujinx-" ++ random_hex rand.
Proof.
  intros Ho. unfold GenerateRandomPassphrase. rewrite (proj2 (Z.ltb_ge _ _)) by lia. congruence.
Qed.

(** What a successful save leaves is what a reload reads back. *)
Lemma save_reload v m calls m2 :
  config_ok (m_config m) = true -> Save v m = (Success, calls, m2) ->
  m_dirty m2 = false
  /\ exists content, last calls = Some (WriteFile content)
       /\ m_config (Reload {| fs_entry := Some true; fs_open := true; fs_size := Some (zlen content);
                              fs_alloc := true; fs_read := Some content |} m2).2 = m_config m.
Proof.
  intros Hok. unfold Save. destruct (m_initialized m) eqn:Hi; [|done]. cbn [negb].
  unfold save_config.
  destruct (sv_alloc v), (sv_create v), (sv_open v), (sv_write v); try done; cbn [negb];
    intros [= <- <-]; (split; [done|]); eexists; (split; [by rewrite last_snoc|]);
    unfold Reload; cbn [m_initialized negb]; by rewrite load_formatted.
Qed.

(** ** Properties *)

(** Whatever file is loaded and whatever is done with the manager, every string
    fits its array with its NUL, every number its width. *)
Lemma settings_typed os m :
  config_typed (m_config m) = true -> forallb op_typed os = true ->
  config_typed (m_config (config_steps os m)) = true.
Proof.
  unfold config_steps. revert m. induction os as [|o os IH]; intros m Hm; [done|].
  cbn [forallb foldl]. intros [Ho Hos]%andb_true_iff. apply IH; [by apply typed_step|done].
Qed.

(** *** The registers *)







(** An untouched manager: no strings, zeros. *)
Definition new_ConfigManager : ConfigManager := {|
  m_config := {| server := {| host := []; port := 0; use_tls := false |};
                 network := {| connect_timeout_ms := 0; ping_interval_ms := 0;
                               reconnect_delay_ms := 0; max_reconnect_attempts := 0 |};
                 ldn := {| ldn_enabled := false; passphrase := []; interface_name := [];
                           disable_p2p := false |};
                 debug := {| debug_enabled := false; level := 0; log_to_file := false |} |};
  m_config_path := []; m_initialized := false; m_dirty := false; m_callback := false;
  m_notified := []
|}.

Definition no_file : file_view :=
  {| fs_entry := None; fs_open := false; fs_size := None; fs_alloc := false; fs_read := None |}.



(** a generated passphrase is one the manager accepts, and it survives a
    save and a reload: setting it succeeds and notifies, saving clears the
    unsaved-changes flag, and reloading the written file restores exactly the
    same settings, the passphrase among them. *)
Theorem generated_passphrase_persists out_size rand p v m calls m2 :
  17 <= out_size -> GenerateRandomPassphrase out_size rand = Some p ->
  config_ok (m_config m) = true ->
  let (ok, m1) := SetPassphrase (Some p) m in
  Save v m1 = (Success, calls, m2) ->
  ok = true /\ passphrase (ldn (m_config m1)) = p /\ m_dirty m1 = true /\ m_dirty m2 = false
  /\ m_notified m1 = (if m_callback m then m_notified m ++ [str "ldn"] else m_notified m)
  /\ exists content, last calls = Some (WriteFile content)
       /\ m_config (Reload {| fs_entry := Some true; fs_open := true; fs_size := Some (zlen content);
                              fs_alloc := true; fs_read := Some content |} m2).2 = m_config m1.
Proof.
  intros Ho Hp Hok. rewrite (generated_form _ _ _ Ho Hp).
  pose proof (random_hex_length rand) as Hl. pose proof (random_hex_digits rand) as Hh.
  set (h := random_hex rand) in *. clearbody h.
  pose proof (passphrase_form_clean h Hl Hh) as Hcl. pose proof (cstr_form h Hh) as Hcs.
  unfold SetPassphrase. rewrite (proj2 (valid_passphrase_form _)) by (right; rewrite Hcs; eauto).
  cbn [negb]. rewrite Hcs, clean_take by done. intros Hsave.
  set (m1 := update _ _ _) in *.
  assert (Hok1 : config_ok (m_config m1) = true).
  { unfold config_ok in *. zbool. subst m1. cbn [m_config update NotifyChange set_ldn server network
      ldn debug passphrase interface_name]. rewrite !andb_true_iff. by split_and!. }
  split_and!; [done|done|done| |done|]; by destruct (save_reload v m1 calls m2 Hok1 Hsave).
Qed.

Lemma generated_passphrase_persists_witness :
  let p := str "Ryujinx-07e5c3a1" in
  let m1 := (SetPassphrase (Some p) (Initialize None no_file new_ConfigManager).2).2 in
  let v := {| sv_alloc := true; sv_entry := false; sv_create := true; sv_open := true;
              sv_write := true |} in
  exists content, last (Save v m1).1.2 = Some (WriteFile content)
    /\ passphrase (ldn (m_config (Reload {| fs_entry := Some true; fs_open := true;
         fs_size := Some (zlen content); fs_alloc := true; fs_read := Some content |}
         (Save v m1).2).2)) = p.
Proof.
  intros p m1 v.
  pose proof (generated_passphrase_persists 64 (fun i => Z.of_nat i * 7) p v
    (Initialize None no_file new_ConfigManager).2 (Save v m1).1.2 (Save v m1).2
    ltac:(lia) eq_refl eq_refl) as H.
  destruct H as (_ & Hp & _ & _ & _ & content & Hc & Hr); [reflexivity|].
  exists content. split; [exact Hc|]. rewrite Hr. exact Hp.
Defined.
