(* ===== verification/Socket.v ===== *)
(** * TCP sockets ([network/socket.{hpp,cpp}])

    The class [Socket] over a model of the operating system's side of one
    connection.  What the kernel (or mbedtls above it) answers is a script:
    the outcomes of connection attempts, what arrives, how much of each write
    is taken.  A script is a finite list of any length; when it is used up the
    network is silent (a read would block, a [poll] times out).  So every call
    returns, and a statement quantifies over all scripts.

    A TLS session is the same socket with [m_tls_ctx] set: [mbedtls_ssl_read]
    and [mbedtls_ssl_write] answer from the same scripts, [EAGAIN] being their
    [WANT_READ]/[WANT_WRITE] (as [my_net_send] and [my_net_recv] translate it)
    and any other error a negative code. *)

From stdpp Require Import base numbers list.
From Stdlib Require Import ZArith Lia Bool.
From S2P Require Import Prelude.

Inductive SocketResult : Set :=
| SocketResult_Success | SocketResult_WouldBlock | SocketResult_Timeout
| SocketResult_ConnectionRefused | SocketResult_ConnectionReset
| SocketResult_HostUnreachable | SocketResult_NetworkDown | SocketResult_NotConnected
| SocketResult_AlreadyConnected | SocketResult_InvalidAddress | SocketResult_SocketError
| SocketResult_NotInitialized | SocketResult_Closed.

#[export] Instance SocketResult_eq_dec : EqDecision SocketResult.
Proof. solve_decision. Defined.

(** ** The operating system *)

(** The values of [errno] the code tells apart ([EWOULDBLOCK] is [EAGAIN]). *)
Inductive errno : Set :=
| EAGAIN | EINPROGRESS | ECONNREFUSED | ECONNRESET | EPIPE | ECONNABORTED | EHOSTUNREACH
| ENETUNREACH | ENETDOWN | ENOTCONN | EISCONN | ETIMEDOUT | EINTR | EOTHER (code : Z).

#[export] Instance errno_eq_dec : EqDecision errno.
Proof. solve_decision. Defined.

(** What [poll] answers: the event asked for, nothing within the timeout, an
    error of the call, or [POLLERR]/[POLLHUP]/[POLLNVAL] in [revents]. *)
Inductive poll_answer : Set := PollReady | PollTimeout | PollFails (e : errno) | PollBroken.

(** What happens next on the receiving side: a chunk arrives (the empty chunk
    is the end of the stream), nothing does for a while, [poll] fails or finds
    the connection broken, [recv] fails. *)
Inductive read_event : Set :=
| Arrives (chunk : list Z) | Quiet | ReadPoll (p : poll_answer) | ReadFails (e : errno).

(** What happens to the next write: up to [k] bytes are taken, the buffer is
    full (and a [poll] for writing then answers [p]), or the write fails. *)
Inductive write_event : Set :=
| Accepts (k : Z) | Full (p : poll_answer) | WriteFails (e : errno).

(** The outcome of one [Socket::connect]: each call of the function. *)
Record attempt : Type := {
  at_socket : Z + errno;            (* ::socket *)
  at_resolves : bool;               (* resolve_host *)
  at_fcntl : option errno;          (* set_non_blocking(true) *)
  at_connect : option errno;        (* ::connect *)
  at_poll : poll_answer;            (* wait_ready *)
  at_getsockopt : option errno;     (* getsockopt(SO_ERROR) *)
  at_so_error : option errno;       (* the value of SO_ERROR *)
  at_tls : bool;                    (* mbedtls set-up and handshake *)
  at_read : list read_event;        (* the connection, once established *)
  at_write : list write_event
}.

(** [os_wire]: the bytes the kernel took, in order; [os_poll]: the answer of
    the next [poll] for writing. *)
Record Os : Type := {
  os_attempts : list attempt;
  os_read : list read_event;
  os_write : list write_event;
  os_poll : poll_answer;
  os_wire : list Z
}.

(** ** The class *)

Record Socket : Type := {
  m_fd : Z;
  m_connected : bool;
  m_use_tls : bool;
  m_tls_ctx : bool;
  m_os : Os
}.

Definition set_connected (c : bool) (s : Socket) : Socket := {|
  m_fd := m_fd s; m_connected := c; m_use_tls := m_use_tls s; m_tls_ctx := m_tls_ctx s;
  m_os := m_os s
|}.

Definition set_os (o : Os) (s : Socket) : Socket := {|
  m_fd := m_fd s; m_connected := m_connected s; m_use_tls := m_use_tls s;
  m_tls_ctx := m_tls_ctx s; m_os := o
|}.

Definition set_read (r : list read_event) (s : Socket) : Socket :=
  set_os {| os_attempts := os_attempts (m_os s); os_read := r; os_write := os_write (m_os s);
            os_poll := os_poll (m_os s); os_wire := os_wire (m_os s) |} s.

Definition set_write (w : list write_event) (p : poll_answer) (s : Socket) : Socket :=
  set_os {| os_attempts := os_attempts (m_os s); os_read := os_read (m_os s); os_write := w;
            os_poll := p; os_wire := os_wire (m_os s) |} s.

Definition to_wire (d : list Z) (s : Socket) : Socket :=
  set_os {| os_attempts := os_attempts (m_os s); os_read := os_read (m_os s);
            os_write := os_write (m_os s); os_poll := os_poll (m_os s);
            os_wire := os_wire (m_os s) ++ d |} s.

Definition new_Socket (o : Os) : Socket :=
  {| m_fd := -1; m_connected := false; m_use_tls := false; m_tls_ctx := false; m_os := o |}.

(** [static bool s_initialized] is the state of these three. *)
Definition socket_init (s_initialized : bool) : SocketResult * bool :=
  (SocketResult_Success, true).
Definition socket_exit (s_initialized : bool) : bool := false.
Definition socket_is_initialized (s_initialized : bool) : bool := s_initialized.

Definition errno_to_result (err : errno) : SocketResult :=
  match err with
  | EAGAIN => SocketResult_WouldBlock
  | ECONNREFUSED => SocketResult_ConnectionRefused
  | ECONNRESET | EPIPE | ECONNABORTED => SocketResult_ConnectionReset
  | EHOSTUNREACH | ENETUNREACH => SocketResult_HostUnreachable
  | ENETDOWN => SocketResult_NetworkDown
  | ENOTCONN => SocketResult_NotConnected
  | EISCONN => SocketResult_AlreadyConnected
  | ETIMEDOUT => SocketResult_Timeout
  | _ => SocketResult_SocketError
  end.

(** [close]: the shutdown and the descriptor are the kernel's business; what
    was to come on the connection never does. *)
Definition close (s : Socket) : Socket :=
  if 0 <=? m_fd s then
    {| m_fd := -1; m_connected := false;
       m_use_tls := if m_use_tls s && m_tls_ctx s then false else m_use_tls s;
       m_tls_ctx := if m_use_tls s && m_tls_ctx s then false else m_tls_ctx s;
       m_os := {| os_attempts := os_attempts (m_os s); os_read := []; os_write := [];
                  os_poll := PollTimeout; os_wire := os_wire (m_os s) |} |}
  else set_connected false s.

Definition is_connected (s : Socket) : bool := m_connected s.
Definition is_valid (s : Socket) : bool := 0 <=? m_fd s.

(** What [wait_ready] makes of the answer of [poll]. *)
Definition poll_result (p : poll_answer) (s : Socket) : SocketResult * Socket :=
  match p with
  | PollFails e => (errno_to_result e, s)
  | PollTimeout => (SocketResult_Timeout, s)
  | PollBroken => (SocketResult_ConnectionReset, set_connected false s)
  | PollReady => (SocketResult_Success, s)
  end.

(** For reading, [poll] looks at what comes next without taking it. *)
Definition poll_read (l : list read_event) : poll_answer * list read_event :=
  match l with
  | [] => (PollTimeout, [])
  | Quiet :: l => (PollTimeout, l)
  | ReadPoll p :: l => (p, l)
  | l => (PollReady, l)
  end.

Definition wait_ready (timeout_ms : Z) (for_write : bool) (s : Socket)
    : SocketResult * Socket :=
  if for_write then poll_result (os_poll (m_os s)) s
  else let '(p, l) := poll_read (os_read (m_os s)) in poll_result p (set_read l s).

(** ** Sending *)

(** The kernel's or the TLS library's write: how many bytes went out, or an
    error; with the rest of the script and the next answer of [poll]. *)
Definition os_send (data : list Z) (s : Socket) : (Z + errno) * Socket :=
  match os_write (m_os s) with
  | [] => (inr EAGAIN, set_write [] PollTimeout s)
  | Full p :: w => (inr EAGAIN, set_write w p s)
  | WriteFails e :: w => (inr e, set_write w PollReady s)
  | Accepts k :: w =>
      let n := Z.max 0 (Z.min k (zlen data)) in
      (inl n, to_wire (ztake n data) (set_write w (os_poll (m_os s)) s))
  end.

(** [send(data, size, sent)] with [data] the [size] bytes. *)
Definition send (data : list Z) (s : Socket) : SocketResult * Z * Socket :=
  if negb (m_connected s) then (SocketResult_NotConnected, 0, s)
  else
    let '(ret, s) := os_send data s in
    if m_use_tls s && m_tls_ctx s then
      match ret with
      | inr EAGAIN => (SocketResult_WouldBlock, 0, s)
      | inr _ => (SocketResult_SocketError, 0, set_connected false s)
      | inl n => (SocketResult_Success, n, s)
      end
    else
      match ret with
      | inr EAGAIN => (SocketResult_WouldBlock, 0, s)
      | inr e => (errno_to_result e, 0, set_connected false s)
      | inl n => if n =? 0 then (SocketResult_Closed, 0, set_connected false s)
                 else (SocketResult_Success, n, s)
      end.

(** The loop of [send_all], with as much fuel as the script has answers: each
    iteration uses one up, and a used up script times out. *)
Fixpoint send_all_loop (fuel : nat) (data : list Z) (total_sent timeout_ms : Z) (s : Socket)
    : SocketResult * Socket :=
  if zlen data <=? total_sent then (SocketResult_Success, s)
  else
    let '(result, sent, s) := send (zdrop total_sent data) s in
    match result with
    | SocketResult_WouldBlock =>
        if (timeout_ms =? 0) && (total_sent =? 0) then (SocketResult_WouldBlock, s)
        else
          let wait_timeout := if (timeout_ms =? 0) && (0 <? total_sent) then 5000
                              else u32 timeout_ms in
          let '(result, s) := wait_ready wait_timeout true s in
          match result with
          | SocketResult_Success =>
              match fuel with
              | O => (SocketResult_Timeout, s)
              | S fuel => send_all_loop fuel data total_sent timeout_ms s
              end
          | _ => (result, s)
          end
    | SocketResult_Success =>
        match fuel with
        | O => (SocketResult_Timeout, s)
        | S fuel => send_all_loop fuel data (total_sent + sent) timeout_ms s
        end
    | _ => (result, s)
    end.

Definition send_all (data : list Z) (timeout_ms : Z) (s : Socket) : SocketResult * Socket :=
  send_all_loop (length (os_write (m_os s))) data 0 timeout_ms s.

(** The default argument of [send_all]. *)
Definition SEND_TIMEOUT : Z := 5000.

(** ** Receiving *)

(** The kernel's or the TLS library's read of at most [n] bytes: what is left
    of a chunk stays for the next one.  The descriptor is in non-blocking mode,
    as [TcpClient::connect] leaves it. *)
Fixpoint os_recv (n : Z) (l : list read_event) : (list Z + errno) * list read_event :=
  match l with
  | [] => (inr EAGAIN, [])
  | Quiet :: l => (inr EAGAIN, l)
  | ReadPoll _ :: l => os_recv n l
  | ReadFails e :: l => (inr e, l)
  | Arrives c :: l =>
      if zlen c <=? n then (inl c, l) else (inl (ztake n c), Arrives (zdrop n c) :: l)
  end.

(** The read and what the code makes of its result, the same text in the
    branch for [timeout_ms == 0] and behind the others. *)
Definition recv_now (buffer_size : Z) (s : Socket) : SocketResult * list Z * Socket :=
  let '(ret, l) := os_recv buffer_size (os_read (m_os s)) in
  let s := set_read l s in
  if m_use_tls s && m_tls_ctx s then
    match ret with
    | inr EAGAIN => (SocketResult_WouldBlock, [], s)
    | inr _ => (SocketResult_SocketError, [], set_connected false s)
    | inl [] => (SocketResult_Closed, [], set_connected false s)
    | inl bytes => (SocketResult_Success, bytes, s)
    end
  else
    match ret with
    | inr EAGAIN => (SocketResult_WouldBlock, [], s)
    | inr e => (errno_to_result e, [], set_connected false s)
    | inl [] => (SocketResult_Closed, [], set_connected false s)
    | inl bytes => (SocketResult_Success, bytes, s)
    end.

(** [recv(buffer, buffer_size, received, timeout_ms)]: the received bytes. *)
Definition recv (buffer_size timeout_ms : Z) (s : Socket) : SocketResult * list Z * Socket :=
  if negb (m_connected s) then (SocketResult_NotConnected, [], s)
  else if 0 <? timeout_ms then
    let '(result, s) := wait_ready (u32 timeout_ms) false s in
    match result with
    | SocketResult_Success => recv_now buffer_size s
    | _ => (result, [], s)
    end
  else recv_now buffer_size s.

(** ** Connecting *)

(** The attempt that is next; without one the network is down. *)
Definition no_network : attempt := {|
  at_socket := inr ENETDOWN; at_resolves := false; at_fcntl := None; at_connect := None;
  at_poll := PollTimeout; at_getsockopt := None; at_so_error := None; at_tls := false;
  at_read := []; at_write := []
|}.

Definition next_attempt (s : Socket) : attempt * Socket :=
  match os_attempts (m_os s) with
  | [] => (no_network, s)
  | a :: l => (a, set_os {| os_attempts := l; os_read := os_read (m_os s);
                            os_write := os_write (m_os s); os_poll := os_poll (m_os s);
                            os_wire := os_wire (m_os s) |} s)
  end.

Definition create (a : attempt) (s : Socket) : SocketResult * Socket :=
  if 0 <=? m_fd s then (SocketResult_Success, s)
  else
    match at_socket a with
    | inr e => (errno_to_result e, s)
    | inl fd => (SocketResult_Success,
                 {| m_fd := fd; m_connected := m_connected s; m_use_tls := m_use_tls s;
                    m_tls_ctx := m_tls_ctx s; m_os := m_os s |})
    end.

(** The connection is up: its streams, nothing sent on it yet. *)
Definition established (a : attempt) (use_tls : bool) (s : Socket) : Socket := {|
  m_fd := m_fd s; m_connected := true; m_use_tls := use_tls;
  m_tls_ctx := if use_tls then true else m_tls_ctx s;
  m_os := {| os_attempts := os_attempts (m_os s); os_read := at_read a; os_write := at_write a;
             os_poll := PollTimeout; os_wire := [] |}
|}.

(** From [::connect] to the end of the pending connection attempt. *)
Definition tcp_connect (a : attempt) (timeout_ms : Z) (s : Socket) : SocketResult * Socket :=
  let use_timeout := 0 <? timeout_ms in
  match (if use_timeout then at_fcntl a else None) with
  | Some e => (errno_to_result e, close s)
  | None =>
      match at_connect a with
      | None => (SocketResult_Success, s)
      | Some e =>
          if use_timeout && bool_decide (e = EINPROGRESS \/ e = EAGAIN) then
            let '(result, s) := poll_result (at_poll a) s in
            match result with
            | SocketResult_Success =>
                match at_getsockopt a, at_so_error a with
                | Some e, _ => (errno_to_result e, close s)
                | None, Some e => (errno_to_result e, close s)
                | None, None => (SocketResult_Success, s)
                end
            | _ => (result, close s)
            end
          else (errno_to_result e, close s)
      end
  end.

Definition connect (s_initialized : bool) (host : list Z) (timeout_ms : Z) (use_tls : bool)
    (s : Socket) : SocketResult * Socket :=
  if negb s_initialized then (SocketResult_NotInitialized, s)
  else if bool_decide (cstr host = []) then (SocketResult_InvalidAddress, s)
  else if m_connected s then (SocketResult_AlreadyConnected, s)
  else
    let s := if 0 <=? m_fd s then close s else s in
    let '(a, s) := next_attempt s in
    let '(result, s) := create a s in
    match result with
    | SocketResult_Success =>
        if negb (at_resolves a) then (SocketResult_InvalidAddress, close s)
        else
          let '(result, s) := tcp_connect a timeout_ms s in
          match result with
          | SocketResult_Success =>
              let s := established a use_tls s in
              if use_tls && negb (at_tls a) then (SocketResult_SocketError, close s)
              else (SocketResult_Success, s)
          | _ => (result, s)
          end
    | _ => (result, s)
    end.

(** [set_non_blocking], [set_nodelay], [set_recv_buffer_size] and
    [set_send_buffer_size]: one system call on a valid descriptor, [err] its
    error. *)
Definition set_option (err : option errno) (s : Socket) : SocketResult :=
  if m_fd s <? 0 then SocketResult_SocketError
  else match err with Some e => errno_to_result e | None => SocketResult_Success end.

(** ** Specification *)

(** The bytes that will arrive, in order, whatever happens between them. *)
Definition arrivals (l : list read_event) : list Z :=
  concat (map (fun e => match e with Arrives c => c | _ => [] end) l).

(** A measure of what is still to come: every answer uses some of it up. *)
Definition to_come (l : list read_event) : nat :=
  list_sum (map (fun e => match e with Arrives c => S (length c) | _ => 1%nat end) l).

(** What arrives are bytes, on this connection and on the ones to come. *)
Definition read_ok (l : list read_event) : bool := bytes_ok (arrivals l).
Definition net_ok (o : Os) : bool :=
  read_ok (os_read o) && forallb (fun a => read_ok (at_read a)) (os_attempts o).

(** ** Lemmas: sending *)

Lemma os_wire_to_wire d s : os_wire (m_os (to_wire d s)) = os_wire (m_os s) ++ d.
Proof. done. Qed.

(** One [send]: some of the bytes go out, only with [Success]; an answer of the
    script is used up, and without one the write would block. *)
Lemma send_spec data s r n s' :
  send data s = (r, n, s') ->
  0 <= n <= zlen data
  /\ os_wire (m_os s') = os_wire (m_os s) ++ ztake n data
  /\ (r <> SocketResult_Success -> n = 0)
  /\ (length (os_write (m_os s')) <= length (os_write (m_os s)))%nat
  /\ (r = SocketResult_Success ->
      (length (os_write (m_os s')) < length (os_write (m_os s)))%nat)
  /\ (r = SocketResult_WouldBlock ->
      m_connected s' = m_connected s /\ (os_write (m_os s) = [] /\ os_poll (m_os s') = PollTimeout
      \/ (length (os_write (m_os s')) < length (os_write (m_os s)))%nat)).
Proof.
  pose proof (zlen_nonneg data). unfold send. destruct (m_connected s) eqn:Hc; cbn [negb].
  2: { intros [= <- <- <-]. rewrite app_nil_r. by split_and!; try lia. }
  unfold os_send. destruct (os_write (m_os s)) as [|[k|p|e] w] eqn:Hw;
    cbn [m_use_tls m_tls_ctx set_write to_wire set_os];
    destruct (m_use_tls s && m_tls_ctx s); try (destruct (_ =? 0) eqn:Hn; zbool);
    try destruct e; cbn [errno_to_result]; intros [= <- <- <-];
    cbn [m_os os_wire os_write os_poll set_connected set_write to_wire set_os length];
    rewrite ?Hw, ?Hn, ?ztake_0, ?app_nil_r; cbn [length];
    (split_and!; try done; try lia; intros; try done; split; try done; try (right; lia); by left).
Qed.

Lemma wait_ready_write t s r s' :
  wait_ready t true s = (r, s') ->
  m_os s' = m_os s
  /\ (r = SocketResult_Success -> s' = s /\ os_poll (m_os s) = PollReady).
Proof.
  unfold wait_ready, poll_result. destruct (os_poll (m_os s)) as [| |e|]; intros [= <- <-];
    split; try done. destruct e; done.
Qed.

Lemma send_all_loop_spec fuel data total t s r s' :
  (length (os_write (m_os s)) <= fuel)%nat -> 0 <= total <= zlen data ->
  send_all_loop fuel data total t s = (r, s') ->
  exists n, 0 <= n <= zlen data - total
    /\ os_wire (m_os s') = os_wire (m_os s) ++ ztake n (zdrop total data)
    /\ (r = SocketResult_Success <-> n = zlen data - total).
Proof.
  revert total s. induction fuel as [|fuel IH]; intros total s Hf Ht Hl;
    cbn [send_all_loop] in Hl.
  all: destruct (Z.leb_spec (zlen data) total) as [Hd|Hd];
    [injection Hl as <- <-; exists 0; rewrite ztake_0, app_nil_r; split_and!; [lia|lia|done|];
     split; [lia|done]|].
  all: destruct (send (zdrop total data) s) as [[r1 k] s1] eqn:Hs;
    destruct (send_spec _ _ _ _ _ Hs) as (Hk & Hw & H0 & Hle & Hsucc & Hwb);
    rewrite zlen_zdrop in Hk by lia.
  all: destruct (decide (r1 = SocketResult_Success)) as [->|Hns].
  - specialize (Hsucc eq_refl). lia.
  - rewrite (H0 Hns), ztake_0, app_nil_r in Hw. exists 0. rewrite ztake_0, app_nil_r.
    assert (Hend : os_wire (m_os s') = os_wire (m_os s) /\ r <> SocketResult_Success).
    { destruct r1; try done; try (injection Hl as <- <-; done).
      case_if; [injection Hl as <- <-; done|].
      destruct (wait_ready _ true s1) as [r2 s2] eqn:Hwr.
      destruct (wait_ready_write _ _ _ _ Hwr) as [Ho Hr].
      destruct r2; injection Hl as <- <-; rewrite Ho; done. }
    destruct Hend as [-> Hr]. split_and!; [lia|lia|done|]. split; [done|lia].
  - specialize (Hsucc eq_refl). destruct (IH (total + k) s1 ltac:(lia) ltac:(lia) Hl)
      as (n & Hn & Hw2 & Hr).
    exists (k + n). rewrite Hw2, Hw, <- app_assoc. split_and!; [lia|lia| |rewrite Hr; lia].
    f_equal. rewrite <- (ztake_zdrop k (ztake (k + n) (zdrop total data))).
    rewrite ztake_ztake by lia. f_equal.
    rewrite <- zdrop_zdrop by lia. by rewrite <- ztake_zdrop_comm by lia.
  - rewrite (H0 Hns), ztake_0, app_nil_r in Hw.
    assert (Hend : (os_wire (m_os s') = os_wire (m_os s) /\ r <> SocketResult_Success)
                   \/ exists s2, m_os s2 = m_os s1
                        /\ (length (os_write (m_os s2)) < length (os_write (m_os s)))%nat
                        /\ send_all_loop fuel data total t s2 = (r, s')).
    { destruct r1; try done; try (left; injection Hl as <- <-; done).
      case_if; [left; injection Hl as <- <-; done|].
      destruct (wait_ready _ true s1) as [r2 s2] eqn:Hwr.
      destruct (wait_ready_write _ _ _ _ Hwr) as [Ho Hr].
      destruct r2; try (left; injection Hl as <- <-; rewrite Ho; done).
      right. exists s2. rewrite Ho. split_and!; [done| |done].
      destruct (Hr eq_refl) as [_ Hp]. destruct (Hwb eq_refl) as (_ & [[_ Hp']|]); [congruence|done]. }
    destruct Hend as [[-> Hr]|(s2 & Ho & Hlen & Hl2)].
    + exists 0. rewrite ztake_0, app_nil_r. split_and!; [lia|lia|done|]. split; [done|lia].
    + destruct (IH total s2 ltac:(lia) Ht Hl2) as (n & Hn & Hw2 & Hr).
      exists n. by rewrite Hw2, Ho, Hw.
Qed.

Lemma send_all_spec data t s r s' :
  send_all data t s = (r, s') ->
  exists n, 0 <= n <= zlen data /\ os_wire (m_os s') = os_wire (m_os s) ++ ztake n data
    /\ (r = SocketResult_Success <-> n = zlen data).
Proof.
  intros Hs. pose proof (zlen_nonneg data).
  destruct (send_all_loop_spec _ data 0 t s r s' (le_n _) ltac:(lia) Hs) as (n & Hn & Hw & Hr).
  rewrite Z.sub_0_r in *. exists n. by rewrite zdrop_0 in Hw.
Qed.

(** [send_all] with a timeout reports [WouldBlock] only when [poll] itself
    fails with [EAGAIN]. *)
Definition polls_ok (w : list write_event) : Prop := Full (PollFails EAGAIN) ∉ w.

Lemma send_blocked data s n s' :
  polls_ok (os_write (m_os s)) -> send data s = (SocketResult_WouldBlock, n, s') ->
  os_poll (m_os s') <> PollFails EAGAIN.
Proof.
  unfold polls_ok, send. destruct (negb _); [done|]. unfold os_send.
  destruct (os_write (m_os s)) as [|[k|p|e] w]; intros Hp;
    cbn [m_use_tls m_tls_ctx set_write to_wire set_os]; destruct (m_use_tls s && m_tls_ctx s);
    try destruct (_ =? 0); try destruct e; intros [= <- <-];
    cbn [m_os os_poll set_write set_os]; try done; intros ->; apply Hp; by left.
Qed.

Lemma send_script data s r n s' :
  send data s = (r, n, s') -> polls_ok (os_write (m_os s)) -> polls_ok (os_write (m_os s')).
Proof.
  unfold polls_ok, send. destruct (negb _); [by intros [= <- <- <-]|]. unfold os_send.
  destruct (os_write (m_os s)) as [|[k|p|e] w]; cbn [m_use_tls m_tls_ctx set_write to_wire set_os];
    destruct (m_use_tls s && m_tls_ctx s); try destruct (_ =? 0); try destruct e;
    intros [= <- <- <-]; cbn [m_os os_write set_write to_wire set_os set_connected];
    rewrite ?not_elem_of_cons; tauto.
Qed.

Lemma send_all_loop_blocked fuel data total t s r s' :
  t <> 0 -> polls_ok (os_write (m_os s)) -> send_all_loop fuel data total t s = (r, s') ->
  r <> SocketResult_WouldBlock.
Proof.
  intros Ht. revert total s. induction fuel as [|fuel IH]; intros total s Hp; cbn [send_all_loop];
    (destruct (zlen data <=? total); [by intros [= <- <-]|]);
    destruct (send _ s) as [[r1 k] s1] eqn:Hs;
    pose proof (send_script _ _ _ _ _ Hs Hp) as Hp1;
    destruct r1; try (by intros [= <- <-]); try (by apply IH);
    rewrite (proj2 (Z.eqb_neq t 0)) by done; cbn [andb];
    pose proof (send_blocked _ _ _ _ Hp Hs) as Hb; unfold wait_ready, poll_result;
    destruct (os_poll (m_os s1)) as [| |e|]; try (by intros [= <- <-]); try (by apply IH);
    destruct e; try done; by intros [= <- <-].
Qed.

Lemma send_all_script data t s r s' :
  send_all data t s = (r, s') -> polls_ok (os_write (m_os s)) -> polls_ok (os_write (m_os s')).
Proof.
  unfold send_all. generalize (length (os_write (m_os s))) 0. intros fuel total. revert total s.
  induction fuel as [|fuel IH]; intros total s; cbn [send_all_loop];
    (destruct (zlen data <=? total); [by intros [= <- <-]|]);
    destruct (send _ s) as [[r1 k] s1] eqn:Hs; intros Hl Hp;
    pose proof (send_script _ _ _ _ _ Hs Hp) as Hp1;
    destruct r1; try (by injection Hl as <- <-); try (by eapply IH);
    (destruct ((t =? 0) && (total =? 0)); [by injection Hl as <- <-|]);
    destruct (wait_ready _ true s1) as [r2 s2] eqn:Hw; apply wait_ready_write in Hw as [Ho _];
    rewrite <- Ho in Hp1; destruct r2; try (by injection Hl as <- <-). by eapply IH.
Qed.

Lemma send_all_blocked data t s r s' :
  t <> 0 -> polls_ok (os_write (m_os s)) -> send_all data t s = (r, s') ->
  r <> SocketResult_WouldBlock.
Proof. apply send_all_loop_blocked. Qed.

(** A packet the kernel takes in one go. *)
Lemma send_all_at_once data t s :
  m_connected s = true -> m_use_tls s && m_tls_ctx s = false -> 0 < zlen data ->
  os_write (m_os s) = [Accepts (zlen data)] ->
  os_wire (m_os (send_all data t s).2) = os_wire (m_os s) ++ data.
Proof.
  intros Hc Htls Hd Hw. unfold send_all. rewrite Hw. cbn [length send_all_loop].
  rewrite (proj2 (Z.leb_gt (zlen data) 0)), zdrop_0 by lia.
  unfold send. rewrite Hc. cbn [negb]. unfold os_send. rewrite Hw, Z.min_id, Z.max_r by lia.
  cbn [m_use_tls m_tls_ctx set_write to_wire set_os]. rewrite Htls.
  rewrite (proj2 (Z.eqb_neq (zlen data) 0)) by lia. rewrite Z.add_0_l, Z.leb_refl.
  cbn [snd m_os os_wire set_os set_write to_wire]. by rewrite (ztake_all (zlen data)) by lia.
Qed.

(** ** Lemmas: receiving *)

Lemma arrivals_cons e l :
  arrivals (e :: l) = (match e with Arrives c => c | _ => [] end) ++ arrivals l.
Proof. done. Qed.

Lemma poll_read_spec l p l' :
  poll_read l = (p, l') ->
  arrivals l' = arrivals l /\ (to_come l' <= to_come l)%nat
  /\ (p = PollReady -> l' = l \/ (to_come l' < to_come l)%nat).
Proof.
  destruct l as [|[c| |p'|e] l]; intros [= <- <-];
    rewrite ?arrivals_cons; (split_and!; [done|unfold to_come; simpl; lia|]);
    intros; try (by left); right; unfold to_come; simpl; lia.
Qed.

Lemma os_recv_spec n l ret l' :
  0 < n -> os_recv n l = (ret, l') ->
  (to_come l' <= to_come l)%nat
  /\ arrivals l = (match ret with inl bytes => bytes | _ => [] end) ++ arrivals l'
  /\ match ret with inl bytes => zlen bytes <= n /\ (to_come l' < to_come l)%nat | _ => True end.
Proof.
  intros Hn. revert ret l'. induction l as [|e l IH]; intros ret l'; cbn [os_recv];
    [by intros [= <- <-]|].
  destruct e as [c| |p|e]; rewrite arrivals_cons.
  - destruct (Z.leb_spec (zlen c) n); intros [= <- <-].
    + split_and!; [unfold to_come; simpl; lia|done|lia|unfold to_come; simpl; lia].
    + assert (length (zdrop n c) < length c)%nat.
      { unfold zdrop, zlen in *. rewrite length_drop. lia. }
      rewrite arrivals_cons, app_assoc, ztake_zdrop, zlen_ztake by lia.
      split_and!; [unfold to_come; simpl; lia|done|lia|unfold to_come; simpl; lia].
  - intros [= <- <-]. split_and!; [unfold to_come; simpl; lia|done|done].
  - intros H. destruct (IH _ _ H) as (H1 & -> & H3). split; [unfold to_come in *; simpl; lia|].
    split; [done|]. destruct ret; [|done]. split; [lia|]. unfold to_come in *; simpl; lia.
  - intros [= <- <-]. split_and!; [unfold to_come; simpl; lia|done|done].
Qed.

Lemma recv_now_spec n s r bytes s' :
  0 < n -> recv_now n s = (r, bytes, s') ->
  arrivals (os_read (m_os s)) = bytes ++ arrivals (os_read (m_os s'))
  /\ (to_come (os_read (m_os s')) <= to_come (os_read (m_os s)))%nat
  /\ (r = SocketResult_Success -> 0 < zlen bytes <= n /\ m_connected s' = m_connected s
      /\ (to_come (os_read (m_os s')) < to_come (os_read (m_os s)))%nat)
  /\ (r <> SocketResult_Success -> bytes = []).
Proof.
  intros Hn. unfold recv_now. destruct (os_recv n _) as [ret l] eqn:Hr.
  destruct (os_recv_spec _ _ _ _ Hn Hr) as (Hle & Ha & Hlt). rewrite Ha.
  destruct ret as [[|b bs]|e]; try destruct e; cbn [m_use_tls m_tls_ctx set_read set_os];
    destruct (m_use_tls s && m_tls_ctx s); cbn [errno_to_result]; intros [= <- <- <-];
    cbn [m_os os_read set_read set_os set_connected m_connected];
    (split_and!; try done; intros; try done; rewrite zlen_cons in *;
     pose proof (zlen_nonneg bs); split_and!; try done; lia).
Qed.

(** [recv] delivers what arrives, in order, at most a buffer at a time;
    [Success] means at least one byte, anything else means none. *)
Lemma recv_spec n t s r bytes s' :
  0 < n -> recv n t s = (r, bytes, s') ->
  arrivals (os_read (m_os s)) = bytes ++ arrivals (os_read (m_os s'))
  /\ (to_come (os_read (m_os s')) <= to_come (os_read (m_os s)))%nat
  /\ (r = SocketResult_Success -> 0 < zlen bytes <= n /\ m_connected s' = m_connected s
      /\ (to_come (os_read (m_os s')) < to_come (os_read (m_os s)))%nat)
  /\ (r <> SocketResult_Success -> bytes = []).
Proof.
  intros Hn. unfold recv. destruct (negb (m_connected s)); [by intros [= <- <- <-]|].
  destruct (0 <? t); [|by apply recv_now_spec].
  unfold wait_ready. destruct (poll_read _) as [p l] eqn:Hp.
  destruct (poll_read_spec _ _ _ Hp) as (Ha & Hle & Hready).
  destruct p as [| |e|]; cbn [poll_result].
  - intros Hr. apply recv_now_spec in Hr as (H1 & H2 & H3 & H4); [|done].
    cbn [m_os os_read set_read set_os m_connected] in *. rewrite <- Ha.
    split_and!; [done|lia| |done]. intros Hs. destruct (H3 Hs) as (? & ? & ?).
    split_and!; try done; lia.
  - intros [= <- <- <-]. by rewrite <- Ha.
  - destruct e; intros [= <- <- <-]; by rewrite <- Ha.
  - intros [= <- <- <-]. by rewrite <- Ha.
Qed.

Lemma recv_now_attempts n s r bytes s' :
  recv_now n s = (r, bytes, s') -> os_attempts (m_os s') = os_attempts (m_os s).
Proof.
  unfold recv_now. destruct (os_recv n _) as [[[|b bs]|e] l]; try destruct e;
    cbn [m_use_tls m_tls_ctx set_read set_os]; destruct (m_use_tls s && m_tls_ctx s);
    by intros [= <- <- <-].
Qed.

Lemma recv_attempts n t s r bytes s' :
  recv n t s = (r, bytes, s') -> os_attempts (m_os s') = os_attempts (m_os s).
Proof.
  unfold recv. destruct (negb _); [by intros [= <- <- <-]|].
  destruct (0 <? t); [|by apply recv_now_attempts].
  unfold wait_ready. destruct (poll_read _) as [p l]. destruct p as [| |e|];
    cbn [poll_result]; [|by intros [= <- <- <-]|by destruct e; intros [= <- <- <-]|
                         by intros [= <- <- <-]].
  intros H. by rewrite (recv_now_attempts _ _ _ _ _ H).
Qed.

Lemma recv_net_ok n t s r bytes s' :
  0 < n -> recv n t s = (r, bytes, s') -> net_ok (m_os s) = true ->
  bytes_ok bytes = true /\ net_ok (m_os s') = true.
Proof.
  intros Hn Hr. unfold net_ok. rewrite (recv_attempts _ _ _ _ _ _ Hr).
  destruct (recv_spec _ _ _ _ _ _ Hn Hr) as (Ha & _). unfold read_ok. rewrite Ha, bytes_ok_app.
  rewrite !andb_true_iff. tauto.
Qed.

(** Sending and closing leave the receiving side and the attempts alone, or
    empty the first. *)
Lemma send_read data s r n s' :
  send data s = (r, n, s') ->
  os_read (m_os s') = os_read (m_os s) /\ os_attempts (m_os s') = os_attempts (m_os s).
Proof.
  unfold send. destruct (negb _); [by intros [= <- <- <-]|].
  unfold os_send. destruct (os_write (m_os s)) as [|[k|p|e] w];
    cbn [m_use_tls m_tls_ctx set_write to_wire set_os];
    destruct (m_use_tls s && m_tls_ctx s); try destruct (_ =? 0); try destruct e;
    by intros [= <- <- <-].
Qed.

Lemma send_all_loop_read fuel data total t s r s' :
  send_all_loop fuel data total t s = (r, s') ->
  os_read (m_os s') = os_read (m_os s) /\ os_attempts (m_os s') = os_attempts (m_os s).
Proof.
  revert total s. induction fuel as [|fuel IH]; intros total s; cbn [send_all_loop];
    (destruct (zlen data <=? total); [by intros [= <- <-]|]);
    destruct (send _ s) as [[r1 k] s1] eqn:Hs; apply send_read in Hs as [<- <-];
    destruct r1; try (by intros [= <- <-]); try (by apply IH);
    (destruct ((t =? 0) && (total =? 0)); [by intros [= <- <-]|]);
    destruct (wait_ready _ true s1) as [r2 s2] eqn:Hw; apply wait_ready_write in Hw as [<- _];
    destruct r2; try (by intros [= <- <-]). apply IH.
Qed.

Lemma send_all_read data t s r s' :
  send_all data t s = (r, s') ->
  os_read (m_os s') = os_read (m_os s) /\ os_attempts (m_os s') = os_attempts (m_os s).
Proof. apply send_all_loop_read. Qed.

Lemma close_spec s :
  m_connected (close s) = false /\ (net_ok (m_os s) = true -> net_ok (m_os (close s)) = true).
Proof.
  unfold close. destruct (0 <=? m_fd s); [|done]. split; [done|].
  unfold net_ok. cbn [m_os os_read os_attempts]. by intros [_ ->]%andb_true_iff.
Qed.

Lemma tcp_connect_spec a t s r s' :
  tcp_connect a t s = (r, s') ->
  os_attempts (m_os s') = os_attempts (m_os s)
  /\ (r <> SocketResult_Success -> m_connected s' = false)
  /\ (net_ok (m_os s) = true -> net_ok (m_os s') = true).
Proof.
  destruct (close_spec s) as [Hd Hn].
  assert (Ha : os_attempts (m_os (close s)) = os_attempts (m_os s)).
  { unfold close. by destruct (0 <=? m_fd s). }
  unfold tcp_connect. destruct (if 0 <? t then at_fcntl a else None) as [e|];
    [by intros [= <- <-]|].
  destruct (at_connect a) as [e|]; [|by intros [= <- <-]].
  destruct ((0 <? t) && bool_decide _); [|by intros [= <- <-]].
  destruct (at_poll a) as [| |e2|]; cbn [poll_result].
  - destruct (at_getsockopt a), (at_so_error a); by intros [= <- <-].
  - by intros [= <- <-].
  - destruct e2; cbn [errno_to_result]; intros [= <- <-]; done.
  - intros [= <- <-]. unfold close, set_connected. cbn [m_fd m_os]. destruct (0 <=? m_fd s); [|done].
    unfold net_ok. cbn [m_os os_read os_attempts]. split; [done|]. split; [done|].
    by intros [_ ->]%andb_true_iff.
Qed.

Lemma next_attempt_spec s a s' :
  next_attempt s = (a, s') ->
  m_connected s' = m_connected s
  /\ (net_ok (m_os s) = true -> net_ok (m_os s') = true /\ read_ok (at_read a) = true).
Proof.
  unfold next_attempt, net_ok. destruct (os_attempts (m_os s)) as [|a0 l] eqn:He; intros [= <- <-];
    (split; [done|]); [by rewrite He; intros ->|].
  cbn [m_os os_read os_attempts set_os forallb]. rewrite !andb_true_iff. tauto.
Qed.

Lemma established_net_ok a tls s :
  read_ok (at_read a) = true -> net_ok (m_os s) = true ->
  net_ok (m_os (established a tls s)) = true.
Proof. unfold net_ok. cbn [m_os os_read os_attempts established]. by intros -> [_ ->]%andb_true_iff. Qed.

(** The connection is up exactly when [connect] reports success. *)
Lemma connect_spec up host t tls s r s' :
  m_connected s = false -> connect up host t tls s = (r, s') ->
  (m_connected s' = true <-> r = SocketResult_Success)
  /\ (net_ok (m_os s) = true -> net_ok (m_os s') = true).
Proof.
  intros Hc. unfold connect. destruct up; cbn [negb]; [|intros [= <- <-]; by rewrite Hc].
  case_bool_decide; [intros [= <- <-]; by rewrite Hc|]. rewrite Hc.
  set (s0 := if 0 <=? m_fd s then close s else s).
  assert (Hs0 : m_connected s0 = false /\ (net_ok (m_os s) = true -> net_ok (m_os s0) = true)).
  { subst s0. destruct (0 <=? m_fd s); [apply close_spec|done]. }
  clearbody s0. destruct Hs0 as [Hc0 Hn0].
  destruct (next_attempt s0) as [a s1] eqn:Ha. apply next_attempt_spec in Ha as [Hc1 Hn1].
  rewrite Hc0 in Hc1.
  destruct (create a s1) as [r2 s2] eqn:Hcr.
  assert (Hs2 : m_connected s2 = false /\ m_os s2 = m_os s1
                /\ (r2 <> SocketResult_Success -> s2 = s1)).
  { revert Hcr. unfold create. destruct (0 <=? m_fd s1); [by intros [= <- <-]|].
    destruct (at_socket a); intros [= <- <-]; by rewrite ?Hc1. }
  destruct Hs2 as (Hc2 & Ho2 & _).
  destruct (close_spec s2) as [Hcl Hncl]. rewrite Ho2 in Hncl.
  destruct (decide (r2 = SocketResult_Success)) as [->|Hr2].
  2: { destruct r2; try done; intros [= <- <-]; rewrite Hc2, Ho2; (split; [done|]); intros; by apply Hn1, Hn0. }
  destruct (at_resolves a); cbn [negb].
  2: { intros [= <- <-]. rewrite Hcl. split; [done|]. intros Hok; by apply Hncl, Hn1, Hn0. }
  destruct (tcp_connect a t s2) as [r3 s3] eqn:Ht.
  apply tcp_connect_spec in Ht as (_ & Hd3 & Hn3). rewrite Ho2 in Hn3.
  destruct (decide (r3 = SocketResult_Success)) as [->|Hr3].
  2: { specialize (Hd3 Hr3). destruct r3; try done; intros [= <- <-]; rewrite Hd3;
         (split; [done|]); intros Hok; by apply Hn3, Hn1, Hn0. }
  assert (He : net_ok (m_os s) = true -> net_ok (m_os (established a tls s3)) = true).
  { intros Hok. apply established_net_ok; [by apply Hn1, Hn0|by apply Hn3, Hn1, Hn0]. }
  destruct (tls && negb (at_tls a)); intros [= <- <-].
  - destruct (close_spec (established a tls s3)) as [-> Hn]. split; [done|]. intros Hok. by apply Hn, He.
  - split; [done|]. exact He.
Qed.

(** ** Properties *)

(** [send_all] writes exactly the data or a proper front part of it:
    whatever the kernel answers, the bytes on the wire grow by the first [n]
    bytes of the data, and it reports success exactly when that is all of it. *)
Theorem send_all_exact data t s :
  let (r, s') := send_all data t s in
  exists n, 0 <= n <= zlen data
    /\ os_wire (m_os s') = os_wire (m_os s) ++ ztake n data
    /\ (r = SocketResult_Success <-> n = zlen data).
Proof. destruct (send_all data t s) as [r s'] eqn:Hs. by apply send_all_spec in Hs. Qed.

(** a packet can be torn: when the kernel takes part of it and then has no
    room for the time of one [poll], [send_all] gives up with [Timeout], the
    front part stays on the wire and the socket still counts as connected, so
    the next packet is written into the middle of this one. *)
Theorem send_all_tears data k t s w :
  m_connected s = true -> m_use_tls s && m_tls_ctx s = false -> 0 < k < zlen data ->
  os_write (m_os s) = Accepts k :: Full PollTimeout :: w ->
  let (r, s') := send_all data t s in
  r = SocketResult_Timeout /\ m_connected s' = true
  /\ os_wire (m_os s') = os_wire (m_os s) ++ ztake k data
  /\ forall data', os_write (m_os s') = [Accepts (zlen data')] -> 0 < zlen data' ->
       os_wire (m_os (send_all data' t s').2) = os_wire (m_os s) ++ ztake k data ++ data'.
Proof.
  intros Hc Htls Hk Hw. unfold send_all. rewrite Hw. cbn [length send_all_loop].
  rewrite (proj2 (Z.leb_gt (zlen data) 0)) by lia.
  unfold send at 1. rewrite Hc. cbn [negb]. rewrite zdrop_0. unfold os_send at 1. rewrite Hw.
  rewrite Z.min_l, Z.max_r by lia.
  cbn [m_use_tls m_tls_ctx set_write to_wire set_os]. rewrite Htls.
  rewrite (proj2 (Z.eqb_neq k 0)) by lia. rewrite Z.add_0_l.
  rewrite (proj2 (Z.leb_gt (zlen data) k)) by lia.
  unfold send at 1. cbn [m_connected set_write to_wire set_os]. rewrite Hc. cbn [negb].
  unfold os_send at 1. cbn [m_os os_write os_wire os_poll set_write to_wire set_os m_use_tls m_tls_ctx].
  rewrite Htls.
  rewrite (proj2 (Z.eqb_neq k 0)) by lia. rewrite andb_false_r.
  unfold wait_ready. cbn [m_os os_poll set_os set_write poll_result].
  split_and!; [done|done|done|]. intros data' Hw' Hd.
  change (send_all_loop _ data' 0 t _) with
    (send_all data' t (set_os (m_os (set_write w PollTimeout (to_wire (ztake k data) s))) s)).
  rewrite send_all_at_once by done. cbn [m_os os_wire set_os set_write to_wire].
  by rewrite <- app_assoc.
Qed.

(** A connected descriptor on which the kernel answers writes with [w]. *)
Definition connected_socket (w : list write_event) : Socket := {|
  m_fd := 3; m_connected := true; m_use_tls := false; m_tls_ctx := false;
  m_os := {| os_attempts := []; os_read := []; os_write := w; os_poll := PollReady;
             os_wire := [] |}
|}.

Lemma send_all_tears_witness :
  let s := connected_socket [Accepts 2; Full PollTimeout; Accepts 3] in
  let (r, s') := send_all [1; 2; 3; 4] SEND_TIMEOUT s in
  r = SocketResult_Timeout
  /\ os_wire (m_os (send_all [5; 6; 7] SEND_TIMEOUT s').2) = [1; 2; 5; 6; 7].
Proof.
  pose proof (send_all_tears [1; 2; 3; 4] 2 SEND_TIMEOUT
    (connected_socket [Accepts 2; Full PollTimeout; Accepts 3]) [Accepts 3]
    eq_refl eq_refl (conj eq_refl eq_refl) eq_refl) as H.
  vm_compute in H |- *. destruct H as (_ & _ & _ & H). split; [reflexivity|].
  exact (H [5; 6; 7] eq_refl eq_refl).
Defined.
