(* ===== verification/ITcpClient.v ===== *)
(** * The TCP client interface ([network/itcp_client.hpp])

    [RyuLdnClient] owns an [ITcpClient]; the class below is that interface, one
    method per virtual function (the [send_*] functions as the constructors of
    [Outgoing]).  [TcpLaws] is what the client relies on; [TcpClient] is proved
    to satisfy it. *)

From stdpp Require Import base numbers list.
From Stdlib Require Import ZArith Lia Bool.
From S2P Require Import Prelude Layout Types.

Inductive ClientResult : Set :=
| ClientResult_Success
| ClientResult_NotConnected | ClientResult_AlreadyConnected | ClientResult_ConnectionFailed
| ClientResult_ConnectionLost | ClientResult_Timeout
| ClientResult_InvalidPacket | ClientResult_ProtocolError | ClientResult_BufferTooSmall
| ClientResult_EncodingError
| ClientResult_NotInitialized | ClientResult_InternalError.

#[export] Instance ClientResult_eq_dec : EqDecision ClientResult.
Proof. solve_decision. Defined.

(** The calls [send_*]; a pointer and a size are an optional array and a
    number. *)
Inductive Outgoing : Type :=
| send_packet (type : PacketId) (payload : option (list Z)) (payload_size : Z)
| send_raw (bytes : option (list Z)) (size : Z)
| send_initialize (msg : InitializeMessage)
| send_passphrase (msg : PassphraseMessage)
| send_passphrase_text (passphrase : option (list Z))
| send_ping (msg : PingMessage)
| send_disconnect (msg : DisconnectMessage)
| send_create_access_point (request : CreateAccessPointRequest)
    (advertise_data : option (list Z)) (advertise_size : Z)
| send_create_access_point_private (request : CreateAccessPointPrivateRequest)
    (advertise_data : option (list Z)) (advertise_size : Z)
| send_connect (request : ConnectRequest)
| send_connect_private (request : ConnectPrivateRequest)
| send_scan (filter : ScanFilterFull)
| send_proxy_data (header : ProxyDataHeader) (data : option (list Z)) (data_size : Z)
| send_set_accept_policy (request : SetAcceptPolicyRequest)
| send_set_advertise_data (data : option (list Z)) (size : Z)
| send_reject (request : RejectRequest).

(** [receive_packet] gives the raw type byte and the payload, both meaningful
    on success only.  [tcp_backlog] is not a function of the interface but a
    bound on the packets that can still be received, for the loops over it. *)
Class ITcpClient (C : Type) : Type := {
  tcp_initialize : C -> bool * C;
  tcp_connect : list Z -> Z -> Z -> bool -> C -> ClientResult * C;
  tcp_disconnect : C -> C;
  tcp_is_connected : C -> bool;
  tcp_send : Outgoing -> C -> ClientResult * C;
  tcp_receive_packet : Z -> Z -> C -> ClientResult * Z * list Z * C;
  tcp_backlog : C -> nat
}.

(** [ok] is the implementation's invariant. *)
Class TcpLaws (C : Type) `{ITcpClient C} (ok : C -> Prop) : Prop := {
  tcp_initialize_ok c : ok c -> ok (tcp_initialize c).2;
  tcp_connect_ok host port timeout_ms use_tls c :
    ok c -> ok (tcp_connect host port timeout_ms use_tls c).2;
  tcp_disconnect_ok c : ok c -> ok (tcp_disconnect c);
  tcp_send_ok m c : ok c -> ok (tcp_send m c).2;
  tcp_receive_ok n t c : 0 <= n -> ok c -> ok (tcp_receive_packet n t c).2;
  (** a connected client refuses to connect, and does nothing *)
  tcp_connect_twice host port timeout_ms use_tls c :
    tcp_is_connected c = true ->
    tcp_connect host port timeout_ms use_tls c = (ClientResult_AlreadyConnected, c);
  (** when the connection is up, [connect] has said so *)
  tcp_connect_up host port timeout_ms use_tls c :
    tcp_is_connected c = false ->
    tcp_is_connected (tcp_connect host port timeout_ms use_tls c).2 = true ->
    (tcp_connect host port timeout_ms use_tls c).1 = ClientResult_Success;
  tcp_initialize_connected c : tcp_is_connected (tcp_initialize c).2 = tcp_is_connected c;
  tcp_disconnect_down c : tcp_is_connected (tcp_disconnect c) = false;
  tcp_send_down m c :
    tcp_is_connected c = false -> tcp_send m c = (ClientResult_NotConnected, c);
  (** sending receives nothing *)
  tcp_send_backlog m c : tcp_backlog (tcp_send m c).2 = tcp_backlog c;
  (** a received packet fits the buffer and is used up *)
  tcp_receive_bound n t c :
    0 <= n -> ok c -> (tcp_receive_packet n t c).1.1.1 = ClientResult_Success ->
    zlen (tcp_receive_packet n t c).1.2 <= n
    /\ (tcp_backlog (tcp_receive_packet n t c).2 < tcp_backlog c)%nat
}.
