(* ===== verification/TcpClient.v ===== *)
(** * The TCP client ([network/tcp_client.{hpp,cpp}])

    [TcpClient] over [Socket]: the encoders write into one buffer that
    [send_all] empties, the receiver reassembles packets in an 8 KB
    [PacketBuffer], and proxy data goes through a queue a thread of its own
    sends from.  The thread is a program counter and its local [send_offset];
    [sender_step] is one of its atomic regions, so that the calls of other
    threads interleave with it as they can in the code.  The system time of a
    call and whether a thread can be created are fields the environment sets. *)

From stdpp Require Import base numbers list.
From Stdlib Require Import ZArith Lia Bool.
From S2P Require Import Prelude Layout Types Protocol.
From S2P Require PacketBuffer Socket.
From S2P Require Import ITcpClient.
Import PacketBuffer (PacketBuffer, BufferResult, BufferResult_Success).
Import Socket (Socket, SocketResult).

#[local] Existing Instance Socket.SocketResult_eq_dec.
#[local] Existing Instance PacketBuffer.BufferResult_eq_dec.

Definition RECV_BUFFER_SIZE : Z := 0x2000.
Definition SEND_BUFFER_SIZE : Z := 2048.
Definition TEMP_BUFFER_SIZE : Z := 4096.
Definition kMaxSendQueueSize : Z := 256 * 1024.
Definition kMaxQueuedPacketAgeMs : Z := 2000.

Record QueuedPacket : Type := { timestamp_ms : Z; data : list Z }.

(** Where the sender thread is: at the head of its loop, before the copy of
    the front packet, before the send, before the pop, or gone. *)
Inductive sender_pc : Type :=
| AtWait | AtFetch | AtSend (temp_data : list Z) | AtPop | Exited.

Record TcpClient : Type := {
  m_socket : Socket;
  m_recv_buffer : PacketBuffer;
  m_send_buffer : list Z;
  m_send_queue : list QueuedPacket;
  m_send_queue_size : Z;
  m_send_thread_running : bool;
  m_send_thread_was_started : bool;
  sender_at : sender_pc;
  send_offset : Z;
  s_initialized : bool;         (* of socket.cpp *)
  env_time : Z;                 (* GetCurrentTimeMs *)
  env_thread : bool             (* CreateThread succeeds *)
}.

Definition set_socket (s : Socket) (t : TcpClient) : TcpClient := {|
  m_socket := s; m_recv_buffer := m_recv_buffer t; m_send_buffer := m_send_buffer t;
  m_send_queue := m_send_queue t; m_send_queue_size := m_send_queue_size t;
  m_send_thread_running := m_send_thread_running t;
  m_send_thread_was_started := m_send_thread_was_started t; sender_at := sender_at t;
  send_offset := send_offset t; s_initialized := s_initialized t; env_time := env_time t;
  env_thread := env_thread t
|}.

Definition set_recv_buffer (b : PacketBuffer) (t : TcpClient) : TcpClient := {|
  m_socket := m_socket t; m_recv_buffer := b; m_send_buffer := m_send_buffer t;
  m_send_queue := m_send_queue t; m_send_queue_size := m_send_queue_size t;
  m_send_thread_running := m_send_thread_running t;
  m_send_thread_was_started := m_send_thread_was_started t; sender_at := sender_at t;
  send_offset := send_offset t; s_initialized := s_initialized t; env_time := env_time t;
  env_thread := env_thread t
|}.

Definition set_send_buffer (b : list Z) (t : TcpClient) : TcpClient := {|
  m_socket := m_socket t; m_recv_buffer := m_recv_buffer t; m_send_buffer := b;
  m_send_queue := m_send_queue t; m_send_queue_size := m_send_queue_size t;
  m_send_thread_running := m_send_thread_running t;
  m_send_thread_was_started := m_send_thread_was_started t; sender_at := sender_at t;
  send_offset := send_offset t; s_initialized := s_initialized t; env_time := env_time t;
  env_thread := env_thread t
|}.

Definition set_queue (q : list QueuedPacket) (n : Z) (t : TcpClient) : TcpClient := {|
  m_socket := m_socket t; m_recv_buffer := m_recv_buffer t; m_send_buffer := m_send_buffer t;
  m_send_queue := q; m_send_queue_size := n;
  m_send_thread_running := m_send_thread_running t;
  m_send_thread_was_started := m_send_thread_was_started t; sender_at := sender_at t;
  send_offset := send_offset t; s_initialized := s_initialized t; env_time := env_time t;
  env_thread := env_thread t
|}.

Definition set_thread (running started : bool) (at_ : sender_pc) (offset : Z) (t : TcpClient)
    : TcpClient := {|
  m_socket := m_socket t; m_recv_buffer := m_recv_buffer t; m_send_buffer := m_send_buffer t;
  m_send_queue := m_send_queue t; m_send_queue_size := m_send_queue_size t;
  m_send_thread_running := running; m_send_thread_was_started := started; sender_at := at_;
  send_offset := offset; s_initialized := s_initialized t; env_time := env_time t;
  env_thread := env_thread t
|}.

(** The thread moves on. *)
Definition goto (at_ : sender_pc) (offset : Z) (t : TcpClient) : TcpClient :=
  set_thread (m_send_thread_running t) (m_send_thread_was_started t) at_ offset t.

(** ** Connection *)

Definition initialize (t : TcpClient) : bool * TcpClient :=
  let '(result, up) := Socket.socket_init (s_initialized t) in
  (bool_decide (result = Socket.SocketResult_Success),
   {| m_socket := m_socket t; m_recv_buffer := m_recv_buffer t; m_send_buffer := m_send_buffer t;
      m_send_queue := m_send_queue t; m_send_queue_size := m_send_queue_size t;
      m_send_thread_running := m_send_thread_running t;
      m_send_thread_was_started := m_send_thread_was_started t; sender_at := sender_at t;
      send_offset := send_offset t; s_initialized := up; env_time := env_time t;
      env_thread := env_thread t |}).

Definition socket_to_client_result (r : SocketResult) : ClientResult :=
  match r with
  | Socket.SocketResult_Success => ClientResult_Success
  | Socket.SocketResult_WouldBlock => ClientResult_Success
  | Socket.SocketResult_Timeout => ClientResult_Timeout
  | Socket.SocketResult_NotConnected => ClientResult_NotConnected
  | Socket.SocketResult_AlreadyConnected => ClientResult_AlreadyConnected
  | Socket.SocketResult_NotInitialized => ClientResult_NotInitialized
  | Socket.SocketResult_Closed | Socket.SocketResult_ConnectionReset =>
      ClientResult_ConnectionLost
  | Socket.SocketResult_ConnectionRefused | Socket.SocketResult_HostUnreachable
  | Socket.SocketResult_NetworkDown | Socket.SocketResult_InvalidAddress =>
      ClientResult_ConnectionFailed
  | Socket.SocketResult_SocketError => ClientResult_InternalError
  end.

(** [disconnect]: the thread is joined (it leaves its loop at the next check
    of the flag), its queue emptied, the socket closed when it is connected. *)
Definition disconnect (t : TcpClient) : TcpClient :=
  let t := if m_send_thread_running t || m_send_thread_was_started t
           then set_queue [] 0 (set_thread false false Exited 0 t) else t in
  let t := if Socket.is_connected (m_socket t)
           then set_socket (Socket.close (m_socket t)) t else t in
  set_recv_buffer (PacketBuffer.reset (m_recv_buffer t)) t.

Definition is_connected (t : TcpClient) : bool := Socket.is_connected (m_socket t).

(** [connect(host, port, timeout_ms, use_tls)]; the port only goes into the
    address of the attempt. *)
Definition connect (host : list Z) (port timeout_ms : Z) (use_tls : bool) (t : TcpClient)
    : ClientResult * TcpClient :=
  if is_connected t then (ClientResult_AlreadyConnected, t)
  else
    let t := disconnect t in
    let '(result, s) := Socket.connect (s_initialized t) host timeout_ms use_tls (m_socket t) in
    let t := set_socket s t in
    match result with
    | Socket.SocketResult_Success =>
        let t := set_recv_buffer (PacketBuffer.reset (m_recv_buffer t)) t in
        let t := set_queue [] 0 t in
        if env_thread t then (ClientResult_Success, set_thread true true AtWait 0 t)
        else (ClientResult_ConnectionLost,
              set_socket (Socket.close (m_socket t)) (set_thread false false Exited 0 t))
    | _ => (socket_to_client_result result, t)
    end.

(** ** Sending *)

(** The common tail: [send_all] of the first [size] bytes of the buffer, with
    its default timeout. *)
Definition send_buffered (size : Z) (t : TcpClient) : ClientResult * TcpClient :=
  let '(result, s) :=
    Socket.send_all (ztake size (m_send_buffer t)) Socket.SEND_TIMEOUT (m_socket t) in
  (socket_to_client_result result, set_socket s t).

(** Encode into the send buffer and send what was encoded. *)
Definition send_encoded (encoded : EncodeResult * list Z * Z) (t : TcpClient)
    : ClientResult * TcpClient :=
  let '(encode_result, buffer, encoded_size) := encoded in
  let t := set_send_buffer buffer t in
  match encode_result with
  | EncodeResult_Success => send_buffered encoded_size t
  | _ => (ClientResult_EncodingError, t)
  end.

(** Header, structure and advertise data, written by hand: the data is only
    copied, and only counted in the bytes sent, when there is a pointer. *)
Definition send_with_advertise {T} `{HasLayout T} (type : PacketId) (request : T)
    (advertise_data : option (list Z)) (advertise_size : Z) (t : TcpClient)
    : ClientResult * TcpClient :=
  let total_payload_size := u64 (sizeofz T + advertise_size) in
  if SEND_BUFFER_SIZE - sizeofz LdnHeader <? total_payload_size
  then (ClientResult_BufferTooSmall, t)
  else
    let '(buffer, offset) := encode_header (m_send_buffer t) type total_payload_size in
    let buffer := write_at offset (bytes_of request) buffer in
    let offset := offset + sizeofz T in
    let buffer := copy_data offset advertise_data advertise_size buffer in
    let offset := match advertise_data with
                  | Some _ => if 0 <? advertise_size then offset + advertise_size else offset
                  | None => offset
                  end in
    send_buffered offset (set_send_buffer buffer t).

Definition send_advertise (data : option (list Z)) (size : Z) (t : TcpClient)
    : ClientResult * TcpClient :=
  let size := if 384 <? size then 384 else size in
  let '(buffer, offset) := encode_header (m_send_buffer t) PacketId_SetAdvertiseData size in
  let buffer := copy_data offset data size buffer in
  send_buffered (offset + size) (set_send_buffer buffer t).

(** [strlen] and at most 127 characters of the passphrase. *)
Definition passphrase_message (passphrase : option (list Z)) : PassphraseMessage :=
  match passphrase with
  | Some p => {| pass_passphrase := write_at 0 (ztake 127 (cstr p)) (repeat 0 128) |}
  | None => {| pass_passphrase := repeat 0 128 |}
  end.

(** The loop that drops the oldest packets to make room. *)
Fixpoint drop_oldest (queue : list QueuedPacket) (queue_size encoded_size : Z)
    : list QueuedPacket * Z :=
  match queue with
  | [] => (queue, queue_size)
  | p :: rest =>
      if kMaxSendQueueSize <? queue_size + encoded_size
      then drop_oldest rest (u64 (queue_size - zlen (data p))) encoded_size
      else (queue, queue_size)
  end.

Definition enqueue (packet : list Z) (t : TcpClient) : TcpClient :=
  let '(queue, size) := drop_oldest (m_send_queue t) (m_send_queue_size t) (zlen packet) in
  set_queue (queue ++ [{| timestamp_ms := env_time t; data := packet |}])
    (size + zlen packet) t.

Definition queue_proxy_data (header : ProxyDataHeader) (d : option (list Z)) (data_size : Z)
    (t : TcpClient) : ClientResult * TcpClient :=
  let '(encode_result, buffer, encoded_size) :=
    encode_proxy_data (m_send_buffer t) SEND_BUFFER_SIZE (pdh_info header) d data_size in
  let t := set_send_buffer buffer t in
  match encode_result with
  | EncodeResult_Success =>
      (ClientResult_Success, enqueue (ztake encoded_size (m_send_buffer t)) t)
  | _ => (ClientResult_EncodingError, t)
  end.

(** Every [send_*]: nothing happens unless the socket is connected. *)
Definition send (m : Outgoing) (t : TcpClient) : ClientResult * TcpClient :=
  let buffer := m_send_buffer t in
  if negb (is_connected t) then (ClientResult_NotConnected, t)
  else
    match m with
    | send_packet type payload n =>
        send_encoded (encode_raw buffer SEND_BUFFER_SIZE type payload n) t
    | send_raw None _ => (ClientResult_EncodingError, t)
    | send_raw (Some d) n =>
        if n =? 0 then (ClientResult_EncodingError, t)
        else
          let '(result, s) :=
            Socket.send_all (ztake n d) Socket.SEND_TIMEOUT (m_socket t) in
          (socket_to_client_result result, set_socket s t)
    | send_initialize msg =>
        send_encoded (encode buffer SEND_BUFFER_SIZE PacketId_Initialize msg) t
    | send_passphrase msg =>
        send_encoded (encode buffer SEND_BUFFER_SIZE PacketId_Passphrase msg) t
    | send_passphrase_text p =>
        send_encoded (encode buffer SEND_BUFFER_SIZE PacketId_Passphrase
                        (passphrase_message p)) t
    | send_ping msg => send_encoded (encode buffer SEND_BUFFER_SIZE PacketId_Ping msg) t
    | send_disconnect msg =>
        send_encoded (encode buffer SEND_BUFFER_SIZE PacketId_Disconnect msg) t
    | send_create_access_point request d n =>
        send_with_advertise PacketId_CreateAccessPoint request d n t
    | send_create_access_point_private request d n =>
        send_with_advertise PacketId_CreateAccessPointPrivate request d n t
    | send_connect request =>
        send_encoded (encode buffer SEND_BUFFER_SIZE PacketId_Connect request) t
    | send_connect_private request =>
        send_encoded (encode buffer SEND_BUFFER_SIZE PacketId_ConnectPrivate request) t
    | send_scan filter => send_encoded (encode buffer SEND_BUFFER_SIZE PacketId_Scan filter) t
    | send_proxy_data header d n => queue_proxy_data header d n t
    | send_set_accept_policy request =>
        send_encoded (encode buffer SEND_BUFFER_SIZE PacketId_SetAcceptPolicy request) t
    | send_set_advertise_data d n => send_advertise d n t
    | send_reject request =>
        send_encoded (encode buffer SEND_BUFFER_SIZE PacketId_Reject request) t
    end.

(** ** Receiving *)

Definition receive_into_buffer (timeout_ms : Z) (t : TcpClient) : ClientResult * TcpClient :=
  let '(recv_result, received, s) := Socket.recv TEMP_BUFFER_SIZE timeout_ms (m_socket t) in
  let t := set_socket s t in
  match recv_result with
  | Socket.SocketResult_WouldBlock | Socket.SocketResult_Timeout => (ClientResult_Timeout, t)
  | Socket.SocketResult_Closed => (ClientResult_ConnectionLost, t)
  | Socket.SocketResult_Success =>
      if zlen received =? 0 then (ClientResult_ConnectionLost, t)
      else
        match PacketBuffer.append RECV_BUFFER_SIZE received (zlen received) (m_recv_buffer t) with
        | (BufferResult_Success, b) => (ClientResult_Success, set_recv_buffer b t)
        | (_, b) => (ClientResult_InvalidPacket, set_recv_buffer b t)
        end
  | r => (socket_to_client_result r, t)
  end.

(** How much can still be received: the fuel of the loop, each iteration of
    which takes something from the network. *)
Definition to_come (t : TcpClient) : nat := Socket.to_come (Socket.os_read (Socket.m_os (m_socket t))).

Fixpoint receive_loop (fuel : nat) (timeout_ms : Z) (t : TcpClient) : ClientResult * TcpClient :=
  if PacketBuffer.has_complete_packet (m_recv_buffer t) then (ClientResult_Success, t)
  else
    match receive_into_buffer timeout_ms t with
    | (ClientResult_Success, t) =>
        match fuel with
        | O => (ClientResult_Timeout, t)
        | S fuel => receive_loop fuel timeout_ms t
        end
    | (result, t) => (result, t)
    end.

(** [receive_packet(type, payload, payload_buffer_size, payload_size, timeout_ms)]:
    the type byte and the payload. *)
Definition receive_packet (payload_buffer_size timeout_ms : Z) (t : TcpClient)
    : ClientResult * Z * list Z * TcpClient :=
  if negb (is_connected t) then (ClientResult_NotConnected, 0, [], t)
  else
    match receive_loop (to_come t) timeout_ms t with
    | (ClientResult_Success, t) =>
        let b := m_recv_buffer t in
        let '(peek_result, packet_size) := PacketBuffer.peek_packet_info b in
        match peek_result with
        | BufferResult_Success =>
            match decode_header (PacketBuffer.data b) (PacketBuffer.size b) (zeroed LdnHeader) with
            | (DecodeResult_Success, header) =>
                let n := u64 (hdr_data_size header) in
                if payload_buffer_size <? n then (ClientResult_BufferTooSmall, 0, [], t)
                else
                  (ClientResult_Success, hdr_type header,
                   ztake n (zdrop (sizeofz LdnHeader) (PacketBuffer.data b)),
                   set_recv_buffer (PacketBuffer.consume packet_size b) t)
            | _ => (ClientResult_InvalidPacket, 0, [], t)
            end
        | _ => (ClientResult_InvalidPacket, 0, [], t)
        end
    | (result, t) => (result, 0, [], t)
    end.

Definition has_packet_available (t : TcpClient) : bool :=
  PacketBuffer.has_complete_packet (m_recv_buffer t).

(** [set_nodelay]; [err] is what [setsockopt] fails with. *)
Definition set_nodelay (err : option Socket.errno) (t : TcpClient) : ClientResult :=
  if negb (is_connected t) then ClientResult_NotConnected
  else socket_to_client_result (Socket.set_option err (m_socket t)).

(** ** The sender thread *)

Definition stale (now_ms : Z) (p : QueuedPacket) : bool :=
  (timestamp_ms p <? now_ms) && (kMaxQueuedPacketAgeMs <? now_ms - timestamp_ms p).

(** Drop the front packet. *)
Definition pop_front (t : TcpClient) : TcpClient :=
  match m_send_queue t with
  | [] => t
  | p :: rest => set_queue rest (u64 (m_send_queue_size t - zlen (data p))) t
  end.

(** The send of the rest of [temp_data]; [None]: [to_send] wraps around and the
    kernel is given memory behind the vector. *)
Definition send_rest (temp_data : list Z) (t : TcpClient) : option TcpClient :=
  let size := zlen temp_data in
  if size <? send_offset t then None
  else
    let '(res, sent, s) := Socket.send (zdrop (send_offset t) temp_data) (m_socket t) in
    let t := set_socket s t in
    Some match res with
         | Socket.SocketResult_Success =>
             let offset := send_offset t + sent in
             if size <=? offset then goto AtPop offset t else goto AtWait offset t
         | Socket.SocketResult_WouldBlock => goto AtWait (send_offset t) t
         | _ => goto Exited (send_offset t) t
         end.

(** One atomic region of [SendThreadLoop]: up to the next unlock of the queue's
    mutex, or the send. *)
Definition sender_step (now_ms : Z) (t : TcpClient) : option TcpClient :=
  match sender_at t with
  | AtWait =>
      if negb (m_send_thread_running t) then Some (goto Exited (send_offset t) t)
      else if send_offset t =? 0 then
        match m_send_queue t with
        | [] => Some t
        | p :: _ => if stale now_ms p then Some (pop_front t)
                    else Some (goto AtFetch (send_offset t) t)
        end
      else Some (goto AtFetch (send_offset t) t)
  | AtFetch =>
      match m_send_queue t with
      | [] => Some (goto AtWait 0 t)
      | p :: _ => if (send_offset t =? 0) && stale now_ms p
                  then Some (goto AtWait (send_offset t) (pop_front t))
                  else Some (goto (AtSend (data p)) (send_offset t) t)
      end
  | AtSend temp_data => send_rest temp_data t
  | AtPop => Some (goto AtWait 0 (pop_front t))
  | Exited => Some t
  end.

(** Steps of the sender thread interleaved with the calls of other threads;
    [None] when the thread has read outside a packet. *)
Inductive action : Type :=
| Tick (now_ms : Z)
| Call (now_ms : Z) (m : Outgoing).

Definition at_time (now_ms : Z) (t : TcpClient) : TcpClient := {|
  m_socket := m_socket t; m_recv_buffer := m_recv_buffer t; m_send_buffer := m_send_buffer t;
  m_send_queue := m_send_queue t; m_send_queue_size := m_send_queue_size t;
  m_send_thread_running := m_send_thread_running t;
  m_send_thread_was_started := m_send_thread_was_started t; sender_at := sender_at t;
  send_offset := send_offset t; s_initialized := s_initialized t; env_time := now_ms;
  env_thread := env_thread t
|}.

Definition act (a : action) (t : TcpClient) : option TcpClient :=
  match a with
  | Tick now_ms => sender_step now_ms t
  | Call now_ms m => Some (send m (at_time now_ms t)).2
  end.

Fixpoint acts (l : list action) (t : TcpClient) : option TcpClient :=
  match l with
  | [] => Some t
  | a :: l => t ← act a t; acts l t
  end.

(** ** Specification *)

(** What the constructor and every operation establish: the reassembly buffer
    is well formed, and what arrives are bytes. *)
Definition tcp_ok (t : TcpClient) : Prop :=
  PacketBuffer.buffer_ok RECV_BUFFER_SIZE (m_recv_buffer t)
  /\ Socket.net_ok (Socket.m_os (m_socket t)) = true.

Definition buffered (t : TcpClient) : list Z := PacketBuffer.contents (m_recv_buffer t).

(** The bytes the receiver has not handed out: buffered, then to arrive. *)
Definition incoming (t : TcpClient) : list Z :=
  buffered t ++ Socket.arrivals (Socket.os_read (Socket.m_os (m_socket t))).

Definition wire_bytes (t : TcpClient) : list Z := Socket.os_wire (Socket.m_os (m_socket t)).

(** ** The interface *)

#[export] Instance TcpClient_ITcpClient : ITcpClient TcpClient := {|
  tcp_initialize := initialize;
  tcp_connect := connect;
  tcp_disconnect := disconnect;
  tcp_is_connected := is_connected;
  tcp_send := send;
  tcp_receive_packet := receive_packet;
  tcp_backlog t := length (incoming t)
|}.


(** ** Lemmas: receiving *)

(** One read: on success the received bytes are in the buffer; otherwise
    nothing is lost, unless the buffer had no room ([InvalidPacket]). *)
Lemma receive_into_buffer_spec timeout_ms t r t' :
  tcp_ok t -> receive_into_buffer timeout_ms t = (r, t') ->
  tcp_ok t' /\ (length (incoming t') <= length (incoming t))%nat
  /\ (exists received, buffered t' = buffered t ++ received)
  /\ (r <> ClientResult_InvalidPacket -> incoming t' = incoming t)
  /\ r <> ClientResult_BufferTooSmall
  /\ match r with
     | ClientResult_Success => (to_come t' < to_come t)%nat
     | ClientResult_InvalidPacket => RECV_BUFFER_SIZE - zlen (buffered t) < TEMP_BUFFER_SIZE
     | _ => buffered t' = buffered t
     end.
Proof.
  intros [Hb Hn]. unfold receive_into_buffer.
  destruct (Socket.recv _ _ _) as [[res received] s] eqn:Hr.
  pose proof (Socket.recv_spec _ _ _ _ _ _ (eq_refl : 0 < TEMP_BUFFER_SIZE) Hr)
    as (Ha & Hle & Hs & Hf).
  destruct (Socket.recv_net_ok _ _ _ _ _ _ (eq_refl : 0 < TEMP_BUFFER_SIZE) Hr Hn) as [Hrb Hn'].
  unfold tcp_ok, incoming, buffered, to_come.
  destruct (decide (res = Socket.SocketResult_Success)) as [->|Hres].
  - destruct (Hs eq_refl) as (Hl & _ & Hlt). rewrite (proj2 (Z.eqb_neq _ 0)) by lia.
    pose proof (PacketBuffer.append_spec RECV_BUFFER_SIZE received (m_recv_buffer t) Hb Hrb)
      as Happ. cbn [m_recv_buffer set_socket].
    assert (zlen received < 2 ^ 63) as Hsm by (unfold TEMP_BUFFER_SIZE in Hl; lia).
    specialize (Happ Hsm).
    destruct (Z.ltb_spec (RECV_BUFFER_SIZE - zlen (PacketBuffer.contents (m_recv_buffer t)))
                (zlen received)) as [Hfull|_].
    + rewrite Happ. intros [= <- <-]. cbn [m_recv_buffer m_socket set_socket set_recv_buffer].
      split_and!; [done|done| | |done|done|lia].
      * rewrite Ha, !length_app. lia.
      * exists []. by rewrite app_nil_r.
    + destruct Happ as (b & -> & Hb' & Hc). intros [= <- <-].
      cbn [m_recv_buffer m_socket set_socket set_recv_buffer].
      rewrite Hc, Ha, <- !app_assoc. split_and!; try done. by exists received.
  - specialize (Hf Hres). subst received.
    intros Heq.
    assert (Hcase : t' = set_socket s t /\ r <> ClientResult_Success
                    /\ r <> ClientResult_InvalidPacket /\ r <> ClientResult_BufferTooSmall).
    { destruct res; try done; injection Heq as <- <-; done. }
    destruct Hcase as (-> & Hr1 & Hr2 & Hr3). cbn [m_recv_buffer m_socket set_socket].
    rewrite Ha. cbn [app]. split_and!; try done; [exists []; by rewrite app_nil_r|].
    destruct r; done.
Qed.

Lemma receive_loop_spec fuel timeout_ms t r t' :
  tcp_ok t -> (to_come t <= fuel)%nat -> receive_loop fuel timeout_ms t = (r, t') ->
  tcp_ok t' /\ (length (incoming t') <= length (incoming t))%nat
  /\ (exists received, buffered t' = buffered t ++ received)
  /\ (r <> ClientResult_InvalidPacket -> incoming t' = incoming t)
  /\ r <> ClientResult_BufferTooSmall
  /\ (r = ClientResult_Success -> PacketBuffer.has_complete_packet (m_recv_buffer t') = true).
Proof.
  revert t. induction fuel as [|fuel IH]; intros t Hok Hf; cbn [receive_loop];
    (destruct (PacketBuffer.has_complete_packet (m_recv_buffer t)) eqn:Hc;
     [intros [= <- <-]; split_and!; try done; exists []; by rewrite app_nil_r|]);
    destruct (receive_into_buffer timeout_ms t) as [r1 t1] eqn:Hr;
    destruct (receive_into_buffer_spec _ _ _ _ Hok Hr) as (Hok1 & Hl1 & [d1 Hb1] & Hi1 & Hts & Hr1).
  - destruct r1; intros [= <- <-]; split_and!; eauto; done.
  - destruct (decide (r1 = ClientResult_Success)) as [->|].
    + intros Hl. destruct (IH t1 Hok1 ltac:(lia) Hl) as (Hok2 & Hl2 & [d2 Hb2] & Hi2 & Hts2 & Hr2).
      split_and!; try done; [lia| |].
      * exists (d1 ++ d2). by rewrite Hb2, Hb1, app_assoc.
      * intros Hne. by rewrite (Hi2 Hne), Hi1.
    + destruct r1; try done; intros [= <- <-]; split_and!; eauto; done.
Qed.

(** The buffer holds the front of a stream of packets that fit: a packet is
    complete, or there is room for another read. *)
Lemma stream_leaves_room t ps rest :
  tcp_ok t -> Forall (fun p => body_ok p.2 = true /\ zlen p.2 <= 4084) ps ->
  buffered t ++ rest = PacketBuffer.stream ps ->
  PacketBuffer.has_complete_packet (m_recv_buffer t) = false ->
  TEMP_BUFFER_SIZE <= RECV_BUFFER_SIZE - zlen (buffered t).
Proof.
  intros [Hb _] Hps Hst Hc. unfold TEMP_BUFFER_SIZE, RECV_BUFFER_SIZE. destruct ps as [|p ps].
  - apply app_nil in Hst as [-> _]. done.
  - apply Forall_cons in Hps as [[Hp Hl] _]. unfold PacketBuffer.stream in Hst.
    cbn [map concat] in Hst. pose proof (PacketBuffer.stream_info_front _ _ _ _ Hp Hst) as Hi.
    pose proof (PacketBuffer.zlen_wire p) as Hw. rewrite Hw in Hi.
    destruct (Z.ltb_spec (zlen (buffered t)) (12 + zlen p.2)); [lia|].
    pose proof (zlen_nonneg p.2).
    rewrite (proj2 (Z.ltb_ge (zlen (buffered t)) 12)) in Hi by lia.
    apply not_true_iff_false in Hc. destruct Hc.
    apply (PacketBuffer.has_complete_packet_spec _ _ Hb). unfold buffered in Hi. by rewrite Hi.
Qed.

(** When a stream of packets that fit is coming, the buffer never overflows. *)
Lemma receive_loop_stream fuel timeout_ms t r t' ps rest :
  tcp_ok t -> (to_come t <= fuel)%nat ->
  Forall (fun p => body_ok p.2 = true /\ zlen p.2 <= 4084) ps ->
  incoming t ++ rest = PacketBuffer.stream ps ->
  receive_loop fuel timeout_ms t = (r, t') ->
  incoming t' = incoming t /\ r <> ClientResult_InvalidPacket.
Proof.
  intros Hok Hf Hps Hst. revert t Hok Hf Hst.
  induction fuel as [|fuel IH]; intros t Hok Hf Hst; cbn [receive_loop];
    (destruct (PacketBuffer.has_complete_packet (m_recv_buffer t)) eqn:Hc;
     [by intros [= <- <-]|]);
    destruct (receive_into_buffer timeout_ms t) as [r1 t1] eqn:Hr;
    destruct (receive_into_buffer_spec _ _ _ _ Hok Hr) as (Hok1 & Hl1 & [d1 Hb1] & Hi1 & Hts & Hr1).
  all: assert (Hroom : r1 <> ClientResult_InvalidPacket) by
    (intros ->; unfold incoming in Hst; rewrite <- app_assoc in Hst;
     pose proof (stream_leaves_room _ _ _ Hok Hps Hst Hc); lia).
  - destruct r1; intros [= <- <-]; (split; [by apply Hi1|done]).
  - destruct (decide (r1 = ClientResult_Success)) as [->|].
    + rewrite <- Hi1 in Hst |- * by done. apply IH; [done|lia|done].
    + destruct r1; try done; intros [= <- <-]; (split; [by apply Hi1|done]).
Qed.

Lemma accepted_size l n h hd :
  decode_header l n h = (DecodeResult_Success, hd) ->
  0 <= u64 (hdr_data_size hd) <= MAX_PACKET_SIZE.
Proof.
  unfold decode_header. cbn zeta. pose proof (u64_range (hdr_data_size (of_bytes (A:=LdnHeader) l))).
  repeat case_if; intros [=]; subst; zbool; lia.
Qed.

(** A complete packet at the front: its header, and where it ends. *)
Lemma complete_front t :
  tcp_ok t -> PacketBuffer.has_complete_packet (m_recv_buffer t) = true ->
  exists hd, PacketBuffer.peek_packet_info (m_recv_buffer t)
      = (BufferResult_Success, 12 + u64 (hdr_data_size hd))
    /\ decode_header (PacketBuffer.data (m_recv_buffer t)) (PacketBuffer.size (m_recv_buffer t))
         (zeroed LdnHeader) = (DecodeResult_Success, hd)
    /\ 0 <= u64 (hdr_data_size hd) /\ 12 + u64 (hdr_data_size hd) <= zlen (buffered t).
Proof.
  intros [Hb Hn] Hc. pose proof (proj1 (PacketBuffer.has_complete_packet_spec _ _ Hb) Hc) as Hs.
  destruct (PacketBuffer.stream_info (buffered t)) as [r m] eqn:Hi.
  unfold buffered in Hi. rewrite Hi in Hs. cbn [fst] in Hs. subst r.
  destruct (PacketBuffer.stream_info_success _ _ (PacketBuffer.contents_ok _ _ Hb) Hi) as [Hm _].
  rewrite (PacketBuffer.peek_packet_info_contents _ _ Hb), Hi.
  unfold PacketBuffer.data, PacketBuffer.size.
  assert (12 <= PacketBuffer.m_write_pos (m_recv_buffer t)) as Hw
    by (rewrite <- (PacketBuffer.zlen_contents _ _ Hb); lia).
  rewrite (PacketBuffer.decode_header_contents _ _ _ Hb Hw).
  revert Hi. unfold PacketBuffer.stream_info, PacketBuffer.peek_packet_info.
  cbn [PacketBuffer.m_buffer PacketBuffer.m_write_pos]. rewrite sizeofz_header.
  rewrite (proj2 (Z.ltb_ge _ 12)) by lia. unfold check_complete_packet, buffered.
  destruct (decode_header _ _ _) as [dr hd] eqn:Hd. intros Hi. exists hd.
  destruct dr; try done. pose proof (accepted_size _ _ _ _ Hd) as Hsz.
  unfold MAX_PACKET_SIZE in Hsz. rewrite sizeofz_header, (u64_small (12 + _)) in Hi by lia.
  destruct (Z.ltb_spec (zlen (PacketBuffer.contents (m_recv_buffer t)))
              (12 + u64 (hdr_data_size hd))); [done|].
  injection Hi as <-. split_and!; done || lia.
Qed.

(** [receive_packet], once the loop has returned. *)
Lemma receive_packet_spec n timeout_ms t r type payload t' :
  0 <= n -> tcp_ok t -> receive_packet n timeout_ms t = (r, type, payload, t') ->
  tcp_ok t' /\ (length (incoming t') <= length (incoming t))%nat
  /\ (r = ClientResult_Success ->
      zlen payload <= n /\ (length (incoming t') < length (incoming t))%nat).
Proof.
  intros Hn Hok. unfold receive_packet.
  destruct (negb (is_connected t)); [by intros [= <- <- <- <-]|].
  destruct (receive_loop _ _ t) as [r1 t1] eqn:Hl.
  destruct (receive_loop_spec _ _ _ _ _ Hok (le_n _) Hl) as (Hok1 & Hle & _ & _ & _ & Hc).
  destruct (decide (r1 = ClientResult_Success)) as [->|Hne].
  2: { destruct r1; try done; by intros [= <- <- <- <-]. }
  destruct (complete_front t1 Hok1 (Hc eq_refl)) as (hd & -> & -> & Hd0 & Hd1).
  destruct (Z.ltb_spec n (u64 (hdr_data_size hd))) as [|Hfit]; [by intros [= <- <- <- <-]|].
  intros [= <- <- <- <-]. destruct Hok1 as [Hb1 Hn1].
  destruct (PacketBuffer.consume_spec RECV_BUFFER_SIZE (12 + u64 (hdr_data_size hd))
              (m_recv_buffer t1) ltac:(lia) Hb1) as [Hb2 Hc2].
  assert (Hlt : (length (incoming
      (set_recv_buffer (PacketBuffer.consume (12 + u64 (hdr_data_size hd)) (m_recv_buffer t1)) t1))
      < length (incoming t))%nat).
  { eapply Nat.lt_le_trans; [|exact Hle]. unfold incoming, buffered in *.
    cbn [m_recv_buffer m_socket set_recv_buffer]. rewrite Hc2, !length_app.
    unfold zdrop, zlen in *. rewrite length_drop. lia. }
  split_and!; [by split|lia|]. intros _. split; [|done].
  unfold ztake, zlen. rewrite length_take. lia.
Qed.

(** The loop stops with a complete packet at the front of a stream: it is the
    stream's first packet. *)
Lemma take_packet t p ps rest :
  tcp_ok t -> body_ok p.2 = true -> incoming t ++ rest = PacketBuffer.stream (p :: ps) ->
  PacketBuffer.has_complete_packet (m_recv_buffer t) = true ->
  PacketBuffer.peek_packet_info (m_recv_buffer t) = (BufferResult_Success, 12 + zlen p.2)
  /\ decode_header (PacketBuffer.data (m_recv_buffer t)) (PacketBuffer.size (m_recv_buffer t))
       (zeroed LdnHeader) = (DecodeResult_Success, packet_header p.1 (zlen p.2))
  /\ ztake (zlen p.2) (zdrop 12 (PacketBuffer.data (m_recv_buffer t))) = p.2
  /\ incoming (set_recv_buffer (PacketBuffer.consume (12 + zlen p.2) (m_recv_buffer t)) t) ++ rest
     = PacketBuffer.stream ps.
Proof.
  intros Hok Hp Hst Hc. pose proof (complete_front t Hok Hc) as (hd & Hpeek & Hdec & Hd0 & Hd1).
  destruct Hok as [Hb Hn]. pose proof (zlen_nonneg p.2) as H0.
  pose proof Hst as Hst0. unfold incoming, PacketBuffer.stream in Hst. cbn [map concat] in Hst.
  fold (PacketBuffer.stream ps) in Hst. rewrite <- app_assoc in Hst.
  pose proof (PacketBuffer.stream_info_front _ _ _ _ Hp Hst) as Hi.
  rewrite (PacketBuffer.peek_packet_info_contents _ _ Hb) in Hpeek |- *.
  fold (buffered t) in Hpeek |- *.
  rewrite Hpeek, PacketBuffer.zlen_wire in Hi. rewrite Hpeek.
  destruct (Z.ltb_spec (zlen (buffered t)) 12); [done|].
  destruct (Z.ltb_spec (zlen (buffered t)) (12 + zlen p.2)) as [|Hlong]; [done|].
  assert (Hsz : u64 (hdr_data_size hd) = zlen p.2) by (injection Hi; lia). rewrite Hsz.
  destruct (PacketBuffer.consume_spec RECV_BUFFER_SIZE (12 + zlen p.2) (m_recv_buffer t)
              ltac:(lia) Hb) as [_ Hcons].
  pose proof (PacketBuffer.zlen_wire p) as Hwl.
  assert (Hsplit : buffered t = PacketBuffer.wire p ++ zdrop (12 + zlen p.2) (buffered t)).
  { rewrite <- (ztake_zdrop (12 + zlen p.2) (buffered t)) at 1. f_equal.
    rewrite <- (ztake_app_le (buffered t) (Socket.arrivals
      (Socket.os_read (Socket.m_os (m_socket t))) ++ rest)), Hst by lia. by apply ztake_app. }
  pose proof (PacketBuffer.zlen_contents _ _ Hb) as Hz. fold (buffered t) in Hz.
  split_and!; [done| | |].
  - unfold PacketBuffer.data, PacketBuffer.size.
    rewrite (PacketBuffer.decode_header_contents _ _ _ Hb) by lia. fold (buffered t).
    rewrite Hsplit. apply (decode_header_packet p.1 p.2).
    + by apply body_ok_spec in Hp as [_ ?].
    + rewrite <- Hsplit. lia.
  - unfold PacketBuffer.data. rewrite ztake_zdrop_comm by lia.
    rewrite (PacketBuffer.ztake_contents _ _ _ Hb) by lia. fold (buffered t).
    rewrite Hsplit, ztake_app by lia. unfold PacketBuffer.wire.
    pose proof (payload_of_wire_packet p.1 p.2 []) as Hpl. rewrite !app_nil_r in Hpl. exact Hpl.
  - unfold incoming, buffered. cbn [m_recv_buffer m_socket set_recv_buffer]. rewrite Hcons.
    fold (buffered t). rewrite Hsplit, <- app_assoc in Hst. apply app_inv_head in Hst.
    by rewrite <- app_assoc.
Qed.

(** One call on a stream of packets. *)
Lemma receive_packet_stream n timeout_ms t ps rest :
  tcp_ok t -> Forall (fun p => body_ok p.2 = true /\ zlen p.2 <= Z.min n 4084) ps ->
  incoming t ++ rest = PacketBuffer.stream ps ->
  let '(r, type, payload, t') := receive_packet n timeout_ms t in
  if bool_decide (r = ClientResult_Success) then
    exists p ps', ps = p :: ps' /\ type = PacketId_value p.1 /\ payload = p.2
      /\ incoming t' ++ rest = PacketBuffer.stream ps'
  else r <> ClientResult_InvalidPacket /\ r <> ClientResult_BufferTooSmall
       /\ incoming t' = incoming t.
Proof.
  intros Hok Hps Hst. unfold receive_packet.
  destruct (negb (is_connected t)); [done|].
  destruct (receive_loop _ _ t) as [r1 t1] eqn:Hl.
  destruct (receive_loop_spec _ _ _ _ _ Hok (le_n _) Hl) as (Hok1 & _ & _ & _ & Hts & Hc).
  assert (Hps' : Forall (fun p => body_ok p.2 = true /\ zlen p.2 <= 4084) ps)
    by (eapply Forall_impl; [exact Hps|]; cbn; intros; split; [tauto|lia]).
  destruct (receive_loop_stream _ _ _ _ _ _ _ Hok (le_n _) Hps' Hst Hl) as [Hi Hni].
  destruct (decide (r1 = ClientResult_Success)) as [->|Hne].
  2: { destruct r1; try done; case_bool_decide; done. }
  specialize (Hc eq_refl). rewrite <- Hi in Hst. destruct ps as [|p ps'].
  - apply app_nil in Hst as [Hnil _]. unfold incoming in Hnil. apply app_nil in Hnil as [Hnil _].
    apply (PacketBuffer.has_complete_packet_spec _ _ (proj1 Hok1)) in Hc.
    unfold buffered in Hnil. by rewrite Hnil in Hc.
  - apply Forall_cons in Hps as [[Hp Hfit] _].
    destruct (take_packet t1 p ps' rest Hok1 Hp Hst Hc) as (-> & -> & Hpay & Hrest).
    cbn [packet_header hdr_data_size hdr_type]. pose proof (zlen_nonneg p.2).
    rewrite u64_small, (proj2 (Z.ltb_ge _ _)), sizeofz_header, Hpay by lia.
    rewrite bool_decide_true by done. by exists p, ps'.
Qed.

(** ** Properties: receiving *)

(** C3: [receive_packet] hands out the packets of the server's stream one by
    one, in order, each with its type and its whole payload, however the stream
    is cut into chunks and whatever timeouts and errors come between; a call
    that fails loses nothing of the stream.  The payloads have to fit the
    caller's buffer and, with their header, half of the 8 KB buffer. *)
Theorem receive_packet_delivers n timeout_ms t ps rest :
  tcp_ok t -> Forall (fun p => body_ok p.2 = true /\ zlen p.2 <= Z.min n 4084) ps ->
  incoming t ++ rest = PacketBuffer.stream ps ->
  let '(r, type, payload, t') := receive_packet n timeout_ms t in
  if bool_decide (r = ClientResult_Success) then
    exists p ps', ps = p :: ps' /\ type = PacketId_value p.1 /\ payload = p.2
      /\ incoming t' ++ rest = PacketBuffer.stream ps'
  else r <> ClientResult_InvalidPacket /\ r <> ClientResult_BufferTooSmall
       /\ incoming t' = incoming t.
Proof. apply receive_packet_stream. Qed.

(** A header at the front stays what it is when more bytes arrive. *)
Lemma valid_header_app l d :
  bytes_ok l = true -> 12 <= zlen l ->
  PacketBuffer.valid_header (l ++ d) = PacketBuffer.valid_header l.
Proof.
  intros Hb Hl. unfold PacketBuffer.valid_header. rewrite !decode_header_spec, zlen_app.
  pose proof (zlen_nonneg d). rewrite !(proj2 (Z.ltb_ge _ 12)) by lia.
  assert (of_bytes (A:=LdnHeader) (l ++ d) = of_bytes l) as ->; [|done].
  unfold zlen in Hl. symmetry.
  rewrite <- (PacketBuffer.of_bytes_front (T:=LdnHeader) l (drop 12 l ++ d))
    by (change (sizeof LdnHeader) with 12%nat; done || lia).
  change (sizeof LdnHeader) with 12%nat. by rewrite app_assoc, take_drop.
Qed.

(** What a bad header at the front of the buffer looks like. *)
Definition bad_header (t : TcpClient) : Prop :=
  12 <= zlen (buffered t) /\ PacketBuffer.valid_header (buffered t) = false.

Lemma bad_header_incomplete t :
  tcp_ok t -> bad_header t -> PacketBuffer.has_complete_packet (m_recv_buffer t) = false.
Proof.
  intros Hok [Hl Hv]. apply not_true_iff_false. intros Hc.
  destruct (complete_front t Hok Hc) as (hd & _ & Hd & _).
  destruct Hok as [Hb _]. pose proof (PacketBuffer.zlen_contents _ _ Hb) as Hz.
  unfold buffered in *. unfold PacketBuffer.data, PacketBuffer.size in Hd.
  rewrite (PacketBuffer.decode_header_contents _ _ _ Hb) in Hd by lia.
  unfold PacketBuffer.valid_header in Hv. rewrite Hd in Hv. done.
Qed.

Lemma receive_into_buffer_connected timeout_ms t t' :
  receive_into_buffer timeout_ms t = (ClientResult_Success, t') ->
  is_connected t' = is_connected t.
Proof.
  unfold receive_into_buffer, is_connected, Socket.is_connected.
  destruct (Socket.recv _ _ _) as [[res received] s] eqn:Hr.
  pose proof (Socket.recv_spec _ _ _ _ _ _ (eq_refl : 0 < TEMP_BUFFER_SIZE) Hr)
    as (_ & _ & Hs & _).
  destruct res; try done. destruct (Hs eq_refl) as (_ & Hc & _).
  destruct (_ =? 0); [done|]. destruct (PacketBuffer.append _ _ _ _) as [[] b]; try done.
  intros [= <-]. exact Hc.
Qed.

Lemma receive_loop_connected fuel timeout_ms t t' :
  receive_loop fuel timeout_ms t = (ClientResult_Success, t') ->
  is_connected t' = is_connected t.
Proof.
  revert t. induction fuel as [|fuel IH]; intros t; cbn [receive_loop];
    (destruct (PacketBuffer.has_complete_packet _); [by intros [= <-]|]);
    destruct (receive_into_buffer timeout_ms t) as [r1 t1] eqn:Hr; destruct r1; try done.
  intros Hl. rewrite (IH _ Hl). by apply receive_into_buffer_connected in Hr.
Qed.

(** once a header the decoder refuses (a wrong magic or version, a size
    out of range) has reached the front of the buffer, no packet is ever
    received again on this connection: every call fails, and leaves the header
    where it is. *)
Theorem bad_header_deafens n timeout_ms t :
  tcp_ok t -> bad_header t ->
  let '(r, type, payload, t') := receive_packet n timeout_ms t in
  r <> ClientResult_Success /\ tcp_ok t' /\ bad_header t'.
Proof.
  intros Hok Hbad. unfold receive_packet. destruct (negb (is_connected t)); [done|].
  destruct (receive_loop _ _ t) as [r1 t1] eqn:Hl.
  destruct (receive_loop_spec _ _ _ _ _ Hok (le_n _) Hl) as (Hok1 & _ & [d Hd] & _ & _ & Hc).
  assert (Hbad1 : bad_header t1).
  { destruct Hbad as [Hlen Hv]. unfold bad_header. rewrite Hd, zlen_app.
    pose proof (zlen_nonneg d). split; [lia|].
    rewrite valid_header_app; [done| |lia]. by apply PacketBuffer.contents_ok with (1:=proj1 Hok). }
  destruct r1; try done. by rewrite (bad_header_incomplete t1 Hok1 Hbad1) in Hc; specialize (Hc eq_refl).
Qed.

(** a packet whose payload exceeds the caller's buffer blocks the
    connection: the call reports [BufferTooSmall] without consuming it, and so
    does every later call with a buffer of that size. *)
Theorem oversize_packet_blocks n timeout_ms timeout_ms' t type payload t' :
  0 <= n -> tcp_ok t ->
  receive_packet n timeout_ms t = (ClientResult_BufferTooSmall, type, payload, t') ->
  receive_packet n timeout_ms' t' = (ClientResult_BufferTooSmall, 0, [], t').
Proof.
  intros Hn Hok. unfold receive_packet at 1. destruct (is_connected t) eqn:Hconn; [|done].
  cbn [negb]. destruct (receive_loop _ _ t) as [r1 t1] eqn:Hl.
  destruct (receive_loop_spec _ _ _ _ _ Hok (le_n _) Hl) as (Hok1 & _ & _ & _ & Hts & Hc).
  destruct (decide (r1 = ClientResult_Success)) as [->|Hne].
  2: { destruct r1; try done; intros [=]. }
  destruct (complete_front t1 Hok1 (Hc eq_refl)) as (hd & Hpeek & Hdec & _).
  rewrite Hpeek, Hdec. destruct (n <? u64 (hdr_data_size hd)) eqn:Hsmall; [|done].
  intros [= _ _ <-]. unfold receive_packet.
  rewrite (receive_loop_connected _ _ _ _ Hl), Hconn. cbn [negb].
  assert (receive_loop (to_come t1) timeout_ms' t1 = (ClientResult_Success, t1)) as ->.
  { destruct (to_come t1); cbn [receive_loop]; by rewrite (Hc eq_refl). }
  by rewrite Hpeek, Hdec, Hsmall.
Qed.

(** ** The interface's laws *)

(** What sending changes: not the receiving side. *)
Definition same_receiver (t t' : TcpClient) : Prop :=
  m_recv_buffer t' = m_recv_buffer t
  /\ Socket.os_read (Socket.m_os (m_socket t')) = Socket.os_read (Socket.m_os (m_socket t))
  /\ Socket.os_attempts (Socket.m_os (m_socket t')) = Socket.os_attempts (Socket.m_os (m_socket t)).

Lemma same_receiver_refl t : same_receiver t t.
Proof. done. Qed.

Lemma same_receiver_ok t t' :
  same_receiver t t' -> (tcp_ok t -> tcp_ok t') /\ incoming t' = incoming t.
Proof.
  intros (Hb & Hr & Ha). unfold tcp_ok, incoming, buffered, Socket.net_ok.
  rewrite Hb, Hr, Ha. tauto.
Qed.

Lemma send_all_receiver d t r s :
  Socket.send_all d Socket.SEND_TIMEOUT (m_socket t) = (r, s) -> same_receiver t (set_socket s t).
Proof. intros H%Socket.send_all_read. by split. Qed.

Lemma send_buffered_receiver size t b :
  same_receiver t (send_buffered size (set_send_buffer b t)).2.
Proof.
  unfold send_buffered. destruct (Socket.send_all _ _ _) as [r s] eqn:Hs.
  cbn [m_socket set_send_buffer] in Hs. by apply send_all_receiver in Hs.
Qed.

Lemma send_encoded_receiver e t : same_receiver t (send_encoded e t).2.
Proof.
  destruct e as [[e b] n]. unfold send_encoded.
  destruct e; [apply send_buffered_receiver|done..].
Qed.

Lemma send_with_advertise_receiver `{HasLayout T} type (request : T) d n t :
  same_receiver t (send_with_advertise type request d n t).2.
Proof.
  unfold send_with_advertise. destruct (_ <? _); [done|].
  destruct (encode_header _ _ _) as [b off]. apply send_buffered_receiver.
Qed.

Lemma send_receiver m t : same_receiver t (send m t).2.
Proof.
  unfold send. destruct (negb _); [done|].
  destruct m; try apply send_encoded_receiver; try apply send_with_advertise_receiver.
  - destruct bytes as [d|]; [|done]. destruct (size =? 0); [done|].
    destruct (Socket.send_all _ _ _) as [r s] eqn:Hs.
    exact (send_all_receiver _ _ _ _ Hs).
  - unfold queue_proxy_data. destruct (encode_proxy_data _ _ _ _ _) as [[e b] n]. destruct e; try done.
    unfold enqueue. by destruct (drop_oldest _ _ _).
  - unfold send_advertise. destruct (encode_header _ _ _) as [b off]. apply send_buffered_receiver.
Qed.

Lemma disconnect_spec t :
  is_connected (disconnect t) = false /\ (tcp_ok t -> tcp_ok (disconnect t)).
Proof.
  unfold disconnect.
  set (t1 := if m_send_thread_running t || m_send_thread_was_started t then _ else t).
  assert (Hs : m_socket t1 = m_socket t /\ m_recv_buffer t1 = m_recv_buffer t)
    by (subst t1; destruct (_ || _); done).
  clearbody t1. destruct Hs as [Hs Hb]. destruct (Socket.close_spec (m_socket t1)) as [Hc Hn].
  unfold is_connected, Socket.is_connected, tcp_ok in *.
  destruct (Socket.m_connected (m_socket t1)) eqn:Hconn;
    cbn [m_socket m_recv_buffer set_socket set_recv_buffer].
  - rewrite Hb. split; [done|]. intros [Hok Hnet]. split; [by apply PacketBuffer.reset_spec|].
    apply Hn. by rewrite Hs.
  - rewrite Hb, Hs. split; [congruence|]. intros [Hok Hnet].
    split; [by apply PacketBuffer.reset_spec|done].
Qed.

Lemma client_connect_spec host port timeout_ms use_tls t :
  is_connected t = false ->
  let '(r, t') := connect host port timeout_ms use_tls t in
  (is_connected t' = true -> r = ClientResult_Success) /\ (tcp_ok t -> tcp_ok t').
Proof.
  intros Hd. unfold connect. rewrite Hd. destruct (disconnect_spec t) as [Hd1 Hok1].
  unfold is_connected, Socket.is_connected in *.
  destruct (Socket.connect _ _ _ _ _) as [res s] eqn:Hc.
  destruct (Socket.connect_spec _ _ _ _ _ _ _ Hd1 Hc) as [Hup Hnet].
  assert (Hfail : tcp_ok t -> tcp_ok (set_socket s (disconnect t)))
    by (intros [Hb Hn]%Hok1; split; [done|by apply Hnet]).
  destruct res; cbn [socket_to_client_result]; try (split; [intros H%Hup; done|exact Hfail]).
  cbn [m_socket m_recv_buffer set_socket set_recv_buffer set_queue env_thread].
  destruct (env_thread (disconnect t));
    cbn [m_socket m_recv_buffer set_socket set_recv_buffer set_queue set_thread].
  - split; [done|]. intros [Hb Hn]%Hok1. split; [by apply PacketBuffer.reset_spec|by apply Hnet].
  - destruct (Socket.close_spec s) as [-> Hcn]. split; [done|]. intros [Hb Hn]%Hok1.
    split; [by apply PacketBuffer.reset_spec|by apply Hcn, Hnet].
Qed.

#[export] Instance TcpClient_laws : TcpLaws TcpClient tcp_ok.
Proof.
  split; cbn [tcp_initialize tcp_connect tcp_disconnect tcp_is_connected tcp_send
              tcp_receive_packet tcp_backlog TcpClient_ITcpClient].
  - done.
  - intros host port tm tls c Hok. destruct (is_connected c) eqn:Hc.
    + unfold connect. by rewrite Hc.
    + pose proof (client_connect_spec host port tm tls c Hc) as H. destruct (connect _ _ _ _ c). by apply H.
  - intros c. apply disconnect_spec.
  - intros m c. apply same_receiver_ok, send_receiver.
  - intros n tm c Hn Hok. destruct (receive_packet n tm c) as [[[r ty] pl] c'] eqn:Hr.
    by destruct (receive_packet_spec _ _ _ _ _ _ _ Hn Hok Hr).
  - intros host port tm tls c Hc. unfold connect. by rewrite Hc.
  - intros host port tm tls c Hc. pose proof (client_connect_spec host port tm tls c Hc) as H.
    destruct (connect _ _ _ _ c). by apply H.
  - done.
  - intros c. apply disconnect_spec.
  - intros m c Hc. unfold send. by rewrite Hc.
  - intros m c. by rewrite (proj2 (same_receiver_ok _ _ (send_receiver m c))).
  - intros n tm c Hn Hok. destruct (receive_packet n tm c) as [[[r ty] pl] c'] eqn:Hr.
    by destruct (receive_packet_spec _ _ _ _ _ _ _ Hn Hok Hr) as (_ & _ & H).
Qed.

(** ** Concrete clients *)

(** The constructor; both buffers are uninitialised memory. *)
Definition new_TcpClient (o : Socket.Os) (recv_memory send_memory : list Z) : TcpClient := {|
  m_socket := Socket.new_Socket o;
  m_recv_buffer := PacketBuffer.new_PacketBuffer recv_memory;
  m_send_buffer := send_memory; m_send_queue := []; m_send_queue_size := 0;
  m_send_thread_running := false; m_send_thread_was_started := false; sender_at := Exited;
  send_offset := 0; s_initialized := false; env_time := 0; env_thread := true
|}.

(** A network on which one connection can be made; it receives [read] and
    takes writes as [write] says. *)
Definition one_connection (read : list Socket.read_event) (write : list Socket.write_event)
    : Socket.Os := {|
  Socket.os_attempts :=
    [{| Socket.at_socket := inl 3; Socket.at_resolves := true; Socket.at_fcntl := None;
        Socket.at_connect := Some Socket.EINPROGRESS; Socket.at_poll := Socket.PollReady;
        Socket.at_getsockopt := None; Socket.at_so_error := None; Socket.at_tls := false;
        Socket.at_read := read; Socket.at_write := write |}];
  Socket.os_read := []; Socket.os_write := []; Socket.os_poll := Socket.PollTimeout;
  Socket.os_wire := []
|}.

Definition localhost : list Z := [49; 50; 55; 46; 48; 46; 48; 46; 49].

(** Initialised and connected. *)
Definition connected_client (read : list Socket.read_event) (write : list Socket.write_event)
    : TcpClient :=
  (connect localhost 30456 5000 false
     (initialize (new_TcpClient (one_connection read write) (repeat 0 8192) (repeat 0 2048))).2).2.

Definition a_ping (id : Z) : PacketId * list Z := (PacketId_Ping, [0; id]).

(** [tcp_ok] as a computation. *)
Definition tcp_okb (t : TcpClient) : bool :=
  let b := m_recv_buffer t in
  (zlen (PacketBuffer.m_buffer b) =? RECV_BUFFER_SIZE)
  && (0 <=? PacketBuffer.m_write_pos b) && (PacketBuffer.m_write_pos b <=? RECV_BUFFER_SIZE)
  && bytes_ok (PacketBuffer.m_buffer b) && Socket.net_ok (Socket.m_os (m_socket t)).

Lemma tcp_okb_spec t : tcp_okb t = true -> tcp_ok t.
Proof.
  unfold tcp_okb. cbn zeta. intros H. zbool. split; [|done].
  split_and!; done || unfold RECV_BUFFER_SIZE in *; lia.
Qed.

Lemma receive_packet_delivers_witness :
  let t := connected_client [Socket.Arrives (ztake 9 (PacketBuffer.wire (a_ping 1)));
                             Socket.Quiet;
                             Socket.Arrives (zdrop 9 (PacketBuffer.wire (a_ping 1)))] [] in
  (receive_packet 2048 20 t).1.1.1 = ClientResult_Timeout
  /\ incoming (receive_packet 2048 20 t).2 = incoming t.
Proof.
  intros t. assert (Ht : tcp_ok t) by (apply tcp_okb_spec; vm_compute; reflexivity).
  pose proof (receive_packet_delivers 2048 20 t [a_ping 1] [] Ht) as H.
  destruct (receive_packet 2048 20 t) as [[[r ty] pl] t'] eqn:Hr.
  assert (Hres : r = ClientResult_Timeout).
  { change r with (r, ty, pl, t').1.1.1. rewrite <- Hr. vm_compute. reflexivity. }
  subst r. cbn [fst snd]. split; [reflexivity|].
  apply H; [repeat constructor; vm_compute; discriminate || reflexivity|vm_compute; reflexivity].
Defined.

Lemma bad_header_deafens_witness :
  let t := (receive_packet 2048 20
              (connected_client [Socket.Arrives (repeat 65 13); Socket.Quiet;
                                 Socket.Arrives (PacketBuffer.wire (a_ping 1))] [])).2 in
  (receive_packet 2048 20 t).1.1.1 <> ClientResult_Success.
Proof.
  intros t. assert (Ht : tcp_ok t) by (apply tcp_okb_spec; vm_compute; reflexivity).
  assert (Hbad : bad_header t) by (split; vm_compute; [discriminate|reflexivity]).
  pose proof (bad_header_deafens 2048 20 t Ht Hbad) as H.
  destruct (receive_packet 2048 20 t) as [[[r ty] pl] t']. apply H.
Defined.

Lemma oversize_packet_blocks_witness :
  let t := connected_client [Socket.Arrives (PacketBuffer.wire (PacketId_SyncNetwork, repeat 7 9));
                             Socket.Arrives (PacketBuffer.wire (a_ping 1))] [] in
  (receive_packet 8 0 (receive_packet 8 20 t).2).1.1.1 = ClientResult_BufferTooSmall.
Proof.
  intros t. assert (Ht : tcp_ok t) by (apply tcp_okb_spec; vm_compute; reflexivity).
  assert (Hr : (receive_packet 8 20 t).1.1.1 = ClientResult_BufferTooSmall) by (vm_compute; reflexivity).
  destruct (receive_packet 8 20 t) as [[[r ty] pl] t'] eqn:Heq. cbn [fst] in Hr. subst r.
  cbn [snd]. by rewrite (oversize_packet_blocks 8 20 0 t ty pl t' ltac:(discriminate) Ht Heq).
Defined.
