(* ===== verification/TcpSender.v ===== *)
(** * What goes out on the wire ([network/tcp_client.cpp])

    Two ways lead to the socket: the calls that send at once, and the queue of
    proxy data with its thread.  [packet_of] says which packet a call means;
    [pipe] is the abstract queue: packets are submitted, expire, or are
    delivered whole, and direct packets are delivered whole in between.  The
    thread and the calls refine [pipe] as long as no direct call comes while a
    packet is half sent, and no half sent packet is dropped from the queue. *)

From stdpp Require Import base numbers list relations.
From Stdlib Require Import ZArith Lia Bool.
From S2P Require Import Prelude Layout Types Protocol.
From S2P Require PacketBuffer Socket.
From S2P Require Import ITcpClient TcpClient.
Import Socket (SocketResult).
#[local] Existing Instance Socket.SocketResult_eq_dec.

(** ** The packet of a call *)

(** Type and body of the packet a call puts on the wire or in the queue;
    [send_raw] has none, its bytes are the caller's. *)
Definition packet_of (m : Outgoing) : option (PacketId * list Z) :=
  match m with
  | send_packet type payload _ => d ← payload; Some (type, d)
  | send_raw _ _ => None
  | send_initialize msg => Some (PacketId_Initialize, bytes_of msg)
  | send_passphrase msg => Some (PacketId_Passphrase, bytes_of msg)
  | send_passphrase_text p => Some (PacketId_Passphrase, bytes_of (passphrase_message p))
  | send_ping msg => Some (PacketId_Ping, bytes_of msg)
  | send_disconnect msg => Some (PacketId_Disconnect, bytes_of msg)
  | send_create_access_point request d _ =>
      Some (PacketId_CreateAccessPoint, bytes_of request ++ default [] d)
  | send_create_access_point_private request d _ =>
      Some (PacketId_CreateAccessPointPrivate, bytes_of request ++ default [] d)
  | send_connect request => Some (PacketId_Connect, bytes_of request)
  | send_connect_private request => Some (PacketId_ConnectPrivate, bytes_of request)
  | send_scan filter => Some (PacketId_Scan, bytes_of filter)
  | send_proxy_data header payload _ =>
      d ← payload;
      Some (PacketId_ProxyData,
            bytes_of {| pdh_info := pdh_info header; pdh_data_length := zlen d |} ++ d)
  | send_set_accept_policy request => Some (PacketId_SetAcceptPolicy, bytes_of request)
  | send_set_advertise_data payload _ => d ← payload; Some (PacketId_SetAdvertiseData, ztake 384 d)
  | send_reject request => Some (PacketId_Reject, bytes_of request)
  end.

(** A pointer with the right size. *)
Definition sized (d : option (list Z)) (n : Z) : bool :=
  match d with Some d => n =? zlen d | None => n =? 0 end.

(** The arguments are values of their C types, and the packet fits the send
    buffer. *)
Definition outgoing_ok (m : Outgoing) : bool :=
  (match packet_of m with Some p => zlen p.2 <=? SEND_BUFFER_SIZE - 12 | None => true end)
  && match m with
     | send_packet _ d n | send_raw d n | send_set_advertise_data d n => sized d n
     | send_initialize msg => wf msg
     | send_passphrase msg => wf msg
     | send_passphrase_text p => wf (passphrase_message p)
     | send_ping msg => wf msg
     | send_disconnect msg => wf msg
     | send_create_access_point request d n => wf request && sized d n
     | send_create_access_point_private request d n => wf request && sized d n
     | send_connect request => wf request
     | send_connect_private request => wf request
     | send_scan filter => wf filter
     | send_proxy_data header d n => wf header && sized d n
     | send_set_accept_policy request => wf request
     | send_reject request => wf request
     end.

Definition is_queued (m : Outgoing) : bool :=
  match m with send_proxy_data _ _ _ => true | _ => false end.

(** ** Lemmas: the calls *)

Lemma send_buffered_packet type body buffer n t :
  n = 12 + zlen body -> n <= zlen buffer ->
  send_buffered n (set_send_buffer (write_at 0 (wire_packet type body) buffer) t)
  = let '(r, s) := Socket.send_all (wire_packet type body) Socket.SEND_TIMEOUT (m_socket t) in
    (socket_to_client_result r,
     set_socket s (set_send_buffer (write_at 0 (wire_packet type body) buffer) t)).
Proof.
  intros Hn Hl. unfold send_buffered. cbn [m_send_buffer m_socket set_send_buffer].
  by rewrite ztake_packet_written.
Qed.

Lemma send_encoded_packet `{HasLayout T} `{!LayoutLaws (layout_of T)} type (msg : T) t :
  wf msg = true -> 12 + sizeofz T <= SEND_BUFFER_SIZE -> zlen (m_send_buffer t) = SEND_BUFFER_SIZE ->
  exists b, zlen b = SEND_BUFFER_SIZE
    /\ send_encoded (encode (m_send_buffer t) SEND_BUFFER_SIZE type msg) t
       = let '(r, s) := Socket.send_all (wire_packet type (bytes_of msg)) Socket.SEND_TIMEOUT
                          (m_socket t) in
         (socket_to_client_result r, set_socket s (set_send_buffer b t)).
Proof.
  unfold SEND_BUFFER_SIZE. intros Hwf Hsz Hb. pose proof (sizeofz_nonneg T).
  pose proof (zlen_bytes_of msg Hwf) as Hl.
  rewrite encode_ok by (unfold MAX_PACKET_SIZE; done || lia).
  eexists. split; [|cbn [send_encoded]; apply send_buffered_packet; lia].
  rewrite zlen_write_at; rewrite ?zlen_wire_packet; lia.
Qed.

(** Header, structure and data written one behind the other. *)
Lemma write_packet_parts type n a b buffer :
  n = zlen a + zlen b -> 12 + n <= zlen buffer -> n < 2147483648 ->
  write_at (12 + zlen a) b (write_at 12 a (encode_header buffer type n).1)
  = write_at 0 (wire_packet type (a ++ b)) buffer.
Proof.
  intros -> Hl Hn. pose proof (zlen_nonneg a). pose proof (zlen_nonneg b).
  assert (zlen (encode_header buffer type (zlen a + zlen b)).1 = zlen buffer) as Hz.
  { unfold encode_header. cbn [fst].
    fold (packet_header type (s32 (zlen a + zlen b))).
    apply zlen_write_at; rewrite ?zlen_packet_header; lia. }
  rewrite write_at_app by lia. apply write_header_body; rewrite zlen_app; [|lia].
  apply s32_small. lia.
Qed.

Lemma send_with_advertise_packet `{HasLayout T} `{!LayoutLaws (layout_of T)} type (request : T) d n t :
  wf request = true -> sized d n = true ->
  zlen (bytes_of request ++ default [] d) <= SEND_BUFFER_SIZE - 12 ->
  zlen (m_send_buffer t) = SEND_BUFFER_SIZE ->
  exists b, zlen b = SEND_BUFFER_SIZE
    /\ send_with_advertise type request d n t
       = let '(r, s) := Socket.send_all (wire_packet type (bytes_of request ++ default [] d))
                          Socket.SEND_TIMEOUT (m_socket t) in
         (socket_to_client_result r, set_socket s (set_send_buffer b t)).
Proof.
  unfold SEND_BUFFER_SIZE. intros Hwf Hd Hsz Hb. pose proof (sizeofz_nonneg T).
  pose proof (zlen_bytes_of request Hwf) as Hl. rewrite zlen_app, Hl in Hsz.
  assert (Hn : n = zlen (default [] d)) by (destruct d; cbn [sized] in Hd; zbool; done).
  pose proof (zlen_nonneg (default [] d)).
  unfold send_with_advertise, SEND_BUFFER_SIZE. rewrite sizeofz_header, u64_small by lia.
  rewrite (proj2 (Z.ltb_ge _ _)) by lia.
  assert (Hsum : sizeofz T + n = zlen (bytes_of request) + zlen (default [] d)) by lia.
  assert (Hroom : 12 + (sizeofz T + n) <= zlen (m_send_buffer t)) by lia.
  pose proof (write_packet_parts type _ _ _ _ Hsum Hroom ltac:(lia)) as Hw. rewrite Hl in Hw.
  destruct (encode_header _ _ _) as [buf off] eqn:He.
  assert (off = 12) as -> by (by inversion He). cbn [fst] in Hw.
  exists (write_at 0 (wire_packet type (bytes_of request ++ default [] d)) (m_send_buffer t)).
  rewrite zlen_write_at; rewrite ?zlen_wire_packet, ?zlen_app; try lia. split; [lia|].
  rewrite <- (send_buffered_packet _ _ _ (12 + sizeofz T + n)); rewrite ?zlen_app; try lia.
  destruct d as [d|]; cbn [from_option copy_data] in *; unfold id in *.
  - destruct (Z.ltb_spec 0 n); [by rewrite ztake_all, Hw by lia|].
    assert (d = []) as -> by (destruct d; [done|unfold zlen in *; simpl in *; lia]).
    assert (n = 0) as -> by (unfold zlen in *; simpl in *; lia).
    rewrite write_at_nil in Hw by lia. by rewrite Hw, app_nil_r, Z.add_0_r.
  - assert (n = 0) as -> by (unfold zlen in *; simpl in *; lia).
    rewrite write_at_nil in Hw by lia. by rewrite Hw, app_nil_r, Z.add_0_r.
Qed.

Lemma send_advertise_packet d t :
  zlen (m_send_buffer t) = SEND_BUFFER_SIZE ->
  exists b, zlen b = SEND_BUFFER_SIZE
    /\ send_advertise (Some d) (zlen d) t
       = let '(r, s) := Socket.send_all (wire_packet PacketId_SetAdvertiseData (ztake 384 d))
                          Socket.SEND_TIMEOUT (m_socket t) in
         (socket_to_client_result r, set_socket s (set_send_buffer b t)).
Proof.
  unfold SEND_BUFFER_SIZE. intros Hb. pose proof (zlen_nonneg d). unfold send_advertise.
  set (n := if 384 <? zlen d then 384 else zlen d).
  assert (Hn : 0 <= n <= 384 /\ n <= zlen d /\ ztake 384 d = ztake n d).
  { subst n. destruct (Z.ltb_spec 384 (zlen d)); split_and!; try lia; [done|].
    by rewrite !ztake_all by lia. }
  clearbody n. destruct Hn as (Hn & Hnd & ->).
  assert (Hl : zlen (ztake n d) = n) by (rewrite zlen_ztake; lia).
  pose proof (write_header_body PacketId_SetAdvertiseData n (ztake n d) (m_send_buffer t)) as Hw.
  destruct (encode_header _ _ _) as [buf off] eqn:He.
  assert (off = 12) as -> by (by inversion He). cbn [fst] in Hw.
  exists (write_at 0 (wire_packet PacketId_SetAdvertiseData (ztake n d)) (m_send_buffer t)).
  rewrite zlen_write_at; rewrite ?zlen_wire_packet; try lia. split; [done|].
  rewrite <- (send_buffered_packet _ _ _ (12 + n)) by lia.
  rewrite <- Hw by (rewrite ?Hl, ?s32_small; lia).
  cbn [copy_data]. destruct (Z.ltb_spec 0 n); [done|].
  assert (n = 0) as -> by lia. by rewrite ztake_0, write_at_nil by lia.
Qed.

(** A direct call sends exactly its packet with [send_all]. *)
Lemma send_direct m p t :
  is_connected t = true -> zlen (m_send_buffer t) = SEND_BUFFER_SIZE ->
  outgoing_ok m = true -> is_queued m = false -> packet_of m = Some p ->
  exists b, zlen b = SEND_BUFFER_SIZE
    /\ send m t = let '(r, s) := Socket.send_all (PacketBuffer.wire p) Socket.SEND_TIMEOUT
                                   (m_socket t) in
                  (socket_to_client_result r, set_socket s (set_send_buffer b t)).
Proof.
  intros Hc Hb Hok Hq Hp. unfold outgoing_ok in Hok. rewrite Hp in Hok. zbool.
  match goal with H : zlen p.2 <= _ |- _ => rename H into Hfit end.
  unfold send. rewrite Hc. cbn [negb]. unfold PacketBuffer.wire.
  destruct m; try done; cbn [packet_of] in Hp;
    try (apply Some_inj in Hp; subst p; cbn [fst snd] in *;
         apply send_encoded_packet; [done|by vm_compute|done]).
  - destruct payload as [d|]; [|done]. apply Some_inj in Hp as <-. cbn [fst snd sized] in *. zbool.
    subst payload_size. unfold SEND_BUFFER_SIZE in *.
    rewrite encode_raw_ok by lia. cbn [send_encoded].
    eexists. split; [|apply send_buffered_packet; lia].
    rewrite zlen_write_at; rewrite ?zlen_wire_packet; lia.
  - apply Some_inj in Hp as <-. cbn [fst snd] in *. zbool. by apply send_with_advertise_packet.
  - apply Some_inj in Hp as <-. cbn [fst snd] in *. zbool. by apply send_with_advertise_packet.
  - destruct data as [d|]; [|done]. apply Some_inj in Hp as <-. cbn [fst snd sized] in *. zbool.
    subst size. by apply send_advertise_packet.
Qed.

Lemma wf_ProxyDataHeader info n :
  wf {| pdh_info := info; pdh_data_length := n |}
  = wf info && ((0 <=? n) && (n <? 4294967296)).
Proof.
  unfold wf at 1. cbn [layout_of ProxyDataHeader_layout l_iso lwf l_pair l_u32 fst snd pdh_info
    pdh_data_length l_uint]. unfold wf. by f_equal.
Qed.

(** A call of [send_proxy_data] queues its packet. *)
Lemma send_queued header d t :
  is_connected t = true -> zlen (m_send_buffer t) = SEND_BUFFER_SIZE ->
  outgoing_ok (send_proxy_data header (Some d) (zlen d)) = true ->
  exists b, zlen b = SEND_BUFFER_SIZE
    /\ send (send_proxy_data header (Some d) (zlen d)) t
       = (ClientResult_Success,
          enqueue (wire_packet PacketId_ProxyData
                     (bytes_of {| pdh_info := pdh_info header; pdh_data_length := zlen d |} ++ d))
            (set_send_buffer b t)).
Proof.
  intros Hc Hb Hok. unfold outgoing_ok in Hok. cbn [packet_of mbind option_bind snd] in Hok. zbool.
  match goal with H : zlen _ <= _ |- _ => rename H into Hfit end.
  unfold send. rewrite Hc. cbn [negb]. unfold queue_proxy_data, encode_proxy_data.
  rewrite zlen_app in Hfit. pose proof (zlen_nonneg d).
  set (h := {| pdh_info := pdh_info header; pdh_data_length := zlen d |}) in *.
  pose proof (zlen_nonneg (bytes_of h)). unfold SEND_BUFFER_SIZE in *.
  assert (Hwf : wf h = true).
  { subst h. match goal with H : wf header = true |- _ => rename H into Hh end.
    destruct header as [info n]. cbn [pdh_info] in *. rewrite wf_ProxyDataHeader in Hh |- *.
    zbool. rewrite !andb_true_iff, Z.leb_le, Z.ltb_lt. split_and!; done || lia. }
  pose proof (zlen_bytes_of h Hwf) as Hsz. rewrite Hsz in Hfit.
  rewrite u32_small by lia. fold h.
  rewrite encode_with_data_ok by (unfold MAX_PACKET_SIZE; lia || exact Hwf).
  exists (write_at 0 (wire_packet PacketId_ProxyData (bytes_of h ++ d)) (m_send_buffer t)).
  split; [rewrite zlen_write_at; rewrite ?zlen_wire_packet, ?zlen_app; lia|].
  cbn [m_send_buffer set_send_buffer].
  rewrite ztake_packet_written by (rewrite ?zlen_app; lia). reflexivity.
Qed.

(** A direct call puts the front of its packet on the wire; all of it when it
    reports success. *)
Lemma send_direct_wire m p t :
  is_connected t = true -> zlen (m_send_buffer t) = SEND_BUFFER_SIZE ->
  outgoing_ok m = true -> is_queued m = false -> packet_of m = Some p ->
  let (r, t') := send m t in
  (exists n, 0 <= n <= zlen (PacketBuffer.wire p)
    /\ wire_bytes t' = wire_bytes t ++ ztake n (PacketBuffer.wire p)
    /\ (Socket.polls_ok (Socket.os_write (Socket.m_os (m_socket t))) ->
        r = ClientResult_Success <-> n = zlen (PacketBuffer.wire p)))
  /\ (exists b s, zlen b = SEND_BUFFER_SIZE /\ t' = set_socket s (set_send_buffer b t)
      /\ (Socket.polls_ok (Socket.os_write (Socket.m_os (m_socket t))) ->
          Socket.polls_ok (Socket.os_write (Socket.m_os s)))).
Proof.
  intros Hc Hb Hok Hq Hp. destruct (send_direct m p t Hc Hb Hok Hq Hp) as (b & Hlb & ->).
  destruct (Socket.send_all _ _ _) as [r s] eqn:Hs.
  destruct (Socket.send_all_spec _ _ _ _ _ Hs) as (n & Hn & Hw & Hr).
  split.
  - exists n. split_and!; [lia|lia|exact Hw|]. intros Hpoll.
    pose proof (Socket.send_all_blocked _ _ _ _ _ (ltac:(done) : Socket.SEND_TIMEOUT <> 0) Hpoll Hs) as Hnb.
    rewrite <- Hr. destruct r; done.
  - exists b, s. split_and!; [done|done|]. exact (Socket.send_all_script _ _ _ _ _ Hs).
Qed.

(** ** The abstract queue *)

Record pipe : Type := { delivered : list (list Z); waiting : list (list Z) }.

(** What a step of the sender or a call can do to it. *)
Inductive pipe_step : action -> pipe -> pipe -> Prop :=
| pipe_idle now_ms a : pipe_step (Tick now_ms) a a
| pipe_expire now_ms p d w :
    pipe_step (Tick now_ms) {| delivered := d; waiting := p :: w |}
                            {| delivered := d; waiting := w |}
| pipe_deliver now_ms p d w :
    pipe_step (Tick now_ms) {| delivered := d; waiting := p :: w |}
                            {| delivered := d ++ [p]; waiting := w |}
| pipe_submit now_ms m p d old w :
    is_queued m = true -> packet_of m = Some p ->
    pipe_step (Call now_ms m)
      {| delivered := d; waiting := old ++ w |}
      {| delivered := d; waiting := w ++ [PacketBuffer.wire p] |}
| pipe_direct now_ms m p d w :
    is_queued m = false -> packet_of m = Some p ->
    pipe_step (Call now_ms m) {| delivered := d; waiting := w |}
                              {| delivered := d ++ [PacketBuffer.wire p]; waiting := w |}
| pipe_refused now_ms m a : pipe_step (Call now_ms m) a a.

Inductive pipe_run : list action -> pipe -> pipe -> Prop :=
| pipe_done a : pipe_run [] a a
| pipe_more x l a b c : pipe_step x a b -> pipe_run l b c -> pipe_run (x :: l) a c.

(** The part of the front packet that is out already. *)
Definition partial (t : TcpClient) : list Z :=
  match m_send_queue t with [] => [] | p :: _ => ztake (send_offset t) (data p) end.

(** Where the thread can be, with the offset it has reached. *)
Definition sender_ok (t : TcpClient) : Prop :=
  Forall (fun p => 0 < zlen (data p)) (m_send_queue t)
  /\ match sender_at t, m_send_queue t with
     | AtSend d, p :: _ => d = data p /\ 0 <= send_offset t < zlen d
     | AtPop, p :: _ => send_offset t = zlen (data p)
     | (AtSend _ | AtPop), [] => False
     | _, p :: _ => 0 <= send_offset t < zlen (data p)
     | _, [] => send_offset t = 0
     end.

Definition pipe_inv (t : TcpClient) (a : pipe) : Prop :=
  wire_bytes t = concat (delivered a) ++ partial t
  /\ waiting a = map data (m_send_queue t)
  /\ sender_ok t
  /\ zlen (m_send_buffer t) = SEND_BUFFER_SIZE
  /\ Socket.polls_ok (Socket.os_write (Socket.m_os (m_socket t))).

(** Runs in which nothing goes wrong: the arguments are well formed, a direct
    call comes when no packet is half sent and succeeds, and a queue that
    overflows has nothing of its front packet out or in the thread's hands. *)
Definition untouched (t : TcpClient) : bool :=
  (send_offset t =? 0) && match sender_at t with AtSend _ | AtPop => false | _ => true end.

Definition clean_call (m : Outgoing) (t : TcpClient) : bool :=
  match packet_of m with
  | Some p =>
      outgoing_ok m &&
      (if is_queued m then
         (m_send_queue_size t + zlen (PacketBuffer.wire p) <=? kMaxSendQueueSize) || untouched t
       else
         negb (is_connected t)
         || ((send_offset t =? 0) && bool_decide ((send m t).1 = ClientResult_Success)))
  | None => false
  end.

Definition clean_act (x : action) (t : TcpClient) : bool :=
  match x with Tick _ => true | Call now_ms m => clean_call m (at_time now_ms t) end.

Fixpoint clean (l : list action) (t : TcpClient) : bool :=
  match l with
  | [] => true
  | x :: l => clean_act x t && match act x t with Some t' => clean l t' | None => true end
  end.

(** ** Lemmas: the thread refines the queue *)

Lemma drop_oldest_suffix q n k : exists old, q = old ++ (drop_oldest q n k).1.
Proof.
  revert n. induction q as [|p q IH]; intros n; cbn [drop_oldest]; [by exists []|].
  destruct (_ <? _); [|by exists []]. destruct (IH (u64 (n - zlen (data p)))) as [old Hold].
  exists (p :: old). cbn. by rewrite <- Hold.
Qed.

Lemma drop_oldest_room q n k : n + k <= kMaxSendQueueSize -> drop_oldest q n k = (q, n).
Proof.
  intros H. destruct q as [|p q]; cbn [drop_oldest]; [done|]. by rewrite (proj2 (Z.ltb_ge _ _)).
Qed.

Lemma ztake_more {A} (l : list A) m n :
  0 <= m -> 0 <= n -> m <= zlen l -> ztake (m + n) l = ztake m l ++ ztake n (zdrop m l).
Proof.
  intros. rewrite <- (ztake_zdrop m (ztake (m + n) l)). rewrite ztake_ztake by lia. f_equal.
  by rewrite <- ztake_zdrop_comm by lia.
Qed.

(** The pop of a front packet that has expired or is out. *)
Lemma pop_front_queue t p q :
  m_send_queue t = p :: q ->
  m_send_queue (pop_front t) = q /\ m_socket (pop_front t) = m_socket t
  /\ m_send_buffer (pop_front t) = m_send_buffer t /\ sender_at (pop_front t) = sender_at t
  /\ send_offset (pop_front t) = send_offset t
  /\ m_send_thread_running (pop_front t) = m_send_thread_running t.
Proof. intros Hq. unfold pop_front. by rewrite Hq. Qed.

(** Dropping the front packet before any of it is out. *)
Lemma expire_inv t p q a at_ :
  m_send_queue t = p :: q -> send_offset t = 0 -> pipe_inv t a ->
  match at_ with AtWait | AtFetch => True | _ => False end ->
  pipe_inv (goto at_ 0 (pop_front t)) {| delivered := delivered a; waiting := map data q |}
  /\ waiting a = data p :: map data q.
Proof.
  intros Hq H0 (Hw & Ha & [Hne _] & Hb & Hp) Hat.
  destruct (pop_front_queue t p q Hq) as (Hq' & Hs & Hb' & _ & _ & _).
  rewrite Hq in Hne. apply Forall_cons in Hne as [_ Hne].
  split; [|by rewrite Ha, Hq]. unfold pipe_inv, sender_ok, partial, wire_bytes in *.
  cbn [m_send_queue m_socket m_send_buffer sender_at send_offset goto set_thread delivered waiting].
  rewrite Hq', Hs, Hb'. rewrite Hq, H0, ztake_0 in Hw.
  split_and!; try done.
  - rewrite Hw. f_equal. by destruct q.
  - destruct at_; try done; (destruct q as [|p' q]; [done|]);
      apply Forall_cons in Hne as [Hp' _]; lia.
Qed.

Lemma goto_inv t a at_ :
  pipe_inv t a ->
  match at_, sender_at t with
  | AtWait, (AtWait | AtFetch | AtSend _) => True
  | AtFetch, (AtWait | AtFetch) => True
  | Exited, (AtWait | AtFetch | AtSend _ | Exited) => True
  | _, _ => False
  end -> pipe_inv (goto at_ (send_offset t) t) a.
Proof.
  intros (Hw & Ha & [Hne Hok] & Hb & Hp) Hat. unfold pipe_inv, sender_ok, partial, wire_bytes in *.
  cbn [m_send_queue m_socket m_send_buffer sender_at send_offset goto set_thread].
  split_and!; try done.
  destruct (sender_at t), at_; try done; destruct (m_send_queue t) as [|p q]; try done;
    by destruct Hok as [-> ?].
Qed.

(** The send: what goes out is the next piece of the front packet. *)
Lemma send_rest_inv t a d p q :
  sender_at t = AtSend d -> m_send_queue t = p :: q -> pipe_inv t a ->
  exists t', send_rest d t = Some t' /\ pipe_inv t' a.
Proof.
  intros Hat Hq (Hw & Ha & [Hne Hok] & Hb & Hp). rewrite Hat, Hq in Hok. destruct Hok as [-> Hoff].
  unfold send_rest. rewrite (proj2 (Z.ltb_ge _ _)) by lia.
  destruct (Socket.send _ _) as [[res n] s] eqn:Hs.
  destruct (Socket.send_spec _ _ _ _ _ Hs) as (Hn & Hw' & Hn0 & _ & _ & _).
  rewrite zlen_zdrop in Hn by lia. pose proof (Socket.send_script _ _ _ _ _ Hs Hp) as Hp'.
  assert (Hinv : forall at_, at_ = AtWait \/ at_ = Exited ->
    send_offset t + n < zlen (data p) -> pipe_inv (goto at_ (send_offset t + n) (set_socket s t)) a).
  { intros at_ Hat' Hlt. unfold pipe_inv, sender_ok, partial, wire_bytes in *.
    cbn [m_send_queue m_socket m_send_buffer sender_at send_offset goto set_thread set_socket].
    rewrite Hq in *. split_and!; try done.
    - by rewrite Hw', Hw, ztake_more, app_assoc by lia.
    - by destruct Hat' as [-> | ->]; split; lia. }
  destruct (decide (res = Socket.SocketResult_Success)) as [->|Hres].
  - cbv zeta. cbn [send_offset set_socket].
    destruct (Z.leb_spec (zlen (data p)) (send_offset t + n)).
    + eexists. split; [done|]. unfold pipe_inv, sender_ok, partial, wire_bytes in *.
      cbn [m_send_queue m_socket m_send_buffer sender_at send_offset goto set_thread set_socket].
      rewrite Hq in *. split_and!; try done; try lia.
      by rewrite Hw', Hw, ztake_more, app_assoc by lia.
    + eexists. split; [done|]. apply Hinv; [by left|lia].
  - rewrite (Hn0 Hres), Z.add_0_r in Hinv. cbn [send_offset goto set_socket].
    destruct res; try done; (eexists; split; [reflexivity|]);
      apply Hinv; (by left) || (by right) || lia.
Qed.

Lemma fetch_inv t a p q :
  sender_at t = AtFetch -> m_send_queue t = p :: q -> pipe_inv t a ->
  pipe_inv (goto (AtSend (data p)) (send_offset t) t) a.
Proof.
  intros Hat Hq (Hw & Ha & [Hne Hok] & Hb & Hp). rewrite Hat, Hq in Hok.
  unfold pipe_inv, sender_ok, partial, wire_bytes in *.
  cbn [m_send_queue m_socket m_send_buffer sender_at send_offset goto set_thread].
  rewrite Hq in *. split_and!; done || lia.
Qed.

Lemma sender_step_refines now_ms t a :
  pipe_inv t a ->
  exists t' a', sender_step now_ms t = Some t' /\ pipe_step (Tick now_ms) a a' /\ pipe_inv t' a'.
Proof.
  intros Hinv. pose proof Hinv as (Hw & Ha & [Hne Hok] & Hb & Hp). unfold sender_step.
  destruct (sender_at t) as [| |d| |] eqn:Hat.
  - destruct (m_send_thread_running t); cbn [negb].
    2: { eexists _, a. split_and!; [done|constructor|]. apply goto_inv; [done|by rewrite Hat]. }
    destruct (Z.eqb_spec (send_offset t) 0) as [H0|H0].
    + destruct (m_send_queue t) as [|p q] eqn:Hq.
      * exists t, a. split_and!; [done|constructor|done].
      * destruct (stale now_ms p).
        -- destruct (expire_inv t p q a AtWait Hq H0 Hinv I) as [Hi Hwa].
           destruct (pop_front_queue t p q Hq) as (_ & _ & _ & Hat' & Ho' & _).
           exists (pop_front t), {| delivered := delivered a; waiting := map data q |}.
           split_and!; [done| |].
           ++ destruct a as [dl w]. cbn [waiting delivered] in *. rewrite Hwa. constructor.
           ++ replace (pop_front t) with (goto AtWait 0 (pop_front t)); [done|].
              rewrite <- Hat, <- Hat', <- H0, <- Ho'. by destruct (pop_front t).
        -- eexists _, a. split_and!; [done|constructor|]. apply goto_inv; [done|by rewrite Hat].
    + eexists _, a. split_and!; [done|constructor|]. apply goto_inv; [done|by rewrite Hat].
  - destruct (m_send_queue t) as [|p q] eqn:Hq.
    + eexists _, a. split_and!; [done|constructor|]. rewrite <- Hok.
      apply goto_inv; [done|by rewrite Hat].
    + destruct (Z.eqb_spec (send_offset t) 0) as [H0|H0]; cbn [andb].
      * destruct (stale now_ms p).
        -- destruct (expire_inv t p q a AtWait Hq H0 Hinv I) as [Hi Hwa]. rewrite H0.
           eexists _, {| delivered := delivered a; waiting := map data q |}.
           split_and!; [done| |exact Hi].
           destruct a as [dl w]. cbn [waiting delivered] in *. rewrite Hwa. constructor.
        -- eexists _, a. split_and!; [done|constructor|]. by eapply fetch_inv.
      * eexists _, a. split_and!; [done|constructor|]. by eapply fetch_inv.
  - destruct (m_send_queue t) as [|p q] eqn:Hq; [done|].
    destruct (send_rest_inv t a d p q Hat Hq Hinv) as (t' & Hs & Hi).
    exists t', a. split_and!; [done|constructor|done].
  - destruct (m_send_queue t) as [|p q] eqn:Hq; [done|].
    destruct (pop_front_queue t p q Hq) as (Hq' & Hs' & Hb' & _ & _ & _).
    eexists _, {| delivered := delivered a ++ [data p]; waiting := map data q |}.
    split_and!; [done| |].
    + destruct a as [dl w]. cbn [waiting delivered] in *. rewrite Ha. constructor.
    + apply Forall_cons in Hne as [_ Hne].
      unfold pipe_inv, sender_ok, partial, wire_bytes in *.
      cbn [m_send_queue m_socket m_send_buffer sender_at send_offset goto set_thread delivered waiting].
      rewrite Hq', Hs', Hb'. rewrite Hq, Hok, ztake_all in Hw by lia. split_and!; try done.
      * rewrite Hw, concat_app. cbn [concat]. rewrite app_nil_r. destruct q; by rewrite app_nil_r.
      * destruct q as [|p' q]; [done|]. apply Forall_cons in Hne as [? _]. lia.
  - exists t, a. split_and!; [done|constructor|done].
Qed.

(** A queued packet goes behind the others; what the full queue drops goes from
    the front, which only matters when some of it is out. *)
Lemma enqueue_inv t a packet b :
  0 < zlen packet -> zlen b = SEND_BUFFER_SIZE ->
  (m_send_queue_size t + zlen packet <=? kMaxSendQueueSize) || untouched t = true ->
  pipe_inv t a ->
  exists old w, waiting a = old ++ w
    /\ pipe_inv (enqueue packet (set_send_buffer b t))
         {| delivered := delivered a; waiting := w ++ [packet] |}.
Proof.
  intros Hpk Hbl Hroom (Hw & Ha & [Hne Hok] & Hb & Hp). unfold enqueue.
  cbn [m_send_queue m_send_queue_size set_send_buffer env_time].
  destruct (drop_oldest_suffix (m_send_queue t) (m_send_queue_size t) (zlen packet)) as [old Hold].
  assert (Hdrop : drop_oldest (m_send_queue t) (m_send_queue_size t) (zlen packet)
      = (m_send_queue t, m_send_queue_size t)
    \/ (send_offset t = 0 /\ match sender_at t with AtSend _ | AtPop => False | _ => True end)).
  { apply orb_true_iff in Hroom as [Hr|Hr]; [left; zbool; by apply drop_oldest_room|right].
    unfold untouched in Hr. zbool. split; [done|]. by destruct (sender_at t). }
  destruct (drop_oldest _ _ _) as [q n] eqn:Hd. cbn [fst] in Hold.
  exists (map data old), (map data q). rewrite Ha, Hold at 1. split; [by rewrite map_app|].
  assert (Hneq : Forall (fun p => 0 < zlen (data p))
                   (q ++ [{| timestamp_ms := env_time t; data := packet |}])).
  { apply Forall_app. split; [|by repeat constructor].
    rewrite Hold in Hne. by apply Forall_app in Hne as [_ ?]. }
  unfold pipe_inv, sender_ok, partial, wire_bytes in *.
  cbn [m_send_queue m_socket m_send_buffer sender_at send_offset set_queue set_send_buffer
       delivered waiting].
  split_and!; try done; [|by rewrite map_app|].
  - rewrite Hw. f_equal. destruct Hdrop as [[= -> Hn]|[H0 _]].
    + destruct (m_send_queue t) as [|p q]; [|done].
      assert (send_offset t = 0) as -> by (revert Hok; by destruct (sender_at t)). done.
    + rewrite H0. destruct (m_send_queue t), q; done.
  - destruct Hdrop as [[= -> Hn]|[H0 Hat]].
    + revert Hok. destruct (m_send_queue t) as [|p q]; cbn [app data]; [|done].
      destruct (sender_at t); intros; done || lia.
    + rewrite H0. revert Hat.
      destruct q as [|p q]; cbn [app data] in *; [|apply Forall_cons in Hneq as [? _]];
        destruct (sender_at t); intros; done || lia.
Qed.

Lemma at_time_inv now_ms t a : pipe_inv t a -> pipe_inv (at_time now_ms t) a.
Proof. done. Qed.

Lemma zlen_wire_pos p : 0 < zlen (PacketBuffer.wire p).
Proof. rewrite PacketBuffer.zlen_wire. pose proof (zlen_nonneg p.2). lia. Qed.

Lemma call_refines now_ms m t a :
  clean_call m (at_time now_ms t) = true -> pipe_inv t a ->
  exists a', pipe_step (Call now_ms m) a a' /\ pipe_inv (send m (at_time now_ms t)).2 a'.
Proof.
  unfold clean_call. destruct (packet_of m) as [p|] eqn:Hp; [|done].
  intros [Hok Hclean]%andb_true_iff Hinv%(at_time_inv now_ms). revert Hinv Hclean.
  generalize (at_time now_ms t). intros s Hinv Hclean.
  destruct (is_connected s) eqn:Hc.
  2: { exists a. split; [constructor|]. unfold send. by rewrite Hc. }
  pose proof Hinv as (Hw & Ha & Hs & Hb & Hpoll).
  destruct (is_queued m) eqn:Hq.
  - destruct m as [| | | | | | | | | | | |header d n| | |]; try done.
    destruct d as [d|]; [|done]. cbn [packet_of mbind option_bind] in Hp.
    assert (n = zlen d) as -> by
      (unfold outgoing_ok in Hok; cbn [packet_of sized] in Hok; zbool; done).
    destruct (send_queued header d s Hc Hb Hok) as (b & Hlb & ->). cbn [snd].
    assert (Hpe : p = (PacketId_ProxyData,
      bytes_of {| pdh_info := pdh_info header; pdh_data_length := zlen d |} ++ d)) by congruence.
    change (wire_packet PacketId_ProxyData _) with (PacketBuffer.wire
      (PacketId_ProxyData, bytes_of {| pdh_info := pdh_info header; pdh_data_length := zlen d |} ++ d)).
    rewrite <- Hpe.
    destruct (enqueue_inv s a (PacketBuffer.wire p) b (zlen_wire_pos p) Hlb Hclean Hinv)
      as (old & w & Hold & Hi).
    exists {| delivered := delivered a; waiting := w ++ [PacketBuffer.wire p] |}.
    split; [|done]. destruct a as [dl w0]. cbn [waiting delivered] in *. rewrite Hold.
    apply pipe_submit; [done|]. rewrite Hpe. done.
  - cbn [negb orb] in Hclean. apply andb_true_iff in Hclean as [H0 Hsucc]. zbool.
    apply bool_decide_eq_true in Hsucc.
    pose proof (send_direct_wire m p s Hc Hb Hok Hq Hp) as Hd.
    destruct (send m s) as [r s'] eqn:Hsend. cbn [fst snd] in *. subst r.
    destruct Hd as ((n & Hn & Hw' & Hr) & (b & sk & Hlb & -> & Hpoll')).
    assert (n = zlen (PacketBuffer.wire p)) as -> by (by apply (Hr Hpoll)).
    rewrite ztake_all in Hw' by lia.
    exists {| delivered := delivered a ++ [PacketBuffer.wire p]; waiting := waiting a |}.
    split; [destruct a; by apply pipe_direct|].
    unfold pipe_inv, sender_ok, partial, wire_bytes in *.
    cbn [m_send_queue m_socket m_send_buffer sender_at send_offset set_socket set_send_buffer
         delivered waiting] in *.
    split_and!; try done; try tauto. rewrite Hw', Hw, H0, concat_app. cbn [concat].
    destruct (m_send_queue s); rewrite ?ztake_0, !app_nil_r; done.
Qed.

Lemma act_refines x t a :
  clean_act x t = true -> pipe_inv t a ->
  exists t' a', act x t = Some t' /\ pipe_step x a a' /\ pipe_inv t' a'.
Proof.
  destruct x as [now_ms|now_ms m]; cbn [clean_act act]; intros Hc Hi.
  - by apply sender_step_refines.
  - destruct (call_refines now_ms m t a Hc Hi) as (a' & Hs & Hi').
    exists (send m (at_time now_ms t)).2, a'. done.
Qed.

(** ** Properties *)

(** a call that sends at once puts a front part of its packet on the wire,
    and it reports success exactly when that is the whole packet (unless [poll]
    itself fails with [EAGAIN]), whatever the kernel answers. *)
Theorem send_writes_packet m p t :
  is_connected t = true -> zlen (m_send_buffer t) = SEND_BUFFER_SIZE ->
  outgoing_ok m = true -> is_queued m = false -> packet_of m = Some p ->
  Socket.polls_ok (Socket.os_write (Socket.m_os (m_socket t))) ->
  let (r, t') := send m t in
  exists n, 0 <= n <= zlen (PacketBuffer.wire p)
    /\ wire_bytes t' = wire_bytes t ++ ztake n (PacketBuffer.wire p)
    /\ (r = ClientResult_Success <-> n = zlen (PacketBuffer.wire p)).
Proof.
  intros Hc Hb Hok Hq Hp Hpoll. pose proof (send_direct_wire m p t Hc Hb Hok Hq Hp) as H.
  destruct (send m t) as [r t']. destruct H as [(n & Hn & Hw & Hr) _]. exists n. auto.
Qed.

(** C4: the sender thread, interleaved in any way with calls of other threads,
    implements the abstract queue: in a clean run it never reads outside a
    packet, and what is on the wire is at every moment the delivered packets,
    each whole, followed by the part of the front packet that is out. *)
Theorem sender_refines_pipe l t a :
  pipe_inv t a -> clean l t = true ->
  exists t' a', acts l t = Some t' /\ pipe_run l a a' /\ pipe_inv t' a'.
Proof.
  revert t a. induction l as [|x l IH]; intros t a Hi Hc.
  - exists t, a. split_and!; [done|constructor|done].
  - cbn [clean] in Hc. apply andb_true_iff in Hc as [Hx Hl]. destruct (act_refines x t a Hx Hi) as (t1 & a1 & Ha & Hs & Hi1).
    cbn [acts]. rewrite Ha in Hl |- *. cbn [mbind option_bind].
    destruct (IH t1 a1 Hi1 Hl) as (t2 & a2 & Ha2 & Hr & Hi2).
    exists t2, a2. split_and!; [done| |done]. by econstructor.
Qed.

(** when the queue overflows while a packet is half sent, the packet is
    dropped but the thread goes on at the old offset in the next one: with a
    shorter packet there it reads outside it (and hands the kernel a wrapped
    around length), and otherwise the stream goes on in the middle of that
    packet. *)
Theorem overflow_resumes_in_next_packet t p q rest packet now_ms :
  m_send_queue t = p :: q :: rest -> m_send_thread_running t = true ->
  sender_at t = AtWait -> 0 < send_offset t ->
  kMaxSendQueueSize < m_send_queue_size t + zlen packet ->
  u64 (m_send_queue_size t - zlen (data p)) + zlen packet <= kMaxSendQueueSize ->
  let resumed := acts [Tick now_ms; Tick now_ms] (enqueue packet t) in
  if zlen (data q) <? send_offset t
  then acts [Tick now_ms; Tick now_ms; Tick now_ms] (enqueue packet t) = None
  else exists t', resumed = Some t' /\ sender_at t' = AtSend (data q)
       /\ send_offset t' = send_offset t.
Proof.
  intros Hq Hrun Hat Hoff Hfull Hroom. unfold enqueue.
  rewrite Hq. cbn [drop_oldest]. rewrite (proj2 (Z.ltb_lt kMaxSendQueueSize _)) by done.
  rewrite (proj2 (Z.ltb_ge kMaxSendQueueSize _)) by lia. cbn [fst snd acts act].
  set (t1 := set_queue _ _ t).
  assert (H1 : sender_step now_ms t1 = Some (goto AtFetch (send_offset t) t1)).
  { unfold sender_step. subst t1. cbn [sender_at m_send_thread_running send_offset set_queue].
    rewrite Hat, Hrun. cbn [negb]. by rewrite (proj2 (Z.eqb_neq _ 0)) by lia. }
  assert (H2 : sender_step now_ms (goto AtFetch (send_offset t) t1)
    = Some (goto (AtSend (data q)) (send_offset t) (goto AtFetch (send_offset t) t1))).
  { unfold sender_step. subst t1.
    cbn [sender_at m_send_queue send_offset set_queue goto set_thread app].
    by rewrite (proj2 (Z.eqb_neq _ 0)) by lia. }
  rewrite H1. cbn [mbind option_bind acts act]. rewrite H2. cbn [mbind option_bind acts act].
  destruct (zlen (data q) <? send_offset t) eqn:Hlt.
  - unfold sender_step. cbn [sender_at goto set_thread]. unfold send_rest.
    cbn [send_offset goto set_thread]. by rewrite Hlt.
  - eexists. by split_and!.
Qed.

(** ** Concrete runs *)

Definition a_header : ProxyDataHeader := {|
  pdh_info := {| pi_source_ipv4 := 0x0A720001; pi_source_port := 1; pi_dest_ipv4 := 0x0A720002;
                 pi_dest_port := 2; pi_protocol := 17 |};
  pdh_data_length := 0
|}.

Lemma send_writes_packet_witness :
  let t := connected_client [] [Socket.Accepts 5; Socket.Full Socket.PollTimeout] in
  let m := send_ping {| ping_requester := 0; ping_id := 7 |} in
  (send m t).1 = ClientResult_Timeout
  /\ exists n, wire_bytes (send m t).2
       = wire_bytes t ++ ztake n (PacketBuffer.wire (a_ping 7)).
Proof.
  intros t m.
  assert (Hpoll : Socket.polls_ok (Socket.os_write (Socket.m_os (m_socket t)))).
  { intros H. change (Socket.os_write _) with [Socket.Accepts 5; Socket.Full Socket.PollTimeout] in H.
    apply elem_of_cons in H as [H|H]; [discriminate|].
    apply list_elem_of_singleton in H. discriminate. }
  pose proof (send_writes_packet m (a_ping 7) t eq_refl eq_refl eq_refl eq_refl eq_refl Hpoll) as H.
  assert (Hr : (send m t).1 = ClientResult_Timeout) by (vm_compute; reflexivity).
  destruct (send m t) as [r t']. cbn [fst snd] in *. split; [exact Hr|].
  destruct H as (n & _ & Hw & _). by exists n.
Defined.

Lemma sender_refines_pipe_witness :
  let t := connected_client [] [Socket.Accepts 20; Socket.Accepts 100; Socket.Accepts 100] in
  let l := [Call 10 (send_proxy_data a_header (Some [1; 2; 3]) 3); Tick 11; Tick 12; Tick 13;
            Tick 14; Tick 15; Tick 16; Tick 17;
            Call 18 (send_ping {| ping_requester := 0; ping_id := 7 |})] in
  exists t' a', acts l t = Some t' /\ pipe_inv t' a'
    /\ pipe_run l {| delivered := []; waiting := [] |} a'.
Proof.
  intros t l.
  assert (Hinv : pipe_inv t {| delivered := []; waiting := [] |}).
  { split_and!; try reflexivity.
    - by split.
    - intros H. change (Socket.os_write _)
        with [Socket.Accepts 20; Socket.Accepts 100; Socket.Accepts 100] in H.
      repeat (apply elem_of_cons in H as [H|H]; [discriminate|]). by apply elem_of_nil in H. }
  assert (Hclean : clean l t = true) by (vm_compute; reflexivity).
  destruct (sender_refines_pipe l t _ Hinv Hclean) as (t' & a' & Ha & Hr & Hi).
  exists t', a'. by split_and!.
Defined.

(** A queue close to full whose first packet of 1000 bytes is half sent, the
    second has 100 bytes. *)
Definition congested_client : TcpClient :=
  let full n := {| timestamp_ms := 0; data := repeat 0 n |} in
  goto AtWait 500
    (set_queue (full 1000%nat :: full 100%nat :: repeat (full 1000%nat) 261) 262100
       (connected_client [] [])).

Lemma overflow_resumes_in_next_packet_witness :
  acts [Tick 1; Tick 1; Tick 1] (enqueue (repeat 0 1000) congested_client) = None.
Proof.
  pose proof (overflow_resumes_in_next_packet congested_client
    {| timestamp_ms := 0; data := repeat 0 1000 |} {| timestamp_ms := 0; data := repeat 0 100 |}
    (repeat {| timestamp_ms := 0; data := repeat 0 1000 |} 261) (repeat 0 1000) 1
    eq_refl eq_refl eq_refl eq_refl ltac:(vm_compute; reflexivity)
    ltac:(vm_compute; discriminate)) as H.
  cbv zeta in H. change (zlen (data _) <? send_offset congested_client) with true in H. exact H.
Defined.

(** Why [clean] asks for it: a direct call while 20 bytes of a queued packet are
    out is written into the middle of that packet. *)
Lemma direct_call_splits_packet :
  let t := connected_client [] [Socket.Accepts 20; Socket.Accepts 100; Socket.Accepts 100] in
  let queued := default [] (PacketBuffer.wire <$> packet_of (send_proxy_data a_header (Some [1; 2; 3]) 3)) in
  wire_bytes <$> acts [Call 10 (send_proxy_data a_header (Some [1; 2; 3]) 3);
                       Tick 11; Tick 12; Tick 13;
                       Call 14 (send_ping {| ping_requester := 0; ping_id := 7 |});
                       Tick 15; Tick 16; Tick 17] t
  = Some (ztake 20 queued ++ PacketBuffer.wire (a_ping 7) ++ zdrop 20 queued).
Proof. vm_compute. reflexivity. Qed.
