(* ===== verification/RyuLdnClient.v ===== *)
(** * The RyuLdn client ([network/client.{hpp,cpp}])

    [RyuLdnClient] over any TCP client with the interface [ITcpClient]: the
    connection state machine, the backoff of the reconnect manager and the
    protocol's handshake.  The callbacks are user code; their calls are recorded
    in [m_log].  [m_reconnect_manager] is [None] once a delay has been computed
    with a multiplier of zero, which divides by zero.  [m_random] are the
    numbers [std::rand()] yields. *)

From stdpp Require Import base numbers list.
From Stdlib Require Import ZArith Lia Bool.
From S2P Require Import Prelude Layout Types Protocol.
From S2P Require Config Reconnect PacketBuffer Socket TcpClient.
From S2P Require Import ConnectionState ITcpClient.
Import Reconnect (ReconnectConfig, ReconnectManager).

Inductive ClientOpResult : Set :=
| ClientOpResult_Success | ClientOpResult_NotConnected | ClientOpResult_NotReady
| ClientOpResult_AlreadyConnected | ClientOpResult_ConnectionFailed
| ClientOpResult_SendFailed | ClientOpResult_InvalidState | ClientOpResult_Timeout
| ClientOpResult_ProtocolError | ClientOpResult_InternalError.

#[export] Instance ClientOpResult_eq_dec : EqDecision ClientOpResult.
Proof. solve_decision. Defined.

(** The strings are C strings, without their NUL. *)
Record RyuLdnClientConfig : Type := {
  host : list Z;
  port : Z;
  connect_timeout_ms : Z;
  recv_timeout_ms : Z;
  ping_interval_ms : Z;
  reconnect : ReconnectConfig;
  auto_reconnect : bool;
  passphrase : list Z;
  use_tls : bool
}.

(** The constructor from the application's configuration. *)
Definition client_config (cfg : Config.Config) : RyuLdnClientConfig :=
  let net := Config.network cfg in
  {| host := Config.host (Config.server cfg);
     port := Config.port (Config.server cfg);
     connect_timeout_ms := Config.connect_timeout_ms net;
     recv_timeout_ms := 20;
     ping_interval_ms := 0;
     reconnect :=
       {| Reconnect.initial_delay_ms := Config.reconnect_delay_ms net;
          Reconnect.max_delay_ms := u32 (Config.reconnect_delay_ms net * 10);
          Reconnect.multiplier_percent := 200;
          Reconnect.jitter_percent := 10;
          Reconnect.max_retries := u16 (Config.max_reconnect_attempts net);
          Reconnect.fast_retries :=
            Reconnect.fast_retries Reconnect.default_ReconnectConfig;
          Reconnect.fast_delay_ms :=
            Reconnect.fast_delay_ms Reconnect.default_ReconnectConfig |};
     auto_reconnect := negb (Config.max_reconnect_attempts net =? 0);
     passphrase := Config.passphrase (Config.ldn cfg);
     use_tls := Config.use_tls (Config.server cfg) |}.

(** A call of a callback. *)
Inductive client_event : Type :=
| StateCallback (old_state new_state : ConnectionState)
| PacketCallback (packet_id : Z) (data : list Z).

(** The times and delays among the fields. *)
Record Timers : Type := {
  m_last_ping_time_ms : Z;
  m_backoff_start_time_ms : Z;
  m_current_backoff_delay_ms : Z;
  m_last_update_time_ms : Z;
  m_handshake_start_time_ms : Z;
  m_last_pong_time_ms : Z
}.

Definition m_handshake_timeout_ms : Z := 5000.
Definition m_ping_timeout_ms : Z := 10000.
Definition RECV_BUFFER : Z := 2048.

Section RyuLdnClient.
Context {C : Type} `{ITcpClient C}.

Record RyuLdnClient : Type := {
  m_config : RyuLdnClientConfig;
  m_tcp_client : C;
  m_state_machine : ConnectionStateMachine;
  m_reconnect_manager : option ReconnectManager;
  m_state_callback : bool;
  m_packet_callback : bool;
  m_timers : Timers;
  m_session_id : SessionId;
  m_mac_address : MacAddress;
  m_handshake_sent : bool;
  m_initialized : bool;
  m_last_error_code : Z;
  m_pending_ping_count : Z;
  m_ping_id : Z;
  backoff_counter : Z;          (* static in start_backoff *)
  m_random : nat -> Z;
  m_log : list client_event
}.

(** *** Assignments to the fields *)

Definition set_tcp (t : C) (c : RyuLdnClient) : RyuLdnClient := {|
  m_config := m_config c; m_tcp_client := t; m_state_machine := m_state_machine c;
  m_reconnect_manager := m_reconnect_manager c; m_state_callback := m_state_callback c;
  m_packet_callback := m_packet_callback c; m_timers := m_timers c;
  m_session_id := m_session_id c; m_mac_address := m_mac_address c;
  m_handshake_sent := m_handshake_sent c; m_initialized := m_initialized c;
  m_last_error_code := m_last_error_code c; m_pending_ping_count := m_pending_ping_count c;
  m_ping_id := m_ping_id c; backoff_counter := backoff_counter c; m_random := m_random c;
  m_log := m_log c |}.

Definition set_machine (m : ConnectionStateMachine) (r : option ReconnectManager)
    (c : RyuLdnClient) : RyuLdnClient := {|
  m_config := m_config c; m_tcp_client := m_tcp_client c; m_state_machine := m;
  m_reconnect_manager := r; m_state_callback := m_state_callback c;
  m_packet_callback := m_packet_callback c; m_timers := m_timers c;
  m_session_id := m_session_id c; m_mac_address := m_mac_address c;
  m_handshake_sent := m_handshake_sent c; m_initialized := m_initialized c;
  m_last_error_code := m_last_error_code c; m_pending_ping_count := m_pending_ping_count c;
  m_ping_id := m_ping_id c; backoff_counter := backoff_counter c; m_random := m_random c;
  m_log := m_log c |}.

Definition set_timers (t : Timers) (counter : Z) (c : RyuLdnClient) : RyuLdnClient := {|
  m_config := m_config c; m_tcp_client := m_tcp_client c; m_state_machine := m_state_machine c;
  m_reconnect_manager := m_reconnect_manager c; m_state_callback := m_state_callback c;
  m_packet_callback := m_packet_callback c; m_timers := t;
  m_session_id := m_session_id c; m_mac_address := m_mac_address c;
  m_handshake_sent := m_handshake_sent c; m_initialized := m_initialized c;
  m_last_error_code := m_last_error_code c; m_pending_ping_count := m_pending_ping_count c;
  m_ping_id := m_ping_id c; backoff_counter := counter; m_random := m_random c;
  m_log := m_log c |}.

Definition set_flags (sent initialized : bool) (cfg : RyuLdnClientConfig) (c : RyuLdnClient)
    : RyuLdnClient := {|
  m_config := cfg; m_tcp_client := m_tcp_client c; m_state_machine := m_state_machine c;
  m_reconnect_manager := m_reconnect_manager c; m_state_callback := m_state_callback c;
  m_packet_callback := m_packet_callback c; m_timers := m_timers c;
  m_session_id := m_session_id c; m_mac_address := m_mac_address c;
  m_handshake_sent := sent; m_initialized := initialized;
  m_last_error_code := m_last_error_code c; m_pending_ping_count := m_pending_ping_count c;
  m_ping_id := m_ping_id c; backoff_counter := backoff_counter c; m_random := m_random c;
  m_log := m_log c |}.

Definition set_ids (id : SessionId) (mac : MacAddress) (random : nat -> Z) (c : RyuLdnClient)
    : RyuLdnClient := {|
  m_config := m_config c; m_tcp_client := m_tcp_client c; m_state_machine := m_state_machine c;
  m_reconnect_manager := m_reconnect_manager c; m_state_callback := m_state_callback c;
  m_packet_callback := m_packet_callback c; m_timers := m_timers c;
  m_session_id := id; m_mac_address := mac;
  m_handshake_sent := m_handshake_sent c; m_initialized := m_initialized c;
  m_last_error_code := m_last_error_code c; m_pending_ping_count := m_pending_ping_count c;
  m_ping_id := m_ping_id c; backoff_counter := backoff_counter c; m_random := random;
  m_log := m_log c |}.

Definition set_status (error_code pending ping_id : Z) (c : RyuLdnClient) : RyuLdnClient := {|
  m_config := m_config c; m_tcp_client := m_tcp_client c; m_state_machine := m_state_machine c;
  m_reconnect_manager := m_reconnect_manager c; m_state_callback := m_state_callback c;
  m_packet_callback := m_packet_callback c; m_timers := m_timers c;
  m_session_id := m_session_id c; m_mac_address := m_mac_address c;
  m_handshake_sent := m_handshake_sent c; m_initialized := m_initialized c;
  m_last_error_code := error_code; m_pending_ping_count := pending;
  m_ping_id := ping_id; backoff_counter := backoff_counter c; m_random := m_random c;
  m_log := m_log c |}.

Definition set_callbacks (state packet : bool) (log : list client_event) (c : RyuLdnClient)
    : RyuLdnClient := {|
  m_config := m_config c; m_tcp_client := m_tcp_client c; m_state_machine := m_state_machine c;
  m_reconnect_manager := m_reconnect_manager c; m_state_callback := state;
  m_packet_callback := packet; m_timers := m_timers c;
  m_session_id := m_session_id c; m_mac_address := m_mac_address c;
  m_handshake_sent := m_handshake_sent c; m_initialized := m_initialized c;
  m_last_error_code := m_last_error_code c; m_pending_ping_count := m_pending_ping_count c;
  m_ping_id := m_ping_id c; backoff_counter := backoff_counter c; m_random := m_random c;
  m_log := log |}.

Definition set_error (code : Z) (c : RyuLdnClient) : RyuLdnClient :=
  set_status code (m_pending_ping_count c) (m_ping_id c) c.

Definition emit (e : client_event) (c : RyuLdnClient) : RyuLdnClient :=
  set_callbacks (m_state_callback c) (m_packet_callback c) (m_log c ++ [e]) c.

(** *** State queries *)

Definition get_state (c : RyuLdnClient) : ConnectionState := m_state (m_state_machine c).
Definition is_connected (c : RyuLdnClient) : bool :=
  ConnectionState.is_connected (m_state_machine c).
Definition is_ready (c : RyuLdnClient) : bool := ConnectionState.is_ready (m_state_machine c).
Definition is_transitioning (c : RyuLdnClient) : bool :=
  ConnectionState.is_transitioning (m_state_machine c).
Definition get_retry_count (c : RyuLdnClient) : Z :=
  match m_reconnect_manager c with Some r => Reconnect.m_retry_count r | None => 0 end.

(** *** Callbacks *)

Definition set_state_callback (callback : bool) (c : RyuLdnClient) : RyuLdnClient :=
  set_callbacks callback (m_packet_callback c) (m_log c) c.
Definition set_packet_callback (callback : bool) (c : RyuLdnClient) : RyuLdnClient :=
  set_callbacks (m_state_callback c) callback (m_log c) c.

(** [if (m_state_callback) m_state_callback(old, m_state_machine.get_state(), ...)] *)
Definition notify (old_state : ConnectionState) (c : RyuLdnClient) : RyuLdnClient :=
  if m_state_callback c then emit (StateCallback old_state (get_state c)) c else c.

(** The same behind [before_state != m_state_machine.get_state()]. *)
Definition notify_change (old_state : ConnectionState) (c : RyuLdnClient) : RyuLdnClient :=
  if bool_decide (old_state = get_state c) then c else notify old_state c.

Definition packet_callback (id : Z) (data : list Z) (c : RyuLdnClient) : RyuLdnClient :=
  if m_packet_callback c then emit (PacketCallback id data) c else c.

(** [m_state_machine.process_event(event)] *)
Definition process (event : ConnectionEvent) (c : RyuLdnClient) : RyuLdnClient :=
  set_machine (process_event event (m_state_machine c)).1.2 (m_reconnect_manager c) c.

(** *** Backoff *)

Definition start_backoff (c : RyuLdnClient) : RyuLdnClient :=
  let counter := u32 (backoff_counter c + 1) in
  let seed := u32 ((get_retry_count c + 1) * 2654435761 + u32 (counter * 40503)) in
  let delay := match m_reconnect_manager c with
               | Some r => Reconnect.get_next_delay_ms_with_jitter seed r
               | None => 0
               end in
  let t := m_timers c in
  set_timers {| m_last_ping_time_ms := m_last_ping_time_ms t;
                m_backoff_start_time_ms := m_last_update_time_ms t;
                m_current_backoff_delay_ms := delay;
                m_last_update_time_ms := m_last_update_time_ms t;
                m_handshake_start_time_ms := m_handshake_start_time_ms t;
                m_last_pong_time_ms := m_last_pong_time_ms t |} counter c.

(** [if (m_config.auto_reconnect) start_backoff()] *)
Definition maybe_backoff (c : RyuLdnClient) : RyuLdnClient :=
  if auto_reconnect (m_config c) then start_backoff c else c.

Definition is_backoff_expired (current_time_ms : Z) (c : RyuLdnClient) : bool * RyuLdnClient :=
  let t := m_timers c in
  if m_backoff_start_time_ms t =? 0 then
    (false,
     set_timers {| m_last_ping_time_ms := m_last_ping_time_ms t;
                   m_backoff_start_time_ms := current_time_ms;
                   m_current_backoff_delay_ms := m_current_backoff_delay_ms t;
                   m_last_update_time_ms := m_last_update_time_ms t;
                   m_handshake_start_time_ms := m_handshake_start_time_ms t;
                   m_last_pong_time_ms := m_last_pong_time_ms t |} (backoff_counter c) c)
  else
    (m_current_backoff_delay_ms t <=? u64 (current_time_ms - m_backoff_start_time_ms t), c).

Definition is_handshake_timeout (current_time_ms : Z) (c : RyuLdnClient) : bool :=
  if m_handshake_start_time_ms (m_timers c) =? 0 then false
  else m_handshake_timeout_ms <=? u64 (current_time_ms - m_handshake_start_time_ms (m_timers c)).

(** With a reconnect delay of 200 ms up to 4294967 ms the configuration the
    client makes meets the conditions of the backoff's bounds and monotonicity. *)
Lemma client_reconnect_ok cfg :
  let c := reconnect (client_config cfg) in
  200 <= Config.reconnect_delay_ms (Config.network cfg) <= 4294967 ->
  Reconnect.config_ok c = true /\ 100 <= Reconnect.multiplier_percent c
  /\ Reconnect.fast_delay_ms c <= Reconnect.initial_delay_ms c
  /\ Reconnect.max_delay_ms c * 100 < 4294967296.
Proof.
  intros c Hd. subst c. unfold client_config, Reconnect.config_ok. cbn [reconnect
    Reconnect.initial_delay_ms Reconnect.max_delay_ms Reconnect.multiplier_percent
    Reconnect.jitter_percent Reconnect.max_retries Reconnect.fast_retries Reconnect.fast_delay_ms
    Reconnect.default_ReconnectConfig].
  pose proof (Z.mod_pos_bound (Config.max_reconnect_attempts (Config.network cfg)) (2 ^ 16) ltac:(lia)).
  rewrite u32_small by lia. unfold u16, wrap. rewrite !andb_true_iff. lia.
Qed.

(** *** Identity *)

Definition generate_session_id (c : RyuLdnClient) : RyuLdnClient :=
  set_ids {| sid_data := map (fun i => Z.land (m_random c i) 0xFF) (seq 0 16) |}
    (m_mac_address c) (fun i => m_random c (16 + i)%nat) c.

Definition generate_mac_address (c : RyuLdnClient) : RyuLdnClient :=
  set_ids (m_session_id c) {| mac_data := [0x02; 0x00; 0x5e; 0x00; 0x53; 0x01] |} (m_random c) c.

(** *** Connecting *)

Definition try_connect (c : RyuLdnClient) : RyuLdnClient :=
  let cfg := m_config c in
  let '(result, t) :=
    tcp_connect (host cfg) (port cfg) (connect_timeout_ms cfg) (use_tls cfg) (m_tcp_client c) in
  let c := set_tcp t c in
  let before_state := get_state c in
  match result with
  | ClientResult_Success =>
      let c := process EvConnectSuccess c in
      let c := set_machine (m_state_machine c) (m_reconnect_manager c ≫= Reconnect.reset) c in
      notify before_state c
  | _ =>
      let c := process EvConnectFailed c in
      let c := set_machine (m_state_machine c)
                 (m_reconnect_manager c ≫= Reconnect.record_failure) c in
      notify before_state (maybe_backoff c)
  end.

Definition connect_to (new_host : option (list Z)) (new_port : Z) (c : RyuLdnClient)
    : ClientOpResult * RyuLdnClient :=
  if (is_connected c || is_transitioning c) && bool_decide (get_state c <> Backoff)
  then (ClientOpResult_AlreadyConnected, c)
  else
    let cfg := m_config c in
    let cfg := {| host := match new_host with
                          | Some h => take Config.MAX_HOST_LENGTH (cstr h)
                          | None => host cfg
                          end;
                  port := new_port; connect_timeout_ms := connect_timeout_ms cfg;
                  recv_timeout_ms := recv_timeout_ms cfg; ping_interval_ms := ping_interval_ms cfg;
                  reconnect := reconnect cfg; auto_reconnect := auto_reconnect cfg;
                  passphrase := passphrase cfg; use_tls := use_tls cfg |} in
    let c := set_flags (m_handshake_sent c) (m_initialized c) cfg c in
    let '(up, c) :=
      if m_initialized c then (true, c)
      else
        let '(up, t) := tcp_initialize (m_tcp_client c) in
        (up, set_flags (m_handshake_sent c) up (m_config c) (set_tcp t c)) in
    if negb up then (ClientOpResult_InternalError, c)
    else
      let c := set_flags false (m_initialized c) (m_config c) c in
      let '(result, m, _) := process_event EvConnect (m_state_machine c) in
      let c := set_machine m (m_reconnect_manager c) c in
      match result with
      | TransitionResult_Success =>
          (ClientOpResult_Success, notify Disconnected (try_connect c))
      | _ => (ClientOpResult_InvalidState, c)
      end.

Definition connect (c : RyuLdnClient) : ClientOpResult * RyuLdnClient :=
  connect_to (Some (host (m_config c))) (port (m_config c)) c.

Definition disconnect (c : RyuLdnClient) : RyuLdnClient :=
  let c := if is_ready c
           then set_tcp (tcp_send (send_disconnect {| disc_disconnect_ip := 0 |})
                           (m_tcp_client c)).2 c
           else c in
  let c := set_tcp (tcp_disconnect (m_tcp_client c)) c in
  let prev_state := get_state c in
  let c := process EvDisconnect c in
  let c := if bool_decide (get_state c = Disconnecting) then process EvConnectionLost c else c in
  let c := set_machine (m_state_machine c) (m_reconnect_manager c ≫= Reconnect.reset) c in
  notify prev_state (set_flags false (m_initialized c) (m_config c) c).

(** *** Sending *)

(** The connection is found to be lost during a send. *)
Definition lost_in_send (c : RyuLdnClient) : RyuLdnClient :=
  notify_change (get_state c) (process EvConnectionLost c).

(** The common body of the [send_*] functions; [lost] are the results that
    count as a lost connection. *)
Definition send_op (lost : list ClientResult) (m : Outgoing) (c : RyuLdnClient)
    : ClientOpResult * RyuLdnClient :=
  if negb (is_ready c) then (ClientOpResult_NotReady, c)
  else
    let '(result, t) := tcp_send m (m_tcp_client c) in
    let c := set_tcp t c in
    match result with
    | ClientResult_Success => (ClientOpResult_Success, c)
    | _ => (ClientOpResult_SendFailed,
            if bool_decide (result ∈ lost) then lost_in_send c else c)
    end.

Definition LOST : list ClientResult := [ClientResult_ConnectionLost].

Definition send_scan (filter : ScanFilterFull) : RyuLdnClient -> ClientOpResult * RyuLdnClient :=
  send_op LOST (ITcpClient.send_scan filter).
Definition send_create_access_point (request : CreateAccessPointRequest)
    (advertise_data : option (list Z)) (n : Z) : RyuLdnClient -> ClientOpResult * RyuLdnClient :=
  send_op LOST (ITcpClient.send_create_access_point request advertise_data n).
Definition send_connect (request : ConnectRequest)
    : RyuLdnClient -> ClientOpResult * RyuLdnClient :=
  send_op LOST (ITcpClient.send_connect request).
Definition send_create_access_point_private (request : CreateAccessPointPrivateRequest)
    : RyuLdnClient -> ClientOpResult * RyuLdnClient :=
  send_op LOST (ITcpClient.send_create_access_point_private request None 0).
Definition send_connect_private (request : ConnectPrivateRequest)
    : RyuLdnClient -> ClientOpResult * RyuLdnClient :=
  send_op LOST (ITcpClient.send_connect_private request).
Definition send_proxy_data (header : ProxyDataHeader) (data : option (list Z)) (n : Z)
    : RyuLdnClient -> ClientOpResult * RyuLdnClient :=
  send_op [ClientResult_ConnectionLost; ClientResult_NotConnected]
    (ITcpClient.send_proxy_data header data n).

Definition send_ping (c : RyuLdnClient) : ClientOpResult * RyuLdnClient :=
  if negb (is_ready c) then (ClientOpResult_NotReady, c)
  else
    let id := m_ping_id c in
    let c := set_status (m_last_error_code c) (m_pending_ping_count c) (u8 (id + 1)) c in
    send_op LOST (ITcpClient.send_ping {| ping_requester := 1; ping_id := id |}) c.

Definition send_ping_response (ping_id : Z) : RyuLdnClient -> ClientOpResult * RyuLdnClient :=
  send_op LOST (ITcpClient.send_ping {| ping_requester := 0; ping_id := ping_id |}).
Definition send_disconnect_network : RyuLdnClient -> ClientOpResult * RyuLdnClient :=
  send_op LOST (ITcpClient.send_disconnect {| disc_disconnect_ip := 0 |}).
Definition send_set_accept_policy (policy : AcceptPolicy)
    : RyuLdnClient -> ClientOpResult * RyuLdnClient :=
  send_op LOST (ITcpClient.send_set_accept_policy
                  {| sap_accept_policy := AcceptPolicy_value policy |}).
Definition send_set_advertise_data (data : option (list Z)) (n : Z)
    : RyuLdnClient -> ClientOpResult * RyuLdnClient :=
  send_op LOST (ITcpClient.send_set_advertise_data data n).
Definition send_reject (node_id : Z) (reason : DisconnectReason)
    : RyuLdnClient -> ClientOpResult * RyuLdnClient :=
  send_op LOST (ITcpClient.send_reject
                  {| rej_node_id := node_id;
                     rej_disconnect_reason := DisconnectReason_value reason |}).
Definition send_raw_packet (data : option (list Z)) (n : Z)
    : RyuLdnClient -> ClientOpResult * RyuLdnClient :=
  send_op LOST (ITcpClient.send_raw data n).

(** *** Handshake *)

(** The connection is lost while the passphrase or [Initialize] is sent. *)
Definition lost_in_handshake (c : RyuLdnClient) : RyuLdnClient :=
  notify_change (get_state c) (maybe_backoff (process EvConnectionLost c)).

Definition send_initialize (c : RyuLdnClient) : ClientOpResult * RyuLdnClient :=
  let '(passphrase_result, t) :=
    tcp_send (ITcpClient.send_passphrase_text (Some (passphrase (m_config c)))) (m_tcp_client c) in
  let c := set_tcp t c in
  match passphrase_result with
  | ClientResult_ConnectionLost => (ClientOpResult_SendFailed, lost_in_handshake c)
  | ClientResult_Success =>
      let '(result, t) :=
        tcp_send (ITcpClient.send_initialize
                    {| init_id := m_session_id c; init_mac_address := m_mac_address c |})
          (m_tcp_client c) in
      let c := set_tcp t c in
      match result with
      | ClientResult_ConnectionLost => (ClientOpResult_SendFailed, lost_in_handshake c)
      | ClientResult_Success => (ClientOpResult_Success, c)
      | _ => (ClientOpResult_SendFailed, c)
      end
  | _ => (ClientOpResult_SendFailed, c)
  end.

(** The handshake has failed with an error the server reported. *)
Definition handshake_rejected (code : Z) (c : RyuLdnClient) : RyuLdnClient :=
  let c := set_error code c in
  let before_err := get_state c in
  if code =? NetworkErrorCode_value NetworkErrorCode_VersionMismatch
  then notify before_err (process EvFatalError c)
  else
    let c := if code =? NetworkErrorCode_value NetworkErrorCode_InvalidSessionId
             then generate_session_id c else c in
    notify before_err (maybe_backoff (process EvHandshakeFailed c)).

Definition process_handshake_response (id : Z) (data : list Z) (c : RyuLdnClient)
    : bool * RyuLdnClient :=
  if id =? PacketId_value PacketId_Initialize then
    let c := if sizeofz InitializeMessage <=? zlen data then
               let msg := of_bytes (A:=InitializeMessage) data in
               set_ids (init_id msg) (init_mac_address msg) (m_random c) c
             else c in
    let c := set_error (NetworkErrorCode_value NetworkErrorCode_None) c in
    (true, notify (get_state c) (process EvHandshakeSuccess c))
  else if id =? PacketId_value PacketId_NetworkError then
    (true, handshake_rejected
             (if sizeofz NetworkErrorMessage <=? zlen data
              then neterr_error_code (of_bytes data)
              else NetworkErrorCode_value NetworkErrorCode_InternalError) c)
  else if id =? PacketId_value PacketId_SyncNetwork then
    let c := set_error (NetworkErrorCode_value NetworkErrorCode_None) c in
    (true, notify (get_state c) (process EvHandshakeSuccess c))
  else if id =? PacketId_value PacketId_Disconnect then
    let c := set_error (NetworkErrorCode_value NetworkErrorCode_ConnectionRejected) c in
    (true, notify (get_state c) (maybe_backoff (process EvHandshakeFailed c)))
  else (false, packet_callback id data c).

Definition handle_handshaking_state (current_time_ms : Z) (c : RyuLdnClient) : RyuLdnClient :=
  if is_handshake_timeout current_time_ms c then
    let c := set_error (NetworkErrorCode_value NetworkErrorCode_HandshakeTimeout) c in
    notify_change (get_state c) (maybe_backoff (process EvHandshakeFailed c))
  else
    let '(result, id, data, t) :=
      tcp_receive_packet RECV_BUFFER (s32 (recv_timeout_ms (m_config c))) (m_tcp_client c) in
    let c := set_tcp t c in
    let before_state := get_state c in
    match result with
    | ClientResult_Success =>
        let '(completed, c) := process_handshake_response id data c in
        if completed then notify_change before_state c else c
    | ClientResult_ConnectionLost =>
        notify before_state (maybe_backoff (process EvConnectionLost c))
    | _ => c
    end.

(** *** The ready state *)

Definition set_pong (c : RyuLdnClient) : RyuLdnClient :=
  let t := m_timers c in
  set_timers {| m_last_ping_time_ms := m_last_ping_time_ms t;
                m_backoff_start_time_ms := m_backoff_start_time_ms t;
                m_current_backoff_delay_ms := m_current_backoff_delay_ms t;
                m_last_update_time_ms := m_last_update_time_ms t;
                m_handshake_start_time_ms := m_handshake_start_time_ms t;
                m_last_pong_time_ms := m_last_ping_time_ms t |} (backoff_counter c) c.

Definition handle_packet (id : Z) (data : list Z) (c : RyuLdnClient) : RyuLdnClient :=
  if id =? PacketId_value PacketId_Ping then
    if sizeofz PingMessage <=? zlen data then
      let ping_msg := of_bytes (A:=PingMessage) data in
      if ping_requester ping_msg =? 0 then
        set_tcp (tcp_send (ITcpClient.send_ping ping_msg) (m_tcp_client c)).2 c
      else set_pong (set_status (m_last_error_code c) 0 (m_ping_id c) c)
    else c
  else if id =? PacketId_value PacketId_Disconnect then process EvDisconnect c
  else packet_callback id data c.

(** The loop of [process_packets]; each packet uses up some of the backlog. *)
Fixpoint packet_loop (fuel : nat) (c : RyuLdnClient) : RyuLdnClient :=
  let '(result, id, data, t) :=
    tcp_receive_packet RECV_BUFFER (s32 (recv_timeout_ms (m_config c))) (m_tcp_client c) in
  let c := set_tcp t c in
  match result with
  | ClientResult_ConnectionLost | ClientResult_NotConnected =>
      notify_change (get_state c) (maybe_backoff (process EvConnectionLost c))
  | ClientResult_Success =>
      let c := handle_packet id data c in
      match fuel with
      | O => c
      | S fuel => packet_loop fuel c
      end
  | _ => c
  end.

Definition process_packets (c : RyuLdnClient) : RyuLdnClient :=
  if tcp_is_connected (m_tcp_client c) then packet_loop (tcp_backlog (m_tcp_client c)) c else c.

Definition handle_ready_state (current_time_ms : Z) (c : RyuLdnClient) : RyuLdnClient :=
  let c := process_packets c in
  let elapsed := u64 (current_time_ms - m_last_ping_time_ms (m_timers c)) in
  if (0 <? m_pending_ping_count c) && (m_ping_timeout_ms <=? elapsed) then
    notify (get_state c) (maybe_backoff (process EvConnectionLost c))
  else if (0 <? ping_interval_ms (m_config c)) && (ping_interval_ms (m_config c) <=? elapsed) then
    let '(ping_result, c) := send_ping c in
    match ping_result with
    | ClientOpResult_Success =>
        let t := m_timers c in
        set_timers {| m_last_ping_time_ms := current_time_ms;
                      m_backoff_start_time_ms := m_backoff_start_time_ms t;
                      m_current_backoff_delay_ms := m_current_backoff_delay_ms t;
                      m_last_update_time_ms := m_last_update_time_ms t;
                      m_handshake_start_time_ms := m_handshake_start_time_ms t;
                      m_last_pong_time_ms := m_last_pong_time_ms t |} (backoff_counter c)
          (set_status (m_last_error_code c) (u32 (m_pending_ping_count c + 1)) (m_ping_id c) c)
    | _ => c
    end
  else c.

(** *** The update loop *)

Definition set_update_time (current_time_ms : Z) (c : RyuLdnClient) : RyuLdnClient :=
  let t := m_timers c in
  set_timers {| m_last_ping_time_ms := m_last_ping_time_ms t;
                m_backoff_start_time_ms := m_backoff_start_time_ms t;
                m_current_backoff_delay_ms := m_current_backoff_delay_ms t;
                m_last_update_time_ms := current_time_ms;
                m_handshake_start_time_ms := m_handshake_start_time_ms t;
                m_last_pong_time_ms := m_last_pong_time_ms t |} (backoff_counter c) c.

Definition set_handshake_start (current_time_ms : Z) (c : RyuLdnClient) : RyuLdnClient :=
  let t := m_timers c in
  set_timers {| m_last_ping_time_ms := m_last_ping_time_ms t;
                m_backoff_start_time_ms := m_backoff_start_time_ms t;
                m_current_backoff_delay_ms := m_current_backoff_delay_ms t;
                m_last_update_time_ms := m_last_update_time_ms t;
                m_handshake_start_time_ms := current_time_ms;
                m_last_pong_time_ms := m_last_pong_time_ms t |} (backoff_counter c) c.

(** Connected, the handshake not sent yet. *)
Definition start_handshake (current_time_ms : Z) (c : RyuLdnClient) : RyuLdnClient :=
  let '(result, c) := send_initialize c in
  match result with
  | ClientOpResult_Success =>
      let c := set_handshake_start current_time_ms
                 (set_flags true (m_initialized c) (m_config c) c) in
      let c := process EvHandshakeStarted c in
      if m_state_callback c then emit (StateCallback Connected Handshaking) c else c
  | _ => notify_change (get_state c) (maybe_backoff (process EvHandshakeFailed c))
  end.

Definition update (current_time_ms : Z) (c : RyuLdnClient) : RyuLdnClient :=
  let c := set_update_time current_time_ms c in
  match get_state c with
  | Disconnected | Connecting | Retrying | Error => c
  | Connected => if m_handshake_sent c then c else start_handshake current_time_ms c
  | Handshaking => handle_handshaking_state current_time_ms c
  | Ready => handle_ready_state current_time_ms c
  | Backoff =>
      let '(expired, c) := is_backoff_expired current_time_ms c in
      if expired then
        let c := process EvBackoffExpired c in
        let before_connect := get_state c in
        notify_change before_connect (try_connect c)
      else c
  | Disconnecting => notify (get_state c) (process EvConnectionLost c)
  end.

Fixpoint updates (times : list Z) (c : RyuLdnClient) : RyuLdnClient :=
  match times with
  | [] => c
  | now :: times => updates times (update now c)
  end.

(** *** Construction *)

Definition set_config (cfg : RyuLdnClientConfig) (c : RyuLdnClient) : RyuLdnClient :=
  let c := set_flags (m_handshake_sent c) (m_initialized c) cfg c in
  set_machine (m_state_machine c)
    (m_reconnect_manager c ≫= Reconnect.set_config (reconnect cfg)) c.

Definition new_RyuLdnClient (cfg : RyuLdnClientConfig) (tcp : C) (random : nat -> Z)
    : RyuLdnClient :=
  generate_mac_address (generate_session_id {|
    m_config := cfg; m_tcp_client := tcp; m_state_machine := new_ConnectionStateMachine;
    m_reconnect_manager := Reconnect.new_ReconnectManager (reconnect cfg);
    m_state_callback := false; m_packet_callback := false;
    m_timers := {| m_last_ping_time_ms := 0; m_backoff_start_time_ms := 0;
                   m_current_backoff_delay_ms := 0; m_last_update_time_ms := 0;
                   m_handshake_start_time_ms := 0; m_last_pong_time_ms := 0 |};
    m_session_id := {| sid_data := repeat 0 16 |}; m_mac_address := {| mac_data := repeat 0 6 |};
    m_handshake_sent := false; m_initialized := false;
    m_last_error_code := NetworkErrorCode_value NetworkErrorCode_None;
    m_pending_ping_count := 0; m_ping_id := 0; backoff_counter := 0; m_random := random;
    m_log := [] |}).

(** ** Lemmas: the state after an operation *)

(** The state an event leads to. *)
Definition next_state (e : ConnectionEvent) (s : ConnectionState) : ConnectionState :=
  default s (is_valid_transition s e).

Lemma get_state_process e c : get_state (process e c) = next_state e (get_state c).
Proof.
  unfold get_state, process. cbn [m_state_machine set_machine]. rewrite process_event_eq.
  unfold next_state. by destruct (is_valid_transition _ e).
Qed.

Lemma get_state_notify s c : get_state (notify s c) = get_state c.
Proof. unfold notify. by destruct (m_state_callback c). Qed.

Lemma get_state_notify_change s c : get_state (notify_change s c) = get_state c.
Proof. unfold notify_change. case_bool_decide; [done|apply get_state_notify]. Qed.

Lemma get_state_maybe_backoff c : get_state (maybe_backoff c) = get_state c.
Proof. unfold maybe_backoff. by destruct (auto_reconnect (m_config c)). Qed.

(** What a step that only moves the machine, the timers and the log leaves. *)
Definition same_rest (c c' : RyuLdnClient) : Prop :=
  m_tcp_client c' = m_tcp_client c /\ m_config c' = m_config c
  /\ m_handshake_sent c' = m_handshake_sent c /\ m_initialized c' = m_initialized c.

#[local] Instance same_rest_preorder : PreOrder same_rest.
Proof.
  split; [done|]. intros a b c (H1 & H2 & H3 & H4) (? & ? & ? & ?).
  split_and!; congruence.
Qed.

Lemma same_rest_notify s c : same_rest c (notify s c).
Proof. unfold notify. by destruct (m_state_callback c). Qed.

Lemma same_rest_notify_change s c : same_rest c (notify_change s c).
Proof. unfold notify_change. case_bool_decide; [done|apply same_rest_notify]. Qed.

Lemma same_rest_maybe_backoff c : same_rest c (maybe_backoff c).
Proof. unfold maybe_backoff. by destruct (auto_reconnect (m_config c)). Qed.

Lemma same_rest_process e c : same_rest c (process e c).
Proof. done. Qed.

(** What [try_connect] does in the state [Retrying] or [Connecting]. *)
Lemma try_connect_spec c :
  let '(result, t) := tcp_connect (host (m_config c)) (port (m_config c))
                        (connect_timeout_ms (m_config c)) (use_tls (m_config c)) (m_tcp_client c) in
  get_state (try_connect c)
    = next_state (if bool_decide (result = ClientResult_Success)
                  then EvConnectSuccess else EvConnectFailed) (get_state c)
  /\ m_tcp_client (try_connect c) = t /\ m_config (try_connect c) = m_config c
  /\ m_handshake_sent (try_connect c) = m_handshake_sent c.
Proof.
  unfold try_connect. destruct (tcp_connect _ _ _ _ _) as [result t].
  assert (Hfail : forall r,
    let c1 := set_machine r (m_reconnect_manager c ≫= Reconnect.record_failure) (set_tcp t c) in
    same_rest (set_tcp t c) (notify (get_state c) (maybe_backoff c1))).
  { intros r c1. transitivity (maybe_backoff c1); [|apply same_rest_notify].
    transitivity c1; [done|apply same_rest_maybe_backoff]. }
  destruct result; rewrite ?bool_decide_false, ?bool_decide_true by done.
  1: { destruct (same_rest_notify (get_state (set_tcp t c))
      (set_machine (m_state_machine (process EvConnectSuccess (set_tcp t c)))
         (m_reconnect_manager (process EvConnectSuccess (set_tcp t c)) ≫= Reconnect.reset)
         (process EvConnectSuccess (set_tcp t c)))) as (-> & -> & -> & _).
    split_and!; try done. rewrite get_state_notify. exact (get_state_process EvConnectSuccess (set_tcp t c)). }
  all: destruct (Hfail (process_event EvConnectFailed (m_state_machine c)).1.2) as (H1 & H2 & H3 & _);
    split_and!; try done; rewrite get_state_notify, get_state_maybe_backoff;
    exact (get_state_process EvConnectFailed (set_tcp t c)).
Qed.

Lemma is_backoff_expired_spec now c :
  same_rest c (is_backoff_expired now c).2
  /\ m_state_machine (is_backoff_expired now c).2 = m_state_machine c.
Proof. unfold is_backoff_expired. by destruct (_ =? 0). Qed.

(** An update in the state [Backoff]: the timer runs, or one connection attempt
    is made. *)
Lemma update_backoff now c :
  get_state c = Backoff ->
  let c0 := set_update_time now c in
  let '(expired, c1) := is_backoff_expired now c0 in
  let '(result, t) := tcp_connect (host (m_config c)) (port (m_config c))
                        (connect_timeout_ms (m_config c)) (use_tls (m_config c)) (m_tcp_client c) in
  m_config (update now c) = m_config c
  /\ m_handshake_sent (update now c) = m_handshake_sent c
  /\ if expired then
       m_tcp_client (update now c) = t
       /\ get_state (update now c)
          = if bool_decide (result = ClientResult_Success) then Connected else Backoff
     else m_tcp_client (update now c) = m_tcp_client c /\ get_state (update now c) = Backoff.
Proof.
  intros Hs. unfold update.
  assert (Hs0 : get_state (set_update_time now c) = Backoff) by exact Hs. rewrite Hs0. cbv zeta.
  destruct (is_backoff_expired_spec now (set_update_time now c)) as [Hrest Hm].
  destruct (is_backoff_expired now (set_update_time now c)) as [expired c1].
  cbn [snd] in *. destruct Hrest as (H1 & H2 & H3 & H4).
  assert (Hs1 : get_state c1 = Backoff) by (unfold get_state in *; by rewrite Hm).
  cbn [m_tcp_client m_config m_handshake_sent set_update_time set_timers] in H1, H2, H3.
  destruct expired.
  - pose proof (try_connect_spec (process EvBackoffExpired c1)) as Ht.
    rewrite get_state_process, Hs1 in Ht. cbn [m_config m_tcp_client m_handshake_sent process
      set_machine] in Ht. rewrite H1, H2, H3 in Ht.
    destruct (tcp_connect _ _ _ _ _) as [result t]. destruct Ht as (Hst & Htc & Hcfg & Hsent).
    rewrite get_state_notify_change.
    destruct (same_rest_notify_change (get_state (process EvBackoffExpired c1))
      (try_connect (process EvBackoffExpired c1))) as (-> & -> & -> & _).
    split_and!; [done|done|done|]. rewrite Hst. by case_bool_decide.
  - destruct (tcp_connect _ _ _ _ _). by split_and!.
Qed.

(** *** The handshake is never repeated *)

(** The client has sent a handshake and is not (any longer) in it or ready. *)
Definition handshake_over (c : RyuLdnClient) : Prop :=
  m_handshake_sent c = true /\ get_state c <> Handshaking /\ get_state c <> Ready.

Lemma handshake_over_update now c : handshake_over c -> handshake_over (update now c).
Proof.
  intros (Hsent & Hh & Hr). destruct (decide (get_state c = Backoff)) as [Hb|Hb].
  - pose proof (update_backoff now c Hb) as H1. cbv zeta in H1.
    destruct (is_backoff_expired now _) as [e c1], (tcp_connect _ _ _ _ _) as [r t].
    destruct H1 as (_ & H2 & H3). unfold handshake_over. rewrite H2.
    destruct e; destruct H3 as [_ ->]; [by case_bool_decide|done].
  - unfold update. assert (H0 : get_state (set_update_time now c) = get_state c) by done.
    rewrite H0. destruct (get_state c) eqn:Hs; try done;
      try (by split; [exact Hsent|rewrite H0]).
    + cbn [m_handshake_sent set_update_time set_timers]. rewrite Hsent.
      split; [exact Hsent|]. by rewrite H0.
    + set (c0 := set_update_time now c) in *.
      destruct (same_rest_notify Disconnecting (process EvConnectionLost c0)) as (_ & _ & H3 & _).
      unfold handshake_over. rewrite get_state_notify, get_state_process, H3, H0. by split.
Qed.

Lemma handshake_over_updates times c : handshake_over c -> handshake_over (updates times c).
Proof.
  revert c. induction times as [|now times IH]; intros c Hc; [done|].
  apply IH. by apply handshake_over_update.
Qed.

(** Connection attempts, one after the other, and nothing else. *)
Fixpoint attempts (n : nat) (cfg : RyuLdnClientConfig) (t : C) : C :=
  match n with
  | O => t
  | S n => attempts n cfg (tcp_connect (host cfg) (port cfg) (connect_timeout_ms cfg)
                             (use_tls cfg) t).2
  end.

(** All an update does to the TCP client then is at most one attempt. *)
Lemma handshake_over_tcp now c :
  handshake_over c ->
  m_config (update now c) = m_config c
  /\ (m_tcp_client (update now c) = m_tcp_client c
      \/ m_tcp_client (update now c) = attempts 1 (m_config c) (m_tcp_client c)).
Proof.
  intros (Hsent & Hh & Hr). destruct (decide (get_state c = Backoff)) as [Hb|Hb].
  - pose proof (update_backoff now c Hb) as H1. cbv zeta in H1. cbn [attempts].
    destruct (is_backoff_expired now _) as [e c1], (tcp_connect _ _ _ _ _) as [r t].
    destruct H1 as (H1 & _ & H3). destruct e; destruct H3 as [-> _]; auto.
  - unfold update. assert (H0 : get_state (set_update_time now c) = get_state c) by done.
    rewrite H0. destruct (get_state c) eqn:Hs; try done; try (split; [done|by left]).
    + cbn [m_handshake_sent set_update_time set_timers]. rewrite Hsent. split; [done|by left].
    + destruct (same_rest_notify Disconnecting (process EvConnectionLost (set_update_time now c)))
        as (-> & -> & _). split; [done|by left].
Qed.

(** *** Lemmas: the loop over the packets *)

Section packets.
Context (ok : C -> Prop) `{!TcpLaws C ok}.

Lemma process_tcp e c : m_tcp_client (process e c) = m_tcp_client c.
Proof. done. Qed.

Lemma handle_packet_spec id data c :
  ok (m_tcp_client c) ->
  ok (m_tcp_client (handle_packet id data c))
  /\ tcp_backlog (m_tcp_client (handle_packet id data c)) = tcp_backlog (m_tcp_client c)
  /\ m_config (handle_packet id data c) = m_config c.
Proof.
  intros Hok. unfold handle_packet, packet_callback.
  destruct (id =? _); [destruct (_ <=? _); [destruct (_ =? 0)|]|destruct (id =? _)];
    try (by destruct (m_packet_callback c)); try done.
  cbn [m_tcp_client set_tcp m_config]. split_and!; [by apply tcp_send_ok|apply tcp_send_backlog|done].
Qed.

End packets.

(** *** Lemmas: a connection that is still open *)

Section open_connection.
Context (ok : C -> Prop) `{!TcpLaws C ok}.

(** In [Backoff] with the TCP connection still up. *)
Definition blocked (c : RyuLdnClient) : Prop :=
  get_state c = Backoff /\ tcp_is_connected (m_tcp_client c) = true.

Lemma blocked_update now c :
  blocked c -> blocked (update now c) /\ m_tcp_client (update now c) = m_tcp_client c.
Proof.
  intros [Hs Hc]. pose proof (update_backoff now c Hs) as H1. cbv zeta in H1.
  rewrite (tcp_connect_twice _ _ _ _ _ Hc) in H1. unfold blocked.
  destruct (is_backoff_expired now _) as [e c1]. destruct H1 as (_ & _ & H3).
  destruct e; destruct H3 as [-> ->]; by split_and!.
Qed.

Lemma blocked_updates times c :
  blocked c -> blocked (updates times c) /\ m_tcp_client (updates times c) = m_tcp_client c.
Proof.
  revert c. induction times as [|now times IH]; intros c Hc; [done|].
  destruct (blocked_update now c Hc) as [Hb Ht]. cbn [updates].
  destruct (IH _ Hb) as [Hb' Ht']. split; [done|]. by rewrite Ht'.
Qed.

(** Connecting a disconnected client whose TCP connection is still up. *)
Lemma connect_open new_host new_port c :
  m_initialized c = true -> get_state c = Disconnected ->
  tcp_is_connected (m_tcp_client c) = true ->
  let (r, c') := connect_to new_host new_port c in
  r = ClientOpResult_Success /\ blocked c' /\ m_tcp_client c' = m_tcp_client c.
Proof.
  intros Hi Hs Hc. unfold connect_to.
  assert (Hguard : (is_connected c || is_transitioning c)
                   && bool_decide (get_state c <> Backoff) = false).
  { unfold is_connected, is_transitioning, ConnectionState.is_connected,
      ConnectionState.is_transitioning, get_state in *. by rewrite Hs. }
  rewrite Hguard. cbn [m_initialized set_flags]. rewrite Hi. cbn [negb].
  cbn [m_initialized m_config m_state_machine set_flags].
  rewrite process_event_eq. unfold get_state in Hs. rewrite Hs. cbn [is_valid_transition].
  change (is_valid_transition Disconnected EvConnect) with (Some Connecting). cbv iota.
  match goal with |- context [try_connect ?x] => set (c1 := x) end.
  assert (Hs1 : get_state c1 = Connecting) by done.
  assert (Ht1 : m_tcp_client c1 = m_tcp_client c) by done.
  pose proof (try_connect_spec c1) as Hspec. rewrite Ht1 in Hspec.
  rewrite (tcp_connect_twice _ _ _ _ _ Hc), Hs1 in Hspec. destruct Hspec as (Hst & Htc & _).
  destruct (same_rest_notify Disconnected (try_connect c1)) as (Hn & _).
  unfold blocked. rewrite get_state_notify, Hn, Hst, Htc. by split_and!.
Qed.
End open_connection.

(** *** Lemmas: the handshake *)

(** The passphrase and the [Initialize] message go out. *)
Definition handshake_sends (c : RyuLdnClient) (t2 : C) : Prop :=
  exists t1,
    tcp_send (ITcpClient.send_passphrase_text (Some (passphrase (m_config c)))) (m_tcp_client c)
      = (ClientResult_Success, t1)
    /\ tcp_send (ITcpClient.send_initialize
                   {| init_id := m_session_id c; init_mac_address := m_mac_address c |}) t1
         = (ClientResult_Success, t2).

(** The update of a connected client that begins the handshake. *)
Lemma handshake_begins now c t2 :
  get_state c = Connected -> m_handshake_sent c = false -> handshake_sends c t2 ->
  let c1 := update now c in
  get_state c1 = Handshaking /\ m_tcp_client c1 = t2 /\ m_config c1 = m_config c
  /\ m_state_callback c1 = m_state_callback c
  /\ m_handshake_start_time_ms (m_timers c1) = now
  /\ m_log c1 = m_log c ++ (if m_state_callback c then [StateCallback Connected Handshaking] else []).
Proof.
  intros Hs Hsent (t1 & H1 & H2). unfold update.
  assert (H0 : get_state (set_update_time now c) = Connected) by exact Hs. rewrite H0.
  assert (Hf : m_handshake_sent (set_update_time now c) = false) by exact Hsent.
  rewrite Hf. unfold start_handshake, send_initialize.
  change (m_tcp_client (set_update_time now c)) with (m_tcp_client c).
  change (m_config (set_update_time now c)) with (m_config c).
  rewrite H1. cbn [m_session_id m_mac_address m_tcp_client set_tcp set_update_time set_timers].
  rewrite H2. cbv zeta.
  match goal with |- context [process EvHandshakeStarted ?x] => set (c' := x) end.
  assert (Hp : get_state (process EvHandshakeStarted c') = Handshaking).
  { rewrite get_state_process. replace (get_state c') with Connected by exact (eq_sym Hs). done. }
  change (m_state_callback (process EvHandshakeStarted c')) with (m_state_callback c).
  destruct (m_state_callback c) eqn:Hcb; split_and!; try done; try exact Hcb.
  by rewrite app_nil_r.
Qed.

(** The update of a client in its handshake that receives a packet in time. *)
Lemma handshake_receives now c id data t :
  get_state c = Handshaking -> is_handshake_timeout now c = false ->
  tcp_receive_packet RECV_BUFFER (s32 (recv_timeout_ms (m_config c))) (m_tcp_client c)
    = (ClientResult_Success, id, data, t) ->
  update now c
  = let '(completed, c1) := process_handshake_response id data (set_tcp t (set_update_time now c)) in
    if completed then notify_change Handshaking c1 else c1.
Proof.
  intros Hs Ht Hr. unfold update.
  assert (H0 : get_state (set_update_time now c) = Handshaking) by exact Hs. rewrite H0.
  unfold handle_handshaking_state.
  change (is_handshake_timeout now (set_update_time now c)) with (is_handshake_timeout now c).
  rewrite Ht. change (m_tcp_client (set_update_time now c)) with (m_tcp_client c).
  change (m_config (set_update_time now c)) with (m_config c). rewrite Hr. cbv zeta.
  by change (get_state (set_tcp t (set_update_time now c))) with (get_state c); rewrite Hs.
Qed.

(** What a notification leaves. *)
Lemma unlogged_notify_change s c :
  m_tcp_client (notify_change s c) = m_tcp_client c
  /\ m_session_id (notify_change s c) = m_session_id c
  /\ m_last_error_code (notify_change s c) = m_last_error_code c.
Proof.
  unfold notify_change, notify. case_bool_decide; [done|]. by destruct (m_state_callback c).
Qed.

Lemma handshake_rejected_spec code c :
  get_state c = Handshaking ->
  let c1 := handshake_rejected code c in
  m_last_error_code c1 = code /\ m_tcp_client c1 = m_tcp_client c
  /\ get_state c1 = (if code =? NetworkErrorCode_value NetworkErrorCode_VersionMismatch
                     then Error else Backoff)
  /\ m_session_id c1
     = if code =? NetworkErrorCode_value NetworkErrorCode_InvalidSessionId
       then {| sid_data := map (fun i => Z.land (m_random c i) 0xFF) (seq 0 16) |}
       else m_session_id c.
Proof.
  intros Hs. unfold handshake_rejected. cbv zeta.
  destruct (Z.eqb_spec code (NetworkErrorCode_value NetworkErrorCode_VersionMismatch)) as [->|_].
  - rewrite get_state_notify, get_state_process.
    change (get_state (set_error _ c)) with (get_state c). rewrite Hs.
    unfold notify. by destruct (m_state_callback _).
  - rewrite get_state_notify, get_state_maybe_backoff, get_state_process.
    unfold notify, maybe_backoff.
    destruct (code =? NetworkErrorCode_value NetworkErrorCode_InvalidSessionId);
      match goal with |- context [next_state _ (get_state ?x)] =>
        change (get_state x) with (get_state c) end; rewrite Hs; destruct (auto_reconnect _), (m_state_callback _); done.
Qed.

Lemma error_updates times c : get_state c = Error -> get_state (updates times c) = get_state c.
Proof.
  revert c. induction times as [|now times IH]; intros c Hs; [done|]. cbn [updates].
  assert (Hu : update now c = set_update_time now c).
  { unfold update. by replace (get_state (set_update_time now c)) with Error by exact (eq_sym Hs). }
  rewrite Hu. rewrite IH by exact Hs. done.
Qed.

(** ** Properties *)

(** once a handshake has been sent and the client has left the states
    [Handshaking] and [Ready] (the server rejected it, it timed out, the
    connection was lost), no sequence of updates brings it back: it never
    becomes ready again, and the only thing it does to the TCP client is to
    attempt connections. *)
Theorem no_second_handshake times c :
  handshake_over c ->
  handshake_over (updates times c)
  /\ exists n, m_tcp_client (updates times c) = attempts n (m_config c) (m_tcp_client c).
Proof.
  intros Hc. split; [by apply handshake_over_updates|].
  revert c Hc. induction times as [|now times IH]; intros c Hc; [by exists O|].
  cbn [updates]. destruct (IH _ (handshake_over_update now c Hc)) as [n ->].
  destruct (handshake_over_tcp now c Hc) as [-> [-> | ->]]; [by exists n|by exists (S n)].
Qed.

(** C36: when the server ends the session with a [Disconnect] packet, the TCP
    connection stays open, and a later [connect] cannot get through: it reports
    success, but the TCP client refuses because it is still connected, and the
    client stays in [Backoff] for ever, whatever time passes. *)
Theorem server_disconnect_blocks_reconnect (ok : C -> Prop) `{!TcpLaws C ok} data now times c :
  get_state c = Ready -> m_initialized c = true -> tcp_is_connected (m_tcp_client c) = true ->
  let c1 := update now (handle_packet (PacketId_value PacketId_Disconnect) data c) in
  let (r, c2) := connect c1 in
  get_state c1 = Disconnected /\ r = ClientOpResult_Success
  /\ get_state (updates times c2) = Backoff
  /\ m_tcp_client (updates times c2) = m_tcp_client c.
Proof.
  intros Hs Hi Hc c1.
  assert (Hs0 : get_state (handle_packet (PacketId_value PacketId_Disconnect) data c)
                = Disconnecting).
  { change (get_state (process EvDisconnect c) = Disconnecting).
    by rewrite get_state_process, Hs. }
  assert (H1 : get_state c1 = Disconnected /\ m_tcp_client c1 = m_tcp_client c
               /\ m_initialized c1 = true).
  { subst c1. revert Hs0.
    change (handle_packet (PacketId_value PacketId_Disconnect) data c) with (process EvDisconnect c).
    intros Hs0. unfold update.
    assert (Hs1 : get_state (set_update_time now (process EvDisconnect c)) = Disconnecting) by exact Hs0.
    rewrite Hs1. match goal with |- context [notify ?s ?x] =>
      destruct (same_rest_notify s x) as (-> & _ & _ & ->); rewrite get_state_notify end.
    rewrite get_state_process, Hs1. done. }
  destruct H1 as (Hs1 & Ht1 & Hi1).
  pose proof (connect_open ok (Some (host (m_config c1))) (port (m_config c1)) c1 Hi1 Hs1) as Hcon.
  rewrite Ht1 in Hcon. specialize (Hcon Hc). unfold connect.
  destruct (connect_to _ _ c1) as [r c2]. destruct Hcon as (-> & Hb & Ht2).
  destruct (blocked_updates ok times c2 Hb) as [[Hs2 _] Ht3].
  split_and!; [done|done|done|by rewrite Ht3].
Qed.

(** C5: the handshake.  A connected client that has sent none sends its
    passphrase and its [Initialize] message, and when the server's [Initialize]
    comes within the five seconds it becomes ready with the session id and the
    address of the server's message and no error; the callback is told of the
    completion twice. *)
Theorem handshake_completes now now' c t2 t3 msg :
  get_state c = Connected -> m_handshake_sent c = false -> handshake_sends c t2 ->
  now = 0 \/ u64 (now' - now) < m_handshake_timeout_ms ->
  wf msg = true ->
  tcp_receive_packet RECV_BUFFER (s32 (recv_timeout_ms (m_config c))) t2
    = (ClientResult_Success, PacketId_value PacketId_Initialize, bytes_of msg, t3) ->
  let c2 := update now' (update now c) in
  get_state c2 = Ready /\ m_tcp_client c2 = t3
  /\ m_session_id c2 = init_id msg /\ m_mac_address c2 = init_mac_address msg
  /\ m_last_error_code c2 = NetworkErrorCode_value NetworkErrorCode_None
  /\ m_log c2 = m_log c ++ (if m_state_callback c then
                              [StateCallback Connected Handshaking;
                               StateCallback Handshaking Ready; StateCallback Handshaking Ready]
                            else []).
Proof.
  intros Hs Hsent Hsend Ht Hwf Hrecv.
  destruct (handshake_begins now c t2 Hs Hsent Hsend) as (Hs1 & Ht1 & Hc1 & Hcb & Hst & Hlog).
  set (c1 := update now c) in *. clearbody c1. cbv zeta.
  assert (Hto : is_handshake_timeout now' c1 = false).
  { unfold is_handshake_timeout. rewrite Hst. destruct (Z.eqb_spec now 0); [done|].
    apply Z.leb_gt. destruct Ht as [->|Ht]; [done|exact Ht]. }
  rewrite <- Ht1, <- Hc1 in Hrecv.
  rewrite (handshake_receives now' c1 _ _ t3 Hs1 Hto Hrecv).
  unfold process_handshake_response. rewrite Z.eqb_refl. cbv zeta.
  assert (Hlen : sizeofz InitializeMessage <=? zlen (bytes_of msg) = true).
  { apply Z.leb_le. unfold zlen. rewrite (length_bytes_of msg Hwf). unfold sizeofz. lia. }
  assert (Hmsg : of_bytes (bytes_of msg) = msg).
  { rewrite <- (app_nil_r (bytes_of msg)). by apply of_bytes_of. }
  rewrite Hlen, Hmsg. clear Hlen Hmsg.
  match goal with |- context [process EvHandshakeSuccess ?x] => set (c' := x) end.
  assert (Hp : get_state (process EvHandshakeSuccess c') = Ready).
  { rewrite get_state_process. replace (get_state c') with Handshaking by exact (eq_sym Hs1). done. }
  assert (Hb : get_state c' = Handshaking) by exact Hs1.
  unfold notify_change. rewrite get_state_notify, Hp. cbn [bool_decide].
  rewrite bool_decide_false by done. rewrite Hb. unfold notify. rewrite Hp.
  change (m_state_callback (process EvHandshakeSuccess c')) with (m_state_callback c1). rewrite Hcb.
  destruct (m_state_callback c) eqn:Hcb'.
  - change (m_state_callback (emit _ _)) with (m_state_callback c1). rewrite Hcb.
    split_and!; try done; try exact Hp.
    change (m_log (emit _ _)) with ((m_log c1 ++ [StateCallback Handshaking Ready])
      ++ [StateCallback Handshaking (get_state (process EvHandshakeSuccess c'))]).
    rewrite Hp, Hlog, <- !app_assoc. done.
  - change (m_state_callback (process EvHandshakeSuccess c')) with (m_state_callback c1).
    rewrite Hcb. split_and!; try done; exact Hp || exact Hlog.
Qed.

(** when the server answers the handshake with a network error, its code is
    kept (an internal error for a short packet): a version mismatch puts the
    client in [Error], where no update changes the state any more; any other
    code puts it in [Backoff], after an invalid session id with sixteen new
    random bytes as the session id.  The connection is not closed. *)
Theorem handshake_refused now c data t times :
  get_state c = Handshaking -> is_handshake_timeout now c = false ->
  tcp_receive_packet RECV_BUFFER (s32 (recv_timeout_ms (m_config c))) (m_tcp_client c)
    = (ClientResult_Success, PacketId_value PacketId_NetworkError, data, t) ->
  let code := if 4 <=? zlen data then neterr_error_code (of_bytes data)
              else NetworkErrorCode_value NetworkErrorCode_InternalError in
  let mismatch := code =? NetworkErrorCode_value NetworkErrorCode_VersionMismatch in
  let c1 := update now c in
  m_last_error_code c1 = code /\ m_tcp_client c1 = t
  /\ get_state c1 = (if mismatch then Error else Backoff)
  /\ (mismatch = true -> get_state (updates times c1) = Error)
  /\ m_session_id c1
     = if code =? NetworkErrorCode_value NetworkErrorCode_InvalidSessionId
       then {| sid_data := map (fun i => Z.land (m_random c i) 0xFF) (seq 0 16) |}
       else m_session_id c.
Proof.
  intros Hs Hto Hr code mismatch. cbv zeta. rewrite (handshake_receives now c _ _ t Hs Hto Hr).
  change (process_handshake_response (PacketId_value PacketId_NetworkError) data)
    with (fun c => (true, handshake_rejected code c)). cbv beta iota.
  set (c0 := set_tcp t (set_update_time now c)).
  destruct (handshake_rejected_spec code c0 Hs) as (H1 & H2 & H3 & H4).
  destruct (unlogged_notify_change Handshaking (handshake_rejected code c0)) as (Hn1 & Hn2 & Hn3).
  rewrite get_state_notify_change, Hn1, Hn2, Hn3, H1, H2, H3, H4. fold mismatch.
  split_and!; try done. intros Hm. rewrite error_updates.
  - rewrite get_state_notify_change, H3. fold mismatch. by rewrite Hm.
  - rewrite get_state_notify_change, H3. fold mismatch. by rewrite Hm.
Qed.
End RyuLdnClient.

(** ** Witnesses *)

#[local] Existing Instance TcpClient.TcpClient_ITcpClient.
#[local] Existing Instance TcpClient.TcpClient_laws.

(** A client over a fresh TCP client: the connection succeeds, and the server
    sends what [read] says. *)
Definition demo_config : RyuLdnClientConfig := {|
  host := TcpClient.localhost; port := 30456; connect_timeout_ms := 5000;
  recv_timeout_ms := 20; ping_interval_ms := 0;
  reconnect := Reconnect.default_ReconnectConfig; auto_reconnect := true;
  passphrase := []; use_tls := false |}.

Definition demo_client (read : list Socket.read_event) : RyuLdnClient :=
  (connect (set_state_callback true
     (new_RyuLdnClient demo_config
        (TcpClient.new_TcpClient
           (TcpClient.one_connection read [Socket.Accepts 200; Socket.Accepts 200])
           (repeat 0 8192) (repeat 0 2048)) (fun i => Z.of_nat i)))).2.

(** What the server answers. *)
Definition from_server (id : PacketId) (payload : list Z) : Socket.read_event :=
  Socket.Arrives (PacketBuffer.wire (id, payload)).

Definition server_initialize : InitializeMessage :=
  {| init_id := {| sid_data := repeat 7 16 |}; init_mac_address := {| mac_data := repeat 9 6 |} |}.

Lemma handshake_completes_witness :
  let c := demo_client [from_server PacketId_Initialize (bytes_of server_initialize)] in
  get_state (update 1020 (update 1000 c)) = Ready
  /\ m_session_id (update 1020 (update 1000 c)) = {| sid_data := repeat 7 16 |}.
Proof.
  intros c.
  set (t1 := (tcp_send (ITcpClient.send_passphrase_text (Some (passphrase (m_config c))))
                (m_tcp_client c)).2).
  set (t2 := (tcp_send (ITcpClient.send_initialize
                {| init_id := m_session_id c; init_mac_address := m_mac_address c |}) t1).2).
  set (t3 := (tcp_receive_packet RECV_BUFFER (s32 (recv_timeout_ms (m_config c))) t2).2).
  destruct (handshake_completes 1000 1020 c t2 t3 server_initialize) as (H1 & _ & H2 & _).
  - vm_compute. reflexivity.
  - vm_compute. reflexivity.
  - exists t1. split; vm_compute; reflexivity.
  - right. vm_compute. reflexivity.
  - vm_compute. reflexivity.
  - vm_compute. reflexivity.
  - by split.
Defined.

Lemma handshake_refused_witness :
  let c := update 1000 (demo_client [from_server PacketId_NetworkError
             (bytes_of {| neterr_error_code :=
                NetworkErrorCode_value NetworkErrorCode_VersionMismatch |})]) in
  get_state (updates [2000; 9000] (update 1020 c)) = Error.
Proof.
  intros c.
  set (t := (tcp_receive_packet RECV_BUFFER (s32 (recv_timeout_ms (m_config c)))
               (m_tcp_client c)).2).
  destruct (handshake_refused 1020 c
    (bytes_of {| neterr_error_code := NetworkErrorCode_value NetworkErrorCode_VersionMismatch |})
    t [2000; 9000]) as (_ & _ & _ & H & _).
  - vm_compute. reflexivity.
  - vm_compute. reflexivity.
  - vm_compute. reflexivity.
  - apply H. vm_compute. reflexivity.
Defined.

Lemma no_second_handshake_witness :
  let c := update 1020 (update 1000 (demo_client [from_server PacketId_Disconnect []])) in
  handshake_over (updates [2000; 90000; 180000] c).
Proof.
  intros c. apply (no_second_handshake [2000; 90000; 180000] c).
  split; [vm_compute; reflexivity|split; vm_compute; discriminate].
Defined.

Definition ready_client : RyuLdnClient :=
  update 1020 (update 1000
    (demo_client [from_server PacketId_Initialize (bytes_of server_initialize);
                  Socket.Quiet; from_server PacketId_Ping [0; 5]])).

Lemma server_disconnect_blocks_reconnect_witness :
  let c1 := update 1040 (handle_packet (PacketId_value PacketId_Disconnect) [0; 0; 0; 0]
                           ready_client) in
  get_state (updates [2000; 90000; 180000] (connect c1).2) = Backoff.
Proof.
  intros c1.
  pose proof (server_disconnect_blocks_reconnect TcpClient.tcp_ok [0; 0; 0; 0] 1040
    [2000; 90000; 180000] ready_client) as H.
  change (update 1040 (handle_packet (PacketId_value PacketId_Disconnect) [0; 0; 0; 0]
    ready_client)) with c1 in H. cbv zeta in H. destruct (connect c1) as [r c2].
  apply H; vm_compute; reflexivity.
Defined.
