(* ===== verification/ClientStream.v ===== *)
(** * The client over the TCP client: packets from the connection to the
      callbacks

    One drain of [RyuLdnClient::process_packets] ([network/client.cpp]) over
    [TcpClient] ([network/tcp_client.cpp]): which packets of the server's stream
    it hands on, what it answers, and how it ends. *)

From stdpp Require Import base numbers list.
From Stdlib Require Import ZArith Lia Bool.
From S2P Require Import Prelude Layout Types Protocol.
From S2P Require PacketBuffer Socket TcpClient.
From S2P Require Import ConnectionState ITcpClient RyuLdnClient.

#[local] Existing Instance TcpClient.TcpClient_ITcpClient.
#[local] Existing Instance TcpClient.TcpClient_laws.

Abbreviation client := (RyuLdnClient (C:=TcpClient.TcpClient)).
Abbreviation packet := (PacketId * list Z)%type.
Implicit Types (c : client) (p : packet).

(** ** What the packets ask for *)







(** ** Lemmas *)





(** ** Properties *)



