(* ===== verification/P2pServer.v ===== *)
(** * The peer-to-peer proxy server ([p2p/p2p_proxy_server.{hpp,cpp}])

    [P2pProxyServer] and its [P2pProxySession]s.  A session is an object on the
    heap and a pointer is its address: the sessions' table and the zombies'
    table hold owning pointers ([std::unique_ptr]), so that [reset] deletes what
    a slot held before.  A result [None] is undefined behaviour: an access to a
    deleted object.  The waiting tokens are the used part of their array.
    [m_recv_buffer], which only the session's receive thread touches, is an
    argument of its loop; the steps other threads take while [TryRegisterUser]
    waits are a parameter.  The calls of the two callbacks are recorded in logs.
    Of the port mapper the server sees the answers. *)

From stdpp Require Import base numbers list gmap.
From Stdlib Require Import ZArith Lia Bool.
From S2P Require Import Prelude Layout Types Protocol StreamLoop.
From S2P Require PacketBuffer.
Import PacketBuffer (PacketBuffer).

Definition MAX_PLAYERS : nat := 8.
Definition MAX_ZOMBIE_SESSIONS : nat := 16.
Definition MAX_WAITING_TOKENS : nat := 16.
Definition MAX_RETRIES : nat := 10.
Definition PRIVATE_PORT_BASE : Z := 39990.
Definition PRIVATE_PORT_RANGE : Z := 10.
Definition PUBLIC_PORT_BASE : Z := 39990.
Definition PUBLIC_PORT_RANGE : nat := 10.
Definition SESSION_BUFFER_SIZE : Z := 0x1000.
Definition LEGACY_BROADCAST : Z := 0xc0a800ff.

(** ** The objects *)

(** [env_takes]: how many bytes the next calls of [::send] take ([-1] is an
    error); behind them a send takes everything.  [env_wire]: the bytes sent. *)
Record P2pProxySession : Type := {
  m_socket_fd : Z;
  m_remote_ip : Z;
  m_virtual_ip : Z;
  m_connected : bool;
  m_authenticated : bool;
  m_master_closed : bool;
  m_stack_slot : Z;
  m_thread_done : bool;
  env_takes : list Z;
  env_wire : list Z
}.

(** What the host's data callback is given. *)
Record host_data : Type := {
  hd_info : ProxyInfo;
  hd_data : list Z
}.

(** What lies outside the server: the heap (addresses are not reused), the open
    descriptors, the pool of stacks, the calls of the callbacks. *)
Record Env : Type := {
  heap : gmap Z P2pProxySession;
  next_object : Z;
  open_fds : gset Z;
  g_p2p_session_stack_used : list bool;
  master_log : list (list Z);
  host_log : list host_data
}.

Record P2pProxyServer : Type := {
  m_listen_fd : Z;
  m_private_port : Z;
  m_public_port : Z;
  m_running : bool;
  m_disposed : bool;
  m_lease_thread_running : bool;
  m_sessions : list (option Z);
  m_session_count : Z;
  m_zombie_sessions : list (option Z);
  m_zombie_session_count : Z;
  m_waiting_tokens : list ExternalProxyToken;
  m_broadcast_address : Z;
  m_master_callback : bool;
  m_host_virtual_ip : Z;
  m_host_data_callback : bool;
  env : Env
}.

(** *** Assignments *)

Definition set_listen (fd private public : Z) (running disposed lease : bool)
    (s : P2pProxyServer) : P2pProxyServer := {|
  m_listen_fd := fd; m_private_port := private; m_public_port := public; m_running := running;
  m_disposed := disposed; m_lease_thread_running := lease; m_sessions := m_sessions s;
  m_session_count := m_session_count s; m_zombie_sessions := m_zombie_sessions s;
  m_zombie_session_count := m_zombie_session_count s; m_waiting_tokens := m_waiting_tokens s;
  m_broadcast_address := m_broadcast_address s; m_master_callback := m_master_callback s;
  m_host_virtual_ip := m_host_virtual_ip s; m_host_data_callback := m_host_data_callback s;
  env := env s |}.

Definition set_tables (sessions : list (option Z)) (n : Z) (zombies : list (option Z)) (k : Z)
    (s : P2pProxyServer) : P2pProxyServer := {|
  m_listen_fd := m_listen_fd s; m_private_port := m_private_port s;
  m_public_port := m_public_port s; m_running := m_running s; m_disposed := m_disposed s;
  m_lease_thread_running := m_lease_thread_running s; m_sessions := sessions;
  m_session_count := n; m_zombie_sessions := zombies; m_zombie_session_count := k;
  m_waiting_tokens := m_waiting_tokens s; m_broadcast_address := m_broadcast_address s;
  m_master_callback := m_master_callback s; m_host_virtual_ip := m_host_virtual_ip s;
  m_host_data_callback := m_host_data_callback s; env := env s |}.

Definition set_sessions (l : list (option Z)) (n : Z) (s : P2pProxyServer) : P2pProxyServer :=
  set_tables l n (m_zombie_sessions s) (m_zombie_session_count s) s.
Definition set_zombies (l : list (option Z)) (n : Z) (s : P2pProxyServer) : P2pProxyServer :=
  set_tables (m_sessions s) (m_session_count s) l n s.

Definition set_net (tokens : list ExternalProxyToken) (broadcast host_ip : Z) (callback : bool)
    (s : P2pProxyServer) : P2pProxyServer := {|
  m_listen_fd := m_listen_fd s; m_private_port := m_private_port s;
  m_public_port := m_public_port s; m_running := m_running s; m_disposed := m_disposed s;
  m_lease_thread_running := m_lease_thread_running s; m_sessions := m_sessions s;
  m_session_count := m_session_count s; m_zombie_sessions := m_zombie_sessions s;
  m_zombie_session_count := m_zombie_session_count s; m_waiting_tokens := tokens;
  m_broadcast_address := broadcast; m_master_callback := m_master_callback s;
  m_host_virtual_ip := host_ip; m_host_data_callback := callback; env := env s |}.

Definition set_tokens (l : list ExternalProxyToken) (s : P2pProxyServer) : P2pProxyServer :=
  set_net l (m_broadcast_address s) (m_host_virtual_ip s) (m_host_data_callback s) s.

Definition set_env (e : Env) (s : P2pProxyServer) : P2pProxyServer := {|
  m_listen_fd := m_listen_fd s; m_private_port := m_private_port s;
  m_public_port := m_public_port s; m_running := m_running s; m_disposed := m_disposed s;
  m_lease_thread_running := m_lease_thread_running s; m_sessions := m_sessions s;
  m_session_count := m_session_count s; m_zombie_sessions := m_zombie_sessions s;
  m_zombie_session_count := m_zombie_session_count s; m_waiting_tokens := m_waiting_tokens s;
  m_broadcast_address := m_broadcast_address s; m_master_callback := m_master_callback s;
  m_host_virtual_ip := m_host_virtual_ip s; m_host_data_callback := m_host_data_callback s;
  env := e |}.

Definition set_heap (h : gmap Z P2pProxySession) (s : P2pProxyServer) : P2pProxyServer :=
  set_env {| heap := h; next_object := next_object (env s); open_fds := open_fds (env s);
             g_p2p_session_stack_used := g_p2p_session_stack_used (env s);
             master_log := master_log (env s); host_log := host_log (env s) |} s.

Definition set_system (next : Z) (fds : gset Z) (stacks : list bool) (s : P2pProxyServer)
    : P2pProxyServer :=
  set_env {| heap := heap (env s); next_object := next; open_fds := fds;
             g_p2p_session_stack_used := stacks;
             master_log := master_log (env s); host_log := host_log (env s) |} s.

Definition set_logs (master : list (list Z)) (host : list host_data) (s : P2pProxyServer)
    : P2pProxyServer :=
  set_env {| heap := heap (env s); next_object := next_object (env s);
             open_fds := open_fds (env s);
             g_p2p_session_stack_used := g_p2p_session_stack_used (env s);
             master_log := master; host_log := host |} s.

Definition close_fd (fd : Z) (s : P2pProxyServer) : P2pProxyServer :=
  set_system (next_object (env s)) (open_fds (env s) ∖ {[ fd ]})
    (g_p2p_session_stack_used (env s)) s.

(** Access to an object: none behind a pointer to a deleted one. *)
Definition deref (p : Z) (s : P2pProxyServer) : option P2pProxySession := heap (env s) !! p.
Definition store (p : Z) (z : P2pProxySession) (s : P2pProxyServer) : P2pProxyServer :=
  set_heap (<[p := z]> (heap (env s))) s.

Definition set_identity (vip : Z) (auth : bool) (z : P2pProxySession) : P2pProxySession := {|
  m_socket_fd := m_socket_fd z; m_remote_ip := m_remote_ip z; m_virtual_ip := vip;
  m_connected := m_connected z; m_authenticated := auth; m_master_closed := m_master_closed z;
  m_stack_slot := m_stack_slot z; m_thread_done := m_thread_done z; env_takes := env_takes z;
  env_wire := env_wire z |}.

Definition set_link (fd : Z) (connected master_closed : bool) (z : P2pProxySession)
    : P2pProxySession := {|
  m_socket_fd := fd; m_remote_ip := m_remote_ip z; m_virtual_ip := m_virtual_ip z;
  m_connected := connected; m_authenticated := m_authenticated z;
  m_master_closed := master_closed; m_stack_slot := m_stack_slot z;
  m_thread_done := m_thread_done z; env_takes := env_takes z; env_wire := env_wire z |}.

Definition set_thread (slot : Z) (done : bool) (z : P2pProxySession) : P2pProxySession := {|
  m_socket_fd := m_socket_fd z; m_remote_ip := m_remote_ip z; m_virtual_ip := m_virtual_ip z;
  m_connected := m_connected z; m_authenticated := m_authenticated z;
  m_master_closed := m_master_closed z; m_stack_slot := slot; m_thread_done := done;
  env_takes := env_takes z; env_wire := env_wire z |}.

Definition set_io (takes wire : list Z) (z : P2pProxySession) : P2pProxySession := {|
  m_socket_fd := m_socket_fd z; m_remote_ip := m_remote_ip z; m_virtual_ip := m_virtual_ip z;
  m_connected := m_connected z; m_authenticated := m_authenticated z;
  m_master_closed := m_master_closed z; m_stack_slot := m_stack_slot z;
  m_thread_done := m_thread_done z; env_takes := takes; env_wire := wire |}.

(** ** The pool of stacks *)

(** The first index at which a list is [false]. *)
Fixpoint first_false (l : list bool) : option nat :=
  match l with
  | [] => None
  | false :: _ => Some O
  | true :: l => S <$> first_false l
  end.

Definition AllocateSessionStackSlot (s : P2pProxyServer) : Z * P2pProxyServer :=
  let used := g_p2p_session_stack_used (env s) in
  match first_false used with
  | Some i => (Z.of_nat i, set_system (next_object (env s)) (open_fds (env s))
                             (<[i := true]> used) s)
  | None => (-1, s)
  end.

Definition ReleaseSessionStackSlot (slot : Z) (s : P2pProxyServer) : P2pProxyServer :=
  if (slot <? 0) || (Z.of_nat MAX_PLAYERS <=? slot) then s
  else set_system (next_object (env s)) (open_fds (env s))
         (<[Z.to_nat slot := false]> (g_p2p_session_stack_used (env s))) s.

(** ** Sessions *)

(** [new P2pProxySession(this, client_fd, remote_ip)] *)
Definition new_session (fd remote_ip : Z) (s : P2pProxyServer) : Z * P2pProxyServer :=
  let p := next_object (env s) in
  (p, store p {| m_socket_fd := fd; m_remote_ip := remote_ip; m_virtual_ip := 0;
                 m_connected := true; m_authenticated := false; m_master_closed := false;
                 m_stack_slot := -1; m_thread_done := false; env_takes := []; env_wire := [] |}
        (set_system (p + 1) (open_fds (env s)) (g_p2p_session_stack_used (env s)) s)).

(** [P2pProxySession::Start]; when the thread cannot be created nothing else
    happens. *)
Definition session_Start (p : Z) (s : P2pProxyServer) : option P2pProxyServer :=
  let '(slot, s) := AllocateSessionStackSlot s in
  z ← deref p s;
  let z := set_thread slot (m_thread_done z) z in
  Some (store p (if slot <? 0 then set_link (m_socket_fd z) false (m_master_closed z) z else z) s).

Definition Send (p : Z) (data : list Z) (s : P2pProxyServer) : option (bool * P2pProxyServer) :=
  z ← deref p s;
  if negb (m_connected z) || (m_socket_fd z <? 0) then Some (false, s)
  else
    let '(sent, takes) := match env_takes z with
                          | [] => (zlen data, [])
                          | k :: takes => (Z.max (-1) (Z.min k (zlen data)), takes)
                          end in
    Some (sent =? zlen data, store p (set_io takes (env_wire z ++ ztake sent data) z) s).

(** The packet in a local array of [n] bytes, as far as it was encoded. *)
Definition encoded {T} `{HasLayout T} (n : nat) (type : PacketId) (payload : T) : list Z :=
  let '(_, packet, len) := encode (repeat 0 n) (Z.of_nat n) type payload in ztake len packet.

Definition encoded_with {T} `{HasLayout T} (n : nat) (type : PacketId) (payload : T)
    (data : list Z) (data_len : Z) : EncodeResult * list Z :=
  let '(r, packet, len) :=
    encode_with_data (repeat 0 n) (Z.of_nat n) type payload (Some data) data_len in
  (r, ztake len packet).

Definition NotifyMasterDisconnect (virtual_ip : Z) (s : P2pProxyServer) : P2pProxyServer :=
  if m_master_callback s then
    set_logs (master_log (env s)
              ++ [encoded 256 PacketId_ExternalProxyState
                    {| epcs_ip_address := virtual_ip; epcs_connected := 0;
                       epcs_pad := repeat 0 3 |}]) (host_log (env s)) s
  else s.

(** [Disconnect] without the notification of the server. *)
Definition close_session (p : Z) (from_master : bool) (z : P2pProxySession) (s : P2pProxyServer)
    : P2pProxyServer :=
  let s := if 0 <=? m_socket_fd z then close_fd (m_socket_fd z) s else s in
  store p (set_link (if 0 <=? m_socket_fd z then -1 else m_socket_fd z) false from_master z) s.

(** [delete]: the destructor disconnects and returns the stack. *)
Definition delete_session (p : Z) (s : P2pProxyServer) : option P2pProxyServer :=
  z ← deref p s;
  let s := if m_connected z then close_session p true z s else s in
  let s := if 0 <=? m_stack_slot z then ReleaseSessionStackSlot (m_stack_slot z) s else s in
  Some (set_heap (base.delete p (heap (env s))) s).

(** [m_zombie_sessions[i].reset(p)]: the old object of the slot is deleted. *)
Definition zombie_reset (i : nat) (p : option Z) (s : P2pProxyServer) : option P2pProxyServer :=
  let old := m_zombie_sessions s !!! i in
  let s := set_zombies (<[i := p]> (m_zombie_sessions s)) (m_zombie_session_count s) s in
  match old with
  | Some q => delete_session q s
  | None => Some s
  end.

(** Queue a session for deletion, or drop the pointer. *)
Definition add_zombie (p : Z) (s : P2pProxyServer) : option P2pProxyServer :=
  if m_zombie_session_count s <? Z.of_nat MAX_ZOMBIE_SESSIONS then
    zombie_reset (Z.to_nat (m_zombie_session_count s)) (Some p)
      (set_zombies (m_zombie_sessions s) (m_zombie_session_count s + 1) s)
  else Some s.

Definition OnSessionDisconnected (p : Z) (s : P2pProxyServer) : option P2pProxyServer :=
  match list_find (Some p =.) (m_sessions s) with
  | Some (i, _) =>
      let s := set_sessions (<[i := None]> (m_sessions s)) (m_session_count s - 1) s in
      z ← deref p s;
      add_zombie p (if m_authenticated z then NotifyMasterDisconnect (m_virtual_ip z) s else s)
  | None => add_zombie p s
  end.

Definition Disconnect (p : Z) (from_master : bool) (s : P2pProxyServer) : option P2pProxyServer :=
  z ← deref p s;
  if negb (m_connected z) then Some s
  else
    let s := close_session p from_master z s in
    if from_master then Some s else OnSessionDisconnected p s.

(** ** Waiting tokens and authentication *)

Definition AddWaitingToken (token : ExternalProxyToken) (s : P2pProxyServer) : P2pProxyServer :=
  let l := m_waiting_tokens s in
  let l := if (MAX_WAITING_TOKENS <=? length l)%nat then drop 1 l else l in
  set_tokens (l ++ [token]) s.

Definition Configure (config : ProxyConfig) (s : P2pProxyServer) : P2pProxyServer :=
  set_net (m_waiting_tokens s)
    (Z.lor (pc_proxy_ip config) (u32 (Z.lnot (pc_proxy_subnet_mask config))))
    (m_host_virtual_ip s) (m_host_data_callback s) s.

(** The address check, and the check of the token that overrides it. *)
Definition ip_match (remote_ip : Z) (token : ExternalProxyToken) : bool :=
  let ip := ept_physical_ip token in
  if forallb (Z.eqb 0) ip then true
  else if ept_address_family token =? 2 then
    Z.lor (Z.lor (Z.lor (Z.shiftl (ip !!! 0%nat) 24) (Z.shiftl (ip !!! 1%nat) 16))
             (Z.shiftl (ip !!! 2%nat) 8)) (ip !!! 3%nat) =? remote_ip
  else false.

Definition token_accepted (config : ExternalProxyConfig) (remote_ip : Z)
    (token : ExternalProxyToken) : bool :=
  let ip_match := ip_match remote_ip token in
  let token_match := bool_decide (ept_token token = epc_token config) in
  let ip_match := if token_match && negb ip_match then true else ip_match in
  ip_match && token_match.

(** The pointer goes into the first free slot, if there is one. *)
Definition add_session (p : Z) (s : P2pProxyServer) : P2pProxyServer :=
  match list_find (None =.) (m_sessions s) with
  | Some (j, _) => set_sessions (<[j := Some p]> (m_sessions s)) (m_session_count s + 1) s
  | None => s
  end.

Definition proxy_config (token : ExternalProxyToken) : ProxyConfig :=
  {| pc_proxy_ip := ept_virtual_ip token; pc_proxy_subnet_mask := 0xFFFF0000 |}.

(** The token at index [i] is accepted.  The code holds a reference to the array
    slot: behind the shift that removes the token it reads the next one, when
    there is one. *)
Definition slot_behind (i : nat) (token : ExternalProxyToken) (l : list ExternalProxyToken)
    : ExternalProxyToken :=
  default token (l !! S i).

Definition register_session (p : Z) (i : nat) (token : ExternalProxyToken) (s : P2pProxyServer)
    : option P2pProxyServer :=
  let token := slot_behind i token (m_waiting_tokens s) in
  let s := set_tokens (base.delete i (m_waiting_tokens s)) s in
  z ← deref p s;
  let s := store p (set_identity (ept_virtual_ip token) true z) s in
  let s := if m_session_count s =? 0 then Configure (proxy_config token) s else s in
  let s := add_session p s in
  '(_, s) ← Send p (encoded 256 PacketId_ProxyConfig (proxy_config token)) s;
  Some s.

Section TryRegisterUser.
(** What the other threads do to the server during the [n]-th wait. *)
Context (meanwhile : nat -> P2pProxyServer -> option P2pProxyServer).

Fixpoint register_rounds (rounds : nat) (p : Z) (config : ExternalProxyConfig) (remote_ip : Z)
    (s : P2pProxyServer) : option (bool * P2pProxyServer) :=
  match rounds with
  | O => Some (false, s)
  | S rounds =>
      match list_find (fun t => token_accepted config remote_ip t = true) (m_waiting_tokens s) with
      | Some (i, token) => s ← register_session p i token s; Some (true, s)
      | None => s ← meanwhile rounds s; register_rounds rounds p config remote_ip s
      end
  end.

Definition TryRegisterUser (p : Z) (config : ExternalProxyConfig) (remote_ip : Z)
    (s : P2pProxyServer) : option (bool * P2pProxyServer) :=
  register_rounds MAX_RETRIES p config remote_ip s.

(** ** Routing *)

Definition set_info (src dst : Z) (i : ProxyInfo) : ProxyInfo :=
  {| pi_source_ipv4 := src; pi_source_port := pi_source_port i; pi_dest_ipv4 := dst;
     pi_dest_port := pi_dest_port i; pi_protocol := pi_protocol i |}.

(** The loops over the table: every authenticated session, or the first one
    with the address. *)
Fixpoint send_each (send : Z -> P2pProxyServer -> option P2pProxyServer)
    (slots : list (option Z)) (s : P2pProxyServer) : option P2pProxyServer :=
  match slots with
  | [] => Some s
  | None :: slots => send_each send slots s
  | Some q :: slots =>
      z ← deref q s;
      s ← (if m_authenticated z then send q s else Some s);
      send_each send slots s
  end.

Fixpoint send_first (send : Z -> P2pProxyServer -> option P2pProxyServer) (dest_ip : Z)
    (slots : list (option Z)) (s : P2pProxyServer) : option P2pProxyServer :=
  match slots with
  | [] => Some s
  | None :: slots => send_first send dest_ip slots s
  | Some q :: slots =>
      z ← deref q s;
      if m_authenticated z && (m_virtual_ip z =? dest_ip) then send q s
      else send_first send dest_ip slots s
  end.

Definition translate (broadcast dest_ip : Z) : Z :=
  if dest_ip =? LEGACY_BROADCAST then broadcast else dest_ip.

(** [RouteMessage(sender, info, send_func)]: the changed [info]; a spoofed
    source address returns at once. *)
Definition RouteMessage (sender : Z) (info : ProxyInfo)
    (send_func : ProxyInfo -> Z -> P2pProxyServer -> option P2pProxyServer) (s : P2pProxyServer)
    : option (ProxyInfo * P2pProxyServer) :=
  z ← deref sender s;
  if negb (pi_source_ipv4 info =? 0) && negb (pi_source_ipv4 info =? m_virtual_ip z)
  then Some (info, s)
  else
    let src := if pi_source_ipv4 info =? 0 then m_virtual_ip z else pi_source_ipv4 info in
    let dest_ip := translate (m_broadcast_address s) (pi_dest_ipv4 info) in
    let info := set_info src dest_ip info in
    s ← (if dest_ip =? m_broadcast_address s then send_each (send_func info) (m_sessions s) s
         else send_first (send_func info) dest_ip (m_sessions s) s);
    Some (info, s).

(** [target->Send(packet, len)], its result ignored. *)
Definition send_to (packet : list Z) (target : Z) (s : P2pProxyServer) : option P2pProxyServer :=
  '(_, s) ← Send target packet s; Some s.

Definition HostShouldReceive (dest_ip host_vip broadcast_address : Z) : bool :=
  let dest_ip := translate broadcast_address dest_ip in
  if dest_ip =? broadcast_address then true
  else negb (host_vip =? 0) && (dest_ip =? host_vip).

Definition HandleProxyData (sender : Z) (header : ProxyDataHeader) (data : list Z)
    (data_len : Z) (s : P2pProxyServer) : option P2pProxyServer :=
  '(info, s) ← RouteMessage sender (pdh_info header) (fun info =>
      send_to (encoded_with 4096 PacketId_ProxyData
                 {| pdh_info := info; pdh_data_length := pdh_data_length header |} data data_len).2) s;
  let to_host := HostShouldReceive (pi_dest_ipv4 info) (m_host_virtual_ip s)
                   (m_broadcast_address s) in
  Some (if to_host && m_host_data_callback s
        then set_logs (master_log (env s))
               (host_log (env s) ++ [{| hd_info := info; hd_data := ztake data_len data |}]) s
        else s).

Definition HandleProxyConnect (sender : Z) (request : ProxyConnectRequest) (s : P2pProxyServer)
    : option P2pProxyServer :=
  snd <$> RouteMessage sender (pcq_info request) (fun info =>
            send_to (encoded 256 PacketId_ProxyConnect {| pcq_info := info |})) s.

Definition HandleProxyConnectReply (sender : Z) (response : ProxyConnectResponse)
    (s : P2pProxyServer) : option P2pProxyServer :=
  snd <$> RouteMessage sender (pcr_info response) (fun info =>
            send_to (encoded 256 PacketId_ProxyConnectReply {| pcr_info := info |})) s.

Definition HandleProxyDisconnect (sender : Z) (message : ProxyDisconnectMessage)
    (s : P2pProxyServer) : option P2pProxyServer :=
  snd <$> RouteMessage sender (pdm_info message) (fun info =>
            send_to (encoded 256 PacketId_ProxyDisconnect
                       {| pdm_info := info;
                          pdm_disconnect_reason := pdm_disconnect_reason message |})) s.

(** *** The host's own traffic *)

Definition SetHostVirtualIp (virtual_ip : Z) (s : P2pProxyServer) : P2pProxyServer :=
  set_net (m_waiting_tokens s) (m_broadcast_address s) virtual_ip (m_host_data_callback s) s.
Definition SetHostDataCallback (callback : bool) (s : P2pProxyServer) : P2pProxyServer :=
  set_net (m_waiting_tokens s) (m_broadcast_address s) (m_host_virtual_ip s) callback s.

Fixpoint host_send_each (packet : list Z) (slots : list (option Z)) (any_sent : bool)
    (s : P2pProxyServer) : option (bool * P2pProxyServer) :=
  match slots with
  | [] => Some (any_sent, s)
  | None :: slots => host_send_each packet slots any_sent s
  | Some q :: slots =>
      z ← deref q s;
      if m_authenticated z then
        '(sent, s) ← Send q packet s; host_send_each packet slots (sent || any_sent) s
      else host_send_each packet slots any_sent s
  end.

Fixpoint host_send_first (packet : list Z) (dest_ip : Z) (slots : list (option Z))
    (s : P2pProxyServer) : option (bool * P2pProxyServer) :=
  match slots with
  | [] => Some (false, s)
  | None :: slots => host_send_first packet dest_ip slots s
  | Some q :: slots =>
      z ← deref q s;
      if m_authenticated z && (m_virtual_ip z =? dest_ip) then Send q packet s
      else host_send_first packet dest_ip slots s
  end.

Definition BroadcastFromHost (header : ProxyDataHeader) (data : list Z) (data_len : Z)
    (s : P2pProxyServer) : option (bool * ProxyDataHeader * P2pProxyServer) :=
  let info := pdh_info header in
  let with_info i := {| pdh_info := i; pdh_data_length := pdh_data_length header |} in
  if m_host_virtual_ip s =? 0 then Some (false, header, s)
  else if negb (pi_source_ipv4 info =? 0) && negb (pi_source_ipv4 info =? m_host_virtual_ip s)
  then Some (false, header, s)
  else
    let dest_ip := translate (m_broadcast_address s) (pi_dest_ipv4 info) in
    let header := with_info (set_info (m_host_virtual_ip s) dest_ip info) in
    match encoded_with 4096 PacketId_ProxyData header data data_len with
    | (EncodeResult_Success, packet) =>
        '(any_sent, s) ← (if dest_ip =? m_broadcast_address s
                          then host_send_each packet (m_sessions s) false s
                          else host_send_first packet dest_ip (m_sessions s) s);
        Some (any_sent, header, s)
    | _ => Some (false, header, s)
    end.

(** ** The receive thread of a session *)

Definition session_HandleExternalProxy (p : Z) (config : ExternalProxyConfig)
    (s : P2pProxyServer) : option P2pProxyServer :=
  z ← deref p s;
  r ← TryRegisterUser p config (m_remote_ip z) s;
  match r with
  | (true, s) => Some s
  | (false, s) => Disconnect p false s
  end.

(** The four handlers that refuse an unauthenticated session. *)
Definition authenticated (p : Z) (handler : P2pProxyServer -> option P2pProxyServer)
    (s : P2pProxyServer) : option P2pProxyServer :=
  z ← deref p s; if m_authenticated z then handler s else Some s.

(** One packet at the front of [data]. *)
Definition ProcessData (p : Z) (data : list Z) (size : Z) (s : P2pProxyServer)
    : option P2pProxyServer :=
  if size <? sizeofz LdnHeader then Some s
  else
    let header := of_bytes (A:=LdnHeader) data in
    let packet_data := zdrop (sizeofz LdnHeader) data in
    let n := u64 (hdr_data_size header) in
    let type_is id := hdr_type header =? PacketId_value id in
    if type_is PacketId_ExternalProxy then
      if sizeofz ExternalProxyConfig <=? n
      then session_HandleExternalProxy p (of_bytes packet_data) s else Some s
    else if type_is PacketId_ProxyData then
      if sizeofz ProxyDataHeader <=? n then
        let payload_len := n - sizeofz ProxyDataHeader in
        authenticated p (HandleProxyData p (of_bytes packet_data)
          (ztake payload_len (zdrop (sizeofz ProxyDataHeader) packet_data)) payload_len) s
      else Some s
    else if type_is PacketId_ProxyConnect then
      if sizeofz ProxyConnectRequest <=? n
      then authenticated p (HandleProxyConnect p (of_bytes packet_data)) s else Some s
    else if type_is PacketId_ProxyConnectReply then
      if sizeofz ProxyConnectResponse <=? n
      then authenticated p (HandleProxyConnectReply p (of_bytes packet_data)) s else Some s
    else if type_is PacketId_ProxyDisconnect then
      if sizeofz ProxyDisconnectMessage <=? n
      then authenticated p (HandleProxyDisconnect p (of_bytes packet_data)) s else Some s
    else Some s.

(** [while (m_connected)] *)
Definition session_running (p : Z) (s : P2pProxyServer) : option bool := m_connected <$> deref p s.

(** The inner loop, over the complete packets in the buffer. *)
Definition process_packets (fuel : nat) (p : Z) (b : PacketBuffer) (s : P2pProxyServer)
    : option (PacketBuffer * P2pProxyServer) :=
  packet_loop (session_running p) (ProcessData p) (Disconnect p false) fuel b s.

(** The outer loop, which a full buffer ends. *)
Definition receive_loop (chunks : list (list Z)) (p : Z) (b : PacketBuffer) (s : P2pProxyServer)
    : option (PacketBuffer * P2pProxyServer) :=
  recv_loop (session_running p) (ProcessData p) (Disconnect p false) SESSION_BUFFER_SIZE
    (fun _ => None) chunks b s.

Definition ReceiveLoop (chunks : list (list Z)) (p : Z) (b : PacketBuffer) (s : P2pProxyServer)
    : option P2pProxyServer :=
  '(_, s) ← receive_loop chunks p b s;
  Disconnect p false s.

Definition SessionRecvThreadEntry (chunks : list (list Z)) (p : Z) (b : PacketBuffer)
    (s : P2pProxyServer) : option P2pProxyServer :=
  s ← ReceiveLoop chunks p b s;
  z ← deref p s;
  Some (store p (set_thread (m_stack_slot z) true z) s).
End TryRegisterUser.

(** ** Accepting and reaping *)

(** The scan of the zombies' table from index [i]: how many stay, and the
    pointers that are taken.  A session that stays is written back with
    [reset], also into its own slot. *)
Fixpoint reap_scan (n i kept : nat) (taken : list Z) (s : P2pProxyServer)
    : option (nat * list Z * P2pProxyServer) :=
  match n with
  | O => Some (kept, taken, s)
  | S n =>
      let slot := m_zombie_sessions s !!! i in
      done ← match slot with
             | Some p => z ← deref p s; Some (m_thread_done z)
             | None => Some false
             end;
      match slot, done with
      | Some p, true => reap_scan n (S i) kept (taken ++ [p]) s
      | _, _ => s ← zombie_reset kept slot s; reap_scan n (S i) (S kept) taken s
      end
  end.

Fixpoint reset_from (n i : nat) (s : P2pProxyServer) : option P2pProxyServer :=
  match n with
  | O => Some s
  | S n => s ← zombie_reset i None s; reset_from n (S i) s
  end.

(** [WaitThread], [DestroyThread] and [delete] of the taken sessions; the first
    two access the object. *)
Fixpoint join_and_delete (taken : list Z) (s : P2pProxyServer) : option P2pProxyServer :=
  match taken with
  | [] => Some s
  | z :: taken => _ ← deref z s; s ← delete_session z s; join_and_delete taken s
  end.

Definition ReapZombieSessions (s : P2pProxyServer) : option P2pProxyServer :=
  '(kept, taken, s) ← reap_scan (Z.to_nat (m_zombie_session_count s)) 0 0 [] s;
  let s := set_zombies (m_zombie_sessions s) (Z.of_nat kept) s in
  s ← reset_from (MAX_ZOMBIE_SESSIONS - kept) kept s;
  join_and_delete taken s.

(** An accepted connection. *)
Definition accept_connection (client_fd remote_ip : Z) (s : P2pProxyServer)
    : option P2pProxyServer :=
  let s := set_system (next_object (env s)) ({[ client_fd ]} ∪ open_fds (env s))
             (g_p2p_session_stack_used (env s)) s in
  if Z.of_nat MAX_PLAYERS <=? m_session_count s then Some (close_fd client_fd s)
  else
    let '(p, s) := new_session client_fd remote_ip s in
    session_Start p s.

(** What [poll] and [accept] on the listening socket answer. *)
Inductive accept_event : Type :=
| PollTimeout | PollFails | PollBroken | AcceptFails | Accepted (client_fd remote_ip : Z).

(** One iteration of [AcceptLoop]; the boolean is false when the loop ends. *)
Definition accept_iteration (e : accept_event) (s : P2pProxyServer)
    : option (bool * P2pProxyServer) :=
  if negb (m_running s) then Some (false, s)
  else
    s ← ReapZombieSessions s;
    match e with
    | PollTimeout | PollFails | AcceptFails => Some (true, s)
    | PollBroken => Some (false, s)
    | Accepted fd ip => s ← accept_connection fd ip s; Some (true, s)
    end.

(** [HandleExternalProxyStateChange]; the sessions are collected first. *)
Definition victims (virtual_ip : Z) (s : P2pProxyServer) : option (list Z) :=
  foldr (fun slot l =>
    match slot with
    | Some p => l ← l; z ← deref p s;
                Some (if m_virtual_ip z =? virtual_ip then p :: l else l)
    | None => l
    end) (Some []) (m_sessions s).

Fixpoint disconnect_all (l : list Z) (s : P2pProxyServer) : option P2pProxyServer :=
  match l with
  | [] => Some s
  | p :: l => s ← Disconnect p false s; disconnect_all l s
  end.

Definition HandleExternalProxyStateChange (virtual_ip : Z) (connected : bool)
    (s : P2pProxyServer) : option P2pProxyServer :=
  if connected then Some s
  else
    let s := set_tokens (filter (fun t => ept_virtual_ip t <> virtual_ip) (m_waiting_tokens s)) s in
    l ← victims virtual_ip s;
    disconnect_all l s.

(** ** Start and stop *)

(** The ports from [try_port] on, in a [uint16_t]; [None]: out of fuel. *)
Fixpoint bind_loop (fuel : nat) (bind : Z -> bool) (try_port end_port : Z) : option (option Z) :=
  if end_port <? try_port then Some None
  else if bind try_port then Some (Some try_port)
  else match fuel with
       | O => None
       | S fuel => bind_loop fuel bind (u16 (try_port + 1)) end_port
       end.

(** What the system answers: the descriptor, [bind], [listen], [CreateThread]. *)
Definition Start (port fd : Z) (bind : Z -> bool) (listen thread : bool) (s : P2pProxyServer)
    : option (bool * P2pProxyServer) :=
  let set fd private running := set_listen fd private (m_public_port s) running (m_disposed s)
                                  (m_lease_thread_running s) s in
  if m_running s then Some (true, s)
  else if fd <? 0 then Some (false, set fd (m_private_port s) false)
  else
    let start_port := if negb (port =? 0) then port else PRIVATE_PORT_BASE in
    let end_port := if negb (port =? 0) then port
                    else PRIVATE_PORT_BASE + PRIVATE_PORT_RANGE - 1 in
    bound ← bind_loop (2 ^ 16) bind start_port end_port;
    Some match bound with
         | None => (false, set (-1) (m_private_port s) false)
         | Some p => if negb listen then (false, set (-1) p false) else (thread, set fd p thread)
         end.

(** The sessions' table when the server stops. *)
Fixpoint stop_sessions (n i : nat) (s : P2pProxyServer) : option P2pProxyServer :=
  match n with
  | O => Some s
  | S n =>
      match m_sessions s !!! i with
      | Some p =>
          s ← Disconnect p true s;
          let s := set_sessions (<[i := None]> (m_sessions s)) (m_session_count s) s in
          s ← (if m_zombie_session_count s <? Z.of_nat MAX_ZOMBIE_SESSIONS
               then zombie_reset (Z.to_nat (m_zombie_session_count s)) (Some p)
                      (set_zombies (m_zombie_sessions s) (m_zombie_session_count s + 1) s)
               else delete_session p s);
          stop_sessions n (S i) s
      | None => stop_sessions n (S i) s
      end
  end.

(** The loop at the end of [Stop]; [finish] is what the other threads do before
    each round. *)
Fixpoint reap_all (fuel : nat) (finish : nat -> P2pProxyServer -> P2pProxyServer)
    (s : P2pProxyServer) : option P2pProxyServer :=
  s ← ReapZombieSessions (finish fuel s);
  if 0 <? m_zombie_session_count s then
    match fuel with
    | O => None
    | S fuel => reap_all fuel finish s
    end
  else Some s.

Definition Stop (fuel : nat) (finish : nat -> P2pProxyServer -> P2pProxyServer)
    (s : P2pProxyServer) : option P2pProxyServer :=
  if negb (m_running s) then Some s
  else
    let s := set_listen (-1) (m_private_port s) (m_public_port s) false (m_disposed s)
               (m_lease_thread_running s) s in
    s ← stop_sessions MAX_PLAYERS 0 s;
    let s := set_tokens [] (set_sessions (m_sessions s) 0 s) in
    reap_all fuel finish s.

(** ** The port mapping *)

(** What the port mapper answers to [Discover] and [AddPortMapping]; [thread]:
    [CreateThread] succeeds. *)
Definition StartLeaseRenewal (thread : bool) (s : P2pProxyServer) : P2pProxyServer :=
  if m_lease_thread_running s then s
  else set_listen (m_listen_fd s) (m_private_port s) (m_public_port s) (m_running s)
         (m_disposed s) thread s.

Definition NatPunch (discover : bool) (add_mapping : Z -> bool) (thread : bool)
    (s : P2pProxyServer) : Z * P2pProxyServer :=
  if negb discover then (0, s)
  else
    match list_find (fun port => add_mapping port = true)
            (map (fun i => PUBLIC_PORT_BASE + Z.of_nat i) (seq 0 PUBLIC_PORT_RANGE)) with
    | Some (_, port) =>
        (port, StartLeaseRenewal thread
                 (set_listen (m_listen_fd s) (m_private_port s) port (m_running s) (m_disposed s)
                    (m_lease_thread_running s) s))
    | None => (0, s)
    end.

(** The lease thread has ended when this returns. *)
Definition ReleaseNatPunch (s : P2pProxyServer) : P2pProxyServer :=
  set_listen (m_listen_fd s) (m_private_port s) 0 (m_running s) (m_disposed s) false s.

Definition new_P2pProxyServer (master_callback : bool) (e : Env) : P2pProxyServer := {|
  m_listen_fd := -1; m_private_port := 0; m_public_port := 0; m_running := false;
  m_disposed := false; m_lease_thread_running := false;
  m_sessions := repeat None MAX_PLAYERS; m_session_count := 0;
  m_zombie_sessions := repeat None MAX_ZOMBIE_SESSIONS; m_zombie_session_count := 0;
  m_waiting_tokens := []; m_broadcast_address := 0; m_master_callback := master_callback;
  m_host_virtual_ip := 0; m_host_data_callback := false; env := e |}.
