(* ===== verification/P2pOwnership.v ===== *)
(** * The sessions' ownership in the peer-to-peer server

    The two tables of owning pointers of [P2pServer]: every operation but the
    reaper keeps them consistent with the heap, and the reaper deletes what it
    has deleted before. *)

From stdpp Require Import base numbers list gmap.
From Stdlib Require Import ZArith Lia Bool.
From S2P Require Import Prelude Layout Types Protocol P2pServer.

(** ** Lemmas: deletion *)

(** The tables and what an operation may change besides them. *)
Definition same_tables (s s' : P2pProxyServer) : Prop :=
  m_sessions s' = m_sessions s /\ m_session_count s' = m_session_count s
  /\ m_zombie_sessions s' = m_zombie_sessions s
  /\ m_zombie_session_count s' = m_zombie_session_count s
  /\ m_running s' = m_running s.

#[export] Instance same_tables_preorder : PreOrder same_tables.
Proof.
  split; [intros s; unfold same_tables; by split_and!|].
  intros a b c (? & ? & ? & ? & ?) (? & ? & ? & ? & ?). split_and!; congruence.
Qed.

Lemma delete_session_spec q s :
  match delete_session q s with
  | Some s' => is_Some (deref q s) /\ heap (env s') = base.delete q (heap (env s))
               /\ same_tables s s'
  | None => deref q s = None
  end.
Proof.
  unfold delete_session. destruct (deref q s) as [z|] eqn:Hq; [|done]. cbn [mbind option_bind].
  unfold deref in Hq. split; [by exists z|].
  unfold close_session, ReleaseSessionStackSlot, close_fd.
  destruct (m_connected z), (0 <=? m_socket_fd z), (0 <=? m_stack_slot z),
    ((m_stack_slot z <? 0) || (Z.of_nat MAX_PLAYERS <=? m_stack_slot z));
    cbn [heap env set_heap set_env set_system store];
    (split; [rewrite ?delete_insert_eq; done|by split_and!]).
Qed.

Lemma zombie_reset_spec i p s :
  match zombie_reset i p s with
  | Some s' =>
      heap (env s') = match m_zombie_sessions s !!! i with
                      | Some q => base.delete q (heap (env s))
                      | None => heap (env s)
                      end
      /\ (forall q, m_zombie_sessions s !!! i = Some q -> is_Some (deref q s))
      /\ m_zombie_sessions s' = <[i := p]> (m_zombie_sessions s)
      /\ m_zombie_session_count s' = m_zombie_session_count s
      /\ m_sessions s' = m_sessions s /\ m_session_count s' = m_session_count s
      /\ m_running s' = m_running s
  | None => exists q, m_zombie_sessions s !!! i = Some q /\ deref q s = None
  end.
Proof.
  unfold zombie_reset. destruct (m_zombie_sessions s !!! i) as [q|] eqn:Hi; [|by split_and!].
  pose proof (delete_session_spec q (set_zombies (<[i:=p]> (m_zombie_sessions s))
    (m_zombie_session_count s) s)) as H.
  destruct (delete_session _ _) as [s'|]; [|by exists q].
  destruct H as ((z & Hz) & Hh & (H1 & H2 & H3 & H4 & H5)).
  split_and!; try done. intros q' [= <-]. by exists z.
Qed.

(** ** Lemmas: the reaper *)

(** The pointer is taken and will be deleted by a [reset] of a slot from [k]
    on, or it is dead already. *)
Definition doomed (k : nat) (s : P2pProxyServer) (p : Z) : Prop :=
  deref p s = None \/ exists j, (k <= j)%nat /\ m_zombie_sessions s !! j = Some (Some p).

Lemma lookup_total_zombie s (j : nat) p :
  m_zombie_sessions s !! j = Some (Some p) -> m_zombie_sessions s !!! j = Some p.
Proof. intros H. by apply list_lookup_total_correct. Qed.

(** A [reset] of slot [k] kills what was in it, and nothing comes to life. *)
Lemma doomed_reset k p q s s' :
  zombie_reset k q s = Some s' -> doomed k s p -> doomed (S k) s' p.
Proof.
  intros Hr Hd. pose proof (zombie_reset_spec k q s) as H. rewrite Hr in H.
  destruct H as (Hh & _ & Hz & _). unfold doomed, deref in *. rewrite Hh, Hz.
  destruct Hd as [Hd|(j & Hj & Hlk)].
  - left. destruct (m_zombie_sessions s !!! k); [|done]. by rewrite lookup_delete_None; right.
  - destruct (decide (j = k)) as [->|Hne].
    + left. rewrite (lookup_total_zombie _ _ _ Hlk). by apply lookup_delete_None; left.
    + right. exists j. split; [lia|]. by rewrite list_lookup_insert_ne by done.
Qed.

Lemma reap_scan_doomed n : forall i kept taken s kept' taken' s',
  (kept <= i)%nat -> reap_scan n i kept taken s = Some (kept', taken', s') ->
  (forall p, p ∈ taken -> doomed kept s p) ->
  (forall p, p ∈ taken' -> doomed kept' s' p) /\ (exists l, taken' = taken ++ l)
  /\ (kept' <= i + n)%nat
  /\ length (m_zombie_sessions s') = length (m_zombie_sessions s).
Proof.
  induction n as [|n IH]; intros i kept taken s kept' taken' s' Hk Hs Hd.
  { injection Hs as <- <- <-. split_and!; [done|exists []; by rewrite app_nil_r|lia|done]. }
  cbn [reap_scan] in Hs.
  assert (Hkeep : forall s1, zombie_reset kept (m_zombie_sessions s !!! i) s = Some s1 ->
    reap_scan n (S i) (S kept) taken s1 = Some (kept', taken', s') ->
    (forall p, p ∈ taken' -> doomed kept' s' p) /\ (exists l, taken' = taken ++ l)
    /\ (kept' <= i + S n)%nat /\ length (m_zombie_sessions s') = length (m_zombie_sessions s)).
  { intros s1 Hr Hs1. destruct (IH (S i) (S kept) taken s1 kept' taken' s' ltac:(lia) Hs1)
      as (H1 & H2 & H3 & H4).
    { intros p Hp. apply (doomed_reset _ _ _ _ _ Hr), Hd, Hp. }
    split_and!; [done|done|lia|]. pose proof (zombie_reset_spec kept (m_zombie_sessions s !!! i) s)
      as H. rewrite Hr in H. destruct H as (_ & _ & Hz & _). by rewrite H4, Hz, length_insert. }
  destruct (m_zombie_sessions s !!! i) as [p|] eqn:Hi.
  - destruct (deref p s) as [z|] eqn:Hz; [|done]. cbn [mbind option_bind] in Hs.
    destruct (m_thread_done z).
    + destruct (IH (S i) kept (taken ++ [p]) s kept' taken' s' ltac:(lia) Hs)
        as (H1 & [l ->] & H3 & H4);
        [|split_and!; [done|exists (p :: l); by rewrite <- app_assoc|lia|done]].
      intros q [Hq|Hq]%elem_of_app; [by apply Hd|]. apply list_elem_of_singleton in Hq as ->.
      right. exists i. split; [lia|]. destruct (m_zombie_sessions s !! i) as [o|] eqn:Ho.
      * apply list_lookup_total_correct in Ho. by rewrite Ho in Hi; rewrite Hi.
      * rewrite list_lookup_total_alt, Ho in Hi. done.
    + destruct (zombie_reset kept (Some p) s) as [s1|] eqn:Hr; [|done]. by apply (Hkeep s1).
  - cbn [mbind option_bind] in Hs.
    destruct (zombie_reset kept None s) as [s1|] eqn:Hr; [|done]. by apply (Hkeep s1).
Qed.

Lemma reset_from_spec n : forall i s s',
  reset_from n i s = Some s' ->
  (forall p, (deref p s = None -> deref p s' = None))
  /\ (forall j, (j < i)%nat -> m_zombie_sessions s' !! j = m_zombie_sessions s !! j)
  /\ m_zombie_session_count s' = m_zombie_session_count s
  /\ m_running s' = m_running s
  /\ (forall p j, (i <= j < i + n)%nat -> m_zombie_sessions s !! j = Some (Some p) ->
       deref p s' = None).
Proof.
  induction n as [|n IH]; intros i s s' Hs.
  { injection Hs as <-. split_and!; auto. lia. }
  cbn [reset_from] in Hs. destruct (zombie_reset i None s) as [s1|] eqn:Hr; [|done].
  cbn [mbind option_bind] in Hs. destruct (IH (S i) s1 s' Hs) as (H1 & H2 & H3 & H4 & H5).
  pose proof (zombie_reset_spec i None s) as H. rewrite Hr in H.
  destruct H as (Hh & _ & Hz & Hc & _ & _ & Hrun).
  assert (Hdead : forall p, deref p s = None -> deref p s1 = None).
  { intros p Hp. unfold deref in *. rewrite Hh. destruct (m_zombie_sessions s !!! i); [|done].
    apply lookup_delete_None. by right. }
  split_and!; try congruence.
  - auto.
  - intros j Hj. rewrite H2, Hz by lia. rewrite list_lookup_insert_ne by lia. done.
  - intros p j Hj Hlk. destruct (decide (j = i)) as [->|Hne].
    + apply H1. unfold deref. rewrite Hh, (lookup_total_zombie _ _ _ Hlk).
      apply lookup_delete_None. by left.
    + apply (H5 p j); [lia|]. rewrite Hz, list_lookup_insert_ne by lia. done.
Qed.

Lemma join_dead l s s' :
  (forall p, p ∈ l -> deref p s = None) -> join_and_delete l s = Some s' -> l = [].
Proof.
  destruct l as [|p l]; [done|]. intros Hd Hj. cbn [join_and_delete] in Hj.
  rewrite (Hd p) in Hj by set_solver. done.
Qed.

(** A scan that takes nothing deletes every session it passes, and leaves the
    pointers. *)
Lemma reap_scan_keeps n : forall i s kept' s',
  (i + n <= length (m_zombie_sessions s))%nat ->
  reap_scan n i i [] s = Some (kept', [], s') ->
  kept' = (i + n)%nat /\ m_zombie_sessions s' = m_zombie_sessions s
  /\ m_zombie_session_count s' = m_zombie_session_count s /\ m_running s' = m_running s
  /\ (forall p, deref p s = None -> deref p s' = None)
  /\ (forall j p, (i <= j < i + n)%nat -> m_zombie_sessions s !! j = Some (Some p) ->
       deref p s' = None /\ (forall z, deref p s = Some z -> m_thread_done z = false)).
Proof.
  induction n as [|n IH]; intros i s kept' s' Hlen Hs.
  { injection Hs as <- <-. split_and!; auto; lia. }
  cbn [reap_scan] in Hs. set (slot := m_zombie_sessions s !!! i) in *.
  assert (Hslot : m_zombie_sessions s !! i = Some slot).
  { destruct (lookup_lt_is_Some_2 (m_zombie_sessions s) i) as [o Ho]; [lia|].
    subst slot. by rewrite (list_lookup_total_correct _ _ _ Ho). }
  assert (Hkeep : forall s1, zombie_reset i slot s = Some s1 ->
    reap_scan n (S i) (S i) [] s1 = Some (kept', [], s') ->
    (forall p z, slot = Some p -> deref p s = Some z -> m_thread_done z = false) ->
    kept' = (i + S n)%nat /\ m_zombie_sessions s' = m_zombie_sessions s
    /\ m_zombie_session_count s' = m_zombie_session_count s /\ m_running s' = m_running s
    /\ (forall p, deref p s = None -> deref p s' = None)
    /\ (forall j p, (i <= j < i + S n)%nat -> m_zombie_sessions s !! j = Some (Some p) ->
       deref p s' = None /\ (forall z, deref p s = Some z -> m_thread_done z = false))).
  { intros s1 Hr Hs1 Hdone. pose proof (zombie_reset_spec i slot s) as H. rewrite Hr in H.
    fold slot in H. destruct H as (Hh & _ & Hz & Hc & _ & _ & Hrun).
    rewrite list_insert_id in Hz by done.
    destruct (IH (S i) s1 kept' s' ltac:(rewrite Hz; lia) Hs1) as (H1 & H2 & H3 & H4 & H5 & H6).
    assert (Hdead : forall p, deref p s = None -> deref p s1 = None).
    { intros p Hp. unfold deref in *. rewrite Hh. destruct slot; [|done].
      apply lookup_delete_None. by right. }
    split_and!; try congruence; [lia|auto|].
    intros j p Hj Hlk. destruct (decide (j = i)) as [->|Hne].
    - assert (slot = Some p) as Hp by congruence. split; [|by intros; apply (Hdone p)].
      apply H5. unfold deref. rewrite Hh, Hp. apply lookup_delete_None. by left.
    - destruct (H6 j p ltac:(lia)) as [Hd Hnd]; [by rewrite Hz|]. split; [done|].
      intros z Hz1. destruct (decide (slot = Some p)) as [Hp|Hp]; [by apply (Hdone p)|].
      apply Hnd. unfold deref in *. rewrite Hh. destruct slot as [q|]; [|done].
      rewrite lookup_delete_ne by congruence. done. }
  destruct slot as [p|] eqn:Hp.
  - destruct (deref p s) as [z|] eqn:Hz; [|done]. cbn [mbind option_bind] in Hs.
    destruct (m_thread_done z) eqn:Hd.
    + destruct (reap_scan_doomed n (S i) i ([] ++ [p]) s kept' [] s' ltac:(lia) Hs)
        as (_ & [l Hl] & _); [|done].
      intros q Hq%list_elem_of_singleton. subst q. right. by exists i.
    + destruct (zombie_reset i (Some p) s) as [s1|] eqn:Hr; [|done].
      apply (Hkeep s1); [done|done|]. intros p' z' [= <-] Hz'. congruence.
  - cbn [mbind option_bind] in Hs. destruct (zombie_reset i None s) as [s1|] eqn:Hr; [|done].
    by apply (Hkeep s1).
Qed.

(** When the reaper returns at all, it has deleted every queued session while
    its thread was running, and the pointers are still queued. *)
Lemma reap_spec s s' :
  length (m_zombie_sessions s) = MAX_ZOMBIE_SESSIONS ->
  0 <= m_zombie_session_count s <= Z.of_nat MAX_ZOMBIE_SESSIONS ->
  ReapZombieSessions s = Some s' ->
  m_zombie_session_count s' = m_zombie_session_count s
  /\ m_running s' = m_running s
  /\ forall j p, Z.of_nat j < m_zombie_session_count s ->
       m_zombie_sessions s !! j = Some (Some p) ->
       m_zombie_sessions s' !! j = Some (Some p) /\ deref p s' = None
       /\ (forall z, deref p s = Some z -> m_thread_done z = false).
Proof.
  unfold ReapZombieSessions. intros Hlen Hc Hs.
  destruct (reap_scan _ 0 0 [] s) as [[[kept taken] s1]|] eqn:Hscan; [|done].
  cbn [mbind option_bind] in Hs.
  destruct (reset_from _ kept _) as [s2|] eqn:Hreset; [|done]. cbn [mbind option_bind] in Hs.
  destruct (reap_scan_doomed _ _ _ _ _ _ _ _ (le_n 0) Hscan) as (Hdoom & _ & Hk & Hlz);
    [set_solver|].
  destruct (reset_from_spec _ _ _ _ Hreset) as (Hr1 & Hr2 & Hr3 & Hr4 & Hr5).
  cbn [m_zombie_sessions m_zombie_session_count m_running set_zombies set_tables] in *.
  assert (taken = []) as ->.
  { apply (join_dead taken s2 s'); [|done]. intros p Hp. destruct (Hdoom p Hp) as [Hn|(j & Hj & Hlk)].
    - by apply Hr1.
    - apply (Hr5 p j); [|done]. apply lookup_lt_Some in Hlk. rewrite Hlz, Hlen in Hlk.
      unfold MAX_ZOMBIE_SESSIONS in *. lia. }
  injection Hs as <-.
  assert (Hle : (0 + Z.to_nat (m_zombie_session_count s) <= length (m_zombie_sessions s))%nat)
    by (rewrite Hlen; lia).
  destruct (reap_scan_keeps _ _ _ _ _ Hle Hscan)
    as (Hkept & Hz1 & Hc1 & Hrun1 & Hdead & Hall).
  split_and!; [lia|congruence|]. intros j p Hj Hlk.
  destruct (Hall j p ltac:(lia) Hlk) as [Hd Hnd].
  split_and!; [|by apply Hr1|done]. rewrite Hr2 by lia. by rewrite Hz1.
Qed.

(** ** The invariant *)

(** The owning pointers of a table. *)
Definition owners (l : list (option Z)) : list Z := omap id l.

Record owned (s : P2pProxyServer) : Prop := {
  own_sessions : length (m_sessions s) = MAX_PLAYERS;
  own_count : m_session_count s = Z.of_nat (length (owners (m_sessions s)));
  own_zombies : exists zs, m_zombie_sessions s
                  = map Some zs ++ repeat None (MAX_ZOMBIE_SESSIONS - length zs)
                /\ m_zombie_session_count s = Z.of_nat (length zs)
                /\ (length zs <= MAX_ZOMBIE_SESSIONS)%nat;
  own_nodup : NoDup (owners (m_sessions s) ++ owners (m_zombie_sessions s));
  own_live : forall p, p ∈ owners (m_sessions s) ++ owners (m_zombie_sessions s) ->
               is_Some (deref p s);
  own_auth : forall p z, p ∈ owners (m_sessions s) -> deref p s = Some z ->
               m_authenticated z = true;
  own_down : forall p z, p ∈ owners (m_zombie_sessions s) -> deref p s = Some z ->
               m_connected z = false;
  own_fresh : forall p z, deref p s = Some z -> p < next_object (env s)
}.

Lemma owners_app l k : owners (l ++ k) = owners l ++ owners k.
Proof. apply omap_app. Qed.

Lemma owners_map zs : owners (map Some zs) = zs.
Proof. induction zs as [|p zs IH]; [done|]. cbn. f_equal. apply IH. Qed.

Lemma owners_None n : owners (repeat None n) = [].
Proof. by induction n. Qed.

Lemma elem_of_owners p l : p ∈ owners l <-> Some p ∈ l.
Proof.
  unfold owners. rewrite list_elem_of_omap. split.
  - intros (x & Hx & Heq). cbn in Heq. by subst.
  - intros Hx. by exists (Some p).
Qed.

Lemma owners_insert l (i : nat) p o :
  l !! i = Some o -> p :: owners (<[i := None]> l) ≡ₚ owners (<[i := Some p]> l).
Proof.
  intros Hi. rewrite !insert_take_drop by (by apply lookup_lt_Some in Hi).
  rewrite !owners_app. cbn. apply Permutation_middle.
Qed.

Lemma owners_remove l (i : nat) p :
  l !! i = Some (Some p) -> p :: owners (<[i := None]> l) ≡ₚ owners l.
Proof. intros Hi. rewrite (owners_insert l i p (Some p) Hi). by rewrite list_insert_id. Qed.

Lemma owners_add l (j : nat) p :
  l !! j = Some None -> owners (<[j := Some p]> l) ≡ₚ p :: owners l.
Proof. intros Hj. rewrite <- (owners_insert l j p None Hj). by rewrite list_insert_id. Qed.

Lemma owners_zombies zs n : owners (map Some zs ++ repeat None n) = zs.
Proof. by rewrite owners_app, owners_map, owners_None, app_nil_r. Qed.

Lemma owners_length l : (length (owners l) <= length l)%nat.
Proof. induction l as [|[p|] l IH]; cbn; [done| |]; unfold owners in *; lia. Qed.

(** What leaves the ownership alone: sessions may be written to, but stay
    authenticated or not, and do not come up again. *)
Definition quiet (s s' : P2pProxyServer) : Prop :=
  same_tables s s' /\ next_object (env s') = next_object (env s)
  /\ forall p, match deref p s with
               | Some z => exists z', deref p s' = Some z'
                            /\ m_authenticated z' = m_authenticated z
                            /\ (m_connected z' = true -> m_connected z = true)
               | None => deref p s' = None
               end.

#[export] Instance quiet_preorder : PreOrder quiet.
Proof.
  split.
  - intros s. split; [done|]. split; [done|]. intros p.
    destruct (deref p s) as [z|]; [by exists z|done].
  - intros a b c (H1 & H2 & H3) (K1 & K2 & K3).
    split; [by transitivity b|]. split; [congruence|]. intros p. specialize (H3 p). specialize (K3 p). destruct (deref p a) as [z|].
    + destruct H3 as (z1 & Hz1 & Ha & Hc). rewrite Hz1 in K3. destruct K3 as (z2 & Hz2 & Ha2 & Hc2).
      exists z2. split_and!; [done|congruence|auto].
    + by rewrite H3 in K3.
Qed.

Lemma quiet_live s s' p : quiet s s' -> is_Some (deref p s) <-> is_Some (deref p s').
Proof.
  intros (_ & _ & H). specialize (H p). destruct (deref p s) as [z|].
  - destruct H as (z' & -> & _). split; intros _; by eexists.
  - by rewrite H.
Qed.

Lemma quiet_back s s' p z' :
  quiet s s' -> deref p s' = Some z' ->
  exists z, deref p s = Some z /\ m_authenticated z' = m_authenticated z
            /\ (m_connected z' = true -> m_connected z = true).
Proof.
  intros (_ & _ & H) Hz'. specialize (H p). destruct (deref p s) as [z|]; [|congruence].
  destruct H as (z1 & Hz1 & Ha & Hc). exists z. assert (z1 = z') as -> by congruence. done.
Qed.

Lemma quiet_owned s s' : quiet s s' -> owned s -> owned s'.
Proof.
  intros Hq [H1 H2 H3 H4 H5 H6 H7 H8]. pose proof Hq as ((T1 & T2 & T3 & T4 & _) & Hn & _).
  split; rewrite ?T1, ?T2, ?T3, ?T4; try done.
  - intros p Hp. by apply (quiet_live _ _ _ Hq), H5.
  - intros p z' Hp Hz'. destruct (quiet_back _ _ _ _ Hq Hz') as (z & Hz & -> & _). by apply (H6 p).
  - intros p z' Hp Hz'. destruct (quiet_back _ _ _ _ Hq Hz') as (z & Hz & _ & Hc).
    pose proof (H7 p z Hp Hz) as Hdown. destruct (m_connected z'); [|done]. by rewrite Hc in Hdown.
  - intros p z' Hz'. destruct (quiet_back _ _ _ _ Hq Hz') as (z & Hz & _). rewrite Hn. by apply (H8 p z).
Qed.

(** The invariant moves the tables as follows. *)
Lemma owned_tables s l n zl k :
  owned s -> length l = MAX_PLAYERS -> n = Z.of_nat (length (owners l)) ->
  (exists zs, zl = map Some zs ++ repeat None (MAX_ZOMBIE_SESSIONS - length zs)
     /\ k = Z.of_nat (length zs) /\ (length zs <= MAX_ZOMBIE_SESSIONS)%nat) ->
  NoDup (owners l ++ owners zl) ->
  (forall p, p ∈ owners l ++ owners zl -> is_Some (deref p s)) ->
  (forall p z, p ∈ owners l -> deref p s = Some z -> m_authenticated z = true) ->
  (forall p z, p ∈ owners zl -> deref p s = Some z -> m_connected z = false) ->
  owned (set_tables l n zl k s).
Proof. intros [] **. by split. Qed.

(** ** Lemmas: the operations keep the invariant *)

(** A session whose table entry is gone is queued. *)
Lemma add_zombie_owned p z s :
  owned s -> p ∉ owners (m_sessions s) ++ owners (m_zombie_sessions s) ->
  deref p s = Some z -> m_connected z = false ->
  exists s', add_zombie p s = Some s' /\ owned s' /\ heap (env s') = heap (env s).
Proof.
  intros Hs Hp Hz Hdown. unfold add_zombie. pose proof Hs as [H1 H2 (zs & Ht & Hk & Hl) H4 H5 H6 H7 H8].
  rewrite Ht, owners_zombies in Hp, H4, H5, H7. rewrite Hk.
  destruct (Z.ltb_spec (Z.of_nat (length zs)) (Z.of_nat MAX_ZOMBIE_SESSIONS)) as [Hlt|]; [|by exists s].
  unfold zombie_reset. cbn [m_zombie_sessions m_zombie_session_count set_zombies set_tables].
  rewrite Ht, Nat2Z.id.
  assert (Hsplit : repeat (@None Z) (MAX_ZOMBIE_SESSIONS - length zs)
                   = None :: repeat None (MAX_ZOMBIE_SESSIONS - length (zs ++ [p]))).
  { rewrite length_app. cbn [length]. replace (MAX_ZOMBIE_SESSIONS - length zs)%nat
      with (S (MAX_ZOMBIE_SESSIONS - (length zs + 1))) by lia. done. }
  rewrite Hsplit. rewrite list_lookup_total_alt, lookup_app_r, length_map, Nat.sub_diag
    by (by rewrite length_map). cbn [lookup list_lookup from_option default id].
  rewrite insert_app_r_alt, length_map, Nat.sub_diag by (by rewrite length_map).
  cbn [insert list_insert].
  assert (Hzl : map Some zs ++ Some p :: repeat None (MAX_ZOMBIE_SESSIONS - length (zs ++ [p]))
                = map Some (zs ++ [p]) ++ repeat None (MAX_ZOMBIE_SESSIONS - length (zs ++ [p]))).
  { rewrite map_app. cbn [map]. by rewrite <- app_assoc. }
  rewrite Hzl.
  eexists. split; [reflexivity|]. split; [|done].
  assert (Hperm : owners (m_sessions s)
      ++ owners (map Some (zs ++ [p]) ++ repeat None (MAX_ZOMBIE_SESSIONS - length (zs ++ [p])))
      ≡ₚ p :: owners (m_sessions s) ++ zs).
  { rewrite owners_zombies, app_assoc. by rewrite Permutation_app_comm. }
  change (owned (set_tables (m_sessions s) (m_session_count s)
    (map Some (zs ++ [p]) ++ repeat None (MAX_ZOMBIE_SESSIONS - length (zs ++ [p])))
    (Z.of_nat (length zs) + 1) s)).
  apply owned_tables; try done.
  - exists (zs ++ [p]). rewrite length_app. cbn [length]. split_and!; [done|lia|lia].
  - rewrite Hperm. by apply NoDup_cons.
  - intros q. rewrite Hperm. intros [->|Hq]%elem_of_cons; [by exists z|by apply H5].
  - intros q y. rewrite owners_zombies. intros [Hq|Hq%list_elem_of_singleton]%elem_of_app Hy;
      [by apply (H7 q)|]. subst q. congruence.
Qed.

Lemma deref_store p z s q : deref q (store p z s) = if decide (p = q) then Some z else deref q s.
Proof. unfold deref, store. cbn [heap env set_heap set_env]. apply lookup_insert. Qed.

Lemma quiet_store p z z' s :
  deref p s = Some z -> m_authenticated z' = m_authenticated z ->
  (m_connected z' = true -> m_connected z = true) -> quiet s (store p z' s).
Proof.
  intros Hz Ha Hc. split; [by split_and!|]. split; [done|]. intros q. rewrite deref_store.
  case_decide as Hpq; [subst q; rewrite Hz; by exists z'|].
  destruct (deref q s) as [y|]; [by exists y|done].
Qed.

Lemma quiet_env s e :
  heap e = heap (env s) -> next_object e = next_object (env s) -> quiet s (set_env e s).
Proof.
  intros Hh Hn. split; [by split_and!|]. split; [done|]. intros q.
  unfold deref. cbn [env set_env]. rewrite Hh. destruct (heap (env s) !! q) as [y|]; [by exists y|done].
Qed.

Lemma quiet_net s l b h c : quiet s (set_net l b h c s).
Proof.
  split; [by split_and!|]. split; [done|]. intros q. change (deref q (set_net l b h c s)) with (deref q s).
  destruct (deref q s) as [y|]; [by exists y|done].
Qed.

Lemma quiet_close p fm z s : deref p s = Some z -> quiet s (close_session p fm z s).
Proof.
  intros Hz. unfold close_session, close_fd, set_system.
  destruct (0 <=? m_socket_fd z).
  - etransitivity; [|apply (quiet_store p z); done]. by apply quiet_env.
  - by apply (quiet_store p z).
Qed.

Lemma deref_close p fm z s :
  exists z', deref p (close_session p fm z s) = Some z' /\ m_connected z' = false
             /\ m_authenticated z' = m_authenticated z /\ m_virtual_ip z' = m_virtual_ip z.
Proof.
  unfold close_session. eexists. rewrite deref_store, decide_True by done. by split_and!.
Qed.

Lemma quiet_notify vip s : quiet s (NotifyMasterDisconnect vip s).
Proof. unfold NotifyMasterDisconnect. destruct (m_master_callback s); [by apply quiet_env|done]. Qed.

Lemma Disconnect_owned p z s :
  owned s -> deref p s = Some z ->
  exists s', Disconnect p false s = Some s' /\ owned s'
    /\ forall q, is_Some (deref q s) -> is_Some (deref q s').
Proof.
  intros Hs Hz. unfold Disconnect. rewrite Hz. cbn [mbind option_bind].
  destruct (m_connected z) eqn:Hc; [|by exists s]. cbn [negb].
  pose proof (quiet_close p false z s Hz) as Hq. destruct (deref_close p false z s) as (z1 & Hz1 & Hd & _).
  assert (Hs1 : owned (close_session p false z s)) by (by apply (quiet_owned s)).
  assert (Hnz : p ∉ owners (m_zombie_sessions (close_session p false z s))).
  { destruct Hq as ((_ & _ & -> & _) & _). intros Hin. pose proof (own_down s Hs p z Hin Hz). congruence. }
  assert (Hkeep : forall s', heap (env s') = heap (env (close_session p false z s)) ->
    forall q, is_Some (deref q s) -> is_Some (deref q s')).
  { intros s' Hh q Hl. apply (quiet_live _ _ q Hq) in Hl. unfold deref in *. by rewrite Hh. }
  clear Hq Hz Hc Hs. set (s1 := close_session p false z s) in *. clearbody s1.
  unfold OnSessionDisconnected. destruct (list_find _ (m_sessions s1)) as [[i o]|] eqn:Hf.
  - apply list_find_Some in Hf as (Hi & <- & _).
    set (s2 := set_sessions (<[i:=None]> (m_sessions s1)) (m_session_count s1 - 1) s1).
    pose proof (owners_remove _ _ _ Hi) as Hperm.
    pose proof Hs1 as [H1 H2 H3 H4 H5 H6 H7 H8].
    assert (Hnd : NoDup (p :: owners (<[i:=None]> (m_sessions s1)) ++ owners (m_zombie_sessions s1)))
      by (by rewrite app_comm_cons, Hperm).
    apply NoDup_cons in Hnd as [Hp Hnd].
    assert (Hs2 : owned s2).
    { apply owned_tables; try done.
      - by rewrite length_insert.
      - apply Permutation_length in Hperm. cbn [length] in Hperm. lia.
      - intros q Hq. apply H5. rewrite <- Hperm. set_solver.
      - intros q y Hq. apply (H6 q). rewrite <- Hperm. set_solver. }
    change (deref p s2) with (deref p s1). rewrite Hz1. cbn [mbind option_bind].
    destruct (m_authenticated z1).
    + pose proof (quiet_notify (m_virtual_ip z1) s2) as Hq.
      set (s3 := NotifyMasterDisconnect (m_virtual_ip z1) s2) in *.
      destruct Hq as [(Q1 & Q2 & Q3 & Q4 & Q5) [Q6 Q7]] eqn:HQ.
      assert (Hh3 : heap (env s3) = heap (env s1)).
      { unfold s3, NotifyMasterDisconnect. by destruct (m_master_callback s2). }
      destruct (add_zombie_owned p z1 s3) as (s' & Ha & Ho & Hh); [|rewrite Q1, Q3; done| |done|].
      * apply (quiet_owned s2); [|done]. by split.
      * unfold deref. by rewrite Hh3.
      * exists s'. split_and!; [done|done|]. apply Hkeep. by rewrite Hh.
    + destruct (add_zombie_owned p z1 s2) as (s' & Ha & Ho & Hh); [done|done|done|done|].
      exists s'. split_and!; [done|done|by apply Hkeep].
  - apply list_find_None in Hf. destruct (add_zombie_owned p z1 s1) as (s' & Ha & Ho & Hh);
      [done| |done|done|exists s'; split_and!; [done|done|by apply Hkeep]].
    intros [Hin%elem_of_owners|Hin]%elem_of_app; [|done].
    rewrite Forall_forall in Hf. by apply (Hf _ Hin).
Qed.

Lemma Send_quiet p data s :
  is_Some (deref p s) -> exists b s', Send p data s = Some (b, s') /\ quiet s s'.
Proof.
  intros [z Hz]. unfold Send. rewrite Hz. cbn [mbind option_bind].
  destruct (_ || _); [by exists false, s|].
  destruct (match env_takes z with [] => _ | _ => _ end) as [sent takes].
  eexists _, _. split; [reflexivity|]. by apply (quiet_store p z).
Qed.

Lemma send_to_quiet packet p s :
  is_Some (deref p s) -> exists s', send_to packet p s = Some s' /\ quiet s s'.
Proof.
  intros Hp. unfold send_to. destruct (Send_quiet p packet s Hp) as (b & s' & -> & Hq). by exists s'.
Qed.

Lemma send_each_quiet send slots s :
  (forall q s1, is_Some (deref q s1) -> exists s2, send q s1 = Some s2 /\ quiet s1 s2) ->
  (forall q, q ∈ owners slots -> is_Some (deref q s)) ->
  exists s', send_each send slots s = Some s' /\ quiet s s'.
Proof.
  intros Hsend. revert s. induction slots as [|[q|] slots IH]; intros s Hl; [by exists s| |].
  - cbn [send_each]. destruct (Hl q) as [z Hz]; [by apply elem_of_owners; left|]. rewrite Hz.
    cbn [mbind option_bind].
    assert (exists s1, (if m_authenticated z then send q s else Some s) = Some s1 /\ quiet s s1)
      as (s1 & -> & Hq1).
    { destruct (m_authenticated z); [|by exists s]. apply Hsend. by exists z. }
    cbn [mbind option_bind]. destruct (IH s1) as (s2 & -> & Hq2).
    + intros r Hr. apply (quiet_live _ _ _ Hq1), Hl. apply elem_of_owners. right.
      by apply elem_of_owners.
    + exists s2. split; [done|]. by transitivity s1.
  - cbn [send_each]. apply IH. intros q Hq. apply Hl, elem_of_owners. right. by apply elem_of_owners.
Qed.

Lemma send_first_quiet send dest slots s :
  (forall q s1, is_Some (deref q s1) -> exists s2, send q s1 = Some s2 /\ quiet s1 s2) ->
  (forall q, q ∈ owners slots -> is_Some (deref q s)) ->
  exists s', send_first send dest slots s = Some s' /\ quiet s s'.
Proof.
  intros Hsend. induction slots as [|[q|] slots IH]; intros Hl; [by exists s| |].
  - cbn [send_first]. destruct (Hl q) as [z Hz]; [by apply elem_of_owners; left|]. rewrite Hz.
    cbn [mbind option_bind]. destruct (_ && _); [apply Hsend; by exists z|]. apply IH.
    intros r Hr. apply Hl, elem_of_owners. right. by apply elem_of_owners.
  - cbn [send_first]. apply IH. intros q Hq. apply Hl, elem_of_owners. right. by apply elem_of_owners.
Qed.

Lemma RouteMessage_quiet sender info packet s :
  owned s -> is_Some (deref sender s) ->
  exists info' s', RouteMessage sender info (fun i => send_to (packet i)) s = Some (info', s')
                   /\ quiet s s'.
Proof.
  intros Hs [z Hz]. unfold RouteMessage. rewrite Hz. cbn [mbind option_bind].
  destruct (_ && _); [by exists info, s|]. cbv zeta.
  assert (Hl : forall q, q ∈ owners (m_sessions s) -> is_Some (deref q s)).
  { intros q Hq. apply (own_live s Hs). by apply elem_of_app; left. }
  set (info' := set_info _ _ info).
  destruct (translate (m_broadcast_address s) (pi_dest_ipv4 info) =? m_broadcast_address s).
  - destruct (send_each_quiet (send_to (packet info')) (m_sessions s) s) as (s' & -> & Hq);
      [intros; by apply send_to_quiet|done|]. by exists info', s'.
  - destruct (send_first_quiet (send_to (packet info'))
      (translate (m_broadcast_address s) (pi_dest_ipv4 info)) (m_sessions s) s) as (s' & -> & Hq);
      [intros; by apply send_to_quiet|done|]. by exists info', s'.
Qed.

Lemma handlers_quiet sender s :
  owned s -> is_Some (deref sender s) ->
  (forall h d n, exists s', HandleProxyData sender h d n s = Some s' /\ quiet s s')
  /\ (forall r, exists s', HandleProxyConnect sender r s = Some s' /\ quiet s s')
  /\ (forall r, exists s', HandleProxyConnectReply sender r s = Some s' /\ quiet s s')
  /\ (forall m, exists s', HandleProxyDisconnect sender m s = Some s' /\ quiet s s').
Proof.
  intros Hs Hl. split_and!; intros.
  - unfold HandleProxyData.
    destruct (RouteMessage_quiet sender (pdh_info h) (fun info => (encoded_with 4096
      PacketId_ProxyData {| pdh_info := info; pdh_data_length := pdh_data_length h |} d n).2) s Hs Hl)
      as (info' & s' & -> & Hq). cbn [mbind option_bind].
    destruct (_ && _); eexists; (split; [reflexivity|]); [|done].
    transitivity s'; [done|by apply quiet_env].
  - unfold HandleProxyConnect. destruct (RouteMessage_quiet sender (pcq_info r) (fun info =>
      encoded 256 PacketId_ProxyConnect {| pcq_info := info |}) s Hs Hl) as (info' & s' & -> & Hq).
    by exists s'.
  - unfold HandleProxyConnectReply. destruct (RouteMessage_quiet sender (pcr_info r) (fun info =>
      encoded 256 PacketId_ProxyConnectReply {| pcr_info := info |}) s Hs Hl)
      as (info' & s' & -> & Hq). by exists s'.
  - unfold HandleProxyDisconnect. destruct (RouteMessage_quiet sender (pdm_info m) (fun info =>
      encoded 256 PacketId_ProxyDisconnect {| pdm_info := info;
        pdm_disconnect_reason := pdm_disconnect_reason m |}) s Hs Hl) as (info' & s' & -> & Hq).
    by exists s'.
Qed.

Lemma host_send_quiet packet slots b s :
  (forall q, q ∈ owners slots -> is_Some (deref q s)) ->
  exists b' s', host_send_each packet slots b s = Some (b', s') /\ quiet s s'.
Proof.
  revert b s. induction slots as [|[q|] slots IH]; intros b s Hl; [by exists b, s| |].
  - cbn [host_send_each]. destruct (Hl q) as [z Hz]; [by apply elem_of_owners; left|]. rewrite Hz.
    cbn [mbind option_bind].
    assert (Hrest : forall s1, quiet s s1 -> forall r, r ∈ owners slots -> is_Some (deref r s1)).
    { intros s1 Hq1 r Hr. apply (quiet_live _ _ _ Hq1), Hl, elem_of_owners. right.
      by apply elem_of_owners. }
    destruct (m_authenticated z).
    + destruct (Send_quiet q packet s ltac:(by exists z)) as (b1 & s1 & -> & Hq1).
      cbn [mbind option_bind]. destruct (IH (b1 || b) s1 (Hrest _ Hq1)) as (b2 & s2 & -> & Hq2).
      exists b2, s2. split; [done|]. by transitivity s1.
    + by apply IH, Hrest.
  - cbn [host_send_each]. apply IH. intros q Hq. apply Hl, elem_of_owners. right.
    by apply elem_of_owners.
Qed.

Lemma host_first_quiet packet dest slots s :
  (forall q, q ∈ owners slots -> is_Some (deref q s)) ->
  exists b' s', host_send_first packet dest slots s = Some (b', s') /\ quiet s s'.
Proof.
  induction slots as [|[q|] slots IH]; intros Hl; [by exists false, s| |].
  - cbn [host_send_first]. destruct (Hl q) as [z Hz]; [by apply elem_of_owners; left|]. rewrite Hz.
    cbn [mbind option_bind]. destruct (_ && _); [apply Send_quiet; by exists z|]. apply IH.
    intros r Hr. apply Hl, elem_of_owners. right. by apply elem_of_owners.
  - cbn [host_send_first]. apply IH. intros q Hq. apply Hl, elem_of_owners. right.
    by apply elem_of_owners.
Qed.

Lemma BroadcastFromHost_quiet h d n s :
  owned s -> exists r s', BroadcastFromHost h d n s = Some (r, s') /\ quiet s s'.
Proof.
  intros Hs. unfold BroadcastFromHost. cbv zeta. destruct (_ =? 0); [by exists (false, h), s|].
  destruct (_ && _); [by exists (false, h), s|].
  assert (Hl : forall q, q ∈ owners (m_sessions s) -> is_Some (deref q s)).
  { intros q Hq. apply (own_live s Hs). by apply elem_of_app; left. }
  destruct (encoded_with _ _ _ _ _) as [r packet].
  destruct r; try (by eexists _, s). destruct (_ =? m_broadcast_address s).
  - destruct (host_send_quiet packet (m_sessions s) false s Hl) as (b & s' & -> & Hq). by eexists _, s'.
  - destruct (host_first_quiet packet
      (translate (m_broadcast_address s) (pi_dest_ipv4 (pdh_info h))) (m_sessions s) s Hl)
      as (b & s' & -> & Hq). by eexists _, s'.
Qed.

(** *** Authentication *)

(** A session that is connected and waits for its authentication. *)
Definition waiting (p : Z) (s : P2pProxyServer) : Prop :=
  exists z, deref p s = Some z /\ m_connected z = true /\ m_authenticated z = false.

Lemma waiting_unowned p s :
  owned s -> waiting p s -> p ∉ owners (m_sessions s) ++ owners (m_zombie_sessions s).
Proof.
  intros Hs (z & Hz & Hc & Ha) [Hin|Hin]%elem_of_app.
  - pose proof (own_auth s Hs p z Hin Hz). congruence.
  - pose proof (own_down s Hs p z Hin Hz). congruence.
Qed.

Lemma add_session_owned p z s :
  owned s -> p ∉ owners (m_sessions s) ++ owners (m_zombie_sessions s) ->
  deref p s = Some z -> m_authenticated z = true ->
  owned (add_session p s) /\ deref p (add_session p s) = Some z.
Proof.
  intros Hs Hp Hz Ha. unfold add_session.
  destruct (list_find _ (m_sessions s)) as [[j o]|] eqn:Hf; [|done].
  apply list_find_Some in Hf as (Hj & <- & _). split; [|done].
  pose proof (owners_add _ _ p Hj) as Hperm. pose proof Hs as [H1 H2 H3 H4 H5 H6 H7 H8].
  apply owned_tables; try done.
  - by rewrite length_insert.
  - rewrite Hperm. cbn [length]. lia.
  - rewrite Hperm. cbn. by apply NoDup_cons.
  - intros q. rewrite Hperm. cbn. intros [->|Hq]%elem_of_cons; [by exists z|by apply H5].
  - intros q y. rewrite Hperm. intros [->|Hq]%elem_of_cons Hy; [congruence|by apply (H6 q)].
Qed.

Lemma register_owned p i token s :
  owned s -> waiting p s -> exists s', register_session p i token s = Some s' /\ owned s'.
Proof.
  intros Hs Hw. pose proof (waiting_unowned p s Hs Hw) as Hp. destruct Hw as (z & Hz & Hc & Ha).
  unfold register_session. cbv zeta. generalize (slot_behind i token (m_waiting_tokens s)).
  clear token. intros token.
  assert (Hq0 : quiet s (set_tokens (base.delete i (m_waiting_tokens s)) s)) by apply quiet_net.
  set (s0 := set_tokens _ s) in *. assert (Hz0 : deref p s0 = Some z) by exact Hz.
  rewrite Hz0. cbn [mbind option_bind]. set (z1 := set_identity _ true z).
  assert (Hs1 : owned (store p z1 s0)).
  { pose proof (quiet_owned _ _ Hq0 Hs) as [H1 H2 H3 H4 H5 H6 H7 H8]. split; try done.
    - intros q Hq. rewrite deref_store. case_decide; [by eexists|by apply H5].
    - intros q y Hq. rewrite deref_store. case_decide as Hpq; [|by apply (H6 q)].
      subst q. destruct Hp. apply elem_of_app. by left.
    - intros q y Hq. rewrite deref_store. case_decide as Hpq; [|by apply (H7 q)].
      subst q. destruct Hp. apply elem_of_app. by right.
    - intros q y. rewrite deref_store. case_decide as Hpq; [|apply (H8 q)]. subst q. intros _.
      by apply (H8 p z). }
  assert (Hz1 : deref p (store p z1 s0) = Some z1) by (rewrite deref_store; by rewrite decide_True).
  set (s1 := store p z1 s0) in *.
  assert (Hp1 : p ∉ owners (m_sessions s1) ++ owners (m_zombie_sessions s1)) by exact Hp.
  set (s2 := if m_session_count s1 =? 0 then Configure (proxy_config token) s1 else s1).
  assert (Hs2 : owned s2 /\ deref p s2 = Some z1
                /\ p ∉ owners (m_sessions s2) ++ owners (m_zombie_sessions s2)).
  { unfold s2. destruct (_ =? 0); [|done]. split_and!; [|done|done].
    apply (quiet_owned s1); [apply quiet_net|done]. }
  destruct Hs2 as (Hs2 & Hz2 & Hp2).
  destruct (add_session_owned p z1 s2 Hs2 Hp2 Hz2 eq_refl) as [Hs3 Hz3].
  destruct (Send_quiet p (encoded 256 PacketId_ProxyConfig (proxy_config token)) (add_session p s2)
    ltac:(by exists z1)) as (b & s4 & -> & Hq4).
  exists s4. split; [done|]. by apply (quiet_owned _ _ Hq4).
Qed.

Section runs.
Context (meanwhile : nat -> P2pProxyServer -> option P2pProxyServer).

(** The other threads keep the invariant while a session waits. *)
Hypothesis others_ok : forall n p s, owned s -> waiting p s ->
  exists s', meanwhile n s = Some s' /\ owned s' /\ waiting p s'.

Lemma register_rounds_owned rounds p config ip s :
  owned s -> waiting p s ->
  exists b s', register_rounds meanwhile rounds p config ip s = Some (b, s') /\ owned s'
    /\ (b = false -> waiting p s').
Proof.
  revert s. induction rounds as [|rounds IH]; intros s Hs Hw; [by exists false, s|].
  cbn [register_rounds]. destruct (list_find _ (m_waiting_tokens s)) as [[i token]|].
  - destruct (register_owned p i token s Hs Hw) as (s' & -> & Hs'). by exists true, s'.
  - destruct (others_ok rounds p s Hs Hw) as (s' & -> & Hs' & Hw'). by apply IH.
Qed.

Lemma ExternalProxy_owned p config s :
  owned s -> waiting p s ->
  exists s', session_HandleExternalProxy meanwhile p config s = Some s' /\ owned s'.
Proof.
  intros Hs Hw. unfold session_HandleExternalProxy. pose proof Hw as (z & Hz & _). rewrite Hz.
  cbn [mbind option_bind]. unfold TryRegisterUser.
  destruct (register_rounds_owned MAX_RETRIES p config (m_remote_ip z) s Hs Hw)
    as (b & s' & -> & Hs' & Hw'). cbn [mbind option_bind].
  destruct b; [by exists s'|]. destruct (Hw' eq_refl) as (z' & Hz' & _).
  destruct (Disconnect_owned p z' s' Hs' Hz') as (s2 & H2 & Ho & _). by exists s2.
Qed.

(** The receive loop hands a packet on while the session is connected, and a
    client authenticates once. *)
Definition may_process (p : Z) (data : list Z) (s : P2pProxyServer) : Prop :=
  exists z, deref p s = Some z /\ m_connected z = true
    /\ (hdr_type (of_bytes data) = PacketId_value PacketId_ExternalProxy ->
        m_authenticated z = false).

Lemma ProcessData_owned p data size s :
  owned s -> may_process p data s ->
  exists s', ProcessData meanwhile p data size s = Some s' /\ owned s'.
Proof.
  intros Hs (z & Hz & Hc & Hauth). unfold ProcessData. cbv zeta.
  destruct (size <? _); [by exists s|].
  destruct (handlers_quiet p s Hs ltac:(by exists z)) as (H1 & H2 & H3 & H4).
  assert (Hquiet : forall o, (exists s', o = Some s' /\ quiet s s') ->
    exists s', o = Some s' /\ owned s').
  { intros o (s' & -> & Hq). exists s'. split; [done|by apply (quiet_owned s)]. }
  assert (Hsome : exists s', Some s = Some s' /\ owned s') by (by exists s).
  destruct (Z.eqb_spec (hdr_type (of_bytes data)) (PacketId_value PacketId_ExternalProxy)) as [He|_].
  { destruct (_ <=? _); [|done]. apply ExternalProxy_owned; [done|]. exists z. by auto. }
  unfold authenticated. rewrite Hz. cbn [mbind option_bind].
  repeat (destruct (_ =? _); [destruct (_ <=? _), (m_authenticated z); auto|]). done.
Qed.

(** *** Runs *)

Inductive p2p_op : Type :=
| OpToken (token : ExternalProxyToken)
| OpState (virtual_ip : Z) (connected : bool)
| OpAccept (client_fd remote_ip : Z)
| OpPacket (p : Z) (data : list Z) (size : Z)
| OpEnd (p : Z)
| OpDone (p : Z)
| OpHost (header : ProxyDataHeader) (data : list Z) (data_len : Z).

Definition perform (op : p2p_op) (s : P2pProxyServer) : option P2pProxyServer :=
  match op with
  | OpToken token => Some (AddWaitingToken token s)
  | OpState virtual_ip connected => HandleExternalProxyStateChange virtual_ip connected s
  | OpAccept fd ip => accept_connection fd ip s
  | OpPacket p data size => ProcessData meanwhile p data size s
  | OpEnd p => Disconnect p false s
  | OpDone p => z ← deref p s; Some (store p (set_thread (m_stack_slot z) true z) s)
  | OpHost header data n => snd <$> BroadcastFromHost header data n s
  end.

Definition op_ok (op : p2p_op) (s : P2pProxyServer) : Prop :=
  match op with
  | OpPacket p data _ => may_process p data s
  | OpEnd p | OpDone p => is_Some (deref p s)
  | _ => True
  end.

Fixpoint performs (ops : list p2p_op) (s : P2pProxyServer) : option P2pProxyServer :=
  match ops with
  | [] => Some s
  | op :: ops => s ← perform op s; performs ops s
  end.

Fixpoint ops_ok (ops : list p2p_op) (s : P2pProxyServer) : Prop :=
  match ops with
  | [] => True
  | op :: ops => op_ok op s /\ forall s', perform op s = Some s' -> ops_ok ops s'
  end.

Lemma disconnect_all_owned l s :
  owned s -> (forall p, p ∈ l -> is_Some (deref p s)) ->
  exists s', disconnect_all l s = Some s' /\ owned s'.
Proof.
  revert s. induction l as [|p l IH]; intros s Hs Hl; [by exists s|]. cbn [disconnect_all].
  destruct (Hl p) as [z Hz]; [by left|].
  destruct (Disconnect_owned p z s Hs Hz) as (s1 & -> & Hs1 & Hk). cbn [mbind option_bind].
  apply IH; [done|]. intros q Hq. apply Hk, Hl. by right.
Qed.

Lemma victims_live vip s :
  (forall p, p ∈ owners (m_sessions s) -> is_Some (deref p s)) ->
  exists l, victims vip s = Some l /\ forall p, p ∈ l -> is_Some (deref p s).
Proof.
  unfold victims. induction (m_sessions s) as [|[q|] slots IH]; intros Hl.
  - exists []. split; [done|]. intros p Hp. by apply elem_of_nil in Hp.
  - destruct IH as (l & Hv & Hl'). { intros p Hp. apply Hl, elem_of_owners. right. by apply elem_of_owners. }
    destruct (Hl q) as [z Hz]; [apply elem_of_owners; by left|].
    cbn [foldr]. rewrite Hv. cbn [mbind option_bind]. rewrite Hz. cbn [mbind option_bind].
    eexists. split; [reflexivity|]. intros p. destruct (_ =? vip); [|apply Hl'].
    intros [->|Hp]%elem_of_cons; [by exists z|by apply Hl'].
  - cbn [foldr]. apply IH. intros p Hp. apply Hl, elem_of_owners. right. by apply elem_of_owners.
Qed.

Lemma accept_owned fd ip s :
  owned s -> exists s', accept_connection fd ip s = Some s' /\ owned s'.
Proof.
  intros Hs. unfold accept_connection. cbv zeta.
  set (s0 := set_system _ _ _ s). assert (Hq0 : quiet s s0) by (by apply quiet_env).
  assert (Hs0 : owned s0) by (by apply (quiet_owned s)).
  destruct (_ <=? m_session_count s0).
  { eexists. split; [reflexivity|]. apply (quiet_owned s0); [by apply quiet_env|done]. }
  unfold new_session. set (z := Build_P2pProxySession _ _ _ _ _ _ _ _ _ _).
  set (p := next_object (env s0)). set (s1 := store p z _).
  assert (Hz1 : deref p s1 = Some z) by (unfold s1; rewrite deref_store; by rewrite decide_True).
  assert (Hd1 : forall q, q <> p -> deref q s1 = deref q s0).
  { intros q Hq. unfold s1. rewrite deref_store. by rewrite decide_False by congruence. }
  assert (Hold : forall q, is_Some (deref q s0) -> q <> p).
  { intros q [y Hy]. pose proof (own_fresh s0 Hs0 q y Hy). unfold p. lia. }
  assert (Hs1 : owned s1).
  { pose proof Hs0 as [H1 H2 H3 H4 H5 H6 H7 H8]. split; try done.
    - intros q Hq. rewrite Hd1 by (by apply Hold, H5). by apply H5.
    - intros q y Hq Hy. apply (H6 q); [done|]. rewrite <- Hd1; [done|]. apply Hold, H5, elem_of_app. by left.
    - intros q y Hq Hy. apply (H7 q); [done|]. rewrite <- Hd1; [done|]. apply Hold, H5, elem_of_app. by right.
    - intros q y Hy. change (next_object (env s1)) with (p + 1).
      destruct (decide (q = p)) as [->|Hne]; [lia|]. rewrite Hd1 in Hy by done.
      pose proof (H8 q y Hy). unfold p. lia. }
  unfold session_Start.
  assert (Halloc : quiet s1 (AllocateSessionStackSlot s1).2).
  { unfold AllocateSessionStackSlot. destruct (first_false _); [by apply quiet_env|done]. }
  destruct (AllocateSessionStackSlot s1) as [slot s2]. cbn [snd] in Halloc.
  pose proof Halloc as (_ & _ & Hd2). specialize (Hd2 p). rewrite Hz1 in Hd2.
  destruct Hd2 as (z2 & Hz2 & _). rewrite Hz2. cbn [mbind option_bind].
  eexists. split; [reflexivity|]. apply (quiet_owned s1); [|done]. transitivity s2; [done|].
  apply (quiet_store p z2); [done|by destruct (slot <? 0)|]. by destruct (slot <? 0).
Qed.

Lemma perform_owned op s :
  owned s -> op_ok op s -> exists s', perform op s = Some s' /\ owned s'.
Proof.
  intros Hs Hok. destruct op; cbn [perform op_ok] in *.
  - eexists. split; [reflexivity|]. apply (quiet_owned s); [apply quiet_net|done].
  - unfold HandleExternalProxyStateChange. destruct connected; [by exists s|]. cbv zeta.
    set (s0 := set_tokens _ s). assert (Hs0 : owned s0) by (apply (quiet_owned s); [apply quiet_net|done]).
    destruct (victims_live virtual_ip s0) as (l & -> & Hl).
    { intros p Hp. apply (own_live s0 Hs0), elem_of_app. by left. }
    by apply disconnect_all_owned.
  - by apply accept_owned.
  - by apply ProcessData_owned.
  - destruct Hok as [z Hz]. destruct (Disconnect_owned p z s Hs Hz) as (s' & H1 & H2 & _). by exists s'.
  - destruct Hok as [z Hz]. rewrite Hz. cbn [mbind option_bind]. eexists. split; [reflexivity|].
    apply (quiet_owned s); [|done]. by apply (quiet_store p z).
  - destruct (BroadcastFromHost_quiet header data data_len s Hs) as (r & s' & -> & Hq).
    exists s'. split; [done|by apply (quiet_owned s)].
Qed.

Lemma performs_owned ops s :
  owned s -> ops_ok ops s -> exists s', performs ops s = Some s' /\ owned s'.
Proof.
  revert s. induction ops as [|op ops IH]; intros s Hs Hok; [by exists s|].
  destruct Hok as [Hop Hok]. destruct (perform_owned op s Hs Hop) as (s1 & H1 & Hs1).
  cbn [performs]. rewrite H1. cbn [mbind option_bind]. apply IH; [done|by apply Hok].
Qed.

(** C21: without the reaper the server never touches a deleted session, whatever
    tokens, connections, packets, disconnections and messages come in which
    order: the tables of sessions hold live, distinct objects, the counts are
    those of the tables, at most eight clients are registered, all of them
    authenticated, and queued sessions are disconnected.  (A client that
    authenticates twice is excluded, it would be registered twice.) *)
Theorem p2p_sessions_owned ops s :
  owned s -> ops_ok ops s ->
  exists s', performs ops s = Some s' /\ owned s' /\ 0 <= m_session_count s' <= 8.
Proof.
  intros Hs Hok. destruct (performs_owned ops s Hs Hok) as (s' & H & Hs').
  exists s'. split; [done|]. split; [done|]. rewrite (own_count s' Hs').
  pose proof (owners_length (m_sessions s')). rewrite (own_sessions s' Hs') in *.
  unfold MAX_PLAYERS in *. lia.
Qed.
End runs.

(** ** The reaper *)

Lemma add_zombie_queues p s s' :
  m_zombie_session_count s < Z.of_nat MAX_ZOMBIE_SESSIONS -> 0 <= m_zombie_session_count s ->
  length (m_zombie_sessions s) = MAX_ZOMBIE_SESSIONS ->
  add_zombie p s = Some s' ->
  p ∈ owners (m_zombie_sessions s') /\ m_running s' = m_running s.
Proof.
  intros Hc H0 Hlen. unfold add_zombie. rewrite (proj2 (Z.ltb_lt _ _)) by done. intros Ha.
  pose proof (zombie_reset_spec (Z.to_nat (m_zombie_session_count s)) (Some p)
    (set_zombies (m_zombie_sessions s) (m_zombie_session_count s + 1) s)) as H.
  rewrite Ha in H. destruct H as (_ & _ & Hz & _ & _ & _ & Hrun). split; [|exact Hrun].
  apply elem_of_owners. rewrite Hz. apply list_elem_of_lookup.
  exists (Z.to_nat (m_zombie_session_count s)). apply list_lookup_insert_eq.
  cbn [m_zombie_sessions set_zombies set_tables]. lia.
Qed.

Lemma owned_zombie_bounds s :
  owned s -> length (m_zombie_sessions s) = MAX_ZOMBIE_SESSIONS
             /\ 0 <= m_zombie_session_count s <= Z.of_nat MAX_ZOMBIE_SESSIONS
             /\ (forall p, p ∈ owners (m_zombie_sessions s) ->
                 exists j, m_zombie_sessions s !! j = Some (Some p)
                           /\ Z.of_nat j < m_zombie_session_count s)
             /\ (0 < m_zombie_session_count s ->
                 exists q, m_zombie_sessions s !! 0%nat = Some (Some q)).
Proof.
  intros [_ _ (zs & Ht & Hk & Hl) _ _ _ _ _]. rewrite Ht, Hk.
  split_and!; try lia.
  - rewrite length_app, length_map, repeat_length. lia.
  - intros p. rewrite owners_zombies. intros [j Hj]%list_elem_of_lookup. exists j.
    pose proof (lookup_lt_Some _ _ _ Hj). split; [|lia].
    rewrite lookup_app_l by (by rewrite length_map). by rewrite list_lookup_fmap, Hj.
  - intros Hpos. destruct zs as [|q zs]; [cbn in Hpos; lia|]. by exists q.
Qed.

Lemma Disconnect_queues p z s s1 :
  owned s -> deref p s = Some z -> m_connected z = true ->
  m_zombie_session_count s < Z.of_nat MAX_ZOMBIE_SESSIONS ->
  Disconnect p false s = Some s1 ->
  p ∈ owners (m_zombie_sessions s1) /\ m_running s1 = m_running s.
Proof.
  intros Hs Hz Hc Hroom. destruct (owned_zombie_bounds s Hs) as (Hlen & Hb & _).
  unfold Disconnect. rewrite Hz. cbn [mbind option_bind]. rewrite Hc. cbn [negb].
  destruct (quiet_close p false z s Hz) as ((_ & _ & Hzt & Hzc & Hrun) & _).
  set (s0 := close_session p false z s) in *. clearbody s0.
  assert (Hgoal : forall s2, m_zombie_sessions s2 = m_zombie_sessions s0 ->
    m_zombie_session_count s2 = m_zombie_session_count s0 -> m_running s2 = m_running s0 ->
    add_zombie p s2 = Some s1 -> p ∈ owners (m_zombie_sessions s1) /\ m_running s1 = m_running s).
  { intros s2 E1 E2 E3 Ha. rewrite <- Hrun, <- E3.
    apply (add_zombie_queues p s2); rewrite ?E1, ?E2, ?Hzt, ?Hzc; done || lia. }
  unfold OnSessionDisconnected. destruct (list_find _ (m_sessions s0)) as [[i o]|].
  - set (s2 := set_sessions _ _ s0). destruct (deref p s2) as [z2|]; [|done].
    cbn [mbind option_bind]. destruct (m_authenticated z2); apply Hgoal; try done;
      unfold NotifyMasterDisconnect; by destruct (m_master_callback s2).
  - by apply Hgoal.
Qed.

Lemma accept_PollTimeout s :
  m_running s = true ->
  accept_iteration PollTimeout s = s ← ReapZombieSessions s; Some (true, s).
Proof. intros Hr. unfold accept_iteration. by rewrite Hr. Qed.

(** A second reaping of a queue that has not been emptied. *)
Lemma reap_dead q s :
  0 < m_zombie_session_count s -> m_zombie_sessions s !! 0%nat = Some (Some q) ->
  deref q s = None -> ReapZombieSessions s = None.
Proof.
  intros Hc Hq Hd. unfold ReapZombieSessions.
  destruct (Z.to_nat (m_zombie_session_count s)) as [|n] eqn:Hn; [lia|]. cbn [reap_scan].
  rewrite (list_lookup_total_correct _ _ _ Hq), Hd. done.
Qed.

(** C30: the reaper deletes objects twice.  When a client disconnects while the
    queue has room, then either its thread has ended when the accept thread
    reaps, and the reaper touches the session after having deleted it; or it
    has not, and the reaper deletes the session under the running thread and
    keeps the pointer, which the next iteration follows. *)
Theorem reaper_deletes_twice p z s :
  owned s -> m_running s = true -> deref p s = Some z -> m_connected z = true ->
  m_zombie_session_count s < Z.of_nat MAX_ZOMBIE_SESSIONS ->
  exists s1, Disconnect p false s = Some s1
    /\ (r ← accept_iteration PollTimeout s1; accept_iteration PollTimeout r.2) = None
    /\ forall z1, deref p s1 = Some z1 ->
         accept_iteration PollTimeout (store p (set_thread (m_stack_slot z1) true z1) s1) = None.
Proof.
  intros Hs Hr Hz Hc Hroom. destruct (Disconnect_owned p z s Hs Hz) as (s1 & Hd & Hs1 & _).
  exists s1. destruct (Disconnect_queues p z s s1 Hs Hz Hc Hroom Hd) as [Hp Hrun].
  destruct (owned_zombie_bounds s1 Hs1) as (Hlen & Hb & Hin & H0).
  destruct (Hin p Hp) as (j & Hj & Hjlt). split_and!; [done| |].
  - rewrite accept_PollTimeout by congruence.
    destruct (ReapZombieSessions s1) as [s2|] eqn:Hreap; [|done]. cbn [mbind option_bind snd].
    destruct (reap_spec s1 s2 Hlen Hb Hreap) as (Hc2 & Hr2 & Hall).
    rewrite accept_PollTimeout by congruence.
    destruct H0 as [q Hq]; [lia|]. destruct (Hall 0%nat q ltac:(lia) Hq) as (Hq2 & Hdead & _).
    rewrite (reap_dead q s2); [done|lia|done|done].
  - intros z1 Hz1. set (s2 := store p _ s1).
    rewrite accept_PollTimeout by (change (m_running s2) with (m_running s1); congruence).
    destruct (ReapZombieSessions s2) as [s3|] eqn:Hreap; [|done]. exfalso.
    destruct (reap_spec s2 s3 Hlen Hb Hreap) as (_ & _ & Hall).
    destruct (Hall j p Hjlt Hj) as (_ & _ & Hnd).
    assert (Hz2 : deref p s2 = Some (set_thread (m_stack_slot z1) true z1))
      by (unfold s2; rewrite deref_store; by rewrite decide_True).
    pose proof (Hnd _ Hz2) as Hf. done.
Qed.

(** ** Witnesses *)

Lemma new_owned b e :
  (forall p z, heap e !! p = Some z -> p < next_object e) -> owned (new_P2pProxyServer b e).
Proof.
  intros Hf. split; try done.
  - exists []. split_and!; [done|done|cbn [length]; lia].
  - constructor.
  - intros p Hp. by apply elem_of_nil in Hp.
  - intros p z Hp. by apply elem_of_nil in Hp.
  - intros p z Hp. by apply elem_of_nil in Hp.
Qed.

Definition fresh_env : Env := {|
  heap := ∅; next_object := 100; open_fds := ∅; g_p2p_session_stack_used := repeat false 8;
  master_log := []; host_log := [] |}.

(** A running server. *)
Definition demo_server : P2pProxyServer :=
  match Start 0 3 (fun _ => true) true true (new_P2pProxyServer true fresh_env) with
  | Some (_, s) => s
  | None => new_P2pProxyServer true fresh_env
  end.

Lemma owned_listen fd private public running disposed lease s :
  owned s -> owned (set_listen fd private public running disposed lease s).
Proof. intros []. by split. Qed.

Lemma demo_owned : owned demo_server.
Proof.
  change demo_server with
    (set_listen 3 39990 0 true false false (new_P2pProxyServer true fresh_env)).
  apply owned_listen, new_owned. intros p z Hp. change (heap fresh_env) with (∅ : gmap Z P2pProxySession) in Hp.
  by rewrite lookup_empty in Hp.
Qed.

Definition demo_token (vip k : Z) : ExternalProxyToken :=
  {| ept_virtual_ip := vip; ept_token := repeat k 16; ept_physical_ip := repeat 0 16;
     ept_address_family := 2 |}.

(** What a client sends to authenticate with the token [k]. *)
Definition demo_auth (k : Z) : list Z :=
  PacketBuffer.wire (PacketId_ExternalProxy,
    bytes_of {| epc_proxy_ip := repeat 0 16; epc_address_family := 2; epc_proxy_port := 39990;
                epc_token := repeat k 16 |}).

(** Two tokens, two clients that connect and authenticate; the first leaves. *)
Definition demo_ops : list p2p_op :=
  [OpToken (demo_token 0x0a720002 1); OpToken (demo_token 0x0a720003 2);
   OpAccept 10 0x01020304; OpAccept 11 0x01020305;
   OpPacket 100 (demo_auth 1) 54; OpPacket 101 (demo_auth 2) 54; OpEnd 100; OpDone 100].

Definition idle (n : nat) (s : P2pProxyServer) : option P2pProxyServer := Some s.

(** [ops_ok] as a computation. *)
Definition op_okb (op : p2p_op) (s : P2pProxyServer) : bool :=
  match op with
  | OpPacket p data _ =>
      match deref p s with
      | Some z => m_connected z
                  && (negb (hdr_type (of_bytes data) =? PacketId_value PacketId_ExternalProxy)
                      || negb (m_authenticated z))
      | None => false
      end
  | OpEnd p | OpDone p => match deref p s with Some _ => true | None => false end
  | _ => true
  end.

Fixpoint ops_okb (ops : list p2p_op) (s : P2pProxyServer) : bool :=
  match ops with
  | [] => true
  | op :: ops => op_okb op s && match perform idle op s with
                                | Some s => ops_okb ops s
                                | None => true
                                end
  end.

Lemma ops_okb_spec ops s : ops_okb ops s = true -> ops_ok idle ops s.
Proof.
  revert s. induction ops as [|op ops IH]; intros s; [done|]. cbn [ops_okb ops_ok].
  intros [Hop Hops]%andb_true_iff. split.
  - destruct op as [| | |p data n|p|p|]; cbn [op_okb op_ok] in *; try done;
      destruct (deref p s) as [z|] eqn:Hz; try done.
    apply andb_true_iff in Hop as [Hc Ha]. exists z. split_and!; [done|done|]. intros Ht.
    rewrite Ht, Z.eqb_refl in Ha. by destruct (m_authenticated z).
  - intros s' Hs'. rewrite Hs' in Hops. by apply IH.
Qed.

Lemma idle_owned n p s :
  owned s -> waiting p s -> exists s', idle n s = Some s' /\ owned s' /\ waiting p s'.
Proof. by exists s. Qed.

Lemma p2p_sessions_owned_witness :
  exists s, performs idle demo_ops demo_server = Some s /\ owned s.
Proof.
  destruct (p2p_sessions_owned idle idle_owned demo_ops demo_server demo_owned) as (s & H & Ho & _).
  - apply ops_okb_spec. vm_compute. reflexivity.
  - exists s. split; [exact H|exact Ho].
Defined.

(** One client, registered. *)
Definition one_client : P2pProxyServer :=
  default demo_server (performs idle [OpToken (demo_token 0x0a720002 1); OpAccept 10 0x01020304;
                                      OpPacket 100 (demo_auth 1) 54] demo_server).

Lemma one_client_owned : owned one_client.
Proof.
  unfold one_client. match goal with |- context [performs idle ?l _] =>
    destruct (performs_owned idle idle_owned l demo_server demo_owned) as (s & H & Ho) end.
  - apply ops_okb_spec. vm_compute. reflexivity.
  - rewrite H. exact Ho.
Qed.

Lemma reaper_deletes_twice_witness :
  exists s1, Disconnect 100 false one_client = Some s1
    /\ (r ← accept_iteration PollTimeout s1; accept_iteration PollTimeout r.2) = None.
Proof.
  destruct (deref 100 one_client) as [z|] eqn:Hz; [|vm_compute in Hz; discriminate].
  assert (Hc : m_connected z = true).
  { assert (H : m_connected <$> deref 100 one_client = Some true) by (vm_compute; reflexivity).
    rewrite Hz in H. by injection H. }
  destruct (reaper_deletes_twice 100 z one_client one_client_owned
    ltac:(vm_compute; reflexivity) Hz Hc ltac:(vm_compute; reflexivity)) as (s1 & H1 & H2 & _).
  exists s1. split; [exact H1|exact H2].
Defined.
