(* ===== verification/P2pRouting.v ===== *)
(** * Routing, authentication and reception in the peer-to-peer server

    What [P2pServer] does with tokens, with packets between clients and with
    the stream of a session. *)

From stdpp Require Import base numbers list gmap.
From Stdlib Require Import ZArith Lia Bool.
From S2P Require Import Prelude Layout Types Protocol StreamLoop.
From S2P Require PacketBuffer.
From S2P Require Import P2pServer P2pOwnership.
Import PacketBuffer (PacketBuffer, wire, stream, buffer_ok, contents).

(** ** Specification *)

(** The registered clients a message for [dest_ip] goes to. *)
Definition player (s : P2pProxyServer) (q : Z) : bool :=
  match deref q s with Some z => m_authenticated z | None => false end.
Definition has_ip (dest_ip : Z) (s : P2pProxyServer) (q : Z) : bool :=
  match deref q s with Some z => m_virtual_ip z =? dest_ip | None => false end.

Definition recipients (dest_ip : Z) (s : P2pProxyServer) : list Z :=
  let players := filter (fun q => player s q = true) (owners (m_sessions s)) in
  if dest_ip =? m_broadcast_address s then players
  else take 1 (filter (fun q => has_ip dest_ip s q = true) players).

(** Nothing keeps a send to the session from going through. *)
Definition ready (z : P2pProxySession) : bool :=
  m_connected z && (0 <=? m_socket_fd z) && bool_decide (env_takes z = []).

(** The first waiting token with the client's secret. *)
Definition first_token (config : ExternalProxyConfig) (s : P2pProxyServer)
    : option (nat * ExternalProxyToken) :=
  list_find (fun t => ept_token t = epc_token config) (m_waiting_tokens s).

(** [k] fruitless rounds of [n]. *)
Fixpoint waits (meanwhile : nat -> P2pProxyServer -> option P2pProxyServer)
    (config : ExternalProxyConfig) (k n : nat) (s : P2pProxyServer) : option P2pProxyServer :=
  match k, n with
  | O, _ => Some s
  | S k, S n => match first_token config s with
                | None => s ← meanwhile n s; waits meanwhile config k n s
                | Some _ => None
                end
  | S _, O => None
  end.

(** ** Lemmas: reception *)

Section reception.
Context (meanwhile : nat -> P2pProxyServer -> option P2pProxyServer).

(** A packet is handled by its own bytes, whatever follows in the buffer. *)
Lemma ProcessData_front p pk k s :
  body_ok pk.2 = true ->
  ProcessData meanwhile p (wire pk ++ k) (zlen (wire pk)) s
  = ProcessData meanwhile p (wire pk) (zlen (wire pk)) s.
Proof.
  intros Hok. pose proof Hok as [Hb _]%body_ok_spec.
  rewrite <- (app_nil_r (wire pk)) at 3. unfold ProcessData. cbv zeta.
  rewrite !(header_of_wire pk), !(body_of_wire pk), (data_size_of_wire pk Hok) by exact Hok.
  destruct (_ <? _); [done|]. pose proof (sizeofz_nonneg ProxyDataHeader) as H0.
  repeat (destruct (_ =? _); [match goal with |- context [?a <=? ?b] =>
    destruct (Z.leb_spec a b); [|reflexivity] end; rewrite ?payload_app by lia;
    rewrite !of_bytes_app by assumption; reflexivity|]).
  reflexivity.
Qed.
End reception.

(** ** Lemmas: delivery *)

(** The session after a packet has been sent to it. *)
Definition with_packet (packet : list Z) (z : P2pProxySession) : P2pProxySession :=
  set_io [] (env_wire z ++ packet) z.

Definition delivered (packet : list Z) (l : list Z) (s : P2pProxyServer) (q : Z)
    : option P2pProxySession :=
  if bool_decide (q ∈ l) then with_packet packet <$> deref q s else deref q s.

Lemma Send_ready q z packet s :
  deref q s = Some z -> ready z = true ->
  Send q packet s = Some (true, store q (with_packet packet z) s).
Proof.
  intros Hz Hr. unfold ready in Hr. apply andb_true_iff in Hr as [Hr Ht%bool_decide_eq_true].
  apply andb_true_iff in Hr as [Hc Hf%Z.leb_le]. unfold Send. rewrite Hz. cbn [mbind option_bind].
  rewrite Hc, (proj2 (Z.ltb_ge _ _)), Ht by done. cbn [negb orb]. rewrite Z.eqb_refl.
  unfold with_packet. by rewrite ztake_all by done.
Qed.

Lemma send_to_ready q z packet s :
  deref q s = Some z -> ready z = true ->
  send_to packet q s = Some (store q (with_packet packet z) s).
Proof. intros Hz Hr. unfold send_to. by rewrite (Send_ready q z packet s Hz Hr). Qed.

Lemma player_store q z packet s r :
  deref q s = Some z -> player (store q (with_packet packet z) s) r = player s r.
Proof. intros Hz. unfold player. rewrite deref_store. case_decide as Hq; [by rewrite <- Hq, Hz|done]. Qed.

Lemma filter_player_store q z packet s (l : list Z) :
  deref q s = Some z ->
  filter (fun r => player (store q (with_packet packet z) s) r = true) l
  = filter (fun r => player s r = true) l.
Proof. intros Hz. apply list_filter_iff. intros r. by rewrite player_store. Qed.

(** All the players of the slots get the packet, each once. *)
Lemma send_each_delivers packet slots : forall s,
  NoDup (owners slots) -> (forall q, q ∈ owners slots -> is_Some (deref q s)) ->
  (forall q z, q ∈ owners slots -> deref q s = Some z -> m_authenticated z = true ->
     ready z = true) ->
  exists h, send_each (send_to packet) slots s = Some (set_heap h s)
    /\ forall q, deref q (set_heap h s)
         = delivered packet (filter (fun r => player s r = true) (owners slots)) s q.
Proof.
  induction slots as [|[p|] slots IH]; intros s Hnd Hl Hr.
  - exists (heap (env s)). split; [by destruct s as [???????????????[]]|]. intros q. unfold delivered.
    by rewrite bool_decide_false by (by intros ?%elem_of_nil).
  - cbn [send_each]. destruct (Hl p) as [z Hz]; [by apply elem_of_owners; left|]. rewrite Hz.
    cbn [mbind option_bind]. cbn [owners] in Hnd.
    change (owners (Some p :: slots)) with (p :: owners slots) in *.
    apply NoDup_cons in Hnd as [Hp Hnd].
    assert (Hl' : forall q, q ∈ owners slots -> is_Some (deref q s)) by (intros; apply Hl; by right).
    destruct (m_authenticated z) eqn:Ha.
    + rewrite (send_to_ready p z) by (done || by apply (Hr p z); [left| |]). cbn [mbind option_bind].
      set (s1 := store p (with_packet packet z) s).
      assert (Hd1 : forall q, q ∈ owners slots -> deref q s1 = deref q s).
      { intros q Hq. unfold s1. rewrite deref_store, decide_False; [done|]. by intros <-. }
      destruct (IH s1) as (h & Hs1 & Hh); [done|..].
      * intros q Hq. rewrite Hd1 by done. by apply Hl'.
      * intros q y Hq. rewrite Hd1 by done. apply Hr. by right.
      * exists h. split; [exact Hs1|]. intros q.
        change (deref q (set_heap h s)) with (deref q (set_heap h s1)). rewrite Hh.
        unfold delivered, s1. rewrite filter_player_store by done.
        rewrite filter_cons, decide_True by (unfold player; by rewrite Hz).
        rewrite !deref_store. destruct (decide (p = q)) as [<-|Hne].
        -- rewrite Hz, bool_decide_false, bool_decide_true; [done|by left|].
           intros Hin%list_elem_of_filter. tauto.
        -- destruct (decide (q ∈ filter (fun r => player s r = true) (owners slots))) as [Hin|Hin].
           ++ by rewrite !bool_decide_true by (done || by right).
           ++ rewrite !bool_decide_false; [done| |done]. intros [?|?]%elem_of_cons; [congruence|done].
    + cbn [mbind option_bind]. destruct (IH s) as (h & Hs1 & Hh); [done|done| |].
      { intros q y Hq. apply Hr. by right. }
      exists h. split; [done|]. intros q. rewrite Hh. unfold delivered.
      rewrite filter_cons, decide_False by (unfold player; by rewrite Hz, Ha). done.
  - by apply IH.
Qed.

(** The first player with the address gets the packet. *)
Lemma send_first_delivers packet dest slots s :
  (forall q, q ∈ owners slots -> is_Some (deref q s)) ->
  (forall q z, q ∈ owners slots -> deref q s = Some z -> m_authenticated z = true ->
     ready z = true) ->
  exists h, send_first (send_to packet) dest slots s = Some (set_heap h s)
    /\ forall q, deref q (set_heap h s)
         = delivered packet (take 1 (filter (fun r => has_ip dest s r = true)
                                       (filter (fun r => player s r = true) (owners slots)))) s q.
Proof.
  induction slots as [|[p|] slots IH]; intros Hl Hr.
  - exists (heap (env s)). split; [by destruct s as [???????????????[]]|]. intros q. unfold delivered.
    by rewrite bool_decide_false by (by intros ?%elem_of_nil).
  - cbn [send_first]. destruct (Hl p) as [z Hz]; [by apply elem_of_owners; left|]. rewrite Hz.
    cbn [mbind option_bind]. change (owners (Some p :: slots)) with (p :: owners slots) in *.
    assert (Hpl : player s p = m_authenticated z) by (unfold player; by rewrite Hz).
    assert (Hpi : has_ip dest s p = (m_virtual_ip z =? dest)) by (unfold has_ip; by rewrite Hz).
    assert (Hrest : exists h, send_first (send_to packet) dest slots s = Some (set_heap h s)
      /\ forall q, deref q (set_heap h s)
         = delivered packet (take 1 (filter (fun r => has_ip dest s r = true)
                                       (filter (fun r => player s r = true) (owners slots)))) s q).
    { apply IH; [intros; apply Hl; by right|]. intros q y Hq. apply Hr. by right. }
    rewrite filter_cons. destruct (m_authenticated z) eqn:Ha; cbn [andb];
      [|rewrite decide_False by (by rewrite Hpl); exact Hrest].
    rewrite decide_True, filter_cons by done.
    destruct (m_virtual_ip z =? dest) eqn:Hip;
      [|rewrite decide_False by (by rewrite Hpi); exact Hrest].
    rewrite decide_True by done. cbn [take].
    rewrite (send_to_ready p z) by (done || by apply (Hr p z); [left| |]).
    eexists. split; [reflexivity|]. intros q. unfold delivered.
    change (deref q (set_heap _ s)) with (deref q (store p (with_packet packet z) s)).
    rewrite deref_store. case_decide as Hpq.
    + subst q. rewrite bool_decide_true by (by left). by rewrite Hz.
    + rewrite bool_decide_false; [done|]. intros Hin%list_elem_of_singleton. congruence.
  - by apply IH.
Qed.

(** Every registered client takes what it is sent. *)
Definition players_ready (s : P2pProxyServer) : Prop :=
  forall q z, q ∈ owners (m_sessions s) -> deref q s = Some z -> ready z = true.

Lemma RouteMessage_delivers sender z info packet s :
  owned s -> deref sender s = Some z -> players_ready s ->
  pi_source_ipv4 info = 0 \/ pi_source_ipv4 info = m_virtual_ip z ->
  let dest := translate (m_broadcast_address s) (pi_dest_ipv4 info) in
  let info' := set_info (m_virtual_ip z) dest info in
  exists h, RouteMessage sender info (fun i => send_to (packet i)) s = Some (info', set_heap h s)
    /\ forall q, deref q (set_heap h s) = delivered (packet info') (recipients dest s) s q.
Proof.
  intros Hs Hz Hready Hsrc dest info'. unfold RouteMessage. rewrite Hz. cbn [mbind option_bind].
  assert (Hguard : negb (pi_source_ipv4 info =? 0)
                   && negb (pi_source_ipv4 info =? m_virtual_ip z) = false).
  { destruct Hsrc as [-> | ->]; [done|]. by rewrite Z.eqb_refl, andb_false_r. }
  assert (Hsource : (if pi_source_ipv4 info =? 0 then m_virtual_ip z else pi_source_ipv4 info)
                    = m_virtual_ip z).
  { destruct Hsrc as [-> | ->]; [done|]. by destruct (m_virtual_ip z =? 0). }
  rewrite Hguard. cbv zeta. rewrite Hsource. fold dest. fold info'.
  assert (Hl : forall q, q ∈ owners (m_sessions s) -> is_Some (deref q s)).
  { intros q Hq. apply (own_live s Hs), elem_of_app. by left. }
  assert (Hnd : NoDup (owners (m_sessions s))).
  { pose proof (own_nodup s Hs) as Hnd. by apply NoDup_app in Hnd as (? & _). }
  unfold recipients. destruct (dest =? m_broadcast_address s).
  - destruct (send_each_delivers (packet info') (m_sessions s) s) as (h & -> & Hh);
      [exact Hnd|done| |by exists h].
    intros q y Hq Hy _. by apply (Hready q).
  - destruct (send_first_delivers (packet info') dest (m_sessions s) s) as (h & -> & Hh);
      [done| |by exists h]. intros q y Hq Hy _. by apply (Hready q).
Qed.

Lemma proxy_data_encoded (header : ProxyDataHeader) data :
  wf header = true -> zlen data <= 4064 ->
  encoded_with 4096 PacketId_ProxyData header data (zlen data)
  = (EncodeResult_Success, wire_packet PacketId_ProxyData (bytes_of header ++ data)).
Proof.
  intros Hwf Hlen. pose proof (zlen_nonneg data). unfold encoded_with.
  assert (Hsz : sizeofz ProxyDataHeader = 20) by reflexivity.
  assert (Hbuf : zlen (repeat 0 4096) = 4096) by (unfold zlen; by rewrite repeat_length).
  change (Z.of_nat 4096) with 4096.
  assert (Hlen' : zlen (bytes_of header ++ data) = 20 + zlen data)
    by (by rewrite zlen_app, zlen_bytes_of, Hsz).
  pose proof (encode_with_data_ok (repeat 0 4096) 4096 PacketId_ProxyData header data Hwf) as H1.
  rewrite Hsz, Hbuf in H1. rewrite H1; unfold MAX_PACKET_SIZE; [|lia|lia].
  f_equal. apply ztake_packet_written; [lia|]. rewrite Hbuf. lia.
Qed.

Lemma translate_idem b d : translate b (translate b d) = translate b d.
Proof.
  unfold translate. destruct (Z.eqb_spec d LEGACY_BROADCAST) as [->|Hd].
  - by destruct (b =? LEGACY_BROADCAST).
  - by rewrite (proj2 (Z.eqb_neq _ _) Hd).
Qed.

(** ** Lemmas: authentication *)

Lemma token_accepted_iff config ip t :
  token_accepted config ip t = true <-> ept_token t = epc_token config.
Proof.
  unfold token_accepted. case_bool_decide as Ht; cbn [andb negb].
  - destruct (ip_match ip t); by split.
  - rewrite andb_false_r. by split.
Qed.

Lemma find_accepted config ip s :
  list_find (fun t => token_accepted config ip t = true) (m_waiting_tokens s)
  = first_token config s.
Proof. unfold first_token. apply list_find_ext. intros t. apply token_accepted_iff. Qed.

Lemma waits_rounds meanwhile config p ip k : forall n s sk,
  waits meanwhile config k n s = Some sk ->
  register_rounds meanwhile n p config ip s = register_rounds meanwhile (n - k) p config ip sk.
Proof.
  induction k as [|k IH]; intros n s sk Hw.
  - destruct n; injection Hw as <-; by rewrite ?Nat.sub_0_r.
  - destruct n as [|n]; [done|]. cbn [waits register_rounds Nat.sub] in *. rewrite find_accepted.
    destruct (first_token config s) as [[i t]|]; [done|].
    destruct (meanwhile n s) as [s1|]; [|done]. cbn [mbind option_bind] in *. by apply IH.
Qed.

Lemma proxy_config_encoded t :
  in_u 32 (ept_virtual_ip t) = true ->
  encoded 256 PacketId_ProxyConfig (proxy_config t)
  = wire_packet PacketId_ProxyConfig (bytes_of (proxy_config t)).
Proof.
  intros Hv. unfold encoded. assert (Hwf : wf (proxy_config t) = true).
  { change (in_u 32 (ept_virtual_ip t) && in_u 32 0xFFFF0000 = true). by rewrite Hv. }
  assert (Hbuf : zlen (repeat 0 256) = 256) by (unfold zlen; by rewrite repeat_length).
  change (Z.of_nat 256) with 256.
  assert (Hsz : sizeofz ProxyConfig = 8) by reflexivity.
  rewrite encode_ok; rewrite ?Hsz, ?Hbuf; done.
Qed.

(** A round that finds the client's token. *)
Lemma token_registers meanwhile p config ip k s sk i t z :
  let t' := default t (m_waiting_tokens sk !! S i) in
  waits meanwhile config k MAX_RETRIES s = Some sk -> first_token config sk = Some (i, t) ->
  (k < MAX_RETRIES)%nat -> deref p sk = Some z -> ready z = true ->
  in_u 32 (ept_virtual_ip t') = true ->
  exists s', TryRegisterUser meanwhile p config ip s = Some (true, s')
    /\ m_waiting_tokens s' = base.delete i (m_waiting_tokens sk)
    /\ deref p s' = Some (with_packet
         (wire_packet PacketId_ProxyConfig (bytes_of (proxy_config t')))
         (set_identity (ept_virtual_ip t') true z))
    /\ (forall q, q <> p -> deref q s' = deref q sk)
    /\ m_sessions s' = match list_find (None =.) (m_sessions sk) with
                       | Some (j, _) => <[j := Some p]> (m_sessions sk)
                       | None => m_sessions sk
                       end
    /\ m_broadcast_address s' = if m_session_count sk =? 0
                                then Z.lor (ept_virtual_ip t') 0xFFFF
                                else m_broadcast_address sk.
Proof.
  intros t' Hw Hf Hk Hz Hready Hv. pose proof (waits_rounds meanwhile config p ip k _ _ _ Hw) as Hr.
  unfold TryRegisterUser. rewrite Hr. clear Hr Hw. destruct (MAX_RETRIES - k)%nat as [|n] eqn:Hn; [lia|].
  cbn [register_rounds]. rewrite find_accepted, Hf. unfold register_session. cbv zeta.
  change (slot_behind i t (m_waiting_tokens sk)) with t'.
  change (deref p (set_tokens (base.delete i (m_waiting_tokens sk)) sk)) with (deref p sk).
  rewrite Hz. cbn [mbind option_bind]. set (z1 := set_identity (ept_virtual_ip t') true z).
  set (s1 := store p z1 _). set (s2 := if m_session_count s1 =? 0 then _ else s1).
  assert (Hd2 : forall q, deref q s2 = deref q s1) by (intros q; unfold s2; by destruct (_ =? 0)).
  assert (Hd3 : forall q, deref q (add_session p s2) = deref q s1).
  { intros q. rewrite <- Hd2. unfold add_session. by destruct (list_find _ _) as [[]|]. }
  assert (Hz1 : deref p (add_session p s2) = Some z1).
  { rewrite Hd3. unfold s1. rewrite deref_store. by rewrite decide_True. }
  rewrite (Send_ready p z1) by done. cbn [mbind option_bind].
  rewrite proxy_config_encoded by done. eexists. split; [reflexivity|].
  assert (Hsame : forall s3, m_waiting_tokens (store p z1 s3) = m_waiting_tokens s3) by done.
  split_and!.
  - unfold store, add_session, s2. destruct (list_find _ _) as [[]|], (m_session_count s1 =? 0); done.
  - rewrite deref_store. by rewrite decide_True.
  - intros q Hq. rewrite deref_store, decide_False, Hd3 by congruence. unfold s1.
    rewrite deref_store. by rewrite decide_False by congruence.
  - unfold add_session. assert (Hs2 : m_sessions s2 = m_sessions sk) by (unfold s2; by destruct (_ =? 0)).
    rewrite Hs2. by destruct (list_find _ _) as [[]|].
  - assert (Hb : m_broadcast_address s2 = if m_session_count sk =? 0
      then Z.lor (ept_virtual_ip t') 0xFFFF else m_broadcast_address sk).
    { unfold s2. change (m_session_count s1) with (m_session_count sk). by destruct (_ =? 0). }
    rewrite <- Hb. unfold add_session. by destruct (list_find _ _) as [[]|].
Qed.

(** ** Properties *)

(** C24: authentication is by the token alone.  When after [k < 10] fruitless
    rounds a waiting token has the client's sixteen bytes, the first such token
    is taken from the queue, whatever the client's address, but the session gets
    the virtual address of the token behind it in the queue (its own only when it
    was the last), with the [ProxyConfig] for it and the first free slot of the
    table; the first client sets the broadcast address, and no other session is
    touched.  After ten fruitless rounds the client is refused. *)
Theorem authentication_by_token meanwhile p config ip k s sk :
  waits meanwhile config k MAX_RETRIES s = Some sk ->
  match first_token config sk with
  | Some (i, t) => let t' := default t (m_waiting_tokens sk !! S i) in
      forall z, (k < MAX_RETRIES)%nat -> deref p sk = Some z -> ready z = true ->
      in_u 32 (ept_virtual_ip t') = true ->
      exists s', TryRegisterUser meanwhile p config ip s = Some (true, s')
        /\ m_waiting_tokens s' = base.delete i (m_waiting_tokens sk)
        /\ deref p s' = Some (with_packet
             (wire_packet PacketId_ProxyConfig (bytes_of (proxy_config t')))
             (set_identity (ept_virtual_ip t') true z))
        /\ (forall q, q <> p -> deref q s' = deref q sk)
        /\ m_sessions s' = match list_find (None =.) (m_sessions sk) with
                           | Some (j, _) => <[j := Some p]> (m_sessions sk)
                           | None => m_sessions sk
                           end
        /\ m_broadcast_address s' = if m_session_count sk =? 0
                                    then Z.lor (ept_virtual_ip t') 0xFFFF
                                    else m_broadcast_address sk
  | None => k = MAX_RETRIES -> TryRegisterUser meanwhile p config ip s = Some (false, sk)
  end.
Proof.
  intros Hw. destruct (first_token config sk) as [[i t]|] eqn:Hf.
  - cbv zeta. intros z Hk Hz Hready Hv. by apply (token_registers meanwhile p config ip k s sk i t z).
  - intros ->. unfold TryRegisterUser.
    rewrite (waits_rounds meanwhile config p ip MAX_RETRIES _ _ _ Hw). by rewrite Nat.sub_diag.
Qed.

(** of two clients whose tokens wait together, the first to authenticate
    gets the address of the second, who gets it too: both players have one
    address, and the first one's own belongs to nobody. *)
Theorem neighbours_share_address meanwhile p1 p2 config1 config2 ip1 ip2 t1 t2 z1 z2 s :
  m_waiting_tokens s = [t1; t2] -> ept_token t1 <> ept_token t2 ->
  epc_token config1 = ept_token t1 -> epc_token config2 = ept_token t2 ->
  p1 <> p2 -> deref p1 s = Some z1 -> ready z1 = true -> deref p2 s = Some z2 -> ready z2 = true ->
  in_u 32 (ept_virtual_ip t2) = true ->
  exists s1 s2, TryRegisterUser meanwhile p1 config1 ip1 s = Some (true, s1)
    /\ TryRegisterUser meanwhile p2 config2 ip2 s1 = Some (true, s2)
    /\ m_virtual_ip <$> deref p1 s2 = Some (ept_virtual_ip t2)
    /\ m_virtual_ip <$> deref p2 s2 = Some (ept_virtual_ip t2)
    /\ m_waiting_tokens s2 = [].
Proof.
  intros Hl Hne H1 H2 Hp Hz1 Hr1 Hz2 Hr2 Hv.
  assert (Hf1 : first_token config1 s = Some (0%nat, t1)).
  { unfold first_token. rewrite Hl. cbn [list_find]. by rewrite decide_True. }
  destruct (token_registers meanwhile p1 config1 ip1 0 s s 0%nat t1 z1)
    as (s1 & E1 & Hl1 & Hd1 & Ho1 & _); rewrite ?Hl; try done; [unfold MAX_RETRIES; lia|].
  rewrite Hl in Hl1, Hd1. cbn in Hl1.
  assert (Hf2 : first_token config2 s1 = Some (0%nat, t2)).
  { unfold first_token. rewrite Hl1. cbn [list_find]. by rewrite decide_True. }
  destruct (token_registers meanwhile p2 config2 ip2 0 s1 s1 0%nat t2 z2)
    as (s2 & E2 & Hl2 & Hd2 & Ho2 & _); rewrite ?Hl1; try done;
    [unfold MAX_RETRIES; lia|by rewrite Ho1|].
  rewrite Hl1 in Hl2, Hd2. exists s1, s2. split_and!; [done|done| | |done].
  - by rewrite Ho2, Hd1.
  - by rewrite Hd2.
Qed.

(** C22: a client's proxy data with no source address, or with its own, goes,
    with its virtual address as the source, once to every registered client
    (itself included) when it is for the broadcast address, else to the first
    client with the destination's address, and to nobody else; the host gets it
    when the destination is the broadcast address or its own. *)
Theorem proxy_data_routed sender z header data s :
  owned s -> deref sender s = Some z -> players_ready s ->
  pi_source_ipv4 (pdh_info header) = 0 \/ pi_source_ipv4 (pdh_info header) = m_virtual_ip z ->
  let dest := translate (m_broadcast_address s) (pi_dest_ipv4 (pdh_info header)) in
  let header' := {| pdh_info := set_info (m_virtual_ip z) dest (pdh_info header);
                    pdh_data_length := pdh_data_length header |} in
  wf header' = true -> zlen data <= 4064 ->
  exists s', HandleProxyData sender header data (zlen data) s = Some s'
    /\ (forall q, deref q s' = delivered (wire_packet PacketId_ProxyData (bytes_of header' ++ data))
                                 (recipients dest s) s q)
    /\ host_log (env s') = host_log (env s)
         ++ (if m_host_data_callback s
                && ((dest =? m_broadcast_address s)
                    || (negb (m_host_virtual_ip s =? 0) && (dest =? m_host_virtual_ip s)))
             then [{| hd_info := pdh_info header'; hd_data := data |}] else [])
    /\ same_tables s s'.
Proof.
  intros Hs Hz Hready Hsrc dest header' Hwf Hlen. unfold HandleProxyData.
  destruct (RouteMessage_delivers sender z (pdh_info header) (fun info => (encoded_with 4096
    PacketId_ProxyData {| pdh_info := info; pdh_data_length := pdh_data_length header |} data
    (zlen data)).2) s Hs Hz Hready Hsrc) as (h & -> & Hh). fold dest header' in Hh |- *.
  rewrite (proxy_data_encoded header' data Hwf Hlen) in Hh. cbn [snd] in Hh.
  cbn [mbind option_bind]. unfold HostShouldReceive. cbn [pi_dest_ipv4 set_info].
  change (m_broadcast_address (set_heap h s)) with (m_broadcast_address s).
  change (m_host_virtual_ip (set_heap h s)) with (m_host_virtual_ip s).
  change (m_host_data_callback (set_heap h s)) with (m_host_data_callback s).
  assert (Hdest : translate (m_broadcast_address s) dest = dest) by apply translate_idem.
  rewrite Hdest. eexists. split; [reflexivity|].
  rewrite ztake_all by done. set (others := negb (m_host_virtual_ip s =? 0) && _).
  assert (Hif : (if dest =? m_broadcast_address s then true else others)
                = (dest =? m_broadcast_address s) || others) by (by destruct (_ =? _)).
  rewrite Hif, (andb_comm (_ || _)). destruct (m_host_data_callback s && _).
  - by split_and!.
  - rewrite app_nil_r. by split_and!.
Qed.

(** a packet with another client's source address is sent to no client, but
    the host's game gets it, with the false source address. *)
Theorem spoofed_data_reaches_host sender z header data n s :
  deref sender s = Some z ->
  pi_source_ipv4 (pdh_info header) <> 0 -> pi_source_ipv4 (pdh_info header) <> m_virtual_ip z ->
  m_host_data_callback s = true ->
  pi_dest_ipv4 (pdh_info header) = m_broadcast_address s
  \/ (pi_dest_ipv4 (pdh_info header) = m_host_virtual_ip s /\ m_host_virtual_ip s <> 0
      /\ m_host_virtual_ip s <> LEGACY_BROADCAST)
  \/ pi_dest_ipv4 (pdh_info header) = LEGACY_BROADCAST ->
  exists s', HandleProxyData sender header data n s = Some s'
    /\ heap (env s') = heap (env s)
    /\ host_log (env s') = host_log (env s)
         ++ [{| hd_info := pdh_info header; hd_data := ztake n data |}].
Proof.
  intros Hz H0 Hne Hcb Hdest. unfold HandleProxyData, RouteMessage. rewrite Hz.
  cbn [mbind option_bind].
  rewrite (proj2 (Z.eqb_neq _ _) H0), (proj2 (Z.eqb_neq _ _) Hne). cbn [negb andb mbind option_bind].
  assert (Hto : HostShouldReceive (pi_dest_ipv4 (pdh_info header)) (m_host_virtual_ip s)
                  (m_broadcast_address s) = true).
  { unfold HostShouldReceive, translate. destruct Hdest as [-> |[(-> & Hn & Hl)| ->]].
    - destruct (_ =? LEGACY_BROADCAST); by rewrite Z.eqb_refl.
    - rewrite (proj2 (Z.eqb_neq _ _) Hl), (proj2 (Z.eqb_neq _ _) Hn), Z.eqb_refl.
      by destruct (_ =? _).
    - by rewrite !Z.eqb_refl. }
  rewrite Hto, Hcb. cbn [andb]. eexists. split; [reflexivity|]. by split.
Qed.

(** C23: however the stream of a session is cut into chunks that leave room for
    a partial packet in the buffer of 4096 bytes, the receive thread handles
    exactly its packets, in order, one after the other until one of them ends
    the session; then it disconnects. *)
Theorem session_dispatches_stream meanwhile W chunks p b s ps :
  0 < W <= SESSION_BUFFER_SIZE -> buffer_ok SESSION_BUFFER_SIZE b ->
  Forall (fun pk => body_ok pk.2 = true /\ zlen (wire pk) <= W) ps ->
  Forall (fun c => c <> [] /\ bytes_ok c = true /\ zlen c <= SESSION_BUFFER_SIZE + 1 - W) chunks ->
  concat chunks = stream ps ->
  ReceiveLoop meanwhile chunks p (PacketBuffer.reset b) s
  = s ← dispatch_all (session_running p) (ProcessData meanwhile p) ps s; Disconnect p false s.
Proof.
  intros HW Hok Hps Hch Heq. destruct (PacketBuffer.reset_spec _ _ Hok) as [Hok' Hc].
  unfold ReceiveLoop, receive_loop.
  rewrite <- (recv_loop_fresh (session_running p) (ProcessData meanwhile p) (Disconnect p false)
    SESSION_BUFFER_SIZE (fun _ => None) (fun pk k s => ProcessData_front meanwhile p pk k s)
    ltac:(done) W chunks (PacketBuffer.reset b) s ps) by done.
  by destruct (recv_loop _ _ _ _ _ chunks (PacketBuffer.reset b) s) as [[b' s']|].
Qed.

(** the buffer has the size of one [recv]: when a part of a packet is
    buffered and the next [recv] returns more than the rest of the buffer, the
    session is disconnected, however well-formed the stream. *)
Theorem overflow_disconnects meanwhile chunk chunks p z b s :
  buffer_ok SESSION_BUFFER_SIZE b -> bytes_ok chunk = true ->
  zlen chunk <= SESSION_BUFFER_SIZE < zlen (contents b) + zlen chunk ->
  deref p s = Some z -> m_connected z = true ->
  ReceiveLoop meanwhile (chunk :: chunks) p b s = Disconnect p false s.
Proof.
  intros Hok Hb Hlen Hz Hc. unfold ReceiveLoop, receive_loop.
  rewrite (recv_loop_overflow _ _ _ SESSION_BUFFER_SIZE) by
    (done || (unfold session_running; by rewrite Hz, <- Hc)). done.
Qed.

(** ** Witnesses *)

(** Two registered clients, the host listening; and a third, connected. *)
Definition two_clients : P2pProxyServer :=
  default demo_server (performs idle
    [OpAccept 10 0x01020304; OpAccept 11 0x01020305; OpAccept 12 0x01020306;
     OpToken (demo_token 0x0a720002 1); OpPacket 100 (demo_auth 1) 54;
     OpToken (demo_token 0x0a720003 2); OpPacket 101 (demo_auth 2) 54;
     OpToken (demo_token 0x0a720004 3)]
    (SetHostDataCallback true (SetHostVirtualIp 0x0a720001 demo_server))).

Lemma two_clients_owned : owned two_clients.
Proof.
  assert (Hs : owned (SetHostDataCallback true (SetHostVirtualIp 0x0a720001 demo_server))).
  { apply (quiet_owned (SetHostVirtualIp 0x0a720001 demo_server)); [apply quiet_net|].
    apply (quiet_owned demo_server); [apply quiet_net|apply demo_owned]. }
  unfold two_clients. match goal with |- context [performs idle ?l ?s0] =>
    destruct (performs_owned idle idle_owned l s0 Hs) as (s & H & Ho) end.
  - apply ops_okb_spec. vm_compute. reflexivity.
  - rewrite H. exact Ho.
Qed.

Lemma third_client : exists z, deref 102 two_clients = Some z /\ ready z = true.
Proof.
  destruct (deref 102 two_clients) as [z|] eqn:Hz; [|vm_compute in Hz; discriminate].
  assert (Hr : ready <$> deref 102 two_clients = Some true) by (vm_compute; reflexivity).
  rewrite Hz in Hr. exists z. split; [reflexivity|by injection Hr].
Qed.

#[local] Opaque two_clients.

Lemma authentication_by_token_witness :
  exists s', TryRegisterUser idle 102
      {| epc_proxy_ip := repeat 0 16; epc_address_family := 2; epc_proxy_port := 39990;
         epc_token := repeat 3 16 |} 0x7f000001 two_clients = Some (true, s')
    /\ m_waiting_tokens s' = [].
Proof.
  set (config := {| epc_proxy_ip := repeat 0 16; epc_address_family := 2;
                    epc_proxy_port := 39990; epc_token := repeat 3 16 |}).
  pose proof (authentication_by_token idle 102 config 0x7f000001 0 two_clients two_clients eq_refl) as H.
  assert (Hf : first_token config two_clients = Some (0%nat, demo_token 0x0a720004 3))
    by (vm_compute; reflexivity).
  rewrite Hf in H.
  destruct third_client as (z & Hz & Hr).
  destruct (H z ltac:(unfold MAX_RETRIES; lia) Hz Hr ltac:(vm_compute; reflexivity))
    as (s' & H1 & H2 & _).
  exists s'. split; [exact H1|]. rewrite H2. vm_compute. reflexivity.
Defined.

Definition demo_config (k : Z) : ExternalProxyConfig :=
  {| epc_proxy_ip := repeat 0 16; epc_address_family := 2; epc_proxy_port := 39990;
     epc_token := repeat k 16 |}.

(** Another client is accepted and its token arrives. *)
Definition two_waiting : P2pProxyServer :=
  default demo_server
    (performs idle [OpAccept 13 0x01020307; OpToken (demo_token 0x0a720005 4)] two_clients).

Lemma waiting_ready p :
  ready <$> deref p two_waiting = Some true ->
  exists z, deref p two_waiting = Some z /\ ready z = true.
Proof.
  destruct (deref p two_waiting) as [z|]; [|discriminate]. cbn. intros [= Hr]. by exists z.
Qed.

#[local] Opaque two_waiting.

Lemma neighbours_share_address_witness :
  exists s1 s2, TryRegisterUser idle 102 (demo_config 3) 0 two_waiting = Some (true, s1)
    /\ TryRegisterUser idle 103 (demo_config 4) 0 s1 = Some (true, s2)
    /\ m_virtual_ip <$> deref 102 s2 = m_virtual_ip <$> deref 103 s2.
Proof.
  destruct (waiting_ready 102 ltac:(vm_compute; reflexivity)) as (z1 & Hz1 & Hr1).
  destruct (waiting_ready 103 ltac:(vm_compute; reflexivity)) as (z2 & Hz2 & Hr2).
  destruct (neighbours_share_address idle 102 103 (demo_config 3) (demo_config 4) 0 0
    (demo_token 0x0a720004 3) (demo_token 0x0a720005 4) z1 z2 two_waiting
    ltac:(vm_compute; reflexivity) ltac:(discriminate) eq_refl eq_refl ltac:(discriminate)
    Hz1 Hr1 Hz2 Hr2 eq_refl) as (s1 & s2 & H1 & H2 & Ha & Hb & _).
  - exists s1, s2. split_and!; [exact H1|exact H2|]. rewrite Ha, Hb. reflexivity.
Defined.

Definition demo_data (src dst : Z) : ProxyDataHeader :=
  {| pdh_info := {| pi_source_ipv4 := src; pi_source_port := 5000; pi_dest_ipv4 := dst;
                    pi_dest_port := 5001; pi_protocol := 17 |};
     pdh_data_length := 3 |}.

(** The player with an address. *)
Lemma two_clients_player :
  exists z, deref 100 two_clients = Some z /\ m_virtual_ip z = 0x0a720002.
Proof.
  destruct (deref 100 two_clients) as [z|] eqn:Hz; [|vm_compute in Hz; discriminate].
  assert (Hv : m_virtual_ip <$> deref 100 two_clients = Some 0x0a720002) by (vm_compute; reflexivity).
  rewrite Hz in Hv. exists z. split; [reflexivity|by injection Hv].
Qed.

Lemma two_clients_ready : players_ready two_clients.
Proof.
  intros q z Hq Hz. assert (Ho : owners (m_sessions two_clients) = [100; 101])
    by (vm_compute; reflexivity). rewrite Ho in Hq.
  assert (H100 : ready <$> deref 100 two_clients = Some true) by (vm_compute; reflexivity).
  assert (H101 : ready <$> deref 101 two_clients = Some true) by (vm_compute; reflexivity).
  apply elem_of_cons in Hq as [->|Hq%list_elem_of_singleton].
  - rewrite Hz in H100. by injection H100.
  - subst q. rewrite Hz in H101. by injection H101.
Qed.

Lemma proxy_data_routed_witness :
  exists s', HandleProxyData 100 (demo_data 0 LEGACY_BROADCAST) [1; 2; 3] 3 two_clients = Some s'
    /\ length (host_log (env s')) = 1%nat.
Proof.
  destruct two_clients_player as (z & Hz & Hv).
  destruct (proxy_data_routed 100 z (demo_data 0 LEGACY_BROADCAST) [1; 2; 3] two_clients
    two_clients_owned Hz two_clients_ready ltac:(by left)) as (s' & H1 & _ & H2 & _).
  - rewrite Hv. vm_compute. reflexivity.
  - vm_compute. discriminate.
  - exists s'. split; [exact H1|]. rewrite H2. vm_compute. reflexivity.
Defined.

Lemma spoofed_data_reaches_host_witness :
  exists s', HandleProxyData 100 (demo_data 0x0a720003 0x0a720001) [1; 2; 3] 3 two_clients = Some s'
    /\ length (host_log (env s')) = 1%nat.
Proof.
  destruct two_clients_player as (z & Hz & Hv).
  destruct (spoofed_data_reaches_host 100 z (demo_data 0x0a720003 0x0a720001) [1; 2; 3] 3
    two_clients Hz) as (s' & H1 & _ & H2).
  - discriminate.
  - rewrite Hv. discriminate.
  - vm_compute. reflexivity.
  - right. left. split; [vm_compute; reflexivity|split; vm_compute; discriminate].
  - exists s'. split; [exact H1|]. rewrite H2. vm_compute. reflexivity.
Defined.

Definition session_buffer : PacketBuffer := PacketBuffer.new_PacketBuffer (repeat 0 4096).

Lemma session_buffer_ok : buffer_ok SESSION_BUFFER_SIZE session_buffer.
Proof. apply PacketBuffer.new_ok; vm_compute; reflexivity. Qed.

Lemma session_dispatches_stream_witness :
  let ps := [(PacketId_ExternalProxy, zdrop 12 (demo_auth 3)); (PacketId_Ping, [0; 7])] in
  ReceiveLoop idle [ztake 30 (stream ps); zdrop 30 (stream ps)] 102
    (PacketBuffer.reset session_buffer) two_clients
  = s ← dispatch_all (session_running 102) (ProcessData idle 102) ps two_clients;
    Disconnect 102 false s.
Proof.
  intros ps. apply (session_dispatches_stream idle 100 _ 102 session_buffer two_clients ps).
  - unfold SESSION_BUFFER_SIZE. lia.
  - apply session_buffer_ok.
  - repeat constructor; vm_compute; discriminate || reflexivity.
  - repeat constructor; vm_compute; discriminate || reflexivity.
  - vm_compute. reflexivity.
Defined.

(** Two packets of 3000 bytes, the first with 1096 bytes of the second in the
    first [recv], and more data waiting. *)
Lemma overflow_disconnects_witness :
  let big := wire (PacketId_Ping, repeat 1 2988) in
  let rest := zdrop 1096 (big ++ big) in
  ReceiveLoop idle [ztake 4096 rest] 102
    {| PacketBuffer.m_buffer := ztake 1096 big ++ repeat 0 3000; PacketBuffer.m_write_pos := 1096 |}
    two_clients
  = Disconnect 102 false two_clients.
Proof.
  intros big rest.
  destruct third_client as (z & Hz & Hr).
  assert (Hc : m_connected z = true).
  { unfold ready in Hr. apply andb_true_iff in Hr as [Hr _]. by apply andb_true_iff in Hr as [Hr _]. }
  apply (overflow_disconnects idle (ztake 4096 rest) [] 102 z); [| | |exact Hz|exact Hc].
  - split; [vm_compute; reflexivity|]. split; [vm_compute; split; discriminate|].
    split; vm_compute; reflexivity.
  - vm_compute. reflexivity.
  - split; [vm_compute; discriminate|vm_compute; reflexivity].
Defined.
