(* ===== verification/P2pClient.v ===== *)
(** * The peer-to-peer proxy client ([p2p/p2p_proxy_client.{hpp,cpp}])

    [P2pProxyClient], the side of a player that joins: it connects to the
    [P2pProxyServer] of the host, authenticates with a token and exchanges proxy
    packets.  The answers of the operating system are arguments; [open_fds] and
    [threads] hold the descriptors that are open and the number of thread
    objects that were created and not destroyed.  What other threads do while a
    method waits without the mutex is an argument of the method.  The calls of
    the packet callback are recorded.  A result [None] is a wait that never
    ends.  The options and the blocking mode of the descriptor are left out. *)

From stdpp Require Import base numbers list gmap.
From Stdlib Require Import ZArith Lia Bool.
From S2P Require Import Prelude Layout Types Protocol StreamLoop.
From S2P Require PacketBuffer.
Import PacketBuffer (PacketBuffer).

Definition FAILURE_TIMEOUT_MS : Z := 4000.
Definition CONNECT_TIMEOUT_MS : Z := 1500.
Definition RECV_BUFFER_SIZE : Z := 0x4000.
Definition P2P_CLIENT_STACK_SIZE : Z := 0x4000.

(** ** State *)

(** What lies outside the client.  [takes]: how many bytes the next calls of
    [::send] take ([-1] is an error); behind them a send takes everything. *)
Record Outside : Type := {
  open_fds : gset Z;
  threads : nat;
  takes : list Z;
  sent : list Z;
  callbacks : list (PacketId * list Z);
  broadcasts : nat
}.

Record P2pProxyClient : Type := {
  m_socket_fd : Z;
  m_connected : bool;
  m_disposed : bool;
  m_ready : bool;
  m_proxy_config : ProxyConfig;
  m_recv_thread_created : bool;
  m_recv_thread_running : bool;
  m_recv_buffer : PacketBuffer;
  m_packet_callback : bool;
  outside : Outside
}.

Definition new_P2pProxyClient (packet_callback : bool) (buffer : PacketBuffer) (o : Outside)
    : P2pProxyClient := {|
  m_socket_fd := -1; m_connected := false; m_disposed := false; m_ready := false;
  m_proxy_config := {| pc_proxy_ip := 0; pc_proxy_subnet_mask := 0 |};
  m_recv_thread_created := false; m_recv_thread_running := false;
  m_recv_buffer := PacketBuffer.reset buffer; m_packet_callback := packet_callback; outside := o |}.

(** *** Assignments *)

Definition set_socket (fd : Z) (connected : bool) (c : P2pProxyClient) : P2pProxyClient := {|
  m_socket_fd := fd; m_connected := connected; m_disposed := m_disposed c; m_ready := m_ready c;
  m_proxy_config := m_proxy_config c; m_recv_thread_created := m_recv_thread_created c;
  m_recv_thread_running := m_recv_thread_running c; m_recv_buffer := m_recv_buffer c;
  m_packet_callback := m_packet_callback c; outside := outside c |}.

Definition set_ready (ready : bool) (config : ProxyConfig) (c : P2pProxyClient)
    : P2pProxyClient := {|
  m_socket_fd := m_socket_fd c; m_connected := m_connected c; m_disposed := m_disposed c;
  m_ready := ready; m_proxy_config := config; m_recv_thread_created := m_recv_thread_created c;
  m_recv_thread_running := m_recv_thread_running c; m_recv_buffer := m_recv_buffer c;
  m_packet_callback := m_packet_callback c; outside := outside c |}.

Definition set_thread (created running : bool) (c : P2pProxyClient) : P2pProxyClient := {|
  m_socket_fd := m_socket_fd c; m_connected := m_connected c; m_disposed := m_disposed c;
  m_ready := m_ready c; m_proxy_config := m_proxy_config c; m_recv_thread_created := created;
  m_recv_thread_running := running; m_recv_buffer := m_recv_buffer c;
  m_packet_callback := m_packet_callback c; outside := outside c |}.

Definition set_rest (disposed : bool) (b : PacketBuffer) (o : Outside) (c : P2pProxyClient)
    : P2pProxyClient := {|
  m_socket_fd := m_socket_fd c; m_connected := m_connected c; m_disposed := disposed;
  m_ready := m_ready c; m_proxy_config := m_proxy_config c;
  m_recv_thread_created := m_recv_thread_created c;
  m_recv_thread_running := m_recv_thread_running c; m_recv_buffer := b;
  m_packet_callback := m_packet_callback c; outside := o |}.

Definition set_outside (o : Outside) (c : P2pProxyClient) : P2pProxyClient :=
  set_rest (m_disposed c) (m_recv_buffer c) o c.
Definition set_buffer (b : PacketBuffer) (c : P2pProxyClient) : P2pProxyClient :=
  set_rest (m_disposed c) b (outside c) c.

Definition set_system (fds : gset Z) (n : nat) (c : P2pProxyClient) : P2pProxyClient :=
  set_outside {| open_fds := fds; threads := n; takes := takes (outside c);
                 sent := sent (outside c); callbacks := callbacks (outside c);
                 broadcasts := broadcasts (outside c) |} c.
Definition set_io (l out : list Z) (c : P2pProxyClient) : P2pProxyClient :=
  set_outside {| open_fds := open_fds (outside c); threads := threads (outside c); takes := l;
                 sent := out; callbacks := callbacks (outside c);
                 broadcasts := broadcasts (outside c) |} c.
Definition set_calls (l : list (PacketId * list Z)) (n : nat) (c : P2pProxyClient)
    : P2pProxyClient :=
  set_outside {| open_fds := open_fds (outside c); threads := threads (outside c);
                 takes := takes (outside c); sent := sent (outside c); callbacks := l;
                 broadcasts := n |} c.

(** [m_ready_cv.Broadcast()] *)
Definition broadcast (c : P2pProxyClient) : P2pProxyClient :=
  set_calls (callbacks (outside c)) (S (broadcasts (outside c))) c.

(** [close(m_socket_fd); m_socket_fd = -1] *)
Definition close_socket (c : P2pProxyClient) : P2pProxyClient :=
  set_socket (-1) (m_connected c)
    (set_system (open_fds (outside c) ∖ {[ m_socket_fd c ]}) (threads (outside c)) c).

(** ** Connecting *)

Inductive connect_result : Type := ConnectDone | ConnectInProgress | ConnectFails.

(** What the system answers to [socket], [connect], [select], [getsockopt]
    ([None]: it fails) and [CreateThread]. *)
Record answers : Type := {
  ans_socket : Z;
  ans_connect : connect_result;
  ans_select : Z;
  ans_so_error : option Z;
  ans_thread : bool
}.

(** Step 6: the receive thread. *)
Definition start_thread (a : answers) (c : P2pProxyClient) : bool * P2pProxyClient :=
  let c := set_thread true true (set_socket (m_socket_fd c) true c) in
  if ans_thread a then (true, set_system (open_fds (outside c)) (S (threads (outside c))) c)
  else (false, set_thread false false (set_socket (-1) false (close_socket c))).

(** [Connect(ip_bytes, ip_len, port)]; [during] is what other threads do while
    the mutex is released for [select].  Neither address nor port has an effect
    on the client. *)
Definition Connect (ip_bytes : option (list Z)) (ip_len port : Z) (a : answers)
    (during : P2pProxyClient -> P2pProxyClient) (c : P2pProxyClient) : bool * P2pProxyClient :=
  if m_connected c then (true, c)
  else if bool_decide (ip_bytes = None) || (ip_len <? 4) then (false, c)
  else
    let c := set_socket (ans_socket a) (m_connected c) c in
    if ans_socket a <? 0 then (false, c)
    else
      let c := set_system ({[ ans_socket a ]} ∪ open_fds (outside c)) (threads (outside c)) c in
      match ans_connect a with
      | ConnectFails => (false, close_socket c)
      | ConnectDone => start_thread a c
      | ConnectInProgress =>
          let fd_to_poll := m_socket_fd c in
          let c := during c in
          if negb (m_socket_fd c =? fd_to_poll) then (false, c)
          else if ans_select a <=? 0 then (false, close_socket c)
          else match ans_so_error a with
               | Some 0 => start_thread a c
               | _ => (false, close_socket c)
               end
      end.

(** [Connect(address, port)]; [parsed] is what [inet_pton] answers. *)
Definition Connect_address (address : option (list Z)) (parsed : option (list Z)) (port : Z)
    (a : answers) (during : P2pProxyClient -> P2pProxyClient) (c : P2pProxyClient)
    : bool * P2pProxyClient :=
  if bool_decide (address = None) then (false, c)
  else match parsed with
       | None => (false, c)
       | Some bytes => Connect (Some bytes) 4 port a during c
       end.

(** [thread]: what the receive thread does until it returns, with the socket
    closed; [None] when it never returns. *)
Definition Disconnect (thread : P2pProxyClient -> option P2pProxyClient) (c : P2pProxyClient)
    : option P2pProxyClient :=
  if negb (m_connected c) && (m_socket_fd c <? 0) then Some c
  else
    let c := set_thread (m_recv_thread_created c) false c in
    let c := if 0 <=? m_socket_fd c then close_socket c else c in
    c ← (if m_recv_thread_created c then
           c ← thread c;
           let c := set_system (open_fds (outside c)) (pred (threads (outside c))) c in
           Some (set_thread false (m_recv_thread_running c) c)
         else Some c);
    Some (broadcast (set_ready false (m_proxy_config c) (set_socket (m_socket_fd c) false c))).

(** [delete] *)
Definition destroy (thread : P2pProxyClient -> option P2pProxyClient) (c : P2pProxyClient)
    : option P2pProxyClient :=
  Disconnect thread (set_rest true (m_recv_buffer c) (outside c) c).

Definition IsConnected (c : P2pProxyClient) : bool := m_connected c.
Definition IsReady (c : P2pProxyClient) : bool := m_ready c.
Definition GetProxyConfig (c : P2pProxyClient) : ProxyConfig := m_proxy_config c.
Definition GetVirtualIp (c : P2pProxyClient) : Z := pc_proxy_ip (m_proxy_config c).

(** ** Sending *)

(** [::send(m_socket_fd, data, size, 0)] and the comparison of its result. *)
Definition send_bytes (data : list Z) (c : P2pProxyClient) : bool * P2pProxyClient :=
  let '(n, l) := match takes (outside c) with
                 | [] => (zlen data, [])
                 | k :: l => (Z.max (-1) (Z.min k (zlen data)), l)
                 end in
  (n =? zlen data, set_io l (sent (outside c) ++ ztake n data) c).

Definition Send (data : list Z) (c : P2pProxyClient) : bool * P2pProxyClient :=
  if negb (m_connected c) || (m_socket_fd c <? 0) then (false, c) else send_bytes data c.

(** The packet in a local array of [n] bytes, as far as it was encoded. *)
Definition encoded {T} `{HasLayout T} (n : nat) (type : PacketId) (payload : T) : list Z :=
  let '(_, packet, len) := encode (repeat 0 n) (Z.of_nat n) type payload in ztake len packet.

Definition PerformAuth (config : ExternalProxyConfig) (c : P2pProxyClient)
    : bool * P2pProxyClient :=
  if negb (m_connected c) then (false, c)
  else send_bytes (encoded 256 PacketId_ExternalProxy config) c.

(** [during]: what other threads do while this one waits, at most
    [timeout_ms]. *)
Definition EnsureProxyReady (during : P2pProxyClient -> P2pProxyClient) (c : P2pProxyClient)
    : bool * P2pProxyClient :=
  if m_ready c then (true, c)
  else if negb (m_connected c) then (false, c)
  else let c := during c in (m_ready c, c).

Definition SendProxyData (header : ProxyDataHeader) (data : list Z) (data_len : Z)
    (c : P2pProxyClient) : bool * P2pProxyClient :=
  let '(_, packet, len) :=
    encode_with_data (repeat 0 4096) 4096 PacketId_ProxyData header (Some data) data_len in
  Send (ztake len packet) c.

Definition SendProxyConnect (request : ProxyConnectRequest) (c : P2pProxyClient)
    : bool * P2pProxyClient :=
  Send (encoded 256 PacketId_ProxyConnect request) c.

Definition SendProxyConnectReply (response : ProxyConnectResponse) (c : P2pProxyClient)
    : bool * P2pProxyClient :=
  Send (encoded 256 PacketId_ProxyConnectReply response) c.

Definition SendProxyDisconnect (message : ProxyDisconnectMessage) (c : P2pProxyClient)
    : bool * P2pProxyClient :=
  Send (encoded 256 PacketId_ProxyDisconnect message) c.

(** ** Receiving *)

Definition HandleProxyConfig (config : ProxyConfig) (c : P2pProxyClient) : P2pProxyClient :=
  broadcast (set_ready true config c).

(** [m_packet_callback(type, data, size)] *)
Definition callback (type : PacketId) (data : list Z) (c : P2pProxyClient) : P2pProxyClient :=
  if m_packet_callback c
  then set_calls (callbacks (outside c) ++ [(type, data)]) (broadcasts (outside c)) c else c.

Definition HandleProxyData (header : ProxyDataHeader) (data : list Z) (data_len : Z)
    (c : P2pProxyClient) : P2pProxyClient :=
  let total_size := sizeofz ProxyDataHeader + data_len in
  if total_size <=? 4096
  then callback PacketId_ProxyData (bytes_of header ++ ztake data_len data) c else c.

Definition HandleProxyConnect (request : ProxyConnectRequest) (c : P2pProxyClient)
    : P2pProxyClient :=
  callback PacketId_ProxyConnect (bytes_of request) c.

Definition HandleProxyConnectReply (response : ProxyConnectResponse) (c : P2pProxyClient)
    : P2pProxyClient :=
  callback PacketId_ProxyConnectReply (bytes_of response) c.

Definition HandleProxyDisconnect (message : ProxyDisconnectMessage) (c : P2pProxyClient)
    : P2pProxyClient :=
  callback PacketId_ProxyDisconnect (bytes_of message) c.

(** One packet at the front of [data]. *)
Definition ProcessData (data : list Z) (size : Z) (c : P2pProxyClient) : P2pProxyClient :=
  if size <? sizeofz LdnHeader then c
  else
    let header := of_bytes (A:=LdnHeader) data in
    let packet_data := zdrop (sizeofz LdnHeader) data in
    let n := u64 (hdr_data_size header) in
    let type_is id := hdr_type header =? PacketId_value id in
    if type_is PacketId_ProxyConfig then
      if sizeofz ProxyConfig <=? n then HandleProxyConfig (of_bytes packet_data) c else c
    else if type_is PacketId_ProxyData then
      if sizeofz ProxyDataHeader <=? n then
        let payload_len := n - sizeofz ProxyDataHeader in
        HandleProxyData (of_bytes packet_data)
          (ztake payload_len (zdrop (sizeofz ProxyDataHeader) packet_data)) payload_len c
      else c
    else if type_is PacketId_ProxyConnect then
      if sizeofz ProxyConnectRequest <=? n then HandleProxyConnect (of_bytes packet_data) c else c
    else if type_is PacketId_ProxyConnectReply then
      if sizeofz ProxyConnectResponse <=? n
      then HandleProxyConnectReply (of_bytes packet_data) c else c
    else if type_is PacketId_ProxyDisconnect then
      if sizeofz ProxyDisconnectMessage <=? n
      then HandleProxyDisconnect (of_bytes packet_data) c else c
    else c.

(** [while (m_recv_thread_running && !m_disposed)] *)
Definition client_running (c : P2pProxyClient) : option bool :=
  Some (m_recv_thread_running c && negb (m_disposed c)).

(** The two loops; a full buffer is emptied. *)
Definition receive_loop (chunks : list (list Z)) (c : P2pProxyClient)
    : option (PacketBuffer * P2pProxyClient) :=
  recv_loop client_running (fun data size c => Some (ProcessData data size c))
    (fun c => Some (set_thread (m_recv_thread_created c) false c)) RECV_BUFFER_SIZE
    (fun b => Some (PacketBuffer.reset b)) chunks (m_recv_buffer c) c.

(** The end of the thread. *)
Definition mark_disconnected (c : P2pProxyClient) : P2pProxyClient :=
  if m_connected c && negb (m_disposed c)
  then broadcast (set_ready false (m_proxy_config c) (set_socket (m_socket_fd c) false c))
  else c.

Definition ReceiveLoop (chunks : list (list Z)) (c : P2pProxyClient) : option P2pProxyClient :=
  '(b, c) ← receive_loop chunks c;
  Some (mark_disconnected (set_buffer b c)).

Import PacketBuffer (wire, stream, buffer_ok, contents).

(** ** Specification *)

(** What the callback is given for a packet. *)
Definition delivery (pk : PacketId * list Z) : list (PacketId * list Z) :=
  let take_if (n : Z) := if n <=? zlen pk.2 then [(pk.1, ztake n pk.2)] else [] in
  match pk.1 with
  | PacketId_ProxyData =>
      if (sizeofz ProxyDataHeader <=? zlen pk.2) && (zlen pk.2 <=? 4096) then [pk] else []
  | PacketId_ProxyConnect => take_if (sizeofz ProxyConnectRequest)
  | PacketId_ProxyConnectReply => take_if (sizeofz ProxyConnectResponse)
  | PacketId_ProxyDisconnect => take_if (sizeofz ProxyDisconnectMessage)
  | _ => []
  end.

(** The configuration a packet carries. *)
Definition config_of (pk : PacketId * list Z) : option ProxyConfig :=
  match pk.1 with
  | PacketId_ProxyConfig =>
      if sizeofz ProxyConfig <=? zlen pk.2 then Some (of_bytes pk.2) else None
  | _ => None
  end.

(** The last one of a stream. *)
Definition last_config (ps : list (PacketId * list Z)) : option ProxyConfig :=
  last (omap config_of ps).

(** ** Lemmas *)

Definition handled (pk : PacketId * list Z) (c : P2pProxyClient) : P2pProxyClient :=
  let c := match config_of pk with Some config => HandleProxyConfig config c | None => c end in
  foldl (fun c d => callback d.1 d.2 c) c (delivery pk).

Lemma bytes_of_front `{HasLayout T} `{!LayoutLaws (layout_of T)} l :
  bytes_ok l = true -> sizeofz T <= zlen l -> bytes_of (of_bytes (A:=T) l) = ztake (sizeofz T) l.
Proof.
  intros Hl Hn. unfold sizeofz, zlen, ztake in *. rewrite bytes_of_of_bytes by (done || lia).
  by rewrite Nat2Z.id.
Qed.

(** A packet at the front of the buffer, whatever follows it. *)
Lemma client_handles_packet pk k c :
  body_ok pk.2 = true -> ProcessData (wire pk ++ k) (zlen (wire pk)) c = handled pk c.
Proof.
  intros Hok. pose proof Hok as [Hb _]%body_ok_spec.
  unfold ProcessData. cbv zeta.
  rewrite (header_of_wire pk), (body_of_wire pk), (data_size_of_wire pk Hok) by exact Hok.
  rewrite (proj2 (Z.ltb_ge _ _)) by
    (rewrite PacketBuffer.zlen_wire, sizeofz_header; pose proof (zlen_nonneg pk.2); lia).
  pose proof (sizeofz_nonneg ProxyDataHeader) as H0. unfold handled, config_of, delivery.
  destruct pk as [type body]. cbn [fst snd] in *.
  destruct type; cbn [packet_header hdr_type PacketId_value Z.eqb Pos.eqb foldl]; try reflexivity.
  - destruct (Z.leb_spec (sizeofz ProxyConfig) (zlen body)); [|done]. by rewrite of_bytes_app.
  - destruct (Z.leb_spec (sizeofz ProxyConnectRequest) (zlen body)); [|done].
    unfold HandleProxyConnect. by rewrite of_bytes_app, bytes_of_front.
  - destruct (Z.leb_spec (sizeofz ProxyConnectResponse) (zlen body)); [|done].
    unfold HandleProxyConnectReply. by rewrite of_bytes_app, bytes_of_front.
  - destruct (Z.leb_spec (sizeofz ProxyDataHeader) (zlen body)); [|done]. cbn [andb].
    unfold HandleProxyData. replace (_ + (_ - _)) with (zlen body) by lia.
    destruct (zlen body <=? 4096); [|done]. cbn [foldl].
    rewrite of_bytes_app, bytes_of_front, payload_app by (done || lia). f_equal.
    rewrite (ztake_all _ (zdrop _ _)), ztake_zdrop; [done|]. rewrite zlen_zdrop; lia.
  - destruct (Z.leb_spec (sizeofz ProxyDisconnectMessage) (zlen body)); [|done].
    unfold HandleProxyDisconnect. by rewrite of_bytes_app, bytes_of_front.
Qed.

Lemma client_handles_wire pk c :
  body_ok pk.2 = true -> ProcessData (wire pk) (zlen (wire pk)) c = handled pk c.
Proof. intros Hok. by rewrite <- (client_handles_packet pk [] c Hok), app_nil_r. Qed.

(** What handling a packet changes. *)
Definition same_connection (c c' : P2pProxyClient) : Prop :=
  m_socket_fd c' = m_socket_fd c /\ m_connected c' = m_connected c
  /\ m_disposed c' = m_disposed c /\ m_recv_thread_created c' = m_recv_thread_created c
  /\ m_recv_thread_running c' = m_recv_thread_running c
  /\ m_packet_callback c' = m_packet_callback c
  /\ open_fds (outside c') = open_fds (outside c) /\ threads (outside c') = threads (outside c)
  /\ takes (outside c') = takes (outside c) /\ sent (outside c') = sent (outside c).

#[export] Instance same_connection_preorder : PreOrder same_connection.
Proof.
  split; [intros c; by repeat split|].
  intros a b c (? & ? & ? & ? & ? & ? & ? & ? & ? & ?) (? & ? & ? & ? & ? & ? & ? & ? & ? & ?).
  repeat split; congruence.
Qed.

Lemma callback_spec type data c :
  same_connection c (callback type data c)
  /\ callbacks (outside (callback type data c))
     = callbacks (outside c) ++ (if m_packet_callback c then [(type, data)] else [])
  /\ m_ready (callback type data c) = m_ready c
  /\ m_proxy_config (callback type data c) = m_proxy_config c.
Proof. unfold callback. destruct (m_packet_callback c) eqn:H; rewrite ?app_nil_r; by repeat split. Qed.

Lemma handled_spec pk c :
  same_connection c (handled pk c)
  /\ callbacks (outside (handled pk c))
     = callbacks (outside c) ++ (if m_packet_callback c then delivery pk else [])
  /\ m_ready (handled pk c) = m_ready c || bool_decide (is_Some (config_of pk))
  /\ m_proxy_config (handled pk c) = default (m_proxy_config c) (config_of pk).
Proof.
  assert (Hnone : same_connection c c /\ callbacks (outside c)
     = callbacks (outside c) ++ (if m_packet_callback c then [] else [])
  /\ m_ready c = m_ready c || false /\ m_proxy_config c = m_proxy_config c).
  { rewrite orb_false_r. destruct (m_packet_callback c); rewrite app_nil_r; by repeat split. }
  assert (Hcall : forall d, let c' := callback d.1 d.2 c in same_connection c c'
     /\ callbacks (outside c') = callbacks (outside c) ++ (if m_packet_callback c then [d] else [])
     /\ m_ready c' = m_ready c || false /\ m_proxy_config c' = m_proxy_config c).
  { intros [t d]. rewrite orb_false_r. apply callback_spec. }
  unfold handled, delivery, config_of. destruct pk as [type body]. cbn [fst snd].
  destruct type; cbn [foldl]; try exact Hnone;
    repeat match goal with |- context [if ?b then _ else _] =>
      lazymatch b with m_packet_callback _ => fail | _ => destruct b end end;
    cbn [foldl]; try exact Hnone; try exact (Hcall (_, _)).
  rewrite orb_true_r. destruct (m_packet_callback c); rewrite app_nil_r; by repeat split.
Qed.

Lemma handled_all_spec ps c :
  let c' := foldl (fun c pk => handled pk c) c ps in
  same_connection c c'
  /\ callbacks (outside c')
     = callbacks (outside c) ++ (if m_packet_callback c then concat (map delivery ps) else [])
  /\ m_ready c' = m_ready c || bool_decide (is_Some (last_config ps))
  /\ m_proxy_config c' = default (m_proxy_config c) (last_config ps).
Proof.
  induction ps as [|pk ps IH] using rev_ind; cbn zeta.
  - cbn. rewrite orb_false_r. destruct (m_packet_callback c); rewrite app_nil_r; by repeat split.
  - rewrite foldl_app. cbn [foldl]. cbn zeta in IH. destruct IH as (H1 & H2 & H3 & H4).
    set (c1 := foldl _ c ps) in *. destruct (handled_spec pk c1) as (G1 & G2 & G3 & G4).
    pose proof H1 as (_ & _ & _ & _ & _ & Hcb & _). split_and!.
    + by etransitivity.
    + rewrite G2, H2, Hcb, <- app_assoc, map_app, concat_app. cbn [map concat].
      rewrite app_nil_r. by destruct (m_packet_callback c).
    + rewrite G3, H3. unfold last_config. rewrite omap_app. cbn [omap list_omap].
      destruct (config_of pk).
      2: { rewrite app_nil_r, (bool_decide_false (is_Some (@None ProxyConfig))), orb_false_r;
           [done|by intros []]. }
      rewrite last_snoc, !(bool_decide_true (is_Some (Some _))), !orb_true_r by done. done.
    + rewrite G4, H4. unfold last_config. rewrite omap_app. cbn [omap list_omap].
      destruct (config_of pk); [|by rewrite app_nil_r]. by rewrite last_snoc.
Qed.

(** The stream of a connection, in whatever chunks. *)
Lemma client_loop_stream W chunks c ps :
  0 < W <= RECV_BUFFER_SIZE -> buffer_ok RECV_BUFFER_SIZE (m_recv_buffer c) ->
  m_recv_thread_running c = true -> m_disposed c = false ->
  Forall (fun pk => body_ok pk.2 = true /\ zlen (wire pk) <= W) ps ->
  Forall (fun k => k <> [] /\ bytes_ok k = true /\ zlen k <= RECV_BUFFER_SIZE + 1 - W) chunks ->
  concat chunks = stream ps -> contents (m_recv_buffer c) = [] ->
  snd <$> receive_loop chunks c = Some (foldl (fun c pk => handled pk c) c ps).
Proof.
  intros HW Hb Hrun Hdis Hps Hch Heq Hc. unfold receive_loop.
  rewrite (recv_loop_fresh _ _ _ RECV_BUFFER_SIZE _) with (W := W) (ps := ps) by
    (done || (intros pk k c0 Hok; by rewrite client_handles_packet, client_handles_wire)).
  clear Hch Heq Hc chunks. revert c Hb Hrun Hdis. induction ps as [|pk ps IH]; intros c Hb Hrun Hdis.
  - cbn [dispatch_all foldl]. unfold client_running. by rewrite Hrun.
  - apply Forall_cons in Hps as [[Hok _] Hps]. cbn [dispatch_all foldl].
    assert (Hgo : client_running c = Some true) by (unfold client_running; by rewrite Hrun, Hdis).
    rewrite Hgo. cbn [mbind option_bind].
    rewrite client_handles_wire by done.
    destruct (handled_spec pk c) as [(_ & _ & Hd & _ & Hr & _) _].
    assert (Hbuf : m_recv_buffer (handled pk c) = m_recv_buffer c).
    { unfold handled. clear. generalize (delivery pk). intros l.
      assert (Hl : forall c0, m_recv_buffer (foldl (fun c d => callback d.1 d.2 c) c0 l) = m_recv_buffer c0).
      { induction l as [|d l IH]; intros c0; [done|]. cbn [foldl]. rewrite IH. unfold callback.
        by destruct (m_packet_callback c0). }
      rewrite Hl. by destruct (config_of pk). }
    apply IH; [done|by rewrite Hbuf|by rewrite Hr|by rewrite Hd].
Qed.

(** The thread keeps the socket. *)
Definition same_socket (c c' : P2pProxyClient) : Prop :=
  m_socket_fd c' = m_socket_fd c /\ m_connected c' = m_connected c
  /\ m_disposed c' = m_disposed c /\ m_recv_thread_created c' = m_recv_thread_created c
  /\ open_fds (outside c') = open_fds (outside c) /\ threads (outside c') = threads (outside c).

#[export] Instance same_socket_preorder : PreOrder same_socket.
Proof.
  split; [intros c; by repeat split|].
  intros a b c (? & ? & ? & ? & ? & ?) (? & ? & ? & ? & ? & ?). repeat split; congruence.
Qed.

Lemma ProcessData_same_socket d n c : same_socket c (ProcessData d n c).
Proof.
  assert (Hcb : forall t l, same_socket c (callback t l c)).
  { intros t l. destruct (callback_spec t l c) as [(? & ? & ? & ? & _ & _ & ? & ? & _) _].
    by repeat split. }
  assert (Hsame : same_socket c c) by reflexivity.
  assert (Hdata : forall h l m, same_socket c (HandleProxyData h l m c)).
  { intros h l m. unfold HandleProxyData. destruct (_ <=? _); [apply Hcb|exact Hsame]. }
  unfold ProcessData. cbv zeta.
  repeat match goal with |- same_socket _ (if ?b then _ else _) => destruct b end;
    first [exact Hsame|apply Hdata|apply Hcb|by repeat split].
Qed.

Lemma receive_loop_total chunks c :
  exists b c', receive_loop chunks c = Some (b, c') /\ same_socket c c'.
Proof.
  apply recv_loop_total.
  - apply _.
  - intros s. by eexists.
  - intros d n s. eexists. split; [done|]. apply ProcessData_same_socket.
  - intros s. eexists. split; [done|]. by repeat split.
Qed.

(** ** Properties *)

(** however the host's stream is cut into chunks that leave room for a
    partial packet in the buffer, the callback gets exactly its proxy packets, in
    order, with their bytes (proxy data of more than 4096 bytes is left out), and
    the client is ready with the last [ProxyConfig]; when the connection ends the
    client is no longer connected nor ready, but its socket stays open. *)
Theorem client_delivers_stream W chunks c ps :
  0 < W <= RECV_BUFFER_SIZE -> buffer_ok RECV_BUFFER_SIZE (m_recv_buffer c) ->
  contents (m_recv_buffer c) = [] -> m_connected c = true -> m_disposed c = false ->
  m_recv_thread_running c = true -> m_packet_callback c = true ->
  Forall (fun pk => body_ok pk.2 = true /\ zlen (wire pk) <= W) ps ->
  Forall (fun k => k <> [] /\ bytes_ok k = true /\ zlen k <= RECV_BUFFER_SIZE + 1 - W) chunks ->
  concat chunks = stream ps ->
  exists b1 c1 c2, receive_loop chunks c = Some (b1, c1) /\ same_connection c c1
    /\ callbacks (outside c1) = callbacks (outside c) ++ concat (map delivery ps)
    /\ IsReady c1 = IsReady c || bool_decide (is_Some (last_config ps))
    /\ GetProxyConfig c1 = default (GetProxyConfig c) (last_config ps)
    /\ ReceiveLoop chunks c = Some c2 /\ IsConnected c2 = false /\ IsReady c2 = false
    /\ callbacks (outside c2) = callbacks (outside c1)
    /\ m_socket_fd c2 = m_socket_fd c /\ open_fds (outside c2) = open_fds (outside c).
Proof.
  intros HW Hb Hc Hcon Hdis Hrun Hcb Hps Hch Heq.
  pose proof (client_loop_stream W chunks c ps HW Hb Hrun Hdis Hps Hch Heq Hc) as Hloop.
  unfold ReceiveLoop. destruct (receive_loop chunks c) as [[b1 c1]|] eqn:Hl; [|done].
  cbn [fmap option_fmap option_map snd] in Hloop. injection Hloop as Hc1.
  destruct (handled_all_spec ps c) as (H1 & H2 & H3 & H4). rewrite <- Hc1 in H1, H2, H3, H4.
  rewrite Hcb in H2.
  exists b1, c1, (mark_disconnected (set_buffer b1 c1)).
  pose proof H1 as (Hfd & Hc1con & Hc1dis & _ & _ & _ & Hfds & _).
  assert (Hmark : mark_disconnected (set_buffer b1 c1)
    = broadcast (set_ready false (m_proxy_config c1)
        (set_socket (m_socket_fd c1) false (set_buffer b1 c1)))).
  { unfold mark_disconnected, set_buffer, set_rest. cbn. by rewrite Hc1con, Hc1dis, Hcon, Hdis. }
  cbn [mbind option_bind]. rewrite Hmark. split; [reflexivity|]. split; [exact H1|]. split; [exact H2|].
  split; [exact H3|]. split; [exact H4|]. split; [reflexivity|]. split; [reflexivity|].
  split; [reflexivity|]. split; [reflexivity|]. split; [exact Hfd|exact Hfds].
Qed.

(** a [recv] that does not fit behind a partial packet empties the buffer,
    and the client does not find the next packet by itself: when what arrives
    next does not happen to start with a header, the thread ends, nothing of
    either chunk is delivered and the client is disconnected. *)
Theorem overflow_never_resyncs chunk next chunks c :
  buffer_ok RECV_BUFFER_SIZE (m_recv_buffer c) -> m_connected c = true ->
  m_disposed c = false -> m_recv_thread_running c = true ->
  bytes_ok chunk = true -> zlen chunk <= RECV_BUFFER_SIZE < zlen (contents (m_recv_buffer c)) + zlen chunk ->
  bytes_ok next = true -> 12 <= zlen next <= RECV_BUFFER_SIZE ->
  hdr_magic (of_bytes next) <> PROTOCOL_MAGIC ->
  exists c', ReceiveLoop (chunk :: next :: chunks) c = Some c'
    /\ callbacks (outside c') = callbacks (outside c) /\ IsConnected c' = false
    /\ IsReady c' = false.
Proof.
  intros Hb Hcon Hdis Hrun Hck Hover Hnk Hlen Hmagic. unfold ReceiveLoop, receive_loop.
  assert (Hgo : client_running c = Some true) by (unfold client_running; by rewrite Hrun, Hdis).
  rewrite (recv_loop_overflow _ _ _ RECV_BUFFER_SIZE) by done.
  destruct (PacketBuffer.reset_spec _ _ Hb) as [Hok Hc].
  pose proof (PacketBuffer.append_spec RECV_BUFFER_SIZE next _ Hok Hnk
    ltac:(unfold RECV_BUFFER_SIZE in *; lia)) as Happ.
  rewrite Hc in Happ. rewrite (proj2 (Z.ltb_ge _ _)) in Happ
    by (change (zlen (@nil Z)) with 0; lia).
  destruct Happ as (b1 & Hb1 & Hok1 & Hc1). cbn [app] in Hc1.
  assert (Hinfo : PacketBuffer.peek_packet_info b1 = (PacketBuffer.BufferResult_InvalidPacket, 0)).
  { rewrite (PacketBuffer.peek_packet_info_contents RECV_BUFFER_SIZE), Hc1 by done.
    unfold PacketBuffer.stream_info, PacketBuffer.peek_packet_info.
    cbn [PacketBuffer.m_buffer PacketBuffer.m_write_pos].
    rewrite sizeofz_header, (proj2 (Z.ltb_ge _ _)) by lia.
    unfold check_complete_packet. rewrite decode_header_spec. cbv zeta.
    rewrite (proj2 (Z.ltb_ge _ _)), (proj2 (Z.eqb_neq _ _) Hmagic) by lia. done. }
  assert (Hpeek : PacketBuffer.peek_packet b1 = (None, 0))
    by (unfold PacketBuffer.peek_packet; by rewrite Hinfo).
  cbn [recv_loop]. rewrite Hgo. cbn [mbind option_bind negb].
  destruct next as [|x next]; [change (zlen (@nil Z)) with 0 in Hlen; lia|]. rewrite Hb1.
  set (c1 := set_thread (m_recv_thread_created c) false c).
  assert (Hin : packet_loop client_running (fun data size c => Some (ProcessData data size c))
    (fun c => Some (set_thread (m_recv_thread_created c) false c))
    (Z.to_nat (PacketBuffer.m_write_pos b1)) b1 c = Some (b1, c1)).
  { destruct (Z.to_nat _); cbn [packet_loop]; rewrite Hgo; cbn [mbind option_bind negb];
      by rewrite Hpeek, Hinfo. }
  rewrite Hin. cbn [mbind option_bind].
  assert (Hend : client_running c1 = Some false) by done.
  destruct chunks; cbn [recv_loop]; rewrite Hend; cbn [mbind option_bind negb];
    (eexists; split; [reflexivity|]); unfold mark_disconnected, c1, set_buffer, set_rest, set_thread;
    cbn; rewrite Hcon, Hdis; by repeat split.
Qed.

(** a client whose connection was lost takes a new connection without
    giving up the old one: when [Connect] succeeds the old descriptor is still
    open and the old thread object is not destroyed, though the only stack goes
    to a second thread; a later [Disconnect] closes the new socket and joins the
    new thread only. *)
Theorem lost_connection_leaks chunks c address len port a during :
  m_socket_fd c ∈ open_fds (outside c) -> m_connected c = true -> m_disposed c = false ->
  0 <= ans_socket a -> ans_socket a <> m_socket_fd c -> ans_connect a = ConnectDone ->
  ans_thread a = true -> 4 <= len ->
  exists c1 c2 c3, ReceiveLoop chunks c = Some c1 /\ IsConnected c1 = false
    /\ Connect (Some address) len port a during c1 = (true, c2)
    /\ m_socket_fd c2 = ans_socket a /\ threads (outside c2) = S (threads (outside c))
    /\ Disconnect Some c2 = Some c3 /\ m_socket_fd c3 = -1
    /\ m_socket_fd c ∈ open_fds (outside c3) /\ threads (outside c3) = threads (outside c).
Proof.
  intros Hfd Hcon Hdis Ha Hne Hdone Hth Hlen. unfold ReceiveLoop.
  destruct (receive_loop_total chunks c) as (b & c0 & -> & H1 & H2 & H3 & H4 & H5 & H6).
  cbn [mbind option_bind].
  set (c1 := mark_disconnected (set_buffer b c0)).
  assert (Hc1 : c1 = broadcast (set_ready false (m_proxy_config c0)
    (set_socket (m_socket_fd c0) false (set_buffer b c0)))).
  { unfold c1, mark_disconnected, set_buffer, set_rest. cbn. by rewrite H2, H3, Hcon, Hdis. }
  exists c1. rewrite Hc1. clear c1 Hc1. unfold Connect.
  rewrite (bool_decide_false (Some address = None)), (proj2 (Z.ltb_ge len 4)) by (done || lia).
  rewrite (proj2 (Z.ltb_ge (ans_socket a) 0)), Hdone by done. cbn [orb].
  unfold start_thread. rewrite Hth. do 2 eexists. split; [reflexivity|]. split; [reflexivity|].
  split; [reflexivity|]. split; [reflexivity|]. split; [cbn; by rewrite H6|].
  unfold Disconnect. cbn [m_connected set_thread set_system set_outside set_rest set_socket negb andb].
  cbn [m_socket_fd set_thread set_system set_outside set_rest set_socket].
  rewrite (proj2 (Z.leb_le 0 (ans_socket a))) by done.
  cbn [m_recv_thread_created close_socket set_thread set_system set_outside set_rest set_socket
       mbind option_bind].
  split; [reflexivity|]. split; [reflexivity|]. split; [|cbn; by rewrite H6].
  cbn. rewrite H5. set_solver.
Qed.

(** ** Witnesses *)

Definition demo_outside : Outside := {|
  open_fds := ∅; threads := 0; takes := []; sent := []; callbacks := []; broadcasts := 0 |}.

Definition demo_answers (fd : Z) : answers := {|
  ans_socket := fd; ans_connect := ConnectDone; ans_select := 1; ans_so_error := Some 0;
  ans_thread := true |}.

(** A client, connected to a host. *)
Definition connected_client : P2pProxyClient :=
  (Connect (Some [127; 0; 0; 1]) 4 39990 (demo_answers 5) id
     (new_P2pProxyClient true
        (PacketBuffer.new_PacketBuffer (repeat 0 (Z.to_nat RECV_BUFFER_SIZE))) demo_outside)).2.

Lemma connected_client_buffer :
  buffer_ok RECV_BUFFER_SIZE (m_recv_buffer connected_client)
  /\ contents (m_recv_buffer connected_client) = [].
Proof.
  change (m_recv_buffer connected_client)
    with (PacketBuffer.reset (PacketBuffer.new_PacketBuffer (repeat 0 (Z.to_nat RECV_BUFFER_SIZE)))).
  apply (PacketBuffer.reset_spec RECV_BUFFER_SIZE).
  apply PacketBuffer.new_ok; vm_compute; reflexivity.
Qed.

(** A configuration, and data for the game. *)
Definition demo_packets : list (PacketId * list Z) :=
  [(PacketId_ProxyConfig, bytes_of {| pc_proxy_ip := 0x0a720002; pc_proxy_subnet_mask := 0xFFFF0000 |});
   (PacketId_Ping, [0; 7]);
   (PacketId_ProxyData, repeat 1 20 ++ [9; 8; 7])].

#[local] Opaque connected_client.

Lemma client_delivers_stream_witness :
  exists b1 c1, receive_loop [ztake 40 (stream demo_packets); zdrop 40 (stream demo_packets)]
                  connected_client = Some (b1, c1)
    /\ IsReady c1 = true /\ GetVirtualIp c1 = 0x0a720002
    /\ callbacks (outside c1) = [(PacketId_ProxyData, repeat 1 20 ++ [9; 8; 7])].
Proof.
  destruct connected_client_buffer as [Hb Hc].
  destruct (client_delivers_stream 100 [ztake 40 (stream demo_packets); zdrop 40 (stream demo_packets)]
    connected_client demo_packets) as (b1 & c1 & c2 & H1 & _ & H2 & H3 & H4 & _).
  - unfold RECV_BUFFER_SIZE. lia.
  - exact Hb.
  - exact Hc.
  - vm_compute. reflexivity.
  - vm_compute. reflexivity.
  - vm_compute. reflexivity.
  - vm_compute. reflexivity.
  - repeat constructor; vm_compute; discriminate || reflexivity.
  - repeat constructor; vm_compute; discriminate || reflexivity.
  - vm_compute. reflexivity.
  - exists b1, c1. split; [exact H1|]. unfold GetVirtualIp, GetProxyConfig in *.
    rewrite H2, H3, H4. split_and!; vm_compute; reflexivity.
Defined.

(** The client with the front of a large packet in its buffer. *)
Definition waiting_client : P2pProxyClient :=
  set_buffer {| PacketBuffer.m_buffer := repeat 1 (Z.to_nat RECV_BUFFER_SIZE); PacketBuffer.m_write_pos := 100 |}
    connected_client.

#[local] Opaque waiting_client.

Lemma overflow_never_resyncs_witness :
  exists c', ReceiveLoop [repeat 1 (Z.to_nat RECV_BUFFER_SIZE); repeat 1 50] waiting_client = Some c'
    /\ IsConnected c' = false.
Proof.
  destruct (overflow_never_resyncs (repeat 1 (Z.to_nat RECV_BUFFER_SIZE)) (repeat 1 50) [] waiting_client)
    as (c' & H1 & _ & H2 & _).
  - split; [vm_compute; reflexivity|]. split; [vm_compute; split; discriminate|].
    split; vm_compute; reflexivity.
  - vm_compute. reflexivity.
  - vm_compute. reflexivity.
  - vm_compute. reflexivity.
  - vm_compute. reflexivity.
  - vm_compute. split; [discriminate|reflexivity].
  - vm_compute. reflexivity.
  - vm_compute. split; discriminate.
  - vm_compute. discriminate.
  - exists c'. split; [exact H1|exact H2].
Defined.

Lemma lost_connection_leaks_witness :
  exists c1 c2 c3, ReceiveLoop [] connected_client = Some c1
    /\ Connect (Some [127; 0; 0; 1]) 4 39990 (demo_answers 6) id c1 = (true, c2)
    /\ Disconnect Some c2 = Some c3 /\ 5 ∈ open_fds (outside c3) /\ threads (outside c3) = 1%nat.
Proof.
  destruct (lost_connection_leaks [] connected_client [127; 0; 0; 1] 4 39990 (demo_answers 6) id)
    as (c1 & c2 & c3 & H1 & _ & H2 & _ & _ & H3 & _ & H4 & H5).
  - assert (H : bool_decide (m_socket_fd connected_client ∈ open_fds (outside connected_client))
                = true) by (vm_compute; reflexivity).
    by apply bool_decide_eq_true in H.
  - vm_compute. reflexivity.
  - vm_compute. reflexivity.
  - vm_compute. discriminate.
  - vm_compute. discriminate.
  - reflexivity.
  - reflexivity.
  - lia.
  - exists c1, c2, c3.
    assert (Hfd : m_socket_fd connected_client = 5) by (vm_compute; reflexivity).
    assert (Hth : threads (outside connected_client) = 1%nat) by (vm_compute; reflexivity).
    rewrite Hfd in H4. rewrite Hth in H5. split_and!; [exact H1|exact H2|exact H3|exact H4|exact H5].
Defined.
