(* ===== verification/P2pLink.v ===== *)
(** * Peer-to-peer clients and their server together

    The bytes a [P2pProxyClient] sends, cut into arbitrary chunks by the
    network, are what the receive thread of its [P2pProxySession] gets, and the
    bytes the session sends are what the client's receive thread gets. *)

From stdpp Require Import base numbers list gmap.
From Stdlib Require Import ZArith Lia Bool.
From S2P Require Import Prelude Layout Types Protocol StreamLoop.
From S2P Require PacketBuffer P2pClient.
From S2P Require Import P2pServer P2pOwnership P2pRouting.
Import PacketBuffer (PacketBuffer, wire, stream, buffer_ok, contents).

(** ** Specification *)

(** [chunks] is what [recv] returns, call by call, of [bytes]. *)
Definition cut (bytes : list Z) (chunks : list (list Z)) : Prop :=
  concat chunks = bytes /\ Forall (fun c => c <> []) chunks.

(** A client with an empty buffer whose sends go through. *)
Record client_ready (c : P2pClient.P2pProxyClient) : Prop := {
  ready_connected : P2pClient.m_connected c = true;
  ready_socket : 0 <= P2pClient.m_socket_fd c;
  ready_running : P2pClient.m_recv_thread_running c = true;
  ready_not_disposed : P2pClient.m_disposed c = false;
  ready_callback : P2pClient.m_packet_callback c = true;
  ready_takes : P2pClient.takes (P2pClient.outside c) = [];
  ready_buffer : buffer_ok P2pClient.RECV_BUFFER_SIZE (P2pClient.m_recv_buffer c);
  ready_empty : contents (P2pClient.m_recv_buffer c) = []
}.

(** ** Lemmas *)

Lemma wire_bytes pk : body_ok pk.2 = true -> bytes_ok (wire pk) = true.
Proof. exact (wire_packet_bytes pk.1 pk.2). Qed.

Lemma stream_one pk : stream [pk] = wire pk.
Proof. unfold stream. cbn [map concat]. apply app_nil_r. Qed.

(** One packet, whatever the chunks, on the side of the server. *)
Lemma session_gets meanwhile p pk chunks b s :
  buffer_ok SESSION_BUFFER_SIZE b -> contents b = [] -> body_ok pk.2 = true ->
  zlen (wire pk) <= SESSION_BUFFER_SIZE -> cut (wire pk) chunks ->
  snd <$> receive_loop meanwhile chunks p b s
  = dispatch_all (session_running p) (ProcessData meanwhile p) [pk] s.
Proof.
  intros Hb Hc Hok Hlen [Heq Hne]. unfold receive_loop.
  apply (recv_loop_short (session_running p) (ProcessData meanwhile p) (Disconnect p false)
    SESSION_BUFFER_SIZE (fun _ => None) (fun q k t => ProcessData_front meanwhile p q k t)
    ltac:(unfold SESSION_BUFFER_SIZE; lia) chunks b s [pk]).
  - exact Hb.
  - by apply Forall_singleton.
  - exact Hne.
  - rewrite Heq. by apply wire_bytes.
  - by rewrite Hc, stream_one.
  - unfold PacketBuffer.pending. rewrite Hc, PacketBuffer.zlen_wire. change (zlen (@nil Z)) with 0.
    pose proof (zlen_nonneg pk.2). lia.
  - by rewrite stream_one.
Qed.

(** And on the side of the client. *)
Lemma client_gets pk chunks c :
  client_ready c -> body_ok pk.2 = true -> zlen (wire pk) <= P2pClient.RECV_BUFFER_SIZE ->
  cut (wire pk) chunks ->
  exists b, P2pClient.receive_loop chunks c = Some (b, P2pClient.handled pk c).
Proof.
  intros [Hcon Hfd Hrun Hdis Hcb Ht Hb Hc] Hok Hlen [Heq Hne].
  assert (H : snd <$> P2pClient.receive_loop chunks c = Some (P2pClient.handled pk c)).
  { unfold P2pClient.receive_loop.
    rewrite recv_loop_short with (ps := [pk]).
    - cbn [dispatch_all]. assert (Hgo : P2pClient.client_running c = Some true)
        by (unfold P2pClient.client_running; by rewrite Hrun, Hdis).
      rewrite Hgo. cbn [mbind option_bind]. by rewrite P2pClient.client_handles_wire.
    - intros q k t Hq. by rewrite P2pClient.client_handles_packet, P2pClient.client_handles_wire.
    - unfold P2pClient.RECV_BUFFER_SIZE. lia.
    - exact Hb.
    - by apply Forall_singleton.
    - exact Hne.
    - rewrite Heq. by apply wire_bytes.
    - by rewrite Hc, stream_one.
    - unfold PacketBuffer.pending. rewrite Hc, PacketBuffer.zlen_wire.
      change (zlen (@nil Z)) with 0. pose proof (zlen_nonneg pk.2). lia.
    - by rewrite stream_one. }
  destruct (P2pClient.receive_loop chunks c) as [[b c']|]; [|done].
  exists b. cbn in H. by injection H as ->.
Qed.

Lemma bytes_of_body `{HasLayout T} `{!LayoutLaws (layout_of T)} (x : T) :
  wf x = true -> sizeofz T <= MAX_PACKET_SIZE -> body_ok (bytes_of x) = true.
Proof.
  intros Hx Hs. apply body_ok_spec. by rewrite zlen_bytes_of, bytes_of_ok.
Qed.

(** What the client writes. *)
Definition sent_more (bytes : list Z) (c : P2pClient.P2pProxyClient) : P2pClient.P2pProxyClient :=
  P2pClient.set_io [] (P2pClient.sent (P2pClient.outside c) ++ bytes) c.

Lemma client_sends bytes c :
  client_ready c -> P2pClient.send_bytes bytes c = (true, sent_more bytes c).
Proof.
  intros [_ _ _ _ _ Ht _ _]. unfold P2pClient.send_bytes. rewrite Ht.
  rewrite Z.eqb_refl, ztake_all by done. reflexivity.
Qed.

Lemma client_still_ready bytes c : client_ready c -> client_ready (sent_more bytes c).
Proof. intros []. by constructor. Qed.

Lemma auth_encoded (config : ExternalProxyConfig) :
  wf config = true ->
  P2pClient.encoded 256 PacketId_ExternalProxy config = wire (PacketId_ExternalProxy, bytes_of config).
Proof.
  intros Hwf. unfold P2pClient.encoded.
  assert (Hbuf : zlen (repeat 0 256) = 256) by (unfold zlen; by rewrite repeat_length).
  change (Z.of_nat 256) with 256.
  assert (Hsz : sizeofz ExternalProxyConfig = 38) by reflexivity.
  rewrite encode_ok; rewrite ?Hsz, ?Hbuf; unfold MAX_PACKET_SIZE; [|done|lia|lia].
  apply ztake_packet_written; rewrite ?zlen_bytes_of, ?Hsz, ?Hbuf by done; lia.
Qed.

(** The session's handler of an authentication. *)
Lemma session_handles_auth meanwhile p config s :
  wf config = true ->
  let pk := (PacketId_ExternalProxy, bytes_of config) in
  ProcessData meanwhile p (wire pk) (zlen (wire pk)) s
  = session_HandleExternalProxy meanwhile p config s.
Proof.
  intros Hwf pk. assert (Hsz : sizeofz ExternalProxyConfig = 38) by reflexivity.
  assert (Hok : body_ok pk.2 = true).
  { apply bytes_of_body; [done|]. rewrite Hsz. unfold MAX_PACKET_SIZE. lia. }
  unfold ProcessData. cbv zeta.
  pose proof (header_of_wire pk [] Hok) as Hh. pose proof (body_of_wire pk []) as Hb.
  rewrite !app_nil_r in Hh, Hb. rewrite Hh, Hb, (data_size_of_wire pk Hok).
  assert (Hl : zlen pk.2 = 38) by (unfold pk; cbn [snd]; by rewrite zlen_bytes_of, Hsz).
  rewrite Hl, PacketBuffer.zlen_wire, sizeofz_header, Hl.
  assert (Hback : of_bytes pk.2 = config)
    by (unfold pk; cbn [snd]; rewrite <- (app_nil_r (bytes_of config)); by apply of_bytes_of).
  rewrite (app_nil_r pk.2), Hback. reflexivity.
Qed.

Lemma ready_is_running p z s :
  deref p s = Some z -> ready z = true -> session_running p s = Some true.
Proof.
  unfold session_running. intros -> Hr. unfold ready in Hr. apply andb_true_iff in Hr as [Hr _].
  apply andb_true_iff in Hr as [Hr _]. cbn. by rewrite Hr.
Qed.

(** One packet that the session's handler takes to [s1]. *)
Lemma session_handles_one meanwhile p pk chunks b s s1 :
  buffer_ok SESSION_BUFFER_SIZE b -> contents b = [] -> body_ok pk.2 = true ->
  zlen (wire pk) <= SESSION_BUFFER_SIZE -> cut (wire pk) chunks ->
  session_running p s = Some true -> is_Some (deref p s1) ->
  ProcessData meanwhile p (wire pk) (zlen (wire pk)) s = Some s1 ->
  exists b1, receive_loop meanwhile chunks p b s = Some (b1, s1).
Proof.
  intros Hb Hc Hok Hlen Hcut Hgo [z1 Hz1] Hp.
  pose proof (session_gets meanwhile p pk chunks b s Hb Hc Hok Hlen Hcut) as H.
  cbn [dispatch_all] in H. rewrite Hgo in H. cbn [mbind option_bind] in H. rewrite Hp in H.
  cbn [mbind option_bind] in H.
  assert (Hgo1 : session_running p s1 = Some (m_connected z1)) by (unfold session_running; by rewrite Hz1).
  rewrite Hgo1 in H. destruct (receive_loop meanwhile chunks p b s) as [[b1 s2]|]; [|done].
  exists b1. cbn in H. by injection H as ->.
Qed.

Lemma sizeofz_ExternalProxyConfig : sizeofz ExternalProxyConfig = 38.
Proof. reflexivity. Qed.
Lemma sizeofz_ProxyConfig : sizeofz ProxyConfig = 8.
Proof. reflexivity. Qed.
Lemma sizeofz_ProxyDataHeader : sizeofz ProxyDataHeader = 20.
Proof. reflexivity. Qed.

Lemma zlen_wire_of `{HasLayout T} `{!LayoutLaws (layout_of T)} id (x : T) data :
  wf x = true -> zlen (wire (id, bytes_of x ++ data)) = 12 + sizeofz T + zlen data.
Proof. intros Hx. rewrite PacketBuffer.zlen_wire. cbn [snd]. rewrite zlen_app, zlen_bytes_of by done. lia. Qed.

(** The server's side of an authentication. *)
Lemma session_answers_auth meanwhile p z b s config i t up :
  let t' := slot_behind i t (m_waiting_tokens s) in
  deref p s = Some z -> ready z = true ->
  buffer_ok SESSION_BUFFER_SIZE b -> contents b = [] -> wf config = true ->
  first_token config s = Some (i, t) -> in_u 32 (ept_virtual_ip t') = true ->
  cut (wire (PacketId_ExternalProxy, bytes_of config)) up ->
  exists b1 s1, receive_loop meanwhile up p b s = Some (b1, s1)
    /\ deref p s1 = Some (with_packet (wire (PacketId_ProxyConfig, bytes_of (proxy_config t')))
                            (set_identity (ept_virtual_ip t') true z)).
Proof.
  intros t' Hz Hready Hb Hcb Hwf Hf Hv Hup.
  destruct (token_registers meanwhile p config (m_remote_ip z) 0 s s i t z)
    as (s1 & Hreg & _ & Hz1 & _); [done|done|unfold MAX_RETRIES; lia|done|done|exact Hv|].
  destruct (session_handles_one meanwhile p (PacketId_ExternalProxy, bytes_of config) up b s s1)
    as [b1 Hrecv]; [done|done| | |done|by apply (ready_is_running p z)|by eexists| |].
  - apply bytes_of_body; [done|]. rewrite sizeofz_ExternalProxyConfig. unfold MAX_PACKET_SIZE. lia.
  - rewrite <- (app_nil_r (bytes_of config)), zlen_wire_of, sizeofz_ExternalProxyConfig by done.
    done.
  - rewrite session_handles_auth by done. unfold session_HandleExternalProxy. rewrite Hz.
    cbn [mbind option_bind]. by rewrite Hreg.
  - exists b1, s1. by split.
Qed.

(** The client's side of the answer. *)
Lemma client_takes_config config down c :
  client_ready c -> wf config = true ->
  cut (wire (PacketId_ProxyConfig, bytes_of config)) down ->
  exists b c2, P2pClient.receive_loop down c = Some (b, c2) /\ P2pClient.IsReady c2 = true
    /\ P2pClient.GetProxyConfig c2 = config.
Proof.
  intros Hc Hwf Hdown. destruct (client_gets (PacketId_ProxyConfig, bytes_of config) down c)
    as [b Hget]; [done| | |done|].
  - apply bytes_of_body; [done|]. rewrite sizeofz_ProxyConfig. unfold MAX_PACKET_SIZE. lia.
  - rewrite <- (app_nil_r (bytes_of config)), zlen_wire_of, sizeofz_ProxyConfig by done. done.
  - eexists b, _. split; [exact Hget|].
    assert (Hcfg : P2pClient.config_of (PacketId_ProxyConfig, bytes_of config) = Some config).
    { unfold P2pClient.config_of. cbn [fst snd]. rewrite zlen_bytes_of, sizeofz_ProxyConfig by done.
      rewrite <- (app_nil_r (bytes_of _)), of_bytes_of by done. done. }
    destruct (P2pClient.handled_spec (PacketId_ProxyConfig, bytes_of config) c)
      as (_ & _ & Hr & Hp). rewrite Hcfg in Hr, Hp.
    unfold P2pClient.IsReady, P2pClient.GetProxyConfig. rewrite Hr, Hp.
    split; [by rewrite orb_true_r|reflexivity].
Qed.

(** Proxy data on its way: a client that sends it, *)
Lemma data_encoded (header : ProxyDataHeader) data c :
  client_ready c -> wf header = true -> zlen data <= 4064 ->
  let message := wire (PacketId_ProxyData, bytes_of header ++ data) in
  P2pClient.SendProxyData header data (zlen data) c = (true, sent_more message c).
Proof.
  intros Hc Hwf Hlen message. unfold P2pClient.SendProxyData.
  pose proof (proxy_data_encoded header data Hwf Hlen) as He. unfold encoded_with in He.
  change (Z.of_nat 4096) with 4096 in He.
  destruct (encode_with_data (repeat 0 4096) 4096 PacketId_ProxyData header (Some data) (zlen data))
    as [[r packet] len]. injection He as _ Hp. rewrite Hp.
  unfold P2pClient.Send. rewrite (ready_connected c Hc), (proj2 (Z.ltb_ge _ _) (ready_socket c Hc)).
  by apply client_sends.
Qed.

Lemma data_body_ok (header : ProxyDataHeader) data :
  wf header = true -> bytes_ok data = true -> zlen data <= 4064 ->
  body_ok (bytes_of header ++ data) = true.
Proof.
  intros Hwf Hd Hlen. apply body_ok_spec.
  rewrite bytes_ok_app, bytes_of_ok, zlen_app, zlen_bytes_of, sizeofz_ProxyDataHeader by done.
  split; [done|]. unfold MAX_PACKET_SIZE. lia.
Qed.

(** its session, *)
Lemma session_handles_data meanwhile p z header data s :
  wf header = true -> bytes_ok data = true -> zlen data <= 4064 ->
  deref p s = Some z -> m_authenticated z = true ->
  let pk := (PacketId_ProxyData, bytes_of header ++ data) in
  ProcessData meanwhile p (wire pk) (zlen (wire pk)) s = HandleProxyData p header data (zlen data) s.
Proof.
  intros Hwf Hd Hlen Hz Ha pk. pose proof (zlen_nonneg data).
  assert (Hok : body_ok pk.2 = true) by (by apply data_body_ok).
  assert (Hl : zlen pk.2 = 20 + zlen data)
    by (unfold pk; cbn [snd]; by rewrite zlen_app, zlen_bytes_of, sizeofz_ProxyDataHeader).
  unfold ProcessData. cbv zeta.
  pose proof (header_of_wire pk [] Hok) as Hh. pose proof (body_of_wire pk []) as Hb.
  rewrite !app_nil_r in Hh, Hb. rewrite Hh, Hb, (data_size_of_wire pk Hok).
  rewrite PacketBuffer.zlen_wire, sizeofz_header, sizeofz_ProxyDataHeader, Hl.
  rewrite (proj2 (Z.ltb_ge _ _)), (proj2 (Z.leb_le 20 _)) by lia.
  replace (20 + zlen data - 20) with (zlen data) by lia.
  assert (Hbody : pk.2 ++ [] = bytes_of header ++ data) by apply app_nil_r.
  rewrite Hbody. rewrite of_bytes_of by done.
  rewrite zdrop_app by (by rewrite zlen_bytes_of). rewrite ztake_all by lia.
  unfold authenticated. rewrite Hz. cbn [mbind option_bind]. rewrite Ha. reflexivity.
Qed.

(** and the sessions it is sent to. *)
Lemma data_forwarded sender z header data s :
  owned s -> deref sender s = Some z -> players_ready s ->
  pi_source_ipv4 (pdh_info header) = 0 \/ pi_source_ipv4 (pdh_info header) = m_virtual_ip z ->
  let dest := translate (m_broadcast_address s) (pi_dest_ipv4 (pdh_info header)) in
  let header' := {| pdh_info := set_info (m_virtual_ip z) dest (pdh_info header);
                    pdh_data_length := pdh_data_length header |} in
  wf header' = true -> zlen data <= 4064 ->
  exists s', HandleProxyData sender header data (zlen data) s = Some s'
    /\ forall q, deref q s' = delivered (wire_packet PacketId_ProxyData (bytes_of header' ++ data))
                               (recipients dest s) s q.
Proof.
  intros Hs Hz Hready Hsrc dest header' Hwf Hlen. unfold HandleProxyData.
  destruct (RouteMessage_delivers sender z (pdh_info header) (fun info => (encoded_with 4096
    PacketId_ProxyData {| pdh_info := info; pdh_data_length := pdh_data_length header |} data
    (zlen data)).2) s Hs Hz Hready Hsrc) as (h & -> & Hh). fold dest header' in Hh |- *.
  rewrite (proxy_data_encoded header' data Hwf Hlen) in Hh. cbn [snd] in Hh.
  cbn [mbind option_bind]. eexists. split; [reflexivity|]. intros q. rewrite <- Hh.
  by destruct (_ && _).
Qed.

Lemma client_takes_data header data down c :
  client_ready c -> wf header = true -> bytes_ok data = true -> zlen data <= 4064 ->
  cut (wire (PacketId_ProxyData, bytes_of header ++ data)) down ->
  exists b c2, P2pClient.receive_loop down c = Some (b, c2)
    /\ P2pClient.callbacks (P2pClient.outside c2) = P2pClient.callbacks (P2pClient.outside c)
         ++ [(PacketId_ProxyData, bytes_of (A:=ProxyDataHeader) header ++ data)].
Proof.
  intros Hc Hwf Hd Hlen Hdown. set (pk := (PacketId_ProxyData, bytes_of header ++ data)).
  assert (Hl : zlen pk.2 = 20 + zlen data)
    by (unfold pk; cbn [snd]; by rewrite zlen_app, zlen_bytes_of, sizeofz_ProxyDataHeader).
  pose proof (zlen_nonneg data).
  destruct (client_gets pk down c) as [b Hget]; [done|by apply data_body_ok| |done|].
  { rewrite PacketBuffer.zlen_wire, Hl. unfold P2pClient.RECV_BUFFER_SIZE. lia. }
  eexists b, _. split; [exact Hget|].
  destruct (P2pClient.handled_spec pk c) as (_ & Hcall & _). rewrite Hcall, (ready_callback c Hc).
  f_equal. unfold P2pClient.delivery. rewrite Hl, sizeofz_ProxyDataHeader. cbn [pk fst].
  by rewrite (proj2 (Z.leb_le 20 _)), (proj2 (Z.leb_le _ 4096)) by lia.
Qed.

(** ** Properties *)

(** C11: authentication, from end to end.  The bytes [PerformAuth] writes, in
    whatever pieces the session receives them, make the server answer, and the
    answer, in whatever pieces the client receives it, makes the client ready,
    when the client's token waits at the server: both then have the same virtual
    address for it. *)
Theorem p2p_authentication meanwhile c p z b s config i t :
  client_ready c -> deref p s = Some z -> ready z = true ->
  buffer_ok SESSION_BUFFER_SIZE b -> contents b = [] -> wf config = true ->
  first_token config s = Some (i, t) ->
  in_u 32 (ept_virtual_ip (slot_behind i t (m_waiting_tokens s))) = true ->
  exists c1 request, P2pClient.PerformAuth config c = (true, c1)
    /\ P2pClient.sent (P2pClient.outside c1) = P2pClient.sent (P2pClient.outside c) ++ request
    /\ forall up, cut request up -> exists b1 s1 z1 answer,
         receive_loop meanwhile up p b s = Some (b1, s1) /\ deref p s1 = Some z1
         /\ env_wire z1 = env_wire z ++ answer /\ m_authenticated z1 = true
         /\ forall down, cut answer down -> exists b2 c2,
              P2pClient.receive_loop down c1 = Some (b2, c2) /\ P2pClient.IsReady c2 = true
              /\ P2pClient.GetVirtualIp c2 = m_virtual_ip z1.
Proof.
  intros Hc Hz Hready Hb Hcb Hwf Hf Hv.
  exists (sent_more (wire (PacketId_ExternalProxy, bytes_of config)) c), (wire (PacketId_ExternalProxy, bytes_of config)).
  split.
  { unfold P2pClient.PerformAuth. rewrite (ready_connected c Hc), auth_encoded by done.
    by apply client_sends. }
  split; [reflexivity|]. intros up Hup.
  destruct (session_answers_auth meanwhile p z b s config i t up)
    as (b1 & s1 & Hrecv & Hz1); [done..|].
  exists b1, s1. do 2 eexists. split; [exact Hrecv|]. split; [exact Hz1|]. split; [reflexivity|].
  split; [reflexivity|]. intros down Hdown.
  destruct (client_takes_config (proxy_config (slot_behind i t (m_waiting_tokens s))) down
    (sent_more (wire (PacketId_ExternalProxy, bytes_of config)) c)) as (b2 & c2 & H1 & H2 & H3).
  - by apply client_still_ready.
  - change (in_u 32 (ept_virtual_ip (slot_behind i t (m_waiting_tokens s)))
            && in_u 32 0xFFFF0000 = true). by rewrite Hv.
  - exact Hdown.
  - exists b2, c2. split; [exact H1|]. split; [exact H2|].
    unfold P2pClient.GetProxyConfig in H3. unfold P2pClient.GetVirtualIp. by rewrite H3.
Qed.

(** C10: proxy data, from end to end.  What a registered player sends, in whatever
    pieces it arrives, the server forwards to the players it is for, and only to
    them; and what a receiving player's client gets, in whatever pieces, its game
    is given: the same data behind a header with the sender's virtual address. *)
Theorem p2p_data_end_to_end meanwhile cA cB p z q y b s header data :
  client_ready cA -> client_ready cB -> owned s -> players_ready s ->
  deref p s = Some z -> ready z = true -> m_authenticated z = true -> deref q s = Some y ->
  buffer_ok SESSION_BUFFER_SIZE b -> contents b = [] ->
  pi_source_ipv4 (pdh_info header) = 0 \/ pi_source_ipv4 (pdh_info header) = m_virtual_ip z ->
  let dest := translate (m_broadcast_address s) (pi_dest_ipv4 (pdh_info header)) in
  let header' := {| pdh_info := set_info (m_virtual_ip z) dest (pdh_info header);
                    pdh_data_length := pdh_data_length header |} in
  q ∈ recipients dest s -> wf header = true -> wf header' = true -> bytes_ok data = true ->
  zlen data <= 4064 ->
  exists cA' message, P2pClient.SendProxyData header data (zlen data) cA = (true, cA')
    /\ P2pClient.sent (P2pClient.outside cA') = P2pClient.sent (P2pClient.outside cA) ++ message
    /\ forall up, cut message up -> exists b1 s1 y1 forwarded,
         receive_loop meanwhile up p b s = Some (b1, s1)
         /\ (forall r, r ∉ recipients dest s -> deref r s1 = deref r s)
         /\ deref q s1 = Some y1 /\ env_wire y1 = env_wire y ++ forwarded
         /\ forall down, cut forwarded down -> exists b2 cB',
              P2pClient.receive_loop down cB = Some (b2, cB')
              /\ P2pClient.callbacks (P2pClient.outside cB')
                 = P2pClient.callbacks (P2pClient.outside cB)
                   ++ [(PacketId_ProxyData, bytes_of header' ++ data)].
Proof.
  intros HA HB Hs Hplayers Hz Hready Ha Hy Hb Hcb Hsrc dest header' Hq Hwf Hwf' Hd Hlen.
  eexists _, (wire (PacketId_ProxyData, bytes_of header ++ data)).
  split; [by apply data_encoded|]. split; [reflexivity|]. intros up Hup.
  destruct (data_forwarded p z header data s Hs Hz Hplayers Hsrc Hwf' Hlen) as (s1 & Hh & Hout).
  fold dest header' in Hout.
  assert (Hlive : forall r, is_Some (deref r s) -> is_Some (deref r s1)).
  { intros r [x Hx]. rewrite Hout. unfold delivered. rewrite Hx. by destruct (bool_decide _). }
  destruct (session_handles_one meanwhile p (PacketId_ProxyData, bytes_of header ++ data) up b s s1)
    as [b1 Hrecv]; [done|done|by apply data_body_ok| |done|by apply (ready_is_running p z)| | |].
  - rewrite zlen_wire_of, sizeofz_ProxyDataHeader by done. unfold SESSION_BUFFER_SIZE. lia.
  - apply Hlive. by eexists.
  - rewrite (session_handles_data meanwhile p z) by done. exact Hh.
  - exists b1, s1. do 2 eexists. split; [exact Hrecv|].
    split; [intros r Hr; rewrite Hout; unfold delivered; by rewrite bool_decide_false|].
    split; [rewrite Hout; unfold delivered; rewrite bool_decide_true, Hy by done; reflexivity|].
    split; [reflexivity|]. intros down Hdown. by apply client_takes_data.
Qed.

(** ** Witnesses *)

Lemma connected_client_ready : client_ready P2pClient.connected_client.
Proof.
  destruct P2pClient.connected_client_buffer as [Hb Hc].
  constructor; [vm_compute; reflexivity|vm_compute; discriminate|vm_compute; reflexivity..|exact Hb|exact Hc].
Qed.

#[local] Opaque two_clients P2pClient.connected_client.

Lemma fresh_session_buffer :
  buffer_ok SESSION_BUFFER_SIZE (PacketBuffer.reset session_buffer)
  /\ contents (PacketBuffer.reset session_buffer) = [].
Proof. apply PacketBuffer.reset_spec, session_buffer_ok. Qed.

Lemma p2p_authentication_witness :
  exists c1 request, P2pClient.PerformAuth (demo_config 3) P2pClient.connected_client = (true, c1)
    /\ P2pClient.sent (P2pClient.outside c1) = request /\ zlen request = 50
    /\ exists b1 s1, receive_loop idle [ztake 7 request; zdrop 7 request] 102
         (PacketBuffer.reset session_buffer) two_clients = Some (b1, s1).
Proof.
  destruct third_client as (z & Hz & Hr). destruct fresh_session_buffer as [Hb Hc].
  destruct (p2p_authentication idle P2pClient.connected_client 102 z
    (PacketBuffer.reset session_buffer) two_clients (demo_config 3) 0 (demo_token 0x0a720004 3)
    connected_client_ready Hz Hr Hb Hc ltac:(vm_compute; reflexivity) ltac:(vm_compute; reflexivity)
    ltac:(vm_compute; reflexivity)) as (c1 & request & H1 & H2 & H3).
  assert (Hs : P2pClient.sent (P2pClient.outside P2pClient.connected_client) = [])
    by (vm_compute; reflexivity).
  rewrite Hs in H2. cbn [app] in H2.
  assert (Hc1 : c1 = (P2pClient.PerformAuth (demo_config 3) P2pClient.connected_client).2)
    by (by rewrite H1).
  assert (Hreq : request = wire (PacketId_ExternalProxy, bytes_of (demo_config 3))).
  { rewrite <- H2, Hc1. vm_compute. reflexivity. }
  destruct (H3 [ztake 7 request; zdrop 7 request]) as (b1 & s1 & z1 & answer & H4 & _).
  - split; [cbn [concat]; rewrite app_nil_r; apply ztake_zdrop|].
    rewrite Hreq. repeat constructor; vm_compute; discriminate.
  - exists c1, request. split; [exact H1|]. split; [exact H2|].
    split; [rewrite Hreq; vm_compute; reflexivity|]. exists b1, s1. exact H4.
Defined.

Lemma p2p_data_end_to_end_witness :
  exists cA' message, P2pClient.SendProxyData (demo_data 0 0x0a720003) [1; 2; 3] 3
      P2pClient.connected_client = (true, cA')
    /\ P2pClient.sent (P2pClient.outside cA')
       = P2pClient.sent (P2pClient.outside P2pClient.connected_client) ++ message.
Proof.
  destruct two_clients_player as (z & Hz & Hv). destruct fresh_session_buffer as [Hb Hc].
  assert (Ho : exists y, deref 101 two_clients = Some y).
  { destruct (deref 101 two_clients) as [y|] eqn:Hy; [by exists y|vm_compute in Hy; discriminate]. }
  destruct Ho as [y Hy].
  assert (Hr : ready <$> deref 100 two_clients = Some true) by (vm_compute; reflexivity).
  assert (Ha : m_authenticated <$> deref 100 two_clients = Some true) by (vm_compute; reflexivity).
  rewrite Hz in Hr, Ha. injection Hr as Hr. injection Ha as Ha.
  destruct (p2p_data_end_to_end idle P2pClient.connected_client P2pClient.connected_client 100 z 101 y
    (PacketBuffer.reset session_buffer) two_clients (demo_data 0 0x0a720003) [1; 2; 3]
    connected_client_ready connected_client_ready two_clients_owned two_clients_ready Hz Hr Ha Hy Hb Hc
    ltac:(by left)) as (cA' & message & H1 & H2 & _).
  - assert (H : bool_decide (101 ∈ recipients 0x0a720003 two_clients) = true)
      by (vm_compute; reflexivity).
    apply bool_decide_eq_true in H. exact H.
  - vm_compute. reflexivity.
  - rewrite Hv. vm_compute. reflexivity.
  - vm_compute. reflexivity.
  - vm_compute. discriminate.
  - exists cA', message. split; [exact H1|exact H2].
Defined.
