(* ===== verification/Imperative.v ===== *)
(** * Imperative code: assignments to fields, and a state monad

    [r <| f := v |>] is the record [r] with its field [f] assigned; a record
    declares its fields once, in an instance of [Eta].  [M S] are computations
    on a state [S] that give a result and the new state, or [None]: undefined
    behaviour, or a call that does not return.  stdpp's notation [x ← m; k] is
    their sequence.  [returns] and [ensures] are the two readings of a
    postcondition: with and without the claim that the computation returns. *)

From stdpp Require Import base list.
From S2P Require Import Prelude.

(** ** Fields *)

Class Eta (R : Type) : Type := eta : R -> R.
Class Setter {R T : Type} (proj : R -> T) : Type := upd : (T -> T) -> R -> R.
Arguments upd {R T} proj {_} _ _.

(** The field [proj] in the constructor application of [Eta] is replaced. *)
Ltac solve_setter :=
  lazymatch goal with
  | |- @Setter ?R ?T ?proj =>
      let f := fresh "f" in
      let r := fresh "r" in
      refine (fun (f : T -> T) (r : R) => _);
      let inst := constr:(_ : Eta R) in
      let e := eval hnf in inst in
      let body := eval cbv beta in (e r) in
      lazymatch eval pattern (proj r) in body with
      | ?g _ => let b := eval cbv beta in (g (f (proj r))) in exact b
      end
  end.
#[export] Hint Extern 1 (Setter _) => solve_setter : typeclass_instances.

Declare Scope field_scope.
Open Scope field_scope.
Notation "r <| f := v |>" := (upd f (fun _ => v) r)
  (at level 12, f at level 1, v at level 99, left associativity,
   format "r  <| f  :=  v |>") : field_scope.

(** ** Computations *)

Definition M (S A : Type) : Type := S -> option (A * S).

Section monad.
Context {S : Type}.

#[export] Instance M_ret : MRet (M S) := fun A a s => Some (a, s).
#[export] Instance M_bind : MBind (M S) := fun A B k m s =>
  match m s with Some (a, s) => k a s | None => None end.

Definition gets {A} (f : S -> A) : M S A := fun s => Some (f s, s).
Definition modify (f : S -> S) : M S unit := fun s => Some (tt, f s).
(** A call that may not return. *)
Definition modify_opt (f : S -> option S) : M S unit := fun s => (fun s' => (tt, s')) <$> f s.
Definition diverge {A} : M S A := fun _ => None.
Definition when (b : bool) (m : M S unit) : M S unit := if b then m else mret tt.

Fixpoint for_each {A} (l : list A) (body : A -> M S unit) : M S unit :=
  match l with
  | [] => mret tt
  | a :: l => body a;; for_each l body
  end.

(** [m] returns from [s], with a result and a state that satisfy [Q]. *)
Definition returns {A} (m : M S A) (s : S) (Q : A -> S -> Prop) : Prop :=
  exists a s', m s = Some (a, s') /\ Q a s'.

(** When [m] returns from [s], its result and state satisfy [Q]. *)
Definition ensures {A} (m : M S A) (s : S) (Q : A -> S -> Prop) : Prop :=
  forall a s', m s = Some (a, s') -> Q a s'.

Lemma bind_some {A B} (m : M S A) (k : A -> M S B) s a s' :
  m s = Some (a, s') -> (x ← m; k x) s = k a s'.
Proof. intros H. unfold mbind, M_bind. by rewrite H. Qed.

Lemma bind_inv {A B} (m : M S A) (k : A -> M S B) s b s' :
  (x ← m; k x) s = Some (b, s') -> exists a s1, m s = Some (a, s1) /\ k a s1 = Some (b, s').
Proof. unfold mbind, M_bind. destruct (m s) as [[a s1]|]; [eauto|done]. Qed.

Lemma bind_none {A B} (m : M S A) (k : A -> M S B) s : m s = None -> (x ← m; k x) s = None.
Proof. intros H. unfold mbind, M_bind. by rewrite H. Qed.

Lemma ensures_ret {A} (a : A) s (Q : A -> S -> Prop) : Q a s -> ensures (mret a) s Q.
Proof. intros HQ b s' [= <- <-]. exact HQ. Qed.

Lemma ensures_bind {A B} (m : M S A) (k : A -> M S B) s Q :
  ensures m s (fun a s' => ensures (k a) s' Q) -> ensures (x ← m; k x) s Q.
Proof. intros H b s' Hb. apply bind_inv in Hb as (a & s1 & H1 & H2). by apply (H a s1 H1). Qed.

Lemma ensures_gets {A} (f : S -> A) s (Q : A -> S -> Prop) : Q (f s) s -> ensures (gets f) s Q.
Proof. intros HQ b s' [= <- <-]. exact HQ. Qed.

Lemma ensures_modify (f : S -> S) s (Q : unit -> S -> Prop) :
  Q tt (f s) -> ensures (modify f) s Q.
Proof. intros HQ b s' [= <- <-]. exact HQ. Qed.

Lemma ensures_mono {A} (m : M S A) s (P Q : A -> S -> Prop) :
  ensures m s P -> (forall a s', P a s' -> Q a s') -> ensures m s Q.
Proof. intros H HPQ a s' Ha. by apply HPQ, H. Qed.

Lemma ensures_when b (m : M S unit) s (Q : unit -> S -> Prop) :
  (b = true -> ensures m s Q) -> (b = false -> Q tt s) -> ensures (when b m) s Q.
Proof. destruct b; intros H1 H2; [by apply H1|by apply ensures_ret, H2]. Qed.

Lemma ensures_for_each {A} (l : list A) (body : A -> M S unit) s (I : S -> Prop) :
  I s -> (forall a s, I s -> ensures (body a) s (fun _ => I)) ->
  ensures (for_each l body) s (fun _ => I).
Proof.
  intros Hs Hbody. revert s Hs. induction l as [|a l IH]; intros s Hs; cbn [for_each].
  - by apply ensures_ret.
  - apply ensures_bind. intros u s1 H1. apply IH. exact (Hbody a s Hs u s1 H1).
Qed.
End monad.

(** One statement of a computation whose state is known. *)
Ltac step := erewrite bind_some by (first [eassumption | reflexivity]);
  cbv beta; cbn [fst snd].
