(* ===== verification/LdnTypes.v ===== *)
(** * The types of the wireless service ([ldn/ldn_types.hpp])

    The structures a game exchanges with the service, one [Record] per structure
    with its byte layout, as in Types.v; the fields keep their names behind a
    short prefix.  None of them has padding the compiler adds, so the layouts
    are the packed ones.  [CommState] is in LdnStateMachine.v. *)

From stdpp Require Import base numbers list.
From Stdlib Require Import ZArith Lia Bool.
From S2P Require Import Prelude Layout.

(** ** Constants *)

Definition SsidLengthMax : nat := 32.
Definition AdvertiseDataSizeMax : nat := 384.
Definition UserNameBytesMax : nat := 32.
Definition NodeCountMax : nat := 8.
Definition PassphraseLengthMax : nat := 64.
Definition ScanFilterFlag_LocalCommunicationId : Z := Z.shiftl 1 0.

(** ** Enumerations *)

Inductive NodeStateChange : Set :=
| NodeStateChange_None | NodeStateChange_Connect | NodeStateChange_Disconnect
| NodeStateChange_DisconnectAndConnect.
Definition NodeStateChange_value (x : NodeStateChange) : Z :=
  match x with
  | NodeStateChange_None => 0 | NodeStateChange_Connect => 1
  | NodeStateChange_Disconnect => 2 | NodeStateChange_DisconnectAndConnect => 3
  end.

(** [enum class DisconnectReason : u32]; a received reason is cast to it
    whatever its number, so the service keeps the number. *)
Inductive DisconnectReason : Set :=
| DisconnectReason_None | DisconnectReason_User | DisconnectReason_SystemRequest
| DisconnectReason_DestroyedByUser | DisconnectReason_DestroyedBySystem
| DisconnectReason_Rejected | DisconnectReason_SignalLost.
Definition DisconnectReason_value (x : DisconnectReason) : Z :=
  match x with
  | DisconnectReason_None => 0 | DisconnectReason_User => 1
  | DisconnectReason_SystemRequest => 2 | DisconnectReason_DestroyedByUser => 3
  | DisconnectReason_DestroyedBySystem => 4 | DisconnectReason_Rejected => 5
  | DisconnectReason_SignalLost => 6
  end.

(** ** Structures and their layouts *)

Record MacAddress : Type := {
  mac_raw : list Z
}.
#[export] Instance MacAddress_layout : HasLayout MacAddress :=
  l_iso (fun x0 => Build_MacAddress x0)
    (fun s => mac_raw s)
    ((l_bytes 6)).

Record Ssid : Type := {
  ssid_length : Z;
  ssid_raw : list Z
}.
#[export] Instance Ssid_layout : HasLayout Ssid :=
  l_iso (fun '(x0, x1) => Build_Ssid x0 x1)
    (fun s => (ssid_length s, ssid_raw s))
    (l_u8 ⊗ (l_bytes 33)).

Record SessionId : Type := {
  sid_raw : list Z
}.
#[export] Instance SessionId_layout : HasLayout SessionId :=
  l_iso (fun x0 => Build_SessionId x0)
    (fun s => sid_raw s)
    ((l_bytes 16)).

Record IntentId : Type := {
  intent_localCommunicationId : Z;
  intent_unk1 : list Z;
  intent_sceneId : Z;
  intent_unk2 : list Z
}.
#[export] Instance IntentId_layout : HasLayout IntentId :=
  l_iso (fun '(x0, (x1, (x2, x3))) => Build_IntentId x0 x1 x2 x3)
    (fun s => (intent_localCommunicationId s, (intent_unk1 s, (intent_sceneId s,
      intent_unk2 s))))
    (l_u64 ⊗ (l_bytes 2) ⊗ l_u16 ⊗ (l_bytes 4)).

Record NetworkId : Type := {
  nid_intentId : IntentId;
  nid_sessionId : SessionId
}.
#[export] Instance NetworkId_layout : HasLayout NetworkId :=
  l_iso (fun '(x0, x1) => Build_NetworkId x0 x1)
    (fun s => (nid_intentId s, nid_sessionId s))
    ((layout_of IntentId) ⊗ (layout_of SessionId)).

Record CommonNetworkInfo : Type := {
  common_bssid : MacAddress;
  common_ssid : Ssid;
  common_channel : Z;
  common_linkLevel : Z;
  common_networkType : Z;
  common_unk : Z
}.
#[export] Instance CommonNetworkInfo_layout : HasLayout CommonNetworkInfo :=
  l_iso (fun '(x0, (x1, (x2, (x3, (x4, x5))))) => Build_CommonNetworkInfo x0 x1 x2 x3 x4
    x5)
    (fun s => (common_bssid s, (common_ssid s, (common_channel s, (common_linkLevel s,
      (common_networkType s, common_unk s))))))
    ((layout_of MacAddress) ⊗ (layout_of Ssid) ⊗ (l_sint 2) ⊗ (l_sint 1) ⊗ l_u8 ⊗ l_u32).

Record NodeInfo : Type := {
  node_ipv4Address : Z;
  node_macAddress : MacAddress;
  node_nodeId : Z;
  node_isConnected : Z;
  node_userName : list Z;
  node_unk1 : Z;
  node_localCommunicationVersion : Z;
  node_unk2 : list Z
}.
#[export] Instance NodeInfo_layout : HasLayout NodeInfo :=
  l_iso (fun '(x0, (x1, (x2, (x3, (x4, (x5, (x6, x7))))))) => Build_NodeInfo x0 x1 x2 x3
    x4 x5 x6 x7)
    (fun s => (node_ipv4Address s, (node_macAddress s, (node_nodeId s, (node_isConnected
      s, (node_userName s, (node_unk1 s, (node_localCommunicationVersion s, node_unk2
      s))))))))
    (l_u32 ⊗ (layout_of MacAddress) ⊗ (l_sint 1) ⊗ (l_sint 1) ⊗ (l_bytes 33) ⊗ l_u8 ⊗
      (l_sint 2) ⊗ (l_bytes 16)).

Record LdnNetworkInfo : Type := {
  ldn_unkRandom : list Z;
  ldn_securityMode : Z;
  ldn_stationAcceptPolicy : Z;
  ldn_unk1 : list Z;
  ldn_nodeCountMax : Z;
  ldn_nodeCount : Z;
  ldn_nodes : list NodeInfo;
  ldn_unk2 : Z;
  ldn_advertiseDataSize : Z;
  ldn_advertiseData : list Z;
  ldn_unk3 : list Z
}.
#[export] Instance LdnNetworkInfo_layout : HasLayout LdnNetworkInfo :=
  l_iso (fun '(x0, (x1, (x2, (x3, (x4, (x5, (x6, (x7, (x8, (x9, x10)))))))))) =>
    Build_LdnNetworkInfo x0 x1 x2 x3 x4 x5 x6 x7 x8 x9 x10)
    (fun s => (ldn_unkRandom s, (ldn_securityMode s, (ldn_stationAcceptPolicy s, (ldn_unk1
      s, (ldn_nodeCountMax s, (ldn_nodeCount s, (ldn_nodes s, (ldn_unk2 s,
      (ldn_advertiseDataSize s, (ldn_advertiseData s, ldn_unk3 s)))))))))))
    ((l_bytes 16) ⊗ l_u16 ⊗ l_u8 ⊗ (l_bytes 3) ⊗ l_u8 ⊗ l_u8 ⊗ (l_array NodeCountMax
      (layout_of NodeInfo)) ⊗ l_u16 ⊗ l_u16 ⊗ (l_bytes 384) ⊗ (l_bytes 148)).

Record NetworkInfo : Type := {
  info_networkId : NetworkId;
  info_common : CommonNetworkInfo;
  info_ldn : LdnNetworkInfo
}.
#[export] Instance NetworkInfo_layout : HasLayout NetworkInfo :=
  l_iso (fun '(x0, (x1, x2)) => Build_NetworkInfo x0 x1 x2)
    (fun s => (info_networkId s, (info_common s, info_ldn s)))
    ((layout_of NetworkId) ⊗ (layout_of CommonNetworkInfo) ⊗ (layout_of LdnNetworkInfo)).

Record SecurityConfig : Type := {
  sec_securityMode : Z;
  sec_passphraseSize : Z;
  sec_passphrase : list Z
}.
#[export] Instance SecurityConfig_layout : HasLayout SecurityConfig :=
  l_iso (fun '(x0, (x1, x2)) => Build_SecurityConfig x0 x1 x2)
    (fun s => (sec_securityMode s, (sec_passphraseSize s, sec_passphrase s)))
    (l_u16 ⊗ l_u16 ⊗ (l_bytes 64)).

Record UserConfig : Type := {
  user_userName : list Z;
  user_unk : list Z
}.
#[export] Instance UserConfig_layout : HasLayout UserConfig :=
  l_iso (fun '(x0, x1) => Build_UserConfig x0 x1)
    (fun s => (user_userName s, user_unk s))
    ((l_bytes 33) ⊗ (l_bytes 15)).

Record NetworkConfig : Type := {
  conf_intentId : IntentId;
  conf_channel : Z;
  conf_nodeCountMax : Z;
  conf_unk1 : Z;
  conf_localCommunicationVersion : Z;
  conf_unk2 : list Z
}.
#[export] Instance NetworkConfig_layout : HasLayout NetworkConfig :=
  l_iso (fun '(x0, (x1, (x2, (x3, (x4, x5))))) => Build_NetworkConfig x0 x1 x2 x3 x4 x5)
    (fun s => (conf_intentId s, (conf_channel s, (conf_nodeCountMax s, (conf_unk1 s,
      (conf_localCommunicationVersion s, conf_unk2 s))))))
    ((layout_of IntentId) ⊗ l_u16 ⊗ l_u8 ⊗ l_u8 ⊗ l_u16 ⊗ (l_bytes 10)).

Record CreateNetworkConfig : Type := {
  cnc_securityConfig : SecurityConfig;
  cnc_userConfig : UserConfig;
  cnc_unk : list Z;
  cnc_networkConfig : NetworkConfig
}.
#[export] Instance CreateNetworkConfig_layout : HasLayout CreateNetworkConfig :=
  l_iso (fun '(x0, (x1, (x2, x3))) => Build_CreateNetworkConfig x0 x1 x2 x3)
    (fun s => (cnc_securityConfig s, (cnc_userConfig s, (cnc_unk s, cnc_networkConfig
      s))))
    ((layout_of SecurityConfig) ⊗ (layout_of UserConfig) ⊗ (l_bytes 4) ⊗ (layout_of
      NetworkConfig)).

Record ConnectNetworkData : Type := {
  cnd_securityConfig : SecurityConfig;
  cnd_userConfig : UserConfig;
  cnd_localCommunicationVersion : Z;
  cnd_option : Z
}.
#[export] Instance ConnectNetworkData_layout : HasLayout ConnectNetworkData :=
  l_iso (fun '(x0, (x1, (x2, x3))) => Build_ConnectNetworkData x0 x1 x2 x3)
    (fun s => (cnd_securityConfig s, (cnd_userConfig s, (cnd_localCommunicationVersion s,
      cnd_option s))))
    ((layout_of SecurityConfig) ⊗ (layout_of UserConfig) ⊗ l_u32 ⊗ l_u32).

Record NodeLatestUpdate : Type := {
  upd_stateChange : Z;
  upd_unk : list Z
}.
#[export] Instance NodeLatestUpdate_layout : HasLayout NodeLatestUpdate :=
  l_iso (fun '(x0, x1) => Build_NodeLatestUpdate x0 x1)
    (fun s => (upd_stateChange s, upd_unk s))
    (l_u8 ⊗ (l_bytes 7)).

Record SessionInfo : Type := {
  si_node_count : Z;
  si_node_count_max : Z;
  si_local_node_id : Z;
  si_is_host : Z;
  si_reserved : list Z
}.
#[export] Instance SessionInfo_layout : HasLayout SessionInfo :=
  l_iso (fun '(x0, (x1, (x2, (x3, x4)))) => Build_SessionInfo x0 x1 x2 x3 x4)
    (fun s => (si_node_count s, (si_node_count_max s, (si_local_node_id s, (si_is_host s,
      si_reserved s)))))
    (l_u8 ⊗ l_u8 ⊗ l_u8 ⊗ l_u8 ⊗ (l_bytes 4)).

Record SecurityParameter : Type := {
  secp_unkRandom : list Z;
  secp_sessionId : SessionId
}.
#[export] Instance SecurityParameter_layout : HasLayout SecurityParameter :=
  l_iso (fun '(x0, x1) => Build_SecurityParameter x0 x1)
    (fun s => (secp_unkRandom s, secp_sessionId s))
    ((l_bytes 16) ⊗ (layout_of SessionId)).

Record CreateNetworkPrivateConfig : Type := {
  cnpc_securityConfig : SecurityConfig;
  cnpc_securityParameter : SecurityParameter;
  cnpc_userConfig : UserConfig;
  cnpc_unk : list Z;
  cnpc_networkConfig : NetworkConfig
}.
#[export] Instance CreateNetworkPrivateConfig_layout : HasLayout CreateNetworkPrivateConfig :=
  l_iso (fun '(x0, (x1, (x2, (x3, x4)))) => Build_CreateNetworkPrivateConfig x0 x1 x2 x3
    x4)
    (fun s => (cnpc_securityConfig s, (cnpc_securityParameter s, (cnpc_userConfig s,
      (cnpc_unk s, cnpc_networkConfig s)))))
    ((layout_of SecurityConfig) ⊗ (layout_of SecurityParameter) ⊗ (layout_of UserConfig) ⊗
      (l_bytes 4) ⊗ (layout_of NetworkConfig)).

Record ConnectPrivateData : Type := {
  cpd_securityConfig : SecurityConfig;
  cpd_securityParameter : SecurityParameter;
  cpd_userConfig : UserConfig;
  cpd_localCommunicationVersion : Z;
  cpd_option : Z;
  cpd_pad : list Z;
  cpd_networkConfig : NetworkConfig
}.
#[export] Instance ConnectPrivateData_layout : HasLayout ConnectPrivateData :=
  l_iso (fun '(x0, (x1, (x2, (x3, (x4, (x5, x6)))))) => Build_ConnectPrivateData x0 x1 x2
    x3 x4 x5 x6)
    (fun s => (cpd_securityConfig s, (cpd_securityParameter s, (cpd_userConfig s,
      (cpd_localCommunicationVersion s, (cpd_option s, (cpd_pad s, cpd_networkConfig
      s)))))))
    ((layout_of SecurityConfig) ⊗ (layout_of SecurityParameter) ⊗ (layout_of UserConfig) ⊗
      l_u32 ⊗ l_u32 ⊗ (l_bytes 4) ⊗ (layout_of NetworkConfig)).

Record ScanFilter : Type := {
  filter_networkId : NetworkId;
  filter_networkType : Z;
  filter_bssid : MacAddress;
  filter_ssid : Ssid;
  filter_unk : list Z;
  filter_flag : Z
}.
#[export] Instance ScanFilter_layout : HasLayout ScanFilter :=
  l_iso (fun '(x0, (x1, (x2, (x3, (x4, x5))))) => Build_ScanFilter x0 x1 x2 x3 x4 x5)
    (fun s => (filter_networkId s, (filter_networkType s, (filter_bssid s, (filter_ssid s,
      (filter_unk s, filter_flag s))))))
    ((layout_of NetworkId) ⊗ l_u32 ⊗ (layout_of MacAddress) ⊗ (layout_of Ssid) ⊗ (l_bytes
      16) ⊗ l_u32).

(** ** Conversions *)

(** The [s16] fields become [u16] ones. *)
Definition NetworkInfo2NetworkConfig (info : NetworkInfo) : NetworkConfig := {|
  conf_intentId := nid_intentId (info_networkId info);
  conf_channel := u16 (common_channel (info_common info));
  conf_nodeCountMax := ldn_nodeCountMax (info_ldn info);
  conf_unk1 := 0;
  conf_localCommunicationVersion :=
    u16 (default 0 (node_localCommunicationVersion <$> ldn_nodes (info_ldn info) !! O));
  conf_unk2 := repeat 0 10
|}.

Definition NetworkInfo2SecurityParameter (info : NetworkInfo) : SecurityParameter := {|
  secp_unkRandom := ldn_unkRandom (info_ldn info);
  secp_sessionId := nid_sessionId (info_networkId info)
|}.

(** ** The laws of the layouts *)

#[export] Instance MacAddress_laws : LayoutLaws (layout_of MacAddress).
Proof. solve_struct_laws. Qed.

#[export] Instance Ssid_laws : LayoutLaws (layout_of Ssid).
Proof. solve_struct_laws. Qed.

#[export] Instance SessionId_laws : LayoutLaws (layout_of SessionId).
Proof. solve_struct_laws. Qed.

#[export] Instance IntentId_laws : LayoutLaws (layout_of IntentId).
Proof. solve_struct_laws. Qed.

#[export] Instance NetworkId_laws : LayoutLaws (layout_of NetworkId).
Proof. solve_struct_laws. Qed.

#[export] Instance CommonNetworkInfo_laws : LayoutLaws (layout_of CommonNetworkInfo).
Proof. solve_struct_laws. Qed.

#[export] Instance NodeInfo_laws : LayoutLaws (layout_of NodeInfo).
Proof. solve_struct_laws. Qed.

#[export] Instance LdnNetworkInfo_laws : LayoutLaws (layout_of LdnNetworkInfo).
Proof. solve_struct_laws. Qed.

#[export] Instance NetworkInfo_laws : LayoutLaws (layout_of NetworkInfo).
Proof. solve_struct_laws. Qed.

#[export] Instance SecurityConfig_laws : LayoutLaws (layout_of SecurityConfig).
Proof. solve_struct_laws. Qed.

#[export] Instance UserConfig_laws : LayoutLaws (layout_of UserConfig).
Proof. solve_struct_laws. Qed.

#[export] Instance NetworkConfig_laws : LayoutLaws (layout_of NetworkConfig).
Proof. solve_struct_laws. Qed.

#[export] Instance CreateNetworkConfig_laws : LayoutLaws (layout_of CreateNetworkConfig).
Proof. solve_struct_laws. Qed.

#[export] Instance ConnectNetworkData_laws : LayoutLaws (layout_of ConnectNetworkData).
Proof. solve_struct_laws. Qed.

#[export] Instance NodeLatestUpdate_laws : LayoutLaws (layout_of NodeLatestUpdate).
Proof. solve_struct_laws. Qed.

#[export] Instance SessionInfo_laws : LayoutLaws (layout_of SessionInfo).
Proof. solve_struct_laws. Qed.

#[export] Instance SecurityParameter_laws : LayoutLaws (layout_of SecurityParameter).
Proof. solve_struct_laws. Qed.

#[export] Instance CreateNetworkPrivateConfig_laws : LayoutLaws (layout_of CreateNetworkPrivateConfig).
Proof. solve_struct_laws. Qed.

#[export] Instance ConnectPrivateData_laws : LayoutLaws (layout_of ConnectPrivateData).
Proof. solve_struct_laws. Qed.

#[export] Instance ScanFilter_laws : LayoutLaws (layout_of ScanFilter).
Proof. solve_struct_laws. Qed.

(** The sizes the [static_assert]s of the source demand of the C++ compiler. *)
Definition static_asserts : list (nat * Z) := [
  (sizeof MacAddress, 6); (sizeof Ssid, 34); (sizeof SessionId, 16); (sizeof IntentId, 16);
  (sizeof NetworkId, 32); (sizeof CommonNetworkInfo, 48); (sizeof NodeInfo, 64); (sizeof
  LdnNetworkInfo, 1072); (sizeof NetworkInfo, 1152); (sizeof SecurityConfig, 68); (sizeof
  UserConfig, 48); (sizeof NetworkConfig, 32); (sizeof CreateNetworkConfig, 152); (sizeof
  ConnectNetworkData, 124); (sizeof NodeLatestUpdate, 8); (sizeof SessionInfo, 8); (sizeof
  SecurityParameter, 32); (sizeof CreateNetworkPrivateConfig, 184); (sizeof
  ConnectPrivateData, 192); (sizeof ScanFilter, 96)
].

Lemma ldn_static_asserts_hold :
  forallb (fun p => Z.of_nat p.1 =? p.2) static_asserts = true.
Proof. vm_compute. reflexivity. Qed.
