(* ===== verification/SharedState.v ===== *)
(** * Shared state and idle timer ([ldn/ldn_shared_state.{hpp,cpp}],
      [ldn/ldn_network_timeout.{hpp,cpp}])

    [SharedState] is what the overlay and the interception of sockets read of
    the wireless service; [NetworkTimeout] is the timer that ends an idle
    connection.  Both are guarded by a mutex of their own, which makes each
    method atomic.  [CheckTimeout] calls its callback with that mutex held: the
    callback must not use the timer. *)

From stdpp Require Import base numbers list gmap.
From Stdlib Require Import ZArith Lia Bool.
From S2P Require Import Prelude LdnTypes.
From S2P Require LdnStateMachine.
Import LdnStateMachine (CommState, CommState_None).

(** ** [SharedState] *)

Record SharedState : Type := {
  m_game_active : bool;
  m_process_id : Z;
  m_ldn_pid : Z;
  m_ldn_state : CommState;
  m_node_count : Z;
  m_max_nodes : Z;
  m_local_node_id : Z;
  m_is_host : bool;
  m_last_rtt_ms : Z;
  m_reconnect_requested : bool;
  m_ldn_games : gset Z
}.

Definition new_SharedState : SharedState := {|
  m_game_active := false; m_process_id := 0; m_ldn_pid := 0; m_ldn_state := CommState_None;
  m_node_count := 0; m_max_nodes := 0; m_local_node_id := 0; m_is_host := false;
  m_last_rtt_ms := 0; m_reconnect_requested := false; m_ldn_games := ∅
|}.

Definition Reset (s : SharedState) : SharedState := {|
  m_game_active := false; m_process_id := 0; m_ldn_pid := m_ldn_pid s;
  m_ldn_state := CommState_None; m_node_count := 0; m_max_nodes := 0; m_local_node_id := 0;
  m_is_host := false; m_last_rtt_ms := 0; m_reconnect_requested := false;
  m_ldn_games := m_ldn_games s
|}.

Definition SetGameActive (active : bool) (process_id : Z) (s : SharedState) : SharedState :=
  if active then {|
    m_game_active := true; m_process_id := process_id; m_ldn_pid := m_ldn_pid s;
    m_ldn_state := m_ldn_state s; m_node_count := m_node_count s; m_max_nodes := m_max_nodes s;
    m_local_node_id := m_local_node_id s; m_is_host := m_is_host s;
    m_last_rtt_ms := m_last_rtt_ms s; m_reconnect_requested := m_reconnect_requested s;
    m_ldn_games := m_ldn_games s |}
  else {|
    m_game_active := false; m_process_id := 0; m_ldn_pid := m_ldn_pid s;
    m_ldn_state := CommState_None; m_node_count := 0; m_max_nodes := 0; m_local_node_id := 0;
    m_is_host := false; m_last_rtt_ms := 0;
    m_reconnect_requested := m_reconnect_requested s; m_ldn_games := m_ldn_games s |}.

Definition IsGameActive (s : SharedState) : bool := m_game_active s.
Definition GetActiveProcessId (s : SharedState) : Z := m_process_id s.

Definition SetLdnPid (pid : Z) (s : SharedState) : SharedState := {|
  m_game_active := m_game_active s; m_process_id := m_process_id s; m_ldn_pid := pid;
  m_ldn_state := m_ldn_state s; m_node_count := m_node_count s; m_max_nodes := m_max_nodes s;
  m_local_node_id := m_local_node_id s; m_is_host := m_is_host s;
  m_last_rtt_ms := m_last_rtt_ms s; m_reconnect_requested := m_reconnect_requested s;
  m_ldn_games := m_ldn_games s |}.

Definition GetLdnPid (s : SharedState) : Z := m_ldn_pid s.
Definition IsLdnPid (pid : Z) (s : SharedState) : bool :=
  negb (m_ldn_pid s =? 0) && (m_ldn_pid s =? pid).

Definition LoadLdnWhitelist (game_ids : list Z) (s : SharedState) : SharedState := {|
  m_game_active := m_game_active s; m_process_id := m_process_id s; m_ldn_pid := m_ldn_pid s;
  m_ldn_state := m_ldn_state s; m_node_count := m_node_count s; m_max_nodes := m_max_nodes s;
  m_local_node_id := m_local_node_id s; m_is_host := m_is_host s;
  m_last_rtt_ms := m_last_rtt_ms s; m_reconnect_requested := m_reconnect_requested s;
  m_ldn_games := list_to_set game_ids |}.

Definition IsLdnGame (program_id : Z) (s : SharedState) : bool :=
  bool_decide (program_id ∈ m_ldn_games s).
Definition GetWhitelistSize (s : SharedState) : Z := Z.of_nat (size (m_ldn_games s)).

Definition SetLdnState (state : CommState) (s : SharedState) : SharedState := {|
  m_game_active := m_game_active s; m_process_id := m_process_id s; m_ldn_pid := m_ldn_pid s;
  m_ldn_state := state; m_node_count := m_node_count s; m_max_nodes := m_max_nodes s;
  m_local_node_id := m_local_node_id s; m_is_host := m_is_host s;
  m_last_rtt_ms := m_last_rtt_ms s; m_reconnect_requested := m_reconnect_requested s;
  m_ldn_games := m_ldn_games s |}.
Definition GetLdnState (s : SharedState) : CommState := m_ldn_state s.

Definition SetSessionInfo (node_count max_nodes local_node_id : Z) (is_host : bool)
    (s : SharedState) : SharedState := {|
  m_game_active := m_game_active s; m_process_id := m_process_id s; m_ldn_pid := m_ldn_pid s;
  m_ldn_state := m_ldn_state s; m_node_count := node_count; m_max_nodes := max_nodes;
  m_local_node_id := local_node_id; m_is_host := is_host;
  m_last_rtt_ms := m_last_rtt_ms s; m_reconnect_requested := m_reconnect_requested s;
  m_ldn_games := m_ldn_games s |}.

Definition GetSessionInfo (s : SharedState) : Z * Z * Z * bool :=
  (m_node_count s, m_max_nodes s, m_local_node_id s, m_is_host s).

Definition GetSessionInfoStruct (s : SharedState) : SessionInfo := {|
  si_node_count := m_node_count s; si_node_count_max := m_max_nodes s;
  si_local_node_id := m_local_node_id s; si_is_host := if m_is_host s then 1 else 0;
  si_reserved := repeat 0 4 |}.

Definition set_rest (rtt : Z) (requested : bool) (s : SharedState) : SharedState := {|
  m_game_active := m_game_active s; m_process_id := m_process_id s; m_ldn_pid := m_ldn_pid s;
  m_ldn_state := m_ldn_state s; m_node_count := m_node_count s; m_max_nodes := m_max_nodes s;
  m_local_node_id := m_local_node_id s; m_is_host := m_is_host s;
  m_last_rtt_ms := rtt; m_reconnect_requested := requested; m_ldn_games := m_ldn_games s |}.

Definition SetLastRtt (rtt_ms : Z) (s : SharedState) : SharedState :=
  set_rest rtt_ms (m_reconnect_requested s) s.
Definition GetLastRtt (s : SharedState) : Z := m_last_rtt_ms s.
Definition RequestReconnect (s : SharedState) : SharedState := set_rest (m_last_rtt_ms s) true s.
Definition ConsumeReconnectRequest (s : SharedState) : bool * SharedState :=
  (m_reconnect_requested s, set_rest (m_last_rtt_ms s) false s).

(** ** [NetworkTimeout] *)

Definition DEFAULT_IDLE_TIMEOUT_MS : Z := 60000.

(** [m_callback]: the callback is not null. *)
Record NetworkTimeout : Type := {
  m_idle_timeout_ms : Z;
  m_callback : bool;
  m_timeout_start_ms : Z;
  m_active : bool
}.

Definition new_NetworkTimeout (idle_timeout_ms : Z) (callback : bool) : NetworkTimeout := {|
  m_idle_timeout_ms := idle_timeout_ms; m_callback := callback;
  m_timeout_start_ms := 0; m_active := false |}.

Definition set_timer (start : Z) (active : bool) (t : NetworkTimeout) : NetworkTimeout := {|
  m_idle_timeout_ms := m_idle_timeout_ms t; m_callback := m_callback t;
  m_timeout_start_ms := start; m_active := active |}.

(** [now_ms]: the system tick. *)
Definition RefreshTimeout (now_ms : Z) (t : NetworkTimeout) : NetworkTimeout :=
  set_timer now_ms true t.
Definition DisableTimeout (t : NetworkTimeout) : NetworkTimeout := set_timer 0 false t.

(** True when the callback is called. *)
Definition CheckTimeout (current_time_ms : Z) (t : NetworkTimeout) : bool * NetworkTimeout :=
  if negb (m_active t) || negb (m_callback t) then (false, t)
  else if u64 (m_timeout_start_ms t + m_idle_timeout_ms t) <=? current_time_ms
  then (true, set_timer (m_timeout_start_ms t) false t)
  else (false, t).

Definition IsActive (t : NetworkTimeout) : bool := m_active t.

(** A thread that checks the timer again and again. *)
Fixpoint checks (times : list Z) (t : NetworkTimeout) : list bool * NetworkTimeout :=
  match times with
  | [] => ([], t)
  | now :: times =>
      let '(fired, t) := CheckTimeout now t in
      let '(l, t) := checks times t in (fired :: l, t)
  end.

(** ** Properties *)

Lemma checks_inactive times t :
  m_active t = false -> checks times t = (repeat false (length times), t).
Proof.
  intros Ht. induction times as [|now times IH]; [done|]. cbn [checks length repeat].
  unfold CheckTimeout. rewrite Ht. cbn [negb orb]. by rewrite IH.
Qed.

(** Once started, the timer fires at the first check at or after its deadline,
    and at no other; with no such check it stays active. *)
Theorem timeout_fires_once idle start early late :
  0 <= start -> 0 <= idle -> start + idle < 2 ^ 64 ->
  Forall (fun now => now < start + idle) early ->
  match late with [] => True | now :: _ => start + idle <= now end ->
  let t := RefreshTimeout start (new_NetworkTimeout idle true) in
  (checks (early ++ late) t).1
    = repeat false (length early) ++ match late with
                                     | [] => []
                                     | _ :: late => true :: repeat false (length late)
                                     end
  /\ IsActive (checks (early ++ late) t).2 = match late with [] => true | _ => false end.
Proof.
  intros Hs Hi Hmax Hearly Hlate t.
  assert (Hstep : forall now, CheckTimeout now t
    = if start + idle <=? now then (true, set_timer start false t) else (false, t)).
  { intros now. unfold CheckTimeout. cbn. by rewrite u64_small by lia. }
  induction early as [|now early IH]; cbn [app length repeat].
  - destruct late as [|now late]; [done|]. cbn [checks]. rewrite Hstep.
    destruct (Z.leb_spec (start + idle) now); [|lia].
    by rewrite checks_inactive.
  - apply Forall_cons in Hearly as [Hnow Hearly]. cbn [checks]. rewrite Hstep.
    destruct (Z.leb_spec (start + idle) now); [lia|].
    specialize (IH Hearly) as [IH1 IH2].
    destruct (checks (early ++ late) t) as [l t']. cbn in *. by rewrite IH1.
Qed.

Lemma timeout_fires_once_witness :
  (checks [1000; 60999; 61000; 61001] (RefreshTimeout 1000
     (new_NetworkTimeout DEFAULT_IDLE_TIMEOUT_MS true))).1 = [false; false; true; false].
Proof.
  destruct (timeout_fires_once DEFAULT_IDLE_TIMEOUT_MS 1000 [1000; 60999] [61000; 61001])
    as [H _].
  - lia.
  - unfold DEFAULT_IDLE_TIMEOUT_MS. lia.
  - vm_compute. reflexivity.
  - repeat constructor.
  - vm_compute. discriminate.
  - exact H.
Defined.

(** A process is intercepted exactly while it is the process of the service. *)
Lemma IsLdnPid_spec pid s : IsLdnPid pid s = true <-> pid = m_ldn_pid s /\ pid <> 0.
Proof. unfold IsLdnPid. rewrite andb_true_iff, negb_true_iff, Z.eqb_eq, Z.eqb_neq. lia. Qed.

Lemma IsLdnGame_spec program_id ids s :
  IsLdnGame program_id (LoadLdnWhitelist ids s) = true <-> program_id ∈ ids.
Proof.
  unfold IsLdnGame. rewrite bool_decide_eq_true.
  unfold LoadLdnWhitelist. cbn [m_ldn_games]. apply elem_of_list_to_set.
Qed.
