(* ===== verification/LdnService.v ===== *)
(** * The communication service: state, connection, packets
      ([ldn/ldn_icommunication.{hpp,cpp}])

    [ICommunicationService] is the object behind a game's session of [ldn:u]; it
    owns a [RyuLdnClient] and, for peer-to-peer networks, a [P2pProxyServer] or a
    [P2pProxyClient], and shares with the rest of the module the statics in
    [World].  This file holds its state, the connection to the server, the
    peer-to-peer proxies and the handlers of received packets; LdnOperations.v
    the calls of the game and the receive thread.

    A method is a computation on the pair of the object and the world.  [None]
    is a call that does not return or is undefined; each is marked.  An event is
    its latch.  A wait takes the steps other threads make before it times out;
    it ends as soon as one of its events is set.  [auto_clear] is whether
    [TimedWaitAny] resets an auto-clear event it reports.  What the system
    answers to the calls of the peer-to-peer classes is the record
    [Environment].  [m_shared_mutex] only makes the handler of a packet and the
    reads of the operations atomic, and is not modelled; the log output is left
    out.

    The client calls the service back during [update]: its log holds those
    calls, which are made in the same order when [update] returns.  No handler
    calls the client back, except that the peer-to-peer server tells the master
    server of sessions it closes. *)

From stdpp Require Import base numbers list gmap.
From Stdlib Require Import ZArith Lia Bool.
From S2P Require Import Prelude Layout Imperative Types.
From S2P Require Protocol PacketBuffer Config ConnectionState LdnStateMachine NodeMapper.
From S2P Require BsdTypes ProxyLink ProxySocket ProxySocketManager.
From S2P Require RyuLdnClient P2pServer P2pClient SharedState.
From S2P Require Import ITcpClient LdnTypes.
Import ConnectionState (ConnectionState).
Import LdnStateMachine (LdnStateMachine, CommState).
Import SharedState (SharedState, NetworkTimeout).
Import Protocol (sizeofz).
Import RyuLdnClient (ClientOpResult, ClientOpResult_Success, ClientOpResult_NotConnected).

(** The result of a call of the game: [MAKERESULT(module, description)], or the
    result of [nifm]. *)
Inductive Result : Type :=
| Success | MAKERESULT (module description : Z) | NifmResult (code : Z).

Definition LDN_SESSION_STACK_COUNT : nat := 12.
Definition LDN_SESSION_STACK_SIZE : Z := 0x4000.
Definition MAX_SCAN_RESULTS : Z := 8.
Definition kPredictedHostIp : Z := 0x0A720001.
Definition kPredictedSubnetMask : Z := 0xFFFF0000.
Definition kPortUnreachableWire : Z := 1.

(** ** The world: the statics of this file and of the components it uses *)

Record World : Type := {
  g_active_ldn_service : option Z;
  g_current_ldn_instance : option Z;
  g_ldn_session_stack_used : list bool;
  shared_state : SharedState;
  socket_manager : ProxySocketManager.ProxySocketManager;
  g_config : Config.Config;
  config_saves : list Config.Config;             (** [save_config(CONFIG_PATH, ...)] *)
  abandoned_cleanups : list (option Z);          (** calls of [BsdMitmService] *)
  p2p_server_env : P2pServer.Env;                (** what a server leaves behind *)
  p2p_client_outside : P2pClient.Outside;        (** what a client leaves behind *)
  clock_ms : Z;                                  (** the system tick *)
  bad_access : bool                              (** an array was used outside its bounds *)
}.
#[export] Instance World_eta : Eta World := fun w =>
  Build_World (g_active_ldn_service w) (g_current_ldn_instance w) (g_ldn_session_stack_used w)
    (shared_state w) (socket_manager w) (g_config w) (config_saves w) (abandoned_cleanups w)
    (p2p_server_env w) (p2p_client_outside w) (clock_ms w)
    (bad_access w).

(** What the system answers to the calls made by the peer-to-peer classes, and
    what their threads do while the service waits for them. *)
Record Environment : Type := {
  env_listen_fd : Z;
  env_bind : Z -> bool;
  env_listen : bool;
  env_accept_thread : bool;
  env_discover : bool;
  env_add_mapping : Z -> bool;
  env_lease_thread : bool;
  env_stop_rounds : nat;
  env_finish : nat -> P2pServer.P2pProxyServer -> P2pServer.P2pProxyServer;
  env_local_ip : Z;                              (** [UpnpPortMapper::GetLocalIPv4] *)
  env_nifm_ip : Z;                               (** [GetLocalIPv4Nifm] *)
  env_answers : P2pClient.answers;
  env_during_connect : P2pClient.P2pProxyClient -> P2pClient.P2pProxyClient;
  env_during_ready : P2pClient.P2pProxyClient -> P2pClient.P2pProxyClient;
  env_client_thread : P2pClient.P2pProxyClient -> option P2pClient.P2pProxyClient;
  env_connect_thread : bool;
  env_client_buffer : PacketBuffer.PacketBuffer; (** the new client's buffer *)
  env_send_callback : ProxyLink.ProxyMessage -> bool
}.

Inductive Event : Set :=
| ResponseEvent | ScanEvent | ErrorEvent | RejectEvent | HandshakeEvent.

#[export] Instance Event_eq_dec : EqDecision Event.
Proof. solve_decision. Defined.

Section service.
Context {C : Type} `{ITcpClient C}.

(** [this] is the object's address.  A null pointer is [None]. *)
Record ICommunicationService : Type := {
  this : Z;
  m_state_machine : LdnStateMachine;
  m_error_state : Z;
  m_client_process_id : Z;
  m_network_info : NetworkInfo;
  m_disconnect_reason : Z;
  m_ipv4_address : Z;
  m_subnet_mask : Z;
  m_server_client : RyuLdnClient.RyuLdnClient (C:=C);
  m_server_connected : bool;
  m_node_mapper : NodeMapper.LdnNodeMapper;
  m_events : Event -> bool;
  m_last_response_id : Z;
  m_scan_results : list NetworkInfo;
  m_scan_result_count : Z;
  m_advertise_data : list Z;
  m_advertise_data_size : Z;
  m_game_version : list Z;
  m_network_connected : bool;
  m_prev_node_connected : list bool;
  m_last_network_error : Z;
  m_use_p2p_proxy : bool;
  m_proxy_config : Types.ProxyConfig;
  m_external_proxy_config : Types.ExternalProxyConfig;
  m_p2p_client : option P2pClient.P2pProxyClient;
  m_p2p_server : option P2pServer.P2pProxyServer;
  m_p2p_connect_thread_active : bool;
  m_p2p_connect_thread_initialized : bool;
  m_pending_p2p_config : Types.ExternalProxyConfig;
  m_inactivity_timeout : NetworkTimeout;
  m_recv_thread_running : bool;
  m_recv_thread_was_started : bool;
  m_stack_slot_index : Z;
  m_program_id : Z;
  m_local_communication_id : Z;
  m_expected_scene_id : Z
}.

#[export] Instance ICommunicationService_eta : Eta ICommunicationService := fun s =>
  Build_ICommunicationService (this s) (m_state_machine s) (m_error_state s)
    (m_client_process_id s) (m_network_info s) (m_disconnect_reason s) (m_ipv4_address s)
    (m_subnet_mask s) (m_server_client s) (m_server_connected s) (m_node_mapper s) (m_events s)
    (m_last_response_id s) (m_scan_results s) (m_scan_result_count s) (m_advertise_data s)
    (m_advertise_data_size s) (m_game_version s) (m_network_connected s)
    (m_prev_node_connected s) (m_last_network_error s) (m_use_p2p_proxy s) (m_proxy_config s)
    (m_external_proxy_config s) (m_p2p_client s) (m_p2p_server s)
    (m_p2p_connect_thread_active s) (m_p2p_connect_thread_initialized s)
    (m_pending_p2p_config s) (m_inactivity_timeout s) (m_recv_thread_running s)
    (m_recv_thread_was_started s) (m_stack_slot_index s) (m_program_id s)
    (m_local_communication_id s) (m_expected_scene_id s).

Definition State : Type := ICommunicationService * World.
Abbreviation Method := (M State).

Definition self {A} (f : ICommunicationService -> A) : Method A := gets (fun σ => f σ.1).
Definition world {A} (f : World -> A) : Method A := gets (fun σ => f σ.2).
Definition assign (f : ICommunicationService -> ICommunicationService) : Method unit :=
  modify (fun σ => (f σ.1, σ.2)).
Definition assign_world (f : World -> World) : Method unit := modify (fun σ => (σ.1, f σ.2)).
Definition shared (f : SharedState -> SharedState) : Method unit :=
  assign_world (fun w => w <| shared_state := f (shared_state w) |>).

(** *** Arrays *)

(** The element [i] of an array of [size] elements is used, or the elements
    before [n].  The lists of the model have no memory behind them; what C++
    would read or write there is noted. *)
Definition access (i : Z) (size : nat) : Method unit :=
  when (negb ((0 <=? i) && (i <? Z.of_nat size))) (assign_world (fun w => w <| bad_access := true |>)).
Definition access_first (n : Z) (size : nat) : Method unit :=
  when (Z.of_nat size <? n) (assign_world (fun w => w <| bad_access := true |>)).

(** A call of the state machine. *)
Definition machine (f : LdnStateMachine -> LdnStateMachine.StateTransitionResult * LdnStateMachine)
    : Method LdnStateMachine.StateTransitionResult :=
  fun σ => let '(r, m) := f (m_state_machine σ.1) in
           Some (r, (σ.1 <| m_state_machine := m |>, σ.2)).
Definition SignalStateChange : Method unit :=
  assign (fun s => s <| m_state_machine :=
                          LdnStateMachine.SignalStateChange (m_state_machine s) |>).

(** *** Events *)

Definition latched (e : Event) : Method bool := self (fun s => m_events s e).
Definition set_event (v : bool) (e : Event) : Method unit :=
  assign (fun s => s <| m_events := fun e' => if decide (e' = e) then v else m_events s e' |>).
Definition Signal : Event -> Method unit := set_event true.
Definition Clear : Event -> Method unit := set_event false.

(** The error event is the one with [EventClearMode_ManualClear]. *)
Definition consume (auto_clear : bool) (e : Event) : Method unit :=
  when (auto_clear && bool_decide (e <> ErrorEvent)) (Clear e).

(** [os::TimedWaitAny] on two events, with the steps of the other threads until
    the time is up. *)
Fixpoint TimedWaitAny (auto_clear : bool) (first second : Event) (meanwhile : list (Method unit))
    : Method (option Event) :=
  b1 ← latched first;
  b2 ← latched second;
  if b1 : bool then consume auto_clear first;; mret (Some first)
  else if b2 : bool then consume auto_clear second;; mret (Some second)
  else match meanwhile with
       | [] => mret None
       | step :: meanwhile => step;; TimedWaitAny auto_clear first second meanwhile
       end.

(** *** Calls of the client *)

(** [m_handshake_event] is signalled by the state callback. *)
Definition is_ready_call (e : RyuLdnClient.client_event) : bool :=
  match e with
  | RyuLdnClient.StateCallback _ ConnectionState.Ready => true
  | _ => false
  end.

(** The calls a method of the client added to its log. *)
Definition new_calls (before after : RyuLdnClient.RyuLdnClient (C:=C))
    : list RyuLdnClient.client_event :=
  drop (length (RyuLdnClient.m_log before)) (RyuLdnClient.m_log after).

Definition client {A} (f : RyuLdnClient.RyuLdnClient (C:=C) -> A * RyuLdnClient.RyuLdnClient (C:=C))
    : Method A :=
  before ← self m_server_client;
  let '(r, after) := f before in
  assign (fun s => s <| m_server_client := after |>);;
  when (existsb is_ready_call (new_calls before after)) (Signal HandshakeEvent);;
  mret r.

Definition client_disconnect : Method unit :=
  client (fun c => (tt, RyuLdnClient.disconnect c)).

Definition IsServerConnected (s : ICommunicationService) : bool :=
  m_server_connected s && RyuLdnClient.is_ready (m_server_client s).
End service.
Abbreviation Method C := (M (State (C:=C))).

(** *** Sockets, routing *)

Section sockets.
Context {C : Type} `{ITcpClient C}.
Context (iter : gmap Z ProxySocket.ProxySocket -> list (Z * ProxySocket.ProxySocket)).

Definition manager {A} (f : ProxySocketManager.ProxySocketManager ->
    option (A * ProxySocketManager.ProxySocketManager)) : Method C A := fun σ =>
  '(r, m) ← f (socket_manager σ.2); Some (r, (σ.1, σ.2 <| socket_manager := m |>)).

(** [SetSendCallback]: what the manager sees of the callback is its answer. *)
Definition SetSendCallback (callback : ProxyLink.ProxyMessage -> bool) : Method C unit :=
  manager (fun m =>
    l ← ProxyLink.SetSendCallback (Some callback) (ProxySocketManager.m_link m);
    Some (tt, ProxySocketManager.set_link l m)).

Definition bsd_protocol (protocol : Z) : option BsdTypes.ProtocolType :=
  if protocol =? Types.ProtocolType_Tcp then Some BsdTypes.Tcp
  else if protocol =? Types.ProtocolType_Udp then Some BsdTypes.Udp
  else None.

Definition RouteIncomingData (info : Types.ProxyInfo) (protocol : BsdTypes.ProtocolType)
    (data : list Z) (data_len : Z) : Method C unit :=
  now ← world clock_ms;
  manager (ProxySocketManager.RouteIncomingData iter (Types.pi_source_ipv4 info)
    (Types.pi_source_port info) (Types.pi_dest_ipv4 info) (Types.pi_dest_port info) protocol
    (Some data) data_len now);;
  mret tt.

(** Data that reached the host's own peer-to-peer server. *)
Definition HostP2pInboundDataCallback (d : P2pServer.host_data) : Method C unit :=
  match bsd_protocol (Types.pi_protocol (P2pServer.hd_info d)) with
  | Some protocol =>
      RouteIncomingData (P2pServer.hd_info d) protocol (P2pServer.hd_data d)
        (zlen (P2pServer.hd_data d))
  | None => mret tt
  end.

(** A [ProxyData] packet, from the master server or from the peer-to-peer host. *)
Definition HandleProxyDataPacket (data : list Z) (size : Z) : Method C unit :=
  if sizeofz Types.ProxyDataHeader <=? size then
    let proxy_header := of_bytes (A:=Types.ProxyDataHeader) data in
    let payload := zdrop (sizeofz Types.ProxyDataHeader) data in
    let payload_size := size - sizeofz Types.ProxyDataHeader in
    if Types.pdh_data_length proxy_header <=? payload_size then
      match bsd_protocol (Types.pi_protocol (Types.pdh_info proxy_header)) with
      | Some protocol =>
          RouteIncomingData (Types.pdh_info proxy_header) protocol payload
            (Types.pdh_data_length proxy_header)
      | None => mret tt
      end
    else mret tt
  else mret tt.
End sockets.

(** ** Peer-to-peer proxies *)

Section proxies.
Context {C : Type} `{ITcpClient C}.
Context (iter : gmap Z ProxySocket.ProxySocket -> list (Z * ProxySocket.ProxySocket)).
Context (env : Environment).

(** [send_raw_packet] by the server's callback to the master server. *)
Definition master_send_callback (data : list Z) : Method C unit :=
  b ← self IsServerConnected;
  when b (client (RyuLdnClient.send_raw_packet (Some data) (zlen data));; mret tt).

(** A call of the peer-to-peer server, followed by the calls it made to its two
    callbacks. *)
Definition p2p_server {A} (f : P2pServer.P2pProxyServer -> option (A * P2pServer.P2pProxyServer))
    (server : P2pServer.P2pProxyServer) : Method C A := fun σ =>
  match f server with
  | None => None
  | Some (r, server') =>
      let e := P2pServer.env server in
      let e' := P2pServer.env server' in
      (assign (fun s => s <| m_p2p_server := Some server' |>);;
       for_each (drop (length (P2pServer.master_log e)) (P2pServer.master_log e'))
         master_send_callback;;
       for_each (drop (length (P2pServer.host_log e)) (P2pServer.host_log e'))
         (HostP2pInboundDataCallback iter);;
       mret r) σ
  end.

(** The same for a call without a result. *)
Definition p2p_server_do (f : P2pServer.P2pProxyServer -> option P2pServer.P2pProxyServer)
    (server : P2pServer.P2pProxyServer) : Method C unit :=
  p2p_server (fun z => z ← f z; Some (tt, z)) server.

Definition StopP2pProxyServer : Method C unit :=
  server ← self m_p2p_server;
  match server with
  | None => mret tt
  | Some server =>
      p2p_server_do (fun z =>
        z ← P2pServer.Stop (env_stop_rounds env) (env_finish env) (P2pServer.ReleaseNatPunch z);
        (* delete *)
        z ← P2pServer.Stop (env_stop_rounds env) (env_finish env) z;
        Some (P2pServer.ReleaseNatPunch z)) server;;
      gone ← self m_p2p_server;
      when (bool_decide (is_Some gone))
        (assign_world (fun w => w <| p2p_server_env :=
           default (p2p_server_env w) (P2pServer.env <$> gone) |>));;
      assign (fun s => s <| m_p2p_server := None |>)
  end.

(** A packet from the peer-to-peer host; other types are ignored. *)
Definition p2p_packet_callback (call : PacketId * list Z) : Method C unit :=
  let '(type, data) := call in
  if decide (type = PacketId_ProxyData) then HandleProxyDataPacket iter data (zlen data)
  else mret tt.

(** A call of the peer-to-peer client, followed by the packets its thread gave
    to the callback. *)
Definition p2p_client {A} (f : P2pClient.P2pProxyClient -> option (A * P2pClient.P2pProxyClient))
    (c : P2pClient.P2pProxyClient) : Method C A := fun σ =>
  match f c with
  | None => None
  | Some (r, c') =>
      (assign (fun s => s <| m_p2p_client := Some c' |>);;
       for_each (drop (length (P2pClient.callbacks (P2pClient.outside c)))
                   (P2pClient.callbacks (P2pClient.outside c'))) p2p_packet_callback;;
       mret r) σ
  end.

Definition with_client (f : P2pClient.P2pProxyClient -> option P2pClient.P2pProxyClient)
    : Method C unit :=
  c ← self m_p2p_client;
  match c with
  | None => mret tt
  | Some c => p2p_client (fun c => c ← f c; Some (tt, c)) c
  end.

(** [delete m_p2p_client; m_p2p_client = nullptr] *)
Definition delete_client : Method C unit :=
  with_client (P2pClient.destroy (env_client_thread env));;
  gone ← self m_p2p_client;
  assign_world (fun w => w <| p2p_client_outside :=
    default (p2p_client_outside w) (P2pClient.outside <$> gone) |>);;
  assign (fun s => s <| m_p2p_client := None |>).

(** [in_connect_thread]: this is the connect thread; otherwise [finish] is what
    that thread does until it ends. *)
Definition DisconnectP2pProxy (in_connect_thread : bool) (finish : Method C unit)
    : Method C unit :=
  with_client (P2pClient.Disconnect (env_client_thread env));;
  initialized ← self m_p2p_connect_thread_initialized;
  when (initialized && negb in_connect_thread)
    (finish;;
     assign (fun s => s <| m_p2p_connect_thread_initialized := false |>
                        <| m_p2p_connect_thread_active := false |>));;
  delete_client.

Definition StartP2pProxyServer : Method C bool :=
  StopP2pProxyServer;;
  use ← self m_use_p2p_proxy;
  if negb use then mret false
  else
    e ← world p2p_server_env;
    let server := P2pServer.new_P2pProxyServer true e in
    assign (fun s => s <| m_p2p_server := Some server |>);;
    started ← p2p_server (P2pServer.Start 0 (env_listen_fd env) (env_bind env) (env_listen env)
                            (env_accept_thread env)) server;
    if negb started then StopP2pProxyServer;; mret false
    else
      assign (fun s => s <| m_p2p_server :=
        (fun z => P2pServer.SetHostDataCallback true
                    (P2pServer.SetHostVirtualIp kPredictedHostIp z)) <$> m_p2p_server s |>);;
      mret true.

Definition HandleExternalProxyToken (token : ExternalProxyToken) : Method C unit :=
  server ← self m_p2p_server;
  match server with
  | Some z =>
      when (P2pServer.m_running z)
        (p2p_server_do (fun z => Some (P2pServer.AddWaitingToken token z)) z)
  | None => mret tt
  end.

(** [disable_p2p] is set and saved, unless it is set. *)
Definition persist_disable_p2p : Method C unit :=
  g ← world g_config;
  let l := Config.ldn g in
  when (negb (Config.disable_p2p l))
    (let g' := Config.Build_Config (Config.server g) (Config.network g)
                 (Config.Build_LdnConfig (Config.ldn_enabled l) (Config.passphrase l)
                    (Config.interface_name l) true) (Config.debug g) in
     assign_world (fun w => w <| g_config := g' |> <| config_saves := config_saves w ++ [g'] |>)).

(** [Connect], [PerformAuth], [EnsureProxyReady] on the new client. *)
Definition join_host (config : ExternalProxyConfig) : Method C bool :=
  let connect_port := if negb (epc_proxy_port config =? 0) then epc_proxy_port config else 39990 in
  let call {A} (f : P2pClient.P2pProxyClient -> A * P2pClient.P2pProxyClient)
      (otherwise : A) : Method C A :=
    c ← self m_p2p_client;
    match c with Some c => p2p_client (fun c => Some (f c)) c | None => mret otherwise end in
  connected ← (if epc_address_family config =? 2
               then call (P2pClient.Connect (Some (epc_proxy_ip config)) 4 connect_port
                            (env_answers env) (env_during_connect env)) false
               else mret false);
  if negb connected then mret false
  else
    authenticated ← call (P2pClient.PerformAuth config) false;
    if negb authenticated then mret false
    else call (P2pClient.EnsureProxyReady (env_during_ready env)) false.

(** On the connect thread; [meanwhile] is what other threads do until the client
    is ready or has failed. *)
Definition HandleExternalProxyConnect (config : ExternalProxyConfig) (meanwhile : Method C unit)
    : Method C unit :=
  DisconnectP2pProxy true (mret tt);;
  o ← world p2p_client_outside;
  assign (fun s => s <| m_p2p_client :=
    Some (P2pClient.new_P2pProxyClient true (env_client_buffer env) o) |>);;
  joined ← join_host config;
  meanwhile;;
  if negb joined then
    assign (fun s => s <| m_use_p2p_proxy := false |>);;
    persist_disable_p2p;;
    DisconnectP2pProxy true (mret tt);;
    Signal ErrorEvent
  else
    s ← self id;
    if negb (m_network_connected s)
       && negb (LdnStateMachine.IsInState LdnStateMachine.CommState_StationConnected (m_state_machine s))
       && negb (LdnStateMachine.IsInState LdnStateMachine.CommState_AccessPointCreated (m_state_machine s))
    then DisconnectP2pProxy true (mret tt)
    else
      match m_p2p_client s with
      | None => diverge                                  (* a null pointer *)
      | Some c =>
          let config := P2pClient.GetProxyConfig c in
          assign (fun s => s <| m_proxy_config := config |>
                             <| m_ipv4_address := pc_proxy_ip config |>
                             <| m_subnet_mask := pc_proxy_subnet_mask config |>);;
          manager (ProxySocketManager.SetLocalIp (pc_proxy_ip config))
      end.

Definition P2pConnectThreadEntry (meanwhile : Method C unit) : Method C unit :=
  config ← self m_pending_p2p_config;
  HandleExternalProxyConnect config meanwhile;;
  assign (fun s => s <| m_p2p_connect_thread_active := false |>).

(** *** Sending the game's data: to the players of our own server, to the
    peer-to-peer host, to the master server *)

Definition is_broadcast_ip (dest_ip : Z) : bool :=
  (dest_ip =? 0x0A72FFFF) || (dest_ip =? 0xc0a800ff) || (dest_ip =? 0xFFFFFFFF).

(** [BroadcastFromHost] may change the caller's header. *)
Definition send_as_host (header : ProxyDataHeader) (data : list Z) (data_len : Z)
    : Method C (bool * ProxyDataHeader) :=
  server ← self m_p2p_server;
  match server with
  | Some z =>
      if P2pServer.m_running z then
        '(sent, header) ← p2p_server (P2pServer.BroadcastFromHost header data data_len) z;
        mret (sent && negb (is_broadcast_ip (pi_dest_ipv4 (pdh_info header))), header)
      else mret (false, header)
  | None => mret (false, header)
  end.

Definition send_as_joiner (header : ProxyDataHeader) (data : list Z) (data_len : Z)
    : Method C bool :=
  c ← self m_p2p_client;
  match c with
  | Some c =>
      if P2pClient.IsReady c
      then p2p_client (fun c => Some (P2pClient.SendProxyData header data data_len c)) c
      else mret false
  | None => mret false
  end.

Definition SendProxyDataToServer (header : ProxyDataHeader) (data : list Z) (data_len : Z)
    : Method C ClientOpResult :=
  b ← self IsServerConnected;
  if negb b then mret ClientOpResult_NotConnected
  else
    '(done, header) ← send_as_host header data data_len;
    if done : bool then mret ClientOpResult_Success
    else
      sent ← send_as_joiner header data data_len;
      if sent : bool then mret ClientOpResult_Success
      else client (RyuLdnClient.send_proxy_data header (Some data) data_len).

(** The callback registered with the sockets; it serves the active service. *)
Definition SendProxyDataCallback (info : ProxyInfo) (protocol : BsdTypes.ProtocolType)
    (data : list Z) (data_len : Z) : Method C bool :=
  active ← world g_active_ldn_service;
  s ← self this;
  if bool_decide (active <> Some s) then mret false
  else
    let protocol := match protocol with
                    | BsdTypes.Tcp => Some ProtocolType_Tcp
                    | BsdTypes.Udp => Some ProtocolType_Udp
                    | _ => None
                    end in
    match protocol with
    | None => mret false
    | Some protocol =>
        result ← SendProxyDataToServer
          {| pdh_info := {| pi_source_ipv4 := pi_source_ipv4 info;
                            pi_source_port := pi_source_port info;
                            pi_dest_ipv4 := pi_dest_ipv4 info;
                            pi_dest_port := pi_dest_port info;
                            pi_protocol := protocol |};
             pdh_data_length := u32 data_len |} data data_len;
        mret match result with ClientOpResult_Success => true | _ => false end
    end.
End proxies.

(** ** The connection to the server *)

Section connection.
Context {C : Type} `{ITcpClient C}.
Context (iter : gmap Z ProxySocket.ProxySocket -> list (Z * ProxySocket.ProxySocket)).
Context (env : Environment) (auto_clear : bool).

(** [if (g_active_ldn_service == this) g_active_ldn_service = nullptr] *)
Definition unregister_active : Method C unit :=
  p ← self this;
  assign_world (fun w => w <| g_active_ldn_service :=
    if decide (g_active_ldn_service w = Some p) then None else g_active_ldn_service w |>).

Definition clear_events : Method C unit :=
  assign (fun s => s <| m_events := fun _ => false |>).

(** The calls of [BsdMitmService]. *)
Definition cleanup_abandoned : Method C unit :=
  pid ← self m_client_process_id;
  when (negb (pid =? 0))
    (assign_world (fun w => w <| abandoned_cleanups := abandoned_cleanups w ++ [Some pid] |>));;
  assign_world (fun w => w <| abandoned_cleanups := abandoned_cleanups w ++ [None] |>).

Definition disconnect_master : Method C unit :=
  connected ← self m_server_connected;
  when connected
    (client_disconnect;;
     assign (fun s => s <| m_server_connected := false |>)).

(** [finish]: what the connect thread does until it ends. *)
Definition CleanupSessionResources (finish : Method C unit) : Method C unit :=
  StopP2pProxyServer iter env;;
  DisconnectP2pProxy iter env false finish;;
  disconnect_master;;
  unregister_active;;
  manager (ProxySocketManager.Reset iter);;
  cleanup_abandoned;;
  clear_events;;
  assign (fun s => s <| m_network_info := zeroed NetworkInfo |>
                     <| m_proxy_config := zeroed ProxyConfig |>
                     <| m_external_proxy_config := zeroed ExternalProxyConfig |>
                     <| m_scan_results := repeat (zeroed NetworkInfo) (Z.to_nat MAX_SCAN_RESULTS) |>
                     <| m_prev_node_connected := repeat false NodeCountMax |>
                     <| m_advertise_data := repeat 0 AdvertiseDataSizeMax |>
                     <| m_scan_result_count := 0 |>
                     <| m_advertise_data_size := 0 |>
                     <| m_ipv4_address := 0 |>
                     <| m_subnet_mask := 0 |>
                     <| m_network_connected := false |>
                     <| m_node_mapper := NodeMapper.Clear (m_node_mapper s) |>);;
  shared (SharedState.SetGameActive false 0);;
  shared (SharedState.SetLdnPid 0).

Definition DisconnectFromServer (finish : Method C unit) : Method C unit :=
  StopP2pProxyServer iter env;;
  DisconnectP2pProxy iter env false finish;;
  unregister_active;;
  manager (ProxySocketManager.Reset iter);;
  cleanup_abandoned;;
  disconnect_master;;
  clear_events.

(** [MAKERESULT(0x10, 2)]: no connection; [MAKERESULT(0x10, 4)]: no handshake.
    [meanwhile]: the steps of the other threads until the handshake times out. *)
Definition ConnectToServer (meanwhile : list (Method C unit)) : Method C Result :=
  s ← self id;
  if IsServerConnected s then mret Success
  else
    when (m_server_connected s)
      (client_disconnect;; assign (fun s => s <| m_server_connected := false |>));;
    result ← client RyuLdnClient.connect;
    up ← self (fun s => RyuLdnClient.is_connected (m_server_client s));
    match result with
    | ClientOpResult_Success =>
        if negb up then mret (MAKERESULT 0x10 2)
        else
          Clear HandshakeEvent;;
          Clear ErrorEvent;;
          TimedWaitAny auto_clear HandshakeEvent ErrorEvent meanwhile;;
          ready ← self (fun s => RyuLdnClient.is_ready (m_server_client s));
          if negb ready then client_disconnect;; mret (MAKERESULT 0x10 4)
          else
            assign (fun s => s <| m_server_connected := true |>);;
            p ← self this;
            assign_world (fun w => w <| g_active_ldn_service := Some p |>);;
            SetSendCallback (env_send_callback env);;
            mret Success
    | _ => mret (MAKERESULT 0x10 2)
    end.

(** The callback of the idle timer, for the active service; its argument is that
    of [DisconnectFromServer].  An active service other than this one has no
    running receive thread any more, and is out of the picture. *)
Definition OnInactivityTimeout (finish : Method C unit) : Method C unit :=
  active ← world g_active_ldn_service;
  s ← self id;
  match active with
  | None => mret tt
  | Some p =>
      if decide (p = this s)
      then when (negb (m_network_connected s)) (DisconnectFromServer finish)
      else diverge
  end.

(** ** Received packets *)

(** The index of this console's node: by address, else by MAC address. *)
Definition find_node (p : NodeInfo -> bool) (nodes : list NodeInfo) : option Z :=
  match list_find (fun n => negb (node_isConnected n =? 0) && p n = true) nodes with
  | Some (i, _) => Some (Z.of_nat i)
  | None => None
  end.

Definition FindLocalNodeId (s : ICommunicationService (C:=C)) : Z :=
  let nodes := ldn_nodes (info_ldn (m_network_info s)) in
  let by_ip := if m_ipv4_address s =? 0 then None
               else find_node (fun n => node_ipv4Address n =? m_ipv4_address s) nodes in
  let my_mac := Types.mac_data (RyuLdnClient.m_mac_address (m_server_client s)) in
  let by_mac := find_node (fun n => bool_decide (take 6 (mac_raw (node_macAddress n))
                                                 = take 6 my_mac)) nodes in
  match by_ip with
  | Some i => i
  | None => default 0xFF by_mac
  end.

(** The scene and the game the service shows instead of the received ones. *)
Definition fix_intent (expected_scene_id local_communication_id : Z) (info : NetworkInfo)
    : NetworkInfo :=
  let nid := info_networkId info in
  let intent := nid_intentId nid in
  let scene := if negb (expected_scene_id =? 0)
                  && negb (intent_sceneId intent =? expected_scene_id)
               then expected_scene_id else intent_sceneId intent in
  let comm := if negb (local_communication_id =? 0)
                 && negb (intent_localCommunicationId intent =? local_communication_id)
              then local_communication_id else intent_localCommunicationId intent in
  {| info_networkId :=
       {| nid_intentId := {| intent_localCommunicationId := comm;
                             intent_unk1 := intent_unk1 intent; intent_sceneId := scene;
                             intent_unk2 := intent_unk2 intent |};
          nid_sessionId := nid_sessionId nid |};
     info_common := info_common info; info_ldn := info_ldn info |}.

(** Channel 0 becomes channel 6. *)
Definition fix_channel (info : NetworkInfo) : NetworkInfo :=
  let c := info_common info in
  {| info_networkId := info_networkId info;
     info_common := {| common_bssid := common_bssid c; common_ssid := common_ssid c;
                       common_channel := if common_channel c =? 0 then 6 else common_channel c;
                       common_linkLevel := common_linkLevel c;
                       common_networkType := common_networkType c;
                       common_unk := common_unk c |};
     info_ldn := info_ldn info |}.

(** The received bytes, as the service keeps them. *)
Definition received_info (data : list Z) (s : ICommunicationService (C:=C)) : NetworkInfo :=
  fix_intent (m_expected_scene_id s) (m_local_communication_id s)
    (of_bytes (A:=NetworkInfo) data).

Definition is_state (state : CommState) (s : ICommunicationService (C:=C)) : bool :=
  LdnStateMachine.IsInState state (m_state_machine s).

Definition HandleConnectedPacket (data : list Z) (size : Z) : Method C unit :=
  if sizeofz NetworkInfo <=? size then
    assign (fun s => s <| m_network_info := fix_channel (received_info data s) |>
                       <| m_network_connected := true |>);;
    s ← self id;
    let local_node_id := FindLocalNodeId s in
    let nodes := ldn_nodes (info_ldn (m_network_info s)) in
    let local_ip := default 0 (node_ipv4Address <$> nodes !! Z.to_nat local_node_id) in
    when (negb (local_node_id =? 0xFF) && negb (local_ip =? 0))
      (assign (fun s => s <| m_ipv4_address := local_ip |>);;
       manager (ProxySocketManager.SetLocalIp local_ip));;
    let is_host := negb (default 0 (node_isConnected <$> nodes !! O) =? 0)
                   && is_state LdnStateMachine.CommState_AccessPointCreated s in
    shared (SharedState.SetSessionInfo (ldn_nodeCount (info_ldn (m_network_info s)))
              (ldn_nodeCountMax (info_ldn (m_network_info s))) local_node_id is_host);;
    SignalStateChange
  else mret tt.

Definition HandleSyncNetworkPacket (data : list Z) (size : Z) : Method C unit :=
  if sizeofz NetworkInfo <=? size then
    assign (fun s => s <| m_network_info := received_info data s |>);;
    s ← self id;
    shared (SharedState.SetSessionInfo (ldn_nodeCount (info_ldn (m_network_info s)))
              (ldn_nodeCountMax (info_ldn (m_network_info s))) (FindLocalNodeId s)
              (is_state LdnStateMachine.CommState_AccessPointCreated s));;
    SignalStateChange
  else mret tt.

Definition HandleScanReplyPacket (data : list Z) (size : Z) : Method C unit :=
  when (sizeofz NetworkInfo <=? size)
    (s ← self id;
     when (m_scan_result_count s <? MAX_SCAN_RESULTS)
       (access (m_scan_result_count s) (Z.to_nat MAX_SCAN_RESULTS);;
        assign (fun s => s <| m_scan_results :=
                  <[Z.to_nat (m_scan_result_count s) := received_info data s]>
                    (m_scan_results s) |>);;
        assign (fun s => s <| m_scan_result_count := m_scan_result_count s + 1 |>))).

Definition is_port_unreachable (data : list Z) (size : Z) : bool :=
  (sizeofz NetworkErrorMessage <=? size)
  && (neterr_error_code (of_bytes data) =? kPortUnreachableWire).

Definition HandleNetworkErrorPacket (data : list Z) (size : Z) : Method C unit :=
  if is_port_unreachable data size then
    assign (fun s => s <| m_use_p2p_proxy := false |>);;
    persist_disable_p2p
  else
    when (sizeofz NetworkErrorMessage <=? size)
      (assign (fun s => s <| m_last_network_error := neterr_error_code (of_bytes data) |>));;
    Signal ErrorEvent.

Definition HandleExternalProxyPacket (data : list Z) (size : Z) : Method C unit :=
  when (sizeofz ExternalProxyConfig <=? size)
    (let config := of_bytes (A:=ExternalProxyConfig) data in
     assign (fun s => s <| m_external_proxy_config := config |>);;
     s ← self id;
     let is_self_proxy :=
       match m_p2p_server s with
       | Some z => P2pServer.m_running z
                   && ((epc_proxy_port config =? P2pServer.m_public_port z)
                       || (epc_proxy_port config =? P2pServer.m_private_port z))
       | None => false
       end in
     if is_self_proxy || negb (m_use_p2p_proxy s) || negb (m_recv_thread_running s) then mret tt
     else if m_p2p_connect_thread_active s then mret tt
     else
       access (m_stack_slot_index s) LDN_SESSION_STACK_COUNT;;
       assign (fun s => s <| m_pending_p2p_config := config |>
                          <| m_p2p_connect_thread_active := env_connect_thread env |>
                          <| m_p2p_connect_thread_initialized := env_connect_thread env |>)).

Definition is_id (id : Z) (type : PacketId) : bool := id =? PacketId_value type.

Definition is_response (id : Z) (data : list Z) (size : Z) : bool :=
  is_id id PacketId_Connected || is_id id PacketId_ScanReply || is_id id PacketId_ScanReplyEnd
  || is_id id PacketId_RejectReply || is_id id PacketId_ProxyConnectReply
  || (is_id id PacketId_NetworkError && negb (is_port_unreachable data size)).

(** The cases [Ping] and [Disconnect]; the client handles these packets itself
    and never passes them on. *)
Definition HandleDisconnectPacket : Method C unit :=
  assign (fun s => s <| m_network_connected := false |>
                     <| m_disconnect_reason := DisconnectReason_value DisconnectReason_SystemRequest |>);;
  SignalStateChange.

Definition HandlePingPacket (data : list Z) (size : Z) : Method C unit :=
  when ((sizeofz PingMessage <=? size) && (ping_requester (of_bytes data) =? 0))
    (client (RyuLdnClient.send_ping_response (ping_id (of_bytes data)));; mret tt).

Definition HandleRejectPacket (data : list Z) (size : Z) : Method C unit :=
  assign (fun s => s <| m_disconnect_reason :=
    if sizeofz RejectRequest <=? size then rej_disconnect_reason (of_bytes data)
    else DisconnectReason_value DisconnectReason_Rejected |>).

Definition HandleProxyConfigPacket (data : list Z) (size : Z) : Method C unit :=
  when (sizeofz ProxyConfig <=? size)
    (let config := of_bytes (A:=ProxyConfig) data in
     assign (fun s => s <| m_proxy_config := config |>
                        <| m_ipv4_address := pc_proxy_ip config |>
                        <| m_subnet_mask := pc_proxy_subnet_mask config |>);;
     manager (ProxySocketManager.SetLocalIp (pc_proxy_ip config))).

Definition HandleExternalProxyStatePacket (data : list Z) (size : Z) : Method C unit :=
  when (sizeofz ExternalProxyConnectionState <=? size)
    (let state := of_bytes (A:=ExternalProxyConnectionState) data in
     server ← self m_p2p_server;
     match server with
     | Some z => p2p_server_do iter (P2pServer.HandleExternalProxyStateChange
                   (epcs_ip_address state) (negb (epcs_connected state =? 0))) z
     | None => mret tt
     end).

(** The [switch] of [HandleServerPacket]. *)
Definition handle_packet_type (id : Z) (data : list Z) (size : Z) : Method C unit :=
  if is_id id PacketId_Connected then HandleConnectedPacket data size
  else if is_id id PacketId_SyncNetwork then HandleSyncNetworkPacket data size
  else if is_id id PacketId_Disconnect then HandleDisconnectPacket
  else if is_id id PacketId_Reject then HandleRejectPacket data size
  else if is_id id PacketId_RejectReply then Signal RejectEvent
  else if is_id id PacketId_Ping then HandlePingPacket data size
  else if is_id id PacketId_NetworkError then HandleNetworkErrorPacket data size
  else if is_id id PacketId_ScanReply then HandleScanReplyPacket data size
  else if is_id id PacketId_ScanReplyEnd then Signal ScanEvent
  else if is_id id PacketId_ProxyConfig then HandleProxyConfigPacket data size
  else if is_id id PacketId_ExternalProxy then HandleExternalProxyPacket data size
  else if is_id id PacketId_ExternalProxyToken then
    when (sizeofz ExternalProxyToken <=? size)
      (HandleExternalProxyToken iter (of_bytes data))
  else if is_id id PacketId_ExternalProxyState then HandleExternalProxyStatePacket data size
  else if is_id id PacketId_ProxyData then HandleProxyDataPacket iter data size
  else mret tt.

Definition HandleServerPacket (id : Z) (data : list Z) (size : Z) : Method C unit :=
  handle_packet_type id data size;;
  when (is_response id data size)
    (assign (fun s => s <| m_last_response_id := id |>);; Signal ResponseEvent).

(** ** Waiting for a response *)

(** One return of [TimedWaitAny] and the checks behind it; [None] is
    [continue], or nothing to report. *)
Definition poll_response (expected_id : Z) : Method C (option bool) :=
  response ← latched ResponseEvent;
  error ← latched ErrorEvent;
  if response : bool then
    consume auto_clear ResponseEvent;;
    last_id ← self m_last_response_id;
    mret (if last_id =? expected_id then Some true
          else if is_id last_id PacketId_NetworkError then Some false
          else if is_id last_id PacketId_ScanReply || is_id last_id PacketId_ScanReplyEnd then None
          else Some false)
  else mret (if error : bool then Some false else None).

(** The loop until the time is up.  Behind a response of another kind an error
    may be waiting, so the events are looked at twice between two steps. *)
Fixpoint wait_loop (expected_id : Z) (meanwhile : list (Method C unit)) : Method C bool :=
  first ← poll_response expected_id;
  r ← match first with Some r => mret (Some r) | None => poll_response expected_id end;
  match r, meanwhile with
  | Some r, _ => mret r
  | None, [] => mret false
  | None, step :: meanwhile => step;; wait_loop expected_id meanwhile
  end.

Definition WaitForResponse (expected_id : Z) (meanwhile : list (Method C unit)) : Method C bool :=
  s ← self id;
  if (is_id expected_id PacketId_Connected && m_network_connected s)
     || (m_last_response_id s =? expected_id)
  then mret true
  else
    Clear ResponseEvent;;
    Clear ErrorEvent;;
    result ← wait_loop expected_id meanwhile;
    connected ← self m_network_connected;
    mret (result || (is_id expected_id PacketId_Connected && connected)).

(** ** Helpers *)

Definition SetGameVersion (version : option (list Z)) : Method C unit :=
  assign (fun s => s <| m_game_version :=
    match version with Some v => ztake 16 v | None => repeat 0 16 end |>).

Definition ConsumeNetworkError : Method C Z :=
  result ← self m_last_network_error;
  assign (fun s => s <| m_last_network_error := NetworkErrorCode_value NetworkErrorCode_None |>);;
  mret result.
End connection.

(** ** Lemmas: the noted accesses *)

Section accesses.
Context {C : Type} `{ITcpClient C}.
Implicit Types σ : State (C:=C).

Lemma access_noted i size σ :
  access i size σ = Some (tt, (σ.1, σ.2 <| bad_access :=
    bad_access σ.2 || negb ((0 <=? i) && (i <? Z.of_nat size)) |>)).
Proof.
  destruct σ as [s []]. unfold access. cbn.
  destruct (_ && _); cbn; [by rewrite orb_false_r|by rewrite orb_true_r].
Qed.

Lemma access_first_noted n size σ :
  access_first n size σ = Some (tt, (σ.1, σ.2 <| bad_access := bad_access σ.2 || (Z.of_nat size <? n) |>)).
Proof.
  destruct σ as [s []]. unfold access_first. cbn.
  destruct (_ <? _); cbn; [by rewrite orb_true_r|by rewrite orb_false_r].
Qed.

Lemma access_within i size σ : 0 <= i < Z.of_nat size -> access i size σ = Some (tt, σ).
Proof.
  intros Hi. unfold access. by rewrite (proj2 (Z.leb_le _ _)), (proj2 (Z.ltb_lt _ _)) by lia.
Qed.

Lemma access_first_within n size σ : n <= Z.of_nat size -> access_first n size σ = Some (tt, σ).
Proof. intros Hn. unfold access_first. by rewrite (proj2 (Z.ltb_ge _ _)). Qed.
End accesses.
