(* ===== verification/LdnOperations.v ===== *)
(** * The communication service: the calls of the game, the receive thread, the
      life of the object ([ldn/ldn_icommunication.cpp])

    Each call gives its [Result] and what it writes to its out parameters.  The
    calls that wait for the server take the steps other threads make meanwhile;
    [finish] is what the thread that joins a peer-to-peer host does when it is
    waited for. *)

From stdpp Require Import base numbers list gmap.
From Stdlib Require Import ZArith Lia Bool.
From S2P Require Import Prelude Layout Imperative Types.
From S2P Require Config ConnectionState LdnStateMachine ProxySocketManager NodeMapper.
From S2P Require ProxySocket RyuLdnClient P2pServer P2pClient SharedState.
From S2P Require Import ITcpClient LdnTypes LdnService.
Import ConnectionState (ConnectionState).
Import LdnStateMachine (LdnStateMachine, CommState, CommState_value, CommState_AccessPoint,
  CommState_AccessPointCreated, CommState_Initialized, CommState_Station,
  CommState_StationConnected).
Import RyuLdnClient (ClientOpResult, ClientOpResult_Success).
Import Protocol (sizeofz).

Definition RESPONSE_TIMEOUT_MS : Z := 8000.

(** [result == StateTransitionResult::Success] *)
Definition accepted (r : LdnStateMachine.StateTransitionResult) : bool :=
  match r with LdnStateMachine.Success => true | _ => false end.
Definition sent (r : ClientOpResult) : bool :=
  match r with ClientOpResult_Success => true | _ => false end.

Section operations.
Context {C : Type} `{ITcpClient C}.
Context (iter : gmap Z ProxySocket.ProxySocket -> list (Z * ProxySocket.ProxySocket)).
Context (env : Environment) (auto_clear : bool).

(** The game's own id in place of a missing one. *)
Definition real_id (local_comm_id : Z) (s : ICommunicationService (C:=C)) : Z :=
  if (local_comm_id =? 2 ^ 64 - 1) || (local_comm_id =? 0)
  then m_local_communication_id s else local_comm_id.

Definition set_ldn_state (state : CommState) : Method C unit :=
  shared (SharedState.SetLdnState state).

Definition refresh_timeout : Method C unit :=
  now ← world clock_ms;
  assign (fun s => s <| m_inactivity_timeout :=
    SharedState.RefreshTimeout now (m_inactivity_timeout s) |>).
Definition disable_timeout : Method C unit :=
  assign (fun s => s <| m_inactivity_timeout :=
    SharedState.DisableTimeout (m_inactivity_timeout s) |>).

Definition WaitForConnected (meanwhile : list (Method C unit)) : Method C bool :=
  WaitForResponse auto_clear (PacketId_value PacketId_Connected) meanwhile.

(** ** Lifecycle *)

Definition Initialize (pid : Z) : Method C Result :=
  assign (fun s => s <| m_client_process_id := pid |>);;
  result ← machine LdnStateMachine.Initialize;
  if negb (accepted result) then mret (MAKERESULT 0x10 1)
  else
    assign (fun s => s <| m_disconnect_reason := DisconnectReason_value DisconnectReason_None |>);;
    shared (SharedState.SetGameActive true pid);;
    state ← self (fun s => LdnStateMachine.m_state (m_state_machine s));
    set_ldn_state state;;
    shared (SharedState.SetLdnPid pid);;
    mret Success.

Definition InitializeSystem2 (unk pid : Z) : Method C Result :=
  assign (fun s => s <| m_error_state := unk |>);;
  Initialize pid.

Definition Finalize (finish : Method C unit) : Method C Result :=
  CleanupSessionResources iter env finish;;
  machine LdnStateMachine.Finalize;;
  assign (fun s => s <| m_client_process_id := 0 |> <| m_error_state := 0 |>);;
  mret Success.

(** ** Queries *)

Definition GetState : Method C (Result * Z) :=
  s ← self id;
  let state := CommState_value (LdnStateMachine.m_state (m_state_machine s)) in
  mret (if negb (m_error_state s =? 0)
           && negb (m_disconnect_reason s =? DisconnectReason_value DisconnectReason_None)
        then MAKERESULT 0x10 (m_disconnect_reason s) else Success, state).

Definition GetNetworkInfo : Method C (Result * NetworkInfo) :=
  info ← self m_network_info; mret (Success, info).

(** [nifm]: the result and the two addresses [nifmGetCurrentIpConfigInfo]
    gives. *)
Definition GetIpv4Address (nifm : option (Z * Z) * Z) : Method C (Result * option (Z * Z)) :=
  s ← self id;
  mret (if m_server_connected s && negb (pc_proxy_ip (m_proxy_config s) =? 0) then
          (Success, Some (pc_proxy_ip (m_proxy_config s), pc_proxy_subnet_mask (m_proxy_config s)))
        else (NifmResult nifm.2,
              (fun '(addr, netmask) => (bswap32 addr, bswap32 netmask)) <$> nifm.1)).

Definition GetDisconnectReason : Method C (Result * Z) :=
  reason ← self m_disconnect_reason; mret (Success, reason).
Definition GetSecurityParameter : Method C (Result * LdnTypes.SecurityParameter) :=
  info ← self m_network_info; mret (Success, NetworkInfo2SecurityParameter info).
Definition GetNetworkConfig : Method C (Result * LdnTypes.NetworkConfig) :=
  info ← self m_network_info; mret (Success, NetworkInfo2NetworkConfig info).

(** The change of a node since the last call, and its flag for the next one. *)
Definition node_change (current_connected prev_connected : bool) : NodeStateChange :=
  if current_connected && negb prev_connected then NodeStateChange_Connect
  else if negb current_connected && prev_connected then NodeStateChange_Disconnect
  else NodeStateChange_None.

Definition node_connected (i : nat) (info : NetworkInfo) : bool :=
  negb (default 0 (node_isConnected <$> ldn_nodes (info_ldn info) !! i) =? 0).

Definition latest_update (change : NodeStateChange) : NodeLatestUpdate :=
  {| upd_stateChange := NodeStateChange_value change; upd_unk := repeat 0 7 |}.

(** [n]: the size of the array [pUpdates]. *)
Definition GetNetworkInfoLatestUpdate (n : nat)
    : Method C (Result * NetworkInfo * list NodeLatestUpdate) :=
  s ← self id;
  let info := m_network_info s in
  let update_count := Nat.min n NodeCountMax in
  let prev i := m_prev_node_connected s !!! i in
  access_first (Z.of_nat update_count) NodeCountMax;;
  assign (fun s => s <| m_prev_node_connected :=
    map (fun i => node_connected i info) (seq 0 update_count)
    ++ drop update_count (m_prev_node_connected s) |>);;
  mret (Success, info,
        map (fun i => latest_update (node_change (node_connected i info) (prev i)))
          (seq 0 update_count)
        ++ repeat (zeroed NodeLatestUpdate) (n - update_count)).

(** ** Scanning *)

Definition scan_filter (local_comm_id : Z) (filter : LdnTypes.ScanFilter) : ScanFilterFull :=
  let nid := filter_networkId filter in
  {| sff_network_id :=
       {| Types.nid_intent_id :=
            {| intent_local_communication_id := signed 64 local_comm_id; intent_reserved1 := 0;
               intent_scene_id := intent_sceneId (nid_intentId nid); intent_reserved2 := 0 |};
          Types.nid_session_id := {| sid_data := sid_raw (nid_sessionId nid) |} |};
     sff_network_type := filter_networkType filter;
     sff_mac_address := {| mac_data := mac_raw (filter_bssid filter) |};
     sff_ssid := {| Types.ssid_length := ssid_length (filter_ssid filter);
                    ssid_name := ssid_raw (filter_ssid filter) |};
     sff_reserved := repeat 0 16;
     sff_flag := Z.lor (filter_flag filter) ScanFilterFlag_LocalCommunicationId |}.

(** [max_results]: the size of the game's buffer; the networks written to it. *)
Definition Scan (max_results : Z) (filter : LdnTypes.ScanFilter) (meanwhile : list (Method C unit))
    : Method C (Result * list NetworkInfo) :=
  s ← self id;
  if negb (IsServerConnected s) then mret (MAKERESULT 0x10 2, [])
  else
    let intent := nid_intentId (filter_networkId filter) in
    assign (fun s => s <| m_scan_result_count := 0 |>
                       <| m_scan_results := repeat (zeroed NetworkInfo) (Z.to_nat MAX_SCAN_RESULTS) |>);;
    Clear ScanEvent;;
    Clear ErrorEvent;;
    assign (fun s => s <| m_expected_scene_id := intent_sceneId intent |>);;
    send_result ← client (RyuLdnClient.send_scan
                    (scan_filter (real_id (intent_localCommunicationId intent) s) filter));
    if negb (sent send_result) then mret (MAKERESULT 0x10 3, [])
    else
      signaled ← TimedWaitAny auto_clear ScanEvent ErrorEvent meanwhile;
      match signaled with
      | Some ErrorEvent => mret (MAKERESULT 0x10 5, [])
      | _ =>
          s ← self id;
          let result_count := Z.min (m_scan_result_count s) max_results in
          access_first result_count (Z.to_nat MAX_SCAN_RESULTS);;
          refresh_timeout;;
          mret (Success, ztake result_count (m_scan_results s))
      end.

(** ** Access point *)

Definition OpenAccessPoint (meanwhile : list (Method C unit)) : Method C Result :=
  result ← machine LdnStateMachine.OpenAccessPoint;
  if negb (accepted result) then mret (MAKERESULT 0x10 1)
  else
    rc ← ConnectToServer env auto_clear meanwhile;
    match rc with
    | Success => set_ldn_state CommState_AccessPoint;; mret Success
    | _ => machine LdnStateMachine.CloseAccessPoint;; mret rc
    end.

Definition CloseAccessPoint (finish : Method C unit) : Method C Result :=
  StopP2pProxyServer iter env;;
  DisconnectFromServer iter env finish;;
  result ← machine LdnStateMachine.CloseAccessPoint;
  if negb (accepted result) then mret (MAKERESULT 0x10 1)
  else
    assign (fun s => s <| m_network_info := zeroed NetworkInfo |>
                       <| m_network_connected := false |>);;
    set_ldn_state CommState_Initialized;;
    mret Success.

Definition security_config (c : LdnTypes.SecurityConfig) : Types.SecurityConfig :=
  {| secc_security_mode := sec_securityMode c; secc_passphrase_size := sec_passphraseSize c;
     secc_passphrase := sec_passphrase c |}.
Definition user_config (c : LdnTypes.UserConfig) : Types.UserConfig :=
  {| uc_user_name := user_userName c; uc_unknown1 := repeat 0 15 |}.
Definition network_config (local_comm_id : Z) (c : LdnTypes.NetworkConfig) : Types.NetworkConfig :=
  {| nc_intent_id := {| intent_local_communication_id := signed 64 local_comm_id;
                        intent_reserved1 := 0;
                        intent_scene_id := intent_sceneId (conf_intentId c);
                        intent_reserved2 := 0 |};
     nc_channel := conf_channel c; nc_node_count_max := conf_nodeCountMax c; nc_reserved1 := 0;
     nc_local_communication_version := conf_localCommunicationVersion c;
     nc_reserved2 := repeat 0 10 |}.
Definition security_parameter (p : LdnTypes.SecurityParameter) : Types.SecurityParameter :=
  {| secp_data := secp_unkRandom p; secp_session_id := sid_raw (secp_sessionId p) |}.

(** How joiners reach the host: not at all, or by address and ports. *)
Definition relay_config (game_version : list Z) : RyuNetworkConfig :=
  {| rnc_game_version := game_version; rnc_private_ip := repeat 0 16; rnc_address_family := 0;
     rnc_external_proxy_port := 0; rnc_internal_proxy_port := 0 |}.
Definition host_config (game_version : list Z) (public_port private_port : Z)
    : RyuNetworkConfig :=
  let local_ip := if env_local_ip env =? 0 then env_nifm_ip env else env_local_ip env in
  {| rnc_game_version := game_version;
     rnc_private_ip := le_split 4 (bswap32 local_ip) ++ repeat 0 12;
     rnc_address_family := 2;
     rnc_external_proxy_port := if negb (public_port =? 0) then public_port else private_port;
     rnc_internal_proxy_port := private_port |}.

(** [if (m_use_p2p_proxy && StartP2pProxyServer())] with its two branches. *)
Definition prepare_host : Method C RyuNetworkConfig :=
  s ← self id;
  started ← (if m_use_p2p_proxy s then StartP2pProxyServer iter env else mret false);
  server ← self m_p2p_server;
  match started, server with
  | true, Some z =>
      public_port ← p2p_server iter (fun z => Some (P2pServer.NatPunch (env_discover env)
                                      (env_add_mapping env) (env_lease_thread env) z)) z;
      mret (host_config (m_game_version s) public_port (P2pServer.m_private_port z))
  | true, None => diverge                                (* a null pointer *)
  | false, _ => mret (relay_config (m_game_version s))
  end.

(** Sending or waiting has failed. *)
Definition abandon_network : Method C unit :=
  StopP2pProxyServer iter env;;
  machine LdnStateMachine.DestroyNetwork;;
  mret tt.

(** The end of [CreateNetwork]: the server has answered. *)
Definition network_created : Method C Result :=
  s ← self id;
  when (negb (m_use_p2p_proxy s) && bool_decide (is_Some (m_p2p_server s)))
    (StopP2pProxyServer iter env);;
  when (m_use_p2p_proxy s && (m_ipv4_address s =? 0))
    (assign (fun s => s <| m_ipv4_address := kPredictedHostIp |>
                        <| m_subnet_mask := kPredictedSubnetMask |>
                        <| m_proxy_config :=
                             {| pc_proxy_ip := kPredictedHostIp;
                                pc_proxy_subnet_mask := kPredictedSubnetMask |} |>);;
     manager (ProxySocketManager.SetLocalIp kPredictedHostIp));;
  assign (fun s => s <| m_network_connected := true |>);;
  disable_timeout;;
  set_ldn_state CommState_AccessPointCreated;;
  SignalStateChange;;
  mret Success.

Definition CreateNetwork (data : CreateNetworkConfig) (meanwhile : list (Method C unit))
    : Method C Result :=
  s ← self id;
  let config := cnc_networkConfig data in
  let local_comm_id := real_id (intent_localCommunicationId (conf_intentId config)) s in
  if negb (IsServerConnected s) then mret (MAKERESULT 0x10 2)
  else
    disable_timeout;;
    result ← machine LdnStateMachine.CreateNetwork;
    if negb (accepted result) then mret (MAKERESULT 0x10 1)
    else
      ryu_network_config ← prepare_host;
      s ← self id;
      access_first (m_advertise_data_size s) AdvertiseDataSizeMax;;
      send_result ← client (RyuLdnClient.send_create_access_point
        {| cap_security_config := security_config (cnc_securityConfig data);
           cap_user_config := user_config (cnc_userConfig data);
           cap_network_config := network_config local_comm_id config;
           cap_ryu_network_config := ryu_network_config |}
        (if 0 <? m_advertise_data_size s then Some (m_advertise_data s) else None)
        (m_advertise_data_size s));
      if negb (sent send_result) then abandon_network;; mret (MAKERESULT 0x10 3)
      else
        answered ← WaitForConnected meanwhile;
        if negb answered then abandon_network;; mret (MAKERESULT 0x10 5)
        else
          network_created.

Definition DestroyNetwork : Method C Result :=
  StopP2pProxyServer iter env;;
  result ← machine LdnStateMachine.DestroyNetwork;
  if negb (accepted result) then mret (MAKERESULT 0x10 1)
  else
    assign (fun s => s <| m_network_info := zeroed NetworkInfo |>
                       <| m_network_connected := false |>);;
    refresh_timeout;;
    set_ldn_state CommState_AccessPoint;;
    mret Success.

(** The first [sizeof(m_advertise_data)] bytes are kept, and sent in a
    network. *)
Definition SetAdvertiseData (data : list Z) : Method C Result :=
  let n := Z.min (zlen data) (Z.of_nat AdvertiseDataSizeMax) in
  access_first n AdvertiseDataSizeMax;;
  assign (fun s => s <| m_advertise_data_size := n |>
                     <| m_advertise_data := if 0 <? n then write_at 0 (ztake n data) (m_advertise_data s)
                                            else m_advertise_data s |>);;
  s ← self id;
  if negb (m_network_connected s) then mret Success
  else
    access_first (m_advertise_data_size s) AdvertiseDataSizeMax;;
    r ← client (RyuLdnClient.send_set_advertise_data (Some (m_advertise_data s))
                  (m_advertise_data_size s));
    mret (if sent r then Success else MAKERESULT 0x10 3).

Definition SetStationAcceptPolicy (policy : AcceptPolicy) : Method C Result :=
  s ← self id;
  if negb (m_network_connected s) then mret Success
  else
    r ← client (RyuLdnClient.send_set_accept_policy policy);
    mret (if sent r then Success else MAKERESULT 0x10 3).

(** ** Station *)

Definition OpenStation (meanwhile : list (Method C unit)) : Method C Result :=
  result ← machine LdnStateMachine.OpenStation;
  if negb (accepted result) then mret (MAKERESULT 0x10 1)
  else
    rc ← ConnectToServer env auto_clear meanwhile;
    match rc with
    | Success => set_ldn_state CommState_Station;; mret Success
    | _ => machine LdnStateMachine.CloseStation;; mret rc
    end.

Definition CloseStation : Method C Result :=
  result ← machine LdnStateMachine.CloseStation;
  if negb (accepted result) then mret (MAKERESULT 0x10 1)
  else
    assign (fun s => s <| m_network_info := zeroed NetworkInfo |>);;
    set_ldn_state CommState_Initialized;;
    mret Success.

(** [memcpy(&request.network_info, &data, ...)], with the id replaced. *)
Definition request_info (local_comm_id : Z) (data : NetworkInfo) : Types.NetworkInfo :=
  let info := of_bytes (A:=Types.NetworkInfo) (bytes_of data) in
  let nid := ni_network_id info in
  let intent := nid_intent_id nid in
  {| ni_network_id :=
       {| nid_intent_id := {| intent_local_communication_id := signed 64 local_comm_id;
                              intent_reserved1 := intent_reserved1 intent;
                              intent_scene_id := intent_scene_id intent;
                              intent_reserved2 := intent_reserved2 intent |};
          nid_session_id := nid_session_id nid |};
     ni_common := ni_common info; ni_ldn := ni_ldn info |}.

(** The request is sent; a second time when the first attempt has found that
    peer-to-peer does not work. *)
Definition join_network (send : RyuLdnClient.RyuLdnClient (C:=C) ->
      ClientOpResult * RyuLdnClient.RyuLdnClient (C:=C)) (send_failed : Z)
    (meanwhile meanwhile_again : list (Method C unit)) : Method C Result :=
  send_result ← client send;
  if negb (sent send_result)
  then machine LdnStateMachine.Disconnect;; mret (MAKERESULT 0x10 send_failed)
  else
    connected_ok ← WaitForConnected meanwhile;
    s ← self id;
    connected_ok ← (if negb connected_ok && negb (m_use_p2p_proxy s) then
                      Clear ErrorEvent;;
                      send_result ← client send;
                      if sent send_result then WaitForConnected meanwhile_again else mret false
                    else mret connected_ok);
    if negb connected_ok then machine LdnStateMachine.Disconnect;; mret (MAKERESULT 0x10 5)
    else mret Success.

Definition Connect (dat : ConnectNetworkData) (data : NetworkInfo)
    (meanwhile meanwhile_again : list (Method C unit)) : Method C Result :=
  s ← self id;
  let local_comm_id :=
    real_id (intent_localCommunicationId (nid_intentId (info_networkId data))) s in
  if negb (IsServerConnected s) then mret (MAKERESULT 0x10 2)
  else
    result ← machine LdnStateMachine.Connect;
    if negb (accepted result) then mret (MAKERESULT 0x10 1)
    else
      rc ← join_network (RyuLdnClient.send_connect
             {| cr_security_config := security_config (cnd_securityConfig dat);
                cr_user_config := user_config (cnd_userConfig dat);
                cr_local_communication_version := cnd_localCommunicationVersion dat;
                cr_option_unknown := cnd_option dat; cr_padding := 0;
                cr_network_info := request_info local_comm_id data |}) 5
             meanwhile meanwhile_again;
      match rc with
      | Success =>
          assign (fun s => s <| m_network_connected := true |>);;
          disable_timeout;;
          set_ldn_state CommState_StationConnected;;
          SignalStateChange;;
          mret Success
      | _ => mret rc
      end.

Definition Disconnect (finish : Method C unit) : Method C Result :=
  DisconnectP2pProxy iter env false finish;;
  result ← machine LdnStateMachine.Disconnect;
  if negb (accepted result) then mret (MAKERESULT 0x10 1)
  else
    s ← self id;
    when (IsServerConnected s && m_network_connected s)
      (client RyuLdnClient.send_disconnect_network;; mret tt);;
    assign (fun s => s <| m_network_connected := false |>
                       <| m_disconnect_reason := DisconnectReason_value DisconnectReason_User |>);;
    refresh_timeout;;
    assign (fun s => s <| m_network_info := zeroed NetworkInfo |>);;
    set_ldn_state CommState_Station;;
    mret Success.

(** ** Private networks *)

Definition ScanPrivate : Z -> LdnTypes.ScanFilter -> list (Method C unit) ->
    Method C (Result * list NetworkInfo) := Scan.

Definition CreateNetworkPrivate (data : CreateNetworkPrivateConfig) (addressList : list Z)
    (meanwhile : list (Method C unit)) : Method C Result :=
  s ← self id;
  if negb (IsServerConnected s) then mret (MAKERESULT 0x10 2)
  else
    disable_timeout;;
    result ← machine LdnStateMachine.CreateNetwork;
    if negb (accepted result) then mret (MAKERESULT 0x10 1)
    else
      let config := cnpc_networkConfig data in
      send_result ← client (RyuLdnClient.send_create_access_point_private
        {| capp_security_config := security_config (cnpc_securityConfig data);
           capp_security_parameter := security_parameter (cnpc_securityParameter data);
           capp_user_config := user_config (cnpc_userConfig data);
           capp_network_config :=
             network_config (intent_localCommunicationId (conf_intentId config)) config;
           capp_address_list := if sizeofz AddressList <=? zlen addressList
                                then of_bytes addressList else zeroed AddressList;
           capp_ryu_network_config := relay_config (m_game_version s) |});
      if negb (sent send_result)
      then machine LdnStateMachine.DestroyNetwork;; mret (MAKERESULT 0x10 3)
      else
        answered ← WaitForConnected meanwhile;
        if negb answered
        then machine LdnStateMachine.DestroyNetwork;; mret (MAKERESULT 0x10 5)
        else
          set_ldn_state CommState_AccessPointCreated;;
          SignalStateChange;;
          mret Success.

Definition ConnectPrivate (data : ConnectPrivateData)
    (meanwhile meanwhile_again : list (Method C unit)) : Method C Result :=
  s ← self id;
  if negb (IsServerConnected s) then mret (MAKERESULT 0x10 2)
  else
    result ← machine LdnStateMachine.Connect;
    if negb (accepted result) then mret (MAKERESULT 0x10 1)
    else
      let config := cpd_networkConfig data in
      rc ← join_network (RyuLdnClient.send_connect_private
             {| cpr_security_config := security_config (cpd_securityConfig data);
                cpr_security_parameter := security_parameter (cpd_securityParameter data);
                cpr_user_config := user_config (cpd_userConfig data);
                cpr_local_communication_version := cpd_localCommunicationVersion data;
                cpr_option_unknown := cpd_option data;
                cpr_network_config :=
                  network_config (intent_localCommunicationId (conf_intentId config)) config |}) 3
             meanwhile meanwhile_again;
      match rc with
      | Success => set_ldn_state CommState_StationConnected;; SignalStateChange;; mret Success
      | _ => mret rc
      end.

(** ** Other calls *)

Definition SetWirelessControllerRestriction : Method C Result := mret Success.
Definition AddAcceptFilterEntry : Method C Result := mret Success.
Definition ClearAcceptFilter : Method C Result := mret Success.

Definition Reject (nodeId : Z) (meanwhile : list (Method C unit)) : Method C Result :=
  s ← self id;
  if negb (m_network_connected s) then mret (MAKERESULT 0x10 2)
  else
    Clear RejectEvent;;
    Clear ErrorEvent;;
    send_result ← client (RyuLdnClient.send_reject nodeId Types.DisconnectReason_Rejected);
    if negb (sent send_result) then mret (MAKERESULT 0x10 3)
    else
      signaled ← TimedWaitAny auto_clear RejectEvent ErrorEvent meanwhile;
      match signaled with
      | Some RejectEvent =>
          error ← ConsumeNetworkError;
          mret (if error =? NetworkErrorCode_value NetworkErrorCode_None then Success
                else MAKERESULT 0x10 4)
      | _ => mret (MAKERESULT 0x10 2)
      end.
End operations.

(** ** The receive thread *)

Section receive.
Context {C : Type} `{ITcpClient C}.
Context (iter : gmap Z ProxySocket.ProxySocket -> list (Z * ProxySocket.ProxySocket)).
Context (env : Environment).

(** A call the client made: the state callback, or the packet callback. *)
Definition deliver (e : RyuLdnClient.client_event) : Method C unit :=
  match e with
  | RyuLdnClient.StateCallback _ ConnectionState.Ready => Signal HandshakeEvent
  | RyuLdnClient.StateCallback _ _ => mret tt
  | RyuLdnClient.PacketCallback id data => HandleServerPacket iter env id data (zlen data)
  end.

Definition client_update (now : Z) : Method C unit :=
  before ← self m_server_client;
  let after := RyuLdnClient.update now before in
  assign (fun s => s <| m_server_client := after |>);;
  for_each (new_calls before after) deliver.

(** The connection was lost while the game is in a network. *)
Definition lose_network (ldn_state : CommState) : Method C unit :=
  assign (fun s => s <| m_server_connected := false |>);;
  Signal ErrorEvent;;
  assign (fun s => s <| m_last_network_error := NetworkErrorCode_value NetworkErrorCode_None |>
                     <| m_disconnect_reason := DisconnectReason_value DisconnectReason_SignalLost |>
                     <| m_network_connected := false |>);;
  match ldn_state with
  | CommState_StationConnected => machine LdnStateMachine.Disconnect
  | _ => machine LdnStateMachine.DestroyNetwork
  end;;
  state ← self (fun s => LdnStateMachine.m_state (m_state_machine s));
  set_ldn_state state.

Definition detect_loss (prev_tcp_state state : ConnectionState) : Method C unit :=
  match prev_tcp_state, state with
  | ConnectionState.Ready,
    (ConnectionState.Backoff | ConnectionState.Disconnected | ConnectionState.Retrying) =>
      ldn_state ← self (fun s => LdnStateMachine.m_state (m_state_machine s));
      match ldn_state with
      | CommState_StationConnected | CommState_AccessPointCreated => lose_network ldn_state
      | _ => mret tt
      end
  | _, _ => mret tt
  end.

Definition check_inactivity (now : Z) (finish : Method C unit) : Method C unit :=
  timer ← self m_inactivity_timeout;
  let '(fired, timer) := SharedState.CheckTimeout now timer in
  assign (fun s => s <| m_inactivity_timeout := timer |>);;
  when fired (OnInactivityTimeout iter env finish).

(** The body of the loop of [ReceiveThreadFunc]; the new [prev_tcp_state]. *)
Definition receive_iteration (finish : Method C unit) (prev_tcp_state : ConnectionState)
    : Method C ConnectionState :=
  state ← self (fun s => RyuLdnClient.get_state (m_server_client s));
  detect_loss prev_tcp_state state;;
  match state with
  | ConnectionState.Connected | ConnectionState.Handshaking | ConnectionState.Ready =>
      current_time_ms ← world clock_ms;
      client_update current_time_ms;;
      check_inactivity current_time_ms finish;;
      mret state
  | _ => mret state
  end.

(** [between]: what the other threads do while this one sleeps, once for each
    turn of the loop. *)
Fixpoint receive_loop (finish : Method C unit) (prev_tcp_state : ConnectionState)
    (between : list (Method C unit)) : Method C ConnectionState :=
  match between with
  | [] => mret prev_tcp_state
  | others :: between =>
      running ← self m_recv_thread_running;
      if negb running then mret prev_tcp_state
      else
        state ← receive_iteration finish prev_tcp_state;
        others;;
        receive_loop finish state between
  end.

Definition ReceiveThreadFunc (finish : Method C unit) (between : list (Method C unit))
    : Method C ConnectionState :=
  prev ← self (fun s => RyuLdnClient.get_state (m_server_client s));
  receive_loop finish prev between.
End receive.

(** ** The stacks of the receive threads *)

Definition MAX_WAIT_ITERATIONS : nat := 50.

Definition take_slot (i : nat) (w : World) : World :=
  w <| g_ldn_session_stack_used := <[i := true]> (g_ldn_session_stack_used w) |>.

(** [meanwhile]: what the other threads do during each of the
    [MAX_WAIT_ITERATIONS] pauses. *)
Fixpoint AllocateLdnStackSlot (meanwhile : list (World -> World)) (w : World) : Z * World :=
  match meanwhile with
  | [] => (0, take_slot 0 w)
  | pause :: meanwhile =>
      match P2pServer.first_false (g_ldn_session_stack_used w) with
      | Some i => (Z.of_nat i, take_slot i w)
      | None => AllocateLdnStackSlot meanwhile (pause w)
      end
  end.

Definition ReleaseLdnStackSlot (slot : Z) (w : World) : World :=
  if (slot <? 0) || (Z.of_nat LDN_SESSION_STACK_COUNT <=? slot) then w
  else w <| g_ldn_session_stack_used := <[Z.to_nat slot := false]> (g_ldn_session_stack_used w) |>.

(** ** Construction and destruction *)

Section lifetime.
Context {C : Type} `{ITcpClient C}.
Context (iter : gmap Z ProxySocket.ProxySocket -> list (Z * ProxySocket.ProxySocket)).
Context (env : Environment).

(** [rest]: what the receive thread does until it ends. *)
Definition join_recv_thread (rest : Method C unit) : Method C unit :=
  started ← self m_recv_thread_was_started;
  when started (rest;; assign (fun s => s <| m_recv_thread_was_started := false |>)).

Definition release_slot : Method C unit :=
  slot ← self m_stack_slot_index;
  when (0 <=? slot)
    (assign_world (ReleaseLdnStackSlot slot);;
     assign (fun s => s <| m_stack_slot_index := -1 |>)).

(** What a new object's constructor does to the previous one. *)
Definition shutdown_previous (rest finish : Method C unit) : Method C unit :=
  assign (fun s => s <| m_recv_thread_running := false |>);;
  Signal ErrorEvent;;
  client_disconnect;;
  assign_world (fun w => w <| g_active_ldn_service := None |>
                           <| g_current_ldn_instance := None |>);;
  join_recv_thread rest;;
  release_slot;;
  CleanupSessionResources iter env finish;;
  machine LdnStateMachine.Finalize;;
  mret tt.

Definition initial_service (p program_id : Z) (tcp : C) (random : nat -> Z) (w : World)
    : ICommunicationService (C:=C) := {|
  this := p; m_state_machine := LdnStateMachine.new_LdnStateMachine; m_error_state := 0;
  m_client_process_id := 0; m_network_info := zeroed NetworkInfo;
  m_disconnect_reason := DisconnectReason_value DisconnectReason_None;
  m_ipv4_address := 0; m_subnet_mask := 0;
  m_server_client :=
    RyuLdnClient.set_state_callback true (RyuLdnClient.set_packet_callback true
      (RyuLdnClient.new_RyuLdnClient (RyuLdnClient.client_config (g_config w)) tcp random));
  m_server_connected := false; m_node_mapper := NodeMapper.new_LdnNodeMapper;
  m_events := fun _ => false; m_last_response_id := PacketId_value PacketId_Initialize;
  m_scan_results := repeat (zeroed NetworkInfo) (Z.to_nat MAX_SCAN_RESULTS);
  m_scan_result_count := 0; m_advertise_data := repeat 0 AdvertiseDataSizeMax;
  m_advertise_data_size := 0; m_game_version := repeat 0 16; m_network_connected := false;
  m_prev_node_connected := repeat false NodeCountMax;
  m_last_network_error := NetworkErrorCode_value NetworkErrorCode_None;
  m_use_p2p_proxy := negb (Config.disable_p2p (Config.ldn (g_config w)));
  m_proxy_config := zeroed ProxyConfig; m_external_proxy_config := zeroed ExternalProxyConfig;
  m_p2p_client := None; m_p2p_server := None; m_p2p_connect_thread_active := false;
  m_p2p_connect_thread_initialized := false;
  m_pending_p2p_config := zeroed ExternalProxyConfig;
  m_inactivity_timeout :=
    SharedState.new_NetworkTimeout SharedState.DEFAULT_IDLE_TIMEOUT_MS true;
  m_recv_thread_running := false; m_recv_thread_was_started := false; m_stack_slot_index := -1;
  m_program_id := program_id; m_local_communication_id := program_id; m_expected_scene_id := 0
|}.

(** The constructor behind the shutdown of the previous object; [thread]:
    [CreateThread] succeeds. *)
Definition construct (s : ICommunicationService (C:=C)) (thread : bool)
    (pauses : list (World -> World)) (w : World) : State (C:=C) :=
  let '(slot, w) := AllocateLdnStackSlot pauses w in
  let slot := if slot <? 0 then 0 else slot in
  (s <| m_stack_slot_index := slot |>
     <| m_recv_thread_running := thread |> <| m_recv_thread_was_started := thread |>,
   w <| g_current_ldn_instance := Some (this s) |>
     <| bad_access := bad_access w || (Z.of_nat LDN_SESSION_STACK_COUNT <=? slot) |>).

(** The constructor, the previous object [prev] being the one that
    [g_current_ldn_instance] points to: what becomes of [prev], and the new
    object. *)
Definition ICommunicationService_new (rest finish : Method C unit)
    (prev : option (ICommunicationService (C:=C))) (p program_id : Z) (tcp : C)
    (random : nat -> Z) (thread : bool) (pauses : list (World -> World)) (w : World)
    : option (option (ICommunicationService (C:=C)) * State (C:=C)) :=
  let initial := initial_service p program_id tcp random w in
  '(prev, w) ← match prev with
               | None => Some (None, w)
               | Some prev => '(_, (prev, w)) ← shutdown_previous rest finish (prev, w);
                              Some (Some prev, w)
               end;
  Some (prev, construct initial thread pauses w).

Definition ICommunicationService_delete (rest finish : Method C unit) : Method C unit :=
  p ← self this;
  assign_world (fun w => w <| g_current_ldn_instance :=
    if decide (g_current_ldn_instance w = Some p) then None else g_current_ldn_instance w |>);;
  assign (fun s => s <| m_recv_thread_running := false |>);;
  Signal ErrorEvent;;
  client_disconnect;;
  join_recv_thread rest;;
  CleanupSessionResources iter env finish;;
  machine LdnStateMachine.Finalize;;
  release_slot.
End lifetime.
