(* ===== verification/LdnExample.v ===== *)
(** * A service to evaluate

    A TCP client with an inbox and an outbox in place of a network, like the mock
    of the repository's tests, and a communication service on top of it: the
    concrete states of the witnesses of the other files on the service. *)

From stdpp Require Import base numbers list gmap.
From Stdlib Require Import ZArith Lia Bool.
From S2P Require Import Prelude Layout Imperative Types.
From S2P Require Config PacketBuffer ConnectionState LdnStateMachine ProxySocketManager.
From S2P Require ProxySocket RyuLdnClient P2pServer P2pClient SharedState.
From S2P Require Import ITcpClient LdnTypes LdnService LdnOperations.

Record ScriptedTcp : Type := {
  up : bool;
  inbox : list (Z * list Z);
  outbox : list Outgoing
}.

#[export] Instance ScriptedTcp_client : ITcpClient ScriptedTcp := {|
  tcp_initialize c := (true, c);
  tcp_connect _ _ _ _ c :=
    if up c then (ClientResult_AlreadyConnected, c)
    else (ClientResult_Success, {| up := true; inbox := inbox c; outbox := outbox c |});
  tcp_disconnect c := {| up := false; inbox := inbox c; outbox := outbox c |};
  tcp_is_connected := up;
  tcp_send m c :=
    if up c then (ClientResult_Success, {| up := true; inbox := inbox c; outbox := outbox c ++ [m] |})
    else (ClientResult_NotConnected, c);
  tcp_receive_packet n _ c :=
    match inbox c with
    | (id, data) :: rest =>
        if up c && (zlen data <=? n)
        then (ClientResult_Success, id, data, {| up := true; inbox := rest; outbox := outbox c |})
        else (ClientResult_Timeout, 0, [], c)
    | [] => (ClientResult_Timeout, 0, [], c)
    end;
  tcp_backlog c := length (inbox c)
|}.

#[export] Instance ScriptedTcp_laws : TcpLaws ScriptedTcp (fun _ => True).
Proof.
  split; try done; cbn.
  - intros host port ms tls c ->. done.
  - intros host port ms tls c ->. done.
  - intros m c ->. done.
  - intros m c. by destruct (up c).
  - intros n t c Hn _. destruct (inbox c) as [|[id data] rest] eqn:E; [done|].
    destruct (up c && (zlen data <=? n)) eqn:Eb; [|done]. apply andb_true_iff in Eb as [_ ?%Z.leb_le].
    intros _. cbn. lia.
Qed.

Definition demo_env : Environment := {|
  env_listen_fd := 3; env_bind := fun _ => true; env_listen := true; env_accept_thread := true;
  env_discover := true; env_add_mapping := fun _ => true; env_lease_thread := true;
  env_stop_rounds := 1; env_finish := fun _ z => z; env_local_ip := 0xC0A80119; env_nifm_ip := 0;
  env_answers := {| P2pClient.ans_socket := 7; P2pClient.ans_connect := P2pClient.ConnectDone;
                    P2pClient.ans_select := 1; P2pClient.ans_so_error := Some 0;
                    P2pClient.ans_thread := true |};
  env_during_connect := id; env_during_ready := id; env_client_thread := Some;
  env_connect_thread := true; env_client_buffer := PacketBuffer.new_PacketBuffer [];
  env_send_callback := fun _ => true |}.

Definition demo_world : World := {|
  g_active_ldn_service := None; g_current_ldn_instance := None;
  g_ldn_session_stack_used := repeat false LDN_SESSION_STACK_COUNT;
  shared_state := SharedState.new_SharedState;
  socket_manager := ProxySocketManager.new_ProxySocketManager;
  g_config := Config.get_default_config; config_saves := []; abandoned_cleanups := [];
  p2p_server_env := {| P2pServer.heap := ∅; P2pServer.next_object := 100;
                       P2pServer.open_fds := ∅;
                       P2pServer.g_p2p_session_stack_used := repeat false 8;
                       P2pServer.master_log := []; P2pServer.host_log := [] |};
  p2p_client_outside := {| P2pClient.open_fds := ∅; P2pClient.threads := 0;
                           P2pClient.takes := []; P2pClient.sent := [];
                           P2pClient.callbacks := []; P2pClient.broadcasts := 0 |};
  clock_ms := 5000; bad_access := false |}.

Definition all_sockets (socks : gmap Z ProxySocket.ProxySocket)
    : list (Z * ProxySocket.ProxySocket) := map_to_list socks.

Definition game : Z := 0x0100152000022000.
Definition idle : Method ScriptedTcp unit := mret tt.

(** A packet of type [type] with the bytes [data], at the service. *)
Definition packet (type : PacketId) (data : list Z) : Z * list Z := (PacketId_value type, data).

(** The service of a new object, with the server's first answer on its way. *)
Definition new_service : ICommunicationService (C:=ScriptedTcp) * World :=
  construct (initial_service 1 game
    {| up := false; inbox := [packet PacketId_Initialize (repeat 7 22)]; outbox := [] |}
    (fun _ => 0) demo_world) true (repeat id MAX_WAIT_ITERATIONS) demo_world.

(** Two turns of the receive thread: the handshake. *)
Definition handshake : list (Method ScriptedTcp unit) :=
  repeat (receive_iteration all_sockets demo_env idle ConnectionState.Connected;; mret tt) 2.

(** The game has initialised the service and opened a station, or an access
    point. *)
Definition in_station : option (Result * (ICommunicationService (C:=ScriptedTcp) * World)) :=
  (Initialize 81;; OpenStation demo_env true handshake) new_service.
Definition in_access_point : option (Result * (ICommunicationService (C:=ScriptedTcp) * World)) :=
  (Initialize 81;; OpenAccessPoint demo_env true handshake) new_service.

Definition station : ICommunicationService (C:=ScriptedTcp) * World :=
  match in_station with Some (_, σ) => σ | None => new_service end.
Definition access_point : ICommunicationService (C:=ScriptedTcp) * World :=
  match in_access_point with Some (_, σ) => σ | None => new_service end.

Example station_opens : fst <$> in_station = Some Success.
Proof. vm_compute. reflexivity. Qed.
Example access_point_opens : fst <$> in_access_point = Some Success.
Proof. vm_compute. reflexivity. Qed.
