(* ===== verification/LdnNetwork.v ===== *)
(** * Networks: what the game is told and what the server answered

    Theorems on the calls of LdnOperations.v that wait for the server, for the
    packets of LdnService.v. *)

From stdpp Require Import base numbers list gmap.
From Stdlib Require Import ZArith Lia Bool.
From S2P Require Import Prelude Layout Imperative Types.
From S2P Require Config ConnectionState LdnStateMachine ProxySocketManager ProxyLink.
From S2P Require ProxySocket RyuLdnClient P2pServer P2pClient SharedState.
From S2P Require Import ITcpClient LdnTypes LdnService LdnOperations LdnExample.
Import LdnStateMachine (CommState, CommState_AccessPoint, CommState_AccessPointCreated,
  CommState_Station, CommState_StationConnected).
Import RyuLdnClient (ClientOpResult, ClientOpResult_Success).
Import Protocol (sizeofz).

(** ** The state machine's moves *)

Lemma CreateNetwork_moves m :
  LdnStateMachine.m_state m = CommState_AccessPoint ->
  LdnStateMachine.CreateNetwork m = LdnStateMachine.enter CommState_AccessPointCreated m.
Proof. intros Hm. unfold LdnStateMachine.CreateNetwork, LdnStateMachine.IsInState. by rewrite Hm. Qed.

Lemma DestroyNetwork_moves m :
  LdnStateMachine.m_state m = CommState_AccessPointCreated ->
  LdnStateMachine.DestroyNetwork m = LdnStateMachine.enter CommState_AccessPoint m.
Proof. intros Hm. unfold LdnStateMachine.DestroyNetwork, LdnStateMachine.IsInState. by rewrite Hm. Qed.

Lemma Connect_moves m :
  LdnStateMachine.m_state m = CommState_Station ->
  LdnStateMachine.Connect m = LdnStateMachine.enter CommState_StationConnected m.
Proof. intros Hm. unfold LdnStateMachine.Connect, LdnStateMachine.IsInState. by rewrite Hm. Qed.

Lemma Disconnect_moves m :
  LdnStateMachine.m_state m = CommState_StationConnected ->
  LdnStateMachine.Disconnect m = LdnStateMachine.enter CommState_Station m.
Proof. intros Hm. unfold LdnStateMachine.Disconnect, LdnStateMachine.IsInState. by rewrite Hm. Qed.

Section network.
Context {C : Type} `{ITcpClient C}.
Context (iter : gmap Z ProxySocket.ProxySocket -> list (Z * ProxySocket.ProxySocket)).
Context (env : Environment) (auto_clear : bool).

Abbreviation service := (ICommunicationService (C:=C)).
Implicit Types (s : service) (w : World).

(** ** Building blocks *)

(** No thread holds the mutex of the socket manager. *)
Definition unlocked (w : World) : Prop :=
  ProxyLink.m_mutex (ProxySocketManager.m_link (socket_manager w)) = false.

Lemma with_lock_returns {A} (body : ProxySocketManager.ProxySocketManager ->
    option (A * ProxySocketManager.ProxySocketManager)) s w :
  unlocked w -> (forall m, is_Some (body m)) ->
  exists r m, manager (ProxySocketManager.with_lock body) (s, w)
    = Some (r, (s, w <| socket_manager := m |>)) /\ unlocked (w <| socket_manager := m |>).
Proof.
  intros Hw Hbody. unfold manager, ProxySocketManager.with_lock, ProxyLink.lock. cbn [snd fst].
  unfold unlocked in Hw. rewrite Hw. cbn [mbind option_bind].
  destruct (Hbody (ProxySocketManager.set_link (ProxyLink.set_mutex true
    (ProxySocketManager.m_link (socket_manager w))) (socket_manager w))) as [[r m] E].
  rewrite E. by do 2 eexists.
Qed.

Lemma SetLocalIp_returns ip s w :
  unlocked w -> exists m, manager (ProxySocketManager.SetLocalIp ip) (s, w)
    = Some (tt, (s, w <| socket_manager := m |>)) /\ unlocked (w <| socket_manager := m |>).
Proof.
  intros Hw. unfold ProxySocketManager.SetLocalIp.
  match goal with |- context [ProxySocketManager.with_lock ?b] =>
    destruct (with_lock_returns b s w Hw) as ([] & m & E & Hm); [by eexists|] end.
  by exists m.
Qed.

Lemma RouteIncomingData_returns info protocol data n s w :
  unlocked w -> exists m, RouteIncomingData iter info protocol data n (s, w)
    = Some (tt, (s, w <| socket_manager := m |>)) /\ unlocked (w <| socket_manager := m |>).
Proof.
  intros Hw. unfold RouteIncomingData, world, ProxySocketManager.RouteIncomingData.
  step. cbn [snd fst].
  match goal with |- context [ProxySocketManager.with_lock ?b] =>
    destruct (with_lock_returns b s w Hw) as (r & m & E & Hm) end.
  - intros m. destruct (_ && _); [by eexists|].
    destruct (ProxySocketManager.FindAllSocketsByDestination _ _ _ _ _ _);
      [destruct (bool_decide _)|]; by eexists.
  - exists m. step. done.
Qed.

(** A send of the client that the TCP client takes. *)
Lemma client_send_ok lost msg s w t :
  RyuLdnClient.is_ready (m_server_client s) = true ->
  tcp_send msg (RyuLdnClient.m_tcp_client (m_server_client s)) = (ClientResult_Success, t) ->
  client (RyuLdnClient.send_op lost msg) (s, w)
  = Some (ClientOpResult_Success,
          (s <| m_server_client := RyuLdnClient.set_tcp t (m_server_client s) |>, w)).
Proof.
  intros Hr Ht. unfold client. unfold self. step. cbn [fst].
  unfold RyuLdnClient.send_op. rewrite Hr, Ht. cbn [negb].
  unfold new_calls. cbn [RyuLdnClient.m_log RyuLdnClient.set_tcp].
  rewrite drop_all. reflexivity.
Qed.

(** The TCP client takes the next [n] messages, whatever they are. *)
Fixpoint takes (n : nat) (t : C) : Prop :=
  match n with
  | O => True
  | S n => forall msg, exists t', tcp_send msg t = (ClientResult_Success, t') /\ takes n t'
  end.
Definition sends (n : nat) (s : service) : Prop :=
  takes n (RyuLdnClient.m_tcp_client (m_server_client s)).

Lemma service_sends n lost msg s w :
  RyuLdnClient.is_ready (m_server_client s) = true -> sends (S n) s ->
  exists t, client (RyuLdnClient.send_op lost msg) (s, w)
            = Some (ClientOpResult_Success,
                    (s <| m_server_client := RyuLdnClient.set_tcp t (m_server_client s) |>, w))
    /\ takes n t.
Proof.
  intros Hr Hsends. destruct (Hsends msg) as (t & Ht & Hn). exists t.
  split; [by apply client_send_ok|done].
Qed.

Lemma no_server_to_stop s w :
  m_p2p_server s = None -> StopP2pProxyServer iter env (s, w) = Some (tt, (s, w)).
Proof. intros Hs. unfold StopP2pProxyServer, self. step. cbn [fst]. by rewrite Hs. Qed.

Lemma machine_moves f s w m :
  f (m_state_machine s) = (LdnStateMachine.Success, m) ->
  machine f (s, w) = Some (LdnStateMachine.Success, (s <| m_state_machine := m |>, w)).
Proof. intros Hf. unfold machine. cbn [fst snd]. by rewrite Hf. Qed.

(** *** The effect of a packet on those who wait *)

Definition fatal_error (id : Z) (data : list Z) : bool :=
  is_id id PacketId_NetworkError && negb (is_port_unreachable data (zlen data)).
Definition port_error (id : Z) (data : list Z) : bool :=
  is_id id PacketId_NetworkError && is_port_unreachable data (zlen data).
Definition network_described (id : Z) (data : list Z) : bool :=
  is_id id PacketId_Connected && (sizeofz NetworkInfo <=? zlen data).

(** What no packet changes. *)
Definition same_game (s s' : service) : Prop :=
  m_p2p_server s' = m_p2p_server s /\ m_server_client s' = m_server_client s
  /\ m_server_connected s' = m_server_connected s
  /\ LdnStateMachine.m_state (m_state_machine s') = LdnStateMachine.m_state (m_state_machine s)
  /\ m_expected_scene_id s' = m_expected_scene_id s
  /\ m_local_communication_id s' = m_local_communication_id s
  /\ m_inactivity_timeout s' = m_inactivity_timeout s.

#[local] Instance same_game_preorder : PreOrder same_game.
Proof.
  split; [done|]. intros a b c (H1 & H2 & H3 & H4 & H5 & H6 & H7) (? & ? & ? & ? & ? & ? & ?).
  unfold same_game. split_and!; congruence.
Qed.

(** What the waits read: the flags of the events and of the network. *)
Definition heard (error connected use_p2p : bool) (s s' : service) : Prop :=
  m_events s' ErrorEvent = m_events s ErrorEvent || error
  /\ m_events s' ResponseEvent = m_events s ResponseEvent
  /\ m_last_response_id s' = m_last_response_id s
  /\ m_network_connected s' = m_network_connected s || connected
  /\ m_use_p2p_proxy s' = m_use_p2p_proxy s && use_p2p.

Lemma heard_nothing s s' :
  m_events s' ErrorEvent = m_events s ErrorEvent ->
  m_events s' ResponseEvent = m_events s ResponseEvent ->
  m_last_response_id s' = m_last_response_id s ->
  m_network_connected s' = m_network_connected s -> m_use_p2p_proxy s' = m_use_p2p_proxy s ->
  heard false false true s s'.
Proof.
  intros H1 H2 H3 H4 H5. unfold heard. rewrite H1, H2, H3, H4, H5.
  by rewrite !orb_false_r, andb_true_r.
Qed.

Lemma is_id_spec id type : reflect (id = PacketId_value type) (is_id id type).
Proof. unfold is_id. apply Z.eqb_spec. Qed.

(** A handler returns, with the mutex of the manager free as before. *)
Definition handles (m : Method C unit) (error connected use_p2p : bool) s w : Prop :=
  returns m (s, w) (fun _ σ => same_game s σ.1 /\ heard error connected use_p2p s σ.1
                               /\ unlocked σ.2).

Lemma handles_nothing s w : unlocked w -> handles (mret tt) false false true s w.
Proof. intros Hw. exists tt, (s, w). split; [done|]. split; [done|]. split; [|done]. by apply heard_nothing. Qed.

Lemma handles_assign f s w :
  unlocked w -> same_game s (f s) -> heard false false true s (f s) ->
  handles (assign f) false false true s w.
Proof. intros Hw Hs Hh. exists tt, (f s, w). by split. Qed.

Lemma handles_manager (m : Method C unit) s w :
  (exists m', m (s, w) = Some (tt, (s, w <| socket_manager := m' |>))
              /\ unlocked (w <| socket_manager := m' |>)) ->
  handles m false false true s w.
Proof.
  intros (m' & E & Hm). exists tt, (s, w <| socket_manager := m' |>). split; [exact E|].
  split; [done|]. split; [|done]. by apply heard_nothing.
Qed.

Lemma handles_when b (m : Method C unit) s w :
  unlocked w -> (b = true -> handles m false false true s w) ->
  handles (when b m) false false true s w.
Proof. intros Hw Hm. destruct b; [by apply Hm|by apply handles_nothing]. Qed.

(** Two statements; the second does nothing for those who wait. *)
Lemma handles_then (m k : Method C unit) error connected use_p2p s w :
  handles m error connected use_p2p s w ->
  (forall s1 w1, same_game s s1 -> m_p2p_server s1 = m_p2p_server s -> unlocked w1 ->
     handles k false false true s1 w1) ->
  handles (m;; k) error connected use_p2p s w.
Proof.
  intros ([] & [s1 w1] & E1 & Hs1 & Hh1 & Hw1) Hk. cbn [fst snd] in *.
  destruct (Hk s1 w1 Hs1 (proj1 Hs1) Hw1) as ([] & [s2 w2] & E2 & Hs2 & Hh2 & Hw2).
  exists tt, (s2, w2). split; [by rewrite (bind_some _ _ _ _ _ E1)|].
  cbn [fst snd] in *. split; [by transitivity s1|]. split; [|done].
  destruct Hh1 as (A1 & A2 & A3 & A4 & A5), Hh2 as (B1 & B2 & B3 & B4 & B5).
  unfold heard. rewrite B1, B2, B3, B4, B5, A1, A2, A3, A4, A5.
  by rewrite !orb_false_r, !andb_true_r.
Qed.

Lemma handles_self {A} (f : service -> A) (k : A -> Method C unit) e c u s w :
  handles (k (f s)) e c u s w -> handles (x ← self f; k x) e c u s w.
Proof. exact id. Qed.

Lemma handles_world {A} (f : World -> A) (k : A -> Method C unit) e c u s w :
  handles (k (f w)) e c u s w -> handles (x ← world f; k x) e c u s w.
Proof. exact id. Qed.

Lemma handles_shared f s w : unlocked w -> handles (shared f) false false true s w.
Proof.
  intros Hw. eexists tt, (s, _). split; [reflexivity|]. split; [done|]. split; [|done].
  by apply heard_nothing.
Qed.

Lemma handles_access i size s w : unlocked w -> handles (access i size) false false true s w.
Proof.
  intros Hw. apply handles_when; [done|]. intros _. eexists tt, (s, _). split; [reflexivity|].
  split; [done|]. split; [|done]. by apply heard_nothing.
Qed.

Lemma handles_signal_state s w : unlocked w -> handles SignalStateChange false false true s w.
Proof. intros Hw. apply handles_assign; [done|done|]. by apply heard_nothing. Qed.

Lemma handles_Connected data s w :
  unlocked w ->
  handles (HandleConnectedPacket data (zlen data)) false (sizeofz NetworkInfo <=? zlen data)
    true s w.
Proof.
  intros Hw. unfold HandleConnectedPacket. destruct (sizeofz NetworkInfo <=? zlen data);
    [|by apply handles_nothing].
  apply handles_then.
  { eexists tt, (_, w). split; [reflexivity|]. split; [done|]. split; [|done].
    unfold heard. cbn. by rewrite !orb_false_r, orb_true_r, andb_true_r. }
  intros s1 w1 _ _ Hw1. apply handles_self. cbv zeta.
  apply handles_then.
  { apply handles_when; [done|]. intros _. apply handles_then.
    - apply handles_assign; [done|done|]. by apply heard_nothing.
    - intros s2 w2 _ _ Hw2. by apply handles_manager, SetLocalIp_returns. }
  intros s2 w2 _ _ Hw2. apply handles_then; [by apply handles_shared|].
  intros s3 w3 _ _ Hw3. by apply handles_signal_state.
Qed.

Lemma handles_SyncNetwork data s w :
  unlocked w -> handles (HandleSyncNetworkPacket data (zlen data)) false false true s w.
Proof.
  intros Hw. unfold HandleSyncNetworkPacket. destruct (_ <=? _); [|by apply handles_nothing].
  apply handles_then.
  { apply handles_assign; [done|done|]. by apply heard_nothing. }
  intros s1 w1 _ _ Hw1. apply handles_self. cbv zeta.
  apply handles_then; [by apply handles_shared|].
  intros s2 w2 _ _ Hw2. by apply handles_signal_state.
Qed.

Lemma handles_NetworkError data s w :
  unlocked w ->
  handles (HandleNetworkErrorPacket data (zlen data))
    (negb (is_port_unreachable data (zlen data))) false
    (negb (is_port_unreachable data (zlen data))) s w.
Proof.
  intros Hw. unfold HandleNetworkErrorPacket. destruct (is_port_unreachable _ _); cbn [negb].
  - apply handles_then.
    + eexists tt, (_, w). split; [reflexivity|]. split; [done|]. split; [|done].
      unfold heard. cbn. by rewrite !orb_false_r, andb_false_r.
    + intros s1 w1 _ _ Hw1. unfold persist_disable_p2p. apply handles_world. cbv zeta.
      apply handles_when; [done|]. intros _. eexists tt, (s1, _). split; [reflexivity|].
      split; [done|]. split; [|done]. by apply heard_nothing.
  - destruct (sizeofz NetworkErrorMessage <=? zlen data);
      (eexists tt, (_, w); split; [reflexivity|]; split; [done|]; split; [|done]);
      unfold heard; cbn; by rewrite ?orb_true_r, ?orb_false_r, andb_true_r.
Qed.

Lemma handles_ProxyData data n s w :
  unlocked w -> handles (HandleProxyDataPacket iter data n) false false true s w.
Proof.
  intros Hw. unfold HandleProxyDataPacket.
  destruct (_ <=? _); [|by apply handles_nothing].
  destruct (_ <=? _); [|by apply handles_nothing].
  destruct (bsd_protocol _); [|by apply handles_nothing].
  by apply handles_manager, RouteIncomingData_returns.
Qed.

(** Every packet the client passes on is handled; only three kinds mean
    something to those who wait. *)
Lemma handles_type id data s w :
  unlocked w -> m_p2p_server s = None ->
  id <> PacketId_value PacketId_Ping -> id <> PacketId_value PacketId_Disconnect ->
  handles (handle_packet_type iter env id data (zlen data)) (fatal_error id data)
    (network_described id data) (negb (port_error id data)) s w.
Proof.
  intros Hw Hsrv Hping Hdisc. unfold handle_packet_type, fatal_error, network_described, port_error.
  destruct (is_id_spec id PacketId_Connected) as [->|]; [by apply handles_Connected|].
  destruct (is_id_spec id PacketId_SyncNetwork) as [->|]; [by apply handles_SyncNetwork|].
  destruct (is_id_spec id PacketId_Disconnect) as [->|]; [done|].
  destruct (is_id_spec id PacketId_Reject) as [->|].
  { apply handles_assign; [done|done|]. by apply heard_nothing. }
  destruct (is_id_spec id PacketId_RejectReply) as [->|].
  { eexists tt, (_, w). split; [reflexivity|]. split; [done|]. split; [|done].
    by apply heard_nothing. }
  destruct (is_id_spec id PacketId_Ping) as [->|]; [done|].
  destruct (is_id_spec id PacketId_NetworkError) as [->|].
  { rewrite !andb_true_l. by apply handles_NetworkError. }
  destruct (is_id_spec id PacketId_ScanReply) as [->|].
  { apply handles_when; [done|]. intros _. apply handles_self. cbv zeta.
    apply handles_when; [done|]. intros _. apply handles_then; [by apply handles_access|].
    intros s0 w0 _ _ Hw0. apply handles_then.
    - apply handles_assign; [done|done|]. by apply heard_nothing.
    - intros s1 w1 _ _ Hw1. apply handles_assign; [done|done|]. by apply heard_nothing. }
  destruct (is_id_spec id PacketId_ScanReplyEnd) as [->|].
  { eexists tt, (_, w). split; [reflexivity|]. split; [done|]. split; [|done].
    by apply heard_nothing. }
  destruct (is_id_spec id PacketId_ProxyConfig) as [->|].
  { apply handles_when; [done|]. intros _. cbv zeta. apply handles_then.
    - apply handles_assign; [done|done|]. by apply heard_nothing.
    - intros s1 w1 _ _ Hw1. by apply handles_manager, SetLocalIp_returns. }
  destruct (is_id_spec id PacketId_ExternalProxy) as [->|].
  { apply handles_when; [done|]. intros _. cbv zeta. apply handles_then.
    - apply handles_assign; [done|done|]. by apply heard_nothing.
    - intros s1 w1 _ _ Hw1. apply handles_self. cbv zeta.
      destruct (_ || _); [by apply handles_nothing|].
      destruct (m_p2p_connect_thread_active _); [by apply handles_nothing|].
      apply handles_then; [by apply handles_access|]. intros s2 w2 _ _ Hw2.
      apply handles_assign; [done|done|]. by apply heard_nothing. }
  destruct (is_id_spec id PacketId_ExternalProxyToken) as [->|].
  { apply handles_when; [done|]. intros _. unfold HandleExternalProxyToken.
    apply handles_self. rewrite Hsrv. by apply handles_nothing. }
  destruct (is_id_spec id PacketId_ExternalProxyState) as [->|].
  { apply handles_when; [done|]. intros _. cbv zeta. apply handles_self. rewrite Hsrv.
    by apply handles_nothing. }
  destruct (is_id_spec id PacketId_ProxyData) as [->|]; [by apply handles_ProxyData|].
  by apply handles_nothing.
Qed.

(** A packet, as it arrives at the service. *)
Definition arrival (p : Z * list Z) : Method C unit :=
  HandleServerPacket iter env p.1 p.2 (zlen p.2).

(** The packets the client passes on. *)
Definition passed_on (p : Z * list Z) : Prop :=
  p.1 <> PacketId_value PacketId_Ping /\ p.1 <> PacketId_value PacketId_Disconnect.

Lemma arrival_effect p s w :
  unlocked w -> m_p2p_server s = None -> passed_on p ->
  exists s' w', arrival p (s, w) = Some (tt, (s', w')) /\ same_game s s' /\ unlocked w'
    /\ m_events s' ErrorEvent = m_events s ErrorEvent || fatal_error p.1 p.2
    /\ m_events s' ResponseEvent = m_events s ResponseEvent || is_response p.1 p.2 (zlen p.2)
    /\ m_last_response_id s' = (if is_response p.1 p.2 (zlen p.2) then p.1
                                else m_last_response_id s)
    /\ m_network_connected s' = m_network_connected s || network_described p.1 p.2
    /\ m_use_p2p_proxy s' = m_use_p2p_proxy s && negb (port_error p.1 p.2).
Proof.
  intros Hw Hsrv [Hp1 Hp2]. destruct p as [id data]. cbn [fst snd] in *.
  destruct (handles_type id data s w Hw Hsrv Hp1 Hp2)
    as ([] & [s1 w1] & E & Hs & (H1 & H2 & H3 & H4 & H5) & Hw1). cbn [fst snd] in *.
  unfold arrival, HandleServerPacket. cbn [fst snd]. rewrite (bind_some _ _ _ _ _ E).
  destruct (is_response id data (zlen data)).
  - do 2 eexists. split; [reflexivity|]. split; [done|]. split; [done|]. cbn.
    by rewrite orb_true_r.
  - exists s1, w1. rewrite orb_false_r. by split_and!.
Qed.

(** ** Waiting for [Connected] *)

(** What a packet means to a wait for [Connected]: the end of it, or nothing. *)
Definition verdict (p : Z * list Z) : option bool :=
  if is_id p.1 PacketId_Connected then Some true
  else if is_id p.1 PacketId_RejectReply || is_id p.1 PacketId_ProxyConnectReply
          || fatal_error p.1 p.2 then Some false
  else None.

(** The packets up to the one that ends the wait, and the result. *)
Fixpoint heeded (ps : list (Z * list Z)) : list (Z * list Z) :=
  match ps with
  | [] => []
  | p :: ps => p :: match verdict p with Some _ => [] | None => heeded ps end
  end.
Fixpoint answer (ps : list (Z * list Z)) : bool :=
  match ps with
  | [] => false
  | p :: ps => match verdict p with Some b => b | None => answer ps end
  end.

Definition still_p2p (ps : list (Z * list Z)) : bool :=
  forallb (fun p => negb (port_error p.1 p.2)) ps.

(** Nothing that ends the wait has happened. *)
Definition waiting (s : service) : Prop :=
  m_events s ErrorEvent = false /\ m_network_connected s = false
  /\ m_last_response_id s <> PacketId_value PacketId_Connected
  /\ (m_events s ResponseEvent = true ->
      m_last_response_id s = PacketId_value PacketId_ScanReply
      \/ m_last_response_id s = PacketId_value PacketId_ScanReplyEnd).

(** Only events differ. *)
Definition same_but_events (s s' : service) : Prop :=
  same_game s s' /\ m_network_connected s' = m_network_connected s
  /\ m_last_response_id s' = m_last_response_id s /\ m_use_p2p_proxy s' = m_use_p2p_proxy s.

Abbreviation CONNECTED := (PacketId_value PacketId_Connected).

Lemma consume_response s w :
  exists s', consume auto_clear ResponseEvent (s, w) = Some (tt, (s', w))
    /\ same_but_events s s' /\ m_events s' ErrorEvent = m_events s ErrorEvent
    /\ (m_events s ResponseEvent = false -> m_events s' ResponseEvent = false).
Proof.
  unfold consume. rewrite bool_decide_true by done. destruct auto_clear; cbn [andb when].
  - eexists. split; [reflexivity|]. done.
  - exists s. by split_and!.
Qed.

Lemma poll_waiting s w :
  waiting s -> exists s', poll_response auto_clear CONNECTED (s, w) = Some (None, (s', w))
    /\ waiting s' /\ same_but_events s s'.
Proof.
  intros (He & Hc & Hl & Hr). unfold poll_response, latched, self. step. step.
  destruct (m_events s ResponseEvent) eqn:Eresp.
  - destruct (consume_response s w) as (s' & E & Hs & He' & _).
    rewrite (bind_some _ _ _ _ _ E). step. exists s'.
    destruct Hs as (Hg & Hcon & Hlast & Huse). rewrite Hlast.
    destruct (Z.eqb_spec (m_last_response_id s) CONNECTED); [done|].
    split; [|split].
    + destruct (Hr eq_refl) as [-> | ->]; reflexivity.
    + unfold waiting. rewrite He', Hcon, Hlast. split_and!; auto.
    + by split_and!.
  - rewrite He. exists s. split; [done|]. split; [|by split_and!]. split_and!; [done..|congruence].
Qed.

Lemma poll_decided s w p b :
  m_events s ResponseEvent = true -> m_last_response_id s = p.1 -> verdict p = Some b ->
  exists s', poll_response auto_clear CONNECTED (s, w) = Some (Some b, (s', w))
    /\ same_but_events s s'.
Proof.
  intros Hr Hl Hv. unfold poll_response, latched, self. step. step. rewrite Hr.
  destruct (consume_response s w) as (s' & E & Hs & _).
  rewrite (bind_some _ _ _ _ _ E). step. exists s'. split; [|done].
  destruct Hs as (_ & _ & -> & _). rewrite Hl. unfold verdict, fatal_error in Hv.
  unfold is_id in *. destruct (p.1 =? CONNECTED); [by inversion Hv|].
  destruct (Z.eqb_spec p.1 (PacketId_value PacketId_RejectReply)) as [->|]; [by inversion Hv|].
  destruct (Z.eqb_spec p.1 (PacketId_value PacketId_ProxyConnectReply)) as [->|]; [by inversion Hv|].
  destruct (p.1 =? PacketId_value PacketId_NetworkError); [|done].
  destruct (negb _); by inversion Hv.
Qed.

(** A packet that ends nothing leaves the waiter waiting. *)
Lemma arrival_ignored p s w :
  waiting s -> unlocked w -> m_p2p_server s = None -> passed_on p -> verdict p = None ->
  exists s' w', arrival p (s, w) = Some (tt, (s', w')) /\ waiting s' /\ same_game s s'
    /\ unlocked w' /\ m_use_p2p_proxy s' = m_use_p2p_proxy s && negb (port_error p.1 p.2).
Proof.
  intros (He & Hc & Hl & Hr) Hw Hsrv Hp Hv.
  destruct (arrival_effect p s w Hw Hsrv Hp) as (s' & w' & E & Hs & Hw' & H1 & H2 & H3 & H4 & H5).
  exists s', w'. split; [done|]. split; [|done]. unfold verdict in Hv.
  destruct (is_id_spec p.1 PacketId_Connected) as [|Hn]; [done|].
  destruct (is_id p.1 PacketId_RejectReply) eqn:E1; [done|].
  destruct (is_id p.1 PacketId_ProxyConnectReply) eqn:E2; [done|].
  destruct (fatal_error p.1 p.2) eqn:E3; [done|].
  assert (Hresp : is_response p.1 p.2 (zlen p.2)
                  = is_id p.1 PacketId_ScanReply || is_id p.1 PacketId_ScanReplyEnd).
  { unfold is_response. unfold fatal_error in E3. rewrite E1, E2, E3.
    destruct (is_id_spec p.1 PacketId_Connected); [done|]. cbn. by rewrite !orb_false_r. }
  rewrite Hresp in H2, H3. unfold waiting. rewrite H1, H2, H3, H4.
  unfold network_described. destruct (is_id_spec p.1 PacketId_Connected); [done|].
  rewrite He, Hc. cbn [andb orb].
  destruct (is_id_spec p.1 PacketId_ScanReply) as [-> |]; [by split_and!; auto|].
  destruct (is_id_spec p.1 PacketId_ScanReplyEnd) as [-> |]; [by split_and!; auto|].
  rewrite !orb_false_r. by split_and!.
Qed.

Lemma arrival_decisive p b s w :
  waiting s -> unlocked w -> m_p2p_server s = None -> passed_on p -> verdict p = Some b ->
  exists s' w', arrival p (s, w) = Some (tt, (s', w')) /\ same_game s s' /\ unlocked w'
    /\ m_events s' ResponseEvent = true /\ m_last_response_id s' = p.1
    /\ (b = false -> m_network_connected s' = false /\ p.1 <> CONNECTED)
    /\ m_use_p2p_proxy s' = m_use_p2p_proxy s && negb (port_error p.1 p.2).
Proof.
  intros (He & Hc & Hl & Hr) Hw Hsrv Hp Hv.
  destruct (arrival_effect p s w Hw Hsrv Hp) as (s' & w' & E & Hs & Hw' & H1 & H2 & H3 & H4 & H5).
  assert (Hresp : is_response p.1 p.2 (zlen p.2) = true).
  { unfold verdict, fatal_error in Hv. unfold is_response.
    destruct (is_id p.1 PacketId_Connected); [done|].
    destruct (is_id p.1 PacketId_RejectReply); [by rewrite !orb_true_r|].
    destruct (is_id p.1 PacketId_ProxyConnectReply); [by rewrite !orb_true_r|].
    destruct (is_id p.1 PacketId_NetworkError && _); [by rewrite !orb_true_r|done]. }
  rewrite Hresp in H2, H3. exists s', w'. split_and!; try done.
  - by rewrite H2, orb_true_r.
  - intros ->. rewrite H4, Hc. unfold verdict, network_described, is_id in *.
    destruct (Z.eqb_spec p.1 CONNECTED); [by inversion Hv|]. done.
Qed.

(** A wait whose end has come. *)
Lemma wait_loop_decided s w p b meanwhile :
  m_events s ResponseEvent = true -> m_last_response_id s = p.1 -> verdict p = Some b ->
  exists s', wait_loop auto_clear CONNECTED meanwhile (s, w) = Some (b, (s', w))
    /\ same_but_events s s'.
Proof.
  intros Hr Hl Hv. destruct (poll_decided s w p b Hr Hl Hv) as (s' & E & Hs). exists s'.
  split; [|done]. destruct meanwhile; cbn [wait_loop]; rewrite (bind_some _ _ _ _ _ E); by step.
Qed.

Lemma wait_loop_packets ps : forall s w,
  waiting s -> unlocked w -> m_p2p_server s = None -> Forall passed_on ps ->
  exists s' w', wait_loop auto_clear CONNECTED (map arrival ps) (s, w)
                = Some (answer ps, (s', w'))
    /\ same_game s s' /\ unlocked w'
    /\ m_use_p2p_proxy s' = m_use_p2p_proxy s && still_p2p (heeded ps)
    /\ (answer ps = false ->
        m_network_connected s' = false /\ m_last_response_id s' <> CONNECTED).
Proof.
  induction ps as [|p ps IH]; intros s w Hwait Hw Hsrv Hps.
  all: destruct (poll_waiting s w Hwait) as (s1 & E1 & Hwait1 & Hs1 & Hc1 & Hl1 & Hu1).
  all: destruct (poll_waiting s1 w Hwait1) as (s2 & E2 & Hwait2 & Hs2 & Hc2 & Hl2 & Hu2).
  all: assert (Hs02 : same_game s s2) by (by transitivity s1).
  all: cbn [map wait_loop answer heeded]; rewrite (bind_some _ _ _ _ _ E1).
  all: erewrite bind_some by exact E2; cbv beta iota.
  - exists s2, w. split; [done|]. split; [done|]. split; [done|]. split.
    + cbn. by rewrite andb_true_r, Hu2, Hu1.
    + intros _. destruct Hwait2 as (_ & ? & ? & _). done.
  - apply Forall_cons in Hps as [Hp Hps].
    assert (Hsrv2 : m_p2p_server s2 = None) by (destruct Hs02 as [-> _]; done).
    destruct (verdict p) as [b|] eqn:Hv.
    + destruct (arrival_decisive p b s2 w Hwait2 Hw Hsrv2 Hp Hv)
        as (s3 & w3 & E3 & Hs3 & Hw3 & Hr3 & Hl3 & Hf3 & Hu3).
      rewrite (bind_some _ _ _ _ _ E3).
      destruct (wait_loop_decided s3 w3 p b (map arrival ps) Hr3 Hl3 Hv)
        as (s4 & E4 & Hs4 & Hc4 & Hl4 & Hu4).
      exists s4, w3. split; [exact E4|]. split; [by transitivity s3; [transitivity s2|]|].
      split; [done|]. split.
      * cbn. by rewrite Hu4, Hu3, Hu2, Hu1, andb_true_r.
      * intros ->. rewrite Hc4, Hl4, Hl3. by apply Hf3.
    + destruct (arrival_ignored p s2 w Hwait2 Hw Hsrv2 Hp Hv)
        as (s3 & w3 & E3 & Hwait3 & Hs3 & Hw3 & Hu3).
      rewrite (bind_some _ _ _ _ _ E3).
      destruct (IH s3 w3 Hwait3 Hw3) as (s4 & w4 & E4 & Hs4 & Hw4 & Hu4 & Hf4);
        [by destruct Hs3 as [-> _]|done|].
      exists s4, w4. split; [exact E4|]. split; [by transitivity s3; [transitivity s2|]|].
      split; [done|]. split; [|done].
      cbn. by rewrite Hu4, Hu3, Hu2, Hu1, andb_assoc.
Qed.

Lemma wait_for_connected ps s w :
  unlocked w -> m_p2p_server s = None -> Forall passed_on ps ->
  m_last_response_id s <> CONNECTED -> m_network_connected s = false ->
  exists s' w', WaitForConnected auto_clear (map arrival ps) (s, w)
                = Some (answer ps, (s', w'))
    /\ same_game s s' /\ unlocked w'
    /\ m_use_p2p_proxy s' = m_use_p2p_proxy s && still_p2p (heeded ps)
    /\ (answer ps = false ->
        m_network_connected s' = false /\ m_last_response_id s' <> CONNECTED).
Proof.
  intros Hw Hsrv Hps Hl Hc. unfold WaitForConnected, WaitForResponse, self. step. cbn [id].
  rewrite Hc, andb_false_r, (proj2 (Z.eqb_neq _ _) Hl). cbn [orb].
  step. step.
  match goal with |- context [(?x, w)] =>
    destruct (wait_loop_packets ps x w) as (s' & w' & E & Hs & Hw' & Hu & Hf) end.
  - by split_and!.
  - done.
  - exact Hsrv.
  - done.
  - exists s', w'. rewrite (bind_some _ _ _ _ _ E). step. split; [|done].
    destruct (answer ps); [done|]. destruct (Hf eq_refl) as [-> _]. by rewrite andb_false_r.
Qed.

(** A response of the kind that is waited for has been received at some time:
    nothing is waited for. *)
Lemma wait_with_old_response type meanwhile s w :
  m_last_response_id s = type ->
  WaitForResponse auto_clear type meanwhile (s, w) = Some (true, (s, w)).
Proof.
  intros Hid. unfold WaitForResponse, self. step. cbn [fst id].
  rewrite Hid, Z.eqb_refl, orb_true_r. reflexivity.
Qed.

(** A network without a peer-to-peer server: the request is sent, and the rest
    is up to the answer. *)
Lemma create_relay data meanwhile s w m :
  m_p2p_server s = None -> m_use_p2p_proxy s = false -> IsServerConnected s = true ->
  LdnStateMachine.CreateNetwork (m_state_machine s) = (LdnStateMachine.Success, m) -> sends 1 s ->
  exists t b,
    CreateNetwork iter env auto_clear data meanwhile (s, w)
    = (answered ← WaitForConnected auto_clear meanwhile;
       if negb answered : bool then abandon_network iter env;; mret (MAKERESULT 0x10 5)
       else network_created iter env)
      (s <| m_inactivity_timeout := SharedState.DisableTimeout (m_inactivity_timeout s) |>
         <| m_state_machine := m |>
         <| m_server_client := RyuLdnClient.set_tcp t (m_server_client s) |>,
       w <| bad_access := b |>).
Proof.
  intros Hsrv Hp2p Hup Hm Hsends. unfold CreateNetwork, self. step. cbn [fst id].
  rewrite Hup. cbn [negb]. step.
  erewrite bind_some by (apply machine_moves; exact Hm). cbn [accepted negb].
  erewrite (bind_some (prepare_host iter env)).
  2: { unfold prepare_host, self. step. cbn. rewrite Hp2p. step. step. reflexivity. }
  step. cbn [fst].
  match goal with |- context [RyuLdnClient.send_create_access_point ?r ?d ?n] =>
    destruct (Hsends (ITcpClient.send_create_access_point r d n)) as (t & Ht & _) end.
  do 2 eexists. rewrite (bind_some _ _ _ _ _ (access_first_noted _ _ _)). cbn [fst snd].
  erewrite bind_some; [|apply client_send_ok; [|exact Ht]].
  - reflexivity.
  - by apply andb_true_iff in Hup as [_ ?].
Qed.

(** What [network_created] does without a peer-to-peer server. *)
Lemma network_created_relay s w :
  m_p2p_server s = None -> m_use_p2p_proxy s = false ->
  network_created iter env (s, w)
  = Some (Success,
          (s <| m_network_connected := true |>
             <| m_inactivity_timeout := SharedState.DisableTimeout (m_inactivity_timeout s) |>
             <| m_state_machine := LdnStateMachine.SignalStateChange (m_state_machine s) |>,
           w <| shared_state := SharedState.SetLdnState CommState_AccessPointCreated
                                  (shared_state w) |>)).
Proof.
  intros Hsrv Hp2p. unfold network_created, self. step. cbn [fst id].
  rewrite Hsrv, Hp2p. reflexivity.
Qed.

Lemma destroy_relay s w :
  m_p2p_server s = None -> is_state CommState_AccessPointCreated s = true ->
  exists s1 w1, DestroyNetwork iter env (s, w) = Some (Success, (s1, w1))
    /\ m_p2p_server s1 = None /\ m_use_p2p_proxy s1 = m_use_p2p_proxy s
    /\ m_server_client s1 = m_server_client s
    /\ m_server_connected s1 = m_server_connected s
    /\ LdnStateMachine.m_state (m_state_machine s1) = CommState_AccessPoint
    /\ m_last_response_id s1 = m_last_response_id s
    /\ m_network_info s1 = zeroed NetworkInfo /\ m_network_connected s1 = false.
Proof.
  intros Hsrv Hstate%bool_decide_eq_true. unfold DestroyNetwork.
  do 2 eexists. split.
  - rewrite (bind_some _ _ _ _ _ (no_server_to_stop s w Hsrv)).
    erewrite bind_some by (apply machine_moves, DestroyNetwork_moves, Hstate). reflexivity.
  - done.
Qed.

(** C31: the answer to the first network is taken for the answer to the second.
    After a network, [DestroyNetwork] tells the server nothing and forgets the
    network's description, but not the last response; the next [CreateNetwork]
    finds it and reports success at once, whatever the server answers: the game
    is in a network, connected, with an empty description. *)
Theorem second_network_unanswered data meanwhile s w :
  m_p2p_server s = None -> m_use_p2p_proxy s = false -> IsServerConnected s = true ->
  is_state CommState_AccessPointCreated s = true ->
  m_last_response_id s = CONNECTED -> sends 1 s ->
  exists s1 w1 s2 w2,
    DestroyNetwork iter env (s, w) = Some (Success, (s1, w1))
    /\ m_server_client s1 = m_server_client s
    /\ CreateNetwork iter env auto_clear data meanwhile (s1, w1) = Some (Success, (s2, w2))
    /\ is_state CommState_AccessPointCreated s2 = true /\ m_network_connected s2 = true
    /\ m_network_info s2 = zeroed NetworkInfo.
Proof.
  intros Hsrv Hp2p Hup Hstate Hlast Hsends.
  destruct (destroy_relay s w Hsrv Hstate)
    as (s1 & w1 & E & Hsrv1 & Hp2p1 & Hcl & Hcon & Hm & Hlast1 & Hinfo & _).
  assert (Hup1 : IsServerConnected s1 = true).
  { unfold IsServerConnected. by rewrite Hcl, Hcon. }
  destruct (create_relay data meanwhile s1 w1 _ Hsrv1 (eq_trans Hp2p1 Hp2p) Hup1
    (CreateNetwork_moves _ Hm)) as (t & b & Et).
  { unfold sends. by rewrite Hcl. }
  exists s1, w1. do 2 eexists. split; [exact E|]. split; [exact Hcl|]. split.
  - rewrite Et. unfold WaitForConnected.
    erewrite bind_some by (apply wait_with_old_response; exact (eq_trans Hlast1 Hlast)).
    cbn [negb]. apply network_created_relay; [exact Hsrv1|exact (eq_trans Hp2p1 Hp2p)].
  - by split_and!.
Qed.

(** Joining: the request, the answer, and perhaps both again. *)
Lemma join_by_answers msg failed ps ps2 s w :
  let joined := answer ps
                || (negb (m_use_p2p_proxy s && still_p2p (heeded ps)) && answer ps2) in
  unlocked w -> m_p2p_server s = None -> RyuLdnClient.is_ready (m_server_client s) = true ->
  LdnStateMachine.m_state (m_state_machine s) = CommState_StationConnected -> sends 2 s ->
  Forall passed_on ps -> Forall passed_on ps2 ->
  m_last_response_id s <> CONNECTED -> m_network_connected s = false ->
  exists s' w', join_network auto_clear (RyuLdnClient.send_op RyuLdnClient.LOST msg) failed
                  (map arrival ps) (map arrival ps2) (s, w)
                = Some (if joined then Success else MAKERESULT 0x10 5, (s', w'))
    /\ LdnStateMachine.m_state (m_state_machine s')
       = (if joined then CommState_StationConnected else CommState_Station)
    /\ (joined = false -> m_network_connected s' = false).
Proof.
  intros joined Hw Hsrv Hready Hstate Hsends Hps Hps2 Hl Hc. unfold join_network.
  destruct (service_sends 1 RyuLdnClient.LOST msg s w Hready Hsends) as (t & E & Ht).
  rewrite (bind_some _ _ _ _ _ E). cbn [sent negb]. clear E.
  set (s1 := s <| m_server_client := _ |>).
  destruct (wait_for_connected ps s1 w) as (s2 & w2 & E2 & Hs2 & Hw2 & Hu2 & Hf2); [done..|].
  rewrite (bind_some _ _ _ _ _ E2). unfold self. step. cbn [id].
  assert (Hstate2 : LdnStateMachine.m_state (m_state_machine s2) = CommState_StationConnected).
  { destruct Hs2 as (_ & _ & _ & -> & _). exact Hstate. }
  change (m_use_p2p_proxy s1) with (m_use_p2p_proxy s) in Hu2.
  subst joined. rewrite <- Hu2. destruct (answer ps); cbn [negb andb orb].
  { step. exists s2, w2. by split_and!. }
  destruct (Hf2 eq_refl) as [Hc2 Hl2]. destruct (m_use_p2p_proxy s2); cbn [negb andb].
  { step. cbn [negb]. erewrite bind_some by (apply machine_moves, Disconnect_moves, Hstate2).
    do 2 eexists. split; [reflexivity|]. by split_and!. }
  set (s3 := s2 <| m_events := fun e => if decide (e = ErrorEvent) then false else m_events s2 e |>).
  assert (Hready3 : RyuLdnClient.is_ready (m_server_client s3) = true).
  { change (m_server_client s3) with (m_server_client s2). destruct Hs2 as (_ & -> & _). done. }
  assert (Hsends3 : sends 1 s3).
  { unfold sends. change (m_server_client s3) with (m_server_client s2).
    destruct Hs2 as (_ & -> & _). exact Ht. }
  destruct (service_sends 0 RyuLdnClient.LOST msg s3 w2 Hready3 Hsends3) as (t4 & E4 & _).
  set (s4 := s3 <| m_server_client := _ |>) in E4.
  destruct (wait_for_connected ps2 s4 w2) as (s5 & w5 & E5 & Hs5 & Hw5 & _ & Hf5); try done.
  { change (m_p2p_server s2 = None). by destruct Hs2 as [-> _]. }
  assert (Hstate5 : LdnStateMachine.m_state (m_state_machine s5) = CommState_StationConnected).
  { destruct Hs5 as (_ & _ & _ & -> & _). exact Hstate2. }
  erewrite (bind_some _ _ (s2, w2)).
  2: { erewrite bind_some by reflexivity. erewrite bind_some by exact E4. exact E5. }
  destruct (answer ps2); cbn [negb].
  - exists s5, w5. by split_and!.
  - erewrite bind_some by (apply machine_moves, Disconnect_moves, Hstate5).
    do 2 eexists. split; [reflexivity|]. split; [done|]. intros _. by apply Hf5.
Qed.

(** What an earlier network has left behind is taken for the answer. *)
Definition stale (s : service) : bool :=
  m_network_connected s || (m_last_response_id s =? CONNECTED).

Lemma join_stale msg failed meanwhile meanwhile2 s w :
  RyuLdnClient.is_ready (m_server_client s) = true -> sends 1 s -> stale s = true ->
  exists t, join_network auto_clear (RyuLdnClient.send_op RyuLdnClient.LOST msg) failed
              meanwhile meanwhile2 (s, w)
    = Some (Success, (s <| m_server_client := RyuLdnClient.set_tcp t (m_server_client s) |>, w)).
Proof.
  intros Hready Hsends Hst. unfold join_network.
  destruct (service_sends 0 RyuLdnClient.LOST msg s w Hready Hsends) as (t & E & _).
  rewrite (bind_some _ _ _ _ _ E). cbn [sent negb]. exists t.
  set (s1 := s <| m_server_client := _ |>).
  assert (Ewait : WaitForConnected auto_clear meanwhile (s1, w) = Some (true, (s1, w))).
  { unfold WaitForConnected, WaitForResponse, self. step. cbn [id].
    change (m_network_connected s1 || (m_last_response_id s1 =? CONNECTED) = true) in Hst.
    change (is_id (PacketId_value PacketId_Connected) PacketId_Connected) with true.
    cbn [andb]. by rewrite Hst. }
  rewrite (bind_some _ _ _ _ _ Ewait). unfold self. do 2 step. reflexivity.
Qed.

(** C6: joining a network does what the server answers, for a station that is
    connected to the server, has no peer-to-peer server of its own and can send
    its two requests.  However the packets are spread over the waits, [Connect]
    succeeds when [Connected] comes before any refusal, or, after the server has
    reported that peer-to-peer does not work, does so for the second request;
    the service is then connected.  Otherwise it fails with the time-out code and
    is back in the station.  The exception: if the last response the service has
    stored is a [Connected] of an earlier network, or its connected flag is still
    set, [Connect] succeeds at once, whatever the server answers. *)
Theorem connect_follows_server dat data ps ps2 s w :
  let joined := stale s || answer ps
                || (negb (m_use_p2p_proxy s && still_p2p (heeded ps)) && answer ps2) in
  unlocked w -> m_p2p_server s = None -> IsServerConnected s = true ->
  is_state CommState_Station s = true -> sends 2 s ->
  Forall passed_on ps -> Forall passed_on ps2 ->
  exists s' w', Connect auto_clear dat data (map arrival ps) (map arrival ps2) (s, w)
                = Some (if joined then Success else MAKERESULT 0x10 5, (s', w'))
    /\ is_state (if joined then CommState_StationConnected else CommState_Station) s' = true
    /\ m_network_connected s' = joined.
Proof.
  intros joined Hw Hsrv Hup Hstate%bool_decide_eq_true Hsends Hps Hps2.
  unfold Connect, self. step. cbn [id]. rewrite Hup. cbn [negb].
  erewrite bind_some by (apply machine_moves, Connect_moves, Hstate). cbn [accepted negb].
  match goal with |- context [(?x, w)] => set (s1 := x) end.
  assert (Hready : RyuLdnClient.is_ready (m_server_client s1) = true)
    by (by apply andb_true_iff in Hup as [_ ?]).
  subst joined. destruct (stale s) eqn:Hst; cbn [orb].
  { match goal with |- context [RyuLdnClient.send_connect ?r] =>
      destruct (join_stale (ITcpClient.send_connect r) 5 (map arrival ps) (map arrival ps2) s1 w)
        as (t & E) end; [done| |done|].
    { intros msg. destruct (Hsends msg) as (t & E & _). by exists t. }
    erewrite bind_some by exact E. do 2 eexists. split; [reflexivity|]. split; [|done].
    by apply bool_decide_eq_true. }
  apply orb_false_elim in Hst as [Hc Hl%Z.eqb_neq].
  match goal with |- context [RyuLdnClient.send_connect ?r] =>
    destruct (join_by_answers (ITcpClient.send_connect r) 5 ps ps2 s1 w)
      as (s2 & w2 & E & Hst & Hcon) end; try done.
  erewrite bind_some by exact E. change (m_use_p2p_proxy s1) with (m_use_p2p_proxy s) in *.
  destruct (answer ps || _).
  - do 2 eexists. split; [reflexivity|]. split; [|done]. by apply bool_decide_eq_true.
  - exists s2, w2. split; [reflexivity|]. split; [by apply bool_decide_eq_true|by apply Hcon].
Qed.
End network.

(** ** Witnesses *)

Lemma scripted_takes n t : up t = true -> takes n t.
Proof.
  revert t. induction n as [|n IH]; intros t Ht; [done|]. intros msg. cbn [tcp_send ScriptedTcp_client].
  rewrite Ht. eexists. split; [reflexivity|]. by apply IH.
Qed.

Definition demo_info : list Z := repeat 1 (sizeof NetworkInfo).

(** A host without peer-to-peer, whose first network the server has confirmed. *)
Definition demo_host : ICommunicationService (C:=ScriptedTcp) * World :=
  let σ := (access_point.1 <| m_use_p2p_proxy := false |>, access_point.2) in
  match CreateNetwork all_sockets demo_env true (zeroed CreateNetworkConfig)
          [arrival all_sockets demo_env (packet PacketId_Connected demo_info)] σ with
  | Some (_, σ) => σ
  | None => σ
  end.

Lemma second_network_unanswered_witness :
  exists s1 w1 s2 w2,
    DestroyNetwork all_sockets demo_env demo_host = Some (Success, (s1, w1))
    /\ CreateNetwork all_sockets demo_env true (zeroed CreateNetworkConfig)
         [arrival all_sockets demo_env (packet PacketId_NetworkError [202; 0; 0; 0])] (s1, w1)
       = Some (Success, (s2, w2)).
Proof.
  destruct (second_network_unanswered all_sockets demo_env true (zeroed CreateNetworkConfig)
    [arrival all_sockets demo_env (packet PacketId_NetworkError [202; 0; 0; 0])]
    demo_host.1 demo_host.2) as (s1 & w1 & s2 & w2 & H1 & _ & H2 & _).
  - vm_compute. reflexivity.
  - vm_compute. reflexivity.
  - vm_compute. reflexivity.
  - vm_compute. reflexivity.
  - vm_compute. reflexivity.
  - apply scripted_takes. vm_compute. reflexivity.
  - exists s1, w1, s2, w2. split; [|exact H2]. destruct demo_host. exact H1.
Defined.

(** A joiner: the first request finds peer-to-peer unusable and is refused, the
    second one is answered. *)
Lemma connect_follows_server_witness :
  exists s' w', Connect true (zeroed ConnectNetworkData) (zeroed NetworkInfo)
    (map (arrival all_sockets demo_env)
       [packet PacketId_NetworkError [1; 0; 0; 0]; packet PacketId_NetworkError [202; 0; 0; 0]])
    (map (arrival all_sockets demo_env)
       [packet PacketId_SyncNetwork demo_info; packet PacketId_Connected demo_info])
    station = Some (Success, (s', w'))
    /\ is_state CommState_StationConnected s' = true.
Proof.
  destruct (connect_follows_server all_sockets demo_env true (zeroed ConnectNetworkData)
    (zeroed NetworkInfo)
    [packet PacketId_NetworkError [1; 0; 0; 0]; packet PacketId_NetworkError [202; 0; 0; 0]]
    [packet PacketId_SyncNetwork demo_info; packet PacketId_Connected demo_info]
    station.1 station.2) as (s' & w' & H1 & H2 & _).
  - vm_compute. reflexivity.
  - vm_compute. reflexivity.
  - vm_compute. reflexivity.
  - vm_compute. reflexivity.
  - apply scripted_takes. vm_compute. reflexivity.
  - repeat constructor; vm_compute; discriminate.
  - repeat constructor; vm_compute; discriminate.
  - match type of H2 with is_state (if ?b then _ else _) _ = _ =>
      replace b with true in * by (vm_compute; reflexivity) end.
    exists s', w'. split; [|exact H2]. destruct station. exact H1.
Defined.
