(* ===== verification/LdnLifetime.v ===== *)
(** * The communication service: losing the connection, taking over, stacks

    What the receive thread makes of a connection that ends, what the object of
    an earlier session does to a later one, and the stacks of the receive
    threads. *)

From stdpp Require Import base numbers list gmap.
From Stdlib Require Import ZArith Lia Bool.
From S2P Require Import Prelude Layout Imperative Types.
From S2P Require Config ConnectionState LdnStateMachine ProxySocketManager ProxyLink.
From S2P Require ProxySocket RyuLdnClient P2pServer P2pClient SharedState.
From S2P Require Import ITcpClient LdnTypes LdnService LdnOperations LdnExample LdnNetwork.
Import ConnectionState (ConnectionState).
Import LdnStateMachine (CommState, CommState_value, CommState_AccessPoint,
  CommState_AccessPointCreated, CommState_Station, CommState_StationConnected).
Import RyuLdnClient (ClientOpResult_NotConnected).

Section lifetime.
Context {C : Type} `{ITcpClient C}.
Context (iter : gmap Z ProxySocket.ProxySocket -> list (Z * ProxySocket.ProxySocket)).
Context (env : Environment).

Abbreviation service := (ICommunicationService (C:=C)).
Implicit Types (s : service) (w : World).

Definition tcp_state (s : service) : ConnectionState :=
  RyuLdnClient.get_state (m_server_client s).

(** ** The end of the connection *)

(** The states of the client in which the receive thread updates it. *)
Definition driven (state : ConnectionState) : bool :=
  match state with
  | ConnectionState.Connected | ConnectionState.Handshaking | ConnectionState.Ready => true
  | _ => false
  end.

(** The thread does nothing while the client is not up and no loss is to be
    reported. *)
Lemma down_turn finish prev s w :
  driven (tcp_state s) = false -> detect_loss (C:=C) prev (tcp_state s) = mret tt ->
  receive_iteration iter env finish prev (s, w) = Some (tcp_state s, (s, w)).
Proof.
  intros Hdown Hloss. unfold receive_iteration, self. step.
  change (RyuLdnClient.get_state (m_server_client s)) with (tcp_state s). rewrite Hloss. step.
  by destruct (tcp_state s).
Qed.

Lemma no_loss_again state : driven state = false -> detect_loss (C:=C) state state = mret tt.
Proof. by destruct state. Qed.

Lemma down_for_ever finish n : forall prev s w,
  driven (tcp_state s) = false -> detect_loss (C:=C) prev (tcp_state s) = mret tt ->
  m_recv_thread_running s = true ->
  exists last, receive_loop iter env finish prev (repeat (mret tt) n) (s, w)
               = Some (last, (s, w)).
Proof.
  induction n as [|n IH]; intros prev s w Hs Hl Hr; cbn [repeat receive_loop]; [by eexists|].
  unfold self. step. rewrite Hr. cbn [negb].
  rewrite (bind_some _ _ _ _ _ (down_turn finish prev s w Hs Hl)). step.
  apply IH; [done|by apply no_loss_again|done].
Qed.

(** The server has answered the client's last ping in time. *)
Definition answering (now : Z) (c : RyuLdnClient.RyuLdnClient (C:=C)) : Prop :=
  RyuLdnClient.m_pending_ping_count c = 0
  \/ u64 (now - RyuLdnClient.m_last_ping_time_ms (RyuLdnClient.m_timers c))
     < RyuLdnClient.m_ping_timeout_ms.

(** The next packet of the server is of type [id], and no other follows. *)
Definition one_packet (type : PacketId) (c : RyuLdnClient.RyuLdnClient (C:=C)) : Prop :=
  let receive := tcp_receive_packet RyuLdnClient.RECV_BUFFER
                   (s32 (RyuLdnClient.recv_timeout_ms (RyuLdnClient.m_config c))) in
  exists data t1 id2 data2 t2,
    receive (RyuLdnClient.m_tcp_client c)
      = (ClientResult_Success, PacketId_value type, data, t1)
    /\ receive t1 = (ClientResult_Timeout, id2, data2, t2).

Lemma loop_takes_disconnect n now c :
  one_packet PacketId_Disconnect c ->
  exists t, RyuLdnClient.packet_loop n (RyuLdnClient.set_update_time now c)
          = RyuLdnClient.set_tcp t (RyuLdnClient.process ConnectionState.EvDisconnect
              (RyuLdnClient.set_update_time now c)).
Proof.
  unfold one_packet. set (receive := tcp_receive_packet _ _).
  intros (data & t1 & id2 & data2 & t2 & H1 & H2).
  destruct n as [|n]; cbn [RyuLdnClient.packet_loop];
    match goal with |- context [tcp_receive_packet ?a ?b ?x] =>
      change (tcp_receive_packet a b x) with (receive (RyuLdnClient.m_tcp_client c)) end;
    rewrite H1; [by exists t1|].
  exists t2. destruct n; cbn [RyuLdnClient.packet_loop];
    match goal with |- context [tcp_receive_packet ?a ?b ?x] =>
      change (tcp_receive_packet a b x) with (receive t1) end; by rewrite H2.
Qed.

(** The client's update with a [Disconnect] packet and nothing behind it. *)
Lemma update_takes_disconnect now c :
  RyuLdnClient.get_state c = ConnectionState.Ready ->
  tcp_is_connected (RyuLdnClient.m_tcp_client c) = true ->
  one_packet PacketId_Disconnect c -> answering now c ->
  RyuLdnClient.get_state (RyuLdnClient.update now c) = ConnectionState.Disconnecting
  /\ RyuLdnClient.m_log (RyuLdnClient.update now c) = RyuLdnClient.m_log c.
Proof.
  intros Hready Hup Hpacket Hping.
  unfold RyuLdnClient.update.
  change (RyuLdnClient.get_state (RyuLdnClient.set_update_time now c))
    with (RyuLdnClient.get_state c). rewrite Hready.
  unfold RyuLdnClient.handle_ready_state, RyuLdnClient.process_packets.
  change (RyuLdnClient.m_tcp_client (RyuLdnClient.set_update_time now c))
    with (RyuLdnClient.m_tcp_client c). rewrite Hup.
  destruct (loop_takes_disconnect (tcp_backlog (RyuLdnClient.m_tcp_client c)) now c Hpacket)
    as [t ->].
  match goal with |- context [RyuLdnClient.set_tcp t ?x] => set (c1 := RyuLdnClient.set_tcp t x) end.
  assert (Hstate : RyuLdnClient.get_state c1 = ConnectionState.Disconnecting).
  { change (RyuLdnClient.get_state c1) with (RyuLdnClient.get_state
      (RyuLdnClient.process ConnectionState.EvDisconnect (RyuLdnClient.set_update_time now c))).
    rewrite RyuLdnClient.get_state_process.
    change (RyuLdnClient.get_state (RyuLdnClient.set_update_time now c))
      with (RyuLdnClient.get_state c). by rewrite Hready. }
  assert (Hlog : RyuLdnClient.m_log c1 = RyuLdnClient.m_log c) by reflexivity.
  assert (Hlate : (0 <? RyuLdnClient.m_pending_ping_count c1) && (RyuLdnClient.m_ping_timeout_ms <=?
      u64 (now - RyuLdnClient.m_last_ping_time_ms (RyuLdnClient.m_timers c1))) = false).
  { change (RyuLdnClient.m_pending_ping_count c1) with (RyuLdnClient.m_pending_ping_count c).
    change (RyuLdnClient.m_timers c1) with (RyuLdnClient.m_timers (RyuLdnClient.set_update_time now c)).
    cbn [RyuLdnClient.set_update_time RyuLdnClient.set_timers RyuLdnClient.m_timers
         RyuLdnClient.m_last_ping_time_ms].
    apply andb_false_iff. destruct Hping as [->|Hlt]; [by left|right; by apply Z.leb_gt]. }
  rewrite Hlate. clearbody c1.
  destruct ((0 <? RyuLdnClient.ping_interval_ms _) && _); [|by split].
  unfold RyuLdnClient.send_ping.
  assert (Hnr : RyuLdnClient.is_ready c1 = false).
  { apply bool_decide_eq_false. intros E. unfold RyuLdnClient.get_state in Hstate. congruence. }
  by rewrite Hnr.
Qed.

(** A turn of the receive thread that takes the packet. *)
Lemma disconnect_turn finish s w :
  tcp_state s = ConnectionState.Ready ->
  tcp_is_connected (RyuLdnClient.m_tcp_client (m_server_client s)) = true ->
  one_packet PacketId_Disconnect (m_server_client s) ->
  answering (clock_ms w) (m_server_client s) ->
  SharedState.IsActive (m_inactivity_timeout s) = false ->
  receive_iteration iter env finish ConnectionState.Ready (s, w)
  = Some (ConnectionState.Ready,
          (s <| m_server_client := RyuLdnClient.update (clock_ms w) (m_server_client s) |>, w)).
Proof.
  intros Hs Hup Hpacket Hping Ht.
  set (s' := s <| m_server_client := RyuLdnClient.update (clock_ms w) (m_server_client s) |>).
  assert (Hupdate : client_update iter env (clock_ms w) (s, w) = Some (tt, (s', w))).
  { destruct (update_takes_disconnect (clock_ms w) (m_server_client s) Hs Hup Hpacket Hping)
      as [_ Hlog].
    unfold client_update, self, assign. do 2 step. unfold new_calls. by rewrite Hlog, drop_all. }
  assert (Htimer : check_inactivity iter env (clock_ms w) finish (s', w) = Some (tt, (s', w))).
  { unfold check_inactivity, self, SharedState.CheckTimeout, assign. step.
    change (SharedState.m_active (m_inactivity_timeout s')) with
      (SharedState.IsActive (m_inactivity_timeout s)). rewrite Ht. cbn [negb orb]. step.
    subst s'. by destruct s. }
  unfold receive_iteration, self, world. step.
  change (RyuLdnClient.get_state (m_server_client s)) with (tcp_state s). rewrite Hs.
  step. cbv iota. step. rewrite (bind_some _ _ _ _ _ Hupdate).
  by rewrite (bind_some _ _ _ _ _ Htimer).
Qed.

(** C34: a server that ends the session with a [Disconnect] packet is not
    noticed.  The receive thread hands the packet to the client, which takes it
    for itself and waits in its state [Disconnecting] to be updated again; the
    thread updates only a client that is connected, so it never is, in however
    many turns.  Nothing else of the service changes: not the state of the
    communication the game sees, not the network, not the events the game waits
    for, not the disconnect reason; and the game's data is refused as long as
    the game stays. *)
Theorem server_disconnect_unnoticed finish n header data len s w :
  tcp_state s = ConnectionState.Ready ->
  tcp_is_connected (RyuLdnClient.m_tcp_client (m_server_client s)) = true ->
  one_packet PacketId_Disconnect (m_server_client s) ->
  answering (clock_ms w) (m_server_client s) ->
  SharedState.IsActive (m_inactivity_timeout s) = false -> m_recv_thread_running s = true ->
  let gone := RyuLdnClient.update (clock_ms w) (m_server_client s) in
  let s' := s <| m_server_client := gone |> in
  (exists last, receive_loop iter env finish ConnectionState.Ready (repeat (mret tt) (S n)) (s, w)
                = Some (last, (s', w)))
  /\ tcp_state s' = ConnectionState.Disconnecting
  /\ GetState (s', w) = (fun '(r, (s, w)) => (r, (s', w))) <$> GetState (s, w)
  /\ SendProxyDataToServer iter header data len (s', w)
     = Some (ClientOpResult_NotConnected, (s', w)).
Proof.
  intros Hs Hup Hpacket Hping Ht Hrun gone s'.
  destruct (update_takes_disconnect (clock_ms w) (m_server_client s) Hs Hup Hpacket Hping)
    as [Hgone _].
  assert (Hs' : tcp_state s' = ConnectionState.Disconnecting) by exact Hgone.
  split_and!; [|exact Hs'|reflexivity|].
  - cbn [repeat receive_loop]. unfold self. step. rewrite Hrun. cbn [negb].
    rewrite (bind_some _ _ _ _ _ (disconnect_turn finish s w Hs Hup Hpacket Hping Ht)). step.
    apply down_for_ever; [by rewrite Hs'|by rewrite Hs'|exact Hrun].
  - unfold SendProxyDataToServer, self. step.
    assert (IsServerConnected s' = false) as ->; [|done].
    unfold IsServerConnected. apply andb_false_iff. right. apply bool_decide_eq_false.
    unfold tcp_state, RyuLdnClient.get_state in Hs'. intros E. congruence.
Qed.

(** The network a game is in, and the state it falls back to. *)
Definition fall_back (state : CommState) : CommState :=
  match state with CommState_StationConnected => CommState_Station | _ => CommState_AccessPoint end.

(** What [lose_network] leaves of the service. *)
Definition lost_service (ldn_state : CommState) (s : service) : service :=
  s <| m_server_connected := false |>
    <| m_events := fun e => if decide (e = ErrorEvent) then true else m_events s e |>
    <| m_last_network_error := NetworkErrorCode_value NetworkErrorCode_None |>
    <| m_disconnect_reason := DisconnectReason_value DisconnectReason_SignalLost |>
    <| m_network_connected := false |>
    <| m_state_machine := (LdnStateMachine.enter (fall_back ldn_state) (m_state_machine s)).2 |>.

Lemma lose_network_effect s w :
  let ldn_state := LdnStateMachine.m_state (m_state_machine s) in
  ldn_state = CommState_StationConnected \/ ldn_state = CommState_AccessPointCreated ->
  lose_network ldn_state (s, w) = Some (tt, (lost_service ldn_state s,
    w <| shared_state := SharedState.SetLdnState (fall_back ldn_state) (shared_state w) |>)).
Proof.
  intros ldn_state Hldn. unfold lose_network, assign, Signal, set_event, self. do 3 step.
  destruct Hldn as [E|E]; unfold ldn_state in *; rewrite E.
  - erewrite bind_some by (apply machine_moves, Disconnect_moves; exact E). step.
    unfold lost_service, fall_back. by destruct s.
  - erewrite bind_some by (apply machine_moves, DestroyNetwork_moves; exact E). step.
    unfold lost_service, fall_back. by destruct s.
Qed.

(** C32: a connection that is lost while the game is in a network is reported.
    The first turn of the receive thread after the loss moves the game back to
    its station or access point and signals the state change, wakes the call
    that waits for the server, notes the lost signal and shows the new state to
    the overlay; further turns change nothing, and the client is not updated
    again, so it does not reconnect.  But [GetState], which is to return an
    error then, does so only to a game that has set an error state with
    [InitializeSystem2]. *)
Theorem lost_connection_ends_network finish n s w :
  let ldn_state := LdnStateMachine.m_state (m_state_machine s) in
  tcp_state s = ConnectionState.Backoff \/ tcp_state s = ConnectionState.Disconnected
  \/ tcp_state s = ConnectionState.Retrying ->
  ldn_state = CommState_StationConnected \/ ldn_state = CommState_AccessPointCreated ->
  m_recv_thread_running s = true ->
  exists last s' w',
    receive_loop iter env finish ConnectionState.Ready (repeat (mret tt) (S n)) (s, w)
      = Some (last, (s', w'))
    /\ m_state_machine s' = (LdnStateMachine.enter (fall_back ldn_state) (m_state_machine s)).2
    /\ SharedState.m_ldn_state (shared_state w') = fall_back ldn_state
    /\ m_events s' ErrorEvent = true /\ m_network_connected s' = false
    /\ IsServerConnected s' = false /\ m_server_client s' = m_server_client s
    /\ m_network_info s' = m_network_info s
    /\ GetState (s', w')
       = Some (if m_error_state s =? 0 then Success
               else MAKERESULT 0x10 (DisconnectReason_value DisconnectReason_SignalLost),
               CommState_value (fall_back ldn_state), (s', w')).
Proof.
  intros ldn_state Htcp Hldn Hrun.
  assert (Hdown : driven (tcp_state s) = false) by (destruct Htcp as [->|[->| ->]]; done).
  set (s' := lost_service ldn_state s). set (state := tcp_state s) in *.
  set (w' := w <| shared_state := SharedState.SetLdnState (fall_back ldn_state) (shared_state w) |>).
  assert (Hturn : receive_iteration iter env finish ConnectionState.Ready (s, w)
                  = Some (state, (s', w'))).
  { unfold receive_iteration, self. step.
    change (RyuLdnClient.get_state (m_server_client s)) with state.
    assert (Hloss : detect_loss ConnectionState.Ready state (s, w) = Some (tt, (s', w'))).
    { transitivity (lose_network (C:=C) ldn_state (s, w)).
      - unfold detect_loss, self. destruct Htcp as [->|[->| ->]]; step; fold ldn_state;
          by destruct Hldn as [E|E]; rewrite E.
      - exact (lose_network_effect s w Hldn). }
    rewrite (bind_some _ _ _ _ _ Hloss). by destruct state. }
  destruct (down_for_ever finish n state s' w' Hdown (no_loss_again _ Hdown) Hrun) as [last E].
  exists last, s', w'. split.
  { cbn [repeat receive_loop]. unfold self. step. rewrite Hrun. cbn [negb].
    rewrite (bind_some _ _ _ _ _ Hturn). by step. }
  split_and!; try done.
  unfold GetState, self. step. cbn [id]. change (m_error_state s') with (m_error_state s).
  by destruct (m_error_state s =? 0).
Qed.
(** ** Taking over from an earlier object *)

(** No peer-to-peer proxy, and no thread that makes one. *)
Definition no_p2p (s : service) : Prop :=
  m_p2p_server s = None /\ m_p2p_client s = None
  /\ m_p2p_connect_thread_initialized s = false.

(** Neither the thread nor its stack, nor the object's address. *)
Definition same_thread (s s' : service) : Prop :=
  this s' = this s /\ m_recv_thread_was_started s' = m_recv_thread_was_started s
  /\ m_stack_slot_index s' = m_stack_slot_index s.

Lemma client_returns {A} (f : RyuLdnClient.RyuLdnClient (C:=C) ->
    A * RyuLdnClient.RyuLdnClient (C:=C)) s w :
  exists c e, client f (s, w)
    = Some ((f (m_server_client s)).1, (s <| m_server_client := c |> <| m_events := e |>, w)).
Proof.
  unfold client, self. step. destruct (f (m_server_client s)) as [r c].
  unfold assign. step. destruct (existsb _ _); step; [by do 2 eexists|].
  exists c, (m_events s). by destruct s.
Qed.

Lemma disconnect_master_returns s w :
  exists c e, disconnect_master (s, w) = Some (tt,
    (s <| m_server_client := c |> <| m_server_connected := false |> <| m_events := e |>, w)).
Proof.
  unfold disconnect_master, self. step. destruct (m_server_connected s) eqn:E; cbn [when].
  - destruct (client_returns (fun c => (tt, RyuLdnClient.disconnect c)) s w) as (c & e & Ec).
    unfold client_disconnect. rewrite (bind_some _ _ _ _ _ Ec). by do 2 eexists.
  - exists (m_server_client s), (m_events s). destruct s. cbn in E. by subst.
Qed.

Lemma no_proxy_to_leave finish s w :
  no_p2p s -> DisconnectP2pProxy iter env false finish (s, w) = Some (tt, (s, w)).
Proof.
  intros (_ & Hc & Hi).
  assert (Hw : forall f, with_client iter f (s, w) = Some (tt, (s, w))).
  { intros f. unfold with_client, self. step. by rewrite Hc. }
  unfold DisconnectP2pProxy, delete_client, self. rewrite (bind_some _ _ _ _ _ (Hw _)).
  step. rewrite Hi. cbn [andb when]. step. rewrite (bind_some _ _ _ _ _ (Hw _)).
  step. rewrite Hc. unfold assign_world, assign. step. cbn [fmap option_fmap option_map default].
  unfold modify. destruct s, w. cbn in Hc. by subst.
Qed.

Lemma abandoned_returns s w :
  exists l, cleanup_abandoned (s, w) = Some (tt, (s, w <| abandoned_cleanups := l |>)).
Proof. unfold cleanup_abandoned, self. step. destruct (negb _); by eexists. Qed.

(** What the cleanup leaves of the world. *)
Definition cleaned (p : Z) (m : ProxySocketManager.ProxySocketManager) (w w' : World) : Prop :=
  g_current_ldn_instance w' = g_current_ldn_instance w
  /\ g_active_ldn_service w'
     = (if decide (g_active_ldn_service w = Some p) then None else g_active_ldn_service w)
  /\ g_ldn_session_stack_used w' = g_ldn_session_stack_used w
  /\ socket_manager w' = m
  /\ shared_state w' = SharedState.SetLdnPid 0 (SharedState.SetGameActive false 0 (shared_state w))
  /\ g_config w' = g_config w.

Lemma cleanup_returns finish s w m :
  no_p2p s -> ProxySocketManager.Reset iter (socket_manager w) = Some (tt, m) ->
  exists s' w', CleanupSessionResources iter env finish (s, w) = Some (tt, (s', w'))
    /\ no_p2p s' /\ same_thread s s' /\ m_server_connected s' = false /\ cleaned (this s) m w w'.
Proof.
  intros Hp Hm. unfold CleanupSessionResources.
  rewrite (bind_some _ _ _ _ _ (no_server_to_stop iter env s w (proj1 Hp))).
  rewrite (bind_some _ _ _ _ _ (no_proxy_to_leave finish s w Hp)).
  destruct (disconnect_master_returns s w) as (c & e & E). rewrite (bind_some _ _ _ _ _ E).
  set (s1 := s <| m_server_client := c |> <| m_server_connected := false |> <| m_events := e |>).
  unfold unregister_active, self, assign_world, assign. step.
  match goal with |- context [(s1, ?x)] => set (w1 := x) end.
  assert (E1 : manager (C:=C) (ProxySocketManager.Reset iter) (s1, w1)
               = Some (tt, (s1, w1 <| socket_manager := m |>))).
  { unfold manager. cbn [snd fst]. change (socket_manager w1) with (socket_manager w). by rewrite Hm. }
  rewrite (bind_some _ _ _ _ _ E1).
  destruct (abandoned_returns s1 (w1 <| socket_manager := m |>)) as [l E2].
  rewrite (bind_some _ _ _ _ _ E2). unfold clear_events, shared, assign, assign_world.
  do 3 step. do 2 eexists. split; [reflexivity|]. destruct Hp as (? & ? & ?). by split_and!.
Qed.
(** A receive thread that has been told to stop, between two turns. *)
Definition ends_at_once (rest : Method C unit) : Prop :=
  forall s w, m_recv_thread_running s = false -> rest (s, w) = Some (tt, (s, w)).

Lemma receive_loop_ends finish prev between :
  ends_at_once (receive_loop iter env finish prev between;; mret tt).
Proof.
  intros s w Hr. destruct between as [|others between]; [done|].
  cbn [receive_loop]. unfold self.
  assert (E : receive_loop iter env finish prev (others :: between) (s, w) = Some (prev, (s, w))).
  { cbn [receive_loop]. unfold self. step. by rewrite Hr. }
  by rewrite (bind_some _ _ _ _ _ E).
Qed.

Lemma join_returns rest s w :
  ends_at_once rest -> m_recv_thread_running s = false ->
  join_recv_thread rest (s, w) = Some (tt, (s <| m_recv_thread_was_started := false |>, w)).
Proof.
  intros Hrest Hr. unfold join_recv_thread, self. step.
  destruct (m_recv_thread_was_started s) eqn:E; cbn [when].
  - by rewrite (bind_some _ _ _ _ _ (Hrest s w Hr)).
  - destruct s. cbn in E. by subst.
Qed.

Lemma release_returns s w :
  exists l, release_slot (s, w)
    = Some (tt, (s <| m_stack_slot_index := if 0 <=? m_stack_slot_index s then -1
                                            else m_stack_slot_index s |>,
                 w <| g_ldn_session_stack_used := l |>)).
Proof.
  unfold release_slot, self. step. destruct (0 <=? m_stack_slot_index s); cbn [when].
  - unfold assign_world, ReleaseLdnStackSlot. step.
    destruct (_ || _); [exists (g_ldn_session_stack_used w); by destruct w|by eexists].
  - exists (g_ldn_session_stack_used w). by destruct s, w.
Qed.

Lemma Reset_empties m m' :
  ProxySocketManager.Reset iter m = Some (tt, m') -> ProxySocketManager.m_sockets m' = ∅.
Proof.
  unfold ProxySocketManager.Reset, ProxySocketManager.with_lock.
  destruct (ProxyLink.lock _) as [l|]; [|done]. cbn [mbind option_bind].
  destruct (ProxySocketManager.close_sockets _ _) as [l'|]; [|done]. cbn [mbind option_bind].
  intros [= <-]. reflexivity.
Qed.

Lemma client_disconnect_returns s w :
  exists c e, client_disconnect (s, w)
    = Some (tt, (s <| m_server_client := c |> <| m_events := e |>, w)).
Proof. exact (client_returns (fun c => (tt, RyuLdnClient.disconnect c)) s w). Qed.

Lemma machine_returns f s w :
  machine (C:=C) f (s, w) = Some ((f (m_state_machine s)).1,
    (s <| m_state_machine := (f (m_state_machine s)).2 |>, w)).
Proof. unfold machine. cbn [fst snd]. by destruct (f (m_state_machine s)). Qed.

(** The shutdown of the previous object by a new one. *)
Lemma shutdown_returns rest finish s w m :
  ends_at_once rest -> no_p2p s -> ProxySocketManager.Reset iter (socket_manager w) = Some (tt, m) ->
  exists s' w', shutdown_previous iter env rest finish (s, w) = Some (tt, (s', w'))
    /\ no_p2p s' /\ this s' = this s /\ socket_manager w' = m.
Proof.
  intros Hrest Hp Hm. unfold shutdown_previous, Signal, set_event, assign, assign_world. do 2 step.
  match goal with |- context [(?x, w)] => set (s1 := x) end.
  destruct (client_disconnect_returns s1 w) as (c & e & E). rewrite (bind_some _ _ _ _ _ E).
  step. match goal with |- context [(?x, ?y)] => set (s2 := x); set (w2 := y) end.
  rewrite (bind_some _ _ _ _ _ (join_returns rest s2 w2 Hrest eq_refl)).
  destruct (release_returns (s2 <| m_recv_thread_was_started := false |>) w2) as [l E2].
  rewrite (bind_some _ _ _ _ _ E2).
  match type of E2 with _ = Some (_, (?x, ?y)) =>
    destruct (cleanup_returns finish x y m) as (s3 & w3 & E3 & Hp3 & Ht3 & _ & Hw3); [done|done|] end.
  rewrite (bind_some _ _ _ _ _ E3), (bind_some _ _ _ _ _ (machine_returns _ s3 w3)).
  do 2 eexists. split; [reflexivity|]. split; [exact Hp3|]. split; [exact (proj1 Ht3)|].
  by destruct Hw3 as (_ & _ & _ & ? & _).
Qed.

Lemma delete_returns rest finish s w m :
  ends_at_once rest -> no_p2p s -> ProxySocketManager.Reset iter (socket_manager w) = Some (tt, m) ->
  exists s' w', ICommunicationService_delete iter env rest finish (s, w) = Some (tt, (s', w'))
    /\ g_current_ldn_instance w' = (if decide (g_current_ldn_instance w = Some (this s)) then None
                                    else g_current_ldn_instance w)
    /\ socket_manager w' = m
    /\ shared_state w'
       = SharedState.SetLdnPid 0 (SharedState.SetGameActive false 0 (shared_state w)).
Proof.
  intros Hrest Hp Hm. unfold ICommunicationService_delete, Signal, set_event, assign, assign_world, self.
  do 4 step. match goal with |- context [(?x, ?y)] => set (s1 := x); set (w1 := y) end.
  destruct (client_disconnect_returns s1 w1) as (c & e & E). rewrite (bind_some _ _ _ _ _ E).
  match type of E with _ = Some (_, (?x, _)) =>
    rewrite (bind_some _ _ _ _ _ (join_returns rest x w1 Hrest eq_refl));
    destruct (cleanup_returns finish (x <| m_recv_thread_was_started := false |>) w1 m)
      as (s3 & w3 & E3 & _ & _ & _ & Hc & _ & _ & Hs & Hsh & _); [done|done|] end.
  rewrite (bind_some _ _ _ _ _ E3), (bind_some _ _ _ _ _ (machine_returns _ s3 w3)).
  destruct (release_returns (s3 <| m_state_machine := (LdnStateMachine.Finalize
    (m_state_machine s3)).2 |>) w3) as [l ->].
  do 2 eexists. by split_and!.
Qed.
Lemma Initialize_returns pid s w :
  m_state_machine s = LdnStateMachine.new_LdnStateMachine ->
  exists s' w', Initialize pid (s, w) = Some (Success, (s', w'))
    /\ SharedState.m_ldn_pid (shared_state w') = pid
    /\ g_current_ldn_instance w' = g_current_ldn_instance w.
Proof.
  intros Hm. unfold Initialize, assign. step.
  rewrite (bind_some _ _ _ _ _ (machine_returns _ _ _)).
  change (m_state_machine (s <| m_client_process_id := pid |>)) with (m_state_machine s). rewrite Hm.
  change (accepted (LdnStateMachine.Initialize LdnStateMachine.new_LdnStateMachine).1) with true.
  cbn [negb]. unfold set_ldn_state, shared, self, assign, assign_world. do 5 step.
  do 2 eexists. split; [reflexivity|]. by split.
Qed.

Lemma construct_returns s thread pauses w :
  exists s' w', construct s thread pauses w = (s', w')
    /\ m_state_machine s' = m_state_machine s /\ g_current_ldn_instance w' = Some (this s).
Proof.
  unfold construct. destruct (AllocateLdnStackSlot pauses w) as [slot w1].
  by do 2 eexists.
Qed.

(** the destructor of a superseded object is not a no-op.  The constructor of
    a new object shuts the previous one down; when that one is deleted at last,
    it cleans up a second time what by now belongs to the new session: no process
    and no game is registered any more, and every socket made meanwhile is gone
    with the rest of the socket manager, whose new contents are those of a
    reset.  Only the pointer to the current object is left alone. *)
Theorem stale_destructor rest finish old q program_id tcp random thread pauses pid w m1 m2 m3 :
  ends_at_once rest -> no_p2p old -> q <> this old -> pid <> 0 ->
  ProxySocketManager.Reset iter (socket_manager w) = Some (tt, m1) ->
  ProxySocketManager.Reset iter m2 = Some (tt, m3) ->
  exists old1 new w1,
    ICommunicationService_new iter env rest finish (Some old) q program_id tcp random thread
      pauses w = Some (Some old1, (new, w1))
    /\ exists new2 w2,
      Initialize pid (new, w1) = Some (Success, (new2, w2))
      /\ SharedState.IsLdnPid pid (shared_state w2) = true
      /\ exists old3 w3,
        ICommunicationService_delete iter env rest finish (old1, w2 <| socket_manager := m2 |>)
          = Some (tt, (old3, w3))
        /\ g_current_ldn_instance w3 = Some q
        /\ SharedState.IsLdnPid pid (shared_state w3) = false
        /\ SharedState.m_game_active (shared_state w3) = false
        /\ socket_manager w3 = m3 /\ ProxySocketManager.m_sockets m3 = ∅.
Proof.
  intros Hrest Hp Hq Hpid Hm1 Hm3.
  destruct (shutdown_returns rest finish old w m1 Hrest Hp Hm1) as (old1 & w0 & E & Hp1 & Ht1 & _).
  unfold ICommunicationService_new. rewrite E. cbn [mbind option_bind].
  destruct (construct_returns (initial_service q program_id tcp random w) thread pauses w0)
    as (new & w1 & -> & Hmachine & Hcur).
  destruct (Initialize_returns pid new w1 Hmachine) as (new2 & w2 & Einit & Hldn & Hcur2).
  pose (w2' := w2 <| socket_manager := m2 |>).
  destruct (delete_returns rest finish old1 w2' m3 Hrest Hp1 Hm3)
    as (old3 & w3 & E3 & Hc & Hm & Hs).
  assert (Hq3 : g_current_ldn_instance w2' = Some q).
  { exact (eq_trans Hcur2 Hcur). }
  rewrite Hq3, Ht1, decide_False in Hc by (intros [= ?]; by apply Hq).
  exists old1, new, w1. split; [done|]. exists new2, w2. split; [exact Einit|].
  split; [by apply SharedState.IsLdnPid_spec|]. exists old3, w3. split; [exact E3|].
  split; [exact Hc|]. rewrite Hs. split; [|split; [done|split; [done|exact (Reset_empties m2 m3 Hm3)]]].
  apply not_true_is_false. intros Hpid'.
  apply SharedState.IsLdnPid_spec in Hpid' as [E0 _]. by apply Hpid.
Qed.

(** A call behind a cleanup that waits for the socket manager for ever. *)
Lemma cleanup_blocks finish s w :
  no_p2p s -> ProxySocketManager.Reset iter (socket_manager w) = None ->
  CleanupSessionResources iter env finish (s, w) = None.
Proof.
  intros Hp Hm. unfold CleanupSessionResources.
  rewrite (bind_some _ _ _ _ _ (no_server_to_stop iter env s w (proj1 Hp))).
  rewrite (bind_some _ _ _ _ _ (no_proxy_to_leave finish s w Hp)).
  destruct (disconnect_master_returns s w) as (c & e & E). rewrite (bind_some _ _ _ _ _ E).
  unfold unregister_active, self, assign_world. step.
  apply bind_none. unfold manager. cbn [snd fst].
  match goal with |- context [socket_manager ?x] =>
    change (socket_manager x) with (socket_manager w) end. by rewrite Hm.
Qed.

Lemma disconnect_blocks finish s w :
  no_p2p s -> ProxySocketManager.Reset iter (socket_manager w) = None ->
  DisconnectFromServer iter env finish (s, w) = None.
Proof.
  intros Hp Hm. unfold DisconnectFromServer.
  rewrite (bind_some _ _ _ _ _ (no_server_to_stop iter env s w (proj1 Hp))).
  rewrite (bind_some _ _ _ _ _ (no_proxy_to_leave finish s w Hp)).
  unfold unregister_active, self, assign_world. step.
  apply bind_none. unfold manager. cbn [snd fst].
  match goal with |- context [socket_manager ?x] =>
    change (socket_manager x) with (socket_manager w) end. by rewrite Hm.
Qed.

(** C33: leaving with a connected stream socket hangs.  Every way to end the
    session closes the sockets with the socket manager's mutex held, and a
    connected TCP socket asks the manager for that mutex when it is closed: so
    neither [Finalize] nor [CloseAccessPoint] nor the disconnection of an idle
    game returns, and the destructor does not either. *)
Theorem leaving_blocks fd sock rest finish s w :
  (forall socks, iter socks ≡ₚ map_to_list socks) ->
  unlocked w -> no_p2p s -> ends_at_once rest ->
  ProxySocketManager.m_sockets (socket_manager w) !! fd = Some sock ->
  ProxySocket.s_protocol sock = BsdTypes.Tcp ->
  BsdTypes.GetPort (ProxySocket.s_remote_addr sock) <> 0 ->
  Finalize iter env finish (s, w) = None
  /\ CloseAccessPoint iter env finish (s, w) = None
  /\ ICommunicationService_delete iter env rest finish (s, w) = None
  /\ (g_active_ldn_service w = Some (this s) -> m_network_connected s = false ->
     OnInactivityTimeout iter env finish (s, w) = None).
Proof.
  intros Hiter Hw Hp Hrest Hfd Htcp Hport.
  assert (Hm : ProxySocketManager.Reset iter (socket_manager w) = None).
  { unfold ProxySocketManager.Reset. rewrite ProxySocketManager.with_lock_free by exact Hw.
    erewrite ProxySocketManager.close_sockets_stuck; [done|done| |exact Htcp|exact Hport].
    by eapply ProxySocketManager.elem_of_iter. }
  split_and!.
  - unfold Finalize. apply bind_none. by apply cleanup_blocks.
  - unfold CloseAccessPoint.
    rewrite (bind_some _ _ _ _ _ (no_server_to_stop iter env s w (proj1 Hp))).
    apply bind_none. by apply disconnect_blocks.
  - unfold ICommunicationService_delete, Signal, set_event, assign, assign_world, self.
    do 4 step. match goal with |- context [(?x, ?y)] => set (s1 := x); set (w1 := y) end.
    destruct (client_disconnect_returns s1 w1) as (c & e & E). rewrite (bind_some _ _ _ _ _ E).
    match type of E with _ = Some (_, (?x, _)) =>
      rewrite (bind_some _ _ _ _ _ (join_returns rest x w1 Hrest eq_refl)) end.
    apply bind_none. by apply cleanup_blocks.
  - intros Hactive Hnet. unfold OnInactivityTimeout, self, world. do 2 step. rewrite Hactive.
    cbn [id]. rewrite decide_True by done. rewrite Hnet. cbn [negb when].
    by apply disconnect_blocks.
Qed.
End lifetime.

(** ** The stacks of the receive threads *)

Definition full (w : World) : Prop := Forall (fun b => b = true) (g_ldn_session_stack_used w).

(** All stacks are taken at each look. *)
Fixpoint always_full (pauses : list (World -> World)) (w : World) : Prop :=
  match pauses with
  | [] => True
  | pause :: pauses => full w /\ always_full pauses (pause w)
  end.

(** The pauses of the thread that waits: none makes or loses a stack. *)
Definition keeps_pool (pause : World -> World) : Prop :=
  forall w, length (g_ldn_session_stack_used (pause w)) = length (g_ldn_session_stack_used w).

Lemma Release_keeps slot : keeps_pool (ReleaseLdnStackSlot slot).
Proof.
  intros w. unfold ReleaseLdnStackSlot. destruct (_ || _); [done|]. apply length_insert.
Qed.

Lemma first_false_some l i :
  P2pServer.first_false l = Some i -> l !! i = Some false.
Proof.
  revert i. induction l as [|[] l IH]; intros i; cbn [P2pServer.first_false]; [done| |].
  - destruct (P2pServer.first_false l) as [j|]; [|done]. intros [= <-]. by apply IH.
  - by intros [= <-].
Qed.

Lemma first_false_none l : P2pServer.first_false l = None <-> Forall (fun b => b = true) l.
Proof.
  induction l as [|[] l IH]; cbn [P2pServer.first_false]; [by split| |].
  - rewrite Forall_cons, <- IH. destruct (P2pServer.first_false l); naive_solver.
  - rewrite Forall_cons. naive_solver.
Qed.

(** the stack of a receive thread is free, until none is.  The slot a new
    object gets is one of the twelve, and is taken afterwards; it was free, and
    giving it back restores the pool as it was; or it is slot 0 and every stack
    was taken each time the pool was looked at: then two threads run on one
    stack, and the first of them to end frees it under the other. *)
Theorem stack_slots pauses w :
  length (g_ldn_session_stack_used w) = LDN_SESSION_STACK_COUNT -> Forall keeps_pool pauses ->
  let '(slot, w1) := AllocateLdnStackSlot pauses w in
  let used := g_ldn_session_stack_used w1 in
  0 <= slot < Z.of_nat LDN_SESSION_STACK_COUNT
  /\ used !! Z.to_nat slot = Some true
  /\ (g_ldn_session_stack_used (ReleaseLdnStackSlot slot w1) = <[Z.to_nat slot := false]> used)
  /\ (~ always_full pauses w ->
      exists before, before !! Z.to_nat slot = Some false /\ used = <[Z.to_nat slot := true]> before
        /\ g_ldn_session_stack_used (ReleaseLdnStackSlot slot w1) = before)
  /\ (always_full pauses w -> slot = 0).
Proof.
  intros Hlen Hpauses. revert w Hlen.
  assert (Htake : forall i w, length (g_ldn_session_stack_used w) = LDN_SESSION_STACK_COUNT ->
    (i < LDN_SESSION_STACK_COUNT)%nat ->
    g_ldn_session_stack_used (take_slot i w) !! Z.to_nat (Z.of_nat i) = Some true
    /\ g_ldn_session_stack_used (ReleaseLdnStackSlot (Z.of_nat i) (take_slot i w))
       = <[Z.to_nat (Z.of_nat i) := false]> (g_ldn_session_stack_used (take_slot i w))).
  { intros i w Hlen Hi. rewrite Nat2Z.id. split.
    - apply list_lookup_insert_eq. by rewrite Hlen.
    - unfold ReleaseLdnStackSlot. rewrite Nat2Z.id.
      destruct (Z.ltb_spec (Z.of_nat i) 0); [lia|].
      by destruct (Z.leb_spec (Z.of_nat LDN_SESSION_STACK_COUNT) (Z.of_nat i)); [lia|]. }
  induction Hpauses as [|pause pauses Hpause _ IH]; intros w Hlen; cbn [AllocateLdnStackSlot].
  - destruct (Htake 0%nat w Hlen) as [H1 H2]; [unfold LDN_SESSION_STACK_COUNT; lia|].
    split_and!; [done|done|exact H1|exact H2|intros []; done|done].
  - destruct (P2pServer.first_false (g_ldn_session_stack_used w)) as [i|] eqn:E.
    + apply first_false_some in E as Hfree. pose proof (lookup_lt_Some _ _ _ Hfree) as Hi.
      rewrite Hlen in Hi. destruct (Htake i w Hlen Hi) as [H1 H2].
      split_and!; [lia|lia|exact H1|exact H2| |].
      * intros _. exists (g_ldn_session_stack_used w). rewrite H2, Nat2Z.id.
        split_and!; [exact Hfree|done|]. cbn [take_slot upd].
        change (g_ldn_session_stack_used (take_slot i w)) with
          (<[i := true]> (g_ldn_session_stack_used w)).
        rewrite list_insert_insert_eq. by apply list_insert_id.
      * intros [Hfull _]. apply first_false_none in Hfull. congruence.
    + specialize (IH (pause w) (eq_trans (Hpause w) Hlen)).
      destruct (AllocateLdnStackSlot pauses (pause w)) as [slot w1].
      destruct IH as (H1 & H2 & H3 & H4 & H5). split_and!; try done.
      * lia.
      * lia.
      * intros Hn. apply H4. intros Hf. apply Hn. split; [by apply first_false_none|done].
      * intros [_ Hf]. by apply H5.
Qed.

(** ** Witnesses *)

(** The host of a network, with the packets [packets] on their way to it. *)
Definition host_hears (packets : list (Z * list Z)) : ICommunicationService (C:=ScriptedTcp) :=
  demo_host.1 <| m_server_client := RyuLdnClient.set_tcp
    {| up := true; inbox := packets; outbox := [] |} (m_server_client demo_host.1) |>.

Lemma server_disconnect_unnoticed_witness :
  exists last,
    receive_loop all_sockets demo_env idle ConnectionState.Ready (repeat (mret tt) 100)
      (host_hears [packet PacketId_Disconnect [0; 0; 0; 0]], demo_host.2)
    = Some (last, (host_hears [packet PacketId_Disconnect [0; 0; 0; 0]]
                   <| m_server_client := RyuLdnClient.update 5000 (m_server_client
                        (host_hears [packet PacketId_Disconnect [0; 0; 0; 0]])) |>, demo_host.2)).
Proof.
  apply (server_disconnect_unnoticed all_sockets demo_env idle 99 (zeroed _) [] 0
    (host_hears [packet PacketId_Disconnect [0; 0; 0; 0]]) demo_host.2).
  - vm_compute. reflexivity.
  - vm_compute. reflexivity.
  - do 5 eexists. split; vm_compute; reflexivity.
  - left. vm_compute. reflexivity.
  - vm_compute. reflexivity.
  - vm_compute. reflexivity.
Defined.

(** The same host, whose client waits to connect again. *)
Definition host_cut_off : ICommunicationService (C:=ScriptedTcp) :=
  demo_host.1 <| m_server_client := RyuLdnClient.process ConnectionState.EvConnectionLost
                   (m_server_client demo_host.1) |>.

Lemma lost_connection_ends_network_witness :
  exists last s' w',
    receive_loop all_sockets demo_env idle ConnectionState.Ready (repeat (mret tt) 3)
      (host_cut_off, demo_host.2) = Some (last, (s', w'))
    /\ m_events s' ErrorEvent = true
    /\ GetState (s', w') = Some (Success, CommState_value CommState_AccessPoint, (s', w')).
Proof.
  destruct (lost_connection_ends_network all_sockets demo_env idle 2 host_cut_off demo_host.2)
    as (last & s' & w' & H1 & _ & _ & H2 & _ & _ & _ & _ & H3).
  - left. vm_compute. reflexivity.
  - right. vm_compute. reflexivity.
  - vm_compute. reflexivity.
  - exists last, s', w'. split; [exact H1|]. split; [exact H2|]. exact H3.
Defined.

(** The game comes back as process 82 while the first object is still there. *)
Lemma stale_destructor_witness :
  exists old1 new w1,
    ICommunicationService_new all_sockets demo_env idle idle (Some demo_host.1) 2 game
      {| up := false; inbox := []; outbox := [] |} (fun _ => 0) true (repeat id 50) demo_host.2
    = Some (Some old1, (new, w1)).
Proof.
  destruct (stale_destructor all_sockets demo_env idle idle demo_host.1 2 game
    {| up := false; inbox := []; outbox := [] |} (fun _ => 0) true (repeat id 50) 82 demo_host.2
    (ProxySocketManager.new_ProxySocketManager) ProxySocketManager.new_ProxySocketManager
    ProxySocketManager.new_ProxySocketManager) as (old1 & new & w1 & E & _).
  - by intros s w _.
  - split_and!; vm_compute; reflexivity.
  - vm_compute. discriminate.
  - discriminate.
  - vm_compute. reflexivity.
  - vm_compute. reflexivity.
  - exists old1, new, w1. exact E.
Defined.

(** A host that has connected the stream socket of [sample_manager]. *)
Definition world_with_stream : World :=
  demo_host.2 <| socket_manager := ProxySocketManager.sample_manager |>.

Lemma leaving_blocks_witness :
  Finalize all_sockets demo_env idle (demo_host.1, world_with_stream) = None.
Proof.
  destruct (leaving_blocks all_sockets demo_env 5
    (ProxySocket.set_addrs (BsdTypes.inet_addr 0 0) (BsdTypes.inet_addr 1 2)
       (ProxySocket.new_ProxySocket BsdTypes.Stream BsdTypes.Tcp)) idle idle
    demo_host.1 world_with_stream) as (E & _).
  - by intros socks.
  - reflexivity.
  - split_and!; vm_compute; reflexivity.
  - by intros s w _.
  - reflexivity.
  - reflexivity.
  - vm_compute. discriminate.
  - exact E.
Defined.

(** A full pool, and a pool whose third stack is given back in a pause. *)
Lemma stack_slots_witness :
  let w := demo_world <| g_ldn_session_stack_used := repeat true 12 |> in
  (AllocateLdnStackSlot (repeat id MAX_WAIT_ITERATIONS) w).1 = 0
  /\ 0 <= (AllocateLdnStackSlot [id; ReleaseLdnStackSlot 2; id] w).1 < 12.
Proof.
  intros w. split.
  - pose proof (stack_slots (repeat id MAX_WAIT_ITERATIONS) w) as H.
    destruct (AllocateLdnStackSlot (repeat id MAX_WAIT_ITERATIONS) w) as [slot w1].
    apply H; [reflexivity|repeat constructor|]. vm_compute.
    repeat split; repeat constructor.
  - pose proof (stack_slots [id; ReleaseLdnStackSlot 2; id] w) as H.
    destruct (AllocateLdnStackSlot [id; ReleaseLdnStackSlot 2; id] w) as [slot w1].
    apply H; [reflexivity|]. do 2 (apply Forall_cons; split; [done || apply Release_keeps|]).
    by repeat constructor.
Defined.
