(* ===== verification/LdnCalls.v ===== *)
(** * The communication service: what the game reads

    The results of a scan, the changes of the nodes, and the bounds of the
    arrays they are kept in, over every call of the game and every step of the
    service's threads. *)

From stdpp Require Import base numbers list gmap.
From Stdlib Require Import ZArith Lia Bool.
From S2P Require Import Prelude Layout Imperative Types.
From S2P Require Config ConnectionState LdnStateMachine ProxySocketManager ProxyLink NodeMapper.
From S2P Require ProxySocket RyuLdnClient P2pServer P2pClient SharedState.
From S2P Require Import ITcpClient LdnTypes LdnService LdnOperations LdnExample LdnNetwork.
Import Protocol (sizeofz).
Import RyuLdnClient (ClientOpResult_Success).

Lemma repeat_replicate {A} (x : A) n : repeat x n = replicate n x.
Proof. induction n as [|n IH]; [done|]. cbn. by rewrite IH. Qed.

Section calls.
Context {C : Type} `{ITcpClient C}.
Context (iter : gmap Z ProxySocket.ProxySocket -> list (Z * ProxySocket.ProxySocket)).
Context (env : Environment) (auto_clear : bool).

Abbreviation service := (ICommunicationService (C:=C)).
Implicit Types (s : service) (w : World).

(** ** Changes of the nodes *)

(** A game that asks for the changes each time the network has become [info],
    with a buffer for [n] nodes. *)
Fixpoint observe (n : nat) (infos : list NetworkInfo)
    : Method C (list (list NodeLatestUpdate)) :=
  match infos with
  | [] => mret []
  | info :: infos =>
      assign (fun s => s <| m_network_info := info |>);;
      r ← GetNetworkInfoLatestUpdate n;
      rest ← observe n infos;
      mret (r.2 :: rest)
  end.

(** The edges of a sequence of levels. *)
Definition edge (before after : bool) : NodeStateChange :=
  match before, after with
  | false, true => NodeStateChange_Connect
  | true, false => NodeStateChange_Disconnect
  | _, _ => NodeStateChange_None
  end.
Fixpoint edges (prev : bool) (levels : list bool) : list NodeStateChange :=
  match levels with
  | [] => []
  | level :: levels => edge prev level :: edges level levels
  end.

Lemma node_change_edge level prev : node_change level prev = edge prev level.
Proof. by destruct level, prev. Qed.

(** What a game makes of a report. *)
Definition follow (connected : bool) (u : NodeLatestUpdate) : bool :=
  if upd_stateChange u =? NodeStateChange_value NodeStateChange_Connect then true
  else if upd_stateChange u =? NodeStateChange_value NodeStateChange_Disconnect then false
  else connected.

Definition entry (i : nat) (us : list NodeLatestUpdate) : NodeLatestUpdate :=
  default (zeroed NodeLatestUpdate) (us !! i).

Lemma follow_edges levels : forall prev,
  foldl follow prev (latest_update <$> edges prev levels) = default prev (last levels).
Proof.
  induction levels as [|level levels IH]; intros prev; [done|].
  cbn [edges fmap list_fmap foldl].
  assert (follow prev (latest_update (edge prev level)) = level) as ->
    by by destruct level, prev.
  rewrite IH. rewrite last_cons. by destruct (last levels).
Qed.

Definition prev_connected (i : nat) (s : service) : bool := m_prev_node_connected s !!! i.

(** One call: the entries of the first [min n 8] nodes and their new flags. *)
Lemma update_reports n s w :
  length (m_prev_node_connected s) = NodeCountMax ->
  exists updates s', GetNetworkInfoLatestUpdate n (s, w)
      = Some (Success, m_network_info s, updates, (s', w))
    /\ length updates = n /\ length (m_prev_node_connected s') = NodeCountMax
    /\ (forall i, (i < Nat.min n NodeCountMax)%nat ->
        updates !! i = Some (latest_update (edge (prev_connected i s)
                                                 (node_connected i (m_network_info s))))
        /\ prev_connected i s' = node_connected i (m_network_info s))
    /\ (forall i, (NodeCountMax <= i < n)%nat -> updates !! i = Some (zeroed NodeLatestUpdate)).
Proof.
  intros Hlen. unfold GetNetworkInfoLatestUpdate, self, assign. step. cbn [id].
  erewrite bind_some by (apply access_first_within; lia). step.
  set (k := Nat.min n NodeCountMax).
  do 2 eexists. split; [reflexivity|].
  assert (Hk : forall A (f : nat -> A), length (map f (seq 0 k)) = k).
  { intros A f. by rewrite length_map, length_seq. }
  split; [rewrite length_app, Hk, repeat_length; lia|].
  split; [cbn; rewrite length_app, Hk, length_drop, Hlen; lia|].
  split.
  - intros i Hi. split.
    + rewrite lookup_app_l by (rewrite Hk; exact Hi).
      rewrite list_lookup_fmap, lookup_seq_lt by exact Hi. cbn. by rewrite node_change_edge.
    + unfold prev_connected. cbn. apply list_lookup_total_correct.
      rewrite lookup_app_l by (rewrite Hk; exact Hi).
      by rewrite list_lookup_fmap, lookup_seq_lt by exact Hi.
  - intros i Hi. rewrite lookup_app_r by (rewrite Hk; lia). rewrite Hk.
    rewrite repeat_replicate. apply lookup_replicate. split; [done|]. subst k. lia.
Qed.

(** C9: the changes the game is told are exactly those of the network.  However
    the network changes between the calls, what the calls report of a node that
    fits into the buffer are the edges of its connection, each once; a game that
    follows them knows at the end who is connected.  The entries behind the
    eighth are zero. *)
Theorem latest_updates_follow n infos s w :
  length (m_prev_node_connected s) = NodeCountMax ->
  exists reports s', observe n infos (s, w) = Some (reports, (s', w))
    /\ length reports = length infos /\ Forall (fun us => length us = n) reports
    /\ (forall i, (i < Nat.min n NodeCountMax)%nat ->
        let levels := node_connected i <$> infos in
        let told := entry i <$> reports in
        told = latest_update <$> edges (prev_connected i s) levels
        /\ foldl follow (prev_connected i s) told = default (prev_connected i s) (last levels))
    /\ (forall i, (NodeCountMax <= i < n)%nat ->
        Forall (fun us => us !! i = Some (zeroed NodeLatestUpdate)) reports).
Proof.
  revert s. induction infos as [|info infos IH]; intros s Hlen; cbn [observe].
  { exists [], s. by split_and!. }
  unfold assign. step.
  set (s1 := s <| m_network_info := info |>).
  destruct (update_reports n s1 w Hlen) as (us & s2 & E & Hus & Hlen2 & Hin & Hout).
  rewrite (bind_some _ _ _ _ _ E).
  destruct (IH s2 Hlen2) as (reports & s3 & E3 & Hr & Hn & Hlevels & Hz).
  rewrite (bind_some _ _ _ _ _ E3). exists (us :: reports), s3.
  split; [done|]. split; [cbn [length]; by rewrite Hr|]. split; [by constructor|]. split.
  - intros i Hi. destruct (Hin i Hi) as [Hi1 Hi2]. destruct (Hlevels i Hi) as [Htold _].
    assert (Htold' : entry i <$> us :: reports = latest_update <$>
              edges (prev_connected i s) (node_connected i <$> info :: infos)).
    { cbn [fmap list_fmap edges]. f_equal.
      - unfold entry. by rewrite Hi1.
      - rewrite Hi2 in Htold. exact Htold. }
    split; [exact Htold'|]. rewrite Htold'. apply follow_edges.
  - intros i Hi. constructor; [by apply Hout|by apply Hz].
Qed.
(** ** Scanning *)

Definition reply (data : list Z) : Z * list Z := (PacketId_value PacketId_ScanReply, data).

(** How the server ends a scan: as it should, not at all, or with an error. *)
Inductive scan_end : Type := ScanDone | ScanSilent | ScanRefused (data : list Z).
Definition end_packets (e : scan_end) : list (Z * list Z) :=
  match e with
  | ScanDone => [(PacketId_value PacketId_ScanReplyEnd, [])]
  | ScanSilent => []
  | ScanRefused data => [(PacketId_value PacketId_NetworkError, data)]
  end.
(** The error does not only say that peer-to-peer does not work. *)
Definition end_ok (e : scan_end) : Prop :=
  match e with ScanRefused data => is_port_unreachable data (zlen data) = false | _ => True end.

(** The networks of the replies, with the game's scene and id. *)
Definition is_whole (data : list Z) : bool := sizeofz NetworkInfo <=? zlen data.
Definition offered (scene id : Z) (replies : list (list Z)) : list NetworkInfo :=
  (fun data => fix_intent scene id (of_bytes (A:=NetworkInfo) data)) <$> List.filter is_whole replies.

Definition MAX_RESULTS : nat := Z.to_nat MAX_SCAN_RESULTS.

(** The service has kept the networks [l]. *)
Definition scanned (l : list NetworkInfo) (s : service) : Prop :=
  m_scan_result_count s = Z.of_nat (Nat.min MAX_RESULTS (length l))
  /\ length (m_scan_results s) = MAX_RESULTS
  /\ take (Nat.min MAX_RESULTS (length l)) (m_scan_results s) = take MAX_RESULTS l.

Definition same_scan (s s' : service) : Prop :=
  m_events s' ScanEvent = m_events s ScanEvent /\ m_events s' ErrorEvent = m_events s ErrorEvent
  /\ m_expected_scene_id s' = m_expected_scene_id s
  /\ m_local_communication_id s' = m_local_communication_id s.

(** One more network: into the array while there is room. *)
Lemma scanned_snoc l info s :
  scanned l s ->
  scanned (l ++ [info])
    (if m_scan_result_count s <? MAX_SCAN_RESULTS
     then s <| m_scan_results := <[Z.to_nat (m_scan_result_count s) := info]> (m_scan_results s) |>
            <| m_scan_result_count := m_scan_result_count s + 1 |>
     else s).
Proof.
  intros (Hc & Hlen & Ht). unfold scanned. rewrite length_app. cbn [length].
  destruct (Z.ltb_spec (m_scan_result_count s) MAX_SCAN_RESULTS) as [Hlt|Hge].
  - assert (Hl : (length l < MAX_RESULTS)%nat) by (unfold MAX_RESULTS in *; lia).
    cbn. rewrite Hc, Nat2Z.id, length_insert.
    rewrite !Nat.min_r in * by lia. split; [lia|]. split; [done|].
    rewrite (take_ge l) in Ht by lia.
    rewrite (take_ge (l ++ [info])) by (rewrite length_app; cbn; lia).
    rewrite Nat.add_1_r, (take_S_r _ _ info) by (apply list_lookup_insert_eq; lia).
    rewrite take_insert_ge by lia. by rewrite Ht.
  - assert (Hl : (MAX_RESULTS <= length l)%nat) by (unfold MAX_RESULTS in *; lia).
    rewrite !Nat.min_l in * by lia. split; [done|]. split; [done|].
    by rewrite take_app_le.
Qed.

Lemma reply_arrives data s w l :
  scanned l s ->
  exists s', arrival iter env (reply data) (s, w) = Some (tt, (s', w))
    /\ scanned (l ++ offered (m_expected_scene_id s) (m_local_communication_id s) [data]) s'
    /\ same_scan s s'.
Proof.
  intros Hs. unfold arrival, HandleServerPacket. cbn [reply fst snd].
  assert (Hh : exists s1, handle_packet_type iter env (PacketId_value PacketId_ScanReply) data
      (zlen data) (s, w) = Some (tt, (s1, w))
    /\ scanned (l ++ offered (m_expected_scene_id s) (m_local_communication_id s) [data]) s1
    /\ same_scan s s1).
  { change (handle_packet_type iter env (PacketId_value PacketId_ScanReply) data (zlen data))
      with (HandleScanReplyPacket (C:=C) data (zlen data)).
    unfold HandleScanReplyPacket, offered. cbn [List.filter]. unfold is_whole.
    destruct (sizeofz NetworkInfo <=? zlen data); cbn [when fmap list_fmap].
    2: { exists s. rewrite app_nil_r. by split. }
    pose proof (scanned_snoc l (received_info data s) s Hs) as Hs'.
    unfold self, assign. step. cbn [id].
    destruct (Z.ltb_spec (m_scan_result_count s) MAX_SCAN_RESULTS) as [Hlt|]; cbn [when].
    - destruct Hs as (Hc & _).
      erewrite bind_some by (apply access_within; unfold MAX_SCAN_RESULTS in *; lia). step. eexists. split; [reflexivity|]. split; [exact Hs'|done].
    - exists s. by split. }
  destruct Hh as (s1 & E & Hs1 & Hsame). rewrite (bind_some _ _ _ _ _ E).
  change (is_response (PacketId_value PacketId_ScanReply) data (zlen data)) with true. cbn [when].
  unfold assign, Signal, set_event, assign. step. eexists. split; [reflexivity|]. by split.
Qed.
Lemma offered_app scene id l1 l2 : offered scene id (l1 ++ l2) = offered scene id l1 ++ offered scene id l2.
Proof. unfold offered. by rewrite List.filter_app, fmap_app. Qed.

Definition no_end (s : service) : Prop :=
  m_events s ScanEvent = false /\ m_events s ErrorEvent = false.

Lemma wait_replies replies tail : forall s w l,
  no_end s -> scanned l s ->
  exists s', TimedWaitAny auto_clear ScanEvent ErrorEvent
               (map (arrival iter env) (map reply replies) ++ tail) (s, w)
             = TimedWaitAny auto_clear ScanEvent ErrorEvent tail (s', w)
    /\ scanned (l ++ offered (m_expected_scene_id s) (m_local_communication_id s) replies) s'
    /\ same_scan s s'.
Proof.
  induction replies as [|data replies IH]; intros s w l [H1 H2] Hs.
  { exists s. cbn [map app offered List.filter fmap list_fmap]. by rewrite app_nil_r. }
  destruct (reply_arrives data s w l Hs) as (s1 & E & Hs1 & Hsame).
  destruct Hsame as (Hsc & Her & Hscene & Hid).
  destruct (IH s1 w _ (conj (eq_trans Hsc H1) (eq_trans Her H2)) Hs1) as (s2 & E2 & Hs2 & Hsame2).
  exists s2. split; [|split].
  - cbn [map app TimedWaitAny]. unfold latched, self. do 2 step. rewrite H1, H2.
    by rewrite (bind_some _ _ _ _ _ E).
  - rewrite Hscene, Hid in Hs2. change (data :: replies) with ([data] ++ replies).
    by rewrite offered_app, app_assoc.
  - destruct Hsame2 as (? & ? & ? & ?). split_and!; congruence.
Qed.

(** The packet that ends the scan. *)
Lemma end_arrives e s w l :
  no_end s -> scanned l s -> end_ok e -> e <> ScanSilent ->
  exists p s', end_packets e = [p] /\ arrival iter env p (s, w) = Some (tt, (s', w))
    /\ scanned l s'
    /\ m_events s' ScanEvent = (match e with ScanDone => true | _ => false end)
    /\ m_events s' ErrorEvent = (match e with ScanRefused _ => true | _ => false end).
Proof.
  intros [H1 H2] Hs He Hne. destruct e as [| |data]; [|done|]; cbn [end_packets].
  - do 2 eexists. split; [reflexivity|]. split; [reflexivity|]. by split_and!.
  - exists (PacketId_value PacketId_NetworkError, data).
    unfold arrival, HandleServerPacket. cbn [fst snd].
    change (handle_packet_type iter env (PacketId_value PacketId_NetworkError) data (zlen data))
      with (HandleNetworkErrorPacket (C:=C) data (zlen data)).
    assert (is_response (PacketId_value PacketId_NetworkError) data (zlen data) = true) as ->.
    { cbn in He. unfold is_response. by rewrite He. }
    unfold HandleNetworkErrorPacket. cbn in He. rewrite He.
    unfold Signal, set_event, assign. cbn [when].
    destruct (sizeofz NetworkErrorMessage <=? zlen data); cbn [when];
      (eexists; split; [reflexivity|]; split; [reflexivity|]; by split_and!).
Qed.

(** The wait at the end of the replies. *)
Lemma wait_end e s w l :
  no_end s -> scanned l s -> end_ok e ->
  exists r s', TimedWaitAny auto_clear ScanEvent ErrorEvent (map (arrival iter env) (end_packets e)) (s, w)
      = Some (r, (s', w))
    /\ scanned l s'
    /\ r = match e with ScanDone => Some ScanEvent | ScanSilent => None
                       | ScanRefused _ => Some ErrorEvent end.
Proof.
  intros [H1 H2] Hs He.
  assert (Hwait : forall s1, scanned l s1 ->
    m_events s1 ScanEvent = true \/ m_events s1 ScanEvent = false /\ m_events s1 ErrorEvent = true ->
    exists s2, TimedWaitAny auto_clear ScanEvent ErrorEvent [] (s1, w)
        = Some (Some (if m_events s1 ScanEvent then ScanEvent else ErrorEvent), (s2, w))
      /\ scanned l s2).
  { intros s1 Hs1 Hev. cbn [TimedWaitAny]. unfold latched, self. do 2 step.
    assert (Hconsume : forall ev, exists s2, consume auto_clear ev (s1, w) = Some (tt, (s2, w))
                                       /\ scanned l s2).
    { intros ev. unfold consume, Clear, set_event, assign. destruct (_ && _); cbn [when];
        by eexists. }
    destruct Hev as [Hsc|[Hsc Her]]; rewrite Hsc, ?Her.
    - destruct (Hconsume ScanEvent) as (s2 & E & Hs2). rewrite (bind_some _ _ _ _ _ E). by exists s2.
    - destruct (Hconsume ErrorEvent) as (s2 & E & Hs2). rewrite (bind_some _ _ _ _ _ E). by exists s2. }
  assert (e = ScanSilent \/ e <> ScanSilent) as [->|Hne]
    by (destruct e; [by right|by left|by right]).
  { exists None, s. split; [|done]. cbn [end_packets map TimedWaitAny]. unfold latched, self.
    do 2 step. by rewrite H1, H2. }
  destruct (end_arrives e s w l (conj H1 H2) Hs He Hne) as (p & s1 & Hp & E & Hs1 & Hsc & Her).
  destruct (Hwait s1 Hs1) as (s2 & E2 & Hs2).
  { rewrite Hsc, Her. destruct e; [by left|done|by right]. }
  rewrite Hp. eexists _, s2. split; [|split; [exact Hs2|]].
  - cbn [map]. change (TimedWaitAny auto_clear ScanEvent ErrorEvent [arrival iter env p] (s, w)) with
      ((b1 ← latched ScanEvent; b2 ← latched ErrorEvent;
        if b1 : bool then consume auto_clear ScanEvent;; mret (Some ScanEvent)
        else if b2 : bool then consume auto_clear ErrorEvent;; mret (Some ErrorEvent)
        else arrival iter env p;; TimedWaitAny auto_clear ScanEvent ErrorEvent []) (s, w)).
    unfold latched at 1 2, self. do 2 step. rewrite H1, H2. rewrite (bind_some _ _ _ _ _ E). exact E2.
  - rewrite Hsc. by destruct e.
Qed.

(** C8: a scan gives the game what the server offered.  Of the networks the server
    replies with, whatever their number and the end of the scan, the game gets
    the first ones, in order, as many as its buffer and the service's array of
    eight hold, and each with the game's own scene and id in place of the
    server's; replies that are too short are skipped.  Only an error of the
    server makes the scan fail. *)
Theorem scan_returns_replies max filter replies e s w :
  IsServerConnected s = true -> sends 1 s -> 0 <= max -> end_ok e ->
  let scene := intent_sceneId (nid_intentId (filter_networkId filter)) in
  let networks := offered scene (m_local_communication_id s) replies in
  exists s' w', Scan auto_clear max filter
      (map (arrival iter env) (map reply replies ++ end_packets e)) (s, w)
    = Some (match e with
            | ScanRefused _ => (MAKERESULT 0x10 5, [])
            | _ => (Success, take (Nat.min MAX_RESULTS (Z.to_nat max)) networks)
            end, (s', w')).
Proof.
  intros Hup Hsends Hmax He scene networks. unfold Scan, self. step. cbn [id]. rewrite Hup.
  cbn [negb]. unfold Clear, set_event, assign. do 4 step.
  match goal with |- context [(?x, w)] => set (s1 := x) end.
  destruct (service_sends 0 RyuLdnClient.LOST (ITcpClient.send_scan (scan_filter (real_id
    (intent_localCommunicationId (nid_intentId (filter_networkId filter))) s) filter)) s1 w)
    as (t & E & _); [by apply andb_true_iff in Hup as [_ ?]|exact Hsends|].
  rewrite (bind_some _ _ _ _ _ E). cbn [sent negb].
  set (s2 := s1 <| m_server_client := _ |>).
  assert (Hs2 : scanned [] s2).
  { split; [done|]. split; [apply repeat_length|done]. }
  rewrite map_app.
  destruct (wait_replies replies (map (arrival iter env) (end_packets e)) s2 w [] (conj eq_refl eq_refl) Hs2)
    as (s3 & E3 & Hs3 & Hsame3).
  assert (Hend3 : no_end s3) by (destruct Hsame3 as (Hsc & Her & _); by split; rewrite ?Hsc, ?Her).
  destruct (wait_end e s3 w _ Hend3 Hs3 He)
    as (r & s4 & E4 & (Hc4 & Hl4 & Ht4) & ->).
  cbn [app] in Hc4, Ht4.
  change (m_expected_scene_id s2) with scene in Hc4, Ht4.
  change (m_local_communication_id s2) with (m_local_communication_id s) in Hc4, Ht4.
  fold networks in Hc4, Ht4.
  erewrite bind_some by (rewrite E3; exact E4).
  assert (Hnet : ztake (Z.min (m_scan_result_count s4) max) (m_scan_results s4)
                 = take (Nat.min MAX_RESULTS (Z.to_nat max)) networks).
  { unfold ztake. rewrite Hc4.
    replace (Z.to_nat _) with (Nat.min (Z.to_nat max) (Nat.min MAX_RESULTS (length networks))) by lia.
    by rewrite <- take_take, Ht4, take_take, Nat.min_comm. }
  assert (Hacc : forall σ : State (C:=C),
    access_first (Z.min (m_scan_result_count s4) max) (Z.to_nat MAX_SCAN_RESULTS) σ = Some (tt, σ)).
  { intros σ. apply access_first_within. rewrite Hc4. unfold MAX_RESULTS, MAX_SCAN_RESULTS. lia. }
  destruct e; cbv iota; try (do 2 eexists; reflexivity); step; cbn [id]; cbv zeta;
    rewrite (bind_some _ _ _ _ _ (Hacc _));
    unfold refresh_timeout, world, assign; step; rewrite Hnet; by do 2 eexists.
Qed.
End calls.

(** ** Witnesses *)

(** A network whose node 0 is connected, another with all its bytes zero. *)
Definition one_node : NetworkInfo := of_bytes demo_info.

Lemma latest_updates_follow_witness :
  exists reports s', observe 10 [one_node; one_node; zeroed NetworkInfo] station
      = Some (reports, (s', station.2))
    /\ entry 0 <$> reports = latest_update <$>
         [NodeStateChange_Connect; NodeStateChange_None; NodeStateChange_Disconnect].
Proof.
  destruct (latest_updates_follow 10 [one_node; one_node; zeroed NetworkInfo] station.1 station.2)
    as (reports & s' & E & _ & _ & Hin & _).
  - vm_compute. reflexivity.
  - exists reports, s'. split; [destruct station; exact E|].
    destruct (Hin 0%nat) as [-> _]; [unfold NodeCountMax; lia|]. vm_compute. reflexivity.
Defined.

(** Nine replies and a short one, for a buffer of three. *)
Lemma scan_returns_replies_witness :
  exists networks s' w', Scan true 3 (zeroed LdnTypes.ScanFilter)
      (map (arrival all_sockets demo_env)
         (map reply ([1; 2; 3] :: repeat demo_info 9) ++ end_packets ScanDone)) (station.1, station.2)
    = Some ((Success, networks), (s', w')) /\ length networks = 3%nat.
Proof.
  destruct (scan_returns_replies all_sockets demo_env true 3 (zeroed LdnTypes.ScanFilter)
    ([1; 2; 3] :: repeat demo_info 9) ScanDone station.1 station.2) as (s' & w' & E).
  - vm_compute. reflexivity.
  - apply scripted_takes. vm_compute. reflexivity.
  - lia.
  - exact I.
  - do 3 eexists. split; [exact E|]. vm_compute. reflexivity.
Defined.
