(* ===== verification/LdnInvariant.v ===== *)
(** * The communication service: its arrays stay within their bounds

    The arrays of an [ICommunicationService], their counters and the noted
    accesses to them, over every call of the game, every turn of the receive
    thread and the thread that joins a peer-to-peer host, for all steps that the
    other threads of the program make while a call waits. *)

From stdpp Require Import base numbers list gmap.
From Stdlib Require Import ZArith Lia Bool.
From S2P Require Import Prelude Layout Imperative Types.
From S2P Require Config ConnectionState LdnStateMachine ProxySocketManager ProxyLink NodeMapper.
From S2P Require ProxySocket RyuLdnClient P2pServer P2pClient SharedState.
From S2P Require Import ITcpClient LdnTypes LdnService LdnOperations LdnExample LdnLifetime.

Section invariant.
Context {C : Type} `{ITcpClient C}.
Context (iter : gmap Z ProxySocket.ProxySocket -> list (Z * ProxySocket.ProxySocket)).
Context (env : Environment) (auto_clear : bool).

Abbreviation service := (ICommunicationService (C:=C)).
Implicit Types (s : service) (w : World).

(** The scan results, the advertised data, the nodes of the last report, the
    stacks; a service whose receive thread runs has a stack. *)
Definition arrays_ok (σ : State (C:=C)) : Prop :=
  let s := σ.1 in
  bad_access σ.2 = false
  /\ 0 <= m_scan_result_count s <= MAX_SCAN_RESULTS
  /\ zlen (m_scan_results s) = MAX_SCAN_RESULTS
  /\ 0 <= m_advertise_data_size s <= Z.of_nat AdvertiseDataSizeMax
  /\ zlen (m_advertise_data s) = Z.of_nat AdvertiseDataSizeMax
  /\ length (m_prev_node_connected s) = NodeCountMax
  /\ m_stack_slot_index s < Z.of_nat LDN_SESSION_STACK_COUNT
  /\ (m_recv_thread_running s = true -> 0 <= m_stack_slot_index s)
  /\ length (g_ldn_session_stack_used σ.2) = LDN_SESSION_STACK_COUNT.

(** ** Methods that keep the bounds *)

(** The bounds are kept, and the receive thread is not started again. *)
Definition keeps {A} (m : Method C A) : Prop :=
  forall σ, arrays_ok σ -> ensures m σ (fun _ σ' => arrays_ok σ' /\
    (m_recv_thread_running σ'.1 = true -> m_recv_thread_running σ.1 = true)).

Lemma keeps_ret {A} (a : A) : keeps (mret a).
Proof. intros σ Hσ. by apply ensures_ret. Qed.

Lemma keeps_bind {A B} (m : Method C A) (k : A -> Method C B) :
  keeps m -> (forall a, keeps (k a)) -> keeps (x ← m; k x).
Proof.
  intros Hm Hk σ Hσ. apply ensures_bind. eapply ensures_mono; [by apply Hm|].
  intros a σ1 [Hσ1 H1]. eapply ensures_mono; [by apply Hk|]. cbn. intros b σ2 [Hσ2 H2]. auto.
Qed.

Lemma keeps_gets {A} (f : State -> A) : keeps (gets f).
Proof. intros σ Hσ. by apply ensures_gets. Qed.

Lemma keeps_when b (m : Method C unit) : keeps m -> keeps (when b m).
Proof. intros Hm. destruct b; [done|apply keeps_ret]. Qed.

Lemma keeps_for_each {A} (l : list A) (body : A -> Method C unit) :
  (forall a, keeps (body a)) -> keeps (for_each l body).
Proof.
  intros Hb. induction l as [|a l IH]; cbn [for_each]; [apply keeps_ret|].
  by apply keeps_bind.
Qed.

Lemma keeps_diverge {A} : keeps (diverge (A:=A)).
Proof. by intros σ Hσ a σ'. Qed.

(** An assignment that leaves the arrays alone is checked by computation. *)
Lemma keeps_assign f :
  (forall s w, arrays_ok (s, w) -> arrays_ok (f s, w)) ->
  (forall s, m_recv_thread_running (f s) = true -> m_recv_thread_running s = true) ->
  keeps (assign f).
Proof. intros Hf Hr [s w] Hσ. apply ensures_modify. by split; [apply Hf|apply Hr]. Qed.

Lemma keeps_assign_world f : (forall s w, arrays_ok (s, w) -> arrays_ok (s, f w)) -> keeps (assign_world f).
Proof. intros Hf [s w] Hσ. apply ensures_modify. by split; [apply Hf|]. Qed.

Lemma keeps_machine f : keeps (machine f).
Proof.
  intros [s w] Hσ r σ'. unfold machine. cbn [fst snd]. destruct (f _) as [r' m].
  intros [= <- <-]. by split.
Qed.

Lemma keeps_manager {A} (f : ProxySocketManager.ProxySocketManager ->
    option (A * ProxySocketManager.ProxySocketManager)) : keeps (manager f).
Proof.
  intros [s w] Hσ r σ'. unfold manager. cbn [fst snd]. destruct (f _) as [[r' m]|]; [|done].
  intros [= <- <-]. by split.
Qed.

(** A method that is run at the state it starts from. *)
Lemma keeps_at {A X} (o : option X) (k : X -> Method C A) :
  (forall x, keeps (k x)) ->
  keeps (fun σ => match o with None => None | Some x => k x σ end).
Proof. intros Hk σ Hσ. destruct o as [x|]; [by apply Hk|]. by intros a σ'. Qed.

Hint Resolve keeps_ret keeps_gets keeps_diverge keeps_machine keeps_manager : keeps.

(** The structure of a method, down to its assignments. *)
Ltac keeps_step :=
  lazymatch goal with
  | |- keeps (mbind _ _) => apply keeps_bind; [|intros ?]
  | |- keeps (when _ _) => apply keeps_when
  | |- keeps (for_each _ _) => apply keeps_for_each; intros ?
  | |- keeps (if ?b then _ else _) => destruct b
  | |- keeps (match ?x with _ => _ end) => destruct x
  | |- keeps (let '(_, _) := ?x in _) => destruct x
  | |- keeps (assign _) => apply keeps_assign; [intros ? ? ?; assumption|intros ? ?; assumption]
  | |- keeps (assign_world _) => apply keeps_assign_world; intros ? ? ?; assumption
  | |- keeps _ => first [solve [eauto with keeps nocore] | assumption]
  end.
Ltac keeps_all := repeat keeps_step.

Lemma keeps_self {A} (f : service -> A) : keeps (self f).
Proof. apply keeps_gets. Qed.
Lemma keeps_world {A} (f : World -> A) : keeps (world f).
Proof. apply keeps_gets. Qed.
Lemma keeps_shared f : keeps (shared f).
Proof. unfold shared. keeps_all. Qed.
Lemma keeps_set_event v e : keeps (set_event v e).
Proof. unfold set_event. keeps_all. Qed.
Lemma keeps_state_change : keeps SignalStateChange.
Proof. unfold SignalStateChange. keeps_all. Qed.
Hint Resolve keeps_self keeps_world keeps_shared keeps_set_event keeps_state_change : keeps.
Hint Extern 0 (keeps (Signal _)) => apply keeps_set_event : keeps.
Hint Extern 0 (keeps (Clear _)) => apply keeps_set_event : keeps.
Hint Extern 0 (keeps (latched _)) => apply keeps_gets : keeps.

Lemma keeps_client {A} (f : RyuLdnClient.RyuLdnClient (C:=C) ->
    A * RyuLdnClient.RyuLdnClient (C:=C)) : keeps (client f).
Proof. unfold client. keeps_all. Qed.
Hint Resolve keeps_client : keeps.

(** ** Waits, sockets, proxies *)

(** The other threads' steps. *)
Definition steps_keep (meanwhile : list (Method C unit)) : Prop := Forall keeps meanwhile.

Lemma keeps_consume e : keeps (consume auto_clear e).
Proof. unfold consume. keeps_all. Qed.
Hint Resolve keeps_consume : keeps.

Lemma keeps_TimedWaitAny e1 e2 meanwhile :
  steps_keep meanwhile -> keeps (TimedWaitAny auto_clear e1 e2 meanwhile).
Proof. induction 1 as [|step meanwhile Hstep _ IH]; cbn [TimedWaitAny]; keeps_all. Qed.

Lemma keeps_RouteIncomingData info protocol data n : keeps (RouteIncomingData iter info protocol data n).
Proof. unfold RouteIncomingData. keeps_all. Qed.
Hint Resolve keeps_RouteIncomingData : keeps.

Lemma keeps_HandleProxyDataPacket data n : keeps (HandleProxyDataPacket iter data n).
Proof. unfold HandleProxyDataPacket. keeps_all. Qed.
Lemma keeps_HostP2pInboundDataCallback d : keeps (HostP2pInboundDataCallback iter d).
Proof. unfold HostP2pInboundDataCallback. keeps_all. Qed.
Lemma keeps_master_send_callback data : keeps (master_send_callback data).
Proof. unfold master_send_callback. keeps_all. Qed.
Lemma keeps_disconnect : keeps client_disconnect.
Proof. apply keeps_client. Qed.
Hint Resolve keeps_HandleProxyDataPacket keeps_HostP2pInboundDataCallback
  keeps_master_send_callback keeps_disconnect : keeps.

Lemma keeps_p2p_server {A} (f : P2pServer.P2pProxyServer -> option (A * P2pServer.P2pProxyServer)) z :
  keeps (p2p_server iter f z).
Proof.
  intros σ Hσ. unfold p2p_server. destruct (f z) as [[r z']|]; [|by intros a σ'].
  revert σ Hσ. change (keeps (assign (fun s => s <| m_p2p_server := Some z' |>);;
    for_each (drop (length (P2pServer.master_log (P2pServer.env z)))
      (P2pServer.master_log (P2pServer.env z'))) master_send_callback;;
    for_each (drop (length (P2pServer.host_log (P2pServer.env z)))
      (P2pServer.host_log (P2pServer.env z'))) (HostP2pInboundDataCallback iter);;
    mret r)).
  keeps_all.
Qed.
Lemma keeps_p2p_client {A} (f : P2pClient.P2pProxyClient -> option (A * P2pClient.P2pProxyClient)) c :
  keeps (p2p_client iter f c).
Proof.
  intros σ Hσ. unfold p2p_client. destruct (f c) as [[r c']|]; [|by intros a σ'].
  revert σ Hσ. change (keeps (assign (fun s => s <| m_p2p_client := Some c' |>);;
    for_each (drop (length (P2pClient.callbacks (P2pClient.outside c)))
      (P2pClient.callbacks (P2pClient.outside c'))) (p2p_packet_callback iter);;
    mret r)).
  keeps_all. unfold p2p_packet_callback. keeps_all.
Qed.
Lemma keeps_p2p_server_do f z : keeps (p2p_server_do iter f z).
Proof. apply keeps_p2p_server. Qed.
Hint Resolve keeps_p2p_server keeps_p2p_client keeps_p2p_server_do : keeps.

Lemma keeps_StopP2pProxyServer : keeps (StopP2pProxyServer iter env).
Proof. unfold StopP2pProxyServer. keeps_all. Qed.
Lemma keeps_with_client f : keeps (with_client iter f).
Proof. unfold with_client. keeps_all. Qed.
Hint Resolve keeps_StopP2pProxyServer keeps_with_client : keeps.
Lemma keeps_DisconnectP2pProxy b finish : keeps finish -> keeps (DisconnectP2pProxy iter env b finish).
Proof. intros Hf. unfold DisconnectP2pProxy, delete_client. keeps_all. Qed.
Hint Resolve keeps_DisconnectP2pProxy : keeps.
Lemma keeps_StartP2pProxyServer : keeps (StartP2pProxyServer iter env).
Proof. unfold StartP2pProxyServer. keeps_all. Qed.
Lemma keeps_persist : keeps (persist_disable_p2p (C:=C)).
Proof. unfold persist_disable_p2p. keeps_all. Qed.
Lemma keeps_join_host config : keeps (join_host iter env config).
Proof. unfold join_host. keeps_all. Qed.
Hint Resolve keeps_StartP2pProxyServer keeps_persist keeps_join_host : keeps.
Lemma keeps_P2pConnectThreadEntry meanwhile :
  keeps meanwhile -> keeps (P2pConnectThreadEntry iter env meanwhile).
Proof. intros Hm. unfold P2pConnectThreadEntry, HandleExternalProxyConnect. keeps_all. Qed.
Lemma keeps_SendProxyDataToServer header data n : keeps (SendProxyDataToServer iter header data n).
Proof. unfold SendProxyDataToServer, send_as_host, send_as_joiner. keeps_all. Qed.
Hint Resolve keeps_P2pConnectThreadEntry keeps_SendProxyDataToServer : keeps.

(** ** The connection and its packets *)

Lemma keeps_disconnect_master : keeps disconnect_master.
Proof. unfold disconnect_master. keeps_all. Qed.
Lemma keeps_unregister : keeps unregister_active.
Proof. unfold unregister_active. keeps_all. Qed.
Lemma keeps_abandoned : keeps cleanup_abandoned.
Proof. unfold cleanup_abandoned. keeps_all. Qed.
Lemma keeps_clear_events : keeps clear_events.
Proof. unfold clear_events. keeps_all. Qed.
Hint Resolve keeps_disconnect_master keeps_unregister keeps_abandoned keeps_clear_events : keeps.

Lemma keeps_CleanupSessionResources finish : keeps finish -> keeps (CleanupSessionResources iter env finish).
Proof.
  intros Hf. unfold CleanupSessionResources. do 7 (apply keeps_bind; [solve [keeps_all]|intros ?]).
  apply keeps_bind; [|intros ?; keeps_all].
  apply keeps_assign; [|by intros s].
  intros s w (? & _ & _ & _ & _ & _ & ? & ? & ?). by split_and!.
Qed.
Lemma keeps_DisconnectFromServer finish : keeps finish -> keeps (DisconnectFromServer iter env finish).
Proof. intros Hf. unfold DisconnectFromServer. keeps_all. Qed.
Hint Resolve keeps_CleanupSessionResources keeps_DisconnectFromServer : keeps.
Lemma keeps_ConnectToServer meanwhile :
  steps_keep meanwhile -> keeps (ConnectToServer env auto_clear meanwhile).
Proof.
  intros Hm. pose proof (keeps_TimedWaitAny HandshakeEvent ErrorEvent _ Hm).
  unfold ConnectToServer, SetSendCallback. keeps_all.
Qed.
Lemma keeps_OnInactivityTimeout finish : keeps finish -> keeps (OnInactivityTimeout iter env finish).
Proof. intros Hf. unfold OnInactivityTimeout. keeps_all. Qed.
Hint Resolve keeps_ConnectToServer keeps_OnInactivityTimeout : keeps.

(** A read of the object, with what it says about the bounds. *)
Lemma keeps_read {A} (k : service -> Method C A) :
  (forall s w, arrays_ok (s, w) -> ensures (k s) (s, w) (fun _ σ => arrays_ok σ /\
    (m_recv_thread_running σ.1 = true -> m_recv_thread_running s = true))) ->
  keeps (s ← self id; k s).
Proof. intros Hk [s w] Hσ. apply ensures_bind, ensures_gets. by apply Hk. Qed.

(** An access within the bounds is nothing. *)
Lemma ensures_access {A} i size (k : Method C A) σ Q :
  0 <= i < Z.of_nat size -> ensures k σ Q -> ensures (access i size;; k) σ Q.
Proof. intros Hi Hk. apply ensures_bind. intros u σ'. rewrite access_within by done. by intros [= <- <-]. Qed.

Lemma ensures_access_first {A} n size (k : Method C A) σ Q :
  n <= Z.of_nat size -> ensures k σ Q -> ensures (access_first n size;; k) σ Q.
Proof. intros Hn Hk. apply ensures_bind. intros u σ'. rewrite access_first_within by done. by intros [= <- <-]. Qed.

Lemma keeps_HandleScanReplyPacket data n : keeps (HandleScanReplyPacket (C:=C) data n).
Proof.
  unfold HandleScanReplyPacket. apply keeps_when, keeps_read. intros s w Hσ.
  destruct (Z.ltb_spec (m_scan_result_count s) MAX_SCAN_RESULTS) as [Hlt|]; cbn [when];
    [|by apply ensures_ret].
  destruct Hσ as (Hb & Hc & Hr & Hrest). cbn in Hc. unfold MAX_SCAN_RESULTS in Hlt.
  apply ensures_access; [unfold MAX_SCAN_RESULTS; lia|].
  unfold assign. apply ensures_bind, ensures_modify, ensures_modify. split; [|done].
  split; [exact Hb|]. split; [cbn in *; unfold MAX_SCAN_RESULTS in *; lia|].
  split; [|exact Hrest]. cbn. unfold zlen. rewrite length_insert. exact Hr.
Qed.

(** The stack of the thread that joins a host. *)
Lemma keeps_HandleExternalProxyPacket data n : keeps (HandleExternalProxyPacket (C:=C) env data n).
Proof.
  unfold HandleExternalProxyPacket. apply keeps_when. cbv zeta. apply keeps_bind; [keeps_all|].
  intros ?. apply keeps_read. intros s w Hσ.
  destruct (_ || negb (m_recv_thread_running s)) eqn:Hskip; [by apply ensures_ret|].
  apply orb_false_elim in Hskip as [_ Hrun%negb_false_iff].
  destruct (m_p2p_connect_thread_active s); [by apply ensures_ret|].
  destruct Hσ as (Hb & Hc & H1 & H2 & H3 & H4 & Hlt & Hge & Hrest).
  apply ensures_access; [by split; [apply Hge|]|]. unfold assign. apply ensures_modify. by split.
Qed.
Hint Resolve keeps_HandleScanReplyPacket keeps_HandleExternalProxyPacket : keeps.

Lemma keeps_HandleServerPacket id data n : keeps (HandleServerPacket iter env id data n).
Proof.
  unfold HandleServerPacket, handle_packet_type, HandleConnectedPacket, HandleSyncNetworkPacket,
    HandleDisconnectPacket, HandleRejectPacket, HandlePingPacket, HandleNetworkErrorPacket,
    HandleProxyConfigPacket, HandleExternalProxyToken,
    HandleExternalProxyStatePacket.
  keeps_all.
Qed.
Hint Resolve keeps_HandleServerPacket : keeps.

(** ** The calls of the game and the steps of the threads *)

Lemma keeps_WaitForResponse id meanwhile :
  steps_keep meanwhile -> keeps (WaitForResponse auto_clear id meanwhile).
Proof.
  intros Hm. assert (Hpoll : forall e, keeps (poll_response (C:=C) auto_clear e)).
  { intros e. unfold poll_response. keeps_all. }
  assert (Hloop : keeps (wait_loop auto_clear id meanwhile)).
  { induction Hm as [|step meanwhile Hstep _ IH]; cbn [wait_loop]; keeps_all. }
  unfold WaitForResponse. keeps_all.
Qed.
Lemma keeps_set_ldn_state state : keeps (set_ldn_state state).
Proof. apply keeps_shared. Qed.
Lemma keeps_refresh_timeout : keeps refresh_timeout.
Proof. unfold refresh_timeout. keeps_all. Qed.
Lemma keeps_disable_timeout : keeps disable_timeout.
Proof. unfold disable_timeout. keeps_all. Qed.
Hint Resolve keeps_WaitForResponse keeps_set_ldn_state keeps_refresh_timeout keeps_disable_timeout : keeps.
Lemma keeps_WaitForConnected meanwhile :
  steps_keep meanwhile -> keeps (WaitForConnected auto_clear meanwhile).
Proof. apply keeps_WaitForResponse. Qed.
Hint Resolve keeps_WaitForConnected : keeps.

Lemma keeps_prepare_host : keeps (prepare_host iter env).
Proof. unfold prepare_host. keeps_all. Qed.
Lemma keeps_abandon_network : keeps (abandon_network iter env).
Proof. unfold abandon_network. keeps_all. Qed.
Lemma keeps_network_created : keeps (network_created iter env).
Proof. unfold network_created. keeps_all. Qed.
Lemma keeps_join_network send failed meanwhile meanwhile2 :
  steps_keep meanwhile -> steps_keep meanwhile2 ->
  keeps (join_network auto_clear send failed meanwhile meanwhile2).
Proof. intros H1 H2. unfold join_network. keeps_all. Qed.
Hint Resolve keeps_prepare_host keeps_abandon_network keeps_network_created keeps_join_network : keeps.

Lemma keeps_Initialize pid : keeps (Initialize pid).
Proof. unfold Initialize. keeps_all. Qed.
Hint Resolve keeps_Initialize : keeps.

Lemma keeps_Scan max filter meanwhile : steps_keep meanwhile -> keeps (Scan auto_clear max filter meanwhile).
Proof.
  intros Hm. pose proof (keeps_TimedWaitAny ScanEvent ErrorEvent _ Hm) as Hwait. unfold Scan.
  apply keeps_bind; [keeps_all|]. intros s. destruct (IsServerConnected s); cbn [negb]; [|keeps_all].
  apply keeps_bind.
  { apply keeps_assign; [|by intros]. intros s' w (Hb & _ & _ & Hrest). by do 3 (split; [done|]). }
  intros ?. do 3 (apply keeps_bind; [solve [keeps_all]|intros ?]).
  apply keeps_bind; [solve [keeps_all]|]. intros r. destruct (sent r); cbn [negb]; [|keeps_all].
  apply keeps_bind; [solve [keeps_all]|]. intros signaled.
  assert (Hcopy : keeps (s ← self id;
    let result_count := Z.min (m_scan_result_count s) max in
    access_first result_count (Z.to_nat MAX_SCAN_RESULTS);;
    refresh_timeout;;
    mret (Success, ztake result_count (m_scan_results s)))).
  { apply keeps_read. intros s' w Hσ. pose proof Hσ as (_ & Hc & _). cbn in Hc. cbv zeta.
    apply ensures_access_first; [lia|].
    refine ((_ : keeps _) (s', w) Hσ). keeps_all. }
  destruct signaled as [[]|]; try exact Hcopy. keeps_all.
Qed.

Lemma keeps_GetNetworkInfoLatestUpdate n : keeps (GetNetworkInfoLatestUpdate n).
Proof.
  unfold GetNetworkInfoLatestUpdate. apply keeps_read. intros s w Hσ. cbv zeta.
  apply ensures_access_first; [lia|].
  apply ensures_bind, ensures_modify, ensures_ret. cbn [fst snd].
  destruct Hσ as (Hb & H1 & H2 & H3 & H4 & H5 & H6). split; [|done].
  do 5 (split; [assumption|]). split; [|exact H6].
  cbn. rewrite length_app, length_map, length_seq, length_drop. cbn in H5. rewrite H5. lia.
Qed.

(** The stored data is sent from its array. *)
Lemma keeps_send_advertised {A} (k : service -> Method C A) :
  (forall s, keeps (k s)) ->
  keeps (s ← self id; access_first (m_advertise_data_size s) AdvertiseDataSizeMax;; k s).
Proof.
  intros Hk. apply keeps_read. intros s w Hσ. pose proof Hσ as (_ & _ & _ & Hn & _). cbn in Hn.
  apply ensures_access_first; [lia|]. by apply Hk.
Qed.

Lemma keeps_SetAdvertiseData data : keeps (SetAdvertiseData (C:=C) data).
Proof.
  unfold SetAdvertiseData. cbv zeta. intros σ Hσ. apply ensures_access_first; [lia|].
  revert σ Hσ. apply keeps_bind.
  - apply keeps_assign; [|by intros]. intros s w (Hb & H1 & H2 & H3 & H4 & H5).
    do 3 (split; [assumption|]). pose proof (zlen_nonneg data).
    split; [cbn; unfold AdvertiseDataSizeMax; lia|]. split; [|exact H5]. cbn in H4 |- *.
    destruct (Z.ltb_spec 0 (Z.min (zlen data) (Z.of_nat AdvertiseDataSizeMax))); [|exact H4].
    rewrite zlen_write_at; rewrite ?zlen_ztake; rewrite ?H4; unfold AdvertiseDataSizeMax; lia.
  - intros ?. apply keeps_read. intros s w Hσ. pose proof Hσ as (_ & _ & _ & Hn & _). cbn in Hn.
    destruct (negb (m_network_connected s)); [by apply ensures_ret|].
    apply ensures_access_first; [lia|]. refine ((_ : keeps _) (s, w) Hσ). keeps_all.
Qed.

Lemma keeps_deliver e : keeps (deliver iter env e).
Proof. unfold deliver. keeps_all. Qed.
Hint Resolve keeps_deliver : keeps.

Lemma keeps_receive_iteration finish prev :
  keeps finish -> keeps (receive_iteration iter env finish prev).
Proof.
  intros Hf. unfold receive_iteration, detect_loss, lose_network, client_update, check_inactivity.
  keeps_all.
Qed.
Hint Resolve keeps_Scan keeps_GetNetworkInfoLatestUpdate keeps_SetAdvertiseData
  keeps_receive_iteration : keeps.

(** *** The other threads of the program

    What they do while a call waits: turns of the receive thread and of the one
    that joins a host, calls of the sockets and of the peer-to-peer classes into
    the service, and whatever the threads behind the client, the peer-to-peer
    objects and the rest of the module do to those. *)

(** Everything shared but the stacks, of which the other services take and
    release some. *)
Definition elsewhere (f : World -> World) (w : World) : World :=
  f w <| g_ldn_session_stack_used := g_ldn_session_stack_used w |> <| bad_access := bad_access w |>.

Inductive world_step : (World -> World) -> Prop :=
| WsElsewhere f : world_step (elsewhere f)
| WsRelease slot : world_step (ReleaseLdnStackSlot slot)
| WsAllocate f probes : world_step f ->
    world_step (fun w => (AllocateLdnStackSlot (repeat f probes) w).2).

Inductive thread_step : Method C unit -> Prop :=
| TsNothing : thread_step (mret tt)
| TsThen m1 m2 : thread_step m1 -> thread_step m2 -> thread_step (m1;; m2)
| TsReceive finish prev : thread_step finish ->
    thread_step (receive_iteration iter env finish prev;; mret tt)
| TsConnect meanwhile : thread_step meanwhile ->
    thread_step (P2pConnectThreadEntry iter env meanwhile)
| TsSocketSends info protocol data len :
    thread_step (SendProxyDataCallback iter info protocol data len;; mret tt)
| TsPlayerSends d : thread_step (HostP2pInboundDataCallback iter d)
| TsHostSends call : thread_step (p2p_packet_callback iter call)
| TsServerReports data : thread_step (master_send_callback data)
| TsClient (f : RyuLdnClient.RyuLdnClient (C:=C) -> RyuLdnClient.RyuLdnClient (C:=C)) :
    thread_step (client (fun c => (tt, f c)))
| TsPeers f g :
    thread_step (assign (fun s => s <| m_p2p_server := f (m_p2p_server s) |>
                                    <| m_p2p_client := g (m_p2p_client s) |>))
| TsWorld f : world_step f -> thread_step (assign_world f).

Lemma world_step_pool f :
  world_step f ->
  forall w, bad_access (f w) = bad_access w
    /\ length (g_ldn_session_stack_used (f w)) = length (g_ldn_session_stack_used w).
Proof.
  induction 1 as [f|slot|f probes _ IH]; intros w; [done| |].
  - unfold ReleaseLdnStackSlot. destruct (_ || _); [done|]. cbn. by rewrite length_insert.
  - revert w. induction probes as [|probes IHn]; intros w; cbn [repeat AllocateLdnStackSlot].
    + cbn. by rewrite length_insert.
    + destruct (P2pServer.first_false _); [cbn; by rewrite length_insert|].
      destruct (IH w) as [<- <-]. apply IHn.
Qed.

Lemma keeps_thread m : thread_step m -> keeps m.
Proof.
  induction 1; unfold SendProxyDataCallback, p2p_packet_callback; keeps_all.
  apply keeps_assign_world. intros s w (Hb & H1 & H2 & H3 & H4 & H5 & H6 & H7 & H8).
  match goal with Hf : world_step _ |- _ => destruct (world_step_pool _ Hf w) as [Eb El] end.
  split; [by rewrite <- Hb|]. do 7 (split; [assumption|]). exact (eq_trans El H8).
Qed.

Lemma steps_threads meanwhile : Forall thread_step meanwhile -> steps_keep meanwhile.
Proof. intros H'. eapply Forall_impl; [exact H'|]. intros m. apply keeps_thread. Qed.

(** *** Histories *)

(** What happens to a service: the calls of the game, with the steps of the other
    threads they wait for, the turns of its threads, and its end: it is deleted,
    or a new object takes its place. *)
Inductive action : Type :=
| ActInitialize (pid : Z) | ActInitializeSystem2 (unk pid : Z)
| ActFinalize (finish : Method C unit)
| ActLatestUpdate (n : nat)
| ActScan (max_results : Z) (filter : LdnTypes.ScanFilter) (meanwhile : list (Method C unit))
| ActOpenAccessPoint (meanwhile : list (Method C unit))
| ActCloseAccessPoint (finish : Method C unit)
| ActCreateNetwork (data : CreateNetworkConfig) (meanwhile : list (Method C unit))
| ActCreateNetworkPrivate (data : CreateNetworkPrivateConfig) (addresses : list Z)
    (meanwhile : list (Method C unit))
| ActDestroyNetwork
| ActSetAdvertiseData (data : list Z) | ActSetStationAcceptPolicy (policy : AcceptPolicy)
| ActOpenStation (meanwhile : list (Method C unit)) | ActCloseStation
| ActConnect (dat : ConnectNetworkData) (data : NetworkInfo)
    (meanwhile meanwhile_again : list (Method C unit))
| ActConnectPrivate (data : ConnectPrivateData) (meanwhile meanwhile_again : list (Method C unit))
| ActDisconnect (finish : Method C unit)
| ActReject (node : Z) (meanwhile : list (Method C unit))
| ActSendProxyData (info : ProxyInfo) (protocol : BsdTypes.ProtocolType) (data : list Z) (len : Z)
| ActReceive (finish : Method C unit) (prev : ConnectionState.ConnectionState)
| ActConnectThread (meanwhile : Method C unit)
| ActDelete (rest finish : Method C unit)
| ActSuperseded (rest finish : Method C unit).

Definition drop_result {A} (m : Method C A) : Method C unit := m;; mret tt.

Definition perform (a : action) : Method C unit :=
  match a with
  | ActInitialize pid => drop_result (Initialize pid)
  | ActInitializeSystem2 unk pid => drop_result (InitializeSystem2 unk pid)
  | ActFinalize finish => drop_result (Finalize iter env finish)
  | ActLatestUpdate n => drop_result (GetNetworkInfoLatestUpdate n)
  | ActScan max filter meanwhile => drop_result (Scan auto_clear max filter meanwhile)
  | ActOpenAccessPoint meanwhile => drop_result (OpenAccessPoint env auto_clear meanwhile)
  | ActCloseAccessPoint finish => drop_result (CloseAccessPoint iter env finish)
  | ActCreateNetwork data meanwhile =>
      drop_result (CreateNetwork iter env auto_clear data meanwhile)
  | ActCreateNetworkPrivate data addresses meanwhile =>
      drop_result (CreateNetworkPrivate auto_clear data addresses meanwhile)
  | ActDestroyNetwork => drop_result (DestroyNetwork iter env)
  | ActSetAdvertiseData data => drop_result (SetAdvertiseData data)
  | ActSetStationAcceptPolicy policy => drop_result (SetStationAcceptPolicy policy)
  | ActOpenStation meanwhile => drop_result (OpenStation env auto_clear meanwhile)
  | ActCloseStation => drop_result CloseStation
  | ActConnect dat data meanwhile again =>
      drop_result (Connect auto_clear dat data meanwhile again)
  | ActConnectPrivate data meanwhile again =>
      drop_result (ConnectPrivate auto_clear data meanwhile again)
  | ActDisconnect finish => drop_result (Disconnect iter env finish)
  | ActReject node meanwhile => drop_result (Reject auto_clear node meanwhile)
  | ActSendProxyData info protocol data len =>
      drop_result (SendProxyDataCallback iter info protocol data len)
  | ActReceive finish prev => drop_result (receive_iteration iter env finish prev)
  | ActConnectThread meanwhile => P2pConnectThreadEntry iter env meanwhile
  | ActDelete rest finish => ICommunicationService_delete iter env rest finish
  | ActSuperseded rest finish => shutdown_previous iter env rest finish
  end.

(** The steps made meanwhile are those of the program's threads. *)
Definition threads_of (a : action) : list (Method C unit) :=
  match a with
  | ActScan _ _ meanwhile | ActOpenAccessPoint meanwhile | ActCreateNetwork _ meanwhile
  | ActCreateNetworkPrivate _ _ meanwhile | ActOpenStation meanwhile | ActReject _ meanwhile =>
      meanwhile
  | ActConnect _ _ meanwhile again | ActConnectPrivate _ meanwhile again => meanwhile ++ again
  | ActFinalize m | ActCloseAccessPoint m | ActDisconnect m | ActReceive m _ | ActConnectThread m =>
      [m]
  | ActDelete rest finish | ActSuperseded rest finish => [rest; finish]
  | _ => []
  end.
Definition possible (a : action) : Prop := Forall thread_step (threads_of a).

Fixpoint performs (actions : list action) : Method C unit :=
  match actions with
  | [] => mret tt
  | a :: actions => perform a;; performs actions
  end.

Lemma keeps_drop {A} (m : Method C A) : keeps m -> keeps (drop_result m).
Proof. intros Hm. unfold drop_result. keeps_all. Qed.

(** A stack is released only once the thread has been told to end. *)
Lemma release_keeps σ :
  arrays_ok σ -> m_recv_thread_running σ.1 = false ->
  ensures (release_slot (C:=C)) σ (fun _ σ' => arrays_ok σ' /\ m_recv_thread_running σ'.1 = false).
Proof.
  destruct σ as [s w]. cbn [fst]. intros (Hb & H1 & H2 & H3 & H4 & H5 & H6 & H7 & H8) Hrun.
  unfold release_slot. apply ensures_bind, ensures_gets. cbn [fst].
  apply ensures_when; intros Hslot; [|by split_and!].
  destruct (world_step_pool _ (WsRelease (m_stack_slot_index s)) w) as [Eb El].
  apply ensures_bind, ensures_modify, ensures_modify. cbn [fst snd]. split; [|exact Hrun].
  split; [cbn [snd]; by rewrite Eb|]. do 5 (split; [assumption|]).
  split; [done|]. split; [cbn; congruence|]. exact (eq_trans El H8).
Qed.

(** Methods that run behind the order to end. *)
Definition ends {A} (m : Method C A) : Prop :=
  forall σ, arrays_ok σ -> m_recv_thread_running σ.1 = false ->
    ensures m σ (fun _ σ' => arrays_ok σ' /\ m_recv_thread_running σ'.1 = false).

Lemma keeps_ends {A} (m : Method C A) : keeps m -> ends m.
Proof.
  intros Hm σ Hσ Hrun. eapply ensures_mono; [by apply Hm|]. cbn. intros a σ' [Hσ' H'].
  split; [done|]. destruct (m_recv_thread_running σ'.1); [|done]. by rewrite H' in Hrun.
Qed.

Lemma ends_bind {A B} (m : Method C A) (k : A -> Method C B) :
  ends m -> (forall a, ends (k a)) -> ends (x ← m; k x).
Proof.
  intros Hm Hk σ Hσ Hrun. apply ensures_bind. eapply ensures_mono; [by apply Hm|].
  cbn. intros a σ1 [Hσ1 H1]. by apply Hk.
Qed.

Lemma stop_then {A} (k : Method C A) :
  ends k -> keeps (assign (fun s => s <| m_recv_thread_running := false |>);; k).
Proof.
  intros Hk [s w] Hσ. apply ensures_bind, ensures_modify. cbn [fst snd].
  eapply ensures_mono; [apply Hk; [|done]|].
  - destruct Hσ as (Hb & H1 & H2 & H3 & H4 & H5 & H6 & _ & H8).
    do 7 (split; [assumption|]). by split.
  - cbn. intros a σ' [Hσ' Hrun]. split; [done|]. by rewrite Hrun.
Qed.

Lemma keeps_end rest finish :
  keeps rest -> keeps finish ->
  keeps (ICommunicationService_delete iter env rest finish)
  /\ keeps (shutdown_previous iter env rest finish).
Proof.
  intros Hr Hf. pose proof (keeps_CleanupSessionResources finish Hf).
  unfold ICommunicationService_delete, shutdown_previous, join_recv_thread, client_disconnect. split.
  - do 2 (apply keeps_bind; [solve [keeps_all]|intros ?]). apply stop_then.
    do 5 (apply ends_bind; [apply keeps_ends; solve [keeps_all]|intros ?]).
    intros σ. apply release_keeps.
  - apply stop_then.
    do 4 (apply ends_bind; [apply keeps_ends; solve [keeps_all]|intros ?]).
    apply ends_bind; [intros σ; apply release_keeps|intros ?].
    apply keeps_ends. keeps_all.
Qed.

Lemma keeps_CreateNetwork data meanwhile :
  steps_keep meanwhile -> keeps (CreateNetwork iter env auto_clear data meanwhile).
Proof.
  intros Hm. unfold CreateNetwork. apply keeps_bind; [keeps_all|]. intros s. cbv zeta.
  destruct (negb (IsServerConnected s)); [keeps_all|]. apply keeps_bind; [keeps_all|]. intros ?.
  apply keeps_bind; [keeps_all|]. intros r. destruct (negb (accepted r)); [keeps_all|].
  apply keeps_bind; [keeps_all|]. intros config. apply keeps_send_advertised. intros s'. keeps_all.
Qed.
Hint Resolve keeps_CreateNetwork : keeps.

Lemma keeps_perform a : possible a -> keeps (perform a).
Proof.
  intros Ha. unfold possible in Ha.
  destruct a; cbn [threads_of perform] in *; try apply keeps_drop;
    repeat match goal with
    | H : Forall thread_step (_ ++ _) |- _ => apply Forall_app in H as [? ?]
    | H : Forall thread_step [_; _] |- _ =>
        apply Forall_cons in H as [?%keeps_thread [?%keeps_thread _]%Forall_cons]
    | H : Forall thread_step [_] |- _ => apply Forall_cons in H as [?%keeps_thread _]
    | H : Forall thread_step _ |- _ => apply steps_threads in H
    end;
    try (by apply keeps_end);
    unfold InitializeSystem2, Finalize, OpenAccessPoint, CloseAccessPoint,
      CreateNetworkPrivate, DestroyNetwork, SetStationAcceptPolicy, OpenStation, CloseStation,
      Connect, ConnectPrivate, Disconnect, SendProxyDataCallback;
    try solve [keeps_all].
  pose proof (keeps_TimedWaitAny RejectEvent ErrorEvent _ Ha).
  unfold Reject, ConsumeNetworkError. keeps_all.
Qed.

Lemma keeps_performs actions : Forall possible actions -> keeps (performs actions).
Proof.
  induction 1 as [|a actions Ha _ IH]; cbn [performs]; [apply keeps_ret|].
  apply keeps_bind; [by apply keeps_perform|done].
Qed.

Lemma allocated_slot pauses w :
  length (g_ldn_session_stack_used w) = LDN_SESSION_STACK_COUNT -> Forall world_step pauses ->
  0 <= (AllocateLdnStackSlot pauses w).1 < Z.of_nat LDN_SESSION_STACK_COUNT
  /\ bad_access (AllocateLdnStackSlot pauses w).2 = bad_access w
  /\ length (g_ldn_session_stack_used (AllocateLdnStackSlot pauses w).2) = LDN_SESSION_STACK_COUNT.
Proof.
  intros Hlen Hp. revert w Hlen. induction Hp as [|pause pauses Hpause _ IH]; intros w Hlen;
    cbn [AllocateLdnStackSlot].
  - split; [done|]. split; [done|]. cbn. by rewrite length_insert.
  - destruct (P2pServer.first_false _) as [i|] eqn:E.
    + apply first_false_some, lookup_lt_Some in E. rewrite Hlen in E. split; [cbn [fst]; lia|].
      split; [done|]. cbn. by rewrite length_insert.
    + destruct (world_step_pool _ Hpause w) as [Eb El]. rewrite <- Eb. apply IH. by rewrite El.
Qed.

(** C7: no call uses an array of the service outside its bounds.  From the
    construction of the object on, whatever the game calls, whatever the server
    and the players send, whatever steps the threads of the program make while a
    call waits, and up to the object's end: when the calls have returned, no
    access was noted to an element outside the scan results (stored or copied to
    the game), the advertised data (stored or sent), the flags of the nodes, or
    the stacks of the two threads; and the counters are within those arrays, so
    that the next access will be. *)
Theorem service_arrays_in_bounds p program_id tcp random thread pauses actions w :
  length (g_ldn_session_stack_used w) = LDN_SESSION_STACK_COUNT -> bad_access w = false ->
  Forall world_step pauses -> Forall possible actions ->
  let new := construct (initial_service p program_id tcp random w) thread pauses w in
  bad_access new.2 = false
  /\ ensures (performs actions) new (fun _ σ => bad_access σ.2 = false /\ arrays_ok σ).
Proof.
  intros Hlen Hb Hp Hpos new.
  assert (Hnew : arrays_ok new).
  { destruct (allocated_slot pauses w Hlen Hp) as (Hslot & Eb & Hlen').
    subst new. unfold construct. destruct (AllocateLdnStackSlot pauses w) as [slot w'].
    cbn [fst snd] in *. rewrite (proj2 (Z.ltb_ge slot 0)) by lia.
    split; [cbn; rewrite Eb, Hb; by rewrite (proj2 (Z.leb_gt _ _)) by apply Hslot|].
    do 5 (split; [done|]). split; [apply Hslot|]. by split; [intros _; apply Hslot|]. }
  split; [apply Hnew|]. eapply ensures_mono; [by apply keeps_performs|].
  cbn. intros a σ [Hσ _]. by split; [apply Hσ|].
Qed.
End invariant.

(** A station that scans: two turns of the receive thread bring the handshake, and
    two more the replies; then the object is deleted. *)
Definition demo_actions : list (action (C:=ScriptedTcp)) :=
  [ActInitialize 81; ActOpenStation handshake;
   ActSetAdvertiseData (repeat 1 400);
   ActScan 24 (zeroed LdnTypes.ScanFilter) handshake;
   ActFinalize idle; ActDelete idle idle].

Lemma demo_actions_possible : Forall (possible all_sockets demo_env) demo_actions.
Proof.
  pose proof (TsNothing (C:=ScriptedTcp) all_sockets demo_env) as Hidle.
  pose proof (TsReceive (C:=ScriptedTcp) all_sockets demo_env _ ConnectionState.Connected Hidle) as Hrecv.
  repeat constructor; try exact Hidle; exact Hrecv.
Qed.

Lemma service_arrays_in_bounds_witness :
  exists σ, performs all_sockets demo_env true demo_actions new_service = Some (tt, σ)
            /\ bad_access σ.2 = false /\ m_advertise_data_size σ.1 = 0.
Proof.
  pose proof (service_arrays_in_bounds all_sockets demo_env true 1 game
    {| up := false; inbox := [packet PacketId_Initialize (repeat 7 22)]; outbox := [] |}
    (fun _ => 0) true (repeat (ReleaseLdnStackSlot 3) MAX_WAIT_ITERATIONS) demo_actions demo_world) as H.
  destruct H as [_ H].
  - reflexivity.
  - reflexivity.
  - apply Forall_forall. intros f Hf%list_elem_of_In%repeat_spec. subst f. apply WsRelease.
  - exact demo_actions_possible.
  - destruct (performs all_sockets demo_env true demo_actions new_service) as [[[] σ]|] eqn:E.
    + exists σ. split; [done|]. split; [by apply (H tt)|].
      vm_compute in E. injection E as <-. reflexivity.
    + vm_compute in E. discriminate.
Defined.
