(* ===== verification/PacketDispatcher.v ===== *)
(** * Packet dispatcher ([ldn/ldn_packet_dispatcher.{hpp,cpp}])

    Routes a packet to the handler registered for its type.  A handler is a
    function pointer; what it does to the rest of the program is a function of
    an abstract state [World], and a null pointer is [None].  The theorem compares
    the dispatcher with the wire format: the bytes of a message of each type. *)

From stdpp Require Import base numbers list.
From Stdlib Require Import ZArith Lia Bool.
From S2P Require Import Prelude Layout Imperative Types Protocol.

Section Dispatcher.

Context {World : Type}.

Definition PacketHandler (T : Type) : Type := option (LdnHeader -> T -> World -> World).
Definition EmptyPacketHandler : Type := option (LdnHeader -> World -> World).
(** The bytes [data] points to and the size. *)
Definition ProxyDataHandler : Type :=
  option (LdnHeader -> ProxyDataHeader -> list Z -> Z -> World -> World).

Record PacketDispatcher : Type := {
  m_initialize_handler : PacketHandler InitializeMessage;
  m_connected_handler : PacketHandler NetworkInfo;
  m_sync_network_handler : PacketHandler NetworkInfo;
  m_scan_reply_handler : PacketHandler NetworkInfo;
  m_scan_reply_end_handler : EmptyPacketHandler;
  m_disconnect_handler : PacketHandler DisconnectMessage;
  m_ping_handler : PacketHandler PingMessage;
  m_network_error_handler : PacketHandler NetworkErrorMessage;
  m_proxy_config_handler : PacketHandler ProxyConfig;
  m_proxy_connect_handler : PacketHandler ProxyConnectRequest;
  m_proxy_connect_reply_handler : PacketHandler ProxyConnectResponse;
  m_proxy_data_handler : ProxyDataHandler;
  m_proxy_disconnect_handler : PacketHandler ProxyDisconnectMessage;
  m_reject_handler : PacketHandler RejectRequest;
  m_reject_reply_handler : EmptyPacketHandler;
  m_accept_policy_handler : PacketHandler SetAcceptPolicyRequest
}.
#[export] Instance PacketDispatcher_eta : Eta PacketDispatcher := fun d =>
  Build_PacketDispatcher (m_initialize_handler d) (m_connected_handler d)
    (m_sync_network_handler d) (m_scan_reply_handler d) (m_scan_reply_end_handler d)
    (m_disconnect_handler d) (m_ping_handler d) (m_network_error_handler d)
    (m_proxy_config_handler d) (m_proxy_connect_handler d) (m_proxy_connect_reply_handler d)
    (m_proxy_data_handler d) (m_proxy_disconnect_handler d) (m_reject_handler d)
    (m_reject_reply_handler d) (m_accept_policy_handler d).

Definition new_PacketDispatcher : PacketDispatcher := {|
  m_initialize_handler := None; m_connected_handler := None; m_sync_network_handler := None;
  m_scan_reply_handler := None; m_scan_reply_end_handler := None;
  m_disconnect_handler := None; m_ping_handler := None; m_network_error_handler := None;
  m_proxy_config_handler := None; m_proxy_connect_handler := None;
  m_proxy_connect_reply_handler := None; m_proxy_data_handler := None;
  m_proxy_disconnect_handler := None; m_reject_handler := None;
  m_reject_reply_handler := None; m_accept_policy_handler := None |}.

Definition set_initialize_handler (handler : PacketHandler InitializeMessage) (d : PacketDispatcher) : PacketDispatcher :=
  d <| m_initialize_handler := handler |>.
Definition set_connected_handler (handler : PacketHandler NetworkInfo) (d : PacketDispatcher) : PacketDispatcher :=
  d <| m_connected_handler := handler |>.
Definition set_sync_network_handler (handler : PacketHandler NetworkInfo) (d : PacketDispatcher) : PacketDispatcher :=
  d <| m_sync_network_handler := handler |>.
Definition set_scan_reply_handler (handler : PacketHandler NetworkInfo) (d : PacketDispatcher) : PacketDispatcher :=
  d <| m_scan_reply_handler := handler |>.
Definition set_scan_reply_end_handler (handler : EmptyPacketHandler) (d : PacketDispatcher) : PacketDispatcher :=
  d <| m_scan_reply_end_handler := handler |>.
Definition set_disconnect_handler (handler : PacketHandler DisconnectMessage) (d : PacketDispatcher) : PacketDispatcher :=
  d <| m_disconnect_handler := handler |>.
Definition set_ping_handler (handler : PacketHandler PingMessage) (d : PacketDispatcher) : PacketDispatcher :=
  d <| m_ping_handler := handler |>.
Definition set_network_error_handler (handler : PacketHandler NetworkErrorMessage) (d : PacketDispatcher) : PacketDispatcher :=
  d <| m_network_error_handler := handler |>.
Definition set_proxy_config_handler (handler : PacketHandler ProxyConfig) (d : PacketDispatcher) : PacketDispatcher :=
  d <| m_proxy_config_handler := handler |>.
Definition set_proxy_connect_handler (handler : PacketHandler ProxyConnectRequest) (d : PacketDispatcher) : PacketDispatcher :=
  d <| m_proxy_connect_handler := handler |>.
Definition set_proxy_connect_reply_handler (handler : PacketHandler ProxyConnectResponse) (d : PacketDispatcher) : PacketDispatcher :=
  d <| m_proxy_connect_reply_handler := handler |>.
Definition set_proxy_data_handler (handler : ProxyDataHandler) (d : PacketDispatcher) : PacketDispatcher :=
  d <| m_proxy_data_handler := handler |>.
Definition set_proxy_disconnect_handler (handler : PacketHandler ProxyDisconnectMessage) (d : PacketDispatcher) : PacketDispatcher :=
  d <| m_proxy_disconnect_handler := handler |>.
Definition set_reject_handler (handler : PacketHandler RejectRequest) (d : PacketDispatcher) : PacketDispatcher :=
  d <| m_reject_handler := handler |>.
Definition set_reject_reply_handler (handler : EmptyPacketHandler) (d : PacketDispatcher) : PacketDispatcher :=
  d <| m_reject_reply_handler := handler |>.
Definition set_accept_policy_handler (handler : PacketHandler SetAcceptPolicyRequest) (d : PacketDispatcher) : PacketDispatcher :=
  d <| m_accept_policy_handler := handler |>.

(** [data] is the memory from the pointer on, [data_size] the size of it that
    belongs to the packet. *)
Definition dispatch_typed {T} `{HasLayout T} (header : LdnHeader) (data : list Z)
    (data_size : Z) (handler : PacketHandler T) (s : World) : World :=
  match handler with
  | None => s
  | Some handler =>
      if data_size <? sizeofz T then s
      else handler header (of_bytes data) s
  end.

Definition dispatch_empty (header : LdnHeader) (handler : EmptyPacketHandler) (s : World) : World :=
  match handler with Some handler => handler header s | None => s end.

Definition dispatch_proxy_data (header : LdnHeader) (data : list Z) (data_size : Z)
    (handler : ProxyDataHandler) (s : World) : World :=
  match handler with
  | None => s
  | Some handler =>
      if data_size <? sizeofz ProxyDataHeader then s else
      let proxy_header : ProxyDataHeader := of_bytes data in
      let proxy_data := zdrop (sizeofz ProxyDataHeader) data in
      let available_data_size := data_size - sizeofz ProxyDataHeader in
      if available_data_size <? pdh_data_length proxy_header then s
      else handler header proxy_header (ztake (pdh_data_length proxy_header) proxy_data)
             (pdh_data_length proxy_header) s
  end.

Definition dispatch (d : PacketDispatcher) (header : LdnHeader) (data : list Z)
    (data_size : Z) : World -> World :=
  match PacketId_of_value (hdr_type header) with
  | Some PacketId_Initialize => dispatch_typed header data data_size (m_initialize_handler d)
  | Some PacketId_Connected => dispatch_typed header data data_size (m_connected_handler d)
  | Some PacketId_SyncNetwork => dispatch_typed header data data_size (m_sync_network_handler d)
  | Some PacketId_ScanReply => dispatch_typed header data data_size (m_scan_reply_handler d)
  | Some PacketId_ScanReplyEnd => dispatch_empty header (m_scan_reply_end_handler d)
  | Some PacketId_Disconnect => dispatch_typed header data data_size (m_disconnect_handler d)
  | Some PacketId_Ping => dispatch_typed header data data_size (m_ping_handler d)
  | Some PacketId_NetworkError => dispatch_typed header data data_size (m_network_error_handler d)
  | Some PacketId_ProxyConfig => dispatch_typed header data data_size (m_proxy_config_handler d)
  | Some PacketId_ProxyConnect => dispatch_typed header data data_size (m_proxy_connect_handler d)
  | Some PacketId_ProxyConnectReply => dispatch_typed header data data_size (m_proxy_connect_reply_handler d)
  | Some PacketId_ProxyData => dispatch_proxy_data header data data_size (m_proxy_data_handler d)
  | Some PacketId_ProxyDisconnect => dispatch_typed header data data_size (m_proxy_disconnect_handler d)
  | Some PacketId_Reject => dispatch_typed header data data_size (m_reject_handler d)
  | Some PacketId_RejectReply => dispatch_empty header (m_reject_reply_handler d)
  | Some PacketId_SetAcceptPolicy => dispatch_typed header data data_size (m_accept_policy_handler d)
  | _ => fun s => s
  end.

(** ** The messages and their wire format *)

Inductive message : Type :=
| MsgInitialize (m : InitializeMessage)
| MsgConnected (m : NetworkInfo)
| MsgSyncNetwork (m : NetworkInfo)
| MsgScanReply (m : NetworkInfo)
| MsgScanReplyEnd
| MsgDisconnect (m : DisconnectMessage)
| MsgPing (m : PingMessage)
| MsgNetworkError (m : NetworkErrorMessage)
| MsgProxyConfig (m : ProxyConfig)
| MsgProxyConnect (m : ProxyConnectRequest)
| MsgProxyConnectReply (m : ProxyConnectResponse)
| MsgProxyData (h : ProxyDataHeader) (data : list Z)
| MsgProxyDisconnect (m : ProxyDisconnectMessage)
| MsgReject (m : RejectRequest)
| MsgRejectReply
| MsgSetAcceptPolicy (m : SetAcceptPolicyRequest).

Definition message_type (m : message) : PacketId :=
  match m with
  | MsgInitialize _ => PacketId_Initialize
  | MsgConnected _ => PacketId_Connected
  | MsgSyncNetwork _ => PacketId_SyncNetwork
  | MsgScanReply _ => PacketId_ScanReply
  | MsgScanReplyEnd => PacketId_ScanReplyEnd
  | MsgDisconnect _ => PacketId_Disconnect
  | MsgPing _ => PacketId_Ping
  | MsgNetworkError _ => PacketId_NetworkError
  | MsgProxyConfig _ => PacketId_ProxyConfig
  | MsgProxyConnect _ => PacketId_ProxyConnect
  | MsgProxyConnectReply _ => PacketId_ProxyConnectReply
  | MsgProxyData _ _ => PacketId_ProxyData
  | MsgProxyDisconnect _ => PacketId_ProxyDisconnect
  | MsgReject _ => PacketId_Reject
  | MsgRejectReply => PacketId_RejectReply
  | MsgSetAcceptPolicy _ => PacketId_SetAcceptPolicy
  end.

(** The bytes behind the header. *)
Definition body (m : message) : list Z :=
  match m with
  | MsgInitialize m => bytes_of m
  | MsgConnected m => bytes_of m
  | MsgSyncNetwork m => bytes_of m
  | MsgScanReply m => bytes_of m
  | MsgScanReplyEnd => []
  | MsgDisconnect m => bytes_of m
  | MsgPing m => bytes_of m
  | MsgNetworkError m => bytes_of m
  | MsgProxyConfig m => bytes_of m
  | MsgProxyConnect m => bytes_of m
  | MsgProxyConnectReply m => bytes_of m
  | MsgProxyData h data => bytes_of h ++ data
  | MsgProxyDisconnect m => bytes_of m
  | MsgReject m => bytes_of m
  | MsgRejectReply => []
  | MsgSetAcceptPolicy m => bytes_of m
  end.

Definition message_wf (m : message) : bool :=
  match m with
  | MsgInitialize m => wf m
  | MsgConnected m => wf m
  | MsgSyncNetwork m => wf m
  | MsgScanReply m => wf m
  | MsgScanReplyEnd => true
  | MsgDisconnect m => wf m
  | MsgPing m => wf m
  | MsgNetworkError m => wf m
  | MsgProxyConfig m => wf m
  | MsgProxyConnect m => wf m
  | MsgProxyConnectReply m => wf m
  | MsgProxyData h data => wf h && (pdh_data_length h =? zlen data)
  | MsgProxyDisconnect m => wf m
  | MsgReject m => wf m
  | MsgRejectReply => true
  | MsgSetAcceptPolicy m => wf m
  end.

(** The call the registered handler gets. *)
Definition notify (d : PacketDispatcher) (header : LdnHeader) (m : message) (s : World) : World :=
  match m with
  | MsgInitialize m => from_option (fun f => f header m s) s (m_initialize_handler d)
  | MsgConnected m => from_option (fun f => f header m s) s (m_connected_handler d)
  | MsgSyncNetwork m => from_option (fun f => f header m s) s (m_sync_network_handler d)
  | MsgScanReply m => from_option (fun f => f header m s) s (m_scan_reply_handler d)
  | MsgScanReplyEnd => from_option (fun f => f header s) s (m_scan_reply_end_handler d)
  | MsgDisconnect m => from_option (fun f => f header m s) s (m_disconnect_handler d)
  | MsgPing m => from_option (fun f => f header m s) s (m_ping_handler d)
  | MsgNetworkError m => from_option (fun f => f header m s) s (m_network_error_handler d)
  | MsgProxyConfig m => from_option (fun f => f header m s) s (m_proxy_config_handler d)
  | MsgProxyConnect m => from_option (fun f => f header m s) s (m_proxy_connect_handler d)
  | MsgProxyConnectReply m => from_option (fun f => f header m s) s (m_proxy_connect_reply_handler d)
  | MsgProxyData h data => from_option (fun f => f header h data (zlen data) s) s (m_proxy_data_handler d)
  | MsgProxyDisconnect m => from_option (fun f => f header m s) s (m_proxy_disconnect_handler d)
  | MsgReject m => from_option (fun f => f header m s) s (m_reject_handler d)
  | MsgRejectReply => from_option (fun f => f header s) s (m_reject_reply_handler d)
  | MsgSetAcceptPolicy m => from_option (fun f => f header m s) s (m_accept_policy_handler d)
  end.

(** The packet carries the message, and maybe more bytes. *)
Definition carries (header : LdnHeader) (data : list Z) (m : message) : Prop :=
  hdr_type header = PacketId_value (message_type m) /\ message_wf m = true
  /\ exists k, data = body m ++ k.

Lemma typed_carried {T} `{HasLayout T} `{!LayoutLaws (layout_of T)} header (m : T) k handler s :
  wf m = true ->
  dispatch_typed header (bytes_of m ++ k) (zlen (bytes_of m ++ k)) handler s
  = from_option (fun f => f header m s) s handler.
Proof.
  intros Hm. destruct handler as [f|]; [|done]. cbn.
  destruct (Z.ltb_spec (zlen (bytes_of m ++ k)) (sizeofz T)) as [Hlt|_].
  - rewrite zlen_app, zlen_bytes_of in Hlt by done. pose proof (zlen_nonneg k). lia.
  - by rewrite of_bytes_of.
Qed.

Lemma typed_not_carried {T} `{HasLayout T} `{!LayoutLaws (layout_of T)} header data handler s :
  bytes_ok data = true ->
  (forall (m : T) k, wf m = true -> data <> bytes_of m ++ k) ->
  dispatch_typed header data (zlen data) handler s = s.
Proof.
  intros Hd Hno. destruct handler as [f|]; [|done]. cbn.
  destruct (Z.ltb_spec (zlen data) (sizeofz T)) as [_|Hge]; [done|].
  assert (Hlen : (sizeof T <= length data)%nat) by (unfold sizeofz, zlen in Hge; lia).
  destruct (Hno (of_bytes data) (drop (sizeof T) data)); [by apply wf_of_bytes|].
  by rewrite bytes_of_of_bytes, take_drop.
Qed.

Lemma wf_data_header h data k :
  wf h = true -> pdh_data_length h = zlen data ->
  let all := (bytes_of h ++ data) ++ k in
  of_bytes all = h /\ zdrop (sizeofz ProxyDataHeader) all = data ++ k
  /\ zlen all = sizeofz ProxyDataHeader + zlen data + zlen k.
Proof.
  intros Hh Hn all. unfold all. rewrite <- app_assoc. split; [by apply of_bytes_of|].
  split; [apply zdrop_app; by rewrite zlen_bytes_of|]. rewrite !zlen_app, zlen_bytes_of by done. lia.
Qed.

Lemma data_carried header h data k handler s :
  wf h = true -> pdh_data_length h = zlen data ->
  dispatch_proxy_data header ((bytes_of h ++ data) ++ k) (zlen ((bytes_of h ++ data) ++ k)) handler s
  = from_option (fun f => f header h data (zlen data) s) s handler.
Proof.
  intros Hh Hn. destruct handler as [f|]; [|done]. cbn [dispatch_proxy_data from_option].
  destruct (wf_data_header h data k Hh Hn) as (-> & -> & ->).
  pose proof (zlen_nonneg data). pose proof (zlen_nonneg k).
  destruct (Z.ltb_spec (sizeofz ProxyDataHeader + zlen data + zlen k) (sizeofz ProxyDataHeader)); [lia|].
  destruct (Z.ltb_spec (sizeofz ProxyDataHeader + zlen data + zlen k - sizeofz ProxyDataHeader)
    (pdh_data_length h)); [lia|].
  by rewrite Hn, ztake_app.
Qed.

Lemma data_not_carried header data handler s :
  bytes_ok data = true ->
  (forall h body k, wf h = true -> pdh_data_length h = zlen body ->
    data <> (bytes_of h ++ body) ++ k) ->
  dispatch_proxy_data header data (zlen data) handler s = s.
Proof.
  intros Hd Hno. destruct handler as [f|]; [|done]. cbn [dispatch_proxy_data].
  destruct (Z.ltb_spec (zlen data) (sizeofz ProxyDataHeader)) as [_|Hge]; [done|].
  set (h := of_bytes data : ProxyDataHeader). set (rest := zdrop (sizeofz ProxyDataHeader) data).
  destruct (Z.ltb_spec (zlen data - sizeofz ProxyDataHeader) (pdh_data_length h)) as [_|Hlen]; [done|].
  assert (Hs : (sizeof ProxyDataHeader <= length data)%nat)
    by (unfold sizeofz, zlen in Hge; lia).
  assert (Hh : wf h = true) by (by apply wf_of_bytes).
  assert (Hpos : 0 <= pdh_data_length h).
  { revert Hh. generalize h. intros [i n]. cbn. rewrite !andb_true_iff. lia. }
  destruct (Hno h (ztake (pdh_data_length h) rest) (zdrop (pdh_data_length h) rest) Hh).
  - unfold rest. rewrite zlen_ztake; [done|]. rewrite zlen_zdrop; [lia|]. split; [apply sizeofz_nonneg|done].
  - rewrite <- app_assoc. unfold ztake, zdrop. rewrite take_drop. unfold h, rest.
    rewrite bytes_of_of_bytes by done. unfold zdrop, sizeofz. by rewrite Nat2Z.id, take_drop.
Qed.

(** [m] would be carried, with [k] behind it. *)
Ltac refute Hno Ht m k :=
  exfalso; apply (Hno m); split; [symmetry; exact Ht|]; cbn [message_wf body];
  split; [by rewrite ?andb_true_iff, ?Z.eqb_eq|by exists k].
Ltac refute_typed Hno Ht m k :=
  first [ refute Hno Ht (MsgInitialize m) k  | refute Hno Ht (MsgConnected m) k  | refute Hno Ht (MsgSyncNetwork m) k
    | refute Hno Ht (MsgScanReply m) k  | refute Hno Ht (MsgDisconnect m) k  | refute Hno Ht (MsgPing m) k
    | refute Hno Ht (MsgNetworkError m) k  | refute Hno Ht (MsgProxyConfig m) k  | refute Hno Ht (MsgProxyConnect m) k
    | refute Hno Ht (MsgProxyConnectReply m) k  | refute Hno Ht (MsgProxyDisconnect m) k  | refute Hno Ht (MsgReject m) k
    | refute Hno Ht (MsgSetAcceptPolicy m) k ].

(** for every registration of handlers and every packet: when the packet
    carries a message of its type, the handler of that type is called once,
    with the header and exactly that message, and nothing else happens; a
    packet of an unknown type, an undersized one, and proxy data whose
    declared length exceeds the packet reach no handler. *)
Theorem dispatch_exact d header data s :
  bytes_ok data = true ->
  (forall m, carries header data m -> dispatch d header data (zlen data) s = notify d header m s)
  /\ ((forall m, ~ carries header data m) -> dispatch d header data (zlen data) s = s).
Proof.
  intros Hd. unfold dispatch. split.
  - intros m (Ht & Hm & k & ->). rewrite Ht, PacketId_of_value_value.
    destruct m; cbn [message_type notify body message_wf] in *; try done; try by apply typed_carried.
    apply andb_true_iff in Hm. destruct Hm as [Hh Hn]. apply Z.eqb_eq in Hn. by apply data_carried.
  - intros Hno. destruct (PacketId_of_value (hdr_type header)) as [t|] eqn:Ht; [|done].
    apply PacketId_of_value_Some in Ht.
    destruct t; try done.
    all: first [refute Hno Ht MsgScanReplyEnd data | refute Hno Ht MsgRejectReply data
      | apply data_not_carried; [done|]; intros h body k Hh Hn E; refute Hno Ht (MsgProxyData h body) k
      | apply typed_not_carried; [done|]; intros m k Hm E; refute_typed Hno Ht m k].
Qed.

End Dispatcher.

(** A dispatcher that records the pings, and a ping with a byte behind it. *)
Definition ping_recorder : PacketDispatcher (World := list Z) :=
  set_ping_handler (Some (fun _ m log => log ++ [ping_id m])) new_PacketDispatcher.

Lemma dispatch_exact_witness :
  dispatch ping_recorder (packet_header PacketId_Ping 3) [0; 42; 9] 3 [7] = [7; 42]
  /\ dispatch ping_recorder (packet_header PacketId_Ping 1) [0] 1 [7] = [7].
Proof.
  split; [|reflexivity].
  destruct (dispatch_exact ping_recorder (packet_header PacketId_Ping 3) [0; 42; 9] [7])
    as [H _]; [reflexivity|].
  apply (H (MsgPing {| ping_requester := 0; ping_id := 42 |})).
  split; [reflexivity|]. split; [reflexivity|]. by exists [9].
Defined.
