(* ===== verification/SessionHandler.v ===== *)
(** * Session handler ([ldn/ldn_session_handler.{hpp,cpp}])

    The state of a session as the packets of the server change it.  A callback
    is registered or not; the calls made to the registered ones are the log
    [m_calls], oldest first. *)

From stdpp Require Import base numbers list sets.
From Stdlib Require Import ZArith Lia Bool.
From S2P Require Import Prelude Layout Imperative Types.

Inductive LdnSessionState : Set :=
| LdnSessionState_None | LdnSessionState_Initialized | LdnSessionState_Station
| LdnSessionState_StationConnected | LdnSessionState_AccessPoint
| LdnSessionState_AccessPointCreated | LdnSessionState_Error.

#[export] Instance LdnSessionState_eq_dec : EqDecision LdnSessionState.
Proof. solve_decision. Defined.

Inductive Callback : Set :=
| SessionStateCallback | NetworkUpdatedCallback | ScanResultCallback | ScanCompletedCallback
| DisconnectedCallback | ErrorCallback | RejectedCallback | AcceptPolicyChangedCallback.

#[export] Instance Callback_eq_dec : EqDecision Callback.
Proof. solve_decision. Defined.

Inductive Call : Type :=
| StateChanged (old_state new_state : LdnSessionState)
| NetworkUpdated (info : NetworkInfo)
| ScanResult (info : NetworkInfo)
| ScanCompleted
| Disconnected (reason : Z)
| ErrorReported (code : Z)
| Rejected (node_id reason : Z)
| AcceptPolicyChanged (policy : Z).

Record LdnSessionHandler : Type := {
  m_state : LdnSessionState;
  m_is_host : bool;
  m_local_node_id : Z;
  m_last_ping_id : Z;
  m_session_id : SessionId;
  m_mac_address : MacAddress;
  m_network_info : NetworkInfo;
  m_accept_policy : Z;
  m_callbacks : Callback -> bool;
  m_calls : list Call
}.
#[export] Instance LdnSessionHandler_eta : Eta LdnSessionHandler := fun s =>
  Build_LdnSessionHandler (m_state s) (m_is_host s) (m_local_node_id s) (m_last_ping_id s)
    (m_session_id s) (m_mac_address s) (m_network_info s) (m_accept_policy s) (m_callbacks s)
    (m_calls s).

Definition new_LdnSessionHandler : LdnSessionHandler := {|
  m_state := LdnSessionState_None; m_is_host := false; m_local_node_id := -1;
  m_last_ping_id := 0; m_session_id := zeroed SessionId; m_mac_address := zeroed MacAddress;
  m_network_info := zeroed NetworkInfo;
  m_accept_policy := AcceptPolicy_value AcceptPolicy_AcceptAll;
  m_callbacks := fun _ => false; m_calls := [] |}.

(** The eight setters of a callback; null unregisters it. *)
Definition set_callback (c : Callback) (set : bool) (s : LdnSessionHandler) : LdnSessionHandler :=
  s <| m_callbacks := fun c' => if decide (c' = c) then set else m_callbacks s c' |>.

(** [if (callback) callback(...)] *)
Definition call (c : Callback) (args : Call) (s : LdnSessionHandler) : LdnSessionHandler :=
  if m_callbacks s c then s <| m_calls := m_calls s ++ [args] |> else s.

Definition set_state (new_state : LdnSessionState) (s : LdnSessionHandler) : LdnSessionHandler :=
  if decide (m_state s = new_state) then s
  else call SessionStateCallback (StateChanged (m_state s) new_state)
         (s <| m_state := new_state |>).

(** ** Queries *)

Definition is_in_session (s : LdnSessionHandler) : bool :=
  match m_state s with
  | LdnSessionState_Station | LdnSessionState_StationConnected
  | LdnSessionState_AccessPoint | LdnSessionState_AccessPointCreated => true
  | _ => false
  end.

Definition get_node_count (s : LdnSessionHandler) : Z :=
  if is_in_session s then ldn_node_count (ni_ldn (m_network_info s)) else 0.
Definition get_max_nodes (s : LdnSessionHandler) : Z :=
  if is_in_session s then ldn_node_count_max (ni_ldn (m_network_info s)) else 0.

(** ** Actions *)

Definition set_local_node_id (node_id : Z) (s : LdnSessionHandler) : LdnSessionHandler :=
  let s := s <| m_local_node_id := node_id |> in
  if (node_id =? 0) && is_in_session s then s <| m_is_host := true |> else s.

Definition leave_session (s : LdnSessionHandler) : LdnSessionHandler :=
  if negb (is_in_session s) && negb (bool_decide (m_state s = LdnSessionState_Initialized)) then s
  else set_state LdnSessionState_Initialized
         (s <| m_is_host := false |> <| m_local_node_id := -1 |>
            <| m_network_info := zeroed NetworkInfo |>).

(** The callbacks stay, and none is called. *)
Definition reset (s : LdnSessionHandler) : LdnSessionHandler :=
  s <| m_state := LdnSessionState_None |> <| m_is_host := false |> <| m_local_node_id := -1 |>
    <| m_last_ping_id := 0 |>
    <| m_accept_policy := AcceptPolicy_value AcceptPolicy_AcceptAll |>
    <| m_session_id := zeroed SessionId |> <| m_mac_address := zeroed MacAddress |>
    <| m_network_info := zeroed NetworkInfo |>.

(** ** Packets *)

Definition handle_initialize (msg : InitializeMessage) (s : LdnSessionHandler)
    : LdnSessionHandler :=
  set_state LdnSessionState_Initialized
    (s <| m_session_id := init_id msg |> <| m_mac_address := init_mac_address msg |>).

Definition network_updated (s : LdnSessionHandler) : LdnSessionHandler :=
  call NetworkUpdatedCallback (NetworkUpdated (m_network_info s)) s.

Definition handle_connected (info : NetworkInfo) (s : LdnSessionHandler) : LdnSessionHandler :=
  network_updated (set_state LdnSessionState_Station
    (s <| m_network_info := info |> <| m_is_host := false |>)).

Definition handle_sync_network (info : NetworkInfo) (s : LdnSessionHandler)
    : LdnSessionHandler :=
  let s := s <| m_network_info := info |> in
  let s := if m_local_node_id s =? 0 then
             let s := s <| m_is_host := true |> in
             if decide (m_state s = LdnSessionState_Initialized)
             then set_state LdnSessionState_AccessPoint s else s
           else s in
  let s := if bool_decide (m_state s = LdnSessionState_Initialized) && m_is_host s
           then set_state LdnSessionState_AccessPoint s else s in
  network_updated s.

Definition handle_scan_reply (info : NetworkInfo) : LdnSessionHandler -> LdnSessionHandler :=
  call ScanResultCallback (ScanResult info).
Definition handle_scan_reply_end : LdnSessionHandler -> LdnSessionHandler :=
  call ScanCompletedCallback ScanCompleted.

(** Whether the ping has to be echoed. *)
Definition handle_ping (msg : PingMessage) (s : LdnSessionHandler) : bool * LdnSessionHandler :=
  (ping_requester msg =? 0, s <| m_last_ping_id := ping_id msg |>).

Definition handle_disconnect (msg : DisconnectMessage) : LdnSessionHandler -> LdnSessionHandler :=
  call DisconnectedCallback (Disconnected (disc_disconnect_ip msg)).
Definition handle_network_error (msg : NetworkErrorMessage)
    : LdnSessionHandler -> LdnSessionHandler :=
  call ErrorCallback (ErrorReported (neterr_error_code msg)).

(** [static_cast<int8_t>(req.node_id) == m_local_node_id] *)
Definition handle_reject (req : RejectRequest) (s : LdnSessionHandler) : LdnSessionHandler :=
  let s := call RejectedCallback (Rejected (rej_node_id req) (rej_disconnect_reason req)) s in
  if s8 (rej_node_id req) =? m_local_node_id s then leave_session s else s.
Definition handle_reject_reply (s : LdnSessionHandler) : LdnSessionHandler := s.

Definition handle_set_accept_policy (req : SetAcceptPolicyRequest) (s : LdnSessionHandler)
    : LdnSessionHandler :=
  let s := s <| m_accept_policy := sap_accept_policy req |> in
  call AcceptPolicyChangedCallback (AcceptPolicyChanged (m_accept_policy s)) s.

(** ** Runs *)

Inductive event : Type :=
| EvCallback (c : Callback) (set : bool) | EvNodeId (node_id : Z) | EvLeave | EvReset
| EvInitialize (msg : InitializeMessage) | EvConnected (info : NetworkInfo)
| EvSyncNetwork (info : NetworkInfo) | EvScanReply (info : NetworkInfo) | EvScanReplyEnd
| EvPing (msg : PingMessage) | EvDisconnect (msg : DisconnectMessage)
| EvNetworkError (msg : NetworkErrorMessage) | EvReject (req : RejectRequest) | EvRejectReply
| EvSetAcceptPolicy (req : SetAcceptPolicyRequest).

Definition handle (e : event) : LdnSessionHandler -> LdnSessionHandler :=
  match e with
  | EvCallback c set => set_callback c set
  | EvNodeId node_id => set_local_node_id node_id
  | EvLeave => leave_session
  | EvReset => reset
  | EvInitialize msg => handle_initialize msg
  | EvConnected info => handle_connected info
  | EvSyncNetwork info => handle_sync_network info
  | EvScanReply info => handle_scan_reply info
  | EvScanReplyEnd => handle_scan_reply_end
  | EvPing msg => fun s => (handle_ping msg s).2
  | EvDisconnect msg => handle_disconnect msg
  | EvNetworkError msg => handle_network_error msg
  | EvReject req => handle_reject req
  | EvRejectReply => handle_reject_reply
  | EvSetAcceptPolicy req => handle_set_accept_policy req
  end.

Definition handles (events : list event) (s : LdnSessionHandler) : LdnSessionHandler :=
  foldl (fun s e => handle e s) s events.

(** ** Properties *)

(** What the state callback has been told. *)
Definition reported (s : LdnSessionHandler) : list (LdnSessionState * LdnSessionState) :=
  omap (fun c => match c with StateChanged a b => Some (a, b) | _ => None end) (m_calls s).

(** The state the packets lead to. *)
Definition next_state (e : event) (s : LdnSessionHandler) : LdnSessionState :=
  match e with
  | EvReset => LdnSessionState_None
  | EvInitialize _ => LdnSessionState_Initialized
  | EvConnected _ => LdnSessionState_Station
  | EvSyncNetwork _ =>
      if decide (m_state s = LdnSessionState_Initialized
                 /\ (m_local_node_id s =? 0) || m_is_host s = true)
      then LdnSessionState_AccessPoint else m_state s
  | EvLeave => if is_in_session s then LdnSessionState_Initialized else m_state s
  | EvReject req => if is_in_session s && (s8 (rej_node_id req) =? m_local_node_id s)
                    then LdnSessionState_Initialized else m_state s
  | _ => m_state s
  end.

(** The changes of the state in a run, those by [reset] excepted. *)
Fixpoint changes (events : list event) (s : LdnSessionHandler)
    : list (LdnSessionState * LdnSessionState) :=
  match events with
  | [] => []
  | e :: events =>
      let s' := handle e s in
      match e with
      | EvReset => changes events s'
      | _ => (if decide (m_state s = m_state s') then [] else [(m_state s, m_state s')])
             ++ changes events s'
      end
  end.

Definition keeps_state_callback (e : event) : Prop :=
  match e with EvCallback SessionStateCallback _ => False | _ => True end.

Lemma call_fields c args s :
  m_state (call c args s) = m_state s /\ m_is_host (call c args s) = m_is_host s
  /\ m_local_node_id (call c args s) = m_local_node_id s
  /\ m_callbacks (call c args s) = m_callbacks s
  /\ is_in_session (call c args s) = is_in_session s.
Proof. unfold call. by destruct (m_callbacks s c). Qed.

Lemma set_state_fields st s :
  m_state (set_state st s) = st /\ m_is_host (set_state st s) = m_is_host s
  /\ m_local_node_id (set_state st s) = m_local_node_id s
  /\ m_callbacks (set_state st s) = m_callbacks s.
Proof.
  unfold set_state. destruct (decide _) as [E|]; [by split_and!|].
  destruct (call_fields SessionStateCallback (StateChanged (m_state s) st) (s <| m_state := st |>))
    as (H1 & H2 & H3 & H4 & _). by rewrite H1, H2, H3, H4.
Qed.

Lemma sync_network_spec info s :
  let s' := s <| m_network_info := info |>
              <| m_is_host := (m_local_node_id s =? 0) || m_is_host s |> in
  handle_sync_network info s
  = network_updated (if decide (m_state s = LdnSessionState_Initialized /\ m_is_host s' = true)
                     then set_state LdnSessionState_AccessPoint s' else s').
Proof.
  unfold handle_sync_network. cbv zeta. f_equal. destruct s as [st host node ping sid mac info0 pol cbs calls].
  cbn [m_local_node_id m_is_host m_state upd]. destruct (node =? 0), st, host; try done.
  all: cbn; unfold set_state; cbn; try done; unfold call; cbn; by destruct (cbs _).
Qed.
Lemma leave_state s :
  m_state (leave_session s) = if is_in_session s then LdnSessionState_Initialized else m_state s.
Proof.
  unfold leave_session. destruct (is_in_session s) eqn:E; cbn [negb andb].
  - apply set_state_fields.
  - destruct (decide (m_state s = LdnSessionState_Initialized)) as [E2|E2].
    + rewrite bool_decide_eq_true_2 by done. cbn [negb]. rewrite E2. apply set_state_fields.
    + by rewrite bool_decide_eq_false_2.
Qed.

Lemma handle_state e s : m_state (handle e s) = next_state e s.
Proof.
  destruct e as [c set|node_id| | |msg|info|info|info| |msg|msg|msg|req| |req];
    cbn [handle next_state]; try done; try apply call_fields.
  - unfold set_local_node_id. by destruct (_ && _).
  - apply leave_state.
  - apply set_state_fields.
  - unfold handle_connected, network_updated. etrans; [apply call_fields|]. apply set_state_fields.
  - rewrite sync_network_spec. unfold network_updated. etrans; [apply call_fields|].
    cbn [m_is_host upd]. destruct (decide _); [apply set_state_fields|done].
  - unfold handle_reject. rewrite (proj1 (proj2 (proj2 (call_fields _ _ _)))).
    destruct (s8 (rej_node_id req) =? m_local_node_id s).
    + rewrite andb_true_r, leave_state.
      destruct (call_fields RejectedCallback (Rejected (rej_node_id req) (rej_disconnect_reason req)) s)
        as (-> & _ & _ & _ & ->). done.
    + rewrite andb_false_r. apply call_fields.
  - unfold handle_set_accept_policy. etrans; [apply call_fields|done].
Qed.

(** *** Reports *)

Lemma reported_call c args s :
  (forall a b, args <> StateChanged a b) -> reported (call c args s) = reported s.
Proof.
  intros Ha. unfold call. destruct (m_callbacks s c); [|done]. unfold reported. cbn.
  rewrite omap_app. cbn. destruct args; [by destruct (Ha old_state new_state)|..]; by rewrite app_nil_r.
Qed.

(** The change of the state, if there is one. *)
Definition change (before after : LdnSessionState) : list (LdnSessionState * LdnSessionState) :=
  if decide (before = after) then [] else [(before, after)].

Lemma reports_call c args s :
  (forall a b, args <> StateChanged a b) ->
  reported (call c args s) = reported s ++ change (m_state s) (m_state (call c args s)).
Proof.
  intros Ha. rewrite reported_call by done. rewrite (proj1 (call_fields _ _ _)).
  unfold change. by rewrite decide_True, app_nil_r.
Qed.

Lemma reported_set_state st s :
  m_callbacks s SessionStateCallback = true ->
  reported (set_state st s) = reported s ++ change (m_state s) st.
Proof.
  intros Hc. unfold set_state, change. destruct (decide _); [by rewrite app_nil_r|].
  unfold call. cbn. rewrite Hc. unfold reported. cbn. by rewrite omap_app.
Qed.

Lemma reported_leave s :
  m_callbacks s SessionStateCallback = true ->
  reported (leave_session s) = reported s ++ change (m_state s) (m_state (leave_session s)).
Proof.
  intros Hc. rewrite leave_state. unfold leave_session. destruct (is_in_session s) eqn:E; cbn [negb andb].
  - by rewrite reported_set_state.
  - destruct (decide (m_state s = LdnSessionState_Initialized)) as [E2|E2].
    + rewrite bool_decide_eq_true_2 by done. cbn [negb]. rewrite reported_set_state by done.
      cbn. by rewrite E2.
    + rewrite bool_decide_eq_false_2 by done. cbn [negb]. unfold change.
      rewrite decide_True by done. by rewrite app_nil_r.
Qed.

Lemma handle_reports e s :
  m_callbacks s SessionStateCallback = true -> keeps_state_callback e -> e <> EvReset ->
  reported (handle e s) = reported s ++ change (m_state s) (m_state (handle e s)).
Proof.
  intros Hc He Hr. assert (Hsame : forall st, change st st = []).
  { intros st. unfold change. by rewrite decide_True. }
  destruct e as [c set|node_id| | |msg|info|info|info| |msg|msg|msg|req| |req]; try done;
    cbn [handle].
  all: try solve [cbn; by rewrite Hsame, app_nil_r].
  - unfold set_local_node_id. destruct (_ && _); cbn; by rewrite Hsame, app_nil_r.
  - by apply reported_leave.
  - unfold handle_initialize. rewrite reported_set_state by done.
    by rewrite (proj1 (set_state_fields _ _)).
  - unfold handle_connected, network_updated. rewrite reported_call by done.
    rewrite reported_set_state by done.
    by rewrite (proj1 (call_fields _ _ _)), (proj1 (set_state_fields _ _)).
  - rewrite sync_network_spec. unfold network_updated. rewrite reported_call by done.
    rewrite (proj1 (call_fields _ _ _)). destruct (decide _) as [[E _]|].
    + rewrite reported_set_state by done. by rewrite (proj1 (set_state_fields _ _)).
    + cbn. by rewrite Hsame, app_nil_r.
  - by apply reports_call.
  - by apply reports_call.
  - by apply reports_call.
  - by apply reports_call.
  - unfold handle_reject. set (s1 := call _ _ s).
    assert (Hs1 : reported s1 = reported s) by by apply reported_call.
    destruct (call_fields RejectedCallback (Rejected (rej_node_id req) (rej_disconnect_reason req)) s)
      as (Hst & _ & _ & Hcb & _). fold s1 in Hst, Hcb.
    destruct (_ =? _).
    + rewrite reported_leave by (by rewrite Hcb). by rewrite Hs1, Hst.
    + by rewrite Hs1, Hst, Hsame, app_nil_r.
  - by apply (reports_call AcceptPolicyChangedCallback).
Qed.

Lemma handle_callbacks e s :
  keeps_state_callback e ->
  m_callbacks (handle e s) SessionStateCallback = m_callbacks s SessionStateCallback.
Proof.
  assert (Hcall : forall c args s, m_callbacks (call c args s) = m_callbacks s) by apply call_fields.
  assert (Hset : forall st s, m_callbacks (set_state st s) = m_callbacks s) by apply set_state_fields.
  assert (Hleave : forall s, m_callbacks (leave_session s) = m_callbacks s).
  { intros s1. unfold leave_session. destruct (_ && _); [done|]. by rewrite Hset. }
  intros He. destruct e as [c set|node_id| | |msg|info|info|info| |msg|msg|msg|req| |req];
    cbn [handle]; try done; try by rewrite ?Hleave, ?Hcall.
  all: try (etrans; [apply (f_equal (fun f => f SessionStateCallback)), Hcall|reflexivity]).
  - cbn. rewrite decide_False; [done|]. by intros <-.
  - unfold set_local_node_id. by destruct (_ && _).
  - unfold handle_initialize. by rewrite Hset.
  - unfold handle_connected, network_updated. by rewrite Hcall, Hset.
  - rewrite sync_network_spec. unfold network_updated. rewrite Hcall.
    destruct (decide _); [by rewrite Hset|done].
  - unfold handle_reject. destruct (_ =? _); by rewrite ?Hleave, Hcall.
Qed.

(** The states a session is in, and who hosts. *)
Definition session_ok (s : LdnSessionHandler) : Prop :=
  m_state s ∈ [LdnSessionState_None; LdnSessionState_Initialized; LdnSessionState_Station;
               LdnSessionState_AccessPoint]
  /\ (m_state s = LdnSessionState_AccessPoint -> m_is_host s = true).

Lemma leave_host s : is_in_session s = false -> m_is_host s = true ->
  m_state s <> LdnSessionState_Initialized -> m_is_host (leave_session s) = true.
Proof.
  intros Hs Hh Hi. unfold leave_session. rewrite Hs. by rewrite bool_decide_eq_false_2 by done.
Qed.

(** Nothing but leaving the state ends the role of the host of an access point. *)
Lemma handle_host e s :
  (m_state s = LdnSessionState_AccessPoint -> m_is_host s = true) ->
  m_state (handle e s) = LdnSessionState_AccessPoint -> m_is_host (handle e s) = true.
Proof.
  intros Hs Hap. pose proof Hap as Hnext. rewrite handle_state in Hnext.
  destruct e as [c set|node_id| | |msg|info|info|info| |msg|msg|msg|req| |req];
    cbn [handle next_state] in *; try done; try (by apply Hs);
    try (etrans; [apply call_fields|by apply Hs]).
  - unfold set_local_node_id. destruct (_ && _); [done|by apply Hs].
  - unfold is_in_session in Hnext. by destruct (m_state s).
  - rewrite sync_network_spec. unfold network_updated. etrans; [apply call_fields|].
    destruct (decide _) as [[_ Hh]|Hn].
    + etrans; [apply set_state_fields|exact Hh].
    + cbn. by rewrite (Hs Hnext), orb_true_r.
  - unfold is_in_session in Hnext. unfold handle_reject in *.
    destruct (call_fields RejectedCallback (Rejected (rej_node_id req) (rej_disconnect_reason req)) s)
      as (Hst & Hh & Hn & _).
    rewrite Hn in *. destruct (s8 (rej_node_id req) =? m_local_node_id s).
    + destruct (m_state s); done.
    + rewrite Hh. apply Hs. by rewrite andb_false_r in Hnext.
Qed.

Lemma handle_ok e s : session_ok s -> session_ok (handle e s).
Proof.
  intros [Hs Hh]. split; [|by apply handle_host].
  rewrite handle_state. destruct e; cbn [next_state]; try exact Hs; try (by set_solver);
    repeat case_match; try exact Hs; set_solver.
Qed.

(** C35: over every sequence of packets and calls, a session is uninitialised, idle,
    in a network or hosting one - the other states of the enumeration are never
    entered -, it is the host whenever it is in the state of an access point,
    its state is the one the packets lead to, and a registered state callback is
    told exactly the changes of the state, in order, except those by [reset]. *)
Theorem session_follows_packets events :
  Forall keeps_state_callback events ->
  let s0 := set_callback SessionStateCallback true new_LdnSessionHandler in
  let s := handles events s0 in
  session_ok s /\ reported s = changes events s0
  /\ forall e, m_state (handle e s) = next_state e s.
Proof.
  intros Hcb s0 s.
  assert (Hrun : forall events s, Forall keeps_state_callback events -> session_ok s ->
    m_callbacks s SessionStateCallback = true ->
    session_ok (handles events s) /\ reported (handles events s) = reported s ++ changes events s).
  { clear. intros events. induction events as [|e events IH]; intros s Hcb Hs Hc.
    { split; [done|]. by rewrite app_nil_r. }
    apply Forall_cons in Hcb as [He Hcb]. cbn [handles foldl].
    change (foldl (fun s e => handle e s) (handle e s) events) with (handles events (handle e s)).
    destruct (IH (handle e s) Hcb (handle_ok e s Hs)) as [H1 H2].
    { by rewrite handle_callbacks. }
    split; [exact H1|]. rewrite H2. cbn [changes].
    assert (e = EvReset \/ e <> EvReset) as [->|Hr] by (destruct e; solve [by left|by right]);
      [done|].
    rewrite (handle_reports e s Hc He Hr), <- app_assoc. by destruct e. }
  destruct (Hrun events s0 Hcb) as [H1 H2]; [by split; [set_solver|]|done|].
  split; [exact H1|]. split; [exact H2|]. intros e. apply handle_state.
Qed.

(** A player without a node id, to whom -1 stands for none, leaves its network
    when node 255 is rejected. *)
Example rejected_without_id :
  let s := handle (EvConnected (zeroed NetworkInfo)) new_LdnSessionHandler in
  m_state s = LdnSessionState_Station
  /\ m_state (handle (EvReject {| rej_node_id := 255; rej_disconnect_reason := 1 |}) s)
     = LdnSessionState_Initialized.
Proof. by vm_compute. Qed.

Lemma session_follows_packets_witness :
  let s0 := set_callback SessionStateCallback true new_LdnSessionHandler in
  reported (handles [EvInitialize (zeroed InitializeMessage); EvNodeId 0;
                     EvSyncNetwork (zeroed NetworkInfo); EvLeave; EvReset] s0)
  = [(LdnSessionState_None, LdnSessionState_Initialized);
     (LdnSessionState_Initialized, LdnSessionState_AccessPoint);
     (LdnSessionState_AccessPoint, LdnSessionState_Initialized)].
Proof.
  intros s0. destruct (session_follows_packets [EvInitialize (zeroed InitializeMessage); EvNodeId 0;
    EvSyncNetwork (zeroed NetworkInfo); EvLeave; EvReset]) as (_ & H & _).
  - repeat constructor.
  - etrans; [exact H|]. vm_compute. reflexivity.
Defined.
