(* ===== verification/ProxyHandler.v ===== *)
(** * Proxy handler ([ldn/ldn_proxy_handler.{hpp,cpp}])

    The table of the connections that are tunneled through the server, and its
    equivalence with a definition that looks at the whole history: a connection
    is in the table when nothing has closed it since it was opened.  The calls
    of the registered callbacks are the log [m_calls], oldest first. *)

From stdpp Require Import base numbers list.
From Stdlib Require Import ZArith Lia Bool.
From S2P Require Import Prelude Layout Imperative Types.

Inductive Callback : Set :=
| ProxyConfigCallback | ProxyConnectCallback | ProxyConnectReplyCallback
| ProxyDataCallback | ProxyDisconnectCallback.

#[export] Instance Callback_eq_dec : EqDecision Callback.
Proof. solve_decision. Defined.

Inductive Call : Type :=
| ConfigReceived (config : ProxyConfig)
| ConnectReceived (info : ProxyInfo)
| ReplyReceived (info : ProxyInfo)
| DataReceived (info : ProxyInfo) (data : list Z) (length : Z)
| DisconnectReceived (info : ProxyInfo) (reason : Z).

Record ProxyConnection : Type := {
  source_ipv4 : Z;
  source_port : Z;
  dest_ipv4 : Z;
  dest_port : Z;
  protocol : Z
}.

(** [ProxyConnection::matches] *)
Definition matches (src_ip src_port dst_ip dst_port proto : Z) (c : ProxyConnection) : bool :=
  (source_ipv4 c =? src_ip) && (source_port c =? src_port)
  && (dest_ipv4 c =? dst_ip) && (dest_port c =? dst_port) && (protocol c =? proto).
Definition matches_info (info : ProxyInfo) : ProxyConnection -> bool :=
  matches (pi_source_ipv4 info) (pi_source_port info) (pi_dest_ipv4 info) (pi_dest_port info)
    (pi_protocol info).

Record LdnProxyHandler : Type := {
  m_configured : bool;
  m_proxy_ip : Z;
  m_proxy_subnet_mask : Z;
  m_connections : list ProxyConnection;
  m_callbacks : Callback -> bool;
  m_calls : list Call
}.
#[export] Instance LdnProxyHandler_eta : Eta LdnProxyHandler := fun s =>
  Build_LdnProxyHandler (m_configured s) (m_proxy_ip s) (m_proxy_subnet_mask s)
    (m_connections s) (m_callbacks s) (m_calls s).

Definition new_LdnProxyHandler : LdnProxyHandler := {|
  m_configured := false; m_proxy_ip := 0; m_proxy_subnet_mask := 0; m_connections := [];
  m_callbacks := fun _ => false; m_calls := [] |}.

(** The five setters of a callback; null unregisters it. *)
Definition set_callback (c : Callback) (set : bool) (s : LdnProxyHandler) : LdnProxyHandler :=
  s <| m_callbacks := fun c' => if decide (c' = c) then set else m_callbacks s c' |>.

Definition call (c : Callback) (args : Call) (s : LdnProxyHandler) : LdnProxyHandler :=
  if m_callbacks s c then s <| m_calls := m_calls s ++ [args] |> else s.

Definition connection (info : ProxyInfo) : ProxyConnection := {|
  source_ipv4 := pi_source_ipv4 info; source_port := pi_source_port info;
  dest_ipv4 := pi_dest_ipv4 info; dest_port := pi_dest_port info;
  protocol := pi_protocol info |}.

Definition add_connection (info : ProxyInfo) (s : LdnProxyHandler) : LdnProxyHandler :=
  s <| m_connections := m_connections s ++ [connection info] |>.

(** [std::remove_if] and [erase] *)
Definition remove_connection (info : ProxyInfo) (s : LdnProxyHandler) : LdnProxyHandler :=
  s <| m_connections := List.filter (fun c => negb (matches_info info c)) (m_connections s) |>.

Definition handle_proxy_config (config : ProxyConfig) (s : LdnProxyHandler) : LdnProxyHandler :=
  call ProxyConfigCallback (ConfigReceived config)
    (s <| m_proxy_ip := pc_proxy_ip config |>
       <| m_proxy_subnet_mask := pc_proxy_subnet_mask config |> <| m_configured := true |>).

Definition handle_proxy_connect (req : ProxyConnectRequest) (s : LdnProxyHandler)
    : LdnProxyHandler :=
  call ProxyConnectCallback (ConnectReceived (pcq_info req)) (add_connection (pcq_info req) s).

Definition handle_proxy_connect_reply (resp : ProxyConnectResponse)
    : LdnProxyHandler -> LdnProxyHandler :=
  call ProxyConnectReplyCallback (ReplyReceived (pcr_info resp)).

Definition handle_proxy_data (data_header : ProxyDataHeader) (payload : list Z)
    (payload_length : Z) : LdnProxyHandler -> LdnProxyHandler :=
  call ProxyDataCallback (DataReceived (pdh_info data_header) payload payload_length).

Definition handle_proxy_disconnect (msg : ProxyDisconnectMessage) (s : LdnProxyHandler)
    : LdnProxyHandler :=
  call ProxyDisconnectCallback (DisconnectReceived (pdm_info msg) (pdm_disconnect_reason msg))
    (remove_connection (pdm_info msg) s).

Definition get_connection_count (s : LdnProxyHandler) : Z := zlen (m_connections s).
Definition has_connection (src_ip src_port dst_ip dst_port proto : Z) (s : LdnProxyHandler)
    : bool :=
  existsb (matches src_ip src_port dst_ip dst_port proto) (m_connections s).

(** The callbacks stay. *)
Definition reset (s : LdnProxyHandler) : LdnProxyHandler :=
  s <| m_configured := false |> <| m_proxy_ip := 0 |> <| m_proxy_subnet_mask := 0 |>
    <| m_connections := [] |>.

(** ** Runs *)

Inductive event : Type :=
| EvCallback (c : Callback) (set : bool) | EvReset
| EvConfig (config : ProxyConfig) | EvConnect (req : ProxyConnectRequest)
| EvReply (resp : ProxyConnectResponse)
| EvData (data_header : ProxyDataHeader) (payload : list Z) (payload_length : Z)
| EvDisconnect (msg : ProxyDisconnectMessage).

Definition handle (e : event) : LdnProxyHandler -> LdnProxyHandler :=
  match e with
  | EvCallback c set => set_callback c set
  | EvReset => reset
  | EvConfig config => handle_proxy_config config
  | EvConnect req => handle_proxy_connect req
  | EvReply resp => handle_proxy_connect_reply resp
  | EvData data_header payload n => handle_proxy_data data_header payload n
  | EvDisconnect msg => handle_proxy_disconnect msg
  end.

Definition handles (events : list event) (s : LdnProxyHandler) : LdnProxyHandler :=
  foldl (fun s e => handle e s) s events.

(** ** The table as the history defines it *)

Definition closes (e : event) (c : ProxyConnection) : bool :=
  match e with
  | EvReset => true
  | EvDisconnect msg => matches_info (pdm_info msg) c
  | _ => false
  end.

Definition survives (events : list event) (c : ProxyConnection) : bool :=
  negb (existsb (fun e => closes e c) events).

(** The connections that were opened and that nothing behind them closes. *)
Fixpoint open_connections (events : list event) : list ProxyConnection :=
  match events with
  | [] => []
  | EvConnect req :: events =>
      (if survives events (connection (pcq_info req)) then [connection (pcq_info req)] else [])
      ++ open_connections events
  | _ :: events => open_connections events
  end.

Lemma call_connections c args s : m_connections (call c args s) = m_connections s.
Proof. unfold call. by destruct (m_callbacks s c). Qed.

Lemma survives_cons e events c :
  survives (e :: events) c = negb (closes e c) && survives events c.
Proof. unfold survives. cbn [existsb]. apply negb_orb. Qed.

Lemma filter_survives e events l :
  List.filter (survives (e :: events)) l
  = List.filter (survives events) (List.filter (fun c => negb (closes e c)) l).
Proof.
  induction l as [|c l IH]; [done|]. cbn [List.filter]. rewrite survives_cons, IH.
  destruct (closes e c); [done|]. cbn [negb andb List.filter]. by destruct (survives events c).
Qed.

Lemma filter_true {A} (l : list A) : List.filter (fun _ => true) l = l.
Proof. induction l as [|a l IH]; [done|]. cbn. by rewrite IH. Qed.
Lemma filter_false {A} (l : list A) : List.filter (fun _ => false) l = [].
Proof. by induction l. Qed.

(** One event: what it closes goes, what it opens comes last. *)
Lemma handle_connections e s :
  m_connections (handle e s) = List.filter (fun c => negb (closes e c)) (m_connections s)
    ++ match e with EvConnect req => [connection (pcq_info req)] | _ => [] end.
Proof.
  destruct e; cbn [handle closes negb]; rewrite ?filter_true, ?filter_false, ?app_nil_r; try done.
  all: etrans; [apply call_connections|]; try done.
Qed.

(** the table of connections after any sequence of packets and resets holds
    exactly the connections that were opened and not closed since, in the order
    they were opened, one entry for each request; a query finds a connection
    when it is among them. *)
Theorem connections_follow_history events s :
  let table := List.filter (survives events) (m_connections s) ++ open_connections events in
  m_connections (handles events s) = table
  /\ get_connection_count (handles events s) = zlen table
  /\ forall info,
      has_connection (pi_source_ipv4 info) (pi_source_port info) (pi_dest_ipv4 info)
        (pi_dest_port info) (pi_protocol info) (handles events s) = true
      <-> connection info ∈ table.
Proof.
  intros table. assert (Ht : m_connections (handles events s) = table).
  { subst table. revert s. induction events as [|e events IH]; intros s; cbn [handles foldl].
    - by rewrite app_nil_r, filter_true.
    - change (foldl (fun s e => handle e s) (handle e s) events) with (handles events (handle e s)).
      rewrite IH, handle_connections, List.filter_app, filter_survives, <- app_assoc. f_equal.
      destruct e; try done; cbn [List.filter app open_connections]. }
  split; [exact Ht|]. split; [unfold get_connection_count; by rewrite Ht|].
  intros info. unfold has_connection. rewrite Ht, existsb_exists.
  setoid_rewrite <- list_elem_of_In. split.
  - intros (c & Hin & Hc). unfold matches in Hc.
    rewrite !andb_true_iff, !Z.eqb_eq in Hc. destruct Hc as ((((E1 & E2) & E3) & E4) & E5).
    destruct c; cbn in *; subst.
    exact Hin.
  - intros Hin. exists (connection info). split; [exact Hin|]. unfold matches, connection. cbn.
    by rewrite !Z.eqb_refl.
Qed.
