(* ===== verification/BsdService.v ===== *)
(** * The intercepted socket service ([bsd/bsd_mitm_service.{hpp,cpp}])

    The IPC commands of a game's BSD session: each one is answered by a proxy
    socket of the manager or handed to the system's [bsd:u] service.  The state
    [Bsd] holds the static tables of the file, the socket manager, and the
    [BsdMitmService] objects under the address [this].

    What the system answers is the parameter [real]: it gets the requests that
    were forwarded before and the new one, and says what the call returns and
    what the variable [out] and the output buffers hold after it (the request
    carries what they held before).  A buffer is [None] for a null pointer.
    A command answers with its [Result], the words it sets, in the order of the
    IPC interface, and its output buffers; a failing [Result] delivers no words.
    [None] is a call that does not return, or one on an object or a proxy socket
    that does not exist.  The steps other threads take on a proxy socket while a
    call waits are the argument [others]; [now_ms] is the clock. *)

From stdpp Require Import base numbers list gmap.
From Stdlib Require Import ZArith Lia Bool.
From S2P Require Import Prelude Layout Imperative BsdTypes ProxyLink ProxySocket.
From S2P Require Import ProxySocketManager.
From S2P Require SharedState GameWhitelist.
Import SharedState (SharedState).
Import GameWhitelist (Whitelist).

(** ** State *)

Record SocketInfo : Type := {
  si_type : SocketType;
  si_protocol : ProtocolType;
  si_is_proxy : bool;
  si_broadcast : bool;
  si_session_id : Z
}.
#[export] Instance SocketInfo_eta : Eta SocketInfo := fun i =>
  Build_SocketInfo (si_type i) (si_protocol i) (si_is_proxy i) (si_broadcast i) (si_session_id i).

(** [m_session] is the kernel handle in the forward service, 0 when closed. *)
Record BsdMitmService : Type := {
  m_client_pid : Z;
  m_command_count : Z;
  m_session_id : Z;
  m_registered : bool;
  m_session : Z
}.
#[export] Instance BsdMitmService_eta : Eta BsdMitmService := fun s =>
  Build_BsdMitmService (m_client_pid s) (m_command_count s) (m_session_id s) (m_registered s)
    (m_session s).

Record AbandonedService : Type := { as_client_pid : Z; as_session : Z }.

Abbreviation Buffer := (option (list Z)).
Definition GetSize (b : Buffer) : Z := zlen (default [] b).

(** A request to the real service: the session, the command, the raw input, the
    input buffers, the output buffers as they are, the process id it is tagged
    with and the handles it copies. *)
Record Request : Type := {
  rq_session : Z;
  rq_command : Z;
  rq_raw : list Z;
  rq_in : list Buffer;
  rq_out : list Buffer;
  rq_override_pid : option Z;
  rq_handles : list Z
}.

(** Its answer: the [Result], the words of [out], the output buffers. *)
Record Answer : Type := { an_rc : Z; an_words : list Z; an_buffers : list Buffer }.

Definition an_word (i : nat) (a : Answer) : Z := nth i (an_words a) 0.
Definition an_buffer (i : nat) (a : Answer) : Buffer := nth i (an_buffers a) None.

Record Bsd : Type := {
  g_socket_info : gmap Z SocketInfo;
  g_mitm_pid_count : gmap Z Z;
  g_active_intercepted_sessions_count : gmap Z Z;
  s_pid_program_ids : gmap Z Z;
  g_abandoned_forward_services : list AbandonedService;
  s_next_session_id : Z;
  services : gmap Z BsdMitmService;
  manager : ProxySocketManager;
  shared_state : SharedState;
  whitelist : Whitelist;
  forwarded : list Request;         (** what the real service was asked *)
  closed_handles : list Z           (** the arguments of [svcCloseHandle] *)
}.
#[export] Instance Bsd_eta : Eta Bsd := fun s =>
  Build_Bsd (g_socket_info s) (g_mitm_pid_count s) (g_active_intercepted_sessions_count s)
    (s_pid_program_ids s) (g_abandoned_forward_services s) (s_next_session_id s) (services s)
    (manager s) (shared_state s) (whitelist s) (forwarded s) (closed_handles s).

Abbreviation Method := (M Bsd).

(** What a command returns to the game. *)
Record Reply : Type := { rep_rc : Z; rep_words : list Z; rep_buffers : list Buffer }.

(** [R_SUCCEED()] with the given outputs. *)
Definition success (words : list Z) (buffers : list Buffer) : Reply :=
  {| rep_rc := 0; rep_words := words; rep_buffers := buffers |}.

Definition Errno_NoMem : Z := 12.
Definition Errno_AddrInUse : Z := 98.

(** Consecutive 32-bit fields of a raw input. *)
Definition s32s (l : list Z) : list Z := concat (le_split 4 <$> l).

(** [std::memcpy] to the front of a buffer. *)
Definition fill (bytes : list Z) (b : Buffer) : Buffer := write_at 0 bytes <$> b.
(** [if (buffer.GetSize() >= sizeof(SockAddrIn)) std::memcpy(...)] *)
Definition fill_addr (addr : SockAddrIn) (b : Buffer) : Buffer :=
  if 16 <=? GetSize b then fill (bytes_of addr) b else b.

(** The address of a game, when the buffer holds one. *)
Definition copied_addr (addr : Buffer) : option SockAddrIn :=
  match addr with
  | Some bytes => if 16 <=? zlen bytes then Some (of_bytes bytes) else None
  | None => None
  end.

(** ** Casts of IPC integers *)

Definition cast_SocketType (z : Z) : SocketType :=
  if z =? 1 then Stream else if z =? 2 then Dgram else if z =? 3 then Raw
  else if z =? 5 then Seqpacket else OtherType z.
Definition cast_ProtocolType (z : Z) : ProtocolType :=
  if z =? 0 then Unspecified else if z =? 1 then Icmp else if z =? 6 then Tcp
  else if z =? 17 then Udp else OtherProtocol z.

(** ** Sets of descriptors *)

(** The lambdas [fd_isset] and [fd_set_bit] of [Select]; [fd] is not negative
    there. *)
Definition fd_isset (fd : Z) (fds : Buffer) : bool :=
  match fds with
  | Some bytes => (0 <=? fd) && (fd / 8 <? zlen bytes)
                  && Z.testbit (nth (Z.to_nat (fd / 8)) bytes 0) (fd mod 8)
  | None => false
  end.

Definition fd_set_bit (fd : Z) (fds : Buffer) : Buffer :=
  match fds with
  | Some bytes =>
      if (fd <? 0) || (zlen bytes <=? fd / 8) then fds
      else Some (write_at (fd / 8)
             [Z.lor (nth (Z.to_nat (fd / 8)) bytes 0) (Z.shiftl 1 (fd mod 8))] bytes)
  | None => None
  end.

(** [std::memset(fds, 0, size)] *)
Definition fd_zero (fds : Buffer) : Buffer := (fun bytes => repeat 0 (length bytes)) <$> fds.

(** The output sets of [Select] with the count. *)
Record FdSets : Type := { fs_read : Buffer; fs_write : Buffer; fs_error : Buffer; fs_count : Z }.

(** One kind of readiness of one descriptor. *)
Definition mark (ready : bool) (fd : Z) (set : Buffer) (count : Z) : Buffer * Z :=
  if ready then (fd_set_bit fd set, count + 1) else (set, count).

(** The three [if]s over a proxy socket, in both loops of [Select]. *)
Definition mark_ready (fd : Z) (in_read in_write in_error : bool) (proxy : ProxySocket)
    (o : FdSets) : FdSets :=
  let '(r, n) := mark (in_read && HasPendingData proxy) fd (fs_read o) (fs_count o) in
  let '(w, n) := mark in_write fd (fs_write o) n in
  let '(e, n) := mark (in_error && bool_decide (s_state proxy = Closed)) fd (fs_error o) n in
  {| fs_read := r; fs_write := w; fs_error := e; fs_count := n |}.

(** ** Poll descriptors *)

Definition POLLIN : Z := 0x0001.
Definition POLLOUT : Z := 0x0004.
Definition POLLHUP : Z := 0x0010.

(** [poll_fds[i]] *)
Definition poll_fd (i : Z) (bytes : list Z) : PollFd := of_bytes (zdrop (8 * i) bytes).
Definition set_poll_fd (i : Z) (p : PollFd) (bytes : list Z) : list Z :=
  write_at (8 * i) (bytes_of p) bytes.
Definition set_revents (revents : Z) (p : PollFd) : PollFd :=
  {| pfd_fd := pfd_fd p; pfd_events := pfd_events p; pfd_revents := revents |}.

Definition wants (flag : Z) (p : PollFd) : bool := negb (Z.land (pfd_events p) flag =? 0).
Definition raise (ready : bool) (flag : Z) (p : PollFd) : PollFd :=
  if ready then set_revents (Z.lor (pfd_revents p) flag) p else p.

(** The three [if]s over a proxy socket in [Poll], after [revents = 0]. *)
Definition poll_proxy (proxy : ProxySocket) (p : PollFd) : PollFd :=
  let p := set_revents 0 p in
  let p := raise (wants POLLIN p && HasPendingData proxy) POLLIN p in
  let p := raise (wants POLLOUT p) POLLOUT p in
  raise (bool_decide (s_state proxy = Closed)) POLLHUP p.

(** ** The commands of the IPC interface, in the order of their numbers *)

Inductive Call : Type :=
| CallRegisterClient (config : LibraryConfigData) (tmem_size transfer_memory : Z)
| CallStartMonitoring (pid : Z)
| CallSocket (domain type protocol : Z)
| CallSocketExempt (domain type protocol : Z)
| CallOpen (path : Buffer)
| CallSelect (nfds : Z)
    (readfds_in writefds_in errorfds_in timeout readfds_out writefds_out errorfds_out : Buffer)
| CallPoll (fds_in fds_out : Buffer) (nfds timeout : Z)
| CallSysctl (name old_val_in old_val_out new_val : Buffer)
| CallRecv (fd flags : Z) (buffer : Buffer) (others : list SocketStep)
| CallRecvFrom (fd flags : Z) (buffer addr_out : Buffer) (others : list SocketStep)
| CallSend (fd flags : Z) (buffer : Buffer)
| CallSendTo (fd flags : Z) (buffer addr : Buffer)
| CallAccept (fd : Z) (addr_out : Buffer)
| CallBind (fd : Z) (addr : Buffer) (now_ms : Z)
| CallConnect (fd : Z) (addr : Buffer) (others : list SocketStep)
| CallGetPeerName (fd : Z) (addr_out : Buffer)
| CallGetSockName (fd : Z) (addr_out : Buffer)
| CallGetSockOpt (fd level optname : Z) (optval : Buffer)
| CallListen (fd backlog : Z)
| CallIoctl (fd request bufcount : Z) (buf_in buf_out : Buffer)
| CallFcntl (fd cmd arg : Z)
| CallSetSockOpt (fd level optname : Z) (optval : Buffer)
| CallShutdown (fd how : Z)
| CallShutdownAllSockets (pid how : Z)
| CallWrite (fd : Z) (buffer : Buffer)
| CallRead (fd : Z) (buffer : Buffer) (others : list SocketStep)
| CallClose (fd : Z)
| CallDuplicateSocket (fd target_pid : Z)
| CallGetResourceStatistics (pid : Z) (out_stats : Buffer)
| CallRecvMMsg (fd vlen flags timeout : Z) (out_data : Buffer)
| CallSendMMsg (fd vlen flags : Z) (in_data : Buffer)
| CallEventFd (initval flags : Z)
| CallRegisterResourceStatisticsName (pid : Z) (name : Buffer)
| CallRegisterClientShared (config : LibraryConfigData) (tmem_size : Z).

Section service.
Context (iter : gmap Z ProxySocket -> list (Z * ProxySocket)).
Context (iter_info : gmap Z SocketInfo -> list (Z * SocketInfo)).
Context (real : list Request -> Request -> Answer).

(** ** Steps the commands share *)

Definition this_service (this : Z) : Method BsdMitmService := fun s =>
  o ← services s !! this; Some (o, s).
Definition update_service (this : Z) (f : BsdMitmService -> BsdMitmService) : Method unit :=
  modify (fun s => s <| services := alter f this (services s) |>).

(** [m_command_count++] *)
Definition count_command (this : Z) : Method unit :=
  o ← this_service this;
  update_service this (fun o => o <| m_command_count := u32 (m_command_count o + 1) |>).

(** A call of the manager. *)
Definition managed {A} (f : ProxySocketManager -> option (A * ProxySocketManager)) : Method A :=
  fun s => '(a, m) ← f (manager s); Some (a, s <| manager := m |>).

Definition get_proxy (fd : Z) : Method (option ProxySocket) := managed (GetProxySocket fd).

(** A call of a proxy socket the manager has handed out. *)
Definition on_proxy {A} (fd : Z)
    (f : ProxySocket -> Link -> option (A * ProxySocket * Link)) : Method A :=
  managed (fun m =>
    proxy ← m_sockets m !! fd;
    '(a, proxy, l) ← f proxy (m_link m);
    Some (a, set_link l (set_sockets (<[fd := proxy]> (m_sockets m)) m))).

(** [serviceMitmDispatch*(m_forward_service.get(), ...)] *)
Definition ask (rq : Request) : Method Answer := fun s =>
  Some (real (forwarded s) rq, s <| forwarded := forwarded s ++ [rq] |>).
Definition dispatch (this command : Z) (raw : list Z) (ins outs : list Buffer)
    (override_pid : option Z) (handles : list Z) : Method Answer :=
  o ← this_service this;
  ask {| rq_session := m_session o; rq_command := command; rq_raw := raw; rq_in := ins;
         rq_out := outs; rq_override_pid := override_pid; rq_handles := handles |}.

(** A command that is only passed on; it answers with [n] words. *)
Definition forward (this command : Z) (raw : list Z) (ins outs : list Buffer) (n : nat)
    : Method Reply :=
  a ← dispatch this command raw ins outs None [];
  mret {| rep_rc := an_rc a;
          rep_words := (fun i => an_word i a) <$> seq 0 n;
          rep_buffers := (fun i => an_buffer i a) <$> seq 0 (length outs) |}.

Definition find_info (fd : Z) : Method (option SocketInfo) := gets (fun s => g_socket_info s !! fd).

(** [is_proxy] as the data transfer commands compute it. *)
Definition marked_proxy (fd : Z) : Method bool :=
  info ← find_info fd; mret (from_option si_is_proxy false info).

(** The proxy socket such a command uses. *)
Definition transfer_proxy (fd : Z) : Method (option ProxySocket) :=
  is_proxy ← marked_proxy fd;
  if (is_proxy : bool) then get_proxy fd else mret None.

(** "Mark as proxy socket" *)
Definition mark_proxy (fd : Z) : Method unit :=
  modify (fun s => s <| g_socket_info :=
    alter (fun i : SocketInfo => i <| si_is_proxy := true |>) fd (g_socket_info s) |>).

(** The result of a transfer: a negative value is an errno. *)
Definition transferred (result : Z) (buffers : list Buffer) : Reply :=
  if result <? 0 then success [- result; 0] buffers else success [0; result] buffers.

(** ** Session management *)

(** The constructor; [this] is a fresh address. *)
Definition BsdMitmService_new (this pid session : Z) : Method unit :=
  modify (fun s => s <| s_next_session_id := u32 (s_next_session_id s + 1) |>);;
  modify (fun s => s <| services := <[this := {| m_client_pid := pid; m_command_count := 0;
    m_session_id := s_next_session_id s; m_registered := false; m_session := session |}]>
    (services s) |>);;
  modify (fun s =>
    let counts := g_active_intercepted_sessions_count s in
    s <| g_active_intercepted_sessions_count :=
           <[pid := u32 (default 0 (counts !! pid) + 1)]> counts |>).

(** [if (raw && raw->session != 0) { svcCloseHandle(raw->session); *raw = {}; }] *)
Definition close_handle (session : Z) : Method unit :=
  when (negb (session =? 0))
    (modify (fun s => s <| closed_handles := closed_handles s ++ [session] |>)).

Definition CleanupAbandonedServices : Method unit :=
  abandoned ← gets g_abandoned_forward_services;
  for_each abandoned (fun entry => close_handle (as_session entry));;
  modify (fun s => s <| g_abandoned_forward_services := [] |>).

Definition CleanupAbandonedServicesForPid (pid : Z) : Method unit :=
  abandoned ← gets g_abandoned_forward_services;
  for_each abandoned (fun entry =>
    when (as_client_pid entry =? pid) (close_handle (as_session entry)));;
  modify (fun s => s <| g_abandoned_forward_services :=
    List.filter (fun entry => negb (as_client_pid entry =? pid)) abandoned |>).

(** Closing the proxy sockets whose entries are gone. *)
Definition close_proxies (fds : list Z) : Method unit :=
  for_each fds (fun fd => managed (CloseProxySocket iter fd);; mret tt).

(** The loop of the destructor: the entries of this session go. *)
Definition erase_session (session_id : Z) : Method (list Z) := fun s =>
  let own := List.filter (fun p => si_session_id p.2 =? session_id) (iter_info (g_socket_info s)) in
  Some (map fst (List.filter (fun p => si_is_proxy p.2) own),
        s <| g_socket_info := foldl (fun t p => delete p.1 t) (g_socket_info s) own |>).

(** Whether this was the last session of the process. *)
Definition release_session (pid : Z) : Method bool := fun s =>
  let counts := g_active_intercepted_sessions_count s in
  match counts !! pid with
  | None => Some (false, s)
  | Some n =>
      let n := if 0 <? n then n - 1 else n in
      if n =? 0
      then Some (true, s <| g_active_intercepted_sessions_count := delete pid counts |>)
      else Some (false, s <| g_active_intercepted_sessions_count := <[pid := n]> counts |>)
  end.

Definition BsdMitmService_delete (this : Z) : Method unit :=
  o ← this_service this;
  proxy_fds_to_close ← erase_session (m_session_id o);
  close_proxies proxy_fds_to_close;;
  close_handle (m_session o);;
  is_last_session ← release_session (m_client_pid o);
  when is_last_session (CleanupAbandonedServicesForPid (m_client_pid o));;
  modify (fun s => s <| services := delete this (services s) |>).

Definition OUR_PROGRAM_ID : Z := 0x4200000000000010.
Definition ALBUM_PROGRAM_ID : Z := 0x010028600ebda000.

(** The bookkeeping of [ShouldMitm] for a process it would intercept: whether
    this is not its first session. *)
Definition count_session (pid program_id : Z) : Method bool := fun s =>
  let prev_program_id := default 0 (s_pid_program_ids s !! pid) in
  let counts := g_mitm_pid_count s in
  let counts := if negb (prev_program_id =? 0) && negb (prev_program_id =? program_id)
                then <[pid := 0]> counts else counts in
  let count := u32 (default 0 (counts !! pid) + 1) in
  Some (negb (count =? 1),
        s <| s_pid_program_ids := <[pid := program_id]> (s_pid_program_ids s) |>
          <| g_mitm_pid_count := <[pid := count]> counts |>).

Definition ShouldMitm (pid program_id : Z) : Method bool :=
  if program_id =? OUR_PROGRAM_ID then mret false
  else if program_id <? 0x0100000000000000 then mret false
  else if program_id =? ALBUM_PROGRAM_ID then mret false
  else
    ldn_pid ← gets (fun s => SharedState.GetLdnPid (shared_state s));
    if negb (ldn_pid =? 0) && negb (ldn_pid =? pid) then mret false
    else
      let is_ldn_active_for_this_pid := negb (ldn_pid =? 0) && (ldn_pid =? pid) in
      is_whitelisted ← gets (fun s => GameWhitelist.IsGameInWhitelist program_id (whitelist s));
      if negb is_whitelisted && negb is_ldn_active_for_this_pid then mret false
      else count_session pid program_id.

Definition ResetProcessMitmState (pid : Z) : Method unit :=
  modify (fun s => s
    <| g_active_intercepted_sessions_count := delete pid (g_active_intercepted_sessions_count s) |>
    <| g_mitm_pid_count := delete pid (g_mitm_pid_count s) |>
    <| s_pid_program_ids := delete pid (s_pid_program_ids s) |>);;
  proxy_fds_to_close ← gets (fun s =>
    map fst (List.filter (fun p => si_is_proxy p.2) (iter_info (g_socket_info s))));
  modify (fun s => s <| g_socket_info := ∅ |>);;
  close_proxies proxy_fds_to_close.

(** [config], a zero process id and the size of the work buffer. *)
Definition register_input (config : LibraryConfigData) (tmem_size : Z) : list Z :=
  bytes_of {| rci_config := config; rci_pid_placeholder := 0; rci_tmem_size := tmem_size |}.

(** [pid_out] of the two registration commands, and [m_registered]. *)
Definition register_with (this command : Z) (config : LibraryConfigData) (tmem_size : Z)
    (handles : list Z) : Method Reply :=
  count_command this;;
  o ← this_service this;
  a ← dispatch this command (register_input config tmem_size) [] [] (Some (m_client_pid o)) handles;
  when (an_rc a =? 0) (update_service this (fun o => o <| m_registered := true |>));;
  mret {| rep_rc := an_rc a; rep_words := [an_word 0 a]; rep_buffers := [] |}.

Definition RegisterClient (this : Z) (config : LibraryConfigData) (tmem_size transfer_memory : Z) :=
  register_with this 0 config tmem_size [transfer_memory].
Definition RegisterClientShared (this : Z) (config : LibraryConfigData) (tmem_size : Z) :=
  register_with this 33 config tmem_size [].

Definition StartMonitoring (this pid : Z) : Method Reply :=
  count_command this;; forward this 1 (le_split 8 pid) [] [] 1.

(** ** Socket lifecycle *)

Definition tracked_info (type protocol session_id : Z) : SocketInfo := {|
  si_type := cast_SocketType type;
  si_protocol := if protocol =? 0
                 then if type =? SocketType_value Stream then Tcp
                      else if type =? SocketType_value Dgram then Udp
                      else cast_ProtocolType protocol
                 else cast_ProtocolType protocol;
  si_is_proxy := false; si_broadcast := false; si_session_id := session_id |}.

(** [Socket] and [SocketExempt]. *)
Definition create_socket (this command domain type protocol : Z) : Method Reply :=
  count_command this;;
  a ← dispatch this command (s32s [domain; type; protocol]) [] [] None [];
  o ← this_service this;
  when ((an_rc a =? 0) && (an_word 0 a =? 0) && (0 <=? an_word 1 a))
    (modify (fun s => s <| g_socket_info :=
       <[an_word 1 a := tracked_info type protocol (m_session_id o)]> (g_socket_info s) |>));;
  mret {| rep_rc := an_rc a; rep_words := [an_word 0 a; an_word 1 a]; rep_buffers := [] |}.

Definition Socket (this domain type protocol : Z) := create_socket this 2 domain type protocol.
Definition SocketExempt (this domain type protocol : Z) := create_socket this 3 domain type protocol.

Definition Open (this : Z) (path : Buffer) : Method Reply :=
  count_command this;; forward this 4 [] [path] [] 2.

Definition Close (this fd : Z) : Method Reply :=
  count_command this;;
  info ← find_info fd;
  match info with
  | Some info =>
      when (si_is_proxy info) (managed (CloseProxySocket iter fd);; mret tt);;
      modify (fun s => s <| g_socket_info := delete fd (g_socket_info s) |>)
  | None => mret tt
  end;;
  forward this 26 (s32s [fd]) [] [] 1.

Definition DuplicateSocket (this fd target_pid : Z) : Method Reply :=
  count_command this;; forward this 27 (s32s [fd; 0] ++ le_split 8 target_pid) [] [] 2.

Definition GetResourceStatistics (this pid : Z) (out_stats : Buffer) : Method Reply :=
  count_command this;; forward this 28 (le_split 8 pid) [] [out_stats] 1.

(** The proxy check of the next two only writes a warning. *)
Definition RecvMMsg (this fd vlen flags timeout : Z) (out_data : Buffer) : Method Reply :=
  count_command this;; forward this 29 (s32s [fd; vlen; flags; timeout]) [] [out_data] 2.
Definition SendMMsg (this fd vlen flags : Z) (in_data : Buffer) : Method Reply :=
  count_command this;; forward this 30 (s32s [fd; vlen; flags]) [in_data] [] 2.

Definition EventFd (this initval flags : Z) : Method Reply :=
  count_command this;; forward this 31 (le_split 8 initval ++ s32s [flags; 0]) [] [] 2.

Definition RegisterResourceStatisticsName (this pid : Z) (name : Buffer) : Method Reply :=
  count_command this;; forward this 32 (le_split 8 pid) [name] [] 1.

(** ** Addresses *)

Definition with_addr (addr : Z) (a : SockAddrIn) : SockAddrIn := {|
  sin_len := sin_len a; sin_family := sin_family a; sin_port := sin_port a; sin_addr := addr;
  sin_zero := sin_zero a |}.
Definition with_port (port : Z) (a : SockAddrIn) : SockAddrIn := {|
  sin_len := sin_len a; sin_family := sin_family a; sin_port := port; sin_addr := sin_addr a;
  sin_zero := sin_zero a |}.

(** [proxy->Bind(addr)]; the [Result] is its value. *)
Definition proxy_bind (fd : Z) (addr : SockAddrIn) : Method Z :=
  on_proxy fd (fun proxy l => let (rc, proxy) := ProxySocket.Bind addr proxy in Some (rc, proxy, l)).

(** The wildcard address becomes the local LDN address, once there is one. *)
Definition bind_address (sock_addr : SockAddrIn) : Method SockAddrIn :=
  if sin_addr sock_addr =? 0 then
    local_ip ← managed GetLocalIp;
    mret (if local_ip =? 0 then sock_addr else with_addr (bswap32 local_ip) sock_addr)
  else mret sock_addr.

(** The port is allocated or reserved; [None] when that fails. *)
Definition bind_port (protocol : ProtocolType) (bind_addr : SockAddrIn)
    : Method (option SockAddrIn) :=
  if GetPort bind_addr =? 0 then
    ephemeral ← managed (fun m => Some (AllocatePort protocol m));
    mret (if ephemeral =? 0 then None else Some (with_port (bswap16 ephemeral) bind_addr))
  else
    reserved ← managed (fun m => Some (ReservePort (GetPort bind_addr) protocol m));
    mret (if (reserved : bool) then Some bind_addr else None).

Definition forward_bind (this fd : Z) (addr : Buffer) : Method Reply :=
  forward this 13 (s32s [fd]) [addr] [] 1.

(** What [Bind] does for a tracked socket and an intercepted address. *)
Definition bind_intercepted (this fd : Z) (addr : Buffer) (sock_addr : SockAddrIn)
    (socket_info : SocketInfo) (now_ms : Z) : Method Reply :=
  proxy ← managed (CreateProxySocket fd (si_type socket_info) (si_protocol socket_info));
  match proxy with
  | None => mret (success [Errno_NoMem] [])
  | Some _ =>
      when (si_broadcast socket_info)
        (on_proxy fd (fun proxy l => Some (tt, SetBroadcastEnabled true proxy, l)));;
      bind_addr ← bind_address sock_addr;
      port ← bind_port (si_protocol socket_info) bind_addr;
      match port with
      | None => mret (success [Errno_AddrInUse] [])
      | Some bind_addr =>
          bind_result ← proxy_bind fd bind_addr;
          if negb (bind_result =? 0) then mret (success [bind_result] [])
          else
            mark_proxy fd;;
            managed (DeliverPendingPackets (Some fd) (GetPort bind_addr)
                       (si_protocol socket_info) now_ms);;
            when (sin_addr sock_addr =? 0) (forward_bind this fd addr;; mret tt);;
            mret (success [0] [])
      end
  end.

Definition Bind (this fd : Z) (addr : Buffer) (now_ms : Z) : Method Reply :=
  count_command this;;
  match copied_addr addr with
  | Some sock_addr =>
      if (sin_family sock_addr =? AddressFamily_Inet)
         && (SockAddrIn_IsLdnAddress sock_addr || (sin_addr sock_addr =? 0)) then
        info ← find_info fd;
        match info with
        | Some socket_info => bind_intercepted this fd addr sock_addr socket_info now_ms
        | None => forward_bind this fd addr
        end
      else forward_bind this fd addr
  | None => forward_bind this fd addr
  end.

(** The local address of a socket that is bound on the way. *)
Definition auto_address (ephemeral local_ip : Z) : SockAddrIn :=
  inet_addr (bswap16 ephemeral) (bswap32 local_ip).

(** A proxy socket for [Connect], created and bound if there is none: the errno
    of the command when that fails. *)
Definition connect_proxy (fd : Z) (socket_info : SocketInfo) : Method Z :=
  proxy ← get_proxy fd;
  match proxy with
  | Some _ => mret 0
  | None =>
      proxy ← managed (CreateProxySocket fd (si_type socket_info) (si_protocol socket_info));
      match proxy with
      | None => mret Errno_NoMem
      | Some _ =>
          ephemeral ← managed (fun m => Some (AllocatePort (si_protocol socket_info) m));
          if ephemeral =? 0 then mret Errno_AddrInUse
          else
            local_ip ← managed GetLocalIp;
            bind_result ← proxy_bind fd (auto_address ephemeral local_ip);
            when (negb (bind_result =? 0))
              (managed (fun m => Some (tt, ReleasePort ephemeral (si_protocol socket_info) m)));;
            mret bind_result
      end
  end.

Definition connect_intercepted (fd : Z) (sock_addr : SockAddrIn) (socket_info : SocketInfo)
    (others : list SocketStep) : Method Reply :=
  failure ← connect_proxy fd socket_info;
  if negb (failure =? 0) then mret (success [failure] [])
  else
    connect_result ← on_proxy fd (ProxySocket.Connect sock_addr others);
    if negb (connect_result =? 0) then mret (success [connect_result] [])
    else mark_proxy fd;; mret (success [0] []).

Definition forward_connect (this fd : Z) (addr : Buffer) : Method Reply :=
  forward this 14 (s32s [fd]) [addr] [] 1.

Definition Connect (this fd : Z) (addr : Buffer) (others : list SocketStep) : Method Reply :=
  count_command this;;
  match copied_addr addr with
  | Some sock_addr =>
      if (sin_family sock_addr =? AddressFamily_Inet) && SockAddrIn_IsLdnAddress sock_addr then
        info ← find_info fd;
        match info with
        | Some socket_info => connect_intercepted fd sock_addr socket_info others
        | None => forward_connect this fd addr
        end
      else forward_connect this fd addr
  | None => forward_connect this fd addr
  end.

Definition Accept (this fd : Z) (addr_out : Buffer) : Method Reply :=
  count_command this;; forward this 12 (s32s [fd]) [] [addr_out] 2.

Definition GetPeerName (this fd : Z) (addr_out : Buffer) : Method Reply :=
  count_command this;;
  proxy ← get_proxy fd;
  match proxy with
  | Some proxy =>
      if negb (bool_decide (s_state proxy = Connected))
      then mret (success [Errno_NotConn] [addr_out])
      else mret (success [0] [fill_addr (s_remote_addr proxy) addr_out])
  | None => forward this 15 (s32s [fd]) [] [addr_out] 1
  end.

Definition GetSockName (this fd : Z) (addr_out : Buffer) : Method Reply :=
  count_command this;;
  proxy ← get_proxy fd;
  match proxy with
  | Some proxy => mret (success [0] [fill_addr (s_local_addr proxy) addr_out])
  | None => forward this 16 (s32s [fd]) [] [addr_out] 1
  end.

(** ** Data transfer *)

(** [proxy->Send(buffer.GetPointer(), buffer.GetSize(), flags)] *)
Definition proxy_send (fd flags : Z) (buffer : Buffer) : Method Z :=
  on_proxy fd (fun proxy l =>
    '(n, l) ← ProxySocket.Send buffer (GetSize buffer) flags proxy l; Some (n, proxy, l)).

Definition Send (this fd flags : Z) (buffer : Buffer) : Method Reply :=
  count_command this;;
  proxy ← transfer_proxy fd;
  match proxy with
  | Some _ => result ← proxy_send fd flags buffer; mret (transferred result [])
  | None => forward this 10 (s32s [fd; flags]) [buffer] [] 2
  end.

Definition Write (this fd : Z) (buffer : Buffer) : Method Reply :=
  count_command this;;
  proxy ← transfer_proxy fd;
  match proxy with
  | Some _ => result ← proxy_send fd 0 buffer; mret (transferred result [])
  | None => forward this 24 (s32s [fd]) [buffer] [] 2
  end.

(** A proxy socket for [SendTo], bound unless the ports are exhausted; the
    [Result] of the bind. *)
Definition send_to_proxy (fd : Z) (socket_info : SocketInfo) : Method Z :=
  proxy ← get_proxy fd;
  match proxy with
  | Some _ => mret 0
  | None =>
      proxy ← managed (CreateProxySocket fd (si_type socket_info) (si_protocol socket_info));
      match proxy with
      | None => mret 0
      | Some _ =>
          ephemeral ← managed (fun m => Some (AllocatePort (si_protocol socket_info) m));
          if ephemeral =? 0 then mret 0
          else local_ip ← managed GetLocalIp; proxy_bind fd (auto_address ephemeral local_ip)
      end
  end.

(** Whether an address is one of the LDN network. *)
Definition is_ldn_destination (addr : SockAddrIn) : bool :=
  (sin_family addr =? AddressFamily_Inet) && SockAddrIn_IsLdnAddress addr.

(** The socket is turned into a proxy when the destination is an LDN one: the
    [Result] of [R_TRY]. *)
Definition prepare_send_to (fd : Z) (info : option SocketInfo) (dest : option SockAddrIn)
    : Method Z :=
  match info with
  | Some socket_info =>
      if from_option is_ldn_destination false dest && negb (si_is_proxy socket_info) then
        rc ← send_to_proxy fd socket_info;
        when (rc =? 0) (mark_proxy fd);;
        mret rc
      else mret 0
  | None => mret 0
  end.

Definition SendTo (this fd flags : Z) (buffer addr : Buffer) : Method Reply :=
  count_command this;;
  info ← find_info fd;
  let dest := copied_addr addr in
  rc ← prepare_send_to fd info dest;
  if negb (rc =? 0) then mret {| rep_rc := rc; rep_words := []; rep_buffers := [] |}
  else if from_option si_is_proxy false info || from_option is_ldn_destination false dest then
    proxy ← get_proxy fd;
    match proxy, dest with
    | Some _, Some dest =>
        result ← on_proxy fd (fun proxy l =>
          '(n, l) ← ProxySocket.SendTo buffer (GetSize buffer) flags dest proxy l; Some (n, proxy, l));
        mret (transferred result [])
    | _, _ => mret (success [Errno_NetUnreach; 0] [])
    end
  else forward this 11 (s32s [fd; flags]) [buffer; addr] [] 2.

(** [proxy->Recv(buffer.GetPointer(), buffer.GetSize(), flags)] *)
Definition proxy_recv (fd flags : Z) (buffer : Buffer) (others : list SocketStep)
    : Method received :=
  on_proxy fd (fun proxy l =>
    '(r, proxy) ← ProxySocket.Recv (bool_decide (buffer = None)) (GetSize buffer) flags others proxy;
    Some (r, proxy, l)).

Definition Recv (this fd flags : Z) (buffer : Buffer) (others : list SocketStep) : Method Reply :=
  count_command this;;
  proxy ← transfer_proxy fd;
  match proxy with
  | Some _ =>
      r ← proxy_recv fd flags buffer others;
      mret (transferred (rv_value r) [fill (rv_bytes r) buffer])
  | None => forward this 8 (s32s [fd; flags]) [] [buffer] 2
  end.

Definition Read (this fd : Z) (buffer : Buffer) (others : list SocketStep) : Method Reply :=
  count_command this;;
  proxy ← transfer_proxy fd;
  match proxy with
  | Some _ =>
      r ← proxy_recv fd 0 buffer others;
      mret (transferred (rv_value r) [fill (rv_bytes r) buffer])
  | None => forward this 25 (s32s [fd]) [] [buffer] 2
  end.

(** [SockAddrIn from_addr{}], overwritten when there is a packet. *)
Definition no_addr : SockAddrIn := of_bytes (repeat 0 16).

Definition RecvFrom (this fd flags : Z) (buffer addr_out : Buffer) (others : list SocketStep)
    : Method Reply :=
  count_command this;;
  proxy ← transfer_proxy fd;
  match proxy with
  | Some _ =>
      r ← on_proxy fd (fun proxy l =>
        '(r, proxy) ← ProxySocket.RecvFrom (bool_decide (buffer = None)) (GetSize buffer) flags
                        others proxy;
        Some (r, proxy, l));
      let buffer := fill (rv_bytes r) buffer in
      if rv_value r <? 0 then mret (success [-1; - rv_value r; 0] [buffer; addr_out])
      else
        let from_addr := default no_addr (rv_from r) in
        mret (success [rv_value r; 0; if 16 <=? GetSize addr_out then 16 else 0]
                [buffer; fill_addr from_addr addr_out])
  | None => forward this 9 (s32s [fd; flags]) [] [buffer; addr_out] 3
  end.

(** ** Waiting and control *)

(** The first loop of [Select]: the sets, and whether there were proxy and
    other sockets. *)
Fixpoint select_scan (fds : list Z) (readfds writefds errorfds : Buffer) (o : FdSets)
    (has_proxy has_real : bool) : Method (FdSets * bool * bool) :=
  match fds with
  | [] => mret (o, has_proxy, has_real)
  | fd :: fds =>
      let in_read := fd_isset fd readfds in
      let in_write := fd_isset fd writefds in
      let in_error := fd_isset fd errorfds in
      if negb in_read && negb in_write && negb in_error
      then select_scan fds readfds writefds errorfds o has_proxy has_real
      else
        proxy ← get_proxy fd;
        match proxy with
        | Some proxy =>
            select_scan fds readfds writefds errorfds
              (mark_ready fd in_read in_write in_error proxy o) true has_real
        | None => select_scan fds readfds writefds errorfds o has_proxy true
        end
  end.

(** The second loop, behind the real [select]. *)
Fixpoint select_merge (fds : list Z) (readfds writefds errorfds : Buffer) (o : FdSets)
    : Method FdSets :=
  match fds with
  | [] => mret o
  | fd :: fds =>
      proxy ← get_proxy fd;
      select_merge fds readfds writefds errorfds
        (from_option (fun proxy =>
           mark_ready fd (fd_isset fd readfds) (fd_isset fd writefds) (fd_isset fd errorfds) proxy o)
         o proxy)
  end.

Definition select_reply (rc errno : Z) (o : FdSets) : Reply := {|
  rep_rc := rc; rep_words := [errno; fs_count o];
  rep_buffers := [fs_read o; fs_write o; fs_error o] |}.

Definition Select (this nfds : Z) (readfds_in writefds_in errorfds_in timeout : Buffer)
    (readfds_out writefds_out errorfds_out : Buffer) : Method Reply :=
  count_command this;;
  let fds := seqZ 0 nfds in
  let o := {| fs_read := fd_zero readfds_out; fs_write := fd_zero writefds_out;
              fs_error := fd_zero errorfds_out; fs_count := 0 |} in
  '(o, has_proxy_sockets, has_real_sockets) ←
     select_scan fds readfds_in writefds_in errorfds_in o false false;
  if has_proxy_sockets && negb has_real_sockets then mret (select_reply 0 0 o)
  else if has_proxy_sockets && (0 <? fs_count o) then mret (select_reply 0 0 o)
  else
    a ← dispatch this 5 (s32s [nfds]) [readfds_in; writefds_in; errorfds_in; timeout]
          [fs_read o; fs_write o; fs_error o] None [];
    let out := {| fs_read := an_buffer 0 a; fs_write := an_buffer 1 a; fs_error := an_buffer 2 a;
                  fs_count := an_word 1 a |} in
    out ← (if has_proxy_sockets && (an_rc a =? 0)
           then select_merge fds readfds_in writefds_in errorfds_in out else mret out);
    mret (select_reply (an_rc a) (an_word 0 a) out).

(** The first loop of [Poll]: the array, the number of ready descriptors, and
    whether there were proxy and other sockets. *)
Fixpoint poll_scan (idx : list Z) (fds : list Z) (ready_count : Z) (has_proxy has_real : bool)
    : Method (list Z * Z * bool * bool) :=
  match idx with
  | [] => mret (fds, ready_count, has_proxy, has_real)
  | i :: idx =>
      let p := poll_fd i fds in
      proxy ← get_proxy (pfd_fd p);
      match proxy with
      | Some proxy =>
          let p := poll_proxy proxy p in
          poll_scan idx (set_poll_fd i p fds)
            (if pfd_revents p =? 0 then ready_count else ready_count + 1) true has_real
      | None => poll_scan idx (set_poll_fd i (set_revents 0 p) fds) ready_count has_proxy true
      end
  end.

(** "Mark non-proxy fds as not ready" *)
Fixpoint poll_clear (idx : list Z) (fds : list Z) : Method (list Z) :=
  match idx with
  | [] => mret fds
  | i :: idx =>
      let p := poll_fd i fds in
      proxy ← get_proxy (pfd_fd p);
      poll_clear idx (match proxy with
                      | None => set_poll_fd i (set_revents 0 p) fds
                      | Some _ => fds
                      end)
  end.

(** The events the merge loop counts for one descriptor. *)
Definition count_events (proxy : ProxySocket) (p : PollFd) : Z :=
  Z.b2z (wants POLLIN p && HasPendingData proxy) + Z.b2z (wants POLLOUT p)
  + Z.b2z (bool_decide (s_state proxy = Closed)).

(** The loop behind the real [poll]. *)
Fixpoint poll_merge (idx : list Z) (fds : list Z) (count : Z) : Method (list Z * Z) :=
  match idx with
  | [] => mret (fds, count)
  | i :: idx =>
      let p := poll_fd i fds in
      proxy ← get_proxy (pfd_fd p);
      match proxy with
      | Some proxy =>
          poll_merge idx (set_poll_fd i (poll_proxy proxy p) fds) (count + count_events proxy p)
      | None => poll_merge idx fds count
      end
  end.

Definition Poll (this : Z) (fds_in fds_out : Buffer) (nfds timeout : Z) : Method Reply :=
  count_command this;;
  let fds := if GetSize fds_in <=? GetSize fds_out then fill (default [] fds_in) fds_out
             else fds_out in
  let num_fds := Z.min (u64 nfds) (GetSize fds_out / 8) in
  let idx := seqZ 0 num_fds in
  '(bytes, ready_count, has_proxy_sockets, has_real_sockets) ←
     poll_scan idx (default [] fds) 0 false false;
  let fds := (fun _ => bytes) <$> fds in
  if has_proxy_sockets && negb has_real_sockets then mret (success [0; ready_count] [fds])
  else if has_proxy_sockets && (0 <? ready_count) then
    bytes ← poll_clear idx bytes;
    mret (success [0; ready_count] [(fun _ => bytes) <$> fds])
  else
    a ← dispatch this 6 (s32s [nfds; timeout]) [fds_in] [fds] None [];
    let fds := an_buffer 0 a in
    '(bytes, count) ← (if has_proxy_sockets && (an_rc a =? 0)
                       then poll_merge idx (default [] fds) (an_word 1 a)
                       else mret (default [] fds, an_word 1 a));
    mret {| rep_rc := an_rc a; rep_words := [an_word 0 a; count];
            rep_buffers := [(fun _ => bytes) <$> fds] |}.

Definition Sysctl (this : Z) (name old_val_in old_val_out new_val : Buffer) : Method Reply :=
  count_command this;; forward this 7 [] [name; old_val_in; new_val] [old_val_out] 1.

Definition FIONREAD : Z := 0x4004667F.

Definition Ioctl (this fd request bufcount : Z) (buf_in buf_out : Buffer) : Method Reply :=
  count_command this;;
  proxy ← get_proxy fd;
  match proxy with
  | Some proxy =>
      if request =? FIONREAD then
        mret (success [0; 0] [if 4 <=? GetSize buf_out
                              then fill (le_split 4 (GetPendingDataSize proxy)) buf_out
                              else buf_out])
      else mret (success [Errno_Inval; -1] [buf_out])
  | None => forward this 19 (s32s [fd; request; bufcount]) [buf_in] [buf_out] 2
  end.

Definition F_GETFL : Z := 3.
Definition F_SETFL : Z := 4.
Definition O_NONBLOCK : Z := 0x0004.

Definition Fcntl (this fd cmd arg : Z) : Method Reply :=
  count_command this;;
  proxy ← get_proxy fd;
  match proxy with
  | Some proxy =>
      if cmd =? F_GETFL
      then mret (success [0; if s_non_blocking proxy then O_NONBLOCK else 0] [])
      else if cmd =? F_SETFL then
        on_proxy fd (fun proxy l =>
          Some (tt, SetNonBlocking (negb (Z.land arg O_NONBLOCK =? 0)) proxy, l));;
        mret (success [0; 0] [])
      else mret (success [Errno_Inval; -1] [])
  | None => forward this 20 (s32s [fd; cmd; arg]) [] [] 2
  end.

Definition GetSockOpt (this fd level optname : Z) (optval : Buffer) : Method Reply :=
  count_command this;;
  proxy ← get_proxy fd;
  match proxy with
  | Some proxy =>
      let '(rc, value) := ProxySocket.GetSockOpt level optname (bool_decide (optval = None))
                            (Some (GetSize optval)) proxy in
      mret (success [rc] [match value with Some v => fill (le_split 4 v) optval | None => optval end])
  | None => forward this 17 (s32s [fd; level; optname]) [] [optval] 1
  end.

(** The option is remembered for the proxy socket that may come. *)
Definition track_broadcast (fd level optname : Z) (optval : Buffer) : Method unit :=
  when ((level =? SocketOptionLevel_Socket) && (optname =? SocketOption_Broadcast)
        && (4 <=? GetSize optval))
    (modify (fun s => s <| g_socket_info :=
       alter (fun i : SocketInfo => i <| si_broadcast :=
                negb (s32 (le_combine (ztake 4 (default [] optval))) =? 0) |>) fd
         (g_socket_info s) |>)).

Definition SetSockOpt (this fd level optname : Z) (optval : Buffer) : Method Reply :=
  count_command this;;
  proxy ← get_proxy fd;
  match proxy with
  | Some _ =>
      rc ← on_proxy fd (fun proxy l =>
        let (rc, proxy) := ProxySocket.SetSockOpt level optname optval (GetSize optval) proxy in
        Some (rc, proxy, l));
      mret (success [rc] [])
  | None =>
      track_broadcast fd level optname optval;;
      forward this 21 (s32s [fd; level; optname]) [optval] [] 1
  end.

Definition Listen (this fd backlog : Z) : Method Reply :=
  count_command this;; forward this 18 (s32s [fd; backlog]) [] [] 1.
Definition Shutdown (this fd how : Z) : Method Reply :=
  count_command this;; forward this 22 (s32s [fd; how]) [] [] 1.
(** The padding behind [how] is left out. *)
Definition ShutdownAllSockets (this pid how : Z) : Method Reply :=
  count_command this;; forward this 23 (le_split 8 pid ++ s32s [how]) [] [] 1.

Definition perform (this : Z) (c : Call) : Method Reply :=
  match c with
  | CallRegisterClient config tmem_size transfer_memory =>
      RegisterClient this config tmem_size transfer_memory
  | CallStartMonitoring pid => StartMonitoring this pid
  | CallSocket domain type protocol => Socket this domain type protocol
  | CallSocketExempt domain type protocol => SocketExempt this domain type protocol
  | CallOpen path => Open this path
  | CallSelect nfds readfds_in writefds_in errorfds_in timeout readfds_out writefds_out errorfds_out =>
      Select this nfds readfds_in writefds_in errorfds_in timeout readfds_out writefds_out errorfds_out
  | CallPoll fds_in fds_out nfds timeout => Poll this fds_in fds_out nfds timeout
  | CallSysctl name old_val_in old_val_out new_val =>
      Sysctl this name old_val_in old_val_out new_val
  | CallRecv fd flags buffer others => Recv this fd flags buffer others
  | CallRecvFrom fd flags buffer addr_out others =>
      RecvFrom this fd flags buffer addr_out others
  | CallSend fd flags buffer => Send this fd flags buffer
  | CallSendTo fd flags buffer addr => SendTo this fd flags buffer addr
  | CallAccept fd addr_out => Accept this fd addr_out
  | CallBind fd addr now_ms => Bind this fd addr now_ms
  | CallConnect fd addr others => Connect this fd addr others
  | CallGetPeerName fd addr_out => GetPeerName this fd addr_out
  | CallGetSockName fd addr_out => GetSockName this fd addr_out
  | CallGetSockOpt fd level optname optval => GetSockOpt this fd level optname optval
  | CallListen fd backlog => Listen this fd backlog
  | CallIoctl fd request bufcount buf_in buf_out =>
      Ioctl this fd request bufcount buf_in buf_out
  | CallFcntl fd cmd arg => Fcntl this fd cmd arg
  | CallSetSockOpt fd level optname optval => SetSockOpt this fd level optname optval
  | CallShutdown fd how => Shutdown this fd how
  | CallShutdownAllSockets pid how => ShutdownAllSockets this pid how
  | CallWrite fd buffer => Write this fd buffer
  | CallRead fd buffer others => Read this fd buffer others
  | CallClose fd => Close this fd
  | CallDuplicateSocket fd target_pid => DuplicateSocket this fd target_pid
  | CallGetResourceStatistics pid out_stats => GetResourceStatistics this pid out_stats
  | CallRecvMMsg fd vlen flags timeout out_data =>
      RecvMMsg this fd vlen flags timeout out_data
  | CallSendMMsg fd vlen flags in_data => SendMMsg this fd vlen flags in_data
  | CallEventFd initval flags => EventFd this initval flags
  | CallRegisterResourceStatisticsName pid name =>
      RegisterResourceStatisticsName this pid name
  | CallRegisterClientShared config tmem_size => RegisterClientShared this config tmem_size
  end.

End service.
