(* ===== verification/BsdForward.v ===== *)
(** * The socket service towards the system

    The rules for the statements of [BsdService.v], and the theorem that a game
    whose sockets stay out of the LDN network talks to the real service: every
    one of the commands asks it exactly once, for what the game asked. *)

From stdpp Require Import base numbers list gmap.
From Stdlib Require Import ZArith Lia Bool.
From S2P Require Import Prelude Layout Imperative BsdTypes ProxyLink ProxySocket.
From S2P Require Import ProxySocketManager BsdService.

(** ** Rules *)

Definition counted (this : Z) (s : Bsd) : Bsd :=
  s <| services := alter (fun o => o <| m_command_count := u32 (m_command_count o + 1) |>) this
                     (services s) |>.

Lemma count_command_eq this o s :
  services s !! this = Some o -> count_command this s = Some (tt, counted this s).
Proof. intros H. unfold count_command. erewrite bind_some by (unfold this_service; by rewrite H). done. Qed.

Lemma counted_service this o s :
  services s !! this = Some o ->
  exists o', services (counted this s) !! this = Some o'
    /\ m_session o' = m_session o /\ m_client_pid o' = m_client_pid o
    /\ m_session_id o' = m_session_id o.
Proof.
  intros H. eexists. split; [cbn; by rewrite lookup_alter_eq, H|]. by repeat split.
Qed.

Definition free (s : Bsd) : Prop := m_mutex (m_link (manager s)) = false.

Lemma manager_same s : s <| manager := manager s |> = s.
Proof. by destruct s. Qed.

(** A reading call of the manager, with the mutex free. *)
Lemma managed_read {A} (f : ProxySocketManager -> A) s :
  free s -> managed (with_lock (fun m => Some (f m, m))) s
  = Some (f (set_link (set_mutex true (m_link (manager s))) (manager s)), s).
Proof.
  intros H. unfold managed. rewrite with_lock_free by done. cbn [mbind option_bind fst snd].
  by rewrite set_link_unlock, manager_same.
Qed.

Lemma get_proxy_eq fd s : free s -> get_proxy fd s = Some (m_sockets (manager s) !! fd, s).
Proof. intros H. exact (managed_read (fun m => m_sockets m !! fd) s H). Qed.

Section forward.
Context (real : list Request -> Request -> Answer).

Definition asked (rq : Request) (s : Bsd) : Bsd := s <| forwarded := forwarded s ++ [rq] |>.

Lemma dispatch_eq this o s command raw ins outs pid handles :
  services s !! this = Some o ->
  dispatch real this command raw ins outs pid handles s =
  let rq := {| rq_session := m_session o; rq_command := command; rq_raw := raw; rq_in := ins;
               rq_out := outs; rq_override_pid := pid; rq_handles := handles |} in
  Some (real (forwarded s) rq, asked rq s).
Proof. intros H. unfold dispatch. erewrite bind_some by (unfold this_service; by rewrite H). done. Qed.

(** ** What each command asks *)

(** The array of [Poll] without its results. *)
Definition cleared (idx : list Z) (bytes : list Z) : list Z :=
  foldl (fun bytes i => set_poll_fd i (set_revents 0 (poll_fd i bytes)) bytes) bytes idx.
Definition poll_input (fds_in fds_out : Buffer) : Buffer :=
  if GetSize fds_in <=? GetSize fds_out then fill (default [] fds_in) fds_out else fds_out.
Definition poll_indices (fds_out : Buffer) (nfds : Z) : list Z :=
  seqZ 0 (Z.min (u64 nfds) (GetSize fds_out / 8)).

Record Spec : Type := {
  sp_command : Z; sp_raw : list Z; sp_in : list Buffer; sp_out : list Buffer;
  sp_pid : bool; sp_handles : list Z; sp_words : nat
}.
Definition plain (command : Z) (raw : list Z) (ins outs : list Buffer) (words : nat) : Spec := {|
  sp_command := command; sp_raw := raw; sp_in := ins; sp_out := outs; sp_pid := false;
  sp_handles := []; sp_words := words |}.

(** The interface of [bsd:u]: number, raw input, buffers and words of a command. *)
Definition spec (c : Call) : Spec :=
  match c with
  | CallRegisterClient config tmem_size transfer_memory =>
      {| sp_command := 0; sp_raw := bytes_of config ++ le_split 8 0 ++ le_split 8 tmem_size;
         sp_in := []; sp_out := []; sp_pid := true; sp_handles := [transfer_memory];
         sp_words := 1 |}
  | CallStartMonitoring pid => plain 1 (le_split 8 pid) [] [] 1
  | CallSocket domain type protocol => plain 2 (s32s [domain; type; protocol]) [] [] 2
  | CallSocketExempt domain type protocol => plain 3 (s32s [domain; type; protocol]) [] [] 2
  | CallOpen path => plain 4 [] [path] [] 2
  | CallSelect nfds r w e timeout ro wo eo =>
      plain 5 (s32s [nfds]) [r; w; e; timeout] [fd_zero ro; fd_zero wo; fd_zero eo] 2
  | CallPoll fds_in fds_out nfds timeout =>
      plain 6 (s32s [nfds; timeout]) [fds_in]
        [cleared (poll_indices fds_out nfds) <$> poll_input fds_in fds_out] 2
  | CallSysctl name old_val_in old_val_out new_val =>
      plain 7 [] [name; old_val_in; new_val] [old_val_out] 1
  | CallRecv fd flags buffer _ => plain 8 (s32s [fd; flags]) [] [buffer] 2
  | CallRecvFrom fd flags buffer addr_out _ => plain 9 (s32s [fd; flags]) [] [buffer; addr_out] 3
  | CallSend fd flags buffer => plain 10 (s32s [fd; flags]) [buffer] [] 2
  | CallSendTo fd flags buffer addr => plain 11 (s32s [fd; flags]) [buffer; addr] [] 2
  | CallAccept fd addr_out => plain 12 (s32s [fd]) [] [addr_out] 2
  | CallBind fd addr _ => plain 13 (s32s [fd]) [addr] [] 1
  | CallConnect fd addr _ => plain 14 (s32s [fd]) [addr] [] 1
  | CallGetPeerName fd addr_out => plain 15 (s32s [fd]) [] [addr_out] 1
  | CallGetSockName fd addr_out => plain 16 (s32s [fd]) [] [addr_out] 1
  | CallGetSockOpt fd level optname optval => plain 17 (s32s [fd; level; optname]) [] [optval] 1
  | CallListen fd backlog => plain 18 (s32s [fd; backlog]) [] [] 1
  | CallIoctl fd request bufcount buf_in buf_out =>
      plain 19 (s32s [fd; request; bufcount]) [buf_in] [buf_out] 2
  | CallFcntl fd cmd arg => plain 20 (s32s [fd; cmd; arg]) [] [] 2
  | CallSetSockOpt fd level optname optval => plain 21 (s32s [fd; level; optname]) [optval] [] 1
  | CallShutdown fd how => plain 22 (s32s [fd; how]) [] [] 1
  | CallShutdownAllSockets pid how => plain 23 (le_split 8 pid ++ s32s [how]) [] [] 1
  | CallWrite fd buffer => plain 24 (s32s [fd]) [buffer] [] 2
  | CallRead fd buffer _ => plain 25 (s32s [fd]) [] [buffer] 2
  | CallClose fd => plain 26 (s32s [fd]) [] [] 1
  | CallDuplicateSocket fd target_pid => plain 27 (s32s [fd; 0] ++ le_split 8 target_pid) [] [] 2
  | CallGetResourceStatistics pid out_stats => plain 28 (le_split 8 pid) [] [out_stats] 1
  | CallRecvMMsg fd vlen flags timeout out_data =>
      plain 29 (s32s [fd; vlen; flags; timeout]) [] [out_data] 2
  | CallSendMMsg fd vlen flags in_data => plain 30 (s32s [fd; vlen; flags]) [in_data] [] 2
  | CallEventFd initval flags => plain 31 (le_split 8 initval ++ s32s [flags; 0]) [] [] 2
  | CallRegisterResourceStatisticsName pid name => plain 32 (le_split 8 pid) [name] [] 1
  | CallRegisterClientShared config tmem_size =>
      {| sp_command := 33; sp_raw := bytes_of config ++ le_split 8 0 ++ le_split 8 tmem_size;
         sp_in := []; sp_out := []; sp_pid := true; sp_handles := []; sp_words := 1 |}
  end.

Definition request (o : BsdMitmService) (c : Call) : Request :=
  let p := spec c in {|
  rq_session := m_session o; rq_command := sp_command p; rq_raw := sp_raw p; rq_in := sp_in p;
  rq_out := sp_out p;
  rq_override_pid := if sp_pid p then Some (m_client_pid o) else None;
  rq_handles := sp_handles p |}.

(** The answer, word by word and buffer by buffer. *)
Definition passed_on (c : Call) (a : Answer) : Reply := {|
  rep_rc := an_rc a;
  rep_words := (fun i => an_word i a) <$> seq 0 (sp_words (spec c));
  rep_buffers := (fun i => an_buffer i a) <$> seq 0 (length (sp_out (spec c))) |}.

(** ** The commands that do not concern the LDN network *)

Definition untouched (fd : Z) (s : Bsd) : Prop :=
  from_option si_is_proxy false (g_socket_info s !! fd) = false.
Definition no_proxy (fd : Z) (s : Bsd) : Prop := m_sockets (manager s) !! fd = None.

Definition in_sets (fd : Z) (r w e : Buffer) : bool :=
  fd_isset fd r || fd_isset fd w || fd_isset fd e.

Definition outside (c : Call) (s : Bsd) : Prop :=
  match c with
  | CallRecv fd _ _ _ | CallRecvFrom fd _ _ _ _ | CallSend fd _ _ | CallWrite fd _
  | CallRead fd _ _ => untouched fd s \/ no_proxy fd s
  | CallClose fd => untouched fd s
  | CallSendTo fd _ _ addr =>
      untouched fd s /\ from_option is_ldn_destination false (copied_addr addr) = false
  | CallConnect fd addr _ =>
      from_option is_ldn_destination false (copied_addr addr) = false \/ g_socket_info s !! fd = None
  | CallBind fd addr _ =>
      from_option (fun a => is_ldn_destination a
        || (sin_family a =? AddressFamily_Inet) && (sin_addr a =? 0)) false (copied_addr addr) = false
      \/ g_socket_info s !! fd = None
  | CallGetPeerName fd _ | CallGetSockName fd _ | CallGetSockOpt fd _ _ _ | CallIoctl fd _ _ _ _
  | CallFcntl fd _ _ | CallSetSockOpt fd _ _ _ => no_proxy fd s
  | CallSelect nfds r w e _ _ _ _ =>
      forall fd, 0 <= fd < nfds -> in_sets fd r w e = true -> no_proxy fd s
  | CallPoll fds_in fds_out nfds _ =>
      forall i, i ∈ poll_indices fds_out nfds ->
        no_proxy (pfd_fd (poll_fd i (default [] (poll_input fds_in fds_out)))) s
  | _ => True
  end.

Lemma select_scan_outside fds r w e o hp hr s :
  free s -> (forall fd, fd ∈ fds -> in_sets fd r w e = true -> no_proxy fd s) ->
  exists hr', select_scan fds r w e o hp hr s = Some ((o, hp, hr'), s).
Proof.
  intros Hf. revert hr. induction fds as [|fd fds IH]; intros hr Hno; [by eexists|].
  cbn [select_scan]. setoid_rewrite elem_of_cons in Hno.
  destruct (negb (fd_isset fd r) && negb (fd_isset fd w) && negb (fd_isset fd e)) eqn:Hin.
  { apply IH. eauto. }
  erewrite bind_some by by apply get_proxy_eq. rewrite (Hno fd).
  - apply IH. eauto.
  - by left.
  - unfold in_sets. apply negb_false_iff. by rewrite !negb_orb.
Qed.

Lemma zlen_poll_fd p : zlen (bytes_of (p : PollFd)) = 8.
Proof. done. Qed.

Lemma set_poll_fd_behind i j p bytes :
  0 <= j < i -> 8 * i <= zlen bytes ->
  zdrop (8 * i) (set_poll_fd j p bytes) = zdrop (8 * i) bytes
  /\ zlen (set_poll_fd j p bytes) = zlen bytes.
Proof.
  intros Hj Hi. split; [|apply zlen_write_at; rewrite ?zlen_poll_fd; lia].
  apply zdrop_write_at_behind; rewrite ?zlen_poll_fd; lia.
Qed.

Lemma poll_scan_outside n i fds r hp hr s :
  free s -> 0 <= i -> 8 * (i + Z.of_nat n) <= zlen fds ->
  (forall j, i <= j < i + Z.of_nat n -> no_proxy (pfd_fd (poll_fd j fds)) s) ->
  exists hr', poll_scan (seqZ i (Z.of_nat n)) fds r hp hr s
    = Some ((cleared (seqZ i (Z.of_nat n)) fds, r, hp, hr'), s).
Proof.
  intros Hf. revert i fds hr. induction n as [|n IH]; intros i fds hr Hi Hlen Hno.
  { by eexists. }
  rewrite (seqZ_cons i) by lia. replace (Z.pred (Z.of_nat (S n))) with (Z.of_nat n) by lia.
  cbn [poll_scan cleared foldl]. erewrite bind_some by by apply get_proxy_eq.
  rewrite (Hno i) by lia.
  assert (Hset : forall j, i < j <= i + Z.of_nat (S n) ->
    zdrop (8 * j) (set_poll_fd i (set_revents 0 (poll_fd i fds)) fds) = zdrop (8 * j) fds
    /\ zlen (set_poll_fd i (set_revents 0 (poll_fd i fds)) fds) = zlen fds)
    by (intros j Hj; apply set_poll_fd_behind; lia).
  apply IH; [lia| |].
  - destruct (Hset (i + 1) ltac:(lia)) as [_ ->]. lia.
  - intros j Hj. unfold poll_fd at 1. destruct (Hset j ltac:(lia)) as [-> _]. apply Hno. lia.
Qed.

Lemma GetSize_nonneg b : 0 <= GetSize b.
Proof. apply zlen_nonneg. Qed.

Lemma poll_input_size fds_in fds_out : GetSize (poll_input fds_in fds_out) = GetSize fds_out.
Proof.
  unfold poll_input. destruct (Z.leb_spec (GetSize fds_in) (GetSize fds_out)); [|done].
  destruct fds_out as [bytes|]; [|done]. cbn. unfold GetSize in *. cbn in *.
  apply zlen_write_at; lia.
Qed.

(** ** The theorem *)
Definition forwards (this : Z) (o : BsdMitmService) (c : Call) (m : Method Reply) (s : Bsd) : Prop :=
  exists s', m s = Some (passed_on c (real (forwarded s) (request o c)), s')
    /\ forwarded s' = forwarded s ++ [request o c] /\ manager s' = manager s.

(** Everything a forwarding command does before it asks. *)
Lemma forward_eq this o s command raw ins outs n :
  services s !! this = Some o ->
  forward real this command raw ins outs n s =
  let rq := {| rq_session := m_session o; rq_command := command; rq_raw := raw; rq_in := ins;
               rq_out := outs; rq_override_pid := None; rq_handles := [] |} in
  let a := real (forwarded s) rq in
  Some ({| rep_rc := an_rc a; rep_words := (fun i => an_word i a) <$> seq 0 n;
           rep_buffers := (fun i => an_buffer i a) <$> seq 0 (length outs) |}, asked rq s).
Proof. intros H. unfold forward. erewrite bind_some by by apply dispatch_eq. done. Qed.

Lemma count_then this o c (k : Method Reply) s :
  services s !! this = Some o -> free s ->
  (forall s1 o1, services s1 !! this = Some o1 -> free s1 -> request o1 c = request o c ->
     m_session_id o1 = m_session_id o -> m_client_pid o1 = m_client_pid o ->
     forwarded s1 = forwarded s -> manager s1 = manager s -> g_socket_info s1 = g_socket_info s ->
     forwards this o1 c k s1) ->
  forwards this o c (count_command this;; k) s.
Proof.
  intros Ho Hf Hk. destruct (counted_service this o s Ho) as (o1 & Ho1 & Hs & Hp & Hi).
  assert (Hr : request o1 c = request o c) by (unfold request; by rewrite Hs, Hp).
  destruct (Hk (counted this s) o1 Ho1 Hf Hr Hi Hp eq_refl eq_refl eq_refl) as (s' & H1 & H2 & H3).
  exists s'. erewrite bind_some by by apply (count_command_eq this o).
  rewrite <- Hr. by split_and!.
Qed.

Lemma forward_forwards this o c s :
  services s !! this = Some o -> sp_pid (spec c) = false -> sp_handles (spec c) = [] ->
  forwards this o c (forward real this (sp_command (spec c)) (sp_raw (spec c)) (sp_in (spec c))
                       (sp_out (spec c)) (sp_words (spec c))) s.
Proof.
  intros Ho Hp Hh. exists (asked (request o c) s). split; [|done].
  etrans; [by apply (forward_eq this o)|]. unfold passed_on, request. by rewrite Hp, Hh.
Qed.

Lemma no_transfer_proxy fd s :
  free s -> untouched fd s \/ no_proxy fd s -> transfer_proxy fd s = Some (None, s).
Proof.
  intros Hf Hno. change (transfer_proxy fd s) with
    ((if from_option si_is_proxy false (g_socket_info s !! fd)
      then get_proxy fd else mret None) s).
  destruct (from_option _ _ _) eqn:Hm; [|done].
  destruct Hno as [Hno|Hno]; [by unfold untouched in Hno; congruence|].
  rewrite get_proxy_eq by done. by rewrite Hno.
Qed.

(** A statement that does not ask. *)
Lemma forwards_bind {A} this o c (m : Method A) (k : A -> Method Reply) s a s1 :
  m s = Some (a, s1) -> forwarded s1 = forwarded s -> manager s1 = manager s ->
  forwards this o c (k a) s1 -> forwards this o c (x ← m; k x) s.
Proof.
  intros Hm Hf Hg (s' & H1 & H2 & H3). exists s'. erewrite bind_some by exact Hm.
  rewrite <- Hf, <- Hg. by split_and!.
Qed.

(** A statement that only asks. *)
Lemma forwards_asked this o c (k : Answer -> Method Reply) s :
  services s !! this = Some o ->
  (forall a s1, services s1 !! this = Some (o : BsdMitmService) ->
     exists s', k a s1 = Some (passed_on c a, s') /\ forwarded s' = forwarded s1
                /\ manager s' = manager s1) ->
  forwards this o c (x ← dispatch real this (sp_command (spec c)) (sp_raw (spec c))
      (sp_in (spec c)) (sp_out (spec c))
      (if sp_pid (spec c) then Some (m_client_pid o) else None) (sp_handles (spec c)); k x) s.
Proof.
  intros Ho Hk. destruct (Hk (real (forwarded s) (request o c)) (asked (request o c) s) Ho)
    as (s' & H1 & H2 & H3).
  exists s'. erewrite bind_some by by apply (dispatch_eq this o). by split_and!.
Qed.

Ltac start Ho1 Hf1 Hm Hg :=
  let Hr := fresh in let Hi := fresh in let Hp := fresh in let Hfw := fresh in
  apply count_then; [done|done|]; intros s1 o1 Ho1 Hf1 Hr Hi Hp Hfw Hm Hg.
Ltac pass := by apply forward_forwards.

Lemma forwards_plain iter this o c s :
  services s !! this = Some o -> free s ->
  match c with
  | CallSelect _ _ _ _ _ _ _ _ | CallPoll _ _ _ _ | CallBind _ _ _ | CallConnect _ _ _
  | CallSendTo _ _ _ _ => False
  | _ => outside c s
  end ->
  forwards this o c (perform iter real this c) s.
Proof.
  intros Ho Hf Hout. destruct c; cbn [perform outside] in *; try done.
  all: start Ho1 Hf1 Hm Hg; try pass.
  (* transfers *)
  all: try (eapply forwards_bind; [apply no_transfer_proxy; [done|]|done|done|pass];
            unfold untouched, no_proxy in *; by rewrite Hg, Hm).
  (* control of a socket without a proxy *)
  all: unfold untouched, no_proxy in Hout; try rewrite <- Hm in Hout.
  all: try (eapply forwards_bind; [by apply get_proxy_eq|done|done|]; rewrite Hout; try pass).
  all: try (eapply forwards_bind; [unfold this_service; by rewrite Ho1|done|done|]).
  all: try (apply forwards_asked; [done|]; intros a s2 Ho2;
            try (erewrite bind_some by (unfold this_service; by rewrite Ho2));
            destruct (_ && _) || destruct (an_rc a =? 0); by eexists).
  - unfold track_broadcast. destruct (_ && _); (eapply forwards_bind; [done|done|done|pass]).
  - eapply forwards_bind; [done|done|done|]. rewrite Hg. destruct (g_socket_info s !! fd) as [i|].
    + cbn in Hout. rewrite Hout. eapply forwards_bind; [done|done|done|]. pass.
    + eapply forwards_bind; [done|done|done|]. pass.
Qed.

Lemma forwards_Bind this o fd addr now_ms s :
  services s !! this = Some o -> free s -> outside (CallBind fd addr now_ms) s ->
  forwards this o (CallBind fd addr now_ms) (Bind real this fd addr now_ms) s.
Proof.
  intros Ho Hf Hout. cbn [outside] in Hout. start Ho1 Hf1 Hm Hg.
  destruct (copied_addr addr) as [a|]; [|pass]. cbn in Hout. unfold is_ldn_destination in Hout.
  rewrite <- andb_orb_distrib_r in Hout. destruct (_ && _); [|pass].
  destruct Hout as [?|Hout]; [done|].
  eapply forwards_bind; [done|done|done|]. rewrite Hg, Hout. pass.
Qed.

Lemma forwards_Connect this o fd addr others s :
  services s !! this = Some o -> free s -> outside (CallConnect fd addr others) s ->
  forwards this o (CallConnect fd addr others) (Connect real this fd addr others) s.
Proof.
  intros Ho Hf Hout. cbn [outside] in Hout. start Ho1 Hf1 Hm Hg.
  destruct (copied_addr addr) as [a|]; [|pass]. cbn in Hout. unfold is_ldn_destination in Hout.
  destruct (_ && _); [|pass]. destruct Hout as [?|Hout]; [done|].
  eapply forwards_bind; [done|done|done|]. rewrite Hg, Hout. pass.
Qed.

Lemma forwards_SendTo this o fd flags buffer addr s :
  services s !! this = Some o -> free s -> outside (CallSendTo fd flags buffer addr) s ->
  forwards this o (CallSendTo fd flags buffer addr) (SendTo real this fd flags buffer addr) s.
Proof.
  intros Ho Hf [Hu Hd]. start Ho1 Hf1 Hm Hg. unfold untouched in Hu.
  eapply forwards_bind; [done|done|done|]. rewrite Hg.
  eapply forwards_bind with (a := 0) (s1 := s1); [|done|done|].
  - unfold prepare_send_to. rewrite Hd. by destruct (g_socket_info s !! fd).
  - cbn [negb Z.eqb]. rewrite Hu, Hd. pass.
Qed.

Lemma forwards_Select this o nfds r w e timeout ro wo eo s :
  services s !! this = Some o -> free s ->
  outside (CallSelect nfds r w e timeout ro wo eo) s ->
  forwards this o (CallSelect nfds r w e timeout ro wo eo)
    (Select real this nfds r w e timeout ro wo eo) s.
Proof.
  intros Ho Hf Hout. cbn [outside] in Hout. start Ho1 Hf1 Hm Hg.
  destruct (select_scan_outside (seqZ 0 nfds) r w e
    {| fs_read := fd_zero ro; fs_write := fd_zero wo; fs_error := fd_zero eo; fs_count := 0 |}
    false false s1 Hf1) as (hr & Hscan).
  { intros fd Hfd Hin. unfold no_proxy in *. rewrite Hm. apply Hout; [|done].
    apply elem_of_seqZ in Hfd. lia. }
  eapply forwards_bind; [exact Hscan|done|done|]. cbn [andb].
  apply (forwards_asked this o1 (CallSelect nfds r w e timeout ro wo eo)); [done|].
  intros a s2 _. by eexists.
Qed.

Lemma forwards_Poll this o fds_in fds_out nfds timeout s :
  services s !! this = Some o -> free s -> outside (CallPoll fds_in fds_out nfds timeout) s ->
  forwards this o (CallPoll fds_in fds_out nfds timeout)
    (Poll real this fds_in fds_out nfds timeout) s.
Proof.
  intros Ho Hf Hout. cbn [outside] in Hout. start Ho1 Hf1 Hm Hg.
  fold (poll_input fds_in fds_out). fold (poll_indices fds_out nfds).
  pose proof (poll_input_size fds_in fds_out) as Hsize.
  set (fds := poll_input fds_in fds_out) in *.
  assert (Hscan : exists hr, poll_scan (poll_indices fds_out nfds) (default [] fds) 0 false false s1
    = Some ((cleared (poll_indices fds_out nfds) (default [] fds), 0, false, hr), s1)).
  { unfold poll_indices in *. pose proof (GetSize_nonneg fds_out).
    assert (0 <= u64 nfds) by (apply Z.mod_pos_bound; lia).
    assert (0 <= GetSize fds_out / 8) by (apply Z.div_pos; lia).
    rewrite <- (Z2Nat.id (Z.min (u64 nfds) (GetSize fds_out / 8))) by lia.
    apply poll_scan_outside; [done|lia| |].
    - unfold GetSize in Hsize. rewrite Hsize. fold (GetSize fds_out).
      pose proof (Z.mul_div_le (GetSize fds_out) 8 ltac:(lia)). lia.
    - intros j Hj. unfold no_proxy in *. rewrite Hm. apply Hout. apply elem_of_seqZ. lia. }
  destruct Hscan as (hr & Hscan).
  eapply forwards_bind; [exact Hscan|done|done|]. cbn [andb].
  assert ((fun _ => cleared (poll_indices fds_out nfds) (default [] fds)) <$> fds
          = cleared (poll_indices fds_out nfds) <$> fds) as -> by by destruct fds.
  apply (forwards_asked this o1 (CallPoll fds_in fds_out nfds timeout)
    (fun a => let fds := an_buffer 0 a in
      '(bytes, count) ← mret (default [] fds, an_word 1 a);
      mret {| rep_rc := an_rc a; rep_words := [an_word 0 a; count];
              rep_buffers := [(fun _ => bytes) <$> fds] |})); [done|].
  intros a s2 _. eexists. split; [|done]. cbn. unfold passed_on. cbn.
  by destruct (an_buffer 0 a).
Qed.

(** C13: what stays outside the LDN network is not disturbed: while nobody holds
    the manager's mutex, a command [outside] of the proxy's business asks the real
    service exactly once, in the game's own session, with the number, raw input
    and buffers of that command (the sets of [select] and the results of [poll]
    cleared), and hands back the answer as it is: the result, every word, every
    buffer.  The socket manager is not changed.  Outside are: a receive, send,
    read or write on a descriptor that is not marked as a proxy or has no proxy
    socket, and a [Close] of one not marked; [SendTo] on one not marked, to an
    address that is no LDN destination; [Connect] to such an address, and [Bind]
    to one that is not 0.0.0.0 (AF_INET) either, or each on a descriptor the
    module does not track; the queries, [Fcntl], [Ioctl] and options of a
    descriptor without proxy socket; [Select] and [Poll] over such descriptors;
    every other command always. *)
Theorem outside_calls_forwarded iter this o c s :
  services s !! this = Some o -> m_mutex (m_link (manager s)) = false -> outside c s ->
  exists s', perform iter real this c s = Some (passed_on c (real (forwarded s) (request o c)), s')
    /\ forwarded s' = forwarded s ++ [request o c] /\ manager s' = manager s.
Proof.
  intros Ho Hf Hout. change (forwards this o c (perform iter real this c) s).
  destruct c; try (by apply forwards_plain).
  - by apply forwards_Select.
  - by apply forwards_Poll.
  - by apply forwards_SendTo.
  - by apply forwards_Bind.
  - by apply forwards_Connect.
Qed.
End forward.

(** ** An example: one session with the datagram socket 3 *)

Definition sample_service : BsdMitmService := {|
  m_client_pid := 7; m_command_count := 0; m_session_id := 1; m_registered := true;
  m_session := 100 |}.

Definition sample_bsd : Bsd := {|
  g_socket_info := {[ 3 := tracked_info 2 0 1 ]};
  g_mitm_pid_count := {[ 7 := 2 ]}; g_active_intercepted_sessions_count := {[ 7 := 1 ]};
  s_pid_program_ids := ∅; g_abandoned_forward_services := []; s_next_session_id := 1;
  services := {[ 1 := sample_service ]}; manager := new_ProxySocketManager;
  shared_state := SharedState.new_SharedState;
  whitelist := GameWhitelist.new_Whitelist;
  forwarded := []; closed_handles := [] |}.

(** A system that accepts everything. *)
Definition sample_real (_ : list Request) (rq : Request) : Answer := {|
  an_rc := 0; an_words := [0; 5]; an_buffers := rq_out rq |}.

Lemma outside_calls_forwarded_witness :
  exists s', perform any_iter sample_real 1 (CallSend 3 0 (Some [1; 2; 3])) sample_bsd
             = Some (success [0; 5] [], s').
Proof.
  destruct (outside_calls_forwarded sample_real any_iter 1 sample_service
    (CallSend 3 0 (Some [1; 2; 3])) sample_bsd) as (s' & H & _).
  - reflexivity.
  - reflexivity.
  - left. reflexivity.
  - exists s'. exact H.
Defined.
