(* ===== verification/BsdListen.v ===== *)
(** * Nobody can connect to a game

    [Listen] and [Accept] are handed to the system even for a socket that has a
    proxy, so no proxy socket ever listens: over all runs of the socket service
    and of the network, an incoming connection finds no target. *)

From stdpp Require Import base numbers list gmap.
From Stdlib Require Import ZArith Lia Bool.
From S2P Require Import Prelude Layout Imperative Types BsdTypes Ring PortPool ProxyLink ProxySocket.
From S2P Require Import ProxySocketManager BsdService BsdForward.

(** ** Runs *)

Inductive ManagerCallback : Set := OnData | OnConnect | OnReply | OnDisconnect.

Definition set_manager_callback (which : ManagerCallback)
    : option (ProxyMessage -> bool) -> Link -> option Link :=
  match which with
  | OnData => SetSendCallback | OnConnect => SetProxyConnectCallback
  | OnReply => SetProxyConnectReplyCallback | OnDisconnect => SetProxyDisconnectCallback
  end.

(** What the communication service does to the manager. *)
Inductive NetworkEvent : Type :=
| NetData (source_ip source_port dest_ip dest_port : Z) (protocol : ProtocolType)
    (data : option (list Z)) (data_len now_ms : Z)
| NetConnect (request : ProxyConnectRequest)
| NetConnectReply (response : ProxyConnectResponse)
| NetLocalIp (ip : Z)
| NetCallback (which : ManagerCallback) (callback : option (ProxyMessage -> bool))
| NetCloseAll
| NetReset.

Section runs.
Context (iter : gmap Z ProxySocket -> list (Z * ProxySocket)).
Context (iter_perm : forall socks, iter socks ≡ₚ map_to_list socks).
Context (iter_info : gmap Z SocketInfo -> list (Z * SocketInfo)).
Context (real : list Request -> Request -> Answer).

Definition network (e : NetworkEvent) (m : ProxySocketManager) : option ProxySocketManager :=
  match e with
  | NetData sip sport dip dport protocol data len now =>
      snd <$> RouteIncomingData iter sip sport dip dport protocol data len now m
  | NetConnect request => snd <$> RouteConnectRequest iter request m
  | NetConnectReply response => snd <$> RouteConnectResponse iter response m
  | NetLocalIp ip => snd <$> SetLocalIp ip m
  | NetCallback which callback =>
      (fun l => set_link l m) <$> set_manager_callback which callback (m_link m)
  | NetCloseAll => snd <$> CloseAllProxySockets iter m
  | NetReset => snd <$> Reset iter m
  end.

Definition network_event (e : NetworkEvent) : Method unit :=
  modify_opt (fun s => (fun m => s <| manager := m |>) <$> network e (manager s)).

Inductive Step : Type :=
| DoCall (this : Z) (c : Call)
| DoNew (this pid session : Z)
| DoDelete (this : Z)
| DoShouldMitm (pid program_id : Z)
| DoCleanup (pid : option Z)
| DoResetProcess (pid : Z)
| DoNetwork (e : NetworkEvent).

Definition run_step (st : Step) : Method unit :=
  match st with
  | DoCall this c => perform iter real this c;; mret tt
  | DoNew this pid session => BsdMitmService_new this pid session
  | DoDelete this => BsdMitmService_delete iter iter_info this
  | DoShouldMitm pid program_id => ShouldMitm pid program_id;; mret tt
  | DoCleanup (Some pid) => CleanupAbandonedServicesForPid pid
  | DoCleanup None => CleanupAbandonedServices
  | DoResetProcess pid => ResetProcessMitmState iter iter_info pid
  | DoNetwork e => network_event e
  end.

Definition run (steps : list Step) : Method unit := for_each steps run_step.

(** ** Sockets that do not listen *)

Definition calm (p : ProxySocket) : Prop := s_state p <> Listening /\ s_accept_queue p = [].

Definition quiet (m : ProxySocketManager) : Prop :=
  m_mutex (m_link m) = false /\ map_Forall (fun _ => calm) (m_sockets m).

Lemma calm_step st p : calm p -> calm (socket_step st p).
Proof.
  intros [Hs Hq]. destruct st as [| | |how]; try done; cbn.
  - by rewrite bool_decide_eq_false_2.
  - by destruct how.
Qed.

Lemma calm_steps sts p : calm p -> calm (socket_steps sts p).
Proof.
  unfold socket_steps. revert p. induction sts as [|st sts IH]; intros p Hp; [done|].
  by apply IH, calm_step.
Qed.

(** A change of a registered socket, the mutex being free before and after. *)
Definition calm_op {A} (f : ProxySocket -> Link -> option (A * ProxySocket * Link)) : Prop :=
  forall p l a p' l', calm p -> m_mutex l = false -> f p l = Some (a, p', l') ->
    calm p' /\ m_mutex l' = false.

Lemma invoke_mutex cb msg l : m_mutex (invoke cb msg l).2 = m_mutex l.
Proof. by destruct cb. Qed.

Lemma SendTo_mutex data len flags dest p l n l' :
  m_mutex l = false -> ProxySocket.SendTo data len flags dest p l = Some (n, l') -> m_mutex l' = false.
Proof.
  intros Hl. unfold ProxySocket.SendTo. repeat (case_match; [by intros [= _ <-]|]).
  rewrite SendProxyData_free by done. cbn [mbind option_bind].
  destruct (invoke _ _ _) as [sent l1] eqn:E. intros Hn.
  assert (m_mutex l1 = false) by (rewrite <- (invoke_mutex (m_send_callback l)
    (ProxyData (GetAddr (s_local_addr p)) (GetPort (s_local_addr p)) (GetAddr dest) (GetPort dest)
       (s_protocol p) (ztake len (default [] data))) l) in Hl; by rewrite E in Hl).
  destruct (negb sent); by injection Hn as _ <-.
Qed.

Lemma Send_mutex data len flags p l n l' :
  m_mutex l = false -> ProxySocket.Send data len flags p l = Some (n, l') -> m_mutex l' = false.
Proof.
  intros Hl. unfold ProxySocket.Send. destruct (negb _); [by intros [= _ <-]|]. by apply SendTo_mutex.
Qed.

Ltac settle := by intros [= _ <- <-].

Lemma calm_Bind addr :
  calm_op (fun p l => let (rc, p) := ProxySocket.Bind addr p in Some (rc, p, l)).
Proof.
  intros p l a p' l' [Hs Hq] Hl. unfold ProxySocket.Bind.
  destruct (negb _); [settle|]. destruct (negb _); settle.
Qed.

Lemma calm_Connect addr others : calm_op (ProxySocket.Connect addr others).
Proof.
  intros p l a p' l' [Hs Hq] Hl. unfold ProxySocket.Connect.
  destruct (bool_decide _); [settle|]. destruct (negb _); [settle|].
  destruct (bool_decide _); [|settle].
  rewrite SendProxyConnect_free by done. cbn [mbind option_bind].
  match goal with |- context [set_connect ?b ?r ?e ?q] => set (p1 := set_connect b r e q) end.
  assert (Hp1 : calm p1) by done.
  destruct (invoke _ _ l) as [sent l1] eqn:E.
  assert (Hl1 : m_mutex l1 = false).
  { match type of E with invoke ?cb ?msg ?l = _ => pose proof (invoke_mutex cb msg l) as Hm end.
    by rewrite E, Hl in Hm. }
  destruct (calm_steps others p1 Hp1) as [_ Hq2].
  destruct (negb sent); [settle|]. destruct (negb _); [|settle].
  destruct (_ || _); [settle|]. destruct (negb _); settle.
Qed.

Lemma calm_transfer (f : ProxySocket -> Link -> option (Z * Link)) :
  (forall p l n l', m_mutex l = false -> f p l = Some (n, l') -> m_mutex l' = false) ->
  calm_op (fun p l => '(n, l) ← f p l; Some (n, p, l)).
Proof.
  intros Hf p l a p' l' Hp Hl H. apply bind_Some in H as ([n l1] & H & [= <- <- <-]).
  split; [done|by apply (Hf p l n)].
Qed.

Lemma calm_RecvFrom null len flags others p r p' :
  calm p -> ProxySocket.RecvFrom null len flags others p = Some (r, p') -> calm p'.
Proof.
  intros Hp. unfold ProxySocket.RecvFrom.
  pose proof (calm_steps others p Hp) as Hp2.
  repeat case_match; try done; intros [= <- <-]; first [exact Hp | exact Hp2].
Qed.

Lemma calm_Recv null len flags others p r p' :
  calm p -> ProxySocket.Recv null len flags others p = Some (r, p') -> calm p'.
Proof.
  intros Hp. unfold ProxySocket.Recv.
  destruct (bool_decide _); [by apply calm_RecvFrom|by intros [= _ <-]].
Qed.

Lemma calm_receive (f : ProxySocket -> option (received * ProxySocket)) :
  (forall p r p', calm p -> f p = Some (r, p') -> calm p') ->
  calm_op (fun p l => '(r, p) ← f p; Some (r, p, l)).
Proof.
  intros Hf p l a p' l' Hp Hl H. apply bind_Some in H as ([r p1] & H & [= <- <- <-]).
  split; [by apply (Hf p r)|done].
Qed.

Lemma calm_update {A} (a : A) (f : ProxySocket -> ProxySocket) :
  (forall p, calm p -> calm (f p)) -> calm_op (fun p l => Some (a, f p, l)).
Proof. intros Hf p l b p' l' Hp Hl [= <- <- <-]. by split; [apply Hf|]. Qed.

Lemma calm_SetSockOpt level optname optval len :
  calm_op (fun p l => let (rc, p) := ProxySocket.SetSockOpt level optname optval len p in
                      Some (rc, p, l)).
Proof.
  intros p l a p' l' Hp Hl.
  assert (calm (ProxySocket.SetSockOpt level optname optval len p).2) as H
    by (unfold ProxySocket.SetSockOpt; repeat case_match; exact Hp).
  destruct (ProxySocket.SetSockOpt level optname optval len p) as [rc q].
  intros [= <- <- <-]. by split.
Qed.

(** ** The manager *)

Definition quiet_call {A} (f : ProxySocketManager -> option (A * ProxySocketManager)) : Prop :=
  forall m a m', quiet m -> f m = Some (a, m') -> quiet m'.

Abbreviation calm_sockets m := (map_Forall (fun _ => calm) (m_sockets m)).

Lemma quiet_with_lock {A} (body : ProxySocketManager -> option (A * ProxySocketManager)) :
  (forall m a m', calm_sockets m -> body m = Some (a, m') -> calm_sockets m') ->
  quiet_call (with_lock body).
Proof.
  intros Hb m a m' [Hf Hc]. rewrite with_lock_free by done.
  intros H. apply bind_Some in H as ([b m1] & H & [= <- <-]). split; [done|].
  exact (Hb (set_link (set_mutex true (m_link m)) m) b m1 Hc H).
Qed.

Lemma quiet_read {A} (f : ProxySocketManager -> A) : quiet_call (with_lock (fun m => Some (f m, m))).
Proof. apply quiet_with_lock. by intros m a m' Hc [= _ <-]. Qed.

Lemma quiet_create fd type protocol : quiet_call (CreateProxySocket fd type protocol).
Proof.
  apply quiet_with_lock. intros m a m' Hc. destruct (m_sockets m !! fd); [by intros [= _ <-]|].
  destruct (decide _); intros [= _ <-]; [done|]. cbn. by apply map_Forall_insert_2.
Qed.

Lemma compact_state {A S} `{Inhabited A} (N : nat) (P : S -> Prop) (step : A -> S -> bool * S)
    slots rd w n k s :
  (forall a s, P s -> P (step a s).2) -> P s -> P (compact N step slots rd w n k s).2.
Proof.
  intros Hstep. revert slots rd w k s. induction n as [|n IH]; intros slots rd w k s Hs; [done|].
  cbn [compact]. pose proof (Hstep (slots !!! rd) s Hs) as H1.
  destruct (step _ s) as [[] s1]; by apply IH.
Qed.

Lemma calm_deliver port protocol now pkt p :
  calm p -> calm (deliver_step port protocol now pkt p).2.
Proof. intros Hp. unfold deliver_step. by destruct (_ && _). Qed.

Lemma quiet_deliver socket port protocol now :
  quiet_call (DeliverPendingPackets socket port protocol now).
Proof.
  apply quiet_with_lock. intros m a m' Hc. destruct socket as [fd|]; [|by intros [= _ <-]].
  destruct (decide _); [by intros [= _ <-]|].
  destruct (m_sockets m !! fd) as [p|] eqn:Hp; [|by intros [= _ <-]].
  pose proof (compact_state MaxPendingPackets calm (deliver_step port protocol now)
    (r_slots (m_pending m)) (r_head (m_pending m)) (r_head (m_pending m))
    (r_count (m_pending m)) 0 p (calm_deliver port protocol now) (Hc fd p Hp)) as H1.
  unfold ring_compact. destruct (compact _ _ _ _ _ _ _ _) as [[[slots w] kept] p1].
  intros [= _ <-]. cbn. by apply map_Forall_insert_2.
Qed.

Lemma purge_sockets fd port protocol m :
  m_sockets (purge_endpoint iter fd port protocol m) = m_sockets m.
Proof.
  unfold purge_endpoint. destruct (_ && _); [|done]. destruct (has_same_endpoint_socket _ _ _ _); [done|].
  by destruct (ring_compact _ _ _ _).
Qed.

Lemma quiet_call_close fd : quiet_call (CloseProxySocket iter fd).
Proof.
  apply quiet_with_lock. intros m a m' Hc. destruct (m_sockets m !! fd) as [p|]; [|by intros [= _ <-]].
  cbv zeta. destruct (negb (GetPort (s_local_addr p) =? 0));
    (destruct (ProxySocket.Close _ _) as [[[z p1] l1]|]; [|done]; cbn [mbind option_bind];
     intros [= _ <-]; cbn [m_sockets set_sockets]; rewrite purge_sockets;
     cbn [m_sockets set_link set_sockets set_port_pool]; rewrite delete_insert_eq;
     by apply map_Forall_delete).
Qed.

Lemma calm_delivered targets data len from socks :
  map_Forall (fun _ => calm) socks -> map_Forall (fun _ => calm) (deliver_all targets data len from socks).
Proof.
  revert socks. induction targets as [|fd targets IH]; intros socks Hc; [exact Hc|].
  cbn [deliver_all foldl]. apply IH. intros fd' p. rewrite lookup_alter.
  case_decide; [|by apply Hc]. intros Hp. apply fmap_Some in Hp as (q & Hq & ->).
  exact (Hc fd q Hq).
Qed.

Lemma quiet_route_data sip sport dip dport protocol data len now :
  quiet_call (RouteIncomingData iter sip sport dip dport protocol data len now).
Proof.
  apply quiet_with_lock. intros m a m' Hc. destruct (_ && _); [by intros [= _ <-]|].
  destruct (FindAllSocketsByDestination _ _ _ _ _ _) as [|t ts] eqn:E.
  { destruct (bool_decide _); by intros [= _ <-]. }
  intros [= _ <-]. exact (calm_delivered (t :: ts) _ _ _ _ Hc).
Qed.

Lemma quiet_connect_reply response : quiet_call (RouteConnectResponse iter response).
Proof.
  apply quiet_with_lock. intros m a m' Hc.
  destruct (connect_response_target _ _ _) as [[fd p]|] eqn:E; [|by intros [= _ <-]].
  intros [= _ <-]. cbn. apply map_Forall_insert_2; [|done].
  apply find_some in E as [Hin _]. apply list_elem_of_In, (elem_of_iter iter iter_perm) in Hin.
  exact (Hc fd p Hin).
Qed.

(** Nobody listens. *)
Lemma no_target dest_ip dest_port m :
  calm_sockets m -> connect_request_target dest_ip dest_port (iter (m_sockets m)) = None.
Proof.
  intros Hc. unfold connect_request_target. destruct (find _ _) as [[fd p]|] eqn:E; [|done].
  apply find_some in E as [Hin E]. zbool.
  apply list_elem_of_In, (elem_of_iter iter iter_perm) in Hin. destruct (Hc fd p Hin) as [Hs _].
  by rewrite bool_decide_eq_true in *.
Qed.

Lemma quiet_connect_request request : quiet_call (RouteConnectRequest iter request).
Proof.
  apply quiet_with_lock. intros m a m' Hc. rewrite no_target by done. by intros [= _ <-].
Qed.

Lemma quiet_local_ip ip : quiet_call (SetLocalIp ip).
Proof.
  apply quiet_with_lock. intros m a m' Hc. cbv zeta. destruct (_ && _); by intros [= _ <-].
Qed.

Lemma quiet_close_all : quiet_call (CloseAllProxySockets iter).
Proof.
  apply quiet_with_lock. intros m a m' Hc. destruct (close_sockets _ _); [|done].
  intros [= _ <-]. apply map_Forall_empty.
Qed.

Lemma quiet_reset : quiet_call (Reset iter).
Proof.
  apply quiet_with_lock. intros m a m' Hc. destruct (close_sockets _ _); [|done].
  intros [= _ <-]. apply map_Forall_empty.
Qed.

Lemma quiet_network e m m' : quiet m -> network e m = Some m' -> quiet m'.
Proof.
  intros Hm H. destruct e as [sip sport dip dport protocol data len now| | | |which cb| |];
    cbn [network] in H; apply fmap_Some in H as (r & Hr & ->).
  - destruct r as [a m1]. by eapply quiet_route_data.
  - destruct r as [a m1]. by eapply quiet_connect_request.
  - destruct r as [a m1]. by eapply quiet_connect_reply.
  - destruct r as [a m1]. by eapply quiet_local_ip.
  - destruct Hm as [Hf Hc]. split; [|exact Hc]. cbn. destruct which; cbn in Hr; unfold
      SetSendCallback, SetProxyConnectCallback, SetProxyConnectReplyCallback,
      SetProxyDisconnectCallback in Hr; rewrite lock_free in Hr by done; by injection Hr as <-.
  - destruct r as [a m1]. by eapply quiet_close_all.
  - destruct r as [a m1]. by eapply quiet_reset.
Qed.

(** ** The service *)

Definition safe {A} (c : Method A) : Prop :=
  forall s, quiet (manager s) -> ensures c s (fun _ s' => quiet (manager s')).

Lemma safe_ret {A} (a : A) : safe (mret a).
Proof. intros s Hs. by apply ensures_ret. Qed.
Lemma safe_bind {A B} (c : Method A) (k : A -> Method B) :
  safe c -> (forall a, safe (k a)) -> safe (x ← c; k x).
Proof.
  intros Hc Hk s Hs. apply ensures_bind. eapply ensures_mono; [by apply Hc|].
  intros a s1 H1. by apply Hk.
Qed.
Lemma safe_gets {A} (f : Bsd -> A) : safe (gets f).
Proof. intros s Hs. by apply ensures_gets. Qed.
Lemma safe_modify (f : Bsd -> Bsd) : (forall s, manager (f s) = manager s) -> safe (modify f).
Proof. intros Hf s Hs. apply ensures_modify. by rewrite Hf. Qed.
Lemma safe_when b (c : Method unit) : safe c -> safe (when b c).
Proof. intros Hc. destruct b; [exact Hc|apply safe_ret]. Qed.
Lemma safe_for_each {A} (l : list A) (body : A -> Method unit) :
  (forall a, safe (body a)) -> safe (for_each l body).
Proof.
  intros Hb. induction l as [|a l IH]; [apply safe_ret|]. apply safe_bind; [apply Hb|done].
Qed.
Lemma safe_managed {A} (f : ProxySocketManager -> option (A * ProxySocketManager)) :
  quiet_call f -> safe (managed f).
Proof.
  intros Hf s Hs a s' H. unfold managed in H. apply bind_Some in H as ([b m] & H & [= <- <-]).
  by apply (Hf (manager s) b).
Qed.
Lemma safe_on_proxy {A} fd (f : ProxySocket -> Link -> option (A * ProxySocket * Link)) :
  calm_op f -> safe (on_proxy fd f).
Proof.
  intros Hf. apply safe_managed. intros m a m' [Hl Hc] H.
  apply bind_Some in H as (p & Hp & H). apply bind_Some in H as ([[b q] l] & H & [= <- <-]).
  destruct (Hf _ _ _ _ _ (Hc fd p Hp) Hl H) as [Hq Hl']. split; [done|].
  cbn. by apply map_Forall_insert_2.
Qed.
Lemma safe_get_proxy fd : safe (get_proxy fd).
Proof. apply safe_managed, quiet_read. Qed.
Lemma safe_this_service this : safe (this_service this).
Proof. intros s Hs a s' H. unfold this_service in H. by apply bind_Some in H as (o & _ & [= _ <-]). Qed.
Lemma safe_ask rq : safe (ask real rq).
Proof. by intros s Hs a s' [= _ <-]. Qed.
Lemma safe_erase_session id : safe (erase_session iter_info id).
Proof. by intros s Hs a s' [= _ <-]. Qed.
Lemma safe_release_session pid : safe (release_session pid).
Proof.
  intros s Hs a s'. unfold release_session. destruct (_ !! _); [|by intros [= _ <-]].
  cbv zeta. destruct (_ =? 0); by intros [= _ <-].
Qed.
Lemma safe_count_session pid program_id : safe (count_session pid program_id).
Proof. by intros s Hs a s' [= _ <-]. Qed.

Lemma quiet_total {A} (f : ProxySocketManager -> A * ProxySocketManager) :
  (forall m, quiet m -> quiet (f m).2) -> quiet_call (fun m => Some (f m)).
Proof. intros Hf m a m' Hm H. pose proof (Hf m Hm) as Hq. injection H as H. by rewrite H in Hq. Qed.

Lemma quiet_port_pool p m : quiet m -> quiet (set_port_pool p m).
Proof. intros Hm. exact Hm. Qed.

Lemma quiet_AllocatePort protocol : quiet_call (fun m => Some (AllocatePort protocol m)).
Proof.
  apply quiet_total. intros m Hm. unfold AllocatePort.
  destruct (PortPool.AllocatePort protocol (m_port_pool m)). by apply quiet_port_pool.
Qed.
Lemma quiet_ReservePort port protocol : quiet_call (fun m => Some (ReservePort port protocol m)).
Proof.
  apply quiet_total. intros m Hm. unfold ReservePort.
  destruct (AllocateSpecificPort port protocol (m_port_pool m)). by apply quiet_port_pool.
Qed.
Lemma quiet_ReleasePort port protocol : quiet_call (fun m => Some (tt, ReleasePort port protocol m)).
Proof. apply (quiet_total (fun m => (tt, _ m))). intros m Hm. by apply quiet_port_pool. Qed.

(** Every statement of the service is one of these. *)
Ltac safe_step :=
  lazymatch goal with
  | |- safe (mbind _ _) => apply safe_bind; [|intros ?]
  | |- safe (mret _) => apply safe_ret
  | |- safe (gets _) => apply safe_gets
  | |- safe (find_info _) => apply safe_gets
  | |- safe (modify _) => apply safe_modify; intros ?; reflexivity
  | |- safe (when _ _) => apply safe_when
  | |- safe (for_each _ _) => apply safe_for_each; intros ?
  | |- safe (get_proxy _) => apply safe_get_proxy
  | |- safe (this_service _) => apply safe_this_service
  | |- safe (ask _ _) => apply safe_ask
  | |- safe (erase_session _ _) => apply safe_erase_session
  | |- safe (release_session _) => apply safe_release_session
  | |- safe (count_session _ _) => apply safe_count_session
  | |- safe (managed _) => apply safe_managed
  | |- safe (on_proxy _ _) => apply safe_on_proxy
  | |- safe (let _ := _ in _) => cbv zeta
  | |- safe (if ?b then _ else _) => destruct b
  | |- safe (match ?x with _ => _ end) => destruct x
  | |- quiet_call (CreateProxySocket _ _ _) => apply quiet_create
  | |- quiet_call GetLocalIp => apply quiet_read
  | |- quiet_call (CloseProxySocket _ _) => apply quiet_call_close
  | |- quiet_call (DeliverPendingPackets _ _ _ _) => apply quiet_deliver
  | |- quiet_call (fun m => Some (AllocatePort _ _)) => apply quiet_AllocatePort
  | |- quiet_call (fun m => Some (ReservePort _ _ _)) => apply quiet_ReservePort
  | |- quiet_call (fun m => Some (tt, _)) => apply quiet_ReleasePort
  | |- calm_op (ProxySocket.Connect _ _) => apply calm_Connect
  | |- calm_op _ =>
      first [ apply calm_Bind | apply calm_SetSockOpt
            | apply calm_transfer; intros ? ? ? ?; first [apply Send_mutex | apply SendTo_mutex]
            | apply calm_receive; intros ? ? ?; first [apply calm_Recv | apply calm_RecvFrom]
            | apply calm_update; intros ? [? ?]; done ]
  end.

Lemma safe_count_command this : safe (count_command this).
Proof. unfold count_command, update_service. repeat safe_step. Qed.
Lemma safe_dispatch this command raw ins outs pid handles :
  safe (dispatch real this command raw ins outs pid handles).
Proof. unfold dispatch. repeat safe_step. Qed.
Lemma safe_forward this command raw ins outs n : safe (forward real this command raw ins outs n).
Proof. unfold forward. apply safe_bind; [apply safe_dispatch|]. intros. repeat safe_step. Qed.
Lemma safe_transfer_proxy fd : safe (transfer_proxy fd).
Proof. unfold transfer_proxy, marked_proxy. repeat safe_step. Qed.
Lemma safe_select_scan fds r w e o hp hr : safe (select_scan fds r w e o hp hr).
Proof.
  revert o hp hr. induction fds as [|fd fds IH]; intros o hp hr; cbn [select_scan]; repeat safe_step;
    apply IH.
Qed.
Lemma safe_select_merge fds r w e o : safe (select_merge fds r w e o).
Proof.
  revert o. induction fds as [|fd fds IH]; intros o; cbn [select_merge]; repeat safe_step; apply IH.
Qed.
Lemma safe_poll_scan idx fds n hp hr : safe (poll_scan idx fds n hp hr).
Proof.
  revert fds n hp hr. induction idx as [|i idx IH]; intros fds n hp hr; cbn [poll_scan];
    repeat safe_step; apply IH.
Qed.
Lemma safe_poll_clear idx fds : safe (poll_clear idx fds).
Proof.
  revert fds. induction idx as [|i idx IH]; intros fds; cbn [poll_clear]; repeat safe_step; apply IH.
Qed.
Lemma safe_poll_merge idx fds n : safe (poll_merge idx fds n).
Proof.
  revert fds n. induction idx as [|i idx IH]; intros fds n; cbn [poll_merge]; repeat safe_step;
    apply IH.
Qed.

Ltac safe_auto :=
  repeat first
    [ apply safe_count_command | apply safe_dispatch | apply safe_forward
    | apply safe_transfer_proxy | apply safe_select_scan | apply safe_select_merge
    | apply safe_poll_scan | apply safe_poll_clear | apply safe_poll_merge | safe_step ].

Lemma safe_Bind this fd addr now : safe (Bind real this fd addr now).
Proof.
  unfold Bind, bind_intercepted, bind_address, bind_port, forward_bind, proxy_bind, mark_proxy.
  safe_auto.
Qed.
Lemma safe_Connect this fd addr others : safe (Connect real this fd addr others).
Proof.
  unfold Connect, connect_intercepted, connect_proxy, forward_connect, proxy_bind, mark_proxy.
  safe_auto.
Qed.
Lemma safe_SendTo this fd flags buffer addr : safe (SendTo real this fd flags buffer addr).
Proof.
  unfold SendTo, prepare_send_to, send_to_proxy, proxy_bind, mark_proxy. safe_auto.
Qed.

Lemma safe_perform this c : safe (perform iter real this c).
Proof.
  destruct c; cbn [perform]; try apply safe_Bind; try apply safe_Connect; try apply safe_SendTo;
    unfold RegisterClient, RegisterClientShared, register_with, update_service, StartMonitoring,
      Socket, SocketExempt, create_socket, Open, Select, Poll, Sysctl, Recv, RecvFrom, Read,
      proxy_recv, Send, Write, proxy_send, Accept, GetPeerName, GetSockName, GetSockOpt, Listen, Ioctl,
      Fcntl, SetSockOpt, track_broadcast, Shutdown, ShutdownAllSockets, Close, DuplicateSocket,
      GetResourceStatistics, RecvMMsg, SendMMsg, EventFd, RegisterResourceStatisticsName;
    safe_auto.
Qed.

Lemma safe_CleanupForPid pid : safe (CleanupAbandonedServicesForPid pid).
Proof. unfold CleanupAbandonedServicesForPid, close_handle. safe_auto. Qed.

Lemma safe_run_step st : safe (run_step st).
Proof.
  destruct st as [this c|this pid session|this|pid program_id|[pid|]|pid|e]; cbn [run_step].
  - apply safe_bind; [apply safe_perform|]. intros. apply safe_ret.
  - unfold BsdMitmService_new. safe_auto.
  - unfold BsdMitmService_delete, close_proxies, close_handle.
    repeat first [apply safe_CleanupForPid | safe_step].
  - unfold ShouldMitm. safe_auto.
  - apply safe_CleanupForPid.
  - unfold CleanupAbandonedServices, close_handle. safe_auto.
  - unfold ResetProcessMitmState, close_proxies. safe_auto.
  - intros s Hs a s' H. unfold network_event, modify_opt in H.
    apply fmap_Some in H as (s1 & H & [= _ ->]). apply fmap_Some in H as (m & H & ->).
    exact (quiet_network e (manager s) m Hs H).
Qed.

(** C14: nobody can connect to a game: over every run of IPC commands, sessions
    coming and going and packets from the network, whatever the real service
    answers and whatever other threads do, no proxy socket is ever in the
    listening state, so that every incoming connection request is refused
    without an effect - also one for a socket on which the game's [Listen],
    which is handed to the real service, succeeded. *)
Theorem nobody_listens steps s0 s :
  manager s0 = new_ProxySocketManager ->
  run steps s0 = Some (tt, s) ->
  (forall fd proxy, m_sockets (manager s) !! fd = Some proxy ->
     s_state proxy <> Listening /\ s_accept_queue proxy = [])
  /\ forall request, RouteConnectRequest iter request (manager s) = Some (false, manager s).
Proof using iter_perm.
  intros H0 Hrun. assert (quiet (manager s)) as [Hf Hc].
  { assert (safe (run steps)) as Hsafe by (apply safe_for_each, safe_run_step).
    apply (Hsafe s0) in Hrun; [exact Hrun|]. rewrite H0. split; [done|apply map_Forall_empty]. }
  split; [exact Hc|]. intros request. unfold RouteConnectRequest. rewrite with_lock_free by done.
  rewrite no_target by exact Hc. cbn [mbind option_bind fst snd]. by rewrite set_link_unlock.
Qed.
End runs.

(** A TCP server: the game binds, listens and is told it does; a request for
    its address and port finds nobody. *)
Definition server_addr : SockAddrIn := inet_addr (bswap16 4000) 0.
Definition server_run : list Step :=
  [DoNetwork (NetLocalIp 0x0A720001); DoCall 1 (CallSocket 2 1 6);
   DoCall 1 (CallBind 5 (Some (bytes_of server_addr)) 0); DoCall 1 (CallListen 5 4)].

Definition server_listens (s : Bsd) : bool :=
  match m_sockets (manager s) !! 5 with
  | Some proxy => bool_decide (s_protocol proxy = Tcp) && (GetPort (s_local_addr proxy) =? 4000)
                  && (GetAddr (s_local_addr proxy) =? 0x0A720001)
  | None => false
  end.

Definition server_request : ProxyConnectRequest := {| pcq_info := {|
  pi_source_ipv4 := 0x0A720002; pi_source_port := 5000; pi_dest_ipv4 := 0x0A720001;
  pi_dest_port := 4000; pi_protocol := 6 |} |}.

Lemma nobody_listens_witness :
  exists s, run any_iter map_to_list sample_real server_run sample_bsd = Some (tt, s)
    /\ server_listens s = true
    /\ RouteConnectRequest any_iter server_request (manager s) = Some (false, manager s).
Proof.
  assert (from_option (fun r => server_listens r.2) false
    (run any_iter map_to_list sample_real server_run sample_bsd) = true) as H
    by (vm_compute; reflexivity).
  destruct (run any_iter map_to_list sample_real server_run sample_bsd) as [[[] s]|] eqn:E;
    [|discriminate H].
  exists s. split; [reflexivity|]. split; [exact H|].
  exact (proj2 (nobody_listens any_iter any_iter_perm map_to_list sample_real server_run
           sample_bsd s eq_refl E) server_request).
Defined.
