(* ===== verification/BsdProxy.v ===== *)
(** * The socket service over the socket manager

    What a game sees of its proxy sockets: a datagram it sends reaches the other
    console, a TCP connection into the LDN network cannot be closed again, and
    a binding that fails leaves a proxy socket behind. *)

From stdpp Require Import base numbers list gmap.
From Stdlib Require Import ZArith Lia Bool.
From S2P Require Import Prelude Layout Imperative Types BsdTypes Ring PortPool ProxyLink ProxySocket.
From S2P Require Import ProxySocketManager BsdService BsdForward.

(** ** Rules for the manager *)

Definition with_manager (m : ProxySocketManager) (s : Bsd) : Bsd := s <| manager := m |>.

(** The socket [fd] after a change. *)
Definition put (fd : Z) (p : ProxySocket) (m : ProxySocketManager) : ProxySocketManager :=
  set_sockets (<[fd := p]> (m_sockets m)) m.

Lemma managed_eq {A} (f : ProxySocketManager -> option (A * ProxySocketManager)) s a m :
  f (manager s) = Some (a, m) -> managed f s = Some (a, with_manager m s).
Proof. intros H. unfold managed. by rewrite H. Qed.

Lemma set_link_same m : set_link (m_link m) m = m.
Proof. by destruct m. Qed.

(** A method body under the free mutex that leaves the link alone. *)
Lemma with_lock_eq {A} (body : ProxySocketManager -> option (A * ProxySocketManager)) m a
    (f : ProxySocketManager -> ProxySocketManager) :
  m_mutex (m_link m) = false ->
  (forall l, body (set_link l m) = Some (a, set_link l (f m))) ->
  m_link (f m) = m_link m ->
  with_lock body m = Some (a, f m).
Proof.
  intros Hf Hb Hl. rewrite with_lock_free by done. rewrite Hb. cbn [mbind option_bind fst snd].
  do 2 f_equal. change (m_link (set_link ?l _)) with l.
  rewrite unlock_lock by done. transitivity (set_link (m_link (f m)) (f m)); [by rewrite Hl|].
  apply set_link_same.
Qed.

Lemma create_eq fd type protocol m :
  m_mutex (m_link m) = false -> m_sockets m !! fd = None ->
  (size (m_sockets m) < MAX_PROXY_SOCKETS)%nat ->
  CreateProxySocket fd type protocol m = Some (Some fd, put fd (new_ProxySocket type protocol) m).
Proof.
  intros Hf Hfd Hsz. apply with_lock_eq; [done| |done]. intros l. cbn. rewrite Hfd.
  by rewrite decide_False by lia.
Qed.

Lemma local_ip_eq m :
  m_mutex (m_link m) = false -> GetLocalIp m = Some (m_local_ip m, m).
Proof. intros Hf. by apply (with_lock_eq _ _ _ id). Qed.

Lemma on_proxy_eq {A} fd (f : ProxySocket -> Link -> option (A * ProxySocket * Link)) s p a p' l :
  m_sockets (manager s) !! fd = Some p -> f p (m_link (manager s)) = Some (a, p', l) ->
  on_proxy fd f s = Some (a, with_manager (set_link l (put fd p' (manager s))) s).
Proof.
  intros Hp Hf. apply managed_eq. rewrite Hp. cbn [mbind option_bind]. rewrite Hf. done.
Qed.

Section proxy.
Context (iter : gmap Z ProxySocket -> list (Z * ProxySocket)).
Context (iter_perm : forall socks, iter socks ≡ₚ map_to_list socks).
Context (iter_info : gmap Z SocketInfo -> list (Z * SocketInfo)).
Context (real : list Request -> Request -> Answer).

(** ** Connections that cannot be closed *)

(** The socket is a TCP one with a peer. *)
Definition connected_tcp (fd : Z) (s : Bsd) : Prop :=
  m_mutex (m_link (manager s)) = false
  /\ exists p, m_sockets (manager s) !! fd = Some p /\ s_protocol p = Tcp
               /\ GetPort (s_remote_addr p) <> 0.

Lemma close_proxy_stuck fd s :
  connected_tcp fd s -> managed (CloseProxySocket iter fd) s = None.
Proof.
  intros (Hf & p & Hp & Ht & Hr). unfold managed, CloseProxySocket.
  rewrite with_lock_free by done. change (m_sockets (set_link ?l ?m)) with (m_sockets m). rewrite Hp.
  cbv zeta. destruct (negb (GetPort (s_local_addr p) =? 0));
    (match goal with |- context [ProxySocket.Close p ?l] =>
       destruct (Close_cases p l) as [(_ & _ & E)|[Hn _]]; [by rewrite E|tauto] end).
Qed.

Lemma close_stuck this o i fd s :
  services s !! this = Some o -> connected_tcp fd s ->
  g_socket_info s !! fd = Some i -> si_is_proxy i = true ->
  Close iter real this fd s = None.
Proof.
  intros Ho Hc Hi Hp. unfold Close. erewrite bind_some by by apply (count_command_eq this o).
  erewrite bind_some by reflexivity. change (g_socket_info (counted this s)) with (g_socket_info s).
  rewrite Hi, Hp. apply bind_none, bind_none, bind_none. by apply close_proxy_stuck.
Qed.

(** The socket, once there is one, is a TCP socket; the mutex is free. *)
Definition tcp_at (fd : Z) (s : Bsd) : Prop :=
  m_mutex (m_link (manager s)) = false
  /\ forall p, m_sockets (manager s) !! fd = Some p -> s_protocol p = Tcp.

Definition tcp_call {A} (fd : Z) (f : ProxySocketManager -> option (A * ProxySocketManager)) : Prop :=
  forall s a m, tcp_at fd s -> f (manager s) = Some (a, m) -> tcp_at fd (with_manager m s).

Lemma tcp_managed {A} fd (f : ProxySocketManager -> option (A * ProxySocketManager)) s t
    (Q : A -> Bsd -> Prop) :
  tcp_call fd f -> tcp_at fd s -> g_socket_info s = t ->
  (forall a s', tcp_at fd s' -> g_socket_info s' = t -> Q a s') ->
  ensures (managed f) s Q.
Proof.
  intros Hf Hs Ht HQ a s' H. unfold managed in H. apply bind_Some in H as ([b m] & H & [= <- <-]).
  apply HQ; [|exact Ht]. by apply (Hf s b).
Qed.

Lemma tcp_lock {A} fd (body : ProxySocketManager -> option (A * ProxySocketManager)) :
  (forall m a m', (forall p, m_sockets m !! fd = Some p -> s_protocol p = Tcp) ->
     body m = Some (a, m') -> forall p, m_sockets m' !! fd = Some p -> s_protocol p = Tcp) ->
  tcp_call fd (with_lock body).
Proof.
  intros Hb s a m [Hf Hp]. rewrite with_lock_free by done. intros H.
  apply bind_Some in H as ([b m1] & H & [= <- <-]). split; [done|].
  exact (Hb (set_link (set_mutex true (m_link (manager s))) (manager s)) b m1 Hp H).
Qed.

Lemma tcp_read {A} fd (f : ProxySocketManager -> A) : tcp_call fd (with_lock (fun m => Some (f m, m))).
Proof. apply tcp_lock. by intros m a m' Hp [= _ <-]. Qed.

Lemma tcp_create fd type : tcp_call fd (CreateProxySocket fd type Tcp).
Proof.
  apply tcp_lock. intros m a m' Hp. destruct (m_sockets m !! fd) eqn:E; [intros [= _ <-]; by rewrite E|].
  destruct (decide _); intros [= _ <-] p; [by rewrite E|]. cbn. rewrite lookup_insert_eq. by intros [= <-].
Qed.

Lemma tcp_total {A} fd (f : ProxySocketManager -> A * ProxySocketManager) :
  (forall m, exists p, (f m).2 = set_port_pool p m) -> tcp_call fd (fun m => Some (f m)).
Proof.
  intros Hf s a m Hs H. destruct (Hf (manager s)) as (p & Hp). injection H as H.
  rewrite H in Hp. cbn in Hp. subst m. exact Hs.
Qed.

Lemma AllocatePort_pool protocol m : exists p, (AllocatePort protocol m).2 = set_port_pool p m.
Proof. unfold AllocatePort. destruct (PortPool.AllocatePort protocol (m_port_pool m)). by eexists. Qed.

Lemma tcp_bind fd addr s t (Q : Z -> Bsd -> Prop) :
  tcp_at fd s -> g_socket_info s = t ->
  (forall a s', tcp_at fd s' -> g_socket_info s' = t -> Q a s') ->
  ensures (proxy_bind fd addr) s Q.
Proof.
  intros Hs Ht HQ. apply (tcp_managed fd _ s t Q); [|done|done|done].
  clear. intros s a m [Hf Hp] H. apply bind_Some in H as (p & Hfd & H).
  assert (s_protocol (ProxySocket.Bind addr p).2 = Tcp) as Hb.
  { rewrite <- (Hp p Hfd). unfold ProxySocket.Bind. destruct (negb _); [done|]. by destruct (negb _). }
  destruct (ProxySocket.Bind addr p) as [rc q]. injection H as _ <-. split; [exact Hf|].
  cbn. intros q'. rewrite lookup_insert_eq. by intros [= <-].
Qed.

Lemma connect_proxy_tcp fd i s t :
  si_protocol i = Tcp -> tcp_at fd s -> g_socket_info s = t ->
  ensures (connect_proxy fd i) s (fun _ s' => tcp_at fd s' /\ g_socket_info s' = t).
Proof.
  intros Hi Hs Ht. unfold connect_proxy. rewrite Hi.
  apply ensures_bind, (tcp_managed fd _ s t); [apply tcp_read|done|done|]. clear s Hs Ht.
  intros [p|] s Hs Ht; [by apply ensures_ret|].
  apply ensures_bind, (tcp_managed fd _ s t); [apply tcp_create|done|done|]. clear s Hs Ht.
  intros [p|] s Hs Ht; [|by apply ensures_ret].
  apply ensures_bind, (tcp_managed fd _ s t); [apply tcp_total; apply AllocatePort_pool|done|done|].
  clear s Hs Ht. intros port s Hs Ht. destruct (port =? 0); [by apply ensures_ret|].
  apply ensures_bind, (tcp_managed fd _ s t); [apply tcp_read|done|done|]. clear s Hs Ht.
  intros ip s Hs Ht. apply ensures_bind, (tcp_bind fd _ s t); [done|done|]. clear s Hs Ht.
  intros rc s Hs Ht. apply ensures_bind, ensures_when; intros _; [|by apply ensures_ret].
  apply (tcp_managed fd _ s t); [|done|done|by intros; apply ensures_ret].
  apply tcp_total. intros m. by eexists.
Qed.

(** A successful [Connect] of a proxy socket leaves it a peer. *)
Lemma connect_remote addr others p l p' l' :
  m_mutex l = false -> ProxySocket.Connect addr others p l = Some (0, p', l') ->
  s_protocol p' = s_protocol p /\ s_remote_addr p' = addr /\ m_mutex l' = false.
Proof.
  intros Hl. unfold ProxySocket.Connect.
  destruct (bool_decide _); [done|]. destruct (negb _); [done|].
  destruct (bool_decide _); [|by intros [= <- <-]].
  rewrite SendProxyConnect_free by done. cbn [mbind option_bind].
  match goal with |- context [set_connect ?b ?r ?e ?q] => set (p1 := set_connect b r e q) end.
  destruct (invoke _ _ l) as [sent l1] eqn:E.
  assert (Hl1 : m_mutex l1 = false).
  { transitivity (m_mutex (sent, l1).2); [done|]. rewrite <- E. destruct (m_proxy_connect_callback l); done. }
  destruct (negb sent); [done|]. destruct (negb _); [|done].
  destruct (socket_steps_frame others p1) as (_ & _ & _ & H1 & _ & H2).
  destruct (_ || _); [done|]. destruct (negb _); [done|]. intros [= <- <-]. by split_and!.
Qed.

(** C16: a TCP connection into the LDN network cannot be closed: when [Connect]
    has told the game that it succeeded - on a TCP socket, to an LDN address and
    a port other than 0 -, the [Close] of that socket never returns, in whatever
    session it is called: the manager's mutex is held while the socket wants it
    to announce the end of the connection. *)
Theorem connected_socket_never_closes this o i fd addr a others s reply s' :
  services s !! this = Some o -> m_mutex (m_link (manager s)) = false ->
  g_socket_info s !! fd = Some i -> si_protocol i = Tcp ->
  (forall p, m_sockets (manager s) !! fd = Some p -> s_protocol p = Tcp) ->
  copied_addr addr = Some a -> is_ldn_destination a = true -> GetPort a <> 0 ->
  Connect real this fd addr others s = Some (reply, s') -> rep_words reply = [0] ->
  forall that o', services s' !! that = Some o' -> Close iter real that fd s' = None.
Proof.
  intros Ho Hf Hi Hp Htcp Ha Hldn Hport H Hok that o' Ho'.
  unfold Connect in H. apply bind_inv in H as ([] & s1 & H1 & H).
  rewrite (count_command_eq this o s Ho) in H1. injection H1 as <-.
  rewrite Ha in H. unfold is_ldn_destination in Hldn. rewrite Hldn in H.
  apply bind_inv in H as (info & s1 & H1 & H). injection H1 as <- <-.
  change (g_socket_info (counted this s)) with (g_socket_info s) in H. rewrite Hi in H.
  unfold connect_intercepted in H. apply bind_inv in H as (failure & s1 & H1 & H).
  apply (connect_proxy_tcp fd i (counted this s) (g_socket_info s) Hp) in H1; [|by split|done].
  destruct H1 as [[Hf1 Hp1] Hg1].
  destruct (Z.eqb_spec failure 0) as [->|]; cbn [negb] in H; [|injection H as <- <-; cbn in Hok; congruence].
  apply bind_inv in H as (rc & s2 & H1 & H).
  destruct (Z.eqb_spec rc 0) as [->|]; cbn [negb] in H; [|injection H as <- <-; cbn in Hok; congruence].
  unfold on_proxy, managed in H1. apply bind_Some in H1 as ([z m2] & H1 & [= -> <-]).
  apply bind_Some in H1 as (p & Hfd & H1). apply bind_Some in H1 as ([[z p2] l2] & H1 & [= -> <-]).
  destruct (connect_remote a others p (m_link (manager s1)) p2 l2 Hf1 H1) as (Hp2 & Hr2 & Hl2).
  unfold mark_proxy in H. apply bind_inv in H as ([] & s3 & [= <-] & [= _ <-]).
  eapply (close_stuck that o' (i <| si_is_proxy := true |>)); [exact Ho'| | |done].
  - split; [exact Hl2|]. exists p2. split; [cbn; by rewrite lookup_insert_eq|].
    by rewrite Hp2, (Hp1 p Hfd), Hr2.
  - cbn. rewrite lookup_alter_eq. by rewrite Hg1, Hi.
Qed.

(** ** Bindings that fail *)

(** The address is one [Bind] intercepts. *)
Definition bind_intercepts (a : SockAddrIn) : bool :=
  (sin_family a =? AddressFamily_Inet) && (SockAddrIn_IsLdnAddress a || (sin_addr a =? 0)).

Definition bind_target (a : SockAddrIn) (ip : Z) : SockAddrIn :=
  if (sin_addr a =? 0) && negb (ip =? 0) then with_addr (bswap32 ip) a else a.

Lemma GetPort_target a ip : GetPort (bind_target a ip) = GetPort a.
Proof. unfold bind_target. by destruct (_ && _). Qed.

Lemma bind_address_eq a s :
  m_mutex (m_link (manager s)) = false ->
  bind_address a s = Some (bind_target a (m_local_ip (manager s)), s).
Proof.
  intros Hf. unfold bind_address, bind_target. destruct (sin_addr a =? 0); [|done].
  erewrite bind_some by by apply managed_eq, local_ip_eq.
  unfold with_manager. rewrite manager_same. by destruct (m_local_ip (manager s) =? 0).
Qed.

(** [Bind] up to the port: the socket exists, with its options. *)
Definition prepared (i : SocketInfo) : ProxySocket :=
  let p := new_ProxySocket (si_type i) (si_protocol i) in
  if si_broadcast i then SetBroadcastEnabled true p else p.

Lemma bind_prepares this o i fd addr a now s :
  services s !! this = Some o -> m_mutex (m_link (manager s)) = false ->
  g_socket_info s !! fd = Some i -> m_sockets (manager s) !! fd = None ->
  (size (m_sockets (manager s)) < MAX_PROXY_SOCKETS)%nat ->
  copied_addr addr = Some a -> bind_intercepts a = true ->
  Bind real this fd addr now s =
    (port ← bind_port (si_protocol i) (bind_target a (m_local_ip (manager s)));
     match port with
     | None => mret (success [Errno_AddrInUse] [])
     | Some bind_addr =>
         bind_result ← proxy_bind fd bind_addr;
         if negb (bind_result =? 0) then mret (success [bind_result] [])
         else
           mark_proxy fd;;
           managed (DeliverPendingPackets (Some fd) (GetPort bind_addr) (si_protocol i) now);;
           when (sin_addr a =? 0) (forward_bind real this fd addr;; mret tt);;
           mret (success [0] [])
     end) (with_manager (put fd (prepared i) (manager s)) (counted this s)).
Proof.
  intros Ho Hf Hi Hfd Hsz Ha Hint.
  pose (s1 := with_manager (put fd (new_ProxySocket (si_type i) (si_protocol i)) (manager s))
                (counted this s)).
  pose (s2 := with_manager (put fd (prepared i) (manager s)) (counted this s)).
  assert (Hcreate : managed (CreateProxySocket fd (si_type i) (si_protocol i)) (counted this s)
                    = Some (Some fd, s1)) by by apply managed_eq, create_eq.
  assert (Hopt : when (si_broadcast i) (on_proxy fd (fun proxy l =>
      Some (tt, SetBroadcastEnabled true proxy, l))) s1 = Some (tt, s2)).
  { unfold s2, prepared. destruct (si_broadcast i); [|done]. cbn [when].
    erewrite on_proxy_eq; [|by apply lookup_insert_eq|reflexivity].
    unfold s1, with_manager, put. cbn. do 2 f_equal. by rewrite insert_insert_eq. }
  pose proof (bind_address_eq a s2 Hf) as Hb. unfold Bind, bind_intercepts in *.
  etrans; [eapply bind_some; by apply (count_command_eq this o)|]. rewrite Ha. cbv iota beta.
  rewrite Hint. etrans; [eapply bind_some; reflexivity|].
  change (g_socket_info (counted this s)) with (g_socket_info s).
  rewrite Hi. unfold bind_intercepted.
  etrans; [eapply bind_some; exact Hcreate|]. cbv iota beta.
  etrans; [eapply bind_some; exact Hopt|]. cbv iota beta.
  etrans; [eapply bind_some; exact Hb|]. reflexivity.
Qed.

(** Nothing of a descriptor that its proxy socket answers reaches the system. *)
Definition answered_by_proxy (fd : Z) (p : ProxySocket) : Prop :=
  forall this o s optval, services s !! this = Some o -> m_mutex (m_link (manager s)) = false ->
    m_sockets (manager s) !! fd = Some p ->
    exists s', GetSockName real this fd optval s
               = Some (success [0] [fill_addr (s_local_addr p) optval], s')
      /\ forwarded s' = forwarded s.

Lemma proxy_answers fd p : answered_by_proxy fd p.
Proof.
  intros this o s optval Ho Hf Hp. exists (counted this s). split; [|done].
  unfold GetSockName. erewrite bind_some by by apply (count_command_eq this o).
  erewrite bind_some by by apply get_proxy_eq.
  change (manager (counted this s)) with (manager s). by rewrite Hp.
Qed.

Lemma AllocateSpecificPort_used port protocol p :
  IsPortAllocated port protocol p = true -> AllocateSpecificPort port protocol p = (false, p).
Proof.
  unfold IsPortAllocated, AllocateSpecificPort. case_decide; [done|].
  intros H1%bool_decide_eq_true. by rewrite decide_True.
Qed.

Lemma bind_port_used protocol b s :
  GetPort b <> 0 -> IsPortAllocated (GetPort b) protocol (m_port_pool (manager s)) = true ->
  bind_port protocol b s = Some (None, s).
Proof.
  intros Hb Hused. unfold bind_port. destruct (Z.eqb_spec (GetPort b) 0); [done|].
  assert (Hres : managed (fun m => Some (ReservePort (GetPort b) protocol m)) s = Some (false, s)).
  { unfold managed, ReservePort. rewrite AllocateSpecificPort_used by done.
    cbn [mbind option_bind]. destruct s as [? ? ? ? ? ? ? [] ? ? ? ?]. reflexivity. }
  by erewrite bind_some by exact Hres.
Qed.

(** Closing a descriptor whose entry is not marked. *)
Lemma close_unmarked this o i fd s :
  services s !! this = Some o -> g_socket_info s !! fd = Some i -> si_is_proxy i = false ->
  exists r s', Close iter real this fd s = Some (r, s')
    /\ g_socket_info s' = delete fd (g_socket_info s) /\ manager s' = manager s.
Proof.
  intros Ho Hi Hp. destruct (counted_service this o s Ho) as (o1 & Ho1 & _).
  unfold Close. erewrite bind_some by by apply (count_command_eq this o).
  erewrite bind_some by reflexivity. change (g_socket_info (counted this s)) with (g_socket_info s).
  rewrite Hi, Hp. eexists _, _. split; [|split].
  - etrans; [eapply bind_some; reflexivity|]. by apply (forward_eq real this o1).
  - done.
  - done.
Qed.

(** C17: a [Bind] that is refused because the port is in use leaves its proxy
    socket behind.  The manager has it, unbound, right after the [Bind], and
    still right after a [Close] of the descriptor: the [Close] forgets the
    descriptor, passes the call on to the real service, whatever that answers,
    and does not touch the manager.  There the socket occupies one of the 64
    places, and the next socket that gets the descriptor is answered by it - its
    name is 0.0.0.0:0 and the real service is not asked.  (What removes it is not
    that [Close] but a [Reset] of the manager, or a later [Bind] of the same
    descriptor that succeeds, with its [Close].) *)
Theorem refused_bind_leaks this o i fd addr a now s :
  services s !! this = Some o -> m_mutex (m_link (manager s)) = false ->
  g_socket_info s !! fd = Some i -> si_is_proxy i = false ->
  m_sockets (manager s) !! fd = None -> (size (m_sockets (manager s)) < MAX_PROXY_SOCKETS)%nat ->
  copied_addr addr = Some a -> bind_intercepts a = true -> GetPort a <> 0 ->
  IsPortAllocated (GetPort a) (si_protocol i) (m_port_pool (manager s)) = true ->
  exists s1 r s2 p,
    Bind real this fd addr now s = Some (success [Errno_AddrInUse] [], s1)
    /\ Close iter real this fd s1 = Some (r, s2)
    /\ g_socket_info s2 !! fd = None
    /\ m_sockets (manager s2) = <[fd := p]> (m_sockets (manager s))
    /\ s_state p = Created /\ s_local_addr p = inet_addr 0 0
    /\ answered_by_proxy fd p.
Proof.
  intros Ho Hf Hi Hnp Hfd Hsz Ha Hint Hport Hused.
  pose proof (bind_prepares this o i fd addr a now s Ho Hf Hi Hfd Hsz Ha Hint) as Hb.
  pose (s1 := with_manager (put fd (prepared i) (manager s)) (counted this s)).
  assert (Hres : bind_port (si_protocol i) (bind_target a (m_local_ip (manager s))) s1
    = Some (None, s1)).
  { apply bind_port_used; by rewrite GetPort_target. }
  destruct (counted_service this o s Ho) as (o1 & Ho1 & _).
  destruct (close_unmarked this o1 i fd s1 Ho1 Hi Hnp) as (r & s2 & Hclose & Hg & Hm).
  exists s1, r, s2, (prepared i).
  assert (Hprep : s_state (prepared i) = Created /\ s_local_addr (prepared i) = inet_addr 0 0)
    by (unfold prepared; by destruct (si_broadcast i)).
  destruct Hprep as [Hst Hla]. split_and!; try done.
  - rewrite Hb. by erewrite bind_some by exact Hres.
  - rewrite Hg. apply lookup_delete_eq.
  - by rewrite Hm.
  - apply proxy_answers.
Qed.
(** ** A datagram from one console to another *)

Definition any_addr (port : Z) : SockAddrIn := inet_addr (bswap16 port) 0.

Lemma wf_inet_addr port ip : 0 <= ip < 4294967296 -> wf (inet_addr (bswap16 port) ip) = true.
Proof.
  intros Hip. pose proof (bswap16_range port) as Hp. unfold wf, inet_addr. cbn [lwf layout_of SockAddrIn_layout
    l_iso l_pair l_u8 l_u16 l_u32 l_uint sin_len sin_family sin_port sin_addr sin_zero fst snd].
  repeat (apply andb_true_iff; split); try reflexivity; try apply Z.leb_le; try apply Z.ltb_lt;
    try (change (256 ^ Z.of_nat 2) with 65536); try (change (256 ^ Z.of_nat 4) with 4294967296); lia.
Qed.

Lemma wf_source_addr ip port : wf (source_addr ip port) = true.
Proof. apply wf_inet_addr, bswap32_range. Qed.

Lemma zlen_sockaddr (a : SockAddrIn) : wf a = true -> zlen (bytes_of a) = 16.
Proof. intros Ha. unfold zlen. by rewrite length_bytes_of. Qed.

Lemma copied_addr_of (a : SockAddrIn) : wf a = true -> copied_addr (Some (bytes_of a)) = Some a.
Proof.
  intros Ha. unfold copied_addr. rewrite zlen_sockaddr by done. cbn [Z.leb].
  by rewrite <- (app_nil_r (bytes_of a)), of_bytes_of.
Qed.

(** A fresh UDP socket and a port nobody uses, on a console of the network. *)
Record ready (this fd port ip : Z) (s : Bsd) : Prop := {
  rd_service : is_Some (services s !! this);
  rd_free : m_mutex (m_link (manager s)) = false;
  rd_info : exists i, g_socket_info s !! fd = Some i /\ si_protocol i = Udp;
  rd_fresh : m_sockets (manager s) !! fd = None;
  rd_room : (size (m_sockets (manager s)) < MAX_PROXY_SOCKETS)%nat;
  rd_port : 0 < port < 65536;
  rd_unused : IsPortAllocated port Udp (m_port_pool (manager s)) = false;
  rd_alone : forall fd' p, m_sockets (manager s) !! fd' = Some p -> endpoint_match port Udp p = false;
  rd_early : r_count (m_pending (manager s)) = 0%nat;
  rd_ip : m_local_ip (manager s) = ip;
  rd_range : 0 < ip < 4294967296
}.

(** The socket after [Bind]. *)
Record bound (this fd port ip : Z) (l : Link) (others : gmap Z ProxySocket) (s : Bsd) : Prop := {
  bd_service : is_Some (services s !! this);
  bd_marked : exists i, g_socket_info s !! fd = Some i /\ si_is_proxy i = true;
  bd_link : m_link (manager s) = l;
  bd_ip : m_local_ip (manager s) = ip;
  bd_socket : exists p, m_sockets (manager s) = <[fd := p]> others
    /\ s_protocol p = Udp /\ s_state p = Bound /\ s_local_addr p = source_addr ip port
    /\ s_shutdown_read p = false /\ s_shutdown_write p = false
    /\ socket_ok p /\ rx_queue p = []
}.

Lemma prepared_fields i :
  s_protocol (prepared i) = si_protocol i /\ s_state (prepared i) = Created
  /\ s_shutdown_read (prepared i) = false /\ s_shutdown_write (prepared i) = false
  /\ socket_ok (prepared i) /\ rx_queue (prepared i) = [].
Proof.
  unfold prepared. pose proof (socket_ok_new (si_type i) (si_protocol i)) as Hok.
  destruct (si_broadcast i); by split_and!.
Qed.

Lemma AllocateSpecificPort_unused port protocol p :
  IsPortAllocated port protocol p = false ->
  exists p', AllocateSpecificPort port protocol p = (true, p').
Proof.
  unfold IsPortAllocated, AllocateSpecificPort. case_decide; [by eexists|].
  intros H1%bool_decide_eq_false. rewrite decide_False by done. by eexists.
Qed.

Lemma bind_port_unused protocol b s :
  GetPort b <> 0 -> IsPortAllocated (GetPort b) protocol (m_port_pool (manager s)) = false ->
  exists p, bind_port protocol b s = Some (Some b, with_manager (set_port_pool p (manager s)) s).
Proof.
  intros Hb Hun. destruct (AllocateSpecificPort_unused _ _ _ Hun) as (p & Hp). exists p.
  unfold bind_port. destruct (Z.eqb_spec (GetPort b) 0); [done|].
  erewrite bind_some; [|apply managed_eq; unfold ReservePort; by rewrite Hp]. done.
Qed.

(** No early packets. *)
Lemma deliver_none fd port protocol now m :
  m_mutex (m_link m) = false -> r_count (m_pending m) = 0%nat ->
  DeliverPendingPackets (Some fd) port protocol now m = Some (tt, m).
Proof.
  intros Hf Hr. apply (with_lock_eq _ _ _ id); [done| |done]. intros l. cbn. by rewrite Hr.
Qed.

Lemma bind_ready this fd port ip now s :
  ready this fd port ip s ->
  exists s', Bind real this fd (Some (bytes_of (any_addr port))) now s = Some (success [0] [], s')
    /\ bound this fd port ip (m_link (manager s)) (m_sockets (manager s)) s'.
Proof.
  intros [[o Ho] Hf (i & Hi & Hudp) Hfd Hsz Hport Hun _ Hpend Hip Hr].
  assert (Ha : copied_addr (Some (bytes_of (any_addr port))) = Some (any_addr port))
    by (apply copied_addr_of, wf_inet_addr; lia).
  rewrite (bind_prepares this o i fd _ _ now s Ho Hf Hi Hfd Hsz Ha eq_refl).
  assert (bind_target (any_addr port) (m_local_ip (manager s)) = source_addr ip port) as ->.
  { rewrite Hip. unfold bind_target. destruct (Z.eqb_spec ip 0); [lia|done]. }
  assert (Hgp : GetPort (source_addr ip port) = port) by (apply GetPort_source; lia).
  rewrite Hudp. destruct (prepared_fields i) as (Hpp & Hps & Hpr & Hpw & Hpok & Hpq).
  destruct (bind_port_unused Udp (source_addr ip port)
    (with_manager (put fd (prepared i) (manager s)) (counted this s))) as (pool & Hbp);
    [rewrite Hgp; lia|by rewrite Hgp|].
  pose (s1 := with_manager (put fd (prepared i) (manager s)) (counted this s)).
  pose (p2 := set_state Bound (set_addrs (source_addr ip port) (s_remote_addr (prepared i)) (prepared i))).
  pose (s2 := with_manager (set_port_pool pool (manager s1)) s1).
  pose (s3 := with_manager (set_link (m_link (manager s)) (put fd p2 (manager s2))) s2).
  pose (s4 := s3 <| g_socket_info :=
    alter (fun i : SocketInfo => i <| si_is_proxy := true |>) fd (g_socket_info s3) |>).
  assert (Hbind : proxy_bind fd (source_addr ip port) s2 = Some (0, s3)).
  { apply (on_proxy_eq fd _ s2 (prepared i) 0 p2); [by apply lookup_insert_eq|].
    unfold ProxySocket.Bind. rewrite Hps. done. }
  assert (Hmark : mark_proxy fd s3 = Some (tt, s4)) by done.
  assert (Hdel : managed (DeliverPendingPackets (Some fd) port Udp now) s4 = Some (tt, s4)).
  { etrans; [apply managed_eq; by apply deliver_none|]. unfold with_manager. by rewrite manager_same. }
  destruct (counted_service this o s Ho) as (o1 & Ho1 & _).
  pose proof (forward_eq real this o1 s4 13 (s32s [fd]) [Some (bytes_of (any_addr port))] [] 1 Ho1) as Hfw.
  cbv zeta in Hfw. match type of Hfw with _ = Some (?r, ?s5) => set (s5' := s5) in Hfw end.
  assert (Hreal : when (sin_addr (any_addr port) =? 0)
    (forward_bind real this fd (Some (bytes_of (any_addr port)));; mret tt) s4 = Some (tt, s5')).
  { change (when _ ?m) with m. unfold forward_bind. by erewrite bind_some by exact Hfw. }
  exists s5'. split.
  - etrans; [eapply bind_some; exact Hbp|]. cbv iota beta.
    etrans; [eapply bind_some; exact Hbind|]. cbn [negb Z.eqb].
    etrans; [eapply bind_some; exact Hmark|]. rewrite Hgp.
    etrans; [eapply bind_some; exact Hdel|].
    etrans; [eapply bind_some; exact Hreal|]. done.
  - clear - Ho1 Hi Hip Hpp Hudp Hpr Hpw Hpok Hpq. split.
    + by exists o1.
    + exists (i <| si_is_proxy := true |>). split; [|done]. cbn. by rewrite lookup_alter_eq, Hi.
    + done.
    + exact Hip.
    + exists p2. rewrite Hudp in Hpp. split_and!; [|exact Hpp|done|done|exact Hpr|exact Hpw|exact Hpok|exact Hpq].
      cbn. by rewrite insert_insert_eq.
Qed.

(** What the network gets to carry. *)
Lemma send_bound this fd port ip l others s flags d a :
  bound this fd port ip l others s -> m_mutex l = false ->
  0 < port < 65536 -> 0 < ip < 4294967296 ->
  wf a = true -> is_ldn_destination a = true -> zlen d <= PROXY_SOCKET_MAX_PAYLOAD ->
  let msg := ProxyData ip port (GetAddr a) (GetPort a) Udp d in
  exists s', SendTo real this fd flags (Some d) (Some (bytes_of a)) s
      = Some (transferred (if (invoke (m_send_callback l) msg l).1 then zlen d else - Errno_NetUnreach)
                [], s')
    /\ m_link (manager s') = (invoke (m_send_callback l) msg l).2.
Proof.
  intros [[o Ho] (i & Hi & Hm) Hl Hip (p & Hs & Hu & Hst & Hla & Hr & Hw & Hok & Hq)] Hf Hport Hipr
    Ha Hldn Hd msg.
  assert (Hp : m_sockets (manager s) !! fd = Some p) by (rewrite Hs; apply lookup_insert_eq).
  assert (Hsend : ProxySocket.SendTo (Some d) (GetSize (Some d)) flags a p (m_link (manager s))
    = Some (if (invoke (m_send_callback l) msg l).1 then zlen d else - Errno_NetUnreach,
            (invoke (m_send_callback l) msg l).2)).
  { unfold ProxySocket.SendTo. rewrite Hw, Hst, Hl, Hla, Hu. cbn [bool_decide GetSize default].
    rewrite !bool_decide_eq_false_2 by done. cbn [andb].
    unfold GetSize. cbn [default from_option]. change (id d) with d. destruct (Z.ltb_spec PROXY_SOCKET_MAX_PAYLOAD (zlen d)); [lia|].
    rewrite SendProxyData_free by done. cbn [mbind option_bind].
    rewrite GetAddr_source, GetPort_source by lia. rewrite ztake_all by lia. fold msg.
    destruct (invoke (m_send_callback l) msg l) as [[] l']; cbn [negb fst snd]; [|done].
    pose proof (zlen_nonneg d). unfold PROXY_SOCKET_MAX_PAYLOAD in *. by rewrite s32_small by lia. }
  eexists. split.
  - unfold SendTo. etrans; [eapply bind_some; by apply (count_command_eq this o)|].
    etrans; [eapply bind_some; reflexivity|]. change (g_socket_info (counted this s)) with (g_socket_info s).
    rewrite Hi, copied_addr_of by done.
    etrans; [eapply bind_some with (a := 0) (s' := counted this s)|].
    { unfold prepare_send_to. cbn [from_option]. by rewrite Hm, andb_false_r. }
    cbn [negb Z.eqb from_option]. rewrite Hm. cbn [orb].
    etrans; [eapply bind_some; apply get_proxy_eq; unfold free; cbn; by rewrite Hl|].
    change (manager (counted this s)) with (manager s). rewrite Hp. cbv iota beta.
    etrans; [eapply bind_some; apply (on_proxy_eq fd _ _ p); [exact Hp|]|].
    { cbv beta. change (manager (counted this s)) with (manager s). rewrite Hsend. reflexivity. }
    reflexivity.
  - done.
Qed.

(** Routing to the only socket on the port. *)
Lemma route_bound fd port ip m p others sip sport d now :
  m_mutex (m_link m) = false -> m_sockets m = <[fd := p]> others ->
  s_protocol p = Udp -> s_local_addr p = source_addr ip port -> socket_ok p ->
  (forall fd' q, others !! fd' = Some q -> endpoint_match port Udp q = false) ->
  0 < port < 65536 -> 0 < ip < 4294967296 -> is_broadcast ip = false ->
  sip <> m_local_ip m ->
  exists m', RouteIncomingData iter sip sport ip port Udp (Some d) (zlen d) now m = Some (true, m')
    /\ m_link m' = m_link m
    /\ m_sockets m' !! fd = Some (IncomingData (Some d) (zlen d) (source_addr sip sport) p).
Proof.
  intros Hf Hs Hu Hla Hok Halone Hport Hip Hb Hsip.
  assert (Hp : m_sockets m !! fd = Some p) by (rewrite Hs; apply lookup_insert_eq).
  assert (Hacc : accepts ip port Udp p = true).
  { unfold accepts, endpoint_match, bound_to. rewrite Hb, Hla, GetPort_source, GetAddr_source by lia.
    by rewrite Hu, !Z.eqb_refl. }
  assert (Ht : FindAllSocketsByDestination iter ip port Udp kMaxSockets m = [fd]).
  { pose proof (unicast_targets iter iter_perm ip port Udp kMaxSockets m ltac:(unfold kMaxSockets; lia) Hb) as H.
    destruct (FindAllSocketsByDestination _ _ _ _ _ _) as [|fd' [|]]; [| |done].
    - specialize (H fd p Hp). congruence.
    - destruct H as (q & Hq & Hqa & _). rewrite Hs in Hq. destruct (decide (fd = fd')) as [->|Hne]; [done|].
      rewrite lookup_insert_ne in Hq by done. specialize (Halone fd' q Hq).
      unfold accepts in Hqa. by rewrite Halone in Hqa. }
  eexists. split; [apply (with_lock_eq _ _ _ (fun m => set_sockets (deliver_all [fd] (Some d) (zlen d)
    (source_addr sip sport) (m_sockets m)) m))|]; [done| |done|].
  - intros l. change (m_local_ip (set_link l m)) with (m_local_ip m).
    rewrite (proj2 (Z.eqb_neq sip _)), andb_false_r by done.
    change (FindAllSocketsByDestination iter ip port Udp kMaxSockets (set_link l m))
      with (FindAllSocketsByDestination iter ip port Udp kMaxSockets m). by rewrite Ht.
  - split; [done|]. cbn. by rewrite lookup_alter_eq, Hp.
Qed.

Lemma recv_queued this fd p s from d flags buf abuf others :
  is_Some (services s !! this) -> (exists i, g_socket_info s !! fd = Some i /\ si_is_proxy i = true) ->
  m_mutex (m_link (manager s)) = false -> m_sockets (manager s) !! fd = Some p ->
  socket_ok p -> s_shutdown_read p = false -> s_state p <> Closed -> rx_queue p = [(from, d)] ->
  16 <= zlen abuf ->
  exists s', RecvFrom real this fd flags (Some buf) (Some abuf) others s
    = Some (success [Z.min (zlen buf) (zlen d); 0; 16]
              [Some (write_at 0 (ztake (zlen buf) d) buf); Some (write_at 0 (bytes_of from) abuf)], s').
Proof.
  intros [o Ho] (i & Hi & Hm) Hf Hp Hok Hr Hst Hq Habuf.
  destruct (RecvFrom_queue (zlen buf) flags others p Hok (zlen_nonneg _) Hr Hst) as (r & p' & Hrecv & Htake & _);
    [by rewrite Hq|].
  rewrite Hq in Htake. cbn [take_datagram] in Htake.
  assert (Er : r = {| rv_value := Z.min (zlen buf) (zlen d); rv_bytes := ztake (zlen buf) d;
                      rv_from := Some from |}) by (by injection Htake as <- _).
  eexists. unfold RecvFrom. etrans; [eapply bind_some; by apply (count_command_eq this o)|].
  etrans; [eapply bind_some with (a := Some p) (s' := counted this s)|].
  { change (transfer_proxy fd (counted this s)) with
      ((if from_option si_is_proxy false (g_socket_info s !! fd)
        then get_proxy fd else mret None) (counted this s)).
    rewrite Hi. cbn [from_option]. rewrite Hm. etrans; [by apply get_proxy_eq|].
    change (manager (counted this s)) with (manager s). by rewrite Hp. }
  cbv iota beta. etrans; [eapply bind_some; apply (on_proxy_eq fd _ _ p); [exact Hp|]|].
  { rewrite bool_decide_eq_false_2 by done. unfold GetSize. cbn [default from_option].
    change (id buf) with buf. rewrite Hrecv. reflexivity. }
  rewrite Er. cbn [rv_value rv_bytes rv_from].
  pose proof (zlen_nonneg buf). pose proof (zlen_nonneg d).
  destruct (Z.ltb_spec (Z.min (zlen buf) (zlen d)) 0); [lia|].
  unfold fill_addr, GetSize. cbn [default from_option]. change (id abuf) with abuf.
  by destruct (Z.leb_spec 16 (zlen abuf)); [|lia].
Qed.

(** C12: two games on two consoles: each binds a UDP socket to its port on all
    addresses.  What the first sends to the second reaches the network as one
    packet with its console's address and port, the destination and the data,
    and the game is told its length; and when the network hands that packet to
    the second console, the second game's [recvfrom] gets exactly these data,
    as many as its buffer takes, and the address and port of the first. *)
Theorem datagram_end_to_end thisA thisB fdA fdB portA portB ipA ipB sA sB nowA nowB now
    flags flags' d buf abuf others cb :
  ready thisA fdA portA ipA sA -> ready thisB fdB portB ipB sB ->
  ipA <> ipB -> IsLdnAddress ipB = true -> is_broadcast ipB = false ->
  m_send_callback (m_link (manager sA)) = Some cb ->
  zlen d <= PROXY_SOCKET_MAX_PAYLOAD -> 16 <= zlen abuf ->
  let packet := ProxyData ipA portA ipB portB Udp d in
  cb packet = true ->
  exists sA1 sA2 sB1 mB sB2,
    Bind real thisA fdA (Some (bytes_of (any_addr portA))) nowA sA = Some (success [0] [], sA1)
    /\ Bind real thisB fdB (Some (bytes_of (any_addr portB))) nowB sB = Some (success [0] [], sB1)
    /\ SendTo real thisA fdA flags (Some d) (Some (bytes_of (source_addr ipB portB))) sA1
       = Some (success [0; zlen d] [], sA2)
    /\ m_called (m_link (manager sA2)) = m_called (m_link (manager sA)) ++ [(packet, true)]
    /\ RouteIncomingData iter ipA portA ipB portB Udp (Some d) (zlen d) now (manager sB1)
       = Some (true, mB)
    /\ RecvFrom real thisB fdB flags' (Some buf) (Some abuf) others (with_manager mB sB1)
       = Some (success [Z.min (zlen buf) (zlen d); 0; 16]
                 [Some (write_at 0 (ztake (zlen buf) d) buf);
                  Some (write_at 0 (bytes_of (source_addr ipA portA)) abuf)], sB2).
Proof.
  intros HA HB Hne Hldn Hb Hcb Hd Habuf packet Hok.
  destruct (bind_ready thisA fdA portA ipA nowA sA HA) as (sA1 & HbA & HsA).
  destruct (bind_ready thisB fdB portB ipB nowB sB HB) as (sB1 & HbB & HsB).
  destruct HA as [_ HfA _ _ _ HpA _ _ _ _ HrA], HB as [_ HfB _ _ _ HpB _ HalB _ _ HrB].
  assert (Hdest : is_ldn_destination (source_addr ipB portB) = true).
  { unfold is_ldn_destination, SockAddrIn_IsLdnAddress, source_addr. cbn [sin_family sin_addr inet_addr].
    by rewrite bswap32_invol, Hldn by lia. }
  destruct (send_bound thisA fdA portA ipA _ _ sA1 flags d (source_addr ipB portB) HsA HfA HpA HrA
    (wf_source_addr _ _) Hdest Hd) as (sA2 & Hsend & Hlink).
  rewrite GetAddr_source, GetPort_source in Hsend, Hlink by lia.
  rewrite Hcb in Hsend, Hlink. cbn [invoke] in Hsend, Hlink. fold packet in Hsend, Hlink.
  rewrite Hok in Hsend, Hlink. cbn [fst snd] in Hsend, Hlink.
  destruct HsB as [Hsv Hmk Hlk Hip (p & Hs & Hu & Hst & Hla & Hsr & _ & Hpok & Hq)].
  destruct (route_bound fdB portB ipB (manager sB1) p (m_sockets (manager sB)) ipA portA d now)
    as (mB & Hroute & HmB & HpB'); [by rewrite Hlk|done|done|done|done|done|lia|lia|done|by rewrite Hip|].
  destruct (IncomingData_ok d (source_addr ipA portA) p Hpok) as (Hok' & Hq').
  destruct (recv_queued thisB fdB (IncomingData (Some d) (zlen d) (source_addr ipA portA) p)
    (with_manager mB sB1) (source_addr ipA portA) d flags' buf abuf others Hsv Hmk) as (sB2 & Hrecv); [by change (manager (with_manager mB sB1)) with mB; rewrite HmB, Hlk
     |exact HpB'|done|exact Hsr|cbn; by rewrite Hst| |done|].
  { rewrite Hq', Hq. unfold deliver. rewrite ztake_all by done. done. }
  exists sA1, sA2, sB1, mB, sB2. split_and!; [done|done| |by rewrite Hlink|done|done].
  rewrite Hsend. unfold transferred. pose proof (zlen_nonneg d).
  by destruct (Z.ltb_spec (zlen d) 0); [lia|].
Qed.
End proxy.

(** ** Two consoles *)

(** A console of the network: the sample session has the UDP socket 3 and the TCP
    socket 5, and the server takes every packet. *)
Definition console (ip : Z) : Bsd :=
  let link := set_callbacks (Some (fun _ => true)) (Some (fun _ => true)) None None new_Link in
  with_manager (set_local_ip ip (set_link link new_ProxySocketManager))
    (sample_bsd <| g_socket_info := {[ 3 := tracked_info 2 0 1; 5 := tracked_info 1 0 1 ]} |>).

Lemma console_ready ip : 0 < ip < 4294967296 -> ready 1 3 5000 ip (console ip).
Proof.
  intros Hip. split; try done; try lia.
  - by exists (tracked_info 2 0 1).
  - change (m_sockets (manager (console ip))) with (∅ : gmap Z ProxySocket).
    rewrite map_size_empty. unfold MAX_PROXY_SOCKETS. lia.
Qed.

Lemma datagram_end_to_end_witness :
  exists sA1 sA2 sB1 mB sB2,
    Bind sample_real 1 3 (Some (bytes_of (any_addr 5000))) 0 (console 0x0A720001)
      = Some (success [0] [], sA1)
    /\ Bind sample_real 1 3 (Some (bytes_of (any_addr 5000))) 0 (console 0x0A720002)
      = Some (success [0] [], sB1)
    /\ SendTo sample_real 1 3 0 (Some [7; 8; 9])
         (Some (bytes_of (source_addr 0x0A720002 5000))) sA1 = Some (success [0; 3] [], sA2)
    /\ RouteIncomingData any_iter 0x0A720001 5000 0x0A720002 5000 Udp (Some [7; 8; 9]) 3 1
         (manager sB1) = Some (true, mB)
    /\ RecvFrom sample_real 1 3 0 (Some [0; 0]) (Some (repeat 0 16)) [] (with_manager mB sB1)
       = Some (success [2; 0; 16]
                 [Some [7; 8]; Some (bytes_of (source_addr 0x0A720001 5000))], sB2).
Proof.
  destruct (datagram_end_to_end any_iter any_iter_perm sample_real 1 1 3 3 5000 5000
    0x0A720001 0x0A720002 (console 0x0A720001) (console 0x0A720002) 0 0 1 0 0 [7; 8; 9] [0; 0]
    (repeat 0 16) [] (fun _ => true))
    as (sA1 & sA2 & sB1 & mB & sB2 & H1 & H2 & H3 & _ & H5 & H6).
  - apply console_ready. lia.
  - apply console_ready. lia.
  - lia.
  - reflexivity.
  - reflexivity.
  - reflexivity.
  - vm_compute. discriminate.
  - vm_compute. discriminate.
  - reflexivity.
  - exists sA1, sA2, sB1, mB, sB2. exact (conj H1 (conj H2 (conj H3 (conj H5 H6)))).
Defined.

(** The port is taken. *)
Definition busy_console : Bsd :=
  with_manager (ReservePort 50000 Udp (manager (console 0x0A720001))).2 (console 0x0A720001).

Lemma refused_bind_leaks_witness :
  exists s1 r s2 p,
    Bind sample_real 1 3 (Some (bytes_of (any_addr 50000))) 0 busy_console
      = Some (success [98] [], s1)
    /\ Close any_iter sample_real 1 3 s1 = Some (r, s2)
    /\ m_sockets (manager s2) !! 3 = Some p.
Proof.
  destruct (refused_bind_leaks any_iter sample_real 1 sample_service (tracked_info 2 0 1) 3
    (Some (bytes_of (any_addr 50000))) (any_addr 50000) 0 busy_console)
    as (s1 & r & s2 & p & H1 & H2 & _ & H4 & _).
  - reflexivity.
  - reflexivity.
  - reflexivity.
  - reflexivity.
  - reflexivity.
  - vm_compute. lia.
  - vm_compute. reflexivity.
  - reflexivity.
  - vm_compute. discriminate.
  - vm_compute. reflexivity.
  - exists s1, r, s2, p. split; [exact H1|]. split; [exact H2|]. rewrite H4. apply lookup_insert_eq.
Defined.

Definition peer_addr : SockAddrIn := source_addr 0x0A720002 4000.

Lemma connected_socket_never_closes_witness :
  exists s', Connect sample_real 1 5 (Some (bytes_of peer_addr))
               [StepConnectResponse (zeroed ProxyConnectResponse)] (console 0x0A720001)
             = Some (success [0] [], s')
    /\ Close any_iter sample_real 1 5 s' = None.
Proof.
  assert (from_option (fun r => (r.1, services r.2 !! 1)) (success [] [], None)
      (Connect sample_real 1 5 (Some (bytes_of peer_addr))
         [StepConnectResponse (zeroed ProxyConnectResponse)] (console 0x0A720001))
    = (success [0] [], Some (sample_service <| m_command_count := 1 |>))) as H
    by (vm_compute; reflexivity).
  destruct (Connect sample_real 1 5 (Some (bytes_of peer_addr))
    [StepConnectResponse (zeroed ProxyConnectResponse)] (console 0x0A720001)) as [[reply s']|] eqn:E;
    [|discriminate H].
  injection H as Hr Hs. exists s'. split; [by rewrite Hr|].
  apply (connected_socket_never_closes any_iter sample_real 1 sample_service (tracked_info 1 0 1) 5
    (Some (bytes_of peer_addr)) peer_addr [StepConnectResponse (zeroed ProxyConnectResponse)]
    (console 0x0A720001) reply s') with (o' := sample_service <| m_command_count := 1 |>).
  - reflexivity.
  - reflexivity.
  - reflexivity.
  - reflexivity.
  - intros p Hp. discriminate Hp.
  - vm_compute. reflexivity.
  - vm_compute. reflexivity.
  - vm_compute. discriminate.
  - exact E.
  - rewrite Hr. reflexivity.
  - exact Hs.
Defined.
