(* ===== verification/ConfigService.v ===== *)
(** * The configuration service of the overlay ([config/config_ipc_service.{hpp,cpp}])

    The IPC commands by which the overlay reads and changes the settings, saves
    and reloads the file, and watches the state of the game's session.  The
    state holds the global configuration, the shared state of the wireless
    service and the file system calls made so far; what the file system answers
    is an argument of the two file commands.  [None] is a read outside the
    message of the overlay.

    The theorem at the end joins the commands, the formatter and the parser of
    Config.v and a file: the overlay sees ten independent registers with a saved
    copy. *)

From stdpp Require Import base numbers functions list.
From Stdlib Require Import ZArith Lia Bool Ascii String.
From S2P Require Import Prelude Imperative Config.
From S2P Require LdnTypes SharedState LdnStateMachine.
Import SharedState (SharedState).

#[export] Instance ServerConfig_eta : Eta ServerConfig := fun c =>
  Build_ServerConfig (host c) (port c) (use_tls c).
#[export] Instance NetworkConfig_eta : Eta NetworkConfig := fun c =>
  Build_NetworkConfig (connect_timeout_ms c) (ping_interval_ms c) (reconnect_delay_ms c)
    (max_reconnect_attempts c).
#[export] Instance LdnConfig_eta : Eta LdnConfig := fun c =>
  Build_LdnConfig (ldn_enabled c) (passphrase c) (interface_name c) (disable_p2p c).
#[export] Instance DebugConfig_eta : Eta DebugConfig := fun c =>
  Build_DebugConfig (debug_enabled c) (level c) (log_to_file c).
#[export] Instance Config_eta : Eta Config := fun c =>
  Build_Config (server c) (network c) (ldn c) (debug c).

(** ** State *)

Record Ipc : Type := {
  g_config : Config;
  shared_state : SharedState;
  fs_calls : list fs_call
}.
#[export] Instance Ipc_eta : Eta Ipc := fun s =>
  Build_Ipc (g_config s) (shared_state s) (fs_calls s).

Definition CONFIG_PATH : list Z := str "sdmc:/config/ryu_ldn_nx/config.ini".

Definition InitializeConfig (f : file_view) (s : Ipc) : Ipc :=
  s <| g_config := (load_config f get_default_config).2 |>.

(** ** Strings *)

(** What [safe_strcpy] copies from the memory [src], of which only the given
    bytes may be read; the NUL it adds is not part of the result. *)
Fixpoint safe_strcpy (src : list Z) (max_len : nat) {struct max_len} : option (list Z) :=
  match max_len with
  | O => Some []
  | S n => match src with
           | [] => None
           | c :: src => if c =? 0 then Some [] else cons c <$> safe_strcpy src n
           end
  end.

(** An output array of [size] characters, cleared, with a C string copied in. *)
Definition out_string (size : nat) (s : list Z) : option (list Z) :=
  copied ← safe_strcpy (s ++ [0]) (size - 1);
  Some (write_at 0 (copied ++ [0]) (repeat 0 size)).

Record ServerAddressIpc : Type := { sa_host : list Z; sa_port : Z; sa_padding : Z }.

(** The bytes of the structure, from [host] on. *)
Definition address_bytes (a : ServerAddressIpc) : list Z :=
  sa_host a ++ le_split 2 (sa_port a) ++ le_split 2 (sa_padding a).

Record SessionInfoIpc : Type := {
  ipc_node_count : Z; ipc_max_nodes : Z; ipc_local_node_id : Z; ipc_is_host : Z;
  ipc_reserved : list Z
}.

(** ** Commands *)

(** What a command sets in its output; every command succeeds. *)
Inductive Reply : Type :=
| Done
| Word (v : Z)
| Chars (bytes : list Z)
| Address (a : ServerAddressIpc)
| Session (i : SessionInfoIpc)
| Outcome (r : ConfigResult).

Definition Method : Type := Ipc -> option (Reply * Ipc).

Definition flag (b : bool) : Z := if b then 1 else 0.
Definition is_set (v : Z) : bool := negb (v =? 0).

(** A command that only reads, and one that only changes the configuration. *)
Definition answer (r : Reply) : Method := fun s => Some (r, s).
Definition assign (f : Config -> Config) : Method := fun s =>
  Some (Done, s <| g_config := f (g_config s) |>).

Definition GetVersion : Method := fun s =>
  out ← out_string 32 (str "1.0.0"); answer (Chars out) s.
Definition GetConnectionStatus : Method := answer (Word 0).
Definition IsServiceActive : Method := answer (Word 1).

Definition GetPassphrase : Method := fun s =>
  out ← out_string 64 (passphrase (ldn (g_config s))); answer (Chars out) s.
Definition SetPassphrase (value : list Z) : Method := fun s =>
  copied ← safe_strcpy value MAX_PASSPHRASE_LENGTH;
  assign (fun c => c <| ldn := ldn c <| passphrase := copied |> |>) s.

Definition GetServerAddress : Method := fun s =>
  out ← out_string 64 (host (server (g_config s)));
  answer (Address {| sa_host := out; sa_port := port (server (g_config s)); sa_padding := 0 |}) s.
Definition SetServerAddress (address : ServerAddressIpc) : Method := fun s =>
  copied ← safe_strcpy (address_bytes address) MAX_HOST_LENGTH;
  assign (fun c => c <| server := server c <| host := copied |> <| port := sa_port address |> |>) s.

Definition GetLdnEnabled : Method := fun s => answer (Word (flag (ldn_enabled (ldn (g_config s))))) s.
Definition SetLdnEnabled (enabled : Z) : Method :=
  assign (fun c => c <| ldn := ldn c <| ldn_enabled := is_set enabled |> |>).

Definition GetUseTls : Method := fun s => answer (Word (flag (use_tls (server (g_config s))))) s.
Definition SetUseTls (enabled : Z) : Method :=
  assign (fun c => c <| server := server c <| use_tls := is_set enabled |> |>).

Definition GetDebugEnabled : Method := fun s => answer (Word (flag (debug_enabled (debug (g_config s))))) s.
Definition SetDebugEnabled (enabled : Z) : Method :=
  assign (fun c => c <| debug := debug c <| debug_enabled := is_set enabled |> |>).

Definition GetDebugLevel : Method := fun s => answer (Word (level (debug (g_config s)))) s.
Definition SetDebugLevel (lvl : Z) : Method :=
  assign (fun c => c <| debug := debug c <| level := lvl |> |>).

Definition GetLogToFile : Method := fun s => answer (Word (flag (log_to_file (debug (g_config s))))) s.
Definition SetLogToFile (enabled : Z) : Method :=
  assign (fun c => c <| debug := debug c <| log_to_file := is_set enabled |> |>).

Definition GetConnectTimeout : Method := fun s => answer (Word (connect_timeout_ms (network (g_config s)))) s.
Definition SetConnectTimeout (timeout_ms : Z) : Method :=
  assign (fun c => c <| network := network c <| connect_timeout_ms := timeout_ms |> |>).

Definition GetPingInterval : Method := fun s => answer (Word (ping_interval_ms (network (g_config s)))) s.
Definition SetPingInterval (interval_ms : Z) : Method :=
  assign (fun c => c <| network := network c <| ping_interval_ms := interval_ms |> |>).

Definition GetDisableP2p : Method := fun s => answer (Word (flag (disable_p2p (ldn (g_config s))))) s.
Definition SetDisableP2p (disabled : Z) : Method :=
  assign (fun c => c <| ldn := ldn c <| disable_p2p := is_set disabled |> |>).

Definition SaveConfig (v : save_view) : Method := fun s =>
  let '(result, calls) := save_config CONFIG_PATH v (g_config s) in
  answer (Outcome result) (s <| fs_calls := fs_calls s ++ calls |>).
Definition ReloadConfig (f : file_view) : Method := fun s =>
  let '(result, c) := load_config f get_default_config in
  answer (Outcome result) (s <| g_config := c |>).

Definition IsGameActive : Method := fun s =>
  answer (Word (flag (SharedState.IsGameActive (shared_state s)))) s.
Definition GetLdnState : Method := fun s =>
  answer (Word (LdnStateMachine.CommState_value (SharedState.GetLdnState (shared_state s)))) s.
Definition GetSessionInfo : Method := fun s =>
  let info := SharedState.GetSessionInfoStruct (shared_state s) in
  answer (Session {| ipc_node_count := LdnTypes.si_node_count info;
                     ipc_max_nodes := LdnTypes.si_node_count_max info;
                     ipc_local_node_id := LdnTypes.si_local_node_id info;
                     ipc_is_host := LdnTypes.si_is_host info; ipc_reserved := repeat 0 4 |}) s.
Definition GetLastRtt : Method := fun s =>
  answer (Word (SharedState.GetLastRtt (shared_state s))) s.
Definition ForceReconnect : Method := fun s =>
  answer Done (s <| shared_state := SharedState.RequestReconnect (shared_state s) |>).
Definition GetActiveProcessId : Method := fun s =>
  answer (Word (SharedState.GetActiveProcessId (shared_state s))) s.

(** The commands by their numbers in the interface. *)
Inductive Call : Type :=
| CallGetVersion
| CallGetConnectionStatus
| CallGetPassphrase
| CallSetPassphrase (value : list Z)
| CallGetServerAddress
| CallSetServerAddress (address : ServerAddressIpc)
| CallGetLdnEnabled
| CallSetLdnEnabled (enabled : Z)
| CallGetUseTls
| CallSetUseTls (enabled : Z)
| CallGetDebugEnabled
| CallSetDebugEnabled (enabled : Z)
| CallGetDebugLevel
| CallSetDebugLevel (lvl : Z)
| CallGetLogToFile
| CallSetLogToFile (enabled : Z)
| CallSaveConfig (v : save_view)
| CallReloadConfig (f : file_view)
| CallGetConnectTimeout
| CallSetConnectTimeout (timeout_ms : Z)
| CallGetPingInterval
| CallSetPingInterval (interval_ms : Z)
| CallIsServiceActive
| CallIsGameActive
| CallGetLdnState
| CallGetSessionInfo
| CallGetLastRtt
| CallForceReconnect
| CallGetActiveProcessId
| CallGetDisableP2p
| CallSetDisableP2p (disabled : Z).

Definition perform (call : Call) : Method :=
  match call with
  | CallGetVersion => GetVersion
  | CallGetConnectionStatus => GetConnectionStatus
  | CallGetPassphrase => GetPassphrase
  | CallSetPassphrase value => SetPassphrase value
  | CallGetServerAddress => GetServerAddress
  | CallSetServerAddress address => SetServerAddress address
  | CallGetLdnEnabled => GetLdnEnabled
  | CallSetLdnEnabled enabled => SetLdnEnabled enabled
  | CallGetUseTls => GetUseTls
  | CallSetUseTls enabled => SetUseTls enabled
  | CallGetDebugEnabled => GetDebugEnabled
  | CallSetDebugEnabled enabled => SetDebugEnabled enabled
  | CallGetDebugLevel => GetDebugLevel
  | CallSetDebugLevel lvl => SetDebugLevel lvl
  | CallGetLogToFile => GetLogToFile
  | CallSetLogToFile enabled => SetLogToFile enabled
  | CallSaveConfig v => SaveConfig v
  | CallReloadConfig f => ReloadConfig f
  | CallGetConnectTimeout => GetConnectTimeout
  | CallSetConnectTimeout timeout_ms => SetConnectTimeout timeout_ms
  | CallGetPingInterval => GetPingInterval
  | CallSetPingInterval interval_ms => SetPingInterval interval_ms
  | CallIsServiceActive => IsServiceActive
  | CallIsGameActive => IsGameActive
  | CallGetLdnState => GetLdnState
  | CallGetSessionInfo => GetSessionInfo
  | CallGetLastRtt => GetLastRtt
  | CallForceReconnect => ForceReconnect
  | CallGetActiveProcessId => GetActiveProcessId
  | CallGetDisableP2p => GetDisableP2p
  | CallSetDisableP2p disabled => SetDisableP2p disabled
  end.

(** ** What the overlay sees: ten registers with a saved copy *)

Inductive Setting : Set :=
| StPassphrase | StServerAddress | StLdnEnabled | StUseTls | StDebugEnabled | StDebugLevel
| StLogToFile | StConnectTimeout | StPingInterval | StDisableP2p.
#[export] Instance Setting_eq_dec : EqDecision Setting.
Proof. solve_decision. Defined.

(** The register a command reads. *)
Definition reads (c : Call) : option Setting :=
  match c with
  | CallGetPassphrase => Some StPassphrase
  | CallGetServerAddress => Some StServerAddress
  | CallGetLdnEnabled => Some StLdnEnabled
  | CallGetUseTls => Some StUseTls
  | CallGetDebugEnabled => Some StDebugEnabled
  | CallGetDebugLevel => Some StDebugLevel
  | CallGetLogToFile => Some StLogToFile
  | CallGetConnectTimeout => Some StConnectTimeout
  | CallGetPingInterval => Some StPingInterval
  | CallGetDisableP2p => Some StDisableP2p
  | _ => None
  end.

(** A text of at most 63 characters in an array of 64. *)
Definition text (s : list Z) : list Z := let s := take 63 s in s ++ repeat 0 (64 - List.length s).

(** The register a command writes, and what reading it gives from then on. *)
Definition writes (c : Call) : option (Setting * Reply) :=
  match c with
  | CallSetPassphrase value => Some (StPassphrase, Chars (text (cstr value)))
  | CallSetServerAddress a =>
      Some (StServerAddress, Address {| sa_host := text (cstr (sa_host a));
                                        sa_port := sa_port a; sa_padding := 0 |})
  | CallSetLdnEnabled v => Some (StLdnEnabled, Word (flag (is_set v)))
  | CallSetUseTls v => Some (StUseTls, Word (flag (is_set v)))
  | CallSetDebugEnabled v => Some (StDebugEnabled, Word (flag (is_set v)))
  | CallSetDebugLevel v => Some (StDebugLevel, Word v)
  | CallSetLogToFile v => Some (StLogToFile, Word (flag (is_set v)))
  | CallSetConnectTimeout v => Some (StConnectTimeout, Word v)
  | CallSetPingInterval v => Some (StPingInterval, Word v)
  | CallSetDisableP2p v => Some (StDisableP2p, Word (flag (is_set v)))
  | _ => None
  end.

Record Registers : Type := { current : Setting -> Reply; saved : Setting -> Reply }.

Definition reg_step (c : Call) (r : Registers) : Registers :=
  match c with
  | CallSaveConfig _ => {| current := current r; saved := current r |}
  | CallReloadConfig _ => {| current := saved r; saved := saved r |}
  | _ => match writes c with
         | Some (k, v) => {| current := <[k := v]> (current r); saved := saved r |}
         | None => r
         end
  end.

(** What the registers say about the reply to a command, if anything. *)
Definition reg_reply (c : Call) (r : Registers) : option Reply := current r <$> reads c.

Fixpoint reg_run (cs : list Call) (r : Registers) : list (option Reply) * Registers :=
  match cs with
  | [] => ([], r)
  | c :: cs => let (replies, r') := reg_run cs (reg_step c r) in (reg_reply c r :: replies, r')
  end.

(** The overlay's words and texts: a text ends inside its array and is one the
    file can carry. *)
Definition valid (c : Call) : bool :=
  match c with
  | CallSetPassphrase value => (List.length value =? 64)%nat && clean MAX_PASSPHRASE_LENGTH (cstr value)
  | CallSetServerAddress a =>
      bool_decide (0 ∈ sa_host a) && clean MAX_HOST_LENGTH (cstr (sa_host a)) && in_u 16 (sa_port a)
  | CallSetDebugLevel v | CallSetConnectTimeout v | CallSetPingInterval v => in_u 32 v
  | _ => true
  end.

(** *** The service on a working file system, which holds the file or not *)

Definition Disk : Type := option (list Z).

Definition file_of (d : Disk) : file_view := {|
  fs_entry := (fun _ => true) <$> d; fs_open := true; fs_size := zlen <$> d; fs_alloc := true;
  fs_read := d |}.
Definition save_to (d : Disk) : save_view := {|
  sv_alloc := true; sv_entry := if d then true else false; sv_create := true; sv_open := true;
  sv_write := true |}.
Definition fs_apply (d : Disk) (call : fs_call) : Disk :=
  match call with
  | DeleteFile => None
  | CreateFile n => Some (repeat 0 (Z.to_nat n))
  | WriteFile content => Some content
  | _ => d
  end.

(** A command, with the answers of that disk. *)
Definition on_disk (d : Disk) (c : Call) : Call :=
  match c with
  | CallSaveConfig _ => CallSaveConfig (save_to d)
  | CallReloadConfig _ => CallReloadConfig (file_of d)
  | c => c
  end.

Definition world_step (c : Call) (w : Ipc * Disk) : option (Reply * (Ipc * Disk)) :=
  '(reply, s) ← perform (on_disk w.2 c) w.1;
  Some (reply, (s, foldl fs_apply w.2 (drop (List.length (fs_calls w.1)) (fs_calls s)))).

Fixpoint world_run (cs : list Call) (w : Ipc * Disk) : option (list Reply * (Ipc * Disk)) :=
  match cs with
  | [] => Some ([], w)
  | c :: cs => '(reply, w) ← world_step c w; '(replies, w) ← world_run cs w;
               Some (reply :: replies, w)
  end.

(** What the commands read of a configuration. *)
Definition read (k : Setting) (c : Config) : option Reply :=
  match k with
  | StPassphrase => Chars <$> out_string 64 (passphrase (ldn c))
  | StServerAddress =>
      (fun out => Address {| sa_host := out; sa_port := port (server c); sa_padding := 0 |})
        <$> out_string 64 (host (server c))
  | StLdnEnabled => Some (Word (flag (ldn_enabled (ldn c))))
  | StUseTls => Some (Word (flag (use_tls (server c))))
  | StDebugEnabled => Some (Word (flag (debug_enabled (debug c))))
  | StDebugLevel => Some (Word (level (debug c)))
  | StLogToFile => Some (Word (flag (log_to_file (debug c))))
  | StConnectTimeout => Some (Word (connect_timeout_ms (network c)))
  | StPingInterval => Some (Word (ping_interval_ms (network c)))
  | StDisableP2p => Some (Word (flag (disable_p2p (ldn c))))
  end.

Definition file_config (d : Disk) : Config := (load_config (file_of d) get_default_config).2.

(** The registers are what the service would answer now and after reloading,
    and both configurations are ones the file can carry. *)
Record tracks (w : Ipc * Disk) (r : Registers) : Prop := {
  tr_current : forall k, read k (g_config w.1) = Some (current r k);
  tr_saved : forall k, read k (file_config w.2) = Some (saved r k);
  tr_ok : config_ok (g_config w.1) = true;
  tr_file_ok : config_ok (file_config w.2) = true
}.

(** ** Lemmas *)

Lemma safe_strcpy_spec src n :
  (n <= List.length src)%nat \/ 0 ∈ src -> safe_strcpy src n = Some (take n (cstr src)).
Proof.
  revert src. induction n as [|n IH]; intros src H; [done|].
  destruct src as [|c src]; cbn [safe_strcpy cstr].
  - destruct H as [H|H]; [cbn in H; lia|by apply elem_of_nil in H].
  - destruct (Z.eqb_spec c 0) as [->|Hc]; [done|]. rewrite IH; [done|].
    destruct H as [H|[H|H]%elem_of_cons]; [left; cbn in H; lia|done|by right].
Qed.

Lemma cstr_clean_nul n s rest : clean n s = true -> cstr (s ++ 0 :: rest) = s.
Proof.
  unfold clean. rewrite !andb_true_iff. intros [[[_ H] _] _]. induction s as [|c s IH]; [done|].
  cbn in H. rewrite !andb_true_iff, negb_true_iff in H. destruct H as [[[Hc _] _] H].
  cbn. rewrite Hc. by rewrite IH.
Qed.

Lemma cstr_app_nul s rest : 0 ∈ s -> cstr (s ++ rest) = cstr s.
Proof.
  induction s as [|c s IH]; intros H; [by apply elem_of_nil in H|]. cbn.
  destruct (Z.eqb_spec c 0) as [->|Hc]; [done|]. f_equal. apply IH.
  by apply elem_of_cons in H as [H|H].
Qed.

Lemma drop_repeat {A} (x : A) n m : drop n (repeat x m) = repeat x (m - n).
Proof.
  revert m. induction n as [|n IH]; intros m; [by rewrite Nat.sub_0_r|].
  destruct m as [|m]; [done|]. apply IH.
Qed.

Lemma out_string_clean n s : clean n s = true -> out_string 64 s = Some (text s).
Proof.
  intros H. unfold out_string. rewrite safe_strcpy_spec by (right; apply elem_of_app; right; by apply list_elem_of_singleton).
  rewrite (cstr_clean_nul n) by done. cbn [mbind option_bind Nat.sub]. f_equal. unfold text.
  pose proof (length_take s 63). set (t := take 63 s) in *.
  unfold write_at, ztake, zdrop, zlen. rewrite length_app, drop_repeat.
  change (Z.to_nat 0) with 0%nat. rewrite take_0, app_nil_l, <- app_assoc. f_equal.
  replace (64 - List.length t)%nat with (S (63 - List.length t)) by lia. cbn [repeat app].
  do 2 f_equal. cbn [List.length]. lia.
Qed.

(** A command that reads. *)
Lemma perform_reads c k s v :
  reads c = Some k -> read k (g_config s) = Some v -> perform c s = Some (v, s).
Proof.
  intros Hc. destruct c; inversion Hc; subst k; cbn [read perform]; intros H;
    try (injection H as <-; reflexivity).
  - unfold GetPassphrase. destruct (out_string _ _) as [out|]; [|done]. by injection H as <-.
  - unfold GetServerAddress. destruct (out_string _ _) as [out|]; [|done]. by injection H as <-.
Qed.

(** An assignment that keeps the configuration fit for the file. *)
Ltac assigned k' :=
  eexists; split; [reflexivity|]; split; [reflexivity|]; split;
  [ unfold config_ok in *; cbn -[clean in_u]; rewrite !andb_true_iff in *; tauto
  | intros k'; destruct (decide _) as [<-|Hk]; [try reflexivity|by destruct k'] ].

(** A command that writes: the other registers keep their values. *)
Lemma perform_writes c k v s :
  valid c = true -> writes c = Some (k, v) -> config_ok (g_config s) = true ->
  exists s', perform c s = Some (Done, s') /\ fs_calls s' = fs_calls s
    /\ config_ok (g_config s') = true
    /\ forall k', read k' (g_config s') = if decide (k = k') then Some v else read k' (g_config s).
Proof.
  intros Hv Hc Hok.
  destruct c; inversion Hc; subst; clear Hc; cbn [perform]; try (by assigned k'); cbn [valid] in Hv.
  - apply andb_true_iff in Hv as [Hl%Nat.eqb_eq Hc]. unfold SetPassphrase.
    rewrite safe_strcpy_spec by (left; unfold MAX_PASSPHRASE_LENGTH; lia).
    change (take ?n ?l) with (Config.safe_strcpy l n). rewrite (clean_take _ _ Hc).
    cbn [mbind option_bind]. assigned k'. cbn -[out_string text]. by rewrite (out_string_clean _ _ Hc).
  - rewrite !andb_true_iff, bool_decide_eq_true in Hv. destruct Hv as [[H0 Hc] Hp].
    unfold SetServerAddress, address_bytes.
    rewrite safe_strcpy_spec by (right; apply elem_of_app; by left).
    rewrite cstr_app_nul by done.
    change (take ?n ?l) with (Config.safe_strcpy l n). rewrite (clean_take _ _ Hc).
    cbn [mbind option_bind]. assigned k'. cbn -[out_string text]. by rewrite (out_string_clean _ _ Hc).
Qed.

(** The commands about the session, the version and the service. *)
Lemma perform_other c s :
  reads c = None -> writes c = None ->
  match c with CallSaveConfig _ | CallReloadConfig _ => False | _ => True end ->
  exists v s', perform c s = Some (v, s') /\ fs_calls s' = fs_calls s /\ g_config s' = g_config s.
Proof.
  intros Hr Hw Hf. destruct c; try done; cbn [perform]; eexists _, _; (split; [reflexivity|done]).
Qed.

(** Saving and loading, on a disk that works. *)
Lemma foldl_last_call d calls content :
  last calls = Some (WriteFile content) -> foldl fs_apply d calls = Some content.
Proof. intros (calls' & ->)%last_Some. by rewrite foldl_app. Qed.

Lemma perform_save c d s :
  config_ok (g_config s) = true ->
  exists calls,
    perform (on_disk d (CallSaveConfig c)) s
      = Some (Outcome Success, s <| fs_calls := fs_calls s ++ calls |>)
    /\ file_config (foldl fs_apply d calls) = g_config s.
Proof.
  intros Hok. cbn [on_disk perform]. unfold SaveConfig.
  destruct (save_config CONFIG_PATH (save_to d) (g_config s)) as [result calls] eqn:H.
  assert (result = Success) as ->.
  { unfold save_config in H. cbn [save_to sv_alloc sv_create sv_open sv_write negb] in H.
    by injection H. }
  destruct (save_load_roundtrip CONFIG_PATH (save_to d) (g_config s) get_default_config calls Hok H)
    as (content & Hlast & _ & Hload).
  exists calls. split; [done|]. rewrite (foldl_last_call _ _ _ Hlast). unfold file_config.
  change (file_of (Some content)) with {| fs_entry := Some true; fs_open := true;
    fs_size := Some (zlen content); fs_alloc := true; fs_read := Some content |}.
  by rewrite Hload.
Qed.

Lemma world_unsaved c s s' d v :
  perform (on_disk d c) s = Some (v, s') -> fs_calls s' = fs_calls s ->
  world_step c (s, d) = Some (v, (s', d)).
Proof.
  intros H Hf. unfold world_step. cbn [fst snd]. rewrite H. cbn [mbind option_bind].
  by rewrite Hf, drop_all.
Qed.

(** A step of the service is one of the registers. *)
Lemma tracks_step c w r :
  tracks w r -> valid c = true ->
  exists v w', world_step c w = Some (v, w') /\ default v (reg_reply c r) = v
    /\ tracks w' (reg_step c r).
Proof.
  intros Ht Hv. destruct w as [s d]. pose proof Ht as [Hcur Hsav Hok Hfok]. cbn [fst snd] in *.
  destruct (reads c) as [k|] eqn:Hr.
  - pose proof (perform_reads c k s _ Hr (Hcur k)) as H.
    exists (current r k), (s, d). split_and!.
    + apply world_unsaved; [|done]. by destruct c.
    + unfold reg_reply. by rewrite Hr.
    + by destruct c.
  - assert (Hrep : reg_reply c r = None) by (unfold reg_reply; by rewrite Hr).
    destruct (writes c) as [[k v]|] eqn:Hw.
    + destruct (perform_writes c k v s Hv Hw Hok) as (s' & H & Hf & Hok' & Hk).
      exists Done, (s', d). rewrite Hrep. split; [|split; [done|]].
      { apply world_unsaved; [|done]. by destruct c. }
      assert (reg_step c r = {| current := <[k := v]> (current r); saved := saved r |}) as ->
        by (destruct c; inversion Hw; reflexivity).
      split; cbn [fst snd current saved]; try done.
      intros k'. rewrite Hk. destruct (decide (k = k')) as [<-|Hne].
      * by rewrite fn_lookup_insert.
      * by rewrite fn_lookup_insert_ne.
    + destruct c; try done.
      all: try (match goal with |- context [world_step ?c _] =>
        destruct (perform_other c s eq_refl eq_refl I) as (v & s' & H & Hf & Hg) end;
        exists v, (s', d); split; [by apply world_unsaved|]; split; [done|];
        split; cbn [fst snd]; rewrite ?Hg; done).
      * destruct (perform_save v d s Hok) as (calls & H & Hfile).
        exists (Outcome Success), (s <| fs_calls := fs_calls s ++ calls |>, foldl fs_apply d calls).
        split; [|split; [done|]].
        { unfold world_step. cbn [fst snd]. rewrite H. cbn [mbind option_bind].
          change (fs_calls (s <| fs_calls := fs_calls s ++ calls |>)) with (fs_calls s ++ calls).
          by rewrite drop_app_length. }
        split; cbn [fst snd reg_step current saved]; rewrite ?Hfile; done.
      * cbn [on_disk] in *. unfold world_step. cbn [fst snd on_disk perform]. unfold ReloadConfig.
        unfold file_config in Hsav, Hfok.
        destruct (load_config (file_of d) get_default_config) as [result c'] eqn:Hl.
        cbn [snd] in *. exists (Outcome result), (s <| g_config := c' |>, d).
        split; [|split; [done|]].
        { cbn [mbind option_bind answer]. by rewrite drop_all. }
        split; cbn [fst snd reg_step current saved]; unfold file_config; rewrite ?Hl; done.
Qed.

(** C19: the overlay sees ten independent registers: over a file system on which
    saving and loading succeed, from a state that [tracks] the registers (every
    setting, in memory and in the file, within its field, the texts clean), any sequence of [valid]
    commands returns, each setting reads as what was last written to it - a
    switch as 0 or 1, a text cut to 63 characters -, or as what [ReloadConfig]
    brought back, which is exactly what it was when [SaveConfig] was called
    last, through the text of the file and whatever was changed since.  A command
    is valid if its number is within its width and its text - 64 bytes for the
    passphrase, an array with a NUL for the address -, up to its NUL, has no line
    break and no blank at either end (the file would trim it). *)
Theorem overlay_registers cs w r :
  tracks w r -> forallb valid cs = true ->
  exists replies w',
    world_run cs w = Some (replies, w') /\ tracks w' (reg_run cs r).2
    /\ Forall2 (fun expected reply => default reply expected = reply) (reg_run cs r).1 replies.
Proof.
  revert w r. induction cs as [|c cs IH]; intros w r Ht Hv; [by exists [], w|].
  cbn in Hv. apply andb_true_iff in Hv as [Hc Hcs].
  destruct (tracks_step c w r Ht Hc) as (v & w1 & H1 & Hreply & Ht1).
  destruct (IH w1 (reg_step c r) Ht1 Hcs) as (replies & w' & H2 & Ht' & Hall).
  exists (v :: replies), w'. cbn [world_run reg_run]. rewrite H1. cbn [mbind option_bind].
  rewrite H2. destruct (reg_run cs (reg_step c r)) as [expected r'].
  split_and!; [done|done|by constructor].
Qed.

(** A service that starts without a file. *)
Definition fresh_service : Ipc := InitializeConfig (file_of None) {|
  g_config := get_default_config; shared_state := SharedState.new_SharedState; fs_calls := [] |}.
Definition fresh_registers : Registers :=
  let values k := default Done (read k get_default_config) in
  {| current := values; saved := values |}.
Definition overlay_session : list Call :=
  [CallSetPassphrase (text (str "Ryujinx-0123abcd")); CallSetDisableP2p 0; CallSaveConfig (save_to None);
   CallSetDisableP2p 7; CallGetDisableP2p; CallReloadConfig (file_of None); CallGetDisableP2p;
   CallGetPassphrase].

Lemma fresh_tracks : tracks (fresh_service, None) fresh_registers.
Proof. split; [by intros []|by intros []|reflexivity|reflexivity]. Qed.

Lemma overlay_registers_witness :
  exists replies w',
    world_run overlay_session (fresh_service, None) = Some (replies, w')
    /\ Forall2 (fun expected reply => default reply expected = reply)
         [None; None; None; None; Some (Word 1); None; Some (Word 0);
          Some (Chars (text (str "Ryujinx-0123abcd")))] replies.
Proof.
  destruct (overlay_registers overlay_session (fresh_service, None) fresh_registers fresh_tracks)
    as (replies & w' & H & _ & Hall).
  - vm_compute. reflexivity.
  - exists replies, w'. split; [exact H|exact Hall].
Defined.
