(* ===== verification/Dns.v ===== *)
(** * The DNS resolver ([network/dns_wrap.cpp])

    [getaddrinfo] and its friends for IPv4: a query is built, sent to the
    configured server, and the answer is parsed from at most 512 bytes.  A buffer
    is a list of bytes, a pointer into the answer an offset; a read outside the
    received bytes gives [None] in the outer option, the inner one is the null
    pointer.  Comparing pointers is comparing offsets, also behind the end.

    The constants of the platform's [netdb.h] are the record [Netdb], the
    functions [inet_pton] and [inet_ntop] of the C library parameters; what the
    system answers to one resolution is a [Network], and whether an allocation
    succeeds a function of its number. *)

From stdpp Require Import base numbers list.
From Stdlib Require Import ZArith Lia Bool Ascii String.
From S2P Require Import Prelude Imperative Config.

Record Netdb : Type := {
  EAI_NONAME : Z; EAI_AGAIN : Z; EAI_FAIL : Z; EAI_FAMILY : Z; EAI_MEMORY : Z; EAI_SYSTEM : Z;
  EAI_OVERFLOW : Z; AF_UNSPEC : Z; AF_INET : Z; AI_PASSIVE : Z
}.

(** ** Queries *)

(** What stands before the first dot, and behind it if there is one: [strchr]. *)
Fixpoint split_dot (src : list Z) : list Z * option (list Z) :=
  match src with
  | [] => ([], None)
  | c :: src => if c =? 46 then ([], Some src)
                else let (label, rest) := split_dot src in (c :: label, rest)
  end.

(** The loop over the labels; [None] is [return 0]. *)
Fixpoint encode_labels (fuel : nat) (src buf : list Z) (buf_size : Z) : option (list Z) :=
  match fuel, src with
  | O, _ => None
  | S _, [] => Some buf
  | S fuel, _ =>
      let (label, rest) := split_dot src in
      let label_len := zlen label in
      if (label_len =? 0) || (63 <? label_len) then None
      else if buf_size <? zlen buf + 1 + label_len + 1 then None
      else
        let buf := buf ++ label_len :: label in
        match rest with
        | Some src => encode_labels fuel src buf buf_size
        | None => Some buf
        end
  end.

(** The bytes written; [None] for the result 0. *)
Definition EncodeDnsName (hostname : list Z) (buf_size : Z) : option (list Z) :=
  if buf_size =? 0 then None
  else
    buf ← encode_labels (S (List.length hostname)) hostname [] buf_size;
    if buf_size <? zlen buf + 1 then None else Some (buf ++ [0]).

(** [None] for -1. *)
Definition BuildDnsQuery (hostname : list Z) (query_id packet_size : Z) : option (list Z) :=
  if bool_decide (hostname = []) then None
  else
    name_buf ← EncodeDnsName hostname 256;
    if packet_size <? 12 + zlen name_buf + 4 then None
    else Some ([Z.land (Z.shiftr query_id 8) 0xFF; Z.land query_id 0xFF; 0x01; 0x00; 0x00; 0x01;
                0x00; 0x00; 0x00; 0x00; 0x00; 0x00] ++ name_buf ++ [0x00; 0x01; 0x00; 0x01]).

(** ** Answers *)

Section parser.
Context (N : Netdb).
Context (response : list Z).

(** [*p] *)
Definition at_ (p : Z) : option Z := if p <? 0 then None else response !! Z.to_nat p.
Definition at16 (p : Z) : option Z :=
  a ← at_ p; b ← at_ (p + 1); Some (Z.lor (Z.shiftl a 8) b).
Definition at32 (p : Z) : option Z :=
  a ← at_ p; b ← at_ (p + 1); c ← at_ (p + 2); d ← at_ (p + 3);
  Some (Z.lor (Z.lor (Z.lor (Z.shiftl a 24) (Z.shiftl b 16)) (Z.shiftl c 8)) d).

Fixpoint SkipDnsName (fuel : nat) (p end_ : Z) : option (option Z) :=
  match fuel with
  | O => None
  | S fuel =>
      if p <? end_ then
        label_len ← at_ p;
        if Z.land label_len 0xC0 =? 0xC0
        then Some (if end_ <? p + 2 then None else Some (p + 2))
        else if label_len =? 0 then Some (Some (p + 1))
        else if end_ <? p + 1 + label_len then Some None
        else SkipDnsName fuel (p + (1 + label_len)) end_
      else Some None
  end.

(** A name and [n] bytes behind it: the pointer to these, unless the data end. *)
Definition skip_name (p end_ n : Z) : option (option Z) :=
  r ← SkipDnsName (S (List.length response)) p end_;
  Some (p ← r; if end_ <? p + n then None else Some p).

Fixpoint skip_questions (qdcount : nat) (p end_ : Z) : option (option Z) :=
  match qdcount with
  | O => Some (Some p)
  | S qdcount =>
      r ← skip_name p end_ 4;
      match r with
      | Some p => skip_questions qdcount (p + 4) end_
      | None => Some None
      end
  end.

(** The loop over the answers, with the addresses found so far. *)
Fixpoint parse_answers (ancount : nat) (p end_ max_ips : Z) (out_ips : list Z)
    : option (option (list Z)) :=
  match ancount with
  | O => Some (Some out_ips)
  | S ancount =>
      if negb (zlen out_ips <? max_ips) then Some (Some out_ips)
      else
        r ← skip_name p end_ 10;
        match r with
        | None => Some None
        | Some p =>
            rtype ← at16 p;
            rclass ← at16 (p + 2);
            rdlength ← at16 (p + 8);
            let p := p + 10 in
            if end_ <? p + rdlength then Some None
            else
              out_ips ← (if (rtype =? 1) && (rclass =? 1) && (rdlength =? 4) then
                           ip ← at32 p; Some (out_ips ++ [ip])
                         else Some out_ips);
              parse_answers ancount (p + rdlength) end_ max_ips out_ips
        end
  end.

(** The result and the addresses written. *)
Definition ParseDnsResponse (max_ips : Z) : option (Z * list Z) :=
  let resp_len := zlen response in
  if (resp_len <? 12) || (max_ips <=? 0) then Some (-1, [])
  else
    flags ← at16 2;
    let rcode := Z.land flags 0x000F in
    if Z.land flags 0x8000 =? 0 then Some (-1, [])
    else if negb (Z.land flags 0x0200 =? 0) then Some (- EAI_AGAIN N, [])
    else if rcode =? 3 then Some (- EAI_NONAME N, [])
    else if (rcode =? 2) || (rcode =? 5) then Some (- EAI_FAIL N, [])
    else if negb (rcode =? 0) then Some (- EAI_FAIL N, [])
    else
      ancount ← at16 6;
      if ancount =? 0 then Some (- EAI_NONAME N, [])
      else
        qdcount ← at16 4;
        r ← skip_questions (Z.to_nat qdcount) 12 resp_len;
        match r with
        | None => Some (-1, [])
        | Some p =>
            r ← parse_answers (Z.to_nat ancount) p resp_len max_ips [];
            match r with
            | None => Some (-1, [])
            | Some out_ips =>
                Some (if 0 <? zlen out_ips then zlen out_ips else - EAI_NONAME N, out_ips)
            end
        end.
End parser.

(** ** Resolution *)

(** What the system answers: the two servers of the network configuration when
    it has one, whether a socket can be opened, whether the query can be sent,
    and the datagram that arrives in time. *)
Record Network : Type := {
  nw_config : option (Z * Z);
  nw_socket : bool;
  nw_sendto : bool;
  nw_recvfrom : option (list Z)
}.

Definition GetDnsServerIp (nw : Network) : Z :=
  match nw_config nw with
  | Some (dns1, dns2) =>
      if negb (dns1 =? 0) then dns1 else if negb (dns2 =? 0) then dns2 else 0x08080808
  | None => 0x08080808
  end.

(** The process: the next query id, the blocks of memory that are allocated, and
    the queries sent, each to an address (as it is stored) and port 53. *)
Record Dns : Type := {
  s_next_query_id : Z;
  live_blocks : Z;
  queries : list (Z * list Z)
}.
#[export] Instance Dns_eta : Eta Dns := fun s =>
  Build_Dns (s_next_query_id s) (live_blocks s) (queries s).

(** One [addrinfo] with its address: the fields that vary. *)
Record addrinfo : Type := {
  ai_family : Z; ai_socktype : Z; ai_protocol : Z;
  sin_family : Z; sin_port : Z; s_addr : Z
}.

Record Hints : Type := { h_flags : Z; h_family : Z; h_socktype : Z; h_protocol : Z }.

Definition INADDR_ANY : Z := 0.
Definition INADDR_LOOPBACK : Z := 0x7F000001.

(** [std::atoi], for values that fit an [int]. *)
Definition atoi (s : list Z) : Z :=
  match drop_while is_space s with
  | c :: s' => if c =? 45 then - digits_value 0 s'
               else if c =? 43 then digits_value 0 s' else digits_value 0 (c :: s')
  | [] => 0
  end.

Section resolver.
Context (N : Netdb).
Context (inet_pton : list Z -> option Z).
Context (inet_ntop : Z -> list Z).
Context (malloc : nat -> bool).

(** [return rc], with nothing found. *)
Definition failed {A} (rc : Z) : M Dns (Z * list A) := mret (rc, []).

Definition ResolveHostnameDns (hostname : list Z) (max_ips : Z) (nw : Network)
    : M Dns (Z * list Z) :=
  if max_ips <=? 0 then failed (- EAI_FAIL N)
  else
    let dns_ip := GetDnsServerIp nw in
    query_id ← gets s_next_query_id;
    modify (fun s => s <| s_next_query_id := u16 (query_id + 1) |>);;
    match BuildDnsQuery hostname query_id 512 with
    | None => failed (- EAI_FAIL N)
    | Some query =>
        if negb (nw_socket nw) then failed (- EAI_FAIL N)
        else if negb (nw_sendto nw) then failed (- EAI_AGAIN N)
        else
          modify (fun s => s <| queries := queries s ++ [(dns_ip, query)] |>);;
          match nw_recvfrom nw with
          | None | Some [] => failed (- EAI_AGAIN N)
          | Some datagram => fun s =>
              r ← ParseDnsResponse N (ztake 512 datagram) max_ips; Some (r, s)
          end
    end.

Definition hint (f : Hints -> Z) (hints : option Hints) : Z := from_option f 0 hints.

(** A filled block. *)
Definition fill_addrinfo (port addr : Z) (hints : option Hints) : addrinfo := {|
  ai_family := AF_INET N; ai_socktype := hint h_socktype hints;
  ai_protocol := hint h_protocol hints;
  sin_family := AF_INET N; sin_port := bswap16 port; s_addr := addr |}.

Definition __wrap_freeaddrinfo (res : list addrinfo) : M Dns unit :=
  modify (fun s => s <| live_blocks := live_blocks s - zlen res |>).

(** The loop that builds the list, from the [i]-th allocation on. *)
Fixpoint build_list (i : nat) (ips : list Z) (port : Z) (hints : option Hints)
    (head : list addrinfo) : M Dns (Z * list addrinfo) :=
  match ips with
  | [] => mret (0, head)
  | ip :: ips =>
      if negb (malloc i) then __wrap_freeaddrinfo head;; failed (EAI_MEMORY N)
      else
        modify (fun s => s <| live_blocks := live_blocks s + 1 |>);;
        build_list (S i) ips port hints (head ++ [fill_addrinfo port (bswap32 ip) hints])
  end.

(** One block for an address that is known. *)
Definition single_result (port addr : Z) (hints : option Hints) : M Dns (Z * list addrinfo) :=
  if negb (malloc 0) then failed (EAI_MEMORY N)
  else
    modify (fun s => s <| live_blocks := live_blocks s + 1 |>);;
    mret (0, [fill_addrinfo port addr hints]).

(** The result and the list [*res]; [res] is not null. *)
Definition __wrap_getaddrinfo (node service : option (list Z)) (hints : option Hints)
    (nw : Network) : M Dns (Z * list addrinfo) :=
  if bool_decide (node = None) && bool_decide (service = None) then failed (EAI_NONAME N)
  else
    let family := from_option h_family (AF_UNSPEC N) hints in
    if negb (family =? AF_UNSPEC N) && negb (family =? AF_INET N) then failed (EAI_FAMILY N)
    else
      let port := from_option (fun service => u16 (atoi service)) 0 service in
      match node with
      | Some node =>
          match inet_pton node with
          | Some addr => single_result port addr hints
          | None =>
              '(num_ips, resolved_ips) ← ResolveHostnameDns node 8 nw;
              if num_ips <=? 0
              then failed (if num_ips =? 0 then EAI_NONAME N else - num_ips)
              else build_list 0 (ztake num_ips resolved_ips) port hints []
          end
      | None =>
          let passive := match hints with
                         | Some h => negb (Z.land (h_flags h) (AI_PASSIVE N) =? 0)
                         | None => false
                         end in
          single_result port (bswap32 (if passive then INADDR_ANY else INADDR_LOOPBACK)) hints
      end.

(** The two texts, each [None] when the caller gives no buffer for it. *)
Definition __wrap_getnameinfo (sa : option (Z * Z * Z)) (salen hostlen servlen : Z)
    (host serv : bool) : Z * option (list Z) * option (list Z) :=
  match sa with
  | None => (EAI_FAMILY N, None, None)
  | Some (family, port, addr) =>
      if salen <? 16 then (EAI_FAMILY N, None, None)
      else if negb (family =? AF_INET N) then (EAI_FAMILY N, None, None)
      else
        let want_host := host && (0 <? hostlen) in
        if want_host && (hostlen <? zlen (inet_ntop addr) + 1) then (EAI_OVERFLOW N, None, None)
        else (0, if want_host then Some (inet_ntop addr) else None,
              if serv && (0 <? servlen) then Some (ztake (servlen - 1) (fmt_u (bswap16 port)))
              else None)
  end.
End resolver.
