(* ===== verification/DnsWire.v ===== *)
(** * DNS messages, and what the resolver makes of them

    Messages as records with their bytes (RFC 1035), as a reference for
    [Dns.v]: what it sends is the message of one question, what it reads in any
    well-formed answer are the addresses of that answer; and what it does with
    bytes that are no message at all. *)

From Stdlib Require Import String.
From stdpp Require Import base numbers list.
From Stdlib Require Import ZArith Lia Bool.
From S2P Require Import Prelude Imperative Config Dns.

(** ** Messages *)

(** Labels, and the root or a pointer to the rest of the name. *)
Record name : Type := { labels : list (list Z); pointer : option Z }.

Definition be (n : nat) (z : Z) : list Z := rev (le_split n z).
Definition be_value (l : list Z) : Z := le_combine (rev l).

Definition label_bytes (l : list Z) : list Z := zlen l :: l.
Definition labels_bytes (ls : list (list Z)) : list Z := concat (map label_bytes ls).
Definition name_end (p : option Z) : list Z :=
  match p with None => [0] | Some offset => [0xC0 + offset / 256; offset mod 256] end.
Definition name_bytes (n : name) : list Z := labels_bytes (labels n) ++ name_end (pointer n).

Record question : Type := { q_name : name; q_type : Z; q_class : Z }.
Record record : Type := { r_name : name; r_type : Z; r_class : Z; r_ttl : Z; r_data : list Z }.

Definition question_bytes (q : question) : list Z :=
  name_bytes (q_name q) ++ be 2 (q_type q) ++ be 2 (q_class q).
Definition record_bytes (r : record) : list Z :=
  name_bytes (r_name r) ++ be 2 (r_type r) ++ be 2 (r_class r) ++ be 4 (r_ttl r)
  ++ be 2 (zlen (r_data r)) ++ r_data r.

(** [m_rest] are the other two sections, with their counts before. *)
Record message : Type := {
  m_id : Z; m_flags : Z; m_questions : list question; m_answers : list record;
  m_counts : Z * Z; m_rest : list Z
}.

Definition message_bytes (m : message) : list Z :=
  be 2 (m_id m) ++ be 2 (m_flags m) ++ be 2 (zlen (m_questions m)) ++ be 2 (zlen (m_answers m))
  ++ be 2 (m_counts m).1 ++ be 2 (m_counts m).2
  ++ concat (map question_bytes (m_questions m)) ++ concat (map record_bytes (m_answers m))
  ++ m_rest m.

(** The IPv4 addresses of an answer, in order. *)
Definition address (r : record) : option Z :=
  if (r_type r =? 1) && (r_class r =? 1) && (zlen (r_data r) =? 4)
  then Some (be_value (r_data r)) else None.
Definition addresses (m : message) : list Z := omap address (m_answers m).

(** ** Well-formed messages *)

Definition label_ok (l : list Z) : bool := (1 <=? zlen l) && (zlen l <=? 63).
Definition name_ok (n : name) : bool :=
  forallb label_ok (labels n)
  && match pointer n with None => true | Some offset => (0 <=? offset) && (offset <? 16384) end.
Definition question_ok (q : question) : bool := name_ok (q_name q).
Definition record_ok (r : record) : bool :=
  name_ok (r_name r) && in_u 16 (r_type r) && in_u 16 (r_class r) && in_u 16 (zlen (r_data r))
  && bytes_ok (r_data r).
Definition message_ok (m : message) : bool :=
  in_u 16 (m_flags m) && in_u 16 (zlen (m_questions m)) && in_u 16 (zlen (m_answers m))
  && forallb question_ok (m_questions m) && forallb record_ok (m_answers m).

(** An answer that reports no error and is not cut off. *)
Definition answers_ok (m : message) : bool :=
  negb (Z.land (m_flags m) 0x8000 =? 0) && (Z.land (m_flags m) 0x0200 =? 0)
  && (Z.land (m_flags m) 0x000F =? 0).

(** The labels with dots between them. *)
Fixpoint dotted (ls : list (list Z)) : list Z :=
  match ls with
  | [] => []
  | [l] => l
  | l :: ls => l ++ 46 :: dotted ls
  end.
Definition host_label_ok (l : list Z) : bool := label_ok l && forallb (fun c => negb (c =? 46)) l.

(** The query for the addresses of a name. *)
Definition query_message (id : Z) (ls : list (list Z)) : message := {|
  m_id := id; m_flags := 0x0100;
  m_questions := [{| q_name := {| labels := ls; pointer := None |}; q_type := 1; q_class := 1 |}];
  m_answers := []; m_counts := (0, 0); m_rest := [] |}.

(** ** A cursor: the bytes from an offset on *)

Definition cursor (r : list Z) (p : Z) (l : list Z) : Prop :=
  0 <= p /\ p + zlen l = zlen r /\ zdrop p r = l.

Lemma cursor_app r p a l : cursor r p (a ++ l) -> cursor r (p + zlen a) l.
Proof.
  intros (Hp & Hl & Hd). rewrite zlen_app in Hl. pose proof (zlen_nonneg a). pose proof (zlen_nonneg l).
  split; [lia|]. split; [lia|]. rewrite <- (zdrop_app a l (zlen a) eq_refl), <- Hd.
  by rewrite zdrop_zdrop by lia.
Qed.

Lemma cursor_start l : cursor l 0 l.
Proof. split; [lia|]. split; [lia|apply zdrop_0]. Qed.

Lemma cursor_at r p b l : cursor r p (b :: l) -> at_ r p = Some b.
Proof.
  intros (Hp & Hl & Hd). unfold at_. destruct (Z.ltb_spec p 0); [lia|].
  unfold zdrop in Hd. rewrite <- (Nat.add_0_r (Z.to_nat p)), <- lookup_drop. by rewrite Hd.
Qed.

Lemma cursor_next r p b l : cursor r p (b :: l) -> cursor r (p + 1) l.
Proof. intros H. apply (cursor_app r p [b] l H). Qed.

Lemma cursor_at16 r p z l : in_u 16 z = true -> cursor r p (be 2 z ++ l) -> at16 r p = Some z.
Proof.
  intros Hz%in_u_spec H. cbn in H. unfold at16. rewrite (cursor_at _ _ _ _ H). cbn [mbind option_bind].
  apply cursor_next in H. rewrite (cursor_at _ _ _ _ H). cbn [mbind option_bind]. f_equal.
  pose proof (Z.mod_pos_bound z 256 ltac:(lia)). rewrite lor_shiftl by lia.
  change (2 ^ 16) with 65536 in Hz. rewrite (Z.mod_small (z / 256)).
  - pose proof (Z.div_mod z 256 ltac:(lia)). lia.
  - split; [apply Z.div_pos; lia|apply Z.div_lt_upper_bound; lia].
Qed.

Lemma cursor_at32 r p d l :
  zlen d = 4 -> bytes_ok d = true -> cursor r p (d ++ l) -> at32 r p = Some (be_value d).
Proof.
  intros Hd Hb H. destruct d as [|a [|b [|c [|e [|x d]]]]]; try discriminate Hd;
    [|rewrite !zlen_cons in Hd; pose proof (zlen_nonneg d); lia].
  unfold bytes_ok in Hb. cbn [forallb] in Hb. rewrite !andb_true_iff in Hb.
  destruct Hb as (Ha%byte_ok_spec & Hb%byte_ok_spec & Hc%byte_ok_spec & He%byte_ok_spec & _).
  unfold at32. cbn in H.
  rewrite (cursor_at _ _ _ _ H). apply cursor_next in H.
  rewrite (cursor_at _ _ _ _ H). apply cursor_next in H.
  replace (p + 2) with (p + 1 + 1) by lia. rewrite (cursor_at _ _ _ _ H). apply cursor_next in H.
  replace (p + 3) with (p + 1 + 1 + 1) by lia. rewrite (cursor_at _ _ _ _ H).
  cbn [mbind option_bind]. f_equal. rewrite <- !Z.lor_assoc.
  rewrite (lor_shiftl c e), (lor_shiftl b), (lor_shiftl a) by lia. cbn. lia.
Qed.

(** ** Names *)

Lemma land_c0_label n : 0 <= n < 64 -> Z.land n 0xC0 = 0.
Proof.
  intros Hn. assert (forallb (fun i => Z.land (Z.of_nat i) 0xC0 =? 0) (seq 0 64) = true) as H
    by reflexivity.
  rewrite forallb_forall in H. specialize (H (Z.to_nat n)). rewrite Z2Nat.id in H by lia.
  apply Z.eqb_eq, H, in_seq. lia.
Qed.

Lemma land_c0_pointer n : 0 <= n < 64 -> Z.land (0xC0 + n) 0xC0 = 0xC0.
Proof.
  intros Hn.
  assert (forallb (fun i => Z.land (0xC0 + Z.of_nat i) 0xC0 =? 0xC0) (seq 0 64) = true) as H
    by reflexivity.
  rewrite forallb_forall in H. specialize (H (Z.to_nat n)). rewrite Z2Nat.id in H by lia.
  apply Z.eqb_eq, H, in_seq. lia.
Qed.

Lemma labels_bytes_length ls : (List.length ls <= List.length (labels_bytes ls))%nat.
Proof.
  induction ls as [|l ls IH]; [done|]. unfold labels_bytes in *. cbn. rewrite length_app. lia.
Qed.

Lemma SkipDnsName_name r fuel p n l :
  name_ok n = true -> (List.length (labels n) < fuel)%nat -> cursor r p (name_bytes n ++ l) ->
  SkipDnsName r fuel p (zlen r) = Some (Some (p + zlen (name_bytes n))).
Proof.
  destruct n as [ls pt]. unfold name_ok, name_bytes. cbn [labels pointer].
  intros [Hls Hpt]%andb_true_iff.
  revert p fuel. induction ls as [|lb ls IH]; intros p fuel Hf H;
    (destruct fuel as [|fuel]; [cbn in Hf; lia|]); cbn [SkipDnsName].
  - change (labels_bytes [] ++ name_end pt) with (name_end pt) in *.
    pose proof H as (Hp & Hl & _). pose proof (zlen_nonneg l).
    destruct pt as [o|]; cbn [name_end app] in *; rewrite !zlen_cons in *;
      (destruct (Z.ltb_spec p (zlen r)); [|lia]); rewrite (cursor_at _ _ _ _ H);
      cbn [mbind option_bind].
    + apply andb_true_iff in Hpt as [Ho1%Z.leb_le Ho2%Z.ltb_lt].
      rewrite land_c0_pointer
        by (split; [apply Z.div_pos; lia|apply Z.div_lt_upper_bound; lia]).
      cbn [Z.eqb Pos.eqb]. destruct (Z.ltb_spec (zlen r) (p + 2)); [lia|]. done.
    + done.
  - cbn in Hls. apply andb_true_iff in Hls as [Hlb Hls].
    unfold label_ok in Hlb. apply andb_true_iff in Hlb as [H1%Z.leb_le H2%Z.leb_le].
    change (labels_bytes (lb :: ls)) with ((zlen lb :: lb) ++ labels_bytes ls) in *.
    rewrite <- !app_assoc in *. cbn [app] in H. pose proof H as (Hp & Hl & _).
    pose proof (zlen_nonneg (labels_bytes ls ++ name_end pt ++ l)).
    rewrite zlen_cons, !zlen_app in Hl. rewrite !zlen_app in *.
    destruct (Z.ltb_spec p (zlen r)); [|lia]. rewrite (cursor_at _ _ _ _ H). cbn [mbind option_bind].
    rewrite land_c0_label by lia. cbn [Z.eqb].
    destruct (Z.eqb_spec (zlen lb) 0); [lia|].
    destruct (Z.ltb_spec (zlen r) (p + 1 + zlen lb)); [lia|].
    apply cursor_next, cursor_app in H.
    rewrite Z.add_assoc, IH; [|done|cbn in Hf; lia|exact H].
    do 2 f_equal. rewrite ?zlen_cons, ?zlen_app. lia.
Qed.

Lemma skip_name_spec r p n l k :
  name_ok n = true -> cursor r p (name_bytes n ++ l) -> k <= zlen l ->
  skip_name r p (zlen r) k = Some (Some (p + zlen (name_bytes n))).
Proof.
  intros Hn H Hk. unfold skip_name.
  assert (List.length (labels n) < S (List.length r))%nat as Hf.
  { destruct H as (Hp & Hl & _). pose proof (labels_bytes_length (labels n)).
    unfold name_bytes in Hl. unfold zlen in *. rewrite !length_app in Hl. lia. }
  rewrite (SkipDnsName_name r _ p n l Hn Hf H). cbn [mbind option_bind].
  apply cursor_app in H as (_ & Hl & _).
  by destruct (Z.ltb_spec (zlen r) (p + zlen (name_bytes n) + k)); [lia|].
Qed.

(** ** The sections of a message *)

Lemma to_nat_zlen {A} (l : list A) : Z.to_nat (zlen l) = List.length l.
Proof. apply Nat2Z.id. Qed.

Lemma zlen_be n z : zlen (be n z) = Z.of_nat n.
Proof. unfold be, zlen. by rewrite length_rev, length_le_split. Qed.

Lemma skip_questions_spec r qs p l :
  forallb question_ok qs = true -> cursor r p (concat (map question_bytes qs) ++ l) ->
  skip_questions r (List.length qs) p (zlen r)
  = Some (Some (p + zlen (concat (map question_bytes qs)))).
Proof.
  revert p. induction qs as [|q qs IH]; intros p Hok H.
  - cbn. do 2 f_equal. change (zlen (@nil Z)) with 0. lia.
  - cbn in Hok. apply andb_true_iff in Hok as [Hq Hqs]. cbn [List.length skip_questions].
    cbn [map concat] in *. unfold question_bytes in H at 1. rewrite <- !app_assoc in H.
    rewrite (skip_name_spec r p (q_name q) _ 4 Hq H).
    + cbn [mbind option_bind]. apply cursor_app, cursor_app, cursor_app in H.
      rewrite !zlen_be in H. change (Z.of_nat 2) with 2 in H. rewrite zlen_app.
      replace (p + zlen (name_bytes (q_name q)) + 4) with (p + zlen (name_bytes (q_name q)) + 2 + 2) by lia.
      rewrite (IH _ Hqs H). unfold question_bytes at 2. rewrite !zlen_app, !zlen_be.
      do 2 f_equal. lia.
    + rewrite !zlen_app, !zlen_be. pose proof (zlen_nonneg (concat (map question_bytes qs))).
      pose proof (zlen_nonneg l). lia.
Qed.

(** The addresses of the records, on top of those found, up to [max_ips]. *)
Lemma parse_answers_spec r rs p l max_ips ips :
  forallb record_ok rs = true -> cursor r p (concat (map record_bytes rs) ++ l) ->
  zlen ips <= max_ips ->
  parse_answers r (List.length rs) p (zlen r) max_ips ips
  = Some (Some (ztake max_ips (ips ++ omap address rs))).
Proof.
  revert p ips. induction rs as [|rc rs IH]; intros p ips Hok H Hips.
  - cbn. by rewrite app_nil_r, ztake_all.
  - cbn in Hok. apply andb_true_iff in Hok as [Hrc Hrs]. cbn [List.length parse_answers].
    destruct (Z.ltb_spec (zlen ips) max_ips); cbn [negb].
    2: { by rewrite ztake_app by lia. }
    unfold record_ok in Hrc. rewrite !andb_true_iff in Hrc.
    destruct Hrc as [[[[Hn Ht] Hc] Hd] Hb].
    cbn [map concat] in H. unfold record_bytes in H at 1. rewrite <- !app_assoc in H.
    rewrite (skip_name_spec r p (r_name rc) _ 10 Hn H).
    2: { rewrite !zlen_app, !zlen_be. pose proof (zlen_nonneg (r_data rc)).
         pose proof (zlen_nonneg (concat (map record_bytes rs))). pose proof (zlen_nonneg l). lia. }
    cbn [mbind option_bind].
    apply cursor_app in H. rewrite (cursor_at16 _ _ _ _ Ht H). cbn [mbind option_bind].
    apply cursor_app in H. rewrite zlen_be in H. change (Z.of_nat 2) with 2 in H.
    rewrite (cursor_at16 _ _ _ _ Hc H). cbn [mbind option_bind].
    apply cursor_app, cursor_app in H. rewrite !zlen_be in H.
    set (q := p + zlen (name_bytes (r_name rc))) in *.
    replace (q + 2 + Z.of_nat 2 + Z.of_nat 4) with (q + 8) in H by lia.
    rewrite (cursor_at16 _ _ _ _ Hd H). cbn [mbind option_bind].
    apply cursor_app in H. rewrite zlen_be in H. replace (q + 8 + Z.of_nat 2) with (q + 10) in H by lia.
    pose proof H as (_ & Hl & _). rewrite zlen_app in Hl.
    pose proof (zlen_nonneg (concat (map record_bytes rs) ++ l)).
    destruct (Z.ltb_spec (zlen r) (q + 10 + zlen (r_data rc))); [lia|].
    cbn [omap list_omap]. unfold address at 1.
    destruct ((r_type rc =? 1) && (r_class rc =? 1) && (zlen (r_data rc) =? 4)) eqn:Ha.
    + rewrite !andb_true_iff in Ha. destruct Ha as [_ H4%Z.eqb_eq].
      rewrite (cursor_at32 _ _ _ _ H4 Hb H). cbn [mbind option_bind].
      apply cursor_app in H. rewrite (IH _ _ Hrs H) by (rewrite zlen_app, zlen_cons; change (zlen (@nil Z)) with 0; lia).
      by rewrite <- app_assoc.
    + cbn [mbind option_bind]. apply cursor_app in H. by rewrite (IH _ _ Hrs H) by lia.
Qed.

(** ** Parsing a message *)

Lemma ParseDnsResponse_message N m max_ips :
  message_ok m = true -> answers_ok m = true -> m_answers m <> [] -> 0 < max_ips ->
  ParseDnsResponse N (message_bytes m) max_ips
  = Some (let ips := ztake max_ips (addresses m) in
          (if 0 <? zlen ips then zlen ips else - EAI_NONAME N, ips)).
Proof.
  intros Hok Hans Hne Hmax. unfold message_ok in Hok. unfold answers_ok in Hans.
  rewrite !andb_true_iff in Hok. rewrite !andb_true_iff in Hans. destruct Hok as [[[[Hf Hq] Ha] Hqs] Hrs].
  destruct Hans as [[Hqr%negb_true_iff Htc] Hrc%Z.eqb_eq].
  pose proof (cursor_start (message_bytes m)) as H. unfold ParseDnsResponse.
  set (r := message_bytes m) in *. assert (Hl : 12 <= zlen r).
  { unfold r, message_bytes. rewrite !zlen_app, !zlen_be.
    pose proof (zlen_nonneg (concat (map question_bytes (m_questions m)))).
    pose proof (zlen_nonneg (concat (map record_bytes (m_answers m)))).
    pose proof (zlen_nonneg (m_rest m)). lia. }
  destruct (Z.ltb_spec (zlen r) 12); [lia|]. destruct (Z.leb_spec max_ips 0); [lia|].
  cbn [orb]. unfold message_bytes in H.
  apply cursor_app in H. rewrite zlen_be in H. change (0 + Z.of_nat 2) with 2 in H.
  rewrite (cursor_at16 _ _ _ _ Hf H). cbn [mbind option_bind]. rewrite Hqr, Htc, Hrc. cbn [negb Z.eqb orb].
  apply cursor_app in H. rewrite zlen_be in H. change (2 + Z.of_nat 2) with 4 in H.
  pose proof H as H4. apply cursor_app in H. rewrite zlen_be in H. change (4 + Z.of_nat 2) with 6 in H.
  rewrite (cursor_at16 _ _ _ _ Ha H). cbn [mbind option_bind].
  destruct (Z.eqb_spec (zlen (m_answers m)) 0) as [Hz|_].
  { destruct (m_answers m); [done|]. rewrite zlen_cons in Hz.
    match type of Hz with context [zlen ?k] => pose proof (zlen_nonneg k) end. lia. }
  rewrite (cursor_at16 _ _ _ _ Hq H4). cbn [mbind option_bind].
  apply cursor_app, cursor_app, cursor_app in H. rewrite !zlen_be in H.
  change (6 + Z.of_nat 2 + Z.of_nat 2 + Z.of_nat 2) with 12 in H.
  rewrite (to_nat_zlen (m_questions m)), (skip_questions_spec _ _ _ _ Hqs H). cbn [mbind option_bind].
  apply cursor_app in H. rewrite to_nat_zlen.
  rewrite (parse_answers_spec _ _ _ _ max_ips [] Hrs H) by (change (zlen (@nil Z)) with 0; lia).
  reflexivity.
Qed.

(** ** Queries *)

Lemma split_dot_end l :
  forallb (fun c => negb (c =? 46)) l = true -> split_dot l = (l, None).
Proof.
  induction l as [|c l IH]; [done|]. cbn. rewrite andb_true_iff, negb_true_iff. intros [-> H].
  by rewrite IH.
Qed.

Lemma split_dot_rest l rest :
  forallb (fun c => negb (c =? 46)) l = true -> split_dot (l ++ 46 :: rest) = (l, Some rest).
Proof.
  induction l as [|c l IH]; [done|]. cbn. rewrite andb_true_iff, negb_true_iff. intros [-> H].
  by rewrite IH.
Qed.

Lemma encode_labels_spec fuel ls buf size :
  ls <> [] -> forallb host_label_ok ls = true -> (List.length (dotted ls) < fuel)%nat ->
  zlen buf + zlen (labels_bytes ls) + 1 <= size ->
  encode_labels fuel (dotted ls) buf size = Some (buf ++ labels_bytes ls).
Proof.
  revert buf fuel. induction ls as [|l ls IH]; intros buf fuel Hne Hok Hf Hs; [done|].
  cbn in Hok. unfold host_label_ok in Hok at 1. unfold label_ok in Hok. rewrite !andb_true_iff in Hok.
  destruct Hok as [[[H1%Z.leb_le H2%Z.leb_le] Hdot] Hls].
  destruct fuel as [|fuel]; [lia|].
  change (labels_bytes (l :: ls)) with ((zlen l :: l) ++ labels_bytes ls) in *.
  rewrite zlen_app, zlen_cons in Hs. pose proof (zlen_nonneg (labels_bytes ls)).
  assert (exists c k, l = c :: k) as (c & k & Hl).
  { destruct l as [|c k]; [change (zlen (@nil Z)) with 0 in H1; lia|by exists c, k]. }
  assert (encode_labels (S fuel) (dotted (l :: ls)) buf size
    = let (label, rest) := split_dot (dotted (l :: ls)) in
      if (zlen label =? 0) || (63 <? zlen label) then None
      else if size <? zlen buf + 1 + zlen label + 1 then None
      else match rest with
           | Some src => encode_labels fuel src (buf ++ zlen label :: label) size
           | None => Some (buf ++ zlen label :: label)
           end) as ->.
  { rewrite Hl. by destruct ls. }
  destruct ls as [|l' ls]; cbn [dotted].
  - rewrite split_dot_end by done.
    destruct (Z.eqb_spec (zlen l) 0); [lia|]. destruct (Z.ltb_spec 63 (zlen l)); [lia|].
    destruct (Z.ltb_spec size (zlen buf + 1 + zlen l + 1)); [lia|]. cbn [orb].
    change (labels_bytes []) with (@nil Z). by rewrite app_nil_r.
  - change (dotted (l :: l' :: ls)) with (l ++ 46 :: dotted (l' :: ls)) in *.
    rewrite split_dot_rest by done.
    destruct (Z.eqb_spec (zlen l) 0); [lia|]. destruct (Z.ltb_spec 63 (zlen l)); [lia|].
    destruct (Z.ltb_spec size (zlen buf + 1 + zlen l + 1)); [lia|]. cbn [orb].
    rewrite IH; [by rewrite <- app_assoc|done|done| |].
    + rewrite length_app in Hf. cbn [List.length] in Hf. lia.
    + rewrite zlen_app, zlen_cons. lia.
Qed.

Lemma zlen_query id ls :
  zlen (message_bytes (query_message id ls)) = 12 + (zlen (labels_bytes ls) + 1) + 4.
Proof.
  unfold message_bytes, query_message. cbn [m_id m_flags m_questions m_answers m_counts m_rest].
  rewrite !zlen_app, !zlen_be. cbn [map concat]. unfold question_bytes, name_bytes.
  cbn [q_name q_type q_class labels pointer name_end]. rewrite !zlen_app, !zlen_be.
  change (zlen [0]) with 1. change (zlen (@nil Z)) with 0. lia.
Qed.

Lemma BuildDnsQuery_message id ls size :
  in_u 16 id = true -> ls <> [] -> forallb host_label_ok ls = true ->
  zlen (labels_bytes ls) + 1 <= 256 -> zlen (message_bytes (query_message id ls)) <= size ->
  BuildDnsQuery (dotted ls) id size = Some (message_bytes (query_message id ls)).
Proof.
  intros Hid%in_u_spec Hne Hok Hl Hs. rewrite zlen_query in Hs. unfold BuildDnsQuery.
  rewrite bool_decide_eq_false_2.
  2: { destruct ls as [|l ls]; [done|]. cbn in Hok. apply andb_true_iff in Hok as [Hok _].
       intros H. assert (l = []) as -> by (destruct ls; [exact H|by destruct l]). done. }
  unfold EncodeDnsName. cbn [Z.eqb].
  rewrite encode_labels_spec by (try done; change (zlen (@nil Z)) with 0; lia).
  cbn [mbind option_bind app].
  destruct (Z.ltb_spec 256 (zlen (labels_bytes ls) + 1)); [lia|]. cbn [mbind option_bind].
  rewrite zlen_app. change (zlen [0]) with 1.
  destruct (Z.ltb_spec size (12 + (zlen (labels_bytes ls) + 1) + 4)); [lia|]. f_equal.
  unfold message_bytes, query_message. cbn [m_id m_flags m_questions m_answers m_counts m_rest].
  cbn [map concat]. unfold question_bytes, name_bytes. cbn [q_name q_type q_class labels pointer name_end].
  rewrite !app_nil_r. change (2 ^ 16) with 65536 in Hid.
  assert (be 2 id = [Z.land (Z.shiftr id 8) 0xFF; Z.land id 0xFF]) as ->.
  { unfold be. cbn [le_split rev app]. rewrite Z.shiftr_div_pow2 by lia.
    by rewrite <- !(Z.land_ones _ 8) by lia. }
  cbn. rewrite <- !app_assoc. done.
Qed.

(** ** Any bytes *)

Section any_bytes.
Context (r : list Z) (Hr : bytes_ok r = true).

Lemma at_safe p : 0 <= p < zlen r -> exists b, at_ r p = Some b /\ 0 <= b < 256.
Proof using Hr.
  intros Hp. unfold at_. destruct (Z.ltb_spec p 0); [lia|].
  destruct (lookup_lt_is_Some_2 r (Z.to_nat p)) as [b Hb]; [unfold zlen in Hp; lia|].
  exists b. split; [done|]. apply byte_ok_spec. unfold bytes_ok in Hr.
  rewrite forallb_forall in Hr. apply Hr, list_elem_of_In, (list_elem_of_lookup_2 _ _ _ Hb).
Qed.

Lemma at16_safe p : 0 <= p -> p + 2 <= zlen r -> exists v, at16 r p = Some v /\ 0 <= v.
Proof using Hr.
  intros H0 Hp. destruct (at_safe p) as (a & Ha & ?); [lia|].
  destruct (at_safe (p + 1)) as (b & Hb & ?); [lia|]. unfold at16. rewrite Ha. cbn [mbind option_bind].
  rewrite Hb. cbn [mbind option_bind]. eexists. split; [done|]. apply Z.lor_nonneg.
  rewrite Z.shiftl_nonneg. lia.
Qed.

Lemma at32_safe p : 0 <= p -> p + 4 <= zlen r -> exists v, at32 r p = Some v.
Proof using Hr.
  intros H0 Hp. unfold at32.
  destruct (at_safe p) as (a & -> & _); [lia|]. destruct (at_safe (p + 1)) as (b & -> & _); [lia|].
  destruct (at_safe (p + 2)) as (c & -> & _); [lia|].
  destruct (at_safe (p + 3)) as (d & -> & _); [lia|]. by eexists.
Qed.

Lemma SkipDnsName_safe fuel p :
  0 <= p -> (Z.to_nat (zlen r - p) < fuel)%nat ->
  exists o, SkipDnsName r fuel p (zlen r) = Some o /\ forall p', o = Some p' -> p < p' <= zlen r.
Proof using Hr.
  revert p. induction fuel as [|fuel IH]; intros p Hp Hf; [lia|]. cbn [SkipDnsName].
  destruct (Z.ltb_spec p (zlen r)) as [Hlt|Hge]; [|by exists None].
  destruct (at_safe p) as (b & -> & Hb); [lia|]. cbn [mbind option_bind].
  destruct (Z.land b 0xC0 =? 0xC0).
  { destruct (Z.ltb_spec (zlen r) (p + 2)); [by exists None|].
    exists (Some (p + 2)). split; [done|]. intros p' [= <-]. lia. }
  destruct (Z.eqb_spec b 0).
  { exists (Some (p + 1)). split; [done|]. intros p' [= <-]. lia. }
  destruct (Z.ltb_spec (zlen r) (p + 1 + b)); [by exists None|].
  destruct (IH (p + (1 + b))) as (o & -> & Ho); [lia|lia|]. exists o. split; [done|].
  intros p' Hp'. specialize (Ho p' Hp'). lia.
Qed.

Lemma skip_name_safe p n :
  0 <= p -> exists o, skip_name r p (zlen r) n = Some o
    /\ forall p', o = Some p' -> p < p' /\ p' + n <= zlen r.
Proof using Hr.
  intros Hp. unfold skip_name.
  destruct (SkipDnsName_safe (S (List.length r)) p Hp) as (o & -> & Ho); [unfold zlen; lia|].
  cbn [mbind option_bind]. eexists. split; [done|]. intros p'.
  destruct o as [q|]; [|done]. cbn. specialize (Ho q eq_refl).
  destruct (Z.ltb_spec (zlen r) (q + n)); [done|]. intros [= <-]. lia.
Qed.

Lemma skip_questions_safe n p :
  0 <= p -> exists o, skip_questions r n p (zlen r) = Some o /\ forall p', o = Some p' -> 0 <= p'.
Proof using Hr.
  revert p. induction n as [|n IH]; intros p Hp; cbn [skip_questions].
  { exists (Some p). split; [done|]. by intros p' [= <-]. }
  destruct (skip_name_safe p 4 Hp) as (o & -> & Ho). cbn [mbind option_bind].
  destruct o as [q|]; [|by exists None]. specialize (Ho q eq_refl). apply IH. lia.
Qed.

Lemma parse_answers_safe n p max_ips ips :
  0 <= p -> zlen ips <= max_ips ->
  exists o, parse_answers r n p (zlen r) max_ips ips = Some o
    /\ forall ips', o = Some ips' -> zlen ips' <= max_ips.
Proof using Hr.
  revert p ips. induction n as [|n IH]; intros p ips Hp Hips; cbn [parse_answers].
  { exists (Some ips). split; [done|]. by intros ips' [= <-]. }
  destruct (Z.ltb_spec (zlen ips) max_ips); cbn [negb].
  2: { exists (Some ips). split; [done|]. by intros ips' [= <-]. }
  destruct (skip_name_safe p 10 Hp) as (o & -> & Ho). cbn [mbind option_bind].
  destruct o as [q|]; [|by exists None]. specialize (Ho q eq_refl).
  destruct (at16_safe q) as (t & -> & _); [lia|lia|].
  destruct (at16_safe (q + 2)) as (c & -> & _); [lia|lia|].
  destruct (at16_safe (q + 8)) as (d & -> & Hd); [lia|lia|]. cbn [mbind option_bind].
  destruct (Z.ltb_spec (zlen r) (q + 10 + d)); [by exists None|].
  destruct ((t =? 1) && (c =? 1) && (d =? 4)) eqn:Ht.
  - apply andb_true_iff in Ht as [_ ->%Z.eqb_eq].
    destruct (at32_safe (q + 10)) as (ip & ->); [lia|lia|]. cbn [mbind option_bind].
    apply IH; [lia|]. rewrite zlen_app, zlen_cons. change (zlen (@nil Z)) with 0. lia.
  - cbn [mbind option_bind]. apply IH; lia.
Qed.

Lemma ParseDnsResponse_safe N max_ips :
  0 < EAI_AGAIN N -> 0 < EAI_NONAME N -> 0 < EAI_FAIL N ->
  exists rc ips, ParseDnsResponse N r max_ips = Some (rc, ips)
    /\ rc <> 0 /\ (0 < rc -> rc = zlen ips /\ zlen ips <= max_ips).
Proof using Hr.
  intros H1 H2 H3. unfold ParseDnsResponse.
  destruct (Z.ltb_spec (zlen r) 12); cbn [orb]; [exists (-1), []; split_and!; [done|lia|lia]|].
  destruct (Z.leb_spec max_ips 0); [exists (-1), []; split_and!; [done|lia|lia]|].
  destruct (at16_safe 2) as (f & -> & _); [lia|lia|]. cbn [mbind option_bind].
  repeat (match goal with |- context [if ?b then Some (?v, []) else _] =>
    destruct b; [exists v, []; split_and!; [done|lia|lia]|] end).
  destruct (at16_safe 6) as (an & -> & _); [lia|lia|]. cbn [mbind option_bind].
  destruct (an =? 0); [eexists _, []; split_and!; [done|lia|lia]|].
  destruct (at16_safe 4) as (qd & -> & _); [lia|lia|]. cbn [mbind option_bind].
  destruct (skip_questions_safe (Z.to_nat qd) 12) as (o & -> & Ho); [lia|]. cbn [mbind option_bind].
  destruct o as [p|]; [|exists (-1), []; split_and!; [done|lia|lia]]. specialize (Ho p eq_refl).
  destruct (parse_answers_safe (Z.to_nat an) p max_ips []) as (o & -> & Hips);
    [done|change (zlen (@nil Z)) with 0; lia|]. cbn [mbind option_bind].
  destruct o as [ips|]; [|exists (-1), []; split_and!; [done|lia|lia]]. specialize (Hips ips eq_refl).
  eexists _, ips. split; [done|]. destruct (Z.ltb_spec 0 (zlen ips)); split; lia.
Qed.
End any_bytes.

(** ** [getaddrinfo] *)

(** The errors of the platform are positive numbers. *)
Definition netdb_ok (N : Netdb) : Prop :=
  0 < EAI_AGAIN N /\ 0 < EAI_NONAME N /\ 0 < EAI_FAIL N /\ 0 < EAI_FAMILY N /\ 0 < EAI_MEMORY N.

(** What a call leaves: an error and no list, or a list that is not empty, of
    at most eight blocks, which are exactly the ones it has allocated. *)
Definition accounted (s : Dns) (rc : Z) (res : list addrinfo) (s' : Dns) : Prop :=
  (rc = 0 <-> res <> []) /\ zlen res <= 8 /\ live_blocks s' = live_blocks s + zlen res.

Section getaddrinfo.
Context (N : Netdb) (inet_pton : list Z -> option Z) (malloc : nat -> bool).

Lemma build_list_result i ips port hints head s :
  exists rc res s', build_list N malloc i ips port hints head s = Some ((rc, res), s')
    /\ s_next_query_id s' = s_next_query_id s /\ queries s' = queries s
    /\ ((rc = 0 /\ res = head ++ map (fun ip => fill_addrinfo N port (bswap32 ip) hints) ips
         /\ live_blocks s' = live_blocks s + zlen ips)
        \/ (rc = EAI_MEMORY N /\ res = [] /\ live_blocks s' = live_blocks s - zlen head
            /\ exists j, malloc j = false)).
Proof.
  revert i head s. induction ips as [|ip ips IH]; intros i head s; cbn [build_list].
  - exists 0, head, s. split_and!; try done. left. rewrite app_nil_r. split_and!; [done|done|].
    change (zlen (@nil Z)) with 0. lia.
  - destruct (malloc i) eqn:Hm; cbn [negb].
    + destruct (IH (S i) (head ++ [fill_addrinfo N port (bswap32 ip) hints])
        (s <| live_blocks := live_blocks s + 1 |>)) as (rc & res & s' & H & H1 & H2 & Hcase).
      exists rc, res, s'. split; [etrans; [eapply bind_some; reflexivity|exact H]|].
      split; [exact H1|]. split; [exact H2|].
      change (live_blocks (s <| live_blocks := live_blocks s + 1 |>)) with (live_blocks s + 1) in Hcase.
      rewrite !zlen_app, !zlen_cons in *. change (zlen (@nil addrinfo)) with 0 in *.
      destruct Hcase as [(-> & -> & ->)|(-> & -> & -> & Hj)].
      * left. rewrite <- app_assoc. split_and!; [done|done|lia].
      * right. split_and!; [done|done|lia|done].
    + exists (EAI_MEMORY N), [], (s <| live_blocks := live_blocks s - zlen head |>).
      split_and!; try done. right. split_and!; [done|done|done|by exists i].
Qed.

Lemma single_result_accounted port addr hints s :
  netdb_ok N ->
  exists rc res s', single_result N malloc port addr hints s = Some ((rc, res), s')
    /\ accounted s rc res s'.
Proof.
  intros HN. unfold single_result, accounted. destruct (malloc 0); cbn [negb].
  - eexists _, _, _. split; [reflexivity|]. by split_and!.
  - eexists _, [], s. split; [reflexivity|]. change (zlen (@nil addrinfo)) with 0.
    destruct HN as (_ & _ & _ & _ & HM). split_and!; [|lia|lia]. split; [lia|done].
Qed.

Lemma failed_accounted s s' (rc : Z) :
  rc <> 0 -> live_blocks s' = live_blocks s -> accounted s rc [] s'.
Proof.
  intros Hrc Hl. unfold accounted. change (zlen (@nil addrinfo)) with 0. rewrite Hl.
  split_and!; [split; [lia|done]|lia|lia].
Qed.

(** What a resolution gives. *)
Lemma ResolveHostnameDns_result hostname nw s :
  netdb_ok N -> (forall d, nw_recvfrom nw = Some d -> bytes_ok d = true) ->
  exists rc ips s', ResolveHostnameDns N hostname 8 nw s = Some ((rc, ips), s')
    /\ live_blocks s' = live_blocks s /\ rc <> 0 /\ (0 < rc -> rc = zlen ips /\ zlen ips <= 8).
Proof.
  intros (H1 & H2 & H3 & _) Hd. unfold ResolveHostnameDns. cbn [Z.leb Z.compare].
  assert (Hfail : forall rc s1, rc < 0 -> live_blocks s1 = live_blocks s ->
    exists rc' ips s', (failed rc : M Dns (Z * list Z)) s1 = Some ((rc', ips), s')
      /\ live_blocks s' = live_blocks s /\ rc' <> 0 /\ (0 < rc' -> rc' = zlen ips /\ zlen ips <= 8)).
  { intros rc s1 Hrc Hs. exists rc, [], s1. split_and!; [done|done|lia|lia]. }
  unfold mbind, M_bind, gets, modify. cbv beta iota.
  set (s1 := s <| s_next_query_id := u16 (s_next_query_id s + 1) |>).
  assert (live_blocks s1 = live_blocks s) as Hs1 by done.
  destruct (BuildDnsQuery hostname (s_next_query_id s) 512) as [query|]; [|by apply Hfail; [lia|]].
  destruct (nw_socket nw); cbn [negb]; [|by apply Hfail; [lia|]].
  destruct (nw_sendto nw); cbn [negb]; [|by apply Hfail; [lia|]].
  set (s2 := s1 <| queries := queries s1 ++ [(GetDnsServerIp nw, query)] |>).
  assert (live_blocks s2 = live_blocks s) as Hs2 by done.
  destruct (nw_recvfrom nw) as [d|] eqn:Ed; [|by apply (Hfail _ s2); [lia|]].
  destruct d as [|b d]; [by apply (Hfail _ s2); [lia|]|].
  destruct (ParseDnsResponse_safe (ztake 512 (b :: d)) (bytes_ok_take _ _ (Hd _ eq_refl)) N 8 H1 H2 H3)
    as (rc & ips & Hp & Hrc & Hips).
  exists rc, ips, s2. split; [|by split_and!].
  unfold mbind, option_bind in Hp |- *. fold s2. by rewrite Hp.
Qed.


(** C20: whatever arrives in answer to a query, and whichever allocations fail,
    [getaddrinfo] returns, reads no byte outside the datagram, and accounts for
    its memory: it reports an error and has freed everything, or it reports
    success with a list of one to eight entries, which are the blocks it has
    allocated. *)
Theorem getaddrinfo_any_reply node service hints nw s :
  netdb_ok N -> (forall d, nw_recvfrom nw = Some d -> bytes_ok d = true) ->
  exists rc res s', __wrap_getaddrinfo N inet_pton malloc node service hints nw s
                    = Some ((rc, res), s')
    /\ accounted s rc res s'.
Proof.
  intros HN Hd. pose proof HN as (H1 & H2 & H3 & H4 & H5). unfold __wrap_getaddrinfo.
  assert (Hfail : forall rc s1, rc <> 0 -> live_blocks s1 = live_blocks s ->
    exists rc' res s', (failed rc : M Dns (Z * list addrinfo)) s1 = Some ((rc', res), s')
      /\ accounted s rc' res s').
  { intros rc s1 Hrc Hs. exists rc, [], s1. split; [done|]. by apply failed_accounted. }
  destruct (bool_decide (node = None) && bool_decide (service = None)); [by apply Hfail; [lia|]|].
  destruct (negb _ && negb _); [by apply Hfail; [lia|]|].
  destruct node as [node|]; [|by apply single_result_accounted].
  destruct (inet_pton node) as [addr|]; [by apply single_result_accounted|].
  destruct (ResolveHostnameDns_result node nw s HN Hd) as (n & ips & s1 & H & Hlive & Hn & Hips).
  set (port := from_option _ 0 service).
  assert (Hbind : forall k : Z * list Z -> M Dns (Z * list addrinfo),
    (r ← ResolveHostnameDns N node 8 nw; k r) s = k (n, ips) s1) by (intros k; by eapply bind_some).
  rewrite Hbind. destruct (Z.leb_spec n 0).
  { apply Hfail; [|done]. destruct (Z.eqb_spec n 0); lia. }
  destruct Hips as [Hlen Hle]; [lia|]. rewrite ztake_all by lia.
  destruct (build_list_result 0 ips port hints [] s1) as (rc & res & s' & Hb & _ & _ & Hcase).
  exists rc, res, s'. split; [done|]. unfold accounted. rewrite <- Hlive.
  destruct Hcase as [(-> & -> & ->)|(-> & -> & -> & _)]; change (zlen (@nil addrinfo)) with 0.
  - cbn [app]. assert (zlen (map (fun ip => fill_addrinfo N port (bswap32 ip) hints) ips) = zlen ips) as ->
      by (unfold zlen; by rewrite length_map).
    split_and!; [|lia|lia]. split; [|done]. intros _ Hnil. apply map_eq_nil in Hnil. subst ips.
    change (zlen (@nil Z)) with 0 in Hlen. lia.
  - split_and!; [split; [lia|done]|lia|lia].
Qed.

Lemma atoi_fmt n : 0 <= n < 65536 -> atoi (fmt_u n) = n.
Proof.
  intros Hn. unfold atoi, fmt_u.
  destruct (decimal_spec 20 n ltac:(lia) ltac:(lia)) as (Hd & Hne & _ & Hv).
  destruct (decimal 20 n) as [|c k]; [done|]. cbn [forallb] in Hd.
  apply andb_true_iff in Hd as [Hc%is_digit_spec _].
  assert (is_space c = false) as Hsp.
  { unfold is_space. destruct (Z.eqb_spec c 32), (Z.leb_spec 9 c), (Z.leb_spec c 13); try done; lia. }
  cbn [drop_while]. rewrite Hsp. destruct (Z.eqb_spec c 45); [lia|]. destruct (Z.eqb_spec c 43); [lia|].
  exact Hv.
Qed.

(** C18: a host name is resolved: the server of the configuration is asked for
    it with the message of one question under the next id, and from an answer
    without an error - whatever its names, its other records and sections - the
    game's client gets its IPv4 addresses in order, at most eight, each with the
    port.  (The id of the answer, its question and its sender play no part.) *)
Theorem getaddrinfo_resolves ls port hints nw m s :
  ls <> [] -> forallb host_label_ok ls = true -> zlen (labels_bytes ls) + 1 <= 256 ->
  inet_pton (dotted ls) = None -> in_u 16 port = true -> in_u 16 (s_next_query_id s) = true ->
  from_option h_family (AF_UNSPEC N) hints = AF_UNSPEC N \/
  from_option h_family (AF_UNSPEC N) hints = AF_INET N ->
  nw_socket nw = true -> nw_sendto nw = true -> nw_recvfrom nw = Some (message_bytes m) ->
  zlen (message_bytes m) <= 512 -> message_ok m = true -> answers_ok m = true ->
  addresses m <> [] -> (forall i, malloc i = true) ->
  exists s',
    __wrap_getaddrinfo N inet_pton malloc (Some (dotted ls)) (Some (fmt_u port)) hints nw s
    = Some ((0, map (fun ip => fill_addrinfo N port (bswap32 ip) hints) (ztake 8 (addresses m))), s')
    /\ queries s' = queries s
         ++ [(GetDnsServerIp nw, message_bytes (query_message (s_next_query_id s) ls))]
    /\ s_next_query_id s' = u16 (s_next_query_id s + 1).
Proof.
  intros Hne Hls Hlen Hpton Hport Hid Hfam Hsock Hsend Hrecv H512 Hok Hans Haddr Hmalloc.
  assert (0 < zlen (ztake 8 (addresses m))) as Hpos.
  { destruct (addresses m) as [|a k]; [done|]. unfold ztake. change (Z.to_nat 8) with 8%nat.
    cbn [take]. rewrite zlen_cons. pose proof (zlen_nonneg (take 7 k)). lia. }
  set (s1 := s <| s_next_query_id := u16 (s_next_query_id s + 1) |>
               <| queries := queries s ++ [(GetDnsServerIp nw,
                    message_bytes (query_message (s_next_query_id s) ls))] |>).
  assert (ResolveHostnameDns N (dotted ls) 8 nw s
    = Some ((zlen (ztake 8 (addresses m)), ztake 8 (addresses m)), s1)) as H.
  { unfold ResolveHostnameDns. cbn [Z.leb Z.compare]. unfold mbind, M_bind, gets, modify. cbv beta iota.
    rewrite BuildDnsQuery_message by (try done; rewrite ?zlen_query; lia).
    rewrite Hsock, Hsend, Hrecv. cbn [negb].
    assert (m_answers m <> []) as Hm by (intros Hm; apply Haddr; unfold addresses; by rewrite Hm).
    destruct (message_bytes m) as [|b k] eqn:Hb.
    { exfalso. apply (f_equal zlen) in Hb. unfold message_bytes in Hb.
      rewrite !zlen_app, !zlen_be in Hb. change (zlen (@nil Z)) with 0 in Hb.
      pose proof (zlen_nonneg (concat (map question_bytes (m_questions m)))).
      pose proof (zlen_nonneg (concat (map record_bytes (m_answers m)))).
      pose proof (zlen_nonneg (m_rest m)). lia. }
    rewrite <- Hb in *. rewrite ztake_all by done.
    rewrite (ParseDnsResponse_message N m 8 Hok Hans Hm) by lia. cbv zeta.
    rewrite (proj2 (Z.ltb_lt _ _) Hpos). reflexivity. }
  unfold __wrap_getaddrinfo. rewrite !bool_decide_eq_false_2 by done. cbn [andb].
  assert (negb (from_option h_family (AF_UNSPEC N) hints =? AF_UNSPEC N)
          && negb (from_option h_family (AF_UNSPEC N) hints =? AF_INET N) = false) as ->.
  { destruct Hfam as [-> | ->]; rewrite Z.eqb_refl; [done|]. by rewrite andb_false_r. }
  apply in_u_spec in Hport. cbn [from_option]. rewrite atoi_fmt by done. rewrite Hpton.
  replace (u16 port) with port by (symmetry; by apply Z.mod_small).
  destruct (build_list_result 0 (ztake 8 (addresses m)) port hints [] s1)
    as (rc & res & s' & Hb & Hq & Hid' & Hcase).
  destruct Hcase as [(-> & -> & _)|(_ & _ & _ & j & Hj)]; [|by rewrite Hmalloc in Hj].
  exists s'. split; [|by split].
  etrans; [eapply bind_some; exact H|]. cbv beta iota.
  destruct (Z.leb_spec (zlen (ztake 8 (addresses m))) 0); [lia|].
  rewrite (ztake_all _ (ztake 8 _)) by lia. exact Hb.
Qed.
End getaddrinfo.

(** ** An exchange *)

Definition sample_netdb : Netdb := {|
  EAI_NONAME := 8; EAI_AGAIN := 2; EAI_FAIL := 4; EAI_FAMILY := 5; EAI_MEMORY := 6;
  EAI_SYSTEM := 11; EAI_OVERFLOW := 14; AF_UNSPEC := 0; AF_INET := 2; AI_PASSIVE := 1 |}.
Definition no_literal (text : list Z) : option Z := None.
Definition always (i : nat) : bool := true.
(** The second allocation fails. *)
Definition only_one (i : nat) : bool := (i =? 0)%nat.
Definition new_Dns : Dns := {| s_next_query_id := 0x1234; live_blocks := 0; queries := [] |}.
Definition server_labels : list (list Z) := map str ["ldn"; "ryujinx"; "app"]%string.
Definition at_12 : name := {| labels := []; pointer := Some 12 |}.

(** An alias and two addresses, with another id than the query's. *)
Definition sample_answer : message := {|
  m_id := 0xBEEF; m_flags := 0x8180;
  m_questions := m_questions (query_message 0 server_labels);
  m_answers := [
    {| r_name := at_12; r_type := 5; r_class := 1; r_ttl := 300;
       r_data := name_bytes {| labels := [str "lb"]; pointer := Some 12 |} |};
    {| r_name := at_12; r_type := 1; r_class := 1; r_ttl := 60; r_data := [10; 0; 0; 7] |};
    {| r_name := at_12; r_type := 1; r_class := 1; r_ttl := 60; r_data := [10; 0; 0; 8] |}];
  m_counts := (0, 0); m_rest := [] |}.

Definition sample_network (datagram : list Z) : Network := {|
  nw_config := Some (0x0101A8C0, 0); nw_socket := true; nw_sendto := true;
  nw_recvfrom := Some datagram |}.

Lemma getaddrinfo_any_reply_witness :
  exists rc res s',
    __wrap_getaddrinfo sample_netdb no_literal only_one (Some (dotted server_labels)) None None
      (sample_network (message_bytes sample_answer)) new_Dns = Some ((rc, res), s')
    /\ accounted new_Dns rc res s'.
Proof.
  apply (getaddrinfo_any_reply sample_netdb no_literal only_one (Some (dotted server_labels)) None None
    (sample_network (message_bytes sample_answer)) new_Dns).
  - repeat split.
  - intros d [= <-]. vm_compute. reflexivity.
Defined.

Lemma getaddrinfo_resolves_witness :
  exists s',
    __wrap_getaddrinfo sample_netdb no_literal always (Some (dotted server_labels))
      (Some (fmt_u 30456)) None (sample_network (message_bytes sample_answer)) new_Dns
    = Some ((0, map (fun ip => fill_addrinfo sample_netdb 30456 (bswap32 ip) None)
                  [0x0A000007; 0x0A000008]), s')
    /\ queries s' = [(0x0101A8C0, message_bytes (query_message 0x1234 server_labels))].
Proof.
  destruct (getaddrinfo_resolves sample_netdb no_literal always server_labels 30456 None
    (sample_network (message_bytes sample_answer)) sample_answer new_Dns) as (s' & H & Hq & _).
  - discriminate.
  - vm_compute. reflexivity.
  - vm_compute. discriminate.
  - reflexivity.
  - reflexivity.
  - reflexivity.
  - left. reflexivity.
  - reflexivity.
  - reflexivity.
  - reflexivity.
  - vm_compute. discriminate.
  - vm_compute. reflexivity.
  - vm_compute. reflexivity.
  - vm_compute. discriminate.
  - reflexivity.
  - exists s'. split; [exact H|exact Hq].
Defined.
