(* ===== verification/UpnpPortMapper.v ===== *)
(** * The UPnP port mapper ([p2p/upnp_port_mapper.{hpp,cpp}]) and the lease of a
      mapping ([LeaseRenewalLoop] in [p2p/p2p_proxy_server.cpp])

    The mapper drives the miniupnpc library.  What a discovery finds is an
    argument; what the router answers is the parameter [router], a function of
    the calls made before, the time and the call, whose results are the codes of
    the library (0 is success).  The state logs the calls with their times and
    answers, and counts the blocks of URLs the library has handed out.
    [nifm] is the address of the network configuration, as it is stored. *)

From stdpp Require Import base numbers list.
From Stdlib Require Import ZArith Lia Bool Ascii String.
From S2P Require Import Prelude Imperative Config.

Definition P2P_PORT_BASE : Z := 39990.
Definition P2P_PORT_RANGE : nat := 10.
Definition PORT_LEASE_DURATION : Z := 60.
Definition PORT_LEASE_RENEW : Z := 50.

(** ** State *)

Record Mapping : Type := {
  mp_external : list Z; mp_internal : list Z; mp_client : list Z; mp_description : list Z;
  mp_lease : list Z
}.

(** The calls of the library that reach the router, with the URL and the
    service type they use; the protocol is TCP and the remote host any. *)
Inductive RouterCall : Type :=
| AddMapping (url servicetype : list Z) (m : Mapping)
| DeleteMapping (url servicetype external_port : list Z)
| ExternalIPAddress (url servicetype : list Z).

Record Logged : Type := { lg_time : Z; lg_call : RouterCall; lg_answer : Z }.

Record UpnpPortMapper : Type := {
  m_allocated : bool;                      (** [m_urls] and [m_data] are not null *)
  m_control_url : option (list Z);         (** [m_urls->controlURL] *)
  m_servicetype : list Z;                  (** [m_data->first.servicetype] *)
  m_lan_addr : list Z;
  m_available : bool;
  url_blocks : Z;
  calls : list Logged
}.
#[export] Instance UpnpPortMapper_eta : Eta UpnpPortMapper := fun u =>
  Build_UpnpPortMapper (m_allocated u) (m_control_url u) (m_servicetype u) (m_lan_addr u)
    (m_available u) (url_blocks u) (calls u).

Definition new_UpnpPortMapper : UpnpPortMapper := {|
  m_allocated := true; m_control_url := None; m_servicetype := []; m_lan_addr := [];
  m_available := false; url_blocks := 0; calls := [] |}.

(** What [UPNP_GetValidIGD] returns and writes; [None] for an empty list of
    devices. *)
Record Igd : Type := {
  ig_result : Z; ig_url : option (list Z); ig_servicetype : list Z; ig_lan : list Z
}.

(** [FreeUPNPUrls(m_urls)] and clearing the structure. *)
Definition free_urls (u : UpnpPortMapper) : UpnpPortMapper :=
  u <| m_control_url := None |> <| url_blocks := url_blocks u - 1 |>.

Definition Discover (found : option Igd) (u : UpnpPortMapper) : bool * UpnpPortMapper :=
  if m_available u then (true, u)
  else if negb (m_allocated u) then (false, u)
  else
    let u := if bool_decide (m_control_url u = None) then u
             else free_urls u <| m_servicetype := [] |> in
    match found with
    | None => (false, u)
    | Some igd =>
        let u := u <| m_control_url := ig_url igd |> <| m_servicetype := ig_servicetype igd |>
                   <| m_lan_addr := ig_lan igd |>
                   <| url_blocks := url_blocks u + (if ig_url igd then 1 else 0) |> in
        if (ig_result igd =? 1) || (ig_result igd =? 2)
        then (true, u <| m_available := true |>) else (false, u)
    end.

Definition IsAvailable (u : UpnpPortMapper) : bool := m_available u.

Definition Cleanup (u : UpnpPortMapper) : UpnpPortMapper :=
  let u := if m_allocated u && negb (bool_decide (m_control_url u = None)) then free_urls u else u in
  let u := if m_allocated u then u <| m_servicetype := [] |> else u in
  u <| m_lan_addr := [] |> <| m_available := false |>.

Definition UpnpPortMapper_delete (u : UpnpPortMapper) : UpnpPortMapper :=
  Cleanup u <| m_allocated := false |>.

(** [%d] of an [int] *)
Definition fmt_d (n : Z) : list Z := if n <? 0 then 45 :: fmt_u (- n) else fmt_u n.

Section mapper.
Context (router : list Logged -> Z -> RouterCall -> Z).

Definition ask (now_ms : Z) (c : RouterCall) (u : UpnpPortMapper) : Z * UpnpPortMapper :=
  let answer := router (calls u) now_ms c in
  (answer, u <| calls := calls u ++ [{| lg_time := now_ms; lg_call := c; lg_answer := answer |}] |>).

(** The control URL of an available router. *)
Definition router_url (u : UpnpPortMapper) : option (list Z) :=
  if m_available u then m_control_url u else None.

Definition AddPortMapping (internal_port external_port : Z) (description : list Z)
    (lease_duration now_ms : Z) (u : UpnpPortMapper) : bool * UpnpPortMapper :=
  match router_url u with
  | None => (false, u)
  | Some url =>
      let (result, u) := ask now_ms (AddMapping url (m_servicetype u) {|
        mp_external := fmt_u external_port; mp_internal := fmt_u internal_port;
        mp_client := m_lan_addr u; mp_description := description;
        mp_lease := fmt_d lease_duration |}) u in
      (result =? 0, u)
  end.

Definition DeletePortMapping (external_port now_ms : Z) (u : UpnpPortMapper)
    : bool * UpnpPortMapper :=
  match router_url u with
  | None => (false, u)
  | Some url =>
      let (result, u) := ask now_ms (DeleteMapping url (m_servicetype u) (fmt_u external_port)) u in
      ((result =? 0) || (result =? 714), u)
  end.

Definition RefreshPortMapping (internal_port external_port : Z) (description : list Z) (now_ms : Z)
    (u : UpnpPortMapper) : bool * UpnpPortMapper :=
  AddPortMapping internal_port external_port description PORT_LEASE_DURATION now_ms u.

(** What is left in a buffer of [ip_len] bytes; [external_ip] is what the library
    writes.  [None] is the result [false]. *)
Definition GetExternalIPAddress (ip_len : Z) (external_ip : list Z) (now_ms : Z)
    (u : UpnpPortMapper) : option (list Z) * UpnpPortMapper :=
  match router_url u with
  | None => (None, u)
  | Some url =>
      if ip_len =? 0 then (None, u)
      else
        let (result, u) := ask now_ms (ExternalIPAddress url (m_servicetype u)) u in
        (if negb (result =? 0) then None else Some (ztake (ip_len - 1) external_ip), u)
  end.

Definition GetLocalIPAddress (ip_len : Z) (u : UpnpPortMapper) : option (list Z) :=
  if negb (m_available u) || (ip_len =? 0) then None else Some (ztake (ip_len - 1) (m_lan_addr u)).

(** ** The local address *)

Definition GetLocalIPv4Nifm (nifm : option Z) : Z := from_option bswap32 0 nifm.

(** One [%u] of [std::sscanf]: the value, and what is behind it. *)
Definition scan_u (s : list Z) : option (Z * list Z) :=
  let body := drop_while is_space s in
  let digits := match body with
                | c :: body' => if (c =? 45) || (c =? 43) then body' else body
                | [] => []
                end in
  if is_digit (default 0 (head digits))
  then Some (u32 (strtoul10 s), drop_while is_digit digits) else None.

Definition scan_dot (s : list Z) : option (list Z) :=
  match s with c :: s => if c =? 46 then Some s else None | [] => None end.

(** [std::sscanf(s, "%u.%u.%u.%u", ...) == 4] *)
Definition scan_quad (s : list Z) : option (Z * Z * Z * Z) :=
  '(a, s) ← scan_u s; s ← scan_dot s;
  '(b, s) ← scan_u s; s ← scan_dot s;
  '(c, s) ← scan_u s; s ← scan_dot s;
  '(d, _) ← scan_u s;
  Some (a, b, c, d).

Definition GetLocalIPv4 (nifm : option Z) (u : UpnpPortMapper) : Z :=
  if negb (m_available u) || bool_decide (m_lan_addr u = []) then GetLocalIPv4Nifm nifm
  else match scan_quad (m_lan_addr u) with
       | None => GetLocalIPv4Nifm nifm
       | Some (a, b, c, d) =>
           if (255 <? a) || (255 <? b) || (255 <? c) || (255 <? d) then GetLocalIPv4Nifm nifm
           else Z.lor (Z.lor (Z.lor (Z.shiftl a 24) (Z.shiftl b 16)) (Z.shiftl c 8)) d
       end.

(** ** The lease *)

(** One slice of the wait: how long the sleep takes.  If it is the last one of an
    interval the mapping is renewed behind it: after [sl_router_ms] more the
    router has handled the request, after [sl_call_ms] the call returns. *)
Record Slice : Type := { sl_ms : Z; sl_router_ms : Z; sl_call_ms : Z }.

Definition ChunkMs : Z := 250.
Definition total_ms : Z := PORT_LEASE_RENEW * 1000.
Definition DESCRIPTION : list Z := str "ryu_ldn_nx P2P".

Section loop.
Context (m_lease_thread_running m_disposed : Z -> bool).   (** the flags, over time *)

(** The two loops, at the test of the inner one, which is that of the outer one
    when [waited] is 0; whether the thread has ended, and the time.  The list is
    what is looked at: where it ends the thread is in a sleep. *)
Fixpoint lease_loop (private_port public_port : Z) (slices : list Slice) (waited now_ms : Z)
    (u : UpnpPortMapper) : bool * Z * UpnpPortMapper :=
  if negb (m_lease_thread_running now_ms) || m_disposed now_ms then (true, now_ms, u)
  else match slices with
  | [] => (false, now_ms, u)
  | sl :: slices =>
      let now_ms := now_ms + sl_ms sl in
      let waited := waited + ChunkMs in
      if waited <? total_ms then lease_loop private_port public_port slices waited now_ms u
      else if negb (m_lease_thread_running now_ms) || m_disposed now_ms then (true, now_ms, u)
      else
        let (_, u) := RefreshPortMapping private_port public_port DESCRIPTION
                        (now_ms + sl_router_ms sl) u in
        lease_loop private_port public_port slices 0 (now_ms + sl_call_ms sl) u
  end.

Definition LeaseRenewalLoop (private_port public_port : Z) (slices : list Slice) (now_ms : Z)
    (u : UpnpPortMapper) : bool * Z * UpnpPortMapper :=
  lease_loop private_port public_port slices 0 now_ms u.
End loop.
End mapper.

(** ** What the theorems are about *)

(** A lease the router has granted for a public port, to this console's address
    and the server's port, that covers the time [t]. *)
Definition covers (private_port public_port : Z) (client : list Z) (t : Z) (l : Logged) : Prop :=
  lg_answer l = 0 /\ lg_time l <= t < lg_time l + 1000 * PORT_LEASE_DURATION
  /\ exists url servicetype,
       lg_call l = AddMapping url servicetype {|
         mp_external := fmt_u public_port; mp_internal := fmt_u private_port; mp_client := client;
         mp_description := DESCRIPTION; mp_lease := fmt_d PORT_LEASE_DURATION |}.
Definition mapped (private_port public_port : Z) (t : Z) (u : UpnpPortMapper) : Prop :=
  exists l, l ∈ calls u /\ covers private_port public_port (m_lan_addr u) t l.

(** A sleep of at most [sleep_ms], and a call of at most [call_ms]. *)
Definition within (sleep_ms call_ms : Z) (sl : Slice) : bool :=
  (0 <=? sl_ms sl) && (sl_ms sl <=? sleep_ms) && (0 <=? sl_router_ms sl)
  && (sl_router_ms sl <=? sl_call_ms sl) && (sl_call_ms sl <=? call_ms).

(** A router that grants what it is asked for this port. *)
Definition grants (router : list Logged -> Z -> RouterCall -> Z) (public_port : Z) : Prop :=
  forall log now url servicetype m,
    mp_external m = fmt_u public_port -> router log now (AddMapping url servicetype m) = 0.

(** The blocks of URLs that the mapper holds. *)
Definition urls_accounted (u : UpnpPortMapper) : Prop :=
  url_blocks u = if m_control_url u then 1 else 0.

(** The textual form of an address. *)
Definition quad_text (a b c d : Z) : list Z :=
  fmt_u a ++ 46 :: fmt_u b ++ 46 :: fmt_u c ++ 46 :: fmt_u d.

(** ** Lemmas *)

Lemma Discover_accounted found u :
  urls_accounted u -> m_allocated u = true -> urls_accounted (Discover found u).2.
Proof.
  unfold urls_accounted, Discover. intros Hu Ha. rewrite Ha. cbn [negb].
  destruct (m_available u); [done|]. destruct (m_control_url u) as [url|] eqn:Hurl.
  - rewrite bool_decide_eq_false_2 by done.
    destruct found as [igd|]; [|cbn; lia].
    destruct ((ig_result igd =? 1) || (ig_result igd =? 2)), (ig_url igd); cbn; lia.
  - rewrite bool_decide_eq_true_2 by done. destruct found as [igd|]; [|cbn; by rewrite Hurl].
    destruct ((ig_result igd =? 1) || (ig_result igd =? 2)), (ig_url igd); cbn; lia.
Qed.

Lemma Cleanup_accounted u :
  urls_accounted u -> m_allocated u = true -> url_blocks (Cleanup u) = 0 /\ m_control_url (Cleanup u) = None.
Proof.
  unfold urls_accounted, Cleanup. intros Hu Ha. rewrite Ha. cbn [andb].
  destruct (m_control_url u) as [url|] eqn:Hurl.
  - rewrite bool_decide_eq_false_2 by done. cbn [negb].
    change (m_allocated (free_urls u)) with (m_allocated u). rewrite Ha. cbn. split; [lia|done].
  - rewrite bool_decide_eq_true_2 by done. cbn [negb]. rewrite Ha. cbn. by split.
Qed.

(** A granted request covers the next minute and keeps what is covered. *)
Lemma AddPortMapping_granted router private public now u url :
  grants router public -> router_url u = Some url ->
  exists u', AddPortMapping router private public DESCRIPTION PORT_LEASE_DURATION now u = (true, u')
    /\ router_url u' = Some url /\ m_lan_addr u' = m_lan_addr u
    /\ (forall t, mapped private public t u -> mapped private public t u')
    /\ (forall t, now <= t < now + 60000 -> mapped private public t u').
Proof.
  intros Hg Hu. unfold AddPortMapping. rewrite Hu. unfold ask. rewrite Hg by done. cbn [Z.eqb].
  eexists. split; [reflexivity|]. split; [exact Hu|]. split; [done|]. split.
  - intros t (l & Hl & Hc). exists l. split; [|exact Hc]. apply elem_of_app. by left.
  - intros t Ht. eexists. split; [apply elem_of_app; right; by apply list_elem_of_singleton|].
    split; [done|]. split; [exact Ht|]. by eexists _, _.
Qed.

(** The loop, [k] slices after an interval that began at most [late] behind the
    lease of [start]. *)
Lemma lease_loop_mapped router running disposed private public sleep_ms call_ms late slices
    k start now u url ended now' u' :
  grants router public -> forallb (within sleep_ms call_ms) slices = true -> router_url u = Some url ->
  0 <= k < 200 -> 0 <= sleep_ms -> 0 <= call_ms <= late -> late + 200 * sleep_ms + call_ms < 60000 ->
  start <= now <= start + late + sleep_ms * k ->
  (forall t, start <= t < start + 60000 -> mapped private public t u) ->
  lease_loop router running disposed private public slices (250 * k) now u = (ended, now', u') ->
  now <= now' /\ (forall t, mapped private public t u -> mapped private public t u')
  /\ forall t, start <= t <= now' -> mapped private public t u'.
Proof.
  intros Hg. revert k start now u.
  induction slices as [|sl slices IH]; intros k start now u Hp Hu Hk Hsl Hlate Hsum Hnow Hm H;
    cbn [lease_loop] in H; (destruct (negb (running now) || disposed now);
    [simplify_eq; split; [lia|]; split; [done|]; intros t Ht; apply Hm; nia|]).
  { simplify_eq. split; [lia|]. split; [done|]. intros t Ht. apply Hm. nia. }
  cbn in Hp. apply andb_true_iff in Hp as [Hw Hp]. unfold within in Hw. zbool.
  replace (250 * k + ChunkMs) with (250 * (k + 1)) in H by (unfold ChunkMs; lia).
  destruct (Z.ltb_spec (250 * (k + 1)) total_ms) as [Hgo|Hend]; unfold total_ms, PORT_LEASE_RENEW in *.
  - destruct (IH (k + 1) start (now + sl_ms sl) u Hp Hu) as (Hle & Hkeep & Hall);
      [lia|lia|lia|lia|nia|exact Hm|exact H|].
    split; [lia|]. split; [done|]. exact Hall.
  - assert (k = 199) as -> by lia.
    destruct (negb (running _) || disposed _).
    { simplify_eq. split; [lia|]. split; [done|]. intros t Ht. apply Hm. lia. }
    unfold RefreshPortMapping in H. set (granted := now + sl_ms sl + sl_router_ms sl) in *.
    destruct (AddPortMapping_granted router private public granted u url Hg Hu)
      as (u1 & E & Hu1 & _ & Hkeep & Hnew). rewrite E in H.
    destruct (IH 0 granted (now + sl_ms sl + sl_call_ms sl) u1 Hp Hu1) as (Hle & Hkeep' & Hall);
      [lia|lia|lia|lia|lia|exact Hnew|exact H|].
    split; [lia|]. split; [auto|]. intros t Ht.
    destruct (Z.le_gt_cases granted t); [apply Hall; lia|].
    apply Hkeep', Hkeep, Hm. lia.
Qed.

(** C25: a mapped port stays mapped.  Let the router have granted the lease of 60
    seconds for the public port, and keep granting it.  If the time from there to
    the start of the renewal thread, the 200 sleeps of an interval and one round
    trip to the router are together below a minute - with [late], [sleep_ms] and
    [call_ms] as the longest of each, [late] being at least a round trip -, then
    at every moment until the thread ends or is looked at some lease of the
    router covers the port, for the server's port at this console's address,
    however many intervals that is. *)
Theorem lease_never_expires router running disposed private public sleep_ms call_ms late slices
    start now u u1 ended now' u' :
  grants router public -> is_Some (router_url u) ->
  0 <= sleep_ms -> 0 <= call_ms <= late -> late + 200 * sleep_ms + call_ms < 60000 ->
  forallb (within sleep_ms call_ms) slices = true ->
  AddPortMapping router private public DESCRIPTION PORT_LEASE_DURATION start u = (true, u1) ->
  start <= now <= start + late ->
  LeaseRenewalLoop router running disposed private public slices now u1 = (ended, now', u') ->
  forall t, start <= t <= now' -> mapped private public t u'.
Proof.
  intros Hg [url Hu] Hsl Hlate Hsum Hp Hadd Hnow H.
  destruct (AddPortMapping_granted router private public start u url Hg Hu)
    as (u2 & E & Hu2 & _ & _ & Hm).
  rewrite E in Hadd. injection Hadd as ->. unfold LeaseRenewalLoop in H.
  change 0 with (250 * 0) in H.
  by destruct (lease_loop_mapped router running disposed private public sleep_ms call_ms late slices
    0 start now u1 url ended now' u' Hg Hp Hu2) as (_ & _ & Hall);
    [lia|lia|lia|lia|lia|exact Hm|exact H|].
Qed.

(** [GetLocalIPv4] reads the text of an address. *)
Lemma digits_value_rest acc l k :
  forallb is_digit l = true -> is_digit (default 0 (head k)) = false ->
  digits_value acc (l ++ k) = digits_value acc l.
Proof.
  intros Hl Hk. rewrite digits_value_app by done. destruct k as [|c k]; [done|].
  cbn in Hk |- *. by rewrite Hk.
Qed.

Lemma drop_digits l k :
  forallb is_digit l = true -> is_digit (default 0 (head k)) = false ->
  drop_while is_digit (l ++ k) = k.
Proof.
  intros Hl Hk. induction l as [|c l IH].
  - destruct k as [|c k]; [done|]. cbn in Hk |- *. by rewrite Hk.
  - cbn in Hl. apply andb_true_iff in Hl as [Hc Hl]. cbn. rewrite Hc. by apply IH.
Qed.

Lemma scan_fmt n k :
  in_u 32 n = true -> is_digit (default 0 (head k)) = false -> scan_u (fmt_u n ++ k) = Some (n, k).
Proof.
  intros Hn Hk. pose proof Hn as Hr%in_u_spec. change (2 ^ 32) with 4294967296 in Hr.
  unfold fmt_u. destruct (decimal_spec 20 n ltac:(lia) ltac:(lia)) as (Hd & Hne & _ & Hv).
  destruct (decimal 20 n) as [|c l] eqn:E; [done|]. pose proof Hd as Hd'.
  cbn [forallb] in Hd. apply andb_true_iff in Hd as [Hc Hl]. pose proof Hc as Hcr%is_digit_spec.
  assert (is_space c = false) as Hsp.
  { unfold is_space. destruct (Z.eqb_spec c 32), (Z.leb_spec 9 c), (Z.leb_spec c 13); try done; lia. }
  unfold scan_u, strtoul10. cbn [app drop_while]. rewrite Hsp.
  destruct (Z.eqb_spec c 45); [lia|]. destruct (Z.eqb_spec c 43); [lia|].
  cbn [orb head default from_option]. change (id c) with c. rewrite Hc.
  change (c :: l ++ k) with ((c :: l) ++ k). rewrite drop_digits by done.
  rewrite digits_value_rest by done. rewrite Hv. unfold ULONG_MAX.
  destruct (Z.ltb_spec 18446744073709551615 n); [lia|]. do 2 f_equal. by apply Z.mod_small.
Qed.

Lemma scan_quad_text a b c d :
  in_u 32 a = true -> in_u 32 b = true -> in_u 32 c = true -> in_u 32 d = true ->
  scan_quad (quad_text a b c d) = Some (a, b, c, d).
Proof.
  intros Ha Hb Hc Hd. unfold scan_quad, quad_text.
  do 3 (rewrite scan_fmt by done; cbn [mbind option_bind scan_dot Z.eqb Pos.eqb]).
  rewrite <- (app_nil_r (fmt_u d)). by rewrite scan_fmt.
Qed.

(** The address of the discovery, in host order. *)
Lemma GetLocalIPv4_quad nifm u a b c d :
  m_available u = true -> m_lan_addr u = quad_text a b c d ->
  byte_ok a = true -> byte_ok b = true -> byte_ok c = true -> byte_ok d = true ->
  GetLocalIPv4 nifm u = a * 2 ^ 24 + b * 2 ^ 16 + c * 2 ^ 8 + d.
Proof.
  intros Hav Hlan Ha%byte_ok_spec Hb%byte_ok_spec Hc%byte_ok_spec Hd%byte_ok_spec.
  assert (H32 : forall z, 0 <= z < 256 -> in_u 32 z = true)
    by (intros z Hz; apply in_u_spec; change (2 ^ 32) with 4294967296; lia).
  unfold GetLocalIPv4. rewrite Hav, Hlan, scan_quad_text by auto.
  rewrite bool_decide_eq_false_2.
  2: { unfold quad_text. intros H. by apply (f_equal zlen) in H; rewrite zlen_app, zlen_cons in H;
       pose proof (zlen_nonneg (fmt_u a));
       match type of H with context [1 + zlen ?k] => pose proof (zlen_nonneg k) end;
       change (zlen (@nil Z)) with 0 in H; lia. }
  cbn [negb orb].
  repeat (match goal with |- context [255 <? ?z] => destruct (Z.ltb_spec 255 z); [lia|] end).
  cbn [orb]. rewrite <- !Z.lor_assoc. rewrite (lor_shiftl c d), (lor_shiftl b), (lor_shiftl a) by lia.
  lia.
Qed.

(** ** A router *)

Definition granting (log : list Logged) (now : Z) (c : RouterCall) : Z := 0.
Definition home_igd : Igd := {|
  ig_result := 1; ig_url := Some (str "http://192.168.1.1/ctl"); ig_servicetype := str "WANIPConnection";
  ig_lan := quad_text 192 168 1 20 |}.
Definition home_mapper : UpnpPortMapper := (Discover (Some home_igd) new_UpnpPortMapper).2.
(** Two intervals, every sleep 20 ms late, the renewals taking two seconds. *)
Definition late_slices : list Slice := repeat {| sl_ms := 270; sl_router_ms := 1500; sl_call_ms := 2000 |} 400.
Definition always (_ : Z) : bool := true.
Definition never (_ : Z) : bool := false.
Definition home_leased : UpnpPortMapper :=
  (AddPortMapping granting 30000 39990 DESCRIPTION PORT_LEASE_DURATION 1000 home_mapper).2.

Lemma lease_never_expires_witness :
  let '(_, now', u') :=
    LeaseRenewalLoop granting always never 30000 39990 late_slices 3100 home_leased in
  now' = 115100 /\ mapped 30000 39990 60500 u' /\ mapped 30000 39990 115100 u'.
Proof.
  destruct (LeaseRenewalLoop granting always never 30000 39990 late_slices 3100 home_leased)
    as [[ended now'] u'] eqn:E.
  assert (now' = 115100) as ->.
  { apply (f_equal (fun r => r.1.2)) in E. cbn [fst snd] in E. rewrite <- E. vm_compute. reflexivity. }
  split; [reflexivity|].
  pose proof (lease_never_expires granting always never 30000 39990 270 2000 2500 late_slices
    1000 3100 home_mapper home_leased ended 115100 u') as H.
  split; apply H; try lia; try exact E; try reflexivity;
    try (intros log now url servicetype m _; reflexivity);
    try (exists (str "http://192.168.1.1/ctl"); reflexivity).
Defined.
