(* ===== verification/LdnMitm.v ===== *)
(** * Which sessions are intercepted ([ldn/ldn_mitm_service.{hpp,cpp}] and
      [ShouldMitm] of [bsd/bsd_mitm_service.cpp])

    The wireless service decides about a process without memory and notes the
    process of its latest session in the shared state; the socket service reads
    that, and counts the sessions of a process.  The theorem says what those
    counters amount to, over the history of all processes. *)

From stdpp Require Import base numbers list gmap.
From Stdlib Require Import ZArith Lia Bool.
From S2P Require Import Prelude Imperative BsdService.
From S2P Require SharedState GameWhitelist BsdForward.
Import SharedState (SharedState).

(** ** The wireless service *)

Record LdnMitMService : Type := { m_program_id : Z; m_client_pid : Z }.

(** The constructor, on the shared state. *)
Definition LdnMitMService_new (pid program_id : Z) (s : SharedState)
    : LdnMitMService * SharedState :=
  ({| m_program_id := program_id; m_client_pid := pid |}, SharedState.SetLdnPid pid s).

Definition ShouldMitm (program_id : Z) : bool :=
  if program_id <? 0x0100000000000000 then false
  else if program_id =? 0x010028600ebda000 then false
  else true.

(** ** Histories *)

(** A process opens a session of the wireless service, or of the sockets; the
    communication service of a process is initialised, or finalised. *)
Inductive Event : Type :=
| OpenLdn (pid program_id : Z)
| EnterLdn (pid : Z)
| LeaveLdn
| OpenBsd (pid program_id : Z).

(** What the services do about it (of the communication service, what
    [LdnOperations.Initialize] and the finalisation do to the shared process);
    the answer of a socket session. *)
Definition handle (e : Event) (s : Bsd) : option (list bool * Bsd) :=
  match e with
  | OpenLdn pid program_id =>
      Some ([], if ShouldMitm program_id
                then s <| shared_state := (LdnMitMService_new pid program_id (shared_state s)).2 |>
                else s)
  | EnterLdn pid => Some ([], s <| shared_state := SharedState.SetLdnPid pid
                                     (SharedState.SetGameActive true pid (shared_state s)) |>)
  | LeaveLdn => Some ([], s <| shared_state := SharedState.SetLdnPid 0
                                 (SharedState.SetGameActive false 0 (shared_state s)) |>)
  | OpenBsd pid program_id =>
      '(intercept, s) ← BsdService.ShouldMitm pid program_id s; Some ([intercept], s)
  end.

Fixpoint handle_all (es : list Event) (s : Bsd) : option (list bool * Bsd) :=
  match es with
  | [] => Some ([], s)
  | e :: es => '(a, s) ← handle e s; '(l, s) ← handle_all es s; Some (a ++ l, s)
  end.

(** ** The reference *)

(** Whether the sockets of a process are of interest at all, when [ldn_pid] is
    the process that uses the wireless service (0 for none): it is that one, or
    there is none and the game is on the list. *)
Definition eligible (wl : GameWhitelist.Whitelist) (ldn_pid pid program_id : Z) : bool :=
  (0x0100000000000000 <=? program_id) && negb (program_id =? OUR_PROGRAM_ID)
  && negb (program_id =? ALBUM_PROGRAM_ID)
  && (if ldn_pid =? 0 then GameWhitelist.IsGameInWhitelist program_id wl else pid =? ldn_pid).

(** The program each process had when it opened its last eligible session. *)
Fixpoint reference (wl : GameWhitelist.Whitelist) (es : list Event) (ldn_pid : Z) (last : gmap Z Z)
    : list bool :=
  match es with
  | [] => []
  | OpenLdn pid program_id :: es =>
      reference wl es (if ShouldMitm program_id then pid else ldn_pid) last
  | EnterLdn pid :: es => reference wl es pid last
  | LeaveLdn :: es => reference wl es 0 last
  | OpenBsd pid program_id :: es =>
      if eligible wl ldn_pid pid program_id
      then bool_decide (last !! pid = Some program_id)
           :: reference wl es ldn_pid (<[pid := program_id]> last)
      else false :: reference wl es ldn_pid last
  end.

(** ** Lemmas *)

(** The tables say what the last eligible program was; at most [n] sessions
    have been counted. *)
Record counts (n : Z) (last : gmap Z Z) (s : Bsd) : Prop := {
  ct_programs : s_pid_program_ids s = last;
  ct_nonzero : forall pid g, last !! pid = Some g -> g <> 0;
  ct_counts : forall pid, match g_mitm_pid_count s !! pid with
                          | Some c => is_Some (last !! pid) /\ 1 <= c <= n
                          | None => last !! pid = None
                          end
}.

Lemma ShouldMitm_ineligible pid g s :
  eligible (whitelist s) (SharedState.GetLdnPid (shared_state s)) pid g = false ->
  BsdService.ShouldMitm pid g s = Some (false, s).
Proof.
  unfold eligible, BsdService.ShouldMitm. intros H.
  destruct (g =? OUR_PROGRAM_ID); [done|]. destruct (Z.ltb_spec g 0x0100000000000000); [done|].
  destruct (g =? ALBUM_PROGRAM_ID); [done|].
  rewrite (proj2 (Z.leb_le _ _)) in H by lia. cbn [negb andb] in H.
  unfold mbind, M_bind, gets. cbv beta iota. remember (SharedState.GetLdnPid (shared_state s)) as l eqn:El. clear El.
  destruct (Z.eqb l 0); cbn [negb andb].
  - by rewrite H.
  - rewrite (Z.eqb_sym l pid), H. done.
Qed.

Lemma ShouldMitm_eligible pid g s :
  eligible (whitelist s) (SharedState.GetLdnPid (shared_state s)) pid g = true ->
  BsdService.ShouldMitm pid g s = count_session pid g s /\ g <> 0.
Proof.
  unfold eligible, BsdService.ShouldMitm. rewrite !andb_true_iff. intros [[[H1%Z.leb_le H2] H3] H4].
  apply negb_true_iff in H2, H3. rewrite H2, H3. destruct (Z.ltb_spec g 0x0100000000000000); [lia|].
  split; [|lia]. unfold mbind, M_bind, gets. cbv beta iota.
  remember (SharedState.GetLdnPid (shared_state s)) as l eqn:El. clear El.
  destruct (Z.eqb l 0); cbn [negb andb].
  - by rewrite H4.
  - rewrite Z.eqb_sym in H4. rewrite H4. cbn [negb]. by rewrite andb_false_r.
Qed.

Lemma count_session_spec pid g n last s :
  counts n last s -> 0 <= n < 2 ^ 32 - 1 -> g <> 0 ->
  exists s', count_session pid g s = Some (bool_decide (last !! pid = Some g), s')
    /\ counts (n + 1) (<[pid := g]> last) s'
    /\ shared_state s' = shared_state s /\ whitelist s' = whitelist s.
Proof.
  intros [Hp Hnz Hc] Hn Hg. unfold count_session. rewrite Hp. pose proof (Hc pid) as Hpid.
  set (cs := if negb (default 0 (last !! pid) =? 0) && negb (default 0 (last !! pid) =? g)
             then <[pid := 0]> (g_mitm_pid_count s) else g_mitm_pid_count s).
  assert (exists c, default 0 (cs !! pid) = c /\ 0 <= c <= n
    /\ (c <> 0 <-> last !! pid = Some g)) as (c & Hcs & Hcr & Hcg).
  { unfold cs. destruct (last !! pid) as [g'|] eqn:Hl; cbn [default from_option].
    - pose proof (Hnz pid g' Hl). change (id g') with g'.
      rewrite (proj2 (Z.eqb_neq g' 0)) by done. cbn [negb andb].
      destruct (Z.eqb_spec g' g) as [->|Hne]; cbn [negb].
      + destruct (g_mitm_pid_count s !! pid) as [c|]; [|done]. exists c. cbn.
        split_and!; [done|lia|lia|split; [done|lia]].
      + exists 0. rewrite lookup_insert_eq. cbn. split_and!; [done|lia|lia|].
        split; [lia|]. intros [= ->]. done.
    - cbn [Z.eqb negb andb]. destruct (g_mitm_pid_count s !! pid) as [c|]; [by destruct Hpid as [[? ?] _]|].
      exists 0. cbn. split_and!; [done|lia|lia|]. split; [lia|done]. }
  rewrite Hcs. assert (u32 (c + 1) = c + 1) as -> by (apply Z.mod_small; lia).
  assert (negb (c + 1 =? 1) = bool_decide (last !! pid = Some g)) as ->.
  { destruct (Z.eqb_spec (c + 1) 1); cbn [negb]; symmetry.
    - apply bool_decide_eq_false. intros H. apply Hcg in H. lia.
    - apply bool_decide_eq_true. apply Hcg. lia. }
  eexists. split; [reflexivity|]. split; [split|by split]; cbn.
  - reflexivity.
  - intros pid' g'. destruct (decide (pid = pid')) as [<-|Hne].
    + rewrite lookup_insert_eq. by intros [= <-].
    + rewrite lookup_insert_ne by done. apply Hnz.
  - intros pid'. destruct (decide (pid = pid')) as [<-|Hne].
    + rewrite !lookup_insert_eq. split; [by eexists|lia].
    + rewrite !lookup_insert_ne by done. unfold cs.
      specialize (Hc pid'). destruct (_ && _); rewrite ?lookup_insert_ne by done;
        (destruct (g_mitm_pid_count s !! pid') as [c'|]; [|done]); (split; [apply Hc|lia]).
Qed.

Lemma counts_shared n last s sh :
  counts n last s -> counts n last (s <| shared_state := sh |>).
Proof. by intros []. Qed.

(** C15: which socket sessions are intercepted: over any history of sessions that
    any processes open, one is intercepted exactly when it is eligible - a game
    of the list while nobody uses the wireless service, the process that uses it
    otherwise, never a system program or the album - and the last eligible
    session of that process was one of the same program.  So the first session
    of a program is always left alone, also of one that follows another in the
    same process, and no later one is (for fewer than 2^32 sessions).  The
    comments on both [ShouldMitm] declarations say that every process is always
    intercepted; the code does not do that. *)
Theorem interception_follows_history es s n :
  0 <= n -> n + zlen es < 2 ^ 32 - 1 -> counts n (s_pid_program_ids s) s ->
  exists s', handle_all es s
    = Some (reference (whitelist s) es (SharedState.GetLdnPid (shared_state s)) (s_pid_program_ids s), s').
Proof.
  intros Hn Hlen Hc. set (last := s_pid_program_ids s) in *. clearbody last.
  revert n last s Hn Hlen Hc. induction es as [|e es IH]; intros n last s Hn Hlen Hc; [by exists s|].
  rewrite zlen_cons in Hlen. pose proof (zlen_nonneg es). cbn [handle_all].
  destruct e as [pid g|pid| |pid g]; cbn [handle reference].
  - set (s1 := if ShouldMitm g then _ else s).
    assert (counts n last s1) as Hc1 by (unfold s1; destruct (ShouldMitm g); [by apply counts_shared|done]).
    destruct (IH n last s1 Hn ltac:(lia) Hc1) as (s' & H'). exists s'. cbn [mbind option_bind].
    rewrite H'. cbn [mbind option_bind app]. unfold s1. by destruct (ShouldMitm g).
  - destruct (IH n last _ Hn ltac:(lia) (counts_shared n last s (SharedState.SetLdnPid pid
      (SharedState.SetGameActive true pid (shared_state s))) Hc)) as (s' & H').
    exists s'. cbn [mbind option_bind]. by rewrite H'.
  - destruct (IH n last _ Hn ltac:(lia) (counts_shared n last s (SharedState.SetLdnPid 0
      (SharedState.SetGameActive false 0 (shared_state s))) Hc)) as (s' & H').
    exists s'. cbn [mbind option_bind]. by rewrite H'.
  - set (l := SharedState.GetLdnPid (shared_state s)).
    destruct (eligible (whitelist s) l pid g) eqn:He.
    + destruct (ShouldMitm_eligible pid g s He) as [-> Hg].
      destruct (count_session_spec pid g n last s Hc ltac:(lia) Hg) as (s1 & -> & Hc1 & Hsh & Hw).
      cbn [mbind option_bind].
      destruct (IH (n + 1) _ s1 ltac:(lia) ltac:(lia) Hc1) as (s' & H'). exists s'.
      rewrite H', Hsh, Hw. done.
    + rewrite (ShouldMitm_ineligible pid g s He). cbn [mbind option_bind].
      destruct (IH n last s Hn ltac:(lia) Hc) as (s' & H'). exists s'. by rewrite H'.
Qed.

(** A game opens two socket sessions, uses the wireless service and opens a
    third one, while another game is refused until the first has left. *)
Definition history : list Event :=
  [OpenBsd 80 0x0100152000022000; OpenBsd 80 0x0100152000022000; OpenLdn 80 0x0100152000022000;
   EnterLdn 80; OpenBsd 80 0x0100152000022000; OpenBsd 81 0x010003f003a34000;
   OpenBsd 81 0x010003f003a34000; LeaveLdn; OpenBsd 81 0x010003f003a34000;
   OpenBsd 81 0x010003f003a34000].

(** The service before its first session, with both games on the list. *)
Definition fresh_bsd : Bsd :=
  BsdForward.sample_bsd
    <| g_mitm_pid_count := ∅ |>
    <| whitelist := {| GameWhitelist.g_whitelist := [0x010003f003a34000; 0x0100152000022000];
                       GameWhitelist.g_whitelist_loaded := true |} |>.

Example history_answers :
  reference (whitelist fresh_bsd) history 0 ∅ = [false; true; true; false; false; false; true].
Proof. reflexivity. Qed.

Lemma interception_follows_history_witness :
  exists s', handle_all history fresh_bsd
    = Some (reference (whitelist fresh_bsd) history 0 ∅, s').
Proof.
  apply (interception_follows_history history fresh_bsd 0).
  - lia.
  - vm_compute. reflexivity.
  - split; [reflexivity|intros pid g H|intros pid; exact (lookup_empty (A := Z) pid)].
    change (s_pid_program_ids fresh_bsd) with (∅ : gmap Z Z) in H. by rewrite lookup_empty in H.
Defined.
